(* ===== verification/_CoqProject ===== *)
-Q . S2P
Prelude.v
Chain.v
Packer.v
Packet.v
Event.v
SoftTime.v
SoftTimer.v
IotlabPacket.v
IotlabTime.v
NodeUid.v
Dragon4.v
Dragon4Spec.v
Printf.v
Scanf.v
PrintfSpec.v
ScanfSpec.v
Shell.v
ShellSpec.v
Eeprom.v
Oml.v
OmlSpec.v
Fs.v
FsSpec.v
Fat32.v
FatFile.v
FatSpec.v
FatFileSpec.v
FatDirSpec.v
FatCache.v
FatSession.v
FatDelete.v
FatDate.v
Scsi.v
ScsiSpec.v
ScsiSd.v
Dfu.v
Msc.v
MscSpec.v
MscRead.v
MscWrite.v
MscCommands.v
MmapFs.v
MmapFsSpec.v
CdcAcm.v
Hid.v
Max6x.v
Phy.v
PhyPower.v
PhyRf2xx.v
PhyRf2xxSpec.v
PhyRf2xxRun.v
Zep.v
IotlabSerial.v
CnLogger.v
CnMeasPkt.v
CnMeasFlow.v
CnState.v
CnRadio.v
CnConsumption.v
CnControl.v
CnSpec.v
CnExample.v
CnRadioSpec.v
CnSniffSpec.v
CnPowerSpec.v
CnConsoSpec.v
CnTimeSpec.v
I2cSlave.v
I2cSpec.v
CnI2c.v
CnI2cSpec.v
Csma.v
TdmaPacket.v
TdmaState.v
TdmaSlot.v
TdmaSched.v
TdmaCoord.v
TdmaNode.v
