(* ===== verification/Prelude.v ===== *)
(** * Verification of the OpenLab firmware libraries

    OpenLab is the firmware of the sensor nodes and control nodes of the IoT-LAB
    testbed: C on FreeRTOS, on small ARM microcontrollers. This development
    models the libraries that carry its own logic and proves what makes them
    correct. The paths below are relative to [src/openlab-master].

    ** The program and its parts

    - [lib/] holds the services every application uses: byte packing
      ([packer.h]), a pool of packets and a packet FIFO ([packet/]), two event
      queues with their tasks ([event/]), software timers on a 16-bit hardware
      timer ([softtimer/]), formatted output and input ([printf/], [scanf/]), a shell
      on the serial line ([shell/]) and a FAT32 file system on an SD card behind a
      cache of pages ([fat32/]), an EEPROM ([eeprom/]), a library that sends
      measures on the serial line ([oml/]) and the USB classes ([usb/]): mass storage
      with its SCSI commands and two kinds of units, a serial line, a mouse and a
      keyboard.
    - [net/] holds the network: the radio interface ([phy.h]), its implementation
      on the RF2xx chips ([phy_rf2xx/]) and two MAC layers over it, CSMA
      ([mac_csma/]) and TDMA ([mac_tdma/]). They are driven by software timers and
      radio interrupts, and defer work to the event queues.
    - [appli/iotlab/] holds the control node: priority queues of packets
      ([iotlab_packet.c]), the serial link to the gateway ([iotlab_serial.c]), the
      unix time of the node ([iotlab_time.c]), the table of node identifiers, the
      ZEP encapsulation of sniffed frames, the packets of measures
      ([cn_meas_pkt.c]) and the commands of the gateway ([cn_radio.c],
      [cn_consumption.c], [cn_control.c], [cn_event.c], [cn_alim.c]). A command
      checks its arguments and posts an event, which changes the state. The open node
      asks the control node for the time over I2C ([periph/iotlab_i2c], [cn_i2c.c]).
    - [periph/ublox_max6/] is the GPS receiver, on an I2C bus: the messages it is
      configured with, and a decoder of those it sends.

    ** The files

    - [Prelude] (this file): machine integers, the error type [res], the state and
      error monad [M] and its tactics [mrun] and [mstep], semaphores, checked
      arrays, parts of pages, byte order, the options a platform builds the sources with (class
      [Build], with an instance for the defaults and one for the control node), and
      the lemmas the components share.
    - [Chain]: NULL-terminated lists threaded through a store of objects, for the
      class [Linked] of objects with a [next] field.
    - [Packer]: [lib/packer.h]. [Packet]: [lib/packet]. [Event]: [lib/event].
      [SoftTime]: the clock ([soft_timer_delay.c]). [SoftTimer]: the timers
      ([soft_timer_core.c]).
    - [lib/printf] and [lib/scanf]: [Dragon4] (digits of floats, [printf_float.c]) with
      [Dragon4Spec], [Printf] with [PrintfSpec], [Scanf] with [ScanfSpec].
      [lib/shell/shell.c]: [Shell] with [ShellSpec]. [lib/eeprom]: [Eeprom].
      [lib/oml]: [Oml] with [OmlSpec].
    - [lib/fat32]: [Fs] ([fs.c], the page cache) with [FsSpec]; [Fat32] ([fat32.c],
      [buf_util.c]) and [FatFile] ([file.c]) over the class [PageStore]. What they need
      of the pages is the class [PageStoreSpec] of [FatSpec], with the table of clusters
      and its allocator; [FatFileSpec] has the content of files, [FatDirSpec] the
      directory; [FatCache] makes the cache an instance of the class; [FatSession] has
      whole sessions, [FatDelete] deletion and the end of files, [FatDate] the dates.
    - [lib/usb]: [Scsi] ([scsi.c]) with [ScsiSpec], which has the class [BlockUnit] of
      what a unit of sectors promises; [ScsiSd] ([scsi_sd.c]) makes the card an instance
      of it. [Msc] ([msc.c]) with [MscSpec] (the turns of a transfer to the host),
      [MscRead] and [MscWrite] (whole transfers, over any [BlockUnit]) and [MscCommands]
      (commands without data). [MmapFs] ([scsi_mmapfs.c]) with [MmapFsSpec]. [Dfu]
      ([dfu.c]), [CdcAcm] ([cdc_acm.c]), [Hid] ([hid.c], [hid_kbd.c], [usb_core.c]).
    - [Max6x]: [periph/ublox_max6/max6x.c].
    - [IotlabPacket], [IotlabSerial], [IotlabTime], [NodeUid], [Zep]: the files of
      the same names under [appli/iotlab/lib].
    - [appli/iotlab/control_node/control_node/]: [CnMeasPkt] ([cn_meas_pkt.c]) and
      [CnMeasFlow], what recording a measure does to the pools and queues; [CnState],
      the state of the node; [CnRadio] ([cn_radio.c]), [CnConsumption]
      ([cn_consumption.c] and [lib/fiteco/fiteco_lib_gwt.c]), [CnControl]
      ([cn_control.c], [cn_event.c], [cn_alim.c], [cn_autotest.c], [main.c]). Their
      theorems are in [CnRadioSpec], [CnSniffSpec], [CnPowerSpec], [CnConsoSpec] and
      [CnTimeSpec], over the invariant and lemmas of [CnSpec]; [CnExample] is a
      concrete node. [I2cSlave] with [I2cSpec] is the I2C link
      ([periph/iotlab_i2c]), [CnI2c] ([cn_i2c.c]) with [CnI2cSpec] its requests.
      [CnLogger] ([cn_logger.c], [cn_logger.h]) has the log messages.
    - [Phy]: the types of [net/phy.h]. [PhyPower] and [PhyRf2xx]:
      [net/phy_rf2xx/phy_rf2xx.c], with its invariant and the effect of each
      operation in [PhyRf2xxSpec] and its theorems in [PhyRf2xxRun].
    - [Csma]: [net/mac_csma/mac_csma.c].
    - [net/mac_tdma/]: [TdmaPacket] ([tdma_packet.h]), [TdmaState] ([tdma_types.h],
      [tdma_config.h], [frame.c], [tdma.c]), [TdmaSlot] and [TdmaSched] ([slot.c]
      and the handlers of the roles it calls), [TdmaCoord] ([coord.c]), [TdmaNode]
      ([node.c], [data.c]).

    Each file holds one module of its own name, with the state as a record, one
    definition per C function under its C name (a leading underscore becomes a
    trailing one, or is dropped), then the invariant, the lemmas and the theorems.

    ** How the C code is modelled

    - An integer is a [Z]. Where the C type has a width the conversions [u8], [u16],
      [u32], [u64], [i32] are written out where the value can leave its range.
    - A pointer to an object of a pool is an address ([loc], [ptr] with NULL) in a
      store, a finite map; a pointer into a buffer is an index. Objects are shared:
      the FIFO of packets, the timer list and the queues mutate the same store.
    - A function that reads or writes global state is a computation of [M]: it
      returns a value and the new state, or an error: [EUndef] for an undefined
      access (NULL, out of range), [EHalt] where the code halts the node, [EBlock]
      where a task waits for ever, [EFuel] for a loop without enough fuel. A theorem
      of the form [f s = Ok (r, s')] therefore says that the function returns,
      without undefined access, halt or deadlock.
    - Mutexes and semaphores are part of the state. A section under a mutex runs as
      a whole; where a task waits with the mutex released ([fifo_wait] in
      [IotlabPacket]) the operations of the other tasks are an explicit argument.
    - Calls to what is not modelled (radio, hardware timers, callbacks of the
      application) are recorded in order in a list [fx] of the state; what the code
      reads from them (the clock, results of the radio, random numbers) comes from
      oracles, functions of the number of readings so far, over which the theorems
      quantify.
    - FreeRTOS queues and semaphores are modelled by their documented behaviour.
    - The USB driver is the list of its calls by the classes; the packet that the host
      sent is part of the state. The host acts in turns: an interrupt of an endpoint,
      then the event that it posts. What a variable holds that the code does not
      initialise is an oracle ([MscEnv]). On the serial line the endpoint to the host is
      modelled too ([drivers/stm32/usb.c]): it has one packet, which the next one replaces.
    - The SD card driver is an oracle of results and transfer errors over a card, a
      function from pages to bytes; the task that writes the cache back has two moments,
      the start and the end of a transfer, between which the callers run.

    Loops that run over a list, a range or a fixed count are structural. Fuel is
    used for walks along pointers (the size of the store plus one, enough for a
    list without cycle), the search for a free slot (the number of slots), the
    binary search (the size of its range), the search for the next radio channel
    (more than the 16 channels of the band), the busy waits of [soft_timer_delay]
    and of the radio, and the loop of [process]; for the last three the bound is in
    the theorem, which shows that the loop ends within it, or what happens when it
    does not. The recursions of [file_write] and [file_read] go over the sectors of one
    call, at most 129 ([FILE_FUEL]); the walk of a directory and of a chain of clusters
    has the number of clusters as fuel, and the theorems show that one, or the length of
    the chain, is enough; a caller of the cache lets the writing task run three times at
    most ([WAITS]); 40 is more than the periods of years that fit in 32 bits
    ([DATE_FUEL]).

    ** What the theorems show

    - TDMA: each slot is processed at its time and the next one programmed
      ([handle_slot_spec]); the coordinator gives out free slots only and announces
      them ([coord_assoc_spec], [beacon_tick_spec]); a node takes over the
      announced table ([node_beacon_spec]); no frame is lost or duplicated by
      sending ([mac_tdma_send_spec]) or in the pool ([tdma_frame_pool_spec]); the
      count of own slots agrees with the table ([tdma_slot_configure_spec]); the
      slots-frame starts aligned ([tdma_slot_start_spec]); headers round trip
      ([tdma_header_roundtrip]).
    - Timers: the list stays sorted and every operation changes the one timer
      asked for ([soft_timer_start_spec] and the like); [process] terminates, fires
      each due timer and reschedules the periodic ones ([process_spec]); the clock
      is exact across overflows ([soft_timer_time_exact],
      [soft_timer_convert_time_exact], [soft_timer_a_is_before_b_order]).
    - Radio: whatever the order of calls, interrupts and events, the state of the
      driver agrees with what it asked of the chip, and every operation returns but in
      three cases that are told with their failure ([phy_rf2xx_safe]); these happen
      ([dig2_halts], [late_rx_end_halts]). A reception delivers the frame of the chip once
      ([phy_reception]), a transmission writes the packet and ends in idle
      ([phy_tx_spec]); the errors of reception and of the energy measures are those
      of [phy_rx_spec] and [phy_measure_spec]; a power is set to the closest level
      ([phy_convert_power_closest]).
    - Packets and queues: the pool implements the abstract set of indices in use
      ([packet_alloc_refines], [packet_free_refines]), the FIFO an abstract queue
      ([packet_fifo_refines]), the priority queues a stable sorted insertion
      ([iotlab_packet_fifo_prio_append_spec]), with waiting readers
      ([iotlab_packet_fifo_get_waits]) and allocation undone by free
      ([iotlab_packet_alloc_free]); overlapping moves keep the payload
      ([packet_move_data_right_spec]). Events run in order ([event_task_fifo]) and
      a full queue halts the node, or refuses the event in the builds that ask for
      it ([event_post_bounded]).
    - Serial link and measures: what the sender writes the receiver reads
      ([iotlab_serial_receives_frame]), every command is answered
      ([packet_received_answers]), the transmission task sends and recycles packets
      ([iotlab_serial_send_frame_spec], [iotlab_serial_tx_task_spec]); measures
      never overflow their packet ([cn_meas_pkt_add_measure_spec],
      [cn_meas_pkt_lazy_alloc_spec]).
    - Time, identifiers, formats: exactness of the conversions
      ([get_extended_time_exact], [iotlab_time_set_time_spec]), the binary search
      against the whole table ([node_from_uid_spec]), the bytes of a ZEP frame
      ([to_zep_layout]).
    - Control node: the two supplies of the open node are never connected together
      ([power_exclusive], [alim_commands_spec]); polling visits the channels asked
      for in turn and records every energy ([channel_rotation], [poll_time_spec],
      [polling_starts]); sniffed frames are sent in ZEP format ([sniff_frame_spec]);
      a consumption command and a new time take effect after the measures made
      before them were handed over ([consumption_config_spec], [set_time_spec]);
      samples and pulses are recorded with their time ([consumption_sample_spec],
      [pps_event_spec]); the commands refuse bad arguments ([radio_polling_spec],
      [radio_sniffer_spec]), though not without effect ([refused_polling_hangs]); a log
      message is queued whole or cut to a frame ([cn_logger_sends]).
    - I2C link: no sequence of bus events leaves the buffers or blocks the interrupt
      ([i2c_link_safe]), the three requests give the node the time, its identifier and
      the events ([i2c_requests]), though starting the open node twice blocks the link
      ([i2c_restart_hangs]).
    - Formatted output and input: the text written is that of the format, cut to the
      buffer ([snprintf_spec]), reading it gives back the numbers ([sscanf_snprintf]);
      the digits of a float from 1 to 2^23 are within half a unit of its last binary
      place ([dragon4_correct]). The
      shell cuts a line into words and calls the command ([shell_line_spec]); the lines
      that it cannot take are those of [shell_line_errors].
    - FAT32: the cache is transparent, whatever the order of the calls and of the writing
      task ([cache_refines]), on a card that does not fail ([failed_read_cached] shows
      what a failure leaves); what a file is written, it gives back, and the other files
      are untouched ([file_roundtrip]); deleting frees the chain and nothing else
      ([delete_spec]); the date is that of the calendar ([file_update_spec]).
    - USB: a read gives the host the sectors of the unit in order, then the status
      ([read10_transfer]); a write of at most 255 sectors stores them
      ([write10_transfer]), and the next one is lost ([write_256th_lost]); a command
      without data is answered once ([command_without_data]). A host that
      follows FAT16 finds the entry of each file on the disk of files, and reads those of
      one cluster; what it gets of longer ones is told too ([file_found]). The serial line
      keeps its bytes in order and loses the packets that are overwritten only, none when
      the application waits for the endpoint ([cdc_stream]).
    - EEPROM: bytes, half words and words are written anywhere as if byte by byte, by
      changes of aligned words, and read back ([eeprom_internal_spec], [read_written],
      [read_kept]).
    - Measurement library: within its limits, a receiver finds in the frames the names and
      values the application gave ([measures_received]); a frame never leaves its buffer
      ([write_bytes_raw] and the like).
    - GPS receiver: of a stream of messages, intact or not, the handler gets the intact
      navigation messages in order ([gps_stream]), a changed byte or two exchanged ones are seen
      ([changed_byte_refused], [exchanged_bytes_refused]), what is sent is a frame of the
      same form ([send_msg_spec]), and the start is that of [init_spec].
    - CSMA: the frame sent is the frame delivered to the node addressed, and to no
      other ([mac_csma_data_send_spec], [csma_process_rx_spec]).

    Some lemmas state a defect of the code: [char_rx_overflow] (a length byte above
    the size of a packet writes past the buffer), [node_from_uid_underflow]
    (identifiers below the first one), [iotlab_time_usec_bound] (one million
    microseconds are not carried), [short_frame_length] (frames of one byte),
    [rx_too_late_window] (a timeout before the start of a reception), [dig2_halts],
    [stale_rx_end] (an event of the reception before),
    [refused_polling_hangs], and the last cases of [tdma_slot_start_spec] (signed
    comparison of times), [radio_polling_spec] (the old period stays in part) and
    [sniff_frame_spec] (long frames in short packets); in the formatted output
    [sub_borrow], [mul10_lost], [dragon4_shift] and [dragon4_inexact] (errors in the long
    arithmetic), [scani_overflow]; in the file system [failed_read_cached],
    [failed_write_lost], [write_overtakes_transfer], [write_page_zero], [read_past_end],
    [short_extension_lost], [delete_empty_file], [cluster_out_of_volume] and
    [leap_2100]; in the measurement library [points_exhausted], [long_name_cut],
    [string_value_spec], [omlc_process_silent]; in the EEPROM [write_uint16_outside]; in the USB
    classes [write_256th_lost], [unanswered_status], [beyond_wraps],
    [packet_during_data_in_halts], [fat_self_loop], [fat_last_cluster],
    [fat_half_sectors], [data_wraps], [packet_overwritten], [send_race], [line_coding_overread],
    [digits_wrong] and [get_report_overread]; in the GPS receiver [empty_message_overruns],
    [hidden_frame], [message_twice] and [frame_overrun].

    ** What is not modelled

    The random generator ([lib/random], calls of the C library), the priorities of the
    tasks ([cn_priority.c], constants of the scheduler), the pins of the GPIO events
    ([iotlab_gpio.c], calls of drivers), the USB descriptors (constant tables for the
    driver), the test functions of [lib/usb/storage.c] and the earlier versions of the
    control node have no behaviour of their own to state. The mass storage is modelled
    with the turns of one host: the interrupts of an endpoint do not come while the
    event handler runs. In the model of the file system the
    memory of a file descriptor is always found.
    The time stamp of a GPS message ([max6x_utils.c]) is a call of the C library.
    Register-level drivers ([drivers/], but for what is said above, the rest of [periph/], [platform/]) are below the model;
    FreeRTOS and lwIP are third-party code; applications, examples and tests are
    clients of the libraries. *)

From stdpp Require Import base numbers gmap list.
From Stdlib Require Import ZArith Lia.

#[global] Open Scope Z_scope.

(** ** Machine integers

    A C integer is a [Z]; the conversions below are the ones the compiler
    inserts (modulo reduction for the unsigned types, two's complement for
    the signed ones). *)

Definition u8 (z : Z) : Z := z mod 256.
Definition u16 (z : Z) : Z := z mod 65536.
Definition u32 (z : Z) : Z := z mod 4294967296.
Definition u64 (z : Z) : Z := z mod 18446744073709551616.
Definition i8 (z : Z) : Z := (z + 128) mod 256 - 128.
Definition i32 (z : Z) : Z := (z + 2147483648) mod 4294967296 - 2147483648.

(** Truth value of a C integer and the integer of a truth value. *)
Definition ctrue (z : Z) : bool := negb (z =? 0).
Definition cbool (b : bool) : Z := if b then 1 else 0.

Abbreviation is_u8 z := (0 <= z < 256).
Abbreviation is_u16 z := (0 <= z < 65536).
Abbreviation is_u32 z := (0 <= z < 4294967296).
Abbreviation is_u64 z := (0 <= z < 18446744073709551616).

(** [mlia] is [lia] with the conversions unfolded and the divisions by
    constants turned into linear equations. *)
Ltac wunfold := unfold u8, u16, u32, u64, i8, i32 in *.
Ltac mlia := wunfold; Z.to_euclidean_division_equations; lia.

Create HintDb mach.
Create Rewrite HintDb mach_rw.

Lemma u8_range z : is_u8 (u8 z). Proof. mlia. Qed.
Lemma u16_range z : is_u16 (u16 z). Proof. mlia. Qed.
Lemma u32_range z : is_u32 (u32 z). Proof. mlia. Qed.
Lemma u64_range z : is_u64 (u64 z). Proof. mlia. Qed.
Lemma u8_id z : is_u8 z -> u8 z = z. Proof. mlia. Qed.
Lemma u16_id z : is_u16 z -> u16 z = z. Proof. mlia. Qed.
Lemma u32_id z : is_u32 z -> u32 z = z. Proof. mlia. Qed.
Lemma u64_id z : is_u64 z -> u64 z = z. Proof. mlia. Qed.
Lemma i32_range z : -2147483648 <= i32 z < 2147483648. Proof. mlia. Qed.
Lemma i32_id z : -2147483648 <= z < 2147483648 -> i32 z = z. Proof. mlia. Qed.

#[export] Hint Resolve u8_range u16_range u32_range u64_range i32_range : mach.
#[export] Hint Rewrite u8_id u16_id u32_id u64_id i32_id using lia : mach_rw.

(** *** Bit fields as division and remainder *)

Lemma land_ones_mod z n : 0 <= n -> Z.land z (Z.ones n) = z mod 2 ^ n.
Proof. apply Z.land_ones. Qed.

Lemma land_255 z : Z.land z 255 = z mod 256.
Proof. apply (Z.land_ones z 8). lia. Qed.
Lemma land_65535 z : Z.land z 65535 = z mod 65536.
Proof. apply (Z.land_ones z 16). lia. Qed.
Lemma shiftr_8 z : Z.shiftr z 8 = z / 256.
Proof. apply (Z.shiftr_div_pow2 z 8). lia. Qed.
Lemma shiftr_16 z : Z.shiftr z 16 = z / 65536.
Proof. apply (Z.shiftr_div_pow2 z 16). lia. Qed.
Lemma shiftr_24 z : Z.shiftr z 24 = z / 16777216.
Proof. apply (Z.shiftr_div_pow2 z 24). lia. Qed.
Lemma shiftl_8 z : Z.shiftl z 8 = z * 256.
Proof. apply (Z.shiftl_mul_pow2 z 8). lia. Qed.
Lemma shiftl_16 z : Z.shiftl z 16 = z * 65536.
Proof. apply (Z.shiftl_mul_pow2 z 16). lia. Qed.
Lemma shiftl_24 z : Z.shiftl z 24 = z * 16777216.
Proof. apply (Z.shiftl_mul_pow2 z 24). lia. Qed.

Create Rewrite HintDb bits.
#[export] Hint Rewrite land_255 land_65535 shiftr_8 shiftr_16 shiftr_24
  shiftl_8 shiftl_16 shiftl_24 : bits.

(** Selecting one byte in place. *)
Lemma land_mask z n : 0 <= n -> Z.land z (Z.shiftl (Z.ones 8) n) = z / 2 ^ n mod 256 * 2 ^ n.
Proof.
  intros Hn.
  rewrite <- (Z.shiftl_mul_pow2 _ n), <- (Z.shiftr_div_pow2 _ n) by lia.
  rewrite <- (Z.land_ones _ 8) by lia.
  apply Z.bits_inj'. intros i Hi. rewrite Z.land_spec.
  destruct (decide (i < n)).
  - rewrite !Z.shiftl_spec_low by lia. apply andb_false_r.
  - rewrite !Z.shiftl_spec by lia. rewrite Z.land_spec, Z.shiftr_spec by lia.
    by replace (i - n + n) with i by lia.
Qed.

(** Two operands with disjoint bits: the bitwise or is the sum. *)
Lemma lor_disjoint_add lo hi n :
  0 <= n -> 0 <= lo < 2 ^ n -> Z.lor (hi * 2 ^ n) lo = hi * 2 ^ n + lo.
Proof.
  intros Hn Hlo. rewrite Z.add_comm, (Z.lor_comm _ lo).
  rewrite <- Z.lxor_lor, Z.add_nocarry_lxor; [done| |].
  all: apply Z.bits_inj'; intros i Hi; rewrite Z.land_spec, Z.bits_0.
  all: destruct (decide (i < n)).
  - rewrite Z.mul_pow2_bits_low by lia. by rewrite andb_false_r.
  - rewrite <- (Z.mod_small lo (2 ^ n)) by lia.
    by rewrite Z.mod_pow2_bits_high by lia.
  - rewrite Z.mul_pow2_bits_low by lia. by rewrite andb_false_r.
  - rewrite <- (Z.mod_small lo (2 ^ n)) by lia.
    by rewrite Z.mod_pow2_bits_high by lia.
Qed.

Lemma land_byte1 z : Z.land z 0xFF00 = z / 256 mod 256 * 256.
Proof. apply (land_mask z 8). lia. Qed.
Lemma land_byte2 z : Z.land z 0xFF0000 = z / 65536 mod 256 * 65536.
Proof. apply (land_mask z 16). lia. Qed.
Lemma land_byte3 z : Z.land z 0xFF000000 = z / 16777216 mod 256 * 16777216.
Proof. apply (land_mask z 24). lia. Qed.
#[export] Hint Rewrite land_byte1 land_byte2 land_byte3 : bits.

Lemma lor_byte1 hi lo : 0 <= lo < 256 -> Z.lor lo (hi * 256) = hi * 256 + lo.
Proof. rewrite Z.lor_comm. apply (lor_disjoint_add lo hi 8). lia. Qed.
Lemma lor_byte2 hi lo : 0 <= lo < 65536 -> Z.lor lo (hi * 65536) = hi * 65536 + lo.
Proof. rewrite Z.lor_comm. apply (lor_disjoint_add lo hi 16). lia. Qed.
Lemma lor_byte3 hi lo : 0 <= lo < 16777216 -> Z.lor lo (hi * 16777216) = hi * 16777216 + lo.
Proof. rewrite Z.lor_comm. apply (lor_disjoint_add lo hi 24). lia. Qed.

(** *** Single bits of a word *)

Lemma land_bit w k : 0 <= k -> Z.land w (2 ^ k) = if Z.testbit w k then 2 ^ k else 0.
Proof.
  intros Hk. apply Z.bits_inj'. intros i Hi. rewrite Z.land_spec, Z.pow2_bits_eqb by lia.
  destruct (Z.eqb_spec k i) as [->|Hne].
  - destruct (Z.testbit w i) eqn:E; rewrite ?Z.pow2_bits_eqb, ?Z.bits_0 by lia.
    + by rewrite Z.eqb_refl.
    + done.
  - rewrite andb_false_r. destruct (Z.testbit w k); [|by rewrite Z.bits_0].
    rewrite Z.pow2_bits_eqb by lia. symmetry. by apply Z.eqb_neq.
Qed.

Lemma lor_bit w k i : 0 <= k -> 0 <= i ->
  Z.testbit (Z.lor w (2 ^ k)) i = (i =? k) || Z.testbit w i.
Proof.
  intros Hk Hi. rewrite Z.lor_spec, Z.pow2_bits_eqb by lia.
  rewrite (Z.eqb_sym k i). apply orb_comm.
Qed.

Lemma u32_testbit z i : 0 <= i -> Z.testbit (u32 z) i = (i <? 32) && Z.testbit z i.
Proof.
  intros Hi. unfold u32. change 4294967296 with (2 ^ 32).
  destruct (Z.ltb_spec i 32).
  - by rewrite Z.mod_pow2_bits_low by lia.
  - by rewrite Z.mod_pow2_bits_high by lia.
Qed.

Lemma clear_bit w k i : is_u32 w -> 0 <= k < 32 -> 0 <= i ->
  Z.testbit (Z.land w (u32 (Z.lnot (2 ^ k)))) i = negb (i =? k) && Z.testbit w i.
Proof.
  intros Hw Hk Hi. rewrite Z.land_spec, u32_testbit, Z.lnot_spec, Z.pow2_bits_eqb by lia.
  rewrite (Z.eqb_sym k i). destruct (Z.ltb_spec i 32); simpl; [apply andb_comm|].
  replace (Z.testbit w i) with false; [by rewrite !andb_false_r|].
  rewrite <- (u32_id w) by done. rewrite u32_testbit by lia.
  destruct (Z.ltb_spec i 32); [lia|done].
Qed.

Lemma lor_u32 a b : is_u32 a -> is_u32 b -> is_u32 (Z.lor a b).
Proof.
  intros Ha Hb. assert (Z.lor a b = u32 (Z.lor a b)) as ->; [|apply u32_range].
  apply Z.bits_inj'. intros i Hi. rewrite u32_testbit, Z.lor_spec by lia.
  rewrite <- (u32_id a), <- (u32_id b) by done. rewrite !u32_testbit by lia.
  by destruct (i <? 32).
Qed.

Lemma land_u32 a b : is_u32 a -> is_u32 (Z.land a b).
Proof.
  intros Ha. assert (Z.land a b = u32 (Z.land a b)) as ->; [|apply u32_range].
  apply Z.bits_inj'. intros i Hi. rewrite u32_testbit, Z.land_spec by lia.
  rewrite <- (u32_id a) by done. rewrite !u32_testbit by lia.
  by destruct (i <? 32).
Qed.

(** ** Build options

    The sizes and the behaviour on a full event queue are options of the build:
    the defaults of [lib/packet.h] and [lib/event/event.c], or the values that
    [platform/iotlab-cn/include.cmake] sets for the control node. *)

Class Build := {
  PACKET_MAX_SIZE : Z;
  EVENT_QUEUE_LENGTH : nat;
  EVENT_HALT_ON_POST_ERROR : bool;
  packet_max_size_range : 128 <= PACKET_MAX_SIZE <= 256;
}.

Definition default_build : Build.
Proof.
  refine {| PACKET_MAX_SIZE := 128; EVENT_QUEUE_LENGTH := 12; EVENT_HALT_ON_POST_ERROR := true |}.
  abstract lia.
Defined.
Definition iotlab_cn_build : Build.
Proof.
  refine {| PACKET_MAX_SIZE := 256; EVENT_QUEUE_LENGTH := 64; EVENT_HALT_ON_POST_ERROR := false |}.
  abstract lia.
Defined.

(** Number of bytes of a packet. *)
Definition packet_size `{!Build} : nat := Z.to_nat PACKET_MAX_SIZE.
Lemma packet_size_spec `{!Build} : Z.of_nat packet_size = PACKET_MAX_SIZE /\ 128 <= PACKET_MAX_SIZE <= 256.
Proof. pose proof packet_max_size_range. unfold packet_size. lia. Qed.

(** ** Results and the state monad

    Every operation of the program is a state transformer that may fail:
    [EHalt] is a call of [HALT()], [EUndef] an access the C standard gives no
    meaning to (NULL dereference, index out of bounds), [EBlock] a blocking
    call that can never return in the given state (taking a mutex already
    held), and [EFuel] an exhausted loop bound of the model. *)

Inductive error : Type := EHalt | EUndef | EBlock | EFuel.

Inductive res (A : Type) : Type :=
| Ok (a : A)
| Err (e : error).
Arguments Ok {A} a.
Arguments Err {A} e.

#[global] Instance error_eq_dec : EqDecision error.
Proof. solve_decision. Defined.
#[global] Instance res_eq_dec {A} `{EqDecision A} : EqDecision (res A).
Proof. solve_decision. Defined.

#[global] Instance res_ret : MRet res := fun A a => Ok a.
#[global] Instance res_bind : MBind res := fun A B f m =>
  match m with Ok a => f a | Err e => Err e end.

Definition of_option {A} (e : error) (o : option A) : res A :=
  match o with Some a => Ok a | None => Err e end.

Definition M (S A : Type) : Type := S -> res (A * S).

#[global] Instance M_ret {S} : MRet (M S) := fun A a s => Ok (a, s).
#[global] Instance M_bind {S} : MBind (M S) := fun A B f m s =>
  match m s with Ok (a, s') => f a s' | Err e => Err e end.

Section monad_ops.
Context {S : Type}.

Definition mget : M S S := fun s => Ok (s, s).
Definition mgets {A} (f : S -> A) : M S A := fun s => Ok (f s, s).
Definition mmod (f : S -> S) : M S unit := fun s => Ok (tt, f s).
Definition mfail {A} (e : error) : M S A := fun _ => Err e.
Definition mlift {A} (r : res A) : M S A := fun s =>
  match r with Ok a => Ok (a, s) | Err e => Err e end.
Definition mwhen (b : bool) (m : M S unit) : M S unit :=
  if b then m else mret tt.
End monad_ops.

(** A component of type [T] inside the state [S] of its user. *)
Class Lens (S T : Type) := {
  view : S -> T;
  over : T -> S -> S;
  view_over t s : view (over t s) = t;
  over_view s : over (view s) s = s;
  over_over t t' s : over t (over t' s) = over t s;
}.

(** Running an operation of the component in the state of its user. *)
Definition mzoom {S T A} `{!Lens S T} (m : M T A) : M S A :=
  fun s => match m (view s) with
           | Ok (a, t) => Ok (a, over t s)
           | Err e => Err e
           end.

Lemma zoom_ok {S T A} `{!Lens S T} (m : M T A) s a t :
  m (view s) = Ok (a, t) -> mzoom m s = Ok (a, over t s).
Proof. intros E. unfold mzoom. by rewrite E. Qed.

Lemma bind_ok {S A B} (m : M S A) (k : A -> M S B) s a s' :
  m s = Ok (a, s') -> (m ≫= k) s = k a s'.
Proof. intros E. unfold mbind, M_bind. by rewrite E. Qed.

Lemma bind_err {S A B} (m : M S A) (k : A -> M S B) s e :
  m s = Err e -> (m ≫= k) s = Err e.
Proof. intros E. unfold mbind, M_bind. by rewrite E. Qed.

Lemma bind_inv {S A B} (m : M S A) (k : A -> M S B) s b s'' :
  (m ≫= k) s = Ok (b, s'') -> exists a s', m s = Ok (a, s') /\ k a s' = Ok (b, s'').
Proof.
  unfold mbind, M_bind. destruct (m s) as [[a s']|] eqn:E; [|done]. eauto.
Qed.

Lemma bind_get {S B} (k : S -> M S B) s : (mget ≫= k) s = k s s.
Proof. done. Qed.
Lemma bind_gets {S A B} (f : S -> A) (k : A -> M S B) s : (mgets f ≫= k) s = k (f s) s.
Proof. done. Qed.
Lemma bind_mod {S B} (f : S -> S) (k : unit -> M S B) s : (mmod f ≫= k) s = k tt (f s).
Proof. done. Qed.
Lemma bind_ret {S A B} (a : A) (k : A -> M S B) s : (mret a ≫= k) s = k a s.
Proof. done. Qed.
Lemma bind_fail {S A B} e (k : A -> M S B) s : (mfail e ≫= k) s = Err e.
Proof. done. Qed.
Lemma bind_lift {S A B} (r : res A) (k : A -> M S B) s :
  (mlift r ≫= k) s = match r with Ok a => k a s | Err e => Err e end.
Proof. by destruct r. Qed.
Lemma bind_assoc {S A B C} (m : M S A) (f : A -> M S B) (g : B -> M S C) s :
  ((m ≫= f) ≫= g) s = (m ≫= (λ a, f a ≫= g)) s.
Proof. unfold mbind, M_bind. by destruct (m s) as [[a s']|]. Qed.

Create Rewrite HintDb monad.
#[export] Hint Rewrite @bind_get @bind_gets @bind_mod @bind_ret @bind_fail @bind_lift
  @bind_assoc : monad.

(** [mrun] executes the primitive operations at the head of a monadic goal;
    [mstep H] executes an operation whose result [H] gives. *)
Ltac mrun := autorewrite with monad.
Tactic Notation "mrun" "in" hyp(H) := autorewrite with monad in H.
Ltac mstep H :=
  first [rewrite (bind_ok _ _ _ _ _ H) | rewrite H; cbn beta iota]; mrun.

(** The weakest precondition of a computation that returns. *)
Definition wp {S A} (m : M S A) (Q : A -> S -> Prop) (s : S) : Prop :=
  match m s with Ok (a, s') => Q a s' | Err _ => False end.

Lemma wp_ok {S A} (m : M S A) Q s : wp m Q s -> exists a s', m s = Ok (a, s') /\ Q a s'.
Proof. unfold wp. destruct (m s) as [[a s']|]; [eauto|done]. Qed.
Lemma wp_run {S A} (m : M S A) (Q : A -> S -> Prop) s a s' : m s = Ok (a, s') -> Q a s' -> wp m Q s.
Proof. unfold wp. by intros ->. Qed.
Lemma wp_inv {S A} (m : M S A) (Q : A -> S -> Prop) s a s' : wp m Q s -> m s = Ok (a, s') -> Q a s'.
Proof. unfold wp. intros H E. by rewrite E in H. Qed.
Lemma wp_mono {S A} (m : M S A) (P Q : A -> S -> Prop) s :
  wp m P s -> (forall a s', P a s' -> Q a s') -> wp m Q s.
Proof. unfold wp. destruct (m s) as [[a s']|]; [eauto|done]. Qed.
Lemma wp_and {S A} (m : M S A) (P Q : A -> S -> Prop) s :
  wp m P s -> wp m Q s -> wp m (λ a s', P a s' /\ Q a s') s.
Proof. unfold wp. by destruct (m s) as [[a s']|]. Qed.
Lemma wp_bind {S A B} (m : M S A) (k : A -> M S B) Q s :
  wp m (λ a, wp (k a) Q) s -> wp (m ≫= k) Q s.
Proof. unfold wp, mbind, M_bind. by destruct (m s) as [[a s']|]. Qed.
Lemma wp_ret {S A} (a : A) (Q : A -> S -> Prop) s : Q a s -> wp (mret a) Q s.
Proof. done. Qed.
Lemma wp_get {S} (Q : S -> S -> Prop) s : Q s s -> wp mget Q s.
Proof. done. Qed.
Lemma wp_mod {S} (f : S -> S) (Q : unit -> S -> Prop) s : Q tt (f s) -> wp (mmod f) Q s.
Proof. done. Qed.
Lemma wp_lift {S A} (r : res A) a (Q : A -> S -> Prop) s : r = Ok a -> Q a s -> wp (mlift r) Q s.
Proof. by intros ->. Qed.
Lemma wp_when {S} (b : bool) (m : M S unit) Q s :
  (b = true -> wp m Q s) -> (b = false -> Q tt s) -> wp (mwhen b m) Q s.
Proof. destruct b; intros H1 H2; [by apply H1|by apply H2]. Qed.

Ltac case_match_in H :=
  match type of H with
  | context [ match ?x with _ => _ end ] => destruct x eqn:?; simplify_eq/=
  end.

(** Repeatedly destructs the scrutinees of the goal, closing absurd cases. *)
Ltac cases :=
  repeat (case_match; simplify_eq/=; try done).

(** ** Mutexes

    A FreeRTOS mutex handle: [None] is the NULL handle, [Some b] a created
    mutex, [b] telling whether it is held. Taking a held mutex with an
    unlimited delay never returns. *)

Definition mutex := option bool.

Definition sem_take (m : mutex) : res mutex :=
  match m with
  | None => Err EUndef
  | Some true => Err EBlock
  | Some false => Ok (Some true)
  end.

Definition sem_give (m : mutex) : res mutex :=
  match m with
  | None => Err EUndef
  | Some _ => Ok (Some false)
  end.

(** ** Arrays

    A C array is a list; reading or writing outside of it is undefined. *)

Definition arr_get {A} (l : list A) (i : Z) : res A :=
  if decide (i < 0) then Err EUndef else of_option EUndef (l !! Z.to_nat i).

Definition arr_set {A} (l : list A) (i : Z) (x : A) : res (list A) :=
  if decide (0 <= i < Z.of_nat (length l)) then Ok (<[Z.to_nat i := x]> l)
  else Err EUndef.

(** [memcpy] of [bs] at index [i]. *)
Definition arr_blit {A} (l : list A) (i : Z) (bs : list A) : res (list A) :=
  if decide (0 <= i /\ i + Z.of_nat (length bs) <= Z.of_nat (length l))
  then Ok (take (Z.to_nat i) l ++ bs ++ drop (Z.to_nat i + length bs) l)
  else Err EUndef.

(** [n] elements read from index [i]. *)
Definition arr_slice {A} (l : list A) (i n : Z) : res (list A) :=
  if decide (0 <= i /\ 0 <= n /\ i + n <= Z.of_nat (length l))
  then Ok (take (Z.to_nat n) (drop (Z.to_nat i) l))
  else Err EUndef.

Lemma arr_get_ok {A} (l : list A) i x :
  0 <= i -> l !! Z.to_nat i = Some x -> arr_get l i = Ok x.
Proof. intros Hi Hx. unfold arr_get. rewrite decide_False by lia. by rewrite Hx. Qed.

Lemma arr_get_inv {A} (l : list A) i x :
  arr_get l i = Ok x -> 0 <= i < Z.of_nat (length l) /\ l !! Z.to_nat i = Some x.
Proof.
  unfold arr_get. destruct (decide _); [done|]. destruct (l !! _) eqn:E; [|done].
  intros [= ->]. pose proof (lookup_lt_Some _ _ _ E). split; [lia|done].
Qed.

Lemma arr_get_lt {A} (l : list A) i :
  0 <= i < Z.of_nat (length l) -> exists x, arr_get l i = Ok x.
Proof.
  intros Hi. destruct (lookup_lt_is_Some_2 l (Z.to_nat i)) as [x Hx]; [lia|].
  exists x. apply arr_get_ok; [lia|done].
Qed.

Lemma arr_set_ok {A} (l : list A) i x :
  0 <= i < Z.of_nat (length l) -> arr_set l i x = Ok (<[Z.to_nat i := x]> l).
Proof. intros Hi. unfold arr_set. by rewrite decide_True. Qed.

Lemma arr_set_inv {A} (l l' : list A) i x :
  arr_set l i x = Ok l' ->
  0 <= i < Z.of_nat (length l) /\ l' = <[Z.to_nat i := x]> l.
Proof. unfold arr_set. case_decide; [|done]. naive_solver. Qed.

Lemma arr_get_insert {A} (l : list A) (i k : Z) x :
  0 <= i < Z.of_nat (length l) -> 0 <= k ->
  arr_get (<[Z.to_nat i := x]> l) k = if k =? i then Ok x else arr_get l k.
Proof.
  intros Hi Hk. unfold arr_get. rewrite !decide_False by lia.
  destruct (Z.eqb_spec k i) as [->|Hne].
  - by rewrite list_lookup_insert_eq by lia.
  - by rewrite list_lookup_insert_ne by lia.
Qed.

(** Two arrays of the same length with the same elements in a window have the
    same slice there. *)
Lemma arr_slice_ext {A} (l l' : list A) i i' n :
  0 <= i -> 0 <= i' -> 0 <= n -> i + n <= Z.of_nat (length l) ->
  i' + n <= Z.of_nat (length l') ->
  (forall k, 0 <= k < n -> arr_get l (i + k) = arr_get l' (i' + k)) ->
  arr_slice l i n = arr_slice l' i' n.
Proof.
  intros Hi Hi' Hn Hl Hl' H. unfold arr_slice. rewrite !decide_True by lia. f_equal.
  apply list_eq. intros j. destruct (decide (j < Z.to_nat n)%nat) as [Hj|Hj].
  - rewrite !lookup_take_lt, !lookup_drop by lia.
    specialize (H (Z.of_nat j) ltac:(lia)). unfold arr_get in H.
    rewrite !decide_False in H by lia.
    replace (Z.to_nat (i + Z.of_nat j)) with (Z.to_nat i + j)%nat in H by lia.
    replace (Z.to_nat (i' + Z.of_nat j)) with (Z.to_nat i' + j)%nat in H by lia.
    destruct (l !! _) eqn:E1, (l' !! _) eqn:E2; simpl in H; congruence.
  - rewrite !lookup_take_ge by lia. done.
Qed.

Lemma arr_blit_length {A} (l l' : list A) i bs :
  arr_blit l i bs = Ok l' -> length l' = length l.
Proof.
  unfold arr_blit. case_decide as D; [|done]. intros [= <-].
  rewrite !length_app, length_take, length_drop. lia.
Qed.

Lemma arr_slice_length {A} (l bs : list A) i n :
  arr_slice l i n = Ok bs -> Z.of_nat (length bs) = n.
Proof.
  unfold arr_slice. case_decide as D; [|done]. intros [= <-].
  rewrite length_take, length_drop. lia.
Qed.

(** Reading back what was just copied. *)
Lemma arr_blit_slice {A} (l l' : list A) i bs :
  arr_blit l i bs = Ok l' -> arr_slice l' i (Z.of_nat (length bs)) = Ok bs.
Proof.
  intros E. pose proof (arr_blit_length _ _ _ _ E) as Hl.
  unfold arr_blit in E. case_decide as D; [|done]. injection E as <-.
  unfold arr_slice. rewrite decide_True by (rewrite Hl; lia).
  f_equal. rewrite drop_app_length'; [|rewrite length_take; lia].
  rewrite take_app_length' by lia. done.
Qed.

(** Writing consecutive bytes one by one is one block copy. *)
Lemma arr_set_blit {A} (l : list A) i x xs l1 :
  arr_blit (<[Z.to_nat i := x]> l) (i + 1) xs = Ok l1 ->
  0 <= i < Z.of_nat (length l) ->
  arr_blit l i (x :: xs) = Ok l1.
Proof.
  unfold arr_blit. rewrite length_insert. intros E Hi.
  case_decide as D; [|done]. rewrite decide_True by (simpl; lia).
  injection E as <-. f_equal.
  replace (Z.to_nat (i + 1)) with (S (Z.to_nat i)) by lia.
  rewrite (take_S_r _ _ x) by (apply list_lookup_insert_eq; lia).
  rewrite take_insert_ge by lia. rewrite <- app_assoc. f_equal. simpl. f_equal.
  f_equal. rewrite drop_insert_lt by lia. f_equal. lia.
Qed.

Lemma arr_blit_at {A} (a b c bs : list A) i :
  i = Z.of_nat (length a) -> length b = length bs ->
  arr_blit (a ++ b ++ c) i bs = Ok (a ++ bs ++ c).
Proof.
  intros -> Hb. unfold arr_blit. rewrite decide_True by (rewrite !length_app; lia).
  rewrite Nat2Z.id, take_app_length, <- Hb. do 2 f_equal. rewrite app_assoc.
  rewrite drop_app_length' by (rewrite length_app; lia). done.
Qed.

(** Two block copies in a row are one. *)
Lemma arr_blit_app {A} (l : list A) i xs ys :
  0 <= i -> i + Z.of_nat (length xs) + Z.of_nat (length ys) <= Z.of_nat (length l) ->
  exists l1 l2, arr_blit l i xs = Ok l1 /\ arr_blit l1 (i + Z.of_nat (length xs)) ys = Ok l2 /\
    arr_blit l i (xs ++ ys) = Ok l2 /\ length l1 = length l.
Proof.
  intros Hi Hl. rewrite <- (take_drop (Z.to_nat i) l).
  rewrite <- (take_drop (length xs) (drop (Z.to_nat i) l)).
  rewrite <- (take_drop (length ys) (drop (length xs) _)).
  set (a := take (Z.to_nat i) l). set (b := take (length xs) _). set (c := take (length ys) _).
  set (d := drop (length ys) _).
  assert (i = Z.of_nat (length a)) as Ha by (subst a; rewrite length_take; lia).
  assert (length b = length xs) as Hb by (subst b; rewrite length_take, length_drop; lia).
  assert (length c = length ys) as Hc by (subst c; rewrite length_take, !length_drop; lia).
  clearbody a b c d. exists (a ++ xs ++ c ++ d), (a ++ (xs ++ ys) ++ d). split_and!.
  - by apply arr_blit_at.
  - rewrite (app_assoc a), <- (app_assoc xs), (app_assoc a).
    apply arr_blit_at; [|done]. rewrite length_app. lia.
  - rewrite (app_assoc b). apply arr_blit_at; [done|]. rewrite !length_app. lia.
  - rewrite !length_app. lia.
Qed.

Lemma arr_slice_at {A} (a b c : list A) i :
  i = Z.of_nat (length a) -> arr_slice (a ++ b ++ c) i (Z.of_nat (length b)) = Ok b.
Proof.
  intros ->. unfold arr_slice. rewrite decide_True by (rewrite !length_app; lia).
  rewrite !Nat2Z.id, drop_app_length, take_app_length. done.
Qed.

Lemma arr_blit_nil {A} (l : list A) i :
  0 <= i <= Z.of_nat (length l) -> arr_blit l i [] = Ok l.
Proof.
  intros Hi. unfold arr_blit. rewrite decide_True by (simpl; lia).
  f_equal. simpl. rewrite Nat.add_0_r. apply take_drop.
Qed.

Lemma arr_blit_get {A} (l l' : list A) i bs k x :
  arr_blit l i bs = Ok l' -> bs !! Z.to_nat k = Some x -> 0 <= k -> arr_get l' (i + k) = Ok x.
Proof.
  unfold arr_blit. case_decide as D; [|done]. intros [= <-] Hk Hk0.
  apply arr_get_ok; [lia|].
  pose proof (lookup_lt_Some _ _ _ Hk).
  rewrite lookup_app_r; rewrite length_take; [|lia].
  rewrite lookup_app_l by lia. rewrite <- Hk. f_equal. lia.
Qed.

Lemma arr_blit_get0 {A} (l l' : list A) i x bs :
  arr_blit l i (x :: bs) = Ok l' -> arr_get l' i = Ok x.
Proof. intros E. rewrite <- (Z.add_0_r i). by eapply arr_blit_get. Qed.

(** The rest of the array is untouched. *)
Lemma arr_blit_frame {A} (l l' : list A) i bs k :
  arr_blit l i bs = Ok l' -> k < i \/ i + Z.of_nat (length bs) <= k ->
  arr_get l' k = arr_get l k.
Proof.
  unfold arr_blit. case_decide as D; [|done]. intros [= <-] Hk.
  unfold arr_get. case_decide; [done|]. f_equal. destruct Hk as [Hk|Hk].
  - rewrite lookup_app_l by (rewrite length_take; lia). apply lookup_take_lt. lia.
  - rewrite lookup_app_r by (rewrite length_take; lia). rewrite length_take.
    rewrite lookup_app_r by lia. rewrite lookup_drop. f_equal. lia.
Qed.

(** ** Counting loops: [for (i = a; i < n; i++)] as a fold over indices *)

Definition zseq (a : Z) (n : nat) : list Z := (λ k, a + Z.of_nat k) <$> seq 0 n.

Lemma zseq_lookup a n k : (k < n)%nat -> zseq a n !! k = Some (a + Z.of_nat k).
Proof.
  intros Hk. unfold zseq. rewrite list_lookup_fmap, lookup_seq_lt by done. done.
Qed.

Lemma zseq_S a n : zseq a (S n) = a :: zseq (a + 1) n.
Proof.
  unfold zseq. simpl. f_equal; [lia|]. rewrite <- fmap_S_seq, <- list_fmap_compose.
  apply list_fmap_ext. intros. simpl. lia.
Qed.

Lemma zseq_length a n : length (zseq a n) = n.
Proof. unfold zseq. by rewrite length_fmap, length_seq. Qed.

Lemma elem_of_zseq a n x : x ∈ zseq a n <-> a <= x < a + Z.of_nat n.
Proof.
  revert a. induction n as [|n IH]; intros a.
  - split; [by intros ?%not_elem_of_nil | lia].
  - rewrite zseq_S, elem_of_cons, IH. lia.
Qed.

Lemma zseq_nodup a n : NoDup (zseq a n).
Proof.
  revert a. induction n as [|n IH]; intros a; [constructor|].
  rewrite zseq_S. constructor; [|apply IH]. rewrite elem_of_zseq. lia.
Qed.

Fixpoint mfor {S A} (xs : list A) (body : A -> M S unit) : M S unit :=
  match xs with
  | [] => mret tt
  | x :: xs => body x ;; mfor xs body
  end.

(** ** Filtered lists *)

Lemma filter_ext_in {A} (P Q : A -> Prop) `{!forall x, Decision (P x), !forall x, Decision (Q x)}
    (l : list A) :
  (forall x, x ∈ l -> P x <-> Q x) -> filter P l = filter Q l.
Proof.
  induction l as [|x l IH]; intros Hext; [done|]. rewrite !filter_cons.
  pose proof (Hext x ltac:(constructor)) as Hx.
  rewrite IH by (intros y Hy; apply Hext; by constructor).
  by destruct (decide (P x)), (decide (Q x)); try tauto.
Qed.

Lemma filter_all {A} (P : A -> Prop) `{!forall x, Decision (P x)} (l : list A) :
  (forall x, x ∈ l -> P x) -> filter P l = l.
Proof.
  induction l as [|x l IH]; intros Hl; [done|]. rewrite filter_cons, decide_True.
  - rewrite IH; [done|]. intros y Hy. apply Hl. by constructor.
  - apply Hl. constructor.
Qed.

Lemma filter_none {A} (P : A -> Prop) `{!forall x, Decision (P x)} (l : list A) :
  Forall (λ x, ~ P x) l -> filter P l = [].
Proof.
  induction 1 as [|x l Hx Hl IH]; [done|]. rewrite filter_cons. by rewrite decide_False.
Qed.

Lemma filter_length_split {A} (P : A -> Prop) `{!forall x, Decision (P x)} (l : list A) :
  (length (filter P l) + length (filter (λ x, ~ P x) l) = length l)%nat.
Proof.
  induction l as [|x l IH]; [done|]. rewrite !filter_cons.
  destruct (decide (P x)), (decide (~ P x)); try tauto; simpl; lia.
Qed.

(** Elements of an interval outside of a set of elements of the interval. *)
Lemma zseq_filter_size a n (u : gset Z) :
  (forall i, i ∈ u -> a <= i < a + Z.of_nat n) ->
  Z.of_nat (length (filter (λ i, i ∉ u) (zseq a n))) = Z.of_nat n - Z.of_nat (size u).
Proof.
  intros Hu. pose proof (filter_length_split (λ i, i ∈ u) (zseq a n)) as H.
  rewrite zseq_length in H.
  assert (length (filter (λ i, i ∈ u) (zseq a n)) = size u) as E; [|lia].
  rewrite <- (size_list_to_set (C := gset Z)) by (apply NoDup_filter, zseq_nodup).
  f_equal. apply set_eq. intros i.
  rewrite elem_of_list_to_set, list_elem_of_filter, elem_of_zseq. naive_solver lia.
Qed.

(** ** Little-endian memory images

    The targets are little-endian: an integer of [n] bytes in memory is the
    list [le_bytes n z], and reading it back is [le_value]. *)

Fixpoint le_bytes (n : nat) (z : Z) : list Z :=
  match n with
  | O => []
  | S n => z mod 256 :: le_bytes n (z / 256)
  end.

Fixpoint le_value (bs : list Z) : Z :=
  match bs with
  | [] => 0
  | b :: bs => b + 256 * le_value bs
  end.

Definition bytes_ok (bs : list Z) : Prop := Forall (λ b, is_u8 b) bs.

Lemma le_bytes_length n z : length (le_bytes n z) = n.
Proof. revert z. induction n as [|n IH]; intros z; simpl; [done|]. by rewrite IH. Qed.

Lemma le_bytes_ok n z : bytes_ok (le_bytes n z).
Proof.
  revert z. induction n as [|n IH]; intros z; simpl; constructor; [|apply IH].
  apply Z.mod_pos_bound. lia.
Qed.

Lemma le_value_bytes n z : le_value (le_bytes n z) = z mod 256 ^ Z.of_nat n.
Proof.
  revert z. induction n as [|n IH]; intros z; cbn [le_bytes le_value].
  - by rewrite Z.mod_1_r.
  - rewrite IH, Nat2Z.inj_succ, Z.pow_succ_r by lia.
    rewrite Z.rem_mul_r; lia.
Qed.

Lemma le_value_range bs : bytes_ok bs -> 0 <= le_value bs < 256 ^ Z.of_nat (length bs).
Proof.
  induction 1 as [|b bs Hb _ IH]; cbn [le_value length]; [lia|].
  rewrite Nat2Z.inj_succ, Z.pow_succ_r by lia. lia.
Qed.

Lemma le_bytes_value bs : bytes_ok bs -> le_bytes (length bs) (le_value bs) = bs.
Proof.
  induction 1 as [|b bs Hb Hbs IH]; cbn [le_bytes le_value length]; [done|].
  assert ((b + 256 * le_value bs) mod 256 = b) as -> by mlia.
  assert ((b + 256 * le_value bs) / 256 = le_value bs) as -> by mlia.
  by rewrite IH.
Qed.

(** ** Little-endian fields of a buffer: a packed structure read in place *)

Definition rd (n : nat) (raw : list Z) (off : Z) : res Z :=
  bs ← arr_slice raw off (Z.of_nat n); Ok (le_value bs).
Definition wr (n : nat) (raw : list Z) (off v : Z) : res (list Z) :=
  arr_blit raw off (le_bytes n v).

Lemma arr_blit_ok {A} (l : list A) i bs :
  0 <= i -> i + Z.of_nat (length bs) <= Z.of_nat (length l) -> exists l', arr_blit l i bs = Ok l'.
Proof. intros H1 H2. unfold arr_blit. rewrite decide_True by lia. eauto. Qed.

Lemma arr_blit_inv {A} (l l' : list A) i bs :
  arr_blit l i bs = Ok l' -> 0 <= i /\ i + Z.of_nat (length bs) <= Z.of_nat (length l).
Proof. unfold arr_blit. by case_decide. Qed.

Lemma wr_ok n raw off v :
  0 <= off -> off + Z.of_nat n <= Z.of_nat (length raw) ->
  exists raw', wr n raw off v = Ok raw' /\ length raw' = length raw.
Proof.
  intros H1 H2. destruct (arr_blit_ok raw off (le_bytes n v)) as [raw' E]; [done|by rewrite le_bytes_length|].
  exists raw'. split; [done|]. by eapply arr_blit_length.
Qed.

Lemma rd_wr n raw off v raw' :
  wr n raw off v = Ok raw' -> rd n raw' off = Ok (v mod 256 ^ Z.of_nat n).
Proof.
  intros E. unfold wr in E. apply arr_blit_slice in E. rewrite le_bytes_length in E.
  unfold rd. rewrite E. change (mbind ?f (Ok ?x)) with (f x). cbn beta. by rewrite le_value_bytes.
Qed.

(** Copying a block leaves the windows disjoint from it alone. *)
Lemma slice_blit_other {A} (l l' : list A) i bs off n :
  arr_blit l i bs = Ok l' -> off + n <= i \/ i + Z.of_nat (length bs) <= off ->
  arr_slice l' off n = arr_slice l off n.
Proof.
  intros E Hd. pose proof (arr_blit_length _ _ _ _ E) as Hl.
  destruct (decide (0 <= off /\ 0 <= n /\ off + n <= Z.of_nat (length l))) as [D|D].
  - apply arr_slice_ext; [lia..|]. intros k Hk. eapply arr_blit_frame; [exact E|]. lia.
  - unfold arr_slice. by rewrite !decide_False by lia.
Qed.

Lemma rd_blit_other n l l' i bs off :
  arr_blit l i bs = Ok l' -> off + Z.of_nat n <= i \/ i + Z.of_nat (length bs) <= off ->
  rd n l' off = rd n l off.
Proof. intros E Hd. unfold rd. by rewrite (slice_blit_other l l' i bs) by done. Qed.

Lemma rd_wr_other n m raw off off' v raw' :
  wr m raw off' v = Ok raw' -> off + Z.of_nat n <= off' \/ off' + Z.of_nat m <= off ->
  rd n raw' off = rd n raw off.
Proof. intros E Hd. eapply rd_blit_other; [exact E|]. by rewrite le_bytes_length. Qed.

(** ** The string in a buffer: its characters up to the first zero *)

Fixpoint c_string (row : list Z) : res (list Z) :=
  match row with [] => Err EUndef | c :: row => if c =? 0 then Ok [] else s ← c_string row; Ok (c :: s) end.

Lemma c_string_zero s rest : Forall (λ c, c <> 0) s -> c_string (s ++ 0 :: rest) = Ok s.
Proof.
  induction 1 as [|c s Hc Hs IH]; [done|]. cbn [app c_string]. destruct (Z.eqb_spec c 0); [done|]. by rewrite IH.
Qed.

(** ** Parts of pages: [n] bytes read from [off], [bs] written at [off] *)

Definition part (pg : list Z) (off n : Z) : list Z := take (Z.to_nat n) (drop (Z.to_nat off) pg).
Definition patch (pg : list Z) (off : Z) (bs : list Z) : list Z :=
  take (Z.to_nat off) pg ++ bs ++ drop (Z.to_nat off + length bs) pg.

Lemma patch_length pg off bs : length pg = 512%nat -> 0 <= off -> off + Z.of_nat (length bs) <= 512 -> length (patch pg off bs) = 512%nat.
Proof. intros Hp Ho Hl. unfold patch. rewrite !length_app, length_take, length_drop. lia. Qed.

Lemma part_length pg off n : length pg = 512%nat -> 0 <= off -> 0 <= n -> off + n <= 512 -> length (part pg off n) = Z.to_nat n.
Proof. intros Hp Ho Hn Hl. unfold part. rewrite length_take, length_drop. lia. Qed.

Lemma part_patch_same pg off bs : length pg = 512%nat -> 0 <= off -> off + Z.of_nat (length bs) <= 512 ->
  part (patch pg off bs) off (Z.of_nat (length bs)) = bs.
Proof.
  intros Hp Ho Hl. unfold part, patch. rewrite drop_app_length' by (rewrite length_take; lia). by rewrite Nat2Z.id, take_app_length.
Qed.

Lemma part_patch_other pg off bs off' n : length pg = 512%nat -> 0 <= off -> 0 <= off' -> 0 <= n ->
  off + Z.of_nat (length bs) <= 512 -> off' + n <= 512 -> off' + n <= off \/ off + Z.of_nat (length bs) <= off' ->
  part (patch pg off bs) off' n = part pg off' n.
Proof.
  intros Hp Ho Ho' Hn Hl Hl' Hd. apply list_eq. intros i. unfold part, patch.
  destruct (decide (i < Z.to_nat n)%nat) as [Hi|Hi].
  2: { rewrite !lookup_take_ge by lia. done. }
  rewrite !lookup_take_lt by lia. rewrite !lookup_drop. destruct Hd as [Hd|Hd].
  - rewrite lookup_app_l by (rewrite length_take; lia). by rewrite lookup_take_lt by lia.
  - rewrite lookup_app_r by (rewrite length_take; lia). rewrite length_take. rewrite lookup_app_r by lia. rewrite lookup_drop. f_equal. lia.
Qed.

Lemma part_app_l (l m : list Z) off n : 0 <= off -> 0 <= n -> off + n <= Z.of_nat (length l) -> part (l ++ m) off n = part l off n.
Proof. intros Ho Hn Hl. unfold part. rewrite drop_app_le by lia. rewrite take_app_le; [done|]. rewrite length_drop. lia. Qed.

Lemma part_app_r (l m : list Z) off n : off = Z.of_nat (length l) -> part (l ++ m) off n = take (Z.to_nat n) m.
Proof. intros ->. unfold part. by rewrite Nat2Z.id, drop_app_length. Qed.

Lemma part_part (l : list Z) a n b m : 0 <= a -> 0 <= b -> 0 <= m -> b + m <= n -> part (part l a n) b m = part l (a + b) m.
Proof.
  intros Ha Hb Hm Hl. unfold part. rewrite skipn_firstn_comm, take_take, drop_drop. f_equal; [lia|f_equal; lia].
Qed.

Lemma part_split (l : list Z) a n m : 0 <= a -> 0 <= n -> 0 <= m -> part l a (n + m) = part l a n ++ part l (a + n) m.
Proof.
  intros Ha Hn Hm. unfold part. replace (Z.to_nat (n + m)) with (Z.to_nat n + Z.to_nat m)%nat by lia.
  rewrite Z2Nat.inj_add by lia. rewrite <- drop_drop. by rewrite take_take_drop.
Qed.

Lemma patch_whole (pg bs : list Z) : length pg = length bs -> patch pg 0 bs = bs.
Proof. intros Hl. unfold patch. change (Z.to_nat 0) with 0%nat. rewrite take_0, <- Hl. cbn [Nat.add app]. rewrite drop_all. apply app_nil_r. Qed.
