(* ===== verification/Chain.v ===== *)
(** * Singly linked chains in a store

    Four components of the program keep objects in NULL-terminated lists
    threaded through a [next] field: the packet FIFO ([lib/packet]), the timer
    list ([lib/softtimer]), the packet queues of the control node
    ([appli/iotlab/lib/iotlab_packet.c]) and the TDMA frame lists
    ([net/mac_tdma/frame.c]). This file gives the list-segment predicate over a
    store of such objects, the traversal loop they share, and the lemmas their
    operations need. The class [Linked] is the interface: what a component has
    to provide about its [next] field. *)

From stdpp Require Import base numbers gmap list.
From S2P Require Import Prelude.

(** Addresses of objects; [None] is the NULL pointer. *)
Abbreviation loc := nat.
Abbreviation ptr := (option nat).

Class Linked (A : Type) := {
  next_of : A -> ptr;
  set_next : ptr -> A -> A;
  next_set_next p a : next_of (set_next p a) = p;
  set_next_id a : set_next (next_of a) a = a;
  set_next_twice p q a : set_next p (set_next q a) = set_next p a;
}.

Section chain.
Context {A : Type} `{!Linked A}.
Implicit Types (h : gmap loc A) (p q : ptr) (l : loc) (xs ys zs : list loc).

(** [lseg h p xs q]: following [next] from [p] visits exactly [xs], in this
    order, and then reaches [q]. *)
Fixpoint lseg h p xs q : Prop :=
  match xs with
  | [] => p = q
  | l :: xs => p = Some l /\ exists a, h !! l = Some a /\ lseg h (next_of a) xs q
  end.

(** A NULL-terminated list. *)
Definition chain h p xs : Prop := lseg h p xs None.

Lemma lseg_app h p xs ys q :
  lseg h p (xs ++ ys) q <-> exists r, lseg h p xs r /\ lseg h r ys q.
Proof.
  revert p. induction xs as [|l xs IH]; intros p; simpl.
  - split; [eauto | by intros (r & -> & ?)].
  - split.
    + intros (-> & a & Ha & (r & H1 & H2)%IH). eauto 10.
    + intros (r & (-> & a & Ha & H1) & H2). split; [done|].
      exists a. split; [done|]. apply IH. eauto.
Qed.

Lemma chain_det h p xs ys : chain h p xs -> chain h p ys -> xs = ys.
Proof.
  revert p ys. induction xs as [|l xs IH]; intros p [|l' ys]; simpl.
  - done.
  - by intros -> (? & _).
  - by intros (-> & _) ?.
  - intros (-> & a & Ha & H1) ([= <-] & b & Hb & H2). simplify_eq.
    f_equal. eauto.
Qed.

Lemma lseg_in_dom h p xs q l : lseg h p xs q -> l ∈ xs -> is_Some (h !! l).
Proof.
  revert p. induction xs as [|l' xs IH]; intros p; simpl.
  - by intros _ ?%not_elem_of_nil.
  - intros (_ & a & Ha & H) [->|Hin]%elem_of_cons; eauto.
Qed.

(** A NULL-terminated chain visits no object twice. *)
Lemma chain_nodup h p xs : chain h p xs -> NoDup xs.
Proof.
  revert p. induction xs as [|l xs IH]; intros p; simpl; [constructor|].
  intros H. pose proof H as (-> & a & Ha & Ht). constructor; [|eauto].
  intros Hin. apply list_elem_of_split in Hin as (ys & zs & ->).
  apply lseg_app in Ht as (r & _ & Hr). pose proof Hr as (-> & _).
  assert (l :: ys ++ l :: zs = l :: zs) as E by (eapply chain_det; eauto).
  apply (f_equal length) in E. revert E. simpl. rewrite length_app. simpl. lia.
Qed.

(** Writing an object outside of the segment leaves the segment alone. *)
Lemma lseg_insert h p xs q l a :
  l ∉ xs -> lseg h p xs q -> lseg (<[l := a]> h) p xs q.
Proof.
  revert p. induction xs as [|l' xs IH]; intros p Hl; simpl; [done|].
  apply not_elem_of_cons in Hl as [Hne Hl].
  intros (-> & b & Hb & H). split; [done|]. exists b.
  rewrite lookup_insert_ne by done. eauto.
Qed.

Lemma lseg_ext h h' p xs q :
  (forall l, l ∈ xs -> h' !! l = h !! l) -> lseg h p xs q -> lseg h' p xs q.
Proof.
  revert p. induction xs as [|l xs IH]; intros p He; simpl; [done|].
  intros (-> & a & Ha & H). split; [done|]. exists a.
  rewrite He by constructor. split; [done|]. apply IH; [|done].
  intros l' Hl'. apply He. by constructor.
Qed.

(** Writing an object of the segment without touching its [next] field. *)
Lemma lseg_update h p xs q l a b :
  h !! l = Some a -> next_of b = next_of a ->
  lseg h p xs q -> lseg (<[l := b]> h) p xs q.
Proof.
  intros Ha Hn. revert p. induction xs as [|l' xs IH]; intros p; simpl; [done|].
  intros (-> & c & Hc & H). split; [done|]. destruct (decide (l = l')) as [->|Hne].
  - exists b. rewrite lookup_insert_eq. simplify_eq. rewrite Hn. eauto.
  - exists c. rewrite lookup_insert_ne by done. eauto.
Qed.

Lemma chain_null h xs : chain h None xs -> xs = [].
Proof. destruct xs; [done|]. by intros (? & _). Qed.

Lemma chain_null_next h a : chain h (next_of a) [] -> next_of a = None.
Proof. done. Qed.

Lemma chain_nil h p : chain h p [] <-> p = None.
Proof. done. Qed.

Lemma chain_cons h p l xs :
  chain h p (l :: xs) <->
  p = Some l /\ exists a, h !! l = Some a /\ chain h (next_of a) xs.
Proof. done. Qed.

Lemma chain_some h l xs :
  chain h (Some l) xs ->
  exists a ys, xs = l :: ys /\ h !! l = Some a /\ chain h (next_of a) ys.
Proof.
  destruct xs as [|l' ys]; [done|]. intros ([= <-] & a & Ha & H). eauto.
Qed.

Lemma chain_length h p xs : chain h p xs -> (length xs <= size h)%nat.
Proof.
  intros H. rewrite <- size_dom.
  rewrite <- (size_list_to_set (C := gset loc) xs) by (by eapply chain_nodup).
  apply subseteq_size. intros l Hl%elem_of_list_to_set.
  apply elem_of_dom. by eapply lseg_in_dom.
Qed.

(** *** The shared loop

    [for (x = first; x->next != NULL && !stop(x->next); x = x->next) {}] *)
Fixpoint walk (fuel : nat) h (stop : loc -> A -> bool) (x : loc) : res loc :=
  match fuel with
  | O => Err EFuel
  | S fuel =>
      a ← of_option EUndef (h !! x);
      match next_of a with
      | None => Ok x
      | Some n =>
          b ← of_option EUndef (h !! n);
          if stop n b then Ok x else walk fuel h stop n
      end
  end.

(** The loop stops at the last object of the longest prefix of the chain on
    which the condition fails. *)
Lemma walk_spec fuel h stop x xs :
  chain h (Some x) (x :: xs) -> (length xs < fuel)%nat ->
  exists pre y zs a,
    x :: xs = pre ++ y :: zs /\ walk fuel h stop x = Ok y /\
    h !! y = Some a /\ chain h (next_of a) zs /\
    (forall l b, l ∈ drop 1 (pre ++ [y]) -> h !! l = Some b -> stop l b = false) /\
    (forall l b, head zs = Some l -> h !! l = Some b -> stop l b = true).
Proof.
  revert x xs. induction fuel as [|fuel IH]; intros x xs H Hf; [lia|].
  apply chain_cons in H as (_ & a & Ha & H). cbn [walk].
  rewrite Ha. cbn. destruct (next_of a) as [n|] eqn:En.
  - apply chain_some in H as Hn. destruct Hn as (b & ys & -> & Hb & Hys).
    rewrite Hb. cbn. destruct (stop n b) eqn:Es.
    + exists [], x, (n :: ys), a. rewrite En.
      split_and!; [done..|by intros ? ? ?%not_elem_of_nil|].
      intros l c [= <-] Hc. by simplify_eq.
    + destruct (IH n ys) as (pre & y & zs & c & E & Hw & Hc & Hz & Hno & Hyes);
        [done|simpl in Hf; lia|].
      exists (x :: pre), y, zs, c. rewrite E. split_and!; [done..| |done].
      intros l d Hl Hd. cbn [app drop] in Hl.
      destruct pre as [|z pre]; simplify_eq/=.
      * apply list_elem_of_singleton in Hl as ->. by simplify_eq.
      * apply elem_of_cons in Hl as [->|Hl]; [by simplify_eq|]. eauto.
  - apply chain_null in H as ->. exists [], x, [], a. rewrite En.
    split_and!; [done..|by intros ? ? ?%not_elem_of_nil|done].
Qed.

(** *** Structural operations *)

(** [new->next = x->next; x->next = new] *)
Definition link_after (x new : loc) h : res (gmap loc A) :=
  a ← of_option EUndef (h !! x);
  b ← of_option EUndef (h !! new);
  let h1 := <[new := set_next (next_of a) b]> h in
  a' ← of_option EUndef (h1 !! x);
  Ok (<[x := set_next (Some new) a']> h1).

Lemma link_after_spec h p pre x zs new a b :
  chain h p (pre ++ x :: zs) -> new ∉ pre ++ x :: zs ->
  h !! x = Some a -> h !! new = Some b ->
  exists h', link_after x new h = Ok h' /\
    chain h' p (pre ++ x :: new :: zs) /\
    h' = <[x := set_next (Some new) a]> (<[new := set_next (next_of a) b]> h).
Proof.
  intros H Hnew Ha Hb. pose proof (chain_nodup _ _ _ H) as Hnd.
  apply NoDup_app in Hnd as (_ & Hpx & (Hxz & _)%NoDup_cons).
  apply not_elem_of_app in Hnew as [Hn1 [Hn2 Hn3]%not_elem_of_cons].
  unfold link_after. rewrite Ha. cbn. rewrite Hb. cbn.
  rewrite lookup_insert_ne by done. rewrite Ha. cbn.
  eexists. split; [done|]. split; [|done].
  apply lseg_app in H as (r & Hpre & (-> & c & Hc & Hz)).
  assert (c = a) as -> by congruence.
  apply lseg_app. exists (Some x). split.
  - apply lseg_insert; [|by apply lseg_insert].
    intros Hin. apply (Hpx _ Hin). constructor.
  - split; [done|]. exists (set_next (Some new) a).
    rewrite lookup_insert_eq, next_set_next. split; [done|]. split; [done|].
    exists (set_next (next_of a) b).
    rewrite lookup_insert_ne by done. rewrite lookup_insert_eq, next_set_next.
    split; [done|]. apply lseg_insert; [done|]. by apply lseg_insert.
Qed.

(** [new->next = first; first = new] *)
Lemma chain_push h p xs new b :
  chain h p xs -> new ∉ xs -> chain (<[new := set_next p b]> h) (Some new) (new :: xs).
Proof.
  intros H Hn. split; [done|]. exists (set_next p b).
  rewrite lookup_insert_eq, next_set_next. split; [done|]. by apply lseg_insert.
Qed.

(** [x->next = y->next] where [y] follows [x] *)
Lemma chain_unlink h p pre x y zs a b :
  chain h p (pre ++ x :: y :: zs) -> h !! x = Some a -> h !! y = Some b ->
  chain (<[x := set_next (next_of b) a]> h) p (pre ++ x :: zs).
Proof.
  intros H Ha Hb. pose proof (chain_nodup _ _ _ H) as Hnd.
  apply NoDup_app in Hnd as (_ & Hpx & (Hxz & _)%NoDup_cons).
  apply not_elem_of_cons in Hxz as [Hxy Hxz].
  apply lseg_app in H as (r & Hpre & (-> & c & Hc & (Hn & d & Hd & Hz))).
  assert (d = b) as -> by congruence.
  assert (c = a) as -> by congruence.
  apply lseg_app. exists (Some x). split.
  - apply lseg_insert; [|done]. intros Hin. apply (Hpx _ Hin). constructor.
  - split; [done|]. exists (set_next (next_of b) a).
    rewrite lookup_insert_eq, next_set_next. split; [done|].
    by apply lseg_insert.
Qed.

(** *** Stores that differ by links only *)
Definition same_but_next h h' : Prop :=
  forall l, set_next None <$> h' !! l = set_next None <$> h !! l.

Lemma same_but_next_insert h l k p :
  h !! l = Some k -> same_but_next h (<[l := set_next p k]> h).
Proof.
  intros Hk m. destruct (decide (l = m)) as [<-|Hne].
  - rewrite lookup_insert_eq, Hk. simpl. by rewrite set_next_twice.
  - by rewrite lookup_insert_ne.
Qed.

Lemma same_but_next_refl h : same_but_next h h.
Proof. done. Qed.

Lemma same_but_next_trans h1 h2 h3 :
  same_but_next h1 h2 -> same_but_next h2 h3 -> same_but_next h1 h3.
Proof. intros H1 H2 l. by rewrite H2, H1. Qed.

Lemma same_but_next_dom h h' l :
  same_but_next h h' -> is_Some (h !! l) -> is_Some (h' !! l).
Proof.
  intros H [k Hk]. specialize (H l). rewrite Hk in H.
  destruct (h' !! l); [eauto|done].
Qed.

Lemma same_but_next_lookup h h' l k :
  same_but_next h h' -> h !! l = Some k -> exists p, h' !! l = Some (set_next p k).
Proof.
  intros H Hk. specialize (H l). rewrite Hk in H. destruct (h' !! l) as [k'|]; [|done].
  injection H as E. exists (next_of k'). f_equal.
  rewrite <- (set_next_twice (next_of k') None k), <- E, set_next_twice.
  symmetry. apply set_next_id.
Qed.

Lemma same_but_next_sym h h' : same_but_next h h' -> same_but_next h' h.
Proof. intros H l. symmetry. apply H. Qed.

Lemma same_but_next_inv h h' l k' :
  same_but_next h h' -> h' !! l = Some k' -> exists k p, h !! l = Some k /\ k' = set_next p k.
Proof.
  intros H Hk. destruct (same_but_next_lookup h' h l k') as [p Hp]; [by apply same_but_next_sym|done|].
  exists (set_next p k'), (next_of k'). split; [done|].
  by rewrite set_next_twice, set_next_id.
Qed.
End chain.

#[export] Hint Resolve same_but_next_refl same_but_next_insert : mach.

Arguments lseg {A _} _ _ !_ _ / : assert.
