(* ===== verification/Packer.v ===== *)
(** * Big-endian field packing ([lib/packer.h])

    A pointer into a buffer is the pair of the buffer and an index; the
    functions return the buffer (for the packers) or the value (for the
    unpackers) with the advanced pointer. A [float] is its 32-bit
    representation, which is all [memcpy] moves. *)

From stdpp Require Import base numbers gmap list.
From S2P Require Import Prelude.

Module Packer.

Definition packer_uint16_pack (buffer : list Z) (p value : Z) : res (list Z * Z) :=
  b1 ← arr_set buffer p (u8 (Z.land (Z.shiftr value 8) 0xFF));
  b2 ← arr_set b1 (p + 1) (u8 (Z.land value 0xFF));
  Ok (b2, p + 2).

Definition packer_uint16_unpack (buffer : list Z) (p : Z) : res (Z * Z) :=
  x0 ← arr_get buffer p;
  x1 ← arr_get buffer (p + 1);
  Ok (u16 (Z.shiftl x0 8 + x1), p + 2).

Definition packer_uint32_pack (buffer : list Z) (p value : Z) : res (list Z * Z) :=
  b1 ← arr_set buffer p (u8 (Z.land (Z.shiftr value 24) 0xFF));
  b2 ← arr_set b1 (p + 1) (u8 (Z.land (Z.shiftr value 16) 0xFF));
  b3 ← arr_set b2 (p + 2) (u8 (Z.land (Z.shiftr value 8) 0xFF));
  b4 ← arr_set b3 (p + 3) (u8 (Z.land value 0xFF));
  Ok (b4, p + 4).

Definition packer_uint32_unpack (buffer : list Z) (p : Z) : res (Z * Z) :=
  x0 ← arr_get buffer p;
  x1 ← arr_get buffer (p + 1);
  x2 ← arr_get buffer (p + 2);
  x3 ← arr_get buffer (p + 3);
  Ok (u32 (u32 (Z.shiftl x0 24) + u32 (Z.shiftl x1 16) + u32 (Z.shiftl x2 8) + x3), p + 4).

(** [value] is the bit pattern of the float. *)
Definition packer_float_pack (buffer : list Z) (p value : Z) : res (list Z * Z) :=
  packer_uint32_pack buffer p value.

Definition packer_float_unpack (buffer : list Z) (p : Z) : res (Z * Z) :=
  packer_uint32_unpack buffer p.

Definition packer_uint16_hton (value : Z) : Z :=
  u16 (Z.lor (Z.land (Z.shiftr value 8) 0x00FF) (Z.land (Z.shiftl value 8) 0xFF00)).

Definition packer_uint32_hton (value : Z) : Z :=
  Z.lor (Z.lor (Z.lor
    (Z.land (Z.shiftr value 24) 0x000000FF)
    (Z.land (Z.shiftr value 8) 0x0000FF00))
    (Z.land (u32 (Z.shiftl value 8)) 0x00FF0000))
    (Z.land (u32 (Z.shiftl value 24)) 0xFF000000).

Definition packer_uint16_ntoh (value : Z) : Z := packer_uint16_hton value.
Definition packer_uint32_ntoh (value : Z) : Z := packer_uint32_hton value.

(** ** The byte lists the packers write *)

Definition be16 (v : Z) : list Z := [v / 256 mod 256; v mod 256].
Definition be32 (v : Z) : list Z :=
  [v / 16777216 mod 256; v / 65536 mod 256; v / 256 mod 256; v mod 256].

Lemma u8_mod z : u8 (z mod 256) = z mod 256.
Proof. mlia. Qed.

Lemma pack16_blit buffer p v :
  0 <= p -> p + 2 <= Z.of_nat (length buffer) ->
  exists b', packer_uint16_pack buffer p v = Ok (b', p + 2) /\
             arr_blit buffer p (be16 v) = Ok b'.
Proof.
  intros Hp Hl. unfold packer_uint16_pack. autorewrite with bits. rewrite !u8_mod.
  rewrite arr_set_ok by lia. cbn [mbind res_bind].
  rewrite arr_set_ok by (rewrite length_insert; lia). cbn.
  eexists. split; [done|]. unfold be16.
  apply arr_set_blit; [|lia]. apply arr_set_blit; [|rewrite length_insert; lia].
  apply arr_blit_nil. rewrite !length_insert. lia.
Qed.

Lemma pack32_blit buffer p v :
  0 <= p -> p + 4 <= Z.of_nat (length buffer) ->
  exists b', packer_uint32_pack buffer p v = Ok (b', p + 4) /\
             arr_blit buffer p (be32 v) = Ok b'.
Proof.
  intros Hp Hl. unfold packer_uint32_pack. autorewrite with bits. rewrite !u8_mod.
  rewrite arr_set_ok by lia. cbn [mbind res_bind].
  do 3 (rewrite arr_set_ok by (rewrite ?length_insert; lia); cbn [mbind res_bind]).
  eexists. split; [done|]. unfold be32.
  apply arr_set_blit; [|lia].
  replace (p + 2) with (p + 1 + 1) by lia. replace (p + 3) with (p + 1 + 1 + 1) by lia.
  do 3 (apply arr_set_blit; [|rewrite ?length_insert; lia]).
  apply arr_blit_nil. rewrite !length_insert. lia.
Qed.

(** ** Properties *)

(** What [packer_uint32_pack] writes at an index of a buffer,
    [packer_uint32_unpack] reads back there, and both advance the pointer by
    four; nothing outside of the four bytes changes. *)
Theorem packer_uint32_roundtrip buffer p value :
  is_u32 value -> 0 <= p -> p + 4 <= Z.of_nat (length buffer) ->
  exists buffer',
    packer_uint32_pack buffer p value = Ok (buffer', p + 4) /\
    packer_uint32_unpack buffer' p = Ok (value, p + 4) /\
    length buffer' = length buffer /\
    (forall i, i < p \/ p + 4 <= i -> arr_get buffer' i = arr_get buffer i).
Proof.
  intros Hv Hp Hl. destruct (pack32_blit buffer p value Hp Hl) as (b' & E & B).
  exists b'. split; [done|]. split; [|split].
  - unfold packer_uint32_unpack. rewrite (arr_blit_get0 _ _ _ _ _ B).
    cbn [mbind res_bind].
    rewrite (arr_blit_get _ _ _ _ 1 _ B eq_refl), (arr_blit_get _ _ _ _ 2 _ B eq_refl),
      (arr_blit_get _ _ _ _ 3 _ B eq_refl) by lia.
    cbn [mbind res_bind]. autorewrite with bits. do 2 f_equal. mlia.
  - by eapply arr_blit_length.
  - intros i Hi. eapply arr_blit_frame; [done|]. cbn. lia.
Qed.

(** The 16-bit version of the round trip. *)
Theorem packer_uint16_roundtrip buffer p value :
  is_u16 value -> 0 <= p -> p + 2 <= Z.of_nat (length buffer) ->
  exists buffer',
    packer_uint16_pack buffer p value = Ok (buffer', p + 2) /\
    packer_uint16_unpack buffer' p = Ok (value, p + 2) /\
    length buffer' = length buffer /\
    (forall i, i < p \/ p + 2 <= i -> arr_get buffer' i = arr_get buffer i).
Proof.
  intros Hv Hp Hl. destruct (pack16_blit buffer p value Hp Hl) as (b' & E & B).
  exists b'. split; [done|]. split; [|split].
  - unfold packer_uint16_unpack. rewrite (arr_blit_get0 _ _ _ _ _ B).
    cbn [mbind res_bind]. rewrite (arr_blit_get _ _ _ _ 1 _ B eq_refl) by lia.
    cbn [mbind res_bind]. autorewrite with bits. do 2 f_equal. mlia.
  - by eapply arr_blit_length.
  - intros i Hi. eapply arr_blit_frame; [done|]. cbn. lia.
Qed.

(** *** Byte order conversions *)

Lemma hton16_bytes v : is_u16 v -> packer_uint16_hton v = v mod 256 * 256 + v / 256.
Proof.
  intros Hv. unfold packer_uint16_hton. autorewrite with bits.
  rewrite lor_byte1 by mlia. mlia.
Qed.

Lemma u32_digits v : is_u32 v ->
  exists a b c d, is_u8 a /\ is_u8 b /\ is_u8 c /\ is_u8 d /\
    v = a * 16777216 + b * 65536 + c * 256 + d.
Proof.
  intros Hv. exists (v / 16777216), (v / 65536 mod 256), (v / 256 mod 256), (v mod 256).
  mlia.
Qed.

Lemma hton32_digits a b c d :
  is_u8 a -> is_u8 b -> is_u8 c -> is_u8 d ->
  packer_uint32_hton (a * 16777216 + b * 65536 + c * 256 + d) =
  d * 16777216 + c * 65536 + b * 256 + a.
Proof.
  intros Ha Hb Hc Hd. unfold packer_uint32_hton. autorewrite with bits.
  set (v := a * 16777216 + b * 65536 + c * 256 + d).
  assert (v / 16777216 mod 256 = a) as -> by (subst v; mlia).
  assert (v / 256 / 256 mod 256 = b) as -> by (subst v; mlia).
  assert (u32 (v * 256) = b * 16777216 + c * 65536 + d * 256) as -> by (subst v; mlia).
  assert (u32 (v * 16777216) = d * 16777216) as -> by (subst v; mlia).
  rewrite lor_byte1 by lia.
  assert ((b * 16777216 + c * 65536 + d * 256) / 65536 mod 256 = c) as -> by mlia.
  rewrite lor_byte2 by lia.
  assert (d * 16777216 / 16777216 mod 256 = d) as -> by mlia.
  rewrite lor_byte3 by lia. lia.
Qed.

Lemma ntoh32_hton32 v : is_u32 v -> packer_uint32_ntoh (packer_uint32_hton v) = v /\ is_u32 (packer_uint32_hton v).
Proof.
  intros (a & b & c & d & Ha & Hb & Hc & Hd & ->)%u32_digits.
  unfold packer_uint32_ntoh. rewrite !hton32_digits by done. split; [done|lia].
Qed.

Lemma ntoh16_hton16 v : is_u16 v -> packer_uint16_ntoh (packer_uint16_hton v) = v /\ is_u16 (packer_uint16_hton v).
Proof.
  intros Hv. unfold packer_uint16_ntoh. pose proof (hton16_bytes v Hv) as E.
  assert (is_u16 (packer_uint16_hton v)) as Hr by (rewrite E; mlia).
  split; [|done]. rewrite (hton16_bytes _ Hr), E. mlia.
Qed.

(** Storing [packer_uint32_hton v] on the little-endian target puts in
    memory exactly the bytes [packer_uint32_pack] writes for [v], and the
    conversion is its own inverse: the two ways the program serialises a field
    agree. *)
Theorem packer_uint32_hton_wire v :
  is_u32 v ->
  le_bytes 4 (packer_uint32_hton v) = be32 v /\
  is_u32 (packer_uint32_hton v) /\
  packer_uint32_ntoh (packer_uint32_hton v) = v.
Proof.
  intros (a & b & c & d & Ha & Hb & Hc & Hd & ->)%u32_digits.
  unfold packer_uint32_ntoh. rewrite !hton32_digits by done.
  split; [|split; [lia|done]].
  unfold be32. cbn [le_bytes]. repeat (apply (f_equal2 cons); [mlia|]). done.
Qed.

Theorem packer_uint16_hton_wire v :
  is_u16 v ->
  le_bytes 2 (packer_uint16_hton v) = be16 v /\
  is_u16 (packer_uint16_hton v) /\
  packer_uint16_ntoh (packer_uint16_hton v) = v.
Proof.
  intros Hv. unfold packer_uint16_ntoh. pose proof (hton16_bytes v Hv) as E.
  assert (is_u16 (packer_uint16_hton v)) as Hr by (rewrite E; mlia).
  split; [|split; [done|]].
  - rewrite E. unfold be16. cbn [le_bytes]. repeat (apply (f_equal2 cons); [mlia|]). done.
  - rewrite (hton16_bytes _ Hr), E. mlia.
Qed.

Lemma packer_uint32_roundtrip_witness :
  exists buffer', packer_uint32_pack [1; 2; 3; 4; 5; 6] 1 0xCAFEBABE = Ok (buffer', 5) /\
    packer_uint32_unpack buffer' 1 = Ok (0xCAFEBABE, 5).
Proof.
  destruct (packer_uint32_roundtrip [1; 2; 3; 4; 5; 6] 1 0xCAFEBABE) as (b & E1 & E2 & _);
    [lia|lia|cbn; lia|].
  exists b. split; [exact E1|exact E2].
Defined.

End Packer.
