(* ===== verification/Packet.v ===== *)
(** * Packet pool, packets and packet FIFO ([lib/packet], [lib/packet.h])

    [packet_storage.packet_buffer] is an array: the packet of index [i] is the
    object at address [i] of the store [pkts], so the pointer difference
    [packet - packet_storage.packet_buffer] is the address itself. Addresses
    past the array stand for packets of other pools (the control node declares
    its own). The bitmap [packet_flags] marks the packets in use. *)

From stdpp Require Import base numbers gmap list.
From S2P Require Import Prelude Chain.

Module Packet.

(** [data] is the offset of the [data] pointer in [raw_data]. *)
Record packet := mk_packet {
  raw_data : list Z;
  data : Z;
  length_ : Z;
  next : ptr;
}.

Inductive packet_status := PACKET_SUCCESS | PACKET_CANT_MOVE.

Record storage := mk_storage {
  pool_mutex : mutex;
  packet_flags : list Z;
  packet_number : Z;
  pkts : gmap loc packet;
}.

#[global] Instance packet_linked : Linked packet.
Proof.
  refine {| next_of := next;
            set_next p k := mk_packet (raw_data k) (data k) (length_ k) p |}.
  - done.
  - by intros [].
  - done.
Defined.

Definition set_mutex (m : mutex) (s : storage) : storage :=
  mk_storage m (packet_flags s) (packet_number s) (pkts s).
Definition set_flags (f : list Z) (s : storage) : storage :=
  mk_storage (pool_mutex s) f (packet_number s) (pkts s).
Definition set_pkts (h : gmap loc packet) (s : storage) : storage :=
  mk_storage (pool_mutex s) (packet_flags s) (packet_number s) h.

(** Access to an object through a pointer. *)
Definition load (p : ptr) : M storage packet := fun s =>
  match p with
  | None => Err EUndef
  | Some l => match pkts s !! l with Some k => Ok (k, s) | None => Err EUndef end
  end.
Definition store (p : ptr) (k : packet) : M storage unit := fun s =>
  match p with
  | None => Err EUndef
  | Some l => match pkts s !! l with
              | Some _ => Ok (tt, set_pkts (<[l := k]> (pkts s)) s)
              | None => Err EUndef
              end
  end.

Definition take : M storage unit := fun s =>
  match sem_take (pool_mutex s) with Ok m => Ok (tt, set_mutex m s) | Err e => Err e end.
Definition give : M storage unit := fun s =>
  match sem_give (pool_mutex s) with Ok m => Ok (tt, set_mutex m s) | Err e => Err e end.

(** ** Flags *)

(** [1 << (index & 0x1f)] stored in a [uint32_t]. *)
Definition flag_mask (index : Z) : Z := u32 (Z.shiftl 1 (Z.land index 0x1f)).

Definition packet_flag_set (index : Z) : M storage unit := fun s =>
  match arr_get (packet_flags s) (index / 32) with
  | Ok w => match arr_set (packet_flags s) (index / 32) (Z.lor w (flag_mask index)) with
            | Ok f => Ok (tt, set_flags f s)
            | Err e => Err e
            end
  | Err e => Err e
  end.

Definition packet_flag_clear (index : Z) : M storage unit := fun s =>
  match arr_get (packet_flags s) (index / 32) with
  | Ok w => match arr_set (packet_flags s) (index / 32)
                    (Z.land w (u32 (Z.lnot (flag_mask index)))) with
            | Ok f => Ok (tt, set_flags f s)
            | Err e => Err e
            end
  | Err e => Err e
  end.

Definition packet_flag_test (index : Z) : M storage Z := fun s =>
  match arr_get (packet_flags s) (index / 32) with
  | Ok w => Ok (Z.land w (flag_mask index), s)
  | Err e => Err e
  end.

(** ** Pool operations *)

Definition packet_init : M storage unit :=
  s ← mget;
  match pool_mutex s with
  | Some _ => mret tt
  | None =>
      mmod (set_mutex (Some false)) ;;
      mfor (zseq 0 (Z.to_nat (u32 (packet_number s - 1) / 32 + 1)))
        (λ i, s ← mget; f ← mlift (arr_set (packet_flags s) i 0); mmod (set_flags f))
  end.

Definition packet_reset (p : ptr) (offset : Z) : M storage unit :=
  k ← load p;
  store p (mk_packet (raw_data k) offset 0 None).

(** [n] is the number of iterations left: [packet_number - i]. *)
Fixpoint packet_alloc_loop (n : nat) (i offset : Z) : M storage ptr :=
  match n with
  | O => give ;; mret None
  | S n =>
      t ← packet_flag_test i;
      if t =? 0 then
        packet_flag_set i ;;
        give ;;
        packet_reset (Some (Z.to_nat i)) offset ;;
        mret (Some (Z.to_nat i))
      else packet_alloc_loop n (u32 (i + 1)) offset
  end.

Definition packet_alloc (offset : Z) : M storage ptr :=
  take ;;
  n ← mgets packet_number;
  packet_alloc_loop (Z.to_nat n) 0 offset.

Definition packet_free (packet : loc) : M storage unit :=
  take ;;
  n ← mgets packet_number;
  let i := u32 (Z.of_nat packet) in
  (if i <? n then
     t ← packet_flag_test i;
     mwhen (ctrue t) (packet_flag_clear i)
   else mret tt) ;;
  give.

Fixpoint packet_available_loop (n : nat) (i count : Z) : M storage Z :=
  match n with
  | O => mret count
  | S n =>
      t ← packet_flag_test i;
      packet_available_loop n (u32 (i + 1)) (if ctrue t then count else u32 (count + 1))
  end.

Definition packet_available : M storage Z :=
  take ;;
  n ← mgets packet_number;
  count ← packet_available_loop (Z.to_nat n) 0 0;
  give ;;
  mret count.

(** ** Moving data *)

(** The loop of [packet_move_data_right]: iterations [i] to [length]. *)
Fixpoint move_loop (n : nat) (i d len shift : Z) (raw : list Z) : res (list Z) :=
  match n with
  | O => Ok raw
  | S n =>
      b ← arr_get raw (d + len - i);
      raw' ← arr_set raw (d + shift + len - i) b;
      move_loop n (i + 1) d len shift raw'
  end.

Definition packet_move_data_right `{!Build} (p : ptr) (shift : Z) : M storage packet_status :=
  k ← load p;
  if data k + length_ k + shift >? PACKET_MAX_SIZE then mret PACKET_CANT_MOVE
  else
    raw ← mlift (move_loop (Z.to_nat (length_ k)) 1 (data k) (length_ k) shift (raw_data k));
    store p (mk_packet raw (data k + shift) (length_ k) (next k)) ;;
    mret PACKET_SUCCESS.

(** ** FIFO: the head pointer is passed in and returned *)

Definition never (_ : loc) (_ : packet) : bool := false.

Definition packet_fifo_append (fifo packet : ptr) : M storage ptr :=
  take ;;
  fifo' ← match fifo with
          | None => mret packet
          | Some f =>
              s ← mget;
              tmp ← mlift (walk (S (size (pkts s))) (pkts s) never f);
              k ← load (Some tmp);
              store (Some tmp) (set_next packet k) ;;
              mret fifo
          end;
  k ← load packet;
  store packet (set_next None k) ;;
  give ;;
  mret fifo'.

(** Returns the packet and the new head. *)
Definition packet_fifo_get (fifo : ptr) : M storage (ptr * ptr) :=
  take ;;
  r ← match fifo with
      | None => mret (None, None)
      | Some _ => k ← load fifo; mret (fifo, next k)
      end;
  give ;;
  mret r.

(** ** Flags as a set of indices *)

(** Bit [i] of the bitmap: packet [i] is in use. *)
Definition in_use (s : storage) (i : Z) : bool :=
  match packet_flags s !! Z.to_nat (i / 32) with
  | Some w => Z.testbit w (i mod 32)
  | None => false
  end.

Definition flags_wf (s : storage) : Prop :=
  0 < packet_number s < 4294967296 /\
  Z.of_nat (length (packet_flags s)) = (packet_number s - 1) / 32 + 1 /\
  Forall (λ w, is_u32 w) (packet_flags s).

(** The pool between two operations: well-formed bitmap, an object for every
    index, and the mutex free. *)
Definition pool_wf (s : storage) : Prop :=
  flags_wf s /\ pool_mutex s = Some false /\
  (forall i, 0 <= i < packet_number s -> is_Some (pkts s !! Z.to_nat i)).

Lemma flag_mask_pow index : 0 <= index -> flag_mask index = 2 ^ (index mod 32).
Proof.
  intros Hi. unfold flag_mask. change 0x1f with (Z.ones 5).
  rewrite Z.land_ones, Z.shiftl_1_l by lia. change (2 ^ 5) with 32.
  apply u32_id. pose proof (Z.mod_pos_bound index 32). split.
  - apply Z.pow_nonneg. lia.
  - apply (Z.pow_lt_mono_r 2 _ 32); lia.
Qed.

Lemma flags_word s i :
  flags_wf s -> 0 <= i < packet_number s ->
  exists w, packet_flags s !! Z.to_nat (i / 32) = Some w /\
    arr_get (packet_flags s) (i / 32) = Ok w /\
    0 <= i / 32 < Z.of_nat (length (packet_flags s)) /\ is_u32 w /\
    in_use s i = Z.testbit w (i mod 32).
Proof.
  intros (Hn & Hl & Hw) Hi. assert (0 <= i / 32 < Z.of_nat (length (packet_flags s))) as Hr.
  { rewrite Hl. split; [apply Z.div_pos; lia|].
    assert (i / 32 <= (packet_number s - 1) / 32) by (apply Z.div_le_mono; lia). lia. }
  destruct (lookup_lt_is_Some_2 (packet_flags s) (Z.to_nat (i / 32))) as [w E]; [lia|].
  exists w. split_and!; [done|apply arr_get_ok; [lia|done]|lia..| | |].
  - by apply (Forall_lookup_1 _ _ _ _ Hw E).
  - by apply (Forall_lookup_1 _ _ _ _ Hw E).
  - unfold in_use. by rewrite E.
Qed.

Lemma flag_test_spec s i :
  flags_wf s -> 0 <= i < packet_number s ->
  exists t, packet_flag_test i s = Ok (t, s) /\ ctrue t = in_use s i.
Proof.
  intros Hwf Hi. destruct (flags_word s i Hwf Hi) as (w & _ & E & _ & _ & Hu).
  unfold packet_flag_test. rewrite E. eexists. split; [done|].
  rewrite flag_mask_pow, land_bit by (pose proof (Z.mod_pos_bound i 32); lia).
  rewrite Hu. unfold ctrue. destruct (Z.testbit _ _); [|done].
  destruct (Z.eqb_spec (2 ^ (i mod 32)) 0) as [H0|]; [|done].
  pose proof (Z.pow_pos_nonneg 2 (i mod 32)). pose proof (Z.mod_pos_bound i 32). lia.
Qed.

(** Writing word [i / 32] of the bitmap so that bit [i] becomes [b]. *)
Lemma flags_update s i w' b :
  flags_wf s -> 0 <= i < packet_number s -> is_u32 w' ->
  (forall w k, packet_flags s !! Z.to_nat (i / 32) = Some w -> 0 <= k ->
     Z.testbit w' k = if k =? i mod 32 then b else Z.testbit w k) ->
  let s' := set_flags (<[Z.to_nat (i / 32) := w']> (packet_flags s)) s in
  flags_wf s' /\
  forall j, 0 <= j -> in_use s' j = if j =? i then b else in_use s j.
Proof.
  intros Hwf Hi Hw' Hbits s'. destruct (flags_word s i Hwf Hi) as (w & E & _ & Hr & _ & _).
  split.
  - destruct Hwf as (Hn & Hl & Hw). split_and!; simpl; [lia..| |].
    + by rewrite length_insert.
    + by apply Forall_insert.
  - intros j Hj. unfold in_use. simpl.
    destruct (decide (j / 32 = i / 32)) as [Ej|Ej].
    + rewrite Ej, list_lookup_insert_eq, E by lia.
      rewrite (Hbits w (j mod 32) E) by (apply Z.mod_pos_bound; lia).
      destruct (Z.eqb_spec (j mod 32) (i mod 32)), (Z.eqb_spec j i); mlia || done.
    + rewrite list_lookup_insert_ne.
      * destruct (Z.eqb_spec j i) as [->|]; [done|done].
      * intros Ec. apply Ej. pose proof (Z.div_pos j 32). pose proof (Z.div_pos i 32). lia.
Qed.

Lemma flag_set_spec s i :
  flags_wf s -> 0 <= i < packet_number s ->
  exists f, packet_flag_set i s = Ok (tt, set_flags f s) /\
    flags_wf (set_flags f s) /\
    forall j, 0 <= j -> in_use (set_flags f s) j = (if j =? i then true else in_use s j).
Proof.
  intros Hwf Hi. destruct (flags_word s i Hwf Hi) as (w & E & Eg & Hr & Hw & _).
  unfold packet_flag_set. rewrite Eg, arr_set_ok by lia.
  eexists. split; [done|]. pose proof (Z.mod_pos_bound i 32).
  apply flags_update; [done|done| |].
  - apply lor_u32; [done|]. unfold flag_mask. apply u32_range.
  - intros w0 k E0 Hk. rewrite E in E0. injection E0 as <-.
    rewrite flag_mask_pow, lor_bit by lia. by destruct (k =? i mod 32).
Qed.

Lemma flag_clear_spec s i :
  flags_wf s -> 0 <= i < packet_number s ->
  exists f, packet_flag_clear i s = Ok (tt, set_flags f s) /\
    flags_wf (set_flags f s) /\
    forall j, 0 <= j -> in_use (set_flags f s) j = (if j =? i then false else in_use s j).
Proof.
  intros Hwf Hi. destruct (flags_word s i Hwf Hi) as (w & E & Eg & Hr & Hw & _).
  unfold packet_flag_clear. rewrite Eg, arr_set_ok by lia.
  eexists. split; [done|]. pose proof (Z.mod_pos_bound i 32).
  apply flags_update; [done|done| |].
  - by apply land_u32.
  - intros w0 k E0 Hk. rewrite E in E0. injection E0 as <-.
    rewrite flag_mask_pow, clear_bit by lia. by destruct (k =? i mod 32).
Qed.

(** ** Abstract pool: the set of indices in use *)

(** The smallest index of a pool of [n] packets that is not in [used]. *)
Definition least_free (n : Z) (used : gset Z) : option Z :=
  head (filter (λ i, i ∉ used) (zseq 0 (Z.to_nat n))).

Definition pool_rel (s : storage) (used : gset Z) : Prop :=
  pool_wf s /\
  (forall i, i ∈ used -> 0 <= i < packet_number s) /\
  (forall i, 0 <= i < packet_number s -> in_use s i = bool_decide (i ∈ used)).

Definition reset_packet (offset : Z) (k : packet) : packet :=
  mk_packet (raw_data k) offset 0 None.

Lemma take_free s : pool_mutex s = Some false -> take s = Ok (tt, set_mutex (Some true) s).
Proof. intros E. unfold take. by rewrite E. Qed.

Lemma give_held s b : pool_mutex s = Some b -> give s = Ok (tt, set_mutex (Some false) s).
Proof. intros E. unfold give. by rewrite E. Qed.

Lemma set_mutex_twice s m m' : set_mutex m (set_mutex m' s) = set_mutex m s.
Proof. done. Qed.

Lemma set_mutex_id s m : pool_mutex s = m -> set_mutex m s = s.
Proof. intros <-. by destruct s. Qed.

Lemma load_ok s l k : pkts s !! l = Some k -> load (Some l) s = Ok (k, s).
Proof. intros E. unfold load. by rewrite E. Qed.

Lemma store_ok s l k k' :
  pkts s !! l = Some k -> store (Some l) k' s = Ok (tt, set_pkts (<[l := k']> (pkts s)) s).
Proof. intros E. unfold store. by rewrite E. Qed.

(** The loop picks the first clear index of the interval it scans. *)
Lemma packet_alloc_loop_spec s n i offset b :
  flags_wf s -> pool_mutex s = Some b ->
  (forall j, 0 <= j < packet_number s -> is_Some (pkts s !! Z.to_nat j)) ->
  0 <= i -> i + Z.of_nat n = packet_number s ->
  match head (filter (λ j, in_use s j = false) (zseq i n)) with
  | Some j => exists f k,
      pkts s !! Z.to_nat j = Some k /\
      packet_alloc_loop n i offset s =
        Ok (Some (Z.to_nat j),
            set_pkts (<[Z.to_nat j := reset_packet offset k]> (pkts s))
              (set_mutex (Some false) (set_flags f s))) /\
      flags_wf (set_flags f s) /\
      forall j', 0 <= j' -> in_use (set_flags f s) j' = (if j' =? j then true else in_use s j')
  | None => packet_alloc_loop n i offset s = Ok (None, set_mutex (Some false) s)
  end.
Proof.
  intros Hwf Hm Hobj. revert i. induction n as [|n IH]; intros i Hi Hn.
  - cbn [packet_alloc_loop zseq]. simpl. unfold mbind, M_bind.
    by rewrite (give_held _ _ Hm).
  - rewrite zseq_S, filter_cons. cbn [packet_alloc_loop].
    destruct (flag_test_spec s i Hwf ltac:(lia)) as (t & Et & Hu).
    unfold ctrue in Hu. erewrite bind_ok by done.
    destruct (t =? 0); simpl in Hu.
    + rewrite decide_True by done. cbn [head].
      destruct (flag_set_spec s i Hwf ltac:(lia)) as (f & Ef & Hf & Hin).
      destruct (Hobj i ltac:(lia)) as [k Hk].
      exists f, k. split; [done|]. split; [|done].
      erewrite bind_ok by done. erewrite bind_ok by (by apply (give_held _ b)).
      unfold packet_reset. cbn -[flag_mask]. unfold mbind, M_bind, load, store. simpl.
      rewrite Hk. simpl. by rewrite Hk.
    + rewrite decide_False by (by rewrite <- Hu).
      destruct Hwf as (Hn' & Hrest) eqn:EW. rewrite u32_id by lia.
      apply IH; lia.
Qed.

Lemma filter_free_iff s used n :
  pool_rel s used -> n = packet_number s ->
  filter (λ j, in_use s j = false) (zseq 0 (Z.to_nat n)) =
  filter (λ i, i ∉ used) (zseq 0 (Z.to_nat n)).
Proof.
  intros (((Hn & _) & _) & _ & Hr) ->. apply filter_ext_in.
  intros j Hj%elem_of_zseq. rewrite Hr by lia. by rewrite bool_decide_eq_false.
Qed.

Lemma least_free_spec n used i :
  least_free n used = Some i -> 0 <= i < n /\ i ∉ used.
Proof.
  intros H%head_Some_elem_of. apply list_elem_of_filter in H as [Hu Hz%elem_of_zseq]. split; [lia|done].
Qed.

(** ** Properties of the pool *)

(** C38: [packet_alloc] implements the abstract pool: it hands out the smallest
    index that is not in use, marks exactly that index, resets that packet with
    the requested offset and touches no other object; when every packet is in
    use it returns NULL and changes nothing. The mutex is free again in both
    cases. *)
Theorem packet_alloc_refines s used offset :
  pool_rel s used ->
  match least_free (packet_number s) used with
  | Some i => exists k s',
      packet_alloc offset s = Ok (Some (Z.to_nat i), s') /\
      (i ∉ used) /\ pool_rel s' ({[i]} ∪ used) /\
      pkts s !! Z.to_nat i = Some k /\
      pkts s' = <[Z.to_nat i := reset_packet offset k]> (pkts s)
  | None => packet_alloc offset s = Ok (None, s)
  end.
Proof.
  intros Hrel. pose proof Hrel as ((Hwf & Hm & Hobj) & Hsub & Hin).
  unfold packet_alloc. erewrite bind_ok by (by apply take_free). mrun.
  simpl packet_number.
  pose proof (packet_alloc_loop_spec (set_mutex (Some true) s) (Z.to_nat (packet_number s)) 0
                offset true Hwf eq_refl Hobj) as HL.
  unfold least_free. rewrite <- (filter_free_iff s used _ Hrel eq_refl).
  specialize (HL ltac:(lia) ltac:(destruct Hwf; simpl; lia)).
  change (in_use (set_mutex (Some true) s)) with (in_use s) in HL.
  destruct (head _) as [i|] eqn:Eh.
  - destruct HL as (f & k & Hk & E & Hf & Hu). simpl in *. rewrite E.
    assert (0 <= i < packet_number s /\ i ∉ used) as [Hi Hiu].
    { apply least_free_spec. unfold least_free. by rewrite <- (filter_free_iff s). }
    eexists k, _. split; [done|]. split; [done|]. split; [|done].
    split; [split; [done|split; [done|]]|split]; simpl.
    + intros j Hj. rewrite lookup_insert_is_Some. destruct (decide (Z.to_nat i = Z.to_nat j)); auto.
    + intros j [->%elem_of_singleton|Hj]%elem_of_union; [done|auto].
    + intros j Hj. change (in_use _ j) with (in_use (set_flags f (set_mutex (Some true) s)) j).
      rewrite Hu by lia.
      destruct (Z.eqb_spec j i) as [->|Hne]; [by rewrite bool_decide_true by set_solver|].
      rewrite Hin by done. apply bool_decide_ext. set_solver.
  - rewrite HL, set_mutex_twice. by rewrite set_mutex_id.
Qed.

(** [packet_free] removes exactly the index of the packet from the pool;
    freeing a packet that is not in use, or an address that is not one of the
    pool, changes nothing (the code logs it). The objects are not touched. *)
Theorem packet_free_refines s used l :
  pool_rel s used -> Z.of_nat l < 4294967296 ->
  exists s', packet_free l s = Ok (tt, s') /\
    pool_rel s' (used ∖ {[Z.of_nat l]}) /\ pkts s' = pkts s /\
    (Z.of_nat l ∉ used -> s' = s).
Proof.
  intros Hrel Hl. pose proof Hrel as ((Hwf & Hm & Hobj) & Hsub & Hin).
  unfold packet_free. erewrite bind_ok by (by apply take_free). mrun.
  rewrite u32_id by lia. simpl packet_number.
  destruct (Z.ltb_spec (Z.of_nat l) (packet_number s)) as [Hlt|Hge].
  - destruct (flag_test_spec (set_mutex (Some true) s) (Z.of_nat l) Hwf ltac:(simpl; lia))
      as (t & Et & Hu). mrun. mstep Et. rewrite Hu.
    change (in_use (set_mutex (Some true) s)) with (in_use s).
    rewrite Hin by lia.
    destruct (bool_decide_reflect (Z.of_nat l ∈ used)) as [Hi|Hi]; cbn [mwhen].
    + destruct (flag_clear_spec (set_mutex (Some true) s) (Z.of_nat l) Hwf ltac:(simpl; lia))
        as (f & Ef & Hf & Huf). mstep Ef.
      eexists. cbn [give sem_give set_flags pool_mutex set_mutex]. split; [done|]. split; [|done].
      split; [done|split]; simpl; [set_solver|].
      intros j Hj. change (in_use _ j) with (in_use (set_flags f (set_mutex (Some true) s)) j).
      rewrite Huf by lia. change (in_use (set_mutex _ s) j) with (in_use s j).
      destruct (Z.eqb_spec j (Z.of_nat l)) as [->|Hne].
      * symmetry. apply bool_decide_false. set_solver.
      * rewrite Hin by done. apply bool_decide_ext. set_solver.
    + exists s. mrun. rewrite (give_held _ true), set_mutex_twice, set_mutex_id by done.
      split; [done|].
      replace (used ∖ {[Z.of_nat l]}) with used by set_solver. done.
  - exists s. mrun. rewrite (give_held _ true), set_mutex_twice, set_mutex_id by done.
    split; [done|].
    replace (used ∖ {[Z.of_nat l]}) with used; [done|].
    assert (Z.of_nat l ∉ used) by (intros ?%Hsub; lia). set_solver.
Qed.

Lemma packet_available_loop_spec s n i count :
  flags_wf s -> 0 <= i -> i + Z.of_nat n = packet_number s ->
  0 <= count -> count + Z.of_nat n < 4294967296 ->
  packet_available_loop n i count s =
    Ok (count + Z.of_nat (length (filter (λ j, in_use s j = false) (zseq i n))), s).
Proof.
  intros Hwf. revert i count. induction n as [|n IH]; intros i count Hi Hn Hc Hb.
  - simpl. by rewrite Z.add_0_r.
  - rewrite zseq_S, filter_cons. cbn [packet_available_loop].
    destruct (flag_test_spec s i Hwf ltac:(lia)) as (t & Et & Hu).
    erewrite bind_ok by done. rewrite Hu. destruct Hwf as (Hn' & Hw).
    rewrite u32_id by lia. rewrite IH; [|lia..|destruct (in_use s i); mlia|
                                        destruct (in_use s i); mlia].
    destruct (in_use s i); simpl; [done|]. rewrite u32_id by lia. do 2 f_equal. lia.
Qed.

(** [packet_available] counts the packets that are not in use. *)
Theorem packet_available_count s used :
  pool_rel s used ->
  packet_available s = Ok (packet_number s - Z.of_nat (size used), s).
Proof.
  intros Hrel. pose proof Hrel as ((Hwf & Hm & Hobj) & Hsub & Hin).
  unfold packet_available. mstep (take_free _ Hm). simpl packet_number.
  pose proof Hwf as (Hn & _).
  erewrite bind_ok by (apply packet_available_loop_spec; [done|simpl; lia..]).
  mstep (give_held (set_mutex (Some true) s) true eq_refl).
  change (in_use (set_mutex (Some true) s)) with (in_use s).
  rewrite (filter_free_iff s used _ Hrel eq_refl), zseq_filter_size.
  - rewrite set_mutex_twice, set_mutex_id by done. unfold mret, M_ret. do 2 f_equal. lia.
  - intros j Hj%Hsub. lia.
Qed.

Lemma clear_flags_spec s a n :
  (a + n = length (packet_flags s))%nat ->
  mfor (zseq (Z.of_nat a) n)
    (λ i, s ← mget; f ← mlift (arr_set (packet_flags s) i 0); mmod (set_flags f)) s =
  Ok (tt, set_flags (firstn a (packet_flags s) ++ replicate n 0) s).
Proof.
  revert a s. induction n as [|n IH]; intros a s Hl.
  - cbn. rewrite app_nil_r, firstn_all2 by lia. by destruct s.
  - rewrite zseq_S. cbn [mfor]. mrun. rewrite arr_set_ok by lia. cbn beta iota. mrun.
    replace (Z.of_nat a + 1) with (Z.of_nat (S a)) by lia.
    rewrite IH by (simpl; rewrite length_insert; lia). simpl. do 2 f_equal.
    unfold set_flags. simpl. f_equal. rewrite Nat2Z.id.
    rewrite (take_S_r _ _ 0) by (apply list_lookup_insert_eq; lia).
    rewrite take_insert_ge, <- app_assoc by lia. done.
Qed.

(** [packet_init] brings a freshly loaded storage, whatever its bitmap
    contains, to a well-formed pool with no packet in use; a second call does
    nothing. *)
Theorem packet_init_spec s :
  pool_mutex s = None -> 0 < packet_number s < 4294967296 ->
  Z.of_nat (length (packet_flags s)) = (packet_number s - 1) / 32 + 1 ->
  (forall i, 0 <= i < packet_number s -> is_Some (pkts s !! Z.to_nat i)) ->
  exists s', packet_init s = Ok (tt, s') /\ pool_rel s' ∅ /\ pkts s' = pkts s /\
    packet_init s' = Ok (tt, s').
Proof.
  intros Hm Hn Hl Hobj. unfold packet_init at 1. mrun. rewrite Hm. mrun.
  rewrite u32_id, <- Hl, Nat2Z.id by lia.
  rewrite (clear_flags_spec (set_mutex (Some false) s) 0) by done.
  eexists. split; [done|]. split; [|done]. simpl.
  split; [split_and!; simpl|split].
  - split_and!; simpl; [lia..| |].
    + by rewrite length_replicate.
    + by apply Forall_replicate.
  - done.
  - done.
  - set_solver.
  - intros i Hi. unfold in_use. simpl.
    destruct (replicate _ 0 !! _) as [w|] eqn:E; [|done].
    apply lookup_replicate in E as [-> _]. apply Z.bits_0.
Qed.

(** ** Moving the payload *)

(** The bytes of interest lie inside of [raw_data]. *)
Definition packet_wf `{!Build} (k : packet) : Prop :=
  Z.of_nat (length (raw_data k)) = PACKET_MAX_SIZE /\
  0 <= data k /\ 0 <= length_ k /\ data k + length_ k <= PACKET_MAX_SIZE.

(** The bytes of interest. *)
Definition payload (k : packet) : res (list Z) :=
  arr_slice (raw_data k) (data k) (length_ k).

Lemma move_loop_spec n i d len shift raw :
  Z.of_nat n = len + 1 - i -> 1 <= i -> 0 <= shift -> 0 <= d ->
  d + shift + len <= Z.of_nat (length raw) ->
  exists raw', move_loop n i d len shift raw = Ok raw' /\ length raw' = length raw /\
    forall k, 0 <= k ->
      arr_get raw' k =
      if decide (d + shift <= k < d + shift + Z.of_nat n) then arr_get raw (k - shift)
      else arr_get raw k.
Proof.
  revert i raw. induction n as [|n IH]; intros i raw Hn Hi Hs Hd Hl.
  - exists raw. split_and!; [done|done|]. intros k Hk. by rewrite decide_False by lia.
  - cbn [move_loop]. destruct (arr_get_lt raw (d + len - i)) as [b Hb]; [lia|].
    rewrite Hb. cbn [mbind res_bind]. rewrite arr_set_ok by lia. cbn [mbind res_bind].
    destruct (IH (i + 1) (<[Z.to_nat (d + shift + len - i) := b]> raw))
      as (raw' & E & Hlen & Hk); [lia..|rewrite length_insert; lia|].
    exists raw'. rewrite length_insert in Hlen. split_and!; [done|done|].
    intros k Hk0. rewrite Hk by done. repeat case_decide; try lia.
    + rewrite arr_get_insert by lia. destruct (Z.eqb_spec (k - shift) (d + shift + len - i)); [lia|done].
    + rewrite arr_get_insert by lia. destruct (Z.eqb_spec k (d + shift + len - i)); [|lia].
      subst k. rewrite <- Hb. f_equal. lia.
    + rewrite arr_get_insert by lia. destruct (Z.eqb_spec k (d + shift + len - i)); [lia|done].
Qed.

(** [packet_move_data_right] either refuses, exactly when the shifted
    payload would not fit in the buffer, and then changes nothing, or makes
    room of [shift] bytes before a payload with the same bytes, although source
    and destination overlap; the bytes before the old payload, the other
    packets and the FIFO link are untouched. *)
Theorem packet_move_data_right_spec `{!Build} s l k shift :
  pkts s !! l = Some k -> packet_wf k -> 0 <= shift < 65536 ->
  if data k + length_ k + shift >? PACKET_MAX_SIZE
  then packet_move_data_right (Some l) shift s = Ok (PACKET_CANT_MOVE, s)
  else exists k',
    packet_move_data_right (Some l) shift s =
      Ok (PACKET_SUCCESS, set_pkts (<[l := k']> (pkts s)) s) /\
    packet_wf k' /\ payload k' = payload k /\ data k' = data k + shift /\
    length_ k' = length_ k /\ next k' = next k /\
    (forall i, 0 <= i < data k -> arr_get (raw_data k') i = arr_get (raw_data k) i).
Proof.
  intros Hk (Hr & Hd & Hlen & Hfit) Hs. unfold packet_move_data_right.
  mstep (load_ok _ _ _ Hk). destruct (Z.gtb_spec (data k + length_ k + shift) PACKET_MAX_SIZE) as [|Hle]; [done|].
  destruct (move_loop_spec (Z.to_nat (length_ k)) 1 (data k) (length_ k) shift (raw_data k))
    as (raw & E & Hraw & Hget); [lia..|]. mrun. rewrite E.
  exists (mk_packet raw (data k + shift) (length_ k) (next k)).
  split; [by erewrite bind_ok by (by apply (store_ok _ l k))|].
  unfold packet_wf, payload. split_and!; simpl; try done; try lia.
  - apply arr_slice_ext; [lia..|]. intros j Hj. rewrite Hget by lia.
    rewrite decide_True by lia. f_equal. lia.
  - intros i Hi. rewrite Hget by lia. by rewrite decide_False by lia.
Qed.

(** ** The FIFO as a queue of addresses *)

Inductive fifo_op := FAppend (l : loc) | FGet.

(** Running operations on the store; the outputs are the packets got. *)
Fixpoint fifo_run (ops : list fifo_op) (fifo : ptr) : M storage (list ptr * ptr) :=
  match ops with
  | [] => mret ([], fifo)
  | FAppend l :: ops => fifo' ← packet_fifo_append fifo (Some l); fifo_run ops fifo'
  | FGet :: ops =>
      r ← packet_fifo_get fifo;
      r' ← fifo_run ops r.2;
      mret (r.1 :: r'.1, r'.2)
  end.

(** The abstract queue. *)
Fixpoint queue_run (ops : list fifo_op) (xs : list loc) : list ptr * list loc :=
  match ops with
  | [] => ([], xs)
  | FAppend l :: ops => queue_run ops (xs ++ [l])
  | FGet :: ops => let r := queue_run ops (tail xs) in (head xs :: r.1, r.2)
  end.

(** The caller appends packets that exist and are not queued already. *)
Fixpoint ops_ok (h : gmap loc packet) (ops : list fifo_op) (xs : list loc) : Prop :=
  match ops with
  | [] => True
  | FAppend l :: ops => l ∉ xs /\ is_Some (h !! l) /\ ops_ok h ops (xs ++ [l])
  | FGet :: ops => ops_ok h ops (tail xs)
  end.

Lemma give_after s h :
  pool_mutex s = Some false ->
  give (set_pkts h (set_mutex (Some true) s)) = Ok (tt, set_pkts h s).
Proof. destruct s. simpl. by intros ->. Qed.

Lemma packet_fifo_append_spec s fifo xs l :
  pool_mutex s = Some false -> chain (pkts s) fifo xs -> l ∉ xs -> is_Some (pkts s !! l) ->
  exists fifo' h, packet_fifo_append fifo (Some l) s = Ok (fifo', set_pkts h s) /\
    chain h fifo' (xs ++ [l]) /\ same_but_next (pkts s) h.
Proof.
  intros Hm Hc Hl [k Hk]. unfold packet_fifo_append. mstep (take_free _ Hm).
  destruct fifo as [f|].
  - destruct (chain_some _ _ _ Hc) as (kf & ys & -> & _ & _).
    pose proof (chain_length _ _ _ Hc) as Hlen.
    destruct (walk_spec (S (size (pkts s))) (pkts s) never f ys Hc ltac:(simpl in Hlen; lia))
      as (pre & y & zs & a & Ex & Ew & Ha & Hz & _ & Hstop).
    assert (zs = []) as ->.
    { destruct zs as [|z zs]; [done|]. destruct Hz as (Hn & b & Hb & _).
      by specialize (Hstop z b eq_refl Hb). }
    rewrite Ex in Hc, Hl |- *. mrun. simpl pkts. mstep Ew.
    mstep (load_ok (set_mutex (Some true) s) y a Ha).
    mstep (store_ok (set_mutex (Some true) s) y a (set_next (Some l) a) Ha).
    assert (y <> l) as Hyl by set_solver.
    assert (<[y := set_next (Some l) a]> (pkts s) !! l = Some k) as Hk'
      by (by rewrite lookup_insert_ne).
    mstep (load_ok (set_pkts (<[y := set_next (Some l) a]> (pkts s)) (set_mutex (Some true) s)) l k Hk').
    erewrite bind_ok by (by apply (store_ok _ l k)).
    erewrite bind_ok by (by apply (give_after s)).
    eexists _, _. split; [done|]. split.
    + rewrite <- app_assoc. simpl.
      destruct (link_after_spec _ _ _ _ _ l a k Hc Hl Ha Hk) as (h' & _ & Hch & ->).
      apply chain_null_next in Hz. rewrite Hz in Hch.
      by rewrite insert_insert_ne by done.
    + eapply same_but_next_trans; by apply same_but_next_insert.
  - apply chain_null in Hc as ->. mrun.
    mstep (load_ok (set_mutex (Some true) s) l k Hk).
    mstep (store_ok (set_mutex (Some true) s) l k (set_next None k) Hk).
    erewrite bind_ok by (by apply (give_after s)).
    eexists _, _. split; [done|]. split; [|by apply same_but_next_insert].
    by apply (chain_push (pkts s) None []).
Qed.

Lemma packet_fifo_get_spec s fifo xs :
  pool_mutex s = Some false -> chain (pkts s) fifo xs ->
  exists fifo', packet_fifo_get fifo s = Ok ((head xs, fifo'), s) /\
    chain (pkts s) fifo' (tail xs).
Proof.
  intros Hm Hc. unfold packet_fifo_get. mstep (take_free _ Hm).
  destruct fifo as [f|].
  - destruct (chain_some _ _ _ Hc) as (kf & ys & -> & Hf & Hys). mrun.
    mstep (load_ok (set_mutex (Some true) s) f kf Hf).
    mstep (give_held (set_mutex (Some true) s) true eq_refl).
    rewrite set_mutex_twice, set_mutex_id by done. by eexists.
  - apply chain_null in Hc as ->. mrun. mstep (give_held (set_mutex (Some true) s) true eq_refl).
    rewrite set_mutex_twice, set_mutex_id by done. by eexists.
Qed.

(** C39: any sequence of appends and gets on a packet FIFO, starting from a
    well-formed chain, behaves as the abstract first-in first-out queue: the
    same packets come out in the same order, the operations always return, and
    only the links of the packets change. *)
Theorem packet_fifo_refines ops s fifo xs :
  pool_mutex s = Some false -> chain (pkts s) fifo xs -> ops_ok (pkts s) ops xs ->
  exists fifo' h,
    fifo_run ops fifo s = Ok (((queue_run ops xs).1, fifo'), set_pkts h s) /\
    chain h fifo' (queue_run ops xs).2 /\ same_but_next (pkts s) h.
Proof.
  revert s fifo xs. induction ops as [|[l|] ops IH]; intros s fifo xs Hm Hc Hok.
  - exists fifo, (pkts s). split; [by destruct s|]. by split.
  - destruct Hok as (Hl & Hd & Hok).
    destruct (packet_fifo_append_spec s fifo xs l Hm Hc Hl Hd) as (fifo1 & h1 & E1 & Hc1 & Hs1).
    cbn [fifo_run queue_run]. mstep E1.
    destruct (IH (set_pkts h1 s) fifo1 (xs ++ [l])) as (fifo2 & h2 & E2 & Hc2 & Hs2);
      [done|done| |].
    { simpl. clear -Hok Hs1. revert Hok. generalize (xs ++ [l]).
      induction ops as [|[m|] ops IHo]; intros ys; simpl; [done| |apply IHo].
      intros (? & ? & ?). split_and!; [done|by eapply same_but_next_dom|by apply IHo]. }
    exists fifo2, h2. split; [done|]. split; [done|]. by eapply same_but_next_trans.
  - destruct (packet_fifo_get_spec s fifo xs Hm Hc) as (fifo1 & E1 & Hc1).
    cbn [fifo_run queue_run]. mstep E1.
    destruct (IH s fifo1 (tail xs)) as (fifo2 & h2 & E2 & Hc2 & Hs2); [done..|].
    cbn [fst snd]. mstep E2. exists fifo2, h2. done.
Qed.

(** *** Concrete instances *)

(** A pool of three packets, the first in use. *)
#[local] Existing Instance default_build.
Definition packet0 : packet := mk_packet (replicate 128 0) 4 6 None.
Definition pool3 : storage :=
  mk_storage (Some false) [1] 3 {[0%nat := packet0; 1%nat := packet0; 2%nat := packet0]}.

Lemma pool3_rel : pool_rel pool3 {[0]}.
Proof.
  assert (forall i, 0 <= i < 3 -> i = 0 \/ i = 1 \/ i = 2) as Hc by (intros; lia).
  split; [split; [split_and!|split]|split].
  - cbn. lia.
  - cbn. lia.
  - reflexivity.
  - apply Forall_singleton. lia.
  - reflexivity.
  - intros i Hi. destruct (Hc i Hi) as [->|[->| ->]]; by eexists.
  - intros i ->%elem_of_singleton. cbn. lia.
  - intros i Hi. destruct (Hc i Hi) as [->|[->| ->]]; reflexivity.
Qed.

Lemma packet_alloc_refines_witness :
  exists s', packet_alloc 2 pool3 = Ok (Some 1%nat, s') /\ pool_rel s' ({[1]} ∪ {[0]}).
Proof.
  destruct (packet_alloc_refines pool3 {[0]} 2 pool3_rel) as (k & s' & E & _ & Hrel & _).
  exists s'. split; [exact E|exact Hrel].
Defined.

Lemma packet_free_refines_witness :
  exists s', packet_free 0 pool3 = Ok (tt, s') /\ pool_rel s' ({[0]} ∖ {[0]}).
Proof.
  destruct (packet_free_refines pool3 {[0]} 0 pool3_rel ltac:(lia)) as (s' & E & Hrel & _).
  exists s'. split; [exact E|exact Hrel].
Defined.

Lemma packet_move_data_right_spec_witness :
  exists k', packet_move_data_right (Some 0%nat) 5 pool3 =
      Ok (PACKET_SUCCESS, set_pkts (<[0%nat := k']> (pkts pool3)) pool3) /\ data k' = 9.
Proof.
  destruct (packet_move_data_right_spec pool3 0 packet0 5) as (k' & E & _ & _ & Hd & _);
    [reflexivity|by split_and!|lia|].
  exists k'. split; [exact E|exact Hd].
Defined.

Lemma packet_fifo_refines_witness :
  exists fifo' h,
    fifo_run [FAppend 2%nat; FAppend 0%nat; FGet; FAppend 1%nat; FGet] None pool3 =
      Ok (([Some 2%nat; Some 0%nat], fifo'), set_pkts h pool3) /\ chain h fifo' [1%nat].
Proof.
  destruct (packet_fifo_refines [FAppend 2%nat; FAppend 0%nat; FGet; FAppend 1%nat; FGet] pool3 None [])
    as (fifo' & h & E & Hc & _); [reflexivity|reflexivity| |].
  { cbn. split_and!; try set_solver; by eexists. }
  exists fifo', h. split; [exact E|exact Hc].
Defined.

End Packet.
