(* ===== verification/Event.v ===== *)
(** * Event queues ([lib/event], [lib/event.h])

    Two tasks of different priorities each execute, in order, the handlers
    posted to their queue. The queues are FreeRTOS queues of
    [EVENT_QUEUE_LENGTH] entries: a bounded first-in first-out buffer, [None]
    before it is created. A posted handler is an element of the type [H] of the
    handlers of the application; its argument, a [void *], is an integer, NULL
    being 0. *)

From stdpp Require Import base numbers gmap list.
From S2P Require Import Prelude.

Module Event.

Inductive event_queue := EVENT_QUEUE_APPLI | EVENT_QUEUE_NETWORK.
Inductive event_status := EVENT_OK | EVENT_FULL.

#[global] Instance event_queue_eq_dec : EqDecision event_queue.
Proof. solve_decision. Defined.

Section event.
Context {H : Type} {build : Build}.

Record queue_entry := mk_entry { event : H; event_arg : Z }.

Record events := mk_events {
  queues : event_queue -> option (list queue_entry);
  tasks : event_queue -> bool;
  current_entries : event_queue -> option queue_entry;
}.

Definition upd {A} (q : event_queue) (a : A) (f : event_queue -> A) : event_queue -> A :=
  fun q' => if decide (q = q') then a else f q'.

Definition set_queue (q : event_queue) (l : option (list queue_entry)) (s : events) : events :=
  mk_events (upd q l (queues s)) (tasks s) (current_entries s).
Definition set_task (q : event_queue) (b : bool) (s : events) : events :=
  mk_events (queues s) (upd q b (tasks s)) (current_entries s).
Definition set_current (q : event_queue) (e : option queue_entry) (s : events) : events :=
  mk_events (queues s) (tasks s) (upd q e (current_entries s)).

(** State of the library when the program is loaded. *)
Definition events0 : events := mk_events (fun _ => None) (fun _ => false) (fun _ => None).

(** Creating one queue and its task; [queue_ok] and [task_ok] tell whether
    the kernel has the memory for them. *)
Definition event_init_one (queue_ok task_ok : event_queue -> bool) (q : event_queue)
  : M events unit :=
  s ← mget;
  match queues s q with
  | Some _ => mret tt
  | None =>
      if queue_ok q then
        mmod (set_queue q (Some [])) ;;
        (if task_ok q then mmod (set_task q true) else mfail EHalt)
      else mfail EHalt
  end.

Definition event_init (queue_ok task_ok : event_queue -> bool) : M events unit :=
  event_init_one queue_ok task_ok EVENT_QUEUE_APPLI ;;
  event_init_one queue_ok task_ok EVENT_QUEUE_NETWORK.

(** [xQueueSendToBack] with no waiting: [true] when the entry was queued. *)
Definition queue_send (q : event_queue) (e : queue_entry) : M events bool := fun s =>
  match queues s q with
  | None => Err EUndef
  | Some l =>
      if (length l <? EVENT_QUEUE_LENGTH)%nat
      then Ok (true, set_queue q (Some (l ++ [e])) s)
      else Ok (false, s)
  end.

Definition event_post (queue : event_queue) (ev : H) (arg : Z) : M events event_status :=
  sent ← queue_send queue (mk_entry ev arg);
  if sent : bool then mret EVENT_OK
  else if EVENT_HALT_ON_POST_ERROR then mfail EHalt
  else mret EVENT_FULL.

(** The interrupt version differs by the request to switch task, which is
    not part of this state. *)
Definition event_post_from_isr (queue : event_queue) (ev : H) (arg : Z)
  : M events event_status :=
  sent ← queue_send queue (mk_entry ev arg);
  if sent : bool then mret EVENT_OK
  else if EVENT_HALT_ON_POST_ERROR then mfail EHalt
  else mret EVENT_FULL.

(** [xQueueReceive] without time limit. *)
Definition queue_receive (q : event_queue) : M events queue_entry := fun s =>
  match queues s q with
  | None => Err EUndef
  | Some [] => Err EBlock
  | Some (e :: l) => Ok (e, set_queue q (Some l) s)
  end.

(** ** The task loop, in the state [S] of the application *)

Section task.
Context {S : Type} `{!Lens S events}.
(** What calling a handler does. *)
Variable run : H -> Z -> M S unit.

(** One iteration of the loop of [event_task]; returns the entry called. *)
Definition event_task_iter (num : event_queue) : M S queue_entry :=
  mzoom (mmod (set_current num None)) ;;
  e ← mzoom (queue_receive num);
  mzoom (mmod (set_current num (Some e))) ;;
  run (event e) (event_arg e) ;;
  mret e.

(** [k] iterations. *)
Fixpoint event_task (num : event_queue) (k : nat) : M S (list queue_entry) :=
  match k with
  | O => mret []
  | Datatypes.S k => e ← event_task_iter num; es ← event_task num k; mret (e :: es)
  end.
End task.
End event.

Arguments queue_entry H : clear implicits.
Arguments events H : clear implicits.

(** ** Posting *)

Section post.
Context {H : Type} {build : Build}.
Implicit Types (s : events H) (l : list (queue_entry H)).

Lemma queue_set_same q (o : option (list (queue_entry H))) s :
  queues (set_queue q o s) q = o.
Proof. simpl. unfold upd. by rewrite decide_True. Qed.

Lemma queue_set_other q q' (o : option (list (queue_entry H))) s :
  q <> q' -> queues (set_queue q o s) q' = queues s q'.
Proof. intros. simpl. unfold upd. by rewrite decide_False. Qed.

Lemma event_post_ok q ev arg s l :
  queues s q = Some l -> (length l < EVENT_QUEUE_LENGTH)%nat ->
  event_post q ev arg s = Ok (EVENT_OK, set_queue q (Some (l ++ [mk_entry ev arg])) s).
Proof.
  intros E Hl. unfold event_post, mbind, M_bind, queue_send. rewrite E.
  by destruct (Nat.ltb_spec (length l) EVENT_QUEUE_LENGTH); [|lia].
Qed.

(** [event_init] creates both queues, empty, with their tasks, on a
    freshly loaded node; when the kernel cannot create one of them the node
    halts; and once they exist a further call changes nothing. *)
Theorem event_init_spec (queue_ok task_ok : event_queue -> bool) :
  match @event_init H queue_ok task_ok events0 with
  | Ok (_, s') =>
      (forall q, queue_ok q = true /\ task_ok q = true) /\
      (forall q, queues s' q = Some [] /\ tasks s' q = true) /\
      (forall qo to, event_init qo to s' = Ok (tt, s'))
  | Err e => e = EHalt /\ exists q, queue_ok q = false \/ task_ok q = false
  end.
Proof.
  unfold event_init, event_init_one, mbind, M_bind. simpl.
  destruct (queue_ok EVENT_QUEUE_APPLI) eqn:Q0; simpl; [|eauto].
  destruct (task_ok EVENT_QUEUE_APPLI) eqn:T0; simpl; [|eauto].
  destruct (queue_ok EVENT_QUEUE_NETWORK) eqn:Q1; simpl; [|eauto].
  destruct (task_ok EVENT_QUEUE_NETWORK) eqn:T1; simpl; [|eauto].
  split; [by intros []|]. split; [by intros []|]. done.
Qed.

(** Posting to a created queue appends the event behind all the events
    posted before when there is room. When all entries are taken, the queue is
    unchanged and the caller gets [EVENT_FULL], or the node halts if it was built
    with [EVENT_HALT_ON_POST_ERROR], which is the default. *)
Theorem event_post_bounded q ev arg s l :
  queues s q = Some l ->
  event_post q ev arg s =
    (if (length l <? EVENT_QUEUE_LENGTH)%nat
     then Ok (EVENT_OK, set_queue q (Some (l ++ [mk_entry ev arg])) s)
     else if EVENT_HALT_ON_POST_ERROR then Err EHalt else Ok (EVENT_FULL, s)) /\
  event_post_from_isr q ev arg s = event_post q ev arg s.
Proof.
  intros E. unfold event_post_from_isr, event_post, mbind, M_bind, queue_send. rewrite E.
  destruct (length l <? EVENT_QUEUE_LENGTH)%nat; [done|]. by destruct EVENT_HALT_ON_POST_ERROR.
Qed.
End post.

(** ** Order of execution *)

Section order.
Context {H S : Type} `{!Lens S (events H)}.
Variable run : H -> Z -> M S unit.
Variable q : event_queue.

Definition pending (s : S) : option (list (queue_entry H)) := queues (view s) q.

(** Handlers return, and touch the queue only by posting to it. *)
Hypothesis run_posts : forall h a s l,
  pending s = Some l -> exists s' p, run h a s = Ok (tt, s') /\ pending s' = Some (l ++ p).

Lemma event_task_iter_spec s e l :
  pending s = Some (e :: l) ->
  exists s' p, event_task_iter run q s = Ok (e, s') /\ pending s' = Some (l ++ p).
Proof.
  unfold pending. intros Hl. unfold event_task_iter.
  erewrite bind_ok by (by apply zoom_ok).
  erewrite bind_ok by (apply zoom_ok; rewrite view_over; unfold queue_receive; simpl;
    rewrite Hl; reflexivity).
  erewrite bind_ok by (by apply zoom_ok). rewrite !over_over, view_over.
  set (s1 := over _ s).
  destruct (run_posts (event e) (event_arg e) s1 l) as (s' & p & E & Hp).
  { subst s1. unfold pending. rewrite view_over. simpl. unfold upd. by rewrite decide_True. }
  erewrite bind_ok by exact E. by exists s', p.
Qed.

(** Events are executed in the order they were posted: with [k] events or
    more queued, [k] iterations of the task loop return, they have called the
    first [k] entries in order, and the queue holds the others followed by the
    entries posted meanwhile. No event is lost, duplicated or overtaken. *)
Theorem event_task_fifo k s l :
  pending s = Some l -> (k <= length l)%nat ->
  exists s' posted, event_task run q k s = Ok (take k l, s') /\
    pending s' = Some (drop k l ++ posted).
Proof using run_posts.
  revert s l. induction k as [|k IH]; intros s l Hl Hk.
  - exists s, []. split; [done|]. by rewrite drop_0, app_nil_r.
  - destruct l as [|e l]; simpl in Hk; [lia|].
    destruct (event_task_iter_spec s e l Hl) as (s1 & p & E1 & Hp).
    destruct (IH s1 (l ++ p) Hp) as (s' & posted & E & Hrest); [rewrite length_app; lia|].
    exists s', (p ++ posted). split.
    + cbn [event_task]. erewrite bind_ok by exact E1. erewrite bind_ok by exact E.
      by rewrite take_app_le by lia.
    + rewrite Hrest. by rewrite drop_app_le, app_assoc by lia.
Qed.
End order.

(** *** Concrete instances *)

#[local] Existing Instance default_build.
#[local] Instance self_lens {H} : Lens (events H) (events H).
Proof. by refine {| view := id; over := λ t _, t |}. Defined.

(** An application queue with two events, and a handler that posts the next
    event when it is given an even argument and there is room. *)
Definition two_events : events nat :=
  mk_events (λ _, Some [mk_entry 7%nat 4; mk_entry 8%nat 5]) (λ _, true) (λ _, None).
Definition repost (h : nat) (a : Z) : M (events nat) unit := fun s =>
  match queues s EVENT_QUEUE_APPLI with
  | Some l => if Z.even a && (length l <? EVENT_QUEUE_LENGTH)%nat
              then Ok (tt, set_queue EVENT_QUEUE_APPLI (Some (l ++ [mk_entry h (a + 1)])) s)
              else Ok (tt, s)
  | None => Ok (tt, s)
  end.

Lemma event_post_bounded_witness :
  event_post EVENT_QUEUE_NETWORK 9%nat 6 two_events =
    Ok (EVENT_OK, set_queue EVENT_QUEUE_NETWORK
      (Some [mk_entry 7%nat 4; mk_entry 8%nat 5; mk_entry 9%nat 6]) two_events).
Proof.
  exact (proj1 (event_post_bounded EVENT_QUEUE_NETWORK 9%nat 6 two_events
    [mk_entry 7%nat 4; mk_entry 8%nat 5] eq_refl)).
Defined.

Lemma repost_posts h a s l :
  pending EVENT_QUEUE_APPLI s = Some l ->
  exists s' p, repost h a s = Ok (tt, s') /\ pending EVENT_QUEUE_APPLI s' = Some (l ++ p).
Proof.
  unfold pending, repost. cbn [view self_lens id]. intros E. rewrite E. case_match.
  - eexists _, _. split; [done|]. apply queue_set_same.
  - exists s, []. rewrite app_nil_r. done.
Qed.

Lemma event_task_fifo_witness :
  exists s' posted,
    event_task repost EVENT_QUEUE_APPLI 1 two_events = Ok ([mk_entry 7%nat 4], s') /\
    pending EVENT_QUEUE_APPLI s' = Some ([mk_entry 8%nat 5] ++ posted).
Proof.
  apply (event_task_fifo repost EVENT_QUEUE_APPLI repost_posts 1 two_events
    [mk_entry 7%nat 4; mk_entry 8%nat 5]); [reflexivity|cbn; lia].
Defined.

End Event.
