(* ===== verification/SoftTime.v ===== *)
(** * Time of the software timer ([lib/softtimer/soft_timer_delay.c],
      [lib/soft_timer_delay.h])

    A 16-bit hardware timer counts 32768 Hz ticks; its overflow interrupt
    increments [update_count]. A reading of the time is made of the counter,
    the pending-overflow flag and the counter again, taken with interrupts
    masked: the record [sample]. The true time, the number of ticks since boot,
    is an integer without width; the theorems relate the values the code
    computes to it. *)

From stdpp Require Import base numbers gmap list.
From S2P Require Import Prelude.

Module SoftTime.

Definition SOFT_TIMER_FREQUENCY : Z := 32768.

(** ** Conversions; C division truncates towards zero. *)

Definition soft_timer_us_to_ticks (us : Z) : Z :=
  i32 (Z.quot (us * SOFT_TIMER_FREQUENCY) 1000000).
Definition soft_timer_ms_to_ticks (ms : Z) : Z :=
  i32 (Z.quot (ms * SOFT_TIMER_FREQUENCY) 1000).

(** The two products below are computed in [int]: an overflow is undefined. *)
Definition int_checked (z : Z) : res Z :=
  if decide (-2147483648 <= z < 2147483648) then Ok z else Err EUndef.
Definition soft_timer_s_to_ticks (s : Z) : res Z :=
  int_checked (s * SOFT_TIMER_FREQUENCY).
Definition soft_timer_min_to_ticks (min : Z) : res Z :=
  m ← int_checked (min * 60);
  int_checked (m * SOFT_TIMER_FREQUENCY).

Definition soft_timer_ticks_to_us (ticks : Z) : Z :=
  i32 (Z.quot (ticks * 1000000) SOFT_TIMER_FREQUENCY).
Definition soft_timer_ticks_to_ms (ticks : Z) : Z :=
  i32 (Z.quot (ticks * 1000) SOFT_TIMER_FREQUENCY).
Definition soft_timer_ticks_to_s (ticks : Z) : Z :=
  Z.quot ticks SOFT_TIMER_FREQUENCY.
Definition soft_timer_ticks_to_min (ticks : Z) : Z :=
  Z.quot ticks (SOFT_TIMER_FREQUENCY * 60).

(** ** Reading the time *)

Record sample := mk_sample { t_a : Z; update : bool; t_b : Z }.

Record soft_timer_time_t := mk_time { update_count : Z; time16 : Z }.

(** [_soft_timer_time]: the count of overflows, plus one if one is pending. *)
Definition soft_timer_time_ (count : Z) (r : sample) : soft_timer_time_t :=
  mk_time (u32 (count + cbool (update r || (t_b r <? t_a r)))) (t_b r).

Definition soft_timer_time (count : Z) (r : sample) : Z :=
  let t := soft_timer_time_ count r in
  u32 (u32 (Z.shiftl (update_count t) 16) + time16 t).

Definition soft_timer_time_64 (count : Z) (r : sample) : Z :=
  let t := soft_timer_time_ count r in
  u64 (Z.shiftl (update_count t) 16 + time16 t).

Record soft_timer_timeval := mk_timeval { tv_sec : Z; tv_usec : Z }.

Definition soft_timer_time_extended (count : Z) (r : sample) : soft_timer_timeval :=
  let t := soft_timer_time_ count r in
  mk_timeval
    (u32 (u32 (Z.shiftl (update_count t) 1) + cbool (ctrue (Z.land (time16 t) 0x8000))))
    (u32 (soft_timer_ticks_to_us (Z.land (time16 t) 0x7FFF))).

(** [ref] is the value [soft_timer_time()] returned. *)
Definition soft_timer_convert_time (ref t : Z) : Z :=
  let n := Z.land ref 0xFFFF in
  let d := u16 (n - t) in
  let ref :=
    if n >=? t then
      if d <? 32768 then ref else u32 (ref + 0x10000)
    else
      if d <? 32768 then u32 (ref - 0x10000) else ref in
  Z.lor (Z.land ref 0xFFFF0000) t.

Definition soft_timer_a_is_before_b (a b : Z) : bool := i32 (b - a) >? 0.

(** [soft_timer_delay]: [clock] gives the successive results of
    [soft_timer_time()]; the loop returns the index of the last one read. *)
Fixpoint delay_loop (fuel : nat) (clock : nat -> Z) (i : nat) (t_end : Z) : res nat :=
  match fuel with
  | O => Err EFuel
  | S fuel =>
      if soft_timer_a_is_before_b (clock i) t_end
      then delay_loop fuel clock (S i) t_end else Ok i
  end.

Definition soft_timer_delay (fuel : nat) (clock : nat -> Z) (d : Z) : res nat :=
  delay_loop fuel clock 1 (u32 (clock 0%nat + d)).

Definition soft_timer_delay_us (fuel : nat) (clock : nat -> Z) (us : Z) : res nat :=
  soft_timer_delay fuel clock (u32 (soft_timer_us_to_ticks (i32 us))).
Definition soft_timer_delay_ms (fuel : nat) (clock : nat -> Z) (ms : Z) : res nat :=
  soft_timer_delay fuel clock (u32 (soft_timer_ms_to_ticks (i32 ms))).
Definition soft_timer_delay_s (fuel : nat) (clock : nat -> Z) (s : Z) : res nat :=
  d ← soft_timer_s_to_ticks (i32 s);
  soft_timer_delay fuel clock (u32 d).

(** ** The hardware during a reading

    The three reads happen at the true times [ta <= tf <= tb], less than one
    turn of the counter apart; interrupts being masked, [count] overflows have
    been handled and at most one is pending at [tb]. *)
Record reading (count : Z) (r : sample) (ta tf tb : Z) : Prop := {
  rd_order : 0 <= ta <= tf /\ tf <= tb < ta + 65536;
  rd_a : t_a r = ta mod 65536;
  rd_b : t_b r = tb mod 65536;
  rd_handled : count <= ta / 65536;
  rd_pending : tb / 65536 <= count + 1;
  rd_flag : update r = bool_decide (count < tf / 65536);
}.

Lemma time_exact count r ta tf tb :
  reading count r ta tf tb ->
  soft_timer_time_ count r = mk_time (u32 (tb / 65536)) (tb mod 65536).
Proof.
  intros [Ho Ha Hb Hh Hp Hf]. unfold soft_timer_time_. rewrite Hb, Hf, Ha.
  f_equal. f_equal. unfold cbool.
  destruct (bool_decide_reflect (count < tf / 65536)) as [H|H]; cbn [orb].
  - mlia.
  - destruct (Z.ltb_spec (tb mod 65536) (ta mod 65536)); mlia.
Qed.

(** Whatever the position of an overflow relative to the three reads
    (before, between or after them), [soft_timer_time] returns the true time
    of its last read modulo 2^32, and [soft_timer_time_64] the true time
    itself as long as the overflow count fits in 32 bits. *)
Theorem soft_timer_time_exact count r ta tf tb :
  reading count r ta tf tb ->
  soft_timer_time count r = u32 tb /\
  (tb < 281474976710656 -> soft_timer_time_64 count r = tb).
Proof.
  intros Hr. unfold soft_timer_time, soft_timer_time_64. rewrite (time_exact _ _ _ _ _ Hr).
  cbn [update_count time16]. autorewrite with bits. destruct Hr as [Ho _ _ _ _ _]. split.
  - mlia.
  - intros Hlt. rewrite u32_id by mlia. mlia.
Qed.

Lemma land_8000 z : 0 <= z < 65536 -> ctrue (Z.land z 0x8000) = (32768 <=? z).
Proof.
  intros Hz. change 0x8000 with (2 ^ 15). rewrite land_bit, Z.testbit_odd by lia.
  rewrite Z.shiftr_div_pow2 by lia. change (2 ^ 15) with 32768.
  destruct (Z.leb_spec 32768 z).
  - replace (z / 32768) with 1 by mlia. done.
  - replace (z / 32768) with 0 by mlia. done.
Qed.

Lemma land_7fff z : Z.land z 0x7FFF = z mod 32768.
Proof. apply (Z.land_ones z 15). lia. Qed.

(** [soft_timer_time_extended] splits the true time in whole seconds and
    the microseconds of the remaining ticks, always less than one second, for
    136 years. *)
Theorem soft_timer_time_extended_exact count r ta tf tb :
  reading count r ta tf tb -> tb < 140737488355328 ->
  soft_timer_time_extended count r =
    mk_timeval (tb / 32768) (tb mod 32768 * 1000000 / 32768) /\
  0 <= tb mod 32768 * 1000000 / 32768 < 1000000.
Proof.
  intros Hr Hlt. unfold soft_timer_time_extended. rewrite (time_exact _ _ _ _ _ Hr).
  cbn [update_count time16]. destruct Hr as [Ho _ _ _ _ _].
  rewrite land_8000, land_7fff by mlia. unfold soft_timer_ticks_to_us, SOFT_TIMER_FREQUENCY.
  rewrite (Z.shiftl_mul_pow2 _ 1) by lia. change (2 ^ 1) with 2.
  assert (tb mod 65536 mod 32768 = tb mod 32768) as -> by mlia.
  rewrite Z.quot_div_nonneg by mlia.
  split; [|mlia]. f_equal.
  - unfold cbool. destruct (Z.leb_spec 32768 (tb mod 65536)); mlia.
  - rewrite i32_id by mlia. apply u32_id. mlia.
Qed.

Lemma land_high z : is_u32 z -> Z.land z 0xFFFF0000 = z / 65536 * 65536.
Proof.
  intros Hz. change 0xFFFF0000 with (Z.shiftl (Z.ones 16) 16).
  rewrite <- (Z.shiftl_mul_pow2 _ 16), <- (Z.shiftr_div_pow2 _ 16) by lia.
  apply Z.bits_inj'. intros i Hi. rewrite Z.land_spec. destruct (decide (i < 16)).
  - rewrite !Z.shiftl_spec_low by lia. apply andb_false_r.
  - rewrite !Z.shiftl_spec, Z.shiftr_spec by lia. replace (i - 16 + 16) with i by lia.
    rewrite <- (u32_id z) by done. rewrite u32_testbit by lia.
    destruct (Z.ltb_spec i 32).
    + rewrite Z.ones_spec_low by lia. by rewrite andb_true_r.
    + done.
Qed.

(** [soft_timer_convert_time] recovers the full 32-bit time of an event
    from its 16-bit hardware timestamp, for any event from 32767 ticks before
    the reference reading to 32768 ticks after it. *)
Theorem soft_timer_convert_time_exact now ev :
  0 <= ev -> 0 <= now -> now - 32767 <= ev <= now + 32768 ->
  soft_timer_convert_time (u32 now) (ev mod 65536) = u32 ev.
Proof.
  intros He Hn Hw. unfold soft_timer_convert_time. autorewrite with bits.
  assert (u32 now mod 65536 = now mod 65536) as -> by mlia.
  set (ref' := if now mod 65536 >=? ev mod 65536 then _ else _).
  assert (is_u32 ref' /\ ref' / 65536 = u32 ev / 65536) as [Hr He'].
  { subst ref'. destruct (Z.geb_spec (now mod 65536) (ev mod 65536));
      destruct (Z.ltb_spec (u16 (now mod 65536 - ev mod 65536)) 32768); mlia. }
  rewrite land_high, He', Z.lor_comm, lor_byte2 by mlia. mlia.
Qed.

Lemma before_true a b :
  Z.abs (b - a) < 2147483648 ->
  soft_timer_a_is_before_b (u32 a) (u32 b) = bool_decide (a < b).
Proof.
  intros H. unfold soft_timer_a_is_before_b.
  assert (i32 (u32 b - u32 a) = b - a) as -> by mlia.
  destruct (Z.gtb_spec (b - a) 0), (bool_decide_reflect (a < b)); (done || lia).
Qed.

(** Comparing two 32-bit times decides the order of the true times when
    these are less than 2^31 ticks (18 hours) apart, across the wrap-around;
    two times exactly 2^31 apart are both not before the other. *)
Theorem soft_timer_a_is_before_b_order a b :
  (Z.abs (b - a) < 2147483648 ->
     soft_timer_a_is_before_b (u32 a) (u32 b) = bool_decide (a < b)) /\
  (b = a + 2147483648 ->
     soft_timer_a_is_before_b (u32 a) (u32 b) = false /\
     soft_timer_a_is_before_b (u32 b) (u32 a) = false).
Proof.
  split; [apply before_true|]. unfold soft_timer_a_is_before_b.
  - intros ->. split.
    + destruct (Z.gtb_spec (i32 (u32 (a + 2147483648) - u32 a)) 0); [mlia|done].
    + destruct (Z.gtb_spec (i32 (u32 a - u32 (a + 2147483648))) 0); [mlia|done].
Qed.

(** [soft_timer_delay d] returns, and it returns at the first reading of
    the clock at least [d] ticks after its start: never early, provided
    [d < 2^31], the clock advances, and no reading skips past the comparison
    window. *)
Theorem soft_timer_delay_waits fuel (T : nat -> Z) d k :
  0 <= d < 2147483648 ->
  (1 <= k < fuel)%nat ->
  (forall i, (i <= k)%nat -> T 0%nat <= T i < T 0%nat + 2147483648) ->
  (forall i, (1 <= i < k)%nat -> T i < T 0%nat + d) ->
  T 0%nat + d <= T k ->
  soft_timer_delay fuel (λ i, u32 (T i)) d = Ok k.
Proof.
  intros Hd Hk Hwin Hbefore Hafter. unfold soft_timer_delay.
  replace (u32 (u32 (T 0%nat) + d)) with (u32 (T 0%nat + d)) by mlia.
  assert (forall n i, (1 <= i <= k)%nat -> (k < i + n)%nat ->
    delay_loop n (λ i, u32 (T i)) i (u32 (T 0%nat + d)) = Ok k) as HL; [|apply HL; lia].
  induction n as [|n IH]; intros i Hi Hn; [lia|]. cbn [delay_loop].
  pose proof (Hwin i ltac:(lia)) as Hw. rewrite before_true by lia.
  destruct (bool_decide_reflect (T i < T 0%nat + d)) as [Hlt|Hge].
  - apply IH; [|lia]. destruct (decide (i = k)) as [->|]; lia.
  - destruct (decide (i = k)) as [->|]; [done|]. specialize (Hbefore i ltac:(lia)). lia.
Qed.

(** A duration in microseconds survives the conversion to ticks and back
    up to one tick, always rounded down: the result is at most the duration
    and at most 31 microseconds below it; converting to ticks never
    overflows. *)
Theorem soft_timer_us_roundtrip us :
  0 <= us < 2147483648 ->
  0 <= soft_timer_us_to_ticks us <= 70368744 /\
  0 <= us - soft_timer_ticks_to_us (soft_timer_us_to_ticks us) <= 31.
Proof.
  intros Hus. unfold soft_timer_ticks_to_us, soft_timer_us_to_ticks, SOFT_TIMER_FREQUENCY.
  rewrite Z.quot_div_nonneg by lia.
  assert (0 <= us * 32768 / 1000000 <= 70368744) as Hr by mlia.
  rewrite (i32_id (us * 32768 / 1000000)) by lia. rewrite Z.quot_div_nonneg by lia.
  split; [done|]. rewrite i32_id by mlia. mlia.
Qed.

(** *** Concrete instances *)

Lemma soft_timer_time_exact_witness :
  soft_timer_time 1 (mk_sample 65534 false 1) = u32 131073 /\
  soft_timer_time_64 1 (mk_sample 65534 false 1) = 131073.
Proof.
  destruct (soft_timer_time_exact 1 (mk_sample 65534 false 1) 131070 131071 131073) as [E1 E2].
  { split; cbn; (lia || reflexivity). }
  split; [exact E1|apply E2; lia].
Defined.

Lemma soft_timer_convert_time_exact_witness :
  soft_timer_convert_time (u32 131080) (131060 mod 65536) = u32 131060.
Proof. apply (soft_timer_convert_time_exact 131080 131060); lia. Defined.

Lemma soft_timer_delay_waits_witness :
  soft_timer_delay 20 (λ i, u32 (4294967290 + 3 * Z.of_nat i)) 10 = Ok 4%nat.
Proof.
  apply (soft_timer_delay_waits 20 (λ i, 4294967290 + 3 * Z.of_nat i) 10 4); intros; lia.
Defined.

End SoftTime.
