(* ===== verification/SoftTimer.v ===== *)
(** * Software timers ([lib/softtimer/soft_timer_core.c], [lib/soft_timer.h])

    The timers are objects of a store linked in the order of their alarms; the
    library posts [process] to an event queue when the first alarm is due, and
    [process] posts the handlers of the expired timers. The state holds the
    fields of the global [softtim], the store, the event queues the library
    posts to, the compare register of the hardware channel and the number of
    readings of the clock so far: [now_at n] is the true time of the [n]-th
    reading, which [soft_timer_time] returns modulo 2^32. *)

From stdpp Require Import base numbers gmap sorting list.
From S2P Require Import Prelude Chain Event SoftTime.

Module SoftTimer.
Import Event SoftTime.

Definition SOFT_TIMER_PERIOD_MASK : Z := 0x7FFFFFFF.
Definition SOFT_TIMER_PERIODIC : Z := 0x80000000.

(** Handlers the event queues hold: the library's own [process], and those of
    the application. *)
Inductive st_handler (H : Type) := Process | App (h : H).
Arguments Process {H}.
Arguments App {H} h.

Record soft_timer {H : Type} := mk_timer {
  t_next : ptr;
  alarm : Z;
  period : Z;
  t_priority : event_queue;
  handler : option H;
  handler_arg : Z;
}.
Arguments soft_timer H : clear implicits.

#[global] Instance timer_linked {H} : Linked (soft_timer H).
Proof.
  refine {| next_of := t_next;
            set_next p k := mk_timer _ p (alarm k) (period k) (t_priority k)
                                     (handler k) (handler_arg k) |}.
  - done.
  - by intros [].
  - done.
Defined.

Record softtim {H : Type} := mk_softtim {
  softtim_mutex : mutex;
  priority : event_queue;
  first : ptr;
  alarm_scheduled : bool;
  alarm_posted : bool;
  process_posted : bool;
  remainder : Z;
  update_count : Z;
  timers : gmap loc (soft_timer H);
  compare : Z;
  reads : nat;
  evs : events (st_handler H);
}.
Arguments softtim H : clear implicits.

Section softtimer.
Context {H : Type} {build : Build}.
Variable now_at : nat -> Z.

Abbreviation ST := (M (softtim H)).
Implicit Types (s : softtim H).

(** *** Field updates *)
Definition set_mutex m s := mk_softtim H m (priority s) (first s) (alarm_scheduled s)
  (alarm_posted s) (process_posted s) (remainder s) (update_count s) (timers s)
  (compare s) (reads s) (evs s).
Definition set_priority p s := mk_softtim H (softtim_mutex s) p (first s) (alarm_scheduled s)
  (alarm_posted s) (process_posted s) (remainder s) (update_count s) (timers s)
  (compare s) (reads s) (evs s).
Definition set_first f s := mk_softtim H (softtim_mutex s) (priority s) f (alarm_scheduled s)
  (alarm_posted s) (process_posted s) (remainder s) (update_count s) (timers s)
  (compare s) (reads s) (evs s).
Definition set_alarm_flags sch post s := mk_softtim H (softtim_mutex s) (priority s) (first s)
  sch post (process_posted s) (remainder s) (update_count s) (timers s)
  (compare s) (reads s) (evs s).
Definition set_process_posted b s := mk_softtim H (softtim_mutex s) (priority s) (first s)
  (alarm_scheduled s) (alarm_posted s) b (remainder s) (update_count s) (timers s)
  (compare s) (reads s) (evs s).
Definition set_remainder r s := mk_softtim H (softtim_mutex s) (priority s) (first s)
  (alarm_scheduled s) (alarm_posted s) (process_posted s) r (update_count s) (timers s)
  (compare s) (reads s) (evs s).
Definition set_update_count u s := mk_softtim H (softtim_mutex s) (priority s) (first s)
  (alarm_scheduled s) (alarm_posted s) (process_posted s) (remainder s) u (timers s)
  (compare s) (reads s) (evs s).
Definition set_timers h s := mk_softtim H (softtim_mutex s) (priority s) (first s)
  (alarm_scheduled s) (alarm_posted s) (process_posted s) (remainder s) (update_count s) h
  (compare s) (reads s) (evs s).
Definition set_compare c s := mk_softtim H (softtim_mutex s) (priority s) (first s)
  (alarm_scheduled s) (alarm_posted s) (process_posted s) (remainder s) (update_count s)
  (timers s) c (reads s) (evs s).
Definition set_reads n s := mk_softtim H (softtim_mutex s) (priority s) (first s)
  (alarm_scheduled s) (alarm_posted s) (process_posted s) (remainder s) (update_count s)
  (timers s) (compare s) n (evs s).
Definition set_evs e s := mk_softtim H (softtim_mutex s) (priority s) (first s)
  (alarm_scheduled s) (alarm_posted s) (process_posted s) (remainder s) (update_count s)
  (timers s) (compare s) (reads s) e.

#[global] Instance evs_lens : Lens (softtim H) (events (st_handler H)).
Proof.
  refine {| view := evs; over := set_evs |}.
  - done.
  - by intros [].
  - done.
Defined.

(** *** Primitives *)

Definition load (p : ptr) : ST (soft_timer H) := fun s =>
  match p with
  | None => Err EUndef
  | Some l => match timers s !! l with Some k => Ok (k, s) | None => Err EUndef end
  end.
Definition store (p : ptr) (k : soft_timer H) : ST unit := fun s =>
  match p with
  | None => Err EUndef
  | Some l => match timers s !! l with
              | Some _ => Ok (tt, set_timers (<[l := k]> (timers s)) s)
              | None => Err EUndef
              end
  end.

(** [xSemaphoreTake] with a limit of one second, a failure halting the node. *)
Definition take : ST unit := fun s =>
  match softtim_mutex s with
  | None => Err EUndef
  | Some true => Err EHalt
  | Some false => Ok (tt, set_mutex (Some true) s)
  end.
Definition give : ST unit := fun s =>
  match softtim_mutex s with
  | None => Err EUndef
  | Some _ => Ok (tt, set_mutex (Some false) s)
  end.

Definition soft_timer_time : ST Z := fun s =>
  Ok (u32 (now_at (reads s)), set_reads (S (reads s)) s).

Definition post (q : event_queue) (h : st_handler H) (arg : Z) : ST event_status :=
  mzoom (event_post q h arg).
Definition post_from_isr (q : event_queue) (h : st_handler H) (arg : Z) : ST event_status :=
  mzoom (event_post_from_isr q h arg).

(** [soft_timer_set_handler], [soft_timer_set_event_priority] *)
Definition soft_timer_set_handler (timer : ptr) (h : option H) (arg : Z) : ST unit :=
  k ← load timer;
  store timer (mk_timer H (t_next k) (alarm k) (period k) EVENT_QUEUE_APPLI h arg).
Definition soft_timer_set_event_priority (timer : ptr) (q : event_queue) : ST unit :=
  k ← load timer;
  store timer (mk_timer H (t_next k) (alarm k) (period k) q (handler k) (handler_arg k)).

(** [soft_timer_config]; the C code sets [softtim.mutex], a field nothing
    reads, and leaves [softtim_mutex] alone. *)
Definition soft_timer_config : ST unit :=
  mmod (λ s, set_update_count 0 (set_remainder 0 (set_first None
               (set_priority EVENT_QUEUE_APPLI s)))).

Definition soft_timer_config_priority (q : event_queue) : ST unit :=
  mmod (set_priority q).

Definition soft_timer_init : ST unit :=
  s ← mget;
  match softtim_mutex s with
  | Some _ => mret tt
  | None => mmod (λ s, set_compare 0 (set_process_posted false
                         (set_alarm_flags false false (set_mutex (Some false) s))))
  end.

(** *** The list of alarms *)

(** Returns whether [process] must run. *)
Definition insert (timer : loc) : ST bool :=
  s ← mget;
  match first s with
  | None =>
      mmod (set_first (Some timer)) ;;
      k ← load (Some timer);
      store (Some timer) (set_next None k) ;;
      mret true
  | Some f =>
      kf ← load (Some f);
      kt ← load (Some timer);
      if negb (soft_timer_a_is_before_b (alarm kf) (alarm kt)) then
        store (Some timer) (set_next (Some f) kt) ;;
        mmod (set_first (Some timer)) ;;
        mret true
      else
        x ← mlift (walk (S (size (timers s))) (timers s)
                     (λ _ k, negb (soft_timer_a_is_before_b (alarm k) (alarm kt))) f);
        h ← mlift (link_after x timer (timers s));
        mmod (set_timers h) ;;
        mret false
  end.

Definition remove (timer : ptr) : ST bool :=
  s ← mget;
  match first s, timer with
  | None, _ | _, None => mret false
  | Some f, Some t =>
      if decide (f = t) then
        k ← load timer;
        mmod (set_first (t_next k)) ;;
        mret true
      else
        x ← mlift (walk (S (size (timers s))) (timers s) (λ l _, bool_decide (l = t)) f);
        kx ← load (Some x);
        (if decide (t_next kx = Some t) then
           kt ← load timer;
           store (Some x) (set_next (t_next kt) kx)
         else mret tt) ;;
        mret false
  end.

(** [if (flag && !softtim.process_posted) { event_post(process); process_posted = 1; }] *)
Definition request_process (flag : bool) : ST unit :=
  s ← mget;
  mwhen (flag && negb (process_posted s))
    (post (priority s) Process 0 ;; mmod (set_process_posted true)).

Definition soft_timer_start (timer : loc) (ticks : Z) (periodic : bool) : ST unit :=
  now ← soft_timer_time;
  if (ticks =? 0) && periodic then mret tt
  else
    take ;;
    remove (Some timer) ;;
    k ← load (Some timer);
    store (Some timer) (mk_timer H None (u32 (now + ticks))
                          (Z.lor ticks (if periodic then SOFT_TIMER_PERIODIC else 0))
                          (t_priority k) (handler k) (handler_arg k)) ;;
    r ← insert timer;
    request_process r ;;
    give.

Definition soft_timer_start_at (timer : loc) (alarm_time : Z) : ST unit :=
  take ;;
  remove (Some timer) ;;
  now ← soft_timer_time;
  k ← load (Some timer);
  store (Some timer) (mk_timer H None alarm_time (u32 (alarm_time - now))
                        (t_priority k) (handler k) (handler_arg k)) ;;
  r ← insert timer;
  request_process r ;;
  give.

Definition soft_timer_stop (timer : ptr) : ST unit :=
  take ;;
  r ← remove timer;
  request_process r ;;
  give.

Definition soft_timer_reset (timer : loc) : ST unit :=
  take ;;
  remove (Some timer) ;;
  now ← soft_timer_time;
  k ← load (Some timer);
  store (Some timer) (mk_timer H None (u32 (now + Z.land (period k) SOFT_TIMER_PERIOD_MASK))
                        (period k) (t_priority k) (handler k) (handler_arg k)) ;;
  r ← insert timer;
  request_process r ;;
  give.

(** The search loop of [soft_timer_is_active]. *)
Fixpoint find_timer (fuel : nat) (h : gmap loc (soft_timer H)) (x : ptr) (t : ptr) : res bool :=
  match fuel with
  | O => Err EFuel
  | S fuel =>
      match x with
      | None => Ok false
      | Some l =>
          if decide (x = t) then Ok true
          else k ← of_option EUndef (h !! l); find_timer fuel h (t_next k) t
      end
  end.

Definition soft_timer_is_active (timer : ptr) : ST bool :=
  take ;;
  s ← mget;
  found ← mlift (find_timer (S (S (size (timers s)))) (timers s) (first s) timer);
  give ;;
  mret found.

(** *** Processing *)

(** One expired timer [x], already read as [k]: unlink it, re-insert it when
    periodic, post its handler. *)
Definition fire (x : loc) (k : soft_timer H) : ST unit :=
  mmod (set_first (t_next k)) ;;
  (if ctrue (Z.land (period k) SOFT_TIMER_PERIODIC) then
     store (Some x) (mk_timer H (t_next k)
                       (u32 (alarm k + Z.land (period k) SOFT_TIMER_PERIOD_MASK))
                       (period k) (t_priority k) (handler k) (handler_arg k)) ;;
     insert x ;; mret tt
   else mret tt) ;;
  match handler k with
  | Some h => post (t_priority k) (App h) (handler_arg k) ;; mret tt
  | None => mret tt
  end.

(** The first alarm is not due: program the hardware for it. *)
Definition schedule (k : soft_timer H) : ST unit :=
  now ← soft_timer_time;
  let delta := i32 (alarm k - now) in
  mmod (set_remainder (if delta >? 0 then Z.shiftr delta 16 else 0)) ;;
  s ← mget;
  mwhen (remainder s =? 0)
    (mmod (set_compare (Z.land (alarm k) 0xFFFF)) ;;
     s ← mget;
     mmod (set_alarm_flags true (alarm_posted s)) ;;
     now ← soft_timer_time;
     s ← mget;
     mwhen ((i32 (alarm k - now) <? 1) && negb (alarm_posted s))
       (post (priority s) Process 0 ;; mret tt)).

(** The loop of [process]; returns the timers fired, in order, with their
    alarm and the number of the reading that found them due. *)
Fixpoint process_loop (fuel : nat) : ST (list (loc * Z * nat)) :=
  match fuel with
  | O => mfail EFuel
  | S fuel =>
      s ← mget;
      match first s with
      | None => mret []
      | Some x =>
          k ← load (Some x);
          now ← soft_timer_time;
          if soft_timer_a_is_before_b (u32 (alarm k + 2)) now then
            fire x k ;;
            r ← process_loop fuel;
            mret ((x, alarm k, reads s) :: r)
          else schedule k ;; mret []
      end
  end.

Definition process (fuel : nat) : ST (list (loc * Z * nat)) :=
  take ;;
  mmod (λ s, set_process_posted false (set_alarm_flags false false s)) ;;
  r ← process_loop fuel;
  give ;;
  mret r.

(** *** Interrupt handlers *)

Definition soft_timer_update : ST unit :=
  mmod (λ s, set_update_count (u32 (update_count s + 1)) s) ;;
  s ← mget;
  match softtim_mutex s with
  | None => mret tt
  | Some _ =>
      mwhen (ctrue (remainder s)) (mmod (λ s, set_remainder (remainder s - 1) s)) ;;
      s ← mget;
      mwhen (remainder s =? 0)
        (mmod (set_process_posted true) ;;
         post_from_isr (priority s) Process 0 ;; mret tt)
  end.

Definition timer_alarm : ST unit :=
  s ← mget;
  if negb (alarm_scheduled s) then mret tt
  else
    mmod (set_process_posted true) ;;
    post_from_isr (priority s) Process 0 ;;
    mmod (λ s, set_alarm_flags (alarm_scheduled s) true s).
End softtimer.

(** ** The list of alarms *)

Section alarms.
Context {H : Type} {build : Build}.
Variable now_at : nat -> Z.
Implicit Types (s : softtim H) (h : gmap loc (soft_timer H)) (xs : list loc).

(** Distance of an alarm from a base time [B], modulo 2^32. *)
Definition off (B : Z) (k : soft_timer H) : Z := u32 (alarm k - B).
Definition key (B : Z) h (l : loc) : Z := from_option (off B) 0 (h !! l).

(** All alarms lie in the half turn after [B], so that the comparisons of
    the code decide their order, and the list is in that order. *)
Definition in_window B h xs : Prop := Forall (λ l, key B h l < 2147483648) xs.
Definition ordered B h xs : Prop := StronglySorted (λ l l', key B h l <= key B h l') xs.

Lemma before_off B (k k' : soft_timer H) :
  off B k < 2147483648 -> off B k' < 2147483648 ->
  soft_timer_a_is_before_b (alarm k) (alarm k') = bool_decide (off B k < off B k').
Proof.
  unfold off, soft_timer_a_is_before_b. intros H1 H2.
  assert (i32 (alarm k' - alarm k) = u32 (alarm k' - B) - u32 (alarm k - B)) as -> by mlia.
  destruct (Z.gtb_spec (u32 (alarm k' - B) - u32 (alarm k - B)) 0);
    destruct (bool_decide_reflect (u32 (alarm k - B) < u32 (alarm k' - B))); (done || lia).
Qed.

Lemma key_lookup B h l k : h !! l = Some k -> key B h l = off B k.
Proof. intros E. unfold key. by rewrite E. Qed.

Lemma key_same B h h' l : same_but_next h h' -> key B h' l = key B h l.
Proof.
  intros Hs. unfold key. destruct (h !! l) as [k|] eqn:E.
  - destruct (same_but_next_lookup _ _ _ _ Hs E) as [p ->]. done.
  - specialize (Hs l). rewrite E in Hs. by destruct (h' !! l).
Qed.

Lemma in_window_same B h h' xs : same_but_next h h' -> in_window B h xs -> in_window B h' xs.
Proof.
  intros Hs Hw. eapply Forall_impl; [done|]. simpl. intros l. by rewrite (key_same B h h').
Qed.

Lemma ordered_same B h h' xs : same_but_next h h' -> ordered B h xs -> ordered B h' xs.
Proof.
  intros Hs. induction 1 as [|l xs Hxs IH Hl]; constructor; [done|].
  eapply Forall_impl; [done|]. simpl. intros l'. by rewrite !(key_same B h h').
Qed.

Lemma timer_load_ok s l k : timers s !! l = Some k -> load (Some l) s = Ok (k, s).
Proof. intros E. unfold load. by rewrite E. Qed.

Lemma timer_store_ok s l k k' :
  timers s !! l = Some k -> store (Some l) k' s = Ok (tt, set_timers (<[l := k']> (timers s)) s).
Proof. intros E. unfold store. by rewrite E. Qed.

Lemma ordered_app B h pre post :
  ordered B h (pre ++ post) <->
  ordered B h pre /\ ordered B h post /\
  (forall l l', l ∈ pre -> l' ∈ post -> key B h l <= key B h l').
Proof.
  unfold ordered. induction pre as [|x pre IH]; simpl.
  - split; [|naive_solver]. intros Hp. split_and!; [constructor|done|].
    intros ? ? Hx. by apply not_elem_of_nil in Hx.
  - split.
    + intros [Ha Hb]%StronglySorted_inv. apply IH in Ha as (H1 & H2 & H3).
      rewrite Forall_app in Hb. destruct Hb as [Hb1 Hb2].
      split_and!; [by constructor|done|].
      intros l l' [->|Hl]%elem_of_cons Hl'; [|auto].
      by apply (Forall_forall (λ l, key B h x <= key B h l) post).
    + intros (H1 & H2 & H3). apply StronglySorted_inv in H1 as [H1 H1'].
      constructor.
      * apply IH. split_and!; [done|done|]. intros l l' Hl Hl'. apply H3; [by constructor|done].
      * apply Forall_app. split; [done|]. apply Forall_forall. intros l' Hl'.
        apply H3; [constructor|done].
Qed.

Lemma ordered_insert B h pre t zs v :
  key B h t = v -> ordered B h (pre ++ zs) ->
  Forall (λ l, key B h l < v) pre -> Forall (λ l, v <= key B h l) zs ->
  ordered B h (pre ++ t :: zs).
Proof.
  intros Ht (Ho1 & Ho2 & Ho3)%ordered_app Hpre Hzs. apply ordered_app.
  split_and!; [done|constructor; [done|by rewrite Ht]|].
  intros l l' Hl [->|Hl']%elem_of_cons; [|auto].
  rewrite Ht. rewrite Forall_forall in Hpre. specialize (Hpre l Hl). lia.
Qed.

(** Comparison of the alarm of a listed timer with another one. *)
Lemma before_listed B h xs l (k kt : soft_timer H) :
  in_window B h xs -> l ∈ xs -> h !! l = Some k -> off B kt < 2147483648 ->
  soft_timer_a_is_before_b (alarm k) (alarm kt) = bool_decide (key B h l < off B kt).
Proof.
  intros Hw Hl Hk Ht. rewrite (key_lookup _ _ _ _ Hk). apply before_off; [|done].
  rewrite <- (key_lookup B _ _ _ Hk). unfold in_window in Hw.
  rewrite Forall_forall in Hw. by apply Hw.
Qed.

Definition not_before (a : Z) (_ : loc) (k : soft_timer H) : bool :=
  negb (soft_timer_a_is_before_b (alarm k) a).

(** The loop of [insert] splits the list at the place of the new alarm. *)
Lemma insert_walk B h f ys kt :
  chain h (Some f) (f :: ys) -> in_window B h (f :: ys) -> ordered B h (f :: ys) ->
  off B kt < 2147483648 -> key B h f < off B kt ->
  exists pre y zs a,
    f :: ys = pre ++ y :: zs /\ walk (S (size h)) h (not_before (alarm kt)) f = Ok y /\
    h !! y = Some a /\ Forall (λ l, key B h l < off B kt) (pre ++ [y]) /\
    Forall (λ l, off B kt <= key B h l) zs.
Proof.
  intros Hc Hw Ho Ht Hlt. pose proof (chain_length _ _ _ Hc) as Hlen. simpl in Hlen.
  destruct (walk_spec (S (size h)) h (not_before (alarm kt)) f ys Hc)
    as (pre & y & zs & a & Ex & Ew & Ha & Hz & Hno & Hyes); [lia|].
  exists pre, y, zs, a. split_and!; [done|done|done| |].
  - apply Forall_forall. intros l Hl. destruct (decide (l = f)) as [->|Hlf]; [done|].
    assert (l ∈ drop 1 (pre ++ [y])) as Hl'.
    { destruct pre as [|z pre]; injection Ex as -> _; set_solver. }
    assert (l ∈ f :: ys) as Hin by (rewrite Ex; set_solver).
    destruct (lseg_in_dom _ _ _ _ l Hc Hin) as [b Hb].
    specialize (Hno l b Hl' Hb). apply negb_false_iff in Hno.
    rewrite (before_listed B h _ l b kt Hw Hin Hb Ht) in Hno. by apply bool_decide_eq_true in Hno.
  - destruct zs as [|z zs]; [constructor|].
    destruct Hz as (_ & b & Hb & _). specialize (Hyes z b eq_refl Hb).
    apply negb_true_iff in Hyes.
    rewrite (before_listed B h _ z b kt Hw) in Hyes; [|rewrite Ex; set_solver|done|done].
    apply bool_decide_eq_false in Hyes. rewrite Ex in Ho.
    apply ordered_app in Ho as (_ & Ho & _). apply StronglySorted_inv in Ho as [Ho _].
    apply StronglySorted_inv in Ho as [_ Hz]. constructor; [lia|].
    eapply Forall_impl; [done|]. simpl. lia.
Qed.

(** [insert] puts the timer before the first alarm that is not earlier than
    its own, and tells whether it became the first one. *)
Lemma insert_spec B s xs t kt :
  chain (timers s) (first s) xs -> timers s !! t = Some kt -> (t ∉ xs) ->
  in_window B (timers s) (t :: xs) -> ordered B (timers s) xs ->
  exists pre post f h,
    xs = pre ++ post /\
    insert t s = Ok (bool_decide (pre = []), set_first f (set_timers h s)) /\
    chain h f (pre ++ t :: post) /\ same_but_next (timers s) h /\
    Forall (λ l, key B (timers s) l < off B kt) pre /\
    ordered B h (pre ++ t :: post).
Proof.
  intros Hc Ht Hnin [Hwt Hw]%Forall_cons Ho. pose proof (key_lookup B _ _ _ Ht) as Hkt.
  rewrite Hkt in Hwt. unfold insert. mrun. destruct (first s) as [f|] eqn:Ef.
  2:{ apply chain_null in Hc as ->. mrun.
      mstep (timer_load_ok (set_first (Some t) s) t kt Ht).
      mstep (timer_store_ok (set_first (Some t) s) t kt (set_next None kt) Ht).
      exists [], [], (Some t), (<[t := set_next None kt]> (timers s)).
      split_and!; [done|done| |by apply same_but_next_insert|constructor|repeat constructor].
      by apply (chain_push (timers s) None []). }
  destruct (chain_some _ _ _ Hc) as (kf & ys & -> & Hf & Hys).
  mstep (timer_load_ok s f kf Hf). mstep (timer_load_ok s t kt Ht).
  rewrite (before_listed B _ _ f kf kt Hw) by (done || set_solver).
  destruct (bool_decide_reflect (key B (timers s) f < off B kt)) as [Hlt|Hge]; cbn [negb].
  - destruct (insert_walk B (timers s) f ys kt Hc Hw Ho Hwt Hlt)
      as (pre & y & zs & a & Ex & Ew & Ha & Hpre & Hzs).
    mrun. unfold not_before in Ew. mstep Ew. rewrite Ex in Hc, Hnin, Ho |- *.
    destruct (link_after_spec _ _ _ _ _ t a kt Hc Hnin Ha Ht) as (h' & El & Hc' & ->).
    mstep El. set (h' := <[y := _]> _) in *.
    assert (same_but_next (timers s) h') as Hsame.
    { eapply same_but_next_trans; [by apply (same_but_next_insert _ t kt)|].
      apply same_but_next_insert. rewrite lookup_insert_ne; [done|set_solver]. }
    exists (pre ++ [y]), zs, (Some f), h'. rewrite <- !app_assoc.
    assert (bool_decide (pre ++ [y] = []) = false) as ->
      by (apply bool_decide_false; by destruct pre).
    split_and!; [done|by destruct s; simpl in *; rewrite Ef|done|done|done|].
    change (pre ++ [y] ++ t :: zs) with (pre ++ [y] ++ (t :: zs)). rewrite app_assoc.
    eapply (ordered_insert _ _ _ _ _ (off B kt)).
    + by rewrite (key_same B (timers s) h' _ Hsame).
    + apply (ordered_same B (timers s)); [done|]. by rewrite <- app_assoc.
    + eapply Forall_impl; [done|]. simpl. intros l. by rewrite (key_same B (timers s) h' _ Hsame).
    + eapply Forall_impl; [done|]. simpl. intros l. by rewrite (key_same B (timers s) h' _ Hsame).
  - mstep (timer_store_ok s t kt (set_next (Some f) kt) Ht).
    exists [], (f :: ys), (Some t), (<[t := set_next (Some f) kt]> (timers s)).
    split_and!; [done|done|by apply chain_push|by apply same_but_next_insert|constructor|].
    apply (ordered_same B (timers s)); [by apply same_but_next_insert|].
    apply (ordered_insert B _ [] t _ (off B kt)); [done|done|constructor|].
    apply StronglySorted_inv in Ho as [_ Hz]. constructor; [lia|].
    eapply Forall_impl; [done|]. simpl. lia.
Qed.

(** The loop of [remove] stops before the timer, or at the end. *)
Lemma remove_walk h f ys t kt :
  chain h (Some f) (f :: ys) -> f <> t -> h !! t = Some kt ->
  exists pre y zs a,
    f :: ys = pre ++ y :: zs /\
    walk (S (size h)) h (λ l _, bool_decide (l = t)) f = Ok y /\
    h !! y = Some a /\ (t ∉ pre ++ [y]) /\
    ((zs = [] /\ t_next a = None) \/ (exists zs', zs = t :: zs' /\ t_next a = Some t)).
Proof.
  intros Hc Hft Ht. pose proof (chain_length _ _ _ Hc) as Hlen. simpl in Hlen.
  destruct (walk_spec (S (size h)) h (λ l _, bool_decide (l = t)) f ys Hc)
    as (pre & y & zs & a & Ex & Ew & Ha & Hz & Hno & Hyes); [lia|].
  exists pre, y, zs, a. split_and!; [done|done|done| |].
  - intros Hl. assert (t ∈ drop 1 (pre ++ [y])) as Hl'.
    { destruct pre as [|z pre]; injection Ex as -> _; set_solver. }
    specialize (Hno t kt Hl' Ht). by rewrite bool_decide_true in Hno.
  - destruct zs as [|z zs]; [by left|right].
    pose proof Hz as (Hn & b & Hb & _). specialize (Hyes z b eq_refl Hb).
    apply bool_decide_eq_true in Hyes as ->. eauto.
Qed.

(** [remove] takes the timer out of the list, wherever it is, and tells
    whether it was the first one. *)
Lemma remove_spec s xs t kt :
  chain (timers s) (first s) xs -> timers s !! t = Some kt ->
  exists f h,
    remove (Some t) s = Ok (bool_decide (head xs = Some t), set_first f (set_timers h s)) /\
    chain h f (filter (λ l, l <> t) xs) /\ same_but_next (timers s) h.
Proof.
  intros Hc Ht. pose proof (chain_nodup _ _ _ Hc) as Hnd.
  unfold remove. mrun. destruct (first s) as [f|] eqn:Ef.
  2:{ apply chain_null in Hc as ->. exists None, (timers s).
      split_and!; [|done|done]. destruct s; simpl in *. by rewrite Ef. }
  destruct (chain_some _ _ _ Hc) as (kf & ys & -> & Hf & Hys).
  destruct (decide (f = t)) as [->|Hft].
  - mstep (timer_load_ok s t kt Ht). rewrite bool_decide_true by done.
    rewrite filter_cons, decide_False by tauto. simplify_eq.
    exists (t_next kt), (timers s). split_and!; [by destruct s| |done].
    rewrite filter_all; [done|]. apply NoDup_cons in Hnd as [Hnd _]. by intros l Hl ->.
  - rewrite bool_decide_false by (simpl; congruence).
    destruct (remove_walk _ _ _ _ _ Hc Hft Ht) as (pre & y & zs & a & Ex & Ew & Ha & Hpre & Hzs).
    rewrite Ex in Hc, Hnd |- *. mrun. mstep Ew. mstep (timer_load_ok s y a Ha).
    assert (filter (λ l, l <> t) (pre ++ y :: zs) = pre ++ y :: filter (λ l, l <> t) zs) as ->.
    { change (pre ++ y :: zs) with (pre ++ [y] ++ zs). rewrite app_assoc, filter_app.
      rewrite (filter_all _ (pre ++ [y])), <- app_assoc; [done|]. by intros l Hl ->. }
    destruct Hzs as [[-> Hn]|(zs' & -> & Hn)].
    + rewrite Hn, decide_False by done. mrun.
      exists (Some f), (timers s). split_and!; [|done|done].
      destruct s; simpl in *. by rewrite Ef.
    + rewrite (decide_True (P := t_next a = Some t)) by done. mrun.
      mstep (timer_load_ok s t kt Ht). mstep (timer_store_ok s y a (set_next (t_next kt) a) Ha).
      exists (Some f), (<[y := set_next (t_next kt) a]> (timers s)).
      split_and!; [by destruct s; simpl in *; rewrite Ef| |by apply same_but_next_insert].
      rewrite filter_cons, (decide_False (P := t <> t)) by tauto. rewrite filter_all.
      * exact (chain_unlink (timers s) (Some f) pre y t zs' a kt Hc Ha Ht).
      * apply NoDup_app in Hnd as (_ & _ & Hnd%NoDup_cons).
        destruct Hnd as [_ [Hnd _]%NoDup_cons]. by intros l Hl ->.
Qed.

(** *** The state between two calls *)

Definition st_wf B s xs : Prop :=
  softtim_mutex s = Some false /\ chain (timers s) (first s) xs /\
  in_window B (timers s) xs /\ ordered B (timers s) xs.

(** The queue [process] is posted to exists and has room. *)
Definition room s : Prop :=
  exists l, queues (evs s) (priority s) = Some l /\ (length l < EVENT_QUEUE_LENGTH)%nat.

(** Two states that differ by what [request_process] may change. *)
Definition same_timers s s' : Prop :=
  timers s' = timers s /\ first s' = first s /\ softtim_mutex s' = softtim_mutex s.

Lemma request_process_spec b s :
  room s ->
  exists s', request_process b s = Ok (tt, s') /\ same_timers s s' /\
    process_posted s' = process_posted s || b.
Proof.
  intros (l & Hl & Hlen). unfold request_process. mrun.
  destruct b; cbn [andb]; [|exists s; rewrite orb_false_r; by split_and!].
  destruct (process_posted s) eqn:Ep; cbn [negb mwhen]; [exists s; by split_and!|].
  unfold post. erewrite bind_ok by (apply zoom_ok; by apply event_post_ok).
  eexists. split; [done|]. by split_and!.
Qed.

Lemma key_insert_ne B h t k l : l <> t -> key B (<[t := k]> h) l = key B h l.
Proof. intros Hl. unfold key. by rewrite lookup_insert_ne. Qed.

Lemma in_window_insert_ne B h t k xs :
  (t ∉ xs) -> in_window B h xs -> in_window B (<[t := k]> h) xs.
Proof.
  intros Ht Hw. apply Forall_forall. intros l Hl. unfold in_window in Hw.
  rewrite Forall_forall in Hw. rewrite key_insert_ne by set_solver. by apply Hw.
Qed.

Lemma ordered_insert_ne B h t k xs :
  (t ∉ xs) -> ordered B h xs -> ordered B (<[t := k]> h) xs.
Proof.
  intros Ht. induction 1 as [|l xs Hxs IH Hl]; constructor.
  - apply IH. set_solver.
  - apply Forall_forall. intros l' Hl'. rewrite Forall_forall in Hl.
    rewrite !key_insert_ne by set_solver. by apply Hl.
Qed.

Lemma ordered_filter B h (P : loc -> Prop) `{!forall x, Decision (P x)} xs :
  ordered B h xs -> ordered B h (filter P xs).
Proof.
  induction 1 as [|l xs Hxs IH Hl]; [constructor|]. rewrite filter_cons.
  case_decide; [|done]. constructor; [done|]. rewrite Forall_forall in Hl.
  apply Forall_forall. intros l' [_ Hl']%list_elem_of_filter. by apply Hl.
Qed.

(** The common part of the operations that (re)start a timer: take it out of
    the list, write its new fields [k'], and insert it at its place. *)
Lemma rearm_spec B s xs t k k' :
  chain (timers s) (first s) xs -> in_window B (timers s) xs -> ordered B (timers s) xs ->
  timers s !! t = Some k -> off B k' < 2147483648 ->
  exists r f h s1 pre post,
    remove (Some t) s = Ok (r, set_first f (set_timers h s)) /\
    (exists p, h !! t = Some (set_next p k)) /\
    filter (λ l, l <> t) xs = pre ++ post /\
    insert t (set_timers (<[t := k']> h) (set_first f s)) = Ok (bool_decide (pre = []), s1) /\
    (exists f1 h1, s1 = set_first f1 (set_timers h1 s)) /\
    chain (timers s1) (first s1) (pre ++ t :: post) /\
    in_window B (timers s1) (pre ++ t :: post) /\ ordered B (timers s1) (pre ++ t :: post) /\
    same_but_next (<[t := k']> (timers s)) (timers s1) /\
    Forall (λ l, key B (timers s) l < off B k') pre.
Proof.
  intros Hc Hw Ho Ht Hk'. destruct (remove_spec _ _ _ _ Hc Ht) as (f & h & Er & Hcr & Hsr).
  set (ys := filter (λ l, l <> t) xs) in *.
  assert (t ∉ ys) as Hty by (intros [? _]%list_elem_of_filter; done).
  assert (in_window B h ys) as Hwy.
  { apply (in_window_same B (timers s)); [done|]. unfold in_window in *.
    rewrite Forall_forall in Hw. apply Forall_forall.
    intros l [_ Hl]%list_elem_of_filter. by apply Hw. }
  assert (ordered B h ys) as Hoy.
  { apply (ordered_same B (timers s)); [done|]. by apply ordered_filter. }
  destruct (insert_spec B (set_timers (<[t := k']> h) (set_first f s)) ys t k')
    as (pre & post & f1 & h1 & Ey & Ei & Hc1 & Hs1 & Hpre & Ho1); simpl.
  - by apply lseg_insert.
  - apply lookup_insert_eq.
  - done.
  - constructor; [unfold key; by rewrite lookup_insert_eq|]. by apply in_window_insert_ne.
  - by apply ordered_insert_ne.
  - exists (bool_decide (head xs = Some t)), f, h, (set_first f1 (set_timers h1 s)), pre, post.
    simpl in *. split_and!; try done; [exact (same_but_next_lookup _ _ _ _ Hsr Ht)|by eexists _, _| | |].
    + apply (in_window_same B (<[t := k']> h)); [done|].
      assert (in_window B (<[t := k']> h) (t :: ys)) as Hall.
      { constructor; [unfold key; by rewrite lookup_insert_eq|]. by apply in_window_insert_ne. }
      rewrite Ey in Hall. unfold in_window in *. rewrite Forall_forall in Hall.
      apply Forall_forall. intros l Hl. apply Hall. set_solver.
    + eapply same_but_next_trans; [|done]. intros l.
      destruct (decide (l = t)) as [->|Hl]; [by rewrite !lookup_insert_eq|].
      rewrite !lookup_insert_ne by done. apply Hsr.
    + rewrite Forall_forall in Hpre |- *. intros l Hl. specialize (Hpre l Hl).
      rewrite key_insert_ne in Hpre by (intros ->; apply Hty; rewrite Ey; set_solver).
      by rewrite (key_same B (timers s) h) in Hpre.
Qed.

Lemma take_ok s : softtim_mutex s = Some false -> take s = Ok (tt, set_mutex (Some true) s).
Proof. unfold take. by intros ->. Qed.

Lemma time_ok s :
  soft_timer_time now_at s = Ok (u32 (now_at (reads s)), set_reads (S (reads s)) s).
Proof. done. Qed.

Lemma set_reads_id s n : reads s = n -> set_reads n s = s.
Proof. intros <-. by destruct s. Qed.

Lemma in_window_filter B h (P : loc -> Prop) `{!forall x, Decision (P x)} xs :
  in_window B h xs -> in_window B h (filter P xs).
Proof.
  unfold in_window. rewrite !Forall_forall. intros Hw l [_ Hl]%list_elem_of_filter. by apply Hw.
Qed.

(** [remove] does not look at the clock. *)
Lemma remove_reads p s r s1 n :
  remove p s = Ok (r, s1) -> remove p (set_reads n s) = Ok (r, set_reads n s1).
Proof.
  unfold remove, load, store, mlift, mbind, M_bind, mget, mmod, mret, M_ret.
  cbn [first timers set_reads].
  destruct (first s) as [f|], p as [t|]; try (by intros; simplify_eq/=).
  destruct (decide (f = t)); [by destruct (timers s !! t) eqn:Et; intros; simplify_eq/=; rewrite Et|].
  destruct (walk _ _ _ _) as [x|e]; cbn [timers set_reads]; [|done].
  destruct (timers s !! x) as [kx|] eqn:Ex; [|done].
  destruct (decide (t_next kx = Some t)); [|intros; by simplify_eq/=].
  cbn [timers set_reads]. destruct (timers s !! t) eqn:Et; [|done]. cbn [timers set_reads].
  rewrite Ex. intros; by simplify_eq/=.
Qed.

(** What the operations that (re)start timer [t] with fields [k'] establish:
    the list is the old one with [t] moved to its place, the other timers are
    untouched, and [process] is requested when [t] comes first. *)
Definition armed (B : Z) s xs (t : loc) (k' : soft_timer H) s' : Prop :=
  exists pre post,
    filter (λ l, l <> t) xs = pre ++ post /\ st_wf B s' (pre ++ t :: post) /\
    Forall (λ l, key B (timers s) l < off B k') pre /\
    same_but_next (<[t := k']> (timers s)) (timers s') /\
    process_posted s' = process_posted s || bool_decide (pre = []).

Lemma room_evs s s' : evs s' = evs s -> priority s' = priority s -> room s -> room s'.
Proof. unfold room. by intros -> ->. Qed.

Lemma rearm_tail B s xs t k (g : soft_timer H -> soft_timer H) n :
  st_wf B s xs -> room s -> timers s !! t = Some k -> off B (g k) < 2147483648 ->
  (forall p, g (set_next p k) = g k) ->
  exists r s1 s',
    remove (Some t) (set_mutex (Some true) s) = Ok (r, s1) /\ reads s1 = reads s /\
    (k ← load (Some t); store (Some t) (g k) ;; r ← insert t; request_process r ;; give)
      (set_reads n s1) = Ok (tt, s') /\
    armed B s xs t (g k) s'.
Proof.
  intros (Hm & Hc & Hw & Ho) Hroom Ht Hoff Hg.
  destruct (rearm_spec B (set_reads n (set_mutex (Some true) s)) xs t k (g k) Hc Hw Ho Ht Hoff)
    as (r & f & h & s1 & pre & post & Er & [p Hp] & Ef & Ei & (f1 & h1 & Hs1) & Hc1 & Hw1
        & Ho1 & Hsame & Hpre).
  apply (remove_reads _ _ _ _ (reads s)) in Er.
  eexists r, _.
  destruct (request_process_spec (bool_decide (pre = [])) s1) as (s2 & E2 & (Ht2 & Hf2 & Hm2) & Hp2).
  { subst s1. by apply (room_evs s). }
  exists (set_mutex (Some false) s2). split_and!; [by destruct s|done| |].
  - erewrite bind_ok by (by apply timer_load_ok). rewrite Hg.
    erewrite bind_ok by (by eapply timer_store_ok). erewrite bind_ok by exact Ei.
    erewrite bind_ok by exact E2. unfold give. rewrite Hm2. by subst s1.
  - exists pre, post. split_and!; [done| |done| |].
    + unfold st_wf. cbn. rewrite Ht2, Hf2. by split_and!.
    + cbn. by rewrite Ht2.
    + cbn. rewrite Hp2. by subst s1.
Qed.

(** C25: [soft_timer_start] arms the timer at the current time plus the delay:
    it is in the list exactly once, at the place of its alarm, with the
    period and the flag asked for, whether or not it was running; the other
    timers keep their alarms and their order, the mutex is free again, and
    [process] is requested if the timer is now the first one. *)
Theorem soft_timer_start_spec B s xs t k ticks (periodic : bool) :
  st_wf B s xs -> room s -> timers s !! t = Some k ->
  ~ (ticks = 0 /\ periodic = true) ->
  u32 (u32 (now_at (reads s)) + ticks - B) < 2147483648 ->
  exists s',
    soft_timer_start now_at t ticks periodic s = Ok (tt, s') /\
    armed B s xs t
      (mk_timer H None (u32 (u32 (now_at (reads s)) + ticks))
                (Z.lor ticks (if periodic then SOFT_TIMER_PERIODIC else 0))
                (t_priority k) (handler k) (handler_arg k)) s'.
Proof.
  intros Hwf Hroom Ht Hn Hin. unfold soft_timer_start, soft_timer_time.
  unfold mbind at 1, M_bind at 1.
  assert ((ticks =? 0) && periodic = false) as ->.
  { destruct (Z.eqb_spec ticks 0), periodic; try done. tauto. }
  set (g k0 := mk_timer H None (u32 (u32 (now_at (reads s)) + ticks))
     (Z.lor ticks (if periodic then SOFT_TIMER_PERIODIC else 0))
     (t_priority k0) (handler k0) (handler_arg k0)).
  destruct (rearm_tail B (set_reads (S (reads s)) s) xs t k g (S (reads s)))
    as (r & s1 & s' & Er & En & Et & Harm); try done.
  { unfold off. simpl. mlia. }
  exists s'. split; [|done]. erewrite bind_ok by (apply take_ok; by destruct Hwf).
  erewrite bind_ok by exact Er. by rewrite set_reads_id in Et.
Qed.

(** The flag of a periodic timer is the top bit of its period. *)
Lemma periodic_flag z : is_u32 z ->
  ctrue (Z.land z SOFT_TIMER_PERIODIC) = bool_decide (2147483648 <= z).
Proof.
  intros Hz. change SOFT_TIMER_PERIODIC with (2 ^ 31). rewrite land_bit by lia.
  assert (Z.testbit z 31 = bool_decide (2147483648 <= z)) as ->; [|by case_bool_decide].
  apply eq_true_iff_eq. rewrite bool_decide_eq_true, Z.testbit_true by lia. mlia.
Qed.

(** [soft_timer_start_at] arms the timer at the given time. The period it
    records is the distance of that time modulo 2^32, so that a time already
    past by up to a half turn leaves a timer [process] treats as periodic. *)
Theorem soft_timer_start_at_spec B s xs t k alarm_time :
  st_wf B s xs -> room s -> timers s !! t = Some k ->
  u32 (alarm_time - B) < 2147483648 ->
  exists s',
    soft_timer_start_at now_at t alarm_time s = Ok (tt, s') /\
    armed B s xs t
      (mk_timer H None alarm_time (u32 (alarm_time - u32 (now_at (reads s))))
                (t_priority k) (handler k) (handler_arg k)) s' /\
    ctrue (Z.land (u32 (alarm_time - u32 (now_at (reads s)))) SOFT_TIMER_PERIODIC) =
      bool_decide (2147483648 <= u32 (alarm_time - now_at (reads s))).
Proof.
  intros Hwf Hroom Ht Hin. unfold soft_timer_start_at.
  set (g k0 := mk_timer H None alarm_time (u32 (alarm_time - u32 (now_at (reads s))))
                 (t_priority k0) (handler k0) (handler_arg k0)).
  destruct (rearm_tail B s xs t k g (S (reads s)))
    as (r & s1 & s' & Er & En & Et & Harm); try done.
  exists s'. split_and!; [|done|].
  2:{ rewrite periodic_flag by apply u32_range. by replace (u32 (_ - u32 _))
        with (u32 (alarm_time - now_at (reads s))) by mlia. }
  erewrite bind_ok by (apply take_ok; by destruct Hwf).
  erewrite bind_ok by exact Er. erewrite bind_ok by (apply time_ok). by rewrite En.
Qed.

(** [soft_timer_reset] arms the timer again one period from now. *)
Theorem soft_timer_reset_spec B s xs t k :
  st_wf B s xs -> room s -> timers s !! t = Some k ->
  u32 (u32 (now_at (reads s)) + Z.land (period k) SOFT_TIMER_PERIOD_MASK - B) < 2147483648 ->
  exists s',
    soft_timer_reset now_at t s = Ok (tt, s') /\
    armed B s xs t
      (mk_timer H None (u32 (u32 (now_at (reads s)) + Z.land (period k) SOFT_TIMER_PERIOD_MASK))
                (period k) (t_priority k) (handler k) (handler_arg k)) s'.
Proof.
  intros Hwf Hroom Ht Hin. unfold soft_timer_reset.
  set (g k0 := mk_timer H None
     (u32 (u32 (now_at (reads s)) + Z.land (period k0) SOFT_TIMER_PERIOD_MASK))
     (period k0) (t_priority k0) (handler k0) (handler_arg k0)).
  destruct (rearm_tail B s xs t k g (S (reads s)))
    as (r & s1 & s' & Er & En & Et & Harm); try done.
  { unfold off, g. cbn [alarm]. revert Hin. generalize (Z.land (period k) SOFT_TIMER_PERIOD_MASK).
    intros; mlia. }
  exists s'. split; [|done]. erewrite bind_ok by (apply take_ok; by destruct Hwf).
  erewrite bind_ok by exact Er. erewrite bind_ok by (apply time_ok). by rewrite En.
Qed.

(** [soft_timer_stop] takes the timer out of the list, and only it; the
    others keep their alarms and order; [process] is requested if it was the
    first, so that the hardware is programmed for the next one. *)
Theorem soft_timer_stop_spec B s xs t k :
  st_wf B s xs -> room s -> timers s !! t = Some k ->
  exists s',
    soft_timer_stop (Some t) s = Ok (tt, s') /\
    st_wf B s' (filter (λ l, l <> t) xs) /\ same_but_next (timers s) (timers s') /\
    process_posted s' = process_posted s || bool_decide (head xs = Some t).
Proof.
  intros (Hm & Hc & Hw & Ho) Hroom Ht. unfold soft_timer_stop.
  erewrite bind_ok by (by apply take_ok).
  destruct (remove_spec (set_mutex (Some true) s) xs t k Hc Ht) as (f & h & Er & Hcr & Hsr).
  erewrite bind_ok by exact Er. set (s1 := set_first f _) in *.
  destruct (request_process_spec (bool_decide (head xs = Some t)) s1)
    as (s2 & E2 & (Ht2 & Hf2 & Hm2) & Hp2); [done|].
  erewrite bind_ok by exact E2. exists (set_mutex (Some false) s2). split_and!.
  - unfold give. by rewrite Hm2.
  - unfold st_wf. cbn. rewrite Ht2, Hf2. split_and!; [done|done| |].
    + apply (in_window_same B (timers s)); [done|]. by apply in_window_filter.
    + apply (ordered_same B (timers s)); [done|]. by apply ordered_filter.
  - cbn. by rewrite Ht2.
  - cbn. by rewrite Hp2.
Qed.

Lemma find_timer_spec h p xs t fuel :
  chain h p xs -> (length xs < fuel)%nat ->
  find_timer fuel h p (Some t) = Ok (bool_decide (t ∈ xs)).
Proof.
  revert p xs. induction fuel as [|fuel IH]; intros p xs Hc Hlen; [lia|]. simpl.
  destruct p as [l|].
  - destruct (chain_some _ _ _ Hc) as (k & ys & -> & Hk & Hys).
    destruct (decide (Some l = Some t)) as [[= ->]|Hne].
    + by rewrite bool_decide_true by set_solver.
    + rewrite Hk. cbn. simpl in Hlen. rewrite (IH _ ys) by (done || lia).
      f_equal. apply bool_decide_ext. set_solver.
  - by apply chain_null in Hc as ->.
Qed.

(** [soft_timer_is_active] tells whether the timer is in the list, and
    changes nothing. *)
Theorem soft_timer_is_active_spec B s xs t :
  st_wf B s xs -> soft_timer_is_active (Some t) s = Ok (bool_decide (t ∈ xs), s).
Proof.
  intros (Hm & Hc & _). unfold soft_timer_is_active.
  erewrite bind_ok by (by apply take_ok). mrun.
  pose proof (chain_length _ _ _ Hc). cbn [timers first set_mutex].
  rewrite (find_timer_spec _ _ xs) by (done || lia). mrun.
  unfold give. cbn. destruct s; simpl in *. by rewrite Hm.
Qed.

(** *** Processing *)

(** [m] more events fit in every queue. *)
Definition room_for (m : nat) s : Prop :=
  forall q, exists l, queues (evs s) q = Some l /\ (length l + m <= EVENT_QUEUE_LENGTH)%nat.

(** From [e] to [e'], every queue got the entries [es] gives for it, in order. *)
Definition delivers (e e' : events (st_handler H)) (es : event_queue -> list (queue_entry (st_handler H))) : Prop :=
  forall q l, queues e q = Some l -> queues e' q = Some (l ++ es q).

Definition only (q : event_queue) (x : queue_entry (st_handler H)) (q' : event_queue) :=
  if decide (q = q') then [x] else [].

Lemma delivers_nil e : delivers e e (λ _, []).
Proof. intros q l ->. by rewrite app_nil_r. Qed.

Lemma delivers_trans e1 e2 e3 es1 es2 :
  delivers e1 e2 es1 -> delivers e2 e3 es2 -> delivers e1 e3 (λ q, es1 q ++ es2 q).
Proof. intros H1 H2 q l Hl. by rewrite app_assoc, (H2 _ _ (H1 _ _ Hl)). Qed.

Lemma post_ok m q ev arg s :
  room_for (S m) s ->
  exists e, post q ev arg s = Ok (EVENT_OK, set_evs e s) /\ room_for m (set_evs e s) /\
    delivers (evs s) e (only q (mk_entry ev arg)).
Proof.
  intros Hr. destruct (Hr q) as (l & Hl & Hlen). unfold post.
  rewrite (zoom_ok _ _ _ _ (event_post_ok q ev arg (evs s) l Hl ltac:(lia))).
  eexists. split; [done|].
  assert (delivers (evs s) (set_queue q (Some (l ++ [mk_entry ev arg])) (evs s)) (only q (mk_entry ev arg))) as Hd.
  { intros q' l' Hl'. unfold only. case_decide as Hq.
    - subst q'. rewrite Hl in Hl'. injection Hl' as <-. apply queue_set_same.
    - rewrite app_nil_r. etrans; [by apply queue_set_other|done]. }
  split; [|exact Hd]. intros q'. destruct (Hr q') as (l' & Hl' & Hlen').
  eexists. split; [exact (Hd q' l' Hl')|]. rewrite length_app. unfold only. case_decide; simpl; lia.
Qed.

(** The period a timer is re-armed with is positive and, up to the latest
    time [T] of the readings, keeps the alarm in the window. *)
Definition period_ok (T : Z) (k : soft_timer H) : Prop :=
  ctrue (Z.land (period k) SOFT_TIMER_PERIODIC) = true ->
  0 < Z.land (period k) SOFT_TIMER_PERIOD_MASK < 2147483648 - T.

Definition loop_ok (B T : Z) s xs : Prop :=
  softtim_mutex s = Some true /\ alarm_posted s = false /\
  chain (timers s) (first s) xs /\ in_window B (timers s) xs /\ ordered B (timers s) xs /\
  forall l k, l ∈ xs -> timers s !! l = Some k -> period_ok T k.

(** How often a timer can fire before [T]: once, or once per period. *)
Definition rounds (B T : Z) (k : soft_timer H) : nat :=
  if decide (off B k < T) then
    if ctrue (Z.land (period k) SOFT_TIMER_PERIODIC)
    then Z.to_nat ((T - off B k - 1) / Z.land (period k) SOFT_TIMER_PERIOD_MASK + 1)
    else 1
  else 0.
Definition rounds_at (B T : Z) h (l : loc) : nat := from_option (rounds B T) 0%nat (h !! l).

(** The number of times the timers [xs] can fire before [T]. *)
Definition lag (B T : Z) h xs : nat := sum_list (map (rounds_at B T h) xs).

Lemma lag_cons B T h x xs : lag B T h (x :: xs) = (rounds_at B T h x + lag B T h xs)%nat.
Proof. done. Qed.

Lemma lag_perm B T h xs ys : xs ≡ₚ ys -> lag B T h xs = lag B T h ys.
Proof. induction 1; unfold lag in *; simpl; lia. Qed.

Lemma lag_ext B T h h' xs :
  (forall l, l ∈ xs -> rounds_at B T h' l = rounds_at B T h l) -> lag B T h' xs = lag B T h xs.
Proof.
  unfold lag. induction xs as [|x xs IH]; intros He; simpl; [done|].
  rewrite He by constructor. rewrite IH; [done|]. intros l Hl. apply He. by constructor.
Qed.

Lemma rounds_lookup B T h l k : h !! l = Some k -> rounds_at B T h l = rounds B T k.
Proof. intros E. unfold rounds_at. by rewrite E. Qed.

Lemma rounds_same B T h h' l : same_but_next h h' -> rounds_at B T h' l = rounds_at B T h l.
Proof.
  intros Hs. unfold rounds_at. destruct (h' !! l) as [k'|] eqn:E.
  - destruct (same_but_next_inv _ _ _ _ Hs E) as (k & p & -> & ->). done.
  - destruct (h !! l) as [k|] eqn:E'; [|done].
    destruct (same_but_next_lookup _ _ _ _ Hs E') as [p Hp]. congruence.
Qed.

(** A timer that was due and is re-armed one period later has one round less. *)
Lemma rounds_rearm B T k k' :
  ctrue (Z.land (period k) SOFT_TIMER_PERIODIC) = true -> period k' = period k ->
  0 < Z.land (period k) SOFT_TIMER_PERIOD_MASK -> off B k < T ->
  off B k' = off B k + Z.land (period k) SOFT_TIMER_PERIOD_MASK ->
  (rounds B T k' < rounds B T k)%nat.
Proof.
  unfold rounds. intros Hp Ep Hpos HT Hoff. rewrite Ep, Hp, Hoff.
  set (p := Z.land (period k) SOFT_TIMER_PERIOD_MASK) in *. clearbody p.
  rewrite (decide_True (P := off B k < T)) by done.
  assert (0 <= (T - off B k - 1) / p) by (apply Z.div_pos; lia).
  case_decide; [|lia].
  replace (T - off B k - 1) with (T - (off B k + p) - 1 + 1 * p) in * by lia.
  rewrite Z.div_add in * by lia.
  assert (0 <= (T - (off B k + p) - 1) / p) by (apply Z.div_pos; lia). lia.
Qed.

(** *** Accounting for the timers fired *)

Definition is_periodic (k : soft_timer H) : bool := ctrue (Z.land (period k) SOFT_TIMER_PERIODIC).
Definition next_alarm (k : soft_timer H) (a : Z) : Z :=
  if is_periodic k then u32 (a + Z.land (period k) SOFT_TIMER_PERIOD_MASK) else a.
Fixpoint alarms_from (f : Z -> Z) (a : Z) (n : nat) : list Z :=
  match n with O => [] | S n => a :: alarms_from f (f a) n end.

(** The alarms for which timer [l] fired, in order. *)
Definition fired_alarms (l : loc) (fired : list (loc * Z * nat)) : list Z :=
  omap (λ e, if decide (e.1.1 = l) then Some e.1.2 else None) fired.

Definition same_job (k k' : soft_timer H) : Prop :=
  period k' = period k /\ t_priority k' = t_priority k /\ handler k' = handler k /\
  handler_arg k' = handler_arg k.

(** Timer [k] fired [c] times, for its alarm and then once per period, and became
    [k']: it is still in the list if it is periodic or did not fire, and one that
    is not periodic fired at most once. *)
Definition account_of (k k' : soft_timer H) (before after : Prop) (alarms : list Z) (c : nat) : Prop :=
  same_job k k' /\ alarm k' = Nat.iter c (next_alarm k) (alarm k) /\
  alarms = alarms_from (next_alarm k) (alarm k) c /\
  (after <-> before /\ (is_periodic k = true \/ c = 0%nat)) /\
  (c = 0%nat \/ before /\ (is_periodic k = true \/ c = 1%nat)).

Definition account h xs (fired : list (loc * Z * nat)) h' (ys : list loc) : Prop :=
  forall l, match h !! l, h' !! l with
    | Some k, Some k' => exists c, account_of k k' (l ∈ xs) (l ∈ ys) (fired_alarms l fired) c
    | None, None => fired_alarms l fired = []
    | _, _ => False
    end.

(** The entries posted for the timers fired. *)
Definition entries h (fired : list (loc * Z * nat)) (q : event_queue) : list (queue_entry (st_handler H)) :=
  omap (λ e, k ← h !! e.1.1;
             if decide (t_priority k = q) then (λ hd, mk_entry (App hd) (handler_arg k)) <$> handler k
             else None) fired.

Lemma alarms_from_app f a c1 c2 :
  alarms_from f a (c1 + c2) = alarms_from f a c1 ++ alarms_from f (Nat.iter c1 f a) c2.
Proof.
  revert a. induction c1 as [|c1 IH]; intros a; [done|].
  cbn [Nat.add alarms_from app]. rewrite IH. by rewrite Nat.iter_succ_r.
Qed.

Lemma account_refl h xs : account h xs [] h xs.
Proof.
  intros l. destruct (h !! l) as [k|]; [|done]. exists 0%nat.
  split_and!; [done|done|done|naive_solver|by left].
Qed.

Lemma account_trans h xs f1 h1 ys f2 h2 zs :
  account h xs f1 h1 ys -> account h1 ys f2 h2 zs -> account h xs (f1 ++ f2) h2 zs.
Proof.
  intros A1 A2 l. specialize (A1 l). specialize (A2 l). unfold fired_alarms in *. rewrite omap_app.
  destruct (h !! l) as [k|], (h1 !! l) as [k1|], (h2 !! l) as [k2|]; try contradiction.
  2:{ by rewrite A1, A2. }
  destruct A1 as (c1 & (P1 & P2 & P3 & P4) & E1 & -> & I1 & L1).
  destruct A2 as (c2 & (Q1 & Q2 & Q3 & Q4) & E2 & -> & I2 & L2).
  assert (is_periodic k1 = is_periodic k) as Hp by (unfold is_periodic; by rewrite P1).
  assert (next_alarm k1 = next_alarm k) as Hn by (unfold next_alarm; by rewrite Hp, P1).
  rewrite Hp, ?Hn in *. exists (c1 + c2)%nat. split_and!.
  - split_and!; congruence.
  - by rewrite E2, E1, Nat.add_comm, Nat.iter_add.
  - by rewrite alarms_from_app, E1.
  - destruct (is_periodic k); naive_solver lia.
  - destruct (is_periodic k); naive_solver lia.
Qed.

(** One timer [x], the first, fires. *)
Lemma account_fire_once h x xs k n :
  h !! x = Some k -> (x ∉ xs) -> is_periodic k = false ->
  account h (x :: xs) [(x, alarm k, n)] h xs.
Proof.
  intros Hx Hnin Hp l. unfold fired_alarms. cbn. destruct (decide (x = l)) as [<-|Hl].
  - rewrite Hx. exists 1%nat. split_and!; [done| |done| |].
    + cbn. unfold next_alarm. by rewrite Hp.
    + rewrite Hp. naive_solver.
    + right. split; [constructor|by right].
  - destruct (h !! l) as [k1|]; [|done]. exists 0%nat. split_and!; [done|done|done| |by left].
    rewrite elem_of_cons. naive_solver.
Qed.

Lemma account_fire_again h h' x xs ys k k' n :
  h !! x = Some k -> is_periodic k = true -> same_job k k' -> alarm k' = next_alarm k (alarm k) ->
  same_but_next (<[x := k']> h) h' -> x :: xs ≡ₚ ys ->
  account h (x :: xs) [(x, alarm k, n)] h' ys.
Proof.
  intros Hx Hp Hj Ha Hs Hys l. unfold fired_alarms. cbn. specialize (Hs l). destruct (decide (x = l)) as [<-|Hl].
  - rewrite Hx. rewrite lookup_insert_eq in Hs. destruct (h' !! x) as [k1|]; [|done].
    injection Hs as E1 E2 E3 E4 E5. exists 1%nat. destruct Hj as (? & ? & ? & ?). split_and!.
    + split_and!; congruence.
    + cbn. congruence.
    + done.
    + rewrite Hys. naive_solver.
    + right. split; [constructor|by left].
  - rewrite lookup_insert_ne in Hs by done. destruct (h !! l) as [k0|], (h' !! l) as [k1|]; try done.
    injection Hs as E1 E2 E3 E4 E5. exists 0%nat. split_and!; [by split_and!|done|done| |by left].
    rewrite Hys. naive_solver.
Qed.

(** The entries depend on the jobs only, which [process] keeps. *)
Lemma entries_account h xs f h' ys g q : account h xs f h' ys -> entries h' g q = entries h g q.
Proof.
  intros A. unfold entries. apply list_omap_ext, Forall_Forall2_diag, Forall_forall. intros [[l a] n] _.
  specialize (A l). simpl.
  destruct (h !! l) as [k|], (h' !! l) as [k'|]; try contradiction; [|done].
  destruct A as (c & (_ & E1 & E2 & E3) & _). simpl. by rewrite E1, E2, E3.
Qed.

(** Re-arming the timer [x] that has just been taken off the list. *)
Lemma refire_spec B T s xs x k :
  loop_ok B T s xs -> timers s !! x = Some k -> (x ∉ xs) ->
  off B k + Z.land (period k) SOFT_TIMER_PERIOD_MASK < 2147483648 ->
  0 < Z.land (period k) SOFT_TIMER_PERIOD_MASK -> off B k < T -> period_ok T k ->
  ctrue (Z.land (period k) SOFT_TIMER_PERIODIC) = true ->
  exists f h ys r,
    (store (Some x) (mk_timer H (t_next k)
                       (u32 (alarm k + Z.land (period k) SOFT_TIMER_PERIOD_MASK))
                       (period k) (t_priority k) (handler k) (handler_arg k)) ;;
     insert x) s = Ok (r, set_first f (set_timers h s)) /\
    loop_ok B T (set_first f (set_timers h s)) ys /\
    (lag B T h ys < lag B T (timers s) (x :: xs))%nat /\
    (forall n, account (timers s) (x :: xs) [(x, alarm k, n)] h ys).
Proof.
  intros (Hm & Hp & Hc & Hw & Ho & Hper) Hx Hnin Hlt Hpos HT Hpk Hperiodic.
  set (k' := mk_timer H (t_next k) _ _ _ _ _).
  assert (off B k' = off B k + Z.land (period k) SOFT_TIMER_PERIOD_MASK) as Hoff.
  { unfold off in *. subst k'. cbn [alarm]. revert Hlt Hpos.
    generalize (Z.land (period k) SOFT_TIMER_PERIOD_MASK). intros; mlia. }
  erewrite bind_ok by (by eapply timer_store_ok).
  assert (key B (<[x:=k']> (timers s)) x = off B k') as Hkx by (apply key_lookup, lookup_insert_eq).
  destruct (insert_spec B (set_timers (<[x := k']> (timers s)) s) xs x k')
    as (pre & post & f & h & Ex & Ei & Hc1 & Hs1 & _ & Ho1); simpl; [by apply lseg_insert| |done| | |].
  - apply lookup_insert_eq.
  - constructor; [lia|by apply in_window_insert_ne].
  - by apply ordered_insert_ne.
  - exists f, h, (pre ++ x :: post). eexists. split; [exact Ei|]. cbn [timers set_timers] in Hs1.
    assert (x :: xs ≡ₚ pre ++ x :: post) as Hperm by (rewrite Ex; apply Permutation_middle).
    split; [|split].
    + split_and!; [done|done|done| |done|].
      * apply (in_window_same B (<[x:=k']> (timers s))); [done|]. unfold in_window.
        rewrite <- Hperm. constructor; [lia|]. by apply in_window_insert_ne.
      * intros l k1. rewrite <- Hperm. cbn [timers set_timers set_first].
        intros Hl Hk1. destruct (same_but_next_inv _ _ _ _ Hs1 Hk1) as (k0 & p & Hk0 & ->).
        apply elem_of_cons in Hl as [->|Hl].
        -- rewrite lookup_insert_eq in Hk0. by injection Hk0 as <-.
        -- rewrite lookup_insert_ne in Hk0 by set_solver. exact (Hper l k0 Hl Hk0).
    + rewrite <- (lag_perm _ _ _ _ _ Hperm).
      rewrite (lag_ext B T (<[x:=k']> (timers s))) by (intros; by apply rounds_same).
      rewrite !lag_cons, (rounds_lookup _ _ _ _ k' (lookup_insert_eq _ _ _)),
        (rounds_lookup _ _ _ _ _ Hx), (lag_ext B T (timers s)).
      * pose proof (rounds_rearm B T k k' Hperiodic eq_refl Hpos HT Hoff). lia.
      * intros l Hl. unfold rounds_at. rewrite lookup_insert_ne by set_solver. done.
    + intros n. apply (account_fire_again _ _ _ _ _ k k'); [done|done|by split_and!| |exact Hs1|exact Hperm].
      unfold next_alarm, is_periodic. by rewrite Hperiodic.
Qed.

(** One round of the loop on the due timer [x]. *)
Lemma fire_spec B T m s xs x k :
  loop_ok B T s (x :: xs) -> timers s !! x = Some k -> off B k < T -> room_for (S m) s ->
  exists s' ys,
    fire x k s = Ok (tt, s') /\ loop_ok B T s' ys /\ room_for m s' /\
    (reads s' = reads s /\ priority s' = priority s) /\
    (lag B T (timers s') ys < lag B T (timers s) (x :: xs))%nat /\
    (forall n, account (timers s) (x :: xs) [(x, alarm k, n)] (timers s') ys /\
               delivers (evs s) (evs s') (entries (timers s) [(x, alarm k, n)])).
Proof.
  intros Hok Hx HT Hroom. pose proof Hok as (Hm & Hp & Hc & Hw & Ho & Hper).
  assert (period_ok T k) as Hpk by (apply (Hper x); [constructor|done]).
  pose proof (chain_nodup _ _ _ Hc) as [Hnin _]%NoDup_cons.
  assert (loop_ok B T (set_first (t_next k) s) xs) as Hok1.
  { destruct Hc as [_ (b & Hb & Hc)]. apply Forall_cons in Hw as [_ Hw].
    apply StronglySorted_inv in Ho as [Ho _]. cbn in Hb. simplify_eq.
    split_and!; try done. intros l k1 Hl. apply Hper. by constructor. }
  unfold fire. rewrite bind_mod.
  set (m1 := if ctrue _ then _ else _).
  assert (exists f h ys, m1 (set_first (t_next k) s) = Ok (tt, set_first f (set_timers h s)) /\
    loop_ok B T (set_first f (set_timers h s)) ys /\
    (lag B T h ys < lag B T (timers s) (x :: xs))%nat /\
    (forall n, account (timers s) (x :: xs) [(x, alarm k, n)] h ys)) as (f & h & ys & E1 & Hok2 & Hlag & Hacc).
  { subst m1. destruct (ctrue _) eqn:Eper.
    - pose proof (Hpk Eper) as Hpos.
      destruct (refire_spec B T (set_first (t_next k) s) xs x k)
        as (f & h & ys & r & E & Hok2 & Hl); [done|done|done|lia|lia|lia|done|done|].
      exists f, h, ys. split; [|done]. apply bind_inv in E as ([] & s2 & E2 & E3).
      erewrite bind_ok by exact E2. by erewrite bind_ok by exact E3.
    - exists (t_next k), (timers s), xs. split; [by destruct s|]. split; [by destruct s|]. split.
      + rewrite lag_cons, (rounds_lookup _ _ _ _ _ Hx). unfold rounds.
        rewrite decide_True, Eper by done. lia.
      + intros n. by apply account_fire_once. }
  erewrite bind_ok by exact E1. unfold entries. destruct (handler k) as [hd|] eqn:Eh.
  - destruct (post_ok m (t_priority k) (App hd) (handler_arg k) (set_first f (set_timers h s)))
      as (e & Ep & Hr & Hd); [done|].
    erewrite bind_ok by exact Ep. eexists _, ys. split_and!; try done.
    intros n. split; [apply Hacc|]. intros q l Hl. cbn [evs set_evs]. rewrite (Hd q l Hl). simpl. rewrite Hx. simpl.
    unfold only. case_decide; [|done]. by rewrite Eh.
  - eexists _, ys. split_and!; [done|done| |done|done|done|].
    + intros q. destruct (Hroom q) as (l & Hl & ?). exists l. split; [done|lia].
    + intros n. split; [apply Hacc|]. intros q l Hl. simpl. rewrite Hx. simpl. rewrite Eh.
      case_decide; simpl; by rewrite app_nil_r.
Qed.

(** The hardware is programmed to call [process] for the alarm of [k]: the
    periodic interrupt counts down the multiples of 2^16, or the compare
    channel holds the alarm, and [process] is posted if that came too late. *)
Definition programmed s (k : soft_timer H) (n1 n2 : nat) : Prop :=
  let delta := i32 (alarm k - u32 (now_at n1)) in
  remainder s = (if delta >? 0 then delta / 65536 else 0) /\
  (remainder s = 0 ->
     alarm_scheduled s = true /\ compare s = alarm k mod 65536 /\
     (i32 (alarm k - u32 (now_at n2)) < 1 ->
      exists l, queues (evs s) (priority s) = Some (l ++ [mk_entry Process 0]))).

(** [process] posts itself when the alarm it programmed is already past. *)
Definition late_entries (p : event_queue) (late : bool) : event_queue -> list (queue_entry (st_handler H)) :=
  if late then only p (mk_entry Process 0) else λ _, [].

Lemma schedule_spec k s :
  alarm_posted s = false -> room_for 1 s ->
  exists s', schedule now_at k s = Ok (tt, s') /\ timers s' = timers s /\ first s' = first s /\
    softtim_mutex s' = softtim_mutex s /\ (reads s < reads s')%nat /\
    programmed s' k (reads s) (S (reads s)) /\ exists late, delivers (evs s) (evs s') (late_entries (priority s) late).
Proof.
  intros Hp Hroom. unfold schedule. erewrite bind_ok by apply time_ok. mrun.
  set (r := if i32 _ >? 0 then _ else _).
  assert (r = if i32 (alarm k - u32 (now_at (reads s))) >? 0
              then i32 (alarm k - u32 (now_at (reads s))) / 65536 else 0) as Hr.
  { subst r. by rewrite shiftr_16. }
  cbn [remainder set_remainder]. destruct (Z.eqb_spec r 0) as [H0|H0]; cbn [mwhen].
  2:{ eexists. split; [done|]. split_and!; [done|done|done|simpl; lia| |].
      - split; [done|]. cbn. intros ?. contradiction.
      - exists false. apply delivers_nil. }
  mrun. cbn [alarm_posted set_compare set_remainder set_reads]. rewrite Hp.
  erewrite bind_ok by apply time_ok. mrun.
  cbn [alarm_posted set_reads set_alarm_flags negb]. rewrite andb_true_r.
  cbn [reads set_reads set_alarm_flags set_compare set_remainder].
  destruct (Z.ltb_spec (i32 (alarm k - u32 (now_at (S (reads s))))) 1) as [Hlt|Hge]; cbn [mwhen].
  - match goal with |- context [(post ?q ?e ?a ≫= _) ?s1] =>
      destruct (post_ok 0 q e a s1 Hroom) as (e' & Ep & _ & Hq) end.
    erewrite bind_ok by exact Ep. eexists. split; [done|].
    split_and!; [done|done|done|simpl; lia| |exists true; exact Hq].
    split; [done|]. intros _. split_and!; [done|cbn; apply land_65535|].
    intros _. destruct (Hroom (priority s)) as (l & Hl & _). exists l.
    etrans; [exact (Hq _ _ Hl)|]. unfold only. by rewrite decide_True.
  - eexists. split; [done|]. split_and!; [done|done|done|simpl; lia| |exists false; apply delivers_nil].
    split; [done|]. intros _. split_and!; [done|cbn; apply land_65535|]. lia.
Qed.

Lemma due_off B T (k : soft_timer H) now :
  off B k < 2147483648 -> 2 <= now - B <= T -> T < 2147483648 ->
  soft_timer_a_is_before_b (u32 (alarm k + 2)) (u32 now) = bool_decide (off B k + 2 < now - B).
Proof.
  unfold off, soft_timer_a_is_before_b. intros H1 H2 H3.
  assert (i32 (u32 now - u32 (alarm k + 2)) = now - B - (u32 (alarm k - B) + 2)) as -> by mlia.
  rewrite Z.gtb_ltb. destruct (Z.ltb_spec 0 (now - B - (u32 (alarm k - B) + 2)));
    destruct (bool_decide_reflect (u32 (alarm k - B) + 2 < now - B)); (done || lia).
Qed.

(** What [process] leaves: no alarm overdue at reading [n], and the hardware
    programmed for the first one. *)
Definition settled B s ys (n : nat) : Prop :=
  Forall (λ l, now_at n - B <= key B (timers s) l + 2) ys /\
  match head ys with
  | None => True
  | Some l => exists k, timers s !! l = Some k /\ programmed s k (S n) (S (S n))
  end.

(** The timers fired were due at the reading that fired them. *)
Definition fired_due B (e : loc * Z * nat) : Prop :=
  let '(_, a, n) := e in u32 (a - B) + 2 < now_at n - B.

Lemma process_loop_spec B T fuel : forall s xs,
  loop_ok B T s xs -> T < 2147483648 ->
  (forall n, 2 <= now_at n - B <= T) ->
  (lag B T (timers s) xs < fuel)%nat -> room_for (S (lag B T (timers s) xs)) s ->
  exists fired s' ys n late,
    process_loop now_at fuel s = Ok (fired, s') /\ loop_ok B T (set_alarm_flags false false s') ys /\
    Forall (fired_due B) fired /\ settled B s' ys n /\ account (timers s) xs fired (timers s') ys /\
    delivers (evs s) (evs s') (λ q, entries (timers s) fired q ++ late_entries (priority s) late q).
Proof.
  induction fuel as [|fuel IH]; intros s xs Hok HT Hnow Hfuel Hroom; [lia|].
  simpl. mrun. pose proof Hok as (Hm & Hp & Hc & Hw & Ho & Hper).
  destruct (first s) as [x|] eqn:Ef.
  2:{ exists [], s, xs, 0%nat, false. apply chain_null in Hc as ->.
      split_and!; try done; [apply account_refl|apply delivers_nil]. }
  destruct (chain_some _ _ _ Hc) as (k & ys & -> & Hx & Hys).
  assert (off B k < 2147483648) as Hoff.
  { rewrite <- (key_lookup _ _ _ _ Hx). by apply Forall_cons in Hw as [? _]. }
  mstep (timer_load_ok s x k Hx). erewrite bind_ok by apply time_ok.
  rewrite (due_off B T) by (done || apply Hnow).
  set (s0 := set_reads (S (reads s)) s).
  destruct (bool_decide_reflect (off B k + 2 < now_at (reads s) - B)) as [Hdue|Hnot].
  - pose proof (Hnow (reads s)).
    destruct (fire_spec B T (lag B T (timers s) (x :: ys)) s0 ys x k)
      as (s1 & zs & E1 & Hok1 & Hroom1 & [_ Epr] & Hlag & Hfire); [by rewrite <- Ef in Hc|done|lia|done|].
    destruct (Hfire (reads s)) as [Hacc Hdel]. cbn [timers set_reads evs priority s0] in Hlag, Hacc, Hdel, Epr.
    destruct (IH s1 zs) as (fired & s' & ws & n & late & E2 & Hok2 & Hfired & Hset & Hacc2 & Hdel2); try done; [lia| |].
    { intros q. destruct (Hroom1 q) as (l & Hl & ?). exists l. split; [done|lia]. }
    erewrite bind_ok by exact E1. erewrite bind_ok by exact E2.
    eexists _, s', ws, n, late. split_and!; [done|done| |done| |].
    + constructor; [exact Hdue|done].
    + exact (account_trans _ _ _ _ _ _ _ _ Hacc Hacc2).
    + intros q l Hl. rewrite (delivers_trans _ _ _ _ _ Hdel Hdel2 q l Hl), Epr.
      rewrite (entries_account _ _ _ _ _ _ _ Hacc).
      change (entries (timers s) (?e :: fired) q) with (entries (timers s) ([e] ++ fired) q).
      unfold entries. rewrite (omap_app _ [_] fired), <- app_assoc. done.
  - destruct (schedule_spec k s0 Hp) as (s' & E & Et & Ef' & Em & Hr & Hprog & late & Hd).
    { intros q. destruct (Hroom q) as (l & Hl & ?). exists l. split; [done|lia]. }
    erewrite bind_ok by exact E. exists [], s', (x :: ys), (reads s), late.
    split_and!; [done| |constructor| |rewrite Et; apply account_refl|exact Hd].
    + unfold loop_ok. cbn [softtim_mutex alarm_posted timers first set_alarm_flags].
      rewrite Et, Ef', Em. cbn [timers first set_reads s0]. rewrite Ef. by split_and!.
    + split; [|exists k; cbn; by rewrite Et].
      rewrite Et. cbn [timers set_reads s0]. apply StronglySorted_inv in Ho as [_ Ho].
      rewrite (key_lookup _ _ _ _ Hx) in Ho. constructor.
      * rewrite (key_lookup _ _ _ _ Hx). lia.
      * eapply Forall_impl; [exact Ho|]. simpl. lia.
Qed.

(** C23: [process] terminates and accounts for every timer: each fires for its
    alarm and then, if periodic, once per period, only when the alarm is past (by
    more than two ticks); afterwards no alarm is past, a periodic timer is in the
    list at its next alarm, one that is not and did not fire is untouched, one
    that fired is gone. The handlers of the timers fired, and nothing else but
    possibly [process] itself, are posted to their queues in that order. The list
    stays well formed, the mutex is free and the hardware programmed for the first
    alarm. The number of rounds is bounded by the number of times the timers can
    fire until the latest reading [B + T], for each of which the event queues have
    room. *)
Theorem process_spec B T fuel s xs :
  st_wf B s xs -> T < 2147483648 ->
  (forall n, 2 <= now_at n - B <= T) ->
  (forall l k, l ∈ xs -> timers s !! l = Some k -> period_ok T k) ->
  (lag B T (timers s) xs < fuel)%nat -> room_for (S (lag B T (timers s) xs)) s ->
  exists fired s' ys n late,
    process now_at fuel s = Ok (fired, s') /\ st_wf B s' ys /\
    Forall (fired_due B) fired /\ settled B s' ys n /\ account (timers s) xs fired (timers s') ys /\
    delivers (evs s) (evs s') (λ q, entries (timers s) fired q ++ late_entries (priority s) late q).
Proof.
  intros (Hm & Hc & Hw & Ho) HT Hnow Hper Hfuel Hroom. unfold process.
  erewrite bind_ok by (by apply take_ok). mrun.
  set (s1 := set_process_posted _ _).
  destruct (process_loop_spec B T fuel s1 xs)
    as (fired & s' & ys & n & late & E & Hok & Hfired & Hset & Hacc & Hdel);
    [by split_and!|done|done|done|done|].
  erewrite bind_ok by exact E. destruct Hok as (Hm' & _ & Hc' & Hw' & Ho' & _).
  exists fired, (set_mutex (Some false) s'), ys, n, late. split_and!; try done.
  unfold give. cbn in Hm'. erewrite bind_ok by (by rewrite Hm'). done.
Qed.

End alarms.

(** *** Concrete instances *)

#[local] Existing Instance default_build.

(** A periodic timer due at 1010 and a timer due at 1200; the time is 1150. *)
Definition now1150 (_ : nat) : Z := 1150.
Definition timer0 : soft_timer nat :=
  mk_timer nat (Some 1%nat) 1010 0x80000064 EVENT_QUEUE_APPLI (Some 7%nat) 0.
Definition timer1 : soft_timer nat := mk_timer nat None 1200 300 EVENT_QUEUE_APPLI (Some 8%nat) 1.
Definition timer2 : soft_timer nat := mk_timer nat None 0 60 EVENT_QUEUE_NETWORK (Some 9%nat) 2.
Definition two_timers : softtim nat :=
  mk_softtim nat (Some false) EVENT_QUEUE_NETWORK (Some 0%nat) false false false 0 0
    {[0%nat := timer0; 1%nat := timer1; 2%nat := timer2]} 0 0
    (mk_events (λ _, Some []) (λ _, true) (λ _, None)).

Lemma two_timers_wf : st_wf 1000 two_timers [0%nat; 1%nat].
Proof.
  split_and!; [reflexivity| | |].
  - split; [reflexivity|]. exists timer0. split; [reflexivity|].
    split; [reflexivity|]. exists timer1. split; reflexivity.
  - repeat (constructor; [reflexivity|]). constructor.
  - unfold ordered. repeat constructor; vm_compute; discriminate.
Qed.

Lemma two_timers_room : room two_timers.
Proof. exists []. split; [reflexivity|vm_compute; lia]. Qed.

Lemma soft_timer_start_spec_witness :
  exists s', soft_timer_start now1150 2 60 false two_timers = Ok (tt, s') /\
    exists pre post, [0%nat; 1%nat] = pre ++ post /\ st_wf 1000 s' (pre ++ 2%nat :: post).
Proof.
  destruct (soft_timer_start_spec now1150 1000 two_timers [0%nat; 1%nat] 2 timer2 60 false
    two_timers_wf two_timers_room) as (s' & E & pre & post & Ex & Hwf & _);
    [reflexivity|by intros [_ ?]|reflexivity|].
  exists s'. split; [exact E|]. exists pre, post. split; [exact Ex|exact Hwf].
Defined.

Lemma soft_timer_start_at_spec_witness :
  exists s', soft_timer_start_at now1150 2 1100 two_timers = Ok (tt, s') /\
    ctrue (Z.land (u32 (1100 - 1150)) SOFT_TIMER_PERIODIC) = true.
Proof.
  destruct (soft_timer_start_at_spec now1150 1000 two_timers [0%nat; 1%nat] 2 timer2 1100
    two_timers_wf two_timers_room) as (s' & E & _ & Hp); [reflexivity|reflexivity|].
  exists s'. split; [exact E|exact Hp].
Defined.

Lemma soft_timer_reset_spec_witness :
  exists s', soft_timer_reset now1150 0 two_timers = Ok (tt, s').
Proof.
  destruct (soft_timer_reset_spec now1150 1000 two_timers [0%nat; 1%nat] 0 timer0
    two_timers_wf two_timers_room) as (s' & E & _); [reflexivity|reflexivity|].
  exists s'. exact E.
Defined.

Lemma soft_timer_stop_spec_witness :
  exists s', soft_timer_stop (Some 0%nat) two_timers = Ok (tt, s') /\ st_wf 1000 s' [1%nat] /\
    process_posted s' = true.
Proof.
  destruct (soft_timer_stop_spec now1150 1000 two_timers [0%nat; 1%nat] 0 timer0
    two_timers_wf two_timers_room eq_refl) as (s' & E & Hwf & _ & Hp).
  exists s'. split; [exact E|split; [exact Hwf|exact Hp]].
Defined.

Lemma soft_timer_is_active_spec_witness :
  soft_timer_is_active (Some 2%nat) two_timers = Ok (false, two_timers).
Proof. exact (soft_timer_is_active_spec now1150 1000 two_timers [0%nat; 1%nat] 2 two_timers_wf). Defined.

Lemma process_spec_witness :
  exists fired s' ys n late, process now1150 5 two_timers = Ok (fired, s') /\
    st_wf 1000 s' ys /\ Forall (fired_due now1150 1000) fired /\ settled now1150 1000 s' ys n /\
    account (timers two_timers) [0%nat; 1%nat] fired (timers s') ys /\
    delivers (evs two_timers) (evs s')
      (λ q, entries (timers two_timers) fired q ++ late_entries EVENT_QUEUE_NETWORK late q).
Proof.
  apply (process_spec now1150 1000 150 5 two_timers [0%nat; 1%nat] two_timers_wf).
  - lia.
  - intros n. unfold now1150. lia.
  - intros l k Hl Hk. apply elem_of_cons in Hl as [->|[->|[]%elem_of_nil]%elem_of_cons];
      vm_compute in Hk; injection Hk as <-; intros Hp; [vm_compute; split; reflexivity|discriminate].
  - vm_compute. lia.
  - intros q. exists []. split; [reflexivity|vm_compute; lia].
Defined.

End SoftTimer.
