(* ===== verification/IotlabPacket.v ===== *)
(** * Packet queues of the control node ([appli/iotlab/lib/iotlab_packet.[ch]])

    An [iotlab_packet_t] is a [packet_t] followed by four more fields; the code
    casts freely between the two. The [packet_t] part of every packet is an
    object of the store of [Packet], the other fields are in [exts] under the
    same address. The list head inside an [iotlab_packet_queue_t] is a
    [packet_t] too (only its [next] field is used), so it is an object of the
    same store, without extension. *)

From stdpp Require Import base numbers gmap sorting list.
From S2P Require Import Prelude Chain Packet.

Module IotlabPacket.
Import Packet.

(** The [free] field: not set yet, or [iotlab_packet_free]. *)
Inductive free_fn := FREE_NULL | IOTLAB_PACKET_FREE.

Record iotlab_ext := mk_ext {
  timestamp : Z;
  free : free_fn;
  priority : Z;
  storage_queue : option nat;
}.

Record iotlab_packet_queue := mk_queue {
  count : Z;
  head : loc;
  q_mutex : mutex;
  new_packet : mutex;
}.

Record iot := mk_iot {
  stg : storage;
  exts : gmap loc iotlab_ext;
  qs : gmap nat iotlab_packet_queue;
}.

#[global] Instance stg_lens : Lens iot storage.
Proof.
  refine {| view := stg; over t s := mk_iot t (exts s) (qs s) |}.
  - done.
  - by intros [].
  - done.
Defined.

Definition cells (s : iot) : gmap loc packet := pkts (stg s).
Definition set_cells (h : gmap loc packet) (s : iot) : iot :=
  mk_iot (set_pkts h (stg s)) (exts s) (qs s).
Definition set_exts (e : gmap loc iotlab_ext) (s : iot) : iot := mk_iot (stg s) e (qs s).
Definition set_qs (q : gmap nat iotlab_packet_queue) (s : iot) : iot :=
  mk_iot (stg s) (exts s) q.

Definition ext_load (p : loc) : M iot iotlab_ext := fun s =>
  match exts s !! p with Some e => Ok (e, s) | None => Err EUndef end.
Definition ext_store (p : loc) (e : iotlab_ext) : M iot unit := fun s =>
  match exts s !! p with
  | Some _ => Ok (tt, set_exts (<[p := e]> (exts s)) s)
  | None => Err EUndef
  end.
Definition queue_load (q : nat) : M iot iotlab_packet_queue := fun s =>
  match qs s !! q with Some k => Ok (k, s) | None => Err EUndef end.
Definition queue_store (q : nat) (k : iotlab_packet_queue) : M iot unit := fun s =>
  match qs s !! q with
  | Some _ => Ok (tt, set_qs (<[q := k]> (qs s)) s)
  | None => Err EUndef
  end.

Definition set_count (c : Z) (k : iotlab_packet_queue) :=
  mk_queue c (head k) (q_mutex k) (new_packet k).

Definition take_mutex (q : nat) : M iot unit :=
  k ← queue_load q;
  m ← mlift (sem_take (q_mutex k));
  queue_store q (mk_queue (count k) (head k) m (new_packet k)).
Definition give_mutex (q : nat) : M iot unit :=
  k ← queue_load q;
  m ← mlift (sem_give (q_mutex k));
  queue_store q (mk_queue (count k) (head k) m (new_packet k)).
Definition take_new_packet (q : nat) : M iot unit :=
  k ← queue_load q;
  m ← mlift (sem_take (new_packet k));
  queue_store q (mk_queue (count k) (head k) (q_mutex k) m).
Definition give_new_packet (q : nat) : M iot unit :=
  k ← queue_load q;
  m ← mlift (sem_give (new_packet k));
  queue_store q (mk_queue (count k) (head k) (q_mutex k) m).

(** The macros [LIST_PUT] and [LIST_GET]. *)
Definition list_put (prev packet : loc) : M iot unit :=
  s ← mget;
  h ← mlift (link_after prev packet (cells s));
  mmod (set_cells h).
Definition list_get (prev : loc) : M iot ptr :=
  k ← mzoom (load (Some prev));
  n ← mzoom (load (next k));
  mzoom (store (Some prev) (set_next (next n) k)) ;;
  mret (next k).

Definition iotlab_packet_reset (packet : loc) : M iot unit :=
  mzoom (packet_reset (Some packet) 0) ;;
  e ← ext_load packet;
  ext_store packet (mk_ext 0 IOTLAB_PACKET_FREE (priority e) (storage_queue e)).

Definition iotlab_packet_free (packet : loc) : M iot unit :=
  e ← ext_load packet;
  match storage_queue e with
  | None => mret tt
  | Some q =>
      iotlab_packet_reset packet ;;
      take_mutex q ;;
      k ← queue_load q;
      list_put (head k) packet ;;
      queue_store q (set_count (count k + 1) k) ;;
      give_mutex q
  end.

(** The macro [iotlab_packet_call_free]. *)
Definition iotlab_packet_call_free (packet : loc) : M iot unit :=
  e ← ext_load packet;
  match free e with
  | FREE_NULL => mfail EUndef
  | IOTLAB_PACKET_FREE => iotlab_packet_free packet
  end.

(** [packets] lists the addresses of the elements of the array. *)
Definition iotlab_packet_init_queue (q : nat) (packets : list loc) : M iot unit :=
  k ← queue_load q;
  queue_store q (mk_queue 0 (head k) (q_mutex k) (new_packet k)) ;;
  hd ← mzoom (load (Some (head k)));
  mzoom (store (Some (head k)) (set_next None hd)) ;;
  queue_store q (mk_queue 0 (head k) (Some false) (Some false)) ;;
  mfor packets (λ packet,
    e ← ext_load packet;
    ext_store packet (mk_ext (timestamp e) (free e) (priority e) (Some q)) ;;
    iotlab_packet_free packet).

Definition iotlab_packet_alloc (q : nat) (offset : Z) : M iot ptr :=
  k ← queue_load q;
  if count k =? 0 then mret None
  else
    take_mutex q ;;
    k ← queue_load q;
    packet ← list_get (head k);
    queue_store q (set_count (count k - 1) k) ;;
    give_mutex q ;;
    mzoom (packet_reset packet offset) ;;
    mret packet.

Definition iotlab_packet_append_data (packet : loc) (bs : list Z) : M iot unit :=
  k ← mzoom (load (Some packet));
  raw ← mlift (arr_blit (raw_data k) (data k + length_ k) bs);
  mzoom (store (Some packet)
           (mk_packet raw (data k) (u16 (length_ k + Z.of_nat (length bs))) (next k))).

Definition iotlab_packet_fifo_count (q : nat) : M iot Z :=
  k ← queue_load q; mret (count k).

(** The test that ends the search: the packet's priority is above that of
    [prev->next] (the queues hold objects with an extension only). *)
Definition higher (es : gmap loc iotlab_ext) (prio : Z) (l : loc) (_ : packet) : bool :=
  match es !! l with Some e => prio >? priority e | None => false end.

Definition iotlab_packet_fifo_prio_append (q : nat) (packet : loc) : M iot unit :=
  take_mutex q ;;
  k ← queue_load q;
  e ← ext_load packet;
  s ← mget;
  prev ← mlift (walk (S (size (cells s))) (cells s) (higher (exts s) (priority e)) (head k));
  list_put prev packet ;;
  queue_store q (set_count (count k + 1) k) ;;
  mwhen (count k =? 0) (give_new_packet q) ;;
  give_mutex q.

(** The wait of [iotlab_packet_fifo_get]; [env i] is what the other tasks do
    while the mutex is released for the [i]-th time. *)
Fixpoint fifo_wait (fuel i : nat) (env : nat -> M iot unit) (q : nat) : M iot unit :=
  match fuel with
  | O => mfail EFuel
  | S fuel =>
      k ← queue_load q;
      mwhen (count k =? 0)
        (give_mutex q ;;
         env i ;;
         take_new_packet q ;;
         take_mutex q ;;
         fifo_wait fuel (S i) env q)
  end.

Definition iotlab_packet_fifo_get (fuel : nat) (env : nat -> M iot unit) (q : nat) : M iot ptr :=
  take_mutex q ;;
  fifo_wait fuel 0 env q ;;
  k ← queue_load q;
  packet ← list_get (head k);
  queue_store q (set_count (count k - 1) k) ;;
  give_mutex q ;;
  p ← mzoom (load packet);
  mzoom (store packet (set_next None p)) ;;
  mret packet.

(** ** Representation

    [queue_rep s q xs]: queue [q] holds the packets [xs], in this order. *)

Definition queue_rep (s : iot) (q : nat) (xs : list loc) : Prop :=
  exists k, qs s !! q = Some k /\ q_mutex k = Some false /\ is_Some (new_packet k) /\
    count k = Z.of_nat (length xs) /\
    chain (cells s) (Some (head k)) (head k :: xs) /\
    Forall (λ l, is_Some (exts s !! l)) xs.

Definition q_head (s : iot) (q : nat) : option loc := head <$> qs s !! q.

(** Packet [p] exists and is neither in a queue nor a queue's head. *)
Definition loose (s : iot) (m : gmap nat (list loc)) (p : loc) : Prop :=
  is_Some (cells s !! p) /\ is_Some (exts s !! p) /\
  (forall q xs, m !! q = Some xs -> (p ∉ xs) /\ q_head s q <> Some p).

(** All queues at once: the abstract state maps each queue to its contents,
    and no packet is in two queues. *)
Definition reps (s : iot) (m : gmap nat (list loc)) : Prop :=
  (forall q xs, m !! q = Some xs -> queue_rep s q xs) /\
  (forall q q' xs xs' l, m !! q = Some xs -> m !! q' = Some xs' -> q <> q' ->
     (l ∈ xs \/ q_head s q = Some l) -> (l ∈ xs' \/ q_head s q' = Some l) -> False).

(** Apart from packet [x], an operation changed at most the links between packets
    and the queues' counters. *)
Definition io_frame (x : loc) (s s' : iot) : Prop :=
  (forall l, l <> x -> set_next None <$> cells s' !! l = set_next None <$> cells s !! l) /\
  (forall q, q_head s' q = q_head s q) /\
  (forall l, is_Some (exts s !! l) <-> is_Some (exts s' !! l)).

(** *** Steps on a locked queue *)

Definition lock (k : iotlab_packet_queue) := mk_queue (count k) (head k) (Some true) (new_packet k).
Definition upd (q : nat) (k : iotlab_packet_queue) (s : iot) : iot := set_qs (<[q := k]> (qs s)) s.

Lemma take_mutex_ok s q k :
  qs s !! q = Some k -> q_mutex k = Some false ->
  take_mutex q s = Ok (tt, upd q (lock k) s).
Proof.
  intros Hq Hm. unfold take_mutex, queue_load, queue_store, mbind, M_bind, mlift.
  rewrite Hq, Hm. cbn. by rewrite Hq.
Qed.

Lemma queue_load_ok s q k : qs s !! q = Some k -> queue_load q s = Ok (k, s).
Proof. intros Hq. unfold queue_load. by rewrite Hq. Qed.

Lemma queue_store_ok s q k k' : qs s !! q = Some k -> queue_store q k' s = Ok (tt, upd q k' s).
Proof. intros Hq. unfold queue_store. by rewrite Hq. Qed.

Lemma give_mutex_ok s q k b :
  qs s !! q = Some k -> q_mutex k = Some b ->
  give_mutex q s = Ok (tt, upd q (mk_queue (count k) (head k) (Some false) (new_packet k)) s).
Proof.
  intros Hq Hm. unfold give_mutex, queue_load, queue_store, mbind, M_bind, mlift.
  rewrite Hq, Hm. cbn. by rewrite Hq.
Qed.

Lemma give_new_packet_ok s q k b :
  qs s !! q = Some k -> new_packet k = Some b ->
  give_new_packet q s = Ok (tt, upd q (mk_queue (count k) (head k) (q_mutex k) (Some false)) s).
Proof.
  intros Hq Hm. unfold give_new_packet, queue_load, queue_store, mbind, M_bind, mlift.
  rewrite Hq, Hm. cbn. by rewrite Hq.
Qed.

Lemma ext_load_ok s p e : exts s !! p = Some e -> ext_load p s = Ok (e, s).
Proof. intros He. unfold ext_load. by rewrite He. Qed.

Lemma ext_store_ok s p e e' :
  exts s !! p = Some e -> ext_store p e' s = Ok (tt, set_exts (<[p := e']> (exts s)) s).
Proof. intros He. unfold ext_store. by rewrite He. Qed.

Lemma cell_load_ok s p k :
  cells s !! p = Some k -> mzoom (S := iot) (load (Some p)) s = Ok (k, s).
Proof.
  intros E. erewrite zoom_ok by (by apply Packet.load_ok). by rewrite over_view.
Qed.

Lemma cell_store_ok s p k k' :
  cells s !! p = Some k ->
  mzoom (S := iot) (store (Some p) k') s = Ok (tt, set_cells (<[p := k']> (cells s)) s).
Proof. intros E. by erewrite zoom_ok by (by eapply Packet.store_ok). Qed.

Lemma lookup_upd s q k : qs (upd q k s) !! q = Some k.
Proof. apply lookup_insert_eq. Qed.

Lemma upd_upd s q k k' : upd q k (upd q k' s) = upd q k s.
Proof. unfold upd, set_qs. cbn. by rewrite insert_insert_eq. Qed.

(** [LIST_PUT] after an element of the list of a queue. *)
Lemma list_put_ok s p pre x zs new a b :
  chain (cells s) p (pre ++ x :: zs) -> (new ∉ pre ++ x :: zs) ->
  cells s !! x = Some a -> cells s !! new = Some b ->
  exists h, list_put x new s = Ok (tt, set_cells h s) /\
    chain h p (pre ++ x :: new :: zs) /\
    (forall l, l <> x -> l <> new -> h !! l = cells s !! l) /\
    (forall l, is_Some (cells s !! l) -> is_Some (h !! l)) /\
    h !! new = Some (set_next (next a) b) /\ same_but_next (cells s) h.
Proof.
  intros Hc Hn Ha Hb. destruct (link_after_spec _ _ _ _ _ _ _ _ Hc Hn Ha Hb) as (h & E & Hc' & ->).
  eexists. split; [|split; [exact Hc'|]].
  - unfold list_put. mrun. by rewrite E.
  - split_and!.
    + intros l Hx Hnew. by rewrite !lookup_insert_ne.
    + intros l Hl. rewrite !lookup_insert_is_Some'. tauto.
    + rewrite lookup_insert_ne by set_solver. apply lookup_insert_eq.
    + eapply same_but_next_trans; [by apply (same_but_next_insert _ new b)|].
      apply same_but_next_insert. rewrite lookup_insert_ne by set_solver. done.
Qed.

(** [LIST_GET] from a non-empty list. *)
Lemma list_get_ok s hd x xs a :
  chain (cells s) (Some hd) (hd :: x :: xs) -> cells s !! hd = Some a ->
  exists b, cells s !! x = Some b /\ next a = Some x /\
    list_get hd s = Ok (Some x, set_cells (<[hd := set_next (next b) a]> (cells s)) s) /\
    chain (<[hd := set_next (next b) a]> (cells s)) (Some hd) (hd :: xs).
Proof.
  intros Hc Ha. pose proof Hc as (_ & a' & Ha' & (Hn & b & Hb & Hxs)). simplify_eq.
  exists b. cbn in Hn. split_and!; [done|done| |].
  - unfold list_get. rewrite (bind_ok _ _ _ _ _ (cell_load_ok s hd a Ha)), Hn.
    rewrite (bind_ok _ _ _ _ _ (cell_load_ok s x b Hb)).
    by rewrite (bind_ok _ _ _ _ _ (cell_store_ok s hd a _ Ha)).
  - exact (chain_unlink _ _ [] hd x xs a b Hc Ha Hb).
Qed.

(** An operation on queue [q] that leaves the objects of the other queues
    alone updates the abstract state at [q] only. *)
Lemma reps_update s s' m q xs ys :
  reps s m -> m !! q = Some xs ->
  (forall q', q_head s' q' = q_head s q') ->
  (forall q', q' <> q -> qs s' !! q' = qs s !! q') ->
  (forall l, is_Some (exts s !! l) -> is_Some (exts s' !! l)) ->
  (forall q' xs' l, q' <> q -> m !! q' = Some xs' -> l ∈ xs' \/ q_head s q' = Some l ->
     cells s' !! l = cells s !! l) ->
  queue_rep s' q ys -> (forall l, l ∈ ys -> l ∈ xs \/ loose s m l) ->
  reps s' (<[q := ys]> m).
Proof.
  intros [Hr Hd] Hq Hh Hqs Hex Hcells Hys Hin. split.
  - intros q' zs. destruct (decide (q' = q)) as [->|Hne].
    + rewrite lookup_insert_eq. by intros [= <-].
    + rewrite lookup_insert_ne by done. intros Hz. destruct (Hr _ _ Hz) as (k & Hk & Hm & Hn & Hc & Hl & He).
      exists k. rewrite Hqs by done. split_and!; try done.
      * eapply lseg_ext; [|exact Hl]. intros l [->|Hl']%elem_of_cons.
        -- apply (Hcells q' zs); [done|done|]. right. unfold q_head. by rewrite Hk.
        -- apply (Hcells q' zs); auto.
      * eapply Forall_impl; [exact He|]. apply Hex.
  - assert (forall q' zs l, q' <> q -> m !! q' = Some zs -> (l ∈ zs \/ q_head s q' = Some l) ->
              (l ∈ ys \/ q_head s q = Some l) -> False) as Hmix.
    { intros q' zs l Hne Hz Hl [Hl'|Hl']; [|apply (Hd q' q zs xs l); auto].
      destruct (Hin _ Hl') as [Hx|(_ & _ & Hlo)]; [apply (Hd q' q zs xs l); auto|].
      destruct (Hlo _ _ Hz) as [H1 H2]. tauto. }
    intros q1 q2 xs1 xs2 l. rewrite !Hh.
    destruct (decide (q1 = q)) as [->|H1], (decide (q2 = q)) as [->|H2]; try done;
      rewrite ?lookup_insert_eq, ?lookup_insert_ne by done; intros; simplify_eq; eauto.
Qed.

(** *** Abstract operations *)

Definition prio (s : iot) (l : loc) : Z := from_option priority 0 (exts s !! l).

(** Insertion before the first element of lower priority. *)
Fixpoint prio_insert (f : loc -> Z) (x : loc) (xs : list loc) : list loc :=
  match xs with
  | [] => [x]
  | y :: ys => if f x >? f y then x :: y :: ys else y :: prio_insert f x ys
  end.

Lemma prio_insert_split f x pre post :
  Forall (λ y, (f x >? f y) = false) pre ->
  (forall y, hd_error post = Some y -> (f x >? f y) = true) ->
  prio_insert f x (pre ++ post) = pre ++ x :: post.
Proof.
  induction 1 as [|y pre Hy Hpre IH]; intros Hpost; cbn.
  - destruct post as [|y post]; [done|]. cbn. by rewrite Hpost.
  - rewrite Hy. f_equal. by apply IH.
Qed.

Lemma prio_insert_elem f x xs l : l ∈ prio_insert f x xs <-> l = x \/ l ∈ xs.
Proof.
  induction xs as [|y ys IH]; cbn; [set_solver|].
  destruct (f x >? f y); [set_solver|]. rewrite !elem_of_cons, IH. tauto.
Qed.

Lemma prio_insert_length f x xs : length (prio_insert f x xs) = S (length xs).
Proof. induction xs as [|y ys IH]; cbn; [done|]. destruct (f x >? f y); cbn; by rewrite ?IH. Qed.

(** *** The search of the insertion place *)
Lemma prio_walk s hd xs p e :
  chain (cells s) (Some hd) (hd :: xs) -> exts s !! p = Some e ->
  Forall (λ l, is_Some (exts s !! l)) xs ->
  exists pre y zs a,
    hd :: xs = pre ++ y :: zs /\
    walk (S (size (cells s))) (cells s) (higher (exts s) (priority e)) hd = Ok y /\
    cells s !! y = Some a /\
    hd :: prio_insert (prio s) p xs = pre ++ y :: p :: zs.
Proof.
  intros Hc He Hx. pose proof (chain_length _ _ _ Hc) as Hlen. simpl in Hlen.
  destruct (walk_spec (S (size (cells s))) (cells s) (higher (exts s) (priority e)) hd xs Hc)
    as (pre & y & zs & a & Ex & Ew & Ha & Hz & Hno & Hyes); [lia|].
  exists pre, y, zs, a. split_and!; [done|done|done|].
  assert (forall l, l ∈ xs -> forall b, higher (exts s) (priority e) l b = (prio s p >? prio s l)) as Hp.
  { intros l Hl b. rewrite Forall_forall in Hx. destruct (Hx l Hl) as [el Hel].
    unfold higher, prio. by rewrite Hel, He. }
  assert (exists pre', pre ++ [y] = hd :: pre' /\ xs = pre' ++ zs) as (pre' & E1 & E2).
  { destruct pre as [|z pre]; cbn in Ex; injection Ex as -> ->; [by exists []|].
    exists (pre ++ [y]). by rewrite <- app_assoc. }
  change (pre ++ y :: p :: zs) with (pre ++ [y] ++ p :: zs). rewrite app_assoc, E1.
  cbn. f_equal. subst xs. apply prio_insert_split.
  - apply Forall_forall. intros l Hl. rewrite E1 in Hno. cbn in Hno. rewrite drop_0 in Hno.
    destruct (lseg_in_dom _ _ _ _ l Hc) as [b Hb]; [set_solver|].
    rewrite <- (Hp l) with (b := b) by set_solver. by apply Hno.
  - intros l Hl. destruct zs as [|z zs]; [done|]. injection Hl as ->.
    destruct (lseg_in_dom _ _ _ _ l Hc) as [b Hb]; [set_solver|].
    rewrite <- (Hp l) with (b := b) by set_solver. by apply Hyes.
Qed.

Lemma upd_cells s q k h : set_cells h (upd q k s) = upd q k (set_cells h s).
Proof. done. Qed.

Lemma q_head_upd s q k k' :
  qs s !! q = Some k -> head k' = head k -> forall q', q_head (upd q k' s) q' = q_head s q'.
Proof.
  intros Hq Hh q'. unfold q_head, upd. cbn. destruct (decide (q' = q)) as [->|Hne].
  - rewrite lookup_insert_eq, Hq. cbn. by rewrite Hh.
  - by rewrite lookup_insert_ne.
Qed.

(** The shape of all queue operations: objects outside of the queue and of
    [ps] keep their contents, and queue [q] gets record [k']. *)
Lemma reps_op s m q xs ys k k' h es :
  reps s m -> m !! q = Some xs -> qs s !! q = Some k ->
  head k' = head k -> q_mutex k' = Some false -> is_Some (new_packet k') ->
  count k' = Z.of_nat (length ys) ->
  (forall l, is_Some (exts s !! l) -> is_Some (es !! l)) ->
  (forall l, (l ∉ xs) -> l <> head k -> ~ loose s m l -> h !! l = cells s !! l) ->
  chain h (Some (head k)) (head k :: ys) -> (forall l, l ∈ ys -> l ∈ xs \/ loose s m l) ->
  reps (upd q k' (set_exts es (set_cells h s))) (<[q := ys]> m).
Proof.
  intros Hr Hq Hk Hh Hm Hn Hc Hes Hcells Hch Hin. pose proof Hr as [Hr1 Hd].
  destruct (Hr1 _ _ Hq) as (k0 & Hk0 & _ & _ & _ & _ & Hex). simplify_eq.
  apply (reps_update s _ m q xs ys); [done|done| | |done| | |done].
  - by apply (q_head_upd (set_exts es (set_cells h s)) q k k').
  - intros q' Hne. cbn. by rewrite lookup_insert_ne.
  - intros q' xs' l Hne Hq' Hl. cbn. apply Hcells.
    + intros Hx. apply (Hd q' q xs' xs l); auto.
    + intros ->. apply (Hd q' q xs' xs (head k)); auto. right. unfold q_head. by rewrite Hk.
    + intros (_ & _ & Hlo). destruct (Hlo _ _ Hq'). tauto.
  - exists k'. split_and!; [apply lookup_insert_eq|done|done|done| |].
    + cbn. by rewrite Hh.
    + apply Forall_forall. intros l Hl. cbn. apply Hes. destruct (Hin l Hl) as [Hx|(_ & ? & _)]; [|done].
      rewrite Forall_forall in Hex. by apply Hex.
Qed.

(** *** Appending *)

Lemma append_ok s m q xs p :
  reps s m -> m !! q = Some xs -> loose s m p ->
  exists s',
    iotlab_packet_fifo_prio_append q p s = Ok (tt, s') /\
    reps s' (<[q := prio_insert (prio s) p xs]> m) /\ exts s' = exts s /\
    same_but_next (cells s) (cells s') /\
    (xs = [] -> new_packet <$> qs s' !! q = Some (Some false)) /\
    (forall q', q_head s' q' = q_head s q').
Proof.
  intros Hr Hq Hlo. pose proof Hr as [Hr1 _].
  destruct (Hr1 _ _ Hq) as (k & Hk & Hm & [b Hn] & Hc & Hch & Hex).
  destruct Hlo as ([cp Hcp] & [e He] & Hout) eqn:Elo. clear Elo.
  destruct (prio_walk s (head k) xs p e Hch He Hex) as (pre & y & zs & a & Exs & Ew & Ha & Eins).
  assert (p ∉ pre ++ y :: zs) as Hp.
  { rewrite <- Exs. destruct (Hout _ _ Hq) as [Hx Hh]. unfold q_head in Hh. rewrite Hk in Hh.
    cbn in Hh. intros [->|?]%elem_of_cons; [done|done]. }
  pose proof Hch as Hch'. rewrite Exs in Hch'.
  destruct (list_put_ok (upd q (lock k) s) _ _ _ _ p a cp Hch' Hp Ha Hcp)
    as (h & Eput & Hh & Hother & _ & _ & Hsame).
  set (k1 := mk_queue (count k + 1) (head k) (Some false)
               (if count k =? 0 then Some false else new_packet k)).
  exists (upd q k1 (set_exts (exts s) (set_cells h s))).
  split_and!.
  - unfold iotlab_packet_fifo_prio_append.
    erewrite bind_ok by (by apply take_mutex_ok).
    erewrite bind_ok by (apply queue_load_ok, lookup_upd).
    erewrite bind_ok by (apply ext_load_ok; exact He). mrun. cbn [head lock exts upd set_qs].
    change (cells (upd q (lock k) s)) with (cells s). rewrite Ew.
    erewrite bind_ok by exact Eput. rewrite upd_cells.
    erewrite bind_ok by (eapply queue_store_ok, lookup_upd). rewrite upd_upd. cbn [count lock].
    subst k1. destruct (count k =? 0); cbn [mwhen].
    + erewrite bind_ok by (eapply give_new_packet_ok; [apply lookup_upd|exact Hn]).
      rewrite upd_upd. erewrite give_mutex_ok by (apply lookup_upd || done). by rewrite upd_upd.
    + mrun. erewrite give_mutex_ok by (apply lookup_upd || done). by rewrite upd_upd.
  - apply (reps_op s m q xs _ k); try done.
    + cbn. destruct (count k =? 0); [done|by rewrite Hn].
    + cbn. rewrite prio_insert_length. lia.
    + intros l H1 H2 H3. apply Hother.
      * intros ->. assert (y ∈ head k :: xs) as [?|?]%elem_of_cons; [rewrite Exs; set_solver|done|done].
      * intros ->. apply H3. split_and!; eauto.
    + by rewrite Eins.
    + intros l Hl. apply prio_insert_elem in Hl as [->|Hl]; [right|by left]. split_and!; eauto.
  - done.
  - exact Hsame.
  - intros ->. cbn. rewrite lookup_insert_eq. cbn. by rewrite Hc.
  - intros q'. by rewrite (q_head_upd (set_exts (exts s) (set_cells h s)) q k).
Qed.

(** Writing a packet that is in no queue. *)
Lemma reps_loose_cell s m p k :
  reps s m -> loose s m p ->
  reps (set_cells (<[p := k]> (cells s)) s) m /\ loose (set_cells (<[p := k]> (cells s)) s) m p.
Proof.
  intros [Hr Hd] (Hc & He & Hlo). split.
  - split; [|done]. intros q xs Hq. destruct (Hr _ _ Hq) as (k0 & Hk & Hm & Hn & Hcnt & Hch & Hex).
    exists k0. split_and!; try done. destruct (Hlo _ _ Hq) as [Hx Hh].
    apply (lseg_insert (cells s) _ (head k0 :: xs)); [|done].
    unfold q_head in Hh. rewrite Hk in Hh. cbn in Hh. intros [->|?]%elem_of_cons; done.
  - split_and!; [cbn; by rewrite lookup_insert_eq|done|done].
Qed.

(** *** Taking the first packet *)

Lemma set_cells_twice s h h' : set_cells h (set_cells h' s) = set_cells h s.
Proof. done. Qed.

(** The locked part of [iotlab_packet_alloc] and [iotlab_packet_fifo_get]. *)
Lemma pop_ok s q k x xs :
  qs s !! q = Some k -> q_mutex k = Some true ->
  chain (cells s) (Some (head k)) (head k :: x :: xs) ->
  exists h b,
    (k ← queue_load q; packet ← list_get (head k); queue_store q (set_count (count k - 1) k) ;;
     give_mutex q ;; mret packet) s =
      Ok (Some x, upd q (mk_queue (count k - 1) (head k) (Some false) (new_packet k)) (set_cells h s)) /\
    chain h (Some (head k)) (head k :: xs) /\ h !! x = Some b /\ (x ∉ xs) /\ x <> head k /\
    (forall l, l <> head k -> h !! l = cells s !! l) /\ cells s !! x = Some b /\
    same_but_next (cells s) h.
Proof.
  intros Hk Hm Hc. pose proof Hc as (_ & a & Ha & _).
  destruct (list_get_ok s _ _ _ a Hc Ha) as (b & Hb & _ & Eg & Hc').
  pose proof (chain_nodup _ _ _ Hc) as [Hnx [Hx _]%NoDup_cons]%NoDup_cons.
  eexists _, b. split_and!; [|exact Hc'| |done|set_solver| |done|by apply same_but_next_insert].
  - erewrite bind_ok by (by apply queue_load_ok). erewrite bind_ok by exact Eg.
    erewrite bind_ok by (by eapply queue_store_ok).
    erewrite bind_ok by (eapply give_mutex_ok; [apply lookup_upd|exact Hm]). by rewrite upd_upd.
  - rewrite lookup_insert_ne by set_solver. done.
  - intros l Hl. by rewrite lookup_insert_ne.
Qed.

(** Writing the packet just taken out, and the abstract state after it. *)
Lemma popped_reps s m q x xs k h b k' :
  reps s m -> m !! q = Some (x :: xs) -> qs s !! q = Some k ->
  chain h (Some (head k)) (head k :: xs) -> (x ∉ xs) -> x <> head k ->
  (forall l, l <> head k -> h !! l = cells s !! l) ->
  k' = mk_queue (count k - 1) (head k) (Some false) (new_packet k) ->
  let s' := upd q k' (set_cells (<[x := b]> h) s) in
  reps s' (<[q := xs]> m) /\ loose s' (<[q := xs]> m) x.
Proof.
  intros Hr Hq Hk Hc Hx Hxh Hh ->. pose proof Hr as [Hr1 Hd].
  destruct (Hr1 _ _ Hq) as (k0 & Hk0 & Hm & Hn & Hcnt & Hch & Hex). simplify_eq.
  set (k' := mk_queue _ _ _ _). cbn zeta.
  assert (reps (upd q k' (set_exts (exts s) (set_cells (<[x := b]> h) s))) (<[q := xs]> m)) as Hr'.
  { apply (reps_op s m q (x :: xs) xs k); try done.
    - cbn. rewrite Hcnt. cbn. lia.
    - intros l H1 H2 _. rewrite lookup_insert_ne by set_solver. by apply Hh.
    - apply lseg_insert; [set_solver|done].
    - set_solver. }
  split; [exact Hr'|]. split_and!.
  - cbn. by rewrite lookup_insert_eq.
  - cbn. by apply Forall_cons in Hex as [? _].
  - intros q' zs. rewrite (q_head_upd (set_cells (<[x:=b]> h) s) q k) by done.
    change (q_head (set_cells (<[x:=b]> h) s) q') with (q_head s q').
    destruct (decide (q' = q)) as [->|Hne].
    + rewrite lookup_insert_eq. intros [= <-]. split; [done|].
      unfold q_head. rewrite Hk. cbn. congruence.
    + rewrite lookup_insert_ne by done. intros Hz. split.
      * intros Hxz. apply (Hd q q' (x :: xs) zs x); auto. left. constructor.
      * intros Hxz. apply (Hd q q' (x :: xs) zs x); auto. left. constructor.
Qed.

Lemma packet_reset_ok s p k offset :
  cells s !! p = Some k ->
  mzoom (S := iot) (packet_reset (Some p) offset) s =
    Ok (tt, set_cells (<[p := mk_packet (raw_data k) offset 0 None]> (cells s)) s).
Proof.
  intros E. erewrite zoom_ok; [done|]. unfold packet_reset.
  erewrite bind_ok by (by apply Packet.load_ok). by eapply Packet.store_ok.
Qed.

Lemma alloc_ok s m q x xs offset :
  reps s m -> m !! q = Some (x :: xs) ->
  exists s' c,
    iotlab_packet_alloc q offset s = Ok (Some x, s') /\
    reps s' (<[q := xs]> m) /\ loose s' (<[q := xs]> m) x /\ exts s' = exts s /\
    cells s' !! x = Some c /\ data c = offset /\ length_ c = 0 /\ next c = None /\
    raw_data <$> cells s !! x = Some (raw_data c) /\ io_frame x s s'.
Proof.
  intros Hr Hq. pose proof Hr as [Hr1 _].
  destruct (Hr1 _ _ Hq) as (k & Hk & Hm & [b Hn] & Hc & Hch & Hex).
  destruct (pop_ok (upd q (lock k) s) q (lock k) x xs) as (h & c & E & Hc' & Hx & Hnx & Hxh & Hh & Hcx & Hsame);
    [apply lookup_upd|done|done|].
  set (k' := mk_queue (count k - 1) (head k) (Some false) (new_packet k)).
  set (c' := mk_packet (raw_data c) offset 0 None).
  exists (upd q k' (set_cells (<[x := c']> h) s)), c'.
  destruct (popped_reps s m q x xs k h c' k') as [Hr' Hlo]; try done.
  split_and!; try done; [|cbn; by rewrite lookup_insert_eq|change (cells s !! x = Some c) in Hcx; by rewrite Hcx|].
  2:{ split_and!; [|by apply (q_head_upd (set_cells (<[x:=c']> h) s) q k)|done].
      intros l Hl. cbn. rewrite lookup_insert_ne by done. apply Hsame. }
  unfold iotlab_packet_alloc. erewrite bind_ok by (by apply queue_load_ok).
  rewrite Hc. cbn [length]. destruct (Z.eqb_spec (Z.of_nat (S (length xs))) 0); [lia|].
  erewrite bind_ok by (by apply take_mutex_ok).
  rewrite upd_cells, upd_upd in E. revert E. cbn [count head new_packet lock].
  generalize (upd q (lock k) s). intros s1 E.
  apply bind_inv in E as (k1 & s2 & E1 & E). erewrite bind_ok by exact E1.
  apply bind_inv in E as (p1 & s3 & E2 & E). erewrite bind_ok by exact E2.
  apply bind_inv in E as ([] & s4 & E3 & E). erewrite bind_ok by exact E3.
  apply bind_inv in E as ([] & s5 & E4 & E). erewrite bind_ok by exact E4.
  injection E as -> ->.
  by erewrite bind_ok by (by apply packet_reset_ok).
Qed.

(** [iotlab_packet_fifo_get] once the wait is over: queue [q] is locked in
    [upd q (lock k) s], where [s] is the state seen by the other tasks. *)
Lemma get_locked_ok s m q k x xs :
  reps s m -> m !! q = Some (x :: xs) -> qs s !! q = Some k ->
  exists s',
    (k ← queue_load q; packet ← list_get (head k); queue_store q (set_count (count k - 1) k) ;;
     give_mutex q ;; p ← mzoom (load packet); mzoom (store packet (set_next None p)) ;;
     mret packet) (upd q (lock k) s) = Ok (Some x, s') /\
    reps s' (<[q := xs]> m) /\ loose s' (<[q := xs]> m) x /\ exts s' = exts s /\
    same_but_next (cells s) (cells s').
Proof.
  intros Hr Hq Hk. pose proof Hr as [Hr1 _].
  destruct (Hr1 _ _ Hq) as (k0 & Hk0 & Hm & [b Hn] & Hc & Hch & Hex). simplify_eq.
  destruct (pop_ok (upd q (lock k) s) q (lock k) x xs) as (h & c & E & Hc' & Hx & Hnx & Hxh & Hh & Hcx & Hsm);
    [apply lookup_upd|done|done|].
  set (k' := mk_queue (count k - 1) (head k) (Some false) (new_packet k)).
  exists (upd q k' (set_cells (<[x := set_next None c]> h) s)).
  destruct (popped_reps s m q x xs k h (set_next None c) k') as [Hr' Hlo]; try done.
  split_and!; try done.
  2:{ eapply same_but_next_trans; [exact Hsm|]. by apply same_but_next_insert. }
  rewrite upd_cells, upd_upd in E. revert E. cbn [count head new_packet lock].
  generalize (upd q (lock k) s). intros s1 E.
  apply bind_inv in E as (k1 & s2 & E1 & E). erewrite bind_ok by exact E1.
  apply bind_inv in E as (p1 & s3 & E2 & E). erewrite bind_ok by exact E2.
  apply bind_inv in E as ([] & s4 & E3 & E). erewrite bind_ok by exact E3.
  apply bind_inv in E as ([] & s5 & E4 & E). erewrite bind_ok by exact E4.
  injection E as -> ->.
  erewrite bind_ok by (apply cell_load_ok; exact Hx).
  by erewrite bind_ok by (eapply cell_store_ok; exact Hx).
Qed.

Lemma get_ok s m q x xs fuel env :
  reps s m -> m !! q = Some (x :: xs) ->
  exists s',
    iotlab_packet_fifo_get (S fuel) env q s = Ok (Some x, s') /\
    reps s' (<[q := xs]> m) /\ loose s' (<[q := xs]> m) x /\ exts s' = exts s /\
    same_but_next (cells s) (cells s').
Proof.
  intros Hr Hq. pose proof Hr as [Hr1 _].
  destruct (Hr1 _ _ Hq) as (k & Hk & Hm & _ & Hc & _).
  destruct (get_locked_ok s m q k x xs) as (s' & E & H'); [done..|].
  exists s'. split; [|done]. unfold iotlab_packet_fifo_get.
  erewrite bind_ok by (by apply take_mutex_ok). cbn [fifo_wait]. mrun.
  erewrite bind_ok by (apply queue_load_ok, lookup_upd). cbn [count lock].
  rewrite Hc. cbn [length]. destruct (Z.eqb_spec (Z.of_nat (S (length xs))) 0); [lia|].
  cbn [mwhen]. mrun. exact E.
Qed.

(** *** Freeing *)

Lemma iotlab_packet_reset_ok s p k e :
  cells s !! p = Some k -> exts s !! p = Some e ->
  iotlab_packet_reset p s =
    Ok (tt, set_exts (<[p := mk_ext 0 IOTLAB_PACKET_FREE (priority e) (storage_queue e)]> (exts s))
              (set_cells (<[p := mk_packet (raw_data k) 0 0 None]> (cells s)) s)).
Proof.
  intros Hk He. unfold iotlab_packet_reset. erewrite bind_ok by (by apply packet_reset_ok).
  erewrite bind_ok by (apply ext_load_ok; exact He). by erewrite ext_store_ok by exact He.
Qed.

Lemma free_ok s m q xs p e :
  reps s m -> m !! q = Some xs -> loose s m p ->
  exts s !! p = Some e -> storage_queue e = Some q ->
  exists s' c,
    iotlab_packet_free p s = Ok (tt, s') /\ reps s' (<[q := p :: xs]> m) /\
    exts s' = <[p := mk_ext 0 IOTLAB_PACKET_FREE (priority e) (Some q)]> (exts s) /\
    cells s' !! p = Some c /\ length_ c = 0 /\
    (forall l, l <> p -> is_Some (cells s !! l) -> is_Some (cells s' !! l)) /\
    (forall q', q_head s' q' = q_head s q').
Proof.
  intros Hr Hq Hlo He Hs. pose proof Hr as [Hr1 _].
  destruct (Hr1 _ _ Hq) as (k & Hk & Hm & [b Hn] & Hc & Hch & Hex).
  pose proof Hlo as ([cp Hcp] & _ & Hout).
  destruct (Hout _ _ Hq) as [Hpx Hph]. unfold q_head in Hph. rewrite Hk in Hph. cbn in Hph.
  set (c := mk_packet (raw_data cp) 0 0 None). set (h0 := <[p := c]> (cells s)).
  set (es := <[p := mk_ext 0 IOTLAB_PACKET_FREE (priority e) (Some q)]> (exts s)).
  set (s1 := set_exts es (set_cells h0 s)).
  pose proof Hch as (_ & a & Ha & _).
  assert (chain h0 (Some (head k)) (head k :: xs)) as Hch0.
  { apply lseg_insert; [|done]. intros [->|?]%elem_of_cons; [done|done]. }
  destruct (list_put_ok (upd q (lock k) s1) _ [] (head k) xs p a c Hch0) as (h & Eput & Hh & Hother & Hdom & Hhp & _).
  { intros [->|?]%elem_of_cons; [done|done]. }
  { change (h0 !! head k = Some a). subst h0. rewrite lookup_insert_ne; [done|congruence]. }
  { apply lookup_insert_eq. }
  set (k1 := mk_queue (count k + 1) (head k) (Some false) (new_packet k)).
  exists (upd q k1 (set_exts es (set_cells h s))), (set_next (next a) c). split_and!; [| |done|done|done| |].
  - unfold iotlab_packet_free. erewrite bind_ok by (by apply ext_load_ok). rewrite Hs.
    erewrite bind_ok by (by eapply iotlab_packet_reset_ok).
    erewrite bind_ok by (apply take_mutex_ok; [exact Hk|exact Hm]).
    erewrite bind_ok by (apply queue_load_ok, lookup_upd). cbn [head lock]. rewrite Hs.
    erewrite bind_ok by exact Eput. rewrite upd_cells.
    erewrite bind_ok by (eapply queue_store_ok, lookup_upd). rewrite upd_upd.
    erewrite give_mutex_ok by (apply lookup_upd || done). by rewrite upd_upd.
  - apply (reps_op s m q xs _ k); try done.
    + cbn. rewrite Hc. lia.
    + intros l Hl. subst es. rewrite lookup_insert_is_Some'. by right.
    + intros l H1 H2 H3. assert (l <> p) by (intros ->; done).
      rewrite Hother by done. change (h0 !! l = cells s !! l). subst h0. by rewrite lookup_insert_ne.
    + intros l [->|Hl]%elem_of_cons; [by right|by left].
  - intros l Hl Hsome. apply Hdom. change (is_Some (h0 !! l)).
    subst h0. by rewrite lookup_insert_ne.
  - by apply (q_head_upd (set_exts es (set_cells h s)) q k k1).
Qed.

(** ** Theorems *)

Definition prio_sorted (f : loc -> Z) (xs : list loc) : Prop :=
  StronglySorted (λ a b, f b <= f a) xs.

Lemma prio_insert_sorted f x xs : prio_sorted f xs -> prio_sorted f (prio_insert f x xs).
Proof.
  unfold prio_sorted. induction 1 as [|y ys Hys IH Hy]; cbn; [repeat constructor|].
  destruct (Z.gtb_spec (f x) (f y)) as [Hlt|Hge].
  - constructor; [by constructor|]. constructor; [lia|].
    eapply Forall_impl; [exact Hy|]. simpl. lia.
  - constructor; [done|]. apply Forall_forall. intros l [->|Hl]%prio_insert_elem; [lia|].
    rewrite Forall_forall in Hy. by apply Hy.
Qed.

Lemma prio_insert_stable f x xs v :
  prio_sorted f xs ->
  filter (λ l, f l = v) (prio_insert f x xs) =
    filter (λ l, f l = v) xs ++ (if decide (f x = v) then [x] else []).
Proof.
  unfold prio_sorted. induction 1 as [|y ys Hys IH Hy]; cbn [prio_insert].
  - rewrite filter_cons. by destruct (decide (f x = v)).
  - destruct (Z.gtb_spec (f x) (f y)) as [Hlt|Hge].
    + rewrite (filter_cons _ x). case_decide as Ev; [|by rewrite app_nil_r].
      assert (filter (λ l, f l = v) (y :: ys) = []) as ->; [|done].
      apply filter_none. constructor; [lia|].
      eapply Forall_impl; [exact Hy|]. simpl. lia.
    + rewrite !(filter_cons _ y), IH. by destruct (decide (f y = v)).
Qed.

(** C28: [iotlab_packet_fifo_prio_append] adds the packet to the contents of its
    queue and of no other queue, keeps the queue sorted by decreasing priority,
    puts the packet behind those of the same priority, and keeps [count] equal
    to the number of packets (part of [reps]). *)
Theorem iotlab_packet_fifo_prio_append_spec s m q xs p :
  reps s m -> m !! q = Some xs -> loose s m p -> prio_sorted (prio s) xs ->
  exists s' ys,
    iotlab_packet_fifo_prio_append q p s = Ok (tt, s') /\ reps s' (<[q := ys]> m) /\
    prio_sorted (prio s') ys /\
    forall v, filter (λ l, prio s' l = v) ys =
      filter (λ l, prio s l = v) xs ++ (if decide (prio s p = v) then [p] else []).
Proof.
  intros Hr Hq Hlo Hs. destruct (append_ok s m q xs p Hr Hq Hlo) as (s' & E & Hr' & Hex & _).
  assert (prio s' = prio s) as Hp by (unfold prio; by rewrite Hex).
  exists s', (prio_insert (prio s) p xs). rewrite Hp. split_and!; [done|done|by apply prio_insert_sorted|].
  intros v. by apply prio_insert_stable.
Qed.

(** [iotlab_packet_fifo_get] returns the first packet of a non-empty queue
    without waiting, unlinked from the queue, and leaves the other packets in
    their order and the other queues alone. *)
Theorem iotlab_packet_fifo_get_spec s m q x xs fuel env :
  reps s m -> m !! q = Some (x :: xs) ->
  exists s',
    iotlab_packet_fifo_get (S fuel) env q s = Ok (Some x, s') /\
    reps s' (<[q := xs]> m) /\ loose s' (<[q := xs]> m) x.
Proof.
  intros Hr Hq. destruct (get_ok s m q x xs fuel env Hr Hq) as (s' & E & Hr' & Hlo & _). eauto.
Qed.

Lemma take_new_packet_ok s q k :
  qs s !! q = Some k -> new_packet k = Some false ->
  take_new_packet q s = Ok (tt, upd q (mk_queue (count k) (head k) (q_mutex k) (Some true)) s).
Proof.
  intros Hq Hm. unfold take_new_packet, queue_load, queue_store, mbind, M_bind, mlift.
  rewrite Hq, Hm. cbn. by rewrite Hq.
Qed.

Lemma unlock_id s q k :
  qs s !! q = Some k -> q_mutex k = Some false ->
  upd q (mk_queue (count k) (head k) (Some false) (new_packet k)) (upd q (lock k) s) = s.
Proof.
  intros Hk Hm. rewrite upd_upd. destruct k as [c h mu n]. cbn in *. subst mu.
  unfold upd. rewrite insert_id by done. by destruct s.
Qed.

(** Only the state of [new_packet] differs. *)
Lemma reps_new_packet s m q xs k b :
  reps s m -> m !! q = Some xs -> qs s !! q = Some k ->
  reps (upd q (mk_queue (count k) (head k) (q_mutex k) (Some b)) s) m.
Proof.
  intros Hr Hq Hk. pose proof Hr as [Hr1 _].
  destruct (Hr1 _ _ Hq) as (k0 & Hk0 & Hm & Hn & Hc & Hch & Hex). simplify_eq.
  rewrite <- (insert_id m q xs) by done.
  assert (set_exts (exts s) (set_cells (cells s) s) = s) as Hid.
  { destruct s as [[? ? ? ?] ? ?]. done. }
  rewrite <- Hid at 1. apply (reps_op s m q xs xs k); try done. by left.
Qed.

(** One round of the wait on an empty queue. *)
Lemma fifo_wait_round {B} s q k f i e (tail : unit -> M iot B) :
  qs s !! q = Some k -> q_mutex k = Some false -> count k = 0 ->
  (fifo_wait (S f) i e q ≫= tail) (upd q (lock k) s) =
    (e i ;; take_new_packet q ;; take_mutex q ;; fifo_wait f (S i) e q ;; tail tt) s.
Proof.
  intros Hk Hm Hc. cbn [fifo_wait]. mrun. erewrite bind_ok by (apply queue_load_ok, lookup_upd).
  cbn [count lock]. rewrite Hc. cbn [Z.eqb mwhen]. mrun.
  erewrite bind_ok by (eapply give_mutex_ok; [apply lookup_upd|done]).
  cbn [count head new_packet lock]. rewrite unlock_id by done.
  unfold mbind, M_bind. destruct (e i s) as [[[] s1]|]; [|done].
  destruct (take_new_packet q s1) as [[[] s2]|]; [|done].
  destruct (take_mutex q s2) as [[[] s3]|]; [|done].
  by destruct (fifo_wait f (S i) e q s3) as [[[] s4]|].
Qed.

Lemma take_new_packet_blocks s q k :
  qs s !! q = Some k -> new_packet k = Some true -> take_new_packet q s = Err EBlock.
Proof.
  intros Hq Hm. unfold take_new_packet, queue_load, mbind, M_bind, mlift. by rewrite Hq, Hm.
Qed.

(** C40: On an empty queue, [iotlab_packet_fifo_get] waits, with the mutex
    released, for a packet another task appends, and returns that packet; if no
    task appends one it blocks, it never returns without a packet. *)
Theorem iotlab_packet_fifo_get_waits s m q p env fuel :
  reps s m -> m !! q = Some [] -> loose s m p -> env 0%nat = iotlab_packet_fifo_prio_append q p ->
  (exists s', iotlab_packet_fifo_get (S (S fuel)) env q s = Ok (Some p, s') /\ reps s' m) /\
  iotlab_packet_fifo_get (S (S fuel)) (λ _, mret tt) q s = Err EBlock.
Proof.
  intros Hr Hq Hlo Henv. pose proof Hr as [Hr1 _].
  destruct (Hr1 _ _ Hq) as (k & Hk & Hm & [b Hn] & Hc & _).
  unfold iotlab_packet_fifo_get. split; erewrite bind_ok by (by apply take_mutex_ok).
  - destruct (append_ok s m q [] p Hr Hq Hlo) as (s1 & E1 & Hr2 & _ & _ & Hnew & _).
    specialize (Hnew eq_refl). destruct (qs s1 !! q) as [k1|] eqn:Hk1; [|done].
    injection Hnew as Hnew. set (k2 := mk_queue (count k1) (head k1) (q_mutex k1) (Some true)).
    pose proof Hr2 as [Hr3 _]. destruct (Hr3 q [p]) as (k1' & Hk1' & Hm1 & _ & Hc1 & _).
    { apply lookup_insert_eq. }
    simplify_eq.
    assert (reps (upd q k2 s1) (<[q:=[p]]> m)) as Hr4.
    { eapply reps_new_packet; [exact Hr2|apply lookup_insert_eq|done]. }
    destruct (get_locked_ok (upd q k2 s1) (<[q:=[p]]> m) q k2 p []) as (s' & E & Hr5 & _);
      [done|apply lookup_insert_eq|apply lookup_upd|].
    exists s'. split.
    + rewrite (fifo_wait_round _ _ k), Henv by done. erewrite bind_ok by exact E1.
      erewrite bind_ok by (by apply take_new_packet_ok).
      erewrite bind_ok by (apply take_mutex_ok; [apply lookup_upd|exact Hm1]).
      cbn [fifo_wait]. mrun. erewrite bind_ok by (apply queue_load_ok, lookup_upd).
      fold k2. replace (count (lock k2) =? 0) with false by (cbn; by rewrite Hc1).
      cbn [mwhen]. mrun. exact E.
    + rewrite insert_insert_eq, insert_id in Hr5; done.
  - rewrite (fifo_wait_round _ _ k) by done. mrun. destruct b.
    { by erewrite bind_err by (by eapply take_new_packet_blocks). }
    erewrite bind_ok by (by apply take_new_packet_ok).
    set (k2 := mk_queue _ _ _ (Some true)).
    erewrite bind_ok by (apply take_mutex_ok; [apply lookup_upd|exact Hm]).
    rewrite (fifo_wait_round _ _ k2); [|apply lookup_upd|done|done]. mrun.
    by erewrite bind_err by (eapply take_new_packet_blocks; [apply lookup_upd|done]).
Qed.

(** [iotlab_packet_alloc] returns NULL and changes nothing when the pool is
    empty; otherwise it hands out a packet of the pool, emptied, with the data
    pointer at [offset], and freeing that packet puts it back: the pool has the
    packets it had before. *)
Theorem iotlab_packet_alloc_free s m q xs offset :
  reps s m -> m !! q = Some xs ->
  match xs with
  | [] => iotlab_packet_alloc q offset s = Ok (None, s)
  | x :: ys =>
      exists s1 c, iotlab_packet_alloc q offset s = Ok (Some x, s1) /\
        reps s1 (<[q := ys]> m) /\ loose s1 (<[q := ys]> m) x /\
        cells s1 !! x = Some c /\ data c = offset /\ length_ c = 0 /\
        forall e, exts s !! x = Some e -> storage_queue e = Some q ->
          exists s2, iotlab_packet_free x s1 = Ok (tt, s2) /\ reps s2 m
  end.
Proof.
  intros Hr Hq. destruct xs as [|x ys].
  - destruct Hr as [Hr1 _]. destruct (Hr1 _ _ Hq) as (k & Hk & _ & _ & Hc & _).
    unfold iotlab_packet_alloc. erewrite bind_ok by (by apply queue_load_ok). by rewrite Hc.
  - destruct (alloc_ok s m q x ys offset Hr Hq) as (s1 & c & E & Hr1 & Hlo & Hex & Hc & Hd & Hl & _).
    exists s1, c. split_and!; try done. intros e He Hs.
    destruct (free_ok s1 (<[q := ys]> m) q ys x e) as (s2 & c2 & E2 & Hr2 & _); try done.
    + apply lookup_insert_eq.
    + by rewrite Hex.
    + exists s2. rewrite insert_insert_eq, insert_id in Hr2; done.
Qed.

(** Changing the extension of a packet keeps the queues. *)
Lemma reps_set_exts s m es :
  (forall l, is_Some (exts s !! l) -> is_Some (es !! l)) -> reps s m -> reps (set_exts es s) m.
Proof.
  intros He [Hr Hd]. split; [|done]. intros q xs Hq.
  destruct (Hr _ _ Hq) as (k & Hk & Hm & Hn & Hc & Hch & Hex). exists k. split_and!; try done.
  eapply Forall_impl; [exact Hex|]. apply He.
Qed.

Lemma loose_insert s s' m q xs p x :
  (forall q', q_head s' q' = q_head s q') -> is_Some (cells s' !! p) -> is_Some (exts s' !! p) ->
  m !! q = Some xs -> p <> x -> loose s m p -> loose s' (<[q := x :: xs]> m) p.
Proof.
  intros Hh Hc He Hq Hne (_ & _ & Hlo). split_and!; [done|done|].
  intros q' ys. rewrite Hh. destruct (decide (q' = q)) as [->|Hq'].
  - rewrite lookup_insert_eq. intros [= <-]. destruct (Hlo _ _ Hq). set_solver.
  - rewrite lookup_insert_ne by done. apply Hlo.
Qed.

(** The loop of [iotlab_packet_init_queue]. *)
Lemma init_loop_ok q packets : forall s m xs,
  reps s m -> m !! q = Some xs -> NoDup packets -> Forall (loose s m) packets ->
  exists s',
    mfor packets (λ packet,
      e ← ext_load packet;
      ext_store packet (mk_ext (timestamp e) (free e) (priority e) (Some q)) ;;
      iotlab_packet_free packet) s = Ok (tt, s') /\
    reps s' (<[q := reverse packets ++ xs]> m).
Proof.
  induction packets as [|p ps IH]; intros s m xs Hr Hq Hnd Hlo; cbn [mfor].
  - exists s. split; [done|]. by rewrite insert_id.
  - apply NoDup_cons in Hnd as [Hp Hnd]. apply Forall_cons in Hlo as [Hlp Hlo].
    pose proof Hlp as ([c Hc] & [e He] & Hout).
    set (e1 := mk_ext (timestamp e) (free e) (priority e) (Some q)).
    set (s1 := set_exts (<[p := e1]> (exts s)) s).
    assert (reps s1 m) as Hr1.
    { apply reps_set_exts; [|done]. intros l Hl. rewrite lookup_insert_is_Some'. by right. }
    assert (loose s1 m p) as Hl1.
    { split_and!; [by eexists|cbn; by rewrite lookup_insert_eq|exact Hout]. }
    destruct (free_ok s1 m q xs p e1 Hr1 Hq Hl1) as (s2 & c2 & E2 & Hr2 & Hex2 & Hc2 & _ & Hdom & Hh);
      [apply lookup_insert_eq|done|].
    destruct (IH s2 (<[q := p :: xs]> m) (p :: xs)) as (s' & E' & Hr'); [done|apply lookup_insert_eq|done| |].
    + rewrite Forall_forall in Hlo |- *. intros l Hl. pose proof (Hlo l Hl) as (Hlc & Hle & Hlo').
      assert (l <> p) by set_solver. apply (loose_insert s); [exact Hh| | |done|done|by apply Hlo].
      * by apply Hdom.
      * rewrite Hex2. cbn. by rewrite !lookup_insert_ne.
    + exists s'. split.
      * mrun. erewrite bind_ok by (by apply ext_load_ok). mrun.
        erewrite bind_ok by (by eapply ext_store_ok). erewrite bind_ok by exact E2. exact E'.
      * rewrite insert_insert_eq in Hr'. by rewrite reverse_cons, <- app_assoc.
Qed.

(** Emptying a queue whose head belongs to no other queue. *)
Lemma reps_new_queue s m q k hd :
  reps s m -> m !! q = None -> qs s !! q = Some k -> cells s !! head k = Some hd ->
  (forall q' xs, m !! q' = Some xs -> (head k ∉ xs) /\ q_head s q' <> Some (head k)) ->
  reps (upd q (mk_queue 0 (head k) (Some false) (Some false))
          (set_cells (<[head k := set_next None hd]> (cells s)) s)) (<[q := []]> m).
Proof.
  intros [Hr Hd] Hq Hk Hhd Hhead. set (s1 := upd _ _ _).
  assert (forall q', q_head s1 q' = q_head s q') as Hh.
  { by apply (q_head_upd (set_cells _ s) q k). }
  assert (q_head s q = Some (head k)) as Hqh by (unfold q_head; by rewrite Hk).
  split.
  - intros q' xs. destruct (decide (q' = q)) as [->|Hne].
    + rewrite lookup_insert_eq. intros [= <-]. eexists. split; [apply lookup_insert_eq|].
      split_and!; try done.
      exact (chain_push (cells s) None [] (head k) hd eq_refl (not_elem_of_nil _)).
    + rewrite lookup_insert_ne by done. intros Hx.
      destruct (Hr _ _ Hx) as (k' & Hk' & Hm & Hn & Hc & Hch & Hex).
      exists k'. split; [cbn; by rewrite lookup_insert_ne|]. split_and!; try done.
      destruct (Hhead _ _ Hx) as [H1 H2]. unfold q_head in H2. rewrite Hk' in H2. cbn in H2.
      apply (lseg_insert (cells s) (Some (head k')) (head k' :: xs)); [|done].
      intros [E|?]%elem_of_cons; [by rewrite E in H2|done].
  - intros q1 q2 xs1 xs2 l. rewrite !Hh.
    destruct (decide (q1 = q)) as [->|H1], (decide (q2 = q)) as [->|H2]; try done;
      rewrite ?lookup_insert_eq, ?lookup_insert_ne by done; intros; simplify_eq; [| |by eauto].
    + destruct (Hhead q2 xs2) as [H5 H6]; [done|]. rewrite Hqh in *. set_solver.
    + destruct (Hhead q1 xs1) as [H5 H6]; [done|]. rewrite Hqh in *. set_solver.
Qed.

(** [iotlab_packet_init_queue] makes a queue that holds exactly the packets
    of the array, each linked to it by its [storage] field, and does not
    disturb the other queues. *)
Theorem iotlab_packet_init_queue_spec s m q k packets :
  reps s m -> m !! q = None -> qs s !! q = Some k -> is_Some (cells s !! head k) ->
  (forall q' xs, m !! q' = Some xs -> (head k ∉ xs) /\ q_head s q' <> Some (head k)) ->
  NoDup packets -> (head k ∉ packets) -> Forall (loose s m) packets ->
  exists s', iotlab_packet_init_queue q packets s = Ok (tt, s') /\
    reps s' (<[q := reverse packets]> m).
Proof.
  intros Hr Hq Hk [hd Hhd] Hhead Hnd Hnp Hlo.
  set (k1 := mk_queue 0 (head k) (Some false) (Some false)).
  set (s1 := upd q k1 (set_cells (<[head k := set_next None hd]> (cells s)) s)).
  assert (forall q', q' <> q -> q_head s1 q' = q_head s q') as Hh1.
  { intros q' Hne. unfold q_head. cbn. by rewrite lookup_insert_ne. }
  assert (reps s1 (<[q := []]> m)) as Hr1 by (by apply reps_new_queue).
  destruct (init_loop_ok q packets s1 (<[q := []]> m) []) as (s' & E & Hr');
    [done|apply lookup_insert_eq|done| |].
  - rewrite Forall_forall in Hlo |- *. intros l Hl. destruct (Hlo l Hl) as (Hc & He & Hout).
    assert (l <> head k) by (by intros ->). split_and!; [|done|].
    + cbn. by rewrite lookup_insert_ne.
    + intros q' xs. destruct (decide (q' = q)) as [->|Hne].
      * rewrite lookup_insert_eq. intros [= <-]. split; [by apply not_elem_of_nil|].
        unfold q_head. cbn. rewrite lookup_insert_eq. cbn. congruence.
      * rewrite lookup_insert_ne, Hh1 by done. apply Hout.
  - exists s'. rewrite insert_insert_eq, app_nil_r in Hr'. split; [|done].
    unfold iotlab_packet_init_queue. erewrite bind_ok by (by apply queue_load_ok).
    erewrite bind_ok by (by eapply queue_store_ok).
    erewrite bind_ok by (apply cell_load_ok; exact Hhd).
    erewrite bind_ok by (eapply cell_store_ok; exact Hhd).
    erewrite bind_ok by (eapply queue_store_ok; apply lookup_upd).
    rewrite upd_cells, upd_upd. exact E.
Qed.

(** *** Concrete instances *)

(** Two queues, of heads 0 and 1: the first holds packet 2, the second is
    empty; packet 3 is in use. Packet 2 belongs to the pool [home]. *)
Definition cell (n : ptr) : packet := mk_packet (replicate 128 0) 0 0 n.
Definition iot_of (home : nat) (k2 k3 : packet) : iot :=
  mk_iot (mk_storage (Some false) [0] 1
            {[0%nat := cell (Some 2%nat); 1%nat := cell None; 2%nat := k2; 3%nat := k3]})
    {[2%nat := mk_ext 0 IOTLAB_PACKET_FREE 1 (Some home); 3%nat := mk_ext 0 IOTLAB_PACKET_FREE 5 (Some 0%nat)]}
    {[0%nat := mk_queue 1 0%nat (Some false) (Some true); 1%nat := mk_queue 0 1%nat (Some false) (Some true)]}.
Definition iot2 : iot := iot_of 0 (cell None) (cell None).
Definition contents2 : gmap nat (list loc) := {[0%nat := [2%nat]; 1%nat := []]}.

Lemma contents2_inv q xs :
  contents2 !! q = Some xs -> (q = 0%nat /\ xs = [2%nat]) \/ (q = 1%nat /\ xs = []).
Proof.
  unfold contents2. intros [[<- <-]|[_ [<- <-]%lookup_singleton_Some]]%lookup_insert_Some; auto.
Qed.

Lemma iot_of_reps home k2 k3 : next k2 = None -> reps (iot_of home k2 k3) contents2.
Proof.
  intros Hk2. split.
  - intros q xs [[-> ->]|[-> ->]]%contents2_inv; eexists; (split; [reflexivity|]);
      split_and!; try reflexivity; try (by eexists); try (by repeat constructor).
    + split; [reflexivity|]. exists (cell (Some 2%nat)). split; [reflexivity|].
      split; [reflexivity|]. exists k2. by split.
    + split; [reflexivity|]. exists (cell None). by split.
  - intros q q' xs xs' l [[-> ->]|[-> ->]]%contents2_inv [[-> ->]|[-> ->]]%contents2_inv Hne;
      try done; unfold q_head; cbn; rewrite ?elem_of_cons, ?elem_of_nil;
      intros [H1|[=]] [H2|[=]]; subst; naive_solver.
Qed.

Lemma iot_of_loose home k2 k3 : loose (iot_of home k2 k3) contents2 3.
Proof.
  split_and!; [by eexists|by eexists|].
  intros q xs [[-> ->]|[-> ->]]%contents2_inv; (split; [set_solver|by intros [=]]).
Qed.

Lemma iot2_reps : reps iot2 contents2.
Proof. by apply iot_of_reps. Qed.
Lemma iot2_loose : loose iot2 contents2 3.
Proof. apply iot_of_loose. Qed.

Lemma iotlab_packet_fifo_prio_append_spec_witness :
  exists s' ys, iotlab_packet_fifo_prio_append 0 3 iot2 = Ok (tt, s') /\
    reps s' (<[0%nat := ys]> contents2) /\ prio_sorted (prio s') ys.
Proof.
  destruct (iotlab_packet_fifo_prio_append_spec iot2 contents2 0 [2%nat] 3 iot2_reps eq_refl iot2_loose)
    as (s' & ys & E & Hr & Hp & _); [by repeat constructor|].
  exists s', ys. split; [exact E|]. split; [exact Hr|exact Hp].
Defined.

Lemma iotlab_packet_fifo_get_spec_witness :
  exists s', iotlab_packet_fifo_get 1 (λ _, mret tt) 0 iot2 = Ok (Some 2%nat, s') /\
    reps s' (<[0%nat := []]> contents2).
Proof.
  destruct (iotlab_packet_fifo_get_spec iot2 contents2 0 2 [] 0 (λ _, mret tt) iot2_reps eq_refl)
    as (s' & E & Hr & _).
  exists s'. split; [exact E|exact Hr].
Defined.

Lemma iotlab_packet_fifo_get_waits_witness :
  exists s', iotlab_packet_fifo_get 2 (λ _, iotlab_packet_fifo_prio_append 1 3) 1 iot2 =
    Ok (Some 3%nat, s') /\ reps s' contents2.
Proof.
  exact (proj1 (iotlab_packet_fifo_get_waits iot2 contents2 1 3
    (λ _, iotlab_packet_fifo_prio_append 1 3) 0 iot2_reps eq_refl iot2_loose eq_refl)).
Defined.

Lemma iotlab_packet_alloc_free_witness :
  exists s1 s2, iotlab_packet_alloc 0 3 iot2 = Ok (Some 2%nat, s1) /\
    iotlab_packet_free 2 s1 = Ok (tt, s2) /\ reps s2 contents2.
Proof.
  destruct (iotlab_packet_alloc_free iot2 contents2 0 [2%nat] 3 iot2_reps eq_refl)
    as (s1 & c & E & _ & _ & _ & _ & _ & Hfree).
  destruct (Hfree _ eq_refl eq_refl) as (s2 & E2 & Hr2).
  exists s1, s2. split; [exact E|]. split; [exact E2|exact Hr2].
Defined.

End IotlabPacket.
