(* ===== verification/IotlabTime.v ===== *)
(** * Unix time of the nodes ([appli/iotlab/lib/iotlab_time.c])

    The module keeps the two last synchronisations (tick of the soft timer and
    unix time at that tick) and converts ticks to unix times. The argument
    [now64] of the operations is the value [soft_timer_time_64()] returned. *)

From stdpp Require Import base numbers gmap list.
From S2P Require Import Prelude SoftTime.

Module IotlabTime.
Import SoftTime.

Definition SOFT_TIMER_KFREQUENCY_FIX : Z := 32771798.

Record iotlab_time_config := mk_config {
  time0 : Z;
  unix_time_ref : soft_timer_timeval;
  kfrequency : Z;
  last_set_time : Z;
}.

(** [time_config], from latest to oldest. *)
Record state := mk_state { config0 : iotlab_time_config; config1 : iotlab_time_config }.

Definition time_config_init : state :=
  let c := mk_config 0 (mk_timeval 0 0) SOFT_TIMER_KFREQUENCY_FIX 0 in mk_state c c.

Definition get_extended_time (timer_tick timer_tick_64 : Z) : Z :=
  let absolute_time := Z.lor (Z.land timer_tick_64 (u64 (Z.lnot 0xFFFFFFFF))) timer_tick in
  if Z.land timer_tick_64 0x80000000 <? Z.land timer_tick 0x80000000
  then u64 (absolute_time - 0x100000000) else absolute_time.

Definition get_seconds (timer_tick kfrequency : Z) : Z :=
  u32 (u64 (timer_tick * 1000) / kfrequency).

Definition get_microseconds (timer_tick kfrequency : Z) : Z :=
  u32 (u64 (u64 (timer_tick * 1000) mod kfrequency * 1000000) / kfrequency).

Definition ticks_conversion (timer_tick kfrequency : Z) : soft_timer_timeval :=
  mk_timeval (get_seconds timer_tick kfrequency) (get_microseconds timer_tick kfrequency).

Definition select_config (s : state) (timer_tick_64 : Z) : iotlab_time_config :=
  if timer_tick_64 <? last_set_time (config0 s) then config1 s
  else if timer_tick_64 =? last_set_time (config0 s) then config1 s
  else config0 s.

(** [_iotlab_time_convert] *)
Definition iotlab_time_convert_ (config : iotlab_time_config) (timer_tick_64 : Z)
  : soft_timer_timeval :=
  let time := ticks_conversion (u64 (timer_tick_64 - time0 config)) (kfrequency config) in
  let sec := u32 (tv_sec time + tv_sec (unix_time_ref config)) in
  let usec := u32 (tv_usec time + tv_usec (unix_time_ref config)) in
  if usec >? 1000000 then mk_timeval (u32 (sec + 1)) (u32 (usec - 1000000))
  else mk_timeval sec usec.

Definition iotlab_time_convert (s : state) (timer_tick_64 : Z) : soft_timer_timeval :=
  iotlab_time_convert_ (select_config s timer_tick_64) timer_tick_64.

Definition iotlab_time_extend_relative (s : state) (now64 timer_tick : Z) : soft_timer_timeval :=
  iotlab_time_convert s (get_extended_time timer_tick now64).

Definition iotlab_time_set_time (t0 : Z) (time_ref : soft_timer_timeval) (now64 : Z) (s : state)
  : state :=
  mk_state
    (mk_config (get_extended_time t0 now64) time_ref SOFT_TIMER_KFREQUENCY_FIX now64)
    (config0 s).

(** ** Extension to 64 bits *)

Lemma land_31 z : Z.land z 0x80000000 = z / 2147483648 mod 2 * 2147483648.
Proof.
  change 0x80000000 with (2 ^ 31). rewrite land_bit by lia.
  rewrite Z.testbit_odd, Z.shiftr_div_pow2 by lia. change (2 ^ 31) with 2147483648.
  rewrite Zodd_mod. destruct (Z.eqb_spec (z / 2147483648 mod 2) 1) as [->|Hne]; [done|].
  assert (z / 2147483648 mod 2 = 0) as -> by mlia. done.
Qed.

Lemma extend_high now tick : is_u64 now -> is_u32 tick ->
  Z.lor (Z.land now (u64 (Z.lnot 0xFFFFFFFF))) tick = now / 4294967296 * 4294967296 + tick.
Proof.
  intros Hn Ht. change (u64 (Z.lnot 0xFFFFFFFF)) with (Z.shiftl (Z.ones 32) 32).
  assert (Z.land now (Z.shiftl (Z.ones 32) 32) = now / 4294967296 * 4294967296) as ->.
  { rewrite <- (Z.shiftl_mul_pow2 _ 32), <- (Z.shiftr_div_pow2 _ 32) by lia.
    apply Z.bits_inj'. intros i Hi. rewrite Z.land_spec. destruct (decide (i < 32)).
    - rewrite !Z.shiftl_spec_low by lia. apply andb_false_r.
    - rewrite !Z.shiftl_spec, Z.shiftr_spec by lia. replace (i - 32 + 32) with i by lia.
      destruct (decide (i < 64)).
      + rewrite Z.ones_spec_low by lia. by rewrite andb_true_r.
      + rewrite Z.ones_spec_high, andb_false_r by lia. symmetry.
        rewrite Z.testbit_odd, Z.shiftr_div_pow2, Z.div_small; [done| |lia].
        split; [lia|]. apply Z.lt_le_trans with (2 ^ 64); [lia|]. apply Z.pow_le_mono_r; lia. }
  exact (lor_disjoint_add tick (now / 4294967296) 32 ltac:(lia) Ht).
Qed.

Lemma extended_exact now ev :
  is_u64 now -> 0 <= ev <= now -> now - ev < 2147483648 ->
  get_extended_time (u32 ev) now = ev.
Proof.
  intros Hn He Hd. unfold get_extended_time. rewrite extend_high by (done || apply u32_range).
  rewrite !land_31.
  destruct (Z.ltb_spec (now / 2147483648 mod 2 * 2147483648)
              (u32 ev / 2147483648 mod 2 * 2147483648)); mlia.
Qed.

(** [get_extended_time] recovers the 64-bit time of an event from its low
    32 bits, for every event of the last 2^31 ticks (18 hours), whatever the
    wrap-around of the low word in between. *)
Theorem get_extended_time_exact now ev :
  is_u64 now -> 0 <= ev <= now -> now - ev < 2147483648 ->
  get_extended_time (u32 ev) now = ev.
Proof. apply extended_exact. Qed.

(** ** Conversion *)

(** Microseconds of [t] ticks at [kf] thousandths of Hertz, rounded down. *)
Definition ticks_us (t kf : Z) : Z := t * 1000 * 1000000 / kf.
Definition total_us (t : soft_timer_timeval) : Z := tv_sec t * 1000000 + tv_usec t.

(** Durations for which no intermediate result wraps: 17,000 years. *)
Definition MAX_TICKS : Z := 18446744073709551.

Lemma split_us a kf :
  0 < kf -> a * 1000000 / kf = a / kf * 1000000 + a mod kf * 1000000 / kf.
Proof.
  intros Hk. rewrite (Z.div_mod a kf) at 1 by lia.
  rewrite Z.mul_add_distr_r. replace (kf * (a / kf) * 1000000) with (a / kf * 1000000 * kf) by ring.
  by rewrite Z.div_add_l by lia.
Qed.

Lemma usec_small a kf : 0 < kf -> 0 <= a mod kf * 1000000 / kf < 1000000.
Proof.
  intros Hk. pose proof (Z.mod_pos_bound a kf Hk). split; [apply Z.div_pos; lia|].
  apply Z.div_lt_upper_bound; nia.
Qed.

Lemma ticks_conversion_exact t kf :
  0 <= t <= MAX_TICKS -> 1000000 <= kf < 4294967296 -> t * 1000 / kf < 4294967296 ->
  total_us (ticks_conversion t kf) = ticks_us t kf /\
  0 <= tv_usec (ticks_conversion t kf) < 1000000 /\
  tv_sec (ticks_conversion t kf) = t * 1000 / kf.
Proof.
  unfold MAX_TICKS. intros Ht Hk Hs.
  pose proof (Z.mod_pos_bound (t * 1000) kf ltac:(lia)) as Hm.
  pose proof (usec_small (t * 1000) kf ltac:(lia)) as Hu.
  unfold ticks_conversion, get_seconds, get_microseconds, total_us, ticks_us. cbn [tv_sec tv_usec].
  rewrite (u64_id (t * 1000)) by lia. rewrite (u64_id (_ mod _ * _)) by nia.
  rewrite !u32_id; [|lia|split; [apply Z.div_pos; lia|done]].
  rewrite (split_us (t * 1000)) by lia. done.
Qed.

Definition config_wf (c : iotlab_time_config) : Prop :=
  0 <= time0 c <= last_set_time c /\ kfrequency c = SOFT_TIMER_KFREQUENCY_FIX /\
  0 <= tv_sec (unix_time_ref c) < 4294967296 /\ 0 <= tv_usec (unix_time_ref c) < 1000000.

Lemma convert_exact c t :
  config_wf c -> time0 c <= t <= time0 c + MAX_TICKS -> is_u64 t ->
  tv_sec (unix_time_ref c) + (t - time0 c) * 1000 / SOFT_TIMER_KFREQUENCY_FIX < 4294967295 ->
  total_us (iotlab_time_convert_ c t) =
    ticks_us (t - time0 c) SOFT_TIMER_KFREQUENCY_FIX + total_us (unix_time_ref c) /\
  0 <= tv_usec (iotlab_time_convert_ c t) <= 1000000.
Proof.
  intros (Ht0 & Hk & Hs & Hu) Ht Ht64 Hsec. unfold iotlab_time_convert_.
  rewrite (u64_id (t - time0 c)), Hk by lia.
  destruct (ticks_conversion_exact (t - time0 c) SOFT_TIMER_KFREQUENCY_FIX) as (E & Hus & Es);
    [lia|unfold SOFT_TIMER_KFREQUENCY_FIX; lia|lia|].
  rewrite <- E. clear E. revert Hus Es. set (c' := ticks_conversion _ _).
  generalize ((t - time0 c) * 1000 / SOFT_TIMER_KFREQUENCY_FIX), Hsec. intros q Hq Hus Es.
  unfold total_us. assert (0 <= tv_sec c') by apply u32_range.
  rewrite (u32_id (tv_sec c' + _)), (u32_id (tv_usec c' + _)) by lia.
  destruct (Z.gtb_spec (tv_usec c' + tv_usec (unix_time_ref c)) 1000000); cbn [tv_sec tv_usec]; [|lia].
  rewrite !u32_id by lia. lia.
Qed.

Lemma set_time_wf s ev ref now :
  is_u64 now -> 0 <= ev <= now -> now - ev < 2147483648 ->
  0 <= tv_sec ref < 4294967296 -> 0 <= tv_usec ref < 1000000 ->
  let s' := iotlab_time_set_time (u32 ev) ref now s in
  config_wf (config0 s') /\ time0 (config0 s') = ev.
Proof.
  intros Hn He Hd Hs Hu s'. assert (time0 (config0 s') = ev) as Ht0 by (by apply extended_exact).
  split; [|done]. unfold config_wf. rewrite Ht0. cbn. by split_and!; try lia.
Qed.

Lemma set_time_later s ev ref now t :
  is_u64 now -> 0 <= ev <= now -> now - ev < 2147483648 ->
  0 <= tv_sec ref < 4294967296 -> 0 <= tv_usec ref < 1000000 ->
  now < t -> is_u64 t -> t - ev <= MAX_TICKS ->
  tv_sec ref + (t - ev) * 1000 / SOFT_TIMER_KFREQUENCY_FIX < 4294967295 ->
  total_us (iotlab_time_convert (iotlab_time_set_time (u32 ev) ref now s) t) =
    ticks_us (t - ev) SOFT_TIMER_KFREQUENCY_FIX + total_us ref.
Proof.
  intros Hn He Hd Hs Hu Hlt Ht64 Hmax Hsec.
  destruct (set_time_wf s ev ref now Hn He Hd Hs Hu) as [Hwf' Ht0]. set (s' := iotlab_time_set_time _ _ _ s) in *.
  unfold iotlab_time_convert, select_config. change (last_set_time (config0 s')) with now.
  destruct (Z.ltb_spec t now); [lia|]. destruct (Z.eqb_spec t now); [lia|].
  destruct (convert_exact (config0 s') t Hwf') as [E _]; rewrite ?Ht0 in *; [lia|done|done|]. exact E.
Qed.

(** After [iotlab_time_set_time t0 ref], a later tick converts to [ref]
    plus the time elapsed since [t0], exact to the microsecond (rounded down),
    and a tick between the previous and this synchronisation converts to what
    it converted to before. *)
Theorem iotlab_time_set_time_spec s ev ref now t :
  config_wf (config0 s) -> is_u64 now -> 0 <= ev <= now -> now - ev < 2147483648 ->
  0 <= tv_sec ref < 4294967296 -> 0 <= tv_usec ref < 1000000 ->
  let s' := iotlab_time_set_time (u32 ev) ref now s in
  config_wf (config0 s') /\
  (now < t -> is_u64 t -> t - ev <= MAX_TICKS ->
   tv_sec ref + (t - ev) * 1000 / SOFT_TIMER_KFREQUENCY_FIX < 4294967295 ->
   total_us (iotlab_time_convert s' t) = ticks_us (t - ev) SOFT_TIMER_KFREQUENCY_FIX + total_us ref) /\
  (last_set_time (config0 s) < t <= now ->
   iotlab_time_convert s' t = iotlab_time_convert s t).
Proof.
  intros Hwf Hn He Hd Hs Hu s'. split_and!; [by apply set_time_wf|intros; by apply set_time_later|].
  - intros Ht. unfold iotlab_time_convert, select_config. change (last_set_time (config0 s')) with now.
    change (config1 s') with (config0 s).
    destruct (Z.ltb_spec t (last_set_time (config0 s))); [lia|].
    destruct (Z.eqb_spec t (last_set_time (config0 s))); [lia|].
    destruct (Z.ltb_spec t now); [done|]. by destruct (Z.eqb_spec t now); [|lia].
Qed.

(** The microseconds of a converted time never exceed 1000000, but they do
    reach it: the test that carries to the seconds is strict, so a time on a
    whole second may come out as 1000000 microseconds of the second before. *)
Theorem iotlab_time_usec_bound :
  (forall c t, config_wf c -> time0 c <= t <= time0 c + MAX_TICKS -> is_u64 t ->
     tv_sec (unix_time_ref c) + (t - time0 c) * 1000 / SOFT_TIMER_KFREQUENCY_FIX < 4294967295 ->
     0 <= tv_usec (iotlab_time_convert_ c t) <= 1000000) /\
  exists c t, config_wf c /\ is_u64 t /\ iotlab_time_convert_ c t = mk_timeval 10 1000000.
Proof.
  split; [intros c t H1 H2 H3 H4; apply (convert_exact c t H1 H2 H3 H4)|].
  exists (mk_config 0 (mk_timeval 10 999970) SOFT_TIMER_KFREQUENCY_FIX 0), 1.
  split_and!; [|lia|lia|by vm_compute]. unfold config_wf. cbn. by split_and!; try lia.
Qed.

(** *** Extending a measurement timestamp *)

(** [iotlab_time_extend_relative] on the 32-bit timestamp of an event is
    the conversion of the true time of that event. *)
Theorem iotlab_time_extend_relative_exact s now ev :
  is_u64 now -> 0 <= ev <= now -> now - ev < 2147483648 ->
  last_set_time (config0 s) < ev -> config_wf (config0 s) -> ev <= time0 (config0 s) + MAX_TICKS ->
  tv_sec (unix_time_ref (config0 s)) + (ev - time0 (config0 s)) * 1000 / SOFT_TIMER_KFREQUENCY_FIX
    < 4294967295 ->
  total_us (iotlab_time_extend_relative s now (u32 ev)) =
    ticks_us (ev - time0 (config0 s)) SOFT_TIMER_KFREQUENCY_FIX
    + total_us (unix_time_ref (config0 s)).
Proof.
  intros Hn He Hd Hlast Hwf Hmax Hsec. pose proof Hwf as (Ht0 & _).
  unfold iotlab_time_extend_relative. rewrite extended_exact by done.
  unfold iotlab_time_convert, select_config.
  destruct (Z.ltb_spec ev (last_set_time (config0 s))); [lia|].
  destruct (Z.eqb_spec ev (last_set_time (config0 s))); [lia|].
  by destruct (convert_exact (config0 s) ev Hwf) as [E _]; [lia|lia|done|].
Qed.

(** *** Concrete instances *)

Lemma get_extended_time_exact_witness : get_extended_time (u32 4294967290) 4294967300 = 4294967290.
Proof. apply (get_extended_time_exact 4294967300 4294967290); lia. Defined.

(** One second and 500000 microseconds after the reference, 32772 ticks later. *)
Lemma iotlab_time_set_time_spec_witness :
  total_us (iotlab_time_convert
    (iotlab_time_set_time (u32 1000) (mk_timeval 1400000000 500000) 1010 time_config_init) 33772) =
  ticks_us 32772 SOFT_TIMER_KFREQUENCY_FIX + 1400000000500000.
Proof.
  assert (config_wf (config0 time_config_init)) as Hwf by (vm_compute; intuition discriminate).
  destruct (iotlab_time_set_time_spec time_config_init 1000 (mk_timeval 1400000000 500000) 1010 33772
    Hwf ltac:(lia) ltac:(lia) ltac:(lia) ltac:(cbn; lia) ltac:(cbn; lia)) as (_ & E & _).
  apply E; vm_compute; intuition discriminate.
Defined.

End IotlabTime.
