(* ===== verification/NodeUid.v ===== *)
(** * Node identifiers ([appli/iotlab/lib/iotlab_uid_num_hashtable_fcts.c])

    The table of the identifiers of the nodes of the testbed, sorted, and the
    binary search [node_from_uid] in it. [size_t] has 32 bits on the nodes. *)

From stdpp Require Import base numbers gmap sorting list strings.
From S2P Require Import Prelude.

Module NodeUid.

Definition M3 : Z := 0x3.
Definition A8 : Z := 0x8.

Record node_entry := mk_entry { uid : Z; node_ : Z }.
Record node := mk_node { type : Z; num : Z; type_str : option string }.

(** One row of the C table: [{ uid, type << 24 | num }]. *)
Definition row (r : Z * Z * Z) : node_entry :=
  let '(u, t, n) := r in mk_entry u (Z.lor (Z.shiftl t 24) n).

Definition nodes_uid_dict_rows_1 : list (Z * Z * Z) := [
  (0x0561, M3, 136); (0x0562, M3, 37); (0x0660, M3, 104); (0x0662, M3, 29);
  (0x0758, M3, 120); (0x0759, M3, 251); (0x0761, M3, 31); (0x0762, M3, 180);
  (0x0857, M3, 96); (0x0858, M3, 216); (0x0859, M3, 257); (0x0862, M3, 316);
  (0x0956, M3, 90); (0x0957, M3, 135); (0x0958, M3, 109); (0x0959, M3, 227);
  (0x0961, M3, 60); (0x0962, M3, 327); (0x0985, A8, 173); (0x1055, M3, 9);
  (0x1057, M3, 44); (0x1058, M3, 24); (0x1061, M3, 121); (0x1062, M3, 109);
  (0x1154, M3, 117); (0x1155, M3, 28); (0x1156, M3, 173); (0x1158, M3, 12);
  (0x1159, M3, 129); (0x1160, M3, 3); (0x1161, M3, 45); (0x1162, M3, 288);
  (0x1254, M3, 210); (0x1255, M3, 6); (0x1256, M3, 233); (0x1257, M3, 253);
  (0x1258, M3, 230); (0x1262, M3, 9); (0x1285, A8, 60); (0x1286, A8, 158);
  (0x1354, M3, 4); (0x1355, M3, 167); (0x1356, M3, 119); (0x1357, M3, 225);
  (0x1358, M3, 188); (0x1359, M3, 147); (0x1362, M3, 299); (0x1385, A8, 166);
  (0x1453, M3, 5); (0x1454, M3, 81); (0x1455, M3, 198); (0x1457, M3, 11);
  (0x1459, M3, 83); (0x1462, M3, 77); (0x1485, A8, 84); (0x1487, A8, 5);
  (0x1488, A8, 50); (0x1552, M3, 243); (0x1553, M3, 381); (0x1554, M3, 247);
  (0x1556, M3, 84); (0x1557, M3, 4); (0x1559, M3, 240); (0x1562, M3, 237);
  (0x1585, A8, 178); (0x1586, A8, 97); (0x1587, A8, 31); (0x1589, A8, 35);
  (0x1651, M3, 48); (0x1652, M3, 199); (0x1654, M3, 103); (0x1656, M3, 25);
  (0x1657, M3, 61); (0x1658, M3, 237); (0x1659, M3, 1); (0x1660, M3, 256);
  (0x1661, M3, 364); (0x1662, M3, 91); (0x1685, A8, 208); (0x1687, A8, 22);
  (0x1688, A8, 48); (0x1751, M3, 170); (0x1754, M3, 163); (0x1756, M3, 73);
  (0x1757, M3, 42); (0x1758, M3, 33); (0x1759, M3, 32); (0x1761, M3, 135);
  (0x1762, M3, 373); (0x1785, A8, 217); (0x1786, A8, 82); (0x1787, A8, 61);
  (0x1788, A8, 55); (0x1789, A8, 49); (0x1790, A8, 40); (0x1852, M3, 58);
  (0x1854, M3, 18); (0x1855, M3, 161); (0x1856, M3, 138); (0x1857, M3, 205);
  (0x1859, M3, 213); (0x1860, M3, 258); (0x1861, M3, 156); (0x1862, M3, 167);
  (0x1884, A8, 56); (0x1885, A8, 193); (0x1886, A8, 168); (0x1887, A8, 28);
  (0x1888, A8, 62); (0x1889, A8, 30); (0x1890, A8, 23); (0x1951, M3, 101);
  (0x1954, M3, 130); (0x1956, M3, 126); (0x1957, M3, 113); (0x1988, A8, 4);
  (0x1989, A8, 38); (0x2050, M3, 159); (0x2051, M3, 241); (0x2052, M3, 204);
  (0x2053, M3, 1); (0x2054, M3, 242); (0x2055, M3, 174); (0x2061, M3, 8);
  (0x2084, A8, 222); (0x2085, A8, 163); (0x2086, A8, 89); (0x2087, A8, 204);
  (0x2150, M3, 15); (0x2151, M3, 38); (0x2152, M3, 195); (0x2154, M3, 59);
  (0x2156, M3, 10); (0x2159, M3, 231); (0x2160, M3, 220); (0x2162, M3, 9);
  (0x2184, A8, 44); (0x2187, A8, 161); (0x2188, A8, 33); (0x2189, A8, 39);
  (0x2190, A8, 58); (0x2250, M3, 3); (0x2251, M3, 234); (0x2254, M3, 375);
  (0x2256, M3, 80); (0x2257, M3, 162); (0x2258, M3, 87); (0x2261, M3, 7);
  (0x2262, M3, 117); (0x2284, A8, 18)
].
Definition nodes_uid_dict_rows_2 : list (Z * Z * Z) := [
  (0x2285, A8, 156); (0x2286, A8, 9); (0x2287, A8, 3); (0x2288, A8, 24);
  (0x2289, A8, 37); (0x2290, A8, 60); (0x2350, M3, 157); (0x2351, M3, 2);
  (0x2352, M3, 214); (0x2353, M3, 4); (0x2354, M3, 1); (0x2355, M3, 17);
  (0x2357, M3, 60); (0x2358, M3, 252); (0x2359, M3, 219); (0x2360, M3, 133);
  (0x2362, M3, 235); (0x2384, A8, 11); (0x2385, A8, 150); (0x2386, A8, 211);
  (0x2388, A8, 56); (0x2450, M3, 226); (0x2451, M3, 133); (0x2452, M3, 128);
  (0x2453, M3, 7); (0x2454, M3, 246); (0x2455, M3, 19); (0x2456, M3, 180);
  (0x2458, M3, 248); (0x2459, M3, 95); (0x2460, M3, 9); (0x2484, A8, 64);
  (0x2485, A8, 15); (0x2487, A8, 91); (0x2489, A8, 27); (0x2490, A8, 1);
  (0x2550, M3, 76); (0x2551, M3, 236); (0x2552, M3, 223); (0x2553, M3, 349);
  (0x2554, M3, 256); (0x2555, M3, 97); (0x2556, M3, 118); (0x2557, M3, 64);
  (0x2559, M3, 196); (0x2562, M3, 22); (0x2584, A8, 169); (0x2585, A8, 153);
  (0x2586, A8, 154); (0x2587, A8, 101); (0x2588, A8, 52); (0x2589, A8, 7);
  (0x2590, A8, 15); (0x2650, M3, 137); (0x2651, M3, 207); (0x2652, M3, 21);
  (0x2654, M3, 362); (0x2655, M3, 16); (0x2657, M3, 46); (0x2659, M3, 244);
  (0x2661, M3, 2); (0x2662, M3, 42); (0x2684, A8, 72); (0x2686, A8, 10);
  (0x2687, A8, 83); (0x2688, A8, 51); (0x2689, A8, 8); (0x2690, A8, 14);
  (0x2750, M3, 88); (0x2751, M3, 202); (0x2754, M3, 181); (0x2755, M3, 57);
  (0x2756, M3, 15); (0x2758, M3, 22); (0x2759, M3, 211); (0x2760, M3, 6);
  (0x2762, M3, 12); (0x2784, A8, 28); (0x2788, A8, 16); (0x2789, A8, 12);
  (0x2790, A8, 57); (0x2850, M3, 153); (0x2851, M3, 232); (0x2852, M3, 74);
  (0x2853, M3, 110); (0x2854, M3, 68); (0x2855, M3, 105); (0x2857, M3, 55);
  (0x2858, M3, 255); (0x2860, M3, 14); (0x2861, M3, 272); (0x2862, M3, 40);
  (0x2885, A8, 103); (0x2886, A8, 75); (0x2887, A8, 201); (0x2888, A8, 32);
  (0x2890, A8, 53); (0x2951, M3, 169); (0x2953, M3, 368); (0x2954, M3, 3);
  (0x2955, M3, 156); (0x2956, M3, 19); (0x2959, M3, 171); (0x2960, M3, 94);
  (0x2962, M3, 3); (0x2985, A8, 167); (0x2989, A8, 47); (0x2990, A8, 14);
  (0x3051, M3, 2); (0x3052, M3, 78); (0x3053, M3, 12); (0x3054, M3, 259);
  (0x3055, M3, 1); (0x3057, M3, 41); (0x3059, M3, 185); (0x3060, M3, 366);
  (0x3061, M3, 177); (0x3084, A8, 35); (0x3085, A8, 36); (0x3087, A8, 152);
  (0x3089, A8, 171); (0x3090, A8, 62); (0x3151, M3, 245); (0x3152, M3, 217);
  (0x3153, M3, 238); (0x3154, M3, 122); (0x3155, M3, 141); (0x3157, M3, 14);
  (0x3158, M3, 184); (0x3159, M3, 168); (0x3160, M3, 155); (0x3162, M3, 30);
  (0x3184, A8, 46); (0x3185, A8, 100); (0x3187, A8, 160); (0x3189, A8, 22);
  (0x3254, M3, 154); (0x3256, M3, 9); (0x3258, M3, 75); (0x3259, M3, 4);
  (0x3261, M3, 18); (0x3262, M3, 45); (0x3285, A8, 155); (0x3286, A8, 11);
  (0x3289, A8, 6); (0x3353, M3, 20); (0x3355, M3, 179); (0x3356, M3, 53);
  (0x3357, M3, 57); (0x3358, M3, 239)
].
Definition nodes_uid_dict_rows_3 : list (Z * Z * Z) := [
  (0x3359, M3, 155); (0x3360, M3, 360); (0x3386, A8, 94); (0x3453, M3, 190);
  (0x3454, M3, 23); (0x3455, M3, 13); (0x3457, M3, 5); (0x3458, M3, 215);
  (0x3460, M3, 379); (0x3462, M3, 4); (0x3485, A8, 188); (0x3486, A8, 162);
  (0x3554, M3, 89); (0x3558, M3, 127); (0x3559, M3, 106); (0x3560, M3, 12);
  (0x3561, M3, 365); (0x3562, M3, 1); (0x3585, A8, 2); (0x3586, A8, 81);
  (0x3587, A8, 200); (0x3657, M3, 69); (0x3658, M3, 29); (0x3659, M3, 206);
  (0x3662, M3, 11); (0x3684, A8, 109); (0x3685, A8, 80); (0x3686, A8, 86);
  (0x3687, A8, 95); (0x3756, M3, 51); (0x3757, M3, 23); (0x3758, M3, 62);
  (0x3759, M3, 55); (0x3761, M3, 240); (0x3784, A8, 4); (0x3786, A8, 8);
  (0x3856, M3, 29); (0x3857, M3, 43); (0x3858, M3, 111); (0x3859, M3, 193);
  (0x3860, M3, 222); (0x3861, M3, 230); (0x3862, M3, 30); (0x3884, A8, 214);
  (0x3885, A8, 165); (0x3960, M3, 93); (0x3962, M3, 175); (0x4061, M3, 10);
  (0x4062, M3, 17); (0x4262, M3, 26); (0x4263, M3, 48); (0x8370, M3, 318);
  (0x8371, M3, 241); (0x8372, M3, 62); (0x8373, M3, 52); (0x8374, M3, 178);
  (0x8465, A8, 44); (0x8466, A8, 67); (0x8467, M3, 11); (0x8470, M3, 263);
  (0x8471, M3, 115); (0x8472, M3, 213); (0x8473, M3, 123); (0x8474, M3, 182);
  (0x8475, M3, 168); (0x8476, M3, 201); (0x8477, M3, 108); (0x8561, A8, 224);
  (0x8562, A8, 11); (0x8563, A8, 133); (0x8565, A8, 28); (0x8566, A8, 39);
  (0x8567, M3, 369); (0x8569, M3, 199); (0x8570, M3, 350); (0x8571, M3, 382);
  (0x8572, M3, 121); (0x8573, M3, 203); (0x8574, M3, 67); (0x8575, M3, 374);
  (0x8576, M3, 50); (0x8577, M3, 57); (0x8578, M3, 332); (0x8579, M3, 141);
  (0x8661, A8, 185); (0x8662, A8, 205); (0x8664, A8, 30); (0x8666, A8, 55);
  (0x8667, M3, 361); (0x8669, M3, 294); (0x8671, M3, 127); (0x8672, M3, 357);
  (0x8673, M3, 164); (0x8674, M3, 71); (0x8676, M3, 3); (0x8677, M3, 56);
  (0x8679, M3, 11); (0x8759, A8, 31); (0x8760, A8, 164); (0x8761, A8, 190);
  (0x8764, A8, 17); (0x8767, M3, 82); (0x8769, M3, 10); (0x8770, M3, 52);
  (0x8771, M3, 73); (0x8772, M3, 10); (0x8773, M3, 143); (0x8774, M3, 70);
  (0x8775, M3, 162); (0x8777, M3, 64); (0x8778, M3, 65); (0x8779, M3, 231);
  (0x8780, M3, 67); (0x8857, A8, 96); (0x8859, A8, 183); (0x8860, A8, 149);
  (0x8862, A8, 21); (0x8863, A8, 79); (0x8864, A8, 147); (0x8865, A8, 17);
  (0x8866, A8, 58); (0x8867, M3, 2); (0x8869, M3, 3); (0x8870, M3, 352);
  (0x8871, M3, 305); (0x8872, M3, 191); (0x8873, M3, 208); (0x8875, M3, 211);
  (0x8876, M3, 300); (0x8877, M3, 304); (0x8880, M3, 59); (0x8881, M3, 233);
  (0x8882, M3, 315); (0x8884, M3, 103); (0x8956, A8, 5); (0x8957, A8, 47);
  (0x8959, A8, 206); (0x8960, A8, 45); (0x8961, A8, 199); (0x8963, A8, 70);
  (0x8966, A8, 79); (0x8967, M3, 205); (0x8968, M3, 5); (0x8969, M3, 116);
  (0x8971, M3, 24); (0x8972, M3, 72); (0x8973, M3, 100); (0x8974, M3, 8);
  (0x8976, M3, 10); (0x8979, M3, 186)
].
Definition nodes_uid_dict_rows_4 : list (Z * Z * Z) := [
  (0x8980, M3, 62); (0x8981, M3, 75); (0x8982, M3, 254); (0x8984, M3, 11);
  (0x9057, A8, 172); (0x9058, A8, 22); (0x9059, A8, 118); (0x9060, A8, 117);
  (0x9062, A8, 122); (0x9063, A8, 129); (0x9064, A8, 4); (0x9065, A8, 98);
  (0x9067, M3, 70); (0x9069, M3, 296); (0x9070, M3, 99); (0x9071, M3, 25);
  (0x9072, M3, 188); (0x9073, M3, 140); (0x9074, M3, 149); (0x9076, M3, 208);
  (0x9077, M3, 242); (0x9082, M3, 313); (0x9083, M3, 19); (0x9084, M3, 24);
  (0x9154, A8, 51); (0x9155, A8, 12); (0x9156, A8, 34); (0x9158, A8, 125);
  (0x9161, A8, 209); (0x9162, A8, 146); (0x9163, A8, 10); (0x9165, A8, 1);
  (0x9167, M3, 345); (0x9168, M3, 184); (0x9169, M3, 183); (0x9170, M3, 26);
  (0x9171, M3, 22); (0x9172, M3, 111); (0x9173, M3, 187); (0x9174, M3, 18);
  (0x9175, M3, 215); (0x9176, M3, 4); (0x9177, M3, 76); (0x9181, M3, 101);
  (0x9183, M3, 292); (0x9184, M3, 36); (0x9253, A8, 84); (0x9255, A8, 5);
  (0x9256, A8, 29); (0x9257, A8, 25); (0x9258, A8, 40); (0x9259, A8, 32);
  (0x9263, A8, 136); (0x9266, A8, 83); (0x9267, M3, 353); (0x9269, M3, 245);
  (0x9270, M3, 142); (0x9271, M3, 302); (0x9273, M3, 93); (0x9276, M3, 163);
  (0x9277, M3, 87); (0x9278, M3, 46); (0x9279, M3, 273); (0x9280, M3, 21);
  (0x9282, M3, 328); (0x9283, M3, 228); (0x9285, M3, 43); (0x9286, M3, 96);
  (0x9287, M3, 6); (0x9353, A8, 135); (0x9354, A8, 74); (0x9355, A8, 1);
  (0x9356, A8, 10); (0x9358, A8, 12); (0x9359, A8, 42); (0x9362, A8, 114);
  (0x9363, A8, 148); (0x9364, A8, 169); (0x9365, A8, 73); (0x9366, A8, 20);
  (0x9367, M3, 354); (0x9369, M3, 131); (0x9370, M3, 69); (0x9371, M3, 137);
  (0x9373, M3, 218); (0x9374, M3, 38); (0x9376, M3, 118); (0x9377, M3, 227);
  (0x9378, M3, 358); (0x9379, M3, 171); (0x9380, M3, 147); (0x9381, M3, 173);
  (0x9382, M3, 106); (0x9385, M3, 16); (0x9387, M3, 10); (0x9388, M3, 4);
  (0x9452, A8, 162); (0x9455, A8, 2); (0x9457, A8, 36); (0x9458, A8, 100);
  (0x9460, A8, 195); (0x9461, A8, 12); (0x9462, A8, 177); (0x9464, A8, 219);
  (0x9465, A8, 153); (0x9466, A8, 143); (0x9467, M3, 295); (0x9468, M3, 336);
  (0x9469, M3, 26); (0x9472, M3, 51); (0x9473, M3, 13); (0x9474, M3, 63);
  (0x9475, M3, 293); (0x9476, M3, 80); (0x9477, M3, 339); (0x9478, M3, 165);
  (0x9479, M3, 306); (0x9480, M3, 189); (0x9481, M3, 234); (0x9482, M3, 276);
  (0x9483, M3, 261); (0x9484, M3, 377); (0x9488, M3, 15); (0x9552, A8, 21);
  (0x9555, A8, 13); (0x9556, A8, 9); (0x9559, A8, 40); (0x9562, A8, 125);
  (0x9563, A8, 212); (0x9564, A8, 12); (0x9565, A8, 134); (0x9566, A8, 61);
  (0x9567, M3, 214); (0x9570, M3, 125); (0x9571, M3, 187); (0x9572, M3, 176);
  (0x9573, M3, 194); (0x9574, M3, 27); (0x9575, M3, 264); (0x9576, M3, 151);
  (0x9577, M3, 79); (0x9579, M3, 244); (0x9580, M3, 314); (0x9582, M3, 161);
  (0x9583, M3, 249); (0x9584, M3, 203); (0x9586, M3, 59); (0x9588, M3, 12);
  (0x9589, M3, 38); (0x9651, A8, 8)
].
Definition nodes_uid_dict_rows_5 : list (Z * Z * Z) := [
  (0x9653, A8, 157); (0x9655, A8, 25); (0x9656, A8, 14); (0x9658, A8, 23);
  (0x9659, A8, 69); (0x9661, A8, 33); (0x9663, A8, 227); (0x9664, A8, 194);
  (0x9666, A8, 155); (0x9668, M3, 338); (0x9669, M3, 136); (0x9671, M3, 166);
  (0x9672, M3, 125); (0x9673, M3, 28); (0x9674, M3, 65); (0x9678, M3, 172);
  (0x9680, M3, 145); (0x9681, M3, 268); (0x9682, M3, 69); (0x9683, M3, 149);
  (0x9687, M3, 64); (0x9689, M3, 52); (0x9753, A8, 120); (0x9754, A8, 31);
  (0x9755, A8, 105); (0x9756, A8, 46); (0x9758, A8, 192); (0x9759, A8, 113);
  (0x9760, A8, 73); (0x9761, A8, 25); (0x9762, A8, 102); (0x9763, A8, 157);
  (0x9764, A8, 52); (0x9765, A8, 103); (0x9767, A8, 6); (0x9768, M3, 1);
  (0x9769, M3, 84); (0x9770, M3, 200); (0x9771, M3, 275); (0x9772, M3, 124);
  (0x9773, M3, 54); (0x9774, M3, 58); (0x9775, M3, 372); (0x9776, M3, 325);
  (0x9777, M3, 65); (0x9778, M3, 6); (0x9779, M3, 143); (0x9780, M3, 279);
  (0x9781, M3, 351); (0x9782, M3, 312); (0x9783, M3, 129); (0x9785, M3, 95);
  (0x9786, M3, 98); (0x9787, M3, 3); (0x9788, M3, 54); (0x9789, M3, 48);
  (0x9852, A8, 97); (0x9854, A8, 86); (0x9855, A8, 107); (0x9856, A8, 53);
  (0x9857, A8, 2); (0x9859, A8, 43); (0x9861, A8, 213); (0x9863, A8, 26);
  (0x9864, A8, 93); (0x9866, A8, 174); (0x9867, A8, 88); (0x9868, M3, 348);
  (0x9869, M3, 14); (0x9871, M3, 217); (0x9873, M3, 98); (0x9875, M3, 284);
  (0x9876, M3, 251); (0x9877, M3, 146); (0x9878, M3, 55); (0x9879, M3, 321);
  (0x9880, M3, 160); (0x9881, M3, 103); (0x9882, M3, 89); (0x9883, M3, 7);
  (0x9884, M3, 2); (0x9885, M3, 41); (0x9886, M3, 105); (0x9887, M3, 63);
  (0x9889, M3, 5); (0x9890, M3, 53); (0x9950, A8, 228); (0x9952, A8, 138);
  (0x9953, A8, 137); (0x9954, A8, 154); (0x9958, A8, 202); (0x9959, A8, 120);
  (0x9962, A8, 87); (0x9963, A8, 138); (0x9964, A8, 101); (0x9966, A8, 132);
  (0x9968, M3, 182); (0x9969, M3, 19); (0x9971, M3, 11); (0x9973, M3, 27);
  (0x9974, M3, 31); (0x9975, M3, 291); (0x9976, M3, 148); (0x9977, M3, 77);
  (0x9978, M3, 185); (0x9979, M3, 206); (0x9980, M3, 128); (0x9981, M3, 221);
  (0x9982, M3, 2); (0x9983, M3, 8); (0x9985, M3, 46); (0x9986, M3, 57);
  (0x9989, M3, 92); (0x9990, M3, 99); (0xa050, A8, 179); (0xa051, A8, 147);
  (0xa052, A8, 143); (0xa053, A8, 70); (0xa054, A8, 46); (0xa055, A8, 13);
  (0xa059, A8, 112); (0xa060, A8, 66); (0xa061, A8, 223); (0xa063, A8, 87);
  (0xa064, A8, 19); (0xa065, A8, 151); (0xa066, A8, 175); (0xa067, A8, 59);
  (0xa068, M3, 53); (0xa069, M3, 134); (0xa070, M3, 165); (0xa071, M3, 110);
  (0xa072, M3, 107); (0xa074, M3, 47); (0xa075, M3, 370); (0xa077, M3, 72);
  (0xa078, M3, 290); (0xa079, M3, 297); (0xa081, M3, 159); (0xa082, M3, 307);
  (0xa083, M3, 238); (0xa086, M3, 100); (0xa087, M3, 104); (0xa090, M3, 46);
  (0xa150, A8, 203); (0xa151, A8, 160); (0xa152, A8, 33); (0xa155, A8, 6);
  (0xa163, A8, 139); (0xa164, A8, 61)
].
Definition nodes_uid_dict_rows_6 : list (Z * Z * Z) := [
  (0xa166, A8, 168); (0xa168, M3, 17); (0xa169, M3, 63); (0xa170, M3, 145);
  (0xa171, M3, 74); (0xa172, M3, 17); (0xa173, M3, 47); (0xa174, M3, 6);
  (0xa175, M3, 376); (0xa176, M3, 5); (0xa178, M3, 333); (0xa179, M3, 174);
  (0xa180, M3, 122); (0xa181, M3, 38); (0xa183, M3, 202); (0xa184, M3, 39);
  (0xa185, M3, 27); (0xa186, M3, 49); (0xa187, M3, 25); (0xa189, M3, 144);
  (0xa250, A8, 145); (0xa252, A8, 149); (0xa253, A8, 121); (0xa254, A8, 167);
  (0xa255, A8, 26); (0xa256, A8, 11); (0xa257, A8, 3); (0xa262, A8, 197);
  (0xa263, A8, 164); (0xa264, A8, 139); (0xa265, A8, 156); (0xa267, A8, 104);
  (0xa269, M3, 16); (0xa270, M3, 112); (0xa271, M3, 85); (0xa272, M3, 130);
  (0xa273, M3, 64); (0xa276, M3, 169); (0xa279, M3, 154); (0xa281, M3, 178);
  (0xa282, M3, 331); (0xa283, M3, 282); (0xa284, M3, 29); (0xa288, M3, 56);
  (0xa289, M3, 189); (0xa350, A8, 49); (0xa351, A8, 163); (0xa352, A8, 99);
  (0xa353, A8, 75); (0xa354, A8, 112); (0xa355, A8, 2); (0xa358, A8, 47);
  (0xa359, A8, 74); (0xa360, A8, 182); (0xa361, A8, 41); (0xa362, A8, 6);
  (0xa363, A8, 127); (0xa366, A8, 108); (0xa367, A8, 41); (0xa369, M3, 132);
  (0xa370, M3, 303); (0xa371, M3, 7); (0xa372, M3, 232); (0xa373, M3, 186);
  (0xa374, M3, 8); (0xa375, M3, 194); (0xa376, M3, 193); (0xa377, M3, 15);
  (0xa379, M3, 207); (0xa380, M3, 157); (0xa382, M3, 78); (0xa383, M3, 198);
  (0xa385, M3, 21); (0xa386, M3, 37); (0xa390, M3, 66); (0xa451, A8, 3);
  (0xa452, A8, 173); (0xa454, A8, 14); (0xa455, A8, 17); (0xa456, A8, 3);
  (0xa459, A8, 77); (0xa460, A8, 215); (0xa461, A8, 2); (0xa462, A8, 159);
  (0xa464, A8, 13); (0xa465, A8, 92); (0xa466, A8, 63); (0xa467, A8, 13);
  (0xa468, M3, 119); (0xa469, M3, 120); (0xa470, M3, 265); (0xa471, M3, 86);
  (0xa472, M3, 335); (0xa473, M3, 102); (0xa475, M3, 88); (0xa476, M3, 42);
  (0xa477, M3, 320); (0xa478, M3, 260); (0xa479, M3, 340); (0xa480, M3, 326);
  (0xa481, M3, 262); (0xa482, M3, 32); (0xa483, M3, 250); (0xa484, M3, 1);
  (0xa487, M3, 47); (0xa488, M3, 22); (0xa489, M3, 37); (0xa490, M3, 191);
  (0xa551, A8, 130); (0xa552, A8, 56); (0xa553, A8, 150); (0xa554, A8, 35);
  (0xa555, A8, 21); (0xa557, A8, 4); (0xa558, A8, 5); (0xa562, A8, 96);
  (0xa563, A8, 131); (0xa566, A8, 110); (0xa568, M3, 343); (0xa569, M3, 13);
  (0xa570, M3, 311); (0xa573, M3, 192); (0xa574, M3, 24); (0xa575, M3, 83);
  (0xa577, M3, 319); (0xa578, M3, 112); (0xa579, M3, 60); (0xa580, M3, 259);
  (0xa581, M3, 35); (0xa582, M3, 281); (0xa583, M3, 285); (0xa585, M3, 51);
  (0xa586, M3, 28); (0xa587, M3, 18); (0xa590, M3, 7); (0xa654, A8, 166);
  (0xa655, A8, 20); (0xa656, A8, 10); (0xa659, A8, 128); (0xa660, A8, 191);
  (0xa661, A8, 39); (0xa663, A8, 95); (0xa664, A8, 221); (0xa665, A8, 42);
  (0xa666, A8, 32); (0xa667, A8, 140); (0xa668, M3, 146); (0xa669, M3, 23);
  (0xa670, M3, 195); (0xa671, M3, 113)
].
Definition nodes_uid_dict_rows_7 : list (Z * Z * Z) := [
  (0xa673, M3, 63); (0xa674, M3, 7); (0xa675, M3, 301); (0xa676, M3, 81);
  (0xa677, M3, 236); (0xa678, M3, 243); (0xa681, M3, 356); (0xa682, M3, 6);
  (0xa683, M3, 8); (0xa684, M3, 44); (0xa685, M3, 2); (0xa686, M3, 60);
  (0xa689, M3, 56); (0xa751, A8, 115); (0xa752, A8, 142); (0xa753, A8, 60);
  (0xa754, A8, 148); (0xa757, A8, 1); (0xa758, A8, 7); (0xa762, A8, 88);
  (0xa763, A8, 16); (0xa764, A8, 119); (0xa765, A8, 11); (0xa767, A8, 65);
  (0xa768, M3, 196); (0xa770, M3, 95); (0xa771, M3, 172); (0xa772, M3, 28);
  (0xa774, M3, 50); (0xa775, M3, 104); (0xa776, M3, 179); (0xa777, M3, 323);
  (0xa778, M3, 139); (0xa779, M3, 71); (0xa780, M3, 48); (0xa781, M3, 158);
  (0xa782, M3, 324); (0xa783, M3, 142); (0xa784, M3, 35); (0xa786, M3, 34);
  (0xa787, M3, 77); (0xa788, M3, 58); (0xa790, M3, 229); (0xa850, A8, 54);
  (0xa851, A8, 218); (0xa852, A8, 19); (0xa853, A8, 152); (0xa854, A8, 85);
  (0xa855, A8, 3); (0xa856, A8, 8); (0xa858, A8, 111); (0xa859, A8, 38);
  (0xa861, A8, 220); (0xa863, A8, 63); (0xa864, A8, 6); (0xa867, A8, 119);
  (0xa869, M3, 12); (0xa870, M3, 175); (0xa871, M3, 201); (0xa872, M3, 45);
  (0xa873, M3, 183); (0xa874, M3, 61); (0xa878, M3, 90); (0xa879, M3, 114);
  (0xa880, M3, 274); (0xa881, M3, 102); (0xa885, M3, 31); (0xa886, M3, 90);
  (0xa887, M3, 8); (0xa888, M3, 78); (0xa889, M3, 235); (0xa890, M3, 115);
  (0xa951, A8, 207); (0xa952, A8, 80); (0xa954, A8, 106); (0xa955, A8, 45);
  (0xa956, A8, 7); (0xa959, A8, 67); (0xa960, A8, 196); (0xa962, A8, 93);
  (0xa963, A8, 10); (0xa964, A8, 184); (0xa967, A8, 49); (0xa968, M3, 278);
  (0xa969, M3, 286); (0xa972, M3, 197); (0xa974, M3, 16); (0xa975, M3, 35);
  (0xa978, M3, 40); (0xa979, M3, 380); (0xa980, M3, 271); (0xa982, M3, 247);
  (0xa983, M3, 68); (0xa984, M3, 23); (0xa986, M3, 80); (0xa988, M3, 61);
  (0xa990, M3, 139); (0xb051, A8, 51); (0xb052, A8, 64); (0xb053, A8, 122);
  (0xb054, A8, 114); (0xb055, A8, 19); (0xb056, A8, 89); (0xb058, A8, 98);
  (0xb059, A8, 5); (0xb060, A8, 7); (0xb061, A8, 9); (0xb062, A8, 90);
  (0xb063, A8, 27); (0xb065, A8, 174); (0xb066, A8, 5); (0xb067, A8, 115);
  (0xb068, M3, 229); (0xb069, M3, 98); (0xb070, M3, 224); (0xb071, M3, 51);
  (0xb072, M3, 6); (0xb073, M3, 228); (0xb075, M3, 2); (0xb077, M3, 20);
  (0xb078, M3, 92); (0xb079, M3, 342); (0xb080, M3, 100); (0xb081, M3, 153);
  (0xb082, M3, 330); (0xb083, M3, 308); (0xb086, M3, 30); (0xb089, M3, 82);
  (0xb153, A8, 133); (0xb154, A8, 128); (0xb155, A8, 43); (0xb159, A8, 187);
  (0xb160, A8, 1); (0xb161, A8, 105); (0xb162, A8, 92); (0xb163, A8, 11);
  (0xb164, A8, 9); (0xb166, A8, 7); (0xb167, A8, 6); (0xb168, M3, 255);
  (0xb169, M3, 138); (0xb172, M3, 108); (0xb173, M3, 151); (0xb174, M3, 32);
  (0xb175, M3, 36); (0xb176, M3, 13); (0xb177, M3, 329); (0xb178, M3, 13);
  (0xb179, M3, 97); (0xb180, M3, 224)
].
Definition nodes_uid_dict_rows_8 : list (Z * Z * Z) := [
  (0xb181, M3, 4); (0xb182, M3, 267); (0xb184, M3, 7); (0xb186, M3, 42);
  (0xb187, M3, 14); (0xb189, M3, 36); (0xb253, A8, 23); (0xb254, A8, 37);
  (0xb256, A8, 2); (0xb259, A8, 198); (0xb260, A8, 106); (0xb262, A8, 85);
  (0xb263, A8, 45); (0xb264, A8, 66); (0xb265, A8, 104); (0xb266, A8, 132);
  (0xb268, M3, 226); (0xb269, M3, 126); (0xb270, M3, 212); (0xb271, M3, 39);
  (0xb272, M3, 94); (0xb273, M3, 197); (0xb274, M3, 34); (0xb275, M3, 56);
  (0xb276, M3, 317); (0xb277, M3, 99); (0xb279, M3, 337); (0xb280, M3, 212);
  (0xb281, M3, 164); (0xb282, M3, 322); (0xb286, M3, 33); (0xb287, M3, 32);
  (0xb288, M3, 222); (0xb289, M3, 107); (0xb352, A8, 90); (0xb353, A8, 124);
  (0xb355, A8, 54); (0xb356, A8, 165); (0xb358, A8, 16); (0xb359, A8, 116);
  (0xb360, A8, 121); (0xb361, A8, 50); (0xb362, A8, 181); (0xb363, A8, 3);
  (0xb364, A8, 15); (0xb365, A8, 62); (0xb367, A8, 36); (0xb368, M3, 347);
  (0xb369, M3, 216); (0xb370, M3, 40); (0xb371, M3, 254); (0xb372, M3, 53);
  (0xb373, M3, 34); (0xb374, M3, 25); (0xb375, M3, 10); (0xb376, M3, 27);
  (0xb377, M3, 31); (0xb378, M3, 58); (0xb379, M3, 209); (0xb380, M3, 270);
  (0xb381, M3, 280); (0xb382, M3, 21); (0xb383, M3, 248); (0xb384, M3, 13);
  (0xb385, M3, 45); (0xb386, M3, 62); (0xb388, M3, 131); (0xb389, M3, 177);
  (0xb454, A8, 117); (0xb455, A8, 42); (0xb458, A8, 71); (0xb459, A8, 216);
  (0xb460, A8, 37); (0xb461, A8, 48); (0xb462, A8, 175); (0xb463, A8, 16);
  (0xb465, A8, 76); (0xb466, A8, 30); (0xb467, A8, 142); (0xb468, M3, 96);
  (0xb469, M3, 367); (0xb471, M3, 124); (0xb472, M3, 158); (0xb473, M3, 52);
  (0xb477, M3, 269); (0xb479, M3, 355); (0xb480, M3, 43); (0xb481, M3, 219);
  (0xb482, M3, 33); (0xb483, M3, 140); (0xb486, M3, 55); (0xb488, M3, 116);
  (0xb554, A8, 78); (0xb555, A8, 41); (0xb556, A8, 9); (0xb558, A8, 225);
  (0xb559, A8, 127); (0xb560, A8, 24); (0xb561, A8, 226); (0xb562, A8, 170);
  (0xb563, A8, 65); (0xb564, A8, 1); (0xb566, A8, 145); (0xb567, A8, 71);
  (0xb568, M3, 36); (0xb569, M3, 298); (0xb570, M3, 5); (0xb571, M3, 209);
  (0xb572, M3, 49); (0xb574, M3, 20); (0xb576, M3, 105); (0xb579, M3, 192);
  (0xb580, M3, 252); (0xb582, M3, 218); (0xb583, M3, 181); (0xb584, M3, 79);
  (0xb585, M3, 17); (0xb586, M3, 50); (0xb587, M3, 40); (0xb588, M3, 14);
  (0xb654, A8, 94); (0xb655, A8, 57); (0xb661, A8, 44); (0xb663, A8, 59);
  (0xb664, A8, 137); (0xb666, A8, 109); (0xb667, A8, 144); (0xb668, M3, 257);
  (0xb669, M3, 346); (0xb670, M3, 134); (0xb671, M3, 85); (0xb675, M3, 49);
  (0xb676, M3, 150); (0xb677, M3, 9); (0xb678, M3, 61); (0xb679, M3, 18);
  (0xb680, M3, 66); (0xb682, M3, 12); (0xb683, M3, 49); (0xb685, M3, 26);
  (0xb755, A8, 59); (0xb758, A8, 57); (0xb759, A8, 210); (0xb760, A8, 126);
  (0xb761, A8, 13); (0xb762, A8, 78); (0xb763, A8, 69); (0xb767, A8, 141);
  (0xb768, M3, 223); (0xb769, M3, 152)
].
Definition nodes_uid_dict_rows_9 : list (Z * Z * Z) := [
  (0xb770, M3, 249); (0xb771, M3, 86); (0xb772, M3, 35); (0xb774, M3, 66);
  (0xb775, M3, 39); (0xb780, M3, 59); (0xb781, M3, 283); (0xb782, M3, 334);
  (0xb783, M3, 1); (0xb785, M3, 97); (0xb786, M3, 20); (0xb857, A8, 4);
  (0xb858, A8, 24); (0xb859, A8, 76); (0xb860, A8, 186); (0xb861, A8, 52);
  (0xb863, A8, 72); (0xb864, A8, 130); (0xb865, A8, 108); (0xb866, A8, 102);
  (0xb867, A8, 144); (0xb868, M3, 3); (0xb870, M3, 41); (0xb871, M3, 250);
  (0xb872, M3, 114); (0xb873, M3, 221); (0xb875, M3, 44); (0xb876, M3, 239);
  (0xb877, M3, 204); (0xb881, M3, 246); (0xb882, M3, 190); (0xb883, M3, 363);
  (0xb885, M3, 9); (0xb959, A8, 7); (0xb960, A8, 123); (0xb961, A8, 26);
  (0xb962, A8, 141); (0xb964, A8, 111); (0xb966, A8, 189); (0xb967, A8, 159);
  (0xb968, M3, 34); (0xb970, M3, 176); (0xb972, M3, 150); (0xb973, M3, 132);
  (0xb974, M3, 68); (0xb975, M3, 37); (0xb976, M3, 79); (0xb978, M3, 16);
  (0xb980, M3, 41); (0xb981, M3, 14); (0xb982, M3, 287); (0xb983, M3, 341);
  (0xc062, A8, 180); (0xc064, A8, 68); (0xc065, A8, 172); (0xc066, A8, 124);
  (0xc068, M3, 225); (0xc069, M3, 144); (0xc070, M3, 50); (0xc071, M3, 378);
  (0xc073, M3, 152); (0xc076, M3, 170); (0xc077, M3, 371); (0xc078, M3, 39);
  (0xc081, M3, 210); (0xc082, M3, 344); (0xc162, A8, 34); (0xc163, A8, 116);
  (0xc165, A8, 107); (0xc168, M3, 30); (0xc169, M3, 310); (0xc170, M3, 91);
  (0xc171, M3, 359); (0xc174, M3, 33); (0xc176, M3, 277); (0xc180, M3, 54);
  (0xc181, M3, 44); (0xc261, A8, 29); (0xc264, A8, 151); (0xc266, A8, 58);
  (0xc267, A8, 82); (0xc268, M3, 67); (0xc269, M3, 8); (0xc270, M3, 220);
  (0xc273, M3, 148); (0xc274, M3, 54); (0xc275, M3, 47); (0xc276, M3, 123);
  (0xc277, M3, 253); (0xc279, M3, 6); (0xc280, M3, 15); (0xc363, A8, 99);
  (0xc364, A8, 176); (0xc365, A8, 10); (0xc366, A8, 18); (0xc368, M3, 309);
  (0xc369, M3, 266); (0xc370, M3, 289); (0xc373, M3, 166); (0xc374, M3, 5);
  (0xc376, M3, 200); (0xc467, A8, 55); (0xc468, M3, 5); (0xc470, M3, 15);
  (0xc471, M3, 11); (0xc472, M3, 160); (0xc473, M3, 43)
].
Definition nodes_uid_dict_rows : list (Z * Z * Z) :=
  nodes_uid_dict_rows_1 ++
  nodes_uid_dict_rows_2 ++
  nodes_uid_dict_rows_3 ++
  nodes_uid_dict_rows_4 ++
  nodes_uid_dict_rows_5 ++
  nodes_uid_dict_rows_6 ++
  nodes_uid_dict_rows_7 ++
  nodes_uid_dict_rows_8 ++
  nodes_uid_dict_rows_9.
Definition nodes_uid_dict : list node_entry := map row nodes_uid_dict_rows.

Definition node_type_string (type : Z) : option string :=
  if type =? M3 then Some "m3"%string
  else if type =? A8 then Some "a8"%string
  else None.

(** The loop of [node_from_uid], for any table. *)
Fixpoint search_loop (dict : list node_entry) (u : Z) (fuel : nat) (first last : Z) : res node :=
  match fuel with
  | O => Err EFuel
  | S fuel =>
      if first <=? last then
        let cur := u32 (first + last) / 2 in
        current ← arr_get dict cur;
        if uid current <? u then search_loop dict u fuel (u32 (cur + 1)) last
        else if uid current >? u then search_loop dict u fuel first (u32 (cur - 1))
        else
          let ty := Z.land 0xf (Z.shiftr (node_ current) 24) in
          Ok (mk_node ty (Z.land 0x0fff (node_ current)) (node_type_string ty))
      else Ok (mk_node 0 0 None)
  end.

Definition search (dict : list node_entry) (u : Z) : res node :=
  search_loop dict u (S (length dict)) 0 (u32 (Z.of_nat (length dict) - 1)).

Definition node_from_uid (u : Z) : res node := search nodes_uid_dict u.

(** ** The search *)

Definition node_of (e : node_entry) : node :=
  let ty := Z.land 0xf (Z.shiftr (node_ e) 24) in
  mk_node ty (Z.land 0x0fff (node_ e)) (node_type_string ty).

Definition not_found : node := mk_node 0 0 None.

(** The entry with identifier [u], by inspecting the entries in turn. *)
Definition lookup_uid (dict : list node_entry) (u : Z) : node :=
  match list_find (λ e, uid e = u) dict with
  | Some (_, e) => node_of e
  | None => not_found
  end.

Definition sorted_dict (dict : list node_entry) : Prop :=
  StronglySorted (λ a b, uid a < uid b) dict.

Lemma sorted_lt dict i j a b :
  sorted_dict dict -> dict !! i = Some a -> dict !! j = Some b -> (i < j)%nat -> uid a < uid b.
Proof.
  intros Hs. revert i j. induction Hs as [|e l Hl IH He]; intros i j Ha Hb Hij; [done|].
  destruct i as [|i], j as [|j]; [lia| |lia|].
  - injection Ha as <-. cbn in Hb. rewrite Forall_forall in He. apply He.
    by eapply list_elem_of_lookup_2.
  - apply (IH i j Ha Hb). lia.
Qed.

Lemma lookup_uid_found dict i e :
  sorted_dict dict -> dict !! i = Some e -> lookup_uid dict (uid e) = node_of e.
Proof.
  intros Hs He. unfold lookup_uid. destruct (list_find _ dict) as [[j e']|] eqn:E.
  - apply list_find_Some in E as (Hj & Hu & _).
    destruct (decide (i = j)) as [->|Hne]; [by simplify_eq|].
    assert (i < j \/ j < i)%nat as [Hij|Hij] by lia.
    + pose proof (sorted_lt _ _ _ _ _ Hs He Hj Hij). lia.
    + pose proof (sorted_lt _ _ _ _ _ Hs Hj He Hij). lia.
  - exfalso. apply list_find_None in E. rewrite Forall_forall in E.
    apply (E e); [by eapply list_elem_of_lookup_2|done].
Qed.

Lemma lookup_uid_absent dict u :
  (forall i e, dict !! i = Some e -> uid e <> u) -> lookup_uid dict u = not_found.
Proof.
  intros Hn. unfold lookup_uid. destruct (list_find _ dict) as [[j e]|] eqn:E; [|done].
  apply list_find_Some in E as (Hj & Hu & _). by destruct (Hn j e).
Qed.

(** The loop invariant: every entry before [first] is below [u] and every
    entry after [last] above. The first entry of the table is not above [u],
    so [last] never becomes negative. *)
Lemma search_loop_spec dict u e0 fuel : forall first last,
  sorted_dict dict -> Z.of_nat (length dict) < 2147483648 ->
  dict !! 0%nat = Some e0 -> uid e0 <= u ->
  0 <= first -> first <= last + 1 -> last < Z.of_nat (length dict) -> 0 <= last ->
  (forall i e, dict !! i = Some e -> Z.of_nat i < first -> uid e < u) ->
  (forall i e, dict !! i = Some e -> last < Z.of_nat i -> u < uid e) ->
  last - first + 1 < Z.of_nat fuel ->
  search_loop dict u fuel first last = Ok (lookup_uid dict u).
Proof.
  induction fuel as [|fuel IH]; intros first last Hs Hlen He0 Hu0 Hf Hfl Hl Hl0 Hlo Hhi Hfuel; [lia|].
  cbn [search_loop]. destruct (Z.leb_spec first last) as [Hle|Hgt].
  - rewrite (u32_id (first + last)) by lia. set (cur := (first + last) / 2).
    assert (first <= cur <= last) as Hcur by (subst cur; mlia).
    destruct (lookup_lt_is_Some_2 dict (Z.to_nat cur)) as [e He]; [lia|].
    rewrite (arr_get_ok dict cur e) by (done || lia). cbn [mbind res_bind].
    change (mbind ?f (Ok ?x)) with (f x). cbn beta.
    destruct (Z.ltb_spec (uid e) u) as [H1|H1].
    { rewrite u32_id by lia. apply IH; try done; try lia.
      intros i e' Hi Hic. destruct (decide (i = Z.to_nat cur)) as [->|Hne]; [by simplify_eq|].
      pose proof (sorted_lt _ _ _ _ _ Hs Hi He). lia. }
    destruct (Z.gtb_spec (uid e) u) as [H2|H2].
    { assert (cur <> 0) as Hc0.
      { intros Hc. rewrite Hc in He. change (Z.to_nat 0) with 0%nat in He. assert (e = e0) as -> by congruence. lia. }
      rewrite u32_id by lia. apply IH; try done; try lia.
      intros i e' Hi Hic. destruct (decide (i = Z.to_nat cur)) as [->|Hne]; [by simplify_eq|].
      pose proof (sorted_lt _ _ _ _ _ Hs He Hi). lia. }
    assert (uid e = u) as <- by lia. by rewrite (lookup_uid_found dict (Z.to_nat cur)).
  - f_equal. symmetry. apply lookup_uid_absent. intros i e Hi.
    destruct (decide (Z.of_nat i < first)); [specialize (Hlo i e Hi); lia|].
    specialize (Hhi i e Hi). lia.
Qed.

Lemma search_spec dict u e0 :
  sorted_dict dict -> Z.of_nat (length dict) < 2147483648 ->
  dict !! 0%nat = Some e0 -> uid e0 <= u ->
  search dict u = Ok (lookup_uid dict u).
Proof.
  intros Hs Hlen He0 Hu. assert (0 < Z.of_nat (length dict)) by (destruct dict; [done|cbn; lia]).
  unfold search. rewrite u32_id by lia.
  apply (search_loop_spec dict u e0); try done; try lia.
  intros i e Hi Hlt. apply lookup_lt_Some in Hi. lia.
Qed.

(** Decidable version of [sorted_dict]. *)
Fixpoint sorted_from (x : Z) (dict : list node_entry) : bool :=
  match dict with [] => true | e :: dict => (x <? uid e) && sorted_from (uid e) dict end.

Lemma sorted_from_ok x dict :
  sorted_from x dict = true -> sorted_dict dict /\ Forall (λ e, x < uid e) dict.
Proof.
  revert x. induction dict as [|e dict IH]; intros x; cbn; [repeat constructor|].
  intros [Hx [Hs Hf]%IH]%andb_prop. apply Z.ltb_lt in Hx. split; [by constructor|].
  constructor; [done|]. eapply Forall_impl; [exact Hf|]. simpl. lia.
Qed.

Lemma nodes_uid_dict_sorted : sorted_dict nodes_uid_dict.
Proof. apply (sorted_from_ok 0). by vm_compute. Qed.

(** For every identifier not below the first one of the table, the binary
    search in the real table terminates and returns the entry of that
    identifier if there is one, and the empty node otherwise: what inspecting
    all entries gives. *)
Theorem node_from_uid_spec u :
  0x0561 <= u -> node_from_uid u = Ok (lookup_uid nodes_uid_dict u).
Proof.
  intros Hu. apply (search_spec _ u (mk_entry 0x0561 (Z.lor (Z.shiftl M3 24) 136))).
  - apply nodes_uid_dict_sorted.
  - by vm_compute.
  - by vm_compute.
  - done.
Qed.

(** An identifier below all those of the table. *)
Lemma search_loop_below dict u fuel : forall last,
  Forall (λ e, u < uid e) dict -> Z.of_nat (length dict) < 2147483648 ->
  0 <= last < Z.of_nat (length dict) -> last + 2 <= Z.of_nat fuel ->
  search_loop dict u fuel 0 last = Err EUndef.
Proof.
  induction fuel as [|fuel IH]; intros last Hall Hlen Hl Hfuel; [lia|].
  cbn [search_loop]. destruct (Z.leb_spec 0 last); [|lia].
  rewrite (u32_id (0 + last)) by lia. set (cur := (0 + last) / 2).
  assert (0 <= cur <= last) as Hcur by (subst cur; mlia).
  destruct (lookup_lt_is_Some_2 dict (Z.to_nat cur)) as [e He]; [lia|].
  pose proof (Forall_lookup_1 _ _ _ _ Hall He) as Hue. cbn beta in Hue.
  rewrite (arr_get_ok dict cur e) by (done || lia).
  change (mbind ?f (Ok ?x)) with (f x). cbn beta.
  destruct (Z.ltb_spec (uid e) u); [lia|]. destruct (Z.gtb_spec (uid e) u); [|lia].
  destruct (decide (cur = 0)) as [Hc|Hc].
  - rewrite Hc. change (u32 (0 - 1)) with 4294967295. destruct fuel as [|fuel]; [lia|].
    cbn [search_loop]. change (u32 (0 + 4294967295) / 2) with 2147483647. cbn [Z.leb].
    change (0 <=? 4294967295) with true. cbn beta iota. unfold arr_get.
    rewrite decide_False by lia. by rewrite lookup_ge_None_2 by lia.
  - rewrite u32_id by lia. apply IH; [done|done|lia|lia].
Qed.

(** Below the first identifier of the table, the search moves [last] below
    zero; it wraps to the largest [size_t] and the next entry read is outside
    of the table. *)
Theorem node_from_uid_underflow u : 0 <= u < 0x0561 -> node_from_uid u = Err EUndef.
Proof.
  intros Hu. unfold node_from_uid, search. rewrite u32_id by (by vm_compute).
  apply search_loop_below; [|by vm_compute|by vm_compute|by vm_compute].
  destruct (sorted_from_ok 0x0560 nodes_uid_dict) as [_ Hall]; [by vm_compute|].
  eapply Forall_impl; [exact Hall|]. simpl. lia.
Qed.

Lemma node_from_uid_spec_witness : node_from_uid 0x0562 = Ok (lookup_uid nodes_uid_dict 0x0562).
Proof. apply (node_from_uid_spec 0x0562). lia. Defined.

End NodeUid.
