(* ===== verification/Dragon4.v ===== *)
(** * Decimal digits of floating-point numbers ([lib/printf/printf_float.c])

    [dragon4] is the algorithm of Steele and White on integers of 160 bits, kept as
    five 32-bit words, least significant first. *)

From stdpp Require Import base numbers list.
From S2P Require Import Prelude.

Module Dragon4.

Abbreviation uint160 := (list Z).

(** [n >> i] for an [i] computed by the code: shifting by the width of the type has
    no meaning in C. *)
Definition shr32 (n i : Z) : res Z := if decide (0 <= i < 32) then Ok (Z.shiftr n i) else Err EUndef.
Definition shl32 (n i : Z) : res Z := if decide (0 <= i < 32) then Ok (u32 (Z.shiftl n i)) else Err EUndef.

Definition shift (n i : Z) : res uint160 :=
  if i <? 32 then a ← shl32 n i; b ← shr32 n (32 - i); Ok [a; b; 0; 0; 0]
  else if i <? 64 then a ← shl32 n (i - 32); b ← shr32 n (64 - i); Ok [0; a; b; 0; 0]
  else if i <? 96 then a ← shl32 n (i - 64); b ← shr32 n (96 - i); Ok [0; 0; a; b; 0]
  else if i <? 128 then a ← shl32 n (i - 96); b ← shr32 n (128 - i); Ok [0; 0; 0; a; b]
  else a ← shl32 n (i - 128); Ok [0; 0; 0; 0; a].

(** The loops over the words, from the least significant one, with the carry. *)
Fixpoint mul2_loop (c : Z) (r : uint160) : uint160 :=
  match r with
  | [] => []
  | w :: r => Z.lor (u32 (Z.shiftl w 1)) c :: mul2_loop (Z.shiftr w 31) r
  end.
Definition mul2 (r : uint160) : uint160 := mul2_loop 0 r.

Definition mul10_carry (w : Z) : Z :=
  if w >? 0xFFFFFFFF / 10 then Z.shiftr (u32 (Z.shiftr w 4 * 10)) 28 else 0.
Fixpoint mul10_loop (c : Z) (r : uint160) : uint160 :=
  match r with
  | [] => []
  | w :: r => u32 (w * 10 + c) :: mul10_loop (mul10_carry w) r
  end.
Definition mul10 (r : uint160) : uint160 := mul10_loop 0 r.

(** From the most significant word. *)
Fixpoint cmp_loop (r s : uint160) : Z :=
  match r, s with
  | x :: r, y :: s => if x >? y then 1 else if x <? y then -1 else cmp_loop r s
  | _, _ => 0
  end.
Definition cmp (r s : uint160) : Z := cmp_loop (rev r) (rev s).

Fixpoint sub_loop (c : Z) (r s : uint160) : uint160 :=
  match r, s with
  | x :: r, y :: s =>
      if (x >=? c) && (x - c >=? y) then u32 (x - u32 (y + c)) :: sub_loop 0 r s
      else u32 (u32 (0xFFFFFFFF - y - c) + x) :: sub_loop 1 r s
  | _, _ => []
  end.
Definition sub (r s : uint160) : uint160 := sub_loop 0 r s.

(** The loop of [euclid10]: how many times [s] was subtracted, and the remainder. *)
Fixpoint euclid10_loop (n : nat) (u : Z) (r s : uint160) : Z * uint160 :=
  match n with
  | O => (u, r)
  | S n => if cmp r s >=? 0 then euclid10_loop n (u + 1) (sub r s) s else (u, r)
  end.
Definition euclid10 (r s : uint160) : Z * uint160 := let (u, r) := euclid10_loop 10 0 r s in (u + 48, r).

Definition from32 (n : Z) : uint160 := [n; 0; 0; 0; 0].

Definition cond1 (r s : uint160) : bool := cmp s (mul10 r) =? 1.
Definition cond2 (r s mp : uint160) : Z := if cmp r s >=? 0 then 1 else cmp mp (mul2 (sub s r)).
Definition cond3 (r mm : uint160) : bool := cmp mm (mul2 r) =? 1.
Definition cond4 (r s : uint160) : bool := cmp s (mul2 r) <? 0.

(** [while (cond1(r, s))]: the exponent and the three integers multiplied. *)
Fixpoint scale_up (fuel : nat) (expt : Z) (r s mm mp : uint160) : res (Z * uint160 * uint160 * uint160) :=
  match fuel with
  | O => Err EFuel
  | S fuel =>
      if cond1 r s then scale_up fuel (expt - 1) (mul10 r) s (mul10 mm) (mul10 mp)
      else Ok (expt, r, mm, mp)
  end.

(** [while (cond2(r, s, mp) >= 0)]. *)
Fixpoint scale_down (fuel : nat) (expt : Z) (r s mp : uint160) : res (Z * uint160) :=
  match fuel with
  | O => Err EFuel
  | S fuel =>
      if cond2 r s mp >=? 0 then scale_down fuel (expt + 1) r (mul10 s) mp
      else Ok (expt, s)
  end.

(** Size of the buffer of the caller. *)
Definition DRAGON4_BUF : nat := 32.

(** [while (!low && !high)]: the digits written, and how the loop ended. The digits
    and the final zero have to fit in the buffer. *)
Fixpoint digits_loop (space : nat) (r s mm mp : uint160) : res (list Z * bool * bool * uint160) :=
  match space with
  | O => Err EUndef
  | S space =>
      let r := mul10 r in
      let mm := mul10 mm in
      let mp := mul10 mp in
      let (u, r) := euclid10 r s in
      let low := cond3 r mm in
      let high := cond2 r s mp =? 1 in
      if low || high then Ok ([u], low, high, r)
      else x ← digits_loop space r s mm mp;
           match x with (ds, low, high, r) => Ok (u :: ds, low, high, r) end
  end.

(** [buf[-1]++] *)
Fixpoint bump_last (ds : list Z) : list Z :=
  match ds with
  | [] => []
  | [d] => [u8 (d + 1)]
  | d :: ds => d :: bump_last ds
  end.

(** Turns given to the two loops that look for the exponent; a power of ten has at
    most 49 digits in 160 bits. *)
Definition SCALE_FUEL : nat := 64.

(** The digits, and the exponent of the first one. *)
Definition dragon4 (f e : Z) : res (list Z * Z) :=
  init ← (if e >? 0 then r ← shift f e; mm ← shift 1 e; Ok (r, from32 1, mm)
          else s ← shift 1 (- e); Ok (from32 f, s, from32 1));
  let '(r, s, mm) := init in
  let mp := mm in
  up ← scale_up SCALE_FUEL 0 r s mm mp;
  let '(expt, r, mm, mp) := up in
  down ← scale_down SCALE_FUEL expt r s mp;
  let '(expt, s) := down in
  let expt := expt - 1 in
  gen ← digits_loop (DRAGON4_BUF - 1) r s mm mp;
  let '(ds, low, high, r) := gen in
  let ds := if high && negb low then bump_last ds
            else if (low && high) || (negb low && negb high) then (if cond4 r s then bump_last ds else ds)
            else ds in
  Ok (ds, expt).
End Dragon4.
