(* ===== verification/Dragon4Spec.v ===== *)
(** * Decimal digits of floating-point numbers: correctness

    [zdragon4] is the algorithm on unbounded integers. It is shown to end and to
    give digits within half a unit of the last binary place of the number, and
    [dragon4] to compute the same for the numbers from 1 to [2^23]. Beyond, the
    arithmetic on several words loses carries: see [sub_borrow] and [mul10_lost]. *)

From stdpp Require Import base numbers list.
From S2P Require Import Prelude Dragon4.

Module Dragon4Spec.
Import Dragon4.

(** ** The algorithm on integers *)

(** The gaps to the neighbours of the number are equal, so that one integer [m]
    stands for both. *)
Fixpoint z_up (fuel : nat) (expt r s m : Z) : res (Z * Z * Z) :=
  match fuel with
  | O => Err EFuel
  | S fuel => if s >? 10 * r then z_up fuel (expt - 1) (10 * r) s (10 * m) else Ok (expt, r, m)
  end.
Fixpoint z_down (fuel : nat) (expt r s m : Z) : res (Z * Z) :=
  match fuel with
  | O => Err EFuel
  | S fuel => if 2 * r + m >=? 2 * s then z_down fuel (expt + 1) r (10 * s) m else Ok (expt, s)
  end.
Fixpoint z_digits (space : nat) (r s m : Z) : res (list Z * bool * bool * Z) :=
  match space with
  | O => Err EUndef
  | S space =>
      let u := 10 * r / s in
      let r := 10 * r mod s in
      let m := 10 * m in
      let low := m >? 2 * r in
      let high := 2 * r + m >? 2 * s in
      if low || high then Ok ([u + 48], low, high, r)
      else x ← z_digits space r s m;
           match x with (ds, low, high, r) => Ok (u + 48 :: ds, low, high, r) end
  end.
Definition z_round (ds : list Z) (low high : bool) (r s : Z) : list Z :=
  if high && negb low then bump_last ds
  else if (low && high) || (negb low && negb high) then (if s <? 2 * r then bump_last ds else ds)
  else ds.
Definition zdragon4 (f e : Z) : res (list Z * Z) :=
  let '(r, s, m) := if e >? 0 then (f * 2 ^ e, 1, 2 ^ e) else (f, 2 ^ (- e), 1) in
  up ← z_up SCALE_FUEL 0 r s m;
  let '(expt, r, m) := up in
  down ← z_down SCALE_FUEL expt r s m;
  let '(expt, s) := down in
  gen ← z_digits (DRAGON4_BUF - 1) r s m;
  let '(ds, low, high, r) := gen in
  Ok (z_round ds low high r s, expt - 1).

(** ** The exponent *)

Lemma z_up_ok fuel : forall expt r s m, 0 < r -> s <= 10 ^ Z.of_nat fuel * r ->
  exists a, z_up (S fuel) expt r s m = Ok (expt - Z.of_nat a, 10 ^ Z.of_nat a * r, 10 ^ Z.of_nat a * m) /\
    s <= 10 * (10 ^ Z.of_nat a * r) /\ (a = O \/ 10 ^ Z.of_nat a * r < s).
Proof.
  induction fuel as [|fuel IH]; intros expt r s m Hr Hs; cbn [z_up].
  - change (10 ^ Z.of_nat 0) with 1 in Hs.  destruct (Z.gtb_spec s (10 * r)); [lia|]. exists O. rewrite Z.sub_0_r, !Z.mul_1_l. split_and!; [done|lia|by left].
  - destruct (Z.gtb_spec s (10 * r)) as [Hc|Hc].
    + destruct (IH (expt - 1) (10 * r) s (10 * m)) as (a & E & Ha & Ha'); [lia| |].
      { rewrite Nat2Z.inj_succ, Z.pow_succ_r in Hs by lia. lia. }
      cbn [z_up] in E. exists (S a). rewrite Nat2Z.inj_succ, Z.pow_succ_r by lia. rewrite E.
      replace (expt - Z.succ (Z.of_nat a)) with (expt - 1 - Z.of_nat a) by lia.
      replace (10 ^ Z.of_nat a * (10 * r)) with (10 * 10 ^ Z.of_nat a * r) in * by lia.
      replace (10 ^ Z.of_nat a * (10 * m)) with (10 * 10 ^ Z.of_nat a * m) by lia. split_and!; [done|done|]. right.
      destruct Ha' as [->|]; [change (10 ^ Z.of_nat 0) with 1; lia|done].
    + exists O. rewrite Z.sub_0_r, !Z.mul_1_l. split_and!; [done|lia|by left].
Qed.

Lemma z_down_ok fuel : forall expt r s m, 0 < s -> 2 * r + m < 2 * (10 ^ Z.of_nat fuel * s) ->
  exists b, z_down (S fuel) expt r s m = Ok (expt + Z.of_nat b, 10 ^ Z.of_nat b * s) /\
    2 * r + m < 2 * (10 ^ Z.of_nat b * s) /\ (b = O \/ 2 * (10 ^ Z.of_nat b * s) <= 10 * (2 * r + m)).
Proof.
  induction fuel as [|fuel IH]; intros expt r s m Hs H; cbn [z_down].
  - change (10 ^ Z.of_nat 0) with 1 in H. destruct (Z.geb_spec (2 * r + m) (2 * s)); [lia|].
    exists O. rewrite Z.add_0_r, !Z.mul_1_l. split_and!; [done|lia|by left].
  - destruct (Z.geb_spec (2 * r + m) (2 * s)) as [Hc|Hc].
    + destruct (IH (expt + 1) r (10 * s) m) as (b & E & Hb & Hb'); [lia| |].
      { rewrite Nat2Z.inj_succ, Z.pow_succ_r in H by lia. lia. }
      cbn [z_down] in E. exists (S b). rewrite Nat2Z.inj_succ, Z.pow_succ_r by lia. rewrite E.
      replace (expt + Z.succ (Z.of_nat b)) with (expt + 1 + Z.of_nat b) by lia.
      replace (10 ^ Z.of_nat b * (10 * s)) with (10 * 10 ^ Z.of_nat b * s) in * by lia.
      split_and!; [done|done|]. right. destruct Hb' as [->|]; [|done]. change (10 ^ Z.of_nat 0) with 1 in *. lia.
    + exists O. rewrite Z.add_0_r, !Z.mul_1_l. split_and!; [done|lia|by left].
Qed.

(** ** The digits *)

Definition digit_ok (d : Z) : Prop := 48 <= d <= 57.

(** The number a string of digits denotes. *)
Definition digits_value (ds : list Z) : Z := foldl (λ v d, 10 * v + (d - 48)) 0 ds.

Lemma digits_value_foldl ds v :
  foldl (λ v d, 10 * v + (d - 48)) v ds = 10 ^ Z.of_nat (length ds) * v + digits_value ds.
Proof.
  unfold digits_value. revert v. induction ds as [|d ds IH]; intros v; [change (10 ^ Z.of_nat (length [])) with 1; cbn; lia|].
  cbn [foldl length]. rewrite IH, (IH (10 * 0 + _)). rewrite Nat2Z.inj_succ, Z.pow_succ_r by lia. lia.
Qed.
Lemma digits_value_cons d ds : digits_value (d :: ds) = 10 ^ Z.of_nat (length ds) * (d - 48) + digits_value ds.
Proof. unfold digits_value at 1. cbn [foldl]. rewrite digits_value_foldl. lia. Qed.
Lemma digits_value_snoc ds d : digits_value (ds ++ [d]) = 10 * digits_value ds + (d - 48).
Proof. unfold digits_value. by rewrite foldl_app. Qed.

Lemma bump_last_snoc ds d : bump_last (ds ++ [d]) = ds ++ [u8 (d + 1)].
Proof.
  induction ds as [|x ds IH]; [done|]. cbn [app bump_last]. rewrite IH.
  destruct (ds ++ [d]) eqn:E; [|done]. by apply app_nil in E as [_ ?].
Qed.

(** The digits divide the number; the loop ends with the remainder below half of
    the gap on one side, and a digit 9 is never followed by a remainder to be rounded
    up. *)
Lemma z_digits_ok space : forall r s m,
  0 <= r < s -> 0 < m -> 2 * r + m <= 2 * s -> 2 * s < 10 ^ Z.of_nat space * m ->
  exists ds d low high r',
    z_digits space r s m = Ok (ds ++ [d], low, high, r') /\ (length ds < space)%nat /\
    let n := Z.of_nat (length (ds ++ [d])) in
    10 ^ n * r = digits_value (ds ++ [d]) * s + r' /\ 0 <= r' < s /\ Forall digit_ok (ds ++ [d]) /\
    low = (10 ^ n * m >? 2 * r') /\ high = (2 * r' + 10 ^ n * m >? 2 * s) /\
    (low || high = true) /\ (high = true -> d <> 57).
Proof.
  induction space as [|space IH]; intros r s m Hr Hm Hh Hs.
  { change (10 ^ Z.of_nat 0) with 1 in Hs. lia. }
  rewrite Nat2Z.inj_succ, Z.pow_succ_r in Hs by lia. cbn [z_digits].
  pose proof (Z.div_mod (10 * r) s ltac:(lia)) as Hdm. pose proof (Z.mod_pos_bound (10 * r) s ltac:(lia)) as Hmod.
  set (u := 10 * r / s) in *. set (r1 := 10 * r mod s) in *.
  assert (0 <= u <= 9) as Hu by nia.
  destruct (_ || _) eqn:Elh.
  - exists [], (u + 48), (10 * m >? 2 * r1), (2 * r1 + 10 * m >? 2 * s), r1. cbn [app length].
    change (10 ^ Z.of_nat 1) with 10. change (digits_value [u + 48]) with (10 * 0 + (u + 48 - 48)).
    split_and!; try done; try nia. by repeat constructor; unfold digit_ok; lia.
  - apply orb_false_iff in Elh as [El Eh]. rewrite Z.gtb_ltb in El, Eh. apply Z.ltb_ge in El, Eh.
    destruct (IH r1 s (10 * m)) as (ds & d & low & high & r' & E & Hlen & Heq & Hr' & Hds & Hlow & Hhigh & Hex & H9);
      [lia|lia|lia|lia|].
    rewrite E. change (mbind ?f (Ok ?x)) with (f x). cbn beta iota.
    exists (u + 48 :: ds), d, low, high, r'. cbn [app length]. set (n := length (ds ++ [d])) in *.
    rewrite digits_value_cons. fold n. rewrite !Nat2Z.inj_succ, !Z.pow_succ_r by lia.
    split_and!; try done; try lia.
    + constructor; [unfold digit_ok; lia|done].
    + rewrite Hlow. f_equal. lia.
    + rewrite Hhigh. f_equal. lia.
Qed.

Lemma z_digits_more space extra r s m x :
  z_digits space r s m = Ok x -> z_digits (space + extra) r s m = Ok x.
Proof.
  revert r m x. induction space as [|space IH]; intros r m x; [done|]. cbn [z_digits Nat.add].
  destruct (_ || _); [done|]. destruct (z_digits space _ _ _) as [y|] eqn:E; [|done].
  by rewrite (IH _ _ _ E).
Qed.

(** Rounding the last digit to the closer side. *)
Lemma z_round_ok ds d low high r s m n r0 :
  0 <= r < s -> Forall digit_ok (ds ++ [d]) -> r0 = digits_value (ds ++ [d]) * s + r ->
  low = (m >? 2 * r) -> high = (2 * r + m >? 2 * s) -> low || high = true -> (high = true -> d <> 57) ->
  n = length (ds ++ [d]) ->
  let ds' := z_round (ds ++ [d]) low high r s in
  Forall digit_ok ds' /\ length ds' = n /\ 2 * Z.abs (digits_value ds' * s - r0) < m.
Proof.
  intros Hr Hds -> Hlow Hhigh Hex H9 ->. cbn zeta. unfold z_round.
  assert (high = true -> Forall digit_ok (bump_last (ds ++ [d])) /\ length (bump_last (ds ++ [d])) = length (ds ++ [d]) /\
    digits_value (bump_last (ds ++ [d])) = digits_value (ds ++ [d]) + 1) as Hbump.
  { intros Hh. apply Forall_app in Hds as [Hds Hd]. apply Forall_inv in Hd. specialize (H9 Hh). unfold digit_ok in Hd.
    rewrite bump_last_snoc, !digits_value_snoc, !length_app. rewrite u8_id by lia. split_and!; [|done|lia].
    apply Forall_app_2; [done|]. constructor; [unfold digit_ok; lia|constructor]. }
  destruct low, high; try done; cbn [andb orb negb].
  - destruct (Hbump eq_refl) as (B1 & B2 & B3). symmetry in Hlow, Hhigh. apply Z.gtb_lt in Hlow, Hhigh.
    destruct (Z.ltb_spec s (2 * r)); split_and!; try done; rewrite ?B3; lia.
  - symmetry in Hlow. apply Z.gtb_lt in Hlow. split_and!; [done|done|lia].
  - destruct (Hbump eq_refl) as (B1 & B2 & B3). symmetry in Hhigh. apply Z.gtb_lt in Hhigh.
    split_and!; [done|done|rewrite B3; lia].
Qed.

(** [ds] with exponent [expt] of its first digit is closer to [f * 2^e] than half of
    [2^e]. Both sides are multiplied by the powers of 2 and 10 that make them
    integers. *)
Definition near (ds : list Z) (expt f e : Z) : Prop :=
  let k := Z.of_nat (length ds) - 1 - expt in
  let scale := 2 ^ Z.max 0 e * 10 ^ Z.max 0 k in
  2 * Z.abs (digits_value ds * 10 ^ Z.max 0 (- k) * 2 ^ Z.max 0 (- e) - f * scale) < scale.

Lemma near_intro ds expt f e a b :
  0 <= a -> 0 <= b -> a - b = Z.of_nat (length ds) - 1 - expt ->
  2 * Z.abs (digits_value ds * (10 ^ b * 2 ^ Z.max 0 (- e)) - 10 ^ a * (f * 2 ^ Z.max 0 e)) < 10 ^ a * 2 ^ Z.max 0 e ->
  near ds expt f e.
Proof.
  intros Ha Hb Hk H. unfold near. cbn zeta. rewrite <- Hk.
  set (D := digits_value ds) in *. set (S := 2 ^ Z.max 0 (- e)) in *. set (m := 2 ^ Z.max 0 e) in *. clearbody D S m.
  destruct (Z.le_gt_cases b a) as [Hab|Hab].
  - rewrite (Z.max_r 0 (a - b)), (Z.max_l 0 (- (a - b))) by lia.
    assert (10 ^ a = 10 ^ b * 10 ^ (a - b)) as E by (rewrite <- Z.pow_add_r by lia; f_equal; lia).
    assert (0 < 10 ^ b) as Hp by (apply Z.pow_pos_nonneg; lia). rewrite E in H.
    apply (Z.mul_lt_mono_pos_l (10 ^ b)); [done|].
    replace (D * (10 ^ b * S) - 10 ^ b * 10 ^ (a - b) * (f * m)) with (10 ^ b * (D * 10 ^ 0 * S - f * (m * 10 ^ (a - b)))) in H by lia.
    rewrite Z.abs_mul, (Z.abs_eq (10 ^ b)) in H by lia. lia.
  - rewrite (Z.max_l 0 (a - b)), (Z.max_r 0 (- (a - b))) by lia.
    assert (10 ^ b = 10 ^ a * 10 ^ (- (a - b))) as E by (rewrite <- Z.pow_add_r by lia; f_equal; lia).
    assert (0 < 10 ^ a) as Hp by (apply Z.pow_pos_nonneg; lia). rewrite E in H.
    apply (Z.mul_lt_mono_pos_l (10 ^ a)); [done|].
    replace (D * (10 ^ a * 10 ^ (- (a - b)) * S) - 10 ^ a * (f * m)) with (10 ^ a * (D * 10 ^ (- (a - b)) * S - f * (m * 10 ^ 0))) in H by lia.
    rewrite Z.abs_mul, (Z.abs_eq (10 ^ a)) in H by lia. lia.
Qed.

Lemma zdragon4_ok f e :
  2 ^ 23 <= f < 2 ^ 24 -> -149 <= e <= 104 ->
  exists ds expt, zdragon4 f e = Ok (ds, expt) /\ (1 <= length ds <= 9)%nat /\ Forall digit_ok ds /\ near ds expt f e.
Proof.
  intros Hf He. unfold zdragon4. set (S := 2 ^ Z.max 0 (- e)). set (M := 2 ^ Z.max 0 e).
  assert ((if e >? 0 then (f * 2 ^ e, 1, 2 ^ e) else (f, 2 ^ (- e), 1)) = (f * M, S, M)) as ->.
  { subst S M. destruct (Z.gtb_spec e 0).
    - by rewrite (Z.max_l 0 (- e)), (Z.max_r 0 e) by lia.
    - rewrite (Z.max_r 0 (- e)), (Z.max_l 0 e) by lia. change (2 ^ 0) with 1. by rewrite Z.mul_1_r. }
  assert (1 <= S <= 2 ^ 149 /\ 1 <= M <= 2 ^ 104) as [HS HM].
  { subst S M. split; (split; [apply (Z.pow_le_mono_r 2 0); lia|apply Z.pow_le_mono_r; lia]). }
  cbn beta iota zeta. change SCALE_FUEL with (Datatypes.S 63).
  destruct (z_up_ok 63 0 (f * M) S M) as (a & E1 & Ha & Ha'); [nia|nia|]. rewrite E1.
  change (mbind ?k (Ok ?x)) with (k x). cbn beta iota. set (r := 10 ^ Z.of_nat a * (f * M)) in *.
  assert (0 < 10 ^ Z.of_nat a) as Hpa by (apply Z.pow_pos_nonneg; lia).
  set (m := 10 ^ Z.of_nat a * M) in *. assert (r = f * m) as Er by (subst r m; lia).
  assert (0 < m) as Hm by nia.
  destruct (z_down_ok 63 (0 - Z.of_nat a) r S m) as (b & E2 & Hb & Hb'); [lia| |].
  { assert (2 * r + m <= 3 * r) by nia. destruct Ha' as [->|]; [|lia]. subst r m. change (10 ^ Z.of_nat 0) with 1 in *. nia. }
  rewrite E2. change (mbind ?k (Ok ?x)) with (k x). cbn beta iota.
  assert (0 < 10 ^ Z.of_nat b) as Hpb by (apply Z.pow_pos_nonneg; lia). set (s := 10 ^ Z.of_nat b * S) in *.
  assert (2 * s < 10 ^ Z.of_nat 9 * m) as Hs9.
  { change (10 ^ Z.of_nat 9) with 1000000000. destruct Hb' as [->|]; [|nia]. subst s. change (10 ^ Z.of_nat 0) with 1 in *. nia. }
  destruct (z_digits_ok 9 r s m) as (ds & d & low & high & r' & E3 & Hlen & Heq & Hr' & Hds & Hlow & Hhigh & Hex & H9);
    [nia|done|lia|done|].
  change (DRAGON4_BUF - 1)%nat with (9 + 22)%nat. rewrite (z_digits_more 9 22 _ _ _ _ E3). change (mbind ?k (Ok ?x)) with (k x). cbn beta iota zeta.
  destruct (z_round_ok ds d low high r' s _ _ _ Hr' Hds Heq Hlow Hhigh Hex H9 eq_refl) as (Hd' & Hl' & Hn).
  set (n := length (ds ++ [d])) in *. eexists _, _. split_and!; [reflexivity|subst n; rewrite Hl', length_app; cbn; lia|
    subst n; rewrite Hl', length_app; cbn; lia|done|].
  apply (near_intro _ _ _ _ (Z.of_nat n + Z.of_nat a) (Z.of_nat b)); [lia|lia|lia|]. fold S M.
  rewrite Z.pow_add_r by lia. subst s m r. lia.
Qed.

(** ** One word

    As long as the numbers fit in the lowest word, the arithmetic is exact. *)

Lemma shift_one i : 0 < i < 32 -> shift 1 i = Ok (from32 (2 ^ i)).
Proof.
  intros Hi. unfold shift, shl32, shr32, from32. rewrite (proj2 (Z.ltb_lt _ _)), !decide_True by lia.
  rewrite Z.shiftl_mul_pow2, Z.shiftr_div_pow2, Z.mul_1_l by lia.
  assert (0 < 2 ^ i < 2 ^ 32) by (split; [apply Z.pow_pos_nonneg|apply Z.pow_lt_mono_r]; lia).
  assert (2 ^ 0 < 2 ^ (32 - i)) by (apply Z.pow_lt_mono_r; lia).
  rewrite (Z.div_small 1) by lia. rewrite u32_id by lia. done.
Qed.

Lemma mul10_one w : 0 <= w -> 10 * w < 2 ^ 32 -> mul10 (from32 w) = from32 (10 * w).
Proof.
  intros H0 H. unfold mul10, from32, mul10_carry. cbn [mul10_loop]. unfold mul10_carry.
  destruct (Z.gtb_spec w (0xFFFFFFFF / 10)) as [Hc|_]; [change (0xFFFFFFFF / 10) with 429496729 in Hc; lia|].
  cbn. f_equal. rewrite Z.add_0_r, u32_id by lia. lia.
Qed.

Lemma mul2_one w : 0 <= w -> 2 * w < 2 ^ 32 -> mul2 (from32 w) = from32 (2 * w).
Proof.
  intros H0 H. unfold mul2, from32. cbn [mul2_loop].
  rewrite Z.shiftl_mul_pow2, Z.shiftr_div_pow2 by lia. rewrite (Z.div_small w) by lia.
  rewrite u32_id by lia. rewrite Z.lor_0_r. cbn. f_equal. lia.
Qed.

Lemma cmp_one a b : cmp (from32 a) (from32 b) = if a >? b then 1 else if a <? b then -1 else 0.
Proof. done. Qed.

Lemma sub_one a b : 0 <= b <= a -> a < 2 ^ 32 -> sub (from32 a) (from32 b) = from32 (a - b).
Proof.
  intros Hb Ha. unfold sub, from32. cbn [sub_loop]. rewrite (proj2 (Z.geb_le a 0)), (proj2 (Z.geb_le (a - 0) b)) by lia.
  cbn. f_equal. rewrite Z.add_0_r, (u32_id b), u32_id by lia. done.
Qed.

Lemma euclid_one n : forall u r s, 0 <= r < (Z.of_nat n + 1) * s -> 0 < s -> r < 2 ^ 32 ->
  euclid10_loop n u (from32 r) (from32 s) = (u + r / s, from32 (r mod s)).
Proof.
  induction n as [|n IH]; intros u r s Hr Hs H32; cbn [euclid10_loop].
  - rewrite Z.div_small, Z.mod_small by lia. by rewrite Z.add_0_r.
  - rewrite cmp_one. destruct (Z.gtb_spec r s); [|destruct (Z.ltb_spec r s)]; cbn [Z.geb Z.compare].
    2:{ rewrite Z.div_small, Z.mod_small by lia. by rewrite Z.add_0_r. }
    all: rewrite sub_one, IH by nia.
    all: assert (r = (r - s) + 1 * s) as Er by lia.
    all: rewrite Er at 3 4; rewrite Z.div_add, Z.mod_add by lia; f_equal; lia.
Qed.

Lemma cond2_one r s m : 0 <= r < s -> 2 * s < 2 ^ 32 ->
  cond2 (from32 r) (from32 s) (from32 m) = if m >? 2 * (s - r) then 1 else if m <? 2 * (s - r) then -1 else 0.
Proof.
  intros Hr Hs. unfold cond2. rewrite cmp_one. destruct (Z.gtb_spec r s); [lia|].
  rewrite (proj2 (Z.ltb_lt r s)) by lia. cbn [Z.geb Z.compare]. by rewrite sub_one, mul2_one, cmp_one by lia.
Qed.

(** Results on integers as results on words. *)
Definition lift_digits (x : list Z * bool * bool * Z) : list Z * bool * bool * uint160 :=
  match x with (ds, low, high, r) => (ds, low, high, from32 r) end.

Lemma digits_one space : forall r s m x,
  0 <= r < s -> s < 2 ^ 28 -> 0 < m -> 10 ^ Z.of_nat space * m < 2 ^ 32 -> z_digits space r s m = Ok x ->
  digits_loop space (from32 r) (from32 s) (from32 m) (from32 m) = Ok (lift_digits x).
Proof.
  induction space as [|space IH]; intros r s m x Hr Hs Hm Hfit E; [done|].
  rewrite Nat2Z.inj_succ, Z.pow_succ_r in Hfit by lia.
  assert (1 <= 10 ^ Z.of_nat space) by (apply (Z.pow_le_mono_r 10 0); lia).
  cbn [digits_loop]. rewrite !mul10_one by nia. unfold euclid10. rewrite euclid_one by lia. cbn [z_digits] in E.
  pose proof (Z.mod_pos_bound (10 * r) s ltac:(lia)) as Hmod. set (r1 := 10 * r mod s) in *.
  cbn beta iota zeta. unfold cond3. rewrite cond2_one, mul2_one, cmp_one by lia.
  assert (((if 10 * m >? 2 * r1 then 1 else if 10 * m <? 2 * r1 then -1 else 0) =? 1) = (10 * m >? 2 * r1)) as ->.
  { destruct (Z.gtb_spec (10 * m) (2 * r1)), (Z.ltb_spec (10 * m) (2 * r1)); done. }
  assert (((if 10 * m >? 2 * (s - r1) then 1 else if 10 * m <? 2 * (s - r1) then -1 else 0) =? 1) =
            (2 * r1 + 10 * m >? 2 * s)) as ->.
  { destruct (Z.gtb_spec (10 * m) (2 * (s - r1))), (Z.gtb_spec (2 * r1 + 10 * m) (2 * s)), (Z.ltb_spec (10 * m) (2 * (s - r1))); try done; lia. }
  destruct (_ || _); [by injection E as <-|].
  destruct (z_digits space r1 s (10 * m)) as [y|] eqn:Ey; [|done]. rewrite (IH _ _ _ y) by (done || nia).
  destruct y as [[[ds low] high] r2]. cbn in E |- *. by injection E as <-.
Qed.

Lemma digits_more space extra r s mm mp x :
  digits_loop space r s mm mp = Ok x -> digits_loop (space + extra) r s mm mp = Ok x.
Proof.
  revert r mm mp x. induction space as [|space IH]; intros r mm mp x; [done|]. cbn [digits_loop Nat.add].
  destruct (euclid10 _ _). destruct (_ || _); [done|]. destruct (digits_loop space _ _ _ _) as [y|] eqn:E; [|done].
  by rewrite (IH _ _ _ _ E).
Qed.

Lemma scale_down_one fuel : forall expt r s expt' s',
  0 <= r < 2 ^ 24 -> 0 < s < 2 ^ 28 -> z_down fuel expt r s 1 = Ok (expt', s') ->
  scale_down fuel expt (from32 r) (from32 s) (from32 1) = Ok (expt', from32 s') /\ 0 < s' < 2 ^ 28.
Proof.
  induction fuel as [|fuel IH]; intros expt r s expt' s' Hr Hs E; [done|]. cbn [scale_down z_down] in *.
  assert ((cond2 (from32 r) (from32 s) (from32 1) >=? 0) = (2 * r + 1 >=? 2 * s)) as ->.
  { destruct (Z.le_gt_cases s r).
    - unfold cond2. rewrite cmp_one.
      destruct (Z.gtb_spec r s), (Z.ltb_spec r s), (Z.geb_spec (2 * r + 1) (2 * s)); try lia; done.
    - rewrite cond2_one by lia.
      destruct (Z.gtb_spec 1 (2 * (s - r))), (Z.ltb_spec 1 (2 * (s - r))), (Z.geb_spec (2 * r + 1) (2 * s)); try lia; done. }
  destruct (Z.geb_spec (2 * r + 1) (2 * s)).
  - rewrite mul10_one by lia. by apply IH; [|lia|].
  - by injection E as <- <-.
Qed.

(** A number that is at least 1 needs no scaling up. *)
Lemma scale_up_none fuel expt r s mm mp : cond1 r s = false -> scale_up (S fuel) expt r s mm mp = Ok (expt, r, mm, mp).
Proof. intros H. cbn [scale_up]. by rewrite H. Qed.
Lemma z_up_none fuel expt r s m : s <= 10 * r -> z_up (S fuel) expt r s m = Ok (expt, r, m).
Proof. intros H. cbn [z_up]. by destruct (Z.gtb_spec s (10 * r)); [lia|]. Qed.

Ltac rbind := repeat (progress (change (mbind ?k (Ok ?x)) with (k x)); cbn beta iota zeta).

(** From 1 to [2^23] the words compute what the integers do. *)
Lemma dragon4_exact f e : 2 ^ 23 <= f < 2 ^ 24 -> -23 <= e <= -1 -> dragon4 f e = zdragon4 f e.
Proof.
  intros Hf He. assert (2 <= 2 ^ (- e) <= 2 ^ 23) as Hs.
  { split; [apply (Z.pow_le_mono_r 2 1)|apply Z.pow_le_mono_r]; lia. }
  unfold dragon4, zdragon4. destruct (Z.gtb_spec e 0) as [|_]; [lia|]. rewrite shift_one by lia. set (s := 2 ^ (- e)) in *.
  rbind. change SCALE_FUEL with (S 63).
  rewrite z_up_none by lia. rewrite scale_up_none.
  2:{ unfold cond1. rewrite mul10_one, cmp_one by lia. destruct (Z.gtb_spec s (10 * f)), (Z.ltb_spec s (10 * f)); try lia; done. }
  rbind.
  destruct (z_down_ok 63 0 f s 1) as (b & E2 & Hb & Hb'); [lia|nia|]. rewrite E2.
  destruct (scale_down_one 64 0 f s _ _ ltac:(lia) ltac:(lia) E2) as [-> Hs2].
  rbind. set (s2 := 10 ^ Z.of_nat b * s) in *.
  assert (2 * s2 < 10 ^ Z.of_nat 9 * 1) as Hs9 by (change (10 ^ Z.of_nat 9) with 1000000000; lia).
  destruct (z_digits_ok 9 f s2 1) as (ds & d & low & high & r' & E3 & _ & _ & Hr' & _); [lia|lia|lia|done|].
  assert (10 ^ Z.of_nat 9 * 1 < 2 ^ 32) as H9 by (change (10 ^ Z.of_nat 9) with 1000000000; lia).
  pose proof (digits_one 9 f s2 1 _ ltac:(lia) ltac:(lia) ltac:(lia) H9 E3) as E3'. cbn [lift_digits] in E3'.
  change (DRAGON4_BUF - 1)%nat with (9 + 22)%nat.
  rewrite (z_digits_more 9 22 _ _ _ _ E3), (digits_more 9 22 _ _ _ _ _ E3').
  rbind. unfold z_round, cond4. rewrite mul2_one, cmp_one by lia.
  assert (((if s2 >? 2 * r' then 1 else if s2 <? 2 * r' then -1 else 0) <? 0) = (s2 <? 2 * r')) as ->; [|done].
  destruct (Z.gtb_spec s2 (2 * r')), (Z.ltb_spec s2 (2 * r')); try lia; done.
Qed.

(** C16: the decimal digits of a float from 1 to [2^23] are right: [dragon4] ends, writes at
    most 9 digits, each of them a digit, and the decimal number they denote with the
    exponent it returns differs from the float by less than half a unit of its last
    binary place. It computes exactly what the algorithm on unbounded integers
    does, which has this property for all normal floats. *)
Theorem dragon4_correct f e :
  2 ^ 23 <= f < 2 ^ 24 ->
  (-149 <= e <= 104 -> exists ds expt, zdragon4 f e = Ok (ds, expt) /\
     (1 <= length ds <= 9)%nat /\ Forall digit_ok ds /\ near ds expt f e) /\
  (-23 <= e <= -1 -> exists ds expt, dragon4 f e = Ok (ds, expt) /\ zdragon4 f e = Ok (ds, expt) /\
     (1 <= length ds <= 9)%nat /\ Forall digit_ok ds /\ near ds expt f e).
Proof.
  intros Hf. split; [by apply zdragon4_ok|]. intros He.
  destruct (zdragon4_ok f e) as (ds & expt & E & H); [done|lia|]. exists ds, expt. by rewrite dragon4_exact.
Qed.

(** ** Where the words go wrong *)

(** A borrow makes [sub] subtract one more from the word that borrows. *)
Lemma sub_borrow : sub [0; 1; 0; 0; 0] [1; 0; 0; 0; 0] = [0xFFFFFFFE; 0; 0; 0; 0].
Proof. vm_compute. reflexivity. Qed.

(** Ten times [0x33333333] is [2^33 - 2]: the carry of 2 from the word below makes it
    [2^33], but [mul10] carries only 1. *)
Lemma mul10_lost : mul10 [0x40000000; 0x33333333; 0; 0; 0] = [0x80000000; 0; 1; 0; 0].
Proof. vm_compute. reflexivity. Qed.

(** 752768832 is printed as 7.527688E8, half-way to its neighbour, where the
    algorithm on integers gives one digit more. *)
Lemma dragon4_inexact :
  dragon4 11762013 6 = Ok ([55; 53; 50; 55; 54; 56; 56], 8) /\ ~ near [55; 53; 50; 55; 54; 56; 56] 8 11762013 6 /\
  zdragon4 11762013 6 = Ok ([55; 53; 50; 55; 54; 56; 56; 51], 8).
Proof. split_and!; [vm_compute; reflexivity|vm_compute; congruence|vm_compute; reflexivity]. Qed.

(** Shifting by the width of a word: the floats from [2^23] to [2^24]. *)
Lemma dragon4_shift f : dragon4 f 0 = Err EUndef.
Proof. reflexivity. Qed.

Lemma dragon4_correct_witness :
  exists ds expt, dragon4 13176795 (-22) = Ok (ds, expt) /\ near ds expt 13176795 (-22).
Proof.
  destruct (proj2 (dragon4_correct 13176795 (-22) ltac:(lia)) ltac:(lia)) as (ds & expt & E & _ & _ & _ & H).
  exists ds, expt. split; [exact E|exact H].
Defined.
End Dragon4Spec.
