(* ===== verification/Printf.v ===== *)
(** * Formatted output ([lib/printf/printf.c], [prints.c], [printf_float.c])

    A character is its code; a C string is the list of its characters, without the
    final zero. All the functions of the family give their characters to a writer,
    which prints them, stores them in a buffer or passes them to a stream. *)

From stdpp Require Import base numbers list.
From Stdlib Require Strings.String Strings.Ascii.
From S2P Require Import Prelude Dragon4.

Module Printf.
Import Dragon4.
Import Strings.String.StringSyntax Strings.Ascii.AsciiSyntax.

(** The code of a character, and the characters of a string. *)
Definition ch (c : Ascii.ascii) : Z := Z.of_N (Ascii.N_of_ascii c).
Definition chars (s : String.string) : list Z := ch <$> String.list_ascii_of_string s.
Arguments ch c%_char_scope.
Arguments chars s%_string_scope.

Definition INT_MAX : Z := 2147483647.

(** A sum of type [int]: an overflow has no meaning. *)
Definition int_of (z : Z) : res Z := if decide (- INT_MAX - 1 <= z <= INT_MAX) then Ok z else Err EUndef.

(** The function [out]. *)
Inductive writer := XPUTC_WRAP | IN_STRING | STREAM_PUTC.
#[global] Instance writer_eq_dec : EqDecision writer.
Proof. solve_decision. Defined.

(** [printf_param_t], the buffer that [str] points into, the characters printed and
    those given to the stream. *)
Record printf_param := mk_param {
  out : writer;
  str : Z;
  cpt : Z;
  max : Z;
  buf : list Z;
  console : list Z;
  stream : list Z;
}.

(** The values of the variable arguments. A [double] is given as the bits of the
    [float] it is converted to. *)
Inductive arg := AInt (z : Z) | AStr (s : option (list Z)) | ADouble (bits : Z).

Abbreviation PM := (M printf_param).

Definition set_cpt c p := mk_param (out p) (str p) c (max p) (buf p) (console p) (stream p).

Definition xputc_wrap (c : Z) : PM unit :=
  if negb (c =? 0) then
    mmod (λ p, mk_param (out p) (str p) (cpt p) (max p) (buf p) (console p ++ [c]) (stream p)) ;;
    p ← mget;
    n ← mlift (int_of (cpt p + 1));
    mmod (set_cpt n)
  else mret tt.

Definition in_string (c : Z) : PM unit :=
  p ← mget;
  last ← mlift (int_of (max p - 1));
  (if cpt p <? last then
     b ← mlift (arr_set (buf p) (str p) c);
     mmod (λ p, mk_param (out p) (str p + 1) (cpt p) (max p) b (console p) (stream p))
   else if cpt p =? last then
     b ← mlift (arr_set (buf p) (str p) 0);
     mmod (λ p, mk_param (out p) (str p) (cpt p) (max p) b (console p) (stream p))
   else mret tt) ;;
  if negb (c =? 0) then
    p ← mget;
    n ← mlift (int_of (cpt p + 1));
    mmod (set_cpt n)
  else mret tt.

(** [p->out(c, p)]. *)
Definition put (c : Z) : PM unit :=
  p ← mget;
  match out p with
  | XPUTC_WRAP => xputc_wrap c
  | IN_STRING => in_string c
  | STREAM_PUTC => mmod (λ p, mk_param (out p) (str p) (cpt p) (max p) (buf p) (console p) (stream p ++ [c]))
  end.

Definition puts (cs : list Z) : PM unit := mfor cs put.

(** ** Strings and integers *)

Definition prints (string : list Z) (width : Z) (pad_zero : bool) : PM unit :=
  let width := foldl (λ w _, if w >? 0 then w - 1 else w) width string in
  puts (replicate (Z.to_nat width) (if pad_zero then ch "0" else ch " ")) ;;
  puts string.

Definition digits : list Z := chars "0123456789ABCDEF".

(** [while (i)]: digits are put before the string [s] that ends [print_buf]; [room] is
    the number of bytes left before it. *)
Fixpoint printi_loop (room : nat) (i b : Z) (s : list Z) : res (list Z * nat) :=
  if i =? 0 then Ok (s, room)
  else
    match room with
    | O => Err EUndef
    | S room => d ← arr_get digits (i mod b); printi_loop room (i / b) b (d :: s)
    end.

Definition PRINT_BUF : nat := 12.

Definition printi (i b : Z) (sg : bool) (width : Z) (pad_zero : bool) : PM unit :=
  if i =? 0 then prints (chars "0") width pad_zero
  else
    let neg := sg && (i32 i <? 0) in
    let i := if neg then u32 (- i) else i in
    x ← mlift (printi_loop (PRINT_BUF - 1) i b []);
    let '(s, room) := x in
    if neg then
      if ctrue width && pad_zero then put (ch "-") ;; prints s (u16 (width - 1)) pad_zero
      else
        match room with
        | O => mfail EUndef
        | S _ => prints (ch "-" :: s) width pad_zero
        end
    else prints s width pad_zero.

(** ** Floats *)

(** [for (k = 10; k <= expt; k *= 10)]. *)
Fixpoint expt_scale (fuel : nat) (k expt : Z) : res Z :=
  match fuel with
  | O => Err EFuel
  | S fuel => if k <=? expt then expt_scale fuel (u16 (k * 10)) expt else Ok k
  end.

(** [while (k > 1)]. *)
Fixpoint put_expt (fuel : nat) (k expt : Z) : PM unit :=
  match fuel with
  | O => mfail EFuel
  | S fuel =>
      if k >? 1 then put (u8 (ch "0" + expt / (k / 10))) ;; put_expt fuel (k / 10) (expt mod 10)
      else mret tt
  end.

(** Turns of the two loops: [expt] is below [2^15], and [k] at most 34464. *)
Definition EXPT_FUEL : nat := 6.

Definition free_format_exponential (f e : Z) : PM unit :=
  x ← mlift (dragon4 f e);
  let '(ds, expt) := x in
  match ds with
  | [] => mfail EUndef
  | d :: ds =>
      put d ;;
      (if decide (ds = []) then mret tt else put (ch ".") ;; puts ds) ;;
      if expt =? 0 then mret tt
      else
        put (ch "E") ;;
        (if expt <? 0 then put (ch "-") else mret tt) ;;
        let expt := if expt <? 0 then - expt else expt in
        k ← mlift (expt_scale EXPT_FUEL 10 expt);
        put_expt EXPT_FUEL k expt
  end.

Definition printfloat (bits : Z) : PM unit :=
  let s := Z.shiftr bits 31 in
  let e := Z.land (Z.shiftr bits 23) 0xFF in
  let m := Z.land bits 0x007FFFFF in
  if e =? 0 then put (ch "0")
  else if e =? 0xFF then
    if m =? 0 then prints (if ctrue s then chars "-inf" else chars "inf") 0 false
    else prints (chars "NaN") 0 false
  else
    (if ctrue s then put (ch "-") else mret tt) ;;
    free_format_exponential (Z.lor m (Z.shiftl 1 23)) (e - 150).

(** ** Formats *)

(** The loops over the zeros and the digits of a width. *)
Fixpoint skip_zeros (format : list Z) (pad_zero : bool) : list Z * bool :=
  match format with
  | c :: rest => if c =? ch "0" then skip_zeros rest true else (format, pad_zero)
  | [] => (format, pad_zero)
  end.
Fixpoint scan_width (format : list Z) (width : Z) : list Z * Z :=
  match format with
  | c :: rest => if (c >=? ch "0") && (c <=? ch "9") then scan_width rest (u16 (10 * width + c - ch "0")) else (format, width)
  | [] => (format, width)
  end.

(** [va_arg]: an argument of another type, or none, has no meaning. *)
Definition va_int (args : list arg) : res (Z * list arg) :=
  match args with AInt z :: args => Ok (z, args) | _ => Err EUndef end.
Definition va_str (args : list arg) : res (option (list Z) * list arg) :=
  match args with AStr s :: args => Ok (s, args) | _ => Err EUndef end.
Definition va_double (args : list arg) : res (Z * list arg) :=
  match args with ADouble b :: args => Ok (b, args) | _ => Err EUndef end.

(** One conversion [%]...[c] other than a plain character, and the arguments left. *)
Definition convert (c : Z) (width : Z) (pad_zero : bool) (args : list arg) : option (PM (list arg)) :=
  if c =? ch "s" then
    Some (x ← mlift (va_str args); prints (default (chars "(null)") x.1) width pad_zero ;; mret x.2)
  else if c =? ch "d" then
    Some (x ← mlift (va_int args); printi (u32 x.1) 10 true width pad_zero ;; mret x.2)
  else if (c =? ch "x") || (c =? ch "X") || (c =? ch "p") || (c =? ch "P") then
    Some (x ← mlift (va_int args); printi (u32 x.1) 16 false width pad_zero ;; mret x.2)
  else if c =? ch "u" then
    Some (x ← mlift (va_int args); printi (u32 x.1) 10 false width pad_zero ;; mret x.2)
  else if c =? ch "f" then
    Some (x ← mlift (va_double args); printfloat x.1 ;; mret x.2)
  else if c =? ch "c" then
    Some (x ← mlift (va_int args);
          prints (if u8 x.1 =? 0 then [] else [u8 x.1]) width pad_zero ;; mret x.2)
  else None.

(** The loop over the format. After an unfinished conversion ([%5] at the end) the
    code prints the final zero and goes on past the end of the format. *)
Fixpoint print_loop (fuel : nat) (format : list Z) (args : list arg) : PM unit :=
  match fuel with
  | O => mfail EFuel
  | S fuel =>
      match format with
      | [] => mret tt
      | c :: rest =>
          if c =? ch "%" then
            match rest with
            | [] => mret tt
            | _ =>
                let '(format, pad_zero) := skip_zeros rest false in
                let '(format, width) := scan_width format 0 in
                match format with
                | [] => mfail EUndef
                | c :: rest =>
                    match convert c width pad_zero args with
                    | Some m => args ← m; print_loop fuel rest args
                    | None => put c ;; print_loop fuel rest args
                    end
                end
            end
          else put c ;; print_loop fuel rest args
      end
  end.

(** Each turn consumes a character of the format. *)
Definition print (format : list Z) (args : list arg) : PM unit :=
  print_loop (S (length format)) format args ;; put 0.

Definition print_to (w : writer) (max : Z) (buf : list Z) (format : list Z) (args : list arg) : res (Z * printf_param) :=
  match print format args (mk_param w 0 0 max buf [] []) with
  | Ok (_, p) => Ok (cpt p, p)
  | Err e => Err e
  end.

(** Number of characters and what was printed. *)
Definition printf (format : list Z) (args : list arg) : res (Z * list Z) :=
  x ← print_to XPUTC_WRAP (2 ^ 30 - 1) [] format args; Ok (x.1, console x.2).
Definition sprintf (b : list Z) (format : list Z) (args : list arg) : res (Z * list Z) :=
  x ← print_to IN_STRING (2 ^ 30 - 1) b format args; Ok (x.1, buf x.2).
Definition snprintf (b : list Z) (count : Z) (format : list Z) (args : list arg) : res (Z * list Z) :=
  x ← print_to IN_STRING (i32 count) b format args; Ok (x.1, buf x.2).
Definition fprintf (format : list Z) (args : list arg) : res (Z * list Z) :=
  x ← print_to STREAM_PUTC (2 ^ 30 - 1) [] format args; Ok (x.1, stream x.2).
End Printf.
