(* ===== verification/Scanf.v ===== *)
(** * Formatted input ([lib/scanf/scanf.c])

    Characters and strings are those of [Printf]. Each conversion writes to the next
    pointer argument, even when it fails: the values written are given in order. *)

From stdpp Require Import base numbers list.
From Stdlib Require Strings.String Strings.Ascii Floats.SpecFloat.
From S2P Require Import Prelude Printf.

Module Scanf.
Import Printf.
Import Strings.String.StringSyntax Strings.Ascii.AsciiSyntax.
Import Floats.SpecFloat.

(** The values written: [int], string, [char] and [float]. *)
Inductive sval := VInt (z : Z) | VStr (s : list Z) | VChar (c : Z) | VFloat (x : spec_float).

Definition isspace (c : Z) : bool :=
  (c =? ch " ") || (c =? 9) || (c =? 10) || (c =? 13) || (c =? 12) || (c =? 11).

Fixpoint skip_spaces (str : list Z) : list Z :=
  match str with
  | c :: rest => if isspace c then skip_spaces rest else str
  | [] => []
  end.

(** The loops give the value, the rest of the input and whether something was read. *)
Fixpoint scans_loop (str : list Z) : list Z * list Z :=
  match str with
  | [] => ([], [])
  | c :: rest => if isspace c then ([], str) else let (s, str) := scans_loop rest in (c :: s, str)
  end.
Definition scans (str : list Z) : list Z * list Z * bool :=
  let (s, rest) := scans_loop (skip_spaces str) in (s, rest, bool_decide (s <> [])).

(** A decimal number overflows [int] where the standard says so; the shift of the
    hexadecimal case drops the high bits, as GCC documents. *)
Fixpoint scani_loop (str : list Z) (i l : Z) (neg hex sign : bool) : res (Z * list Z * bool) :=
  let stop := i ← (if neg then int_of (- i) else Ok i); Ok (i, str, negb (l =? 0)) in
  match str with
  | [] => stop
  | c :: rest =>
      if (c >=? ch "0") && (c <=? ch "9") then
        i ← (if negb hex then x ← int_of (i * 10); int_of (x + (c - ch "0"))
             else int_of (i32 (Z.shiftl i 4) + (c - ch "0")));
        scani_loop rest i (l + 1) neg hex sign
      else if hex && (c >=? ch "A") && (c <=? ch "F") then
        i ← int_of (i32 (Z.shiftl i 4) + (c - ch "A" + 10));
        scani_loop rest i (l + 1) neg hex sign
      else if (l =? 0) && sign && (c =? ch "-") then scani_loop rest i (l + 1) true hex sign
      else stop
  end.
Definition scani (str : list Z) (hex sign : bool) : res (Z * list Z * bool) :=
  scani_loop (skip_spaces str) 0 0 false hex sign.

(** ** Floats

    [float] and [double] are the binary formats of IEEE 754; an expression with a
    [double] constant is computed in [double] and rounded when it is stored. *)

Definition to_format (prec emax : Z) (x : spec_float) : spec_float :=
  match x with
  | S754_finite s m e => binary_normalize prec emax (cond_Zopp s (Zpos m)) e s
  | _ => x
  end.
Definition to_float : spec_float -> spec_float := to_format 24 128.
Definition int_to (prec emax z : Z) : spec_float := binary_normalize prec emax z 0 false.
Definition double_10 : spec_float := int_to 53 1024 10.

Record scanfl_state := mk_scanfl {
  fl_l : Z; fl_e : Z;
  negm : bool; nege : bool; frac : bool; expo : bool;
  div : spec_float; m : spec_float;
}.

Section scanf.
(** [powf] of the mathematical library. *)
Context (powf : spec_float -> spec_float -> spec_float).

Definition scanfl_digit (d : Z) (x : scanfl_state) : res scanfl_state :=
  if negb (expo x) then
    let m' := to_float (SFadd 53 1024 (SFmul 53 1024 (m x) double_10) (int_to 53 1024 d)) in
    let div' := if frac x then to_float (SFdiv 53 1024 (div x) double_10) else div x in
    Ok (mk_scanfl (fl_l x) (fl_e x) (negm x) (nege x) (frac x) (expo x) div' m')
  else
    y ← int_of (fl_e x * 10);
    e ← int_of (y + d);
    Ok (mk_scanfl (fl_l x) e (negm x) (nege x) (frac x) (expo x) (div x) (m x)).

Definition scanfl_next (x : scanfl_state) : scanfl_state :=
  mk_scanfl (fl_l x + 1) (fl_e x) (negm x) (nege x) (frac x) (expo x) (div x) (m x).

Fixpoint scanfl_loop (str : list Z) (x : scanfl_state) : res (spec_float * list Z * bool) :=
  let stop :=
    let m := if negm x then SFopp (m x) else m x in
    let e := if nege x then - fl_e x else fl_e x in
    Ok (SFmul 24 128 (SFmul 24 128 m (div x)) (powf (int_to 24 128 10) (int_to 24 128 e)), str, negb (fl_l x =? 0)) in
  match str with
  | [] => stop
  | c :: rest =>
      if (c >=? ch "0") && (c <=? ch "9") then
        x ← scanfl_digit (c - ch "0") x; scanfl_loop rest (scanfl_next x)
      else if (c =? ch ".") && negb (frac x) && negb (expo x) then
        scanfl_loop rest (scanfl_next (mk_scanfl (fl_l x) (fl_e x) (negm x) (nege x) true (expo x) (div x) (m x)))
      else if ((c =? ch "E") || (c =? ch "e")) && negb (expo x) then
        scanfl_loop rest (scanfl_next (mk_scanfl (-1) (fl_e x) (negm x) (nege x) (frac x) true (div x) (m x)))
      else if (fl_l x =? 0) && (c =? ch "-") then
        scanfl_loop rest (scanfl_next
          (if negb (expo x) then mk_scanfl (fl_l x) (fl_e x) true (nege x) (frac x) (expo x) (div x) (m x)
           else mk_scanfl (fl_l x) (fl_e x) (negm x) true (frac x) (expo x) (div x) (m x)))
      else stop
  end.
Definition scanfl (str : list Z) : res (spec_float * list Z * bool) :=
  scanfl_loop (skip_spaces str) (mk_scanfl 0 0 false false false false (int_to 24 128 1) (S754_zero false)).

(** The character read, if any. *)
Definition scanc (str : list Z) : option Z * list Z :=
  match skip_spaces str with
  | c :: rest => (Some c, rest)
  | [] => (None, [])
  end.

(** ** Formats *)

(** One conversion: the values written, the rest of the input and the result [v]. *)
Definition scan_convert (k : Z) (str inp : list Z) : res (list sval * list Z * bool) :=
  if k =? ch "n" then Ok ([VInt (Z.of_nat (length str - length inp))], inp, true)
  else if k =? ch "s" then let '(s, inp, v) := scans inp in Ok ([VStr s], inp, v)
  else if k =? ch "d" then x ← scani inp false true; let '(i, inp, v) := x in Ok ([VInt i], inp, v)
  else if (k =? ch "x") || (k =? ch "X") then x ← scani inp true false; let '(i, inp, v) := x in Ok ([VInt i], inp, v)
  else if k =? ch "u" then x ← scani inp false false; let '(i, inp, v) := x in Ok ([VInt i], inp, v)
  else if k =? ch "f" then x ← scanfl inp; let '(f, inp, v) := x in Ok ([VFloat f], inp, v)
  else if k =? ch "c" then
    match scanc inp with (Some c, inp) => Ok ([VChar c], inp, true) | (None, inp) => Ok ([], inp, false) end
  else Ok ([], inp, false).

(** The result [r] and the values written. *)
Fixpoint sscanf_loop (str inp format : list Z) : res (Z * list sval) :=
  match format with
  | [] => Ok (0, [])
  | c :: rest =>
      if c =? ch "%" then
        match rest with
        | [] => Ok (0, [])
        | k :: rest =>
            x ← scan_convert k str inp;
            let '(vs, inp, v) := x in
            if v : bool then y ← sscanf_loop str inp rest; Ok (1 + y.1, vs ++ y.2) else Ok (0, vs)
        end
      else if isspace c then sscanf_loop str (skip_spaces inp) rest
      else
        match inp with
        | d :: inp => if d =? c then sscanf_loop str inp rest else Ok (0, [])
        | [] => Ok (0, [])
        end
  end.
Definition sscanf (str format : list Z) : res (Z * list sval) := sscanf_loop str str format.
End scanf.
End Scanf.
