(* ===== verification/PrintfSpec.v ===== *)
(** * Formatted output and input: correctness *)

From stdpp Require Import base numbers list.
From Stdlib Require Strings.String Strings.Ascii.
From S2P Require Import Prelude Dragon4 Printf Scanf.

Module PrintfSpec.
Import Printf Scanf.
Import Strings.String.StringSyntax Strings.Ascii.AsciiSyntax.

(** ** What a function prints

    [emits m a o]: [m] gives the characters [o] to the writer and returns [a],
    whatever the writer is. *)
Definition emits {A} (m : PM A) (a : A) (o : list Z) : Prop := forall p, m p = (puts o ;; mret a) p.

Lemma puts_app xs ys p : puts (xs ++ ys) p = (puts xs ;; puts ys) p.
Proof.
  unfold puts. revert p. induction xs as [|x xs IH]; intros p; [done|]. cbn [mfor app]. mrun.
  unfold mbind, M_bind in *. destruct (put x p) as [[[] p']|]; [apply IH|done].
Qed.
Lemma emits_ret {A} (a : A) : emits (mret a) a [].
Proof. done. Qed.
Lemma emits_put c : emits (put c) tt [c].
Proof.
  intros p. unfold puts. cbn [mfor]. unfold mbind, M_bind. by destruct (put c p) as [[[] p']|].
Qed.
Lemma emits_puts cs : emits (puts cs) tt cs.
Proof. intros p. unfold mbind, M_bind. by destruct (puts cs p) as [[[] p']|]. Qed.
Lemma emits_bind {A B} (m : PM A) (k : A -> PM B) a b o1 o2 :
  emits m a o1 -> emits (k a) b o2 -> emits (m ≫= k) b (o1 ++ o2).
Proof.
  intros Hm Hk p. unfold mbind at 1, M_bind at 1. rewrite Hm.
  unfold mbind, M_bind. rewrite puts_app. unfold mbind, M_bind.
  destruct (puts o1 p) as [[[] p']|]; [|done]. cbn. rewrite Hk. done.
Qed.
Lemma emits_lift {A B} (r : res A) (k : A -> PM B) a b o : r = Ok a -> emits (k a) b o -> emits (mlift r ≫= k) b o.
Proof. intros -> Hk p. exact (Hk p). Qed.
Lemma emits_eq {A} (m : PM A) a o o' : emits m a o -> o = o' -> emits m a o'.
Proof. by intros H <-. Qed.

(** ** The writers *)

(** The state of a buffer [b] of which [n] bytes may be used, after the characters
    [o]. *)
Definition string_state (b : list Z) (n : Z) (o : list Z) : printf_param :=
  mk_param IN_STRING (Z.min (Z.of_nat (length o)) (n - 1)) (Z.of_nat (length o)) n
    (if Z.of_nat (length o) <? n then o ++ drop (length o) b
     else take (Z.to_nat (n - 1)) o ++ [0] ++ drop (Z.to_nat n) b) [] [].

Lemma int_of_ok z : - INT_MAX - 1 <= z <= INT_MAX -> int_of z = Ok z.
Proof. intros H. unfold int_of. by rewrite decide_True. Qed.

(** Storing one character after [o]. *)
Lemma store_next (b o : list Z) c :
  (length o < length b)%nat -> <[length o := c]> (o ++ drop (length o) b) = (o ++ [c]) ++ drop (S (length o)) b.
Proof.
  intros H. rewrite insert_app_r_alt, Nat.sub_diag, <- app_assoc by lia. f_equal.
  destruct (lookup_lt_is_Some_2 b (length o)) as [x Hx]; [done|]. by rewrite (drop_S _ x).
Qed.

Lemma in_string_char b n o c :
  1 <= n <= Z.of_nat (length b) -> n <= INT_MAX -> c <> 0 -> Z.of_nat (length o) < INT_MAX ->
  in_string c (string_state b n o) = Ok (tt, string_state b n (o ++ [c])).
Proof.
  intros Hn Hmax Hc Ho. unfold in_string. mrun. cbn [max string_state cpt str buf].
  rewrite (proj2 (Z.eqb_neq c 0) Hc). cbn [negb]. rewrite int_of_ok by (unfold INT_MAX in *; lia). mrun.
  unfold string_state. rewrite length_app. cbn [length].
  destruct (Z.ltb_spec (Z.of_nat (length o)) (n - 1)) as [H1|H1]; [|destruct (Z.eqb_spec (Z.of_nat (length o)) (n - 1)) as [H2|H2]].
  - rewrite (proj2 (Z.ltb_lt (Z.of_nat (length o)) n)), (proj2 (Z.ltb_lt (Z.of_nat (length o + 1)) n)), !Z.min_l by lia.
    rewrite arr_set_ok by (rewrite length_app, length_drop; lia). mrun. cbn [cpt].
    rewrite int_of_ok by (unfold INT_MAX in *; lia). unfold mmod, set_cpt. cbn [out str cpt max buf console stream].
    rewrite Nat2Z.id, store_next by lia. do 3 f_equal; [lia|lia|]. by rewrite Nat.add_1_r.
  - rewrite (proj2 (Z.ltb_lt (Z.of_nat (length o)) n)), (proj2 (Z.ltb_ge (Z.of_nat (length o + 1)) n)) by lia.
    rewrite Z.min_l, Z.min_r by lia. rewrite arr_set_ok by (rewrite length_app, length_drop; lia). mrun. cbn [cpt].
    rewrite int_of_ok by (unfold INT_MAX in *; lia). unfold mmod, set_cpt. cbn [out str cpt max buf console stream].
    rewrite Nat2Z.id, store_next by lia. rewrite take_app_length' by lia. rewrite <- app_assoc. do 3 f_equal; [lia|lia|].
    do 3 f_equal. lia.
  - rewrite (proj2 (Z.ltb_ge (Z.of_nat (length o)) n)), (proj2 (Z.ltb_ge (Z.of_nat (length o + 1)) n)), !Z.min_r by lia. mrun. cbn [cpt].
    rewrite int_of_ok by (unfold INT_MAX in *; lia). unfold mmod, set_cpt. cbn [out str cpt max buf console stream].
    rewrite take_app_le by lia. do 3 f_equal. lia.
Qed.

Lemma puts_string b n o cs :
  1 <= n <= Z.of_nat (length b) -> n <= INT_MAX -> Forall (λ c, c <> 0) cs -> Z.of_nat (length (o ++ cs)) <= INT_MAX ->
  puts cs (string_state b n o) = Ok (tt, string_state b n (o ++ cs)).
Proof.
  intros Hn Hmax Hcs. revert o. induction Hcs as [|c cs Hc _ IH]; intros o Ho; [by rewrite app_nil_r|].
  unfold puts. cbn [mfor]. rewrite length_app in Ho. cbn [length] in Ho.
  assert (put c (string_state b n o) = Ok (tt, string_state b n (o ++ [c]))) as E.
  { unfold put. mrun. cbn [out string_state]. apply in_string_char; [done|done|done|lia]. }
  mstep E. replace (o ++ c :: cs) with ((o ++ [c]) ++ cs) by (by rewrite <- app_assoc). apply IH.
  rewrite !length_app. cbn. lia.
Qed.

(** The final zero. *)
Lemma put_end b n o :
  1 <= n <= Z.of_nat (length b) -> n <= INT_MAX ->
  exists p, put 0 (string_state b n o) = Ok (tt, p) /\ cpt p = Z.of_nat (length o) /\
    buf p = take (Z.to_nat (n - 1)) o ++ [0] ++ drop (S (length (take (Z.to_nat (n - 1)) o))) b.
Proof.
  intros Hn Hmax. unfold put. mrun. cbn [out string_state]. unfold in_string. mrun. cbn [max string_state cpt str buf].
  rewrite int_of_ok by (unfold INT_MAX in *; lia). mrun. unfold string_state. change (negb (0 =? 0)) with false. cbn iota.
  destruct (Z.ltb_spec (Z.of_nat (length o)) (n - 1)) as [H1|H1]; [|destruct (Z.eqb_spec (Z.of_nat (length o)) (n - 1)) as [H2|H2]].
  1,2: rewrite (proj2 (Z.ltb_lt (Z.of_nat (length o)) n)), Z.min_l by lia;
    rewrite arr_set_ok by (rewrite length_app, length_drop; lia); mrun; eexists; (split_and!; [reflexivity|done|]);
    cbn [buf]; rewrite Nat2Z.id, store_next, take_ge, <- app_assoc by lia; done.
  rewrite (proj2 (Z.ltb_ge (Z.of_nat (length o)) n)) by lia. mrun. eexists. split_and!; [reflexivity|done|].
  cbn [buf]. rewrite length_take. do 3 f_equal. lia.
Qed.

(** ** Strings and integers *)

(** [s] on [w] columns. *)
Definition pad (w : Z) (zero : bool) (s : list Z) : list Z :=
  replicate (Z.to_nat (w - Z.of_nat (length s))) (if zero then ch "0" else ch " ") ++ s.

Lemma width_left (s : list Z) w :
  0 <= w -> foldl (λ w _, if w >? 0 then w - 1 else w) w s = Z.max 0 (w - Z.of_nat (length s)).
Proof.
  revert w. induction s as [|c s IH]; intros w Hw; cbn [foldl length]; [lia|].
  destruct (Z.gtb_spec w 0); rewrite IH by lia; lia.
Qed.

Lemma emits_prints s w zero : 0 <= w -> emits (prints s w zero) tt (pad w zero s).
Proof.
  intros Hw. unfold prints. rewrite width_left by done. cbn zeta. unfold pad.
  replace (Z.to_nat (Z.max 0 (w - Z.of_nat (length s)))) with (Z.to_nat (w - Z.of_nat (length s))) by lia.
  apply (emits_bind _ _ tt); apply emits_puts.
Qed.

(** The digits of [i] in base [b], the most significant first; none for 0. *)
Definition digit (d : Z) : Z := default 0 (digits !! Z.to_nat d).
Fixpoint radix_loop (n : nat) (b i : Z) : list Z :=
  match n with
  | O => []
  | S n => if i =? 0 then [] else radix_loop n b (i / b) ++ [digit (i mod b)]
  end.
Definition radix (b i : Z) : list Z := radix_loop 32 b i.

Lemma digit_ok d : 0 <= d < 16 -> arr_get digits d = Ok (digit d).
Proof.
  intros Hd. apply arr_get_ok; [lia|]. unfold digit.
  destruct (lookup_lt_is_Some_2 digits (Z.to_nat d)) as [x Hx]; [cbn; lia|]. by rewrite Hx.
Qed.

Lemma printi_loop_ok n b : 2 <= b <= 16 -> forall i room s,
  0 <= i < b ^ Z.of_nat n -> (length (radix_loop n b i) <= room)%nat ->
  printi_loop room i b s = Ok (radix_loop n b i ++ s, room - length (radix_loop n b i))%nat.
Proof.
  intros Hb. induction n as [|n IH]; intros i room s Hi Hr.
  - change (b ^ Z.of_nat 0) with 1 in Hi. assert (i = 0) as -> by lia. cbn. destruct room; cbn; by rewrite ?Nat.sub_0_r.
  - cbn [radix_loop] in *. destruct (Z.eqb_spec i 0) as [->|Hi0].
    { destruct room; cbn; by rewrite ?Nat.sub_0_r. }
    rewrite length_app in *. cbn [length] in *. destruct room as [|room]; [lia|]. cbn [printi_loop].
    rewrite (proj2 (Z.eqb_neq i 0) Hi0). pose proof (Z.mod_pos_bound i b ltac:(lia)). rewrite digit_ok by lia.
    change (mbind ?f (Ok ?x)) with (f x). cbn beta. rewrite IH; [|split; [apply Z.div_pos; lia|]|lia].
    + rewrite <- app_assoc. do 2 f_equal. lia.
    + apply Z.div_lt_upper_bound; [lia|]. rewrite Nat2Z.inj_succ, Z.pow_succ_r in Hi by lia. lia.
Qed.

Lemma radix_length n b k : 2 <= b -> forall i, 0 <= i < b ^ Z.of_nat k -> (length (radix_loop n b i) <= k)%nat.
Proof.
  intros Hb. revert k. induction n as [|n IH]; intros k i Hi; cbn [radix_loop length]; [lia|].
  destruct (Z.eqb_spec i 0); [cbn; lia|]. rewrite length_app. cbn [length]. destruct k as [|k].
  { change (b ^ Z.of_nat 0) with 1 in Hi. lia. }
  rewrite Nat2Z.inj_succ, Z.pow_succ_r in Hi by lia.
  specialize (IH k (i / b)). rewrite Nat.add_1_r. apply le_n_S, IH. split; [apply Z.div_pos; lia|].
  apply Z.div_lt_upper_bound; lia.
Qed.

(** A number as [%d], [%u] and [%x] print it. *)
Definition render_int (i b : Z) (sg : bool) (w : Z) (zero : bool) : list Z :=
  if i =? 0 then pad w zero (chars "0")
  else if sg && (i32 i <? 0) then
    let s := radix b (4294967296 - i) in
    if ctrue w && zero then ch "-" :: pad (w - 1) zero s else pad w zero (ch "-" :: s)
  else pad w zero (radix b i).

Lemma printi_digits b i :
  b = 10 \/ b = 16 -> is_u32 i ->
  exists room, printi_loop (PRINT_BUF - 1) i b [] = Ok (radix b i, S room).
Proof.
  intros Hb Hi. assert (length (radix b i) <= 10)%nat as Hl.
  { apply radix_length; [lia|]. destruct Hb as [-> | ->]; [change (10 ^ Z.of_nat 10) with 10000000000|
      change (16 ^ Z.of_nat 10) with 1099511627776]; lia. }
  exists (10 - length (radix b i))%nat. rewrite (printi_loop_ok 32); [|lia| |unfold PRINT_BUF, radix in *; lia].
  - rewrite app_nil_r. unfold PRINT_BUF, radix in *. do 2 f_equal. lia.
  - destruct Hb as [-> | ->]; (split; [lia|]); apply (Z.lt_trans _ (2 ^ 32)); [lia| |lia|]; by vm_compute.
Qed.

Lemma emits_printi i b sg w zero :
  b = 10 \/ b = 16 -> is_u32 i -> is_u16 w -> emits (printi i b sg w zero) tt (render_int i b sg w zero).
Proof.
  intros Hb Hi Hw. unfold printi, render_int. destruct (Z.eqb_spec i 0) as [->|Hi0]; [apply emits_prints; lia|].
  cbn zeta. destruct (sg && (i32 i <? 0)) eqn:Eneg.
  - assert (u32 (- i) = 4294967296 - i) as -> by mlia.
    destruct (printi_digits b (4294967296 - i)) as [room E]; [done|lia|]. eapply emits_lift; [exact E|]. cbn beta iota.
    destruct (ctrue w && zero) eqn:Ew; [|apply emits_prints; lia].
    apply andb_true_iff in Ew as [Ew%negb_true_iff%Z.eqb_neq _].
    apply (emits_bind _ _ tt tt [_]); [apply emits_put|]. rewrite u16_id by lia. apply emits_prints. lia.
  - destruct (printi_digits b i) as [room E]; [done|lia|]. eapply emits_lift; [exact E|]. apply emits_prints. lia.
Qed.

(** The digits are digits, without a zero in front. *)
Lemma digit_range d : 0 <= d < 10 -> digit d = d + 48.
Proof.
  intros Hd. assert (d = 0 \/ d = 1 \/ d = 2 \/ d = 3 \/ d = 4 \/ d = 5 \/ d = 6 \/ d = 7 \/ d = 8 \/ d = 9) as H by lia.
  by repeat destruct H as [->|H]; [..|subst d].
Qed.

Lemma radix_snoc n b i : 0 < i -> radix_loop (S n) b i = radix_loop n b (i / b) ++ [digit (i mod b)].
Proof. intros Hi. cbn [radix_loop]. by destruct (Z.eqb_spec i 0); [lia|]. Qed.

(** Reading decimal digits, as [scan_width] does. *)
Lemma scan_width_digits n : forall i k rest, 0 <= i < 65536 -> i < 10 ^ Z.of_nat n -> (k <? 48) || (k >? 57) = true ->
  scan_width (radix_loop n 10 i ++ k :: rest) 0 = (k :: rest, i).
Proof.
  assert (forall k rest i, (k <? 48) || (k >? 57) = true -> scan_width (k :: rest) i = (k :: rest, i)) as Hstop.
  { intros k rest i Hk. cbn [scan_width]. change (ch "0") with 48. change (ch "9") with 57.
    destruct (Z.geb_spec k 48), (Z.leb_spec k 57), (Z.ltb_spec k 48), (Z.gtb_spec k 57); try lia; done. }
  assert (forall i l, 0 <= i < 65536 -> i < 10 ^ Z.of_nat n ->
    scan_width (radix_loop n 10 i ++ l) 0 = scan_width l i) as Hr.
  { induction n as [|n IH]; intros i l Hi Hn.
    - change (10 ^ Z.of_nat 0) with 1 in Hn. by assert (i = 0) as -> by lia.
    - destruct (Z.eqb_spec i 0) as [->|Hi0]; [done|]. rewrite radix_snoc, <- app_assoc by lia.
      rewrite Nat2Z.inj_succ, Z.pow_succ_r in Hn by lia. rewrite IH by (try apply Z.div_lt_upper_bound; mlia).
      pose proof (Z.mod_pos_bound i 10 ltac:(lia)) as Hm. rewrite digit_range by lia. cbn [app scan_width].
      change (ch "0") with 48. change (ch "9") with 57.
      rewrite (proj2 (Z.geb_le (i mod 10 + 48) 48)), (proj2 (Z.leb_le (i mod 10 + 48) 57)) by lia. cbn [andb].
      f_equal. rewrite <- (u16_id i) at 3 by lia. f_equal. pose proof (Z.div_mod i 10). lia. }
  intros i k rest Hi Hn Hk. by rewrite Hr, Hstop.
Qed.

Lemma radix_head n : forall i, 0 < i < 10 ^ Z.of_nat n ->
  exists d l, radix_loop n 10 i = (d + 48) :: l /\ 1 <= d <= 9.
Proof.
  induction n as [|n IH]; intros i Hi; [change (10 ^ Z.of_nat 0) with 1 in Hi; lia|].
  rewrite radix_snoc by lia. rewrite Nat2Z.inj_succ, Z.pow_succ_r in Hi by lia.
  destruct (Z.le_gt_cases 10 i).
  - destruct (IH (i / 10)) as (d & l & -> & Hd); [split; [apply Z.div_str_pos|apply Z.div_lt_upper_bound]; lia|].
    by eexists d, _.
  - rewrite (Z.div_small i), Z.mod_small by lia. rewrite digit_range by lia.
    exists i, []. split; [by destruct n|lia].
Qed.

(** ** Formats *)

(** A format is made of characters and of conversions: a flag 0, a width, a
    character that tells the kind. *)
Inductive piece := Lit (c : Z) | Conv (zero : bool) (w k : Z).

Definition encode1 (f : piece) : list Z :=
  match f with
  | Lit c => [c]
  | Conv zero w k => ch "%" :: (if zero then [ch "0"] else []) ++ radix 10 w ++ [k]
  end.
Definition encode (fs : list piece) : list Z := concat (encode1 <$> fs).

Definition piece_ok (f : piece) : Prop :=
  match f with
  | Lit c => c <> 0 /\ c <> ch "%"
  | Conv zero w k => is_u16 w /\ (k <? ch "0") || (k >? ch "9") = true /\ k <> 0
  end.

(** What a conversion prints, and the arguments left. Floats apart. *)
Definition render1 (zero : bool) (w k : Z) (args : list arg) : option (list Z * list arg) :=
  if k =? ch "s" then
    match args with AStr s :: args => Some (pad w zero (default (chars "(null)") s), args) | _ => None end
  else if (k =? ch "d") || (k =? ch "u") || (k =? ch "x") || (k =? ch "X") || (k =? ch "p") || (k =? ch "P") then
    match args with
    | AInt z :: args => Some (render_int (u32 z) (if (k =? ch "d") || (k =? ch "u") then 10 else 16) (k =? ch "d") w zero, args)
    | _ => None
    end
  else if k =? ch "c" then
    match args with AInt z :: args => Some (pad w zero (if u8 z =? 0 then [] else [u8 z]), args) | _ => None end
  else if k =? ch "f" then None
  else Some ([k], args).

Fixpoint render (fs : list piece) (args : list arg) : option (list Z) :=
  match fs with
  | [] => Some []
  | Lit c :: fs => match render fs args with Some o => Some (c :: o) | None => None end
  | Conv zero w k :: fs =>
      match render1 zero w k args with
      | Some (o, args) => match render fs args with Some o' => Some (o ++ o') | None => None end
      | None => None
      end
  end.

Lemma skip_zeros_encode (zero : bool) w k rest :
  is_u16 w -> (k <? ch "0") || (k >? ch "9") = true ->
  skip_zeros ((if zero then [ch "0"] else []) ++ radix 10 w ++ k :: rest) false = (radix 10 w ++ k :: rest, zero).
Proof.
  intros Hw Hk.
  assert (forall z, skip_zeros (radix 10 w ++ k :: rest) z = (radix 10 w ++ k :: rest, z)) as H.
  { intros z. destruct (Z.eqb_spec w 0) as [->|Hw0].
    - change (radix 10 0) with (@nil Z). cbn [app skip_zeros]. destruct (Z.eqb_spec k (ch "0")) as [->|]; [done|done].
    - destruct (radix_head 32 w) as (d & l & E & Hd).
      { split; [lia|]. apply (Z.lt_trans _ 65536); [lia|by vm_compute]. }
      unfold radix. rewrite E. cbn [app skip_zeros]. change (ch "0") with 48.
      by destruct (Z.eqb_spec (d + 48) 48); [lia|]. }
  destruct zero; [|apply H]. cbn [app skip_zeros]. rewrite Z.eqb_refl. apply H.
Qed.

(** One conversion. *)
Lemma convert_ok zero w k args o args' :
  is_u16 w -> render1 zero w k args = Some (o, args') ->
  match convert k w zero args with
  | Some m => emits m args' o
  | None => o = [k] /\ args' = args
  end.
Proof.
  intros Hw. unfold render1, convert.
  destruct (k =? ch "s") eqn:Es.
  { destruct args as [|[] args]; try done. intros [= <- <-]. eapply emits_lift; [done|].
    eapply emits_eq; [eapply emits_bind; [apply emits_prints; lia|apply emits_ret]|by rewrite app_nil_r]. }
  destruct (k =? ch "d") eqn:Ed; cbn [orb].
  { destruct args as [|[] args]; try done. intros [= <- <-]. eapply emits_lift; [done|].
    eapply emits_eq; [eapply emits_bind; [apply emits_printi; [by left|apply u32_range|done]|apply emits_ret]|by rewrite app_nil_r]. }
  destruct (k =? ch "u") eqn:Eu; cbn [orb].
  { apply Z.eqb_eq in Eu as ->. destruct args as [|[] args]; try done. intros [= <- <-]. cbn. eapply emits_lift; [done|].
    eapply emits_eq; [eapply emits_bind; [apply emits_printi; [by left|apply u32_range|done]|apply emits_ret]|by rewrite app_nil_r]. }
  destruct ((k =? ch "x") || (k =? ch "X") || (k =? ch "p") || (k =? ch "P")) eqn:Ex.
  { destruct args as [|[] args]; try done. intros [= <- <-]. eapply emits_lift; [done|].
    eapply emits_eq; [eapply emits_bind; [apply emits_printi; [by right|apply u32_range|done]|apply emits_ret]|by rewrite app_nil_r]. }
  destruct (k =? ch "c") eqn:Ec.
  { apply Z.eqb_eq in Ec as ->. destruct args as [|[] args]; try done. intros [= <- <-]. cbn. eapply emits_lift; [done|].
    eapply emits_eq; [eapply emits_bind; [apply emits_prints; lia|apply emits_ret]|by rewrite app_nil_r]. }
  destruct (k =? ch "f") eqn:Ef; [done|]. by intros [= <- <-].
Qed.

Lemma print_loop_ok fs : forall args o fuel,
  Forall piece_ok fs -> render fs args = Some o -> (length (encode fs) < fuel)%nat ->
  emits (print_loop fuel (encode fs) args) tt o.
Proof.
  induction fs as [|f fs IH]; intros args o fuel Hok Hr Hf; (destruct fuel as [|fuel]; [lia|]).
  - injection Hr as <-. apply emits_ret.
  - apply Forall_cons in Hok as [Hf1 Hok]. unfold encode in *. cbn [fmap list_fmap concat] in *.
    rewrite length_app in Hf. destruct f as [c|zero w k]; cbn [encode1 app length] in *.
    + destruct Hf1 as [_ Hc]. cbn [print_loop render] in *. rewrite (proj2 (Z.eqb_neq _ _) Hc).
      destruct (render fs args) as [o'|] eqn:Er; [|done]. injection Hr as <-.
      apply (emits_bind _ _ tt tt [c]); [apply emits_put|]. apply IH; [done|done|lia].
    + destruct Hf1 as (Hw & Hk & Hk0). cbn [render] in Hr. destruct (render1 zero w k args) as [[o1 args1]|] eqn:E1; [|done].
      destruct (render fs args1) as [o2|] eqn:E2; [|done]. injection Hr as <-. cbn [print_loop].
      change (ch "%" =? ch "%") with true. cbn iota. rewrite <- !app_assoc. cbn [app].
      assert (exists x l, (if zero then [ch "0"] else []) ++ radix 10 w ++ k :: concat (encode1 <$> fs) = x :: l) as (x & l & El).
      { destruct zero; [by eexists _, _|]. cbn [app]. destruct (radix 10 w); by eexists _, _. }
      rewrite El, <- El, skip_zeros_encode by done. cbn beta iota zeta.
      rewrite (scan_width_digits 32); [|done|apply (Z.lt_trans _ 65536); [lia|by vm_compute]|done]. cbn beta iota zeta.
      pose proof (convert_ok zero w k args o1 args1 Hw E1) as Hc. destruct (convert k w zero args) as [m|].
      * apply (emits_bind _ _ args1); [done|]. apply IH; [done|done|]. revert Hf. rewrite !length_app. cbn [length]. lia.
      * destruct Hc as [-> ->]. apply (emits_bind _ _ tt); [apply emits_put|]. apply IH; [done|done|].
        revert Hf. rewrite !length_app. cbn [length]. lia.
Qed.

(** The characters printed are not zero when those of the arguments are not. *)
Definition arg_ok (a : arg) : Prop := match a with AStr (Some s) => Forall (λ c, c <> 0) s | _ => True end.

Lemma pad_nonzero w zero s : Forall (λ c, c <> 0) s -> Forall (λ c, c <> 0) (pad w zero s).
Proof. intros H. apply Forall_app_2; [|done]. apply Forall_replicate. by destruct zero. Qed.

Lemma radix_nonzero n b i : 2 <= b <= 16 -> Forall (λ c, c <> 0) (radix_loop n b i).
Proof.
  intros Hb. revert i. induction n as [|n IH]; intros i; cbn [radix_loop]; [constructor|].
  destruct (i =? 0); [constructor|]. apply Forall_app_2; [apply IH|]. constructor; [|constructor].
  pose proof (Z.mod_pos_bound i b ltac:(lia)). pose proof (digit_ok (i mod b) ltac:(lia)) as Hd.
  apply arr_get_inv in Hd as [_ Hd]. apply list_elem_of_lookup_2 in Hd.
  assert (Forall (λ c, c <> 0) digits) as Hall by (by repeat constructor). by rewrite Forall_forall in Hall; apply Hall.
Qed.

Lemma render_nonzero fs : forall args o,
  Forall piece_ok fs -> Forall arg_ok args -> render fs args = Some o -> Forall (λ c, c <> 0) o.
Proof.
  assert (forall i b sg w zero, b = 10 \/ b = 16 -> Forall (λ c, c <> 0) (render_int i b sg w zero)) as Hint.
  { intros i b sg w zero Hb. assert (2 <= b <= 16) by lia. unfold render_int.
    repeat case_match; try apply pad_nonzero; try (by repeat constructor); try (constructor; [done|]); try apply pad_nonzero;
      by apply radix_nonzero. }
  induction fs as [|[c|zero w k] fs IH]; intros args o Hok Hargs Hr.
  - injection Hr as <-. constructor.
  - apply Forall_cons in Hok as [[Hc _] Hok]. cbn [render] in Hr. destruct (render fs args) eqn:E; [|done].
    injection Hr as <-. constructor; [done|]. by eapply IH.
  - apply Forall_cons in Hok as [(_ & _ & Hk) Hok]. cbn [render] in Hr. destruct (render1 zero w k args) as [[o1 args1]|] eqn:E1; [|done].
    destruct (render fs args1) eqn:E; [|done]. injection Hr as <-.
    assert (Forall (λ c, c <> 0) o1 /\ Forall arg_ok args1) as [H1 H2].
    { unfold render1 in E1. repeat case_match; simplify_eq; apply Forall_cons in Hargs as [Ha Hargs] || idtac;
        (split; [|done]); try (by apply Hint; left); try (by apply Hint; right); try apply pad_nonzero; try (by repeat constructor).
      - by destruct s; [|repeat constructor].
      - constructor; [|constructor]. by apply Z.eqb_neq. }
    apply Forall_app_2; [done|]. by eapply IH.
Qed.

(** ** The functions of the family *)

(** Without room nothing is stored; the other writers. *)
Lemma puts_null b : forall cs n, Forall (λ c, c <> 0) cs -> 0 <= n -> n + Z.of_nat (length cs) <= INT_MAX ->
  puts cs (mk_param IN_STRING 0 n 0 b [] []) = Ok (tt, mk_param IN_STRING 0 (n + Z.of_nat (length cs)) 0 b [] []).
Proof.
  induction cs as [|c cs IH]; intros n Hcs Hn Hm; [by rewrite Z.add_0_r|]. apply Forall_cons in Hcs as [Hc Hcs]. cbn [length] in *.
  assert (put c (mk_param IN_STRING 0 n 0 b [] []) = Ok (tt, mk_param IN_STRING 0 (n + 1) 0 b [] [])) as E.
  { unfold put. mrun. cbn [out]. unfold in_string. mrun. cbn [max cpt str buf].
    rewrite (int_of_ok (0 - 1)) by (unfold INT_MAX in *; lia). mrun. change (0 - 1) with (-1).
    destruct (Z.ltb_spec n (-1)), (Z.eqb_spec n (-1)); try lia. mrun. cbn [cpt].
    rewrite (proj2 (Z.eqb_neq _ _) Hc). cbn [negb]. mrun. cbn [cpt]. by rewrite int_of_ok by (unfold INT_MAX in *; lia). }
  unfold puts. cbn [mfor]. mstep E. fold (puts cs). rewrite IH by (done || lia). do 3 f_equal. lia.
Qed.

Lemma puts_console mx : forall cs o, Forall (λ c, c <> 0) cs -> Z.of_nat (length (o ++ cs)) <= INT_MAX ->
  puts cs (mk_param XPUTC_WRAP 0 (Z.of_nat (length o)) mx [] o []) =
    Ok (tt, mk_param XPUTC_WRAP 0 (Z.of_nat (length (o ++ cs))) mx [] (o ++ cs) []).
Proof.
  induction cs as [|c cs IH]; intros o Hcs Hm; [by rewrite app_nil_r|]. apply Forall_cons in Hcs as [Hc Hcs].
  assert (put c (mk_param XPUTC_WRAP 0 (Z.of_nat (length o)) mx [] o []) =
            Ok (tt, mk_param XPUTC_WRAP 0 (Z.of_nat (length (o ++ [c]))) mx [] (o ++ [c]) [])) as E.
  { unfold put. mrun. cbn [out]. unfold xputc_wrap. rewrite (proj2 (Z.eqb_neq _ _) Hc). cbn [negb]. mrun. cbn [cpt].
    rewrite length_app in Hm. cbn [length] in Hm. rewrite int_of_ok by (unfold INT_MAX in *; lia). mrun. unfold mmod, set_cpt.
    cbn [out str cpt max buf console stream]. rewrite length_app. cbn [length]. do 3 f_equal. lia. }
  unfold puts. cbn [mfor]. mstep E. fold (puts cs). rewrite IH; rewrite <- ?app_assoc; done.
Qed.

(** Printing a format to a writer. *)
Lemma print_ok fs args o p :
  Forall piece_ok fs -> render fs args = Some o -> print (encode fs) args p = (puts o ;; put 0) p.
Proof.
  intros Hok Hr. unfold print. pose proof (print_loop_ok fs args o (S (length (encode fs))) Hok Hr ltac:(lia)) as H.
  unfold mbind at 1, M_bind at 1. rewrite H. unfold mbind, M_bind. by destruct (puts o p) as [[[] p']|].
Qed.

Lemma snprintf_text b count fs args o :
  Forall piece_ok fs -> Forall arg_ok args -> render fs args = Some o -> Z.of_nat (length o) <= INT_MAX ->
  1 <= count <= Z.of_nat (length b) -> count <= INT_MAX ->
  let t := take (Z.to_nat (count - 1)) o in
  snprintf b count (encode fs) args = Ok (Z.of_nat (length o), t ++ [0] ++ drop (S (length t)) b).
Proof.
  intros Hok Hargs Hr Hlen Hc Hmax. pose proof (render_nonzero fs args o Hok Hargs Hr) as Hnz.
  cbn zeta. unfold snprintf, print_to. rewrite i32_id by (unfold INT_MAX in *; lia).
  rewrite (print_ok fs args o) by done. assert (string_state b count [] = mk_param IN_STRING 0 0 count b [] []) as <-.
  { unfold string_state. cbn [length]. rewrite (proj2 (Z.ltb_lt _ _)), Z.min_l by lia. done. }
  rewrite (bind_ok _ _ _ _ _ (puts_string b count [] o Hc Hmax Hnz Hlen)). cbn [app].
  destruct (put_end b count o Hc Hmax) as (p & -> & Ec & Eb). change (mbind ?f (Ok ?x)) with (f x). cbn [fst snd]. by rewrite Ec, Eb.
Qed.

Lemma printf_text fs args o :
  Forall piece_ok fs -> Forall arg_ok args -> render fs args = Some o -> Z.of_nat (length o) <= INT_MAX ->
  printf (encode fs) args = Ok (Z.of_nat (length o), o).
Proof.
  intros Hok Hargs Hr Hlen. pose proof (render_nonzero fs args o Hok Hargs Hr) as Hnz.
  unfold printf, print_to. rewrite (print_ok fs args o) by done.
  rewrite (bind_ok _ _ _ _ _ (puts_console _ o [] Hnz Hlen)). done.
Qed.

(** C14: [snprintf] prints what its format says. For every format of characters and of
    conversions of strings, characters and integers, with any width below 65536 and
    the flag 0, and arguments to match, the buffer receives the text, cut to
    [count - 1] characters, and a final zero; no byte after it is touched, and the
    result is the length of the whole text. With a [count] of 0 nothing is written.
    [printf] prints the same text and returns its length. *)
Theorem snprintf_spec b count fs args o :
  Forall piece_ok fs -> Forall arg_ok args -> render fs args = Some o -> Z.of_nat (length o) <= INT_MAX ->
  (1 <= count <= Z.of_nat (length b) -> count <= INT_MAX ->
     let t := take (Z.to_nat (count - 1)) o in
     snprintf b count (encode fs) args = Ok (Z.of_nat (length o), t ++ [0] ++ drop (S (length t)) b)) /\
  snprintf b 0 (encode fs) args = Ok (Z.of_nat (length o), b) /\
  printf (encode fs) args = Ok (Z.of_nat (length o), o).
Proof.
  intros Hok Hargs Hr Hlen. pose proof (render_nonzero fs args o Hok Hargs Hr) as Hnz. split_and!.
  - intros Hc Hmax. by apply snprintf_text.
  - unfold snprintf, print_to. change (i32 0) with 0. rewrite (print_ok fs args o) by done.
    rewrite (bind_ok _ _ _ _ _ (puts_null b o 0 Hnz ltac:(lia) Hlen)).
    assert (put 0 (mk_param IN_STRING 0 (0 + Z.of_nat (length o)) 0 b [] []) =
      Ok (tt, mk_param IN_STRING 0 (0 + Z.of_nat (length o)) 0 b [] [])) as ->; [|done].
    unfold put. mrun. cbn [out]. unfold in_string. mrun. cbn [max cpt str buf].
    rewrite (int_of_ok (0 - 1)) by (unfold INT_MAX in *; lia). mrun. change (0 - 1) with (-1).
    by destruct (Z.ltb_spec (0 + Z.of_nat (length o)) (-1)), (Z.eqb_spec (0 + Z.of_nat (length o)) (-1)); try lia.
  - by apply printf_text.
Qed.

Lemma snprintf_spec_witness :
  let b := replicate 12 170 in
  let fs := [Lit (ch "a"); Conv true 5 (ch "d"); Conv false 0 (ch "s"); Conv false 4 (ch "x")] in
  let args := [AInt (-42); AStr None; AInt 255] in
  encode fs = chars "a%05d%s%4x" /\
  snprintf b 12 (encode fs) args = Ok (16, chars "a-0042(null" ++ [0]) /\
  snprintf b 0 (encode fs) args = Ok (16, b) /\
  printf (encode fs) args = Ok (16, chars "a-0042(null)  FF").
Proof.
  pose proof (snprintf_spec (replicate 12 170) 12
    [Lit (ch "a"); Conv true 5 (ch "d"); Conv false 0 (ch "s"); Conv false 4 (ch "x")]
    [AInt (-42); AStr None; AInt 255] (chars "a-0042(null)  FF")) as H.
  destruct H as (H1 & H2 & H3); [by repeat constructor; vm_compute|by repeat constructor|by vm_compute|by vm_compute|].
  cbn zeta. split; [by vm_compute|]. split; [|split].
  - specialize (H1 ltac:(split; vm_compute; discriminate) ltac:(vm_compute; discriminate)).
    etransitivity; [exact H1|vm_compute; reflexivity].
  - exact H2.
  - exact H3.
Defined.
End PrintfSpec.
