(* ===== verification/ScanfSpec.v ===== *)
(** * Formatted input: reading back what [snprintf] prints

    A line of numbers, printed with any widths and any separators that are not digits,
    is read back by [sscanf] with the same format without the widths. *)

From stdpp Require Import base numbers list.
From Stdlib Require Strings.String Strings.Ascii Floats.SpecFloat.
From S2P Require Import Prelude Dragon4 Printf Scanf PrintfSpec.

Module ScanfSpec.
Import Printf Scanf PrintfSpec.
Import Strings.String.StringSyntax Strings.Ascii.AsciiSyntax.

(** ** Characters *)

Definition hex_char (c : Z) : bool := ((c >=? ch "0") && (c <=? ch "9")) || ((c >=? ch "A") && (c <=? ch "F")).

Lemma digit_hex d : 10 <= d < 16 -> digit d = d + 55.
Proof.
  intros Hd. assert (d = 10 \/ d = 11 \/ d = 12 \/ d = 13 \/ d = 14 \/ d = 15) as H by lia.
  by repeat destruct H as [->|H]; [..|subst d].
Qed.

(** One digit read. *)
Lemma scani_decimal d str i l neg sg :
  0 <= d < 10 -> 0 <= i -> i * 10 + d <= INT_MAX ->
  scani_loop (digit d :: str) i l neg false sg = scani_loop str (i * 10 + d) (l + 1) neg false sg.
Proof.
  intros Hd Hi Hm. rewrite digit_range by done. cbn [scani_loop]. change (ch "0") with 48. change (ch "9") with 57.
  rewrite (proj2 (Z.geb_le (d + 48) 48)), (proj2 (Z.leb_le (d + 48) 57)) by lia. cbn [andb negb].
  rewrite (int_of_ok (i * 10)) by (unfold INT_MAX in *; lia). change (mbind ?f (Ok ?x)) with (f x). cbn beta.
  replace (i * 10 + (d + 48 - 48)) with (i * 10 + d) by lia.
  rewrite (int_of_ok (i * 10 + d)) by (unfold INT_MAX in *; lia). done.
Qed.

Lemma i32_shift i d : 0 <= i < 2 ^ 32 -> 0 <= d < 16 -> i32 (Z.shiftl (i32 (i / 16)) 4) + d = i32 (16 * (i / 16) + d).
Proof. intros Hi Hd. rewrite Z.shiftl_mul_pow2 by lia. change (2 ^ 4) with 16. mlia. Qed.

Lemma scani_hex d str i l :
  0 <= d < 16 -> 0 <= 16 * i + d < 2 ^ 32 ->
  scani_loop (digit d :: str) (i32 i) l false true false = scani_loop str (i32 (16 * i + d)) (l + 1) false true false.
Proof.
  intros Hd Hi. pose proof (i32_shift (16 * i + d) d Hi Hd) as Hs.
  replace ((16 * i + d) / 16) with i in Hs by (apply Z.div_unique with d; lia).
  pose proof (i32_range (16 * i + d)).
  destruct (Z.lt_ge_cases d 10).
  - rewrite digit_range by lia. cbn [scani_loop]. change (ch "0") with 48. change (ch "9") with 57.
    rewrite (proj2 (Z.geb_le (d + 48) 48)), (proj2 (Z.leb_le (d + 48) 57)) by lia. cbn [andb negb].
    replace (d + 48 - 48) with d by lia. rewrite Hs, int_of_ok by (unfold INT_MAX in *; lia). done.
  - rewrite digit_hex by lia. cbn [scani_loop]. change (ch "0") with 48. change (ch "9") with 57. change (ch "A") with 65. change (ch "F") with 70.
    rewrite (proj2 (Z.geb_le (d + 55) 48)), (proj2 (Z.leb_gt (d + 55) 57)) by lia. cbn [andb negb].
    rewrite (proj2 (Z.geb_le (d + 55) 65)), (proj2 (Z.leb_le (d + 55) 70)) by lia. cbn [andb].
    replace (d + 55 - 65 + 10) with d by lia. rewrite Hs, int_of_ok by (unfold INT_MAX in *; lia). done.
Qed.

(** The digits of a number, and the zeros in front of them. *)
Lemma scani_radix10 n : forall i rest l neg sg, 0 <= i <= INT_MAX -> i < 10 ^ Z.of_nat n ->
  exists l', (i <> 0 -> l < l') /\ l <= l' /\
    scani_loop (radix_loop n 10 i ++ rest) 0 l neg false sg = scani_loop rest i l' neg false sg.
Proof.
  induction n as [|n IH]; intros i rest l neg sg Hi Hn.
  { change (10 ^ Z.of_nat 0) with 1 in Hn. assert (i = 0) as -> by lia. exists l. split_and!; [lia|lia|done]. }
  destruct (Z.eqb_spec i 0) as [->|Hi0]; [exists l; split_and!; [lia|lia|done]|].
  rewrite Nat2Z.inj_succ, Z.pow_succ_r in Hn by lia. rewrite radix_snoc, <- app_assoc by lia.
  destruct (IH (i / 10) ([digit (i mod 10)] ++ rest) l neg sg) as (l' & _ & Hl & ->);
    [unfold INT_MAX in *; mlia|by apply Z.div_lt_upper_bound; lia|].
  exists (l' + 1). split_and!; [lia|lia|]. pose proof (Z.mod_pos_bound i 10 ltac:(lia)). pose proof (Z.div_mod i 10 ltac:(lia)).
  cbn [app]. rewrite scani_decimal by (unfold INT_MAX in *; mlia). f_equal. lia.
Qed.

Lemma scani_radix16 n : forall i rest l, 0 <= i < 2 ^ 32 -> i < 16 ^ Z.of_nat n ->
  exists l', (i <> 0 -> l < l') /\ l <= l' /\
    scani_loop (radix_loop n 16 i ++ rest) 0 l false true false = scani_loop rest (i32 i) l' false true false.
Proof.
  induction n as [|n IH]; intros i rest l Hi Hn.
  { change (16 ^ Z.of_nat 0) with 1 in Hn. assert (i = 0) as -> by lia. exists l. split_and!; [lia|lia|done]. }
  destruct (Z.eqb_spec i 0) as [->|Hi0]; [exists l; split_and!; [lia|lia|done]|].
  rewrite Nat2Z.inj_succ, Z.pow_succ_r in Hn by lia. rewrite radix_snoc, <- app_assoc by lia.
  destruct (IH (i / 16) ([digit (i mod 16)] ++ rest) l) as (l' & _ & Hl & ->);
    [change (2 ^ 32) with 4294967296 in *; mlia|by apply Z.div_lt_upper_bound; lia|].
  exists (l' + 1). split_and!; [lia|lia|]. pose proof (Z.mod_pos_bound i 16 ltac:(lia)). pose proof (Z.div_mod i 16 ltac:(lia)) as Hdm.
  cbn [app]. rewrite scani_hex by lia. by rewrite <- Hdm.
Qed.

Lemma scani_zeros n : forall str l neg hex sg,
  scani_loop (replicate n (ch "0") ++ str) 0 l neg hex sg = scani_loop str 0 (l + Z.of_nat n) neg hex sg.
Proof.
  induction n as [|n IH]; intros str l neg hex sg; [cbn [replicate app]; f_equal; lia|]. cbn [replicate app scani_loop].
  change ((ch "0" >=? ch "0") && (ch "0" <=? ch "9")) with true. cbn iota.
  transitivity (scani_loop (replicate n (ch "0") ++ str) 0 (l + 1) neg hex sg); [by destruct hex|]. rewrite IH. f_equal. lia.
Qed.

(** A number ends before a character that is not a digit, or at the end. *)
Definition stops (rest : list Z) : Prop := match rest with [] => True | c :: _ => hex_char c = false end.

Lemma scani_stop rest i l neg hex sg :
  stops rest -> 0 < l -> 0 <= i -> neg = false \/ i <= INT_MAX ->
  scani_loop rest i l neg hex sg = Ok (if neg then - i else i, rest, true).
Proof.
  intros Hs Hl Hi Hn.
  assert (forall str : list Z, (y ← (if neg then int_of (- i) else Ok i); Ok (y, str, negb false)) =
            Ok (if neg then - i else i, str, true)) as Hstop.
  { intros str. destruct neg; [|done]. destruct Hn as [|Hn]; [done|].
    by rewrite int_of_ok by (unfold INT_MAX in *; lia). }
  destruct rest as [|c rest]; cbn [scani_loop]; rewrite (proj2 (Z.eqb_neq l 0)) by lia; [apply Hstop|]. cbn in Hs. apply orb_false_iff in Hs as [-> Ha].
  rewrite <- andb_assoc, Ha, andb_false_r. cbn [andb]. apply Hstop.
Qed.

(** The same for a negative hexadecimal pattern, which has no sign. *)
Lemma scani_stop_hex rest i l : stops rest -> 0 < l -> scani_loop rest i l false true false = Ok (i, rest, true).
Proof.
  intros Hs Hl. destruct rest as [|c rest]; cbn [scani_loop]; rewrite (proj2 (Z.eqb_neq l 0)) by lia; [done|].
  cbn in Hs. apply orb_false_iff in Hs as [-> Ha]. rewrite <- andb_assoc, Ha, andb_false_r. done.
Qed.

(** ** Padding *)

Lemma isspace_high c : 32 < c -> isspace c = false.
Proof. intros H. unfold isspace. change (ch " ") with 32. repeat (rewrite (proj2 (Z.eqb_neq c _)) by lia). done. Qed.

Definition shows (s : list Z) : Prop := match s with c :: _ => 32 < c | [] => False end.

Lemma skip_spaces_shows s rest : shows s -> skip_spaces (s ++ rest) = s ++ rest.
Proof. destruct s as [|c s]; [done|]. intros Hc. cbn [app skip_spaces]. by rewrite isspace_high. Qed.

Lemma scani_pad w (zero : bool) s rest hex sg :
  shows s ->
  exists n, scani (pad w zero s ++ rest) hex sg = scani_loop (s ++ rest) 0 (Z.of_nat n) false hex sg /\ (zero = false \/ w = 0 -> n = O).
Proof.
  intros Hs. unfold scani, pad. rewrite <- app_assoc. 
  remember (Z.to_nat (w - Z.of_nat (length s))) as n eqn:En. destruct zero.
  - exists n. split; [|intros [?|?]; [done|lia]]. destruct n as [|n]; [cbn [replicate app]; by rewrite skip_spaces_shows by done|].
    change (replicate (S n) (ch "0")) with ([ch "0"] ++ replicate n (ch "0")). rewrite <- (app_assoc [_]).
    rewrite skip_spaces_shows by done. rewrite (app_assoc [_]).
    change ([ch "0"] ++ replicate n (ch "0")) with (replicate (S n) (ch "0")). by rewrite scani_zeros.
  - exists O. split; [|done]. clear En. induction n as [|n IH]; [cbn [replicate app]; by rewrite skip_spaces_shows by done|done].
Qed.

Lemma radix_shows b i : b = 10 \/ b = 16 -> 0 < i < 2 ^ 32 -> shows (radix b i).
Proof.
  intros Hb Hi. assert (Forall (λ c, 32 < c) (radix b i) /\ radix b i <> []) as [Hall Hne].
  2: { destruct (radix b i); [done|]. by apply Forall_cons in Hall as [? _]. }
  split; [|unfold radix; rewrite radix_snoc by lia; by intros [_ ?]%app_eq_nil].
  unfold radix. generalize 32%nat. intros n. clear Hi. revert i.
  induction n as [|n IH]; intros i; cbn [radix_loop]; [constructor|]. destruct (i =? 0); [constructor|].
  apply Forall_app_2; [apply IH|]. constructor; [|constructor]. assert (2 <= b <= 16) by lia.
  pose proof (Z.mod_pos_bound i b ltac:(lia)). destruct (Z.lt_ge_cases (i mod b) 10).
  - rewrite digit_range by lia. lia.
  - rewrite digit_hex by lia. lia.
Qed.

(** ** Fields *)

Lemma scani_render10 i (sg : bool) w (zero : bool) rest :
  stops rest -> is_u32 i -> is_u16 w ->
  (if sg then - INT_MAX <= i32 i else i <= INT_MAX) ->
  scani (render_int i 10 sg w zero ++ rest) false sg = Ok (i32 i, rest, true).
Proof.
  intros Hs Hi Hw Hr. pose proof (i32_range i). unfold render_int.
  destruct (Z.eqb_spec i 0) as [->|Hi0]; [|destruct (sg && (i32 i <? 0)) eqn:Eneg].
  - destruct (scani_pad w zero (chars "0") rest false sg ltac:(done)) as (n & -> & _).
    change (chars "0") with (replicate 1 (ch "0")). rewrite scani_zeros. by rewrite scani_stop by (done || lia || by left).
  - apply andb_true_iff in Eneg as [-> Hneg%Z.ltb_lt]. assert (i32 i = i - 4294967296) as Hi32 by mlia.
    assert (forall n, scani_loop ((ch "-" :: replicate n (ch "0") ++ radix 10 (4294967296 - i)) ++ rest) 0 0 false false true =
              Ok (i32 i, rest, true)) as Hread.
    { intros n. cbn [app]. rewrite <- app_assoc.
      change (scani_loop (replicate n (ch "0") ++ radix 10 (4294967296 - i) ++ rest) 0 1 true false true = Ok (i32 i, rest, true)).
      rewrite scani_zeros.
      destruct (scani_radix10 32 (4294967296 - i) rest (1 + Z.of_nat n) true true) as (l & Hl & _ & E);
        [unfold INT_MAX in *; lia|by apply (Z.lt_trans _ (2 ^ 32)); [lia|vm_compute]|].
      unfold radix. rewrite E, scani_stop by (done || lia || (right; unfold INT_MAX in *; lia)). do 3 f_equal. lia. }
    destruct (ctrue w && zero) eqn:Ew; cbn zeta.
    + unfold scani. rewrite skip_spaces_shows by done. apply andb_true_iff in Ew as [_ ->].
      unfold pad. apply Hread.
    + destruct (scani_pad w zero (ch "-" :: radix 10 (4294967296 - i)) rest false true ltac:(done)) as (n & -> & Hn).
      rewrite Hn; [apply (Hread O)|]. apply andb_false_iff in Ew as [Ew| ->]; [|by left].
      right. unfold ctrue in Ew. apply negb_false_iff, Z.eqb_eq in Ew. done.
  - assert (i <= INT_MAX /\ i32 i = i) as [Hi' ->].
    { destruct sg; cbn [andb] in Eneg; [apply Z.ltb_ge in Eneg|]; unfold INT_MAX in *; mlia. }
    destruct (scani_pad w zero (radix 10 i) rest false sg) as (n & -> & _); [apply radix_shows; [by left|lia]|].
    destruct (scani_radix10 32 i rest (Z.of_nat n) false sg) as (l & Hl & _ & E);
      [lia|by apply (Z.lt_trans _ (2 ^ 32)); [lia|vm_compute]|].
    unfold radix. by rewrite E, scani_stop by (done || lia || by left).
Qed.

Lemma scani_render16 i w (zero : bool) rest :
  stops rest -> is_u32 i -> is_u16 w ->
  scani (render_int i 16 false w zero ++ rest) true false = Ok (i32 i, rest, true).
Proof.
  intros Hs Hi Hw. unfold render_int. destruct (Z.eqb_spec i 0) as [->|Hi0]; cbn [andb].
  - destruct (scani_pad w zero (chars "0") rest true false ltac:(done)) as (n & -> & _).
    change (chars "0") with (replicate 1 (ch "0")). rewrite scani_zeros. by rewrite scani_stop by (done || lia || by left).
  - destruct (scani_pad w zero (radix 16 i) rest true false) as (n & -> & _); [apply radix_shows; [by right|lia]|].
    destruct (scani_radix16 32 i rest (Z.of_nat n)) as (l & Hl & _ & E);
      [lia|by apply (Z.lt_trans _ (2 ^ 32)); [lia|vm_compute]|].
    unfold radix. by rewrite E, scani_stop_hex by (done || lia).
Qed.

(** A number to print: its kind, flag and width, and the value. *)
Record field := mk_field { f_kind : Z; f_zero : bool; f_width : Z; f_value : Z }.

Definition field_ok (f : field) : Prop :=
  is_u16 (f_width f) /\
  ((f_kind f = ch "d" /\ - INT_MAX <= f_value f <= INT_MAX) \/
   (f_kind f = ch "u" /\ 0 <= f_value f <= INT_MAX) \/
   (f_kind f = ch "x" \/ f_kind f = ch "X") /\ is_u32 (f_value f)).

Definition field_piece (f : field) : piece := Conv (f_zero f) (f_width f) (f_kind f).
Definition field_text (f : field) : list Z :=
  let dec := (f_kind f =? ch "d") || (f_kind f =? ch "u") in
  render_int (u32 (f_value f)) (if dec then 10 else 16) (f_kind f =? ch "d") (f_width f) (f_zero f).

Lemma render_field f args : field_ok f -> render1 (f_zero f) (f_width f) (f_kind f) (AInt (f_value f) :: args) = Some (field_text f, args).
Proof.
  intros [_ Hk]. unfold render1, field_text. assert (f_kind f = ch "d" \/ f_kind f = ch "u" \/ f_kind f = ch "x" \/ f_kind f = ch "X") as H by tauto.
  by destruct H as [->|[->|[->| ->]]].
Qed.

Section read.
Context (powf : SpecFloat.spec_float -> SpecFloat.spec_float -> SpecFloat.spec_float).

Lemma scan_field f str rest :
  field_ok f -> stops rest ->
  scan_convert powf (f_kind f) str (field_text f ++ rest) = Ok ([VInt (i32 (f_value f))], rest, true).
Proof.
  intros [Hw Hk] Hs. unfold field_text. assert (i32 (u32 (f_value f)) = i32 (f_value f)) as Hv by mlia.
  destruct Hk as [[-> Hv']|[[-> Hv']|[Hk Hv']]].
  - change (scan_convert powf (ch "d") str ?t) with (x ← scani t false true; let '(i, inp, v) := x in Ok ([VInt i], inp, v)).
    change ((ch "d" =? ch "d") || (ch "d" =? ch "u")) with true. change (ch "d" =? ch "d") with true. cbn iota.
    rewrite scani_render10; [by rewrite Hv|done|apply u32_range|done|]. cbn iota. unfold INT_MAX in *. mlia.
  - change (scan_convert powf (ch "u") str ?t) with (x ← scani t false false; let '(i, inp, v) := x in Ok ([VInt i], inp, v)).
    change ((ch "u" =? ch "d") || (ch "u" =? ch "u")) with true. change (ch "u" =? ch "d") with false. cbn iota.
    rewrite scani_render10; [by rewrite Hv|done|apply u32_range|done|]. cbn iota. unfold INT_MAX in *. mlia.
  - assert (scan_convert powf (f_kind f) str (render_int (u32 (f_value f)) 16 false (f_width f) (f_zero f) ++ rest) =
              Ok ([VInt (i32 (f_value f))], rest, true)) as E.
    { transitivity (x ← scani (render_int (u32 (f_value f)) 16 false (f_width f) (f_zero f) ++ rest) true false;
                    let '(i, inp, v) := x in Ok ([VInt i], inp, v)); [by destruct Hk as [-> | ->]|].
      rewrite scani_render16; [by rewrite Hv|done|apply u32_range|done]. }
    destruct Hk as [Hk|Hk]; rewrite Hk in *; exact E.
Qed.

Lemma skip_spaces_idem s : skip_spaces (skip_spaces s) = skip_spaces s.
Proof. induction s as [|c s IH]; [done|]. cbn [skip_spaces]. destruct (isspace c) eqn:E; [done|]. cbn [skip_spaces]. by rewrite E. Qed.

Lemma scan_field_spaces f str s :
  field_ok f -> scan_convert powf (f_kind f) str (skip_spaces s) = scan_convert powf (f_kind f) str s.
Proof.
  intros [_ Hk].
  assert (exists hex sg, forall inp, scan_convert powf (f_kind f) str inp =
            x ← scani inp hex sg; let '(i, inp, v) := x in Ok ([VInt i], inp, v)) as (hex & sg & E).
  { destruct Hk as [[-> _]|[[-> _]|[[-> | ->] _]]]; by eexists _, _. }
  rewrite !E. unfold scani. by rewrite skip_spaces_idem.
Qed.

(** Out of that range the code overflows an [int]. *)
Lemma scani_overflow :
  scani (chars "-2147483648") false true = Err EUndef /\ scani (chars "2147483648") false false = Err EUndef /\
  scani (chars "-2147483647") false true = Ok (-2147483647, [], true).
Proof. split_and!; vm_compute; reflexivity. Qed.

(** ** Lines of fields *)

Definition sep_ok (c : Z) : Prop := c <> 0 /\ c <> ch "%" /\ hex_char c = false.

Definition line_pieces (f : field) (l : list (Z * field)) : list piece :=
  field_piece f :: concat ((λ x, [Lit x.1; field_piece x.2]) <$> l).
Definition line_format (f : field) (l : list (Z * field)) : list Z :=
  [ch "%"; f_kind f] ++ concat ((λ x, [x.1; ch "%"; f_kind x.2]) <$> l).
Definition line_text (f : field) (l : list (Z * field)) : list Z :=
  field_text f ++ concat ((λ x, x.1 :: field_text x.2) <$> l).
Definition line_args (f : field) (l : list (Z * field)) : list arg := (λ g, AInt (f_value g)) <$> f :: l.*2.
Definition line_values (f : field) (l : list (Z * field)) : list sval := (λ g, VInt (i32 (f_value g))) <$> f :: l.*2.
Definition line_ok (f : field) (l : list (Z * field)) : Prop :=
  field_ok f /\ Forall (λ x, sep_ok x.1 /\ field_ok x.2) l.

Lemma field_piece_ok f : field_ok f -> piece_ok (field_piece f).
Proof. intros [Hw Hk]. split; [done|]. assert (f_kind f = ch "d" \/ f_kind f = ch "u" \/ f_kind f = ch "x" \/ f_kind f = ch "X") as H by tauto.
  by destruct H as [->|[->|[->| ->]]]. Qed.

Lemma line_pieces_ok f l : line_ok f l -> Forall piece_ok (line_pieces f l).
Proof.
  intros [Hf Hl]. constructor; [by apply field_piece_ok|]. induction l as [|[c g] l IH]; [constructor|].
  apply Forall_cons in Hl as [[(H0 & H1 & _) Hg] Hl]. constructor; [done|]. constructor; [by apply field_piece_ok|]. by apply IH.
Qed.

Lemma line_render f l : line_ok f l -> render (line_pieces f l) (line_args f l) = Some (line_text f l).
Proof.
  revert f. induction l as [|[c g] l IH]; intros f [Hf Hl]; unfold line_pieces, line_args, line_text in *; cbn [fmap list_fmap concat app fst snd] in *.
  - cbn [render field_piece]. by rewrite render_field.
  - apply Forall_cons in Hl as [[_ Hg] Hl]. cbn [render field_piece]. rewrite render_field by done.
    specialize (IH g (conj Hg Hl)). cbn [render field_piece] in IH. by rewrite IH.
Qed.

(** The rest of a line: separators and fields. *)
Lemma scan_line str f l :
  line_ok f l ->
  sscanf_loop powf str (line_text f l) (line_format f l) = Ok (Z.of_nat (S (length l)), line_values f l).
Proof.
  revert f. induction l as [|[c g] l IH]; intros f [Hf Hl]; unfold line_text, line_format, line_values in *; cbn [fmap list_fmap concat app fst snd length] in *.
  - cbn [sscanf_loop]. rewrite Z.eqb_refl, scan_field by done. done.
  - apply Forall_cons in Hl as [[Hc Hg] Hl]. specialize (IH g (conj Hg Hl)). destruct Hc as (_ & Hp & Hx). cbn [fst snd] in *.
    cbn [sscanf_loop]. rewrite Z.eqb_refl, scan_field by done. change (mbind ?f (Ok ?x)) with (f x). cbn beta iota.
    cbn [sscanf_loop] in IH. rewrite Z.eqb_refl in IH. rewrite (proj2 (Z.eqb_neq _ _) Hp).
    destruct (isspace c) eqn:Ec.
    + cbn [skip_spaces]. rewrite Ec, scan_field_spaces, IH by done. change (mbind ?f (Ok ?x)) with (f x). cbn beta iota.
      do 2 f_equal. cbn [fst]. lia.
    + rewrite !Z.eqb_refl, IH. change (mbind ?f (Ok ?x)) with (f x). cbn beta iota. do 2 f_equal. cbn [fst]. lia.
Qed.

(** C15: What [snprintf] prints, [sscanf] reads back. A line of numbers printed with
    [%d], [%u], [%x] or [%X], with any widths and flags and any separators other than
    digits, is read with the same conversions, without the widths: every field is
    converted and every value is the one printed, for signed numbers above [INT_MIN],
    unsigned ones that fit in an [int], and all the 32-bit patterns in hexadecimal. *)
Theorem sscanf_snprintf f l b count :
  line_ok f l -> let o := line_text f l in
  Z.of_nat (length o) < count <= Z.of_nat (length b) -> count <= INT_MAX ->
  snprintf b count (encode (line_pieces f l)) (line_args f l) =
    Ok (Z.of_nat (length o), o ++ [0] ++ drop (S (length o)) b) /\
  sscanf powf o (line_format f l) = Ok (Z.of_nat (S (length l)), line_values f l).
Proof.
  cbn zeta. intros Hok Hc Hm. split; [|by apply scan_line].
  rewrite (snprintf_text b count _ _ (line_text f l)); [|by apply line_pieces_ok| |by apply line_render|lia..].
  - by rewrite take_ge by lia.
  - unfold line_args. apply Forall_fmap, Forall_true. done.
Qed.
End read.

Lemma sscanf_snprintf_witness :
  let f := mk_field (ch "d") true 6 (-42) in
  let l := [(ch ",", mk_field (ch "x") false 0 0xFFFFFFFF); (ch " ", mk_field (ch "u") false 8 2147483647)] in
  let b := replicate 40 170 in
  line_text f l = chars "-00042,FFFFFFFF 2147483647" /\
  snprintf b 40 (encode (line_pieces f l)) (line_args f l) =
    Ok (26, line_text f l ++ [0] ++ replicate 13 170) /\
  sscanf (λ x _, x) (line_text f l) (chars "%d,%x %u") = Ok (3, [VInt (-42); VInt (-1); VInt 2147483647]).
Proof.
  cbn zeta. set (f := mk_field (ch "d") _ _ _). set (l := [_; _]).
  destruct (sscanf_snprintf (λ x _, x) f l (replicate 40 170) 40) as [H1 H2].
  - split; [|apply Forall_cons; split; [|apply Forall_cons; split; [|constructor]]].
    + split; [cbn; lia|]. left. split; [done|]. cbn. unfold INT_MAX. lia.
    + split; [done|]. split; [cbn; lia|]. right; right. split; [by left|]. cbn. lia.
    + split; [done|]. split; [cbn; lia|]. right; left. split; [done|]. cbn. unfold INT_MAX. lia.
  - split; vm_compute; [reflexivity|discriminate].
  - vm_compute; discriminate.
  - split; [vm_compute; reflexivity|]. split.
    + etransitivity; [exact H1|vm_compute; reflexivity].
    + etransitivity; [exact H2|vm_compute; reflexivity].
Defined.
End ScanfSpec.
