(* ===== verification/Shell.v ===== *)
(** * The shell ([lib/shell/shell.c])

    Characters received on the serial port fill a buffer; a full line is parsed by an
    event into words, which name a command of a table and its arguments. The words are
    not copied: they are pointers into the line, in which the white space is replaced
    by final zeros. *)

From stdpp Require Import base numbers list.
From Stdlib Require Strings.String Strings.Ascii.
From S2P Require Import Prelude Dragon4 Printf.

Module Shell.
Import Printf.
Import Strings.String.StringSyntax Strings.Ascii.AsciiSyntax.

Definition COMMAND_LEN : Z := 256.
Definition MAX_ARGS_NUM : Z := 64.

(** [IS_WHITESPACE]: also true of the final zero. *)
Definition is_whitespace (c : Z) : bool := c <=? ch " ".

(** A command: the handler is a function of the application, which gets the words of
    the line; it gives its result and the characters it prints. *)
Record shell_command := mk_command {
  name : list Z;
  desc : list Z;
  handler : list (list Z) -> Z * list Z;
}.

(** [state], the static variables of [char_handler_irq], the events posted for
    [parse_command] and the characters printed. *)
Record shell := mk_shell {
  commands : list shell_command;
  with_prompt : bool;
  command_buffer : list Z;
  index : Z;
  posted : nat;
  screen : list Z;
}.

Definition set_buffer b i s := mk_shell (commands s) (with_prompt s) b i (posted s) (screen s).
Definition set_posted n s := mk_shell (commands s) (with_prompt s) (command_buffer s) (index s) n (screen s).
Definition set_screen o s := mk_shell (commands s) (with_prompt s) (command_buffer s) (index s) (posted s) o.

(** ** Output: [printf] of the library *)

(** A computation that prints: its result and the characters printed. *)
Abbreviation W := (M (list Z)).

Definition wprintf (format : list Z) (args : list arg) : W Z :=
  x ← mlift (printf format args);
  mmod (λ o, o ++ x.2) ;;
  mret x.1.

(** ** Words *)

(** The string at an address of the line. *)
Fixpoint cstring (l : list Z) : res (list Z) :=
  match l with
  | [] => Err EUndef
  | c :: l => if c =? 0 then Ok [] else s ← cstring l; Ok (c :: s)
  end.
Definition string_at (line : list Z) (p : Z) : res (list Z) := cstring (drop (Z.to_nat p) line).

(** [while (!IS_WHITESPACE(cur)) cur++]. *)
Fixpoint word_end (fuel : nat) (line : list Z) (cur : Z) : res Z :=
  match fuel with
  | O => Err EFuel
  | S fuel => c ← arr_get line cur; if is_whitespace c then Ok cur else word_end fuel line (cur + 1)
  end.

(** The loop of [shell_parse_line]: the line, the words and whether there were too many. *)
Fixpoint parse_loop (fuel : nat) (line : list Z) (cur : Z) (argv : list Z) (max_argv : Z) : res (list Z * list Z * bool) :=
  match fuel with
  | O => Err EFuel
  | S fuel =>
      c ← arr_get line cur;
      if c =? 0 then Ok (line, argv, false)
      else if is_whitespace c then
        line ← arr_set line cur 0;
        parse_loop fuel line (cur + 1) argv max_argv
      else if Z.of_nat (length argv) >=? max_argv then Ok (line, [], true)
      else
        e ← word_end fuel line cur;
        parse_loop fuel line e (argv ++ [cur]) max_argv
  end.

(** The new line and [argv] up to its final NULL. The loops advance along the line. *)
Definition shell_parse_line (line : list Z) (max_argv : Z) : W (list Z * list Z) :=
  x ← mlift (parse_loop (S (length line)) line 0 [] max_argv);
  let '(line, argv, many) := x in
  (if many : bool then wprintf (chars "Too many arguments: Max %u" ++ [10]) [AInt max_argv] ;; mret tt else mret tt) ;;
  mret (line, argv).

(** ** Commands *)

Fixpoint shell_find_cmd (cmds : list shell_command) (command : list Z) : option shell_command :=
  match cmds with
  | [] => None
  | cmd :: cmds => if decide (name cmd = command) then Some cmd else shell_find_cmd cmds command
  end.

(** [for (; len < 20; len++) printf(" ")]. *)
Definition shell_print_cmd_help (name desc : list Z) : W unit :=
  len ← wprintf (chars "%s") [AStr (Some name)];
  mfor (zseq len (Z.to_nat (20 - len))) (λ _, wprintf (chars " ") [] ;; mret tt) ;;
  wprintf (chars " %s" ++ [10]) [AStr (Some desc)] ;;
  mret tt.

Definition RULE : list Z := chars "--------------------------------" ++ [10].

Definition shell_print_help (cmds : list shell_command) : W unit :=
  shell_print_cmd_help (chars "Command") (chars "Description") ;;
  wprintf RULE [] ;;
  shell_print_cmd_help (chars "help") (chars "Print this help") ;;
  mfor cmds (λ cmd, shell_print_cmd_help (name cmd) (desc cmd)) ;;
  wprintf RULE [] ;;
  mret tt.

(** The strings of [argv]. *)
Fixpoint strings_at (line : list Z) (argv : list Z) : res (list (list Z)) :=
  match argv with
  | [] => Ok []
  | p :: argv => s ← string_at line p; ss ← strings_at line argv; Ok (s :: ss)
  end.

(** The result is computed as the code does: [error] is 1, then [error &= (argc == 0)],
    then [error &= strcmp("help", argv[0])], in which [argv[0]] is NULL when there is
    no word. *)
Definition shell_call_handler (cmds : list shell_command) (line : list Z) (argv : list Z) : W Z :=
  match argv with
  | p :: _ =>
      cmd ← mlift (string_at line p);
      match shell_find_cmd cmds cmd with
      | Some c =>
          args ← mlift (strings_at line argv);
          let '(ret, printed) := handler c args in
          mmod (λ o, o ++ printed) ;;
          (if ctrue ret then
             wprintf (chars "%s: Argument error" ++ [10]) [AStr (Some (name c))] ;;
             shell_print_cmd_help (name c) (desc c)
           else mret tt) ;;
          mret ret
      | None =>
          wprintf (chars "%s: Unknown command" ++ [10]) [AStr (Some cmd)] ;;
          shell_print_help cmds ;;
          mret 0
      end
  | [] => shell_print_help cmds ;; mfail EUndef
  end.

(** The line is left with its words cut. *)
Definition shell_handle_line (cmds : list shell_command) (line : list Z) : W (Z * list Z) :=
  x ← shell_parse_line line MAX_ARGS_NUM;
  ret ← shell_call_handler cmds x.1 x.2;
  mret (ret, x.1).

(** ** Reception *)

#[global] Instance screen_lens : Lens shell (list Z).
Proof. refine {| view := screen; over := set_screen |}; [done|by intros []|done]. Defined.

Definition shell_init (cmds : list shell_command) (prompt : bool) : M shell unit :=
  mmod (λ s, mk_shell cmds prompt (command_buffer s) (index s) (posted s) (screen s)) ;;
  if prompt then mzoom (wprintf (chars "> ") []) ;; mret tt else mret tt.

(** In the interrupt of the serial port. *)
Definition char_handler_irq (c : Z) : M shell unit :=
  (if negb (c =? 10) && negb (c =? 13) then
     s ← mget;
     b ← mlift (arr_set (command_buffer s) (index s) c);
     mmod (set_buffer b (index s + 1))
   else mret tt) ;;
  s ← mget;
  if (c =? 10) || (index s =? COMMAND_LEN) then
    b ← mlift (arr_set (command_buffer s) (index s) 0);
    mmod (set_buffer b 0) ;;
    mmod (λ s, set_posted (S (posted s)) s)
  else mret tt.

(** The event. *)
Definition parse_command : M shell unit :=
  s ← mget;
  x ← mzoom (shell_handle_line (commands s) (command_buffer s));
  let '(ret, line) := x in
  mmod (λ s, set_buffer line (index s) s) ;;
  if with_prompt s then
    (if ctrue ret then mzoom (wprintf (chars "%d ") [AInt ret]) ;; mret tt else mret tt) ;;
    mzoom (wprintf (chars "> ") []) ;;
    mret tt
  else mret tt.

(** The task of the queue runs the first event posted. *)
Definition run_event : M shell unit :=
  s ← mget;
  match posted s with
  | O => mfail EBlock
  | S n => mmod (set_posted n) ;; parse_command
  end.
End Shell.
