(* ===== verification/ShellSpec.v ===== *)
(** * The shell: a line typed calls its command *)

From stdpp Require Import base numbers list.
From Stdlib Require Strings.String Strings.Ascii.
From S2P Require Import Prelude Dragon4 Printf Scanf PrintfSpec Shell.

Module ShellSpec.
Import Printf PrintfSpec Shell.
Import Strings.String.StringSyntax Strings.Ascii.AsciiSyntax.

(** ** Words *)

(** The word at the beginning of a text, if any, and the words after it. *)
Fixpoint tokens (s : list Z) : list Z * list (list Z) :=
  match s with
  | [] => ([], [])
  | c :: s =>
      let (w, ws) := tokens s in
      if is_whitespace c then ([], if decide (w = []) then ws else w :: ws) else (c :: w, ws)
  end.

(** The words of a text. *)
Definition words (s : list Z) : list (list Z) :=
  let (w, ws) := tokens s in if decide (w = []) then ws else w :: ws.

Definition nonzero (s : list Z) : Prop := Forall (λ c, c <> 0) s.
Definition dark (s : list Z) : Prop := Forall (λ c, is_whitespace c = false) s.

(** The line once its words are cut. *)
Definition cut (s : list Z) : list Z := (λ c, if is_whitespace c then 0 else c) <$> s.

Lemma words_space c s : is_whitespace c = true -> words (c :: s) = words s.
Proof. intros Hc. unfold words. cbn [tokens]. destruct (tokens s) as [w ws]. by rewrite Hc. Qed.

(** A text either is over, begins with a space or begins with a word. *)
Lemma split_word s : exists w r, s = w ++ r /\ dark w /\ match r with [] => True | c :: _ => is_whitespace c = true end.
Proof.
  induction s as [|c s (w & r & -> & Hw & Hr)]; [exists [], []; split_and!; [done|constructor|done]|].
  destruct (is_whitespace c) eqn:Ec; [exists [], (c :: w ++ r); split_and!; [done|constructor|done]|]. exists (c :: w), r. split_and!; [done|by constructor|done].
Qed.

Lemma tokens_word w r : dark w -> match r with [] => True | c :: _ => is_whitespace c = true end ->
  tokens (w ++ r) = (w, words r).
Proof.
  intros Hw Hr. induction w as [|c w IH]; cbn [app].
  - unfold words. destruct r as [|c r]; [done|]. cbn [tokens]. destruct (tokens r) as [w ws]. by rewrite Hr.
  - apply Forall_cons in Hw as [Hc Hw]. cbn [tokens]. by rewrite IH, Hc.
Qed.

Lemma words_word w r : w <> [] -> dark w -> match r with [] => True | c :: _ => is_whitespace c = true end ->
  words (w ++ r) = w :: words r.
Proof. intros H0 Hw Hr. unfold words at 1. rewrite tokens_word by done. by rewrite decide_False. Qed.

Lemma words_dark s : Forall (λ w, dark w /\ w <> []) (words s).
Proof.
  assert (dark (tokens s).1 /\ Forall (λ w, dark w /\ w <> []) (tokens s).2) as [H1 H2].
  { induction s as [|c s [IH1 IH2]]; [split; constructor|]. cbn [tokens]. destruct (tokens s) as [w ws]. cbn [fst snd] in *.
    destruct (is_whitespace c) eqn:Ec; cbn [fst snd]; [|by split; [constructor|]].
    split; [constructor|]. case_decide; [done|]. by constructor. }
  unfold words. destruct (tokens s) as [w ws]. cbn [fst snd] in *. case_decide; [done|]. by constructor.
Qed.

Lemma dark_cut w : dark w -> cut w = w.
Proof. induction 1 as [|c w Hc _ IH]; [done|]. unfold cut in *. cbn. by rewrite Hc, IH. Qed.

Lemma dark_nonzero w : dark w -> nonzero w.
Proof. intros H. eapply Forall_impl; [exact H|]. by intros c Hc ->. Qed.

Lemma words_length s : (length (words s) <= length s)%nat.
Proof.
  assert (length (tokens s).1 + length (tokens s).2 <= length s)%nat as H.
  { induction s as [|c s IH]; [done|]. cbn [tokens length]. destruct (tokens s) as [w ws]. cbn [fst snd] in *.
    destruct (is_whitespace c); cbn [fst snd length]; [|lia]. case_decide; [lia|]. destruct w; [done|]. cbn [length] in *. lia. }
  unfold words. destruct (tokens s) as [w ws]. cbn [fst snd] in *. case_decide; [lia|]. destruct w; [done|]. cbn [length] in *. lia.
Qed.

(** ** The parser *)

Lemma get_at (pre : list Z) c post : arr_get (pre ++ c :: post) (Z.of_nat (length pre)) = Ok c.
Proof. apply arr_get_ok; [lia|]. rewrite Nat2Z.id. by rewrite list_lookup_middle. Qed.

Lemma set_at (pre : list Z) c x post : arr_set (pre ++ c :: post) (Z.of_nat (length pre)) x = Ok (pre ++ x :: post).
Proof.
  rewrite arr_set_ok by (rewrite length_app; cbn [length]; lia). f_equal. rewrite Nat2Z.id.
  by rewrite insert_app_r_alt, Nat.sub_diag by lia.
Qed.

Lemma word_end_ok w : forall fuel pre r tail,
  dark w -> match r with [] => True | c :: _ => is_whitespace c = true end -> (length w < fuel)%nat ->
  word_end fuel (pre ++ w ++ r ++ 0 :: tail) (Z.of_nat (length pre)) = Ok (Z.of_nat (length (pre ++ w))).
Proof.
  induction w as [|c w IH]; intros fuel pre r tail Hw Hr Hf; (destruct fuel as [|fuel]; [cbn in Hf; lia|]); cbn [word_end].
  - cbn [app]. rewrite app_nil_r. destruct r as [|c r]; cbn [app]; rewrite get_at; change (mbind ?f (Ok ?x)) with (f x); cbn beta; [done|].
    by rewrite Hr.
  - apply Forall_cons in Hw as [Hc Hw]. cbn [app]. rewrite get_at. change (mbind ?f (Ok ?x)) with (f x). cbn beta. rewrite Hc.
    replace (pre ++ c :: w ++ r ++ 0 :: tail) with ((pre ++ [c]) ++ w ++ r ++ 0 :: tail) by (by rewrite <- app_assoc).
    replace (Z.of_nat (length pre) + 1) with (Z.of_nat (length (pre ++ [c]))) by (rewrite length_app; cbn [length]; lia).
    rewrite IH by (done || cbn [length] in Hf; lia). by rewrite <- (app_assoc pre [c] w).
Qed.

Lemma cstring_word w l : nonzero w -> cstring (w ++ 0 :: l) = Ok w.
Proof. induction 1 as [|c w Hc _ IH]; [done|]. cbn [app cstring]. rewrite (proj2 (Z.eqb_neq _ _) Hc), IH. done. Qed.

Lemma string_at_word pre w r tail :
  dark w -> match r with [] => True | c :: _ => is_whitespace c = true end ->
  string_at (pre ++ w ++ cut r ++ 0 :: tail) (Z.of_nat (length pre)) = Ok w.
Proof.
  intros Hw Hr. unfold string_at. rewrite Nat2Z.id, drop_app_length. destruct r as [|c r]; unfold cut; cbn [fmap list_fmap app].
  - by apply cstring_word, dark_nonzero.
  - rewrite Hr. by apply cstring_word, dark_nonzero.
Qed.

(** One turn: a space, a word, or a word too many. *)
Lemma parse_loop_turn c s : forall fuel pre tail argv max,
  c <> 0 -> (S (length (c :: s)) < fuel)%nat -> exists fuel', fuel = S fuel' /\
  (is_whitespace c = true -> parse_loop fuel (pre ++ (c :: s) ++ 0 :: tail) (Z.of_nat (length pre)) argv max =
     parse_loop fuel' ((pre ++ [0]) ++ s ++ 0 :: tail) (Z.of_nat (length (pre ++ [0]))) argv max) /\
  (is_whitespace c = false -> max <= Z.of_nat (length argv) ->
     parse_loop fuel (pre ++ (c :: s) ++ 0 :: tail) (Z.of_nat (length pre)) argv max = Ok (pre ++ (c :: s) ++ 0 :: tail, [], true)) /\
  (forall w r, is_whitespace c = false -> Z.of_nat (length argv) < max ->
     c :: s = w ++ r -> dark w -> match r with [] => True | c :: _ => is_whitespace c = true end ->
     parse_loop fuel (pre ++ (c :: s) ++ 0 :: tail) (Z.of_nat (length pre)) argv max =
     parse_loop fuel' ((pre ++ w) ++ r ++ 0 :: tail) (Z.of_nat (length (pre ++ w))) (argv ++ [Z.of_nat (length pre)]) max).
Proof.
  intros fuel pre tail argv max Hc Hf. destruct fuel as [|fuel]; [lia|]. exists fuel. split; [done|].
  cbn [parse_loop app]. rewrite get_at. change (mbind ?f (Ok ?x)) with (f x). cbn beta. rewrite (proj2 (Z.eqb_neq _ _) Hc). split_and!.
  - intros ->. rewrite set_at. change (mbind ?f (Ok ?x)) with (f x). cbn beta. rewrite <- (app_assoc pre [0]). f_equal.
    rewrite length_app. cbn [length]. lia.
  - intros -> Hm. by rewrite (proj2 (Z.geb_le _ _) Hm).
  - intros w r -> Hm E Hw Hr. replace (Z.of_nat (length argv) >=? max) with false by lia.
    pose proof (f_equal (λ x, pre ++ x ++ 0 :: tail) E) as El. cbn beta in El. cbn [app] in El. rewrite El, <- app_assoc.
    rewrite word_end_ok; [|done|done|]. 2: { apply (f_equal length) in E. rewrite length_app in E. lia. }
    change (mbind ?f (Ok ?x)) with (f x). cbn beta. by rewrite <- app_assoc.
Qed.

Lemma parse_loop_ok n : forall s pre tail argv max fuel,
  (length s <= n)%nat -> nonzero s -> (S (length s) < fuel)%nat -> Z.of_nat (length argv + length (words s)) <= max ->
  exists offs, parse_loop fuel (pre ++ s ++ 0 :: tail) (Z.of_nat (length pre)) argv max =
      Ok (pre ++ cut s ++ 0 :: tail, argv ++ offs, false) /\
    Forall2 (λ p w, string_at (pre ++ cut s ++ 0 :: tail) p = Ok w) offs (words s).
Proof.
  induction n as [|n IH]; intros [|c s] pre tail argv max fuel Hn Hs Hf Hm; try (cbn in Hn; lia).
  1, 2: exists []; rewrite app_nil_r; split; [|constructor]; (destruct fuel; [lia|]); cbn [parse_loop app]; by rewrite get_at.
  pose proof Hs as Hs0. apply Forall_cons in Hs as [Hc Hs]. cbn [length] in Hn.
  destruct (parse_loop_turn c s fuel pre tail argv max Hc Hf) as (fuel' & -> & Hspace & _ & Hword). cbn [length] in Hf.
  destruct (is_whitespace c) eqn:Ec.
  - rewrite Hspace, words_space in * by done. destruct (IH s (pre ++ [0]) tail argv max fuel') as (offs & E & Ho); [lia|done|lia|done|].
    exists offs. unfold cut in *. cbn [fmap list_fmap app]. rewrite Ec, E, <- !(app_assoc pre [0]) in *. done.
  - destruct (split_word (c :: s)) as (w & r & E & Hw & Hr). assert (w <> []) as Hne.
    { intros ->. cbn [app] in E. subst r. congruence. }
    rewrite E, words_word in * by done. pose proof (f_equal length E) as El. rewrite length_app in El. cbn [length] in *.
    assert (0 < length w)%nat by (destruct w; cbn; [done|lia]). apply Forall_app in Hs0 as [_ Hs0].
    rewrite (Hword w r) by (done || lia).
    destruct (IH r (pre ++ w) tail (argv ++ [Z.of_nat (length pre)]) max fuel') as (offs & E' & Ho); [lia|done|lia| |].
    { rewrite length_app. cbn [length]. lia. }
    exists (Z.of_nat (length pre) :: offs). rewrite <- !(app_assoc pre), <- (app_assoc argv) in *. cbn [app] in *.
    unfold cut in *. rewrite fmap_app. fold (cut w) in *. fold (cut r) in *. rewrite (dark_cut w Hw), <- !(app_assoc w) in *.
    split; [done|]. constructor; [by apply string_at_word|done].
Qed.

Lemma parse_loop_many n : forall s pre tail argv max fuel,
  (length s <= n)%nat -> nonzero s -> (S (length s) < fuel)%nat ->
  Z.of_nat (length argv) <= max < Z.of_nat (length argv + length (words s)) ->
  exists line, parse_loop fuel (pre ++ s ++ 0 :: tail) (Z.of_nat (length pre)) argv max = Ok (line, [], true).
Proof.
  induction n as [|n IH]; intros [|c s] pre tail argv max fuel Hn Hs Hf Hm; try (cbn in Hn; lia);
    try (change (words []) with (@nil (list Z)) in Hm; cbn [length] in Hm; lia).
  pose proof Hs as Hs0. apply Forall_cons in Hs as [Hc Hs]. cbn [length] in Hn.
  destruct (parse_loop_turn c s fuel pre tail argv max Hc Hf) as (fuel' & -> & Hspace & Hmany & Hword). cbn [length] in Hf.
  destruct (is_whitespace c) eqn:Ec.
  - rewrite Hspace, words_space in * by done. apply IH; [lia|done|lia|done].
  - destruct (Z.le_gt_cases max (Z.of_nat (length argv))); [rewrite Hmany by done; by eexists|].
    destruct (split_word (c :: s)) as (w & r & E & Hw & Hr). assert (w <> []) as Hne.
    { intros ->. cbn [app] in E. subst r. congruence. }
    rewrite E, words_word in * by done. pose proof (f_equal length E) as El. rewrite length_app in El. cbn [length] in *.
    assert (0 < length w)%nat by (destruct w; cbn; [done|lia]). apply Forall_app in Hs0 as [_ Hs0].
    rewrite (Hword w r) by (done || lia). apply IH; [lia|done|lia|]. rewrite length_app. cbn [length]. lia.
Qed.

(** ** What is printed *)

(** [prints m a o]: [m] prints [o] and returns [a]. *)
Definition says {A} (m : W A) (a : A) (o : list Z) : Prop := forall o0, m o0 = Ok (a, o0 ++ o).

Lemma says_ret {A} (a : A) : says (mret a) a [].
Proof. intros o0. by rewrite app_nil_r. Qed.

Lemma says_bind {A B} (m : W A) (k : A -> W B) a b o1 o2 : says m a o1 -> says (k a) b o2 -> says (m ≫= k) b (o1 ++ o2).
Proof. intros Hm Hk o0. erewrite bind_ok by apply Hm. rewrite Hk. by rewrite app_assoc. Qed.

Lemma says_eq {A} (m : W A) a o o' : says m a o -> o = o' -> says m a o'.
Proof. by intros ? <-. Qed.

Lemma says_then {A} (m : W A) a o : says m a o -> says (m ;; mret tt) tt o.
Proof. intros H. eapply says_eq; [eapply says_bind; [exact H|apply says_ret]|by rewrite app_nil_r]. Qed.

Lemma says_printf fs args o :
  Forall piece_ok fs -> Forall arg_ok args -> render fs args = Some o -> Z.of_nat (length o) <= INT_MAX ->
  says (wprintf (encode fs) args) (Z.of_nat (length o)) o.
Proof.
  intros H1 H2 H3 H4 o0. unfold wprintf. mrun. rewrite (printf_text fs args o) by done. done.
Qed.

Lemma says_for {A} (xs : list A) (body : A -> W unit) (f : A -> list Z) :
  (forall x, x ∈ xs -> says (body x) tt (f x)) -> says (mfor xs body) tt (concat (f <$> xs)).
Proof.
  induction xs as [|x xs IH]; intros H; cbn [mfor fmap list_fmap concat]; [apply says_ret|].
  eapply says_bind; [apply H; by left|]. apply IH. intros y Hy. apply H. by right.
Qed.

(** A printed string: a format [%s] between literal texts. *)
Definition text (s : list Z) : list piece := Lit <$> s.
Lemma encode_text s fs : encode (text s ++ fs) = s ++ encode fs.
Proof. induction s as [|c s IH]; [done|]. unfold text, encode in *. cbn. by rewrite IH. Qed.
Lemma render_text s fs args : render (text s ++ fs) args = match render fs args with Some o => Some (s ++ o) | None => None end.
Proof. induction s as [|c s IH]; unfold text in *; cbn [fmap list_fmap app render]; [by destruct (render fs args)|]. rewrite IH. by destruct (render fs args). Qed.
Definition plain (s : list Z) : Prop := Forall (λ c, c <> 0 /\ c <> ch "%") s.
Lemma text_ok s : plain s -> Forall piece_ok (text s).
Proof. intros H. by apply Forall_fmap. Qed.

(** Enough for all the texts of the shell. *)
Definition short (s : list Z) : Prop := nonzero s /\ Z.of_nat (length s) <= 1000000.

Lemma says_string a s b :
  plain a -> plain b -> Z.of_nat (length a) + Z.of_nat (length b) <= 1000 -> short s ->
  says (wprintf (a ++ chars "%s" ++ b) [AStr (Some s)]) (Z.of_nat (length (a ++ s ++ b))) (a ++ s ++ b).
Proof.
  intros Ha Hb Hl [Hs Hs']. replace (a ++ chars "%s" ++ b) with (encode (text a ++ [Conv false 0 (ch "s")] ++ text b)).
  - apply says_printf.
    + repeat apply Forall_app_2; [by apply text_ok| |by apply text_ok]. by repeat constructor.
    + by repeat constructor.
    + rewrite render_text. cbn [app render].
      assert (render1 false 0 (ch "s") [AStr (Some s)] = Some (s, [])) as ->.
      { change (render1 false 0 (ch "s") [AStr (Some s)]) with (Some (pad 0 false s, @nil arg)). unfold pad.
        by replace (Z.to_nat (0 - Z.of_nat (length s))) with O by lia. }
      rewrite <- (app_nil_r (text b)), render_text. cbn [render]. by rewrite app_nil_r.
    + rewrite !length_app. unfold INT_MAX. lia.
  - rewrite encode_text. f_equal. rewrite <- (app_nil_r (text b)).
    change (encode ([Conv false 0 (ch "s")] ++ text b ++ [])) with (chars "%s" ++ encode (text b ++ [])).
    by rewrite encode_text, app_nil_r.
Qed.

Lemma says_text a : plain a -> Z.of_nat (length a) <= 1000 -> says (wprintf a []) (Z.of_nat (length a)) a.
Proof.
  intros Ha Hl. rewrite <- (app_nil_r a) at 1. change [] with (encode []) at 1. rewrite <- encode_text, app_nil_r.
  apply says_printf; [by apply text_ok|constructor| |unfold INT_MAX; lia].
  rewrite <- (app_nil_r (text a)), render_text. cbn. by rewrite app_nil_r.
Qed.

(** ** Commands *)

Definition help_line (n d : list Z) : list Z :=
  n ++ replicate (Z.to_nat (20 - Z.of_nat (length n))) (ch " ") ++ chars " " ++ d ++ [10].

Lemma concat_single {A} (x : A) (n : nat) (xs : list Z) : length xs = n -> concat ((λ _, [x]) <$> xs) = replicate n x.
Proof. intros <-. induction xs as [|y xs IH]; [done|]. cbn. by rewrite IH. Qed.

Lemma says_cmd_help n d : short n -> short d -> says (shell_print_cmd_help n d) tt (help_line n d).
Proof.
  intros Hn Hd. unfold shell_print_cmd_help, help_line.
  assert (says (wprintf (chars "%s") [AStr (Some n)]) (Z.of_nat (length n)) n) as H1.
  { pose proof (says_string [] n []) as H. rewrite !app_nil_r in H. apply H; [constructor|constructor|cbn; lia|done]. }
  eapply says_eq; [eapply says_bind; [exact H1|]; cbn beta; eapply says_bind|].
  - apply (says_for _ _ (λ _, [ch " "])). intros x _. eapply says_then, (says_text (chars " ")); [by repeat constructor|cbn; lia].
  - cbn beta. apply says_then with (a := Z.of_nat (length (chars " " ++ d ++ [10]))).
    apply (says_string (chars " ") d [10]); [by repeat constructor|by repeat constructor|cbn; lia|done].
  - by rewrite (concat_single _ _ _ (zseq_length _ _)).
Qed.

Definition command_ok (c : shell_command) : Prop := short (name c) /\ short (desc c).

Definition help_text (cmds : list shell_command) : list Z :=
  help_line (chars "Command") (chars "Description") ++ RULE ++ help_line (chars "help") (chars "Print this help") ++
  concat ((λ c, help_line (name c) (desc c)) <$> cmds) ++ RULE.

Lemma says_help cmds : Forall command_ok cmds -> says (shell_print_help cmds) tt (help_text cmds).
Proof.
  intros Hc. assert (says (wprintf RULE []) (Z.of_nat (length RULE)) RULE) as HR.
  { apply says_text; [by repeat constructor|by vm_compute]. }
  unfold shell_print_help, help_text. eapply says_bind; [apply says_cmd_help; (split; [by repeat constructor|by vm_compute])|].
  eapply says_bind; [exact HR|]. eapply says_bind; [apply says_cmd_help; (split; [by repeat constructor|by vm_compute])|].
  eapply says_bind; [|by eapply says_then].
  apply says_for. intros c Hin. rewrite Forall_forall in Hc. destruct (Hc c Hin). by apply says_cmd_help.
Qed.

(** What a call of command [c] with the words [ws] prints. *)
Definition reply (c : shell_command) (ws : list (list Z)) : list Z :=
  let '(ret, printed) := handler c ws in
  printed ++ (if ctrue ret then name c ++ chars ": Argument error" ++ [10] ++ help_line (name c) (desc c) else []).

Definition prompt (ret : Z) : list Z :=
  (if ctrue ret then render_int (u32 ret) 10 true 0 false ++ chars " " else []) ++ chars "> ".

Lemma find_first l1 c l2 : Forall (λ x, name x <> name c) l1 -> shell_find_cmd (l1 ++ c :: l2) (name c) = Some c.
Proof. induction 1 as [|x l1 Hx _ IH]; cbn [app shell_find_cmd]; [by rewrite decide_True|by rewrite decide_False]. Qed.
Lemma find_none l cmd : Forall (λ x, name x <> cmd) l -> shell_find_cmd l cmd = None.
Proof. induction 1 as [|x l1 Hx _ IH]; cbn [shell_find_cmd]; [done|by rewrite decide_False]. Qed.

Lemma strings_at_words line argv ws :
  Forall2 (λ p w, string_at line p = Ok w) argv ws -> strings_at line argv = Ok ws.
Proof. induction 1 as [|p w argv ws Hp _ IH]; [done|]. cbn [strings_at]. by rewrite Hp, IH. Qed.

Section call.
Context (cmds : list shell_command) (line argv : list Z) (ws : list (list Z)) (cmd : list Z).
Hypothesis Hcmds : Forall command_ok cmds.
Hypothesis Hargv : Forall2 (λ p w, string_at line p = Ok w) argv (cmd :: ws).

Lemma says_lift {A B} (r : res A) (k : A -> W B) a b o : r = Ok a -> says (k a) b o -> says (mlift r ≫= k) b o.
Proof. intros -> H o0. mrun. apply H. Qed.

Lemma says_call l1 c l2 :
  cmds = l1 ++ c :: l2 -> Forall (λ x, name x <> name c) l1 -> name c = cmd ->
  says (shell_call_handler cmds line argv) (handler c (cmd :: ws)).1 (reply c (cmd :: ws)).
Proof.
  intros E Hl Hn. pose proof (strings_at_words _ _ _ Hargv) as Hs. inversion Hargv as [|p ? ps ? Hp _ E1 E2]; subst argv.
  cbn [shell_call_handler]. eapply says_lift; [exact Hp|]. rewrite <- Hn in Hs |- *. rewrite E, find_first by done.
  eapply says_lift; [exact Hs|]. cbn beta. unfold reply.
  assert (command_ok c) as [Hc1 Hc2]. { rewrite Forall_forall in Hcmds. apply Hcmds. rewrite E. apply elem_of_app. right. left. }
  destruct (handler c (name c :: ws)) as [ret printed]. cbn [fst].
  apply (says_bind _ _ tt); [by intros o0|]. destruct (ctrue ret) eqn:Er.
  - eapply says_eq; [eapply says_bind; [|apply says_ret]|by rewrite app_nil_r].
    eapply says_eq; [eapply says_bind; [apply (says_string [] (name c) (chars ": Argument error" ++ [10]))|by apply says_cmd_help]|].
    + constructor.
    + by repeat constructor.
    + cbn; lia.
    + done.
    + cbn [app]. by rewrite <- !app_assoc.
  - eapply says_eq; [eapply says_bind; apply says_ret|done].
Qed.

Lemma says_unknown :
  Forall (λ x, name x <> cmd) cmds -> short cmd ->
  says (shell_call_handler cmds line argv) 0 (cmd ++ chars ": Unknown command" ++ [10] ++ help_text cmds).
Proof.
  intros Hn Hc. inversion Hargv as [|p ? ps ? Hp _ E1 E2]; subst argv.
  cbn [shell_call_handler]. eapply says_lift; [exact Hp|]. rewrite find_none by done.
  eapply says_eq; [eapply says_bind; [apply (says_string [] cmd (chars ": Unknown command" ++ [10]))|
    eapply says_bind; [by apply says_help|apply says_ret]]|].
  - constructor.
  - by repeat constructor.
  - cbn; lia.
  - done.
  - cbn [app]. by rewrite app_nil_r, <- !app_assoc.
Qed.
End call.

(** ** Reception of a line *)

Definition feed (cs : list Z) : M shell unit := mfor cs char_handler_irq.

(** Carriage returns are dropped. *)
Definition typed (cs : list Z) : list Z := filter (λ c, c <> 13) cs.

Lemma feed_chars cs : forall s pre rest,
  Forall (λ c, c <> 10) cs -> command_buffer s = pre ++ rest -> index s = Z.of_nat (length pre) ->
  Z.of_nat (length (command_buffer s)) = COMMAND_LEN ->
  Z.of_nat (length (pre ++ typed cs)) < COMMAND_LEN ->
  feed cs s = Ok (tt, set_buffer (pre ++ typed cs ++ drop (length (typed cs)) rest) (Z.of_nat (length (pre ++ typed cs))) s).
Proof.
  induction cs as [|c cs IH]; intros s pre rest Hcs Hb Hi Hl Hn.
  { change (typed []) with (@nil Z). cbn [app length]. rewrite drop_0, app_nil_r, <- Hb, <- Hi. by destruct s. }
  apply Forall_cons in Hcs as [Hc Hcs]. unfold feed. cbn [mfor]. fold (feed cs).
  destruct (decide (c = 13)) as [->|H13].
  - assert (char_handler_irq 13 s = Ok (tt, s)) as E.
    { unfold char_handler_irq. change (negb (13 =? 10) && negb (13 =? 13)) with false. cbn iota. mrun.
      replace (index s =? COMMAND_LEN) with false; [done|]. rewrite Hi, length_app in *. lia. }
    mstep E. rewrite (IH s pre rest) by done. done.
  - assert (typed (c :: cs) = c :: typed cs) as Et by (unfold typed; by rewrite filter_cons_True).
    rewrite Et in *. rewrite length_app in Hn. cbn [length] in Hn.
    destruct rest as [|d rest]; [rewrite Hb, length_app in Hl; cbn [length] in Hl; lia|].
    assert (char_handler_irq c s = Ok (tt, set_buffer (pre ++ c :: rest) (Z.of_nat (length (pre ++ [c]))) s)) as E.
    { unfold char_handler_irq. rewrite (proj2 (Z.eqb_neq c 10)), (proj2 (Z.eqb_neq c 13)) by done. cbn [negb andb]. mrun.
      rewrite Hb, Hi, set_at. mrun. cbn [index set_buffer orb].
      replace (Z.of_nat (length pre) + 1) with (Z.of_nat (length (pre ++ [c]))) by (rewrite length_app; cbn [length]; lia).
      replace (Z.of_nat (length (pre ++ [c])) =? COMMAND_LEN) with false; [done|]. symmetry. apply Z.eqb_neq. rewrite length_app. cbn [length]. lia. }
    mstep E. rewrite (IH _ (pre ++ [c]) rest); cbn [command_buffer index set_buffer].
    + unfold set_buffer. cbn [commands with_prompt command_buffer index posted screen length drop]. rewrite <- !app_assoc. done.
    + done.
    + by rewrite <- app_assoc.
    + done.
    + rewrite Hb in Hl. rewrite !length_app in *. cbn [length] in *. lia.
    + rewrite !length_app in *. cbn [length] in *. lia.
Qed.

Lemma feed_app xs ys s s' : feed xs s = Ok (tt, s') -> feed (xs ++ ys) s = feed ys s'.
Proof.
  revert s. induction xs as [|c xs IH]; intros s; cbn [app].
  { by intros [= ->]. }
  unfold feed in *. cbn [mfor]. intros H. unfold mbind, M_bind in *. destruct (char_handler_irq c s) as [[[] s1]|]; [|done]. by apply IH.
Qed.

Definition shell_ok (s : shell) : Prop := Z.of_nat (length (command_buffer s)) = COMMAND_LEN /\ index s = 0 /\ posted s = O /\ Forall command_ok (commands s).

Lemma feed_line s cs :
  shell_ok s -> Forall (λ c, c <> 10) cs -> Z.of_nat (length (typed cs)) < COMMAND_LEN ->
  feed (cs ++ [10]) s =
    Ok (tt, set_posted 1 (set_buffer (typed cs ++ 0 :: drop (S (length (typed cs))) (command_buffer s)) 0 s)).
Proof.
  intros (Hl & Hi & Hp & _) Hcs Hn. erewrite feed_app by (by apply (feed_chars cs s [] (command_buffer s))). cbn [app].
  unfold feed. cbn [mfor]. unfold char_handler_irq. change (negb (10 =? 10)) with false. cbn [andb]. mrun. change (10 =? 10) with true. cbn [orb].
  cbn [command_buffer index set_buffer].
  destruct (drop (length (typed cs)) (command_buffer s)) as [|d rest] eqn:Ed.
  { apply (f_equal length) in Ed. rewrite length_drop in Ed. cbn in Ed. lia. }
  rewrite set_at. mrun. unfold set_posted, set_buffer. cbn [commands with_prompt command_buffer index posted screen]. rewrite Hp.
  replace (drop (S (length (typed cs))) (command_buffer s)) with rest; [done|].
  rewrite <- Nat.add_1_r, <- drop_drop, Ed. done.
Qed.

Lemma says_parse t tail :
  nonzero t -> Z.of_nat (length (words t)) <= MAX_ARGS_NUM ->
  exists argv, says (shell_parse_line (t ++ 0 :: tail) MAX_ARGS_NUM) (cut t ++ 0 :: tail, argv) [] /\
    Forall2 (λ p w, string_at (cut t ++ 0 :: tail) p = Ok w) argv (words t).
Proof.
  intros Ht Hn. destruct (parse_loop_ok (length t) t [] tail [] MAX_ARGS_NUM (S (length (t ++ 0 :: tail)))) as (argv & E & Ha);
    [lia|done|rewrite length_app; cbn [length]; lia|cbn [length]; lia|]. cbn [app length] in *. change (Z.of_nat 0) with 0 in *.
  exists argv. split; [|done]. unfold shell_parse_line. eapply says_lift; [exact E|]. cbn beta iota.
  eapply says_eq; [eapply says_bind; apply says_ret|done].
Qed.

Lemma zoom_says {A} (m : W A) a o s : says m a o -> mzoom (S := shell) m s = Ok (a, set_screen (screen s ++ o) s).
Proof. intros H. exact (zoom_ok (S := shell) m s a _ (H (view s))). Qed.

Lemma decimal_short z : is_u32 z -> (length (render_int z 10 true 0 false) <= 11)%nat.
Proof.
  intros Hz. assert (forall i, is_u32 i -> length (radix 10 i) <= 10)%nat as Hr.
  { intros i Hi. apply radix_length; [lia|]. change (10 ^ Z.of_nat 10) with 10000000000. lia. }
  assert (forall l, pad 0 false l = l) as Hp.
  { intros l. unfold pad. by replace (Z.to_nat (0 - Z.of_nat (length l))) with O by lia. }
  unfold render_int. destruct (Z.eqb_spec z 0); [rewrite Hp; cbn; lia|]. destruct (true && (i32 z <? 0)); cbn [ctrue negb andb].
  - change (ctrue 0 && false) with false. cbn iota. rewrite Hp. cbn [length]. pose proof (Hr (4294967296 - z) ltac:(lia)). lia.
  - rewrite Hp. pose proof (Hr z Hz). lia.
Qed.

Lemma says_number ret : says (wprintf (chars "%d ") [AInt ret]) (Z.of_nat (length (render_int (u32 ret) 10 true 0 false ++ chars " ")))
  (render_int (u32 ret) 10 true 0 false ++ chars " ").
Proof.
  apply (says_printf [Conv false 0 (ch "d"); Lit (ch " ")]); [by repeat constructor|by repeat constructor|done|].
  rewrite length_app. pose proof (decimal_short (u32 ret) (u32_range _)). unfold INT_MAX. cbn. lia.
Qed.

Lemma prompt_ok ret s :
  ((if ctrue ret then mzoom (wprintf (chars "%d ") [AInt ret]) ;; mret tt else mret tt) ;;
   mzoom (wprintf (chars "> ") []) ;; mret tt : M shell unit) s = Ok (tt, set_screen (screen s ++ prompt ret) s).
Proof.
  assert (forall s, (mzoom (wprintf (chars "> ") []) ;; mret tt : M shell unit) s = Ok (tt, set_screen (screen s ++ chars "> ") s)) as H.
  { intros s'. erewrite bind_ok; [|apply zoom_says, says_text; [by repeat constructor|cbn; lia]]. done. }
  unfold prompt. destruct (ctrue ret).
  - rewrite bind_assoc. erewrite bind_ok; [|apply zoom_says, says_number]. rewrite bind_ret, H.
    unfold set_screen. cbn [commands with_prompt command_buffer index posted screen]. by rewrite !app_assoc.
  - rewrite bind_ret. apply H.
Qed.

(** Running the event that a line posted. *)
Lemma run_line s t tail ret o :
  nonzero t -> Z.of_nat (length (words t)) <= MAX_ARGS_NUM -> command_buffer s = t ++ 0 :: tail -> posted s = 1%nat ->
  (forall argv, Forall2 (λ p w, string_at (cut t ++ 0 :: tail) p = Ok w) argv (words t) ->
    says (shell_call_handler (commands s) (cut t ++ 0 :: tail) argv) ret o) ->
  run_event s = Ok (tt, set_screen (screen s ++ o ++ (if with_prompt s then prompt ret else []))
                          (set_posted 0 (set_buffer (cut t ++ 0 :: tail) (index s) s))).
Proof.
  intros Ht Hn Hb Hp Hcall. destruct (says_parse t tail Ht Hn) as (argv & Hparse & Ha). specialize (Hcall argv Ha).
  unfold run_event. mrun. rewrite Hp. mrun. unfold parse_command. mrun.
  assert (says (shell_handle_line (commands s) (t ++ 0 :: tail)) (ret, cut t ++ 0 :: tail) o) as Hh.
  { unfold shell_handle_line. eapply says_eq; [eapply says_bind; [exact Hparse|]; cbn [fst snd]; eapply says_bind; [exact Hcall|apply says_ret]|].
    cbn [app]. by rewrite app_nil_r. }
  erewrite bind_ok by (apply zoom_says; cbn [command_buffer commands set_posted]; rewrite Hb; apply Hh).
  cbn beta iota. mrun. cbn [with_prompt set_posted]. destruct (with_prompt s) eqn:Ew; [rewrite prompt_ok|rewrite app_nil_r];
    unfold set_screen, set_buffer, set_posted; cbn [commands with_prompt command_buffer index posted screen]; by rewrite ?app_assoc, ?Ew.
Qed.

Lemma words_short t : Z.of_nat (length t) < COMMAND_LEN -> Forall short (words t).
Proof.
  intros Hl. assert (forall s, (length s <= 1000)%nat -> Forall (λ w, length w <= 1000)%nat (words s)) as H.
  { intros s Hs. assert (length (tokens s).1 <= 1000 /\ Forall (λ w, length w <= 1000)%nat (tokens s).2)%nat as [H1 H2].
    { assert (length (tokens s).1 <= length s /\ Forall (λ w, length w <= length s)%nat (tokens s).2)%nat as [H1 H2].
      { clear Hs. induction s as [|c s [IH1 IH2]]; [split; [done|constructor]|]. cbn [tokens length]. destruct (tokens s) as [w ws]. cbn [fst snd] in *.
        assert (Forall (λ w, length w <= S (length s))%nat ws) as Hws by (eapply Forall_impl; [exact IH2|]; cbn; lia).
        destruct (is_whitespace c); cbn [fst snd length]; (split; [lia|]); [|done]. case_decide; [done|]. constructor; [lia|done]. }
      split; [lia|]. eapply Forall_impl; [exact H2|]. cbn. lia. }
    unfold words. destruct (tokens s) as [w ws]. cbn [fst snd] in *. case_decide; [done|]. by constructor. }
  unfold COMMAND_LEN in Hl. specialize (H t ltac:(lia)). pose proof (words_dark t) as Hd. rewrite Forall_forall in *.
  intros w Hw. destruct (Hd w Hw) as [Hw1 _]. specialize (H w Hw). cbn in H. split; [by apply dark_nonzero|lia].
Qed.

Lemma typed_nonzero cs : Forall (λ c, c <> 10 /\ c <> 0) cs -> nonzero (typed cs).
Proof. unfold nonzero, typed. rewrite !Forall_forall. intros H x [_ Hx]%list_elem_of_filter. by apply H. Qed.

Lemma typed_split n : forall cs, (n < length (typed cs))%nat ->
  exists cs1 c cs2, cs = cs1 ++ c :: cs2 /\ length (typed cs1) = n /\ c <> 13.
Proof.
  intros cs. revert n. induction cs as [|c cs IH]; intros n Hn; [cbn in Hn; lia|].
  unfold typed in *. destruct (decide (c = 13)) as [->|Hc].
  - rewrite filter_cons_False in Hn by (by intros ?). destruct (IH n Hn) as (cs1 & d & cs2 & -> & Hl & Hd).
    exists (13 :: cs1), d, cs2. split_and!; [done| |done]. by rewrite filter_cons_False by (by intros ?).
  - rewrite filter_cons_True in Hn by done. cbn [length] in Hn. destruct n as [|n]; [by exists [], c, cs|].
    destruct (IH n ltac:(lia)) as (cs1 & d & cs2 & -> & Hl & Hd).
    exists (c :: cs1), d, cs2. split_and!; [done| |done]. rewrite filter_cons_True by done. cbn [length]. by rewrite Hl.
Qed.

Lemma call_no_word cmds line o : Forall command_ok cmds -> shell_call_handler cmds line [] o = Err EUndef.
Proof. intros Hc. cbn [shell_call_handler]. erewrite bind_ok by (by apply says_help). done. Qed.

Lemma run_no_word s line o0 o1 : Forall command_ok (commands s) -> posted s = 1%nat ->
  shell_parse_line (command_buffer s) MAX_ARGS_NUM o0 = Ok ((line, []), o1) -> o0 = screen s -> run_event s = Err EUndef.
Proof.
  intros Hc Hp Hparse ->. unfold run_event. mrun. rewrite Hp. mrun. unfold parse_command. mrun.
  cbn [command_buffer commands set_posted]. unfold mbind at 1, M_bind at 1. unfold mzoom at 1. unfold shell_handle_line.
  change (view (set_posted 0 s)) with (screen s). erewrite bind_ok by exact Hparse. cbn [fst snd].
  erewrite bind_err by (by apply call_no_word). done.
Qed.

(** What the shell prints for the words of a line. *)
Definition answers (s : shell) (ws : list (list Z)) (ret : Z) (o : list Z) : Prop :=
  exists cmd args, ws = cmd :: args /\
    ((exists l1 c l2, commands s = l1 ++ c :: l2 /\ Forall (λ x, name x <> cmd) l1 /\ name c = cmd /\
        ret = (handler c ws).1 /\ o = reply c ws) \/
     (Forall (λ x, name x <> cmd) (commands s) /\ ret = 0 /\
        o = cmd ++ chars ": Unknown command" ++ [10] ++ help_text (commands s))).

(** C24: A line typed calls its command. When fewer than 256 characters other than
    carriage returns are received and then a line feed, the event calls the first
    command of the table whose name is the first word, with the words of the line as
    arguments, and prints what it prints, then the help of the command when the result
    is not zero; a name that is in no row prints the help of the table. The result that
    is not zero and the prompt follow. The buffer holds the line with its words cut,
    and is ready for the next line. *)
Theorem shell_line_spec s cs ret o :
  shell_ok s -> Forall (λ c, c <> 10 /\ c <> 0) cs -> Z.of_nat (length (typed cs)) < COMMAND_LEN ->
  Z.of_nat (length (words (typed cs))) <= MAX_ARGS_NUM -> answers s (words (typed cs)) ret o ->
  (feed (cs ++ [10]) ;; run_event) s =
    Ok (tt, mk_shell (commands s) (with_prompt s)
              (cut (typed cs) ++ 0 :: drop (S (length (typed cs))) (command_buffer s)) 0 0
              (screen s ++ o ++ (if with_prompt s then prompt ret else []))).
Proof.
  intros Hs Hcs Hl Hw (cmd & args & E & Ha). assert (nonzero (typed cs)) as Hnz.
  { by apply typed_nonzero. }
  pose proof (words_short _ Hl) as Hsh. rewrite E in Hsh. apply Forall_cons in Hsh as [Hcmd _].
  erewrite bind_ok by (apply feed_line; [done| |done]; eapply Forall_impl; [exact Hcs|]; by intros ? []).
  erewrite run_line; [|exact Hnz|done|done|done|].
  - done.
  - intros argv Hargv. rewrite E in *. destruct Hs as (_ & _ & _ & Hc). cbn [commands set_posted set_buffer].
    destruct Ha as [(l1 & c & l2 & El & Hl1 & Hn & -> & ->)|(Hn & -> & ->)].
    + eapply says_call; [done|done|exact El|by rewrite Hn|done].
    + by eapply says_unknown.
Qed.

(** Lines that the shell cannot take. A line without a word, and one of more than 64
    words, end in an undefined access, the name [help] being compared with a word that is
    not there; the 256th character of a line writes after the end of the buffer. *)
Theorem shell_line_errors s cs :
  shell_ok s -> Forall (λ c, c <> 10 /\ c <> 0) cs ->
  (Z.of_nat (length (typed cs)) < COMMAND_LEN ->
     words (typed cs) = [] \/ MAX_ARGS_NUM < Z.of_nat (length (words (typed cs))) ->
     (feed (cs ++ [10]) ;; run_event) s = Err EUndef) /\
  (COMMAND_LEN <= Z.of_nat (length (typed cs)) -> feed cs s = Err EUndef).
Proof.
  intros Hs Hcs. pose proof (typed_nonzero cs Hcs) as Hnz.
  assert (Forall (λ c, c <> 10) cs) as Hcs' by (eapply Forall_impl; [exact Hcs|]; by intros ? []). split.
  - intros Hl Hw. erewrite bind_ok by (by apply feed_line). destruct Hs as (_ & _ & _ & Hc).
    destruct (decide (Z.of_nat (length (words (typed cs))) <= MAX_ARGS_NUM)) as [Hm|Hm].
    + destruct Hw as [Hw|]; [|lia]. destruct (says_parse (typed cs) (drop (S (length (typed cs))) (command_buffer s)) Hnz Hm) as (argv & Hparse & Ha).
      rewrite Hw in Ha. inversion Ha; subst. eapply run_no_word; [done|done|apply Hparse|done].
    + destruct (parse_loop_many (length (typed cs)) (typed cs) [] (drop (S (length (typed cs))) (command_buffer s)) [] MAX_ARGS_NUM
        (S (length (typed cs ++ 0 :: drop (S (length (typed cs))) (command_buffer s))))) as (line & E);
        [lia|done|rewrite length_app; cbn [length]; lia|unfold MAX_ARGS_NUM in *; cbn [length]; lia|].
      eapply run_no_word; [done|done| |done]. unfold shell_parse_line. cbn [command_buffer set_posted set_buffer].
      cbn [app length] in E. change (Z.of_nat 0) with 0 in E. rewrite bind_lift, E.
      assert (says (wprintf (chars "Too many arguments: Max %u" ++ [10]) [AInt MAX_ARGS_NUM]) 27 (chars "Too many arguments: Max 64" ++ [10])) as Hm'.
      { intros o0. unfold wprintf. rewrite bind_lift.
        assert (printf (chars "Too many arguments: Max %u" ++ [10]) [AInt MAX_ARGS_NUM] =
                  Ok (27, chars "Too many arguments: Max 64" ++ [10])) as -> by (vm_compute; reflexivity). done. }
      cbn iota. rewrite bind_assoc. erewrite bind_ok by apply Hm'. done.
  - intros Hl. destruct (typed_split 255 cs) as (cs1 & c & cs2 & -> & Hl1 & Hc); [unfold COMMAND_LEN in Hl; lia|].
    apply Forall_app in Hcs' as [Hcs1 Hcs2]. apply Forall_cons in Hcs2 as [Hc10 _]. destruct Hs as (Hb & Hi & _ & _).
    erewrite feed_app by (apply (feed_chars cs1 s [] (command_buffer s)); [done|done|done|done|cbn [app]; unfold COMMAND_LEN; lia]).
    cbn [app]. rewrite Hl1. unfold feed. cbn [mfor]. apply bind_err. unfold char_handler_irq.
    rewrite (proj2 (Z.eqb_neq c 10)), (proj2 (Z.eqb_neq c 13)) by done. cbn [negb andb]. mrun. cbn [command_buffer index set_buffer].
    rewrite arr_set_ok by (rewrite length_app, Hl1, length_drop; unfold COMMAND_LEN in Hb; lia). mrun. cbn [command_buffer index set_buffer orb].
    change (Z.of_nat 255 + 1 =? COMMAND_LEN) with true. cbn iota. apply bind_err. unfold mlift.
    assert (forall l : list Z, Z.of_nat (length l) = 256 -> arr_set l (Z.of_nat 255 + 1) 0 = Err EUndef) as Hout.
    { intros l El. unfold arr_set. by rewrite decide_False by lia. }
    rewrite Hout; [done|]. rewrite length_insert, length_app, Hl1, length_drop. unfold COMMAND_LEN in Hb. lia.
Qed.

(** ** A table of one command *)

(** [led n] switches the LED and refuses another number of words. *)
Definition led_command : shell_command :=
  mk_command (chars "led") (chars "LED number") (λ ws, if decide (length ws = 2%nat) then (0, chars "ok" ++ [10]) else (1, [])).
Definition led_shell : shell := mk_shell [led_command] true (replicate 256 0) 0 0 [].

Lemma led_shell_ok : shell_ok led_shell.
Proof. split_and!; [done|done|done|]. constructor; [|constructor]. split; (split; [by repeat constructor|by vm_compute]). Qed.

Lemma shell_line_spec_witness :
  exists s', (feed (chars " led  3" ++ [13; 10]) ;; run_event) led_shell = Ok (tt, s') /\
    screen s' = chars "ok" ++ [10] ++ chars "> ".
Proof.
  assert (words (typed (chars " led  3" ++ [13])) = [chars "led"; chars "3"]) as Hw by (vm_compute; reflexivity).
  eexists. split.
  - apply (shell_line_spec led_shell (chars " led  3" ++ [13]) 0 (chars "ok" ++ [10])).
    + exact led_shell_ok.
    + by repeat constructor.
    + vm_compute. reflexivity.
    + rewrite Hw. vm_compute. discriminate.
    + rewrite Hw. exists (chars "led"), [chars "3"]. split; [reflexivity|]. left. exists [], led_command, [].
      split_and!; [reflexivity|constructor|reflexivity|reflexivity|reflexivity].
  - reflexivity.
Defined.

Lemma shell_line_errors_witness :
  (feed ([13] ++ [10]) ;; run_event) led_shell = Err EUndef /\ feed (replicate 256 97) led_shell = Err EUndef.
Proof.
  split.
  - apply (shell_line_errors led_shell [13]); [exact led_shell_ok|by repeat constructor|vm_compute; reflexivity|left; reflexivity].
  - apply (shell_line_errors led_shell (replicate 256 97)); [exact led_shell_ok|by repeat constructor|vm_compute; discriminate].
Defined.
End ShellSpec.
