(* ===== verification/Eeprom.v ===== *)
(** * EEPROM ([lib/eeprom.h], [lib/eeprom/], and the EEPROM of [drivers/stm32l1xx/flash.c])

    The chip writes aligned words only; bytes, half words and unaligned words are
    written by changing the words that hold them. The memory is a list of bytes. *)

From stdpp Require Import base numbers list.
From S2P Require Import Prelude Packer.

Module Eeprom.
Import Packer.

(** ** The memory of the chip *)

Definition FLASH_SIZE_EEPROM : Z := 4096.

(** A read that starts inside the memory and leaves it is undefined. *)
Definition flash_eeprom_read_uint8 (mem : list Z) (offset : Z) : res Z := if offset >=? FLASH_SIZE_EEPROM then Ok 0 else rd 1 mem offset.
Definition flash_eeprom_read_uint16 (mem : list Z) (offset : Z) : res Z := if offset >=? FLASH_SIZE_EEPROM then Ok 0 else rd 2 mem offset.
Definition flash_eeprom_read_uint32 (mem : list Z) (offset : Z) : res Z := if offset >=? FLASH_SIZE_EEPROM then Ok 0 else rd 4 mem offset.
Definition flash_eeprom_write_uint32 (mem : list Z) (offset word : Z) : res (list Z) :=
  if offset >=? FLASH_SIZE_EEPROM then Ok mem else wr 4 mem offset word.
Definition flash_eeprom_erase_uint32 (mem : list Z) (offset : Z) : res (list Z) :=
  if offset >=? FLASH_SIZE_EEPROM then Ok mem else wr 4 mem offset 0.

(** ** The interface *)

(** [eeprom_t] *)
Record eeprom := mk_eeprom {
  get_size : Z;
  read_uint8 : list Z -> Z -> res Z;
  read_uint16 : list Z -> Z -> res Z;
  read_uint32 : list Z -> Z -> res Z;
  write_uint8 : list Z -> Z -> Z -> res (list Z);
  write_uint16 : list Z -> Z -> Z -> res (list Z);
  write_uint32 : list Z -> Z -> Z -> res (list Z);
}.

Definition eeprom_read_uint16_ntoh (e : eeprom) (mem : list Z) (offset : Z) : res Z :=
  v ← read_uint16 e mem offset; Ok (packer_uint16_hton v).
Definition eeprom_read_uint32_ntoh (e : eeprom) (mem : list Z) (offset : Z) : res Z :=
  v ← read_uint32 e mem offset; Ok (packer_uint32_hton v).

(** ** The internal EEPROM *)

(** The word that holds a byte, and the place of the byte in it. *)
Definition base_of (offset : Z) : Z := Z.land offset (u32 (Z.lnot 3)).
Definition byte_of (offset : Z) : Z := Z.land offset 3.

(** [word &= ~mask; word |= value], for a word in memory. *)
Definition change_word (mem : list Z) (offset mask value : Z) : res (list Z) :=
  base_word ← flash_eeprom_read_uint32 mem offset;
  flash_eeprom_write_uint32 mem offset (Z.lor (Z.land base_word (u32 (Z.lnot mask))) value).

Definition internal_write_uint8 (mem : list Z) (offset value : Z) : res (list Z) :=
  let s := 8 * byte_of offset in
  change_word mem (base_of offset) (Z.shiftl 0xFF s) (u32 (Z.shiftl value s)).

Definition internal_write_uint16 (mem : list Z) (offset value : Z) : res (list Z) :=
  let base_offset := base_of offset in
  let s := 8 * byte_of offset in
  if byte_of offset <? 3 then change_word mem base_offset (Z.shiftl 0xFFFF s) (u32 (Z.shiftl value s))
  else
    mem ← change_word mem base_offset (Z.shiftl 0xFF 24) (u32 (Z.shiftl (Z.land value 0xFF) 24));
    change_word mem (u32 (base_offset + 4)) 0xFF (Z.land (Z.shiftr value 8) 0xFF).

Definition internal_write_uint32 (mem : list Z) (offset value : Z) : res (list Z) :=
  let base_offset := base_of offset in
  let byte_offset := byte_of offset in
  if byte_offset =? 0 then flash_eeprom_write_uint32 mem offset value
  else
    mem ← change_word mem base_offset (u32 (Z.shiftl 0xFFFFFFFF (byte_offset * 8))) (u32 (Z.shiftl value (byte_offset * 8)));
    change_word mem (u32 (base_offset + 4)) (Z.shiftr 0xFFFFFFFF (8 * (4 - byte_offset))) (Z.shiftr value (8 * (4 - byte_offset))).

Definition eeprom_internal : eeprom :=
  mk_eeprom FLASH_SIZE_EEPROM flash_eeprom_read_uint8 flash_eeprom_read_uint16 flash_eeprom_read_uint32
    internal_write_uint8 internal_write_uint16 internal_write_uint32.

(** The default configuration: reads give zero, writes do nothing. *)
Definition eeprom_fake : eeprom :=
  mk_eeprom 4096 (λ _ _, Ok 0) (λ _ _, Ok 0) (λ _ _, Ok 0) (λ m _ _, Ok m) (λ m _ _, Ok m) (λ m _ _, Ok m).
Definition eeprom_config : eeprom * option eeprom := (eeprom_fake, None).
Definition eeprom_get_internal (c : eeprom * option eeprom) : eeprom := c.1.
Definition eeprom_get_external (c : eeprom * option eeprom) : option eeprom := c.2.

(** ** Fields of words *)

(** A field of [n] bits at place [s] is replaced. *)
Lemma put_field w v s n : is_u32 w -> 0 <= s -> 0 <= n -> s + n <= 32 -> 0 <= v < 2 ^ n ->
  Z.lor (Z.land w (u32 (Z.lnot (Z.shiftl (Z.ones n) s)))) (Z.shiftl v s) = w / 2 ^ (s + n) * 2 ^ (s + n) + (v * 2 ^ s + w mod 2 ^ s).
Proof.
  intros Hw Hs Hn Hsn Hv. assert (0 < 2 ^ s /\ 0 < 2 ^ n) as [P1 P2] by (split; apply Z.pow_pos_nonneg; lia).
  pose proof (Z.mod_pos_bound w (2 ^ s) P1). rewrite <- (lor_disjoint_add (v * 2 ^ s + w mod 2 ^ s)); [|lia|rewrite Z.pow_add_r by lia; nia].
  rewrite <- (lor_disjoint_add (w mod 2 ^ s)) by lia. apply Z.bits_inj'. intros i Hi.
  rewrite !Z.lor_spec, Z.land_spec, u32_testbit, Z.lnot_spec by lia. rewrite <- !Z.shiftl_mul_pow2 by lia. rewrite <- Z.shiftr_div_pow2 by lia.
  destruct (decide (i < s)); [|destruct (decide (i < s + n))].
  - rewrite !Z.shiftl_spec_low by lia. rewrite Z.mod_pow2_bits_low by lia. rewrite (proj2 (Z.ltb_lt i 32)) by lia. cbn. by rewrite andb_true_r, orb_false_r.
  - rewrite !(Z.shiftl_spec _ s) by lia. rewrite (Z.shiftl_spec_low _ (s + n)), Z.mod_pow2_bits_high by lia. rewrite Z.ones_spec_low by lia. cbn. by rewrite !andb_false_r, orb_false_r.
  - rewrite !Z.shiftl_spec, Z.shiftr_spec by lia. rewrite Z.mod_pow2_bits_high by lia. rewrite Z.ones_spec_high by lia.
    rewrite <- (Z.mod_small v (2 ^ n)) by lia. rewrite Z.mod_pow2_bits_high by lia. rewrite orb_false_r. replace (i - (s + n) + (s + n)) with i by lia.
    destruct (Z.ltb_spec i 32); cbn; [by rewrite andb_true_r, !orb_false_r|]. rewrite andb_false_r, <- (u32_id w) by done. rewrite u32_testbit by lia.
    by rewrite (proj2 (Z.ltb_ge i 32)) by lia.
Qed.
(** ** Writes of parts of words *)

Definition mem_ok (mem : list Z) : Prop := length mem = 4096%nat /\ bytes_ok mem.

Lemma le_bytes_app a b v : le_bytes (a + b) v = le_bytes a v ++ le_bytes b (v / 256 ^ Z.of_nat a).
Proof.
  revert v. induction a as [|a IH]; intros v; cbn [Nat.add le_bytes app]; [by rewrite Z.div_1_r|]. f_equal. rewrite IH. do 2 f_equal.
  replace (Z.of_nat (S a)) with (1 + Z.of_nat a) by lia. rewrite Z.pow_add_r by lia. rewrite Z.div_div; [done|lia|apply Z.pow_pos_nonneg; lia].
Qed.
Lemma le_bytes_mod a v : le_bytes a (v mod 256 ^ Z.of_nat a) = le_bytes a v.
Proof.
  revert v. induction a as [|a IH]; intros v; cbn [le_bytes]; [done|]. assert (0 < 256 ^ Z.of_nat a) by (apply Z.pow_pos_nonneg; lia).
  replace (Z.of_nat (S a)) with (1 + Z.of_nat a) by lia. rewrite Z.pow_add_r by lia. change (256 ^ 1) with 256. rewrite Z.rem_mul_r by lia. f_equal.
  - rewrite (Z.mul_comm 256), Z.mod_add by lia. by rewrite Z.mod_mod by lia.
  - rewrite (Z.mul_comm 256), Z.div_add by lia. rewrite (Z.div_small (v mod 256)) by (apply Z.mod_pos_bound; lia). rewrite Z.add_0_l. apply IH.
Qed.

Lemma le_value_app a b : le_value (a ++ b) = le_value a + 256 ^ Z.of_nat (length a) * le_value b.
Proof.
  induction a as [|x a IH]; cbn [app le_value length]; [by rewrite Z.mul_1_l|]. rewrite IH.
  replace (Z.of_nat (S (length a))) with (1 + Z.of_nat (length a)) by lia. rewrite Z.pow_add_r by lia. lia.
Qed.

(** [j] bytes of a word are replaced from the [k]-th on. *)
Lemma word_field b1 b2 b3 v : bytes_ok (b1 ++ b2 ++ b3) -> (length (b1 ++ b2 ++ b3) = 4)%nat -> 0 <= v < 256 ^ Z.of_nat (length b2) ->
  le_bytes 4 (Z.lor (Z.land (le_value (b1 ++ b2 ++ b3)) (u32 (Z.lnot (Z.shiftl (Z.ones (8 * Z.of_nat (length b2))) (8 * Z.of_nat (length b1))))))
                    (Z.shiftl v (8 * Z.of_nat (length b1)))) = b1 ++ le_bytes (length b2) v ++ b3.
Proof.
  intros Hb Hl Hv. pose proof (le_value_range _ Hb) as Hr. rewrite Hl in Hr. change (256 ^ Z.of_nat 4) with 4294967296 in Hr.
  assert (forall n, 2 ^ (8 * Z.of_nat n) = 256 ^ Z.of_nat n) as Hp by (intros n; rewrite Z.pow_mul_r by lia; done).
  rewrite !length_app in Hl. rewrite put_field by (rewrite ?Hp; lia). rewrite Z.pow_add_r, !Hp by lia.
  apply Forall_app in Hb as [H1 Hb]. apply Forall_app in Hb as [H2 H3]. rewrite !le_value_app in *.
  pose proof (le_value_range _ H1) as R1. pose proof (le_value_range _ H2) as R2. pose proof (le_value_range _ H3) as R3.
  assert (bytes_ok (b1 ++ le_bytes (length b2) v ++ b3)) as Hn by (repeat apply Forall_app_2; [done|apply le_bytes_ok|done]).
  rewrite <- (le_bytes_value _ Hn). rewrite !length_app, le_bytes_length, Hl. f_equal.
  rewrite !le_value_app, le_bytes_length, le_value_bytes, (Z.mod_small v) by done.
  set (p := 256 ^ Z.of_nat (length b1)) in *. set (r := 256 ^ Z.of_nat (length b2)) in *. clearbody p r.
  rewrite (Z.mul_comm p (le_value b2 + _)), Z.mod_add by lia. rewrite (Z.mod_small (le_value b1)) by lia.
  rewrite <- Z.div_div by lia. rewrite Z.div_add by lia. rewrite (Z.div_small (le_value b1)) by lia.
  rewrite Z.add_0_l, (Z.mul_comm r), Z.div_add by lia. rewrite (Z.div_small (le_value b2)) by lia. lia.
Qed.

(** ** Patches of the memory *)

Lemma patch_inside (m x : list Z) o k n : 0 <= o -> (k + length x <= n)%nat -> o + Z.of_nat n <= Z.of_nat (length m) ->
  patch m o (take k (part m o (Z.of_nat n)) ++ x ++ drop (k + length x) (part m o (Z.of_nat n))) = patch m (o + Z.of_nat k) x.
Proof.
  intros Ho Hk Hl. unfold patch, part. rewrite Nat2Z.id. rewrite !length_app, length_take, length_drop, length_take, length_drop.
  rewrite take_take, Nat.min_l by lia. rewrite Z2Nat.inj_add, Nat2Z.id by lia. rewrite <- take_take_drop, <- !app_assoc. do 2 f_equal.
  f_equal. rewrite skipn_firstn_comm, drop_drop.
  rewrite <- (take_drop (n - (k + length x)) (drop (Z.to_nat o + k + length x) m)), drop_drop. f_equal; [f_equal|]; f_equal; lia.
Qed.

Lemma patch_next (m a b : list Z) o : 0 <= o -> o + Z.of_nat (length a) <= Z.of_nat (length m) ->
  patch (patch m o a) (o + Z.of_nat (length a)) b = patch m o (a ++ b).
Proof.
  intros Ho Hl. unfold patch. rewrite Z2Nat.inj_add, Nat2Z.id, length_app by lia.
  assert (length (take (Z.to_nat o) m ++ a) = (Z.to_nat o + length a)%nat) as Ht by (rewrite length_app, length_take; lia).
  rewrite (app_assoc (take _ m) a (drop _ m)). rewrite take_app_length' by done. rewrite drop_app_ge by lia. rewrite Ht, drop_drop, <- !app_assoc.
  do 4 f_equal. lia.
Qed.

Lemma patch_mem_ok m o bs : mem_ok m -> bytes_ok bs -> 0 <= o -> o + Z.of_nat (length bs) <= 4096 -> mem_ok (patch m o bs).
Proof.
  intros [Hl Hb] Hbs Ho Hob. split; [unfold patch; rewrite !length_app, length_take, length_drop; lia|].
  unfold patch. repeat apply Forall_app_2; [by apply Forall_take|done|by apply Forall_drop].
Qed.
#[local] Hint Resolve le_bytes_ok : core.

(** ** Writes *)

(** A word is changed where its mask tells. *)
Lemma change_word_ok mem q k j v : mem_ok mem -> 0 <= 4 * q < 4096 -> (k + j <= 4)%nat -> 0 <= v < 256 ^ Z.of_nat j ->
  change_word mem (4 * q) (Z.shiftl (Z.ones (8 * Z.of_nat j)) (8 * Z.of_nat k)) (Z.shiftl v (8 * Z.of_nat k)) =
  Ok (patch mem (4 * q + Z.of_nat k) (le_bytes j v)).
Proof.
  intros [Hl Hb] Hq Hk Hv. unfold change_word, flash_eeprom_read_uint32, flash_eeprom_write_uint32, FLASH_SIZE_EEPROM.
  destruct (Z.geb_spec (4 * q) 4096); [lia|]. unfold rd, arr_slice. rewrite decide_True by lia.
  change (mbind ?f (Ok ?x)) with (f x). cbn beta. change (mbind ?f (Ok ?x)) with (f x). cbn beta. fold (part mem (4 * q) (Z.of_nat 4)). set (b := part mem (4 * q) (Z.of_nat 4)).
  assert (length b = 4%nat) as Hb4 by (unfold b, part; rewrite length_take, length_drop; lia).
  assert (bytes_ok b) as Hbb by (apply Forall_take, Forall_drop, Hb).
  assert (take k b ++ take j (drop k b) ++ drop (k + j) b = b) as E by (rewrite <- drop_drop, take_drop; apply take_drop).
  assert (length (take k b) = k /\ length (take j (drop k b)) = j) as [L1 L2] by (rewrite !length_take, length_drop; lia).
  pose proof (word_field (take k b) (take j (drop k b)) (drop (k + j) b) v) as W. rewrite E, L1, L2 in W.
  unfold wr. rewrite W by done. unfold arr_blit. rewrite decide_True by (rewrite !length_app, length_take, le_bytes_length, length_drop; lia).
  f_equal. pose proof (patch_inside mem (le_bytes j v) (4 * q) k 4) as P. rewrite le_bytes_length in P. apply P; lia.
Qed.

(** Nothing is read or written from the end on. *)
Lemma change_word_out mem o mask v : 4096 <= o -> change_word mem o mask v = Ok mem.
Proof. intros Ho. unfold change_word, flash_eeprom_read_uint32, flash_eeprom_write_uint32, FLASH_SIZE_EEPROM. by destruct (Z.geb_spec o 4096); [|lia]. Qed.

Lemma place_of offset : is_u32 offset -> exists q k, offset = 4 * q + Z.of_nat k /\ (k < 4)%nat /\ 0 <= q < 2 ^ 30 /\ base_of offset = 4 * q /\ byte_of offset = Z.of_nat k.
Proof.
  intros Ho. exists (offset / 4), (Z.to_nat (offset mod 4)). rewrite Z2Nat.id by (apply Z.mod_pos_bound; lia).
  assert (byte_of offset = offset mod 4) as Hb by (unfold byte_of; change 3 with (Z.ones 2); rewrite Z.land_ones by lia; done).
  repeat split; [mlia..| |done]. unfold base_of.
  pose proof (put_field offset 0 0 2 Ho) as P. rewrite Z.shiftl_0_l, Z.lor_0_r in P. change (Z.shiftl (Z.ones 2) 0) with 3 in P. rewrite P by lia. change (2 ^ (0 + 2)) with 4. change (2 ^ 0) with 1. rewrite Z.mod_1_r. lia.
Qed.

(** The bytes that fit between an offset and the end. *)
Definition fitting (offset : Z) (bs : list Z) : list Z := take (Z.to_nat (4096 - offset)) bs.
Lemma fitting_all o bs : o + Z.of_nat (length bs) <= 4096 -> fitting o bs = bs.
Proof. intros Hl. apply take_ge. lia. Qed.

Lemma write_uint8_ok mem offset v : mem_ok mem -> 0 <= offset < 4096 -> is_u8 v ->
  internal_write_uint8 mem offset v = Ok (patch mem offset (le_bytes 1 v)).
Proof.
  intros Hm Ho Hv. unfold internal_write_uint8. destruct (place_of offset) as (q & k & E & Hk & Hq & -> & ->); [lia|]. rewrite E.
  rewrite <- (change_word_ok mem q k 1 v) by (done || lia). f_equal. unfold u32.
  rewrite Z.shiftl_mul_pow2 by lia. apply Z.mod_small. do 4 (destruct k as [|k]; [cbn; lia|]). lia.
Qed.

(** A shifted value loses the bits that leave the word. *)
Lemma shift_out v k : (k < 4)%nat -> u32 (Z.shiftl v (8 * Z.of_nat k)) = Z.shiftl (v mod 256 ^ Z.of_nat (4 - k)) (8 * Z.of_nat k).
Proof.
  intros Hk. unfold u32. rewrite !Z.shiftl_mul_pow2 by lia.
  replace 4294967296 with (256 ^ Z.of_nat (4 - k) * 2 ^ (8 * Z.of_nat k)) by (do 4 (destruct k as [|k]; [done|]); lia).
  apply Z.mul_mod_distr_r; [apply Z.pow_nonzero; lia|apply Z.pow_nonzero; lia].
Qed.

(** A field that crosses two words: [j] bytes in the first one, the others in the next one. *)
Lemma crossing_write mem q k n v : mem_ok mem -> 0 <= 4 * q < 4096 -> (k < 4)%nat -> (4 - k <= n <= 4)%nat -> 0 <= v < 256 ^ Z.of_nat n ->
  (m ← change_word mem (4 * q) (Z.shiftl (Z.ones (8 * Z.of_nat (4 - k))) (8 * Z.of_nat k)) (Z.shiftl (v mod 256 ^ Z.of_nat (4 - k)) (8 * Z.of_nat k));
   change_word m (u32 (4 * q + 4)) (Z.ones (8 * Z.of_nat (n - (4 - k)))) (v / 256 ^ Z.of_nat (4 - k))) =
  Ok (patch mem (4 * q + Z.of_nat k) (fitting (4 * q + Z.of_nat k) (le_bytes n v))).
Proof.
  intros Hm Hq Hk Hn Hv. pose proof (Hm) as [Hl _]. assert (0 < 256 ^ Z.of_nat (4 - k)) as Hp by (apply Z.pow_pos_nonneg; lia).
  rewrite change_word_ok by (done || lia || by apply Z.mod_pos_bound). change (mbind ?f (Ok ?x)) with (f x). cbn beta. rewrite le_bytes_mod.
  replace n with ((4 - k) + (n - (4 - k)))%nat at 2 by lia. rewrite le_bytes_app. rewrite u32_id by lia.
  destruct (decide (4 * q + 4 < 4096)) as [Hi|Hi].
  - rewrite fitting_all by (rewrite length_app, !le_bytes_length; lia).
    pose proof (change_word_ok (patch mem (4 * q + Z.of_nat k) (le_bytes (4 - k) v)) (q + 1) 0 (n - (4 - k)) (v / 256 ^ Z.of_nat (4 - k))) as C.
    rewrite !Z.mul_0_r, !Z.shiftl_0_r in C. replace (4 * (q + 1)) with (4 * q + 4) in C by lia. rewrite C.
    + f_equal. rewrite <- patch_next by (rewrite ?le_bytes_length; lia). f_equal. rewrite le_bytes_length. lia.
    + apply patch_mem_ok; [done|done|lia|rewrite le_bytes_length; lia].
    + lia.
    + lia.
    + split; [apply Z.div_pos; lia|]. apply Z.div_lt_upper_bound; [lia|]. rewrite <- Z.pow_add_r by lia. replace (Z.of_nat (4 - k) + Z.of_nat (n - (4 - k))) with (Z.of_nat n) by lia. lia.
  - rewrite change_word_out by lia. unfold fitting. rewrite take_app_length' by (rewrite le_bytes_length; lia). done.
Qed.

Lemma write_uint16_ok mem offset v : mem_ok mem -> 0 <= offset < 4096 -> is_u16 v ->
  internal_write_uint16 mem offset v = Ok (patch mem offset (fitting offset (le_bytes 2 v))).
Proof.
  intros Hm Ho Hv. unfold internal_write_uint16. destruct (place_of offset) as (q & k & E & Hk & Hq & -> & ->); [lia|].
  destruct (Z.ltb_spec (Z.of_nat k) 3).
  - rewrite fitting_all by (rewrite le_bytes_length; lia). rewrite E, <- (change_word_ok mem q k 2 v) by (done || lia). f_equal. rewrite shift_out by done.
    f_equal. apply Z.mod_small. do 3 (destruct k as [|k]; [cbn; lia|]). lia.
  - assert (k = 3%nat) as -> by lia. rewrite E, <- (crossing_write mem q 3 2 v) by (done || lia).
    change (Z.land v 255) with (Z.land v (Z.ones 8)). rewrite Z.land_ones by lia. change (2 ^ 8) with 256.
    pose proof (shift_out (v mod 256) 3) as S3. change (8 * Z.of_nat 3) with 24 in *. rewrite S3 by lia. change (256 ^ Z.of_nat (4 - 3)) with 256.
    rewrite Z.mod_mod by lia. f_equal. rewrite Z.shiftr_div_pow2 by lia. change (2 ^ 8) with 256.
    change 255 with (Z.ones 8). rewrite Z.land_ones by lia. rewrite (Z.mod_small (v / 256)) by (change (2 ^ 8) with 256; mlia). done.
Qed.

Lemma write_uint32_ok mem offset v : mem_ok mem -> 0 <= offset < 4096 -> is_u32 v ->
  internal_write_uint32 mem offset v = Ok (patch mem offset (fitting offset (le_bytes 4 v))).
Proof.
  intros Hm Ho Hv. unfold internal_write_uint32. destruct (place_of offset) as (q & k & E & Hk & Hq & -> & ->); [lia|]. pose proof Hm as [Hl _].
  destruct (Z.eqb_spec (Z.of_nat k) 0).
  - rewrite fitting_all by (rewrite le_bytes_length; lia). unfold flash_eeprom_write_uint32, FLASH_SIZE_EEPROM. destruct (Z.geb_spec offset 4096); [lia|].
    unfold wr, arr_blit. rewrite decide_True by (rewrite le_bytes_length; lia). done.
  - rewrite E, <- (crossing_write mem q k 4 v) by (done || lia). rewrite (Z.mul_comm (Z.of_nat k)), !shift_out by done.
    rewrite !Z.shiftr_div_pow2 by lia. assert (k = 1 \/ k = 2 \/ k = 3)%nat as [->|[->| ->]] by lia; done.
Qed.

(** ** What an EEPROM promises *)

(** A field of [n] bytes is written anywhere, byte by byte, the bytes past the end are dropped. *)
Definition writes_bytes (n : nat) (w : list Z -> Z -> Z -> res (list Z)) : Prop :=
  forall mem offset v, mem_ok mem -> 0 <= offset < 4096 -> 0 <= v < 256 ^ Z.of_nat n ->
    w mem offset v = Ok (patch mem offset (fitting offset (le_bytes n v))).
(** A field inside the memory is read where it is. *)
Definition reads_bytes (n : nat) (r : list Z -> Z -> res Z) : Prop :=
  forall mem offset, mem_ok mem -> 0 <= offset -> offset + Z.of_nat n <= 4096 -> (0 < n)%nat -> r mem offset = Ok (le_value (part mem offset (Z.of_nat n))).

Class EepromSpec (e : eeprom) := {
  spec_size : get_size e = 4096;
  spec_read8 : reads_bytes 1 (read_uint8 e);
  spec_read16 : reads_bytes 2 (read_uint16 e);
  spec_read32 : reads_bytes 4 (read_uint32 e);
  spec_write8 : writes_bytes 1 (write_uint8 e);
  spec_write16 : writes_bytes 2 (write_uint16 e);
  spec_write32 : writes_bytes 4 (write_uint32 e);
}.

(** What is written is read back, and the other fields are kept. *)
Lemma read_written n r w mem offset v : reads_bytes n r -> writes_bytes n w -> (0 < n)%nat ->
  mem_ok mem -> 0 <= offset -> offset + Z.of_nat n <= 4096 -> 0 <= v < 256 ^ Z.of_nat n ->
  exists mem', w mem offset v = Ok mem' /\ mem_ok mem' /\ r mem' offset = Ok v.
Proof.
  intros Hr Hw Hn Hm Ho Hl Hv. rewrite Hw by (done || lia). rewrite fitting_all by (rewrite le_bytes_length; lia).
  assert (mem_ok (patch mem offset (le_bytes n v))) as Hm' by (apply patch_mem_ok; [done|done|lia|rewrite le_bytes_length; lia]).
  eexists. split; [done|]. split; [done|]. rewrite Hr by done. f_equal. destruct Hm as [Hl4 _]. unfold part, patch.
  rewrite drop_app_length' by (rewrite length_take; lia). rewrite take_app_length' by (rewrite le_bytes_length; lia).
  rewrite le_value_bytes. by apply Z.mod_small.
Qed.
Lemma read_kept n m r w mem offset offset' v : reads_bytes n r -> writes_bytes m w -> (0 < n)%nat -> (0 < m)%nat ->
  mem_ok mem -> 0 <= offset < 4096 -> 0 <= v < 256 ^ Z.of_nat m -> 0 <= offset' -> offset' + Z.of_nat n <= 4096 ->
  offset' + Z.of_nat n <= offset \/ offset + Z.of_nat m <= offset' ->
  exists mem', w mem offset v = Ok mem' /\ mem_ok mem' /\ r mem' offset' = r mem offset'.
Proof.
  intros Hr Hw Hn Hm0 Hm Ho Hv Ho' Hl' Hd. rewrite Hw by done. set (bs := fitting offset (le_bytes m v)).
  assert (Z.of_nat (length bs) <= 4096 - offset /\ (length bs <= m)%nat) as [B1 B2] by (unfold bs, fitting; rewrite length_take, le_bytes_length; lia).
  assert (mem_ok (patch mem offset bs)) as Hm' by (apply patch_mem_ok; [done|apply Forall_take, le_bytes_ok|lia|lia]).
  eexists. split; [done|]. split; [done|]. rewrite !Hr by done. do 2 f_equal. destruct Hm as [Hl4 _].
  apply list_eq. intros i. unfold part, patch. destruct (decide (i < n)%nat) as [Hi|Hi]; [|by rewrite !lookup_take_ge by lia].
  rewrite !lookup_take_lt by lia. rewrite !lookup_drop. destruct Hd as [Hd|Hd].
  - rewrite lookup_app_l by (rewrite length_take; lia). by rewrite lookup_take_lt by lia.
  - rewrite lookup_app_r by (rewrite length_take; lia). rewrite length_take. rewrite lookup_app_r by lia. rewrite lookup_drop. f_equal. lia.
Qed.

Lemma reads_bytes_rd n r : (forall mem o, r mem o = if o >=? FLASH_SIZE_EEPROM then Ok 0 else rd n mem o) -> reads_bytes n r.
Proof.
  intros E mem o [Hl _] Ho Hn Hp. rewrite E. unfold FLASH_SIZE_EEPROM. destruct (Z.geb_spec o 4096); [lia|].
  unfold rd, arr_slice. by rewrite decide_True by lia.
Qed.

(** The internal EEPROM keeps the promise. *)
#[global] Instance eeprom_internal_spec : EepromSpec eeprom_internal.
Proof.
  split; [done|by apply reads_bytes_rd..| | |]; intros mem offset v Hm Ho Hv; cbn [eeprom_internal write_uint8 write_uint16 write_uint32].
  - rewrite write_uint8_ok by done. by rewrite fitting_all by (cbn [le_bytes length]; lia).
  - by apply write_uint16_ok.
  - by apply write_uint32_ok.
Qed.

(** The default one reads zero whatever was written. *)
Lemma eeprom_fake_not : ~ EepromSpec eeprom_fake.
Proof.
  intros S. destruct (read_written 1 (read_uint8 eeprom_fake) (write_uint8 eeprom_fake) (replicate 4096 0) 0 7) as (m & _ & _ & E);
    [apply S|apply S|lia|split; [apply length_replicate|by apply Forall_replicate]|lia|lia|cbn; lia|]. discriminate E.
Qed.

(** ** The interface over any EEPROM that keeps the promise *)

(** A value written in network order is read back. *)
Lemma read_uint16_ntoh_written e mem offset v : EepromSpec e -> mem_ok mem -> 0 <= offset -> offset + 2 <= 4096 -> is_u16 v ->
  exists mem', write_uint16 e mem offset (packer_uint16_hton v) = Ok mem' /\ mem_ok mem' /\ eeprom_read_uint16_ntoh e mem' offset = Ok v.
Proof.
  intros S Hm Ho Hl Hv. destruct (ntoh16_hton16 v Hv) as [R Hr].
  destruct (read_written 2 _ _ mem offset (packer_uint16_hton v) spec_read16 spec_write16) as (m & W & Hm' & E); [lia|done..|].
  exists m. split; [done|]. split; [done|]. unfold eeprom_read_uint16_ntoh. rewrite E. change (mbind ?f (Ok ?x)) with (f x). cbn beta. by f_equal.
Qed.
Lemma read_uint32_ntoh_written e mem offset v : EepromSpec e -> mem_ok mem -> 0 <= offset -> offset + 4 <= 4096 -> is_u32 v ->
  exists mem', write_uint32 e mem offset (packer_uint32_hton v) = Ok mem' /\ mem_ok mem' /\ eeprom_read_uint32_ntoh e mem' offset = Ok v.
Proof.
  intros S Hm Ho Hl Hv. destruct (ntoh32_hton32 v Hv) as [R Hr].
  destruct (read_written 4 _ _ mem offset (packer_uint32_hton v) spec_read32 spec_write32) as (m & W & Hm' & E); [lia|done..|].
  exists m. split; [done|]. split; [done|]. unfold eeprom_read_uint32_ntoh. rewrite E. change (mbind ?f (Ok ?x)) with (f x). cbn beta. by f_equal.
Qed.

(** ** Offsets outside the memory *)

(** Writes outside do nothing, but the last bytes of the offsets wrap to the first word. *)
Theorem write_uint16_outside mem offset v : mem_ok mem -> 4096 <= offset -> is_u32 offset -> is_u16 v ->
  internal_write_uint16 mem offset v = Ok (if offset =? 0xFFFFFFFF then patch mem 0 (le_bytes 1 (v / 256)) else mem).
Proof.
  intros Hm Ho Hu Hv. unfold internal_write_uint16. destruct (place_of offset) as (q & k & E & Hk & Hq & -> & ->); [done|].
  destruct (Z.ltb_spec (Z.of_nat k) 3).
  - rewrite change_word_out by lia. destruct (Z.eqb_spec offset 0xFFFFFFFF); [|done]. lia.
  - rewrite change_word_out by lia. change (mbind ?f (Ok ?x)) with (f x). cbn beta. destruct (Z.eqb_spec offset 0xFFFFFFFF) as [->|Hn].
    + replace (u32 (4 * q + 4)) with 0 by (assert (4 * q + 4 = 4294967296) as -> by lia; done).
      rewrite Z.shiftr_div_pow2 by lia. change 255 with (Z.ones 8). rewrite Z.land_ones by lia. change (2 ^ 8) with 256.
      rewrite (Z.mod_small (v / 256)) by mlia. apply (change_word_ok mem 0 0 1); [done|lia|lia|mlia].
    + rewrite u32_id by lia. apply change_word_out. lia.
Qed.
Lemma write_uint16_outside_witness :
  internal_write_uint16 (replicate 4096 0) 0xFFFFFFFF 0x1234 = Ok (patch (replicate 4096 0) 0 (le_bytes 1 (0x1234 / 256))).
Proof. rewrite (write_uint16_outside (replicate 4096 0) 0xFFFFFFFF 0x1234); [reflexivity|split; [reflexivity|by apply Forall_replicate]|lia|lia|lia]. Defined.

(** ** The first byte of a half word stays in its word, the other goes to the next one. *)
Example write_crossing : forall m, internal_write_uint16 (replicate 4096 0) 3 0xABCD = Ok m -> take 6 m = [0; 0; 0; 0xCD; 0xAB; 0].
Proof. intros m E. vm_compute in E. injection E as <-. reflexivity. Qed.
End Eeprom.
