(* ===== verification/Oml.v ===== *)
(** * Measurement library ([lib/oml/])

    Applications announce measurement points and inject samples; each call sends a
    frame on the serial line. A C string is the list of its characters. The bytes of a
    value are those of the union [OmlValueU] on the little-endian target of 32 bits:
    a pointer takes four bytes. [snprintf] is the one of [lib/printf]. *)

From stdpp Require Import base numbers list.
From S2P Require Import Prelude Dragon4 Printf.

Module Oml.
Import Printf.

(** ** Data *)

Definition FRAME_LENGTH_MAX : Z := 512.
Definition SYNC : Z := 0x80.

Inductive CommandT := INIT | ADD_MP | START | INJECT | INJECT_METADATA | PROCESS | CLOSE.
Definition command_code (t : CommandT) : Z :=
  match t with INIT => 1 | ADD_MP => 2 | START => 3 | INJECT => 4 | INJECT_METADATA => 5 | PROCESS => 6 | CLOSE => 7 end.

Inductive OmlValueT :=
  | OML_DB_PRIMARY_KEY | OML_INPUT_VALUE | OML_UNKNOWN_VALUE
  | OML_DOUBLE_VALUE | OML_LONG_VALUE | OML_PADDING1_VALUE | OML_STRING_VALUE | OML_INT32_VALUE | OML_UINT32_VALUE
  | OML_INT64_VALUE | OML_UINT64_VALUE | OML_BLOB_VALUE | OML_GUID_VALUE | OML_BOOL_VALUE | OML_LAST_VALUE.
#[global] Instance OmlValueT_eq_dec : EqDecision OmlValueT.
Proof. solve_decision. Defined.
Definition value_code (t : OmlValueT) : Z :=
  match t with
  | OML_DB_PRIMARY_KEY => -3 | OML_INPUT_VALUE => -2 | OML_UNKNOWN_VALUE => -1
  | OML_DOUBLE_VALUE => 0 | OML_LONG_VALUE => 1 | OML_PADDING1_VALUE => 2 | OML_STRING_VALUE => 3 | OML_INT32_VALUE => 4 | OML_UINT32_VALUE => 5
  | OML_INT64_VALUE => 6 | OML_UINT64_VALUE => 7 | OML_BLOB_VALUE => 8 | OML_GUID_VALUE => 9 | OML_BOOL_VALUE => 10 | OML_LAST_VALUE => 11
  end.

Record OmlMPDef := mk_def { def_name : list Z; param_types : OmlValueT }.

(** [OmlMP]: the name is a row of [mps_names]; the definitions are the entries of the
    array before the one without a name. *)
Record OmlMP := mk_mp { mp_name : option nat; param_defs : option (list OmlMPDef); param_count : Z; mp_next : option nat }.

Definition MAX_MP : Z := 16.
Definition MAX_NAME_LEN : Z := 64.
Definition STR_MAX_NUM : Z := 8.
Definition STR_MAX_LEN : Z := 16.
Definition sizeof_OmlValueU : Z := 16.

Inductive uart_call := uart_enable (baudrate : Z) | uart_transfer (bytes : list Z).

(** The static variables of [omlmp.c] and [omlcore.c], and what went to the serial line. *)
Record oml := mk_oml {
  mps_pool : list OmlMP;
  mps_names : list (list Z);
  mps_count : Z;
  str_pool : list Z;
  str_index : Z;
  uart : list uart_call;
}.
Abbreviation OM := (M oml).

Definition set_mps_pool x s := mk_oml x (mps_names s) (mps_count s) (str_pool s) (str_index s) (uart s).
Definition set_mps_names x s := mk_oml (mps_pool s) x (mps_count s) (str_pool s) (str_index s) (uart s).
Definition set_mps_count x s := mk_oml (mps_pool s) (mps_names s) x (str_pool s) (str_index s) (uart s).
Definition set_str_pool x s := mk_oml (mps_pool s) (mps_names s) (mps_count s) x (str_index s) (uart s).
Definition set_str_index x s := mk_oml (mps_pool s) (mps_names s) (mps_count s) (str_pool s) x (uart s).
Definition add_uart c s := mk_oml (mps_pool s) (mps_names s) (mps_count s) (str_pool s) (str_index s) (uart s ++ [c]).

(** ** Frames: the bytes of the union [FrameT]

    The synchronisation byte, the length, the type and the payload. *)

Definition frame_len (f : list Z) : res Z := arr_get f 1.
Definition cmd_init (f : list Z) (t : CommandT) : res (list Z) :=
  f ← arr_set f 0 SYNC; f ← arr_set f 1 1; arr_set f 2 (command_code t).

Definition write_bytes (f source : list Z) (len : Z) : res (list Z) :=
  n ← frame_len f;
  bs ← arr_slice source 0 len;
  f ← arr_blit f (3 + n - 1) bs;
  arr_set f 1 (u8 (n + len)).

Definition write_byte (f : list Z) (c : Z) : res (list Z) :=
  n ← frame_len f;
  f ← arr_set f 1 (u8 (n + 1));
  arr_set f (3 + n - 1) (u8 c).

Definition write_string (f str : list Z) : res (list Z) :=
  let len := u8 (Z.of_nat (length str)) in
  f ← write_byte f len; write_bytes f (str ++ [0]) len.

Definition cmd_send (f : list Z) : OM unit :=
  n ← mlift (frame_len f);
  bs ← mlift (arr_slice f 0 (n + 2));
  mmod (add_uart (uart_transfer bs)).

Fixpoint write_defs (f : list Z) (defs : list OmlMPDef) : res (list Z) :=
  match defs with
  | [] => Ok f
  | d :: defs =>
      f ← write_string f (def_name d);
      f ← write_byte f (value_code (param_types d));
      write_defs f defs
  end.
(** The loop stops at [param_count]; without definitions the array is read at NULL. *)
Definition write_mpdef (f : list Z) (mpdef : option (list OmlMPDef)) (count : Z) : res (list Z) :=
  f ← write_byte f count;
  if count =? 0 then Ok f
  else match mpdef with
  | Some defs => if Z.of_nat (length defs) <? count then Err EUndef else write_defs f (take (Z.to_nat count) defs)
  | None => Err EUndef
  end.

(** ** Measurement points *)

Definition OmlMP_clear_all : OM unit := mmod (set_mps_count 0).

Definition OmlMP_get : OM (option nat) :=
  s ← mget;
  if mps_count s <? MAX_MP then mmod (set_mps_count (u8 (mps_count s + 1))) ;; mret (Some (Z.to_nat (mps_count s)))
  else mret None.

Definition OmlMP_mpname_cpy (mpname : list Z) : OM nat :=
  s ← mget;
  x ← mlift (snprintf (replicate (Z.to_nat MAX_NAME_LEN) 0) MAX_NAME_LEN mpname []);
  l ← mlift (arr_set (mps_names s) (mps_count s - 1) x.2);
  mmod (set_mps_names l) ;;
  mret (Z.to_nat (mps_count s - 1)).

(** Each entry counts one, on eight bits. *)
Definition OmlMP_set_param (mp : OmlMP) (mp_def : option (list OmlMPDef)) : OmlMP :=
  mk_mp (mp_name mp) mp_def (fold_left (λ n _, u8 (n + 1)) (default [] mp_def) 0) (mp_next mp).

Definition OmlMP_create (name : list Z) (mp_def : option (list OmlMPDef)) : OM (option nat) :=
  mp ← OmlMP_get;
  match mp with
  | None => mret None
  | Some i =>
      row ← OmlMP_mpname_cpy name;
      s ← mget;
      l ← mlift (arr_set (mps_pool s) (Z.of_nat i) (OmlMP_set_param (mk_mp (Some row) None 0 None) mp_def));
      mmod (set_mps_pool l) ;;
      mret (Some i)
  end.

(** The point behind a pointer, and its name. *)
Definition get_mp (mp : option nat) : OM OmlMP :=
  match mp with None => mlift (Err EUndef) | Some i => s ← mget; mlift (arr_get (mps_pool s) (Z.of_nat i)) end.
Definition get_mp_name (mp : OmlMP) : OM (list Z) :=
  match mp_name mp with
  | None => mlift (Err EUndef)
  | Some r => s ← mget; row ← mlift (arr_get (mps_names s) (Z.of_nat r)); mlift (c_string row)
  end.

Definition write_mp (f : list Z) (mp : OmlMP) : OM (list Z) := name ← get_mp_name mp; mlift (write_string f name).

(** ** Values *)

Section Memory.
(** The memory: the application's, and the place of the pool of strings in it. What a
    local variable holds before it is written is arbitrary. *)
Context (app_mem : Z -> res Z) (str_pool_addr : Z) (stack : list Z).

Definition load1 (s : oml) (a : Z) : res Z :=
  if (str_pool_addr <=? a) && (a <? str_pool_addr + Z.of_nat (length (str_pool s))) then arr_get (str_pool s) (a - str_pool_addr) else app_mem a.
Fixpoint load (s : oml) (a : Z) (n : nat) : res (list Z) :=
  match n with O => Ok [] | Datatypes.S n => x ← load1 s a; l ← load s (a + 1) n; Ok (x :: l) end.

(** The fields of [OmlString] and of [OmlBlob]. *)
Definition value_ptr (value : list Z) : res Z := rd 4 value 0.
Definition value_length (value : list Z) : res Z := rd 1 value 4.

Definition write_OmlString (f value : list Z) : OM (list Z) :=
  len ← mlift (value_length value);
  f ← mlift (write_byte f len);
  p ← mlift (value_ptr value);
  s ← mget;
  bs ← mlift (load s p (Z.to_nat len));
  mlift (write_bytes f bs len).
Definition write_OmlBlob := write_OmlString.

(** The bytes of a type that is copied from the union. *)
Definition value_size (t : OmlValueT) : Z :=
  match t with
  | OML_DOUBLE_VALUE | OML_LONG_VALUE | OML_INT64_VALUE | OML_UINT64_VALUE | OML_GUID_VALUE => 8
  | OML_INT32_VALUE | OML_UINT32_VALUE => 4
  | OML_BOOL_VALUE => 1
  | _ => sizeof_OmlValueU
  end.
Definition write_value (f : list Z) (t : OmlValueT) (value : list Z) : OM (list Z) :=
  match t with
  | OML_STRING_VALUE => write_OmlString f value
  | OML_BLOB_VALUE => write_OmlBlob f value
  | _ => mlift (write_bytes f value (value_size t))
  end.

(** As many values as definitions are read. *)
Fixpoint write_values_loop (f : list Z) (defs : list OmlMPDef) (values : list (list Z)) : OM (list Z) :=
  match defs, values with
  | [], _ => mret f
  | d :: defs, v :: values => f ← write_value f (param_types d) v; write_values_loop f defs values
  | _ :: _, [] => mlift (Err EUndef)
  end.
Definition write_values (f : list Z) (mp : OmlMP) (values : list (list Z)) : OM (list Z) :=
  match param_defs mp with None => mlift (Err EUndef) | Some defs => write_values_loop f defs values end.

(** ** Setting values *)

Definition omlc_zero_array (n : nat) : list (list Z) := replicate n (replicate 16 0).
Definition omlc_set (n : nat) (value : list Z) (v : Z) : res (list Z) := wr n value 0 v.

Definition OmlString_reset (value : list Z) : res (list Z) :=
  v ← wr 1 value 5 0; v ← wr 1 v 4 0; wr 4 v 0 0.
Definition OmlString_copy (value : list Z) (str : option (list Z)) : OM (list Z) :=
  match str with
  | None => mret value
  | Some str =>
      s ← mget;
      v ← mlift (wr 1 value 5 STR_MAX_LEN);
      v ← mlift (wr 4 v 0 (str_pool_addr + str_index s * STR_MAX_LEN));
      row ← mlift (arr_slice (str_pool s) (str_index s * STR_MAX_LEN) STR_MAX_LEN);
      x ← mlift (snprintf row STR_MAX_LEN str []);
      pool ← mlift (arr_blit (str_pool s) (str_index s * STR_MAX_LEN) x.2);
      v ← mlift (wr 1 v 4 x.1);
      mmod (set_str_pool pool) ;;
      mmod (set_str_index (Z.rem (str_index s + 1) STR_MAX_NUM)) ;;
      mret v
  end.
Definition omlc_set_string (value : list Z) (str : option (list Z)) : OM (list Z) :=
  v ← mlift (OmlString_reset value); OmlString_copy v str.

(** ** The interface *)

Definition send_type (t : CommandT) : OM unit := f ← mlift (cmd_init stack t); cmd_send f.

Definition omlc_init (appName : list Z) : OM Z :=
  mmod (add_uart (uart_enable 500000)) ;;
  f ← mlift (cmd_init stack INIT);
  f ← mlift (write_string f appName);
  cmd_send f ;;
  mret 0.

Definition omlc_add_mp (name : list Z) (mp_def : option (list OmlMPDef)) : OM (option nat) :=
  mp ← OmlMP_create name mp_def;
  f ← mlift (cmd_init stack ADD_MP);
  f ← mlift (write_string f name);
  p ← get_mp mp;
  f ← mlift (write_mpdef f mp_def (param_count p));
  cmd_send f ;;
  mret mp.

Definition omlc_start : OM Z := send_type START ;; mret 0.

Definition omlc_inject (mp : option nat) (values : list (list Z)) : OM Z :=
  f ← mlift (cmd_init stack INJECT);
  p ← get_mp mp;
  f ← write_mp f p;
  f ← write_values f p values;
  cmd_send f ;;
  mret 0.

Definition omlc_inject_metadata (mp : option nat) (key : list Z) (value : list Z) (t : OmlValueT) (fname : list Z) : OM Z :=
  f ← mlift (cmd_init stack INJECT_METADATA);
  p ← get_mp mp;
  f ← write_mp f p;
  f ← mlift (write_string f key);
  f ← write_value f t value;
  f ← mlift (write_string f fname);
  cmd_send f ;;
  mret 0.

Definition omlc_guid_generate : Z := 42.

(** The frame is built and not sent. *)
Definition omlc_process (mp : option nat) (values : list (list Z)) : OM unit :=
  f ← mlift (cmd_init stack PROCESS);
  p ← get_mp mp;
  f ← write_mp f p;
  write_values f p values ;;
  mret tt.

Definition omlc_close : OM Z := send_type CLOSE ;; OmlMP_clear_all ;; mret 0.
End Memory.

(** The variables at the start. *)
Definition oml_start : oml :=
  mk_oml (replicate 16 (mk_mp None None 0 None)) (replicate 16 (replicate 64 0)) 0 (replicate 128 0) 0 [].
End Oml.
