(* ===== verification/OmlSpec.v ===== *)
(** * Frames of the measurement library

    What is sent, that a receiver finds in it the names and the values given, that the
    buffer of a frame is never left, and what long names and strings become. *)

From stdpp Require Import base numbers list.
From Stdlib Require Strings.String Strings.Ascii.
From S2P Require Import Prelude Dragon4 Printf PrintfSpec Oml.

Module OmlSpec.
Import Printf PrintfSpec Oml.
Import Strings.String.StringSyntax Strings.Ascii.AsciiSyntax.

Abbreviation len l := (Z.of_nat (length l)).

(** ** A frame with its payload *)

Definition frame (t : CommandT) (p : list Z) : list Z := [SYNC; 1 + len p; command_code t] ++ p.
Definition frame_is (f : list Z) (t : CommandT) (p : list Z) : Prop :=
  (exists rest, f = frame t p ++ rest) /\ length f = 514%nat /\ 1 + len p <= 255.
Definition enc_string (s : list Z) : list Z := len s :: s.

Lemma rbind_ok {A B} (a : A) (k : A -> res B) : (Ok a ≫= k) = k a.
Proof. done. Qed.

Lemma frame_is_len f t p : frame_is f t p -> frame_len f = Ok (1 + len p).
Proof. intros ((rest & ->) & _ & _). done. Qed.

Lemma cmd_init_ok stack t : length stack = 514%nat -> exists f, cmd_init stack t = Ok f /\ frame_is f t [].
Proof.
  intros Hl. destruct stack as [|a [|b [|c stack]]]; [done..|]. unfold cmd_init.
  rewrite arr_set_ok by lia. rewrite rbind_ok. rewrite arr_set_ok by (rewrite length_insert; lia). rewrite rbind_ok.
  rewrite arr_set_ok by (rewrite !length_insert; lia). eexists. split; [done|]. split; [by exists stack|]. split; [by rewrite !length_insert|done].
Qed.

(** A write that fits adds its bytes at the end. *)
Lemma write_bytes_fit f t p bs more : frame_is f t p -> 1 + len p + len bs <= 255 ->
  exists f', write_bytes f (bs ++ more) (len bs) = Ok f' /\ frame_is f' t (p ++ bs).
Proof.
  intros Hf Hl. unfold write_bytes. rewrite (frame_is_len _ _ _ Hf), rbind_ok. destruct Hf as ((rest & ->) & Hn & Hp).
  unfold arr_slice. rewrite decide_True by (rewrite length_app; lia). rewrite rbind_ok. change (Z.to_nat 0) with 0%nat. rewrite drop_0, Nat2Z.id, take_app_length.
  unfold frame in *. rewrite !length_app in Hn. cbn [length] in Hn.
  rewrite <- (take_drop (length bs) rest). rewrite arr_blit_at by (rewrite ?length_app, ?length_take; cbn [length]; lia). rewrite rbind_ok.
  rewrite arr_set_ok by (cbn [app length]; lia). eexists. split; [done|]. cbn [app]. rewrite u8_id by lia. split; [|split].
  - exists (drop (length bs) rest). unfold frame. cbn [app]. change (Z.to_nat 1) with 1%nat. cbn [insert list_insert]. rewrite length_app, <- app_assoc. do 2 f_equal. lia.
  - rewrite length_insert. cbn [length]. rewrite !length_app, length_drop. lia.
  - rewrite length_app. lia.
Qed.

Lemma insert_after {A} (a b c x y : A) p rest : <[(3 + length p)%nat := y]> (a :: b :: c :: p ++ x :: rest) = a :: b :: c :: p ++ y :: rest.
Proof.
  change (<[(3 + length p)%nat := y]> (a :: b :: c :: p ++ x :: rest)) with (a :: b :: c :: <[length p := y]> (p ++ x :: rest)).
  by rewrite insert_app_r_alt, Nat.sub_diag by lia.
Qed.
Lemma write_byte_ok f t p c : frame_is f t p -> len p + 2 <= 255 -> exists f', write_byte f c = Ok f' /\ frame_is f' t (p ++ [u8 c]).
Proof.
  intros Hf Hl. unfold write_byte. rewrite (frame_is_len _ _ _ Hf), rbind_ok. destruct Hf as ((rest & ->) & Hn & Hp).
  unfold frame in *. rewrite !length_app in Hn. cbn [length] in Hn. destruct rest as [|x rest]; [cbn [length] in Hn; lia|].
  rewrite arr_set_ok by (rewrite !length_app; cbn [length]; lia). rewrite rbind_ok.
  rewrite arr_set_ok by (rewrite length_insert, !length_app; cbn [length]; lia). eexists. split; [done|].
  change (Z.to_nat 1) with 1%nat. cbn [app insert list_insert]. replace (Z.to_nat (3 + (1 + len p) - 1)) with (3 + length p)%nat by lia.
  rewrite insert_after. rewrite u8_id by lia. split; [|split].
  - exists rest. unfold frame. cbn [app]. rewrite length_app, <- app_assoc. cbn [length app]. do 2 f_equal. lia.
  - cbn [length] in *. rewrite !length_app. cbn [length]. lia.
  - rewrite length_app. cbn [length]. lia.
Qed.

Lemma write_string_ok f t p s : frame_is f t p -> 1 + len p + (1 + len s) <= 255 ->
  exists f', write_string f s = Ok f' /\ frame_is f' t (p ++ enc_string s).
Proof.
  intros Hf Hl. unfold write_string. rewrite u8_id by lia. destruct (write_byte_ok f t p (len s) Hf) as (f1 & -> & H1); [lia|]. rewrite rbind_ok.
  rewrite u8_id in H1 by lia. destruct (write_bytes_fit f1 t _ s [0] H1) as (f2 & -> & H2); [rewrite length_app; cbn [length]; lia|].
  exists f2. split; [done|]. by rewrite <- app_assoc in H2.
Qed.

Lemma cmd_send_ok f t p s : frame_is f t p -> cmd_send f s = Ok (tt, add_uart (uart_transfer (frame t p)) s).
Proof.
  intros Hf. unfold cmd_send. rewrite (frame_is_len _ _ _ Hf). mrun. destruct Hf as ((rest & ->) & Hn & Hp).
  unfold arr_slice. rewrite decide_True by (rewrite length_app; unfold frame; cbn [app length]; lia). mrun.
  change (Z.to_nat 0) with 0%nat. rewrite drop_0. rewrite take_app_length' by (unfold frame; cbn [app length]; lia). done.
Qed.

(** ** The buffer is never left *)

(** The length of a frame has eight bits: whatever is written, it starts in the first
    258 bytes and ends in the buffer. *)
Definition frame_raw (f : list Z) : Prop := length f = 514%nat /\ exists n, frame_len f = Ok n /\ is_u8 n.

Lemma set_len_raw f n : length f = 514%nat -> exists f', arr_set f 1 (u8 n) = Ok f' /\ frame_raw f'.
Proof.
  intros Hl. rewrite arr_set_ok by lia. eexists. split; [done|]. split; [by rewrite length_insert|]. exists (u8 n). split; [|apply u8_range].
  unfold frame_len. rewrite (arr_get_insert f 1 1) by lia. done.
Qed.
Lemma write_bytes_raw f source n : frame_raw f -> is_u8 n -> n <= len source -> exists f', write_bytes f source n = Ok f' /\ frame_raw f'.
Proof.
  intros (Hl & k & E & Hk) Hn Hs. unfold write_bytes. rewrite E, rbind_ok. unfold arr_slice. rewrite decide_True by lia. rewrite rbind_ok.
  change (Z.to_nat 0) with 0%nat. rewrite drop_0. destruct (arr_blit_ok f (3 + k - 1) (take (Z.to_nat n) source)) as [f1 E1]; [lia|rewrite length_take; lia|].
  rewrite E1, rbind_ok. apply set_len_raw. by rewrite (arr_blit_length _ _ _ _ E1).
Qed.
Lemma write_byte_raw f c : frame_raw f -> exists f', write_byte f c = Ok f' /\ frame_raw f'.
Proof.
  intros (Hl & k & E & Hk). unfold write_byte. rewrite E, rbind_ok. destruct (set_len_raw f (k + 1) Hl) as (f1 & -> & Hl1 & n & E1 & Hn). rewrite rbind_ok.
  rewrite arr_set_ok by lia. eexists. split; [done|]. split; [by rewrite length_insert|]. exists n. split; [|done].
  unfold frame_len in *. rewrite arr_get_insert by lia. by destruct (Z.eqb_spec 1 (3 + k - 1)); [lia|].
Qed.
Lemma write_string_raw f s : frame_raw f -> exists f', write_string f s = Ok f' /\ frame_raw f'.
Proof.
  intros Hf. unfold write_string. destruct (write_byte_raw f (u8 (len s)) Hf) as (f1 & -> & H1). rewrite rbind_ok.
  apply write_bytes_raw; [done|apply u8_range|]. rewrite length_app. cbn [length]. pose proof (u8_range (len s)). assert (u8 (len s) <= len s) by mlia. lia.
Qed.
Lemma write_defs_raw f defs : frame_raw f -> exists f', write_defs f defs = Ok f' /\ frame_raw f'.
Proof.
  revert f. induction defs as [|d defs IH]; intros f Hf; cbn [write_defs]; [by exists f|].
  destruct (write_string_raw f (def_name d) Hf) as (f1 & -> & H1). rewrite rbind_ok.
  destruct (write_byte_raw f1 (value_code (param_types d)) H1) as (f2 & -> & H2). rewrite rbind_ok. by apply IH.
Qed.
Lemma cmd_send_raw f s : frame_raw f -> exists bs, cmd_send f s = Ok (tt, add_uart (uart_transfer bs) s) /\ (2 <= length bs <= 257)%nat.
Proof.
  intros (Hl & k & E & Hk). unfold cmd_send. rewrite E. mrun. unfold arr_slice. rewrite decide_True by lia. mrun.
  eexists. split; [done|]. rewrite length_take, length_drop. lia.
Qed.

(** ** Strings *)

Definition plain (s : list Z) : Prop := Forall (λ c, c <> 0 /\ c <> ch "%") s.

Lemma encode_plain s : encode (Lit <$> s) = s.
Proof. induction s as [|c s IH]; [done|]. unfold encode in *. cbn [fmap list_fmap concat encode1 app]. by rewrite IH. Qed.
Lemma render_plain s : render (Lit <$> s) [] = Some s.
Proof. induction s as [|c s IH]; [done|]. cbn [fmap list_fmap render]. by rewrite IH. Qed.

(** A string without a conversion as a format is copied, cut to the size. *)
Lemma snprintf_plain b count s : plain s -> len s <= INT_MAX -> 1 <= count <= len b -> count <= INT_MAX ->
  snprintf b count s [] = Ok (len s, take (Z.to_nat (count - 1)) s ++ [0] ++ drop (S (length (take (Z.to_nat (count - 1)) s))) b).
Proof.
  intros Hs Hl Hc Hm. pose proof (snprintf_text b count (Lit <$> s) [] s) as T. rewrite encode_plain in T. apply T; [|constructor|apply render_plain|done..].
  apply Forall_fmap. exact Hs.
Qed.
Lemma plain_nonzero s n : plain s -> Forall (λ c, c <> 0) (take n s).
Proof. intros Hs. apply Forall_take. eapply Forall_impl; [exact Hs|]. by intros c [? _]. Qed.

(** ** Measurement points *)

Record oml_ok (s : oml) : Prop := {
  ok_pool : length (mps_pool s) = 16%nat;
  ok_names : length (mps_names s) = 16%nat;
  ok_count : 0 <= mps_count s <= 16;
  ok_str : length (str_pool s) = 128%nat;
  ok_index : 0 <= str_index s < 8;
}.

Lemma oml_start_ok : oml_ok oml_start.
Proof. by split. Qed.

(** The point [i] has the name [name] and the definitions [d]. *)
Definition point (s : oml) (i : nat) (name : list Z) (d : option (list OmlMPDef)) : Prop :=
  mps_pool s !! i = Some (mk_mp (Some i) d (u8 (len (default [] d))) None) /\
  exists row, mps_names s !! i = Some row /\ c_string row = Ok name.

Lemma count_defs (defs : list OmlMPDef) n : is_u8 n -> fold_left (λ n _, u8 (n + 1)) defs n = u8 (n + len defs).
Proof.
  revert n. induction defs as [|d defs IH]; intros n Hn; cbn [fold_left length]; [by rewrite Z.add_0_r, u8_id|].
  rewrite IH by apply u8_range. mlia.
Qed.

(** The state after a point is added. *)
Definition with_point (name : list Z) (d : option (list OmlMPDef)) (s : oml) : oml :=
  let i := Z.to_nat (mps_count s) in
  mk_oml (<[i := mk_mp (Some i) d (u8 (len (default [] d))) None]> (mps_pool s))
    (<[i := take 63 name ++ [0] ++ drop (S (length (take 63 name))) (replicate 64 0)]> (mps_names s))
    (mps_count s + 1) (str_pool s) (str_index s) (uart s).

Lemma OmlMP_get_ok s : oml_ok s -> mps_count s < 16 ->
  OmlMP_get s = Ok (Some (Z.to_nat (mps_count s)), set_mps_count (mps_count s + 1) s).
Proof.
  intros Hs Hc. pose proof (ok_count s Hs) as H0. unfold OmlMP_get, MAX_MP. mrun. rewrite (proj2 (Z.ltb_lt _ _) Hc). mrun. by rewrite u8_id by lia.
Qed.
Lemma OmlMP_mpname_cpy_ok s name : length (mps_names s) = 16%nat -> 1 <= mps_count s <= 16 -> plain name -> len name <= INT_MAX ->
  OmlMP_mpname_cpy name s = Ok (Z.to_nat (mps_count s - 1),
    set_mps_names (<[Z.to_nat (mps_count s - 1) := take 63 name ++ [0] ++ drop (S (length (take 63 name))) (replicate 64 0)]> (mps_names s)) s).
Proof.
  intros Hl Hc Hp Hn. unfold OmlMP_mpname_cpy, MAX_NAME_LEN. mrun. rewrite snprintf_plain; [|done|done|rewrite length_replicate; lia|unfold INT_MAX; lia].
  mrun. cbn [snd]. rewrite arr_set_ok by lia. mrun. done.
Qed.
Lemma OmlMP_create_ok s name d : oml_ok s -> mps_count s < 16 -> plain name -> len name <= INT_MAX ->
  OmlMP_create name d s = Ok (Some (Z.to_nat (mps_count s)), with_point name d s).
Proof.
  intros Hs Hc Hp Hn. pose proof (ok_count s Hs) as H0. unfold OmlMP_create. mstep (OmlMP_get_ok s Hs Hc).
  rewrite (bind_ok _ _ _ _ _ (OmlMP_mpname_cpy_ok (set_mps_count (mps_count s + 1) s) name (ok_names s Hs) ltac:(cbn [mps_count set_mps_count]; lia) Hp Hn)).
  mrun. cbn [mps_pool set_mps_count set_mps_names mps_count]. rewrite arr_set_ok by (rewrite (ok_pool s Hs); lia). mrun.
  unfold with_point, OmlMP_set_param, set_mps_pool, set_mps_names, set_mps_count. cbn [mps_pool mps_names mps_count str_pool str_index uart mp_name mp_next].
  rewrite count_defs, Z.add_0_l by done. rewrite Nat2Z.id. replace (mps_count s + 1 - 1) with (mps_count s) by lia. done.
Qed.

Lemma with_point_ok s name d : oml_ok s -> mps_count s < 16 -> oml_ok (with_point name d s).
Proof. intros [] Hc. split; cbn; rewrite ?length_insert; (done || lia). Qed.
(** A point is found after it is added, under the first 63 characters of its name. *)
Lemma point_added s name d : oml_ok s -> mps_count s < 16 -> plain name -> point (with_point name d s) (Z.to_nat (mps_count s)) (take 63 name) d.
Proof.
  intros [] Hc Hp. split; cbn [mps_pool mps_names with_point]; [by rewrite list_lookup_insert_eq by lia|].
  eexists. split; [by rewrite list_lookup_insert_eq by lia|]. apply c_string_zero. by apply plain_nonzero.
Qed.
(** Those added before are kept. *)
Lemma point_kept s name d i name' d' : oml_ok s -> mps_count s < 16 -> Z.of_nat i < mps_count s ->
  point s i name' d' -> point (with_point name d s) i name' d'.
Proof.
  intros Hs Hc Hi (Hm & row & Hr & Hn). split; cbn [mps_pool mps_names with_point]; [rewrite list_lookup_insert_ne by lia; done|].
  exists row. by rewrite list_lookup_insert_ne by lia.
Qed.
Lemma ok_uart s c : oml_ok s -> oml_ok (add_uart c s).
Proof. by intros []; split. Qed.
Lemma point_uart s c i name d : point s i name d -> point (add_uart c s) i name d.
Proof. done. Qed.

(** ** Computations that change nothing *)

Definition reads_only {A} (m : OM A) : Prop := forall s a s', m s = Ok (a, s') -> s' = s.
Lemma reads_lift {A} (r : res A) : reads_only (mlift r).
Proof. intros s a s' E. unfold mlift in E. destruct r; [congruence|done]. Qed.
Lemma reads_ret {A} (a : A) : reads_only (mret a).
Proof. intros s b s' [= _ <-]. done. Qed.
Lemma reads_get : reads_only mget.
Proof. intros s b s' [= _ <-]. done. Qed.
Lemma reads_bind {A B} (m : OM A) (k : A -> OM B) : reads_only m -> (forall a, reads_only (k a)) -> reads_only (m ≫= k).
Proof. intros Hm Hk s b s' E. apply bind_inv in E as (a & s1 & E1 & E2). apply Hm in E1 as ->. by eapply Hk. Qed.
Create HintDb reads.
#[local] Hint Resolve reads_lift reads_ret reads_get reads_bind : reads.

(** ** Values *)

Section Values.
Context (app_mem : Z -> res Z) (str_pool_addr : Z) (stack : list Z).
Hypothesis Hstack : length stack = 514%nat.

(** The bytes that a value stands for. *)
Definition by_address (t : OmlValueT) : bool := bool_decide (t = OML_STRING_VALUE \/ t = OML_BLOB_VALUE).
Definition field (s : oml) (t : OmlValueT) (v : list Z) : res (list Z) :=
  if by_address t then
    n ← value_length v; p ← value_ptr v; load app_mem str_pool_addr s p (Z.to_nat n)
  else arr_slice v 0 (value_size t).
Definition enc_field (t : OmlValueT) (x : list Z) : list Z := if by_address t then enc_string x else x.

Lemma load_length s a n bs : load app_mem str_pool_addr s a n = Ok bs -> length bs = n.
Proof.
  revert a bs. induction n as [|n IH]; intros a bs; cbn [load]; [by intros [= <-]|]. destruct (load1 _ _ s a) as [x|]; [|done]. rewrite rbind_ok.
  destruct (load _ _ s (a + 1) n) as [l|] eqn:E; [|done]. rewrite rbind_ok. intros [= <-]. cbn [length]. f_equal. by eapply IH.
Qed.

Lemma write_value_ok f c p s t v x : frame_is f c p -> bytes_ok v -> field s t v = Ok x -> 1 + len p + len (enc_field t x) <= 255 ->
  exists f', write_value app_mem str_pool_addr f t v s = Ok (f', s) /\ frame_is f' c (p ++ enc_field t x).
Proof.
  intros Hf Hv Hx Hl. unfold field, enc_field in *. destruct (by_address t) eqn:Et.
  - assert (write_value app_mem str_pool_addr f t v = write_OmlString app_mem str_pool_addr f v) as ->.
    { unfold by_address in Et. apply bool_decide_eq_true in Et. by destruct Et as [-> | ->]. }
    destruct (value_length v) as [n|] eqn:En; [|done]. rewrite rbind_ok in Hx. destruct (value_ptr v) as [a|] eqn:Ea; [|done]. rewrite rbind_ok in Hx.
    assert (is_u8 n) as Hn.
    { unfold value_length, rd in En. destruct (arr_slice v 4 (Z.of_nat 1)) as [bs|] eqn:Eb; [|done]. rewrite rbind_ok in En. injection En as <-.
      assert (bytes_ok bs) as Hb by (unfold arr_slice in Eb; case_decide; [|done]; injection Eb as <-; by apply Forall_take, Forall_drop).
      pose proof (le_value_range bs Hb). apply arr_slice_length in Eb. assert (length bs = 1%nat) as Hb1 by lia. rewrite Hb1 in *. cbn in *. lia. }
    pose proof (load_length _ _ _ _ Hx) as Lx. unfold enc_string in *. cbn [length] in Hl. unfold write_OmlString. rewrite En. mrun.
    destruct (write_byte_ok f c p n Hf) as (f1 & -> & H1); [lia|]. mrun. rewrite Ea. mrun. rewrite Hx. mrun. rewrite u8_id in H1 by done.
    destruct (write_bytes_fit f1 c _ x [] H1) as (f2 & E2 & H2); [rewrite length_app; cbn [length]; lia|]. rewrite app_nil_r in E2.
    replace (len x) with n in * by lia. exists f2. rewrite E2. split; [done|]. by rewrite <- app_assoc in H2.
  - assert (write_value app_mem str_pool_addr f t v = mlift (write_bytes f v (value_size t))) as ->.
    { unfold by_address in Et. apply bool_decide_eq_false in Et. destruct t; try done; exfalso; tauto. }
    pose proof (arr_slice_length _ _ _ _ Hx) as Lx. unfold arr_slice in Hx. case_decide as D; [|done]. injection Hx as Hx. cbn in Hx. rewrite drop_0 in Hx.
    destruct (write_bytes_fit f c p x (drop (Z.to_nat (value_size t)) v) Hf) as (f1 & E1 & H1); [lia|]. rewrite <- Hx in E1 at 1. rewrite take_drop, Lx in E1.
    exists f1. unfold mlift. by rewrite E1.
Qed.

Fixpoint fields (s : oml) (ts : list OmlValueT) (values : list (list Z)) : res (list (list Z)) :=
  match ts, values with
  | [], _ => Ok []
  | t :: ts, v :: values => x ← field s t v; xs ← fields s ts values; Ok (x :: xs)
  | _ :: _, [] => Err EUndef
  end.
Fixpoint enc_fields (ts : list OmlValueT) (xs : list (list Z)) : list Z :=
  match ts, xs with t :: ts, x :: xs => enc_field t x ++ enc_fields ts xs | _, _ => [] end.

Lemma write_values_ok f c p s defs values xs : frame_is f c p -> Forall bytes_ok values -> fields s (param_types <$> defs) values = Ok xs ->
  1 + len p + len (enc_fields (param_types <$> defs) xs) <= 255 ->
  exists f', write_values_loop app_mem str_pool_addr f defs values s = Ok (f', s) /\ frame_is f' c (p ++ enc_fields (param_types <$> defs) xs).
Proof.
  revert f p values xs. induction defs as [|d defs IH]; intros f p values xs Hf Hv Hx Hl; rewrite ?fmap_cons, ?fmap_nil in *; cbn [fields] in Hx.
  { injection Hx as <-. cbn [enc_fields write_values_loop]. rewrite app_nil_r. eauto. }
  destruct values as [|v values]; [done|]. apply Forall_cons in Hv as [Hv Hvs]. destruct (field s (param_types d) v) as [x|] eqn:Ex; [|done]. rewrite rbind_ok in Hx.
  destruct (fields s _ values) as [xs'|] eqn:Exs; [|done]. rewrite rbind_ok in Hx. injection Hx as <-. cbn [enc_fields] in *. rewrite length_app in Hl.
  destruct (write_value_ok f c p s (param_types d) v x Hf Hv Ex) as (f1 & E1 & H1); [lia|]. cbn [write_values_loop]. mstep E1.
  destruct (IH f1 _ values xs' H1 Hvs Exs) as (f2 & E2 & H2); [rewrite length_app; lia|]. exists f2. rewrite E2. split; [done|]. by rewrite <- app_assoc in H2.
Qed.

Definition enc_def (d : OmlMPDef) : list Z := enc_string (def_name d) ++ [u8 (value_code (param_types d))].
Lemma write_defs_ok f c p defs : frame_is f c p -> 1 + len p + len (concat (enc_def <$> defs)) <= 255 ->
  exists f', write_defs f defs = Ok f' /\ frame_is f' c (p ++ concat (enc_def <$> defs)).
Proof.
  revert f p. induction defs as [|d defs IH]; intros f p Hf Hl; rewrite ?fmap_cons, ?fmap_nil in *; cbn [write_defs concat] in *; [rewrite app_nil_r; eauto|].
  rewrite length_app in Hl. unfold enc_def at 1 in Hl. rewrite length_app in Hl. cbn [length enc_string] in Hl.
  destruct (write_string_ok f c p (def_name d) Hf) as (f1 & -> & H1); [lia|]. rewrite rbind_ok.
  destruct (write_byte_ok f1 c _ (value_code (param_types d)) H1) as (f2 & -> & H2); [rewrite length_app; cbn [length enc_string]; lia|]. rewrite rbind_ok.
  destruct (IH f2 _ H2) as (f3 & -> & H3); [rewrite !length_app; cbn [length enc_string]; lia|]. exists f3. split; [done|].
  unfold enc_def at 1. by rewrite <- !app_assoc in *.
Qed.

Lemma get_mp_ok s i name d : point s i name d -> get_mp (Some i) s = Ok (mk_mp (Some i) d (u8 (len (default [] d))) None, s).
Proof. intros [E _]. unfold get_mp. mrun. unfold arr_get. rewrite decide_False by lia. by rewrite Nat2Z.id, E. Qed.
Lemma write_mp_ok f c p s i name d n : point s i name d -> frame_is f c p -> 1 + len p + (1 + len name) <= 255 ->
  exists f', write_mp f (mk_mp (Some i) d n None) s = Ok (f', s) /\ frame_is f' c (p ++ enc_string name).
Proof.
  intros (_ & row & Er & Ec) Hf Hl. unfold write_mp, get_mp_name. cbn [mp_name]. mrun. unfold arr_get. rewrite decide_False by lia. rewrite Nat2Z.id, Er.
  cbn [of_option]. mrun. rewrite Ec. destruct (write_string_ok f c p name Hf Hl) as (f' & E & H). exists f'. unfold mlift. by rewrite E.
Qed.

(** ** What the calls send *)

Lemma omlc_init_sends s appName : len appName <= 253 ->
  omlc_init stack appName s = Ok (0, add_uart (uart_transfer (frame INIT (enc_string appName))) (add_uart (uart_enable 500000) s)).
Proof.
  intros Hl. unfold omlc_init. mrun. destruct (cmd_init_ok stack INIT Hstack) as (f & -> & Hf). mrun.
  destruct (write_string_ok f INIT [] appName Hf) as (f1 & -> & H1); [cbn [length]; lia|]. mrun. mstep (cmd_send_ok f1 INIT _ (add_uart (uart_enable 500000) s) H1). done.
Qed.
Lemma send_type_sends s t : send_type stack t s = Ok (tt, add_uart (uart_transfer (frame t [])) s).
Proof.
  unfold send_type. mrun. destruct (cmd_init_ok stack t Hstack) as (f & -> & Hf). by rewrite (cmd_send_ok f t _ s Hf).
Qed.
Lemma omlc_start_sends s : omlc_start stack s = Ok (0, add_uart (uart_transfer [SYNC; 1; 3]) s).
Proof. unfold omlc_start. mstep (send_type_sends s START). done. Qed.
Lemma omlc_close_sends s : omlc_close stack s = Ok (0, set_mps_count 0 (add_uart (uart_transfer [SYNC; 1; 7]) s)).
Proof. unfold omlc_close. mstep (send_type_sends s CLOSE). done. Qed.

Lemma omlc_add_mp_sends s name defs : oml_ok s -> mps_count s < 16 -> plain name -> len defs <= 255 ->
  1 + (1 + len name) + 1 + len (concat (enc_def <$> defs)) <= 255 ->
  omlc_add_mp stack name (Some defs) s =
  Ok (Some (Z.to_nat (mps_count s)),
      add_uart (uart_transfer (frame ADD_MP (enc_string name ++ len defs :: concat (enc_def <$> defs)))) (with_point name (Some defs) s)).
Proof.
  intros Hs Hc Hp Hd Hl. unfold omlc_add_mp. mstep (OmlMP_create_ok s name (Some defs) Hs Hc Hp ltac:(unfold INT_MAX; lia)).
  destruct (cmd_init_ok stack ADD_MP Hstack) as (f & -> & Hf). mrun.
  destruct (write_string_ok f ADD_MP [] name Hf) as (f1 & -> & H1); [cbn [length]; lia|]. mrun.
  mstep (get_mp_ok _ _ _ _ (point_added s name (Some defs) Hs Hc Hp)). cbn [param_count]. change (default [] (Some defs)) with defs. rewrite u8_id by lia.
  destruct (write_byte_ok f1 ADD_MP _ (len defs) H1) as (f2 & E2 & H2); [cbn [app length enc_string]; lia|]. rewrite u8_id in H2 by lia.
  destruct (write_defs_ok f2 ADD_MP _ defs H2) as (f3 & E3 & H3); [cbn [app]; rewrite length_app; cbn [length enc_string]; lia|].
  assert (write_mpdef f1 (Some defs) (len defs) = Ok f3) as ->.
  { unfold write_mpdef. rewrite E2, rbind_ok. destruct (Z.eqb_spec (len defs) 0) as [E0|E0].
    - destruct defs; [|cbn [length] in E0; lia]. exact E3.
    - rewrite (proj2 (Z.ltb_ge _ _)) by lia. by rewrite Nat2Z.id, firstn_all. }
  mrun. mstep (cmd_send_ok f3 ADD_MP _ (with_point name (Some defs) s) H3). cbn [app]. rewrite <- app_assoc. done.
Qed.

Lemma omlc_inject_sends s i name defs values xs : point s i name (Some defs) -> Forall bytes_ok values -> fields s (param_types <$> defs) values = Ok xs ->
  1 + (1 + len name) + len (enc_fields (param_types <$> defs) xs) <= 255 ->
  omlc_inject app_mem str_pool_addr stack (Some i) values s =
  Ok (0, add_uart (uart_transfer (frame INJECT (enc_string name ++ enc_fields (param_types <$> defs) xs))) s).
Proof.
  intros Hi Hv Hx Hl. unfold omlc_inject. mrun. destruct (cmd_init_ok stack INJECT Hstack) as (f & -> & Hf). mrun. mstep (get_mp_ok _ _ _ _ Hi).
  destruct (write_mp_ok f INJECT [] s i name (Some defs) (u8 (len (default [] (Some defs)))) Hi Hf) as (f1 & E1 & H1); [cbn [length]; lia|]. mstep E1.
  destruct (write_values_ok f1 INJECT _ s defs values xs H1 Hv Hx) as (f2 & E2 & H2); [cbn [app length enc_string]; unfold enc_string in *; cbn [length]; lia|].
  unfold write_values. cbn [param_defs]. mstep E2. mstep (cmd_send_ok f2 INJECT _ s H2). done.
Qed.

Lemma omlc_inject_metadata_sends s i name d key v t fname x : point s i name d -> bytes_ok v -> field s t v = Ok x ->
  1 + (1 + len name) + (1 + len key) + len (enc_field t x) + (1 + len fname) <= 255 ->
  omlc_inject_metadata app_mem str_pool_addr stack (Some i) key v t fname s =
  Ok (0, add_uart (uart_transfer (frame INJECT_METADATA (enc_string name ++ enc_string key ++ enc_field t x ++ enc_string fname))) s).
Proof.
  intros Hi Hv Hx Hl. unfold omlc_inject_metadata. mrun. destruct (cmd_init_ok stack INJECT_METADATA Hstack) as (f & -> & Hf). mrun. mstep (get_mp_ok _ _ _ _ Hi).
  destruct (write_mp_ok f INJECT_METADATA [] s i name d (u8 (len (default [] d))) Hi Hf) as (f1 & E1 & H1); [cbn [length]; lia|]. mstep E1.
  destruct (write_string_ok f1 INJECT_METADATA _ key H1) as (f2 & -> & H2); [unfold enc_string; cbn [app length]; lia|]. mrun.
  destruct (write_value_ok f2 INJECT_METADATA _ s t v x H2 Hv Hx) as (f3 & E3 & H3); [rewrite length_app; unfold enc_string; cbn [app length]; lia|]. mstep E3.
  destruct (write_string_ok f3 INJECT_METADATA _ fname H3) as (f4 & -> & H4); [rewrite !length_app; unfold enc_string; cbn [app length]; lia|]. mrun.
  mstep (cmd_send_ok f4 INJECT_METADATA _ s H4). cbn [app]. by rewrite <- !app_assoc.
Qed.

(** ** A receiver *)

Definition dec_frame (t : CommandT) (bs : list Z) : option (list Z) :=
  match bs with
  | a :: n :: c :: p => if bool_decide (a = SYNC /\ n = 1 + len p /\ c = command_code t) then Some p else None
  | _ => None
  end.
Definition dec_string (bs : list Z) : option (list Z * list Z) :=
  match bs with
  | n :: bs => if bool_decide (0 <= n <= len bs) then Some (take (Z.to_nat n) bs, drop (Z.to_nat n) bs) else None
  | [] => None
  end.
Definition dec_field (t : OmlValueT) (bs : list Z) : option (list Z * list Z) :=
  if by_address t then dec_string bs
  else if bool_decide (value_size t <= len bs) then Some (take (Z.to_nat (value_size t)) bs, drop (Z.to_nat (value_size t)) bs) else None.
Fixpoint dec_fields (ts : list OmlValueT) (bs : list Z) : option (list (list Z)) :=
  match ts with
  | [] => match bs with [] => Some [] | _ => None end
  | t :: ts => match dec_field t bs with Some (x, bs) => match dec_fields ts bs with Some xs => Some (x :: xs) | None => None end | None => None end
  end.
(** A sample: the name of the point and the fields. *)
Definition dec_inject (ts : list OmlValueT) (bs : list Z) : option (list Z * list (list Z)) :=
  match dec_frame INJECT bs with
  | Some p => match dec_string p with Some (name, p) => match dec_fields ts p with Some xs => Some (name, xs) | None => None end | None => None end
  | None => None
  end.
(** An announcement: the name of the point, the names and the codes of its fields. *)
Fixpoint dec_defs (n : nat) (bs : list Z) : option (list (list Z * Z)) :=
  match n with
  | O => match bs with [] => Some [] | _ => None end
  | Datatypes.S n => match dec_string bs with Some (name, c :: bs) => match dec_defs n bs with Some l => Some ((name, c) :: l) | None => None end | _ => None end
  end.
Definition dec_add_mp (bs : list Z) : option (list Z * list (list Z * Z)) :=
  match dec_frame ADD_MP bs with
  | Some p => match dec_string p with Some (name, n :: p) => match dec_defs (Z.to_nat n) p with Some l => Some (name, l) | None => None end | _ => None end
  | None => None
  end.

Lemma dec_frame_ok t p : dec_frame t (frame t p) = Some p.
Proof. unfold dec_frame, frame. cbn [app]. by rewrite bool_decide_eq_true_2. Qed.
Lemma dec_string_ok x rest : dec_string (enc_string x ++ rest) = Some (x, rest).
Proof.
  unfold dec_string, enc_string. cbn [app]. rewrite bool_decide_eq_true_2 by (rewrite length_app; lia). by rewrite Nat2Z.id, take_app_length, drop_app_length.
Qed.
Lemma dec_field_ok s t v x rest : field s t v = Ok x -> dec_field t (enc_field t x ++ rest) = Some (x, rest).
Proof.
  unfold field, dec_field, enc_field. destruct (by_address t); [intros _; apply dec_string_ok|]. intros Hx. apply arr_slice_length in Hx.
  rewrite bool_decide_eq_true_2 by (rewrite length_app; lia). rewrite <- Hx, Nat2Z.id. by rewrite take_app_length, drop_app_length.
Qed.
Lemma dec_fields_ok s ts values xs : fields s ts values = Ok xs -> dec_fields ts (enc_fields ts xs) = Some xs.
Proof.
  revert values xs. induction ts as [|t ts IH]; intros values xs; cbn [fields]; [by intros [= <-]|]. destruct values as [|v values]; [done|].
  destruct (field s t v) as [x|] eqn:Ex; [|done]. rewrite rbind_ok. destruct (fields s ts values) as [xs'|] eqn:Exs; [|done]. rewrite rbind_ok. intros [= <-].
  cbn [enc_fields dec_fields]. rewrite (dec_field_ok s t v) by done. by rewrite (IH values).
Qed.
Lemma dec_defs_ok defs : dec_defs (length defs) (concat (enc_def <$> defs)) = Some ((λ d, (def_name d, u8 (value_code (param_types d)))) <$> defs).
Proof.
  induction defs as [|d defs IH]; [done|]. rewrite !fmap_cons. cbn [length concat dec_defs]. unfold enc_def at 1. rewrite <- !app_assoc, dec_string_ok. cbn [app]. by rewrite IH.
Qed.

(** C33: A point and its samples, within the limits of the library: there are fewer than 16
    points, the name has at most 63 characters, none of which is a percent sign or a zero,
    there are at most 255 fields, and the announcement and each sample fit in a frame of 255
    bytes (beyond, see [points_exhausted], [long_name_cut] and [long_frame_wraps]). The point
    is added and announced: what a receiver finds in the frame is the name of the point and
    the names and types of its fields. What it finds in the frame of a sample is the name of
    the point and the values of the application, a string or a block being the bytes at its
    address when the sample is sent, of its length ([string_value_spec] says what these are).
    The other points stay as they are. *)
Theorem measures_received s name defs :
  oml_ok s -> mps_count s < 16 -> plain name -> len name <= 63 -> len defs <= 255 ->
  1 + (1 + len name) + 1 + len (concat (enc_def <$> defs)) <= 255 ->
  let i := Z.to_nat (mps_count s) in
  exists bs s', omlc_add_mp stack name (Some defs) s = Ok (Some i, s') /\
    oml_ok s' /\ uart s' = uart s ++ [uart_transfer bs] /\
    dec_add_mp bs = Some (name, (λ d, (def_name d, u8 (value_code (param_types d)))) <$> defs) /\
    (forall j name' d', Z.of_nat j < mps_count s -> point s j name' d' -> point s' j name' d') /\
    forall values xs, Forall bytes_ok values -> fields s' (param_types <$> defs) values = Ok xs ->
      1 + (1 + len name) + len (enc_fields (param_types <$> defs) xs) <= 255 ->
      exists bs', omlc_inject app_mem str_pool_addr stack (Some i) values s' = Ok (0, add_uart (uart_transfer bs') s') /\
        dec_inject (param_types <$> defs) bs' = Some (name, xs).
Proof.
  intros Hs Hc Hp Hn Hd Hl i. do 2 eexists. split; [by apply omlc_add_mp_sends|]. split; [by apply ok_uart, with_point_ok|]. split; [done|]. split; [|split].
  - unfold dec_add_mp. rewrite dec_frame_ok, dec_string_ok, Nat2Z.id. by rewrite dec_defs_ok.
  - intros j name' d' Hj Hpt. apply point_uart. by apply point_kept.
  - intros values xs Hv Hx Hl'. pose proof (point_added s name (Some defs) Hs Hc Hp) as Hpt. rewrite take_ge in Hpt by lia.
    eexists. split; [apply omlc_inject_sends; [by apply point_uart|done|exact Hx|done]|].
    unfold dec_inject. rewrite dec_frame_ok, dec_string_ok. by rewrite (dec_fields_ok _ _ _ _ Hx).
Qed.

(** A name of more than 63 characters is announced whole, and its samples come under
    the name cut. *)
Theorem long_name_cut s name defs values xs :
  oml_ok s -> mps_count s < 16 -> plain name -> 63 < len name -> len defs <= 255 ->
  1 + (1 + len name) + 1 + len (concat (enc_def <$> defs)) <= 255 ->
  let i := Z.to_nat (mps_count s) in
  exists bs bs' s', omlc_add_mp stack name (Some defs) s = Ok (Some i, s') /\ uart s' = uart s ++ [uart_transfer bs] /\
    (Forall bytes_ok values -> fields s' (param_types <$> defs) values = Ok xs -> 65 + len (enc_fields (param_types <$> defs) xs) <= 255 ->
      omlc_inject app_mem str_pool_addr stack (Some i) values s' = Ok (0, add_uart (uart_transfer bs') s') /\
      fst <$> dec_add_mp bs = Some name /\ fst <$> dec_inject (param_types <$> defs) bs' = Some (take 63 name) /\ take 63 name <> name).
Proof.
  intros Hs Hc Hp Hn Hd Hl i. do 3 eexists. split; [by apply omlc_add_mp_sends|]. split; [done|]. intros Hv Hx Hl'.
  pose proof (point_added s name (Some defs) Hs Hc Hp) as Hpt. split; [|split; [|split]].
  - apply omlc_inject_sends; [by apply point_uart|done|exact Hx|]. rewrite length_take. lia.
  - unfold dec_add_mp. rewrite dec_frame_ok, dec_string_ok, Nat2Z.id. by rewrite dec_defs_ok.
  - unfold dec_inject. rewrite dec_frame_ok, dec_string_ok. by rewrite (dec_fields_ok _ _ _ _ Hx).
  - intros E. apply (f_equal length) in E. rewrite length_take in E. lia.
Qed.

(** The seventeenth point: the library gives no point and reads it. *)
Theorem points_exhausted s name d : oml_ok s -> mps_count s = 16 -> omlc_add_mp stack name d s = Err EUndef.
Proof.
  intros Hs Hc. unfold omlc_add_mp. assert (OmlMP_create name d s = Ok (None, s)) as E.
  { unfold OmlMP_create, OmlMP_get. mrun. rewrite Hc. done. }
  mstep E. destruct (cmd_init_ok stack ADD_MP Hstack) as (f & -> & (rest & ->) & Hn & Hl). mrun.
  destruct (write_string_raw (frame ADD_MP [] ++ rest) name) as (f1 & -> & _); [|by mrun].
  split; [done|]. by exists 1.
Qed.

(** [omlc_process] sends nothing. *)
Lemma write_OmlString_reads f v : reads_only (write_OmlString app_mem str_pool_addr f v).
Proof. unfold write_OmlString. repeat (apply reads_bind; [auto with reads|intros ?]); auto with reads. Qed.
Lemma write_value_reads f t v : reads_only (write_value app_mem str_pool_addr f t v).
Proof. unfold write_value. destruct t; (apply write_OmlString_reads || apply reads_lift). Qed.
Lemma write_values_reads f mp values : reads_only (write_values app_mem str_pool_addr f mp values).
Proof.
  unfold write_values. destruct (param_defs mp) as [defs|]; [|apply reads_lift]. revert f values. induction defs as [|d defs IH]; intros f values; cbn [write_values_loop]; [apply reads_ret|].
  destruct values as [|v values]; [apply reads_lift|]. apply reads_bind; [apply write_value_reads|]. intros f1. apply IH.
Qed.
Theorem omlc_process_silent s mp values u s' : omlc_process app_mem str_pool_addr stack mp values s = Ok (u, s') -> s' = s.
Proof.
  apply reads_bind; [auto with reads|intros f]. apply reads_bind; [unfold get_mp; destruct mp; auto with reads|intros p].
  apply reads_bind; [|intros f1; apply reads_bind; [apply write_values_reads|auto with reads]].
  unfold write_mp, get_mp_name. apply reads_bind; [|auto with reads]. destruct (mp_name p); auto 6 with reads.
Qed.

(** ** String values *)

Lemma load_pool s o n : 0 <= o -> o + Z.of_nat n <= len (str_pool s) ->
  load app_mem str_pool_addr s (str_pool_addr + o) n = Ok (part (str_pool s) o (Z.of_nat n)).
Proof.
  revert o. induction n as [|n IH]; intros o Ho Hl; [done|]. cbn [load]. unfold load1.
  rewrite (proj2 (Z.leb_le _ _)), (proj2 (Z.ltb_lt _ _)) by lia. cbn [andb]. replace (str_pool_addr + o - str_pool_addr) with o by lia.
  destruct (arr_get_lt (str_pool s) o) as [x Ex]; [lia|]. rewrite Ex, rbind_ok. rewrite <- Z.add_assoc, IH, rbind_ok by lia. f_equal.
  apply arr_get_inv in Ex as [_ Ex]. unfold part. rewrite !Nat2Z.id. rewrite (drop_S _ _ _ Ex). cbn [take]. do 3 f_equal. lia.
Qed.

(** The bytes of a string value when its pointer and its length are set. *)
Definition string_value (v : list Z) (a n : Z) : list Z := le_bytes 4 a ++ [u8 n; 16] ++ drop 6 v.

Lemma string_value_set v a n : length v = 16%nat ->
  (v1 ← OmlString_reset v; v2 ← wr 1 v1 5 STR_MAX_LEN; v3 ← wr 4 v2 0 a; wr 1 v3 4 n) = Ok (string_value v a n).
Proof.
  intros Hl. do 16 (destruct v as [|? v]; [discriminate Hl|]). destruct v; [|discriminate Hl]. reflexivity.
Qed.

(** A string in the pool: the first 15 characters, a zero, and what was there. *)
Definition in_pool (pool : list Z) (o : Z) (str : list Z) : list Z := patch pool o (take 15 str ++ [0]).

Lemma pool_row pool o str : length pool = 128%nat -> 0 <= o -> o + 16 <= 128 ->
  arr_blit pool o (take 15 str ++ [0] ++ drop (S (length (take 15 str))) (part pool o 16)) = Ok (in_pool pool o str).
Proof.
  intros Hl Ho Hb. assert (length (take 15 str) <= 15)%nat as Ht by (rewrite length_take; lia).
  unfold arr_blit, in_pool, patch, part. rewrite decide_True by (rewrite !length_app, !length_drop, !length_take, !length_drop; cbn [length]; lia).
  f_equal. f_equal. rewrite <- !app_assoc. do 2 f_equal. rewrite !length_app, length_drop, (length_take _ (Z.to_nat 16)), length_drop. cbn [length].
  rewrite skipn_firstn_comm, drop_drop. set (k := length (take 15 str)) in *.
  rewrite <- (take_drop (Z.to_nat 16 - S k) (drop (Z.to_nat o + (k + 1)) pool)), drop_drop. f_equal; [f_equal|]; f_equal; lia.
Qed.

(** A string becomes a value that stands for the bytes found at its place in the pool. *)
Lemma omlc_set_string_ok s v str : oml_ok s -> length v = 16%nat -> plain str -> len str <= INT_MAX ->
  omlc_set_string str_pool_addr v (Some str) s =
  Ok (string_value v (str_pool_addr + str_index s * 16) (len str),
      set_str_index (Z.rem (str_index s + 1) 8) (set_str_pool (in_pool (str_pool s) (str_index s * 16) str) s)).
Proof.
  intros [] Hv Hp Hl. pose proof (string_value_set v (str_pool_addr + str_index s * 16) (len str) Hv) as E. unfold omlc_set_string, OmlString_copy.
  destruct (OmlString_reset v) as [v1|]; [|discriminate E]. rewrite rbind_ok in E. destruct (wr 1 v1 5 STR_MAX_LEN) as [v2|] eqn:E2; [|discriminate E]. rewrite rbind_ok in E.
  destruct (wr 4 v2 0 (str_pool_addr + str_index s * 16)) as [v3|] eqn:E3; [|discriminate E]. rewrite rbind_ok in E.
  mrun. rewrite E2. mrun. unfold STR_MAX_LEN in *. rewrite E3. mrun. unfold arr_slice. rewrite decide_True by lia. mrun. fold (part (str_pool s) (str_index s * 16) 16).
  rewrite snprintf_plain; [|done|done|unfold part; rewrite length_take, length_drop; lia|unfold INT_MAX; lia]. mrun. cbn [fst snd].
  change (Z.to_nat (16 - 1)) with 15%nat. rewrite pool_row by lia. mrun. rewrite E. mrun. done.
Qed.

(** A string of at most 15 characters is the value; of a longer one the value has the
    length and not the characters: it stands for the first 15, a zero, and the bytes
    of the strings that follow in the pool. *)
Theorem string_value_spec s v str : oml_ok s -> length v = 16%nat -> bytes_ok v -> plain str -> len str <= 255 ->
  0 <= str_pool_addr -> str_pool_addr + 128 <= 2 ^ 32 -> str_index s * 16 + len str <= 128 ->
  exists v' s', omlc_set_string str_pool_addr v (Some str) s = Ok (v', s') /\ oml_ok s' /\ bytes_ok v' /\ length v' = 16%nat /\
    field s' OML_STRING_VALUE v' =
      Ok (if decide (len str <= 15) then str else take 15 str ++ [0] ++ part (str_pool s) (str_index s * 16 + 16) (len str - 16)).
Proof.
  intros Hs Hv Hb Hp Hl Ha1 Ha2 Hf. do 2 eexists. split; [apply omlc_set_string_ok; [done..|unfold INT_MAX; lia]|]. destruct Hs.
  assert (length (take 15 str) <= 15)%nat as Ht by (rewrite length_take; lia).
  assert (length (in_pool (str_pool s) (str_index s * 16) str) = 128%nat) as Hpl.
  { unfold in_pool, patch. rewrite !length_app, length_drop, (length_take (str_pool s)). cbn [length]. lia. }
  split; [split; cbn; (done || lia || idtac)|]. { apply Z.rem_bound_pos; lia. }
  split; [unfold string_value; repeat apply Forall_app_2; [apply le_bytes_ok|repeat constructor; mlia|by apply Forall_drop]|].
  split; [unfold string_value; rewrite !length_app, le_bytes_length, length_drop; cbn [length]; lia|].
  unfold field. change (by_address OML_STRING_VALUE) with true. cbn iota.
  assert (value_length (string_value v (str_pool_addr + str_index s * 16) (len str)) = Ok (len str)) as ->.
  { unfold value_length, rd, string_value, arr_slice. rewrite decide_True by (rewrite !length_app, le_bytes_length; cbn [length]; lia). rewrite rbind_ok.
    rewrite drop_app_length' by done. change (Z.to_nat (Z.of_nat 1)) with 1%nat. cbn [take app le_value]. rewrite u8_id by lia. f_equal. lia. }
  rewrite rbind_ok. assert (value_ptr (string_value v (str_pool_addr + str_index s * 16) (len str)) = Ok (str_pool_addr + str_index s * 16)) as ->.
  { unfold value_ptr, rd, string_value, arr_slice. rewrite decide_True by (rewrite length_app, le_bytes_length; lia). rewrite rbind_ok. change (Z.to_nat 0) with 0%nat.
    rewrite drop_0, Nat2Z.id, take_app_length' by (by rewrite le_bytes_length). rewrite le_value_bytes, Z.mod_small by (change (256 ^ Z.of_nat 4) with (2 ^ 32); lia). done. }
  rewrite rbind_ok, Nat2Z.id, load_pool by (cbn [str_pool set_str_index set_str_pool]; lia). cbn [str_pool set_str_index set_str_pool]. f_equal.
  unfold in_pool, patch, part. rewrite drop_app_length' by (rewrite length_take; lia). rewrite Nat2Z.id. case_decide as D.
  - rewrite (take_ge str) by lia. rewrite <- app_assoc. by rewrite take_app_length.
  - rewrite take_app_ge by (rewrite length_app, length_take; cbn [length]; lia). rewrite length_app, (length_take str 15). cbn [length].
    rewrite <- app_assoc. do 2 f_equal. f_equal; [lia|]. f_equal. lia.
Qed.
End Values.

(** ** Examples *)

Definition ex_mem (_ : Z) : res Z := Err EUndef.
Definition ex_defs : list OmlMPDef := [mk_def (chars "node") OML_STRING_VALUE; mk_def (chars "temp") OML_UINT32_VALUE].

Lemma measures_received_witness :
  let stack := replicate 514 170 in
  exists bs s', omlc_add_mp stack (chars "room") (Some ex_defs) oml_start = Ok (Some 0%nat, s') /\
    dec_add_mp bs = Some (chars "room", [(chars "node", 3); (chars "temp", 5)]) /\
    exists bs', omlc_inject ex_mem 0x20000000 stack (Some 0%nat) [replicate 16 0; [57; 1] ++ replicate 14 0] s' = Ok (0, add_uart (uart_transfer bs') s') /\
      dec_inject [OML_STRING_VALUE; OML_UINT32_VALUE] bs' = Some (chars "room", [[]; [57; 1; 0; 0]]).
Proof.
  destruct (measures_received ex_mem 0x20000000 (replicate 514 170) eq_refl oml_start (chars "room") ex_defs) as (bs & s' & E & _ & _ & D & _ & J);
    [apply oml_start_ok|cbn; lia|repeat constructor; discriminate|cbn; lia|cbn; lia|cbn; lia|].
  exists bs, s'. split; [exact E|]. split; [exact D|]. apply (J _ [[]; [57; 1; 0; 0]]); [apply (bool_decide_unpack _); vm_compute; exact I|reflexivity|vm_compute; discriminate].
Defined.

(** The frame of a sample with a string of 20 characters: the 15 first ones, a zero and
    four bytes of the string set before it in the next place of the pool. *)
Example long_string_leaks :
  let run :=
    v0 ← omlc_set_string 0x20000000 (replicate 16 0) (Some (chars "a"));
    v1 ← omlc_set_string 0x20000000 (replicate 16 0) (Some (chars "secret"));
    mmod (set_str_index 0) ;;
    omlc_set_string 0x20000000 (replicate 16 0) (Some (chars "abcdefghijklmnopqrst")) in
  exists v s, run oml_start = Ok (v, s) /\ field ex_mem 0x20000000 s OML_STRING_VALUE v = Ok (chars "abcdefghijklmno" ++ [0] ++ chars "secr").
Proof. do 2 eexists. split; [vm_compute; reflexivity|]. vm_compute. reflexivity. Qed.

(** Two fields that make 300 bytes: the length wraps, and the frame sent has 46 bytes. *)
Example long_frame_wraps : exists s, omlc_inject_metadata ex_mem 0 (replicate 514 0) (Some 0%nat) (replicate 150 97) (replicate 16 0) OML_STRING_VALUE (replicate 146 98)
    (with_point (chars "m") None oml_start) = Ok (0, s) /\
  match uart s with [uart_transfer bs] => length bs = 48%nat | _ => False end.
Proof. eexists. split; [vm_compute; reflexivity|]. vm_compute. reflexivity. Qed.
End OmlSpec.
