(* ===== verification/Fs.v ===== *)
(** * Page cache of the SD card ([lib/fat32/fs.c])

    Pages of 512 bytes are read from the card into a pool of buffers and changed
    there; a task of its own writes the changed buffers back, the least used first.
    A caller runs as a whole between two steps of that task, which are the moments
    at which the task holds no lock of the header of a buffer: it has chosen a buffer
    and started its transfer ([write_task_start]), and the transfer has ended
    ([write_task_end]). A caller that needs what the task holds (the content of the
    buffer, the card, a clean buffer) lets the task go on. *)

From stdpp Require Import base numbers list.
From S2P Require Import Prelude.

Module Fs.

Definition FS_POOL_SIZE : nat := 30.
Definition MAX_RETRY : nat := 3.
Definition MAX_FAILED_ATTEMPT : Z := 10.
Definition MAX_USE : Z := 254.
Definition PAGE_SIZE : nat := 512.

(** [buffer_t], without its two mutexes. *)
Record buffer := mk_buffer { content : list Z; dirty : bool; page : Z; use : Z }.

(** Where the writing task is: waiting for a dirty buffer, or waiting for the end of
    the transfer of a buffer to a block of the card. *)
Inductive writing := WT_IDLE | WT_TRANSFER (j : nat) (block : Z).

(** The static variables, the card, and the number of calls of its driver. *)
Record fs := mk_fs {
  pool : list buffer;
  dirty_sem : Z;
  waiting_for_clean : bool;
  num_waiting : Z;
  failed_attempt : Z;
  task : writing;
  card : Z -> list Z;
  sd_calls : nat;
}.

Definition set_pool p s := mk_fs p (dirty_sem s) (waiting_for_clean s) (num_waiting s) (failed_attempt s) (task s) (card s) (sd_calls s).
Definition set_dirty_sem n s := mk_fs (pool s) n (waiting_for_clean s) (num_waiting s) (failed_attempt s) (task s) (card s) (sd_calls s).
Definition set_waiting w n s := mk_fs (pool s) (dirty_sem s) w n (failed_attempt s) (task s) (card s) (sd_calls s).
Definition set_failed n s := mk_fs (pool s) (dirty_sem s) (waiting_for_clean s) (num_waiting s) n (task s) (card s) (sd_calls s).
Definition set_task t s := mk_fs (pool s) (dirty_sem s) (waiting_for_clean s) (num_waiting s) (failed_attempt s) t (card s) (sd_calls s).
Definition set_card c s := mk_fs (pool s) (dirty_sem s) (waiting_for_clean s) (num_waiting s) (failed_attempt s) (task s) c (sd_calls s).
Definition set_sd_calls n s := mk_fs (pool s) (dirty_sem s) (waiting_for_clean s) (num_waiting s) (failed_attempt s) (task s) (card s) n.

(** The driver of the card: its type, the results of its calls, numbered: the one of
    the call, the one of the transfer that follows, and the bytes that a failed
    transfer leaves. *)
Class SdEnv := {
  sdhc : bool;
  sd_result : nat -> Z;
  transfer_error : nat -> Z;
  sd_torn : nat -> list Z;
}.

Definition SD_NO_ERROR : Z := 0.
Definition FS_READ_FAILED : Z := 2.

Inductive fs_error := FS_OK | FS_MEDIUM_INIT_ERROR.

Section fs.
Context {sd : SdEnv}.
Abbreviation FM := (M fs).

(** The number of the next call. *)
Definition sd_call : FM nat :=
  s ← mget;
  mmod (set_sd_calls (S (sd_calls s))) ;;
  mret (sd_calls s).

(** The block that the driver is given for a page. *)
Definition sd_block (page : Z) : Z := if sdhc then page else u32 (page * 512) / 512.

Definition get_buffer (i : nat) : FM buffer := s ← mget; mlift (of_option EUndef (pool s !! i)).
Definition set_buffer (i : nat) (b : buffer) : FM unit := mmod (λ s, set_pool (<[i := b]> (pool s)) s).

(** A counting semaphore does not go above its maximum. *)
Definition give_dirty_sem : FM unit :=
  mmod (λ s, set_dirty_sem (if dirty_sem s <? Z.of_nat FS_POOL_SIZE then dirty_sem s + 1 else dirty_sem s) s).

Definition init_buffer (b : buffer) : buffer := mk_buffer (content b) false 0 0.

Definition fs_init : FM fs_error :=
  mmod (λ s, mk_fs (init_buffer <$> pool s) 0 false 0 0 (task s) (card s) (sd_calls s)) ;;
  n ← sd_call;
  if negb (sd_result n =? SD_NO_ERROR) then mret FS_MEDIUM_INIT_ERROR
  else mmod (set_task WT_IDLE) ;; mret FS_OK.

(** The loop of [reserve_buffer] and of the writing task: the least used of the
    buffers that are dirty, or of those that are not. *)
Fixpoint least_used (want : bool) (bs : list buffer) (i : nat) (j : option nat) (use_min : Z) : option nat :=
  match bs with
  | [] => j
  | b :: bs =>
      if eqb (dirty b) want && (use b <? use_min) then least_used want bs (S i) (Some i) (use b)
      else least_used want bs (S i) j use_min
  end.

Definition reserve_buffer : FM (option nat) :=
  s ← mget;
  mret (least_used false (pool s) 0 None (MAX_USE + 1)).

Definition failed : FM unit :=
  s ← mget;
  let n := u16 (failed_attempt s + 1) in
  mmod (set_failed n) ;;
  if n >? MAX_FAILED_ATTEMPT then
    mmod (set_failed 0) ;;
    n ← sd_call;
    if negb (sd_result n =? SD_NO_ERROR) then mfail EHalt else mret tt
  else mret tt.

Definition passed : FM unit := mmod (set_failed 0).

(** ** The writing task *)

(** A transfer ends: the block receives the bytes that are in the buffer. *)
Definition write_task_end : FM unit :=
  s ← mget;
  match task s with
  | WT_IDLE => mret tt
  | WT_TRANSFER j block =>
      b ← get_buffer j;
      n ← sd_call;
      mmod (set_task WT_IDLE) ;;
      if negb (transfer_error n =? SD_NO_ERROR) then
        mmod (λ s, set_card (λ q, if q =? block then sd_torn n else card s q) s) ;;
        give_dirty_sem ;;
        failed
      else
        mmod (λ s, set_card (λ q, if q =? block then content b else card s q) s) ;;
        passed ;;
        mmod (λ s, if num_waiting s >? 0 then set_waiting true (num_waiting s) s else s)
  end.

(** [safe_write] up to the wait for the transfer: whether it was started. From that
    moment the buffer is not dirty any more. *)
Definition safe_write (j : nat) : FM bool :=
  b ← get_buffer j;
  n ← sd_call;
  if negb (sd_result n =? SD_NO_ERROR) then mret false
  else
    set_buffer j (mk_buffer (content b) false (page b) 1) ;;
    mmod (set_task (WT_TRANSFER j (sd_block (page b)))) ;;
    mret true.

(** The task gets the semaphore, chooses a buffer and starts its transfer. *)
Definition write_task_start : FM unit :=
  s ← mget;
  match task s with
  | WT_TRANSFER _ _ => mret tt
  | WT_IDLE =>
      if dirty_sem s =? 0 then mfail EBlock
      else
        mmod (set_dirty_sem (dirty_sem s - 1)) ;;
        match least_used true (pool s) 0 None (MAX_USE + 1) with
        | None => mfail EUndef
        | Some j =>
            started ← safe_write j;
            if started : bool then mret tt else give_dirty_sem ;; failed
        end
  end.

(** One turn of the task. *)
Definition write_task : FM unit := write_task_start ;; write_task_end.

(** ** Callers *)

(** A caller gets the card when the transfer in progress has ended. *)
Definition safe_read (page : Z) (i : nat) : FM Z :=
  write_task_end ;;
  n ← sd_call;
  if negb (sd_result n =? SD_NO_ERROR) then mret (sd_result n)
  else
    s ← mget;
    b ← get_buffer i;
    if negb (transfer_error n =? SD_NO_ERROR) then
      set_buffer i (mk_buffer (sd_torn n) (dirty b) (Fs.page b) (use b)) ;;
      mret FS_READ_FAILED
    else
      set_buffer i (mk_buffer (card s (sd_block page)) (dirty b) (Fs.page b) (use b)) ;;
      mret SD_NO_ERROR.

(** Attempts to read a page. *)
Fixpoint read_retry (n : nat) (page : Z) (i : nat) (ret : Z) : FM Z :=
  match n with
  | O => mret ret
  | S n =>
      ret ← safe_read page i;
      if ret =? SD_NO_ERROR then passed ;; mret ret
      else failed ;; read_retry n page i ret
  end.

(** The lock of the content of a dirty buffer, which the task holds in a transfer. *)
Definition take_content (i : nat) : FM unit :=
  s ← mget;
  match task s with
  | WT_TRANSFER j _ => if decide (i = j) then write_task_end else mret tt
  | WT_IDLE => mret tt
  end.

(** Wait for a clean buffer: the task runs until it gives the semaphore. *)
Fixpoint wait_clean_loop (fuel : nat) : FM unit :=
  match fuel with
  | O => mfail EFuel
  | S fuel =>
      s ← mget;
      if waiting_for_clean s then mmod (λ s, set_waiting false (num_waiting s) s)
      else write_task ;; wait_clean_loop fuel
  end.
Definition wait_clean (fuel : nat) : FM unit :=
  mmod (λ s, set_waiting (waiting_for_clean s) (u16 (num_waiting s + 1)) s) ;;
  wait_clean_loop fuel ;;
  mmod (λ s, set_waiting (waiting_for_clean s) (u16 (num_waiting s - 1)) s).

Definition more_used (n : Z) : Z := if n <? MAX_USE then n + 1 else n.

(** [min(size, 512 - offset)], stored in 16 bits. *)
Definition chunk (size offset : Z) : Z := u16 (if size <? 512 - offset then size else 512 - offset).

(** The first buffer that has the page; [fs_write] does not look at [use]. *)
Fixpoint find_page (used : bool) (page : Z) (bs : list buffer) (i : nat) : option nat :=
  match bs with
  | [] => None
  | b :: bs =>
      if (page =? Fs.page b) && (negb used || negb (use b =? 0)) then Some i else find_page used page bs (S i)
  end.

(** The page is in the pool. *)
Definition write_hit (i : nat) (offset : Z) (bs : list Z) : FM unit :=
  b ← get_buffer i;
  if negb (dirty b) then
    c ← mlift (arr_blit (content b) offset bs);
    set_buffer i (mk_buffer c true (page b) (more_used (use b))) ;;
    give_dirty_sem
  else
    take_content i ;;
    b ← get_buffer i;
    c ← mlift (arr_blit (content b) offset bs);
    set_buffer i (mk_buffer c true (page b) (more_used (use b))) ;;
    if negb (dirty b) then give_dirty_sem else mret tt.

(** The page goes into buffer [i]; the result is [s]. *)
Definition write_miss (i : nat) (page offset s : Z) (bs : list Z) : FM Z :=
  ret ← (if negb (s =? 512) then read_retry MAX_RETRY page i 0 else mret SD_NO_ERROR);
  let s := if negb (ret =? SD_NO_ERROR) then 0 else s in
  (if negb (s =? 0) then
     b ← get_buffer i;
     c ← mlift (arr_blit (content b) offset bs);
     set_buffer i (mk_buffer c true page 1) ;;
     give_dirty_sem
   else mret tt) ;;
  mret s.

(** [waits] bounds the waits for a clean buffer, and the turns of the task in each. *)
Fixpoint fs_write_loop (waits : nat) (page offset s : Z) (bs : list Z) : FM Z :=
  x ← mget;
  match find_page false page (pool x) 0 with
  | Some i => write_hit i offset bs ;; mret s
  | None =>
      r ← reserve_buffer;
      match r with
      | Some i => write_miss i page offset s bs
      | None =>
          match waits with
          | O => mfail EFuel
          | S n => wait_clean waits ;; fs_write_loop n page offset s bs
          end
      end
  end.

Definition fs_write (waits : nat) (page offset : Z) (buf : list Z) (size : Z) : FM Z :=
  let s := chunk size offset in
  bs ← mlift (arr_slice buf 0 s);
  fs_write_loop waits page offset s bs.

(** A page that is not in the pool is read there, and looked for again; after a failed
    read too, with nothing to copy. The first copy is made again at the next turn. *)
Fixpoint fs_read_loop (waits : nat) (turns : nat) (page offset s : Z) : FM (list Z) :=
  match turns with
  | O => mfail EFuel
  | S turns =>
      x ← mget;
      match find_page true page (pool x) 0 with
      | Some i =>
          b ← get_buffer i;
          set_buffer i (mk_buffer (content b) (dirty b) (Fs.page b) (more_used (use b))) ;;
          mlift (arr_slice (content b) offset s)
      | None =>
          r ← reserve_buffer;
          match r with
          | Some i =>
              b ← get_buffer i;
              set_buffer i (mk_buffer (content b) false page 1) ;;
              ret ← read_retry MAX_RETRY page i 0;
              fs_read_loop waits turns page offset (if negb (ret =? SD_NO_ERROR) then 0 else s)
          | None => wait_clean waits ;; fs_read_loop waits turns page offset s
          end
      end
  end.

(** The bytes copied; their number is the result. *)
Definition fs_read (waits : nat) (page offset size : Z) : FM (list Z) :=
  fs_read_loop waits (S (S waits)) page offset (chunk size offset).
End fs.
End Fs.
