(* ===== verification/FsSpec.v ===== *)
(** * The page cache is transparent

    The pages as the callers see them are those of the pool, and for the others those
    of the card. With a card that does not fail, reading gives the bytes of the page,
    writing changes them and nothing else, and the writing task changes no page,
    whatever the order of its steps and of the calls. *)

From stdpp Require Import base numbers list.
From S2P Require Import Prelude Fs.

Module FsSpec.
Import Fs.

(** ** Buffers *)

Section fs.
Context {sd : SdEnv}.

(** Pages that the driver addresses without overflow. *)
Definition page_ok (p : Z) : Prop := is_u32 p /\ (sdhc = false -> p < 8388608).

Lemma sd_block_id p : page_ok p -> sd_block p = p.
Proof.
  intros [Hp Hs]. unfold sd_block. destruct sdhc; [done|]. specialize (Hs eq_refl). rewrite u32_id by lia. apply Z.div_mul. lia.
Qed.

Definition buf_ok (b : buffer) : Prop :=
  length (content b) = PAGE_SIZE /\ 0 <= use b <= MAX_USE /\ page_ok (page b) /\ (use b = 0 -> page b = 0 /\ dirty b = false).

Fixpoint dirty_count (bs : list buffer) : Z :=
  match bs with
  | [] => 0
  | b :: bs => cbool (dirty b) + dirty_count bs
  end.

Lemma dirty_count_range bs : 0 <= dirty_count bs <= Z.of_nat (length bs).
Proof. induction bs as [|b bs IH]; cbn [dirty_count length]; [lia|]. destruct (dirty b); cbn [cbool]; lia. Qed.

Lemma dirty_count_insert bs i b b' :
  bs !! i = Some b -> dirty_count (<[i := b']> bs) = dirty_count bs - cbool (dirty b) + cbool (dirty b').
Proof.
  revert i. induction bs as [|c bs IH]; intros [|i] Hi; try done.
  - injection Hi as ->. cbn. lia.
  - change (dirty_count (c :: <[i := b']> bs) = dirty_count (c :: bs) - cbool (dirty b) + cbool (dirty b')).
    cbn [dirty_count]. rewrite IH by done. lia.
Qed.

Lemma dirty_count_clean bs i b : bs !! i = Some b -> dirty b = false -> dirty_count bs < Z.of_nat (length bs).
Proof.
  revert i. induction bs as [|c bs IH]; intros [|i] Hi Hd; try done; cbn [dirty_count length].
  - injection Hi as ->. rewrite Hd. pose proof (dirty_count_range bs). cbn [cbool]. lia.
  - specialize (IH i Hi Hd). destruct (dirty c); cbn [cbool]; lia.
Qed.

Lemma dirty_count_some bs : 0 < dirty_count bs -> exists i b, bs !! i = Some b /\ dirty b = true.
Proof.
  induction bs as [|c bs IH]; cbn [dirty_count]; [lia|]. intros H. destruct (dirty c) eqn:Ec; [by exists O, c|].
  destruct IH as (i & b & Hi & Hb); [cbn [cbool] in H; lia|]. by exists (S i), b.
Qed.

(** ** Searches in the pool *)

Lemma find_page_spec used p bs i :
  match find_page used p bs i with
  | Some k => exists n b, k = (i + n)%nat /\ bs !! n = Some b /\ page b = p /\ (used = true -> use b <> 0)
  | None => forall n b, bs !! n = Some b -> page b = p -> used = true /\ use b = 0
  end.
Proof.
  revert i. induction bs as [|b bs IH]; intros i; cbn [find_page].
  { intros n b Hn. done. }
  destruct (Z.eqb_spec p (page b)) as [Ep|Ep]; cbn [andb].
  - destruct (negb used || negb (use b =? 0)) eqn:Eu.
    + exists O, b. split_and!; [lia|done|done|]. intros ->. cbn in Eu. intros E. by rewrite E in Eu.
    + apply orb_false_iff in Eu as [Eu1%negb_false_iff Eu2%negb_false_iff%Z.eqb_eq].
      specialize (IH (S i)). destruct (find_page used p bs (S i)) as [k|].
      * destruct IH as (n & c & -> & Hn & Hc). exists (S n), c. split; [lia|done].
      * intros [|n] c Hn Hc; [by injection Hn as <-|by eapply IH].
  - specialize (IH (S i)). destruct (find_page used p bs (S i)) as [k|].
    + destruct IH as (n & c & -> & Hn & Hc). exists (S n), c. split; [lia|done].
    + intros [|n] c Hn Hc; [injection Hn as <-; congruence|by eapply IH].
Qed.

Lemma least_used_spec want bs : forall i j m,
  match least_used want bs i j m with
  | Some k => j = Some k \/ exists n b, k = (i + n)%nat /\ bs !! n = Some b /\ dirty b = want
  | None => j = None /\ forall n b, bs !! n = Some b -> use b < m -> dirty b = negb want
  end.
Proof.
  induction bs as [|b bs IH]; intros i j m; cbn [least_used].
  { destruct j; [by left|]. split; [done|]. by intros n b Hn. }
  destruct (eqb (dirty b) want) eqn:Ed; cbn [andb]; [apply eqb_prop in Ed; destruct (Z.ltb_spec (use b) m)|].
  - specialize (IH (S i) (Some i) (use b)). destruct (least_used want bs (S i) (Some i) (use b)) as [k|].
    + right. destruct IH as [[= ->]|(n & c & -> & Hn & Hc)]; [exists O, b; split; [lia|done]|exists (S n), c; split; [lia|done]].
    + by destruct IH as [? _].
  - specialize (IH (S i) j m). destruct (least_used want bs (S i) j m) as [k|].
    + destruct IH as [|(n & c & -> & Hn & Hc)]; [by left|right; exists (S n), c; split; [lia|done]].
    + destruct IH as [-> IH]. split; [done|]. intros [|n] c Hn Hc; [injection Hn as <-; lia|by eapply IH].
  - specialize (IH (S i) j m). destruct (least_used want bs (S i) j m) as [k|].
    + destruct IH as [|(n & c & -> & Hn & Hc)]; [by left|right; exists (S n), c; split; [lia|done]].
    + destruct IH as [-> IH]. split; [done|]. intros [|n] c Hn Hc; [injection Hn as <-|by eapply IH].
      destruct (dirty b), want; done.
Qed.

(** ** The invariant *)

Record fs_inv (s : fs) : Prop := {
  inv_len : length (pool s) = FS_POOL_SIZE;
  inv_bufs : Forall buf_ok (pool s);
  inv_uniq : forall i j bi bj, pool s !! i = Some bi -> pool s !! j = Some bj -> use bi <> 0 -> use bj <> 0 ->
    page bi = page bj -> i = j;
  inv_sem : dirty_sem s = dirty_count (pool s);
  inv_card : forall q, length (card s q) = PAGE_SIZE;
  inv_sync : forall i b, pool s !! i = Some b -> use b <> 0 -> dirty b = false ->
    (forall block, task s <> WT_TRANSFER i block) -> content b = card s (page b);
  inv_task : forall j block, task s = WT_TRANSFER j block ->
    exists b, pool s !! j = Some b /\ use b <> 0 /\ block = page b;
}.

(** The pages. *)
Definition pages (s : fs) (p : Z) : list Z :=
  match find_page true p (pool s) 0 with
  | Some i => from_option content [] (pool s !! i)
  | None => card s (sd_block p)
  end.

Lemma pages_hit s i b : fs_inv s -> pool s !! i = Some b -> use b <> 0 -> pages s (page b) = content b.
Proof.
  intros I Hi Hu. unfold pages. pose proof (find_page_spec true (page b) (pool s) 0) as H.
  destruct (find_page true (page b) (pool s) 0) as [k|].
  - destruct H as (n & c & -> & Hn & Hc & Huc). cbn [Nat.add]. rewrite Hn. cbn.
    assert (n = i) as -> by (eapply (inv_uniq s I); eauto). by simplify_eq.
  - by destruct (H i b Hi eq_refl).
Qed.

Definition absent (s : fs) (p : Z) : Prop := forall i b, pool s !! i = Some b -> use b <> 0 -> page b <> p.

Lemma pages_miss s p : absent s p -> page_ok p -> pages s p = card s p.
Proof.
  intros H Hp. unfold pages. pose proof (find_page_spec true p (pool s) 0) as Hf.
  destruct (find_page true p (pool s) 0) as [k|]; [|by rewrite sd_block_id].
  destruct Hf as (n & c & -> & Hn & Hc & Hu). by destruct (H n c Hn (Hu eq_refl)).
Qed.

Lemma buf_at s i b : fs_inv s -> pool s !! i = Some b -> buf_ok b.
Proof. intros I Hi. eapply Forall_lookup_1; [apply (inv_bufs s I)|done]. Qed.

Lemma in_pool s i b : fs_inv s -> pool s !! i = Some b -> (i < FS_POOL_SIZE)%nat.
Proof. intros I Hi. rewrite <- (inv_len s I). by eapply lookup_lt_Some. Qed.

Lemma pages_length s p : fs_inv s -> length (pages s p) = PAGE_SIZE.
Proof.
  intros I. unfold pages. pose proof (find_page_spec true p (pool s) 0) as H. destruct (find_page true p (pool s) 0) as [k|].
  - destruct H as (n & b & -> & Hn & _). cbn [Nat.add]. rewrite Hn. cbn. by destruct (buf_at s n b I Hn).
  - apply (inv_card s I).
Qed.

(** ** One buffer changes *)

Section put.
Context (s : fs) (i : nat) (b b' : buffer).
Hypothesis I : fs_inv s.
Hypothesis Hi : pool s !! i = Some b.
Hypothesis Hok : buf_ok b'.
Hypothesis Huse : use b' <> 0.
Hypothesis Hpage : (page b' = page b /\ use b <> 0) \/ (absent s (page b') /\ forall block, task s <> WT_TRANSFER i block).

Let s' := set_pool (<[i := b']> (pool s)) s.

Lemma put_lookup k c : pool s' !! k = Some c -> (k = i /\ c = b') \/ (k <> i /\ pool s !! k = Some c).
Proof.
  cbn. intros Hk. destruct (decide (k = i)) as [->|Hne].
  - left. rewrite list_lookup_insert_eq in Hk by (by eapply lookup_lt_Some). by injection Hk as <-.
  - right. by rewrite list_lookup_insert_ne in Hk by done.
Qed.

Lemma put_other k c : k <> i -> pool s !! k = Some c -> use c <> 0 -> page c <> page b'.
Proof.
  intros Hk Hc Hu Hp. destruct Hpage as [[Hpb Hub]|[Habs _]]; [|by destruct (Habs k c Hc Hu)].
  apply Hk. eapply (inv_uniq s I); eauto. congruence.
Qed.

Lemma put_inv sem :
  sem = dirty_sem s - cbool (dirty b) + cbool (dirty b') ->
  (dirty b' = false -> (forall block, task s <> WT_TRANSFER i block) -> content b' = card s (page b')) ->
  fs_inv (set_dirty_sem sem s').
Proof.
  intros Hsem Hsync. constructor; cbn [pool dirty_sem card task set_dirty_sem s' set_pool].
  - rewrite length_insert. apply (inv_len s I).
  - apply Forall_insert; [apply (inv_bufs s I)|done].
  - intros k l ck cl Hk Hl. apply put_lookup in Hk as [[-> ->]|[Hk Hk']]; apply put_lookup in Hl as [[-> ->]|[Hl Hl']]; intros Huk Hul Hp.
    + done.
    + by destruct (put_other l cl Hl Hl' Hul).
    + by destruct (put_other k ck Hk Hk' Huk).
    + by eapply (inv_uniq s I).
  - rewrite (dirty_count_insert _ _ _ _ Hi), Hsem, (inv_sem s I). done.
  - apply (inv_card s I).
  - intros k c Hk. apply put_lookup in Hk as [[-> ->]|[Hk Hk']]; intros Hu Hd Ht; [by apply Hsync|]. by eapply (inv_sync s I).
  - intros j block Ht. destruct (inv_task s I j block Ht) as (c & Hc & Huc & Hb). destruct (decide (j = i)) as [->|Hne].
    + exists b'. rewrite list_lookup_insert_eq by (by eapply lookup_lt_Some). split; [done|]. split; [done|].
      destruct Hpage as [[-> _]|[_ Hno]]; [|by destruct (Hno block)]. by simplify_eq.
    + exists c. by rewrite list_lookup_insert_ne.
Qed.

(** The pages after the change; a page that leaves the pool must be on the card. *)
Lemma put_pages :
  (use b <> 0 -> page b' <> page b -> content b = card s (page b)) ->
  forall q, page_ok q -> pages s' q = if decide (q = page b') then content b' else pages s q.
Proof.
  intros Hev q Hq. case_decide as Hqb.
  - subst q. unfold pages. pose proof (find_page_spec true (page b') (pool s') 0) as H.
    destruct (find_page true (page b') (pool s') 0) as [k|].
    + destruct H as (n & c & -> & Hn & Hc & Hu). cbn [Nat.add]. rewrite Hn. cbn.
      apply put_lookup in Hn as [[-> ->]|[Hn Hn']]; [done|]. by destruct (put_other n c Hn Hn' (Hu eq_refl)).
    + assert (pool s' !! i = Some b') as Hs' by (cbn; by rewrite list_lookup_insert_eq by (by eapply lookup_lt_Some)).
      by destruct (H i b' Hs' eq_refl).
  - unfold pages at 1. pose proof (find_page_spec true q (pool s') 0) as H.
    destruct (find_page true q (pool s') 0) as [k|].
    + destruct H as (n & c & -> & Hn & Hc & Hu). cbn [Nat.add]. rewrite Hn. cbn.
      apply put_lookup in Hn as [[-> ->]|[Hn Hn']]; [congruence|]. rewrite <- Hc. symmetry. apply (pages_hit s n c I Hn' (Hu eq_refl)).
    + rewrite sd_block_id by done. cbn [card s' set_pool]. destruct (decide (page b = q /\ use b <> 0)) as [[<- Hub]|Hnb].
      * rewrite (pages_hit s i b I Hi Hub). symmetry. by apply Hev.
      * symmetry. apply pages_miss; [|done]. intros k c Hk Huc Hp. destruct (decide (k = i)) as [->|Hne].
        { simplify_eq. by apply Hnb. }
        assert (pool s' !! k = Some c) as Hs' by (cbn; by rewrite list_lookup_insert_ne).
        by destruct (H k c Hs' Hp).
Qed.
End put.

(** ** The writing task *)

Section calm.
Hypothesis calm : forall n, sd_result n = SD_NO_ERROR /\ transfer_error n = SD_NO_ERROR.

Lemma same_pages s s' : pool s' = pool s -> (forall q, card s' q = card s q) -> forall q, pages s' q = pages s q.
Proof. intros Hp Hc q. unfold pages. rewrite Hp. by destruct (find_page true q (pool s) 0). Qed.

(** The end of a transfer. *)
Lemma end_ok s :
  fs_inv s -> exists s', write_task_end s = Ok (tt, s') /\ fs_inv s' /\ task s' = WT_IDLE /\ pool s' = pool s /\
    (forall q, page_ok q -> pages s' q = pages s q) /\ num_waiting s' = num_waiting s /\
    waiting_for_clean s' = match task s with WT_IDLE => waiting_for_clean s
                           | WT_TRANSFER _ _ => if num_waiting s >? 0 then true else waiting_for_clean s end /\
    (task s = WT_IDLE -> s' = s).
Proof.
  intros I. unfold write_task_end. mrun. destruct (task s) as [|j block] eqn:Et; [by exists s|].
  destruct (inv_task s I j block Et) as (b & Hb & Hu & ->). pose proof (buf_at s j b I Hb) as (Hl & _ & Hpg & _).
  unfold get_buffer, sd_call. mrun. rewrite Hb. cbn [of_option]. mrun. destruct (calm (sd_calls s)) as [_ ->].
  change (negb (SD_NO_ERROR =? SD_NO_ERROR)) with false. cbn iota. unfold passed. mrun.
  cbn [sd_calls set_sd_calls num_waiting set_failed set_card set_task].
  set (s1 := mk_fs (pool s) (dirty_sem s) (waiting_for_clean s) (num_waiting s) 0 WT_IDLE
               (λ q, if q =? page b then content b else card s q) (S (sd_calls s))).
  assert (fs_inv s1 /\ forall q, page_ok q -> pages s1 q = pages s q) as [I1 P1].
  { split.
    - constructor; cbn [pool dirty_sem card task s1]; try apply I; try done.
      + intros q. destruct (q =? page b); [done|apply (inv_card s I)].
      + intros k c Hk Huc Hdc _. destruct (Z.eqb_spec (page c) (page b)) as [Ep|Ep].
        * assert (k = j) as -> by (by eapply (inv_uniq s I)). by simplify_eq.
        * eapply (inv_sync s I); eauto. intros block E. rewrite Et in E. injection E as -> _. congruence.
    - intros q Hq. unfold pages. cbn [pool card s1]. pose proof (find_page_spec true q (pool s) 0) as H.
      destruct (find_page true q (pool s) 0); [done|]. rewrite sd_block_id by done.
      destruct (Z.eqb_spec q (page b)) as [->|]; [|done]. by destruct (H j b Hb eq_refl). }
  destruct (num_waiting s >? 0) eqn:Ew.
  - exists (set_waiting true (num_waiting s) s1). split; [unfold mmod; cbn [num_waiting set_failed set_card set_task set_sd_calls]; by rewrite Ew|].
    split; [destruct I1; by constructor|]. by split_and!.
  - exists s1. split; [unfold mmod; cbn [num_waiting set_failed set_card set_task set_sd_calls]; by rewrite Ew|]. by split_and!.
Qed.

(** The start of one. *)
Lemma task_start_ok s :
  fs_inv s -> task s = WT_IDLE -> 0 < dirty_sem s ->
  exists s' j b, write_task_start s = Ok (tt, s') /\ fs_inv s' /\ task s' = WT_TRANSFER j (page b) /\
    pool s !! j = Some b /\ dirty b = true /\ dirty_sem s' = dirty_sem s - 1 /\ pool s' = <[j := mk_buffer (content b) false (page b) 1]> (pool s) /\
    (forall q, page_ok q -> pages s' q = pages s q) /\ num_waiting s' = num_waiting s /\ waiting_for_clean s' = waiting_for_clean s.
Proof.
  intros I Et Hsem. unfold write_task_start. mrun. rewrite Et. rewrite (proj2 (Z.eqb_neq (dirty_sem s) 0)) by lia. mrun.
  pose proof (least_used_spec true (pool s) 0 None (MAX_USE + 1)) as Hl.
  destruct (least_used true (pool s) 0 None (MAX_USE + 1)) as [k|].
  2: { destruct Hl as [_ Hl]. rewrite (inv_sem s I) in Hsem. destruct (dirty_count_some _ Hsem) as (i & b & Hi & Hb).
       destruct (buf_at s i b I Hi) as (_ & Hu & _). rewrite (Hl i b Hi) in Hb by lia. done. }
  destruct Hl as [|(n & b & -> & Hn & Hd)]; [done|]. cbn [Nat.add].
  unfold safe_write, get_buffer, sd_call. mrun. cbn [pool set_dirty_sem]. rewrite Hn. cbn [of_option]. mrun. destruct (calm (sd_calls s)) as [Hr _].
  cbn [sd_calls set_dirty_sem]. rewrite Hr. change (negb (SD_NO_ERROR =? SD_NO_ERROR)) with false. cbn iota. unfold set_buffer. mrun.
  cbn [pool set_sd_calls set_dirty_sem]. destruct (buf_at s n b I Hn) as (Hlen & Hu & Hpg & Hz).
  assert (use b <> 0) as Hu0. { intros E. destruct (Hz E). congruence. } rewrite sd_block_id by done.
  set (b1 := mk_buffer (content b) false (page b) 1).
  assert (buf_ok b1) as Hok1 by (split_and!; cbn; unfold MAX_USE; try lia; done).
  eexists _, n, b. split; [reflexivity|]. split_and!; try done.
  - constructor; cbn [pool dirty_sem card task set_task set_pool set_sd_calls set_dirty_sem]; try apply I.
    + rewrite length_insert. apply (inv_len s I).
    + apply Forall_insert; [apply (inv_bufs s I)|done].
    + intros k l ck cl Hk Hl Huk Hul Hp. assert (forall m c, <[n := b1]> (pool s) !! m = Some c -> use c <> 0 -> exists c', pool s !! m = Some c' /\ use c' <> 0 /\ page c' = page c) as Hold.
      { intros m c Hm Hc. destruct (decide (m = n)) as [->|Hne].
        - rewrite list_lookup_insert_eq in Hm by (by eapply lookup_lt_Some). injection Hm as <-. by exists b.
        - rewrite list_lookup_insert_ne in Hm by done. by exists c. }
      destruct (Hold k ck Hk Huk) as (ck' & ? & ? & ?), (Hold l cl Hl Hul) as (cl' & ? & ? & ?).
      eapply (inv_uniq s I k l ck' cl'); congruence.
    + rewrite (dirty_count_insert _ _ _ _ Hn), <- (inv_sem s I), Hd. cbn [b1 dirty cbool]. lia.
    + intros k c Hk Huc Hdc Ht. assert (k <> n) as Hne. { intros ->. by destruct (Ht (page b)). }
      rewrite list_lookup_insert_ne in Hk by done. eapply (inv_sync s I); eauto. intros block E. rewrite Et in E. done.
    + intros j block [= <- <-]. exists b1. by rewrite list_lookup_insert_eq by (by eapply lookup_lt_Some).
  - intros q Hq. unfold pages. cbn [pool card set_task set_pool set_sd_calls set_dirty_sem].
    assert (pages (set_pool (<[n := b1]> (pool s)) s) q = pages s q) as E.
    { rewrite (put_pages s n b b1 I Hn); [|done|by left|done|done]. case_decide as Hd'; [|done].
      rewrite Hd'. symmetry. change (page b1) with (page b). change (content b1) with (content b). by apply pages_hit with n. }
    exact E.
Qed.

(** ** Reading a page into a buffer *)

Definition quiet (s : fs) : Prop := num_waiting s = 0 /\ waiting_for_clean s = false.

Lemma inv_ext s s' : fs_inv s -> pool s' = pool s -> dirty_sem s' = dirty_sem s -> card s' = card s -> task s' = task s -> fs_inv s'.
Proof. intros [] Hp Hs Hc Ht. constructor; rewrite ?Hp, ?Hs, ?Hc, ?Ht; done. Qed.

Lemma pages_ext s s' q : pool s' = pool s -> card s' = card s -> pages s' q = pages s q.
Proof. intros Hp Hc. unfold pages. by rewrite Hp, Hc. Qed.

(** The writing task only looks at the content of a buffer in transfer. *)
Lemma end_commute s s1 i b b' :
  fs_inv s -> pool s !! i = Some b -> content b' = content b -> write_task_end s = Ok (tt, s1) ->
  write_task_end (set_pool (<[i := b']> (pool s)) s) = Ok (tt, set_pool (<[i := b']> (pool s)) s1).
Proof.
  intros I Hi Hc. unfold write_task_end. mrun. cbn [task set_pool]. destruct (task s) as [|j block] eqn:Et; [by intros [= <-]|].
  destruct (inv_task s I j block Et) as (c & Hj & _). unfold get_buffer, sd_call. mrun. cbn [pool set_pool]. rewrite Hj. cbn [of_option]. mrun.
  assert (exists c', <[i := b']> (pool s) !! j = Some c' /\ content c' = content c) as (c' & -> & Hc').
  { destruct (decide (j = i)) as [->|Hne]; [|by exists c; rewrite list_lookup_insert_ne].
    exists b'. rewrite list_lookup_insert_eq by (by eapply lookup_lt_Some). split; [done|]. by simplify_eq. }
  cbn [of_option]. mrun. cbn [sd_calls set_pool]. destruct (calm (sd_calls s)) as [_ ->].
  change (negb (SD_NO_ERROR =? SD_NO_ERROR)) with false. cbn iota. unfold passed. mrun. rewrite Hc'. unfold mmod. intros [= <-].
  unfold set_pool, set_failed, set_card, set_task, set_sd_calls, set_waiting. cbn. by destruct (num_waiting s >? 0).
Qed.

(** The state after a page was read into buffer [i], now [c]. *)
Definition loaded (s : fs) (i : nat) (c : buffer) : fs :=
  mk_fs (<[i := c]> (pool s)) (dirty_sem s) (waiting_for_clean s) (num_waiting s) 0 (task s) (card s) (S (sd_calls s)).

Lemma retry_run s i b b' p :
  fs_inv s -> pool s !! i = Some b -> content b' = content b -> page_ok p -> quiet s ->
  exists s1, fs_inv s1 /\ task s1 = WT_IDLE /\ pool s1 = pool s /\ quiet s1 /\ (forall q, page_ok q -> pages s1 q = pages s q) /\
    read_retry MAX_RETRY p i 0 (set_pool (<[i := b']> (pool s)) s) =
      Ok (SD_NO_ERROR, loaded s1 i (mk_buffer (card s1 p) (dirty b') (page b') (use b'))).
Proof.
  intros I Hi Hc Hp [Hq1 Hq2]. destruct (end_ok s I) as (s1 & E & I1 & Ht1 & Hpool & Hpages & Hw1 & Hw2 & _).
  exists s1. split_and!; try done.
  { split; [congruence|]. rewrite Hw2, Hq1, Hq2. by destruct (task s). }
  unfold MAX_RETRY. cbn [read_retry]. unfold safe_read. rewrite !bind_assoc. erewrite bind_ok by (by eapply end_commute).
  unfold sd_call. mrun. cbn [sd_calls set_pool]. destruct (calm (sd_calls s1)) as [-> Htr].
  change (negb (SD_NO_ERROR =? SD_NO_ERROR)) with false. cbn iota. unfold get_buffer. mrun. cbn [pool set_sd_calls set_pool].
  rewrite list_lookup_insert_eq by (by eapply lookup_lt_Some). cbn [of_option]. mrun. rewrite Htr.
  change (negb (SD_NO_ERROR =? SD_NO_ERROR)) with false. cbn iota. unfold set_buffer, passed. mrun.
  change (SD_NO_ERROR =? SD_NO_ERROR) with true. cbn iota. mrun. cbn [card set_sd_calls set_pool pool]. rewrite sd_block_id by done.
  unfold loaded, set_failed, set_pool, set_sd_calls. cbn. rewrite list_insert_insert_eq, Hpool. done.
Qed.

(** A buffer that is free for another page. *)
Definition clean (s : fs) : Prop := exists i b, pool s !! i = Some b /\ dirty b = false.

Lemma reserve_clean s : fs_inv s -> clean s ->
  exists i b, reserve_buffer s = Ok (Some i, s) /\ pool s !! i = Some b /\ dirty b = false.
Proof.
  intros I (i & b & Hi & Hb). unfold reserve_buffer. mrun. pose proof (least_used_spec false (pool s) 0 None (MAX_USE + 1)) as H.
  destruct (least_used false (pool s) 0 None (MAX_USE + 1)) as [k|].
  - destruct H as [|(n & c & -> & Hn & Hc)]; [done|]. by exists n, c.
  - destruct H as [_ H]. destruct (buf_at s i b I Hi) as (_ & Hu & _). by rewrite (H i b Hi) in Hb by lia.
Qed.

Lemma reserve_none s : fs_inv s -> ~ clean s -> reserve_buffer s = Ok (None, s).
Proof.
  intros I Hn. unfold reserve_buffer. mrun. pose proof (least_used_spec false (pool s) 0 None (MAX_USE + 1)) as H.
  destruct (least_used false (pool s) 0 None (MAX_USE + 1)) as [k|]; [|done].
  destruct H as [|(n & c & -> & Hc & Hd)]; [done|]. destruct Hn. by exists n, c.
Qed.

#[local] Instance clean_dec s : Decision (clean s).
Proof.
  destruct (decide (Exists (λ b, dirty b = false) (pool s))) as [H|H].
  - left. apply Exists_exists in H as (b & [i Hi]%list_elem_of_lookup & Hb). by exists i, b.
  - right. intros (i & b & Hi & Hb). apply H, Exists_exists. exists b. split; [by eapply list_elem_of_lookup_2|done].
Defined.

(** The buffer evicted is on the card. *)
Lemma evict_synced s i b : fs_inv s -> task s = WT_IDLE -> pool s !! i = Some b -> dirty b = false -> use b <> 0 -> content b = card s (page b).
Proof. intros I Ht Hi Hd Hu. eapply (inv_sync s I); [done|done|done|]. intros block E. rewrite Ht in E. done. Qed.

Lemma page_buf_ok p c d : page_ok p -> length c = PAGE_SIZE -> buf_ok (mk_buffer c d p 1).
Proof. intros Hp Hl. split_and!; cbn; try done; unfold MAX_USE; lia. Qed.

(** Putting a page that was absent into a clean buffer. *)
Lemma replace_ok s i b p c (d : bool) :
  fs_inv s -> task s = WT_IDLE -> pool s !! i = Some b -> dirty b = false -> page_ok p -> absent s p ->
  length c = PAGE_SIZE -> (d = false -> c = card s p) ->
  let s' := loaded s i (mk_buffer c d p 1) in
  fs_inv (set_dirty_sem (dirty_sem s + cbool d) s') /\ forall q, page_ok q -> pages s' q = if decide (q = p) then c else pages s q.
Proof.
  intros I Ht Hi Hd Hp Ha Hl Hc s'. set (b' := mk_buffer c d p 1). assert (buf_ok b') as Hok by (by apply page_buf_ok).
  assert ((page b' = page b /\ use b <> 0) \/ (absent s (page b') /\ forall block, task s <> WT_TRANSFER i block)) as Hpg.
  { right. split; [done|]. intros block E. rewrite Ht in E. done. }
  split.
  - eapply inv_ext; [apply (put_inv s i b b' I Hi Hok ltac:(done) Hpg (dirty_sem s + cbool d))|done..].
    + rewrite Hd. cbn [cbool b' dirty]. lia.
    + intros Hd' _. by apply Hc.
  - intros q Hq. rewrite <- (put_pages s i b b' I Hi ltac:(done) Hpg) by (done || (intros; by eapply evict_synced)). by apply pages_ext.
Qed.

(** ** Reading *)

(** No caller waits, and the task is idle if it was. *)
Definition settles (s s' : fs) : Prop := quiet s' /\ (task s = WT_IDLE -> task s' = WT_IDLE).

(** A computation that changes no page. *)
Definition keeps (s s' : fs) : Prop := fs_inv s' /\ settles s s' /\ forall q, page_ok q -> pages s' q = pages s q.

Lemma more_used_range n : 0 <= n <= MAX_USE -> 0 <= more_used n <= MAX_USE /\ (n <> 0 -> more_used n <> 0).
Proof. unfold more_used, MAX_USE. intros H. destruct (Z.ltb_spec n 254); lia. Qed.

Lemma chunk_in size offset : 0 <= offset -> 0 <= size -> offset + size <= 512 -> chunk size offset = size.
Proof. intros Ho Hs Hl. unfold chunk. destruct (Z.ltb_spec size (512 - offset)); rewrite u16_id by lia; lia. Qed.

Lemma slice_page s p off n : fs_inv s -> 0 <= off -> 0 <= n -> off + n <= 512 ->
  arr_slice (pages s p) off n = Ok (take (Z.to_nat n) (drop (Z.to_nat off) (pages s p))).
Proof. intros I Ho Hn Hl. unfold arr_slice. rewrite decide_True; [done|]. rewrite pages_length by done. unfold PAGE_SIZE. lia. Qed.

Lemma read_hit s waits turns p off n i :
  fs_inv s -> quiet s -> page_ok p -> 0 <= off -> 0 <= n -> off + n <= 512 -> find_page true p (pool s) 0 = Some i ->
  exists s', fs_read_loop waits (S turns) p off n s = Ok (take (Z.to_nat n) (drop (Z.to_nat off) (pages s p)), s') /\ keeps s s'.
Proof.
  intros I Hq Hp Ho Hn Hl Hf. pose proof (find_page_spec true p (pool s) 0) as H. rewrite Hf in H.
  destruct H as (k & b & -> & Hk & Hb & Hu). specialize (Hu eq_refl). cbn [Nat.add] in *.
  destruct (buf_at s k b I Hk) as (Hlen & Hub & Hpg & _). pose proof (more_used_range (use b) Hub) as [Hm1 Hm2].
  set (b1 := mk_buffer (content b) (dirty b) (page b) (more_used (use b))).
  cbn [fs_read_loop]. mrun. rewrite Hf. unfold get_buffer, set_buffer. mrun. rewrite Hk. cbn [of_option]. mrun.
  assert (arr_slice (content b) off n = Ok (take (Z.to_nat n) (drop (Z.to_nat off) (pages s p)))) as Es.
  { rewrite <- (pages_hit s k b I Hk Hu), Hb. by apply slice_page. }
  unfold mlift. rewrite Es.
  exists (set_pool (<[k := b1]> (pool s)) s). split; [done|].
  assert (buf_ok b1) as Hok. { split; [done|]. split; [done|]. split; [done|]. intros E. by destruct (Hm2 Hu). }
  split; [|split; [done|]].
  - eapply inv_ext; [apply (put_inv s k b b1 I Hk Hok (Hm2 Hu) ltac:(by left) (dirty_sem s))|done..].
    + cbn [b1 dirty]. lia.
    + intros Hd Ht. exact (inv_sync s I k b Hk Hu Hd Ht).
  - intros q Hqok. rewrite (put_pages s k b b1 I Hk (Hm2 Hu)) by (done || by left). case_decide as Eq; [|done].
    subst q. symmetry. change (page b1) with (page b). by rewrite (pages_hit s k b).
Qed.

Lemma find_none_absent s p : find_page true p (pool s) 0 = None -> absent s p.
Proof. intros Hf i b Hi Hu Hb. pose proof (find_page_spec true p (pool s) 0) as H. rewrite Hf in H. by destruct (H i b Hi Hb). Qed.

Lemma read_clean s waits turns p off n :
  fs_inv s -> quiet s -> page_ok p -> 0 <= off -> 0 <= n -> off + n <= 512 -> clean s ->
  exists s', fs_read_loop waits (S (S turns)) p off n s = Ok (take (Z.to_nat n) (drop (Z.to_nat off) (pages s p)), s') /\ keeps s s'.
Proof.
  intros I Hq Hp Ho Hn Hl Hc. destruct (find_page true p (pool s) 0) as [i|] eqn:Hf; [by eapply read_hit|].
  destruct (reserve_clean s I Hc) as (i & b & Er & Hi & Hd). remember (S turns) as turns1 eqn:Eturns.
  cbn [fs_read_loop]. mrun. rewrite Hf. mstep Er. unfold get_buffer. mrun. rewrite Hi. cbn [of_option]. unfold set_buffer at 1. mrun.
  destruct (retry_run s i b (mk_buffer (content b) false p 1) p I Hi eq_refl Hp Hq) as (s1 & I1 & Ht1 & Hpool1 & Hq1 & Hpages1 & E).
  cbn [dirty page use] in E. mstep E. change (negb (SD_NO_ERROR =? SD_NO_ERROR)) with false. cbn iota.
  assert (absent s1 p) as Ha1. { intros k c Hk. rewrite Hpool1 in Hk. by eapply find_none_absent. }
  destruct (replace_ok s1 i b p (card s1 p) false I1 Ht1 ltac:(by rewrite Hpool1) Hd Hp Ha1 (inv_card s1 I1 p) ltac:(done)) as [I2 P2].
  set (s2 := loaded s1 i (mk_buffer (card s1 p) false p 1)) in *.
  assert (fs_inv s2) as I2' by (eapply inv_ext; [exact I2|done| |done|done]; cbn; lia).
  assert (forall q, page_ok q -> pages s2 q = pages s q) as P2'.
  { intros q Hqok. rewrite P2 by done. case_decide as Eq; [|by apply Hpages1]. subst q. rewrite <- Hpages1 by done. symmetry. by apply pages_miss. }
  subst turns1. rewrite <- (P2' p Hp).
  destruct (find_page true p (pool s2) 0) as [k|] eqn:Hf2.
  2: { assert (pool s2 !! i = Some (mk_buffer (card s1 p) false p 1)) as Hs2.
       { cbn. rewrite list_lookup_insert_eq; [done|]. rewrite Hpool1. by eapply lookup_lt_Some. }
       pose proof (find_none_absent s2 p Hf2 i _ Hs2) as H. cbn in H. by destruct H. }
  destruct (read_hit s2 waits turns p off n k I2' ltac:(by apply Hq1) Hp Ho Hn Hl Hf2) as (s3 & E3 & I3 & [Q3 T3] & P3).
  exists s3. split; [exact E3|]. split; [done|]. split; [split; [done|intros _; by apply T3]|]. intros q Hqok. by rewrite P3, P2'.
Qed.

(** ** Waiting for a clean buffer *)

Lemma wait_ok s waits :
  fs_inv s -> quiet s -> ~ clean s -> (2 <= waits)%nat ->
  exists s', wait_clean waits s = Ok (tt, s') /\ keeps s s' /\ task s' = WT_IDLE /\ (task s = WT_IDLE -> clean s').
Proof.
  intros I [Hq1 Hq2] Hn Hw. destruct waits as [|[|waits]]; [lia|lia|]. unfold wait_clean. mrun.
  set (s0 := set_waiting (waiting_for_clean s) (u16 (num_waiting s + 1)) s).
  assert (num_waiting s0 = 1 /\ waiting_for_clean s0 = false) as [N0 W0] by (cbn; by rewrite Hq1, Hq2).
  assert (fs_inv s0) as I0 by (by eapply inv_ext).
  assert (exists s1, write_task s0 = Ok (tt, s1) /\ fs_inv s1 /\ task s1 = WT_IDLE /\ (forall q, page_ok q -> pages s1 q = pages s0 q) /\
            num_waiting s1 = 1 /\ waiting_for_clean s1 = true /\ (task s = WT_IDLE -> clean s1)) as (s1 & E1 & I1 & T1 & P1 & N1 & W1 & C1).
  { unfold write_task. destruct (task s) as [|j block] eqn:Et.
    - destruct (task_start_ok s0 I0 Et) as (sa & j & b & Ea & Ia & Ta & Hj & Hb & _ & Hpa & Pa & Na & Wa).
      { rewrite (inv_sem s0 I0). destruct (pool s0) as [|b bs] eqn:Ep; [pose proof (inv_len s0 I0) as Hlen; by rewrite Ep in Hlen|].
        cbn [dirty_count]. destruct (dirty b) eqn:Eb; [pose proof (dirty_count_range bs); cbn [cbool]; lia|].
        destruct Hn. exists O, b. by rewrite <- (eq_refl : pool s0 = pool s), Ep. }
      mstep Ea. destruct (end_ok sa Ia) as (s1 & E1 & I1 & T1 & Hp1 & P1 & N1 & W1 & _). rewrite Ta, Na, N0 in *. exists s1.
      split_and!; try done; [by intros q Hqok; rewrite P1, Pa|]. intros _. exists j, (mk_buffer (content b) false (page b) 1).
      rewrite Hp1, Hpa. by rewrite list_lookup_insert_eq by (by eapply lookup_lt_Some).
    - assert (write_task_start s0 = Ok (tt, s0)) as Es. { unfold write_task_start. mrun. change (task s0) with (task s). by rewrite Et. }
      mstep Es. destruct (end_ok s0 I0) as (s1 & E1 & I1 & T1 & Hp1 & P1 & N1 & W1 & _).
      change (task s0) with (task s) in W1. rewrite Et, N0 in *. exists s1. split_and!; try done. }
  assert (wait_clean_loop (S (S waits)) s0 = Ok (tt, set_waiting false 1 s1)) as E.
  { cbn [wait_clean_loop]. mrun. rewrite W0. mstep E1. mrun. rewrite W1. unfold mmod. by rewrite N1. }
  erewrite bind_ok by exact E. unfold mmod. cbn [waiting_for_clean num_waiting set_waiting]. eexists. split; [reflexivity|].
  split; [split; [by eapply inv_ext|split; [by split|]]|done].
  - intros q Hqok. transitivity (pages s1 q); [by apply pages_ext|]. rewrite P1 by done. by apply pages_ext.
Qed.

Lemma read_ok s waits p off n :
  fs_inv s -> quiet s -> page_ok p -> 0 <= off -> 0 <= n -> off + n <= 512 -> (2 <= waits)%nat ->
  exists s', fs_read waits p off n s = Ok (take (Z.to_nat n) (drop (Z.to_nat off) (pages s p)), s') /\ keeps s s'.
Proof.
  intros I Hq Hp Ho Hn Hl Hw. unfold fs_read. rewrite chunk_in by done.
  destruct waits as [|[|waits]]; [lia|lia|].
  assert (forall s turns, fs_inv s -> quiet s -> task s = WT_IDLE ->
    exists s', fs_read_loop (S (S waits)) (S (S (S turns))) p off n s = Ok (take (Z.to_nat n) (drop (Z.to_nat off) (pages s p)), s') /\ keeps s s') as Hidle.
  { clear s I Hq. intros s turns I Hq Ht. destruct (decide (clean s)) as [Hc|Hc]; [by apply read_clean|].
    destruct (find_page true p (pool s) 0) as [i|] eqn:Hf; [by eapply read_hit|].
    destruct (wait_ok s (S (S waits)) I Hq Hc Hw) as (s1 & E1 & (I1 & [Q1 _] & P1) & T1 & C1).
    remember (S (S turns)) as t2 eqn:Et2. cbn [fs_read_loop]. mrun. rewrite Hf. erewrite bind_ok by (by apply reserve_none). cbn beta iota. erewrite bind_ok by exact E1.
    subst t2. rewrite <- (P1 p Hp). destruct (read_clean s1 (S (S waits)) turns p off n I1 Q1 Hp Ho Hn Hl (C1 Ht)) as (s2 & E2 & I2 & [Q2 T2] & P2).
    exists s2. split; [exact E2|]. split; [done|]. split; [split; [done|intros _; by apply T2]|]. intros q Hqok. by rewrite P2, P1. }
  destruct (decide (clean s)) as [Hc|Hc]; [by apply read_clean|].
  destruct (find_page true p (pool s) 0) as [i|] eqn:Hf; [by eapply read_hit|].
  destruct (wait_ok s (S (S waits)) I Hq Hc Hw) as (s1 & E1 & (I1 & [Q1 _] & P1) & T1 & _).
  remember (S (S (S waits))) as t3 eqn:Et3. cbn [fs_read_loop]. mrun. rewrite Hf. erewrite bind_ok by (by apply reserve_none). cbn beta iota. erewrite bind_ok by exact E1.
  subst t3. rewrite <- (P1 p Hp). destruct (Hidle s1 waits I1 Q1 T1) as (s2 & E2 & I2 & [Q2 T2] & P2).
  exists s2. split; [exact E2|]. split; [done|]. split; [split; [done|intros _; by apply T2]|]. intros q Hqok. by rewrite P2, P1.
Qed.

(** ** Writing *)

Lemma patch_ok pg off bs : length pg = PAGE_SIZE -> 0 <= off -> off + Z.of_nat (length bs) <= 512 ->
  arr_blit pg off bs = Ok (patch pg off bs) /\ length (patch pg off bs) = PAGE_SIZE.
Proof.
  unfold PAGE_SIZE. intros Hl Ho Hb. unfold arr_blit, patch. rewrite decide_True by lia. split; [done|].
  rewrite !length_app, length_take, length_drop. lia.
Qed.

(** The pages after a write. *)
Definition writes (s s' : fs) (p off : Z) (bs : list Z) : Prop :=
  fs_inv s' /\ settles s s' /\ forall q, page_ok q -> pages s' q = if decide (q = p) then patch (pages s p) off bs else pages s q.

Lemma give_ok s i b : fs_inv s -> pool s !! i = Some b -> dirty b = false -> forall s', dirty_sem s' = dirty_sem s ->
  give_dirty_sem s' = Ok (tt, set_dirty_sem (dirty_sem s + 1) s').
Proof.
  intros I Hi Hd s' Hs. unfold give_dirty_sem, mmod. rewrite Hs. pose proof (dirty_count_clean _ _ _ Hi Hd) as H.
  rewrite <- (inv_sem s I), (inv_len s I) in H. by rewrite (proj2 (Z.ltb_lt _ _) H).
Qed.

Lemma write_hit_ok s p off bs i b :
  fs_inv s -> quiet s -> page_ok p -> 0 <= off -> off + Z.of_nat (length bs) <= 512 ->
  pool s !! i = Some b -> page b = p -> use b <> 0 ->
  exists s', write_hit i off bs s = Ok (tt, s') /\ writes s s' p off bs.
Proof.
  intros I Hq Hp Ho Hl Hi Hb Hu.
  assert (forall s1, fs_inv s1 -> settles s s1 -> pool s1 = pool s -> (forall q, page_ok q -> pages s1 q = pages s q) ->
    let b1 := mk_buffer (patch (content b) off bs) true (page b) (more_used (use b)) in
    arr_blit (content b) off bs = Ok (patch (content b) off bs) /\
    writes s (set_dirty_sem (dirty_sem s1 - cbool (dirty b) + 1) (set_pool (<[i := b1]> (pool s1)) s1)) p off bs) as Hput.
  { intros s1 I1 Q1 Hpool1 P1 b1. assert (pool s1 !! i = Some b) as Hi1 by (by rewrite Hpool1).
    destruct (buf_at s1 i b I1 Hi1) as (Hlen & Hub & Hpg & _). pose proof (more_used_range (use b) Hub) as [Hm1 Hm2].
    destruct (patch_ok (content b) off bs Hlen Ho Hl) as [Hblit Hplen].
    assert (buf_ok b1) as Hok. { split; [done|]. split; [done|]. split; [done|]. intros E. by destruct (Hm2 Hu). }
    split; [done|]. split; [|split; [done|]].
    - apply (put_inv s1 i b b1 I1 Hi1 Hok (Hm2 Hu) ltac:(by left)); [done|done].
    - intros q Hqok. rewrite (pages_ext (set_pool (<[i := b1]> (pool s1)) s1)) by done.
      rewrite (put_pages s1 i b b1 I1 Hi1 (Hm2 Hu)) by (done || by left). change (page b1) with (page b). rewrite Hb, P1 by done.
      case_decide; [|done]. cbn [content b1]. by rewrite <- Hb, (pages_hit s i b). }
  unfold write_hit, get_buffer. mrun. rewrite Hi. cbn [of_option]. mrun. destruct (dirty b) eqn:Hd; cbn [negb].
  - assert (exists s1, take_content i s = Ok (tt, s1) /\ fs_inv s1 /\ settles s s1 /\ pool s1 = pool s /\ (forall q, page_ok q -> pages s1 q = pages s q))
      as (s1 & E1 & I1 & Q1 & Hpool1 & P1).
    { unfold take_content. mrun. destruct (task s) as [|j block] eqn:Et; [by exists s; split_and!|]. case_decide as Eij; [|by exists s; split_and!].
      destruct (end_ok s I) as (s1 & E1 & I1 & _ & Hpool1 & P1 & N1 & W1 & _). exists s1. split_and!; try done.
      destruct Hq as [Hq1 Hq2]. split; [|congruence]. split; [congruence|]. rewrite W1, Et, Hq1. done. }
    mstep E1. unfold set_buffer. mrun. rewrite Hpool1, Hi. cbn [of_option]. mrun. destruct (Hput s1 I1 Q1 Hpool1 P1) as [-> Hw]. mrun.
    rewrite Hd. cbn [negb]. eexists. split; [reflexivity|]. rewrite ?Hd in Hw; cbn [cbool] in Hw.
    replace (dirty_sem s1 - 1 + 1) with (dirty_sem s1) in Hw by lia. by rewrite Hpool1 in *.
  - destruct (Hput s I ltac:(done) eq_refl ltac:(done)) as [-> Hw]. mrun. unfold set_buffer. mrun.
    rewrite (give_ok s i b I Hi Hd) by done. eexists. split; [reflexivity|]. rewrite ?Hd in Hw; cbn [cbool] in Hw.
    by replace (dirty_sem s - 0 + 1) with (dirty_sem s + 1) in Hw by lia.
Qed.

Lemma write_miss_ok s p off n bs i b :
  fs_inv s -> quiet s -> page_ok p -> 0 <= off -> 0 < n -> off + n <= 512 -> Z.of_nat (length bs) = n -> absent s p ->
  pool s !! i = Some b -> dirty b = false -> n <> 512 \/ task s = WT_IDLE ->
  exists s', write_miss i p off n bs s = Ok (n, s') /\ writes s s' p off bs.
Proof.
  intros I Hq Hp Ho Hn Hl Hbs Ha Hi Hd Hc. unfold write_miss.
  assert (exists s1 c0, (if negb (n =? 512) then read_retry MAX_RETRY p i 0 else mret SD_NO_ERROR) s = Ok (SD_NO_ERROR, c0) /\
    fs_inv s1 /\ quiet s1 /\ task s1 = WT_IDLE /\ pool s1 = pool s /\ (forall q, page_ok q -> pages s1 q = pages s q) /\
    dirty_sem c0 = dirty_sem s1 /\ card c0 = card s1 /\ task c0 = task s1 /\ num_waiting c0 = num_waiting s1 /\
    waiting_for_clean c0 = waiting_for_clean s1 /\
    exists b0, pool c0 !! i = Some b0 /\ (forall c, <[i := c]> (pool c0) = <[i := c]> (pool s1)) /\ length (content b0) = PAGE_SIZE /\
      patch (content b0) off bs = patch (pages s p) off bs) as (s1 & c0 & E0 & I1 & Q1 & T1 & Hpool1 & P1 & C1 & C2 & C3 & C4 & C5 & b0 & Hb0 & Hins & Hlen0 & Hpatch).
  { destruct (Z.eqb_spec n 512) as [En|En]; cbn [negb].
    - destruct Hc as [|Ht]; [done|]. destruct (buf_at s i b I Hi) as (Hlen & _).
      exists s, s. split_and!; try done. exists b. split_and!; try done. unfold patch.
      assert (off = 0) as -> by lia. cbn [Z.to_nat take app]. f_equal.
      rewrite !drop_ge; [done| |]; [rewrite (pages_length s p I)|rewrite Hlen]; unfold PAGE_SIZE; lia.
    - destruct (retry_run s i b b p I Hi eq_refl Hp Hq) as (s1 & I1 & T1 & Hpool1 & Q1 & P1 & E).
      rewrite list_insert_id in E by done. replace (set_pool (pool s) s) with s in E by (by destruct s).
      exists s1, (loaded s1 i (mk_buffer (card s1 p) (dirty b) (page b) (use b))). split_and!; try done.
      exists (mk_buffer (card s1 p) (dirty b) (page b) (use b)). cbn [pool loaded content]. split_and!.
      + rewrite list_lookup_insert_eq; [done|]. rewrite Hpool1. by eapply lookup_lt_Some.
      + intros c. by rewrite list_insert_insert_eq.
      + apply (inv_card s1 I1).
      + f_equal. rewrite <- P1 by done. symmetry. apply pages_miss; [|done]. intros k c Hk. rewrite Hpool1 in Hk. exact (Ha k c Hk). }
  mstep E0. change (negb (SD_NO_ERROR =? SD_NO_ERROR)) with false. cbn iota. rewrite (proj2 (Z.eqb_neq n 0)) by lia. cbn [negb].
  unfold get_buffer, set_buffer. mrun. rewrite Hb0. cbn [of_option]. mrun.
  destruct (patch_ok (content b0) off bs Hlen0 Ho ltac:(lia)) as [-> Hplen]. mrun.
  pose proof (give_ok s1 i b I1 ltac:(by rewrite Hpool1) Hd
    (set_pool (<[i := mk_buffer (patch (content b0) off bs) true p 1]> (pool c0)) c0) C1) as Eg.
  mstep Eg. eexists. split; [reflexivity|].
  assert (absent s1 p) as Ha1. { intros k c Hk. rewrite Hpool1 in Hk. exact (Ha k c Hk). }
  destruct (replace_ok s1 i b p (patch (content b0) off bs) true I1 T1 ltac:(by rewrite Hpool1) Hd Hp Ha1 Hplen ltac:(done)) as [I2 P2].
  rewrite Hpatch in *. split_and!.
  - eapply inv_ext; [exact I2|..]; cbn [pool dirty_sem card task set_dirty_sem set_pool loaded]; done.
  - destruct Q1. split; [split; cbn; congruence|intros _; cbn; congruence].
  - intros q Hqok. transitivity (pages (loaded s1 i (mk_buffer (patch (pages s p) off bs) true p 1)) q).
    { apply pages_ext; cbn [pool card set_dirty_sem set_pool loaded]; done. }
    rewrite P2 by done. case_decide; [done|by apply P1].
Qed.

Lemma present_or_absent s p : fs_inv s -> p <> 0 ->
  (exists i b, find_page false p (pool s) 0 = Some i /\ pool s !! i = Some b /\ page b = p /\ use b <> 0) \/
  (find_page false p (pool s) 0 = None /\ absent s p).
Proof.
  intros I Hp. pose proof (find_page_spec false p (pool s) 0) as H. destruct (find_page false p (pool s) 0) as [k|] eqn:Hf.
  - left. destruct H as (n & b & -> & Hn & Hb & _). exists n, b. split_and!; try done.
    intros Hu. destruct (buf_at s n b I Hn) as (_ & _ & _ & Hz). destruct (Hz Hu). congruence.
  - right. split; [done|]. intros i b Hi Hu Hb. by destruct (H i b Hi Hb).
Qed.

Lemma writes_trans s s1 s2 p off bs : (forall q, page_ok q -> pages s1 q = pages s q) -> task s1 = WT_IDLE -> page_ok p ->
  writes s1 s2 p off bs -> writes s s2 p off bs.
Proof. intros P1 T1 Hp (I & [Q T] & P). split; [done|]. split; [split; [done|intros _; by apply T]|]. intros q Hq. by rewrite P, !P1. Qed.

Lemma write_ok s waits p off n buf :
  fs_inv s -> quiet s -> page_ok p -> p <> 0 -> 0 <= off -> 0 < n -> off + n <= 512 -> n <= Z.of_nat (length buf) -> (3 <= waits)%nat ->
  n <> 512 \/ task s = WT_IDLE ->
  exists s', fs_write waits p off buf n s = Ok (n, s') /\ writes s s' p off (take (Z.to_nat n) buf).
Proof.
  intros I Hq Hp Hp0 Ho Hn Hl Hbuf Hw Hc. unfold fs_write. rewrite chunk_in by lia. unfold arr_slice. mrun.
  rewrite decide_True by lia. rewrite drop_0. set (bs := take (Z.to_nat n) buf).
  assert (Z.of_nat (length bs) = n) as Hbs by (unfold bs; rewrite length_take; lia). clearbody bs.
  assert (forall s w, fs_inv s -> quiet s -> clean s -> n <> 512 \/ task s = WT_IDLE ->
    exists s', fs_write_loop w p off n bs s = Ok (n, s') /\ writes s s' p off bs) as Hclean.
  { clear s I Hq Hc Hw waits. intros s w I Hq Hcl Hc. destruct (present_or_absent s p I Hp0) as [(i & b & Hf & Hi & Hb & Hu)|[Hf Ha]].
    - destruct (write_hit_ok s p off bs i b I Hq Hp Ho ltac:(lia) Hi Hb Hu) as (s1 & E1 & W1). exists s1. split; [|done].
      destruct w; cbn [fs_write_loop]; mrun; rewrite Hf; mstep E1; done.
    - destruct (reserve_clean s I Hcl) as (i & b & Er & Hi & Hd).
      destruct (write_miss_ok s p off n bs i b I Hq Hp Ho Hn Hl Hbs Ha Hi Hd Hc) as (s1 & E1 & W1). exists s1. split; [|done].
      destruct w; cbn [fs_write_loop]; mrun; rewrite Hf; mstep Er; done. }
  assert (forall s w, fs_inv s -> quiet s -> (2 <= w)%nat -> task s = WT_IDLE ->
    exists s', fs_write_loop w p off n bs s = Ok (n, s') /\ writes s s' p off bs) as Hidle.
  { clear s I Hq Hc Hw waits. intros s w I Hq Hw Ht. destruct (decide (clean s)) as [Hcl|Hcl]; [by apply Hclean; [..|right]|].
    destruct (present_or_absent s p I Hp0) as [(i & b & Hf & Hi & Hb & Hu)|[Hf Ha]].
    - destruct (write_hit_ok s p off bs i b I Hq Hp Ho ltac:(lia) Hi Hb Hu) as (s1 & E1 & W1). exists s1. split; [|done].
      destruct w; cbn [fs_write_loop]; mrun; rewrite Hf; mstep E1; done.
    - destruct (wait_ok s w I Hq Hcl Hw) as (s1 & E1 & (I1 & [Q1 _] & P1) & T1 & C1).
      destruct w as [|w]; [lia|]. cbn [fs_write_loop]. mrun. rewrite Hf. erewrite bind_ok by (by apply reserve_none). cbn beta iota.
      erewrite bind_ok by exact E1. destruct (Hclean s1 w I1 Q1 (C1 Ht) ltac:(by right)) as (s2 & E2 & W2). exists s2. split; [done|].
      by eapply writes_trans. }
  destruct (decide (clean s)) as [Hcl|Hcl]; [by apply Hclean|].
  destruct (present_or_absent s p I Hp0) as [(i & b & Hf & Hi & Hb & Hu)|[Hf Ha]].
  - destruct (write_hit_ok s p off bs i b I Hq Hp Ho ltac:(lia) Hi Hb Hu) as (s1 & E1 & W1). exists s1. split; [|done].
    destruct waits; cbn [fs_write_loop]; mrun; rewrite Hf; mstep E1; done.
  - destruct (wait_ok s waits I Hq Hcl ltac:(lia)) as (s1 & E1 & (I1 & [Q1 _] & P1) & T1 & C1).
    destruct waits as [|w]; [lia|]. cbn [fs_write_loop]. mrun. rewrite Hf. erewrite bind_ok by (by apply reserve_none). cbn beta iota.
    erewrite bind_ok by exact E1. destruct (Hidle s1 w I1 Q1 ltac:(lia) T1) as (s2 & E2 & W2). exists s2. split; [done|].
    by eapply writes_trans.
Qed.

(** ** The card after the task has run *)

Fixpoint run_task (n : nat) : M fs unit :=
  match n with
  | O => mret tt
  | S n => write_task ;; run_task n
  end.

Lemma flush_ok n : forall s, fs_inv s -> quiet s -> task s = WT_IDLE -> dirty_sem s = Z.of_nat n ->
  exists s', run_task n s = Ok (tt, s') /\ keeps s s' /\ task s' = WT_IDLE /\ dirty_sem s' = 0 /\ (forall q, page_ok q -> card s' q = pages s q).
Proof.
  induction n as [|n IH]; intros s I Hq Ht Hs.
  - exists s. split; [done|]. split; [by split|]. split; [done|]. split; [done|]. intros q Hqok. destruct (find_page true q (pool s) 0) as [k|] eqn:Hf.
    + pose proof (find_page_spec true q (pool s) 0) as H. rewrite Hf in H. destruct H as (i & b & _ & Hi & <- & Hu).
      rewrite (pages_hit s i b I Hi (Hu eq_refl)). symmetry. apply (evict_synced s i b I Ht Hi); [|by apply Hu].
      destruct (dirty b) eqn:Hd; [|done]. exfalso. rewrite (inv_sem s I) in Hs.
      pose proof (dirty_count_insert (pool s) i b (mk_buffer [] false 0 0) Hi) as Hc. rewrite Hd in Hc. cbn [dirty cbool] in Hc.
      pose proof (dirty_count_range (<[i := mk_buffer [] false 0 0]> (pool s))). lia.
    + symmetry. apply pages_miss; [by apply find_none_absent|done].
  - destruct (task_start_ok s I Ht ltac:(lia)) as (s1 & j & b & E1 & I1 & T1 & Hj & Hb & S1 & Hp1 & P1 & N1 & W1).
    destruct (end_ok s1 I1) as (s2 & E2 & I2 & T2 & Hp2 & P2 & N2 & W2 & _).
    assert (quiet s2) as Q2. { destruct Hq as [Hq1 Hq2]. split; [congruence|]. rewrite W2, T1, N1, Hq1. cbn. congruence. }
    destruct (IH s2 I2 Q2 T2) as (s3 & E3 & (I3 & Q3 & P3) & T3 & S3 & C3).
    { rewrite (inv_sem s2 I2), Hp2, <- (inv_sem s1 I1), S1. lia. }
    exists s3. cbn [run_task]. unfold write_task. rewrite bind_assoc. mstep E1. mstep E2. split; [done|].
    split_and!; try done.
    + split; [done|]. split; [split; [apply Q3|done]|]. intros q Hqok. by rewrite P3, P2, P1.
    + intros q Hqok. by rewrite C3, P2, P1.
Qed.

(** ** Sequences of operations *)

(** Calls, and the two steps of the writing task. *)
Inductive op := Read (p off n : Z) | Write (p off : Z) (bs : list Z) | TaskStart | TaskEnd.

Definition run_op (waits : nat) (o : op) : M fs (list Z) :=
  match o with
  | Read p off n => fs_read waits p off n
  | Write p off bs => n ← fs_write waits p off bs (Z.of_nat (length bs)); mret [n]
  | TaskStart => s ← mget; (if dirty_sem s =? 0 then mret tt else write_task_start) ;; mret []
  | TaskEnd => write_task_end ;; mret []
  end.
Fixpoint run_ops (waits : nat) (os : list op) : M fs (list (list Z)) :=
  match os with
  | [] => mret []
  | o :: os => r ← run_op waits o; rs ← run_ops waits os; mret (r :: rs)
  end.

(** The same on a card without cache: a function from pages to their bytes. *)
Definition abs_op (mem : Z -> list Z) (o : op) : list Z * (Z -> list Z) :=
  match o with
  | Read p off n => (take (Z.to_nat n) (drop (Z.to_nat off) (mem p)), mem)
  | Write p off bs => ([Z.of_nat (length bs)], λ q, if decide (q = p) then patch (mem p) off bs else mem q)
  | TaskStart | TaskEnd => ([], mem)
  end.
Fixpoint abs_ops (mem : Z -> list Z) (os : list op) : list (list Z) * (Z -> list Z) :=
  match os with
  | [] => ([], mem)
  | o :: os => let (r, mem) := abs_op mem o in let (rs, mem) := abs_ops mem os in (r :: rs, mem)
  end.

(** Accesses stay in their page; page 0 is not written, and a whole page is not while a
    transfer may be in progress ([busy]). *)
Fixpoint valid (busy : bool) (os : list op) : Prop :=
  match os with
  | [] => True
  | Read p off n :: os => page_ok p /\ 0 <= off /\ 0 <= n /\ off + n <= 512 /\ valid busy os
  | Write p off bs :: os =>
      page_ok p /\ p <> 0 /\ 0 <= off /\ (0 < length bs)%nat /\ off + Z.of_nat (length bs) <= 512 /\
      (busy = true -> length bs <> 512%nat) /\ valid busy os
  | TaskStart :: os => valid true os
  | TaskEnd :: os => valid false os
  end.

(** The card and the pool before [fs_init]. *)
Definition powered (s : fs) : Prop :=
  length (pool s) = FS_POOL_SIZE /\ Forall (λ b, length (content b) = PAGE_SIZE) (pool s) /\
  (forall q, length (card s q) = PAGE_SIZE).

Lemma init_ok s : powered s -> exists s', fs_init s = Ok (FS_OK, s') /\ fs_inv s' /\ quiet s' /\ task s' = WT_IDLE /\
  forall q, page_ok q -> pages s' q = card s q.
Proof.
  intros (Hl & Hb & Hc). unfold fs_init, sd_call. mrun. cbn [sd_calls]. destruct (calm (sd_calls s)) as [-> _].
  change (negb (SD_NO_ERROR =? SD_NO_ERROR)) with false. cbn iota. mrun.
  eexists. split; [reflexivity|].
  assert (forall i b, (init_buffer <$> pool s) !! i = Some b -> exists c, pool s !! i = Some c /\ b = init_buffer c) as Hlook.
  { intros i b Hi. rewrite list_lookup_fmap in Hi. destruct (pool s !! i) as [c|]; [|done]. injection Hi as <-. by exists c. }
  assert (page_ok 0) as H0 by (split; lia). split_and!; try done.
  - constructor; cbn [pool dirty_sem card task set_task set_sd_calls].
    + by rewrite length_fmap.
    + apply Forall_fmap. eapply Forall_impl; [exact Hb|]. intros b Hlen. cbn. split_and!; try done; cbn; unfold MAX_USE; lia.
    + intros i j bi bj Hi _ Hu. destruct (Hlook i bi Hi) as (c & _ & ->). done.
    + clear. induction (pool s) as [|b bs IH]; [done|]. cbn. by rewrite <- IH.
    + done.
    + intros i b Hi Hu. destruct (Hlook i b Hi) as (c & _ & ->). done.
    + done.
  - intros q Hq. eapply (pages_miss (mk_fs _ _ _ _ _ _ _ _)); [|done]. intros i b Hi Hu. destruct (Hlook i b Hi) as (c & _ & ->). done.
Qed.

Lemma run_op_ok waits s o os mem (busy : bool) :
  (3 <= waits)%nat -> fs_inv s -> quiet s -> (busy = false -> task s = WT_IDLE) -> (forall q, page_ok q -> pages s q = mem q) -> valid busy (o :: os) ->
  exists s' busy', run_op waits o s = Ok ((abs_op mem o).1, s') /\ fs_inv s' /\ quiet s' /\ (busy' = false -> task s' = WT_IDLE) /\
    (forall q, page_ok q -> pages s' q = (abs_op mem o).2 q) /\ valid busy' os.
Proof.
  intros Hw I Hq Ht Hm Hv. destruct o as [p off n|p off bs| |]; cbn [valid run_op abs_op fst snd] in *.
  - destruct Hv as (Hp & Ho & Hn & Hl & Hv).
    destruct (read_ok s waits p off n I Hq Hp Ho Hn Hl ltac:(lia)) as (s1 & E1 & I1 & [Q1 T1] & P1).
    exists s1, busy. rewrite <- (Hm p Hp). split_and!; try done; [by intros E; apply T1, Ht|]. intros q Hqok. by rewrite P1, Hm.
  - destruct Hv as (Hp & Hp0 & Ho & Hn & Hl & Hb & Hv).
    destruct (write_ok s waits p off (Z.of_nat (length bs)) bs I Hq Hp Hp0 Ho ltac:(lia) Hl ltac:(lia) Hw) as (s1 & E1 & I1 & [Q1 T1] & P1).
    { destruct busy; [left; specialize (Hb eq_refl); lia|right; by apply Ht]. }
    exists s1, busy. mstep E1. split_and!; try done; [by intros E; apply T1, Ht|]. intros q Hqok. rewrite P1 by done.
    rewrite Nat2Z.id, firstn_all. case_decide; [by rewrite Hm|by apply Hm].
  - mrun. destruct (Z.eqb_spec (dirty_sem s) 0) as [E0|E0].
    + exists s, true. by split_and!.
    + destruct (task s) as [|j block] eqn:Et.
      * pose proof (dirty_count_range (pool s)). rewrite (inv_sem s I) in E0.
        destruct (task_start_ok s I Et ltac:(rewrite (inv_sem s I); lia)) as (s1 & j & b & E1 & I1 & T1 & _ & _ & _ & _ & P1 & N1 & W1).
        exists s1, true. mstep E1. destruct Hq. split_and!; try done; [split; congruence|]. intros q Hqok. by rewrite P1, Hm.
      * exists s, true. assert (write_task_start s = Ok (tt, s)) as E1. { unfold write_task_start. mrun. by rewrite Et. }
        mstep E1. by split_and!.
  - destruct (end_ok s I) as (s1 & E1 & I1 & T1 & _ & P1 & N1 & W1 & _). exists s1, false. mstep E1. destruct Hq as [Hq1 Hq2].
    split_and!; try done; [|intros q Hqok; by rewrite P1, Hm]. split; [congruence|]. rewrite W1, Hq1, Hq2. by destruct (task s).
Qed.

Lemma run_ops_ok waits os : forall s mem busy,
  (3 <= waits)%nat -> fs_inv s -> quiet s -> (busy = false -> task s = WT_IDLE) -> (forall q, page_ok q -> pages s q = mem q) -> valid busy os ->
  exists s', run_ops waits os s = Ok ((abs_ops mem os).1, s') /\ fs_inv s' /\ quiet s' /\ (forall q, page_ok q -> pages s' q = (abs_ops mem os).2 q).
Proof.
  induction os as [|o os IH]; intros s mem busy Hw I Hq Ht Hm Hv; [by exists s|].
  destruct (run_op_ok waits s o os mem busy Hw I Hq Ht Hm Hv) as (s1 & busy1 & E1 & I1 & Q1 & T1 & P1 & V1).
  destruct (IH s1 (abs_op mem o).2 busy1 Hw I1 Q1 T1 P1 V1) as (s2 & E2 & I2 & Q2 & P2).
  exists s2. cbn [run_ops abs_ops]. mstep E1. mstep E2. destruct (abs_op mem o) as [r mem1]. cbn [fst snd] in *.
  destruct (abs_ops mem1 os) as [rs mem2]. by split_and!.
Qed.

(** C8: The page cache is transparent. On a card that does not fail, after [fs_init],
    any sequence of reads and writes of the file system and of steps of the writing
    task between them returns without blocking, and gives the results that it would
    give on the card itself without cache; when the task has then ended its transfer
    and written the buffers that are still dirty, the card holds the bytes written.
    Page 0 is not written, and a whole page is not written while a transfer may be in
    progress. *)
Theorem cache_refines s waits os :
  powered s -> (3 <= waits)%nat -> valid false os ->
  exists s', (fs_init ;; run_ops waits os) s = Ok ((abs_ops (card s) os).1, s') /\
    exists s'', (write_task_end ;; s ← mget; run_task (Z.to_nat (dirty_sem s))) s' = Ok (tt, s'') /\
      forall q, page_ok q -> card s'' q = (abs_ops (card s) os).2 q.
Proof.
  intros Hs Hw Hv. destruct (init_ok s Hs) as (s0 & E0 & I0 & Q0 & T0 & P0).
  destruct (run_ops_ok waits os s0 (card s) false Hw I0 Q0 ltac:(done) P0 Hv) as (s1 & E1 & I1 & Q1 & P1).
  exists s1. mstep E0. split; [done|]. destruct (end_ok s1 I1) as (s2 & E2 & I2 & T2 & _ & P2 & N2 & W2 & _). mstep E2. mrun.
  destruct (flush_ok (Z.to_nat (dirty_sem s2)) s2 I2) as (s3 & E3 & _ & _ & _ & C3).
  - destruct Q1 as [Hq1 Hq2]. split; [congruence|]. rewrite W2, Hq1, Hq2. by destruct (task s1).
  - done.
  - rewrite (inv_sem s2 I2). pose proof (dirty_count_range (pool s2)). lia.
  - exists s3. split; [done|]. intros q Hqok. by rewrite C3, P2, P1.
Qed.
End calm.

(** ** When the card fails *)

Lemma fail_once s p i : task s = WT_IDLE -> sd_result (sd_calls s) <> SD_NO_ERROR -> 0 <= failed_attempt s < MAX_FAILED_ATTEMPT ->
  forall n ret, read_retry (S n) p i ret s =
    read_retry n p i (sd_result (sd_calls s)) (set_failed (failed_attempt s + 1) (set_sd_calls (S (sd_calls s)) s)).
Proof.
  intros Ht Hr Hf n ret. cbn [read_retry]. unfold safe_read. rewrite !bind_assoc.
  assert (write_task_end s = Ok (tt, s)) as E. { unfold write_task_end. mrun. by rewrite Ht. }
  mstep E. unfold sd_call. mrun. rewrite (proj2 (Z.eqb_neq _ _) Hr). cbn [negb]. mrun. rewrite (proj2 (Z.eqb_neq _ _) Hr).
  unfold failed. rewrite !bind_assoc. mrun. cbn [failed_attempt set_sd_calls]. unfold MAX_FAILED_ATTEMPT in *.
  rewrite u16_id by lia. replace (failed_attempt s + 1 >? 10) with false by lia. mrun. done.
Qed.

(** A read that failed is served from the cache. [fs_read] enters the page in a
    buffer before it reads it; when the three attempts fail it returns no byte, but the
    buffer keeps the page: the next read of that page does not ask the card, it returns
    the bytes of the page that was in the buffer before. *)
Theorem failed_read_cached s waits p off n :
  fs_inv s -> task s = WT_IDLE -> page_ok p -> absent s p -> clean s -> 0 <= off -> 0 <= n -> off + n <= 512 ->
  0 <= failed_attempt s <= 7 -> (forall k, (k < 3)%nat -> sd_result (sd_calls s + k) <> SD_NO_ERROR) ->
  exists s1 i b, fs_read waits p off n s = Ok ([], s1) /\ pool s !! i = Some b /\ dirty b = false /\
    exists s2, fs_read waits p off n s1 = Ok (take (Z.to_nat n) (drop (Z.to_nat off) (content b)), s2) /\ sd_calls s2 = sd_calls s1.
Proof.
  intros I Ht Hp Ha Hc Ho Hn Hl Hf Hr. destruct (reserve_clean s I Hc) as (i & b & Er & Hi & Hd).
  destruct (buf_at s i b I Hi) as (Hlen & _). unfold PAGE_SIZE in Hlen.
  set (hit := λ u x, mk_fs (<[i := mk_buffer (content b) false p u]> (pool s)) (dirty_sem s) (waiting_for_clean s) (num_waiting s)
                       (failed_attempt s + 3) WT_IDLE (card s) x).
  assert (find_page true p (pool s) 0 = None) as Hnone.
  { pose proof (find_page_spec true p (pool s) 0) as H. destruct (find_page true p (pool s) 0) as [k|]; [|done].
    destruct H as (k' & c & _ & Hk & Hpc & Hu). by destruct (Ha k' c Hk (Hu eq_refl)). }
  assert (forall u x, u <> 0 -> find_page true p (pool (hit u x)) 0 = Some i) as Hfind.
  { intros u x Hu. cbn [pool hit]. pose proof (find_page_spec true p (<[i := mk_buffer (content b) false p u]> (pool s)) 0) as H.
    destruct (find_page true p (<[i := mk_buffer (content b) false p u]> (pool s)) 0) as [k|].
    - destruct H as (k' & c & -> & Hk & Hpc & Huc). cbn [Nat.add] in *. destruct (decide (k' = i)) as [->|Hne]; [done|].
      rewrite list_lookup_insert_ne in Hk by done. by destruct (Ha k' c Hk (Huc eq_refl)).
    - assert (<[i := mk_buffer (content b) false p u]> (pool s) !! i = Some (mk_buffer (content b) false p u)) as Hs
        by (by rewrite list_lookup_insert_eq by (by eapply lookup_lt_Some)).
      by destruct (H i _ Hs eq_refl). }
  assert (forall turns m u x, 0 <= m -> off + m <= 512 -> u <> 0 -> fs_read_loop waits (S turns) p off m (hit u x) =
            Ok (take (Z.to_nat m) (drop (Z.to_nat off) (content b)), hit (more_used u) x)) as Hhit.
  { intros turns m u x Hm Hm' Hu. cbn [fs_read_loop]. mrun. rewrite (Hfind u x Hu). unfold get_buffer, set_buffer. mrun.
    cbn [pool hit]. rewrite list_lookup_insert_eq by (by eapply lookup_lt_Some). cbn [of_option]. mrun. cbn [content dirty page use].
    unfold mlift, arr_slice. rewrite decide_True by lia. unfold set_pool. cbn [pool dirty_sem waiting_for_clean num_waiting failed_attempt task card sd_calls hit].
    by rewrite list_insert_insert_eq. }
  assert (fs_read_loop waits (S (S waits)) p off n s = Ok ([], hit 2 (S (S (S (sd_calls s)))))) as E1.
  { remember (S waits) as t eqn:Et. cbn [fs_read_loop]. mrun. rewrite Hnone. mstep Er. unfold get_buffer. mrun. rewrite Hi. cbn [of_option].
    unfold set_buffer at 1. mrun. unfold MAX_RETRY.
    pose proof (Hr 0%nat ltac:(lia)) as R0. pose proof (Hr 1%nat ltac:(lia)) as R1. pose proof (Hr 2%nat ltac:(lia)) as R2.
    rewrite Nat.add_0_r in R0. replace (sd_calls s + 1)%nat with (S (sd_calls s)) in R1 by lia. replace (sd_calls s + 2)%nat with (S (S (sd_calls s))) in R2 by lia.
    assert (read_retry 3 p i 0 (set_pool (<[i := mk_buffer (content b) false p 1]> (pool s)) s) =
      Ok (sd_result (S (S (sd_calls s))), hit 1 (S (S (S (sd_calls s)))))) as E.
    { rewrite fail_once; [|done|done|cbn; unfold MAX_FAILED_ATTEMPT; lia].
      rewrite fail_once; [|done|done|cbn; unfold MAX_FAILED_ATTEMPT; lia].
      rewrite fail_once; [|done|done|cbn; unfold MAX_FAILED_ATTEMPT; lia]. cbn [read_retry]. unfold mret, M_ret, hit, set_failed, set_sd_calls, set_pool.
      cbn [pool dirty_sem waiting_for_clean num_waiting failed_attempt task card sd_calls]. do 3 f_equal; [lia|done]. }
    mstep E. rewrite (proj2 (Z.eqb_neq _ _) R2). cbn [negb]. subst t. rewrite Hhit by lia. done. }
  exists (hit 2 (S (S (S (sd_calls s))))), i, b. unfold fs_read. rewrite chunk_in by done. split_and!; [done|done|done|].
  exists (hit (more_used 2) (S (S (S (sd_calls s))))). by rewrite Hhit by (done || lia).
Qed.
End fs.

(** ** Concrete cards *)

(** A card that never fails, and one whose transfers fail from call [n] to call [m]. *)
Definition good_card : SdEnv := {| sdhc := true; sd_result _ := 0; transfer_error _ := 0; sd_torn _ := replicate 512 0 |}.
Definition bad_card (n m : nat) : SdEnv :=
  {| sdhc := true;
     sd_result k := if bool_decide (n <= k < m)%nat then 1 else 0;
     transfer_error k := if bool_decide (n <= k < m)%nat then 1 else 0;
     sd_torn _ := replicate 512 0 |}.

(** The state over a card, after [fs_init]. *)
Definition fs_over (card : Z -> list Z) : fs :=
  mk_fs (replicate FS_POOL_SIZE (mk_buffer (replicate 512 0) false 0 0)) 0 false 0 0 WT_IDLE card 0.

(** Page [q] is filled with [q]. *)
Definition fs0 : fs := fs_over (λ q, replicate 512 (q mod 256)).

Lemma fs0_powered : powered fs0.
Proof. split_and!; [done|by apply Forall_replicate|]. intros q. cbn [card fs0 fs_over]. apply length_replicate. Qed.

Lemma cache_refines_witness :
  exists s', (fs_init (sd := good_card) ;; run_ops (sd := good_card) 3 [Read 5 0 2; Write 5 1 [7; 8]; TaskStart; Read 5 0 4; Write 6 0 [9]; TaskEnd; Read 6 0 2]) fs0 =
    Ok ([[5; 5]; [2]; []; [5; 7; 8; 5]; [1]; []; [9; 6]], s').
Proof.
  destruct (cache_refines (sd := good_card) ltac:(done) fs0 3
    [Read 5 0 2; Write 5 1 [7; 8]; TaskStart; Read 5 0 4; Write 6 0 [9]; TaskEnd; Read 6 0 2]) as (s' & E & _).
  - exact fs0_powered.
  - lia.
  - repeat split; cbn; lia.
  - exists s'. etransitivity; [exact E|]. vm_compute. reflexivity.
Defined.

Lemma fs_over_inv {sd : SdEnv} c : (forall q, length (c q) = PAGE_SIZE) -> fs_inv (fs_over c).
Proof.
  intros Hc. assert (forall i b, pool (fs_over c) !! i = Some b -> b = mk_buffer (replicate 512 0) false 0 0) as H.
  { intros i b Hi. apply lookup_replicate in Hi as [-> _]. done. }
  constructor.
  - done.
  - apply Forall_replicate. split; [done|]. split; [cbn; unfold MAX_USE; lia|]. split; [split; cbn; lia|done].
  - intros i j bi bj Hi _ Hu. by rewrite (H i bi Hi) in Hu.
  - done.
  - exact Hc.
  - intros i b Hi Hu. by rewrite (H i b Hi) in Hu.
  - done.
Qed.

Lemma fs0_inv {sd : SdEnv} : fs_inv fs0.
Proof. apply fs_over_inv. intros q. apply length_replicate. Qed.

Lemma failed_read_cached_witness :
  exists s1 s2, fs_read (sd := bad_card 0 3) 3 5 0 2 fs0 = Ok ([], s1) /\
    fs_read (sd := bad_card 0 3) 3 5 0 2 s1 = Ok ([0; 0], s2)  /\ take 2 (card fs0 5) = [5; 5].
Proof.
  destruct (failed_read_cached (sd := bad_card 0 3) fs0 3 5 0 2) as (s1 & i & b & E1 & Hi & _ & s2 & E2 & _).
  - exact fs0_inv.
  - reflexivity.
  - split; cbn; [lia|discriminate].
  - intros i b Hi Hu. apply lookup_replicate in Hi as [-> _]. done.
  - exists O, (mk_buffer (replicate 512 0) false 0 0). split; reflexivity.
  - lia.
  - lia.
  - lia.
  - cbn. lia.
  - intros [|[|[|k]]] Hk; [discriminate|discriminate|discriminate|lia].
  - apply lookup_replicate in Hi as [-> _]. exists s1, s2. split; [exact E1|]. split; [exact E2|reflexivity].
Defined.

(** ** Three defects, on concrete runs *)

Definition results {A} (r : res (A * fs)) : res A := match r with Ok (a, _) => Ok a | Err e => Err e end.

(** A whole page is written into the buffer of a transfer in progress: the other page,
    which was to be written, receives its bytes. *)
Lemma write_overtakes_transfer :
  results (run_ops (sd := good_card) 3
    ([Write 1 0 [7]] ++ ((λ p, Read p 0 1) <$> zseq 2 29) ++ [TaskStart; Write 99 0 (replicate 512 5); TaskEnd; Read 1 0 2]) fs0) =
  Ok ([[1]] ++ ((λ p, [p]) <$> zseq 2 29) ++ [[]; [512]; []; [5; 5]]).
Proof. vm_compute. reflexivity. Qed.

(** A transfer that fails: the buffer is clean already, so that the bytes are never
    written again, and the task finds no dirty buffer at its next turn. *)
Lemma failed_write_lost :
  results (run_ops (sd := bad_card 2 3) 3 [Write 1 0 [7]; TaskStart; TaskEnd; TaskStart] fs0) = Err EUndef.
Proof. vm_compute. reflexivity. Qed.

(** Page 0 is taken to be in the buffers that have not been used. *)
Lemma write_page_zero :
  results (run_ops (sd := good_card) 3 [Write 0 0 [7]; Read 0 0 2] (set_card (λ q, replicate 512 8) fs0)) = Ok [[1]; [7; 0]].
Proof. vm_compute. reflexivity. Qed.
End FsSpec.
