(* ===== verification/Fat32.v ===== *)
(** * FAT32 file system ([lib/fat32/fat32.c], [buf_util.c], [buf_util.h])

    The file system reads and writes parts of pages through two functions, those of
    the page cache: they are the class [PageStore]. The root directory is the only
    one; a file is a directory entry and a chain of clusters in the file allocation
    table. Strings of the callers are lists of characters, without the final zero. *)

From stdpp Require Import base numbers list.
From Stdlib Require Strings.String Strings.Ascii.
From S2P Require Import Prelude Printf.

(** [fs_read(page, offset, buf, size)] gives the bytes it copies, [fs_write(page,
    offset, buf, size)] the number of bytes it took. *)
Class PageStore (S : Type) := {
  fs_read : Z -> Z -> Z -> M S (list Z);
  fs_write : Z -> Z -> list Z -> M S Z;
}.

Module Fat32.
Import Printf.
Import Strings.String.StringSyntax Strings.Ascii.AsciiSyntax.

(** ** Buffers *)

(** [read16] and [read32] of bytes, [write16] and [write32]. *)
Definition read16 (buf : list Z) : Z := le_value (take 2 buf).
Definition read32 (buf : list Z) : Z := le_value (take 4 buf).
Definition write32 (val : Z) : list Z := le_bytes 4 val.

(** The loop of [cmp]: the number of equal characters, and the characters at which it
    stops, one of which is zero. *)
Fixpoint cmp_loop (a b : list Z) (l : Z) : res (option (Z * Z * Z)) :=
  match b with
  | [] => Err EUndef
  | y :: b =>
      match a with
      | [] => if y =? 0 then Ok (Some (l, 0, 0)) else Err EUndef
      | x :: a =>
          if (y =? 0) || (x =? 0) then Ok (Some (l, x, y))
          else if negb (y =? x) then Ok None
          else cmp_loop a b (u8 (l + 1))
      end
  end.
Definition cmp (a b : list Z) (len : Z) : res bool :=
  r ← cmp_loop a b 0;
  match r with
  | None => Ok false
  | Some (l, x, y) => Ok (if len >? 0 then l =? len else x =? y)
  end.

(** The three loops of [split]: the name, up to the dot, the extension. *)
Fixpoint split_name (n : nat) (filename name : list Z) (cpt : Z) : res (list Z * list Z) :=
  match n, filename with
  | S n, c :: rest =>
      if c =? ch "." then Ok (filename, name)
      else name ← arr_set name cpt c; split_name n rest name (cpt + 1)
  | _, _ => Ok (filename, name)
  end.
Fixpoint skip_to_dot (filename : list Z) : list Z :=
  match filename with
  | c :: rest => if c =? ch "." then filename else skip_to_dot rest
  | [] => []
  end.
Fixpoint split_ext (n : nat) (filename ext : list Z) (cpt2 : Z) : res (list Z) :=
  match n, filename with
  | S n, _ :: rest => ext ← arr_set ext cpt2 (hd 0 rest); split_ext n rest ext (cpt2 + 1)
  | _, _ => Ok ext
  end.

(** The padded name and extension, with their final zeros. *)
Definition EXT : list Z := [0x20; 0x20; 0x20; 0].
Definition NAME : list Z := [0x20; 0x20; 0x20; 0x20; 0x20; 0x20; 0x20; 0x20; 0].
Definition split (filename : list Z) : res (list Z * list Z) :=
  x ← split_name 8 filename NAME 0;
  let '(rest, name) := x in
  ext ← split_ext 3 (skip_to_dot rest) EXT 0;
  Ok (name, ext).

(** ** State *)

Record fat32_t := mk_fat {
  boot_sect : Z;
  num_fat : Z;
  sect_per_fat : Z;
  sect_per_clust : Z;
  num_sect : Z;
  max_clust : Z;
  start : Z;
  root_start : Z;
  data_start : Z;
}.

Record dir_entry := mk_dir {
  d_name : list Z;
  d_ext : list Z;
  attrib : Z;
  hour : Z;
  minutes : Z;
  seconds : Z;
  ms : Z;
  year : Z;
  month : Z;
  day : Z;
  start_cluster : Z;
  size : Z;
}.

Inductive fat32_error :=
| FAT32_OK | FAT32_NOT_BOOT_RECORD | FAT32_NOT_FAT32 | FAT32_FILE_NOT_FOUND | FAT32_FILE_EXISTS
| FAT32_NO_FREE_CLUSTER | FAT32_WRONG_CLUSTER | FAT32_FS_ERROR.
#[global] Instance fat32_error_eq_dec : EqDecision fat32_error.
Proof. solve_decision. Defined.

(** The pages, [fat] and [last_free_cluster]. *)
Record fatfs {S : Type} := mk_fatfs { store : S; fat : fat32_t; last_free_cluster : Z }.
Arguments fatfs S : clear implicits.
Arguments mk_fatfs {S}.

#[global] Instance store_lens {S} : Lens (fatfs S) S.
Proof. refine {| view := store; over x s := mk_fatfs x (fat s) (last_free_cluster s) |}; [done|by intros []|done]. Defined.

Section fat32.
Context {S : Type} {ps : PageStore S}.
Abbreviation FM := (M (fatfs S)).

Definition set_fat (f : fat32_t) : FM unit := mmod (λ s, mk_fatfs (store s) f (last_free_cluster s)).
Definition set_last (c : Z) : FM unit := mmod (λ s, mk_fatfs (store s) (fat s) c).

(** A function that returns an error, or [FAT32_OK] and what it writes through its
    pointers. *)
Abbreviation RM A := (FM (fat32_error + A)).
Definition rbind {A B} (m : RM A) (k : A -> RM B) : RM B :=
  r ← m; match r with inl e => mret (inl e) | inr a => k a end.
Definition rret {A} (a : A) : RM A := mret (inr a).

(** [if (fs_read(page, offset, buf, n) != n) return FAT32_FS_ERROR], and the same for
    [fs_write]. *)
Definition read_bytes (page offset n : Z) : RM (list Z) :=
  bs ← mzoom (fs_read page offset n);
  mret (if Z.of_nat (length bs) =? n then inr bs else inl FAT32_FS_ERROR).
Definition write_bytes (page offset : Z) (bs : list Z) : RM unit :=
  n ← mzoom (fs_write page offset bs);
  mret (if n =? Z.of_nat (length bs) then inr tt else inl FAT32_FS_ERROR).
End fat32.
Arguments rbind {S A B} m k.

Notation "x '←?' m ; k" := (rbind m (λ x, k)) (at level 20, m at level 100, k at level 200, right associativity).

Section ops.
Context {S : Type} {ps : PageStore S}.
Abbreviation FM := (M (fatfs S)).
Abbreviation RM A := (FM (fat32_error + A)).

(** ** Mounting *)

Definition check_fs : RM unit :=
  s ← mget;
  buf ←? read_bytes (boot_sect (fat s)) 0x1FE 2;
  ok ← mlift (cmp buf [0x55; 0xAA; 0] 2);
  if negb ok then mret (inl FAT32_NOT_BOOT_RECORD)
  else
    buf ←? read_bytes (boot_sect (fat s)) 0x52 8;
    ok ← mlift (cmp buf (chars "FAT32   " ++ [0]) 8);
    if negb ok then mret (inl FAT32_NOT_FAT32) else rret tt.

Definition upd_fat (f : fat32_t -> fat32_t) : FM unit := s ← mget; set_fat (f (fat s)).
Definition set_boot_sect x f := mk_fat x (num_fat f) (sect_per_fat f) (sect_per_clust f) (num_sect f) (max_clust f) (start f) (root_start f) (data_start f).
Definition set_sect_per_clust x f := mk_fat (boot_sect f) (num_fat f) (sect_per_fat f) x (num_sect f) (max_clust f) (start f) (root_start f) (data_start f).
Definition set_start x f := mk_fat (boot_sect f) (num_fat f) (sect_per_fat f) (sect_per_clust f) (num_sect f) (max_clust f) x (root_start f) (data_start f).
Definition set_num_fat x f := mk_fat (boot_sect f) x (sect_per_fat f) (sect_per_clust f) (num_sect f) (max_clust f) (start f) (root_start f) (data_start f).
Definition set_num_sect x f := mk_fat (boot_sect f) (num_fat f) (sect_per_fat f) (sect_per_clust f) x (max_clust f) (start f) (root_start f) (data_start f).
Definition set_sect_per_fat x f := mk_fat (boot_sect f) (num_fat f) x (sect_per_clust f) (num_sect f) (max_clust f) (start f) (root_start f) (data_start f).
Definition set_data_start x f := mk_fat (boot_sect f) (num_fat f) (sect_per_fat f) (sect_per_clust f) (num_sect f) (max_clust f) (start f) (root_start f) x.
Definition set_root_start x f := mk_fat (boot_sect f) (num_fat f) (sect_per_fat f) (sect_per_clust f) (num_sect f) (max_clust f) (start f) x (data_start f).
Definition set_max_clust x f := mk_fat (boot_sect f) (num_fat f) (sect_per_fat f) (sect_per_clust f) (num_sect f) x (start f) (root_start f) (data_start f).

(** The part of [fat32_mount] that looks for the boot sector. *)
Definition find_boot_sector : RM unit :=
  upd_fat (set_boot_sect 0) ;;
  ret ← check_fs;
  match ret with
  | inl FAT32_NOT_FAT32 =>
      s ← mget;
      buf ←? read_bytes (boot_sect (fat s)) 0x1C2 1;
      if (hd 0 buf =? 0x0B) || (hd 0 buf =? 0x0C) then
        buf ←? read_bytes (boot_sect (fat s)) 0x1C6 4;
        upd_fat (set_boot_sect (read32 buf)) ;;
        check_fs
      else mret ret
  | _ => mret ret
  end.

(** The fields that follow from those read. The first sector of the table is kept in 16
    bits; a cluster of no sectors stops the division. *)
Definition start_of (reserved : Z) (f : fat32_t) : fat32_t := set_start (u16 (boot_sect f + reserved)) f.
Definition data_start_of (f : fat32_t) : fat32_t := set_data_start (u32 (start f + sect_per_fat f * num_fat f)) f.
Definition root_start_of (root : Z) (f : fat32_t) : fat32_t := set_root_start (u32 (data_start f + root - 2)) f.
Definition max_clust_of (f : fat32_t) : res fat32_t :=
  if sect_per_clust f =? 0 then Err EUndef
  else Ok (set_max_clust (u32 (u32 (num_sect f - data_start f + boot_sect f) / sect_per_clust f + 2)) f).

Definition fat32_mount : RM unit :=
  _ ←? find_boot_sector;
  s ← mget;
  let boot := boot_sect (fat s) in
  buf ←? read_bytes boot 0x0d 1;
  upd_fat (set_sect_per_clust (hd 0 buf)) ;;
  buf ←? read_bytes boot 0x0e 2;
  upd_fat (start_of (read16 buf)) ;;
  buf ←? read_bytes boot 0x10 1;
  upd_fat (set_num_fat (hd 0 buf)) ;;
  buf ←? read_bytes boot 0x20 4;
  upd_fat (set_num_sect (read32 buf)) ;;
  buf ←? read_bytes boot 0x24 4;
  upd_fat (set_sect_per_fat (read32 buf)) ;;
  upd_fat data_start_of ;;
  buf ←? read_bytes boot 0x2c 4;
  upd_fat (root_start_of (read32 buf)) ;;
  s ← mget;
  f ← mlift (max_clust_of (fat s));
  set_fat f ;;
  rret tt.

(** ** The file allocation table *)

Definition fat_page (f : fat32_t) (cluster : Z) : Z := u32 (start f + Z.shiftr cluster 7).
Definition fat_offset (cluster : Z) : Z := Z.shiftl (Z.land cluster 0x7F) 2.

Definition fat32_get_next_cluster (cluster : Z) : FM Z :=
  s ← mget;
  if (cluster <? 2) || (cluster >? max_clust (fat s)) then mret 1
  else
    r ← read_bytes (fat_page (fat s) cluster) (fat_offset cluster) 4;
    mret (match r with inr buf => read32 buf | inl _ => 1 end).

Definition fat32_set_next_cluster (cluster next_cluster : Z) : RM unit :=
  s ← mget;
  let f := fat s in
  if (negb (cluster =? 0) && ((cluster <? 2) || (cluster >? max_clust f))) || (next_cluster =? 1) || (next_cluster >? max_clust f)
  then mret (inl FAT32_WRONG_CLUSTER)
  else write_bytes (fat_page f cluster) (fat_offset cluster) (write32 next_cluster).

Definition fat32_free_cluster (cluster : Z) : RM unit := fat32_set_next_cluster cluster 0.

Definition FAT_EOC : Z := 0x0FFFFFF8.

(** [for (i = idx; i < 512; i += 4)], over [k] entries; a result ends the search. *)
Fixpoint scan_sector (k : nat) (sector i : Z) : FM (option Z) :=
  match k with
  | O => mret None
  | Datatypes.S k =>
      r ← read_bytes sector i 4;
      match r with
      | inl _ => set_last 0 ;; mret (Some 1)
      | inr buf =>
          s ← mget;
          if read32 buf =? 0 then
            w ← write_bytes sector i (write32 FAT_EOC);
            match w with
            | inl _ => set_last 0 ;; mret (Some 1)
            | inr _ => mret (Some (last_free_cluster s))
            end
          else set_last (u32 (last_free_cluster s + 1)) ;; scan_sector k sector (i + 4)
      end
  end.

(** [while (current_sector < fat.start + fat.sect_per_fat)], over [n] sectors. *)
Fixpoint scan_fat (n : nat) (sector idx : Z) : FM Z :=
  match n with
  | O => set_last 0 ;; mret 1
  | Datatypes.S n =>
      r ← scan_sector (Z.to_nat ((512 - idx + 3) / 4)) sector idx;
      match r with
      | Some c => mret c
      | None => scan_fat n (sector + 1) 0
      end
  end.

Definition fat32_find_empty_cluster : FM Z :=
  s ← mget;
  let f := fat s in
  let last := last_free_cluster s in
  let '(sector, idx) := if negb (last =? 0) then (fat_page f last, fat_offset last) else (start f, 0) in
  scan_fat (Z.to_nat (u32 (start f + sect_per_fat f) - sector)) sector idx.

(** ** The root directory *)

(** The fields of an entry, as [fat32_read_dir_entry] sets them from the bytes read. *)
Definition set_d_name (bs : list Z) (d : dir_entry) : dir_entry :=
  mk_dir (bs ++ [0]) (d_ext d) (attrib d) (hour d) (minutes d) (seconds d) (ms d) (year d) (month d) (day d) (start_cluster d) (size d).
Definition set_d_ext (bs : list Z) (d : dir_entry) : dir_entry :=
  mk_dir (d_name d) (bs ++ [0]) (attrib d) (hour d) (minutes d) (seconds d) (ms d) (year d) (month d) (day d) (start_cluster d) (size d).
Definition set_attrib (bs : list Z) (d : dir_entry) : dir_entry :=
  mk_dir (d_name d) (d_ext d) (hd 0 bs) (hour d) (minutes d) (seconds d) (ms d) (year d) (month d) (day d) (start_cluster d) (size d).
Definition set_d_date (b : list Z) (d : dir_entry) : dir_entry :=
  let b0 := nth 0 b 0 in let b1 := nth 1 b 0 in let b2 := nth 2 b 0 in let b3 := nth 3 b 0 in let b4 := nth 4 b 0 in
  mk_dir (d_name d) (d_ext d) (attrib d)
    (Z.shiftr b2 3)
    (u8 (Z.lor (Z.shiftr b1 5) (Z.shiftl (Z.land b2 0x7) 3)))
    (u8 (b0 / 100 + Z.land b1 0x1F * 2))
    (b0 mod 100)
    (Z.shiftr b4 1)
    (u8 (Z.lor (Z.shiftr b3 5) (Z.shiftl (Z.land b4 0x1) 3)))
    (Z.land b3 0x1F)
    (start_cluster d) (size d).
Definition set_start_cluster (c : Z) (d : dir_entry) : dir_entry :=
  mk_dir (d_name d) (d_ext d) (attrib d) (hour d) (minutes d) (seconds d) (ms d) (year d) (month d) (day d) c (size d).
Definition set_size (n : Z) (d : dir_entry) : dir_entry :=
  mk_dir (d_name d) (d_ext d) (attrib d) (hour d) (minutes d) (seconds d) (ms d) (year d) (month d) (day d) (start_cluster d) n.

(** One field: [n] bytes at [index]; an error ends the reading with the fields read so
    far. *)
Definition read_field (sect index n : Z) (dir : dir_entry) (set : list Z -> dir_entry -> dir_entry)
    (k : dir_entry -> FM (fat32_error * dir_entry)) : FM (fat32_error * dir_entry) :=
  x ← read_bytes sect index n;
  match x with inl e => mret (e, dir) | inr bs => k (set bs dir) end.

(** The entry read over [dir], up to the first error. *)
Definition fat32_read_dir_entry (sect index : Z) (dir : dir_entry) : FM (fat32_error * dir_entry) :=
  read_field sect index 8 dir set_d_name (λ dir,
  read_field sect (index + 8) 3 dir set_d_ext (λ dir,
  read_field sect (index + 11) 1 dir set_attrib (λ dir,
  read_field sect (index + 13) 5 dir set_d_date (λ dir,
  read_field sect (index + 20) 2 dir (λ b, set_start_cluster (u32 (Z.shiftl (read16 b) 16))) (λ dir,
  read_field sect (index + 26) 2 dir (λ b d, set_start_cluster (Z.lor (start_cluster d) (read16 b)) d) (λ dir,
  read_field sect (index + 28) 4 dir (λ b, set_size (read32 b)) (λ dir,
  mret (FAT32_OK, dir)))))))).

(** What a walk of the directory does with an entry: go on, or stop with a result. *)
Inductive visit (A : Type) := Next | Stop (r : fat32_error + A).
#[global] Arguments Next {A}.
#[global] Arguments Stop {A} r.

(** [for (index = 0; index < 512; index += 32)] and the loop over the sectors of a
    cluster. *)
Fixpoint walk_entries {A} (n : nat) (sector index : Z) (f : Z -> Z -> FM (visit A)) : FM (visit A) :=
  match n with
  | O => mret Next
  | Datatypes.S n =>
      v ← f sector index;
      match v with Stop r => mret (Stop r) | Next => walk_entries n sector (index + 32) f end
  end.
Fixpoint walk_sectors {A} (n : nat) (sector : Z) (f : Z -> Z -> FM (visit A)) : FM (visit A * Z) :=
  match n with
  | O => mret (Next, sector)
  | Datatypes.S n =>
      v ← walk_entries 16 sector 0 f;
      match v with Stop r => mret (Stop r, sector) | Next => walk_sectors n (u32 (sector + 1)) f end
  end.

(** [do ... while ((sector & 0x0FFFFFF8) != 0x0FFFFFF8)] over the clusters of the
    directory; [none] is the result at its end. *)
Fixpoint walk_dir {A} (fuel : nat) (cluster : Z) (f : Z -> Z -> FM (visit A)) (none : Z -> fat32_error + A) : RM A :=
  match fuel with
  | O => mfail EFuel
  | Datatypes.S fuel =>
      s ← mget;
      let sector := u32 (root_start (fat s) + sect_per_clust (fat s) * (cluster - 2)) in
      x ← walk_sectors (Z.to_nat (sect_per_clust (fat s))) sector f;
      let '(v, sector) := x in
      match v with
      | Stop r => mret r
      | Next =>
          cluster ← fat32_get_next_cluster cluster;
          if Z.land sector FAT_EOC =? FAT_EOC then mret (none sector) else walk_dir fuel cluster f none
      end
  end.

Definition empty_dir : dir_entry := mk_dir [] [] 0 0 0 0 0 0 0 0 0 0.

(** [clusters] bounds the length of the directory. The entry is found by name and
    extension, unless it is a volume name or a part of a long name. *)
Definition find_visit (name ext : list Z) (sector index : Z) : FM (visit (Z * Z * dir_entry)) :=
  x ← fat32_read_dir_entry sector index empty_dir;
  let '(ret, dir) := x in
  if negb (bool_decide (ret = FAT32_OK)) then mret (Stop (inl ret))
  else if hd 0 (d_name dir) =? 0 then mret (Stop (inl FAT32_FILE_NOT_FOUND))
  else if negb (Z.land (attrib dir) 0x0F =? 0x0F) && negb (hd 0 name =? 0xE5) then
    same ← mlift (cmp name (d_name dir) 8);
    if same : bool then
      same ← mlift (cmp ext (d_ext dir) 3);
      mret (if same : bool then Stop (inr (sector, index, dir)) else Next)
    else mret Next
  else mret Next.
Definition fat32_find (clusters : nat) (name ext : list Z) : RM (Z * Z * dir_entry) :=
  walk_dir clusters 2 (find_visit name ext) (λ _, inl FAT32_FILE_NOT_FOUND).

Definition fat32_get_volume_name (clusters : nat) : RM (list Z) :=
  walk_dir clusters 2 (λ sector index,
    x ← fat32_read_dir_entry sector index empty_dir;
    let '(ret, dir) := x in
    mret (if negb (bool_decide (ret = FAT32_OK)) then Stop (inl ret)
          else if hd 0 (d_name dir) =? 0 then Stop (inl FAT32_FILE_NOT_FOUND)
          else if attrib dir =? 0x08 then Stop (inr (d_name dir))
          else Next)) (λ _, inl FAT32_FILE_NOT_FOUND).

Definition fat32_open (clusters : nat) (filename : list Z) : RM (Z * Z * dir_entry) :=
  x ← mlift (split filename);
  fat32_find clusters x.1 x.2.

Definition fat32_file_exists (clusters : nat) (filename : list Z) : FM bool :=
  r ← fat32_open clusters filename;
  mret (match r with inr _ => true | inl _ => false end).

Definition fat32_set_file_size (clusters : nat) (filename : list Z) (sz : Z) : RM unit :=
  x ←? fat32_open clusters filename;
  let '(sector, index, _) := x in
  write_bytes sector (index + 28) (write32 sz).

Definition fat32_get_file_size (clusters : nat) (filename : list Z) : RM Z :=
  x ←? fat32_open clusters filename;
  let '(sector, index, _) := x in
  buf ←? read_bytes sector (index + 28) 4;
  rret (read32 buf).

(** The chain freed by [fat32_delete]; [fuel] bounds its length. *)
Fixpoint free_chain (fuel : nat) (cluster : Z) : RM unit :=
  match fuel with
  | O => mfail EFuel
  | Datatypes.S fuel =>
      next ← fat32_get_next_cluster cluster;
      _ ←? fat32_free_cluster cluster;
      if Z.land next FAT_EOC =? FAT_EOC then rret tt else free_chain fuel next
  end.
Definition fat32_delete (clusters chain : nat) (filename : list Z) : RM unit :=
  x ←? fat32_open clusters filename;
  let '(sector, index, dir) := x in
  _ ←? write_bytes sector index [0xE5];
  free_chain chain (start_cluster dir).

(** The entry that [fat32_create] writes. *)
Definition new_entry (name ext : list Z) (start : Z) : list Z :=
  take 8 name ++ take 3 ext ++ [0x20] ++ replicate 8 0 ++ [u8 (Z.shiftr start 16); u8 (Z.shiftr start 24)] ++
  replicate 4 0 ++ [u8 start; u8 (Z.shiftr start 8)] ++ replicate 4 0.

(** A free entry: its sector and index. The index is 512 when the walk ends without. *)
Definition free_visit (sector index : Z) : FM (visit (Z * Z)) :=
  r ← read_bytes sector index 1;
  mret (match r with
        | inl e => Stop (inl e)
        | inr buf => if (hd 0 buf =? 0) || (hd 0 buf =? 0xE5) then Stop (inr (sector, index)) else Next
        end).

Definition fat32_create (clusters : nat) (filename : list Z) (dir : dir_entry) : RM (Z * Z * dir_entry) :=
  exists_ ← fat32_file_exists clusters filename;
  if exists_ : bool then mret (inl FAT32_FILE_EXISTS)
  else
    x ← mlift (split filename);
    let '(name, ext) := x in
    p ←? walk_dir clusters 2 free_visit (λ sector, inr (sector, 512));
    let '(sector, index) := p in
    start ← fat32_find_empty_cluster;
    if start =? 1 then mret (inl FAT32_NO_FREE_CLUSTER)
    else
      _ ←? write_bytes sector index (new_entry name ext start);
      d ← fat32_read_dir_entry sector index dir;
      rret (sector, index, d.2).

Definition fat32_first_sector (cluster : Z) : FM Z :=
  s ← mget;
  mret (u32 (data_start (fat s) + (cluster - 2) * sect_per_clust (fat s))).
End ops.
End Fat32.
