(* ===== verification/FatFile.v ===== *)
(** * Files of the FAT32 file system ([lib/fat32/file.c])

    An open file has a buffer of one sector, given by the caller. Writing is
    sequential: a full buffer goes to the current sector, and a full cluster is
    followed by a new one. *)

From stdpp Require Import base numbers list.
From Stdlib Require Strings.String Strings.Ascii.
From S2P Require Import Prelude Printf Fat32.

Module FatFile.
Import Printf Fat32.
Import Strings.String.StringSyntax Strings.Ascii.AsciiSyntax.

(** [_file_t]; [pbuf] is the content of the buffer. *)
Record file := mk_file {
  current_cluster : Z;
  current_sector : Z;
  sector_index : Z;
  pbuf : list Z;
  buffer_index : Z;
  descriptor_sector : Z;
  descriptor_index : Z;
  dir : dir_entry;
}.

Definition set_dir_name (n e : list Z) (d : dir_entry) : dir_entry :=
  mk_dir n e (attrib d) (hour d) (minutes d) (seconds d) (ms d) (year d) (month d) (day d) (start_cluster d) (size d).
Definition set_dir_date (y mo da h mi se : Z) (d : dir_entry) : dir_entry :=
  mk_dir (d_name d) (d_ext d) (attrib d) h mi se (ms d) y mo da (start_cluster d) (size d).

Section file.
Context {S : Type} {ps : PageStore S}.
Abbreviation FM := (M (fatfs S)).
Abbreviation RM A := (FM (fat32_error + A)).

(** The descriptor of a file just created or opened, with the memory [d] for its
    entry; the memory is always found. *)
Definition open_file (x : Z * Z * dir_entry) (page_buffer : list Z) : RM file :=
  let '(sector, index, d) := x in
  first ← fat32_first_sector (start_cluster d);
  rret (mk_file (start_cluster d) first 0 page_buffer 0 sector index d).

Definition file_create (clusters : nat) (filename page_buffer : list Z) (d : dir_entry) : RM file :=
  x ←? fat32_create clusters filename d;
  open_file x page_buffer.

Definition file_open (clusters : nat) (filename page_buffer : list Z) : RM file :=
  x ←? fat32_open clusters filename;
  open_file x page_buffer.

(** ** Numbered names *)

(** [length]: at most [max]. *)
Definition name_length (buf : list Z) (max : nat) : nat := Nat.min (length buf) max.

Definition hex_digit (n : Z) : Z := if n <? 10 then ch "0" + n else ch "A" - 10 + n.

Definition next_name (basename ext : list Z) (cpt : Z) : list Z :=
  take (name_length basename 6) basename ++ [hex_digit (Z.shiftr cpt 4); hex_digit (Z.land cpt 0xF)] ++ chars "." ++
  take (name_length ext 3) ext.

(** The counter takes the values up to 0xFF. *)
Fixpoint create_next_loop (n : nat) (clusters : nat) (basename ext page_buffer : list Z) (d : dir_entry) (cpt : Z) : RM file :=
  match n with
  | O => mret (inl FAT32_FILE_EXISTS)
  | Datatypes.S n =>
      let filename := next_name basename ext cpt in
      b ← fat32_file_exists clusters filename;
      if negb b then file_create clusters filename page_buffer d
      else create_next_loop n clusters basename ext page_buffer d (cpt + 1)
  end.
Definition file_create_next (clusters : nat) (basename ext page_buffer : list Z) (d : dir_entry) : RM file :=
  create_next_loop 256 clusters basename ext page_buffer d 0.

(** ** Writing *)

(** The full buffer goes to the card, with the new size. *)
Definition flush_sector (f : file) : RM unit :=
  _ ←? write_bytes (current_sector f) 0 (pbuf f);
  write_bytes (descriptor_sector f) (descriptor_index f + 28) (write32 (size (dir f))).

(** The sector that follows, in the same cluster or in a new one; the file is returned
    with its changes also after an error. *)
Definition next_sector (f : file) : FM (fat32_error * file) :=
  s ← mget;
  let si := u8 (sector_index f + 1) in
  if si =? sect_per_clust (fat s) then
    tmp ← fat32_find_empty_cluster;
    ret ← fat32_set_next_cluster (current_cluster f) tmp;
    match ret with
    | inl e => mret (e, mk_file (current_cluster f) (current_sector f) si (pbuf f) (buffer_index f) (descriptor_sector f) (descriptor_index f) (dir f))
    | inr _ =>
        first ← fat32_first_sector tmp;
        mret (FAT32_OK, mk_file tmp first 0 (pbuf f) (buffer_index f) (descriptor_sector f) (descriptor_index f) (dir f))
    end
  else mret (FAT32_OK, mk_file (current_cluster f) (u32 (current_sector f + 1)) si (pbuf f) (buffer_index f) (descriptor_sector f) (descriptor_index f) (dir f)).

Definition set_buffer_index (n : Z) (f : file) : file :=
  mk_file (current_cluster f) (current_sector f) (sector_index f) (pbuf f) n (descriptor_sector f) (descriptor_index f) (dir f).

(** The recursion writes at least one sector per call; [fuel] bounds it. *)
Fixpoint file_write (fuel : nat) (f : file) (buf : list Z) (sz : Z) : FM (fat32_error * file) :=
  match fuel with
  | O => mfail EFuel
  | Datatypes.S fuel =>
      let max := u16 (512 - buffer_index f) in
      let l := if max >? sz then sz else max in
      bs ← mlift (arr_slice buf 0 l);
      b ← mlift (arr_blit (pbuf f) (buffer_index f) bs);
      let f := mk_file (current_cluster f) (current_sector f) (sector_index f) b (u16 (buffer_index f + l))
                 (descriptor_sector f) (descriptor_index f) (set_size (u32 (size (dir f) + l)) (dir f)) in
      if l <? sz then
        r ← flush_sector f;
        match r with
        | inl e => mret (e, f)
        | inr _ =>
            x ← next_sector f;
            let '(ret, f) := x in
            if negb (bool_decide (ret = FAT32_OK)) then mret (ret, f)
            else file_write fuel (set_buffer_index 0 f) (drop (Z.to_nat l) buf) (sz - l)
        end
      else mret (FAT32_OK, f)
  end.

Definition file_close (f : file) : RM unit := flush_sector f.

(** ** Reading *)

(** The bytes read, and [*size]. The end of the file is looked for with the index in the
    buffer only. *)
Fixpoint file_read (fuel : nat) (f : file) (sz : Z) : FM (fat32_error * list Z * Z * file) :=
  match fuel with
  | O => mfail EFuel
  | Datatypes.S fuel =>
      let max := u16 (512 - buffer_index f) in
      let l := if max >? sz then sz else max in
      let '(l, sz) :=
        if buffer_index f + l >? size (dir f) then let l := u16 (size (dir f) - buffer_index f) in (l, l) else (l, sz) in
      r ← (if negb (l =? 0) && (buffer_index f =? 0) then read_bytes (current_sector f) 0 512 else rret (pbuf f));
      match r with
      | inl e => mret (e, [], sz, f)
      | inr b =>
          bs ← mlift (arr_slice b (buffer_index f) l);
          let f := mk_file (current_cluster f) (current_sector f) (sector_index f) b (u16 (buffer_index f + l))
                     (descriptor_sector f) (descriptor_index f) (dir f) in
          if l <? sz then
            s ← mget;
            let si := u8 (sector_index f + 1) in
            f ← (if si =? sect_per_clust (fat s) then
                   c ← fat32_get_next_cluster (current_cluster f);
                   first ← fat32_first_sector c;
                   mret (mk_file c first 0 (pbuf f) 0 (descriptor_sector f) (descriptor_index f) (dir f))
                 else mret (mk_file (current_cluster f) (u32 (current_sector f + 1)) si (pbuf f) 0
                              (descriptor_sector f) (descriptor_index f) (dir f)));
            x ← file_read fuel f (u16 (sz - l));
            let '(ret, more, s', f) := x in
            mret (ret, bs ++ more, u16 (s' + l), f)
          else mret (FAT32_OK, bs, sz, f)
      end
  end.

(** ** Name and date *)

Definition file_rename (clusters : nat) (f : file) (filename : list Z) : FM (fat32_error * file) :=
  b ← fat32_file_exists clusters filename;
  if b : bool then mret (FAT32_FILE_EXISTS, f)
  else
    x ← mlift (split filename);
    let '(name, ext) := x in
    let f := mk_file (current_cluster f) (current_sector f) (sector_index f) (pbuf f) (buffer_index f)
               (descriptor_sector f) (descriptor_index f) (set_dir_name name ext (dir f)) in
    r ← write_bytes (descriptor_sector f) (descriptor_index f) (take 8 name);
    match r with
    | inl e => mret (e, f)
    | inr _ =>
        r ← write_bytes (descriptor_sector f) (descriptor_index f + 8) (take 3 ext);
        mret (match r with inl e => e | inr _ => FAT32_OK end, f)
    end.
End file.

Definition DAY : Z := 24 * 3600.
Definition FOUR_YEARS : Z := (366 + 365 * 3) * DAY.

(** Periods of four years, then years. *)
Fixpoint four_years_loop (fuel : nat) (y time : Z) : res (Z * Z) :=
  match fuel with
  | O => Err EFuel
  | S fuel => if time >? FOUR_YEARS then four_years_loop fuel (y + 4) (time - FOUR_YEARS) else Ok (y, time)
  end.
Definition leap (y : Z) : Z := if ctrue (Z.land y 3) then 0 else 1.
Fixpoint years_loop (fuel : nat) (y time : Z) : res (Z * Z) :=
  match fuel with
  | O => Err EFuel
  | S fuel =>
      let len := (365 + leap y) * DAY in
      if time >=? len then years_loop fuel (y + 1) (time - len) else Ok (y, time)
  end.

(** The tests of the months: the first whose end is after the time; [time] is what is
    left of it in that month. *)
Fixpoint months (ls : list Z) (m time : Z) : Z * Z :=
  match ls with
  | [] => (m, time)
  | l :: ls => if time - l * DAY <? 0 then (m, time) else months ls (m + 1) (time - l * DAY)
  end.

(** At most 32 periods and 5 years fit in 32 bits. *)
Definition DATE_FUEL : nat := 40.

Record date := mk_date { dt_year : Z; dt_month : Z; dt_day : Z; dt_hour : Z; dt_minutes : Z; dt_seconds : Z }.

(** The date of [file_update], with the year of the entry. *)
Definition date_of (time : Z) : res date :=
  x ← four_years_loop DATE_FUEL 1970 time;
  y ← years_loop DATE_FUEL x.1 x.2;
  let '(yr, time) := y in
  let '(mo, time) := months [31; 28 + leap yr; 31; 30; 31; 30; 31; 31; 30; 31; 30] 1 time in
  Ok (mk_date (u8 (yr - 1980)) mo (u8 (1 + time / DAY)) (time mod DAY / 3600) (time mod DAY mod 3600 / 60) (time mod DAY mod 3600 mod 60)).

(** The four bytes of a date in an entry. *)
Definition date_bytes (d : date) : list Z :=
  [u8 (Z.lor (Z.shiftr (dt_seconds d) 1) (Z.shiftl (dt_minutes d) 5));
   u8 (Z.lor (Z.shiftr (dt_minutes d) 3) (Z.shiftl (dt_hour d) 3));
   u8 (Z.lor (dt_day d) (Z.shiftl (dt_month d) 5));
   u8 (Z.lor (Z.shiftr (dt_month d) 3) (Z.shiftl (dt_year d) 1))].

Section update.
Context {S : Type} {ps : PageStore S}.

Definition file_update (f : file) (time : Z) : M (fatfs S) (fat32_error * file) :=
  d ← mlift (date_of time);
  let f := mk_file (current_cluster f) (current_sector f) (sector_index f) (pbuf f) (buffer_index f)
             (descriptor_sector f) (descriptor_index f)
             (set_dir_date (dt_year d) (dt_month d) (dt_day d) (dt_hour d) (dt_minutes d) (dt_seconds d) (dir f)) in
  r ← write_bytes (descriptor_sector f) (descriptor_index f + 0x16) (date_bytes d);
  mret (match r with inl e => e | inr _ => FAT32_OK end, f).
End update.
End FatFile.
