(* ===== verification/FatSpec.v ===== *)
(** * FAT32: the file allocation table

    What the file system needs of the page store is the class [PageStoreSpec]; the
    theorems are proved against it. This file holds the class, the table as a
    function from clusters to entries, and the effect of the operations on it. *)

From stdpp Require Import base numbers list.
From S2P Require Import Prelude Printf Fat32.

(** A store that works: pages of 512 bytes [pview], seen through [fs_read] and changed
    by [fs_write] only. *)
Class PageStoreSpec (S : Type) {ps : PageStore S} := {
  pok : S -> Prop;
  pview : S -> Z -> list Z;
  pvalid : Z -> Prop;
  pview_length s p : pok s -> length (pview s p) = 512%nat;
  fs_read_ok s p off n : pok s -> pvalid p -> 0 <= off -> 0 <= n -> off + n <= 512 ->
    exists s', fs_read p off n s = Ok (part (pview s p) off n, s') /\ pok s' /\ forall q, pvalid q -> pview s' q = pview s q;
  fs_write_ok s p off bs : pok s -> pvalid p -> p <> 0 -> 0 <= off -> (0 < length bs)%nat -> off + Z.of_nat (length bs) <= 512 ->
    exists s', fs_write p off bs s = Ok (Z.of_nat (length bs), s') /\ pok s' /\
      forall q, pvalid q -> pview s' q = if decide (q = p) then patch (pview s p) off bs else pview s q;
}.

Module FatSpec.
Import Fat32.

Section fat.
Context {S : Type} {ps : PageStore S} {spec : PageStoreSpec S}.
Implicit Types (x : fatfs S).

(** The pages of the file system. *)
Definition page x (p : Z) : list Z := pview (store x) p.
Definition fok x : Prop := pok (store x).

(** The pages, the geometry and the hint of the allocator stay the same. *)
Definition same_pages x x' : Prop := forall q, pvalid q -> page x' q = page x q.
Definition reads x x' : Prop := fok x' /\ same_pages x x' /\ fat x' = fat x /\ last_free_cluster x' = last_free_cluster x.

(** One page is changed. *)
Definition patches x x' (p off : Z) (bs : list Z) : Prop :=
  fok x' /\ (forall q, pvalid q -> page x' q = if decide (q = p) then patch (page x p) off bs else page x q) /\
  fat x' = fat x /\ last_free_cluster x' = last_free_cluster x.

Lemma reads_refl x : fok x -> reads x x.
Proof. by intros. Qed.
Lemma reads_trans x y z : reads x y -> reads y z -> reads x z.
Proof. intros (_ & P1 & F1 & L1) (K & P2 & F2 & L2). split_and!; [done| |congruence|congruence]. intros q Hq. by rewrite P2, P1. Qed.

Lemma read_bytes_ok x p off n : fok x -> pvalid p -> 0 <= off -> 0 <= n -> off + n <= 512 ->
  exists x', read_bytes p off n x = Ok (inr (part (page x p) off n), x') /\ reads x x'.
Proof.
  intros Hx Hp Ho Hn Hl. destruct (fs_read_ok (store x) p off n Hx Hp Ho Hn Hl) as (s' & E & Hok & Hv).
  exists (mk_fatfs s' (fat x) (last_free_cluster x)). unfold read_bytes.
  erewrite bind_ok by exact (zoom_ok (S := fatfs S) _ x _ _ E). unfold page.
  rewrite part_length by (done || by apply pview_length). rewrite Z2Nat.id, Z.eqb_refl by done. split; [done|]. by split_and!.
Qed.

Lemma write_bytes_ok x p off bs : fok x -> pvalid p -> p <> 0 -> 0 <= off -> (0 < length bs)%nat -> off + Z.of_nat (length bs) <= 512 ->
  exists x', write_bytes p off bs x = Ok (inr tt, x') /\ patches x x' p off bs.
Proof.
  intros Hx Hp Hp0 Ho Hn Hl. destruct (fs_write_ok (store x) p off bs Hx Hp Hp0 Ho Hn Hl) as (s' & E & Hok & Hv).
  exists (mk_fatfs s' (fat x) (last_free_cluster x)). unfold write_bytes.
  erewrite bind_ok by exact (zoom_ok (S := fatfs S) _ x _ _ E). rewrite Z.eqb_refl. split; [done|]. by split_and!.
Qed.

(** ** The table *)

(** Number of entries of the table. *)
Definition entries (f : fat32_t) : Z := sect_per_fat f * 128.

(** Geometry: the table, then the data, all in valid pages; the clusters are those from 2
    up to [max_clust] excluded, and the table has an entry for each. *)
Record geo_ok (f : fat32_t) : Prop := {
  geo_start : 1 <= start f;
  geo_spf : 1 <= sect_per_fat f;
  geo_table : start f + sect_per_fat f <= data_start f;
  geo_spc : 1 <= sect_per_clust f < 256;
  geo_max : 3 <= max_clust f < 0x0FFFFFF0;
  geo_entries : max_clust f < entries f < 4294967296;
  geo_end : data_start f + (max_clust f - 2) * sect_per_clust f < 4294967296;
  geo_valid : forall p, 0 < p < data_start f + (max_clust f - 2) * sect_per_clust f -> pvalid p;
}.

Definition entry x (c : Z) : Z := read32 (part (page x (fat_page (fat x) c)) (fat_offset c) 4).

Lemma fat_place f c : geo_ok f -> 0 <= c < entries f ->
  fat_page f c = start f + c / 128 /\ start f <= fat_page f c < start f + sect_per_fat f /\
  fat_offset c = c mod 128 * 4 /\ 0 <= fat_offset c /\ fat_offset c + 4 <= 512.
Proof.
  intros G Hc. destruct G. unfold entries in *. unfold fat_page, fat_offset.
  rewrite Z.shiftr_div_pow2 by lia. change (2 ^ 7) with 128. change 0x7F with (Z.ones 7). rewrite Z.land_ones by lia. change (2 ^ 7) with 128.
  rewrite Z.shiftl_mul_pow2 by lia. change (2 ^ 2) with 4.
  pose proof (Z.mod_pos_bound c 128 ltac:(lia)). assert (0 <= c / 128 < sect_per_fat f) by (split; [apply Z.div_pos; lia|apply Z.div_lt_upper_bound; lia]).
  assert (0 <= (max_clust f - 2) * sect_per_clust f) by nia. rewrite u32_id by lia. lia.
Qed.

Lemma fat_page_valid f c : geo_ok f -> 0 <= c < entries f -> pvalid (fat_page f c) /\ fat_page f c <> 0.
Proof.
  intros G Hc. destruct (fat_place f c G Hc) as (_ & Hp & _). destruct G. split; [|lia]. apply geo_valid0. split; [lia|].
  assert (0 < (max_clust f - 2) * sect_per_clust f) by nia. lia.
Qed.

(** Different entries are at different places. *)
Lemma fat_place_inj f c d : geo_ok f -> 0 <= c < entries f -> 0 <= d < entries f -> c <> d ->
  fat_page f c <> fat_page f d \/ fat_offset c + 4 <= fat_offset d \/ fat_offset d + 4 <= fat_offset c.
Proof.
  intros G Hc Hd Hne. destruct (fat_place f c G Hc) as (-> & _ & -> & _), (fat_place f d G Hd) as (-> & _ & -> & _).
  pose proof (Z.div_mod c 128 ltac:(lia)). pose proof (Z.div_mod d 128 ltac:(lia)). lia.
Qed.

Lemma entry_reads x x' c : geo_ok (fat x) -> 0 <= c < entries (fat x) -> reads x x' -> entry x' c = entry x c.
Proof. intros G Hc (_ & P & F & _). unfold entry. rewrite F, P; [done|]. by apply fat_page_valid. Qed.

Lemma write32_ok v : length (write32 v) = 4%nat /\ bytes_ok (write32 v) /\ (is_u32 v -> read32 (write32 v) = v).
Proof.
  unfold write32, read32. split_and!; [apply le_bytes_length|apply le_bytes_ok|]. intros Hv. rewrite take_ge by (by rewrite le_bytes_length).
  rewrite le_value_bytes. apply Z.mod_small. change (256 ^ Z.of_nat 4) with 4294967296. lia.
Qed.

Lemma write32_length v : length (write32 v) = 4%nat.
Proof. apply le_bytes_length. Qed.

(** Writing an entry. *)
Lemma entry_patch x x' c v : geo_ok (fat x) -> fok x -> 0 <= c < entries (fat x) -> is_u32 v ->
  patches x x' (fat_page (fat x) c) (fat_offset c) (write32 v) ->
  entry x' c = v /\ (forall d, 0 <= d < entries (fat x) -> d <> c -> entry x' d = entry x d).
Proof.
  intros G Hx Hc Hv (_ & P & F & _). destruct (fat_place (fat x) c G Hc) as (_ & _ & _ & H1 & H2).
  destruct (write32_ok v) as (Hl & Hb & Hr). pose proof (pview_length (store x) (fat_page (fat x) c) Hx) as Hlen. unfold entry. rewrite F. split.
  - rewrite P by (by apply fat_page_valid). rewrite decide_True by done.
    replace 4 with (Z.of_nat (length (write32 v))) by (by rewrite Hl). rewrite part_patch_same by (done || (rewrite Hl; lia)). by apply Hr.
  - intros d Hd Hne. destruct (fat_place (fat x) d G Hd) as (_ & _ & _ & H3 & H4). rewrite P by (by apply fat_page_valid).
    case_decide as E; [|done]. rewrite E. destruct (fat_place_inj (fat x) d c G Hd Hc Hne) as [|Ho]; [done|].
    rewrite part_patch_other; try done; rewrite ?Hl; lia.
Qed.

Lemma entry_other x x' c p off bs : geo_ok (fat x) -> 0 <= c < entries (fat x) -> start (fat x) + sect_per_fat (fat x) <= p ->
  patches x x' p off bs -> entry x' c = entry x c.
Proof.
  intros G Hc Hp (_ & P & F & _). destruct (fat_place (fat x) c G Hc) as (_ & H & _). unfold entry. rewrite F, P by (by apply fat_page_valid).
  by rewrite decide_False by lia.
Qed.
(** ** The allocator *)

(** Only the hint changes. *)
Definition moves x x' (l : Z) : Prop := fok x' /\ same_pages x x' /\ fat x' = fat x /\ last_free_cluster x' = l.

(** Cluster [c] is taken: its entry marks the end of a chain, nothing else changes. *)
Definition takes x x' (c : Z) : Prop :=
  fok x' /\ (forall q, pvalid q -> page x' q = if decide (q = fat_page (fat x) c) then patch (page x q) (fat_offset c) (write32 FAT_EOC) else page x q) /\
  fat x' = fat x /\ last_free_cluster x' = c.

(** [c] is the first free cluster from [a] on. *)
Definition first_free x (a c : Z) : Prop := a <= c /\ entry x c = 0 /\ forall d, a <= d < c -> entry x d <> 0.

Lemma first_free_step x a c : entry x a <> 0 -> first_free x (a + 1) c -> first_free x a c.
Proof. intros Ha (H1 & H2 & H3). split_and!; [lia|done|]. intros d Hd. destruct (decide (d = a)) as [->|]; [done|]. apply H3. lia. Qed.

Lemma moves_takes x y z l c : moves x y l -> takes y z c -> takes x z c.
Proof.
  intros (_ & P1 & F1 & _) (K & P2 & F2 & L2). split_and!; [done| |congruence|done]. intros q Hq. rewrite P2 by done. rewrite F1. by rewrite !P1.
Qed.
Lemma moves_trans x y z l m : moves x y l -> moves y z m -> moves x z m.
Proof. intros (_ & P1 & F1 & _) (K & P2 & F2 & L2). split_and!; [done| |congruence|done]. intros q Hq. by rewrite P2, P1. Qed.
Lemma entry_moves x x' l c : geo_ok (fat x) -> 0 <= c < entries (fat x) -> moves x x' l -> entry x' c = entry x c.
Proof. intros G Hc (_ & P & F & _). unfold entry. rewrite F, P; [done|]. by apply fat_page_valid. Qed.

(** The entries of one sector, from cluster [last_free_cluster x] on. *)
Lemma scan_sector_ok k : forall x sector i, let a := last_free_cluster x in
  geo_ok (fat x) -> fok x -> 0 <= a -> a + Z.of_nat k <= entries (fat x) ->
  (forall j, 0 <= j < Z.of_nat k -> fat_page (fat x) (a + j) = sector /\ fat_offset (a + j) = i + 4 * j) ->
  exists x', (exists c, c < a + Z.of_nat k /\ first_free x a c /\ scan_sector k sector i x = Ok (Some c, x') /\ takes x x' c) \/
    ((forall d, a <= d < a + Z.of_nat k -> entry x d <> 0) /\ scan_sector k sector i x = Ok (None, x') /\ moves x x' (a + Z.of_nat k)).
Proof.
  induction k as [|k IH]; intros x sector i a G Hx Ha Hk Hp.
  { exists x. right. split_and!; [intros; lia|done|]. rewrite Z.add_0_r. done. }
  destruct (Hp 0 ltac:(lia)) as [Hs Hi]. rewrite Z.add_0_r, Z.mul_0_r, Z.add_0_r in *. subst sector i.
  assert (0 <= a < entries (fat x)) as Har by lia. destruct (fat_page_valid (fat x) a G Har) as [Hv Hv0].
  destruct (fat_place (fat x) a G Har) as (_ & _ & _ & Ho1 & Ho2).
  destruct (read_bytes_ok x (fat_page (fat x) a) (fat_offset a) 4 Hx Hv ltac:(lia) ltac:(lia) ltac:(lia)) as (x1 & E1 & R1).
  cbn [scan_sector]. mstep E1. mrun. change (read32 _) with (entry x a). pose proof R1 as (K1 & P1 & F1 & L1).
  destruct (Z.eqb_spec (entry x a) 0) as [Hz|Hz].
  - destruct (write_bytes_ok x1 (fat_page (fat x) a) (fat_offset a) (write32 FAT_EOC) K1 Hv Hv0 ltac:(lia)) as (x2 & E2 & K2 & P2 & F2 & L2); [rewrite write32_length; lia..|].
    mstep E2. exists x2. left. exists a. split_and!; [lia|split_and!; [lia|done|intros; lia]|by rewrite L1|].
    split_and!; [done| |congruence|by rewrite L2, L1].
    intros q Hq. rewrite P2 by done. case_decide; [subst q|]; by rewrite P1.
  - set (x2 := mk_fatfs (store x1) (fat x1) (u32 (last_free_cluster x1 + 1))).
    assert (last_free_cluster x2 = a + 1) as L2. { destruct G. cbn. rewrite L1. apply u32_id. fold a. lia. }
    assert (moves x x2 (a + 1)) as M2 by (by split_and!).
    destruct (IH x2 (fat_page (fat x) a) (fat_offset a + 4)) as (x3 & [(c & Hc & Hf & E3 & T3)|(Hn & E3 & M3)]); rewrite ?L2; cbn [fat x2]; rewrite ?F1; try done; try lia.
    { intros j Hj. destruct (Hp (j + 1) ltac:(lia)) as [H1 H2]. replace (a + 1 + j) with (a + (j + 1)) by lia. split; [done|]. rewrite H2. lia. }
    + exists x3. left. exists c. rewrite L2 in *. split_and!; [lia| |exact E3|by eapply moves_takes].
      apply first_free_step; [done|]. destruct Hf as (H1 & H2 & H3). split_and!; [done| |].
      * rewrite <- H2. symmetry. eapply entry_moves; [done| |exact M2]. lia.
      * intros d Hd. rewrite <- (entry_moves x x2 (a + 1) d); [by apply H3|done|lia|done].
    + exists x3. right. rewrite L2 in *. split_and!; [|exact E3|]. 
      * intros d Hd. destruct (decide (d = a)) as [->|]; [done|]. rewrite <- (entry_moves x x2 (a + 1) d); [apply Hn; lia|done|lia|done].
      * eapply moves_trans; [done|]. by replace (a + Z.of_nat (Datatypes.S k)) with (a + 1 + Z.of_nat k) by lia.
Qed.
(** The clusters of a sector of the table. *)
Lemma sector_places f a j : geo_ok f -> 0 <= a -> a + j < entries f -> 0 <= j < 128 - a mod 128 ->
  fat_page f (a + j) = start f + a / 128 /\ fat_offset (a + j) = a mod 128 * 4 + 4 * j.
Proof.
  intros G Ha Hj Hr. destruct (fat_place f (a + j) G ltac:(lia)) as (-> & _ & -> & _).
  pose proof (Z.mod_pos_bound a 128 ltac:(lia)). pose proof (Z.div_mod a 128 ltac:(lia)).
  assert ((a + j) / 128 = a / 128) as -> by (symmetry; apply (Z.div_unique _ _ _ (a mod 128 + j)); lia).
  assert ((a + j) mod 128 = a mod 128 + j) as -> by (symmetry; apply (Z.mod_unique _ _ (a / 128)); lia). lia.
Qed.

Lemma scan_fat_ok n : forall x, let a := last_free_cluster x in
  geo_ok (fat x) -> fok x -> 0 <= a -> a / 128 + Z.of_nat n = sect_per_fat (fat x) ->
  exists x', (exists c, c < entries (fat x) /\ first_free x a c /\ scan_fat n (start (fat x) + a / 128) (a mod 128 * 4) x = Ok (c, x') /\ takes x x' c) \/
    ((forall d, a <= d < entries (fat x) -> entry x d <> 0) /\ scan_fat n (start (fat x) + a / 128) (a mod 128 * 4) x = Ok (1, x') /\ moves x x' 0).
Proof.
  induction n as [|n IH]; intros x a G Hx Ha Hn; pose proof (Z.mod_pos_bound a 128 ltac:(lia)) as Hm; pose proof (Z.div_mod a 128 ltac:(lia)) as Hd.
  { exists (mk_fatfs (store x) (fat x) 0). right. split_and!; [|done|by split_and!]. intros d Hde. unfold entries in Hde. lia. }
  cbn [scan_fat]. replace (Z.to_nat ((512 - a mod 128 * 4 + 3) / 4)) with (Z.to_nat (128 - a mod 128)).
  2: { f_equal. apply (Z.div_unique _ _ _ 3); lia. }
  assert (Z.of_nat (Z.to_nat (128 - a mod 128)) = 128 - a mod 128) as Hk by lia.
  assert (a + (128 - a mod 128) <= entries (fat x)) as Hke by (unfold entries; lia).
  destruct (scan_sector_ok (Z.to_nat (128 - a mod 128)) x (start (fat x) + a / 128) (a mod 128 * 4)) as (x1 & [(c & Hc & Hf & E1 & T1)|(Hne & E1 & M1)]);
    fold a; rewrite ?Hk; try done.
  { intros j Hj. apply sector_places; [done|done|lia|done]. }
  { mstep E1. exists x1. left. exists c. split_and!; [fold a in Hc; lia|done|done|done..]. }
  mstep E1. rewrite Hk in *. fold a in M1, Hne. pose proof M1 as (K1 & P1 & F1 & L1). replace (a + (128 - a mod 128)) with ((a / 128 + 1) * 128) in * by lia.
  destruct (IH x1) as (x2 & Hr); rewrite ?F1, ?L1, ?Z.div_mul, ?Z.mod_mul in *; try done; try lia.
  assert (forall d, (a / 128 + 1) * 128 <= d < entries (fat x) -> entry x1 d = entry x d) as He.
  { intros d Hde. eapply entry_moves; [done| |done]. lia. }
  rewrite <- Z.add_assoc. exists x2. destruct Hr as [(c & Hc & (H1 & H2 & H3) & E2 & T2)|(Hn2 & E2 & M2)]; [left; exists c|right].
  - split_and!; [done| |done|by eapply moves_takes]. split_and!; [lia|rewrite <- H2; symmetry; apply He; lia|].
    intros d Hde. destruct (decide (d < (a / 128 + 1) * 128)); [apply Hne; lia|]. rewrite <- He by lia. apply H3. lia.
  - split_and!; [|done|by eapply moves_trans]. intros d Hde.
    destruct (decide (d < (a / 128 + 1) * 128)); [apply Hne; lia|]. rewrite <- He by lia. apply Hn2. lia.
Qed.

(** The first free cluster from the hint on, or 1 when there is none. *)
Lemma find_empty_ok x : geo_ok (fat x) -> fok x -> 0 <= last_free_cluster x < entries (fat x) ->
  exists x', (exists c, c < entries (fat x) /\ first_free x (last_free_cluster x) c /\ fat32_find_empty_cluster x = Ok (c, x') /\ takes x x' c) \/
    ((forall d, last_free_cluster x <= d < entries (fat x) -> entry x d <> 0) /\ fat32_find_empty_cluster x = Ok (1, x') /\ moves x x' 0).
Proof.
  intros G Hx Ha. set (a := last_free_cluster x) in *. pose proof (Z.mod_pos_bound a 128 ltac:(lia)) as Hm. pose proof (Z.div_mod a 128 ltac:(lia)) as Hd.
  destruct (fat_place (fat x) a G Ha) as (Hp & Hr & Ho & _). unfold fat32_find_empty_cluster. mrun. fold a.
  destruct (scan_fat_ok (Z.to_nat (sect_per_fat (fat x) - a / 128)) x) as (x' & H); fold a; try done; [lia|unfold entries in *; lia|].
  exists x'. assert (u32 (start (fat x) + sect_per_fat (fat x)) = start (fat x) + sect_per_fat (fat x)) as ->.
  { destruct G. apply u32_id. assert (0 < (max_clust (fat x) - 2) * sect_per_clust (fat x)) by nia. lia. }
  fold a in H. destruct (Z.eqb_spec a 0) as [E|E]; cbn [negb].
  - rewrite E in *. rewrite Z.add_0_r in H. rewrite Z.sub_0_r in H. replace (start (fat x) + _ - _) with (sect_per_fat (fat x)) by lia. exact H.
  - rewrite Hp, Ho. replace (start (fat x) + sect_per_fat (fat x) - (start (fat x) + a / 128)) with (sect_per_fat (fat x) - a / 128) by lia. exact H.
Qed.
End fat.
End FatSpec.
