(* ===== verification/FatFileSpec.v ===== *)
(** * FAT32: the content of files

    A file is a chain of clusters in the table and the bytes of their sectors. Writing
    appends to it, closing makes the card hold all of it, reading gives it back; the
    clusters of other files do not change. *)

From stdpp Require Import base numbers list.
From S2P Require Import Prelude Printf Fat32 FatFile FatSpec.

Module FatFileSpec.
Import Fat32 FatFile FatSpec.

(** ** Clusters *)

Definition cluster_ok (f : fat32_t) (c : Z) : Prop := 2 <= c < max_clust f.

(** The page of sector [i] of cluster [c]. *)
Definition data_page (f : fat32_t) (c i : Z) : Z := data_start f + (c - 2) * sect_per_clust f + i.

Section file.
Context {S : Type} {ps : PageStore S} {spec : PageStoreSpec S}.
Implicit Types (x : fatfs S).

Lemma data_page_range f c i : geo_ok f -> cluster_ok f c -> 0 <= i < sect_per_clust f ->
  pvalid (data_page f c i) /\ data_page f c i <> 0 /\ start f + sect_per_fat f <= data_page f c i < 4294967296.
Proof.
  intros [] Hc Hi. unfold cluster_ok in Hc. unfold data_page.
  assert (0 <= (c - 2) * sect_per_clust f) by nia. assert ((c - 2) * sect_per_clust f + sect_per_clust f <= (max_clust f - 2) * sect_per_clust f) by nia.
  split_and!; [|lia..]. apply geo_valid0. lia.
Qed.

Lemma data_page_inj f c i d j : geo_ok f -> 0 <= i < sect_per_clust f -> 0 <= j < sect_per_clust f ->
  data_page f c i = data_page f d j -> c = d /\ i = j.
Proof.
  intros G Hi Hj E. unfold data_page in E.
  destruct (Z.div_mod_unique (sect_per_clust f) (c - 2) (d - 2) i j); lia.
Qed.

Lemma first_sector_ok x c : geo_ok (fat x) -> cluster_ok (fat x) c -> fat32_first_sector c x = Ok (data_page (fat x) c 0, x).
Proof.
  intros G Hc. destruct (data_page_range (fat x) c 0 G Hc) as (_ & _ & Hr); [destruct G; lia|].
  unfold fat32_first_sector, data_page in *. mrun. rewrite Z.add_0_r in *. destruct G. by rewrite u32_id by lia.
Qed.

Lemma cluster_entry f c : geo_ok f -> cluster_ok f c -> 0 <= c < entries f.
Proof. intros [] Hc. unfold cluster_ok in Hc. lia. Qed.

(** ** Links *)

Lemma get_next_ok x c : geo_ok (fat x) -> fok x -> cluster_ok (fat x) c ->
  exists x', fat32_get_next_cluster c x = Ok (entry x c, x') /\ reads x x'.
Proof.
  intros G Hx Hc. pose proof (cluster_entry _ _ G Hc) as He. destruct (fat_page_valid (fat x) c G He) as [Hv _].
  destruct (fat_place (fat x) c G He) as (_ & _ & _ & H1 & H2). unfold cluster_ok in Hc. unfold fat32_get_next_cluster. mrun.
  assert ((c <? 2) || (c >? max_clust (fat x)) = false) as -> by lia.
  destruct (read_bytes_ok x (fat_page (fat x) c) (fat_offset c) 4 Hx Hv ltac:(lia) ltac:(lia) ltac:(lia)) as (x' & E & R).
  mstep E. by exists x'.
Qed.

(** The entry of a cluster becomes [v], nothing else changes. *)
Definition links x x' (c v : Z) : Prop := patches x x' (fat_page (fat x) c) (fat_offset c) (write32 v).

Lemma set_next_ok x c v : geo_ok (fat x) -> fok x -> cluster_ok (fat x) c -> 0 <= v <= max_clust (fat x) -> v <> 1 ->
  exists x', fat32_set_next_cluster c v x = Ok (inr tt, x') /\ links x x' c v.
Proof.
  intros G Hx Hc Hv Hv1. pose proof (cluster_entry _ _ G Hc) as He. destruct (fat_page_valid (fat x) c G He) as [Hp Hp0].
  destruct (fat_place (fat x) c G He) as (_ & _ & _ & H1 & H2). unfold cluster_ok in Hc. unfold fat32_set_next_cluster. mrun.
  assert ((negb (c =? 0) && ((c <? 2) || (c >? max_clust (fat x)))) || (v =? 1) || (v >? max_clust (fat x)) = false) as -> by lia.
  apply write_bytes_ok; rewrite ?write32_length; done || lia.
Qed.

(** A change of the table does not change the data. *)
Lemma table_data x x' e v c i : geo_ok (fat x) -> 0 <= e < entries (fat x) -> patches x x' (fat_page (fat x) e) (fat_offset e) v ->
  cluster_ok (fat x) c -> 0 <= i < sect_per_clust (fat x) -> page x' (data_page (fat x) c i) = page x (data_page (fat x) c i).
Proof.
  intros G He (_ & P & _) Hc Hi. destruct (data_page_range (fat x) c i G Hc Hi) as (Hv & _ & Hr). destruct (fat_place (fat x) e G He) as (_ & Hp & _).
  rewrite P by done. by rewrite decide_False by lia.
Qed.

(** [takes] as a change of the table and of the hint. *)
Lemma takes_patches x x' c : takes x x' c ->
  patches x (mk_fatfs (store x') (fat x') (last_free_cluster x)) (fat_page (fat x) c) (fat_offset c) (write32 FAT_EOC).
Proof.
  intros (K & P & F & L). split_and!; [done| |done|done]. intros q Hq. unfold page in *. cbn. rewrite P by done. by case_decide; [subst|].
Qed.

(** ** Free clusters *)

(** The free clusters from the hint on, in order. *)
Definition free x : list Z := filter (λ c, entry x c = 0) (seqZ (last_free_cluster x) (max_clust (fat x) - last_free_cluster x)).

Lemma filter_cons_inv {A} (P : A -> Prop) {HP : forall a, Decision (P a)} (l : list A) c l' : filter P l = c :: l' ->
  exists l1 l2, l = l1 ++ c :: l2 /\ Forall (λ a, ~ P a) l1 /\ P c /\ filter P l2 = l'.
Proof.
  induction l as [|a l IH]; [done|]. rewrite filter_cons. case_decide as D.
  - intros [= -> <-]. exists [], l. by split_and!.
  - intros E. destruct (IH E) as (l1 & l2 & -> & H1 & H2 & H3). exists (a :: l1), l2. split_and!; try done. by constructor.
Qed.

Lemma seqZ_split a n l1 c l2 : seqZ a n = l1 ++ c :: l2 ->
  l1 = seqZ a (c - a) /\ a <= c < a + n /\ l2 = seqZ (c + 1) (a + n - (c + 1)).
Proof.
  intros E. assert (length l1 + Datatypes.S (length l2) = Z.to_nat n)%nat as Hl by (rewrite <- (length_seqZ a n), E, length_app; done).
  assert (seqZ a n !! length l1 = Some c) as Hc by (rewrite E; by apply list_lookup_middle).
  apply lookup_seqZ in Hc as [Hc1 Hc2]. assert (c - a = Z.of_nat (length l1)) as Hca by lia.
  replace n with ((c - a) + (1 + (a + n - (c + 1)))) in E by lia. rewrite !seqZ_app in E by lia.
  apply app_inj_1 in E as [E1 E2]; [|rewrite length_seqZ; lia]. rewrite (seqZ_cons (a + (c - a)) 1) in E2 by lia. change (seqZ (Z.succ (a + (c - a))) (Z.pred 1)) with (@nil Z) in E2. cbn [app] in E2.
  injection E2 as E2 E3. split_and!; [done|lia|lia|]. rewrite <- E3. f_equal; lia.
Qed.
(** A mounted volume: the two first entries, which are not clusters, are not free. *)
Record vol_ok x : Prop := {
  vol_geo : geo_ok (fat x);
  vol_fok : fok x;
  vol_last : 0 <= last_free_cluster x < entries (fat x);
  vol_media : entry x 0 <> 0 /\ entry x 1 <> 0;
}.

Lemma entry_takes x x' c : geo_ok (fat x) -> fok x -> 0 <= c < entries (fat x) -> takes x x' c ->
  entry x' c = FAT_EOC /\ forall d, 0 <= d < entries (fat x) -> d <> c -> entry x' d = entry x d.
Proof. intros G Hx Hc T. exact (entry_patch _ _ c FAT_EOC G Hx Hc ltac:(done) (takes_patches x x' c T)). Qed.

(** The free clusters that the allocator gives, one after the other. *)
Lemma free_take x c l : vol_ok x -> free x = c :: l ->
  exists x', fat32_find_empty_cluster x = Ok (c, x') /\ takes x x' c /\ cluster_ok (fat x) c /\ entry x c = 0 /\ free x' = l /\ vol_ok x'.
Proof.
  intros [G Hx Hl Hm] Hf. destruct (filter_cons_inv _ _ _ _ Hf) as (l1 & l2 & Hs & Hn & Hc & Hr).
  apply seqZ_split in Hs as (-> & Hca & ->). set (a := last_free_cluster x) in *. rewrite Forall_forall in Hn.
  assert (forall d, a <= d < c -> entry x d <> 0) as Hn' by (intros d Hd; apply Hn, elem_of_seqZ; lia).
  assert (cluster_ok (fat x) c) as Hcok.
  { unfold cluster_ok. split; [|lia]. destruct (decide (c = 0)) as [->|]; [by destruct Hm|]. destruct (decide (c = 1)) as [->|]; [by destruct Hm|]. lia. }
  pose proof (cluster_entry _ _ G Hcok) as Hce.
  destruct (find_empty_ok x G Hx Hl) as (x' & [(c' & Hc' & (F1 & F2 & F3) & E & T)|(Hno & _)]); [|by destruct (Hno c); fold a; [lia|]].
  fold a in F1, F3. assert (c' = c) as ->.
  { destruct (Z.lt_trichotomy c' c) as [|[]]; [by destruct (Hn' c' ltac:(lia))|done|by destruct (F3 c ltac:(lia))]. }
  destruct (entry_takes x x' c G Hx Hce T) as [T1 T2]. pose proof T as (K & _ & F & L).
  exists x'. split_and!; [done..| |].
  - unfold free. rewrite F, L. rewrite seqZ_cons by lia. rewrite filter_cons, decide_False by (rewrite T1; done). rewrite <- Hr.
    replace (Z.pred (max_clust (fat x) - c)) with (a + (max_clust (fat x) - a) - (c + 1)) by lia.
    apply filter_ext_in. intros d Hd%elem_of_seqZ. rewrite T2; [done| |lia]. destruct G. lia.
  - assert (0 <= 0 < entries (fat x) /\ 0 <= 1 < entries (fat x)) as [H0 H1] by (unfold cluster_ok in Hcok; lia).
    constructor; rewrite ?F, ?L; try done. unfold cluster_ok in Hcok. by rewrite !T2 by lia.
Qed.
(** ** Chains *)

(** Each cluster of the list has the following one as entry, the last one a mark. *)
Record chain x (cs : list Z) : Prop := {
  chain_ok : Forall (cluster_ok (fat x)) cs;
  chain_nodup : NoDup cs;
  chain_link : forall i c, cs !! i = Some c -> entry x c = default FAT_EOC (cs !! Datatypes.S i);
}.

(** The page of sector [k] of a chain. *)
Definition sector_of (f : fat32_t) (cs : list Z) (k : Z) : Z :=
  data_page f (nth (Z.to_nat (k / sect_per_clust f)) cs 0) (k mod sect_per_clust f).

Lemma sector_place f cs k : geo_ok f -> 0 <= k -> k / sect_per_clust f < Z.of_nat (length cs) ->
  exists i c, Z.of_nat i = k / sect_per_clust f /\ cs !! i = Some c /\ 0 <= k mod sect_per_clust f < sect_per_clust f /\
    sector_of f cs k = data_page f c (k mod sect_per_clust f).
Proof.
  intros [] Hk Hl. assert (0 <= k / sect_per_clust f) by (apply Z.div_pos; lia).
  destruct (lookup_lt_is_Some_2 cs (Z.to_nat (k / sect_per_clust f))) as [c Hc]; [lia|].
  exists (Z.to_nat (k / sect_per_clust f)), c. split_and!; [lia|done|apply Z.mod_pos_bound; lia..|]. unfold sector_of. by rewrite (nth_lookup_Some _ _ _ _ Hc).
Qed.

Lemma sector_of_app f cs cs' k : geo_ok f -> 0 <= k -> k / sect_per_clust f < Z.of_nat (length cs) -> sector_of f (cs ++ cs') k = sector_of f cs k.
Proof.
  intros G Hk Hl. assert (0 <= k / sect_per_clust f) by (destruct G; apply Z.div_pos; lia). unfold sector_of. rewrite app_nth1 by lia. done.
Qed.

Lemma sector_of_inj f cs i j : geo_ok f -> NoDup cs -> 0 <= i -> 0 <= j ->
  i / sect_per_clust f < Z.of_nat (length cs) -> j / sect_per_clust f < Z.of_nat (length cs) ->
  sector_of f cs i = sector_of f cs j -> i = j.
Proof.
  intros G Hn Hi Hj Hil Hjl E. destruct (sector_place f cs i G Hi Hil) as (a & c & Ha & Hc & Hr & Ei).
  destruct (sector_place f cs j G Hj Hjl) as (b & d & Hb & Hd & Hs & Ej). rewrite Ei, Ej in E.
  apply data_page_inj in E as [<- E]; [|done..]. assert (a = b) as <- by (eapply NoDup_lookup; eauto).
  rewrite (Z.div_mod i (sect_per_clust f)), (Z.div_mod j (sect_per_clust f)); destruct G; lia.
Qed.

(** The table, the geometry and the hint stay the same. *)
Definition same_table x x' : Prop :=
  fok x' /\ fat x' = fat x /\ last_free_cluster x' = last_free_cluster x /\ forall c, 0 <= c < entries (fat x) -> entry x' c = entry x c.

Lemma same_vol x x' : vol_ok x -> same_table x x' -> vol_ok x'.
Proof.
  intros [G Hx Hl Hm] (K & F & L & E). constructor; rewrite ?F, ?L; try done. assert (2 < entries (fat x)) by (destruct G; lia). by rewrite !E by lia.
Qed.
Lemma same_chain x x' cs : vol_ok x -> same_table x x' -> chain x cs -> chain x' cs.
Proof.
  intros [G Hx Hl Hm] (K & F & L & E) [C1 C2 C3]. constructor; rewrite ?F; try done. intros i c Hc. rewrite E; [by apply C3|].
  apply (cluster_entry _ _ G). by eapply Forall_lookup_1.
Qed.
Lemma same_free x x' : vol_ok x -> same_table x x' -> free x' = free x.
Proof.
  intros [G Hx Hl Hm] (K & F & L & E). unfold free. rewrite F, L. apply filter_ext_in. intros c Hc%elem_of_seqZ. rewrite E; [done|]. destruct G. lia.
Qed.

(** A change of a page of data. *)
Lemma data_same_table x x' c i off bs : geo_ok (fat x) -> cluster_ok (fat x) c -> 0 <= i < sect_per_clust (fat x) ->
  patches x x' (data_page (fat x) c i) off bs -> same_table x x'.
Proof.
  intros G Hc Hi P. destruct (data_page_range (fat x) c i G Hc Hi) as (_ & _ & Hr). pose proof P as (K & _ & F & L). split_and!; [done..|].
  intros d Hd. eapply entry_other; [done|done| |done]. lia.
Qed.
(** ** Files being written *)

(** The first [k] sectors of the chain hold the first [512 * k] bytes of [data]. *)
Definition stored x (cs : list Z) (k : Z) (data : list Z) : Prop :=
  forall i, 0 <= i < k -> page x (sector_of (fat x) cs i) = part data (512 * i) 512.

(** The directory entry is in a cluster in use which is not of the file. *)
Definition slot_ok x (cs : list Z) (ds di : Z) : Prop :=
  exists c i, cluster_ok (fat x) c /\ entry x c <> 0 /\ c ∉ cs /\ 0 <= i < sect_per_clust (fat x) /\ ds = data_page (fat x) c i /\ 0 <= di <= 480.

(** An open file to which [data] was written: [k] whole sectors are on the card, the
    rest is in the buffer. *)
Record file_inv x (f : file) (cs : list Z) (k : Z) (data : list Z) : Prop := {
  fi_vol : vol_ok x;
  fi_chain : chain x cs;
  fi_slot : slot_ok x cs (descriptor_sector f) (descriptor_index f);
  fi_k : 0 <= k;
  fi_last : exists init, cs = init ++ [current_cluster f] /\ k / sect_per_clust (fat x) = Z.of_nat (length init);
  fi_index : sector_index f = k mod sect_per_clust (fat x);
  fi_sector : current_sector f = sector_of (fat x) cs k;
  fi_pbuf : length (pbuf f) = 512%nat;
  fi_bi : 0 <= buffer_index f <= 512;
  fi_stored : stored x cs k data;
  fi_length : Z.of_nat (length data) = 512 * k + buffer_index f;
  fi_tail : part (pbuf f) 0 (buffer_index f) = part data (512 * k) (buffer_index f);
  fi_size : size (dir f) = Z.of_nat (length data);
}.

(** What a file leaves alone: the entries of the other clusters in use, and their
    bytes, but for the size in its directory entry. *)
Definition others x x' (cs : list Z) (ds di : Z) : Prop :=
  forall c, cluster_ok (fat x) c -> entry x c <> 0 -> c ∉ cs ->
    entry x' c = entry x c /\
    forall i off n, 0 <= i < sect_per_clust (fat x) -> 0 <= off -> 0 <= n -> off + n <= 512 ->
      data_page (fat x) c i <> ds \/ off + n <= di + 28 \/ di + 32 <= off ->
      part (page x' (data_page (fat x) c i)) off n = part (page x (data_page (fat x) c i)) off n.

Lemma others_trans x y z cs cs' ds di : fat y = fat x -> Forall (λ c, entry x c = 0) cs' ->
  others x y cs ds di -> others y z (cs ++ cs') ds di -> others x z cs ds di.
Proof.
  intros F Hf O1 O2 c Hc He Hn. destruct (O1 c Hc He Hn) as [E1 P1]. destruct (O2 c) as [E2 P2].
  - by rewrite F.
  - by rewrite E1.
  - rewrite elem_of_app. intros [|H]; [done|]. rewrite Forall_forall in Hf. by apply He, Hf.
  - split; [congruence|]. intros i off n. rewrite F in P2. intros. rewrite P2, P1; done.
Qed.

(** The sector and the size are written. *)
Definition flushed x x' (f : file) : Prop :=
  fok x' /\ fat x' = fat x /\ last_free_cluster x' = last_free_cluster x /\
  forall q, pvalid q -> page x' q =
    if decide (q = descriptor_sector f) then patch (page x q) (descriptor_index f + 28) (write32 (size (dir f)))
    else if decide (q = current_sector f) then pbuf f else page x q.

Lemma file_sector x f cs k data : file_inv x f cs k data ->
  cluster_ok (fat x) (current_cluster f) /\ current_cluster f ∈ cs /\ 0 <= k mod sect_per_clust (fat x) < sect_per_clust (fat x) /\
  k / sect_per_clust (fat x) < Z.of_nat (length cs) /\
  current_sector f = data_page (fat x) (current_cluster f) (k mod sect_per_clust (fat x)).
Proof.
  intros I. destruct (fi_last _ _ _ _ _ I) as (init & Hcs & Hki). pose proof (vol_geo _ (fi_vol _ _ _ _ _ I)) as G.
  assert (cs !! length init = Some (current_cluster f)) as Hl by (rewrite Hcs; by apply list_lookup_middle).
  assert (k / sect_per_clust (fat x) < Z.of_nat (length cs)) as Hk by (rewrite Hcs, length_app; cbn; lia).
  destruct (sector_place (fat x) cs k G (fi_k _ _ _ _ _ I) Hk) as (i & c & Hi & Hc & Hr & E).
  assert (i = length init) as -> by lia. assert (c = current_cluster f) as -> by congruence. split_and!; try done; try lia.
  - exact (Forall_lookup_1 _ _ _ _ (chain_ok _ _ (fi_chain _ _ _ _ _ I)) Hl).
  - by eapply list_elem_of_lookup_2.
  - by rewrite (fi_sector _ _ _ _ _ I).
Qed.

Lemma flush_sector_ok x f cs k data : file_inv x f cs k data -> exists x', flush_sector f x = Ok (inr tt, x') /\ flushed x x' f.
Proof.
  intros I. destruct (file_sector _ _ _ _ _ I) as (Hc & Hin & Hr & _ & Es). destruct (fi_slot _ _ _ _ _ I) as (d & j & Hd & _ & Hdn & Hj & Ed & Hdi).
  destruct (fi_vol _ _ _ _ _ I) as [G Hx _ _]. destruct (data_page_range _ _ _ G Hc Hr) as (Hv & Hv0 & _). destruct (data_page_range _ _ _ G Hd Hj) as (Hw & Hw0 & _).
  rewrite <- Es in Hv, Hv0. rewrite <- Ed in Hw, Hw0.
  assert (descriptor_sector f <> current_sector f) as Hne.
  { rewrite Es, Ed. intros E. apply data_page_inj in E as [-> _]; done. }
  pose proof (fi_pbuf _ _ _ _ _ I) as Hp. unfold flush_sector, rbind.
  destruct (write_bytes_ok x (current_sector f) 0 (pbuf f) Hx Hv Hv0 ltac:(lia)) as (x1 & E1 & K1 & P1 & F1 & L1); [rewrite Hp; lia..|].
  mstep E1. destruct (write_bytes_ok x1 (descriptor_sector f) (descriptor_index f + 28) (write32 (size (dir f))) K1 Hw Hw0) as (x2 & E2 & K2 & P2 & F2 & L2); rewrite ?write32_length; [lia..|].
  exists x2. split; [done|]. split_and!; [done|congruence|congruence|]. intros q Hq. rewrite P2 by done. rewrite !P1 by done.
  case_decide as D1; [subst q; by rewrite decide_False|]. case_decide; [|done]. apply patch_whole. rewrite Hp. by apply pview_length.
Qed.

Lemma flushed_table x x' f cs k data : file_inv x f cs k data -> flushed x x' f -> same_table x x'.
Proof.
  intros I (K & F & L & P). destruct (file_sector _ _ _ _ _ I) as (Hc & Hin & Hr & _ & Es). destruct (fi_slot _ _ _ _ _ I) as (d & j & Hd & _ & Hdn & Hj & Ed & Hdi).
  destruct (fi_vol _ _ _ _ _ I) as [G Hx _ _]. destruct (data_page_range _ _ _ G Hc Hr) as (_ & _ & Hv). destruct (data_page_range _ _ _ G Hd Hj) as (_ & _ & Hw).
  split_and!; try done. intros e He. destruct (fat_place (fat x) e G He) as (_ & Hp & _). unfold entry. rewrite F, P by (by apply fat_page_valid).
  by rewrite !decide_False by (rewrite ?Ed, ?Es; lia).
Qed.

Lemma flushed_others x x' f cs k data : file_inv x f cs k data -> flushed x x' f -> others x x' cs (descriptor_sector f) (descriptor_index f).
Proof.
  intros I Fl c Hc He Hn. pose proof (flushed_table _ _ _ _ _ _ I Fl) as (_ & _ & _ & Ht). destruct Fl as (K & F & L & P).
  destruct (file_sector _ _ _ _ _ I) as (Hcc & Hin & Hr & _ & Es). destruct (fi_vol _ _ _ _ _ I) as [G Hx _ _].
  destruct (fi_slot _ _ _ _ _ I) as (d & j & Hd & _ & Hdn & Hj & Ed & Hdi).
  split; [apply Ht; by apply cluster_entry|]. intros i off n Hi Ho Hnn Hl Ha. destruct (data_page_range _ _ _ G Hc Hi) as (Hv & _ & _).
  rewrite P by done. case_decide as D1.
  - rewrite part_patch_other; rewrite ?write32_length; try done; try lia. by apply pview_length.
  - rewrite decide_False; [done|]. rewrite Es. intros E. apply data_page_inj in E as [-> _]; done.
Qed.

(** After the write, one more sector is stored when the buffer was full. *)
Lemma flushed_stored x x' f cs k data : file_inv x f cs k data -> flushed x x' f ->
  stored x' cs k data /\ page x' (sector_of (fat x) cs k) = pbuf f.
Proof.
  intros I (K & F & L & P). destruct (file_sector _ _ _ _ _ I) as (Hcc & Hin & Hr & Hkl & Es). destruct (fi_vol _ _ _ _ _ I) as [G Hx _ _].
  destruct (fi_slot _ _ _ _ _ I) as (d & j & Hd & _ & Hdn & Hj & Ed & Hdi). pose proof (fi_chain _ _ _ _ _ I) as [C1 C2 C3].
  assert (forall i, 0 <= i <= k -> pvalid (sector_of (fat x) cs i) /\ sector_of (fat x) cs i <> descriptor_sector f /\ (sector_of (fat x) cs i = current_sector f -> i = k)) as H.
  { intros i Hi. assert (i / sect_per_clust (fat x) < Z.of_nat (length cs)) as Hil.
    { assert (i / sect_per_clust (fat x) <= k / sect_per_clust (fat x)) by (destruct G; apply Z.div_le_mono; lia). lia. }
    destruct (sector_place (fat x) cs i G ltac:(lia) Hil) as (a & c & _ & Hc & Hri & Ei). pose proof (Forall_lookup_1 _ _ _ _ C1 Hc) as Hcok.
    destruct (data_page_range _ _ _ G Hcok Hri) as (Hv & _ & _). rewrite Ei. split_and!; [done| |].
    - rewrite Ed. intros E. apply data_page_inj in E as [-> _]; [|done..]. by apply Hdn, (list_elem_of_lookup_2 _ a).
    - rewrite (fi_sector _ _ _ _ _ I), <- Ei. apply sector_of_inj; try done; lia. }
  split.
  - intros i Hi. destruct (H i ltac:(lia)) as (Hv & Hnd & Hnc). rewrite F, P by done. rewrite !decide_False; [by apply (fi_stored _ _ _ _ _ I)| |done].
    intros E. apply Hnc in E. lia.
  - destruct (H k ltac:(split; [apply (fi_k _ _ _ _ _ I)|lia])) as (Hv & Hnd & _). rewrite P by done. rewrite decide_False by done. rewrite decide_True; [done|].
    by rewrite (fi_sector _ _ _ _ _ I).
Qed.
(** ** One more cluster *)

Lemma free_zero x c : c ∈ free x -> entry x c = 0.
Proof. intros H. by apply list_elem_of_filter in H as [H _]. Qed.

Lemma chain_nonzero x cs c : chain x cs -> c ∈ cs -> entry x c <> 0.
Proof.
  intros [C1 C2 C3] [i Hi]%list_elem_of_lookup_1. rewrite (C3 i c Hi). destruct (cs !! Datatypes.S i) as [d|] eqn:Hd; [|done].
  pose proof (Forall_lookup_1 _ _ _ _ C1 Hd) as [H _]. cbn. lia.
Qed.

Lemma chain_extend x x2 init b c : chain x (init ++ [b]) -> fat x2 = fat x -> cluster_ok (fat x) c -> c ∉ init ++ [b] ->
  entry x2 b = c -> entry x2 c = FAT_EOC -> (forall d, d ∈ init ++ [b] -> d <> b -> entry x2 d = entry x d) -> chain x2 ((init ++ [b]) ++ [c]).
Proof.
  intros [C1 C2 C3] F2 Hc Hcn Q1 Hc2 Hd. constructor; rewrite ?F2.
  - apply Forall_app_2; [done|]. by constructor.
  - apply NoDup_app. split_and!; [done| |apply NoDup_singleton]. intros d Hd1 ->%list_elem_of_singleton. done.
  - intros i d Hi. apply lookup_app_Some in Hi as [Hi|[Hi1 Hi2]].
    + pose proof (lookup_lt_Some _ _ _ Hi) as Hlt. destruct (decide (d = b)) as [->|Hne].
      { assert (i = length init) as -> by (eapply NoDup_lookup; [done..|by apply list_lookup_middle]). rewrite Q1.
        rewrite lookup_app_r by (rewrite length_app; cbn; lia). rewrite length_app. cbn. by replace (_ - _)%nat with 0%nat by lia. }
      rewrite Hd; [|by apply (list_elem_of_lookup_2 _ i)|done].
      rewrite (C3 i d Hi). rewrite (lookup_app_l (init ++ [b]) [c]); [done|]. rewrite length_app in *. cbn in *.
      assert (i <> length init); [|lia]. intros ->. rewrite list_lookup_middle in Hi by done. congruence.
    + apply list_lookup_singleton_Some in Hi2 as [Hi2 <-]. rewrite Hc2. rewrite lookup_ge_None_2; [done|]. rewrite !length_app in *. cbn in *. lia.
Qed.

Lemma extend_ok x init b c l : vol_ok x -> chain x (init ++ [b]) -> free x = c :: l ->
  exists x1 x2, fat32_find_empty_cluster x = Ok (c, x1) /\ fat32_set_next_cluster b c x1 = Ok (inr tt, x2) /\
    vol_ok x2 /\ chain x2 ((init ++ [b]) ++ [c]) /\ free x2 = l /\ fat x1 = fat x /\ fat x2 = fat x /\
    (forall d i, cluster_ok (fat x) d -> 0 <= i < sect_per_clust (fat x) -> page x2 (data_page (fat x) d i) = page x (data_page (fat x) d i)) /\
    (forall d, 0 <= d < entries (fat x) -> d <> b -> d <> c -> entry x2 d = entry x d).
Proof.
  intros V C Hf. destruct (free_take x c l V Hf) as (x1 & E1 & T1 & Hc & Hc0 & Hf1 & V1). pose proof V as [G Hx _ _]. pose proof (cluster_entry _ _ G Hc) as Hce.
  pose proof T1 as (K1 & _ & F1 & L1). destruct (entry_takes x x1 c G Hx Hce T1) as [T2 T3]. pose proof C as [C1 C2 C3].
  assert (b ∈ init ++ [b]) as Hbin by (rewrite elem_of_app; right; left). pose proof (proj1 (Forall_forall _ _) C1 b Hbin) as Hb.
  pose proof (cluster_entry _ _ G Hb) as Hbe. assert (c ∉ init ++ [b]) as Hcn by (intros H; by apply (chain_nonzero x _ c) in H).
  assert (b <> c) as Hbc by (by intros ->). pose proof (vol_geo _ V1) as G1.
  destruct (set_next_ok x1 b c G1 K1) as (x2 & E2 & P2); rewrite ?F1; try done; [unfold cluster_ok in Hc; lia..|].
  destruct (entry_patch x1 x2 b c G1 K1 ltac:(by rewrite F1) ltac:(unfold cluster_ok in Hc; destruct G; lia) P2) as [Q1 Q2]. rewrite F1 in Q2.
  pose proof P2 as (K2 & _ & F2 & L2). rewrite F1 in F2.
  assert (forall d, 0 <= d < entries (fat x) -> d <> b -> d <> c -> entry x2 d = entry x d) as Hd by (intros; rewrite Q2, T3; done).
  assert (entry x2 c = FAT_EOC) as Hc2 by (by rewrite Q2).
  exists x1, x2. split_and!; try done.
  - destruct V1 as [_ _ Hl1 Hm1]. rewrite F1 in *. constructor; rewrite ?F2, ?L2; try done. unfold cluster_ok in Hb. by rewrite !Q2 by (destruct G; lia).
  - eapply chain_extend; [exact C|done..|]. intros d Hd1 Hne. apply Hd; [apply (cluster_entry _ _ G), (proj1 (Forall_forall _ _) C1 d Hd1)|done|by intros ->].
  - rewrite <- Hf1. unfold free. rewrite F2, L2, F1. apply filter_ext_in. intros d Hd2%elem_of_seqZ.
    assert (0 <= d < entries (fat x)) as Hde by (destruct V1 as [_ _ Hl1 _]; destruct G; lia).
    destruct (decide (d = b)) as [->|Hdb]; [|by rewrite Q2]. rewrite Q1, T3 by done. split; intros H; exfalso; [unfold cluster_ok in Hc; lia|].
    by apply (chain_nonzero x _ b C Hbin).
  - intros d i Hdok Hi. pose proof (table_data x1 x2 b (write32 c) d i G1) as H2. rewrite F1 in H2. rewrite H2; try done; [|by unfold links in P2; rewrite F1 in P2].
    exact (table_data x _ c _ d i G Hce (takes_patches x x1 c T1) Hdok Hi).
Qed.
(** ** The next sector *)

(** The step of [div] and [mod]. *)
Lemma div_mod_step k n : 0 <= k -> 0 < n ->
  (k mod n + 1 = n -> (k + 1) / n = k / n + 1 /\ (k + 1) mod n = 0) /\
  (k mod n + 1 <> n -> (k + 1) / n = k / n /\ (k + 1) mod n = k mod n + 1).
Proof.
  intros Hk Hn. pose proof (Z.mod_pos_bound k n Hn). pose proof (Z.div_mod k n ltac:(lia)). split; intros E.
  - split; symmetry; [apply (Z.div_unique _ _ _ 0)|apply (Z.mod_unique _ _ (k / n + 1))]; nia.
  - split; symmetry; [apply (Z.div_unique _ _ _ (k mod n + 1))|apply (Z.mod_unique _ _ (k / n))]; nia.
Qed.

(** Changes that leave the data of the clusters leave what is stored. *)
Lemma stored_same x x' cs cs' k data : geo_ok (fat x) -> Forall (cluster_ok (fat x)) cs -> (k - 1) / sect_per_clust (fat x) < Z.of_nat (length cs) -> fat x' = fat x ->
  (forall d i, cluster_ok (fat x) d -> 0 <= i < sect_per_clust (fat x) -> page x' (data_page (fat x) d i) = page x (data_page (fat x) d i)) ->
  stored x cs k data -> stored x' (cs ++ cs') k data.
Proof.
  intros G C Hl F P Hs i Hi. assert (i / sect_per_clust (fat x) < Z.of_nat (length cs)) as Hil.
  { assert (i / sect_per_clust (fat x) <= (k - 1) / sect_per_clust (fat x)) by (destruct G; apply Z.div_le_mono; lia). lia. }
  rewrite F, sector_of_app by (done || lia). destruct (sector_place (fat x) cs i G ltac:(lia) Hil) as (a & c & _ & Hc & Hr & E).
  rewrite E, P by (done || by eapply Forall_lookup_1). rewrite <- E. by apply Hs.
Qed.

Lemma next_sector_ok x f cs k data : file_inv x f cs k data -> buffer_index f = 512 -> stored x cs (k + 1) data ->
  (k + 1) / sect_per_clust (fat x) < Z.of_nat (length cs + length (free x)) ->
  exists x' f' cs', next_sector f x = Ok ((FAT32_OK, f'), x') /\ file_inv x' (set_buffer_index 0 f') (cs ++ cs') (k + 1) data /\
    free x = cs' ++ free x' /\ fat x' = fat x /\ others x x' cs (descriptor_sector f) (descriptor_index f) /\
    dir f' = dir f /\ descriptor_sector f' = descriptor_sector f /\ descriptor_index f' = descriptor_index f /\ buffer_index f' = buffer_index f.
Proof.
  intros I Hb Hst Hfree. destruct (file_sector _ _ _ _ _ I) as (Hcc & Hin & Hr & Hkl & Es). destruct I as [V C Sl Hk (init & Hcs & Hki) Hsi Hsec Hp Hbi _ Hlen _ Hsz].
  pose proof (vol_geo _ V) as G. assert (0 < sect_per_clust (fat x) < 256) as Hspc by (destruct G; lia).
  destruct (div_mod_step k (sect_per_clust (fat x)) Hk ltac:(lia)) as [Hnew Hsame]. unfold next_sector. mrun. rewrite Hsi, u8_id by lia.
  destruct (Z.eqb_spec (k mod sect_per_clust (fat x) + 1) (sect_per_clust (fat x))) as [E|E].
  - destruct (Hnew E) as [D M]. destruct (free x) as [|c l] eqn:Hfr; [rewrite Hcs, length_app in Hfree; cbn in Hfree; lia|].
    rewrite Hcs in C. destruct (extend_ok x init (current_cluster f) c l V C Hfr) as (x1 & x2 & E1 & E2 & V2 & C2 & Hf2 & F1 & F2 & P2 & Q2).
    rewrite <- Hcs in *. mstep E1. mstep E2. assert (cluster_ok (fat x) c) as Hc.
    { rewrite <- F2. apply (proj1 (Forall_forall _ _) (chain_ok _ _ C2)). rewrite elem_of_app. right. left. }
    erewrite bind_ok by (apply first_sector_ok; [by rewrite F2|by rewrite F2]). rewrite F2.
    assert (c ∉ cs) as Hcn. { intros H. apply (chain_nonzero x _ c C H). apply free_zero. rewrite Hfr. left. }
    eexists x2, _, [c]. split; [reflexivity|]. split_and!; try done; [|by rewrite Hf2|].
    + constructor; cbn; try done; rewrite ?F2, ?D, ?M; try done; try lia.
      * destruct Sl as (d & j & S1 & S2 & S3 & S4 & S5 & S6). exists d, j. rewrite F2. split_and!; try done; try lia.
        -- rewrite Q2; [done|by apply cluster_entry|congruence|]. intros ->. apply S2, free_zero. rewrite Hfr. left.
        -- rewrite elem_of_app. intros [? | ->%list_elem_of_singleton]; [done|]. apply S2, free_zero. rewrite Hfr. left.
      * exists cs. split; [done|]. rewrite Hcs, length_app. cbn. lia.
      * unfold sector_of. rewrite D, M. rewrite nth_lookup. rewrite lookup_app_r by (rewrite Hcs, length_app; cbn; lia).
        replace (Z.to_nat (k / sect_per_clust (fat x) + 1) - length cs)%nat with 0%nat; [done|]. rewrite Hcs, length_app. cbn. lia.
      * eapply stored_same; [done|apply C| |done..]. by replace (k + 1 - 1) with k by lia.
    + intros d Hd Hde Hdn. split; [apply Q2; [by apply cluster_entry|congruence|]|].
      * intros ->. apply Hde, free_zero. rewrite Hfr. left.
      * intros i off n Hi _ _ _ _. by rewrite P2.
  - destruct (Hsame E) as [D M]. eexists x, _, []. split; [reflexivity|]. rewrite app_nil_r. split_and!; try done.
    constructor; cbn; try done; rewrite ?D, ?M; try done; try lia.
    + by exists init.
    + destruct (data_page_range _ _ (k mod sect_per_clust (fat x) + 1) G Hcc ltac:(lia)) as (_ & _ & Hr2). 
      unfold sector_of. rewrite D, M. rewrite Hsec. unfold sector_of. rewrite Es in Hsec. unfold sector_of in Hsec. rewrite <- Hsec. unfold data_page in *. rewrite u32_id by (destruct G; lia).
      unfold data_page in Hsec. lia.
Qed.
(** ** Writing *)

(** Bytes that fit in the buffer. *)
Definition buffered (f : file) (bs : list Z) : file :=
  mk_file (current_cluster f) (current_sector f) (sector_index f) (patch (pbuf f) (buffer_index f) bs) (buffer_index f + Z.of_nat (length bs))
    (descriptor_sector f) (descriptor_index f) (set_size (size (dir f) + Z.of_nat (length bs)) (dir f)).

Lemma buffered_inv x f cs k data bs : file_inv x f cs k data -> buffer_index f + Z.of_nat (length bs) <= 512 ->
  file_inv x (buffered f bs) cs k (data ++ bs).
Proof.
  intros [V C Sl Hk Hl Hsi Hsec Hp Hbi Hst Hlen Ht Hsz] Hb. constructor; cbn; try done; rewrite ?length_app; try lia.
  - by rewrite patch_length by (done || lia).
  - intros i Hi. rewrite part_app_l by lia. by apply Hst.
  - rewrite !part_split by lia. f_equal.
    + rewrite part_app_l by lia. rewrite <- Ht. rewrite part_patch_other; try done; lia.
    + rewrite Z.add_0_l, part_patch_same by (done || lia). symmetry. rewrite part_app_r by lia. rewrite Nat2Z.id. apply firstn_all.
Qed.

Lemma flushed_inv x x' f cs k data : file_inv x f cs k data -> flushed x x' f ->
  file_inv x' f cs k data /\ (buffer_index f = 512 -> stored x' cs (k + 1) data).
Proof.
  intros I Fl. pose proof (flushed_table _ _ _ _ _ _ I Fl) as T. destruct (flushed_stored _ _ _ _ _ _ I Fl) as [St Pk].
  pose proof I as [V C Sl Hk Hl Hsi Hsec Hp Hbi Hst Hlen Ht Hsz]. pose proof T as (_ & F & _ & He). split.
  - constructor; rewrite ?F; try done; [by eapply same_vol|by eapply same_chain|].
    destruct Sl as (d & j & S1 & S2 & S3 & S4 & S5 & S6). exists d, j. rewrite F. split_and!; try done; try lia.
    rewrite He; [done|]. apply cluster_entry; [apply V|done].
  - intros Hb i Hi. destruct (decide (i = k)) as [->|]; [|apply St; lia]. rewrite F, Pk. rewrite Hb in Ht. rewrite <- Ht.
    unfold part. change (Z.to_nat 0) with 0%nat. rewrite drop_0, take_ge; [done|]. rewrite Hp. done.
Qed.

(** What a call of [file_write] does. *)
Definition appends x (f : file) (cs : list Z) x' (f' : file) (cs' : list Z) : Prop :=
  free x = cs' ++ free x' /\ fat x' = fat x /\ others x x' cs (descriptor_sector f) (descriptor_index f) /\
  descriptor_sector f' = descriptor_sector f /\ descriptor_index f' = descriptor_index f /\
  dir f' = set_size (size (dir f')) (dir f).

(** The step of the recursion. *)
Lemma write_step x f cs k data bs : file_inv x f cs k data -> buffer_index f + Z.of_nat (length bs) = 512 ->
  (k + 1) / sect_per_clust (fat x) < Z.of_nat (length cs + length (free x)) ->
  exists x1 x2 f2 cs', flush_sector (buffered f bs) x = Ok (inr tt, x1) /\ next_sector (buffered f bs) x1 = Ok ((FAT32_OK, f2), x2) /\
    file_inv x2 (set_buffer_index 0 f2) (cs ++ cs') (k + 1) (data ++ bs) /\ appends x f cs x2 (set_buffer_index 0 f2) cs'.
Proof.
  intros I0 Hb Hfree. pose proof (buffered_inv _ _ _ _ _ bs I0 ltac:(lia)) as I. destruct (flush_sector_ok _ _ _ _ _ I) as (x1 & E1 & Fl).
  destruct (flushed_inv _ _ _ _ _ _ I Fl) as [I1 Hst]. pose proof (flushed_table _ _ _ _ _ _ I Fl) as T. pose proof T as (_ & F1 & _).
  pose proof (same_free _ _ (fi_vol _ _ _ _ _ I) T) as Hf1. pose proof (flushed_others _ _ _ _ _ _ I Fl) as O1.
  destruct (next_sector_ok _ _ _ _ _ I1 Hb (Hst Hb)) as (x2 & f2 & cs' & E2 & I2 & Hf2 & F2 & O2 & D2 & Ds & Di & _); [by rewrite F1, Hf1|].
  exists x1, x2, f2, cs'. split_and!; try done. split_and!; try done; [congruence|congruence| |cbn; rewrite D2; done].
  eapply (others_trans _ x1 _ cs []); [done..|]. by rewrite app_nil_r.
Qed.

Lemma appends_trans x f cs x1 f1 cs1 x2 f2 cs2 : fat x1 = fat x ->
  appends x f cs x1 f1 cs1 -> appends x1 f1 (cs ++ cs1) x2 f2 cs2 -> appends x f cs x2 f2 (cs1 ++ cs2).
Proof.
  intros F (A1 & A2 & A3 & A4 & A5 & A6) (B1 & B2 & B3 & B4 & B5 & B6). split_and!; try congruence.
  - rewrite A1, B1. by rewrite app_assoc.
  - rewrite A4, A5 in B3. eapply others_trans; [exact F| |done|done]. apply Forall_forall. intros c Hc. apply free_zero. rewrite A1, elem_of_app. by left.
  - rewrite B6, A6. done.
Qed.

Lemma file_write_ok fuel : forall x f cs k data buf, file_inv x f cs k data ->
  Z.of_nat (length buf) < 65536 -> Z.of_nat (length data + length buf) < 4294967296 ->
  (buffer_index f + Z.of_nat (length buf) - 1) / 512 < Z.of_nat fuel ->
  (512 * k + buffer_index f + Z.of_nat (length buf) - 1) / 512 / sect_per_clust (fat x) < Z.of_nat (length cs + length (free x)) ->
  (0 < fuel)%nat ->
  exists x' f' cs' k', file_write fuel f buf (Z.of_nat (length buf)) x = Ok ((FAT32_OK, f'), x') /\
    file_inv x' f' (cs ++ cs') k' (data ++ buf) /\ appends x f cs x' f' cs'.
Proof.
  induction fuel as [|fuel IH]; intros x f cs k data buf I Hn Hd Hfu Hfr Hpos; [lia|]. remember (Z.of_nat (length buf)) as n eqn:Hnn.
  pose proof I as [V C Sl Hk Hl Hsi Hsec Hp Hbi Hst Hlen Ht Hsz]. cbn [file_write]. rewrite (u16_id (512 - _)) by lia.
  assert ((if 512 - buffer_index f >? n then n else 512 - buffer_index f) = Z.min n (512 - buffer_index f)) as -> by (destruct (Z.gtb_spec (512 - buffer_index f) n); lia).
  remember (Z.min n (512 - buffer_index f)) as l eqn:Hll. assert (0 <= l <= n) as Hln by lia.
  assert (length (take (Z.to_nat l) buf) = Z.to_nat l) as Hbl by (rewrite length_take; lia).
  unfold arr_slice. rewrite decide_True by lia. mrun. rewrite drop_0. unfold arr_blit. rewrite decide_True by (rewrite Hbl; lia). mrun.
  set (bs := take (Z.to_nat l) buf) in *. assert (Z.of_nat (length bs) = l) as Hbs by lia.
  change (take (Z.to_nat (buffer_index f)) (pbuf f) ++ _) with (patch (pbuf f) (buffer_index f) bs). rewrite u16_id, u32_id by lia.
  assert (mk_file (current_cluster f) (current_sector f) (sector_index f) (patch (pbuf f) (buffer_index f) bs) (buffer_index f + l)
    (descriptor_sector f) (descriptor_index f) (set_size (size (dir f) + l) (dir f)) = buffered f bs) as -> by (unfold buffered; by rewrite Hbs).
  destruct (Z.ltb_spec l n) as [Hlt|Hge].
  - assert (l = 512 - buffer_index f) as Hl5 by lia.
    assert (forall z, (512 * (z + 1)) / 512 = z + 1) as Hdiv by (intros; rewrite Z.mul_comm; by apply Z.div_mul).
    destruct (write_step x f cs k data bs I ltac:(lia)) as (x1 & x2 & f2 & cs1 & E1 & E2 & I2 & A2).
    { eapply Z.le_lt_trans; [|exact Hfr]. apply Z.div_le_mono; [destruct (vol_geo _ V); lia|]. rewrite <- (Hdiv k). apply Z.div_le_mono; lia. }
    mstep E1. mstep E2. rewrite bool_decide_true by done. cbn [negb]. pose proof A2 as (Af & F2 & _).
    assert (Z.of_nat (length (drop (Z.to_nat l) buf)) = n - l) as Hdl by (rewrite length_drop; lia). rewrite <- Hdl.
    assert (length (data ++ bs) = length data + length bs)%nat as Hdb by apply length_app.
    assert (0 <= (n - l - 1) / 512) by (apply Z.div_pos; lia).
    assert ((buffer_index f + n - 1) / 512 = (n - l - 1) / 512 + 1) as Hq by (replace (buffer_index f + n - 1) with ((n - l - 1) + 1 * 512) by lia; apply Z.div_add; lia).
    destruct (IH x2 (set_buffer_index 0 f2) (cs ++ cs1) (k + 1) (data ++ bs) (drop (Z.to_nat l) buf) I2) as (x3 & f3 & cs2 & k3 & E3 & I3 & A3); rewrite ?Hdl, ?F2; cbn [buffer_index set_buffer_index]; try lia.
    { rewrite Z.add_0_l. lia. }
    { replace (512 * (k + 1) + 0 + (n - l) - 1) with (512 * k + buffer_index f + n - 1) by lia. rewrite Af in Hfr. rewrite length_app in Hfr |- *. lia. }
    exists x3, f3, (cs1 ++ cs2), k3. rewrite Hdl in E3. split; [exact E3|]. rewrite <- app_assoc in I3. unfold bs in I3. rewrite <- (app_assoc data), take_drop in I3.
    split; [done|]. by eapply appends_trans.
  - exists x, (buffered f bs), [], k. rewrite app_nil_r. assert (bs = buf) as Hbb by (unfold bs; apply take_ge; lia). split; [done|]. split.
    + rewrite <- Hbb. apply buffered_inv; [done|lia].
    + split_and!; try done.
Qed.
(** ** Files on the card *)

(** The sectors of the chain hold [data]. *)
Record on_card x (cs : list Z) (data : list Z) : Prop := {
  oc_vol : vol_ok x;
  oc_chain : chain x cs;
  oc_room : Z.of_nat (length data) <= 512 * (sect_per_clust (fat x) * Z.of_nat (length cs));
  oc_data : forall i, 0 <= i -> 512 * i < Z.of_nat (length data) ->
    part (page x (sector_of (fat x) cs i)) 0 (Z.min 512 (Z.of_nat (length data) - 512 * i)) = part data (512 * i) 512;
}.

Lemma file_close_ok x f cs k data : file_inv x f cs k data ->
  exists x', file_close f x = Ok (inr tt, x') /\ on_card x' cs data /\ same_table x x' /\
    part (page x' (descriptor_sector f)) (descriptor_index f + 28) 4 = write32 (Z.of_nat (length data)) /\
    others x x' cs (descriptor_sector f) (descriptor_index f).
Proof.
  intros I. destruct (flush_sector_ok _ _ _ _ _ I) as (x' & E & Fl). exists x'. split; [done|]. pose proof (flushed_table _ _ _ _ _ _ I Fl) as T. pose proof T as (_ & F & _).
  destruct (flushed_inv _ _ _ _ _ _ I Fl) as [I' _]. destruct (flushed_stored _ _ _ _ _ _ I Fl) as [St Pk]. destruct (file_sector _ _ _ _ _ I) as (_ & _ & Hr & Hkl & _).
  pose proof I as [V C Sl Hk Hl Hsi Hsec Hp Hbi Hst Hlen Ht Hsz]. split_and!; [|done| |by eapply flushed_others].
  - constructor; [apply I'|apply I'| |].
    + rewrite F. destruct (vol_geo _ V). pose proof (Z.div_mod k (sect_per_clust (fat x)) ltac:(lia)). rewrite Hlen.
      assert (sect_per_clust (fat x) * (k / sect_per_clust (fat x) + 1) <= sect_per_clust (fat x) * Z.of_nat (length cs)) by (apply Z.mul_le_mono_nonneg_l; lia). lia.
    + intros i Hi Hil. destruct (decide (i < k)) as [Hik|Hik].
      * rewrite St by lia. rewrite Z.min_l by lia. rewrite part_part by lia. by rewrite Z.add_0_r.
      * assert (i = k) as -> by lia. rewrite F, Pk. rewrite Z.min_r by lia. replace (Z.of_nat (length data) - 512 * k) with (buffer_index f) by lia. rewrite Ht.
        unfold part. rewrite !take_ge; [done|rewrite length_drop; lia..].
  - destruct Sl as (d & j & S1 & S2 & S3 & S4 & S5 & S6). destruct (data_page_range _ _ _ (vol_geo _ V) S1 S4) as (Hv & _ & _). rewrite <- S5 in Hv.
    destruct Fl as (_ & _ & _ & P). rewrite P by done. rewrite decide_True by done. rewrite Hsz.
    replace 4 with (Z.of_nat (length (write32 (Z.of_nat (length data))))) by (by rewrite write32_length).
    apply part_patch_same; [by apply pview_length, V|lia|rewrite write32_length; lia].
Qed.

(** ** Reading *)

Record read_inv x (f : file) (cs : list Z) (data : list Z) (k : Z) : Prop := {
  ri_card : on_card x cs data;
  ri_k : 0 <= k /\ k / sect_per_clust (fat x) < Z.of_nat (length cs);
  ri_cluster : cs !! Z.to_nat (k / sect_per_clust (fat x)) = Some (current_cluster f);
  ri_index : sector_index f = k mod sect_per_clust (fat x);
  ri_sector : current_sector f = sector_of (fat x) cs k;
  ri_bi : 0 <= buffer_index f <= 512;
  ri_pbuf : length (pbuf f) = 512%nat /\ (0 < buffer_index f -> pbuf f = page x (sector_of (fat x) cs k));
  ri_size : size (dir f) = Z.of_nat (length data);
}.

Lemma sector_valid x cs i : vol_ok x -> chain x cs -> 0 <= i -> i / sect_per_clust (fat x) < Z.of_nat (length cs) -> pvalid (sector_of (fat x) cs i).
Proof.
  intros V C Hi Hl. destruct (sector_place (fat x) cs i (vol_geo _ V) Hi Hl) as (a & c & _ & Hc & Hr & ->).
  apply data_page_range; [apply V|exact (Forall_lookup_1 _ _ _ _ (chain_ok _ _ C) Hc)|done].
Qed.

Lemma room_index x cs data i : on_card x cs data -> 0 <= i -> 512 * i < Z.of_nat (length data) -> i / sect_per_clust (fat x) < Z.of_nat (length cs).
Proof. intros O Hi Hl. pose proof (oc_room _ _ _ O). destruct (vol_geo _ (oc_vol _ _ _ O)). apply Z.div_lt_upper_bound; nia. Qed.

Lemma reads_table x x' : vol_ok x -> reads x x' -> same_table x x'.
Proof. intros V R. pose proof R as (K & _ & F & L). split_and!; try done. intros c Hc. by apply entry_reads; [apply V|..]. Qed.

Lemma on_card_reads x x' cs data : on_card x cs data -> reads x x' -> on_card x' cs data.
Proof.
  intros O R. pose proof O as [V C Hr Hd]. pose proof (reads_table _ _ V R) as T. pose proof R as (_ & P & F & _). constructor; rewrite ?F; try done.
  - by eapply same_vol.
  - by eapply same_chain.
  - intros i Hi Hl. rewrite P; [by apply Hd|]. apply sector_valid; [done..|]. by eapply room_index.
Qed.

(** The bytes of a part of a sector. *)
Lemma sector_part x cs data k bi n : on_card x cs data -> 0 <= k -> 0 <= bi -> 0 <= n -> bi + n <= 512 -> 512 * k + bi + n <= Z.of_nat (length data) -> 0 < n ->
  part (page x (sector_of (fat x) cs k)) bi n = part data (512 * k + bi) n.
Proof.
  intros O Hk Hb Hn Hl Hd Hp. pose proof (oc_data _ _ _ O k Hk ltac:(lia)) as E.
  rewrite <- (part_part data (512 * k) 512 bi n) by lia. rewrite <- E. rewrite part_part by lia. done.
Qed.
(** Going to the next sector, as [file_read] does it. *)
Definition read_next (f : file) : M (fatfs S) file :=
  s ← mget;
  let si := u8 (sector_index f + 1) in
  if si =? sect_per_clust (fat s) then
    c ← fat32_get_next_cluster (current_cluster f);
    first ← fat32_first_sector c;
    mret (mk_file c first 0 (pbuf f) 0 (descriptor_sector f) (descriptor_index f) (dir f))
  else mret (mk_file (current_cluster f) (u32 (current_sector f + 1)) si (pbuf f) 0 (descriptor_sector f) (descriptor_index f) (dir f)).

Lemma read_next_ok x f cs data k : read_inv x f cs data k -> 512 * (k + 1) < Z.of_nat (length data) ->
  exists x' f', read_next f x = Ok (f', x') /\ reads x x' /\ read_inv x' f' cs data (k + 1) /\ buffer_index f' = 0 /\ dir f' = dir f.
Proof.
  intros [O [Hk Hkl] Hc Hsi Hsec Hbi [Hp _] Hsz] Hl. pose proof O as [V C _ _]. pose proof V as [G Hx _ _].
  assert (0 < sect_per_clust (fat x) < 256) as Hspc by (destruct G; lia). pose proof (room_index _ _ _ (k + 1) O ltac:(lia) Hl) as Hkl'.
  pose proof (Z.mod_pos_bound k (sect_per_clust (fat x)) ltac:(lia)) as Hmod. assert (0 <= k / sect_per_clust (fat x)) as Hq by (apply Z.div_pos; lia).
  destruct (div_mod_step k (sect_per_clust (fat x)) Hk ltac:(lia)) as [Hnew Hsame]. unfold read_next. mrun. rewrite Hsi, u8_id by lia.
  pose proof (Forall_lookup_1 _ _ _ _ (chain_ok _ _ C) Hc) as Hcok.
  destruct (Z.eqb_spec (k mod sect_per_clust (fat x) + 1) (sect_per_clust (fat x))) as [E|E].
  - destruct (Hnew E) as [D M]. destruct (get_next_ok x (current_cluster f) G Hx Hcok) as (x1 & E1 & R1). mstep E1.
    pose proof (chain_link _ _ C _ _ Hc) as Hlink. replace (Datatypes.S (Z.to_nat (k / sect_per_clust (fat x)))) with (Z.to_nat ((k + 1) / sect_per_clust (fat x))) in Hlink by lia.
    destruct (lookup_lt_is_Some_2 cs (Z.to_nat ((k + 1) / sect_per_clust (fat x)))) as [d Hd]; [lia|]. rewrite Hd in Hlink. cbn in Hlink. rewrite Hlink.
    pose proof R1 as (K1 & P1 & F1 & L1). pose proof (Forall_lookup_1 _ _ _ _ (chain_ok _ _ C) Hd) as Hdok.
    erewrite bind_ok by (apply first_sector_ok; by rewrite F1). eexists x1, _. split; [reflexivity|]. split_and!; try done.
    constructor; cbn; rewrite ?F1; try done; try lia; [by eapply on_card_reads|].
    unfold sector_of. by rewrite M, (nth_lookup_Some _ _ _ _ Hd).
  - destruct (Hsame E) as [D M]. eexists x, _. split; [reflexivity|]. split_and!; try done.
    constructor; cbn; try done; rewrite ?D; try done; try lia.
    destruct (data_page_range _ _ (k mod sect_per_clust (fat x) + 1) G Hcok ltac:(lia)) as (_ & _ & Hr2).
    rewrite Hsec. unfold sector_of. rewrite D, M. rewrite (nth_lookup_Some _ _ _ _ Hc). unfold data_page in *. rewrite u32_id by (destruct G; lia). lia.
Qed.

(** The sector is read when none of it was. *)
Lemma fill_ok x f cs data k l : read_inv x f cs data k -> 0 <= l ->
  exists x1 b, (if negb (l =? 0) && (buffer_index f =? 0) then read_bytes (current_sector f) 0 512 else rret (pbuf f)) x = Ok (inr b, x1) /\
    reads x x1 /\ length b = 512%nat /\ (0 < buffer_index f + l -> b = page x (sector_of (fat x) cs k)).
Proof.
  intros [O [Hk Hkl] Hc Hsi Hsec Hbi [Hp Hpb] Hsz] Hl. pose proof O as [V C _ _]. pose proof (reads_refl x (vol_fok _ V)) as Hr.
  destruct (decide (l <> 0 /\ buffer_index f = 0)) as [[El Eb]|Hn].
  - rewrite (proj2 (Z.eqb_neq l 0)), (proj2 (Z.eqb_eq _ 0)) by done. cbn [negb andb].
    destruct (read_bytes_ok x (current_sector f) 0 512) as (x1 & E1 & R1); try lia; [apply V|rewrite Hsec; by apply sector_valid|].
    pose proof (pview_length (store x) (sector_of (fat x) cs k) (vol_fok _ V)) as Hpl. exists x1, (page x (sector_of (fat x) cs k)). rewrite Hsec in E1.
    split_and!; try done. rewrite Hsec, E1. repeat f_equal. unfold part. change (Z.to_nat 0) with 0%nat. rewrite drop_0. apply take_ge. unfold page. rewrite Hpl. done.
  - assert (negb (l =? 0) && (buffer_index f =? 0) = false) as -> by lia. exists x, (pbuf f). split_and!; try done. intros. apply Hpb. lia.
Qed.

Lemma file_read_ok fuel : forall x f cs data k n, read_inv x f cs data k -> 0 <= n < 65536 ->
  512 * k + buffer_index f + n <= Z.of_nat (length data) -> (buffer_index f + n - 1) / 512 < Z.of_nat fuel -> (0 < fuel)%nat ->
  exists x' f' k', file_read fuel f n x = Ok ((FAT32_OK, part data (512 * k + buffer_index f) n, n, f'), x') /\ reads x x' /\
    read_inv x' f' cs data k' /\ 512 * k' + buffer_index f' = 512 * k + buffer_index f + n.
Proof.
  induction fuel as [|fuel IH]; intros x f cs data k n I Hn Hd Hfu Hpos; [lia|]. pose proof I as [O [Hk Hkl] Hc Hsi Hsec Hbi [Hp Hpb] Hsz].
  cbn [file_read]. rewrite (u16_id (512 - _)) by lia.
  assert ((if 512 - buffer_index f >? n then n else 512 - buffer_index f) = Z.min n (512 - buffer_index f)) as -> by (destruct (Z.gtb_spec (512 - buffer_index f) n); lia).
  remember (Z.min n (512 - buffer_index f)) as l eqn:Hll. assert (0 <= l <= n) as Hln by lia.
  assert (buffer_index f + l >? size (dir f) = false) as ->. { destruct (Z.gtb_spec (buffer_index f + l) (size (dir f))); [|done]. destruct (decide (k = 0)); lia. }
  destruct (fill_ok x f cs data k l I ltac:(lia)) as (x1 & b & E1 & R1 & Hbl & Hb).
  mstep E1. unfold arr_slice. rewrite decide_True by lia. mrun. rewrite (u16_id (buffer_index f + l)) by lia. change (take (Z.to_nat l) (drop _ b)) with (part b (buffer_index f) l).
  assert (part b (buffer_index f) l = part data (512 * k + buffer_index f) l) as ->.
  { destruct (decide (l = 0)) as [->|]; [done|]. rewrite Hb by lia. apply sector_part; try done; lia. }
  set (f1 := mk_file _ _ _ b _ _ _ _). pose proof R1 as (K1 & P1 & F1 & L1).
  assert (read_inv x1 f1 cs data k) as I1.
  { constructor; cbn; rewrite ?F1; try done; try lia; [by eapply on_card_reads|]. split; [done|]. intros. rewrite Hb by lia. symmetry. apply P1. apply sector_valid; [apply O..|done|done]. }
  destruct (Z.ltb_spec l n) as [Hlt|Hge].
  - assert (512 * (k + 1) < Z.of_nat (length data)) as Hk1 by lia.
    destruct (read_next_ok x1 f1 cs data k I1 Hk1) as (x2 & f2 & E2 & R2 & I2 & B2 & _). unfold read_next in E2. mrun in E2. mrun. mstep E2.
    assert ((buffer_index f + n - 1) / 512 = (n - l - 1) / 512 + 1) as Hq by (replace (buffer_index f + n - 1) with ((n - l - 1) + 1 * 512) by lia; apply Z.div_add; lia).
    assert (0 <= (n - l - 1) / 512) by (apply Z.div_pos; lia). rewrite u16_id by lia.
    destruct (IH x2 f2 cs data (k + 1) (n - l) I2) as (x3 & f3 & k3 & E3 & R3 & I3 & Hk3); rewrite ?B2; try lia; [by rewrite Z.add_0_l; lia|].
    mstep E3. rewrite B2 in *. exists x3, f3, k3. split_and!; [|by eapply reads_trans; [|eapply reads_trans]|done|lia].
    rewrite u16_id by lia. replace (n - l + l) with n by lia. repeat f_equal. replace (512 * (k + 1) + 0) with (512 * k + buffer_index f + l) by lia.
    rewrite <- part_split by lia. by replace (l + (n - l)) with n by lia.
  - assert (l = n) as -> by lia. eexists x1, f1, k. split_and!; try done. cbn. lia.
Qed.
End file.
End FatFileSpec.
