(* ===== verification/FatDirSpec.v ===== *)
(** * FAT32: the directory

    Entries are found by name, created in the first free place, and give the file its
    first cluster and its size. With the content of files, a session that creates a
    file, writes it, closes it, opens it again and reads it gets back what it wrote. *)

From stdpp Require Import base numbers list.
From S2P Require Import Prelude Printf Fat32 FatFile FatSpec FatFileSpec.

Module FatDirSpec.
Import Fat32 FatFile FatSpec FatFileSpec.

(** ** Comparison of names *)

Lemma cmp_loop_eq a b l : Forall (λ c, c <> 0) a -> length a = length b -> 0 <= l -> l + Z.of_nat (length a) < 256 ->
  exists r, cmp_loop (a ++ [0]) (b ++ [0]) l = Ok r /\
    if decide (a = b) then r = Some (l + Z.of_nat (length a), 0, 0)
    else r = None \/ exists n p q, r = Some (n, p, q) /\ l <= n < l + Z.of_nat (length a).
Proof.
  intros Ha. revert b l. induction Ha as [|c a Hc Ha IH]; intros [|d b] l Hl H0 H1; try done.
  { eexists. split; [reflexivity|]. rewrite decide_True by done. by rewrite Z.add_0_r. }
  cbn [app cmp_loop length] in *. destruct (Z.eqb_spec d 0) as [->|Hd]; cbn [orb].
  { eexists. split; [done|]. rewrite decide_False by congruence. right. eexists _, _, _. split; [done|]. lia. }
  rewrite (proj2 (Z.eqb_neq c 0)) by done. destruct (Z.eqb_spec d c) as [->|Hne]; cbn [negb].
  2: { eexists. split; [done|]. rewrite decide_False by congruence. by left. }
  rewrite u8_id by lia. destruct (IH b (l + 1)) as (r & E & Hr); [congruence|lia|lia|]. exists r. split; [done|].
  destruct (decide (a = b)) as [->|Hne].
  - rewrite decide_True by done. rewrite Hr. do 3 f_equal. lia.
  - rewrite decide_False by congruence. destruct Hr as [|(n & p & q & -> & Hn)]; [by left|right]. eexists _, _, _. split; [done|]. lia.
Qed.

(** [cmp] of a name without zeros with a name of the directory. *)
Lemma cmp_eq a b n : Forall (λ c, c <> 0) a -> length a = length b -> n = Z.of_nat (length a) -> 0 < n < 256 ->
  cmp (a ++ [0]) (b ++ [0]) n = Ok (bool_decide (a = b)).
Proof.
  intros Ha Hl -> Hn. destruct (cmp_loop_eq a b 0 Ha Hl ltac:(lia) ltac:(lia)) as (r & E & Hr). unfold cmp. rewrite E. change (mbind ?k (Ok ?r)) with (k r). cbv beta.
  destruct (decide (a = b)) as [->|Hne].
  - rewrite Hr, bool_decide_true by done. mrun. rewrite Z.add_0_l. assert (Z.of_nat (length b) >? 0 = true) as -> by lia. by rewrite Z.eqb_refl.
  - rewrite bool_decide_false by done. destruct Hr as [->|(m & p & q & -> & Hm)]; [done|]. cbn.
    assert (Z.of_nat (length a) >? 0 = true) as -> by lia. assert (m =? Z.of_nat (length a) = false) as -> by lia. done.
Qed.
(** ** Entries *)

(** The fields of the 32 bytes of an entry. *)
Definition dir_of (e : list Z) : dir_entry :=
  let b0 := nth 0 (part e 13 5) 0 in let b1 := nth 1 (part e 13 5) 0 in let b2 := nth 2 (part e 13 5) 0 in
  let b3 := nth 3 (part e 13 5) 0 in let b4 := nth 4 (part e 13 5) 0 in
  mk_dir (part e 0 8 ++ [0]) (part e 8 3 ++ [0]) (hd 0 (part e 11 1))
    (Z.shiftr b2 3) (u8 (Z.lor (Z.shiftr b1 5) (Z.shiftl (Z.land b2 0x7) 3))) (u8 (b0 / 100 + Z.land b1 0x1F * 2)) (b0 mod 100)
    (Z.shiftr b4 1) (u8 (Z.lor (Z.shiftr b3 5) (Z.shiftl (Z.land b4 0x1) 3))) (Z.land b3 0x1F)
    (Z.lor (u32 (Z.shiftl (read16 (part e 20 2)) 16)) (read16 (part e 26 2))) (read32 (part e 28 4)).

Section dir.
Context {S : Type} {ps : PageStore S} {spec : PageStoreSpec S}.
Implicit Types (x : fatfs S).

(** A field of the entry at [index]. *)
Lemma read_field_ok x y sect index o n : fok x -> reads x y -> pvalid sect -> 0 <= index <= 480 -> 0 <= o -> 0 <= n -> o + n <= 32 ->
  exists y', reads x y' /\ forall d set k, read_field sect (index + o) n d set k y = k (set (part (part (page x sect) index 32) o n) d) y'.
Proof.
  intros Hx R Hp Hi Ho Hn Hl. pose proof R as (K & P & _). destruct (read_bytes_ok y sect (index + o) n K Hp) as (y' & E & R'); [lia..|].
  exists y'. split; [by eapply reads_trans|]. intros d set k. unfold read_field. mstep E. rewrite part_part by lia. by rewrite <- P.
Qed.

Lemma read_dir_ok x sect index d : fok x -> pvalid sect -> 0 <= index <= 480 ->
  exists x', fat32_read_dir_entry sect index d x = Ok ((FAT32_OK, dir_of (part (page x sect) index 32)), x') /\ reads x x'.
Proof.
  intros Hx Hp Hi. pose proof (reads_refl x Hx) as R0.
  destruct (read_field_ok x x sect index 0 8 Hx R0 Hp Hi) as (x1 & R1 & E1); [lia..|]. rewrite Z.add_0_r in E1.
  destruct (read_field_ok x x1 sect index 8 3 Hx R1 Hp Hi) as (x2 & R2 & E2); [lia..|].
  destruct (read_field_ok x x2 sect index 11 1 Hx R2 Hp Hi) as (x3 & R3 & E3); [lia..|].
  destruct (read_field_ok x x3 sect index 13 5 Hx R3 Hp Hi) as (x4 & R4 & E4); [lia..|].
  destruct (read_field_ok x x4 sect index 20 2 Hx R4 Hp Hi) as (x5 & R5 & E5); [lia..|].
  destruct (read_field_ok x x5 sect index 26 2 Hx R5 Hp Hi) as (x6 & R6 & E6); [lia..|].
  destruct (read_field_ok x x6 sect index 28 4 Hx R6 Hp Hi) as (x7 & R7 & E7); [lia..|].
  exists x7. split; [|done]. unfold fat32_read_dir_entry. rewrite E1, E2, E3, E4, E5, E6, E7. reflexivity.
Qed.
(** ** Walks *)

Section walk.
Context (x : fatfs S) {A : Type} (f : Z -> Z -> M (fatfs S) (visit A)) (m : Z) (r : fat32_error + A).
Let rs : Z := root_start (fat x).
Hypothesis (Hnext : forall k y, 0 <= k < m -> reads x y ->
  exists y', f (rs + k / 16) (32 * (k mod 16)) y = Ok (Next, y') /\ reads x y').
Hypothesis (Hstop : forall y, reads x y -> exists y', f (rs + m / 16) (32 * (m mod 16)) y = Ok (Stop r, y') /\ reads x y').

Lemma slot_div s j : 0 <= j < 16 -> (16 * s + j) / 16 = s /\ (16 * s + j) mod 16 = j.
Proof. intros Hj. split; symmetry; [apply (Z.div_unique _ _ _ j)|apply (Z.mod_unique _ _ s)]; lia. Qed.

Lemma walk_entries_ok n : forall s j y, 0 <= s -> 0 <= j -> j + Z.of_nat n = 16 -> 16 * s + j <= m -> reads x y ->
  exists y', reads x y' /\ walk_entries n (rs + s) (32 * j) f y = Ok (if decide (m < 16 * s + 16) then Stop r else Next, y').
Proof.
  induction n as [|n IH]; intros s j y Hs Hj Hn Hm R; cbn [walk_entries].
  { exists y. split; [done|]. by rewrite decide_False by lia. }
  destruct (slot_div s j ltac:(lia)) as [D M]. destruct (decide (16 * s + j = m)) as [E|E].
  - rewrite <- E in Hstop. destruct (Hstop y R) as (y1 & E1 & R1). rewrite D, M in E1. mstep E1. exists y1. split; [done|]. by rewrite decide_True by lia.
  - destruct (Hnext (16 * s + j) y ltac:(lia) R) as (y1 & E1 & R1). rewrite D, M in E1. mstep E1.
    replace (32 * j + 32) with (32 * (j + 1)) by lia. apply IH; done || lia.
Qed.

Lemma walk_sectors_ok n : forall s y, 0 <= s -> 0 <= rs -> rs + s + Z.of_nat n < 4294967296 -> 16 * s <= m < 16 * (s + Z.of_nat n) -> reads x y ->
  exists y' sector, reads x y' /\ walk_sectors n (rs + s) f y = Ok ((Stop r, sector), y').
Proof.
  induction n as [|n IH]; intros s y Hs Hr Hl Hm R; cbn [walk_sectors]; [lia|].
  destruct (walk_entries_ok 16 s 0 y) as (y1 & R1 & E1); try done; try lia. rewrite Z.mul_0_r in E1. mstep E1. case_decide as D.
  - by exists y1, (rs + s).
  - rewrite u32_id by lia. rewrite <- Z.add_assoc. apply IH; done || lia.
Qed.

Lemma walk_dir_ok fuel none : fok x -> 0 <= rs -> rs + sect_per_clust (fat x) < 4294967296 -> 0 <= m < 16 * sect_per_clust (fat x) ->
  exists y', reads x y' /\ walk_dir (Datatypes.S fuel) 2 f none x = Ok (r, y').
Proof.
  intros Hx Hr Hl Hm. cbn [walk_dir]. mrun. rewrite Z.mul_0_r, Z.add_0_r. fold rs. rewrite u32_id by lia.
  destruct (walk_sectors_ok (Z.to_nat (sect_per_clust (fat x))) 0 x) as (y1 & sector & R1 & E1); try lia; [by apply reads_refl|].
  rewrite Z.add_0_r in E1. mstep E1. by exists y1.
Qed.
End walk.

(** ** The root directory *)

(** The 32 bytes of entry [k]. *)
Definition slot x (k : Z) : list Z := part (page x (data_page (fat x) 2 (k / 16))) (32 * (k mod 16)) 32.

(** A name of eight and three characters, filled with spaces. *)
Record name_ok (nm ex : list Z) : Prop := {
  nm_length : length nm = 8%nat;
  ex_length : length ex = 3%nat;
  nm_zero : Forall (λ c, c <> 0) nm;
  ex_zero : Forall (λ c, c <> 0) ex;
  nm_first : hd 0 nm <> 0xE5;
}.

(** Entry [e] is in use, for another name. *)
Definition other_entry (nm ex e : list Z) : Prop :=
  hd 0 e <> 0 /\ (Z.land (hd 0 (part e 11 1)) 0x0F = 0x0F \/ part e 0 8 <> nm \/ part e 8 3 <> ex).

(** The root directory is cluster 2, in use; the entries before [m] are of other files. *)
Record dir_ok x (nm ex : list Z) (m : Z) : Prop := {
  dir_vol : vol_ok x;
  dir_root : root_start (fat x) = data_start (fat x) /\ entry x 2 <> 0;
  dir_m : 0 <= m < 16 * sect_per_clust (fat x);
  dir_before : forall k, 0 <= k < m -> other_entry nm ex (slot x k);
}.

Lemma slot_place x nm ex m k : dir_ok x nm ex m -> 0 <= k <= m ->
  data_page (fat x) 2 (k / 16) = root_start (fat x) + k / 16 /\ 0 <= k / 16 < sect_per_clust (fat x) /\ cluster_ok (fat x) 2 /\
  pvalid (root_start (fat x) + k / 16) /\ 0 <= 32 * (k mod 16) <= 480.
Proof.
  intros [V [Hr _] Hm _] Hk. assert (cluster_ok (fat x) 2) as Hc by (destruct (vol_geo _ V); unfold cluster_ok; lia).
  assert (0 <= k / 16 < sect_per_clust (fat x)) as Hd by (split; [apply Z.div_pos; lia|apply Z.div_lt_upper_bound; lia]).
  assert (data_page (fat x) 2 (k / 16) = root_start (fat x) + k / 16) as E by (unfold data_page; rewrite Hr; lia).
  pose proof (Z.mod_pos_bound k 16 ltac:(lia)). split_and!; try done; try lia. rewrite <- E. by apply data_page_range; [apply V|..].
Qed.

Lemma dir_walk_bounds x nm ex m : dir_ok x nm ex m -> 0 <= root_start (fat x) /\ root_start (fat x) + sect_per_clust (fat x) < 4294967296.
Proof. intros [V [Hr _] Hm _]. rewrite Hr. destruct (vol_geo _ V). nia. Qed.
Lemma hd_part (e : list Z) : length e = 32%nat -> hd 0 (part e 0 8 ++ [0]) = hd 0 e.
Proof. intros Hl. destruct e; [done|]. done. Qed.

(** What [find_visit] does at an entry. *)
Definition find_result (nm ex : list Z) (sector index : Z) (e : list Z) : visit (Z * Z * dir_entry) :=
  if decide (hd 0 e = 0) then Stop (inl FAT32_FILE_NOT_FOUND)
  else if decide (Z.land (hd 0 (part e 11 1)) 0x0F <> 0x0F /\ part e 0 8 = nm /\ part e 8 3 = ex) then Stop (inr (sector, index, dir_of e))
  else Next.

Lemma find_visit_ok x y nm ex sector index : name_ok nm ex -> fok x -> reads x y -> pvalid sector -> 0 <= index <= 480 ->
  exists y', find_visit (nm ++ [0]) (ex ++ [0]) sector index y = Ok (find_result nm ex sector index (part (page x sector) index 32), y') /\ reads x y'.
Proof.
  intros [N1 N2 N3 N4 N5] Hx R Hp Hi. pose proof R as (K & P & _). destruct (read_dir_ok y sector index empty_dir K Hp Hi) as (y' & E & R').
  rewrite P in E by done. pose proof (part_length (page x sector) index 32 (pview_length _ _ Hx)) as Hl. set (e := part (page x sector) index 32) in *.
  specialize (Hl ltac:(lia) ltac:(lia) ltac:(lia)). exists y'. split; [|by eapply reads_trans]. unfold find_visit. mstep E. rewrite bool_decide_true by done. cbn [negb].
  change (d_name (dir_of e)) with (part e 0 8 ++ [0]). change (d_ext (dir_of e)) with (part e 8 3 ++ [0]). change (attrib (dir_of e)) with (hd 0 (part e 11 1)).
  rewrite hd_part by done. unfold find_result. destruct (Z.eqb_spec (hd 0 e) 0) as [E0|E0]; [by rewrite decide_True|]. rewrite decide_False by done.
  assert (hd 0 (nm ++ [0]) = hd 0 nm) as -> by (by destruct nm). rewrite (proj2 (Z.eqb_neq (hd 0 nm) 0xE5)) by done. rewrite andb_true_r.
  assert (length (part e 0 8) = 8%nat /\ length (part e 8 3) = 3%nat) as [L1 L2] by (unfold part; rewrite !length_take, !length_drop, Hl; done).
  destruct (Z.eqb_spec (Z.land (hd 0 (part e 11 1)) 0x0F) 0x0F) as [Ea|Ea]; cbn [negb]; [by rewrite decide_False by tauto|].
  rewrite (cmp_eq nm (part e 0 8) 8) by (done || congruence || lia). mrun. case_bool_decide as B1; [|rewrite decide_False; [done|]; intros (_ & H & _); by apply B1].
  rewrite (cmp_eq ex (part e 8 3) 3) by (done || congruence || lia). mrun. case_bool_decide as B2; [by rewrite decide_True|].
  rewrite decide_False; [done|]. intros (_ & _ & H). by apply B2.
Qed.
(** The search stops at the first entry that has the name, or that was never used. *)
Lemma find_ok x nm ex m n r : dir_ok x nm ex m -> name_ok nm ex ->
  find_result nm ex (root_start (fat x) + m / 16) (32 * (m mod 16)) (slot x m) = Stop r ->
  exists x', fat32_find (Datatypes.S n) (nm ++ [0]) (ex ++ [0]) x = Ok (r, x') /\ reads x x'.
Proof.
  intros D N Hr. pose proof D as [V _ Hm Hb]. destruct (dir_walk_bounds _ _ _ _ D) as [B1 B2].
  assert (forall k y, 0 <= k <= m -> reads x y -> exists y', find_visit (nm ++ [0]) (ex ++ [0]) (root_start (fat x) + k / 16) (32 * (k mod 16)) y =
    Ok (find_result nm ex (root_start (fat x) + k / 16) (32 * (k mod 16)) (slot x k), y') /\ reads x y') as H.
  { intros k y Hk R. destruct (slot_place x nm ex m k D Hk) as (E & _ & _ & Hv & Hi). unfold slot. rewrite E. apply find_visit_ok; try done. apply V. }
  destruct (walk_dir_ok x (find_visit (nm ++ [0]) (ex ++ [0])) m r) with (fuel := n) (none := λ _ : Z, @inl fat32_error (Z * Z * dir_entry) FAT32_FILE_NOT_FOUND) as (x' & R & E); try done.
  - intros k y Hk R. destruct (H k y ltac:(lia) R) as (y' & E & R'). exists y'. split; [|done]. rewrite E. repeat f_equal.
    destruct (Hb k Hk) as [H1 H2]. unfold find_result. rewrite decide_False by done. rewrite decide_False; [done|]. tauto.
  - intros y R. destruct (H m y ltac:(lia) R) as (y' & E & R'). exists y'. split; [|done]. by rewrite E, Hr.
  - apply V.
  - by exists x'.
Qed.

Lemma open_ok x nm ex m n filename r : dir_ok x nm ex m -> name_ok nm ex -> split filename = Ok (nm ++ [0], ex ++ [0]) ->
  find_result nm ex (root_start (fat x) + m / 16) (32 * (m mod 16)) (slot x m) = Stop r ->
  exists x', fat32_open (Datatypes.S n) filename x = Ok (r, x') /\ reads x x'.
Proof. intros D N Hs Hr. unfold fat32_open. rewrite Hs. mrun. by eapply find_ok. Qed.

(** ** New entries *)

Lemma new_entry_length nm ex c : name_ok nm ex -> length (new_entry (nm ++ [0]) (ex ++ [0]) c) = 32%nat.
Proof. intros [N1 N2 _ _ _]. unfold new_entry. rewrite !length_app, !length_take, !length_app, N1, N2. done. Qed.

Lemma new_entry_size nm ex c : name_ok nm ex -> part (new_entry (nm ++ [0]) (ex ++ [0]) c) 28 4 = write32 0.
Proof.
  intros [N1 N2 _ _ _]. do 9 (destruct nm as [|? nm]; try discriminate N1). do 4 (destruct ex as [|? ex]; try discriminate N2). reflexivity.
Qed.

(** The fields of an entry that was created, once the size was written. *)
Lemma new_entry_fields nm ex c e sz : name_ok nm ex -> is_u32 c -> is_u32 sz -> part e 0 28 = part (new_entry (nm ++ [0]) (ex ++ [0]) c) 0 28 -> part e 28 4 = write32 sz ->
  hd 0 e <> 0 /\ part e 0 8 = nm /\ part e 8 3 = ex /\ Z.land (hd 0 (part e 11 1)) 0x0F <> 0x0F /\ start_cluster (dir_of e) = c /\ size (dir_of e) = sz.
Proof.
  intros N Hc Hsz H1 H2. pose proof N as [N1 N2 N3 N4 N5].
  assert (forall o n, 0 <= o -> 0 <= n -> o + n <= 28 -> part e o n = part (new_entry (nm ++ [0]) (ex ++ [0]) c) o n) as H.
  { intros o n Ho Hn Hl. rewrite <- (Z.add_0_l o), <- !(part_part _ 0 28) by lia. by rewrite H1. }
  assert (hd 0 e = hd 0 (part e 0 1)) as -> by (by destruct e).
  change (start_cluster (dir_of e)) with (Z.lor (u32 (Z.shiftl (read16 (part e 20 2)) 16)) (read16 (part e 26 2))).
  change (size (dir_of e)) with (read32 (part e 28 4)). rewrite H2, !H by lia.
  do 9 (destruct nm as [|? nm]; try discriminate N1). do 4 (destruct ex as [|? ex]; try discriminate N2).
  inversion N3; subst. cbn -[Z.shiftl Z.shiftr Z.lor u8 u32 read32 write32 Z.mul]. split_and!; try done; [|by apply write32_ok].
  rewrite !Z.shiftr_div_pow2, Z.shiftl_mul_pow2 by lia. change (2 ^ 16) with 65536. change (2 ^ 24) with 16777216. change (2 ^ 8) with 256. change (2 ^ 0) with 1.
  unfold part, read16. change (Z.to_nat 20) with 20%nat. change (Z.to_nat 26) with 26%nat. change (Z.to_nat 2) with 2%nat. cbn [take drop le_value].
  assert (u8 (c / 65536) + 256 * (u8 (c / 16777216) + 256 * 0) = c / 65536) as -> by mlia.
  assert (u8 c + 256 * (u8 (c / 256) + 256 * 0) = c mod 65536) as -> by mlia.
  rewrite u32_id by mlia. rewrite Z.lor_comm, lor_byte2 by mlia. mlia.
Qed.
(** The place of entry [m]. *)
Definition slot_sector x (m : Z) : Z := root_start (fat x) + m / 16.
Definition slot_index (m : Z) : Z := 32 * (m mod 16).

(** The walk that looks for a free entry. *)
Lemma free_walk_ok x nm ex m n none : dir_ok x nm ex m -> (forall k, 0 <= k < m -> hd 0 (slot x k) <> 0xE5) -> hd 0 (slot x m) = 0 ->
  exists x', walk_dir (Datatypes.S n) 2 free_visit none x = Ok (inr (slot_sector x m, slot_index m), x') /\ reads x x'.
Proof.
  intros D He H0. pose proof D as [V _ Hm Hb]. destruct (dir_walk_bounds _ _ _ _ D) as [B1 B2].
  assert (forall k y, 0 <= k <= m -> reads x y -> exists y', free_visit (root_start (fat x) + k / 16) (32 * (k mod 16)) y =
    Ok (if (hd 0 (slot x k) =? 0) || (hd 0 (slot x k) =? 0xE5) then Stop (inr (root_start (fat x) + k / 16, 32 * (k mod 16))) else Next, y') /\ reads x y') as H.
  { intros k y Hk R. destruct (slot_place x nm ex m k D Hk) as (E & _ & _ & Hv & Hi). pose proof R as (K & P & _).
    destruct (read_bytes_ok y _ (32 * (k mod 16)) 1 K Hv) as (y' & E1 & R1); [lia..|]. exists y'. split; [|by eapply reads_trans]. unfold free_visit. mstep E1.
    rewrite P by done. unfold slot. rewrite E.
    assert (hd 0 (part (page x (root_start (fat x) + k / 16)) (32 * (k mod 16)) 1) = hd 0 (part (page x (root_start (fat x) + k / 16)) (32 * (k mod 16)) 32)) as ->; [|done].
    unfold part. by destruct (drop _ _). }
  destruct (walk_dir_ok x free_visit m (inr (slot_sector x m, slot_index m))) with (fuel := n) (none := none) as (x' & R & E); try done.
  - intros k y Hk R. destruct (H k y ltac:(lia) R) as (y' & E & R'). exists y'. split; [|done]. rewrite E.
    rewrite (proj2 (Z.eqb_neq _ 0)) by apply (Hb k Hk). by rewrite (proj2 (Z.eqb_neq _ 0xE5)) by apply (He k Hk).
  - intros y R. destruct (H m y ltac:(lia) R) as (y' & E & R'). exists y'. split; [|done]. by rewrite E, H0.
  - apply V.
  - by exists x'.
Qed.

(** Reads keep the directory. *)
Lemma slot_reads x x' nm ex m k : dir_ok x nm ex m -> reads x x' -> 0 <= k <= m -> slot x' k = slot x k.
Proof. intros D (_ & P & F & _) Hk. destruct (slot_place x nm ex m k D Hk) as (E & _ & _ & Hv & _). unfold slot. rewrite F, E. by rewrite P. Qed.

Lemma dir_reads x x' nm ex m : dir_ok x nm ex m -> reads x x' -> dir_ok x' nm ex m.
Proof.
  intros D R. pose proof D as [V [Hr He] Hm Hb]. pose proof (reads_table _ _ V R) as T. pose proof T as (_ & F & _ & En). constructor; rewrite ?F; try done.
  - by eapply same_vol.
  - split; [done|]. rewrite En; [done|]. destruct (vol_geo _ V). lia.
  - intros k Hk. rewrite (slot_reads x x' nm ex m k D R) by lia. by apply Hb.
Qed.

(** What the creation of an entry [e] changes. *)
Record created x x' (c m : Z) (e : list Z) : Prop := {
  cr_vol : vol_ok x';
  cr_fat : fat x' = fat x;
  cr_free : free x = c :: free x';
  cr_chain : chain x' [c];
  cr_slot : slot x' m = e;
  cr_entries : forall d, cluster_ok (fat x) d -> d <> c -> entry x' d = entry x d;
  cr_pages : forall d i off n, cluster_ok (fat x) d -> 0 <= i < sect_per_clust (fat x) -> 0 <= off -> 0 <= n -> off + n <= 512 ->
    data_page (fat x) d i <> slot_sector x m \/ off + n <= slot_index m \/ slot_index m + 32 <= off ->
    part (page x' (data_page (fat x) d i)) off n = part (page x (data_page (fat x) d i)) off n;
}.
Lemma new_slot_ok x nm ex m e c l : dir_ok x nm ex m -> length e = 32%nat -> free x = c :: l ->
  exists x1 x2, fat32_find_empty_cluster x = Ok (c, x1) /\ write_bytes (slot_sector x m) (slot_index m) e x1 = Ok (inr tt, x2) /\
    created x x2 c m e /\ cluster_ok (fat x) c.
Proof.
  intros D He Hf. pose proof D as [V [Hr He2] Hm Hb]. destruct (free_take x c l V Hf) as (x1 & E1 & T1 & Hc & Hc0 & Hf1 & V1). pose proof V as [G Hx _ _].
  destruct (slot_place x nm ex m m D ltac:(lia)) as (Es & Hs & H2 & Hv & Hi). pose proof (cluster_entry _ _ G Hc) as Hce.
  destruct (entry_takes x x1 c G Hx Hce T1) as [T2 T3]. pose proof T1 as (K1 & _ & F1 & _). destruct (data_page_range _ _ _ G H2 Hs) as (_ & Hv0 & _). rewrite Es in Hv0.
  fold (slot_sector x m) in *. fold (slot_index m) in *.
  destruct (write_bytes_ok x1 (slot_sector x m) (slot_index m) e K1 Hv Hv0) as (x2 & E2 & P2); [lia..|].
  assert (same_table x1 x2) as T. { eapply (data_same_table x1 x2 2 (m / 16)); rewrite ?F1; try done. by rewrite Es. }
  pose proof T as (_ & F2 & _ & En). rewrite F1 in F2, En. pose proof P2 as (_ & P & _).
  assert (forall d i, cluster_ok (fat x) d -> 0 <= i < sect_per_clust (fat x) -> page x1 (data_page (fat x) d i) = page x (data_page (fat x) d i)) as Hp1.
  { intros d i Hd Hi2. exact (table_data x _ c _ d i G Hce (takes_patches x x1 c T1) Hd Hi2). }
  exists x1, x2. split_and!; try done. constructor.
  - by eapply same_vol.
  - done.
  - by rewrite (same_free x1 x2 V1 T), Hf1.
  - constructor; [by constructor; rewrite ?F2|apply NoDup_singleton|]. intros i d [Hi2 <-]%list_lookup_singleton_Some. rewrite Hi2. cbn. rewrite En by done. done.
  - unfold slot. rewrite F2, Es. fold (slot_sector x m). fold (slot_index m). rewrite P by done. rewrite decide_True by done.
    replace 32 with (Z.of_nat (length e)) by (by rewrite He). apply part_patch_same; [by apply pview_length|lia|lia].
  - intros d Hd Hne. rewrite En, T3; try done; by apply cluster_entry.
  - intros d i off n Hd Hi2 Ho Hn Hl Ha. destruct (data_page_range _ _ _ G Hd Hi2) as (Hvd & _ & _). rewrite P by done. case_decide as Dq; [|by rewrite Hp1].
    rewrite <- Dq, Hp1 by done. apply part_patch_other; try done; [by apply pview_length|lia..].
Qed.

Lemma created_reads x y z w c m e nm ex : dir_ok x nm ex m -> reads x y -> created y z c m e -> reads z w -> created x w c m e.
Proof.
  intros D R1 [C1 C2 C3 C4 C5 C6 C7] R2. pose proof D as [V _ _ _]. pose proof (reads_table _ _ V R1) as T1. pose proof (reads_table _ _ C1 R2) as T2.
  pose proof T1 as (_ & F1 & _ & E1). pose proof T2 as (_ & F2 & _ & E2). pose proof R1 as (_ & P1 & _). pose proof R2 as (_ & P2 & _). rewrite F1 in *. rewrite C2 in *.
  pose proof (vol_geo _ V) as G. constructor.
  - exact (same_vol z w C1 T2).
  - congruence.
  - by rewrite (same_free z w C1 T2), <- (same_free x y V T1).
  - exact (same_chain z w _ C1 T2 C4).
  - rewrite <- C5. destruct (slot_place x nm ex m m D) as (Es & _ & _ & Hv & _); [destruct D; lia|]. unfold slot. rewrite C2, F2, Es. by rewrite P2.
  - intros d Hd Hne. rewrite E2, C6, E1; try done; by apply cluster_entry.
  - unfold slot_sector in C7. rewrite F1 in C7. intros d i off n Hd Hi Ho Hn Hl Ha. destruct (data_page_range _ _ _ G Hd Hi) as (Hvd & _ & _).
    rewrite P2 by done. rewrite <- P1 by done. by apply C7.
Qed.

Lemma create_ok x nm ex m n filename d c l : dir_ok x nm ex m -> name_ok nm ex -> split filename = Ok (nm ++ [0], ex ++ [0]) ->
  (forall k, 0 <= k < m -> hd 0 (slot x k) <> 0xE5) -> hd 0 (slot x m) = 0 -> free x = c :: l ->
  exists x', fat32_create (Datatypes.S n) filename d x =
      Ok (inr (slot_sector x m, slot_index m, dir_of (new_entry (nm ++ [0]) (ex ++ [0]) c)), x') /\
    created x x' c m (new_entry (nm ++ [0]) (ex ++ [0]) c) /\ cluster_ok (fat x) c.
Proof.
  intros D N Hs He5 H0 Hf. pose proof D as [V _ Hm _]. unfold fat32_create.
  destruct (open_ok x nm ex m n filename (inl FAT32_FILE_NOT_FOUND) D N Hs) as (x1 & E1 & R1); [unfold find_result; by rewrite decide_True|].
  assert (fat32_file_exists (Datatypes.S n) filename x = Ok (false, x1)) as E1' by (unfold fat32_file_exists; by mstep E1).
  mstep E1'. rewrite Hs. mrun. pose proof (dir_reads _ _ _ _ _ D R1) as D1. pose proof R1 as (_ & _ & F1 & _).
  assert (slot_sector x1 m = slot_sector x m) as Hss by (unfold slot_sector; by rewrite F1).
  destruct (free_walk_ok x1 nm ex m n (λ sector, inr (sector, 512)) D1) as (x2 & E2 & R2).
  { intros k Hk. rewrite (slot_reads x x1 nm ex m k D R1) by lia. by apply He5. }
  { by rewrite (slot_reads x x1 nm ex m m D R1) by lia. }
  unfold rbind at 1. mstep E2. pose proof (dir_reads _ _ _ _ _ D1 R2) as D2. pose proof (reads_trans _ _ _ R1 R2) as R12.
  assert (free x2 = c :: l) as Hf2 by (rewrite (same_free x x2 V (reads_table _ _ V R12)); done).
  pose proof (new_entry_length nm ex c N) as Hel. destruct (new_slot_ok x2 nm ex m _ c l D2 Hel Hf2) as (x3 & x4 & E3 & E4 & C4 & Hc).
  pose proof R12 as (_ & _ & F2 & _). assert (slot_sector x2 m = slot_sector x m) as Hss2 by (unfold slot_sector; by rewrite F2). rewrite Hss2 in E4. rewrite Hss, F2 in *.
  mstep E3. rewrite (proj2 (Z.eqb_neq c 1)) by (unfold cluster_ok in Hc; lia). unfold rbind. mstep E4.
  destruct (slot_place x nm ex m m D ltac:(lia)) as (Es & _ & _ & Hv & Hi).
  destruct (read_dir_ok x4 (slot_sector x m) (slot_index m) d) as (x5 & E5 & R5); [apply (cr_vol _ _ _ _ _ C4)|done|done|].
  mstep E5. exists x5. split_and!; [|by eapply created_reads|done]. pose proof (cr_slot _ _ _ _ _ C4) as Hsl. unfold slot in Hsl. rewrite (cr_fat _ _ _ _ _ C4), F2, Es in Hsl.
  fold (slot_sector x m) in Hsl. fold (slot_index m) in Hsl. by rewrite Hsl.
Qed.
End dir.
End FatDirSpec.
