(* ===== verification/FatCache.v ===== *)
(** * The page cache under the file system

    The page cache of [fs.c] is the page store of the file system: it satisfies what
    [PageStoreSpec] asks, with the writing task running between the calls as it
    pleases. The theorems on files then hold down to the card. *)

From stdpp Require Import base numbers list.
From S2P Require Import Prelude Fs FsSpec Fat32 FatSpec.

Module FatCache.
Import FsSpec.

(** The cache, and the turns that the writing task gets before the next calls. *)
Record cached := mk_cached { cache : Fs.fs; turns : list bool }.

#[global] Instance cache_lens : Lens cached Fs.fs.
Proof. refine {| view := cache; over c s := mk_cached c (turns s) |}; [done|by intros []|done]. Defined.

Section cache.
Context {sd : Fs.SdEnv}.

(** A turn writes one dirty buffer. *)
Definition turn : M Fs.fs unit := s ← mget; if Fs.dirty_sem s =? 0 then mret tt else Fs.write_task.
Definition take_turn : M cached unit :=
  s ← mget;
  match turns s with
  | [] => mret tt
  | b :: bs => mmod (λ s, mk_cached (cache s) bs) ;; if b : bool then mzoom turn else mret tt
  end.

(** A caller that finds no clean buffer lets the task run; three turns are enough for it
    to find one. *)
Definition WAITS : nat := 3.

#[global] Instance cache_store : PageStore cached := {|
  fs_read p off n := take_turn ;; mzoom (Fs.fs_read WAITS p off n);
  fs_write p off bs := take_turn ;; mzoom (Fs.fs_write WAITS p off bs (Z.of_nat (length bs)));
|}.

(** [fat32_init]: the cache is initialised. *)
Definition fat32_init : M cached Fat32.fat32_error :=
  e ← mzoom Fs.fs_init;
  mret (match e with Fs.FS_OK => Fat32.FAT32_OK | _ => Fat32.FAT32_FS_ERROR end).

Hypothesis calm : forall n, Fs.sd_result n = Fs.SD_NO_ERROR /\ Fs.transfer_error n = Fs.SD_NO_ERROR.

Definition cache_ok (s : cached) : Prop := fs_inv (cache s) /\ quiet (cache s) /\ Fs.task (cache s) = Fs.WT_IDLE.

Lemma turn_ok s : fs_inv s -> quiet s -> Fs.task s = Fs.WT_IDLE ->
  exists s', turn s = Ok (tt, s') /\ fs_inv s' /\ quiet s' /\ Fs.task s' = Fs.WT_IDLE /\ forall q, page_ok q -> pages s' q = pages s q.
Proof.
  intros I Hq Ht. unfold turn. mrun. destruct (Z.eqb_spec (Fs.dirty_sem s) 0) as [E|E]; [by exists s|].
  pose proof (dirty_count_range (Fs.pool s)). rewrite (inv_sem s I) in E.
  destruct (task_start_ok calm s I Ht) as (s1 & j & b & E1 & I1 & T1 & _ & _ & _ & _ & P1 & N1 & W1); [rewrite (inv_sem s I); lia|].
  destruct (end_ok calm s1 I1) as (s2 & E2 & I2 & T2 & _ & P2 & N2 & W2 & _).
  exists s2. unfold Fs.write_task. mstep E1. split; [done|]. split_and!; try done.
  - destruct Hq as [Hq1 Hq2]. split; [congruence|]. rewrite W2, T1, N1, Hq1. cbn. congruence.
  - intros q Hok. by rewrite P2, P1.
Qed.

Lemma take_turn_ok s : cache_ok s -> exists s', take_turn s = Ok (tt, s') /\ cache_ok s' /\ forall q, page_ok q -> pages (cache s') q = pages (cache s) q.
Proof.
  intros (I & Q & T). unfold take_turn. mrun. destruct (turns s) as [|[] bs]; [by exists s| |mrun; by eexists].
  destruct (turn_ok (cache s) I Q T) as (c & E & I1 & Q1 & T1 & P1). mrun. exists (mk_cached c bs).
  rewrite (zoom_ok (Lens0 := cache_lens) turn (mk_cached (cache s) bs) _ _ E). by split_and!.
Qed.

(** The cache is a page store that works. *)
#[global, program] Instance cache_spec : PageStoreSpec cached := {|
  pok := cache_ok;
  pview s p := pages (cache s) p;
  pvalid := page_ok;
|}.
Next Obligation. intros s p (I & _). by apply pages_length. Qed.
Next Obligation.
  intros s p off n C Hp Ho Hn Hl. destruct (take_turn_ok s C) as (s1 & E1 & (I1 & Q1 & T1) & P1).
  destruct (read_ok calm (cache s1) WAITS p off n I1 Q1 Hp Ho Hn Hl ltac:(unfold WAITS; lia)) as (c & E2 & I2 & [Q2 T2] & P2).
  exists (mk_cached c (turns s1)). cbn [fs_read cache_store]. mstep E1. rewrite (zoom_ok (Lens0 := cache_lens) _ s1 _ _ E2).
  split; [by rewrite P1|]. split; [split_and!; [done|done|by apply T2]|]. intros q Hq. cbn [cache]. by rewrite P2, P1.
Qed.
Next Obligation.
  intros s p off bs C Hp Hp0 Ho Hn Hl. destruct (take_turn_ok s C) as (s1 & E1 & (I1 & Q1 & T1) & P1).
  destruct (write_ok calm (cache s1) WAITS p off (Z.of_nat (length bs)) bs I1 Q1 Hp Hp0 Ho) as (c & E2 & I2 & [Q2 T2] & P2); try lia; [unfold WAITS; lia|by right|].
  exists (mk_cached c (turns s1)). cbn [fs_write cache_store]. mstep E1. rewrite (zoom_ok (Lens0 := cache_lens) _ s1 _ _ E2).
  split; [done|]. split; [split_and!; [done|done|by apply T2]|]. intros q Hq. cbn [cache]. rewrite P2 by done. rewrite !P1 by done. by rewrite Nat2Z.id, firstn_all.
Qed.
End cache.
End FatCache.
