(* ===== verification/FatSession.v ===== *)
(** * FAT32: sessions

    A file created, written, closed, opened again and read: the composition of the
    operations of [file.c] over the directory, the table and the pages. *)

From stdpp Require Import base numbers list.
From Stdlib Require Strings.String Strings.Ascii.
From S2P Require Import Prelude Printf Fs FsSpec Fat32 FatFile FatSpec FatFileSpec FatDirSpec FatCache.

Module FatSession.
Import Printf Fat32 FatFile FatSpec FatFileSpec FatDirSpec.
Import Strings.String.StringSyntax Strings.Ascii.AsciiSyntax.

(** ** Names *)

(** A name of at most eight characters, a dot, an extension of three. *)
Record name_83 (base ex : list Z) : Prop := {
  base_length : (length base <= 8)%nat;
  base_chars : Forall (λ c, c <> 0 /\ c <> ch ".") base;
  base_first : hd 0 base <> 0xE5;
  ext_length : length ex = 3%nat;
  ext_chars : Forall (λ c, c <> 0) ex;
}.

Definition padded (base : list Z) : list Z := base ++ replicate (8 - length base) 0x20.

Lemma split_name_ok b : forall n rest name cpt, Forall (λ c, c <> 0 /\ c <> ch ".") b -> (length b <= n)%nat -> 0 <= cpt ->
  (Z.to_nat cpt + length b <= length name)%nat ->
  split_name n (b ++ ch "." :: rest) name cpt = Ok (ch "." :: rest, take (Z.to_nat cpt) name ++ b ++ drop (Z.to_nat cpt + length b) name).
Proof.
  induction b as [|c b IH]; intros n rest name cpt Hb Hn Hc Hl; cbn [app length] in *.
  - rewrite Nat.add_0_r, take_drop. by destruct n.
  - inversion Hb as [|? ? [H0 H1] Hb']; subst. destruct n as [|n]; [lia|]. cbn [split_name]. rewrite (proj2 (Z.eqb_neq c (ch "."))) by done.
    rewrite arr_set_ok by lia. change (mbind ?k (Ok ?r)) with (k r). cbv beta. rewrite IH by (done || lia || (rewrite length_insert; lia)). f_equal. f_equal.
    replace (Z.to_nat (cpt + 1)) with (S (Z.to_nat cpt)) by lia. rewrite (take_S_r _ _ c) by (apply list_lookup_insert_eq; lia).
    rewrite take_insert_ge, <- app_assoc by lia. cbn [app]. do 3 f_equal. rewrite drop_insert_lt by lia. f_equal. lia.
Qed.

Lemma split_83 base ex : name_83 base ex -> split (base ++ ch "." :: ex) = Ok (padded base ++ [0], ex ++ [0]) /\ name_ok (padded base) ex.
Proof.
  intros [B1 B2 B3 E1 E2]. split.
  - unfold split. rewrite (split_name_ok base 8 ex NAME 0) by (done || lia || (cbn; lia)). change (mbind ?k (Ok ?r)) with (k r). cbv beta iota.
    do 4 (destruct ex as [|? ex]; try discriminate E1). cbn [Z.to_nat take app Nat.add].
    transitivity (Ok (base ++ drop (length base) NAME, [z; z0; z1; 0])); [reflexivity|]. f_equal. f_equal. unfold padded. rewrite <- app_assoc. f_equal.
    do 9 (destruct base as [|? base]; [reflexivity|]). cbn in B1. lia.
  - constructor; try done; unfold padded.
    + rewrite length_app, length_replicate. lia.
    + apply Forall_app_2; [by eapply Forall_impl; [exact B2|]; intros ? []|]. by apply Forall_replicate.
    + destruct base; [done|]. done.
Qed.
(** ** Sequences of calls *)

(** A call writes or reads less than 65536 bytes, so that its recursion goes over at
    most 129 sectors. *)
Definition FILE_FUEL : nat := 129.

(** The results of reads of [ns] bytes, one after the other. *)
Fixpoint cut (data : list Z) (ns : list Z) : list (list Z) :=
  match ns with
  | [] => []
  | n :: ns => take (Z.to_nat n) data :: cut (drop (Z.to_nat n) data) ns
  end.

Definition total (ns : list Z) : Z := foldr Z.add 0 ns.

Section session.
Context {S : Type} {ps : PageStore S}.
Abbreviation FM := (M (fatfs S)).
Abbreviation RM A := (FM (fat32_error + A)).

Fixpoint write_all (f : file) (bufs : list (list Z)) : RM file :=
  match bufs with
  | [] => rret f
  | b :: bufs =>
      r ← file_write FILE_FUEL f b (Z.of_nat (length b));
      if decide (r.1 = FAT32_OK) then write_all r.2 bufs else mret (inl r.1)
  end.

Fixpoint read_all (f : file) (ns : list Z) : RM (list (list Z)) :=
  match ns with
  | [] => rret []
  | n :: ns =>
      r ← file_read FILE_FUEL f n;
      let '(e, bs, n', f) := r in
      if decide (e = FAT32_OK /\ n' = n) then rs ←? read_all f ns; rret (bs :: rs) else mret (inl e)
  end.

(** The two page buffers are those of the caller; the directory is walked over at most
    [clusters] clusters. *)
Definition write_file (clusters : nat) (filename pb : list Z) (d : dir_entry) (bufs : list (list Z)) : RM unit :=
  f ←? file_create clusters filename pb d;
  f ←? write_all f bufs;
  file_close f.
Definition read_file (clusters : nat) (filename pb : list Z) (ns : list Z) : RM (list (list Z)) :=
  f ←? file_open clusters filename pb;
  read_all f ns.

Context {spec : PageStoreSpec S}.
Implicit Types (x : fatfs S).

Lemma write_all_ok bufs : forall x f cs k data, file_inv x f cs k data -> Forall (λ b, Z.of_nat (length b) < 65536) bufs ->
  Z.of_nat (length data + length (concat bufs)) < 4294967296 ->
  (Z.of_nat (length data + length (concat bufs)) - 1) / 512 / sect_per_clust (fat x) < Z.of_nat (length cs + length (free x)) ->
  exists x' f' cs' k', write_all f bufs x = Ok (inr f', x') /\ file_inv x' f' (cs ++ cs') k' (data ++ concat bufs) /\ appends x f cs x' f' cs'.
Proof.
  induction bufs as [|b bufs IH]; intros x f cs k data I Hb Ht Hf; cbn [concat write_all] in *.
  { exists x, f, [], k. rewrite !app_nil_r. split_and!; try done. split_and!; try done. by destruct (dir f). }
  inversion Hb as [|? ? Hb1 Hb2]; subst. rewrite length_app in *. pose proof (fi_length _ _ _ _ _ I) as Hlen. pose proof (fi_bi _ _ _ _ _ I) as Hbi.
  assert (0 < sect_per_clust (fat x)) as Hspc by (destruct (vol_geo _ (fi_vol _ _ _ _ _ I)); lia).
  destruct (file_write_ok FILE_FUEL x f cs k data b I Hb1) as (x1 & f1 & cs1 & k1 & E1 & I1 & A1); [lia| | |unfold FILE_FUEL; lia|].
  { apply Z.div_lt_upper_bound; unfold FILE_FUEL; lia. }
  { eapply Z.le_lt_trans; [|exact Hf]. apply Z.div_le_mono; [done|]. apply Z.div_le_mono; lia. }
  mstep E1. cbn [fst snd]. rewrite decide_True by done. pose proof A1 as (Af & F1 & _).
  destruct (IH x1 f1 (cs ++ cs1) k1 (data ++ b) I1 Hb2) as (x2 & f2 & cs2 & k2 & E2 & I2 & A2).
  { rewrite length_app. lia. }
  { rewrite F1. rewrite Af in Hf. rewrite !length_app in *. eapply Z.le_lt_trans; [|eapply Z.lt_le_trans; [exact Hf|lia]]. apply Z.div_le_mono; [done|]. apply Z.div_le_mono; lia. }
  exists x2, f2, (cs1 ++ cs2), k2. rewrite <- !app_assoc in I2. split_and!; try done. by eapply appends_trans.
Qed.

Lemma read_all_ok ns : forall x f cs data k, read_inv x f cs data k -> Forall (λ n, 0 <= n < 65536) ns ->
  512 * k + buffer_index f + total ns <= Z.of_nat (length data) ->
  exists x', read_all f ns x = Ok (inr (cut (drop (Z.to_nat (512 * k + buffer_index f)) data) ns), x') /\ reads x x'.
Proof.
  induction ns as [|n ns IH]; intros x f cs data k I Hn Ht; cbn [total foldr read_all cut] in *.
  { exists x. split; [done|]. apply reads_refl, (oc_vol _ _ _ (ri_card _ _ _ _ _ I)). }
  inversion Hn as [|? ? Hn1 Hn2]; subst. pose proof (ri_bi _ _ _ _ _ I) as Hbi. pose proof (ri_k _ _ _ _ _ I) as [Hk _].
  assert (0 <= total ns) as Hp by (clear -Hn2; unfold total; induction Hn2; cbn [foldr]; lia). change (foldr Z.add 0 ns) with (total ns) in Ht.
  destruct (file_read_ok FILE_FUEL x f cs data k n I Hn1) as (x1 & f1 & k1 & E1 & R1 & I1 & Hk1); [lia| |unfold FILE_FUEL; lia|].
  { apply Z.div_lt_upper_bound; unfold FILE_FUEL; lia. }
  mstep E1. rewrite decide_True by done. destruct (IH x1 f1 cs data k1 I1 Hn2 ltac:(lia)) as (x2 & E2 & R2). unfold rbind. mstep E2.
  exists x2. split; [|by eapply reads_trans]. rewrite Hk1, drop_drop. by rewrite Z2Nat.inj_add by lia.
Qed.
(** ** A file written *)

(** The directory has room for a new name: entry [m] is the first that was never used,
    and none before it was deleted. *)
Record ready x (base ex : list Z) (m : Z) : Prop := {
  ready_dir : dir_ok x (padded base) ex m;
  ready_deleted : forall k, 0 <= k < m -> hd 0 (slot x k) <> 0xE5;
  ready_slot : hd 0 (slot x m) = 0;
}.

(** The clusters that were in use keep their entries and their bytes, but for entry [m]
    of the directory. *)
Definition intact x x' (m : Z) : Prop :=
  forall c, cluster_ok (fat x) c -> entry x c <> 0 ->
    entry x' c = entry x c /\
    forall i off n, 0 <= i < sect_per_clust (fat x) -> 0 <= off -> 0 <= n -> off + n <= 512 ->
      data_page (fat x) c i <> slot_sector x m \/ off + n <= slot_index m \/ slot_index m + 32 <= off ->
      part (page x' (data_page (fat x) c i)) off n = part (page x (data_page (fat x) c i)) off n.

Lemma created_others_intact x x1 x3 c m e : created x x1 c m e -> others x1 x3 [c] (slot_sector x m) (slot_index m) -> intact x x3 m.
Proof.
  intros C O d Hd He. assert (d <> c) as Hne by (intros ->; apply He, free_zero; rewrite (cr_free _ _ _ _ _ C); left).
  pose proof (cr_entries _ _ _ _ _ C d Hd Hne) as E1. unfold others in O. rewrite (cr_fat _ _ _ _ _ C) in O.
  destruct (O d Hd) as [E2 P2]; [by rewrite E1|by rewrite list_elem_of_singleton|]. split; [congruence|].
  intros i off n Hi Ho Hn Hl Ha. rewrite P2 by (done || lia). by apply (cr_pages _ _ _ _ _ C).
Qed.

Lemma intact_slot x x' nm ex m k : dir_ok x nm ex m -> intact x x' m -> fat x' = fat x -> 0 <= k < 16 * sect_per_clust (fat x) -> k <> m -> slot x' k = slot x k.
Proof.
  intros D I F Hk Hne. pose proof D as [V [Hr He] Hm _]. destruct (slot_place x nm ex m m D ltac:(lia)) as (Em & Hsm & H2 & _ & Him).
  destruct (I 2 H2 He) as [_ P]. unfold slot. rewrite F.
  assert (0 <= k / 16 < sect_per_clust (fat x)) as Hd by (split; [apply Z.div_pos; lia|apply Z.div_lt_upper_bound; lia]).
  pose proof (Z.mod_pos_bound k 16 ltac:(lia)). apply P; try lia. unfold slot_sector, slot_index. rewrite <- Em.
  destruct (decide (k / 16 = m / 16)) as [E|E].
  - right. pose proof (Z.div_mod k 16 ltac:(lia)). pose proof (Z.div_mod m 16 ltac:(lia)). lia.
  - left. intros Hp. apply data_page_inj in Hp as [_ Hp]; [done|apply V|done|done].
Qed.

(** A file just created. *)
Lemma created_file x x1 nm ex c m e pb d : dir_ok x nm ex m -> created x x1 c m e -> length pb = 512%nat -> cluster_ok (fat x) c ->
  start_cluster d = c -> size d = 0 ->
  exists f, open_file (slot_sector x m, slot_index m, d) pb x1 = Ok (inr f, x1) /\ file_inv x1 f [c] 0 [] /\
    descriptor_sector f = slot_sector x m /\ descriptor_index f = slot_index m /\ dir f = d.
Proof.
  intros D C Hpb Hc Hs Hz. pose proof D as [V [Hr He] Hm _]. pose proof (cr_fat _ _ _ _ _ C) as F. pose proof (vol_geo _ (cr_vol _ _ _ _ _ C)) as G1.
  destruct (slot_place x nm ex m m D ltac:(lia)) as (Em & Hsm & H2 & Hv & Him). rewrite F in G1.
  unfold open_file. rewrite Hs. erewrite bind_ok by (apply first_sector_ok; rewrite F; done). rewrite F. eexists. split; [reflexivity|]. split; [|done].
  assert (2 <> c) as H2c by (intros <-; apply He, free_zero; rewrite (cr_free _ _ _ _ _ C); left).
  assert (0 / sect_per_clust (fat x) = 0 /\ 0 mod sect_per_clust (fat x) = 0) as [D0 M0] by (destruct G1; split; [apply Z.div_0_l|apply Z.mod_0_l]; lia).
  constructor; cbn; rewrite ?F, ?D0, ?M0; try done; try apply C.
  - exists 2, (m / 16). rewrite F. split_and!; try done; try lia.
    + by rewrite (cr_entries _ _ _ _ _ C).
    + by rewrite list_elem_of_singleton.
    + unfold slot_index. lia.
    + unfold slot_index. lia.
  - by exists [].
  - intros i Hi. lia.
Qed.
(** The file is in the directory and on the card. *)
Record written x (base ex : list Z) (m : Z) (data : list Z) : Prop := {
  wr_dir : dir_ok x (padded base) ex m;
  wr_name : part (slot x m) 0 8 = padded base /\ part (slot x m) 8 3 = ex;
  wr_used : hd 0 (slot x m) <> 0 /\ Z.land (hd 0 (part (slot x m) 11 1)) 0x0F <> 0x0F;
  wr_size : size (dir_of (slot x m)) = Z.of_nat (length data);
  wr_data : exists cs, cs !! 0%nat = Some (start_cluster (dir_of (slot x m))) /\ on_card x cs data;
}.

Lemma close_written x x1 x3 base ex c cs m data : let e := new_entry (padded base ++ [0]) (ex ++ [0]) c in
  dir_ok x (padded base) ex m -> name_ok (padded base) ex -> is_u32 c -> created x x1 c m e -> others x1 x3 [c] (slot_sector x m) (slot_index m) -> fat x3 = fat x ->
  on_card x3 (c :: cs) data -> Z.of_nat (length data) < 4294967296 ->
  part (page x3 (slot_sector x m)) (slot_index m + 28) 4 = write32 (Z.of_nat (length data)) -> written x3 base ex m data.
Proof.
  intros e D N Hcu C O F3 Oc Ht Hsz. pose proof (created_others_intact _ _ _ _ _ _ C O) as Hi. pose proof D as [V [Hr He] Hm Hb].
  destruct (slot_place x _ ex m m D ltac:(lia)) as (Em & Hsm & H2 & Hv & Him). pose proof (cr_fat _ _ _ _ _ C) as F1.
  assert (slot x3 m = part (page x3 (slot_sector x m)) (slot_index m) 32) as Hs3 by (unfold slot; by rewrite F3, Em).
  assert (part (slot x3 m) 0 28 = part e 0 28) as P1.
  { rewrite <- (cr_slot _ _ _ _ _ C). unfold slot. rewrite F3, F1, Em. rewrite !part_part by lia. rewrite Z.add_0_r. unfold others in O. rewrite F1 in O.
    destruct (O 2 H2) as [_ P].
    - rewrite (cr_entries _ _ _ _ _ C); [done|done|]. intros <-. apply He, free_zero. rewrite (cr_free _ _ _ _ _ C). left.
    - rewrite list_elem_of_singleton. intros <-. apply He, free_zero. rewrite (cr_free _ _ _ _ _ C). left.
    - rewrite <- Em. apply P; try lia. unfold slot_index. lia. }
  assert (part (slot x3 m) 28 4 = write32 (Z.of_nat (length data))) as P2. { rewrite Hs3, part_part; [done|unfold slot_index; lia|lia..]. }
  destruct (new_entry_fields _ ex c (slot x3 m) (Z.of_nat (length data)) N Hcu ltac:(lia) P1 P2) as (W1 & W2 & W3 & W4 & W5 & W6). constructor; try done.
  - constructor; rewrite ?F3; try done; [apply Oc| |].
    + split; [done|]. rewrite (proj1 (Hi 2 H2 He)). done.
    + intros k Hk. rewrite (intact_slot x x3 _ ex m k D Hi F3) by lia. by apply Hb.
  - exists (c :: cs). rewrite W5. by split.
Qed.

Lemma write_file_ok x base ex m n pb d bufs :
  ready x base ex m -> name_83 base ex -> length pb = 512%nat -> Forall (λ b, Z.of_nat (length b) < 65536) bufs ->
  Z.of_nat (length (concat bufs)) < 4294967296 -> (1 <= length (free x))%nat ->
  Z.of_nat (length (concat bufs)) <= 512 * sect_per_clust (fat x) * Z.of_nat (length (free x)) ->
  exists x', write_file (Datatypes.S n) (base ++ ch "." :: ex) pb d bufs x = Ok (inr tt, x') /\
    written x' base ex m (concat bufs) /\ intact x x' m /\ fat x' = fat x.
Proof.
  intros [D He5 H0] Hn Hpb Hb Ht Hf1 Hf2. destruct (split_83 base ex Hn) as [Hs N]. destruct (free x) as [|c l] eqn:Hfree; [cbn in Hf1; lia|].
  destruct (create_ok x _ ex m n _ d c l D N Hs He5 H0 Hfree) as (x1 & E1 & C1 & Hc). pose proof D as [V [Hr He2] Hm _]. pose proof (vol_geo _ V) as G.
  destruct (slot_place x _ ex m m D ltac:(lia)) as (Em & Hsm & H2 & Hv & Him). pose proof (cr_fat _ _ _ _ _ C1) as F1.
  assert (is_u32 c) as Hcu by (unfold cluster_ok in Hc; destruct G; lia).
  set (e := new_entry (padded base ++ [0]) (ex ++ [0]) c) in *.
  assert (start_cluster (dir_of e) = c /\ size (dir_of e) = 0) as [Hd1 Hd2].
  { destruct (new_entry_fields _ ex c e 0 N Hcu ltac:(lia) eq_refl) as (_ & _ & _ & _ & H1 & H3); [by apply new_entry_size|done]. }
  destruct (created_file x x1 _ ex c m e pb (dir_of e) D C1 Hpb Hc Hd1 Hd2) as (f & E2 & I1 & Ds & Di & Hdir).
  assert (free x1 = l) as Hl. { pose proof (cr_free _ _ _ _ _ C1) as H. rewrite Hfree in H. by injection H. }
  destruct (write_all_ok bufs x1 f [c] 0 [] I1 Hb ltac:(done)) as (x2 & f2 & cs' & k2 & E3 & I2 & A2).
  { rewrite F1, Hl. cbn [length Nat.add] in *. apply Z.div_lt_upper_bound; [destruct G; lia|]. apply Z.div_lt_upper_bound; nia. }
  destruct (file_close_ok x2 f2 _ k2 _ I2) as (x3 & E4 & O3 & T3 & Hsz & Ot3). destruct A2 as (Af & F2 & Ot2 & Ds2 & Di2 & Hdir2).
  rewrite Ds2, Di2, Ds, Di in *. pose proof T3 as (_ & F3 & _).
  assert (others x1 x3 [c] (slot_sector x m) (slot_index m)) as O.
  { eapply others_trans; [exact F2| |exact Ot2|exact Ot3]. apply Forall_forall. intros b Hb2. apply free_zero. rewrite Af, elem_of_app. by left. }
  assert (fat x3 = fat x) as F by congruence.
  exists x3. split_and!; [|by eapply close_written|by eapply created_others_intact|done].
  assert (file_create (Datatypes.S n) (base ++ ch "." :: ex) pb d x = Ok (inr f, x1)) as E12 by (unfold file_create, rbind; mstep E1; exact E2).
  unfold write_file, rbind. mstep E12. mstep E3. exact E4.
Qed.

Lemma read_file_ok x base ex m n pb ns data :
  written x base ex m data -> name_83 base ex -> length pb = 512%nat -> Forall (λ n, 0 <= n < 65536) ns -> total ns <= Z.of_nat (length data) ->
  exists x', read_file (Datatypes.S n) (base ++ ch "." :: ex) pb ns x = Ok (inr (cut data ns), x') /\ reads x x'.
Proof.
  intros [D [W1 W2] [W3 W4] W5 (cs & Hc & O)] Hn Hpb Hns Ht. destruct (split_83 base ex Hn) as [Hs N]. pose proof O as [V C _ _].
  destruct (open_ok x _ ex m n _ (inr (slot_sector x m, slot_index m, dir_of (slot x m))) D N Hs) as (x1 & E1 & R1).
  { unfold find_result. rewrite decide_False by done. by rewrite decide_True. }
  pose proof (on_card_reads _ _ _ _ O R1) as O1. pose proof R1 as (_ & _ & F1 & _). pose proof (vol_geo _ V) as G.
  pose proof (Forall_lookup_1 _ _ _ _ (chain_ok _ _ C) Hc) as Hcok. set (c := start_cluster (dir_of (slot x m))) in *.
  set (f := mk_file c (data_page (fat x) c 0) 0 pb 0 (slot_sector x m) (slot_index m) (dir_of (slot x m))).
  assert (open_file (slot_sector x m, slot_index m, dir_of (slot x m)) pb x1 = Ok (inr f, x1)) as E2.
  { unfold open_file. fold c. erewrite bind_ok by (apply first_sector_ok; rewrite F1; done). by rewrite F1. }
  assert (read_inv x1 f cs data 0) as I1.
  { assert (0 / sect_per_clust (fat x) = 0 /\ 0 mod sect_per_clust (fat x) = 0) as [D0 M0] by (destruct G; split; [apply Z.div_0_l|apply Z.mod_0_l]; lia).
    constructor; cbn [f current_cluster sector_index current_sector buffer_index pbuf dir]; rewrite ?F1, ?D0, ?M0; try done.
    - split; [lia|]. apply lookup_lt_Some in Hc. lia.
    - unfold sector_of. rewrite D0, M0. by rewrite (nth_lookup_Some _ _ _ _ Hc). }
  destruct (read_all_ok ns x1 f cs data 0 I1 Hns Ht) as (x2 & E3 & R2). exists x2. split; [|by eapply reads_trans].
  assert (file_open (Datatypes.S n) (base ++ ch "." :: ex) pb x = Ok (inr f, x1)) as E12 by (unfold file_open, rbind; mstep E1; exact E2).
  unfold read_file, rbind. mstep E12. exact E3.
Qed.
Lemma intact_reads x y z m : vol_ok y -> fat y = fat x -> intact x y m -> reads y z -> intact x z m.
Proof.
  intros V F I R c Hc He. pose proof (reads_table _ _ V R) as (_ & _ & _ & En). pose proof R as (_ & P & _). destruct (I c Hc He) as [I1 I2]. rewrite F in En.
  pose proof (vol_geo _ V) as G. rewrite F in G. split; [rewrite En; [done|by apply cluster_entry]|].
  intros i off n Hi. destruct (data_page_range _ _ _ G Hc Hi) as (Hv & _). rewrite P by done. by apply I2.
Qed.

(** C5: A file that is created, written by any number of calls, closed, opened again and
    read by any number of calls gives back the bytes written, in order. The clusters
    come from the free ones, of which there are enough; every cluster that was in use
    keeps its entry of the table and its bytes, but for the new entry of the directory.
    The name has an extension of three characters, the directory has room in its first
    cluster, and the reads do not go past the end. *)
Theorem file_roundtrip x base ex m n pb pb' d bufs ns :
  ready x base ex m -> name_83 base ex -> length pb = 512%nat -> length pb' = 512%nat ->
  Forall (λ b, Z.of_nat (length b) < 65536) bufs -> Z.of_nat (length (concat bufs)) < 4294967296 ->
  (1 <= length (free x))%nat -> Z.of_nat (length (concat bufs)) <= 512 * sect_per_clust (fat x) * Z.of_nat (length (free x)) ->
  Forall (λ n, 0 <= n < 65536) ns -> total ns <= Z.of_nat (length (concat bufs)) ->
  exists x' x'', write_file (Datatypes.S n) (base ++ ch "." :: ex) pb d bufs x = Ok (inr tt, x') /\
    read_file (Datatypes.S n) (base ++ ch "." :: ex) pb' ns x' = Ok (inr (cut (concat bufs) ns), x'') /\
    intact x x'' m /\ fok x''.
Proof.
  intros Hr Hn Hpb Hpb' Hb Ht Hf1 Hf2 Hns Htn. destruct (write_file_ok x base ex m n pb d bufs Hr Hn Hpb Hb Ht Hf1 Hf2) as (x1 & E1 & W & I & F).
  destruct (read_file_ok x1 base ex m n pb' ns _ W Hn Hpb' Hns Htn) as (x2 & E2 & R). exists x1, x2. split_and!; try done; [|apply R].
  eapply intact_reads; [apply (dir_vol _ _ _ _ (wr_dir _ _ _ _ _ W))|exact F|exact I|exact R].
Qed.
End session.

(** ** A small volume on a card *)

(** One sector of table, then clusters of one sector; the root directory is empty. *)
Definition card0 (q : Z) : list Z :=
  if q =? 1 then [0xF8; 0xFF; 0xFF; 0x0F; 0xFF; 0xFF; 0xFF; 0x0F; 0xF8; 0xFF; 0xFF; 0x0F] ++ replicate 500 0 else replicate 512 0.
Definition fat0 : fat32_t := mk_fat 0 1 1 1 10 10 1 2 2.
Definition vol0 (turns : list bool) : fatfs FatCache.cached := mk_fatfs (FatCache.mk_cached (FsSpec.fs_over card0) turns) fat0 0.

#[local] Existing Instance FsSpec.good_card.
Lemma good_calm n : Fs.sd_result n = Fs.SD_NO_ERROR /\ Fs.transfer_error n = Fs.SD_NO_ERROR.
Proof. done. Qed.
#[local] Instance good_cache : PageStoreSpec FatCache.cached := FatCache.cache_spec good_calm.

Lemma vol0_ready turns : ready (vol0 turns) (chars "DATA") (chars "TXT") 0 /\ free (vol0 turns) = [3; 4; 5; 6; 7; 8; 9].
Proof.
  assert (vol_ok (vol0 turns)) as V.
  { constructor.
    - constructor; unfold entries; cbn [vol0 fat fat0 start sect_per_fat data_start sect_per_clust max_clust]; try lia. intros p Hp. split; [lia|done].
    - split_and!; [|done|done]. apply FsSpec.fs_over_inv. intros q. unfold card0. by destruct (q =? 1).
    - cbn. unfold entries. cbn. lia.
    - split; intros H; vm_compute in H; discriminate. }
  split; [|vm_compute; reflexivity]. constructor; [constructor| |].
  - exact V.
  - split; [reflexivity|]. intros H. vm_compute in H. discriminate.
  - cbn. lia.
  - intros k Hk. lia.
  - intros k Hk. lia.
  - vm_compute. reflexivity.
Qed.

Lemma file_roundtrip_witness : exists x' x'',
  write_file 1 (chars "DATA.TXT") (replicate 512 0) empty_dir [replicate 600 7; [1; 2; 3]] (vol0 [true; true; false; true]) = Ok (inr tt, x') /\
  read_file 1 (chars "DATA.TXT") (replicate 512 0) [1; 0; 600; 2] x' = Ok (inr [[7]; []; replicate 599 7 ++ [1]; [2; 3]], x'').
Proof.
  destruct (vol0_ready [true; true; false; true]) as [R F].
  destruct (file_roundtrip (vol0 [true; true; false; true]) (chars "DATA") (chars "TXT") 0 0 (replicate 512 0) (replicate 512 0) empty_dir
    [replicate 600 7; [1; 2; 3]] [1; 0; 600; 2]) as (x' & x'' & E1 & E2 & _).
  - exact R.
  - constructor; [cbn; lia|repeat constructor; discriminate|discriminate|reflexivity|repeat constructor; discriminate].
  - reflexivity.
  - reflexivity.
  - repeat constructor.
  - reflexivity.
  - rewrite F. cbn. lia.
  - rewrite F. cbn. lia.
  - repeat constructor; lia.
  - cbn. lia.
  - exists x', x''. split; [exact E1|]. etransitivity; [exact E2|]. vm_compute. reflexivity.
Defined.
End FatSession.
