(* ===== verification/FatDelete.v ===== *)
(** * FAT32: deletion, and the end of a file

    Deleting a file frees its whole chain and nothing else. Reading does not stop at the
    end of a file of more than one sector, and names with a short extension are lost. *)

From stdpp Require Import base numbers list.
From Stdlib Require Strings.String Strings.Ascii.
From S2P Require Import Prelude Printf Fs FsSpec Fat32 FatFile FatSpec FatFileSpec FatDirSpec FatCache FatSession.

Module FatDelete.
Import Printf Fat32 FatFile FatSpec FatFileSpec FatDirSpec FatSession.
Import Strings.String.StringSyntax Strings.Ascii.AsciiSyntax.

(** A cluster is not taken for the end of a chain. *)
Lemma not_eoc c : 0 <= c < 0x0FFFFFF0 -> Z.land c FAT_EOC =? FAT_EOC = false.
Proof.
  intros Hc. apply Z.eqb_neq. intros E. apply (f_equal (λ z, Z.shiftr z 3)) in E. rewrite Z.shiftr_land in E.
  change (Z.shiftr FAT_EOC 3) with (Z.ones 25) in E. rewrite land_ones_mod, Z.shiftr_div_pow2 in E by lia. change (2 ^ 3) with 8 in E.
  change (Z.ones 25) with 33554431 in E. change (2 ^ 25) with 33554432 in E. pose proof (Z.mod_small (c / 8) 33554432). mlia.
Qed.

Section delete.
Context {S : Type} {ps : PageStore S} {spec : PageStoreSpec S}.
Implicit Types (x : fatfs S).

(** Only the entries of [cs] change: they become free. *)
Definition frees x x' (cs : list Z) : Prop :=
  vol_ok x' /\ fat x' = fat x /\ last_free_cluster x' = last_free_cluster x /\
  (forall c, c ∈ cs -> entry x' c = 0) /\ (forall d, cluster_ok (fat x) d -> d ∉ cs -> entry x' d = entry x d) /\
  forall d i, cluster_ok (fat x) d -> 0 <= i < sect_per_clust (fat x) -> page x' (data_page (fat x) d i) = page x (data_page (fat x) d i).

Lemma chain_tail x c cs : chain x (c :: cs) -> chain x cs /\ c ∉ cs /\ cluster_ok (fat x) c /\ entry x c = default FAT_EOC (head cs).
Proof.
  intros [C1 C2 C3]. inversion C1; inversion C2; subst. split_and!; try done; [|rewrite (C3 0%nat c eq_refl); by destruct cs].
  constructor; try done. intros i d Hd. exact (C3 (Datatypes.S i) d Hd).
Qed.

Lemma free_cluster_ok x c : vol_ok x -> cluster_ok (fat x) c -> exists x', fat32_free_cluster c x = Ok (inr tt, x') /\ frees x x' [c].
Proof.
  intros [G Hx Hl Hm] Hc. destruct (set_next_ok x c 0 G Hx Hc) as (x' & E & P); [destruct G; lia|lia|]. exists x'. split; [done|].
  pose proof (cluster_entry _ _ G Hc) as Hce. destruct (entry_patch x x' c 0 G Hx Hce ltac:(lia) P) as [Q1 Q2]. pose proof P as (K & _ & F & L).
  split_and!; try done.
  - constructor; rewrite ?F, ?L; try done. unfold cluster_ok in Hc. destruct G. by rewrite !Q2 by lia.
  - by intros d ->%list_elem_of_singleton.
  - intros d Hd Hn. apply Q2; [by apply cluster_entry|]. intros ->. by apply Hn, list_elem_of_singleton.
  - intros d i Hd Hi. by eapply table_data.
Qed.

Lemma frees_app x y z cs ds : fat y = fat x -> Forall (cluster_ok (fat x)) cs -> (forall c, c ∈ cs -> c ∉ ds) -> frees x y cs -> frees y z ds -> frees x z (cs ++ ds).
Proof.
  intros F Hcs Hn (V1 & F1 & L1 & A1 & B1 & P1) (V2 & F2 & L2 & A2 & B2 & P2). rewrite F in *. rewrite Forall_forall in Hcs. split_and!; try done; try congruence.
  - intros c. rewrite elem_of_app. intros [Hc|Hc]; [|by apply A2]. rewrite B2; [by apply A1|by apply Hcs|by apply Hn].
  - intros d Hd Hnd. rewrite elem_of_app in Hnd. rewrite B2, B1; tauto.
  - intros d i Hd Hi. by rewrite P2, P1.
Qed.

Lemma reads_frees x y z cs : vol_ok x -> reads x y -> frees y z cs -> frees x z cs.
Proof.
  intros V R (V2 & F2 & L2 & A2 & B2 & P2). pose proof (reads_table _ _ V R) as (_ & F & L & E). pose proof R as (_ & P & _). rewrite F, ?L in *.
  pose proof (vol_geo _ V) as G. split_and!; try done; try congruence.
  - intros d Hd Hn. rewrite B2, E; [done|by apply cluster_entry|done|done].
  - intros d i Hd Hi. rewrite P2, P; [done|by apply data_page_range|done|done].
Qed.

(** The whole chain is freed. *)
Lemma free_chain_ok k : forall x c cs, vol_ok x -> chain x (c :: cs) -> (length cs < k)%nat ->
  exists x', free_chain k c x = Ok (inr tt, x') /\ frees x x' (c :: cs).
Proof.
  induction k as [|k IH]; intros x c cs V C Hk; [lia|]. pose proof V as [G Hx _ _]. destruct (chain_tail _ _ _ C) as (C' & Hn & Hc & He).
  destruct (get_next_ok x c G Hx Hc) as (x1 & E1 & R1). pose proof (same_vol _ _ V (reads_table _ _ V R1)) as V1. pose proof R1 as (_ & _ & F1 & _).
  destruct (free_cluster_ok x1 c V1 ltac:(by rewrite F1)) as (x2 & E2 & Fr2). cbn [free_chain]. mstep E1. unfold rbind. mstep E2. rewrite He.
  pose proof (reads_frees _ _ _ _ V R1 Fr2) as Fr. destruct Fr as (V2 & F2 & L2 & A2 & B2 & P2). destruct cs as [|d cs]; cbn [head from_option id].
  - rewrite Z.land_diag, Z.eqb_refl. by exists x2.
  - pose proof (proj1 (Forall_cons _ _ _) (chain_ok _ _ C')) as [Hd _]. rewrite not_eoc by (unfold cluster_ok in Hd; destruct G; lia).
    destruct (IH x2 d cs V2) as (x3 & E3 & Fr3); [|cbn in Hk; lia|].
    { destruct C' as [D1 D2 D3]. constructor; rewrite ?F2; try done. intros i b Hb. rewrite B2; [by apply D3|by eapply Forall_lookup_1|].
      rewrite list_elem_of_singleton. intros ->. by apply Hn, (list_elem_of_lookup_2 _ i). }
    exists x3. split; [exact E3|]. apply (frees_app x x2 x3 [c] (d :: cs) F2); [by constructor| |by split_and!|done]. by intros b ->%list_elem_of_singleton.
Qed.
(** The name is that of entry [m], whose first cluster is [c]. *)
Record named x (base ex : list Z) (m c : Z) : Prop := {
  na_dir : dir_ok x (padded base) ex m;
  na_name : part (slot x m) 0 8 = padded base /\ part (slot x m) 8 3 = ex;
  na_used : hd 0 (slot x m) <> 0 /\ Z.land (hd 0 (part (slot x m) 11 1)) 0x0F <> 0x0F;
  na_start : start_cluster (dir_of (slot x m)) = c;
}.

Lemma open_named x base ex m c n : named x base ex m c -> name_83 base ex ->
  exists x', fat32_open (Datatypes.S n) (base ++ ch "." :: ex) x = Ok (inr (slot_sector x m, slot_index m, dir_of (slot x m)), x') /\ reads x x'.
Proof.
  intros [D [W1 W2] [W3 W4] _] Hn. destruct (split_83 base ex Hn) as [Hs N]. apply (open_ok x _ ex m n _ _ D N Hs).
  unfold find_result. rewrite decide_False by done. by rewrite decide_True.
Qed.

(** C18: Deleting a file marks its entry in the directory, frees every cluster of its
    chain, and changes nothing else: no other entry of the table and no other byte of
    the data. The loop ends with the chain. *)
Theorem delete_spec x base ex m c cs n k :
  named x base ex m c -> name_83 base ex -> chain x (c :: cs) -> 2 ∉ c :: cs -> (length cs < k)%nat ->
  exists x', fat32_delete (Datatypes.S n) k (base ++ ch "." :: ex) x = Ok (inr tt, x') /\ vol_ok x' /\
    hd 0 (slot x' m) = 0xE5 /\ (forall d, d ∈ c :: cs -> entry x' d = 0) /\ (forall d, cluster_ok (fat x) d -> d ∉ c :: cs -> entry x' d = entry x d) /\
    forall d i off l, cluster_ok (fat x) d -> 0 <= i < sect_per_clust (fat x) -> 0 <= off -> 0 <= l -> off + l <= 512 ->
      data_page (fat x) d i <> slot_sector x m \/ off + l <= slot_index m \/ slot_index m < off ->
      part (page x' (data_page (fat x) d i)) off l = part (page x (data_page (fat x) d i)) off l.
Proof.
  intros Na Hn C H2 Hk. destruct (open_named x base ex m c n Na Hn) as (x1 & E1 & R1). destruct Na as [D _ _ Hst]. pose proof D as [V [Hr He2] Hm _].
  pose proof V as [G Hx _ _]. destruct (slot_place x _ ex m m D ltac:(lia)) as (Em & Hsm & Hc2 & Hv & Him). destruct (data_page_range _ _ _ G Hc2 Hsm) as (_ & Hv0 & _).
  rewrite Em in Hv0. fold (slot_sector x m) in *. fold (slot_index m) in *. pose proof (reads_table _ _ V R1) as T1. pose proof (same_vol _ _ V T1) as V1.
  pose proof R1 as (K1 & P1 & F1 & L1). destruct (write_bytes_ok x1 (slot_sector x m) (slot_index m) [0xE5] K1 Hv Hv0) as (x2 & E2 & Pa); cbn; try lia.
  assert (same_table x1 x2) as T2. { apply (data_same_table x1 x2 2 (m / 16) (slot_index m) [0xE5]); rewrite ?F1; try done. by rewrite Em. }
  pose proof (same_vol _ _ V1 T2) as V2. destruct (free_chain_ok k x2 c cs V2) as (x3 & E3 & V3 & F3 & L3 & A3 & B3 & P3); [|done|].
  { eapply same_chain; [exact V1|done|]. by eapply same_chain; [exact V|..]. }
  pose proof T1 as (_ & _ & _ & En1). pose proof T2 as (_ & F2 & _ & En2). rewrite F1 in *. rewrite F2 in *. pose proof Pa as (_ & P2 & _).
  exists x3. split; [|split_and!; [done| |done| |]].
  - unfold fat32_delete, rbind. mstep E1. mstep E2. by rewrite Hst.
  - unfold slot. rewrite F3, Em. fold (slot_sector x m). fold (slot_index m). rewrite <- Em at 1. rewrite P3 by done. rewrite Em. fold (slot_sector x m). rewrite P2 by done. rewrite decide_True by done.
    unfold part, patch. rewrite drop_app_length'; [done|]. rewrite length_take. unfold page. rewrite pview_length by done. lia.
  - intros d Hd Hnd. rewrite B3, En2, En1; try done; by apply cluster_entry.
  - intros d i off l Hd Hi Ho Hl Hl2 Ha. rewrite P3 by done. destruct (data_page_range _ _ _ G Hd Hi) as (Hvd & _). rewrite P2 by done. case_decide as Dq; [|by rewrite P1].
    rewrite <- Dq. rewrite <- Dq in Ha. rewrite part_patch_other; try done; cbn; try lia; [by rewrite P1|by apply pview_length].
Qed.

(** Reading goes past the end of a file of more than one sector. The end is looked
    for with the index in the buffer instead of the position in the file, so that a
    read within a sector always gives the number of bytes asked for, also when the file
    ends before; the caller cannot see the end. *)
Theorem read_past_end x f cs data k n :
  read_inv x f cs data k -> 512 <= Z.of_nat (length data) -> 0 <= n -> buffer_index f + n <= 512 -> 512 * k < Z.of_nat (length data) ->
  exists x' f' bs, file_read 1 f n x = Ok ((FAT32_OK, bs, n, f'), x') /\ Z.of_nat (length bs) = n.
Proof.
  intros I Hd Hn Hb Hk. pose proof I as [O [Hk0 Hkl] Hc Hsi Hsec Hbi [Hp Hpb] Hsz]. cbn [file_read]. rewrite (u16_id (512 - _)) by lia.
  assert ((if 512 - buffer_index f >? n then n else 512 - buffer_index f) = n) as -> by (destruct (Z.gtb_spec (512 - buffer_index f) n); lia).
  assert (buffer_index f + n >? size (dir f) = false) as -> by lia.
  destruct (fill_ok x f cs data k n I Hn) as (x1 & b & E1 & R1 & Hbl & _). mstep E1. unfold arr_slice. rewrite decide_True by lia. mrun.
  rewrite (proj2 (Z.ltb_ge n n)) by lia. eexists _, _, _. split; [reflexivity|]. rewrite length_take, length_drop. lia.
Qed.
End delete.

(** ** A volume with a file of 600 bytes *)

Definition data1 : list Z := replicate 512 7 ++ replicate 88 8.
Definition card1 (q : Z) : list Z :=
  if q =? 1 then [0xF8; 0xFF; 0xFF; 0x0F; 0xFF; 0xFF; 0xFF; 0x0F; 0xF8; 0xFF; 0xFF; 0x0F; 4; 0; 0; 0; 0xF8; 0xFF; 0xFF; 0x0F] ++ replicate 492 0
  else if q =? 2 then take 28 (new_entry (padded (chars "DATA") ++ [0]) (chars "TXT" ++ [0]) 3) ++ write32 600 ++ replicate 480 0
  else if q =? 3 then replicate 512 7 else if q =? 4 then replicate 88 8 ++ replicate 424 9 else replicate 512 0.
Definition vol1 : fatfs FatCache.cached := mk_fatfs (FatCache.mk_cached (FsSpec.fs_over card1) []) fat0 3.

#[local] Existing Instance FsSpec.good_card.
#[local] Existing Instance good_cache.

Lemma vol1_ok : vol_ok vol1 /\ chain vol1 [3; 4].
Proof.
  split; constructor.
  - constructor; unfold entries; cbn [vol1 fat fat0 start sect_per_fat data_start sect_per_clust max_clust]; try lia. intros p Hp. split; [lia|done].
  - split_and!; [|done|done]. apply FsSpec.fs_over_inv. intros q. unfold card1. repeat (destruct (_ =? _); [reflexivity|]). reflexivity.
  - cbn. unfold entries. cbn. lia.
  - split; intros H; vm_compute in H; discriminate.
  - repeat constructor; cbn; lia.
  - apply (bool_decide_unpack _). vm_compute. exact I.
  - intros [|[|i]] c [= <-]; vm_compute; reflexivity.
Qed.

Lemma vol1_named : named vol1 (chars "DATA") (chars "TXT") 0 3.
Proof.
  constructor; [constructor|..].
  - apply vol1_ok.
  - split; [reflexivity|]. intros H. vm_compute in H. discriminate.
  - cbn. lia.
  - intros k Hk. lia.
  - split; vm_compute; reflexivity.
  - split; intros H; vm_compute in H; discriminate.
  - vm_compute. reflexivity.
Qed.

Lemma delete_spec_witness : exists x', fat32_delete 1 2 (chars "DATA.TXT") vol1 = Ok (inr tt, x') /\ entry x' 3 = 0 /\ entry x' 4 = 0 /\ hd 0 (slot x' 0) = 0xE5.
Proof.
  destruct (delete_spec vol1 (chars "DATA") (chars "TXT") 0 3 [4] 0 2) as (x' & E & _ & H1 & H2 & _).
  - exact vol1_named.
  - constructor; [cbn; lia|repeat constructor; discriminate|discriminate|reflexivity|repeat constructor; discriminate].
  - apply vol1_ok.
  - apply (bool_decide_unpack _). vm_compute. exact I.
  - cbn. lia.
  - exists x'. split; [exact E|]. split; [apply H2; left|]. split; [apply H2; right; left|]. exact H1.
Defined.

(** The file at its end: 600 bytes read. *)
Definition file1 : file := mk_file 4 4 0 (card1 4) 88 2 0 (dir_of (slot vol1 0)).

Lemma file1_inv : read_inv vol1 file1 [3; 4] data1 1.
Proof.
  constructor.
  - constructor; [apply vol1_ok|apply vol1_ok|vm_compute; discriminate|]. intros i Hi Hl. change (Z.of_nat (length data1)) with 600 in *.
    assert (i = 0 \/ i = 1) as [->| ->] by lia; vm_compute; reflexivity.
  - split; [lia|]. vm_compute. reflexivity.
  - reflexivity.
  - reflexivity.
  - reflexivity.
  - cbn. lia.
  - split; [reflexivity|]. intros _. vm_compute. reflexivity.
  - vm_compute. reflexivity.
Qed.

Lemma read_past_end_witness : exists x' f' bs, file_read 1 file1 100 vol1 = Ok ((FAT32_OK, bs, 100, f'), x') /\ bs = replicate 100 9 /\ length data1 = 600%nat.
Proof.
  destruct (read_past_end vol1 file1 [3; 4] data1 1 100) as (x' & f' & bs & E & _).
  - exact file1_inv.
  - vm_compute. discriminate.
  - lia.
  - cbn. lia.
  - vm_compute. reflexivity.
  - exists x', f', bs. split; [exact E|]. split; [|reflexivity]. vm_compute in E. injection E as <- _ _. reflexivity.
Defined.

(** ** Short extensions *)

Definition outcome {A} (r : res (A * fatfs FatCache.cached)) : res A := match r with Ok (a, _) => Ok a | Err e => Err e end.

(** A file whose extension has one character is created, and then not found; it can be
    created again. *)
Lemma short_extension_lost :
  outcome ((r ← write_file 1 (chars "A.C") (replicate 512 0) empty_dir [[1; 2; 3]]; b ← fat32_file_exists 1 (chars "A.C");
            r' ← write_file 1 (chars "A.C") (replicate 512 0) empty_dir [[4]]; mret (r, b, r')) (vol0 [])) = Ok (inr tt, false, inr tt).
Proof. vm_compute. reflexivity. Qed.

(** An empty file of a PC has no first cluster: deleting it writes entry 0 of the table,
    then reports an error. *)
Lemma delete_empty_file :
  let x := mk_fatfs (FatCache.mk_cached (FsSpec.fs_over (λ q, if q =? 2 then patch (card1 2) 26 [0; 0; 0; 0; 0; 0] else card1 q)) []) fat0 3 in
  outcome ((r ← fat32_delete 1 4 (chars "DATA.TXT"); e ← read_bytes 1 0 4; mret (r, e)) x) = Ok (inl FAT32_WRONG_CLUSTER, inr [0; 0; 0; 0]).
Proof. vm_compute. reflexivity. Qed.

(** The table has entries past the last cluster, which is 9 here: the search goes on
    through them, and gives one of them when no cluster is left from the hint on. *)
Lemma cluster_out_of_volume :
  outcome (fat32_find_empty_cluster (mk_fatfs (FatCache.mk_cached (FsSpec.fs_over card1) []) fat0 10)) = Ok 10 /\ max_clust fat0 = 10.
Proof. split; vm_compute; reflexivity. Qed.
End FatDelete.
