(* ===== verification/FatDate.v ===== *)
(** * FAT32: dates of files

    [file_update] turns a POSIX time into the date of a directory entry. The reference
    is the Gregorian calendar, counted day by day. *)

From stdpp Require Import base numbers list.
From S2P Require Import Prelude Printf Fs FsSpec Fat32 FatFile FatSpec FatFileSpec FatDirSpec FatCache FatSession FatDelete.

Module FatDate.
Import Fat32 FatFile FatSpec FatFileSpec FatDirSpec FatSession FatDelete.

(** ** The Gregorian calendar *)

Definition leap_year (y : Z) : bool := (y mod 4 =? 0) && (negb (y mod 100 =? 0) || (y mod 400 =? 0)).
Definition month_length (y m : Z) : Z :=
  if m =? 2 then if leap_year y then 29 else 28 else if (m =? 4) || (m =? 6) || (m =? 9) || (m =? 11) then 30 else 31.

(** Days of the months [1 .. k] of year [y], and of the [n] years after 1970. *)
Fixpoint month_days (y : Z) (k : nat) : Z := match k with O => 0 | S k => month_days y k + month_length y (Z.of_nat k + 1) end.
Fixpoint year_days (n : nat) : Z := match n with O => 0 | S n => year_days n + month_days (1970 + Z.of_nat n) 12 end.

(** The POSIX time of a date, whose year is counted from 1980. *)
Definition posix (d : date) : Z :=
  let y := 1980 + dt_year d in
  (year_days (Z.to_nat (y - 1970)) + month_days y (Z.to_nat (dt_month d - 1)) + (dt_day d - 1)) * 86400 +
  dt_hour d * 3600 + dt_minutes d * 60 + dt_seconds d.

Definition valid_date (d : date) : Prop :=
  1 <= dt_month d <= 12 /\ 1 <= dt_day d <= month_length (1980 + dt_year d) (dt_month d) /\
  0 <= dt_hour d < 24 /\ 0 <= dt_minutes d < 60 /\ 0 <= dt_seconds d < 60.

(** ** The years *)

(** Days from 1970 to year [y] when every fourth year is a leap year. *)
Definition days_to (y : Z) : Z := 365 * (y - 1970) + (y - 1969) / 4.

Lemma leap_mod y : leap y = if y mod 4 =? 0 then 1 else 0.
Proof.
  unfold leap, ctrue. change 3 with (Z.ones 2). rewrite land_ones_mod by lia. change (2 ^ 2) with 4. by destruct (y mod 4 =? 0).
Qed.

Lemma days_to_4 y : days_to (y + 4) = days_to y + 1461.
Proof. unfold days_to. replace (y + 4 - 1969) with (y - 1969 + 1 * 4) by lia. rewrite Z.div_add by lia. lia. Qed.
Lemma days_to_1 y : days_to (y + 1) = days_to y + 365 + leap y.
Proof. rewrite leap_mod. unfold days_to. destruct (Z.eqb_spec (y mod 4) 0); mlia. Qed.

Lemma four_years_ok fuel : forall y t, 0 <= t -> t < Z.of_nat fuel * FOUR_YEARS ->
  exists y' t', four_years_loop fuel y t = Ok (y', t') /\ 0 <= t' <= FOUR_YEARS /\ y <= y' /\ days_to y' * DAY + t' = days_to y * DAY + t.
Proof.
  induction fuel as [|fuel IH]; intros y t Ht Hf; cbn [four_years_loop]; [unfold FOUR_YEARS, DAY in Hf; lia|].
  destruct (Z.gtb_spec t FOUR_YEARS) as [H|H].
  - destruct (IH (y + 4) (t - FOUR_YEARS)) as (y' & t' & E & H1 & H2 & H3); [lia|unfold FOUR_YEARS, DAY in *; lia|]. exists y', t'. split_and!; try done; try lia.
    rewrite H3, days_to_4. unfold FOUR_YEARS, DAY. lia.
  - by exists y, t.
Qed.

Lemma years_ok fuel : forall y t, 0 <= t -> t < Z.of_nat fuel * (365 * DAY) ->
  exists y' t', years_loop fuel y t = Ok (y', t') /\ 0 <= t' < (365 + leap y') * DAY /\ y <= y' /\ days_to y' * DAY + t' = days_to y * DAY + t.
Proof.
  induction fuel as [|fuel IH]; intros y t Ht Hf; cbn [years_loop]; [unfold DAY in Hf; lia|].
  assert (0 <= leap y <= 1) as Hl by (rewrite leap_mod; destruct (_ =? 0); lia). destruct (Z.geb_spec t ((365 + leap y) * DAY)) as [H|H].
  - destruct (IH (y + 1) (t - (365 + leap y) * DAY)) as (y' & t' & E & H1 & H2 & H3); [lia|unfold DAY in *; lia|]. exists y', t'. split_and!; try done; try lia.
    rewrite H3, days_to_1. lia.
  - exists y, t. split_and!; done || lia.
Qed.

(** Up to 2100 the Gregorian rule is that of the code. *)
Lemma leap_year_ok y : 1970 <= y < 2100 -> leap y = if leap_year y then 1 else 0.
Proof.
  intros Hy. rewrite leap_mod. unfold leap_year. destruct (Z.eqb_spec (y mod 4) 0) as [H4|H4]; [|done]. cbn [andb].
  destruct (Z.eqb_spec (y mod 100) 0) as [H|H]; [|done]. assert (y = 2000) as -> by mlia. done.
Qed.

(** The lengths of the months, as the code has them. *)
Definition lengths (y : Z) : list Z := [31; 28 + leap y; 31; 30; 31; 30; 31; 31; 30; 31; 30].

Lemma month_lengths y i : 1970 <= y < 2100 -> (i < 11)%nat -> lengths y !! i = Some (month_length y (Z.of_nat i + 1)).
Proof.
  intros Hy Hi. unfold lengths. rewrite leap_year_ok by done. unfold month_length. do 11 (destruct i as [|i]; [cbn; by destruct (leap_year y)|]). lia.
Qed.
Lemma year_length y : 1970 <= y < 2100 -> month_days y 12 = 365 + leap y.
Proof. intros Hy. rewrite leap_year_ok by done. unfold month_days, month_length. cbn. by destruct (leap_year y). Qed.

Lemma year_days_to n : (n <= 130)%nat -> year_days n = days_to (1970 + Z.of_nat n).
Proof.
  induction n as [|n IH]; intros Hn; [reflexivity|]. cbn [year_days]. rewrite IH, year_length by lia.
  replace (1970 + Z.of_nat (S n)) with (1970 + Z.of_nat n + 1) by lia. rewrite days_to_1. lia.
Qed.

(** ** The months *)

(** From month [k + 1] on, with the lengths of the following months. *)
Lemma months_ok y ls : forall k t, 1970 <= y < 2100 -> ls = drop k (lengths y) -> (k <= 11)%nat -> 0 <= t < (month_days y 12 - month_days y k) * DAY ->
  exists j t', months ls (Z.of_nat k + 1) t = (Z.of_nat j + 1, t') /\ (j <= 11)%nat /\ 0 <= t' < month_length y (Z.of_nat j + 1) * DAY /\
    month_days y j * DAY + t' = month_days y k * DAY + t.
Proof.
  induction ls as [|l ls IH]; intros k t Hy Hls Hk Ht; cbn [months].
  - assert (k = 11%nat) as ->. { apply (f_equal length) in Hls. rewrite length_drop in Hls. cbn in Hls. lia. }
    exists 11%nat, t. split_and!; try done; try lia. change (month_days y 12) with (month_days y 11 + month_length y (Z.of_nat 11 + 1)) in Ht. lia.
  - assert (k < 11)%nat as Hk2. { apply (f_equal length) in Hls. rewrite length_drop in Hls. cbn in Hls. lia. }
    assert (lengths y !! k = Some l) as Hl by (rewrite <- (Nat.add_0_r k), <- lookup_drop, <- Hls; done).
    rewrite month_lengths in Hl by done. injection Hl as Hl. destruct (Z.ltb_spec (t - l * DAY) 0) as [H|H].
    + exists k, t. split_and!; try done; try lia.
    + assert (month_days y (S k) = month_days y k + l) as Hm by (cbn [month_days]; lia).
      destruct (IH (S k) (t - l * DAY)) as (j & t' & E & H1 & H2 & H3); try done; try lia.
      * rewrite <- Nat.add_1_r, <- drop_drop, <- Hls. done.
      * exists j, t'. split_and!; try done; try lia. rewrite <- E. f_equal. lia.
Qed.
(** ** The date *)

(** 1 January 1980 and 1 January 2100. *)
Definition FIRST : Z := 315532800.
Definition LAST : Z := 4102444800.

Lemma days_to_le y z : y <= z -> days_to y <= days_to z.
Proof. intros H. unfold days_to. assert ((y - 1969) / 4 <= (z - 1969) / 4) by (apply Z.div_le_mono; lia). lia. Qed.

(** The year that holds the time. *)
Lemma year_range y t : 0 <= t -> t < (365 + leap y) * DAY -> FIRST <= days_to y * DAY + t < LAST -> 1980 <= y < 2100.
Proof.
  intros Ht Hl [H1 H2]. unfold FIRST, LAST in *.
  assert (days_to (y + 1) = days_to y + 365 + leap y) as Hs by apply days_to_1. split; apply Z.nlt_ge || apply Z.nle_gt; intros Hy.
  - pose proof (days_to_le (y + 1) 1980 ltac:(lia)). change (days_to 1980) with 3652 in *. unfold DAY in *. lia.
  - pose proof (days_to_le 2100 y Hy). change (days_to 2100) with 47482 in *. unfold DAY in *. lia.
Qed.

Lemma date_of_ok t : FIRST <= t < LAST -> exists d, date_of t = Ok d /\ valid_date d /\ posix d = t /\ 0 <= dt_year d < 120.
Proof.
  intros Ht. unfold date_of. destruct (four_years_ok DATE_FUEL 1970 t) as (y1 & t1 & E1 & H1 & Hy1 & S1); [unfold FIRST in Ht; lia|unfold LAST, DATE_FUEL, FOUR_YEARS, DAY in *; lia|].
  rewrite E1. change (mbind ?k (Ok ?r)) with (k r). cbv beta. cbn [fst snd].
  destruct (years_ok DATE_FUEL y1 t1) as (y & t2 & E2 & H2 & Hy2 & S2); [lia|unfold DATE_FUEL, FOUR_YEARS, DAY in *; lia|]. rewrite E2. change (mbind ?k (Ok ?r)) with (k r). cbv beta iota.
  change (days_to 1970 * DAY) with 0 in S1. rewrite S1 in S2. rewrite Z.add_0_l in S2. destruct (year_range y t2) as [Ya Yb]; [lia|lia|by rewrite S2|].
  fold (lengths y). destruct (months_ok y (lengths y) 0 t2) as (j & t3 & E3 & Hj & H3 & S3); try done; try lia; [change (month_days y 0) with 0; rewrite year_length by lia; lia|].
  change (Z.of_nat 0 + 1) with 1 in E3. rewrite E3. change (month_days y 0) with 0 in S3. rewrite Z.mul_0_l, Z.add_0_l in S3.
  assert (28 <= month_length y (Z.of_nat j + 1) <= 31) as Hml by (unfold month_length; repeat case_match; lia).
  assert (0 <= t3 / DAY < month_length y (Z.of_nat j + 1)) as Hd by (unfold DAY in *; split; [apply Z.div_pos; lia|apply Z.div_lt_upper_bound; lia]).
  rewrite (u8_id (y - 1980)), (u8_id (1 + t3 / DAY)) by lia. eexists. split; [reflexivity|]. unfold valid_date, posix. cbn [dt_year dt_month dt_day dt_hour dt_minutes dt_seconds].
  replace (1980 + (y - 1980)) with y by lia. replace (Z.to_nat (Z.of_nat j + 1 - 1)) with j by lia. split_and!; try lia; try (unfold DAY; mlia).
  rewrite year_days_to by lia. replace (1970 + Z.of_nat (Z.to_nat (y - 1970))) with y by lia. rewrite <- S2, <- S3. unfold DAY. mlia.
Qed.

(** A field in the low bits, another above. *)
Lemma lor_fields lo hi n : 0 <= n -> 0 <= lo < 2 ^ n -> Z.lor lo (Z.shiftl hi n) = hi * 2 ^ n + lo.
Proof. intros Hn Hlo. rewrite Z.shiftl_mul_pow2 by done. rewrite Z.lor_comm. by apply lor_disjoint_add. Qed.

(** The bytes of the date, read as [fat32_read_dir_entry] reads them, give it back, with
    even seconds; the byte of the tenths of seconds is zero. *)
Lemma date_bytes_ok d e : valid_date d -> 0 <= dt_year d < 128 ->
  let r := set_d_date (0 :: date_bytes d) e in
  mk_date (year r) (month r) (day r) (hour r) (minutes r) (seconds r) =
  mk_date (dt_year d) (dt_month d) (dt_day d) (dt_hour d) (dt_minutes d) (dt_seconds d / 2 * 2).
Proof.
  destruct d as [y mo da h mi se]. intros (Hmo & Hda & Hh & Hmi & Hse) Hy. cbn [dt_year dt_month dt_day dt_hour dt_minutes dt_seconds] in *.
  assert (month_length (1980 + y) mo <= 31) as Hml by (unfold month_length; repeat case_match; lia).
  unfold set_d_date, date_bytes. cbn [nth year month day hour minutes seconds dt_year dt_month dt_day dt_hour dt_minutes dt_seconds].
  rewrite !Z.shiftr_div_pow2 by lia. change (2 ^ 1) with 2. change (2 ^ 3) with 8. change (2 ^ 5) with 32.
  rewrite (lor_fields (se / 2) mi 5) by (cbn; mlia). rewrite (lor_fields (mi / 8) h 3) by (cbn; mlia).
  rewrite (lor_fields da mo 5) by (cbn; lia). rewrite (lor_fields (mo / 8) y 1) by (cbn; mlia).
  change (2 ^ 1) with 2. change (2 ^ 3) with 8. change (2 ^ 5) with 32.
  change 0x1F with (Z.ones 5). change 0x7 with (Z.ones 3). change 0x1 with (Z.ones 1) at 1. rewrite !land_ones_mod by lia. change (2 ^ 1) with 2. change (2 ^ 3) with 8. change (2 ^ 5) with 32.
  rewrite (lor_fields (u8 (mo * 32 + da) / 32)) by (cbn; mlia). rewrite (lor_fields (u8 (mi * 32 + se / 2) / 32)) by (cbn; mlia). change (2 ^ 3) with 8. f_equal; mlia.
Qed.

Section update.
Context {S : Type} {ps : PageStore S} {spec : PageStoreSpec S}.

(** C17: [file_update] writes the date of a POSIX time. From 1980 to 2099 the fields of
    the file are the Gregorian date and the time of day of that time; the loops end
    within their fuel; and the four bytes written in the directory entry, decoded,
    give that date with the seconds rounded down to even ones. *)
Theorem file_update_spec x f t c i :
  geo_ok (fat x) -> fok x -> cluster_ok (fat x) c -> 0 <= i < sect_per_clust (fat x) -> descriptor_sector f = data_page (fat x) c i ->
  0 <= descriptor_index f <= 480 -> FIRST <= t < LAST ->
  exists x' f' d, file_update f t x = Ok ((FAT32_OK, f'), x') /\ valid_date d /\ posix d = t /\
    mk_date (year (dir f')) (month (dir f')) (day (dir f')) (hour (dir f')) (minutes (dir f')) (seconds (dir f')) = d /\
    (let r := set_d_date (0 :: part (page x' (descriptor_sector f)) (descriptor_index f + 0x16) 4) empty_dir in
     mk_date (year r) (month r) (day r) (hour r) (minutes r) (seconds r) =
     mk_date (dt_year d) (dt_month d) (dt_day d) (dt_hour d) (dt_minutes d) (dt_seconds d / 2 * 2)).
Proof.
  intros G Hx Hc Hi Hs Hdi Ht. destruct (date_of_ok t Ht) as (d & E & V & P & Hy). destruct (data_page_range _ _ _ G Hc Hi) as (Hv & Hv0 & _). rewrite <- Hs in Hv, Hv0.
  unfold file_update. rewrite E. mrun. set (f' := mk_file _ _ _ _ _ _ _ _).
  destruct (write_bytes_ok x (descriptor_sector f) (descriptor_index f + 0x16) (date_bytes d) Hx Hv Hv0) as (x' & E1 & K & Pg & _); cbn [date_bytes length]; try lia.
  exists x', f', d. change (descriptor_sector f') with (descriptor_sector f). change (descriptor_index f') with (descriptor_index f). mstep E1.
  split_and!; try done; [by destruct d|].
  rewrite Pg by done. rewrite decide_True by done. change 4 with (Z.of_nat (length (date_bytes d))). rewrite part_patch_same; [|by apply pview_length|lia|cbn; lia].
  apply date_bytes_ok; [done|lia].
Qed.
End update.

#[local] Existing Instance FsSpec.good_card.
#[local] Existing Instance good_cache.

(** 9 September 2001, 1:46:40. *)
Lemma file_update_spec_witness : exists x' f', file_update file1 1000000000 vol1 = Ok ((FAT32_OK, f'), x') /\
  (year (dir f'), month (dir f'), day (dir f'), hour (dir f'), minutes (dir f'), seconds (dir f')) = (21, 9, 9, 1, 46, 40) /\ posix (mk_date 21 9 9 1 46 40) = 1000000000.
Proof.
  destruct (file_update_spec vol1 file1 1000000000 2 0) as (x' & f' & d & E & V & P & Hd & _).
  - apply vol1_ok.
  - apply vol1_ok.
  - split; cbn; lia.
  - cbn. lia.
  - reflexivity.
  - cbn. lia.
  - unfold FIRST, LAST. lia.
  - exists x', f'. split; [exact E|]. split; [vm_compute in E; injection E as <- _; reflexivity|vm_compute; reflexivity].
Defined.

(** After 28 February 2100 the code counts a day too many: it gives 29 February, which
    does not exist, for 1 March. *)
Lemma leap_2100 : date_of 4107542400 = Ok (mk_date 120 2 29 0 0 0) /\ posix (mk_date 120 3 1 0 0 0) = 4107542400.
Proof. split; vm_compute; reflexivity. Qed.
End FatDate.
