(* ===== verification/Scsi.v ===== *)
(** * SCSI commands of the mass storage class ([lib/usb/scsi.c], [scsi.h])

    A command reads its block of 16 bytes and answers in a buffer. What the pointers of
    [scsi_params_t] point to is the state: the block, which a command may change for the
    next call, the buffer, the length of the answer and the status. The last two are
    variables of the caller that it does not initialise: a command that does not write
    them leaves what they held. *)

From stdpp Require Import base numbers list.
From S2P Require Import Prelude Packer.

Module Scsi.

(** ** Constants *)

Definition SCSI_GOOD : Z := 0x00.
Definition SCSI_CHECK_CONDITION : Z := 0x02.

Inductive scsi_cmdret := SCSI_CMD_DONE | SCSI_CMD_PARTIAL | SCSI_CMD_ERROR.
#[global] Instance scsi_cmdret_eq_dec : EqDecision scsi_cmdret.
Proof. solve_decision. Defined.

Definition SCSI_TEST_UNIT_READY : Z := 0x00.
Definition SCSI_REQUEST_SENSE : Z := 0x03.
Definition SCSI_INQUIRY : Z := 0x12.
Definition SCSI_MODE_SELECT6 : Z := 0x15.
Definition SCSI_MODE_SENSE6 : Z := 0x1a.
Definition SCSI_START_STOP : Z := 0x1b.
Definition SCSI_PREVENT_ALLOW_MEDIUM_REMOVAL : Z := 0x1e.
Definition SCSI_READ_FORMAT_CAPACITIES : Z := 0x23.
Definition SCSI_READ_CAPACITY10 : Z := 0x25.
Definition SCSI_READ10 : Z := 0x28.
Definition SCSI_WRITE10 : Z := 0x2a.

Definition BLOCKSIZE : Z := 512.
Definition SCSI_SENSE_REPLY_FIXED_SIZE : Z := 17.
Definition SCSI_SENSE_REPLY_SIZE : Z := 8.
Definition SCSI_SENSE_CACHING_REPLY_SIZE : Z := 19.
Definition SCSI_SENSE_INFOEXC_REPLY_SIZE : Z := 12.

(** ** Byte order *)

Definition swab16 (x : Z) : Z :=
  u16 (Z.lor (Z.shiftl (Z.land (u16 x) 0x00ff) 8) (Z.shiftr (Z.land (u16 x) 0xff00) 8)).
Definition swab32 (x : Z) : Z :=
  u32 (Z.lor (Z.lor (Z.lor
    (Z.shiftl (Z.land (u32 x) 0x000000ff) 24)
    (Z.shiftl (Z.land (u32 x) 0x0000ff00) 8))
    (Z.shiftr (Z.land (u32 x) 0x00ff0000) 8))
    (Z.shiftr (Z.land (u32 x) 0xff000000) 24)).
Definition msbtohost16 (s : Z) : Z := swab16 s.
Definition msbtohost32 (l : Z) : Z := swab32 l.

(** ** State *)

Section scsi.
(** [D] is the state of the units. *)
Context {D : Type}.

Record sc := mk_sc { cmd : list Z; data : list Z; datalen : Z; status : Z; dev : D }.
Definition set_cmd x s := mk_sc x (data s) (datalen s) (status s) (dev s).
Definition set_data x s := mk_sc (cmd s) x (datalen s) (status s) (dev s).
Definition set_datalen x s := mk_sc (cmd s) (data s) x (status s) (dev s).
Definition set_status x s := mk_sc (cmd s) (data s) (datalen s) x (dev s).
Definition set_dev x s := mk_sc (cmd s) (data s) (datalen s) (status s) x.
#[export] Instance dev_lens : Lens sc D.
Proof. refine {| view := dev; over := set_dev |}; [done|by intros []|done]. Defined.
Abbreviation SM := (M sc).

(** The parameters that are values. *)
Record scsi_params := mk_params { cont : Z; lun : Z; datamax : Z }.

(** [scsi_lun_t]: the functions of a unit, which may be NULL. *)
Record scsi_lun_t := mk_lun {
  lun_init : option (Z -> M D unit);
  lun_read_capacity : option (Z -> M D (Z * Z));
  lun_read10 : option (scsi_params -> SM scsi_cmdret);
  lun_write10 : option (scsi_params -> SM scsi_cmdret);
}.

(** What the application defines. *)
Class ScsiEnv := {
  scsi_lun : list scsi_lun_t;
  scsi_max_lun : Z;
  scsi_vendor_string : list Z;
  scsi_product_string : list Z;
  scsi_rev_string : list Z;
}.
Context {env : ScsiEnv}.

(** ** Access to the buffers *)

Definition cmd_byte (i : Z) : SM Z := s ← mget; mlift (arr_get (cmd s) i).
Definition put (i v : Z) : SM unit := s ← mget; l ← mlift (arr_set (data s) i v); mmod (set_data l).
Definition copy (i : Z) (bs : list Z) : SM unit := s ← mget; l ← mlift (arr_blit (data s) i bs); mmod (set_data l).
Definition clear (n : Z) : SM unit := copy 0 (replicate (Z.to_nat n) 0).
Definition reply (len st : Z) : SM unit := mmod (set_datalen len) ;; mmod (set_status st).

(** ** Commands *)

Fixpoint init_loop (n : nat) (l : Z) : SM unit :=
  match n with
  | O => mret tt
  | S n =>
      u ← mlift (arr_get scsi_lun l);
      match lun_init u with Some f => mzoom (f l) | None => mret tt end ;;
      init_loop n (l + 1)
  end.
Definition scsi_init : SM unit := init_loop (Z.to_nat (scsi_max_lun + 1)) 0.

Definition scsi_cmd_default_handler (p : scsi_params) : SM scsi_cmdret :=
  clear SCSI_SENSE_REPLY_FIXED_SIZE ;;
  put 0 (Z.lor 0x80 0x70) ;;
  put 2 0x05 ;;
  put 12 0x20 ;;
  reply SCSI_SENSE_REPLY_SIZE SCSI_CHECK_CONDITION ;;
  mret SCSI_CMD_DONE.

Definition scsi_inquiry_answer : list Z := [0x00; 0x80; 0x04; 0x02; 31; 0x00; 0x00; 0x00].
Definition inq_size : Z := 8 + 8 + 16 + 4.

Definition scsi_cmd_inquiry (p : scsi_params) : SM scsi_cmdret :=
  copy 0 scsi_inquiry_answer ;;
  copy 8 scsi_vendor_string ;;
  copy 16 scsi_product_string ;;
  copy 32 scsi_rev_string ;;
  reply inq_size SCSI_GOOD ;;
  mret SCSI_CMD_DONE.

(** The assignments change the copies of the pointers in the parameters: nothing is
    written. *)
Definition scsi_cmd_test_unit_ready (p : scsi_params) : SM scsi_cmdret := mret SCSI_CMD_DONE.
Definition scsi_cmd_prevent_allow_medium_removal (p : scsi_params) : SM scsi_cmdret :=
  cmd_byte 4 ;; mret SCSI_CMD_DONE.

Definition scsi_cmd_mode_select6 (p : scsi_params) : SM scsi_cmdret := mret SCSI_CMD_ERROR.

(** The shift comes before the conjunction. *)
Definition scsi_cmd_read_format_capacities (p : scsi_params) : SM scsi_cmdret :=
  a ← cmd_byte 7;
  b ← cmd_byte 8;
  if u16 (Z.land (Z.shiftl a 4) b) =? 0 then mret SCSI_CMD_DONE else mret SCSI_CMD_ERROR.

Definition scsi_cmd_start_stop_unit (p : scsi_params) : SM scsi_cmdret := mret SCSI_CMD_DONE.

Definition scsi_cmd_mode_sense6 (p : scsi_params) : SM scsi_cmdret :=
  c1 ← cmd_byte 1;
  c2 ← cmd_byte 2;
  c3 ← cmd_byte 3;
  let dbd := Z.shiftr (Z.land c1 0x08) 3 in
  let pc := Z.shiftr (Z.land c2 0xc0) 6 in
  let page_code := Z.land c2 0x3f in
  let asked code := (dbd =? 0) && (pc =? 0) && (page_code =? code) && (c3 =? 0) in
  if asked 0x3f then
    clear SCSI_SENSE_REPLY_SIZE ;;
    reply SCSI_SENSE_REPLY_SIZE SCSI_GOOD ;;
    mret SCSI_CMD_DONE
  else if asked 0x1C then
    clear SCSI_SENSE_INFOEXC_REPLY_SIZE ;;
    put 0 0x1C ;;
    put 1 0x0A ;;
    reply SCSI_SENSE_INFOEXC_REPLY_SIZE SCSI_GOOD ;;
    mret SCSI_CMD_DONE
  else if asked 0x08 then
    clear SCSI_SENSE_CACHING_REPLY_SIZE ;;
    put 0 0x08 ;;
    put 1 0x12 ;;
    put 2 0x85 ;;
    put 9 0x02 ;;
    put 11 0x08 ;;
    put 13 0x08 ;;
    reply SCSI_SENSE_CACHING_REPLY_SIZE SCSI_GOOD ;;
    mret SCSI_CMD_DONE
  else mmod (set_status SCSI_CHECK_CONDITION) ;; mret SCSI_CMD_ERROR.

Definition scsi_cmd_request_sense (p : scsi_params) : SM scsi_cmdret :=
  c1 ← cmd_byte 1;
  (if Z.land c1 0x1 =? 0 then
    clear SCSI_SENSE_REPLY_FIXED_SIZE ;;
    put 0 (Z.lor 0x80 0x70) ;;
    put 7 0x0a ;;
    put 12 0x00 ;;
    reply SCSI_SENSE_REPLY_FIXED_SIZE SCSI_GOOD
  else reply 0 SCSI_CHECK_CONDITION) ;;
  mret SCSI_CMD_DONE.

(** The unit is not checked against the number of units. *)
Definition get_lun (p : scsi_params) : SM scsi_lun_t := mlift (arr_get scsi_lun (lun p)).

(** [bcount] has 32 bits, [bsize] 16. *)
Definition scsi_cmd_read_capacity10 (p : scsi_params) : SM scsi_cmdret :=
  u ← get_lun p;
  c ← match lun_read_capacity u with Some f => mzoom (f (lun p)) | None => mret (0, 0) end;
  let bcount := u32 (c.1 - 1) in
  let bsize := c.2 in
  put 0 (Z.land (Z.shiftr bcount 24) 0xff) ;;
  put 1 (Z.land (Z.shiftr bcount 16) 0xff) ;;
  put 2 (Z.land (Z.shiftr bcount 8) 0xff) ;;
  put 3 (Z.land (Z.shiftr bcount 0) 0xff) ;;
  put 4 (Z.land (Z.shiftr bsize 24) 0xff) ;;
  put 5 (Z.land (Z.shiftr bsize 16) 0xff) ;;
  put 6 (Z.land (Z.shiftr bsize 8) 0xff) ;;
  put 7 (Z.land (Z.shiftr bsize 0) 0xff) ;;
  reply 8 SCSI_GOOD ;;
  mret SCSI_CMD_DONE.

Definition scsi_cmd_read10 (p : scsi_params) : SM scsi_cmdret :=
  u ← get_lun p;
  match lun_read10 u with Some f => f p | None => reply 0 SCSI_CHECK_CONDITION ;; mret SCSI_CMD_DONE end.

Definition scsi_cmd_write10 (p : scsi_params) : SM scsi_cmdret :=
  u ← get_lun p;
  match lun_write10 u with Some f => f p | None => reply 0 SCSI_CHECK_CONDITION ;; mret SCSI_CMD_DONE end.

Definition scsi_cdb_list : list (Z * (scsi_params -> SM scsi_cmdret)) := [
  (SCSI_INQUIRY, scsi_cmd_inquiry);
  (SCSI_REQUEST_SENSE, scsi_cmd_request_sense);
  (SCSI_TEST_UNIT_READY, scsi_cmd_test_unit_ready);
  (SCSI_MODE_SENSE6, scsi_cmd_mode_sense6);
  (SCSI_PREVENT_ALLOW_MEDIUM_REMOVAL, scsi_cmd_prevent_allow_medium_removal);
  (SCSI_READ_CAPACITY10, scsi_cmd_read_capacity10);
  (SCSI_READ10, scsi_cmd_read10);
  (SCSI_WRITE10, scsi_cmd_write10);
  (SCSI_MODE_SELECT6, scsi_cmd_mode_select6);
  (SCSI_START_STOP, scsi_cmd_start_stop_unit);
  (SCSI_READ_FORMAT_CAPACITIES, scsi_cmd_read_format_capacities)].

Fixpoint find_command (op : Z) (l : list (Z * (scsi_params -> SM scsi_cmdret))) : scsi_params -> SM scsi_cmdret :=
  match l with
  | [] => scsi_cmd_default_handler
  | (o, f) :: l => if op =? o then f else find_command op l
  end.
Definition scsi_process_command (p : scsi_params) : SM scsi_cmdret :=
  op ← cmd_byte 0; find_command op scsi_cdb_list p.

(** ** The block of a transfer: address, number of sectors *)

Definition cdb_lba : SM Z := s ← mget; v ← mlift (rd 4 (cmd s) 2); mret (msbtohost32 v).
Definition cdb_length : SM Z := s ← mget; v ← mlift (rd 2 (cmd s) 7); mret (msbtohost16 v).
Definition set_cdb (lba nblocks : Z) : SM unit :=
  s ← mget;
  c ← mlift (wr 4 (cmd s) 2 (msbtohost32 (u32 (lba + 1))));
  c ← mlift (wr 2 c 7 (msbtohost16 (u16 (nblocks - 1))));
  mmod (set_cmd c).

(** The end of the functions that read or write a sector. *)
Definition transfer_result (lba nblocks : Z) : SM scsi_cmdret :=
  if nblocks =? 0 then mmod (set_status SCSI_CHECK_CONDITION) ;; mret SCSI_CMD_ERROR
  else if nblocks =? 1 then reply BLOCKSIZE SCSI_GOOD ;; mret SCSI_CMD_DONE
  else set_cdb lba nblocks ;; reply BLOCKSIZE SCSI_GOOD ;; mret SCSI_CMD_PARTIAL.
End scsi.
#[global] Arguments sc D : clear implicits.
#[global] Arguments mk_sc {D} _ _ _ _ _.
#[global] Arguments ScsiEnv D : clear implicits.
#[global] Arguments scsi_lun_t D : clear implicits.
End Scsi.
