(* ===== verification/ScsiSpec.v ===== *)
(** * Answers of the SCSI commands, and what a unit of blocks promises *)

From stdpp Require Import base numbers list.
From S2P Require Import Prelude Packer Scsi.

Module ScsiSpec.
Import Packer Scsi.

(** ** Byte order *)

Lemma land_of_u32 x m : is_u32 m -> Z.land (u32 x) m = Z.land x m.
Proof.
  intros Hm. unfold u32. change 4294967296 with (2 ^ 32). rewrite <- Z.land_ones by lia. rewrite <- Z.land_assoc. f_equal.
  rewrite Z.land_comm, Z.land_ones by lia. apply Z.mod_small. change (2 ^ 32) with 4294967296. lia.
Qed.
Lemma land_of_u16 x m : is_u16 m -> Z.land (u16 x) m = Z.land x m.
Proof.
  intros Hm. unfold u16. change 65536 with (2 ^ 16). rewrite <- Z.land_ones by lia. rewrite <- Z.land_assoc. f_equal.
  rewrite Z.land_comm, Z.land_ones by lia. apply Z.mod_small. change (2 ^ 16) with 65536. lia.
Qed.

(** The same exchange of bytes as the one of the packers. *)
Lemma swab32_hton v : is_u32 v -> swab32 v = packer_uint32_hton v.
Proof.
  intros Hv. destruct (ntoh32_hton32 v Hv) as [_ Hr]. rewrite <- (u32_id (packer_uint32_hton v)) by done. unfold swab32, packer_uint32_hton. f_equal.
  rewrite !(u32_id v) by done. rewrite !land_of_u32 by done. rewrite !Z.shiftl_land, !Z.shiftr_land. cbn [Z.shiftl Z.shiftr Z.opp].
  change (Z.shiftl 255 24) with 4278190080. change (Z.shiftl 65280 8) with 16711680. change (Z.shiftr 16711680 8) with 65280. change (Z.shiftr 4278190080 24) with 255.
  apply Z.bits_inj'. intros i Hi. rewrite !Z.lor_spec. by repeat destruct (Z.testbit _ _).
Qed.
Lemma swab16_hton v : is_u16 v -> swab16 v = packer_uint16_hton v.
Proof.
  intros Hv. unfold swab16, packer_uint16_hton. f_equal. rewrite !(u16_id v) by done. rewrite !Z.shiftl_land, !Z.shiftr_land.
  change (Z.shiftl 255 8) with 65280. change (Z.shiftr 65280 8) with 255. apply Z.lor_comm.
Qed.
Lemma msb32_twice v : is_u32 v -> msbtohost32 (msbtohost32 v) = v /\ is_u32 (msbtohost32 v).
Proof. intros Hv. destruct (ntoh32_hton32 v Hv) as [E Hr]. unfold msbtohost32. rewrite (swab32_hton v) by done. by rewrite swab32_hton. Qed.
Lemma msb16_twice v : is_u16 v -> msbtohost16 (msbtohost16 v) = v /\ is_u16 (msbtohost16 v).
Proof. intros Hv. destruct (ntoh16_hton16 v Hv) as [E Hr]. unfold msbtohost16. rewrite (swab16_hton v) by done. by rewrite swab16_hton. Qed.

(** ** The block of a transfer *)

(** [c] is the block of the command [op] for [n] sectors from [lba]. *)
Definition cdb (c : list Z) (op lba n : Z) : Prop :=
  length c = 16%nat /\ arr_get c 0 = Ok op /\ rd 4 c 2 = Ok (msbtohost32 lba) /\ rd 2 c 7 = Ok (msbtohost16 n) /\ is_u32 lba /\ is_u16 n.

Section transfers.
Context {D : Type}.
Implicit Types (s : sc D) (p : scsi_params).

Lemma cdb_lba_ok s op lba n : cdb (cmd s) op lba n -> cdb_lba s = Ok (lba, s).
Proof. intros (_ & _ & E & _ & H & _). unfold cdb_lba. mrun. rewrite E. mrun. by rewrite (proj1 (msb32_twice lba H)). Qed.
Lemma cdb_length_ok s op lba n : cdb (cmd s) op lba n -> cdb_length s = Ok (n, s).
Proof. intros (_ & _ & _ & E & _ & H). unfold cdb_length. mrun. rewrite E. mrun. by rewrite (proj1 (msb16_twice n H)). Qed.

(** The next sector. *)
Lemma set_cdb_ok s op lba n : cdb (cmd s) op lba n -> 1 <= n -> lba + 1 < 2 ^ 32 ->
  exists c, set_cdb lba n s = Ok (tt, set_cmd c s) /\ cdb c op (lba + 1) (n - 1).
Proof.
  intros (Hl & Eo & E4 & E2 & H1 & H2) Hn Hb. unfold set_cdb. mrun. rewrite (u32_id (lba + 1)), (u16_id (n - 1)) by lia.
  destruct (msb32_twice (lba + 1)) as [_ R4]; [lia|]. destruct (msb16_twice (n - 1)) as [_ R2]; [lia|].
  destruct (wr_ok 4 (cmd s) 2 (msbtohost32 (lba + 1))) as (c1 & W1 & L1); [lia|lia|].
  destruct (wr_ok 2 c1 7 (msbtohost16 (n - 1))) as (c2 & W2 & L2); [lia|lia|]. rewrite W1. mrun. rewrite W2. mrun. exists c2. split; [done|].
  split; [lia|]. split; [|split; [|split; [|lia]]].
  - unfold wr in W1, W2. rewrite (arr_blit_frame _ _ _ _ _ W2) by lia. by rewrite (arr_blit_frame _ _ _ _ _ W1) by lia.
  - rewrite (rd_wr_other 4 2 _ _ _ _ _ W2) by lia. rewrite (rd_wr 4 _ _ _ _ W1). f_equal. apply Z.mod_small. change (256 ^ Z.of_nat 4) with 4294967296. lia.
  - rewrite (rd_wr 2 _ _ _ _ W2). f_equal. apply Z.mod_small. change (256 ^ Z.of_nat 2) with 65536. lia.
Qed.

Lemma transfer_last s lba : transfer_result lba 1 s = Ok (SCSI_CMD_DONE, set_status SCSI_GOOD (set_datalen 512 s)).
Proof. done. Qed.
Lemma transfer_next s op lba n : cdb (cmd s) op lba n -> 2 <= n -> lba + 1 < 2 ^ 32 ->
  exists c, transfer_result lba n s = Ok (SCSI_CMD_PARTIAL, set_status SCSI_GOOD (set_datalen 512 (set_cmd c s))) /\ cdb c op (lba + 1) (n - 1).
Proof.
  intros Hc Hn Hb. destruct (set_cdb_ok s op lba n Hc) as (c & E & Hc'); [lia|done|]. exists c. split; [|done]. unfold transfer_result.
  destruct (Z.eqb_spec n 0); [lia|]. destruct (Z.eqb_spec n 1); [lia|]. mstep E. done.
Qed.

(** ** What a unit promises

    [sector d a] is the content of a sector in the state [d], [store a bs d] the state
    after a write; [good] the states in which the device does not fail. *)
Class BlockUnit (u : scsi_lun_t D) (size : Z) (sector : D -> Z -> list Z) (good : D -> Prop) := {
  unit_size : 0 <= size < 2 ^ 32;
  unit_sector d a : good d -> 0 <= a < size -> length (sector d a) = 512%nat;
  unit_read10 : exists f, lun_read10 u = Some f /\ forall p s op lba n, good (dev s) -> cdb (cmd s) op lba n -> 1 <= n -> lba + n <= size ->
    length (data s) = 512%nat -> datamax p = 512 ->
    exists d, f p s = transfer_result lba n (set_data (sector (dev s) lba) (set_dev d s)) /\ good d /\ (forall a, 0 <= a < size -> sector d a = sector (dev s) a);
  unit_write10 : exists f, lun_write10 u = Some f /\ forall p s op lba n, good (dev s) -> cdb (cmd s) op lba n -> 1 <= n -> lba + n <= size ->
    length (data s) = 512%nat -> datamax p = 512 ->
    exists d, good d /\
      f p s = (if cont p =? 0 then Ok (SCSI_CMD_PARTIAL, set_status SCSI_GOOD (set_dev d s)) else transfer_result lba n (set_dev d s)) /\
      (forall a, 0 <= a < size -> sector d a = if negb (cont p =? 0) && (a =? lba) then data s else sector (dev s) a);
}.
End transfers.
End ScsiSpec.
