(* ===== verification/ScsiSd.v ===== *)
(** * The SD card as a unit of the mass storage class ([lib/usb/scsi_sd.c])

    The driver of the card is the one of [Fs]: an oracle of results, and a card of blocks
    of 512 bytes. *)

From stdpp Require Import base numbers list.
From S2P Require Import Prelude Packer Fs Scsi ScsiSpec.

Module ScsiSd.
Import Scsi ScsiSpec.

(** The card, the number of calls of its driver, and the flag that the interrupt at the
    end of a transfer sets. *)
Record sd := mk_sd { card : Z -> list Z; sd_calls : nat; sd_transfer_ended : bool }.
Definition set_ended b s := mk_sd (card s) (sd_calls s) b.

(** The number of sectors of the card. *)
Class SdSize := sd_size : Z.

Section sd.
Context {D : Type} {lens : Lens D sd} {drv : Fs.SdEnv} {size : SdSize}.
Abbreviation SM := (M (sc D)).

Definition sd_call : M sd nat := s ← mget; mmod (λ s, mk_sd (card s) (S (sd_calls s)) (sd_transfer_ended s)) ;; mret (sd_calls s).

Definition scsi_sd_init (l : Z) : M D unit := mzoom (T := sd) (sd_call ;; mret tt).

Definition scsi_sd_read_capacity (l : Z) : M D (Z * Z) := mret (sd_size, 512).

(** The driver transfers a block: [None] when it refuses, else the status at the end of
    the transfer and the bytes. The interrupt of the end comes in both cases. *)
Definition sd_read_single_block (la : Z) : M sd (option (Z * list Z)) :=
  n ← sd_call;
  if negb (Fs.sd_result n =? Fs.SD_NO_ERROR) then mret None
  else
    s ← mget;
    mmod (set_ended true) ;;
    if negb (Fs.transfer_error n =? Fs.SD_NO_ERROR) then mret (Some (Fs.transfer_error n, Fs.sd_torn n))
    else mret (Some (Fs.SD_NO_ERROR, card s la)).
Definition sd_write_single_block (la : Z) (bs : list Z) : M sd (option Z) :=
  n ← sd_call;
  if negb (Fs.sd_result n =? Fs.SD_NO_ERROR) then mret None
  else
    s ← mget;
    mmod (set_ended true) ;;
    if negb (Fs.transfer_error n =? Fs.SD_NO_ERROR) then
      mmod (λ s, mk_sd (λ q, if q =? la then Fs.sd_torn n else card s q) (sd_calls s) (sd_transfer_ended s)) ;; mret (Some (Fs.transfer_error n))
    else
      mmod (λ s, mk_sd (λ q, if q =? la then bs else card s q) (sd_calls s) (sd_transfer_ended s)) ;; mret (Some Fs.SD_NO_ERROR).

Definition on_card {A} (m : M sd A) : SM A := mzoom (T := D) (mzoom (T := sd) m).
Definition check (r : scsi_cmdret) : SM scsi_cmdret := mmod (set_status SCSI_CHECK_CONDITION) ;; mret r.

(** The sum has 32 bits. *)
Definition beyond (lba nblocks : Z) : bool := u32 (lba + nblocks - 1) >=? sd_size.

Definition scsi_sd_read10 (p : scsi_params) : SM scsi_cmdret :=
  lba ← cdb_lba;
  nblocks ← cdb_length;
  on_card (mmod (set_ended false)) ;;
  if beyond lba nblocks then check SCSI_CMD_DONE
  else if datamax p <? BLOCKSIZE then check SCSI_CMD_ERROR
  else
    r ← on_card (sd_read_single_block (Fs.sd_block lba));
    match r with
    | None => check SCSI_CMD_DONE
    | Some (err, bs) =>
        copy 0 bs ;;
        if negb (err =? Fs.SD_NO_ERROR) then check SCSI_CMD_DONE else transfer_result lba nblocks
    end.

(** The first call only checks the request. *)
Definition scsi_sd_write10 (p : scsi_params) : SM scsi_cmdret :=
  lba ← cdb_lba;
  nblocks ← cdb_length;
  on_card (mmod (set_ended false)) ;;
  if beyond lba nblocks then check SCSI_CMD_DONE
  else if datamax p <? BLOCKSIZE then check SCSI_CMD_ERROR
  else if cont p =? 0 then mmod (set_status SCSI_GOOD) ;; mret SCSI_CMD_PARTIAL
  else
    s ← mget;
    bs ← mlift (arr_slice (data s) 0 BLOCKSIZE);
    r ← on_card (sd_write_single_block (Fs.sd_block lba) bs);
    match r with
    | None => check SCSI_CMD_DONE
    | Some err => if negb (err =? Fs.SD_NO_ERROR) then check SCSI_CMD_DONE else transfer_result lba nblocks
    end.

Definition sd_lun : scsi_lun_t D := mk_lun (Some scsi_sd_init) (Some scsi_sd_read_capacity) (Some scsi_sd_read10) (Some scsi_sd_write10).

(** ** The unit keeps its promise on a card that does not fail *)

Definition sd_works : Prop := forall n, Fs.sd_result n = Fs.SD_NO_ERROR /\ Fs.transfer_error n = Fs.SD_NO_ERROR.
(** The addresses of the sectors have 32 bits. *)
Definition sd_fits : Prop := 0 <= sd_size < 2 ^ 32 /\ (Fs.sdhc = true \/ sd_size * 512 <= 2 ^ 32).
Definition sd_sector (d : D) (a : Z) : list Z := card (view d) (Fs.sd_block a).
Definition sd_good (d : D) : Prop := forall a, 0 <= a < sd_size -> length (sd_sector d a) = 512%nat.

Lemma sd_block_in a : sd_fits -> 0 <= a < sd_size -> Fs.sd_block a = a.
Proof.
  intros [Hs [E|Hf]] Ha; unfold Fs.sd_block; [by rewrite E|]. destruct Fs.sdhc; [done|]. rewrite u32_id by lia. by rewrite Z.div_mul.
Qed.

Lemma beyond_in lba n : sd_fits -> 0 <= lba -> 1 <= n -> lba + n <= sd_size -> beyond lba n = false.
Proof. intros [Hs _] H0 Hn Hl. unfold beyond. rewrite u32_id by lia. destruct (Z.geb_spec (lba + n - 1) sd_size); [lia|done]. Qed.

Lemma on_card_ok {A} (m : M sd A) (s : sc D) a t : m (view (dev s)) = Ok (a, t) -> on_card m s = Ok (a, set_dev (over t (dev s)) s).
Proof. intros E. unfold on_card. erewrite zoom_ok; [|by eapply zoom_ok]. done. Qed.

Definition called (s : sd) : sd := mk_sd (card s) (S (sd_calls s)) true.

Lemma sd_read_ok s la : sd_works -> sd_read_single_block la s = Ok (Some (Fs.SD_NO_ERROR, card s la), called s).
Proof.
  intros W. destruct (W (sd_calls s)) as [E1 E2]. unfold sd_read_single_block, sd_call. mrun. rewrite E1. change (negb (Fs.SD_NO_ERROR =? Fs.SD_NO_ERROR)) with false. cbn iota.
  mrun. rewrite E2. done.
Qed.
Lemma sd_write_ok s la bs : sd_works ->
  sd_write_single_block la bs s = Ok (Some Fs.SD_NO_ERROR, mk_sd (λ q, if q =? la then bs else card s q) (S (sd_calls s)) true).
Proof.
  intros W. destruct (W (sd_calls s)) as [E1 E2]. unfold sd_write_single_block, sd_call. mrun. rewrite E1. change (negb (Fs.SD_NO_ERROR =? Fs.SD_NO_ERROR)) with false. cbn iota.
  mrun. rewrite E2. done.
Qed.

Lemma sd_read10_ok p (s : sc D) op lba n : sd_works -> sd_fits -> sd_good (dev s) -> cdb (cmd s) op lba n -> 1 <= n -> lba + n <= sd_size ->
  length (data s) = 512%nat -> datamax p = 512 ->
  exists d, scsi_sd_read10 p s = transfer_result lba n (set_data (sd_sector (dev s) lba) (set_dev d s)) /\ card (view d) = card (view (dev s)).
Proof.
  intros W Hf Hg Hc Hn Hl Hd Hm. assert (0 <= lba) as H0 by (destruct Hc as (_ & _ & _ & _ & H & _); lia). unfold scsi_sd_read10.
  mstep (cdb_lba_ok s op lba n Hc). mstep (cdb_length_ok s op lba n Hc).
  erewrite bind_ok by (by apply on_card_ok). rewrite beyond_in by done. rewrite Hm. change (512 <? BLOCKSIZE) with false. cbn iota.
  erewrite bind_ok by (apply on_card_ok, sd_read_ok, W). unfold copy. mrun. cbn [data set_dev dev]. rewrite !view_over, over_over.
  cbn [card set_ended]. fold (sd_sector (dev s) lba). assert (length (sd_sector (dev s) lba) = 512%nat) as Hsl by (apply Hg; lia).
  unfold arr_blit. rewrite decide_True by lia. mrun. change (Z.to_nat 0) with 0%nat. rewrite take_0, drop_ge, app_nil_r by lia. cbn [app].
  exists (over (called (set_ended false (view (dev s)))) (dev s)). split; [done|]. by rewrite view_over.
Qed.

Lemma sd_write10_ok p (s : sc D) op lba n : sd_works -> sd_fits -> cdb (cmd s) op lba n -> 1 <= n -> lba + n <= sd_size ->
  length (data s) = 512%nat -> datamax p = 512 ->
  exists d, scsi_sd_write10 p s = (if cont p =? 0 then Ok (SCSI_CMD_PARTIAL, set_status SCSI_GOOD (set_dev d s)) else transfer_result lba n (set_dev d s)) /\
    forall q, card (view d) q = if negb (cont p =? 0) && (q =? Fs.sd_block lba) then data s else card (view (dev s)) q.
Proof.
  intros W Hf Hc Hn Hl Hd Hm. assert (0 <= lba) as H0 by (destruct Hc as (_ & _ & _ & _ & H & _); lia). unfold scsi_sd_write10.
  mstep (cdb_lba_ok s op lba n Hc). mstep (cdb_length_ok s op lba n Hc).
  erewrite bind_ok by (by apply on_card_ok). rewrite beyond_in by done. rewrite Hm. change (512 <? BLOCKSIZE) with false. cbn iota.
  destruct (cont p =? 0) eqn:E0.
  - eexists. split; [mrun; reflexivity|]. intros q. by rewrite view_over.
  - mrun. cbn [data set_dev]. unfold arr_slice. rewrite decide_True by (unfold BLOCKSIZE; lia). mrun. change (Z.to_nat 0) with 0%nat.
    rewrite drop_0, take_ge by (unfold BLOCKSIZE; lia). erewrite bind_ok by (apply on_card_ok, sd_write_ok, W). change (negb (Fs.SD_NO_ERROR =? Fs.SD_NO_ERROR)) with false. cbn iota.
    cbn [dev set_dev]. rewrite view_over, over_over. eexists. split; [reflexivity|]. intros q. rewrite view_over. done.
Qed.

#[export] Instance sd_unit : sd_works -> sd_fits -> BlockUnit sd_lun sd_size sd_sector sd_good.
Proof.
  intros W Hf. split.
  - apply Hf.
  - intros d a Hg Ha. by apply Hg.
  - exists scsi_sd_read10. split; [done|]. intros p s op lba n Hg Hc Hn Hl Hd Hm.
    destruct (sd_read10_ok p s op lba n W Hf Hg Hc Hn Hl Hd Hm) as (d & E & Ec). exists d. split; [done|].
    assert (forall a, sd_sector d a = sd_sector (dev s) a) as Es by (intros a; unfold sd_sector; by rewrite Ec).
    split; [|by intros a _]. intros a Ha. rewrite Es. by apply Hg.
  - exists scsi_sd_write10. split; [done|]. intros p s op lba n Hg Hc Hn Hl Hd Hm. assert (0 <= lba) as H0 by (destruct Hc as (_ & _ & _ & _ & H & _); lia).
    destruct (sd_write10_ok p s op lba n W Hf Hc Hn Hl Hd Hm) as (d & E & Ec).
    assert (forall a, 0 <= a < sd_size -> sd_sector d a = if negb (cont p =? 0) && (a =? lba) then data s else sd_sector (dev s) a) as Es.
    { intros a Ha. unfold sd_sector. by rewrite Ec, (sd_block_in a), (sd_block_in lba) by (done || lia). }
    exists d. split; [|split; [done|done]]. intros a Ha. rewrite Es by done. destruct (negb _ && _); [done|by apply Hg].
Qed.

(** ** A bound that wraps

    The last sector asked for is computed on 32 bits: a request that starts at the last
    address passes, and is read there. *)
Lemma beyond_wraps : 0 < sd_size -> beyond 0xFFFFFFFF 2 = false.
Proof. intros H. unfold beyond. change (u32 (4294967295 + 2 - 1)) with 0. by destruct (Z.geb_spec 0 sd_size); [lia|]. Qed.
End sd.

(** ** A card of 16 sectors that does not fail, as the only unit *)

Definition own_lens : Lens sd sd.
Proof. refine {| view s := s; over t _ := t |}; done. Defined.
Definition card_drv : Fs.SdEnv := {| Fs.sdhc := true; Fs.sd_result _ := 0; Fs.transfer_error _ := 0; Fs.sd_torn _ := [] |}.
Definition card_size : SdSize := 16.
Definition card_lun : scsi_lun_t sd := sd_lun (lens := own_lens) (drv := card_drv) (size := card_size).
Definition card_units : ScsiEnv sd :=
  {| scsi_lun := [card_lun]; scsi_max_lun := 0; scsi_vendor_string := replicate 8 0x41; scsi_product_string := replicate 16 0x42; scsi_rev_string := replicate 4 0x43 |}.
(** Each sector repeats its number. *)
Definition card0 : sd := mk_sd (λ q, replicate 512 q) 0 false.

Definition card_sector : sd -> Z -> list Z := sd_sector (lens := own_lens) (drv := card_drv).
Definition card_good : sd -> Prop := sd_good (lens := own_lens) (drv := card_drv) (size := card_size).
Lemma card_unit : BlockUnit card_lun 16 card_sector card_good.
Proof. apply (sd_unit (size := card_size)); [done|]. split; [done|by left]. Qed.
Lemma card0_good : card_good card0.
Proof. intros a Ha. apply length_replicate. Qed.
End ScsiSd.
