(* ===== verification/Dfu.v ===== *)
(** * Firmware upgrade requests ([lib/usb/dfu.c])

    The requests that a running application answers: it can be told to detach. The calls
    of the USB driver are recorded. *)

From stdpp Require Import base numbers list.
From S2P Require Import Prelude.

Module Dfu.

(** The calls of the USB driver by the class drivers, in order. *)
Inductive stat_bits := STAT_RX_VALID | STAT_RX_STALL | STAT_TX_VALID.
Inductive usb_call :=
  | usb_send (endp : Z) (bytes : list Z)
  | usb_send_status (endp : Z)
  | usb_send_set_status (endp : Z) (st : stat_bits)
  | usb_recv_set_status (endp : Z) (st : stat_bits)
  | usb_start_stage (endp : Z)
  | usb_driver_init.

(** [usb_device_request_t] *)
Record request := mk_request { bRequest : Z; wValue : Z; wLength : Z }.

Definition DFU_STATE_appIDLE : Z := 0x00.
Definition DFU_STATE_appDETACH : Z := 0x01.
Definition DFU_REQ_DETACH : Z := 0x00.
Definition DFU_REQ_GETSTATUS : Z := 0x03.
Definition GET_STATUS_TIMEOUT : Z := 500.

Record dfu := mk_dfu { usb_dfu_state : Z; usb_dfu_state_next : Z; usb_dfu_getstatus_timeout : Z }.

Definition usb_dfu_init : dfu := mk_dfu DFU_STATE_appIDLE DFU_STATE_appIDLE GET_STATUS_TIMEOUT.
Definition usb_dfu_detach_timer_cb (s : dfu) : dfu := mk_dfu DFU_STATE_appIDLE DFU_STATE_appIDLE GET_STATUS_TIMEOUT.

(** [usb_dfu_status_t]: the state stands where a status code should be. *)
Definition status_bytes (s : dfu) : list Z :=
  [usb_dfu_state s;
   Z.land (Z.shiftr (usb_dfu_getstatus_timeout s) 0) 0xff;
   Z.land (Z.shiftr (usb_dfu_getstatus_timeout s) 8) 0xff;
   Z.land (Z.shiftr (usb_dfu_getstatus_timeout s) 16) 0xff;
   usb_dfu_state_next s; 0].

Definition usb_dfu_class_interface (req : request) (s : dfu) : dfu * list usb_call :=
  if bRequest req =? DFU_REQ_DETACH then
    (mk_dfu DFU_STATE_appDETACH DFU_STATE_appDETACH (wValue req), [usb_send_status 0])
  else if bRequest req =? DFU_REQ_GETSTATUS then (s, [usb_send 0 (status_bytes s)])
  else (s, []).

(** At a reset of the bus; [true] when the driver starts again as a firmware loader. *)
Definition usb_dfu_detach_reset_check (s : dfu) : bool := usb_dfu_state s =? DFU_STATE_appDETACH.

(** ** Properties *)

Definition dfu_ok (s : dfu) : Prop :=
  usb_dfu_state s = usb_dfu_state_next s /\ (usb_dfu_state s = DFU_STATE_appIDLE \/ usb_dfu_state s = DFU_STATE_appDETACH) /\ is_u16 (usb_dfu_getstatus_timeout s).

Lemma dfu_init_ok : dfu_ok usb_dfu_init.
Proof. split; [done|]. split; [by left|done]. Qed.
Lemma dfu_request_ok req s : dfu_ok s -> is_u16 (wValue req) -> dfu_ok (usb_dfu_class_interface req s).1.
Proof. intros Hs Hv. unfold usb_dfu_class_interface. repeat case_match; [|done..]. split; [done|]. split; [by right|done]. Qed.

(** The status read back carries the time given with the request to detach. *)
Lemma dfu_status_timeout req s : bRequest req = DFU_REQ_DETACH -> is_u16 (wValue req) ->
  exists b0 b1 b2, usb_dfu_class_interface (mk_request DFU_REQ_GETSTATUS 0 6) (usb_dfu_class_interface req s).1 =
    ((usb_dfu_class_interface req s).1, [usb_send 0 [1; b0; b1; b2; 1; 0]]) /\ b0 + 256 * b1 + 65536 * b2 = wValue req.
Proof.
  intros E Hv. unfold usb_dfu_class_interface. rewrite E. change (DFU_REQ_DETACH =? DFU_REQ_DETACH) with true. cbn [bRequest fst].
  change (DFU_REQ_GETSTATUS =? DFU_REQ_DETACH) with false. change (DFU_REQ_GETSTATUS =? DFU_REQ_GETSTATUS) with true. cbn iota.
  unfold status_bytes. cbn [usb_dfu_state usb_dfu_state_next usb_dfu_getstatus_timeout]. do 3 eexists. split; [reflexivity|].
  change 255 with (Z.ones 8). rewrite !Z.land_ones, !Z.shiftr_div_pow2 by lia. change (2 ^ 0) with 1. change (2 ^ 8) with 256. change (2 ^ 16) with 65536. mlia.
Qed.
(** Only a device told to detach starts the loader at a reset. *)
Lemma dfu_detach_only reqs s : usb_dfu_detach_reset_check s = false -> Forall (λ r, bRequest r <> DFU_REQ_DETACH) reqs ->
  usb_dfu_detach_reset_check (fold_left (λ s r, (usb_dfu_class_interface r s).1) reqs s) = false.
Proof.
  intros Hs Hr. revert s Hs. induction Hr as [|r reqs Hr _ IH]; intros s Hs; cbn [fold_left]; [done|]. apply IH.
  unfold usb_dfu_class_interface. destruct (Z.eqb_spec (bRequest r) DFU_REQ_DETACH); [done|]. by case_match.
Qed.
End Dfu.
