(* ===== verification/Msc.v ===== *)
(** * USB mass storage ([lib/usb/msc.c])

    A command block of 31 bytes arrives on the OUT endpoint, data goes in packets of 64
    bytes through a buffer of one sector, and a status of 13 bytes ends the command. The
    interrupts of the endpoints post an event, whose handler does the work. *)

From stdpp Require Import base numbers list.
From S2P Require Import Prelude Packer Event Scsi Dfu.

Module Msc.
Import Event Scsi Dfu.

Definition MSC_EP_IN : Z := 1.
Definition MSC_EP_OUT : Z := 2.
Definition MSC_ENDPOINT_IN_SIZE : Z := 64.
Definition MSC_ENDPOINT_OUT_SIZE : Z := 64.
Definition MSC_BULK_ONLY_GET_MAX_LUN : Z := 0xFE.
Definition MSC_BULK_ONLY_STORAGE_RESET : Z := 0xFF.
Definition DFU_INTERFACE : Z := 1.
Definition CBW_Signature : Z := 0x43425355.
Definition CSW_Signature : Z := 0x53425355.
Definition CBW_SIZE : Z := 31.
Definition CSW_SIZE : Z := 13.
Definition MSC_BUFFER_SIZE : Z := 512.
Definition MSC_BUFFER_COUNT : Z := 1.

(** [msc_cbw_t] *)
Record msc_cbw := mk_cbw {
  dCBWSignature : Z;
  dCBWTag : Z;
  dCBWDataTransferLength : Z;
  dCBWFlags : Z;
  dCBWLun : Z;
  dCBWCBLength : Z;
  CBWCB : list Z;
}.
(** The structure is packed and the machine little-endian. *)
Definition cbw_of_bytes (bs : list Z) : res msc_cbw :=
  sig ← rd 4 bs 0; tag ← rd 4 bs 4; n ← rd 4 bs 8; fl ← rd 1 bs 12; l ← rd 1 bs 13; c ← rd 1 bs 14; cb ← arr_slice bs 15 16;
  Ok (mk_cbw sig tag n fl l c cb).

Definition CSW_Command_Passed : Z := 0x00.
Definition CSW_Command_Failed : Z := 0x01.

Inductive msc_state_t := MSC_STATE_NONE | MSC_STATE_READY | MSC_STATE_DATA_IN | MSC_STATE_DATA_OUT | MSC_STATE_STATUS | MSC_STATE_STATUS_sent.
#[global] Instance msc_state_eq_dec : EqDecision msc_state_t.
Proof. solve_decision. Defined.

(** [msc_data_buff_t] *)
Record msc_data_buff := mk_buff { bdata : list Z; idx : Z; blen : Z }.

(** What the two variables that [usb_msc_scsi_handler] does not initialise hold at its
    successive calls: the length and the status. *)
Class MscEnv := { stale : nat -> Z * Z }.

Section msc.
Context {D : Type} {build : Build} {env : ScsiEnv D} {menv : MscEnv}.

Record msc := mk_msc {
  cbw : msc_cbw;
  msc_state : msc_state_t;
  msc_csw_status : Z;
  msc_buff : list msc_data_buff;
  msc_buff_read : Z;
  msc_buff_write : Z;
  cnum : Z;
  scsi_calls : nat;
  mdev : D;
  mdfu : dfu;
  mevs : events unit;
  out_packet : list Z;
  calls : list usb_call;
}.

Definition set_cbw x s := mk_msc x (msc_state s) (msc_csw_status s) (msc_buff s) (msc_buff_read s) (msc_buff_write s) (cnum s) (scsi_calls s) (mdev s) (mdfu s) (mevs s) (out_packet s) (calls s).
Definition set_state x s := mk_msc (cbw s) x (msc_csw_status s) (msc_buff s) (msc_buff_read s) (msc_buff_write s) (cnum s) (scsi_calls s) (mdev s) (mdfu s) (mevs s) (out_packet s) (calls s).
Definition set_csw_status x s := mk_msc (cbw s) (msc_state s) x (msc_buff s) (msc_buff_read s) (msc_buff_write s) (cnum s) (scsi_calls s) (mdev s) (mdfu s) (mevs s) (out_packet s) (calls s).
Definition set_buffs x s := mk_msc (cbw s) (msc_state s) (msc_csw_status s) x (msc_buff_read s) (msc_buff_write s) (cnum s) (scsi_calls s) (mdev s) (mdfu s) (mevs s) (out_packet s) (calls s).
Definition set_buff_read x s := mk_msc (cbw s) (msc_state s) (msc_csw_status s) (msc_buff s) x (msc_buff_write s) (cnum s) (scsi_calls s) (mdev s) (mdfu s) (mevs s) (out_packet s) (calls s).
Definition set_buff_write x s := mk_msc (cbw s) (msc_state s) (msc_csw_status s) (msc_buff s) (msc_buff_read s) x (cnum s) (scsi_calls s) (mdev s) (mdfu s) (mevs s) (out_packet s) (calls s).
Definition set_cnum x n s := mk_msc (cbw s) (msc_state s) (msc_csw_status s) (msc_buff s) (msc_buff_read s) (msc_buff_write s) x n (mdev s) (mdfu s) (mevs s) (out_packet s) (calls s).
Definition set_mdev x s := mk_msc (cbw s) (msc_state s) (msc_csw_status s) (msc_buff s) (msc_buff_read s) (msc_buff_write s) (cnum s) (scsi_calls s) x (mdfu s) (mevs s) (out_packet s) (calls s).
Definition set_mdfu x s := mk_msc (cbw s) (msc_state s) (msc_csw_status s) (msc_buff s) (msc_buff_read s) (msc_buff_write s) (cnum s) (scsi_calls s) (mdev s) x (mevs s) (out_packet s) (calls s).
Definition set_mevs x s := mk_msc (cbw s) (msc_state s) (msc_csw_status s) (msc_buff s) (msc_buff_read s) (msc_buff_write s) (cnum s) (scsi_calls s) (mdev s) (mdfu s) x (out_packet s) (calls s).
Definition set_packet x s := mk_msc (cbw s) (msc_state s) (msc_csw_status s) (msc_buff s) (msc_buff_read s) (msc_buff_write s) (cnum s) (scsi_calls s) (mdev s) (mdfu s) (mevs s) x (calls s).
Definition add_call x s := mk_msc (cbw s) (msc_state s) (msc_csw_status s) (msc_buff s) (msc_buff_read s) (msc_buff_write s) (cnum s) (scsi_calls s) (mdev s) (mdfu s) (mevs s) (out_packet s) (calls s ++ x).

#[export] Instance mevs_lens : Lens msc (events unit).
Proof. refine {| view := mevs; over := set_mevs |}; [done|by intros []|done]. Defined.
Abbreviation UM := (M msc).

Definition call (c : usb_call) : UM unit := mmod (add_call [c]).
Definition get_buff (i : Z) : UM msc_data_buff := s ← mget; mlift (arr_get (msc_buff s) i).
Definition set_buff (i : Z) (b : msc_data_buff) : UM unit := s ← mget; l ← mlift (arr_set (msc_buff s) i b); mmod (set_buffs l).

(** The packet in the endpoint. *)
Definition usb_recv_get_len : UM Z := s ← mget; mret (Z.of_nat (length (out_packet s))).
Definition usb_recv (len : Z) : UM (list Z) := s ← mget; mlift (arr_slice (out_packet s) 0 len).

(** ** Start *)

Definition usb_msc_reset : UM unit :=
  s ← mget;
  mmod (set_buffs ((λ b, mk_buff (bdata b) 0 0) <$> msc_buff s)) ;;
  mmod (set_buff_read 0) ;;
  mmod (set_buff_write 0) ;;
  mmod (set_state MSC_STATE_NONE).

(** The units are initialised on their own state. *)
Definition usb_msc_init : UM unit :=
  usb_msc_reset ;;
  s ← mget;
  x ← mlift (scsi_init (mk_sc (CBWCB (cbw s)) [] 0 0 (mdev s)));
  mmod (set_mdev (dev x.2)).

(** ** Buffers *)

Definition next_buff (i : Z) : Z := if i + 1 >=? MSC_BUFFER_COUNT then 0 else i + 1.

Definition usb_msc_close_read_buff : UM unit :=
  s ← mget;
  let r := msc_buff_read s in
  b ← get_buff r;
  if negb (blen b =? 0) then mret tt
  else
    set_buff r (mk_buff (bdata b) 0 0) ;;
    mmod (set_buff_read (next_buff r)).

Definition usb_msc_close_write_buff (length : Z) : UM unit :=
  s ← mget;
  let w := msc_buff_write s in
  b ← get_buff w;
  if negb (blen b =? 0) then mret tt
  else
    set_buff w (mk_buff (bdata b) 0 (u16 length)) ;;
    mmod (set_buff_write (next_buff w)).

(** [true] when the buffer is empty. *)
Definition usb_msc_send_data_to_endpoint : UM bool :=
  s ← mget;
  let r := msc_buff_read s in
  b ← get_buff r;
  if blen b =? 0 then mret true
  else
    let len := if blen b <? MSC_ENDPOINT_IN_SIZE then blen b else MSC_ENDPOINT_IN_SIZE in
    bs ← mlift (arr_slice (bdata b) (idx b) len);
    call (usb_send MSC_EP_IN bs) ;;
    set_buff r (mk_buff (bdata b) (u16 (idx b + len)) (u16 (blen b - len))) ;;
    b ← get_buff r;
    if blen b =? 0 then usb_msc_close_read_buff ;; mret true else mret false.

(** [true] when the buffer is full, or the packet a short one. *)
Definition usb_msc_read_data_from_endpoint : UM bool :=
  s ← mget;
  let w := msc_buff_write s in
  let r := msc_buff_read s in
  b ← get_buff w;
  if idx b =? MSC_BUFFER_SIZE then mret true
  else
    br ← get_buff r;
    len ← usb_recv_get_len;
    let room := u16 (MSC_BUFFER_SIZE - idx b) in
    let rlen := if len >? room then room else len in
    bs ← usb_recv rlen;
    d ← mlift (arr_blit (bdata br) (idx br) bs);
    set_buff r (mk_buff d (idx br) (blen br)) ;;
    b ← get_buff w;
    set_buff w (mk_buff (bdata b) (u16 (idx b + rlen)) (blen b)) ;;
    call (usb_recv_set_status MSC_EP_OUT STAT_RX_VALID) ;;
    b ← get_buff w;
    if (idx b =? MSC_BUFFER_SIZE) || (rlen <? MSC_ENDPOINT_OUT_SIZE) then
      usb_msc_close_write_buff (idx b) ;; mret true
    else mret false.

(** [msc_csw_t]: signature, tag, residue, status. *)
Definition csw_bytes (tag st : Z) : list Z := le_bytes 4 CSW_Signature ++ le_bytes 4 tag ++ le_bytes 4 0 ++ [st].
Definition usb_msc_build_csw (i tag st : Z) : UM unit :=
  b ← get_buff i;
  d ← mlift (arr_blit (bdata b) 0 (csw_bytes tag st));
  set_buff i (mk_buff d (idx b) (blen b)).

(** ** Commands *)

Definition msc_ev_post : UM unit := mzoom (event_post EVENT_QUEUE_APPLI tt 0) ;; mret tt.
Definition msc_ev_post_from_isr (arg : Z) : UM event_status := mzoom (event_post_from_isr EVENT_QUEUE_APPLI tt arg).

(** A command on a buffer; its length and status are returned with its result. *)
Definition run_command (i datamax : Z) : UM (scsi_cmdret * Z * Z) :=
  s ← mget;
  b ← get_buff i;
  let junk := stale (scsi_calls s - 1) in
  x ← mlift (scsi_process_command (mk_params (cnum s) (dCBWLun (cbw s)) datamax)
               (mk_sc (CBWCB (cbw s)) (bdata b) junk.1 junk.2 (mdev s)));
  let c := cbw s in
  mmod (set_cbw (mk_cbw (dCBWSignature c) (dCBWTag c) (dCBWDataTransferLength c) (dCBWFlags c) (dCBWLun c) (dCBWCBLength c) (cmd x.2))) ;;
  set_buff i (mk_buff (data x.2) (idx b) (blen b)) ;;
  mmod (set_mdev (dev x.2)) ;;
  mret (x.1, datalen x.2, status x.2).

Definition set_transfer_length (n : Z) : UM unit :=
  mmod (λ s, let c := cbw s in set_cbw (mk_cbw (dCBWSignature c) (dCBWTag c) n (dCBWFlags c) (dCBWLun c) (dCBWCBLength c) (CBWCB c)) s).

Definition send_csw : UM unit :=
  mmod (set_state MSC_STATE_STATUS_sent) ;;
  s ← mget;
  usb_msc_build_csw (msc_buff_write s) (dCBWTag (cbw s)) (msc_csw_status s) ;;
  usb_msc_close_write_buff CSW_SIZE ;;
  usb_msc_send_data_to_endpoint ;;
  mret tt.

(** Data for the host: the answer is cut to what the host asked for. *)
Definition good_in (ret : scsi_cmdret) (datalen : Z) : UM Z :=
  mmod (set_csw_status CSW_Command_Passed) ;;
  mmod (set_state MSC_STATE_DATA_IN) ;;
  s ← mget;
  let n := dCBWDataTransferLength (cbw s) in
  let datalen' := if datalen >? n then n else datalen in
  let n' := if (datalen <? n) && negb (bool_decide (ret = SCSI_CMD_PARTIAL)) then datalen else n in
  set_transfer_length (u32 (n' - datalen')) ;;
  usb_msc_close_write_buff datalen' ;;
  mret datalen'.

(** Data from the host: the first call opens the transfer, the others have used a buffer. *)
Definition good_out (datalen : Z) : UM Z :=
  s ← mget;
  (if negb (bool_decide (msc_state s = MSC_STATE_DATA_OUT)) then
    mmod (set_csw_status CSW_Command_Passed) ;;
    mmod (set_state MSC_STATE_DATA_OUT)
  else
    b ← get_buff (msc_buff_read s);
    (if negb (datalen =? blen b) then set_transfer_length datalen else mret tt) ;;
    set_buff (msc_buff_read s) (mk_buff (bdata b) (idx b) 0) ;;
    usb_msc_close_read_buff ;;
    s ← mget;
    let n := u32 (dCBWDataTransferLength (cbw s) - datalen) in
    set_transfer_length n ;;
    mmod (set_csw_status CSW_Command_Passed) ;;
    if n =? 0 then send_csw else mmod (set_state MSC_STATE_DATA_OUT)) ;;
  mret 0.

Definition usb_msc_scsi_handler (firstcall : bool) : UM Z :=
  mmod (λ s, set_cnum (if firstcall then 0 else u8 (cnum s + 1)) (S (scsi_calls s)) s) ;;
  s ← mget;
  x ← match msc_state s with
      | MSC_STATE_DATA_OUT => b ← get_buff (msc_buff_read s); run_command (msc_buff_read s) (blen b)
      | _ => run_command (msc_buff_write s) MSC_BUFFER_SIZE
      end;
  let '(ret, datalen, status) := x in
  if status =? SCSI_GOOD then
    s ← mget;
    if dCBWDataTransferLength (cbw s) >? 0 then
      if negb (Z.land (dCBWFlags (cbw s)) 0x80 =? 0) then good_in ret datalen else good_out datalen
    else
      mmod (set_csw_status CSW_Command_Passed) ;; send_csw ;; mret 0
  else
    mmod (set_csw_status CSW_Command_Failed) ;;
    mmod (set_state MSC_STATE_STATUS) ;;
    msc_ev_post ;;
    mret 0.

(** ** Events *)

Definition usb_msc_ev_handler : UM unit :=
  s ← mget;
  match msc_state s with
  | MSC_STATE_NONE => mret tt
  | MSC_STATE_READY =>
      r ← usb_msc_scsi_handler true;
      if negb (r =? 0) then
        e ← usb_msc_send_data_to_endpoint;
        if e : bool then mmod (set_state MSC_STATE_STATUS) else mret tt
      else mret tt
  | MSC_STATE_DATA_IN =>
      e ← usb_msc_send_data_to_endpoint;
      if e : bool then
        s ← mget;
        if dCBWDataTransferLength (cbw s) >? 0 then usb_msc_scsi_handler false ;; mret tt
        else mmod (set_state MSC_STATE_STATUS)
      else mret tt
  | MSC_STATE_DATA_OUT =>
      e ← usb_msc_read_data_from_endpoint;
      if e : bool then usb_msc_scsi_handler false ;; mret tt else mret tt
  | MSC_STATE_STATUS => send_csw
  | MSC_STATE_STATUS_sent => mmod (set_state MSC_STATE_NONE)
  end.

(** The task of the event queue. *)
Definition msc_task : UM (queue_entry unit) := event_task_iter (λ _ _, usb_msc_ev_handler) EVENT_QUEUE_APPLI.

(** ** Interrupts *)

Definition usb_msc_data_in (rx tx : bool) : UM unit :=
  if negb tx && rx then mret tt else msc_ev_post_from_isr 1 ;; mret tt.

Definition receive_cbw : UM unit :=
  len ← usb_recv_get_len;
  if len =? CBW_SIZE then
    bs ← usb_recv CBW_SIZE;
    c ← mlift (cbw_of_bytes bs);
    mmod (set_cbw c) ;;
    if dCBWSignature c =? CBW_Signature then
      mmod (set_state MSC_STATE_READY) ;;
      evs ← msc_ev_post_from_isr 2;
      match evs with
      | EVENT_OK => call (usb_recv_set_status MSC_EP_OUT STAT_RX_VALID)
      | EVENT_FULL => call (usb_recv_set_status MSC_EP_OUT STAT_RX_STALL)
      end
    else call (usb_recv_set_status MSC_EP_OUT STAT_RX_STALL)
  else call (usb_recv_set_status MSC_EP_OUT STAT_RX_STALL).

Definition usb_msc_data_out (rx tx : bool) : UM unit :=
  if negb rx && tx then mret tt
  else
    s ← mget;
    match msc_state s with
    | MSC_STATE_NONE | MSC_STATE_STATUS | MSC_STATE_STATUS_sent => receive_cbw
    | MSC_STATE_READY | MSC_STATE_DATA_OUT => msc_ev_post_from_isr 2 ;; mret tt
    | MSC_STATE_DATA_IN =>
        mmod (set_state MSC_STATE_NONE) ;;
        call (usb_recv_set_status MSC_EP_OUT STAT_RX_STALL) ;;
        mfail EHalt
    end.

(** ** Requests on the control endpoint; [interface] is the one the request is for. *)

Definition usb_msc_class_interface (interface : Z) (req : request) : UM unit :=
  if interface =? DFU_INTERFACE then
    s ← mget;
    let x := usb_dfu_class_interface req (mdfu s) in
    mmod (set_mdfu x.1) ;; mmod (add_call x.2)
  else if bRequest req =? MSC_BULK_ONLY_GET_MAX_LUN then call (usb_send 0 [u8 scsi_max_lun])
  else if bRequest req =? MSC_BULK_ONLY_STORAGE_RESET then usb_msc_reset ;; call (usb_send_set_status 0 STAT_TX_VALID)
  else mret tt.

Definition usb_msc_standard_endpoint (req : request) : UM unit :=
  if bRequest req =? 1 then usb_msc_reset else mret tt.
End msc.
#[global] Arguments msc D : clear implicits.
End Msc.
