(* ===== verification/MscSpec.v ===== *)
(** * Transfers of the mass storage class

    Whole commands, from the command block to the status, over any unit that keeps the
    promise [BlockUnit]: what the host receives, what the unit stores, and the calls that
    answer with what they found in memory. *)

From stdpp Require Import base numbers list.
From S2P Require Import Prelude Packer Event Scsi ScsiSpec Dfu Msc.

Module MscSpec.
Import Event Scsi ScsiSpec Dfu Msc.

Section msc.
Context {D : Type} {build : Build} {env : ScsiEnv D} {menv : MscEnv}.
Implicit Types (c : msc_cbw) (d : D) (ev : events unit) (cs : list usb_call).

(** A state, with its one buffer. *)
Definition st c q csw (b : msc_data_buff) cn k d df ev pk cs : msc D := mk_msc c q csw [b] 0 0 cn k d df ev pk cs.

(** ** Steps on the buffer *)

Lemma close_write_st c q csw dt i n cn k d df ev pk cs : 0 <= n < 65536 ->
  usb_msc_close_write_buff n (st c q csw (mk_buff dt i 0) cn k d df ev pk cs) = Ok (tt, st c q csw (mk_buff dt 0 n) cn k d df ev pk cs).
Proof. intros Hn. unfold usb_msc_close_write_buff. mrun. cbn. by rewrite u16_id by lia. Qed.

Lemma get_buff_st c q csw b cn k d df ev pk cs : get_buff 0 (st c q csw b cn k d df ev pk cs) = Ok (b, st c q csw b cn k d df ev pk cs).
Proof. done. Qed.
Lemma set_buff_st c q csw b b' cn k d df ev pk cs : set_buff 0 b' (st c q csw b cn k d df ev pk cs) = Ok (tt, st c q csw b' cn k d df ev pk cs).
Proof. done. Qed.
Lemma call_st c q csw b cn k d df ev pk cs x : call x (st c q csw b cn k d df ev pk cs) = Ok (tt, st c q csw b cn k d df ev pk (cs ++ [x])).
Proof. done. Qed.

Lemma slice_part (l : list Z) i n : 0 <= i -> 0 <= n -> i + n <= Z.of_nat (length l) -> arr_slice l i n = Ok (part l i n).
Proof. intros Hi Hn Hl. unfold arr_slice. by rewrite decide_True by lia. Qed.

Lemma send_st c q csw dt i n cn k d df ev pk cs : length dt = 512%nat -> 0 <= i -> 0 < n -> i + n <= 512 ->
  usb_msc_send_data_to_endpoint (st c q csw (mk_buff dt i n) cn k d df ev pk cs) =
  Ok (n <=? 64, st c q csw (if n <=? 64 then mk_buff dt 0 0 else mk_buff dt (i + 64) (n - 64)) cn k d df ev pk
                  (cs ++ [usb_send MSC_EP_IN (part dt i (Z.min n 64))])).
Proof.
  intros Hl Hi Hn Hb. unfold usb_msc_send_data_to_endpoint. mrun. change (msc_buff_read (st _ _ _ _ _ _ _ _ _ _ _)) with 0. mstep (get_buff_st c q csw (mk_buff dt i n) cn k d df ev pk cs).
  cbn [blen idx bdata]. destruct (Z.eqb_spec n 0); [lia|]. unfold MSC_ENDPOINT_IN_SIZE.
  assert ((if n <? 64 then n else 64) = Z.min n 64) as -> by (destruct (Z.ltb_spec n 64); lia).
  rewrite slice_part by lia. mrun. rewrite (bind_ok _ _ _ _ _ (call_st _ _ _ _ _ _ _ _ _ _ _ _)). rewrite (bind_ok _ _ _ _ _ (set_buff_st _ _ _ _ _ _ _ _ _ _ _ _)).
  rewrite (bind_ok _ _ _ _ _ (get_buff_st _ _ _ _ _ _ _ _ _ _ _)). cbn [blen]. rewrite (u16_id (i + _)), u16_id by lia.
  destruct (Z.leb_spec n 64).
  - replace (n - Z.min n 64) with 0 by lia. cbn [Z.eqb]. unfold usb_msc_close_read_buff. mrun. done.
  - replace (Z.min n 64) with 64 by lia. by destruct (Z.eqb_spec (n - 64) 0); [lia|].
Qed.

Lemma csw_length tag x : length (csw_bytes tag x) = 13%nat.
Proof. done. Qed.

(** The status goes in one packet. *)
Lemma send_csw_st c q csw dt i cn k d df ev pk cs : length dt = 512%nat ->
  exists dt', send_csw (st c q csw (mk_buff dt i 0) cn k d df ev pk cs) =
    Ok (tt, st c MSC_STATE_STATUS_sent csw (mk_buff dt' 0 0) cn k d df ev pk (cs ++ [usb_send MSC_EP_IN (csw_bytes (dCBWTag c) csw)])) /\ length dt' = 512%nat.
Proof.
  intros Hl. set (dt' := csw_bytes (dCBWTag c) csw ++ drop 13 dt).
  assert (length dt' = 512%nat) as Hl' by (unfold dt'; rewrite length_app, length_drop, csw_length; lia).
  exists dt'. split; [|done]. unfold send_csw. mrun. change (msc_buff_write (set_state _ _)) with 0. unfold usb_msc_build_csw. mrun.
  change (set_state MSC_STATE_STATUS_sent (st c q csw (mk_buff dt i 0) cn k d df ev pk cs)) with (st c MSC_STATE_STATUS_sent csw (mk_buff dt i 0) cn k d df ev pk cs).
  mstep (get_buff_st c MSC_STATE_STATUS_sent csw (mk_buff dt i 0) cn k d df ev pk cs). cbn [bdata idx blen].
  assert (arr_blit dt 0 (csw_bytes (dCBWTag c) csw) = Ok dt') as E by (unfold arr_blit; rewrite csw_length, decide_True by lia; done).
  change (cbw (st c _ _ _ _ _ _ _ _ _ _)) with c. change (msc_csw_status (st _ _ csw _ _ _ _ _ _ _ _)) with csw. rewrite E. mrun.
  mstep (set_buff_st c MSC_STATE_STATUS_sent csw (mk_buff dt i 0) (mk_buff dt' i 0) cn k d df ev pk cs).
  erewrite bind_ok by (apply close_write_st; unfold CSW_SIZE; lia). erewrite bind_ok by (apply send_st; unfold CSW_SIZE; lia).
  unfold CSW_SIZE. change (13 <=? 64) with true. cbn iota. unfold dt' at 2. rewrite part_app_l by (rewrite ?csw_length; lia). done.
Qed.

(** ** Turns: an interrupt of the IN endpoint, and the event it posts *)

Definition idle ev : Prop := queues ev EVENT_QUEUE_APPLI = Some [].
Definition posted (arg : Z) ev : events unit :=
  set_current EVENT_QUEUE_APPLI (Some (mk_entry tt arg)) (set_queue EVENT_QUEUE_APPLI (Some []) (set_current EVENT_QUEUE_APPLI None (set_queue EVENT_QUEUE_APPLI (Some [mk_entry tt arg]) ev))).
Lemma posted_idle arg ev : idle (posted arg ev).
Proof. done. Qed.

Hypothesis Hqueue : (0 < EVENT_QUEUE_LENGTH)%nat.
Definition in_turn : M (msc D) unit := usb_msc_data_in false true ;; msc_task ;; mret tt.

Lemma post_isr (s : msc D) arg : idle (mevs s) ->
  msc_ev_post_from_isr arg s = Ok (EVENT_OK, set_mevs (set_queue EVENT_QUEUE_APPLI (Some [mk_entry tt arg]) (mevs s)) s).
Proof.
  intros Hi. unfold msc_ev_post_from_isr. erewrite zoom_ok; [reflexivity|]. unfold event_post_from_isr, queue_send. change (view s) with (mevs s).
  unfold mbind, M_bind. unfold idle in Hi. rewrite Hi. cbn [length]. rewrite (proj2 (Nat.ltb_lt _ _) Hqueue). done.
Qed.
Lemma msc_task_turn (s : msc D) arg s' : queues (mevs s) EVENT_QUEUE_APPLI = Some [mk_entry tt arg] ->
  usb_msc_ev_handler (set_mevs (set_current EVENT_QUEUE_APPLI (Some (mk_entry tt arg)) (set_queue EVENT_QUEUE_APPLI (Some []) (set_current EVENT_QUEUE_APPLI None (mevs s)))) s) = Ok (tt, s') ->
  msc_task s = Ok (mk_entry tt arg, s').
Proof.
  intros Hq E. unfold msc_task, event_task_iter. erewrite bind_ok by (by eapply zoom_ok).
  erewrite bind_ok. 2: { eapply zoom_ok. unfold queue_receive. cbn [view mevs_lens mevs over set_mevs queues set_current]. by rewrite Hq. }
  erewrite bind_ok by (by eapply zoom_ok). cbn [view mevs_lens mevs over set_mevs]. erewrite bind_ok; [done|]. cbn. exact E.
Qed.
Lemma in_turn_st c q csw b cn k d df ev pk cs s' : idle ev ->
  usb_msc_ev_handler (st c q csw b cn k d df (posted 1 ev) pk cs) = Ok (tt, s') -> in_turn (st c q csw b cn k d df ev pk cs) = Ok (tt, s').
Proof.
  intros Hi E. unfold in_turn, usb_msc_data_in. cbn [negb andb]. mrun. erewrite bind_ok by (by apply post_isr). mrun.
  erewrite bind_ok; [|eapply msc_task_turn; [done|exact E]]. done.
Qed.

(** ** Commands on a unit *)

Context (u : scsi_lun_t D) (size : Z) (sector : D -> Z -> list Z) (good : D -> Prop) {unit_ok : BlockUnit u size sector good}.

(** A command block for [m] sectors from [lba], of which [n] bytes are to come. *)
Definition request c op lba m n : Prop :=
  cdb (CBWCB c) op lba m /\ dCBWDataTransferLength c = n /\ arr_get scsi_lun (dCBWLun c) = Ok u.
(** The command goes on: the same tag, direction and unit. *)
Definition goes_on c c' : Prop := dCBWTag c' = dCBWTag c /\ dCBWFlags c' = dCBWFlags c /\ dCBWLun c' = dCBWLun c.
Definition same_disk d d' : Prop := forall a, 0 <= a < size -> sector d' a = sector d a.

Lemma process_read10 p (s : sc D) lba m f : cdb (cmd s) SCSI_READ10 lba m -> arr_get scsi_lun (lun p) = Ok u -> lun_read10 u = Some f ->
  scsi_process_command p s = f p s.
Proof.
  intros (_ & E & _) Hu Hf. unfold scsi_process_command, cmd_byte. mrun. rewrite E. change (find_command SCSI_READ10 scsi_cdb_list) with (scsi_cmd_read10 (D := D)).
  unfold scsi_cmd_read10, get_lun. mrun. rewrite Hu. by rewrite Hf.
Qed.
Lemma process_write10 p (s : sc D) lba m f : cdb (cmd s) SCSI_WRITE10 lba m -> arr_get scsi_lun (lun p) = Ok u -> lun_write10 u = Some f ->
  scsi_process_command p s = f p s.
Proof.
  intros (_ & E & _) Hu Hf. unfold scsi_process_command, cmd_byte. mrun. rewrite E. change (find_command SCSI_WRITE10 scsi_cdb_list) with (scsi_cmd_write10 (D := D)).
  unfold scsi_cmd_write10, get_lun. mrun. rewrite Hu. by rewrite Hf.
Qed.

Definition with_cb c cb : msc_cbw := mk_cbw (dCBWSignature c) (dCBWTag c) (dCBWDataTransferLength c) (dCBWFlags c) (dCBWLun c) (dCBWCBLength c) cb.
Definition with_length c n : msc_cbw := mk_cbw (dCBWSignature c) (dCBWTag c) n (dCBWFlags c) (dCBWLun c) (dCBWCBLength c) (CBWCB c).

(** A sector is read into the buffer; the block is that of the rest. *)
Lemma run_read10 c q csw dt i n cn k d df ev pk cs lba m : length dt = 512%nat -> good d -> request c SCSI_READ10 lba m (512 * m) -> 1 <= m -> lba + m <= size ->
  exists cb d', run_command 0 512 (st c q csw (mk_buff dt i n) cn k d df ev pk cs) =
      Ok (if m =? 1 then SCSI_CMD_DONE else SCSI_CMD_PARTIAL, 512, SCSI_GOOD, st (with_cb c cb) q csw (mk_buff (sector d lba) i n) cn k d' df ev pk cs) /\
    good d' /\ same_disk d d' /\ (2 <= m -> cdb cb SCSI_READ10 (lba + 1) (m - 1)).
Proof.
  intros Hl Hg (Hc & _ & Hu) Hm Hb. destruct unit_read10 as (f & Hf & R). pose proof (unit_size (BlockUnit := unit_ok)) as Hsz.
  unfold run_command. mrun. mstep (get_buff_st c q csw (mk_buff dt i n) cn k d df ev pk cs). cbn [bdata idx blen].
  set (s := mk_sc _ _ _ _ _). set (p := mk_params _ _ _). rewrite (process_read10 p s lba m f) by done.
  destruct (R p s SCSI_READ10 lba m Hg Hc Hm Hb Hl eq_refl) as (d' & E & Hg' & Hs). rewrite E.
  destruct (Z.eqb_spec m 1) as [->|Hne].
  - rewrite transfer_last. mrun. exists (CBWCB c), d'. split; [done|]. split; [done|]. split; [done|lia].
  - destruct (transfer_next (set_data (sector (dev s) lba) (set_dev d' s)) SCSI_READ10 lba m Hc) as (cb & -> & Hcb); [lia|lia|]. mrun.
    exists cb, d'. split; [done|]. split; [done|]. split; [done|]. by intros _.
Qed.

(** The same for a call of the handler that has data for the host. *)
Lemma handler_read10 first c q csw dt i cn k d df ev pk cs lba m :
  q <> MSC_STATE_DATA_OUT -> length dt = 512%nat -> good d -> request c SCSI_READ10 lba m (512 * m) -> Z.land (dCBWFlags c) 0x80 <> 0 -> 1 <= m -> lba + m <= size ->
  exists c' cn' d', usb_msc_scsi_handler first (st c q csw (mk_buff dt i 0) cn k d df ev pk cs) =
      Ok (512, st c' MSC_STATE_DATA_IN CSW_Command_Passed (mk_buff (sector d lba) 0 512) cn' (S k) d' df ev pk cs) /\
    good d' /\ same_disk d d' /\ goes_on c c' /\ dCBWDataTransferLength c' = 512 * (m - 1) /\ (2 <= m -> cdb (CBWCB c') SCSI_READ10 (lba + 1) (m - 1)).
Proof.
  intros Hq Hl Hg Hr Hfl Hm Hb. set (cn' := if first then 0 else u8 (cn + 1)).
  destruct (run_read10 c q csw dt i 0 cn' (S k) d df ev pk cs lba m Hl Hg Hr Hm Hb) as (cb & d' & E & Hg' & Hs & Hcb).
  pose proof Hr as (Hcd & Hn & _). assert (m <= 65535) by (destruct Hcd as (_ & _ & _ & _ & _ & H); lia).
  exists (with_length (with_cb c cb) (512 * (m - 1))), cn', d'. split; [|done].
  unfold usb_msc_scsi_handler. mrun. fold cn'. change (set_cnum _ _ (st _ _ _ _ _ _ _ _ _ _ _)) with (st c q csw (mk_buff dt i 0) cn' (S k) d df ev pk cs).
  rewrite (bind_ok _ _ _ (if m =? 1 then SCSI_CMD_DONE else SCSI_CMD_PARTIAL, 512, SCSI_GOOD) (st (with_cb c cb) q csw (mk_buff (sector d lba) i 0) cn' (S k) d' df ev pk cs)).
  2: { change (msc_state (st c q csw _ _ _ _ _ _ _ _)) with q. destruct q; (done || exact E). }
  change (SCSI_GOOD =? SCSI_GOOD) with true. cbn iota. mrun. change (dCBWDataTransferLength (cbw (st (with_cb c cb) _ _ _ _ _ _ _ _ _ _))) with (dCBWDataTransferLength c).
  rewrite Hn. destruct (Z.gtb_spec (512 * m) 0); [|lia]. change (dCBWFlags (cbw (st (with_cb c cb) _ _ _ _ _ _ _ _ _ _))) with (dCBWFlags c).
  rewrite (proj2 (Z.eqb_neq _ _) Hfl). cbn [negb]. unfold good_in, set_transfer_length. mrun.
  change (dCBWDataTransferLength (cbw (set_state _ (set_csw_status _ (st (with_cb c cb) _ _ _ _ _ _ _ _ _ _))))) with (dCBWDataTransferLength c). rewrite Hn.
  destruct (Z.gtb_spec 512 (512 * m)); [lia|].
  assert ((if (512 <? 512 * m) && negb (bool_decide ((if m =? 1 then SCSI_CMD_DONE else SCSI_CMD_PARTIAL) = SCSI_CMD_PARTIAL)) then 512 else 512 * m) = 512 * m) as ->.
  { destruct (Z.eqb_spec m 1) as [->|Hne]; [done|]. rewrite bool_decide_eq_true_2 by done. by rewrite andb_false_r. }
  rewrite u32_id by lia. replace (512 * m - 512) with (512 * (m - 1)) by lia.
  erewrite bind_ok; [|apply (close_write_st (with_length (with_cb c cb) (512 * (m - 1))) MSC_STATE_DATA_IN CSW_Command_Passed (sector d lba) i 512 cn' (S k) d' df ev pk cs); lia]. done.
Qed.

(** ** Reading *)

Fixpoint turns (n : nat) : M (msc D) unit := match n with O => mret tt | Datatypes.S n => in_turn ;; turns n end.
Lemma turns_add a b s s' : turns a s = Ok (tt, s') -> turns (a + b) s = turns b s'.
Proof.
  revert s. induction a as [|a IH]; intros s E; cbn [turns Nat.add] in *; [by injection E as ->|].
  apply bind_inv in E as ([] & s1 & E1 & E2). rewrite (bind_ok _ _ _ _ _ E1). by apply IH.
Qed.

(** The packets of a sector. *)
Definition packet (dt : list Z) (i : nat) : usb_call := usb_send MSC_EP_IN (part dt (64 * Z.of_nat i) 64).
Definition block_calls (dt : list Z) : list usb_call := packet dt <$> seq 0 8.
Definition sectors d (lba : Z) (m : nat) : list (list Z) := (λ i, sector d (lba + Z.of_nat i)) <$> seq 0 m.
Lemma sectors_next d d' lba m : same_disk d d' -> 0 <= lba -> lba + Z.of_nat (S m) <= size -> sectors d lba (S m) = sector d lba :: sectors d' (lba + 1) m.
Proof.
  intros Hs H0 Hl. unfold sectors. cbn [seq]. rewrite fmap_cons, Z.add_0_r. f_equal. rewrite <- seq_shift, <- list_fmap_compose. apply list_fmap_ext. intros i j Hi.
  apply lookup_seq in Hi. cbn. rewrite Hs by lia. f_equal. lia.
Qed.

Lemma data_in_more c csw dt i n cn k d df ev pk cs : idle ev -> length dt = 512%nat -> 0 <= i -> 64 < n -> i + n <= 512 ->
  in_turn (st c MSC_STATE_DATA_IN csw (mk_buff dt i n) cn k d df ev pk cs) =
  Ok (tt, st c MSC_STATE_DATA_IN csw (mk_buff dt (i + 64) (n - 64)) cn k d df (posted 1 ev) pk (cs ++ [usb_send MSC_EP_IN (part dt i 64)])).
Proof.
  intros He Hl Hi Hn Hb. apply in_turn_st; [done|]. unfold usb_msc_ev_handler. mrun. change (msc_state (st _ MSC_STATE_DATA_IN _ _ _ _ _ _ _ _ _)) with MSC_STATE_DATA_IN. cbn iota.
  rewrite (bind_ok _ _ _ _ _ (send_st c MSC_STATE_DATA_IN csw dt i n cn k d df (posted 1 ev) pk cs Hl Hi ltac:(lia) Hb)). destruct (Z.leb_spec n 64); [lia|]. rewrite Z.min_r by lia. done.
Qed.
(** [r] packets of a sector, the last one apart. *)
Lemma data_in_packets r c csw dt cn k d df ev pk cs : (r <= 7)%nat -> idle ev -> length dt = 512%nat ->
  exists ev', idle ev' /\ turns r (st c MSC_STATE_DATA_IN csw (mk_buff dt (512 - 64 * Z.of_nat (S r)) (64 * Z.of_nat (S r))) cn k d df ev pk cs) =
    Ok (tt, st c MSC_STATE_DATA_IN csw (mk_buff dt 448 64) cn k d df ev' pk (cs ++ (packet dt <$> seq (7 - r) r))).
Proof.
  revert ev cs. induction r as [|r IH]; intros ev cs Hr He Hl; [exists ev; split; [done|]; by rewrite app_nil_r|].
  cbn [turns]. rewrite (bind_ok _ _ _ _ _ (data_in_more c csw dt (512 - 64 * Z.of_nat (S (S r))) (64 * Z.of_nat (S (S r))) cn k d df ev pk cs He Hl ltac:(lia) ltac:(lia) ltac:(lia))).
  replace (512 - 64 * Z.of_nat (S (S r)) + 64) with (512 - 64 * Z.of_nat (S r)) by lia. replace (64 * Z.of_nat (S (S r)) - 64) with (64 * Z.of_nat (S r)) by lia.
  destruct (IH (posted 1 ev) (cs ++ [usb_send MSC_EP_IN (part dt (512 - 64 * Z.of_nat (S (S r))) 64)])) as (ev' & He' & E); [lia|done|done|]. exists ev'. split; [done|].
  rewrite E. do 3 f_equal. rewrite <- app_assoc. f_equal. replace (7 - r)%nat with (S (7 - S r)) by lia. cbn [seq]. rewrite fmap_cons. cbn [app]. unfold packet at 2. do 3 f_equal. lia.
Qed.

(** The last packet of a sector, and the sectors that are left. *)
Lemma finish_read m c dt cn k d df ev pk cs lba :
  idle ev -> length dt = 512%nat -> good d -> dCBWDataTransferLength c = 512 * Z.of_nat m -> Z.land (dCBWFlags c) 0x80 <> 0 ->
  arr_get scsi_lun (dCBWLun c) = Ok u -> ((0 < m)%nat -> cdb (CBWCB c) SCSI_READ10 lba (Z.of_nat m)) -> 0 <= lba -> lba + Z.of_nat m <= size ->
  exists c' dt' cn' k' d' ev', turns (1 + 8 * m) (st c MSC_STATE_DATA_IN CSW_Command_Passed (mk_buff dt 448 64) cn k d df ev pk cs) =
      Ok (tt, st c' MSC_STATE_STATUS CSW_Command_Passed (mk_buff dt' 0 0) cn' k' d' df ev' pk (cs ++ packet dt 7 :: concat (block_calls <$> sectors d lba m))) /\
    idle ev' /\ length dt' = 512%nat /\ good d' /\ same_disk d d' /\ goes_on c c'.
Proof.
  revert c dt cn k d ev cs lba. induction m as [|m IH]; intros c dt cn k d ev cs lba He Hl Hg Hn Hfl Hu Hc H0 Hb.
  all: pose proof (send_st c MSC_STATE_DATA_IN CSW_Command_Passed dt 448 64 cn k d df (posted 1 ev) pk cs Hl ltac:(lia) ltac:(lia) ltac:(lia)) as Snd; change (64 <=? 64) with true in Snd; cbn iota in Snd.
  - exists c, dt, cn, k, d, (posted 1 ev). split; [|split; [done|split; [done|split; [done|by repeat split]]]].
    cbn [Nat.mul Nat.add turns]. erewrite bind_ok; [done|]. apply in_turn_st; [done|]. unfold usb_msc_ev_handler. mrun.
    change (msc_state (st _ MSC_STATE_DATA_IN _ _ _ _ _ _ _ _ _)) with MSC_STATE_DATA_IN. cbn iota. rewrite (bind_ok _ _ _ _ _ Snd). mrun.
    change (dCBWDataTransferLength (cbw (st c _ _ _ _ _ _ _ _ _ _))) with (dCBWDataTransferLength c). by rewrite Hn.
  - destruct (handler_read10 false c MSC_STATE_DATA_IN CSW_Command_Passed dt 0 cn k d df (posted 1 ev) pk (cs ++ [packet dt 7]) lba (Z.of_nat (S m)))
      as (c2 & cn2 & d2 & E2 & Hg2 & Hs2 & (T1 & T2 & T3) & Hn2 & Hc2); [done|done|done|split; [apply Hc; lia|done]|done|lia|lia|].
    assert (length (sector d lba) = 512%nat) as Hl2 by (apply unit_sector; [done|lia]).
    destruct (data_in_packets 7 c2 CSW_Command_Passed (sector d lba) cn2 (S k) d2 df (posted 1 ev) pk (cs ++ [packet dt 7]) ltac:(lia) (posted_idle 1 ev) Hl2) as (ev2 & He2 & E3).
    destruct (IH c2 (sector d lba) cn2 (S k) d2 ev2 ((cs ++ [packet dt 7]) ++ (packet (sector d lba) <$> seq 0 7)) (lba + 1)) as (c3 & dt3 & cn3 & k3 & d3 & ev3 & E4 & He3 & Hl3 & Hg3 & Hs3 & (U1 & U2 & U3)).
    { done. } { done. } { done. } { rewrite Hn2. f_equal. lia. } { by rewrite T2. } { by rewrite T3. }
    { intros Hm. replace (Z.of_nat m) with (Z.of_nat (S m) - 1) by lia. apply Hc2. lia. } { lia. } { lia. }
    exists c3, dt3, cn3, k3, d3, ev3. split; [|split; [done|split; [done|split; [done|split]]]].
    + replace (1 + 8 * S m)%nat with (S (7 + (1 + 8 * m))) by lia. cbn [turns].
      rewrite (bind_ok _ _ _ tt (st c2 MSC_STATE_DATA_IN CSW_Command_Passed (mk_buff (sector d lba) 0 512) cn2 (S k) d2 df (posted 1 ev) pk (cs ++ [packet dt 7]))).
      * rewrite (turns_add _ _ _ _ E3). etransitivity; [exact E4|]. do 3 f_equal. rewrite (sectors_next d d2 lba m) by (done || lia). rewrite fmap_cons. cbn [concat]. rewrite <- !app_assoc. done.
      * apply in_turn_st; [done|]. unfold usb_msc_ev_handler. mrun. change (msc_state (st _ MSC_STATE_DATA_IN _ _ _ _ _ _ _ _ _)) with MSC_STATE_DATA_IN. cbn iota.
        rewrite (bind_ok _ _ _ _ _ Snd). mrun.
        change (dCBWDataTransferLength (cbw (st c _ _ _ _ _ _ _ _ _ _))) with (dCBWDataTransferLength c). rewrite Hn. destruct (Z.gtb_spec (512 * Z.of_nat (S m)) 0); [|lia].
        erewrite bind_ok; [done|]. exact E2.
    + intros a Ha. rewrite Hs3, Hs2 by done. done.
    + split; [congruence|]. split; congruence.
Qed.
End msc.
End MscSpec.
