(* ===== verification/MscRead.v ===== *)
(** * Reads of the mass storage class, from the command block to the status *)

From stdpp Require Import base numbers list.
From S2P Require Import Prelude Packer Event Scsi ScsiSpec ScsiSd Dfu Msc MscSpec.

Module MscRead.
Import Packer Event Scsi ScsiSpec ScsiSd Dfu Msc MscSpec.

(** ** The packet of a command block *)

Definition cbw_bytes (c : msc_cbw) : list Z :=
  le_bytes 4 (dCBWSignature c) ++ le_bytes 4 (dCBWTag c) ++ le_bytes 4 (dCBWDataTransferLength c) ++
  le_bytes 1 (dCBWFlags c) ++ le_bytes 1 (dCBWLun c) ++ le_bytes 1 (dCBWCBLength c) ++ CBWCB c.
Definition cbw_ok (c : msc_cbw) : Prop :=
  dCBWSignature c = CBW_Signature /\ is_u32 (dCBWTag c) /\ is_u32 (dCBWDataTransferLength c) /\
  is_u8 (dCBWFlags c) /\ is_u8 (dCBWLun c) /\ is_u8 (dCBWCBLength c) /\ length (CBWCB c) = 16%nat.

Lemma rd_app n a v b off : off = Z.of_nat (length a) -> 0 <= v < 256 ^ Z.of_nat n -> rd n (a ++ le_bytes n v ++ b) off = Ok v.
Proof.
  intros -> Hv. unfold rd. rewrite slice_part by (rewrite ?length_app, ?le_bytes_length; lia). cbn [mbind res_bind]. unfold part.
  rewrite !Nat2Z.id, drop_app_length, take_app_length' by (by rewrite le_bytes_length).
  by rewrite le_value_bytes, Z.mod_small.
Qed.

(** The structure that the device sees in the packet of a block is the block. *)
Lemma cbw_of_bytes_ok c : cbw_ok c -> cbw_of_bytes (cbw_bytes c) = Ok c.
Proof.
  intros (Hs & Ht & Hn & Hf & Hl & Hc & Hb). destruct c as [g t n fl l cl cb]; cbn [dCBWSignature dCBWTag dCBWDataTransferLength dCBWFlags dCBWLun dCBWCBLength CBWCB] in *.
  set (b4 := le_bytes 4). set (b1 := le_bytes 1). set (pk := cbw_bytes _).
  assert (rd 4 pk 0 = Ok g) as E1 by (apply (rd_app 4 [] g _ 0); [done|by rewrite Hs]).
  assert (rd 4 pk 4 = Ok t) as E2 by (by apply (rd_app 4 (b4 g) t _ 4)).
  assert (rd 4 pk 8 = Ok n) as E3 by (by apply (rd_app 4 (b4 g ++ b4 t) n _ 8)).
  assert (rd 1 pk 12 = Ok fl) as E4 by (by apply (rd_app 1 (b4 g ++ b4 t ++ b4 n) fl _ 12)).
  assert (rd 1 pk 13 = Ok l) as E5 by (by apply (rd_app 1 (b4 g ++ b4 t ++ b4 n ++ b1 fl) l _ 13)).
  assert (rd 1 pk 14 = Ok cl) as E6 by (by apply (rd_app 1 (b4 g ++ b4 t ++ b4 n ++ b1 fl ++ b1 l) cl _ 14)).
  assert (length pk = 31%nat) as Lp by (unfold pk, cbw_bytes; cbn [dCBWSignature dCBWTag dCBWDataTransferLength dCBWFlags dCBWLun dCBWCBLength CBWCB]; by rewrite !length_app, !le_bytes_length, Hb).
  assert (arr_slice pk 15 16 = Ok cb) as E7 by (rewrite slice_part by lia; f_equal; change (part pk 15 16) with (take 16 cb); by apply take_ge; lia).
  unfold cbw_of_bytes. rewrite E1, E2, E3, E4, E5, E6, E7. done.
Qed.
Lemma cbw_bytes_length c : cbw_ok c -> length (cbw_bytes c) = 31%nat.
Proof. intros (_ & _ & _ & _ & _ & _ & Hb). unfold cbw_bytes. rewrite !length_app, !le_bytes_length, Hb. done. Qed.

Section msc.
Context {D : Type} {build : Build} {env : ScsiEnv D} {menv : MscEnv}.
Hypothesis Hqueue : (0 < EVENT_QUEUE_LENGTH)%nat.

(** A packet of the host, and the event its interrupt posts. *)
Definition out_turn (pk : list Z) : M (msc D) unit := mmod (set_packet pk) ;; usb_msc_data_out true false ;; msc_task ;; mret tt.

(** The states in which a command block is read. *)
Definition waiting (q : msc_state_t) : Prop := q = MSC_STATE_NONE \/ q = MSC_STATE_STATUS \/ q = MSC_STATE_STATUS_sent.
Definition rx_valid : usb_call := usb_recv_set_status MSC_EP_OUT STAT_RX_VALID.

Lemma receive_st c0 q csw b cn k d df ev pk0 cs c : waiting q -> idle ev -> cbw_ok c ->
  usb_msc_data_out true false (set_packet (cbw_bytes c) (st (D := D) c0 q csw b cn k d df ev pk0 cs)) =
  Ok (tt, st c MSC_STATE_READY csw b cn k d df (set_queue EVENT_QUEUE_APPLI (Some [mk_entry tt 2]) ev) (cbw_bytes c) (cs ++ [rx_valid])).
Proof.
  intros Hq He Hc. unfold usb_msc_data_out. cbn [negb andb]. mrun. change (msc_state (set_packet _ (st c0 q _ _ _ _ _ _ _ _ _))) with q.
  assert (receive_cbw (set_packet (cbw_bytes c) (st (D := D) c0 q csw b cn k d df ev pk0 cs)) =
    Ok (tt, st c MSC_STATE_READY csw b cn k d df (set_queue EVENT_QUEUE_APPLI (Some [mk_entry tt 2]) ev) (cbw_bytes c) (cs ++ [rx_valid]))) as R.
  2: destruct Hq as [ -> | [ -> | -> ]]; exact R.
  unfold receive_cbw, usb_recv_get_len, usb_recv. mrun. change (out_packet (set_packet ?p _)) with p. pose proof (cbw_bytes_length c Hc) as Hl. rewrite Hl. change (Z.of_nat 31 =? CBW_SIZE) with true. cbn iota.
  mrun. change (out_packet (set_packet ?p _)) with p. rewrite slice_part by (rewrite ?Hl; unfold CBW_SIZE; lia). mrun. unfold part. change (Z.to_nat 0) with 0%nat. rewrite drop_0, take_ge by (rewrite Hl; unfold CBW_SIZE; lia).
  rewrite cbw_of_bytes_ok by done. mrun. destruct Hc as (Hs & _). rewrite Hs, Z.eqb_refl. mrun. erewrite bind_ok by (by apply post_isr). done.
Qed.

Lemma out_turn_start c0 q csw b cn k d df ev pk0 cs c s' : waiting q -> idle ev -> cbw_ok c ->
  usb_msc_ev_handler (st (D := D) c MSC_STATE_READY csw b cn k d df (posted 2 ev) (cbw_bytes c) (cs ++ [rx_valid])) = Ok (tt, s') ->
  out_turn (cbw_bytes c) (st c0 q csw b cn k d df ev pk0 cs) = Ok (tt, s').
Proof.
  intros Hq He Hc E. unfold out_turn. mrun. rewrite (bind_ok _ _ _ _ _ (receive_st c0 q csw b cn k d df ev pk0 cs c Hq He Hc)).
  erewrite bind_ok; [|eapply msc_task_turn; [done|exact E]]. done.
Qed.

Context (u : scsi_lun_t D) (size : Z) (sector : D -> Z -> list Z) (good : D -> Prop) {unit_ok : BlockUnit u size sector good}.

(** The first packet of a read. *)
Lemma start_read c0 q csw dt cn k d df ev pk0 cs c lba m : waiting q -> idle ev -> length dt = 512%nat -> good d -> cbw_ok c ->
  request u c SCSI_READ10 lba m (512 * m) -> Z.land (dCBWFlags c) 0x80 <> 0 -> 1 <= m -> 0 <= lba -> lba + m <= size ->
  exists c' cn' d', out_turn (cbw_bytes c) (st c0 q csw (mk_buff dt 0 0) cn k d df ev pk0 cs) =
      Ok (tt, st c' MSC_STATE_DATA_IN CSW_Command_Passed (mk_buff (sector d lba) 64 448) cn' (S k) d' df (posted 2 ev) (cbw_bytes c) ((cs ++ [rx_valid]) ++ [packet (sector d lba) 0])) /\
    good d' /\ same_disk size sector d d' /\ goes_on c c' /\ dCBWDataTransferLength c' = 512 * (m - 1) /\ (2 <= m -> cdb (CBWCB c') SCSI_READ10 (lba + 1) (m - 1)).
Proof.
  intros Hq He Hl Hg Hc Hr Hfl Hm H0 Hb.
  destruct (handler_read10 Hqueue u size sector good true c MSC_STATE_READY csw dt 0 cn k d df (posted 2 ev) (cbw_bytes c) (cs ++ [rx_valid]) lba m) as (c' & cn' & d' & E & Hrest); [done..|].
  exists c', cn', d'. split; [|done]. apply out_turn_start; [done..|]. unfold usb_msc_ev_handler. mrun.
  change (msc_state (st _ MSC_STATE_READY _ _ _ _ _ _ _ _ _)) with MSC_STATE_READY. cbn iota. mstep E. change (negb (512 =? 0)) with true. cbn iota.
  assert (length (sector d lba) = 512%nat) as Hl2 by (apply unit_sector; [done|lia]).
  erewrite bind_ok by (apply send_st; [done|lia..]). change (512 <=? 64) with false. cbn iota. done.
Qed.

(** The status, and the end of the command. *)
Lemma status_turns c dt cn k d df ev pk cs csw : idle ev -> length dt = 512%nat ->
  exists dt' ev', turns 2 (st (D := D) c MSC_STATE_STATUS csw (mk_buff dt 0 0) cn k d df ev pk cs) =
    Ok (tt, st c MSC_STATE_NONE csw (mk_buff dt' 0 0) cn k d df ev' pk (cs ++ [usb_send MSC_EP_IN (csw_bytes (dCBWTag c) csw)])) /\ idle ev' /\ length dt' = 512%nat.
Proof.
  intros He Hl. destruct (send_csw_st c MSC_STATE_STATUS csw dt 0 cn k d df (posted 1 ev) pk cs Hl) as (dt' & E & Hl'). exists dt', (posted 1 (posted 1 ev)).
  split; [|done]. cbn [turns]. erewrite bind_ok by (apply in_turn_st; [done..|]; unfold usb_msc_ev_handler; mrun; exact E). by erewrite bind_ok by (by apply in_turn_st).
Qed.

(** C6: A read of [m] sectors: the host sends the block, then takes a packet at each turn;
    it receives the sectors in order, in packets of 64 bytes, then the status with its tag and
    no error; the device is then ready for the next command, with its buffer empty and the
    sectors unchanged. *)
Theorem read10_transfer c0 q csw dt cn k d df ev pk0 cs c lba m : waiting q -> idle ev -> length dt = 512%nat -> good d -> cbw_ok c ->
  request u c SCSI_READ10 lba (Z.of_nat m) (512 * Z.of_nat m) -> Z.land (dCBWFlags c) 0x80 <> 0 -> (1 <= m)%nat -> 0 <= lba -> lba + Z.of_nat m <= size ->
  exists c' dt' cn' k' d' ev', (out_turn (cbw_bytes c) ;; turns (8 * m + 1)) (st c0 q csw (mk_buff dt 0 0) cn k d df ev pk0 cs) =
      Ok (tt, st c' MSC_STATE_NONE CSW_Command_Passed (mk_buff dt' 0 0) cn' k' d' df ev' (cbw_bytes c)
                (cs ++ rx_valid :: concat (block_calls <$> sectors sector d lba m) ++ [usb_send MSC_EP_IN (csw_bytes (dCBWTag c) CSW_Command_Passed)])) /\
    idle ev' /\ length dt' = 512%nat /\ good d' /\ same_disk size sector d d'.
Proof.
  intros Hq He Hl Hg Hc Hr Hfl Hm H0 Hb. destruct m as [|m]; [lia|].
  destruct (start_read c0 q csw dt cn k d df ev pk0 cs c lba (Z.of_nat (S m))) as (c1 & cn1 & d1 & E1 & Hg1 & Hs1 & (T1 & T2 & T3) & Hn1 & Hc1); [done || lia ..|].
  assert (length (sector d lba) = 512%nat) as Hl2 by (apply unit_sector; [done|lia]).
  destruct (data_in_packets Hqueue 6 c1 CSW_Command_Passed (sector d lba) cn1 (S k) d1 df (posted 2 ev) (cbw_bytes c) ((cs ++ [rx_valid]) ++ [packet (sector d lba) 0]) ltac:(lia) (posted_idle 2 ev) Hl2) as (ev2 & He2 & E2).
  destruct (finish_read Hqueue u size sector good m c1 (sector d lba) cn1 (S k) d1 df ev2 (cbw_bytes c) (((cs ++ [rx_valid]) ++ [packet (sector d lba) 0]) ++ (packet (sector d lba) <$> seq 1 6)) (lba + 1))
    as (c3 & dt3 & cn3 & k3 & d3 & ev3 & E3 & He3 & Hl3 & Hg3 & Hs3 & (U1 & _)).
  { done. } { done. } { done. } { rewrite Hn1. f_equal. lia. } { by rewrite T2. } { rewrite T3. apply Hr. } { intros Hm'. replace (Z.of_nat m) with (Z.of_nat (S m) - 1) by lia. apply Hc1. lia. } { lia. } { lia. }
  destruct (status_turns c3 dt3 cn3 k3 d3 df ev3 (cbw_bytes c) ((((cs ++ [rx_valid]) ++ [packet (sector d lba) 0]) ++ (packet (sector d lba) <$> seq 1 6)) ++ packet (sector d lba) 7 :: concat (block_calls <$> sectors sector d1 (lba + 1) m)) CSW_Command_Passed He3 Hl3)
    as (dt4 & ev4 & E4 & He4 & Hl4).
  exists c3, dt4, cn3, k3, d3, ev4. split.
  - rewrite (bind_ok _ _ _ _ _ E1). replace (8 * S m + 1)%nat with (6 + ((1 + 8 * m) + 2))%nat by lia. rewrite (turns_add _ _ _ _ E2), (turns_add _ _ _ _ E3), E4. do 3 f_equal.
    rewrite (sectors_next Hqueue size sector d d1 lba m) by (done || lia). rewrite fmap_cons. cbn [concat]. rewrite U1, T1, <- !app_assoc. done.
  - split; [done|]. split; [done|]. split; [done|]. intros a Ha. by rewrite Hs3, Hs1.
Qed.
End msc.

(** ** On a card *)

(** The block of a command for [n] sectors from [lba]. *)
Definition cdb_bytes (op lba n : Z) : list Z := [op; 0] ++ be32 lba ++ [0] ++ be16 n ++ replicate 7 0.
Definition transfer_block (op lba n fl : Z) : msc_cbw := mk_cbw CBW_Signature 0x12345678 (512 * n) fl 0 10 (cdb_bytes op lba n).
Definition no_events : events unit := set_queue EVENT_QUEUE_APPLI (Some []) (mk_events (λ _, None) (λ _, true) (λ _, None)).
Definition no_stale : MscEnv := {| stale _ := (7, 7) |}.
Definition device0 (q : msc_state_t) (d : sd) : msc sd := st (mk_cbw 0 0 0 0 0 0 []) q 0 (mk_buff (replicate 512 0) 0 0) 0 0 d usb_dfu_init no_events [] [].

Lemma read10_transfer_witness : let env := card_units in
  exists s', (out_turn (build := default_build) (menv := no_stale) (cbw_bytes (transfer_block SCSI_READ10 3 2 0x80)) ;; turns (build := default_build) (menv := no_stale) 17) (device0 MSC_STATE_NONE card0) = Ok (tt, s') /\
    calls s' = rx_valid :: block_calls (replicate 512 3) ++ block_calls (replicate 512 4) ++ [usb_send MSC_EP_IN (csw_bytes 0x12345678 0)].
Proof.
  intros env. destruct (read10_transfer (build := default_build) (env := card_units) (menv := no_stale) ltac:(cbn; lia) card_lun 16 card_sector card_good (unit_ok := card_unit) (mk_cbw 0 0 0 0 0 0 []) MSC_STATE_NONE 0 (replicate 512 0)
    0 0 card0 usb_dfu_init no_events [] [] (transfer_block SCSI_READ10 3 2 0x80) 3 2) as (c' & dt' & cn' & k' & d' & ev' & E & _).
  { by left. } { done. } { done. } { exact card0_good. } { done. } { done. } { done. } { lia. } { lia. } { done. }
  eexists. split; [exact E|]. done.
Defined.
End MscRead.
