(* ===== verification/MscWrite.v ===== *)
(** * Writes of the mass storage class, from the command block to the status *)

From stdpp Require Import base numbers list.
From S2P Require Import Prelude Packer Event Scsi ScsiSpec ScsiSd Dfu Msc MscSpec MscRead.

Module MscWrite.
Import Event Scsi ScsiSpec ScsiSd Dfu Msc MscSpec MscRead.

Section msc.
Context {D : Type} {build : Build} {env : ScsiEnv D} {menv : MscEnv}.
Implicit Types (c : msc_cbw) (d : D) (ev : events unit) (cs : list usb_call).

(** ** A packet in the buffer *)

Lemma recv_st c q csw dt i cn k d df ev pk cs : length dt = 512%nat -> length pk = 64%nat -> 0 <= i <= 448 ->
  usb_msc_read_data_from_endpoint (st c q csw (mk_buff dt i 0) cn k d df ev pk cs) =
  Ok (i =? 448, st c q csw (let dt' := take (Z.to_nat i) dt ++ pk ++ drop (Z.to_nat i + 64) dt in if i =? 448 then mk_buff dt' 0 512 else mk_buff dt' (i + 64) 0) cn k d df ev pk (cs ++ [rx_valid])).
Proof.
  intros Hl Hp Hi. unfold usb_msc_read_data_from_endpoint. mrun. change (msc_buff_write (st _ _ _ _ _ _ _ _ _ _ _)) with 0. change (msc_buff_read (st _ _ _ _ _ _ _ _ _ _ _)) with 0.
  mstep (get_buff_st c q csw (mk_buff dt i 0) cn k d df ev pk cs). cbn [idx bdata blen]. unfold MSC_BUFFER_SIZE. destruct (Z.eqb_spec i 512); [lia|].
  mstep (get_buff_st c q csw (mk_buff dt i 0) cn k d df ev pk cs). unfold usb_recv_get_len, usb_recv. mrun. change (out_packet (st _ _ _ _ _ _ _ _ _ pk _)) with pk. rewrite Hp.
  rewrite (u16_id (512 - i)) by lia. change (Z.of_nat 64) with 64. assert ((if 64 >? 512 - i then 512 - i else 64) = 64) as -> by (destruct (Z.gtb_spec 64 (512 - i)); lia).
  rewrite slice_part by lia. mrun. unfold part. change (Z.to_nat 0) with 0%nat. rewrite drop_0, take_ge by lia. cbn [bdata idx blen].
  unfold arr_blit. rewrite decide_True by lia. mrun. rewrite Hp. set (dt' := take (Z.to_nat i) dt ++ pk ++ _). cbn zeta.
  rewrite (bind_ok _ _ _ _ _ (set_buff_st _ _ _ _ _ _ _ _ _ _ _ _)), (bind_ok _ _ _ _ _ (get_buff_st _ _ _ _ _ _ _ _ _ _ _)). cbn [bdata idx blen]. rewrite (u16_id (i + 64)) by lia.
  rewrite (bind_ok _ _ _ _ _ (set_buff_st _ _ _ _ _ _ _ _ _ _ _ _)), (bind_ok _ _ _ _ _ (call_st _ _ _ _ _ _ _ _ _ _ _ _)), (bind_ok _ _ _ _ _ (get_buff_st _ _ _ _ _ _ _ _ _ _ _)). cbn [idx].
  change (64 <? MSC_ENDPOINT_OUT_SIZE) with false. rewrite orb_false_r.
  destruct (Z.eqb_spec i 448) as [->|Hne]; [|by destruct (Z.eqb_spec (i + 64) 512); [lia|]]. change (448 + 64) with 512. cbn [Z.eqb Pos.eqb]. erewrite bind_ok by (by apply close_write_st). done.
Qed.

Hypothesis Hqueue : (0 < EVENT_QUEUE_LENGTH)%nat.

Lemma out_turn_data c csw b cn k d df ev pk0 cs pk s' : idle ev ->
  usb_msc_ev_handler (st c MSC_STATE_DATA_OUT csw b cn k d df (posted 2 ev) pk cs) = Ok (tt, s') ->
  out_turn pk (st c MSC_STATE_DATA_OUT csw b cn k d df ev pk0 cs) = Ok (tt, s').
Proof.
  intros Hi E. unfold out_turn, usb_msc_data_out. cbn [negb andb]. mrun. change (msc_state (set_packet _ (st _ MSC_STATE_DATA_OUT _ _ _ _ _ _ _ _ _))) with MSC_STATE_DATA_OUT. cbn iota.
  rewrite bind_assoc. erewrite bind_ok by (by apply post_isr). mrun. erewrite bind_ok; [|eapply msc_task_turn; [done|exact E]]. done.
Qed.

(** ** A sector in packets *)

Fixpoint out_turns (pks : list (list Z)) : M (msc D) unit := match pks with [] => mret tt | pk :: pks => out_turn pk ;; out_turns pks end.
Lemma out_turns_app a b s s' : out_turns a s = Ok (tt, s') -> out_turns (a ++ b) s = out_turns b s'.
Proof.
  revert s. induction a as [|pk a IH]; intros s E; cbn [out_turns app] in *; [by injection E as ->|].
  apply bind_inv in E as ([] & s1 & E1 & E2). rewrite (bind_ok _ _ _ _ _ E1). by apply IH.
Qed.
Definition piece (bs : list Z) (i : nat) : list Z := part bs (64 * Z.of_nat i) 64.
Definition pieces (bs : list Z) : list (list Z) := piece bs <$> seq 0 8.
Lemma piece_length bs i : length bs = 512%nat -> (i < 8)%nat -> length (piece bs i) = 64%nat.
Proof. intros Hl Hi. unfold piece. by rewrite part_length by lia. Qed.

(** The buffer with one more packet. *)
Lemma put_piece bs dt i : length bs = 512%nat -> length dt = 512%nat -> (i < 8)%nat -> take (64 * i) dt = take (64 * i) bs ->
  let dt' := take (64 * i) dt ++ piece bs i ++ drop (64 * i + 64) dt in take (64 * S i) dt' = take (64 * S i) bs /\ length dt' = 512%nat.
Proof.
  intros Hb Hd Hi E dt'. pose proof (piece_length bs i Hb Hi) as Hp. split.
  - unfold dt'. rewrite E, app_assoc, take_app_length' by (rewrite length_app, Hp, length_take; lia). unfold piece, part.
    replace (Z.to_nat (64 * Z.of_nat i)) with (64 * i)%nat by lia. change (Z.to_nat 64) with 64%nat. replace (64 * S i)%nat with (64 * i + 64)%nat by lia. by rewrite take_take_drop.
  - unfold dt'. rewrite !length_app, Hp, length_take, length_drop. lia.
Qed.

Lemma data_out_more c csw bs dt i cn k d df ev pk0 cs : idle ev -> length bs = 512%nat -> length dt = 512%nat -> (i < 7)%nat -> take (64 * i) dt = take (64 * i) bs ->
  exists dt', out_turn (piece bs i) (st c MSC_STATE_DATA_OUT csw (mk_buff dt (64 * Z.of_nat i) 0) cn k d df ev pk0 cs) =
      Ok (tt, st c MSC_STATE_DATA_OUT csw (mk_buff dt' (64 * Z.of_nat (S i)) 0) cn k d df (posted 2 ev) (piece bs i) (cs ++ [rx_valid])) /\
    length dt' = 512%nat /\ take (64 * S i) dt' = take (64 * S i) bs.
Proof.
  intros He Hb Hd Hi E. destruct (put_piece bs dt i Hb Hd ltac:(lia) E) as [E' Hl']. eexists. split; [|split; [exact Hl'|exact E']].
  apply out_turn_data; [done|]. unfold usb_msc_ev_handler. mrun. change (msc_state (st _ MSC_STATE_DATA_OUT _ _ _ _ _ _ _ _ _)) with MSC_STATE_DATA_OUT. cbn iota.
  erewrite bind_ok by (apply recv_st; [done|by apply piece_length; [done|lia]|lia]). destruct (Z.eqb_spec (64 * Z.of_nat i) 448); [lia|]. cbn zeta.
  replace (Z.to_nat (64 * Z.of_nat i)) with (64 * i)%nat by lia. replace (64 * Z.of_nat i + 64) with (64 * Z.of_nat (S i)) by lia. done.
Qed.

(** [r] packets of a sector, the last one apart. *)
Lemma data_out_packets r c csw bs dt cn k d df ev pk0 cs : (r <= 7)%nat -> idle ev -> length bs = 512%nat -> length dt = 512%nat -> take (64 * (7 - r)) dt = take (64 * (7 - r)) bs ->
  exists ev' dt' pk', idle ev' /\ length dt' = 512%nat /\ take 448 dt' = take 448 bs /\
    out_turns (piece bs <$> seq (7 - r) r) (st c MSC_STATE_DATA_OUT csw (mk_buff dt (64 * Z.of_nat (7 - r)) 0) cn k d df ev pk0 cs) =
    Ok (tt, st c MSC_STATE_DATA_OUT csw (mk_buff dt' 448 0) cn k d df ev' pk' (cs ++ replicate r rx_valid)).
Proof.
  revert ev dt pk0 cs. induction r as [|r IH]; intros ev dt pk0 cs Hr He Hb Hd E.
  { exists ev, dt, pk0. split; [done|]. split; [done|]. split; [done|]. cbn [replicate]. by rewrite app_nil_r. }
  destruct (data_out_more c csw bs dt (7 - S r) cn k d df ev pk0 cs He Hb Hd ltac:(lia) E) as (dt1 & E1 & Hd1 & T1). replace (S (7 - S r)) with (7 - r)%nat in * by lia.
  destruct (IH (posted 2 ev) dt1 (piece bs (7 - S r)) (cs ++ [rx_valid])) as (ev2 & dt2 & pk2 & He2 & Hd2 & T2 & E2); [lia|done..|]. exists ev2, dt2, pk2. split; [done|]. split; [done|]. split; [done|].
  cbn [seq]. rewrite fmap_cons. cbn [out_turns]. rewrite (bind_ok _ _ _ _ _ E1). replace (S (7 - S r)) with (7 - r)%nat by lia. rewrite E2. do 3 f_equal. by rewrite <- app_assoc.
Qed.

(** ** A sector in the unit *)

Context (u : scsi_lun_t D) (size : Z) (sector : D -> Z -> list Z) (good : D -> Prop) {unit_ok : BlockUnit u size sector good}.

(** The call that opens the transfer, and the calls that write. *)
Lemma run_write10 c q csw dt i n cn k d df ev pk cs lba m : length dt = 512%nat -> good d -> request u c SCSI_WRITE10 lba m (512 * m) -> 1 <= m -> lba + m <= size ->
  exists r len cb d', run_command 0 512 (st c q csw (mk_buff dt i n) cn k d df ev pk cs) = Ok (r, len, SCSI_GOOD, st (with_cb c cb) q csw (mk_buff dt i n) cn k d' df ev pk cs) /\
    good d' /\ (forall a, 0 <= a < size -> sector d' a = if negb (cn =? 0) && (a =? lba) then dt else sector d a) /\
    (cn = 0 -> cb = CBWCB c) /\ (cn <> 0 -> len = 512 /\ (2 <= m -> cdb cb SCSI_WRITE10 (lba + 1) (m - 1))).
Proof.
  intros Hl Hg (Hc & _ & Hu) Hm Hb. destruct unit_write10 as (f & Hf & R). pose proof (unit_size (BlockUnit := unit_ok)) as Hsz.
  unfold run_command. mrun. mstep (get_buff_st c q csw (mk_buff dt i n) cn k d df ev pk cs). cbn [bdata idx blen].
  set (s := mk_sc _ _ _ _ _). set (p := mk_params _ _ _). rewrite (process_write10 u p s lba m f) by done.
  destruct (R p s SCSI_WRITE10 lba m Hg Hc Hm Hb Hl eq_refl) as (d' & Hg' & E & Hs). change (cont p) with cn in *. rewrite E. destruct (Z.eqb_spec cn 0) as [->|Hne].
  - mrun. eexists _, _, (CBWCB c), d'. done.
  - destruct (Z.eqb_spec m 1) as [->|H1].
    + rewrite transfer_last. mrun. eexists _, _, (CBWCB c), d'. split; [done|]. split; [done|]. split; [done|]. split; [done|]. split; [done|lia].
    + destruct (transfer_next (set_dev d' s) SCSI_WRITE10 lba m Hc) as (cb & -> & Hcb); [lia|lia|]. mrun. eexists _, _, cb, d'. split; [done|]. split; [done|]. split; [done|]. split; [done|]. by split.
Qed.

(** The first call of the handler. *)
Lemma handler_open c csw dt cn k d df ev pk cs lba m :
  length dt = 512%nat -> good d -> request u c SCSI_WRITE10 lba m (512 * m) -> Z.land (dCBWFlags c) 0x80 = 0 -> 1 <= m -> lba + m <= size ->
  exists d', usb_msc_scsi_handler true (st c MSC_STATE_READY csw (mk_buff dt 0 0) cn k d df ev pk cs) =
      Ok (0, st c MSC_STATE_DATA_OUT CSW_Command_Passed (mk_buff dt 0 0) 0 (S k) d' df ev pk cs) /\ good d' /\ same_disk size sector d d'.
Proof.
  intros Hl Hg Hr Hfl Hm Hb. destruct (run_write10 c MSC_STATE_READY csw dt 0 0 0 (S k) d df ev pk cs lba m Hl Hg Hr Hm Hb) as (r & len & cb & d' & E & Hg' & Hs & Hcb & _).
  pose proof Hr as (_ & Hn & _). exists d'. split; [|split; [done|intros a Ha; by rewrite Hs]]. unfold usb_msc_scsi_handler. mrun.
  change (set_cnum _ _ (st _ _ _ _ _ _ _ _ _ _ _)) with (st c MSC_STATE_READY csw (mk_buff dt 0 0) 0 (S k) d df ev pk cs).
  change (msc_state (st _ MSC_STATE_READY _ _ _ _ _ _ _ _ _)) with MSC_STATE_READY. cbn iota. rewrite (bind_ok _ _ _ _ _ E). rewrite Hcb by done. replace (with_cb c (CBWCB c)) with c by (by destruct c).
  change (SCSI_GOOD =? SCSI_GOOD) with true. cbn iota. mrun. change (cbw (st c _ _ _ _ _ _ _ _ _ _)) with c. rewrite Hn, Hfl. destruct (Z.gtb_spec (512 * m) 0); [|lia]. done.
Qed.

(** A call with a buffer of the host, once the command has taken it. *)
Lemma handler_out c bs cn k d df ev pk cs r len cb d' : 0 < dCBWDataTransferLength c -> Z.land (dCBWFlags c) 0x80 = 0 ->
  run_command 0 512 (st c MSC_STATE_DATA_OUT CSW_Command_Passed (mk_buff bs 0 512) (u8 (cn + 1)) (S k) d df ev pk cs) =
    Ok (r, len, SCSI_GOOD, st (with_cb c cb) MSC_STATE_DATA_OUT CSW_Command_Passed (mk_buff bs 0 512) (u8 (cn + 1)) (S k) d' df ev pk cs) ->
  let c1 := if len =? 512 then with_cb c cb else with_length (with_cb c cb) len in
  let n := u32 (dCBWDataTransferLength c1 - len) in
  usb_msc_scsi_handler false (st c MSC_STATE_DATA_OUT CSW_Command_Passed (mk_buff bs 0 512) cn k d df ev pk cs) =
  ((if n =? 0 then send_csw else mmod (set_state MSC_STATE_DATA_OUT)) ;; mret 0)
    (st (with_length c1 n) MSC_STATE_DATA_OUT CSW_Command_Passed (mk_buff bs 0 0) (u8 (cn + 1)) (S k) d' df ev pk cs).
Proof.
  intros Hn Hfl E c1 n. unfold usb_msc_scsi_handler. mrun. change (cnum (st _ _ _ _ cn _ _ _ _ _ _)) with cn.
  change (set_cnum (u8 (cn + 1)) _ (st _ _ _ _ _ _ _ _ _ _ _)) with (st c MSC_STATE_DATA_OUT CSW_Command_Passed (mk_buff bs 0 512) (u8 (cn + 1)) (S k) d df ev pk cs).
  change (msc_state (st _ MSC_STATE_DATA_OUT _ _ _ _ _ _ _ _ _)) with MSC_STATE_DATA_OUT. cbn iota. change (msc_buff_read (st _ _ _ _ _ _ _ _ _ _ _)) with 0. rewrite bind_assoc.
  rewrite (bind_ok _ _ _ _ _ (get_buff_st _ _ _ _ _ _ _ _ _ _ _)). cbn [blen]. rewrite (bind_ok _ _ _ _ _ E). change (SCSI_GOOD =? SCSI_GOOD) with true. cbn iota. mrun.
  change (dCBWDataTransferLength (cbw (st (with_cb c cb) _ _ _ _ _ _ _ _ _ _))) with (dCBWDataTransferLength c). change (dCBWFlags (cbw (st (with_cb c cb) _ _ _ _ _ _ _ _ _ _))) with (dCBWFlags c).
  rewrite Hfl. destruct (Z.gtb_spec (dCBWDataTransferLength c) 0); [|lia]. cbn [Z.eqb negb]. unfold good_out. mrun. change (msc_state (st _ MSC_STATE_DATA_OUT _ _ _ _ _ _ _ _ _)) with MSC_STATE_DATA_OUT.
  rewrite bool_decide_eq_true_2 by done. cbn [negb]. change (msc_buff_read (st _ _ _ _ _ _ _ _ _ _ _)) with 0. rewrite !bind_assoc, (bind_ok _ _ _ _ _ (get_buff_st _ _ _ _ _ _ _ _ _ _ _)). cbn [blen bdata idx].
  rewrite !bind_assoc. rewrite (bind_ok _ _ _ tt (st c1 MSC_STATE_DATA_OUT CSW_Command_Passed (mk_buff bs 0 512) (u8 (cn + 1)) (S k) d' df ev pk cs)) by (unfold c1; by destruct (len =? 512)).
  rewrite !bind_assoc, (bind_ok _ _ _ _ _ (set_buff_st _ _ _ _ _ _ _ _ _ _ _ _)), bind_assoc.
  rewrite (bind_ok _ _ _ tt (st c1 MSC_STATE_DATA_OUT CSW_Command_Passed (mk_buff bs 0 0) (u8 (cn + 1)) (S k) d' df ev pk cs)) by done. unfold set_transfer_length. mrun. done.
Qed.

(** The call with a sector in the buffer; after the last one the status is sent. *)
Lemma handler_write10 c bs cn k d df ev pk cs lba m :
  length bs = 512%nat -> good d -> request u c SCSI_WRITE10 lba m (512 * m) -> Z.land (dCBWFlags c) 0x80 = 0 -> 1 <= m -> lba + m <= size -> 0 <= cn < 255 ->
  exists c' d' dt', usb_msc_scsi_handler false (st c MSC_STATE_DATA_OUT CSW_Command_Passed (mk_buff bs 0 512) cn k d df ev pk cs) =
      Ok (0, if m =? 1 then st c' MSC_STATE_STATUS_sent CSW_Command_Passed (mk_buff dt' 0 0) (cn + 1) (S k) d' df ev pk (cs ++ [usb_send MSC_EP_IN (csw_bytes (dCBWTag c) CSW_Command_Passed)])
             else st c' MSC_STATE_DATA_OUT CSW_Command_Passed (mk_buff dt' 0 0) (cn + 1) (S k) d' df ev pk cs) /\
    length dt' = 512%nat /\ good d' /\ (forall a, 0 <= a < size -> sector d' a = if a =? lba then bs else sector d a) /\ goes_on c c' /\
    dCBWDataTransferLength c' = 512 * (m - 1) /\ (2 <= m -> cdb (CBWCB c') SCSI_WRITE10 (lba + 1) (m - 1)).
Proof.
  intros Hl Hg Hr Hfl Hm Hb Hcn. destruct (run_write10 c MSC_STATE_DATA_OUT CSW_Command_Passed bs 0 512 (cn + 1) (S k) d df ev pk cs lba m Hl Hg Hr Hm Hb) as (r & len & cb & d' & E & Hg' & Hs & _ & Hcb).
  destruct Hcb as [-> Hcb]; [lia|]. pose proof Hr as (Hcd & Hn & _). assert (m <= 65535) by (destruct Hcd as (_ & _ & _ & _ & _ & H); lia). set (c' := with_length (with_cb c cb) (512 * (m - 1))).
  destruct (send_csw_st c' MSC_STATE_DATA_OUT CSW_Command_Passed bs 0 (cn + 1) (S k) d' df ev pk cs Hl) as (dt' & Ec & Hl').
  exists c', d', (if m =? 1 then dt' else bs). split.
  2: { split; [by destruct (m =? 1)|]. split; [done|]. split; [|done]. intros a Ha. rewrite Hs by done. by destruct (Z.eqb_spec (cn + 1) 0); [lia|]. }
  rewrite <- (u8_id (cn + 1)) in E by lia. rewrite (handler_out c bs cn k d df ev pk cs r 512 cb d') by (done || lia). cbn zeta. change (512 =? 512) with true. cbn iota.
  change (dCBWDataTransferLength (with_cb c cb)) with (dCBWDataTransferLength c). rewrite Hn, u8_id, u32_id by lia. replace (512 * m - 512) with (512 * (m - 1)) by lia. fold c'.
  destruct (Z.eqb_spec m 1) as [->|Hne]; [change (512 * (1 - 1) =? 0) with true; cbn iota; by rewrite (bind_ok _ _ _ _ _ Ec)|]. by destruct (Z.eqb_spec (512 * (m - 1)) 0); [lia|].
Qed.

(** ** Transfers *)

Definition sent (c : msc_cbw) : usb_call := usb_send MSC_EP_IN (csw_bytes (dCBWTag c) CSW_Command_Passed).

(** One sector. *)
Lemma write_sector c bs dt cn k d df ev pk0 cs lba m :
  idle ev -> length bs = 512%nat -> length dt = 512%nat -> good d -> request u c SCSI_WRITE10 lba m (512 * m) -> Z.land (dCBWFlags c) 0x80 = 0 -> 1 <= m -> lba + m <= size -> 0 <= cn < 255 ->
  exists c' d' dt' ev' pk', out_turns (pieces bs) (st c MSC_STATE_DATA_OUT CSW_Command_Passed (mk_buff dt 0 0) cn k d df ev pk0 cs) =
      Ok (tt, if m =? 1 then st c' MSC_STATE_STATUS_sent CSW_Command_Passed (mk_buff dt' 0 0) (cn + 1) (S k) d' df ev' pk' ((cs ++ replicate 8 rx_valid) ++ [sent c])
              else st c' MSC_STATE_DATA_OUT CSW_Command_Passed (mk_buff dt' 0 0) (cn + 1) (S k) d' df ev' pk' (cs ++ replicate 8 rx_valid)) /\
    idle ev' /\ length dt' = 512%nat /\ good d' /\ (forall a, 0 <= a < size -> sector d' a = if a =? lba then bs else sector d a) /\ goes_on c c' /\
    dCBWDataTransferLength c' = 512 * (m - 1) /\ (2 <= m -> cdb (CBWCB c') SCSI_WRITE10 (lba + 1) (m - 1)).
Proof.
  intros He Hbs Hl Hg Hr Hfl Hm Hb Hcn.
  destruct (data_out_packets 7 c CSW_Command_Passed bs dt cn k d df ev pk0 cs ltac:(lia) He Hbs Hl eq_refl) as (ev1 & dt1 & pk1 & He1 & Hl1 & T1 & E1).
  destruct (handler_write10 c bs cn k d df (posted 2 ev1) (piece bs 7) ((cs ++ replicate 7 rx_valid) ++ [rx_valid]) lba m Hbs Hg Hr Hfl Hm Hb Hcn) as (c' & d' & dt' & E2 & Hl2 & Hrest).
  exists c', d', dt', (posted 2 ev1), (piece bs 7). split; [|split; [done|split; [done|done]]].
  change (pieces bs) with ((piece bs <$> seq 0 7) ++ [piece bs 7]). change (64 * Z.of_nat (7 - 7)) with 0 in E1. change (seq (7 - 7) 7) with (seq 0 7) in E1. rewrite (out_turns_app _ _ _ _ E1). cbn [out_turns].
  replace (cs ++ replicate 8 rx_valid) with ((cs ++ replicate 7 rx_valid) ++ [rx_valid]) by (by rewrite <- app_assoc).
  erewrite bind_ok; [reflexivity|]. apply out_turn_data; [done|]. unfold usb_msc_ev_handler. mrun. change (msc_state (st _ MSC_STATE_DATA_OUT _ _ _ _ _ _ _ _ _)) with MSC_STATE_DATA_OUT. cbn iota.
  erewrite bind_ok by (apply recv_st; [done|by apply piece_length; [done|lia]|lia]). change (448 =? 448) with true. cbn iota zeta.
  assert (take (Z.to_nat 448) dt1 ++ piece bs 7 ++ drop (Z.to_nat 448 + 64) dt1 = bs) as ->.
  { destruct (put_piece bs dt1 7 Hbs Hl1 ltac:(lia) T1) as [Et Hlt]. change (64 * 7)%nat with (Z.to_nat 448) in *. rewrite (take_ge bs), take_ge in Et by lia. exact Et. }
  rewrite (bind_ok _ _ _ _ _ E2). done.
Qed.

(** What the unit holds after a write of [bss] from [lba] on. *)
Definition written (lba : Z) (bss : list (list Z)) (d d' : D) : Prop :=
  forall a, 0 <= a < size -> sector d' a = if lba <=? a then default (sector d a) (bss !! Z.to_nat (a - lba)) else sector d a.
Lemma written_cons lba bs bss d d1 d' : (forall a, 0 <= a < size -> sector d1 a = if a =? lba then bs else sector d a) -> written (lba + 1) bss d1 d' -> written lba (bs :: bss) d d'.
Proof.
  intros H1 H2 a Ha. rewrite H2, H1 by done. destruct (Z.leb_spec (lba + 1) a).
  - destruct (Z.leb_spec lba a); [|lia]. destruct (Z.eqb_spec a lba); [lia|]. by replace (Z.to_nat (a - lba)) with (S (Z.to_nat (a - (lba + 1)))) by lia.
  - destruct (Z.eqb_spec a lba) as [->|Hne]; [|by destruct (Z.leb_spec lba a); [lia|]]. destruct (Z.leb_spec lba lba); [|lia]. by rewrite Z.sub_diag.
Qed.

Lemma write_sectors bss c dt cn k d df ev pk0 cs lba : bss <> [] -> Forall (λ bs, length bs = 512%nat) bss ->
  idle ev -> length dt = 512%nat -> good d -> request u c SCSI_WRITE10 lba (Z.of_nat (length bss)) (512 * Z.of_nat (length bss)) -> Z.land (dCBWFlags c) 0x80 = 0 ->
  lba + Z.of_nat (length bss) <= size -> 0 <= cn -> cn + Z.of_nat (length bss) <= 255 ->
  exists c' dt' cn' k' d' ev' pk', out_turns (concat (pieces <$> bss)) (st c MSC_STATE_DATA_OUT CSW_Command_Passed (mk_buff dt 0 0) cn k d df ev pk0 cs) =
      Ok (tt, st c' MSC_STATE_STATUS_sent CSW_Command_Passed (mk_buff dt' 0 0) cn' k' d' df ev' pk' (cs ++ replicate (8 * length bss) rx_valid ++ [sent c])) /\
    idle ev' /\ length dt' = 512%nat /\ good d' /\ written lba bss d d'.
Proof.
  revert c dt cn k d ev pk0 cs lba. induction bss as [|bs bss IH]; intros c dt cn k d ev pk0 cs lba Hne Hf He Hl Hg Hr Hfl Hb H0 Hcn; [done|].
  apply Forall_cons in Hf as [Hbs Hf]. cbn [length] in *.
  destruct (write_sector c bs dt cn k d df ev pk0 cs lba (Z.of_nat (S (length bss))) He Hbs Hl Hg Hr Hfl ltac:(lia) Hb ltac:(lia))
    as (c1 & d1 & dt1 & ev1 & pk1 & E1 & He1 & Hl1 & Hg1 & Hs1 & (T1 & T2 & T3) & Hn1 & Hc1). rewrite fmap_cons. cbn [concat].
  destruct bss as [|bs2 bss].
  - exists c1, dt1, (cn + 1), (S k), d1, ev1, pk1. cbn [concat fmap list_fmap]. rewrite app_nil_r, E1. split; [by rewrite <- app_assoc|]. split; [done|]. split; [done|]. split; [done|].
    eapply written_cons; [exact Hs1|]. intros a Ha. by destruct (_ <=? _).
  - destruct (Z.eqb_spec (Z.of_nat (S (length (bs2 :: bss)))) 1); [cbn [length] in *; lia|].
    destruct (IH c1 dt1 (cn + 1) (S k) d1 ev1 pk1 (cs ++ replicate 8 rx_valid) (lba + 1)) as (c2 & dt2 & cn2 & k2 & d2 & ev2 & pk2 & E2 & He2 & Hl2 & Hg2 & Hw2).
    { done. } { done. } { done. } { done. } { done. }
    { replace (Z.of_nat (length (bs2 :: bss))) with (Z.of_nat (S (length (bs2 :: bss))) - 1) by lia. split; [apply Hc1; cbn [length]; lia|]. split; [done|]. rewrite T3. apply Hr. }
    { by rewrite T2. } { lia. } { lia. } { lia. }
    exists c2, dt2, cn2, k2, d2, ev2, pk2. rewrite (out_turns_app _ _ _ _ E1), E2. split; [|split; [done|split; [done|split; [done|by eapply written_cons]]]].
    do 3 f_equal. rewrite <- app_assoc. f_equal. replace (8 * S (length (bs2 :: bss)))%nat with (8 + 8 * length (bs2 :: bss))%nat by lia. rewrite replicate_add, <- app_assoc. unfold sent. by rewrite T1.
Qed.

(** C7: A write of at most 255 sectors: the host sends the block, then the sectors in
    packets of 64 bytes; every packet is taken, the unit then holds the sectors at their
    addresses and what it held elsewhere, the host receives the status with its tag and no
    error, and the device is ready for the next command. *)
Theorem write10_transfer c0 q csw dt cn k d df ev pk0 cs c lba bss : waiting q -> idle ev -> length dt = 512%nat -> good d -> cbw_ok c ->
  bss <> [] -> Forall (λ bs, length bs = 512%nat) bss -> (length bss <= 255)%nat ->
  request u c SCSI_WRITE10 lba (Z.of_nat (length bss)) (512 * Z.of_nat (length bss)) -> Z.land (dCBWFlags c) 0x80 = 0 -> lba + Z.of_nat (length bss) <= size ->
  exists c' dt' cn' k' d' ev' pk', (out_turn (cbw_bytes c) ;; out_turns (concat (pieces <$> bss)) ;; turns 1) (st c0 q csw (mk_buff dt 0 0) cn k d df ev pk0 cs) =
      Ok (tt, st c' MSC_STATE_NONE CSW_Command_Passed (mk_buff dt' 0 0) cn' k' d' df ev' pk' (cs ++ replicate (1 + 8 * length bss) rx_valid ++ [sent c])) /\
    idle ev' /\ length dt' = 512%nat /\ good d' /\ written lba bss d d'.
Proof.
  intros Hq He Hl Hg Hc Hne Hf Hlen Hr Hfl Hb.
  destruct (handler_open c csw dt cn k d df (posted 2 ev) (cbw_bytes c) (cs ++ [rx_valid]) lba (Z.of_nat (length bss))) as (d1 & E1 & Hg1 & Hs1); [done..|destruct bss; [done|cbn [length]; lia]|done|].
  destruct (write_sectors bss c dt 0 (S k) d1 df (posted 2 ev) (cbw_bytes c) (cs ++ [rx_valid]) lba) as (c2 & dt2 & cn2 & k2 & d2 & ev2 & pk2 & E2 & He2 & Hl2 & Hg2 & Hw2); [done || lia..|].
  exists c2, dt2, cn2, k2, d2, (posted 1 ev2), pk2. split.
  - rewrite (bind_ok _ _ _ tt (st c MSC_STATE_DATA_OUT CSW_Command_Passed (mk_buff dt 0 0) 0 (S k) d1 df (posted 2 ev) (cbw_bytes c) (cs ++ [rx_valid]))).
    + rewrite (bind_ok _ _ _ _ _ E2). cbn [turns]. erewrite bind_ok by (by apply in_turn_st). do 3 f_equal. by rewrite <- app_assoc.
    + apply out_turn_start; [done..|]. unfold usb_msc_ev_handler. mrun. change (msc_state (st _ MSC_STATE_READY _ _ _ _ _ _ _ _ _)) with MSC_STATE_READY. cbn iota. rewrite (bind_ok _ _ _ _ _ E1). done.
  - split; [done|]. split; [done|]. split; [done|]. intros a Ha. rewrite Hw2 by done. by rewrite Hs1.
Qed.

(** The counter of the calls has 8 bits, and a call with the number 0 only opens a
    transfer: the sector that follows 255 others is not written, and no error is recorded. *)
Theorem write_256th_lost c bs k d df ev pk cs lba m :
  length bs = 512%nat -> good d -> request u c SCSI_WRITE10 lba m (512 * m) -> Z.land (dCBWFlags c) 0x80 = 0 -> 1 <= m -> lba + m <= size ->
  exists s', usb_msc_scsi_handler false (st c MSC_STATE_DATA_OUT CSW_Command_Passed (mk_buff bs 0 512) 255 k d df ev pk cs) = Ok (0, s') /\
    msc_csw_status s' = CSW_Command_Passed /\ (msc_state s' = MSC_STATE_DATA_OUT \/ msc_state s' = MSC_STATE_STATUS_sent) /\ same_disk size sector d (mdev s').
Proof.
  intros Hl Hg Hr Hfl Hm Hb. destruct (run_write10 c MSC_STATE_DATA_OUT CSW_Command_Passed bs 0 512 0 (S k) d df ev pk cs lba m Hl Hg Hr Hm Hb) as (r & len & cb & d' & E & Hg' & Hs & Hcb & _).
  pose proof Hr as (_ & Hn & _). assert (same_disk size sector d d') as Hd by (intros a Ha; by rewrite Hs).
  rewrite (handler_out c bs 255 k d df ev pk cs r len cb d') by (done || lia). cbn zeta. set (c1 := if len =? 512 then with_cb c cb else with_length (with_cb c cb) len). set (n := u32 _). change (u8 (255 + 1)) with 0. destruct (n =? 0).
  - destruct (send_csw_st (with_length c1 n) MSC_STATE_DATA_OUT CSW_Command_Passed bs 0 0 (S k) d' df ev pk cs Hl) as (dt' & Ec & _). rewrite (bind_ok _ _ _ _ _ Ec). eexists. split; [done|]. split; [done|]. split; [by right|done].
  - eexists. split; [done|]. split; [done|]. split; [by left|done].
Qed.
End msc.

(** ** On a card *)

Lemma write10_transfer_witness : let env := card_units in
  exists s', (out_turn (build := default_build) (menv := no_stale) (cbw_bytes (transfer_block SCSI_WRITE10 3 2 0)) ;;
      out_turns (build := default_build) (menv := no_stale) (concat (pieces <$> [replicate 512 8; replicate 512 9])) ;; turns (build := default_build) (menv := no_stale) 1) (device0 MSC_STATE_NONE card0) = Ok (tt, s') /\
    card_sector (mdev s') 2 = replicate 512 2 /\ card_sector (mdev s') 3 = replicate 512 8 /\ card_sector (mdev s') 4 = replicate 512 9.
Proof.
  intros env. destruct (write10_transfer (build := default_build) (env := card_units) (menv := no_stale) ltac:(cbn; lia) card_lun 16 card_sector card_good (unit_ok := card_unit) (mk_cbw 0 0 0 0 0 0 []) MSC_STATE_NONE 0 (replicate 512 0)
    0 0 card0 usb_dfu_init no_events [] [] (transfer_block SCSI_WRITE10 3 2 0) 3 [replicate 512 8; replicate 512 9]) as (c' & dt' & cn' & k' & d' & ev' & pk' & E & _ & _ & _ & W).
  { by left. } { done. } { done. } { exact card0_good. } { done. } { done. } { by repeat constructor. } { cbn; lia. } { done. } { done. } { done. }
  eexists. split; [exact E|]. split; [exact (W 2 ltac:(lia))|]. split; [exact (W 3 ltac:(lia))|exact (W 4 ltac:(lia))].
Defined.

Lemma write_256th_lost_witness :
  exists s', usb_msc_scsi_handler (build := default_build) (env := card_units) (menv := no_stale) false
      (st (transfer_block SCSI_WRITE10 3 2 0) MSC_STATE_DATA_OUT CSW_Command_Passed (mk_buff (replicate 512 8) 0 512) 255 256 card0 usb_dfu_init no_events [] []) = Ok (0, s') /\
    msc_csw_status s' = CSW_Command_Passed /\ card_sector (mdev s') 3 = replicate 512 3.
Proof.
  destruct (write_256th_lost (build := default_build) (env := card_units) (menv := no_stale) ltac:(cbn; lia) card_lun 16 card_sector card_good (unit_ok := card_unit) (transfer_block SCSI_WRITE10 3 2 0) (replicate 512 8)
    256 card0 usb_dfu_init no_events [] [] 3 2) as (s' & E & H1 & _ & H2).
  { done. } { exact card0_good. } { done. } { done. } { lia. } { done. }
  exists s'. split; [exact E|]. split; [exact H1|]. by rewrite (H2 3 ltac:(lia)).
Defined.
End MscWrite.
