(* ===== verification/MscCommands.v ===== *)
(** * Commands without data, refused packets and reset of the mass storage class *)

From stdpp Require Import base numbers list.
From S2P Require Import Prelude Packer Event Scsi ScsiSpec ScsiSd Dfu Msc MscSpec MscRead.

Module MscCommands.
Import Packer Event Scsi ScsiSpec ScsiSd Dfu Msc MscSpec MscRead.

Section msc.
Context {D : Type} {build : Build} {env : ScsiEnv D} {menv : MscEnv}.
Implicit Types (c : msc_cbw) (d : D) (ev : events unit) (cs : list usb_call).

(** ** Refused packets, reset *)

(** A reset leaves no data and waits for a block, whatever happened before. *)
Lemma reset_ready (s : msc D) : exists s', usb_msc_reset s = Ok (tt, s') /\ msc_state s' = MSC_STATE_NONE /\ msc_buff_read s' = 0 /\ msc_buff_write s' = 0 /\
  Forall (λ b, idx b = 0 /\ blen b = 0) (msc_buff s') /\ mdev s' = mdev s.
Proof. eexists. split; [done|]. split; [done|]. split; [done|]. split; [done|]. split; [|done]. cbn. apply Forall_fmap, Forall_true. done. Qed.

(** A packet that has not the size of a block stalls the endpoint; nothing else changes. *)
Lemma wrong_size_stalls (s : msc D) : waiting (msc_state s) -> length (out_packet s) <> 31%nat ->
  usb_msc_data_out true false s = Ok (tt, add_call [usb_recv_set_status MSC_EP_OUT STAT_RX_STALL] s).
Proof.
  intros Hq Hl. unfold usb_msc_data_out. cbn [negb andb]. mrun. assert (receive_cbw s = Ok (tt, add_call [usb_recv_set_status MSC_EP_OUT STAT_RX_STALL] s)) as R.
  { unfold receive_cbw, usb_recv_get_len. mrun. unfold CBW_SIZE. destruct (Z.eqb_spec (Z.of_nat (length (out_packet s))) 31); [lia|done]. }
  destruct Hq as [ -> | [ -> | -> ]]; exact R.
Qed.

(** A packet during a transfer to the host stops the device. *)
Lemma packet_during_data_in_halts (s : msc D) : msc_state s = MSC_STATE_DATA_IN -> usb_msc_data_out true false s = Err EHalt.
Proof. intros E. unfold usb_msc_data_out. cbn [negb andb]. mrun. rewrite E. done. Qed.

(** ** Commands without data *)

Hypothesis Hqueue : (0 < EVENT_QUEUE_LENGTH)%nat.

Lemma msc_post_ok (s : msc D) : idle (mevs s) -> msc_ev_post s = Ok (tt, set_mevs (set_queue EVENT_QUEUE_APPLI (Some [mk_entry tt 0]) (mevs s)) s).
Proof.
  intros Hi. unfold msc_ev_post. erewrite bind_ok; [|eapply zoom_ok]; [done|]. unfold event_post, queue_send. change (view s) with (mevs s).
  unfold mbind, M_bind. unfold idle in Hi. rewrite Hi. cbn [length]. rewrite (proj2 (Nat.ltb_lt _ _) Hqueue). done.
Qed.

Definition answer (x : sc D) : Z := if status x =? SCSI_GOOD then CSW_Command_Passed else CSW_Command_Failed.
(** The turns between the block and the status: the failure of a command posts an event. *)
Definition status_event (x : sc D) : M (msc D) unit := if status x =? SCSI_GOOD then mret tt else msc_task ;; mret tt.

(** A command without data, whatever its code: the host receives one status with its tag,
    which says whether the command answered GOOD, and the device waits for the next command
    with what the command did to the unit. *)
Lemma command_without_data c0 q csw dt cn k d df ev pk0 cs c r x : waiting q -> idle ev -> length dt = 512%nat -> cbw_ok c -> dCBWDataTransferLength c = 0 ->
  scsi_process_command (mk_params 0 (dCBWLun c) 512) (mk_sc (CBWCB c) dt (stale k).1 (stale k).2 d) = Ok (r, x) -> length (data x) = 512%nat ->
  exists s', (out_turn (cbw_bytes c) ;; status_event x ;; turns 1) (st c0 q csw (mk_buff dt 0 0) cn k d df ev pk0 cs) = Ok (tt, s') /\
    calls s' = cs ++ [rx_valid; usb_send MSC_EP_IN (csw_bytes (dCBWTag c) (answer x))] /\ msc_state s' = MSC_STATE_NONE /\ mdev s' = dev x.
Proof.
  intros Hq He Hl Hc Hn E Hx. set (c' := with_cb c (cmd x)).
  assert (run_command 0 512 (st c MSC_STATE_READY csw (mk_buff dt 0 0) 0 (S k) d df (posted 2 ev) (cbw_bytes c) (cs ++ [rx_valid])) =
    Ok (r, datalen x, status x, st c' MSC_STATE_READY csw (mk_buff (data x) 0 0) 0 (S k) (dev x) df (posted 2 ev) (cbw_bytes c) (cs ++ [rx_valid]))) as Er.
  { unfold run_command. mrun. rewrite (bind_ok _ _ _ _ _ (get_buff_st _ _ _ _ _ _ _ _ _ _ _)). cbn [bdata idx blen]. change (scsi_calls (st _ _ _ _ _ (S k) _ _ _ _ _) - 1)%nat with (k - 0)%nat. rewrite Nat.sub_0_r.
    change (cbw (st c _ _ _ _ _ _ _ _ _ _)) with c. change (cnum (st _ _ _ _ 0 _ _ _ _ _ _)) with 0. change (mdev (st _ _ _ _ _ _ d _ _ _ _)) with d. rewrite E. mrun. done. }
  assert (forall s', (if status x =? SCSI_GOOD then mmod (set_csw_status CSW_Command_Passed) ;; send_csw else mmod (set_csw_status CSW_Command_Failed) ;; mmod (set_state MSC_STATE_STATUS) ;; msc_ev_post)
      (st c' MSC_STATE_READY csw (mk_buff (data x) 0 0) 0 (S k) (dev x) df (posted 2 ev) (cbw_bytes c) (cs ++ [rx_valid])) = Ok (tt, s') ->
    out_turn (cbw_bytes c) (st c0 q csw (mk_buff dt 0 0) cn k d df ev pk0 cs) = Ok (tt, s')) as Start.
  { intros s' Hs. apply out_turn_start; [done..|]. unfold usb_msc_ev_handler. mrun. change (msc_state (st _ MSC_STATE_READY _ _ _ _ _ _ _ _ _)) with MSC_STATE_READY. cbn iota.
    rewrite (bind_ok _ _ _ 0 s'); [done|]. unfold usb_msc_scsi_handler. mrun. rewrite (bind_ok _ _ _ _ _ Er). destruct (status x =? SCSI_GOOD).
    - mrun. change (dCBWDataTransferLength (cbw (st c' _ _ _ _ _ _ _ _ _ _))) with (dCBWDataTransferLength c). rewrite Hn. cbn [Z.gtb Z.compare]. rewrite <- bind_assoc. by erewrite bind_ok by exact Hs.
    - mrun. by erewrite bind_ok by exact Hs. }
  unfold answer, status_event. destruct (status x =? SCSI_GOOD).
  - destruct (send_csw_st c' MSC_STATE_READY CSW_Command_Passed (data x) 0 0 (S k) (dev x) df (posted 2 ev) (cbw_bytes c) (cs ++ [rx_valid]) Hx) as (dt' & Ec & _).
    eexists. split; [|split; [|split]].
    + erewrite bind_ok by (by apply Start). mrun. cbn [turns]. erewrite bind_ok by (by apply in_turn_st). done.
    + by rewrite <- app_assoc.
    + done.
    + done.
  - destruct (send_csw_st c' MSC_STATE_STATUS CSW_Command_Failed (data x) 0 0 (S k) (dev x) df (posted 0 (posted 2 ev)) (cbw_bytes c) (cs ++ [rx_valid]) Hx) as (dt' & Ec & _).
    eexists. split; [|split; [|split]].
    + erewrite bind_ok by (apply Start; mrun; by apply msc_post_ok). rewrite bind_assoc. erewrite bind_ok by (eapply msc_task_turn; [done|exact Ec]). mrun. cbn [turns]. erewrite bind_ok by (by apply in_turn_st). done.
    + by rewrite <- app_assoc.
    + done.
    + done.
Qed.

(** ** Commands that do not answer

    They assign the pointers of their parameters and not what these point to: the length
    and the status stay what the memory of the caller held. *)
Definition unanswered (op : Z) : Prop := op = SCSI_TEST_UNIT_READY \/ op = SCSI_PREVENT_ALLOW_MEDIUM_REMOVAL \/ op = SCSI_START_STOP.

Lemma unanswered_process p (s : sc D) op : unanswered op -> length (cmd s) = 16%nat -> arr_get (cmd s) 0 = Ok op -> scsi_process_command p s = Ok (SCSI_CMD_DONE, s).
Proof.
  intros Ho Hl E. unfold scsi_process_command, cmd_byte. mrun. rewrite E. destruct Ho as [ -> | [ -> | -> ]]; [done| |done].
  destruct s as [cm dt n x d]. cbn [cmd] in *. do 16 (destruct cm as [|? cm]; [done|]). done.
Qed.

(** The answer to TEST UNIT READY, to PREVENT or ALLOW MEDIUM REMOVAL and to START STOP
    UNIT is not the command's: the host is told that it failed unless the status the caller
    left uninitialised happens to be 0. *)
Theorem unanswered_status c0 q csw dt cn k d df ev pk0 cs c op : unanswered op -> waiting q -> idle ev -> length dt = 512%nat -> cbw_ok c -> dCBWDataTransferLength c = 0 -> arr_get (CBWCB c) 0 = Ok op ->
  let failed := negb ((stale k).2 =? 0) in
  exists s', (out_turn (cbw_bytes c) ;; (if failed then msc_task ;; mret tt else mret tt) ;; turns 1) (st c0 q csw (mk_buff dt 0 0) cn k d df ev pk0 cs) = Ok (tt, s') /\
    calls s' = cs ++ [rx_valid; usb_send MSC_EP_IN (csw_bytes (dCBWTag c) (if failed then 1 else 0))].
Proof.
  intros Ho Hq He Hl Hc Hn E. pose proof Hc as (_ & _ & _ & _ & _ & _ & Hb). set (x := mk_sc (CBWCB c) dt (stale k).1 (stale k).2 d).
  destruct (command_without_data c0 q csw dt cn k d df ev pk0 cs c SCSI_CMD_DONE x Hq He Hl Hc Hn) as (s' & Es & Hcs & _); [by apply (unanswered_process _ x op)|done|].
  cbn zeta. exists s'. unfold status_event, answer in *. change (status x) with (stale k).2 in *. change SCSI_GOOD with 0 in *. by destruct (_ =? 0).
Qed.
End msc.

(** ** On a card *)

Definition short_block (op n : Z) : msc_cbw := mk_cbw CBW_Signature 0x12345678 n 0 0 6 (op :: replicate 15 0).

Lemma unanswered_status_witness : let env := card_units in
  exists s', (out_turn (build := default_build) (menv := no_stale) (cbw_bytes (short_block SCSI_TEST_UNIT_READY 0)) ;; (msc_task (build := default_build) (menv := no_stale) ;; mret tt) ;; turns (build := default_build) (menv := no_stale) 1)
      (device0 MSC_STATE_NONE card0) = Ok (tt, s') /\ calls s' = [rx_valid; usb_send MSC_EP_IN (csw_bytes 0x12345678 1)].
Proof.
  intros env. destruct (unanswered_status (build := default_build) (env := card_units) (menv := no_stale) ltac:(cbn; lia) (mk_cbw 0 0 0 0 0 0 []) MSC_STATE_NONE 0 (replicate 512 0)
    0 0 card0 usb_dfu_init no_events [] [] (short_block SCSI_TEST_UNIT_READY 0) SCSI_TEST_UNIT_READY) as (s' & E & Hc).
  { by left. } { by left. } { done. } { done. } { done. } { done. } { done. }
  exists s'. split; [exact E|exact Hc].
Defined.
End MscCommands.
