(* ===== verification/MmapFs.v ===== *)
(** * The unit that shows files ([lib/usb/scsi_mmapfs.c], [scsi_mmapfs.h])

    A disk of 256 MB with a FAT16 file system that is built sector by sector when it is
    read: the files are entries of the application, each with its functions. *)

From stdpp Require Import base numbers list.
From S2P Require Import Prelude Packer Scsi ScsiSpec.

Module MmapFs.
Import Scsi ScsiSpec.

Definition LUN_SECTORSIZE : Z := 512.
Definition LUN_SIZE : Z := 256 * 1024 * 1024 / LUN_SECTORSIZE.
Definition MEDIA_TYPE : Z := 0xf8.
Definition SECTORSIZE : Z := LUN_SECTORSIZE.
Definition TRACKSIZE : Z := 0x0039.
Definition HEADS : Z := 0x0009.
Definition CLUSTERSIZE : Z := 8.
Definition RESERVED : Z := 8.
Definition FAT_NUMBEROFFAT : Z := 1.
Definition FAT_FATSIZE : Z := LUN_SIZE / CLUSTERSIZE / (SECTORSIZE / 2).
Definition FAT_FAT1_FIRST : Z := RESERVED.
Definition FAT_FAT1_LAST : Z := FAT_FAT1_FIRST + FAT_FATSIZE - 1.
Definition FAT_FILE_DELETED : Z := 0xE5.
Definition FAT_DATE_DEFAULT : Z := 0x40d3.
Definition DIRECTORY_ENTRIES : Z := 0x0200.
Definition DIRECTORY_ENTRYSIZE : Z := 32.
Definition DIRECTORY_SIZE : Z := DIRECTORY_ENTRIES * DIRECTORY_ENTRYSIZE / LUN_SECTORSIZE.
Definition DIRECTORY_FIRST : Z := FAT_FAT1_LAST + 1.
Definition DIRECTORY_LAST : Z := DIRECTORY_FIRST + DIRECTORY_SIZE - 1.
Definition DATA_FIRST_SECTOR : Z := DIRECTORY_LAST + 1.
Definition DATA_FIRST_CLUSTER : Z := DATA_FIRST_SECTOR / CLUSTERSIZE.
Definition DATA_FIRST_FAT_CLUSTER : Z := 3.
Definition DATA_SECTOR_SIZE : Z := LUN_SIZE - DATA_FIRST_SECTOR.
Definition EBPB_SIZE16 : Z := if DATA_SECTOR_SIZE >? 65535 then 0 else DATA_SECTOR_SIZE.
Definition EBPB_SIZE32 : Z := if DATA_SECTOR_SIZE >? 65535 then DATA_SECTOR_SIZE else 0.
Definition FAT_BADCLUSTER : Z := 0xFFF7.
Definition FAT_ENDOFCLUSTER : Z := 0xFFFF.
Definition CLUSTER_BYTES : Z := CLUSTERSIZE * SECTORSIZE.

Definition fat_cluster_to_sector (fatcluster : Z) : Z := u32 ((fatcluster + DATA_FIRST_CLUSTER - 2) * CLUSTERSIZE).
Definition write16 (buf : list Z) (off val : Z) : res (list Z) := arr_blit buf off [Z.land val 0xff; Z.land (Z.shiftr val 8) 0xff].
Definition write32 (buf : list Z) (off val : Z) : res (list Z) :=
  arr_blit buf off [Z.land val 0xff; Z.land (Z.shiftr val 8) 0xff; Z.land (Z.shiftr val 16) 0xff; Z.land (Z.shiftr val 24) 0xff].

(** "HiKoB   ", "mkdosfs", "CoNf", "HiKoB      ", "FAT16   ". *)
Definition DISK_LABEL : list Z := [72; 105; 75; 111; 66; 32; 32; 32].
Definition BootSector : list Z :=
  [0xEB; 0x3C; 0x90; 109; 107; 100; 111; 115; 102; 115; 0;
   Z.land SECTORSIZE 0xff; Z.shiftr SECTORSIZE 8; CLUSTERSIZE; Z.land RESERVED 0xff; Z.shiftr RESERVED 8; FAT_NUMBEROFFAT;
   Z.land DIRECTORY_ENTRIES 0xff; Z.shiftr DIRECTORY_ENTRIES 8; Z.land EBPB_SIZE16 0xff; Z.shiftr EBPB_SIZE16 8; MEDIA_TYPE;
   Z.land FAT_FATSIZE 0xff; Z.shiftr FAT_FATSIZE 8; Z.land TRACKSIZE 0xff; Z.shiftr TRACKSIZE 8; Z.land HEADS 0xff; Z.shiftr HEADS 8;
   0; 0; 0; 0; Z.land EBPB_SIZE32 0xff; Z.land (Z.shiftr EBPB_SIZE32 8) 0xff; Z.land (Z.shiftr EBPB_SIZE32 16) 0xff; Z.land (Z.shiftr EBPB_SIZE32 24) 0xff;
   0; 0; 0x29; 67; 111; 78; 102; 72; 105; 75; 111; 66; 32; 32; 32; 32; 32; 32; 70; 65; 84; 49; 54; 32; 32; 32].
Definition zeros (n : Z) : list Z := replicate (Z.to_nat n) 0.

Section mmapfs.
(** [D] is the state of the functions of the files. *)
Context {D : Type}.

(** [mmap_entry_t]; the functions have their argument. A function that reads or writes a
    sector has the buffer. *)
Record mmap_entry := mk_entry {
  name : list Z;
  ext : list Z;
  maxsize : Z;
  info : option (M D (Z * Z));
  read : Z -> list Z -> M D (list Z);
  write : Z -> list Z -> M D (list Z);
  unlink : option (M D unit);
}.

Definition file_info (f : mmap_entry) : M D (Z * Z) := match info f with Some m => m | None => mret (1, maxsize f) end.

(** The sizes in clusters: of the room of a file, and of what it holds. *)
Definition max_clusters (f : mmap_entry) : Z :=
  let c := u16 (maxsize f / CLUSTER_BYTES) in u16 (c + Z.b2z (u32 (c * CLUSTER_BYTES) <? maxsize f)).
Definition used_clusters (size : Z) : Z := u16 (u16 (size / CLUSTER_BYTES) + Z.b2z (u32 (size * CLUSTER_BYTES) <? size)).

Definition build_bootsector (lba : Z) (sector : list Z) : res (list Z) :=
  s ← arr_blit sector 0 (zeros SECTORSIZE);
  if lba =? 0 then
    s ← arr_blit s 0 BootSector;
    s ← arr_set s 0x1FE 0x55;
    arr_set s 0x1FF 0xAA
  else Ok s.

(** ** The allocation table *)

(** The clusters of a file, [n] from [c] on; the sector and the offset that follow. *)
Fixpoint fat_clusters (n : nat) (lba c c2end fat_sect fat_off : Z) (sector : list Z) : res (list Z * Z * Z) :=
  match n with
  | O => Ok (sector, fat_sect, fat_off)
  | S n =>
      s ← (if fat_sect =? lba then
             let mk := u16 (if c <? c2end then c else if c =? c2end then FAT_ENDOFCLUSTER else FAT_BADCLUSTER) in
             write16 sector fat_off mk
           else Ok sector);
      let fat_off := fat_off + 2 in
      if fat_off >=? SECTORSIZE / 2 then fat_clusters n lba (c + 1) c2end (fat_sect + 1) 0 s
      else fat_clusters n lba (c + 1) c2end fat_sect fat_off s
  end.
Fixpoint fat_files (files : list mmap_entry) (lba cstart cend fat_sect fat_off : Z) (sector : list Z) : M D (list Z) :=
  match files with
  | [] => mret sector
  | f :: files =>
      x ← file_info f;
      let cend := u16 (cend + max_clusters f) in
      let c2end := u16 (cstart + used_clusters x.2 - 1) in
      r ← mlift (fat_clusters (Z.to_nat (cend - cstart + 1)) lba cstart c2end fat_sect fat_off sector);
      fat_files files lba (u16 (cend + 1)) cend r.1.2 r.2 r.1.1
  end.
Definition bad_clusters : list Z := concat (replicate 256 [0xF7; 0xFF]).
Definition build_fat (files : list mmap_entry) (lba : Z) (sector : list Z) : M D (list Z) :=
  s ← mlift (arr_blit sector 0 bad_clusters);
  s ← (if lba =? 0 then mlift (arr_blit s 0 [MEDIA_TYPE; 0xFF; Z.land FAT_ENDOFCLUSTER 0xff; Z.shiftr FAT_ENDOFCLUSTER 8]) else mret s);
  fat_files files lba DATA_FIRST_FAT_CLUSTER (DATA_FIRST_FAT_CLUSTER - 1) 0 (DATA_FIRST_FAT_CLUSTER * 2) s.

(** ** The root directory *)

Inductive rootdir_mode := MMAPFS_BUILD | MMAPFS_CHECK.

Definition dir_label (sector : list Z) : res (list Z) :=
  s ← arr_blit sector 0 DISK_LABEL;
  s ← arr_blit s 8 [32; 32; 32];
  s ← arr_set s 0x0b 0x08;
  s ← write16 s 0x10 FAT_DATE_DEFAULT;
  s ← write16 s 0x12 FAT_DATE_DEFAULT;
  write16 s 0x18 FAT_DATE_DEFAULT.
Definition dir_entry (f : mmap_entry) (present size cstart offset : Z) (sector : list Z) : res (list Z) :=
  s ← arr_blit sector offset (name f);
  s ← (if present =? 0 then arr_set s offset FAT_FILE_DELETED else Ok s);
  s ← arr_blit s (offset + 8) (ext f);
  s ← write16 s (offset + 0x10) FAT_DATE_DEFAULT;
  s ← write16 s (offset + 0x12) FAT_DATE_DEFAULT;
  s ← write16 s (offset + 0x18) FAT_DATE_DEFAULT;
  s ← write16 s (offset + 0x1A) cstart;
  write32 s (offset + 0x1C) size.
Fixpoint dir_files (mode : rootdir_mode) (files : list mmap_entry) (cstart cend offset : Z) (sector : list Z) : M D (list Z) :=
  match files with
  | [] => mret sector
  | f :: files =>
      x ← file_info f;
      let cend := u16 (cend + max_clusters f) in
      s ← match mode with
          | MMAPFS_BUILD => mlift (dir_entry f x.1 x.2 cstart offset sector)
          | MMAPFS_CHECK =>
              (if x.1 =? 0 then mret tt
               else
                 b ← mlift (arr_get sector offset);
                 if b =? FAT_FILE_DELETED then match unlink f with Some m => m | None => mret tt end else mret tt) ;;
              mret sector
          end;
      dir_files mode files (u16 (cend + 1)) cend (offset + DIRECTORY_ENTRYSIZE) s
  end.
(** [junk]: the offset is set by the first mode only. *)
Definition build_rootdirectory (junk : Z) (mode : rootdir_mode) (files : list mmap_entry) (lba : Z) (sector : list Z) : M D (list Z) :=
  s ← match mode with
      | MMAPFS_BUILD =>
          s ← mlift (arr_blit sector 0 (zeros LUN_SECTORSIZE));
          if lba =? 0 then mlift (dir_label s) else mret s
      | MMAPFS_CHECK => mret sector
      end;
  if negb (lba =? 0) then mret s
  else dir_files mode files DATA_FIRST_FAT_CLUSTER (DATA_FIRST_FAT_CLUSTER - 1) (match mode with MMAPFS_BUILD => DIRECTORY_ENTRYSIZE | MMAPFS_CHECK => junk end) s.

(** ** The data *)

Inductive data_mode := MMAPFS_READ | MMAPFS_WRITE.

Fixpoint data_files (mode : data_mode) (files : list mmap_entry) (lba cstart cend : Z) (sector : list Z) : M D (list Z) :=
  match files with
  | [] => mlift (arr_blit sector 0 (zeros SECTORSIZE))
  | f :: files =>
      let cend := u16 (cend + max_clusters f) in
      let sstart := fat_cluster_to_sector cstart in
      let send := u32 (fat_cluster_to_sector cend + CLUSTERSIZE - 1) in
      if (lba >=? sstart) && (lba <=? send) then
        match mode with
        | MMAPFS_READ => read f (u16 (lba - sstart)) sector
        | MMAPFS_WRITE => write f (u16 (lba - sstart)) sector
        end
      else data_files mode files lba (u16 (cend + 1)) cend sector
  end.
(** The sector has 16 bits. *)
Definition build_data (mode : data_mode) (files : list mmap_entry) (lba : Z) (sector : list Z) : M D (list Z) :=
  data_files mode files (u16 lba) DATA_FIRST_FAT_CLUSTER (DATA_FIRST_FAT_CLUSTER - 1) sector.

(** ** The functions of the unit *)

Abbreviation SM := (M (sc D)).
Definition on_sector (m : list Z -> M D (list Z)) : SM unit := s ← mget; d ← mzoom (T := D) (m (data s)); mmod (set_data d).
Definition check (r : scsi_cmdret) : SM scsi_cmdret := mmod (set_status SCSI_CHECK_CONDITION) ;; mret r.
Definition beyond (lba nblocks : Z) : bool := u32 (lba + nblocks - 1) >=? LUN_SIZE.
Definition between (lba a b : Z) : bool := (lba >=? a) && (lba <=? b).

Definition scsi_mmapfs_init (l : Z) : M D unit := mret tt.
Definition scsi_mmapfs_read_capacity (l : Z) : M D (Z * Z) := mret (LUN_SIZE, LUN_SECTORSIZE).

(** What a sector of the disk is made of. *)
Definition read_sector (files : list mmap_entry) (lba : Z) (sector : list Z) : M D (list Z) :=
  if lba <? FAT_FAT1_FIRST then mlift (build_bootsector lba sector)
  else if between lba FAT_FAT1_FIRST FAT_FAT1_LAST then build_fat files (lba - FAT_FAT1_FIRST) sector
  else if between lba DIRECTORY_FIRST DIRECTORY_LAST then build_rootdirectory 0 MMAPFS_BUILD files (lba - DIRECTORY_FIRST) sector
  else build_data MMAPFS_READ files lba sector.

Definition scsi_mmapfs_read10 (files : list mmap_entry) (p : scsi_params) : SM scsi_cmdret :=
  lba ← cdb_lba;
  nblocks ← cdb_length;
  if beyond lba nblocks then check SCSI_CMD_DONE
  else if datamax p <? LUN_SECTORSIZE then check SCSI_CMD_ERROR
  else
    on_sector (read_sector files lba) ;;
    mmod (set_datalen (datamax p)) ;;
    transfer_result lba nblocks.

(** [junk] is the offset that the directory does not set. *)
Definition scsi_mmapfs_write10 (junk : Z) (files : list mmap_entry) (p : scsi_params) : SM scsi_cmdret :=
  lba ← cdb_lba;
  nblocks ← cdb_length;
  if beyond lba nblocks then check SCSI_CMD_DONE
  else if datamax p <? LUN_SECTORSIZE then check SCSI_CMD_ERROR
  else if cont p =? 0 then mmod (set_status SCSI_GOOD) ;; mret SCSI_CMD_PARTIAL
  else
    on_sector (
      if lba <? FAT_FAT1_FIRST then mret
      else if between lba FAT_FAT1_FIRST FAT_FAT1_LAST then mret
      else if between lba DIRECTORY_FIRST DIRECTORY_LAST then build_rootdirectory junk MMAPFS_CHECK files (lba - DIRECTORY_FIRST)
      else build_data MMAPFS_WRITE files lba) ;;
    transfer_result lba nblocks.

Definition mmapfs_lun (junk : Z) (files : list mmap_entry) : scsi_lun_t D :=
  mk_lun (Some scsi_mmapfs_init) (Some scsi_mmapfs_read_capacity) (Some (scsi_mmapfs_read10 files)) (Some (scsi_mmapfs_write10 junk files)).
End mmapfs.
#[global] Arguments mmap_entry D : clear implicits.
End MmapFs.
