(* ===== verification/MmapFsSpec.v ===== *)
(** * What the host finds on the disk of files

    The host is one that follows the rules of FAT16: it takes the places of the table, of the
    root directory and of the clusters from the boot sector, and goes from a cluster of a file
    to the next one by the allocation table. *)

From stdpp Require Import base numbers list.
From S2P Require Import Prelude Packer Scsi ScsiSpec MmapFs.

Module MmapFsSpec.
Import Scsi ScsiSpec MmapFs.

Lemma write16_wr buf off v : write16 buf off v = wr 2 buf off v.
Proof.
  unfold write16, wr. f_equal. cbn [le_bytes]. change 0xff with (Z.ones 8). rewrite !Z.land_ones, !Z.shiftr_div_pow2 by lia. done.
Qed.
Lemma write32_wr buf off v : write32 buf off v = wr 4 buf off v.
Proof.
  unfold write32, wr. f_equal. cbn [le_bytes]. change 0xff with (Z.ones 8). rewrite !Z.land_ones, !Z.shiftr_div_pow2 by lia.
  rewrite !Z.div_div by lia. done.
Qed.
Lemma arr_set_one (l : list Z) i x : arr_set l i x = arr_blit l i [x].
Proof.
  unfold arr_set, arr_blit. cbn [length]. destruct (decide (0 <= i < Z.of_nat (length l))); destruct (decide (0 <= i /\ i + Z.of_nat 1 <= Z.of_nat (length l))); try lia; [|done].
  f_equal. rewrite insert_take_drop by lia. do 3 f_equal. lia.
Qed.

(** A copy that fits, with what it leaves. *)
Lemma blit_step (s : list Z) o bs : length s = 512%nat -> 0 <= o -> o + Z.of_nat (length bs) <= 512 ->
  exists s', arr_blit s o bs = Ok s' /\ length s' = 512%nat /\ arr_slice s' o (Z.of_nat (length bs)) = Ok bs /\
    forall o' n, o' + n <= o \/ o + Z.of_nat (length bs) <= o' -> arr_slice s' o' n = arr_slice s o' n.
Proof.
  intros Hl Ho Hb. destruct (arr_blit_ok s o bs) as [s' E]; [lia|lia|]. exists s'. split; [done|]. split; [by rewrite (arr_blit_length _ _ _ _ E)|].
  split; [by eapply arr_blit_slice|]. intros o' n Hd. by eapply slice_blit_other.
Qed.
Lemma rd_slice n (s : list Z) off bs : arr_slice s off (Z.of_nat n) = Ok bs -> rd n s off = Ok (le_value bs).
Proof. intros E. unfold rd. by rewrite E. Qed.

Section mmapfs.
Context {D : Type}.
Implicit Types (f : mmap_entry D) (files : list (mmap_entry D)) (d : D).

(** ** Clusters *)

Definition clusters f : Z := (maxsize f + 4095) / 4096.
(** The sectors below 65536, which are the ones with 16 bits, make 32 MB. *)
Definition room f : Prop := 0 <= maxsize f < 2 ^ 25.
Fixpoint sum_clusters files : Z := match files with [] => 0 | f :: files => clusters f + sum_clusters files end.
(** The first cluster of the [i]-th file. *)
Definition start files (i : nat) : Z := 3 + sum_clusters (firstn i files).
(** The data of the files is in these sectors. *)
Definition layout files : Prop := Forall room files /\ sum_clusters files <= 8150.

Lemma max_clusters_ok f : room f -> max_clusters f = clusters f /\ 0 <= clusters f.
Proof.
  intros Hr. unfold room in Hr. change (2 ^ 25) with 33554432 in Hr. unfold max_clusters, clusters, CLUSTER_BYTES. change (CLUSTERSIZE * SECTORSIZE) with 4096.
  rewrite (u16_id (maxsize f / 4096)), u32_id by mlia. destruct (Z.ltb_spec (maxsize f / 4096 * 4096) (maxsize f)); cbn [Z.b2z]; rewrite u16_id by mlia; split; mlia.
Qed.
Lemma sum_nonneg files : Forall room files -> 0 <= sum_clusters files.
Proof. induction 1 as [|f files Hf _ IH]; cbn; [lia|]. pose proof (proj2 (max_clusters_ok f Hf)). lia. Qed.
Lemma cluster_sector c : 0 <= c < 65536 -> fat_cluster_to_sector c = (c + 35) * 8.
Proof. intros Hc. unfold fat_cluster_to_sector. change DATA_FIRST_CLUSTER with 37. change CLUSTERSIZE with 8. rewrite u32_id by lia. lia. Qed.

(** ** The data *)

(** The sectors of the [i]-th file are given to its function. *)
Lemma data_files_at files i f lba c k sector : files !! i = Some f -> Forall room files -> 3 <= c -> c + sum_clusters files <= 8155 ->
  0 <= k < 8 * clusters f -> lba = (c + sum_clusters (firstn i files) + 35) * 8 + k ->
  data_files MMAPFS_READ files lba c (c - 1) sector = read f k sector /\ data_files MMAPFS_WRITE files lba c (c - 1) sector = write f k sector.
Proof.
  revert i c. induction files as [|g files IH]; intros i c Hi Hr Hc Hs Hk ->; [done|]. apply Forall_cons in Hr as [Hg Hr]. destruct (max_clusters_ok g Hg) as [Eg Hg0]. pose proof (sum_nonneg files Hr) as Hsum.
  cbn [data_files sum_clusters] in *. rewrite Eg. rewrite (u16_id (c - 1 + clusters g)) by lia. rewrite !cluster_sector by lia. change CLUSTERSIZE with 8. rewrite (u32_id ((c - 1 + clusters g + 35) * 8 + 8 - 1)) by lia.
  destruct i as [|i].
  - cbn in Hi. injection Hi as ->. cbn [firstn sum_clusters]. rewrite Z.add_0_r. destruct (Z.geb_spec ((c + 35) * 8 + k) ((c + 35) * 8)); [|lia]. destruct (Z.leb_spec ((c + 35) * 8 + k) ((c - 1 + clusters f + 35) * 8 + 8 - 1)); [|lia].
    cbn [andb]. rewrite u16_id by lia. by replace ((c + 35) * 8 + k - (c + 35) * 8) with k by lia.
  - cbn in Hi. cbn [firstn sum_clusters]. assert (Forall room (firstn i files)) as Hri by (by apply Forall_take). pose proof (sum_nonneg _ Hri) as Hsi.
    destruct (Z.leb_spec ((c + (clusters g + sum_clusters (firstn i files)) + 35) * 8 + k) ((c - 1 + clusters g + 35) * 8 + 8 - 1)); [lia|]. rewrite andb_false_r.
    rewrite u16_id by lia. replace (c - 1 + clusters g + 1) with (c + clusters g) by lia. replace (c - 1 + clusters g) with (c + clusters g - 1) by lia. apply (IH i); [done|done|lia|lia|done|cbn [firstn sum_clusters]; lia].
Qed.
Lemma sum_firstn files i f : Forall room files -> files !! i = Some f -> 0 <= sum_clusters (firstn i files) /\ sum_clusters (firstn i files) + clusters f <= sum_clusters files.
Proof.
  intros Hr. revert i. induction Hr as [|g files Hg Hr IH]; intros i Hi; [done|]. pose proof (proj2 (max_clusters_ok g Hg)). pose proof (sum_nonneg files Hr). destruct i as [|i]; cbn in Hi.
  - injection Hi as ->. cbn. lia.
  - destruct (IH i Hi). cbn. lia.
Qed.
Lemma data_at files i f k sector : layout files -> files !! i = Some f -> 0 <= k < 8 * clusters f ->
  build_data MMAPFS_READ files ((start files i + 35) * 8 + k) sector = read f k sector /\
  build_data MMAPFS_WRITE files ((start files i + 35) * 8 + k) sector = write f k sector.
Proof.
  intros [Hr Hs] Hi Hk. destruct (sum_firstn files i f Hr Hi) as [H1 H2]. unfold build_data, start. rewrite u16_id by lia. change DATA_FIRST_FAT_CLUSTER with 3. apply (data_files_at files i); (done || lia).
Qed.

(** ** The directory *)

Definition named f : Prop := length (name f) = 8%nat /\ length (ext f) = 3%nat.

(** An entry, in its place. *)
Lemma dir_entry_ok f p sz c off s : named f -> length s = 512%nat -> 0 <= off -> off + 32 <= 512 ->
  exists s', dir_entry f p sz c off s = Ok s' /\ length s' = 512%nat /\ (forall o n, o + n <= off -> arr_slice s' o n = arr_slice s o n) /\
    (p <> 0 -> arr_slice s' off 8 = Ok (name f)) /\ arr_slice s' (off + 8) 3 = Ok (ext f) /\ rd 2 s' (off + 0x1A) = Ok (c mod 65536) /\ rd 4 s' (off + 0x1C) = Ok (sz mod 2 ^ 32).
Proof.
  intros [Hn He] Hl Ho Hb. unfold dir_entry.
  destruct (blit_step s off (name f) Hl) as (s1 & E1 & L1 & R1 & F1); [lia|lia|]. rewrite E1. cbn [mbind res_bind]. rewrite Hn in R1, F1.
  assert (exists s2, (if p =? 0 then arr_set s1 off FAT_FILE_DELETED else Ok s1) = Ok s2 /\ length s2 = 512%nat /\ (p <> 0 -> s2 = s1) /\ forall o n, o + n <= off -> arr_slice s2 o n = arr_slice s1 o n) as (s2 & E2 & L2 & R2 & F2).
  { destruct (Z.eqb_spec p 0); [|by exists s1]. rewrite arr_set_one. destruct (blit_step s1 off [FAT_FILE_DELETED] L1) as (s2 & E2 & L2 & _ & F2); [lia|cbn; lia|]. exists s2. split; [done|]. split; [done|]. split; [done|]. intros o n Hd. apply F2. lia. }
  rewrite E2. cbn [mbind res_bind]. destruct (blit_step s2 (off + 8) (ext f) L2) as (s3 & E3 & L3 & R3 & F3); [lia|lia|]. rewrite E3. cbn [mbind res_bind]. rewrite He in R3, F3.
  rewrite write16_wr. unfold wr. destruct (blit_step s3 (off + 0x10) (le_bytes 2 FAT_DATE_DEFAULT) L3) as (s4 & E4 & L4 & _ & F4); [lia|rewrite le_bytes_length; lia|]. rewrite E4. cbn [mbind res_bind]. rewrite le_bytes_length in F4.
  rewrite write16_wr. unfold wr. destruct (blit_step s4 (off + 0x12) (le_bytes 2 FAT_DATE_DEFAULT) L4) as (s5 & E5 & L5 & _ & F5); [lia|rewrite le_bytes_length; lia|]. rewrite E5. cbn [mbind res_bind]. rewrite le_bytes_length in F5.
  rewrite write16_wr. unfold wr. destruct (blit_step s5 (off + 0x18) (le_bytes 2 FAT_DATE_DEFAULT) L5) as (s6 & E6 & L6 & _ & F6); [lia|rewrite le_bytes_length; lia|]. rewrite E6. cbn [mbind res_bind]. rewrite le_bytes_length in F6.
  rewrite write16_wr. unfold wr. destruct (blit_step s6 (off + 0x1A) (le_bytes 2 c) L6) as (s7 & E7 & L7 & R7 & F7); [lia|rewrite le_bytes_length; lia|]. rewrite E7. cbn [mbind res_bind]. rewrite le_bytes_length in R7, F7.
  rewrite write32_wr. unfold wr. destruct (blit_step s7 (off + 0x1C) (le_bytes 4 sz) L7) as (s8 & E8 & L8 & R8 & F8); [lia|rewrite le_bytes_length; lia|]. rewrite E8. rewrite le_bytes_length in R8, F8.
  exists s8. split; [done|]. split; [done|]. split; [|split; [|split; [|split]]].
  - intros o n Hd. rewrite F8, F7, F6, F5, F4, F3, F2, F1 by lia. done.
  - intros Hp. rewrite F8, F7, F6, F5, F4, F3 by lia. by rewrite R2.
  - rewrite F8, F7, F6, F5, F4 by lia. exact R3.
  - rewrite (rd_slice 2 s8 _ (le_bytes 2 c)) by (by rewrite F8 by lia). by rewrite le_value_bytes.
  - rewrite (rd_slice 4 s8 _ (le_bytes 4 sz)) by exact R8. by rewrite le_value_bytes.
Qed.

(** The functions that say whether a file is there, and its size. *)
Context (stat : mmap_entry D -> Z * Z).
Definition told f : Prop := forall d, file_info f d = Ok (stat f, d).

(** What the entry at [off] says of a file. *)
Definition entry_of f (c off : Z) (s : list Z) : Prop :=
  ((stat f).1 <> 0 -> arr_slice s off 8 = Ok (name f)) /\ arr_slice s (off + 8) 3 = Ok (ext f) /\ rd 2 s (off + 0x1A) = Ok c /\ rd 4 s (off + 0x1C) = Ok ((stat f).2 mod 2 ^ 32).
Lemma entry_frame f c off s s' : (forall o n, o + n <= off + 32 -> arr_slice s' o n = arr_slice s o n) -> entry_of f c off s -> entry_of f c off s'.
Proof. intros F (H1 & H2 & H3 & H4). unfold entry_of, rd in *. rewrite !F by lia. done. Qed.

Lemma dir_files_at files c off s d : Forall room files -> Forall told files -> Forall named files -> 3 <= c -> c + sum_clusters files <= 8155 ->
  length s = 512%nat -> 0 <= off -> off + 32 * Z.of_nat (length files) <= 512 ->
  exists s', dir_files MMAPFS_BUILD files c (c - 1) off s d = Ok (s', d) /\ length s' = 512%nat /\ (forall o n, o + n <= off -> arr_slice s' o n = arr_slice s o n) /\
    forall i f, files !! i = Some f -> entry_of f (c + sum_clusters (firstn i files)) (off + 32 * Z.of_nat i) s'.
Proof.
  revert c off s. induction files as [|g files IH]; intros c off s Hr Ht Hn Hc Hs Hl Ho Hb; [by exists s|].
  apply Forall_cons in Hr as [Hg Hr]. apply Forall_cons in Ht as [Tg Ht]. apply Forall_cons in Hn as [Ng Hn]. destruct (max_clusters_ok g Hg) as [Eg Hg0]. pose proof (sum_nonneg files Hr) as Hsum.
  cbn [dir_files sum_clusters length] in *. rewrite (bind_ok _ _ _ _ _ (Tg d)). rewrite Eg, (u16_id (c - 1 + clusters g)) by lia.
  destruct (dir_entry_ok g (stat g).1 (stat g).2 c off s Ng Hl Ho ltac:(lia)) as (s1 & E1 & L1 & F1 & R1 & R2 & R3 & R4). rewrite E1. mrun.
  rewrite u16_id by lia. replace (c - 1 + clusters g + 1) with (c + clusters g) by lia. replace (c - 1 + clusters g) with (c + clusters g - 1) by lia.
  destruct (IH (c + clusters g) (off + DIRECTORY_ENTRYSIZE) s1 Hr Ht Hn) as (s2 & E2 & L2 & F2 & R); [lia|lia|done|unfold DIRECTORY_ENTRYSIZE; lia..|]. unfold DIRECTORY_ENTRYSIZE in *.
  exists s2. split; [exact E2|]. split; [done|]. split; [intros o n Hd; rewrite F2 by lia; by apply F1|]. intros [|i] f Hi; cbn in Hi.
  - injection Hi as ->. cbn [firstn sum_clusters]. rewrite !Z.add_0_r. apply (entry_frame f c off s1); [done|]. rewrite Z.mod_small in R3 by lia. split; [exact R1|]. split; [exact R2|]. split; [exact R3|exact R4].
  - cbn [firstn sum_clusters]. rewrite Z.add_assoc. replace (off + 32 * Z.of_nat (S i)) with (off + 32 + 32 * Z.of_nat i) by lia. by apply R.
Qed.

(** The first sector of the root directory. *)
Lemma rootdirectory_at files sector d : layout files -> Forall told files -> Forall named files -> (length files <= 15)%nat -> length sector = 512%nat ->
  exists dir, build_rootdirectory 0 MMAPFS_BUILD files 0 sector d = Ok (dir, d) /\ forall i f, files !! i = Some f -> entry_of f (start files i) (32 * Z.of_nat (S i)) dir.
Proof.
  intros [Hr Hs] Ht Hn Hlen Hl.
  assert (arr_blit sector 0 (zeros LUN_SECTORSIZE) = Ok (zeros LUN_SECTORSIZE)) as Ez.
  { unfold arr_blit. rewrite decide_True by (unfold zeros; rewrite length_replicate; change (Z.to_nat LUN_SECTORSIZE) with 512%nat; lia). rewrite drop_ge, app_nil_r by (rewrite Hl; apply Nat.leb_le; reflexivity). done. }
  destruct (dir_label (zeros LUN_SECTORSIZE)) as [s1|] eqn:E1; [|exfalso; vm_compute in E1; done].
  assert (length s1 = 512%nat) as L1 by (vm_compute in E1; by injection E1 as <-).
  destruct (dir_files_at files 3 32 s1 d Hr Ht Hn) as (dir & E2 & L2 & F2 & R); [lia|lia|done|lia|lia|]. exists dir. split.
  - unfold build_rootdirectory. rewrite Ez. mrun. change (0 =? 0) with true. cbn [negb]. mrun. rewrite E1. mrun. exact E2.
  - intros i f Hi. replace (32 * Z.of_nat (S i)) with (32 + 32 * Z.of_nat i) by lia. by apply R.
Qed.

(** ** The allocation table *)

(** What the entry of cluster [c] of a file says, [e] being the last one counted. *)
Definition mark (c e : Z) : Z := if c <? e then c else if c =? e then FAT_ENDOFCLUSTER else FAT_BADCLUSTER.

(** The entries of the first 128 clusters, which are in the first half of the first sector. *)
Lemma fat_clusters_at n c e s : 3 <= c -> c + Z.of_nat n <= 8155 -> length s = 512%nat ->
  let c' := c + Z.of_nat n in
  exists s', fat_clusters n 0 c e (c / 128) (2 * (c mod 128)) s = Ok (s', c' / 128, 2 * (c' mod 128)) /\ length s' = 512%nat /\
    (forall x, 0 <= x < c -> rd 2 s' (2 * x) = rd 2 s (2 * x)) /\
    (forall x, c <= x < c' -> x < 128 -> rd 2 s' (2 * x) = Ok (mark x e)).
Proof.
  revert c s. induction n as [|n IH]; intros c s Hc Hn Hl c'; cbn [fat_clusters].
  - exists s. unfold c'. rewrite Z.add_0_r. split; [done|]. split; [done|]. split; [done|lia].
  - assert (exists s1, (if c / 128 =? 0 then write16 s (2 * (c mod 128)) (u16 (mark c e)) else Ok s) = Ok s1 /\ length s1 = 512%nat /\
      (forall x, 0 <= x < c -> rd 2 s1 (2 * x) = rd 2 s (2 * x)) /\ (c < 128 -> rd 2 s1 (2 * c) = Ok (mark c e))) as (s1 & E1 & L1 & F1 & R1).
    { destruct (Z.eqb_spec (c / 128) 0) as [E|E]; [|exists s; do 3 (split; [done|]); mlia]. rewrite write16_wr. replace (c mod 128) with c by mlia.
      destruct (wr_ok 2 s (2 * c) (u16 (mark c e))) as (s1 & E1 & L1); [lia|mlia|]. exists s1. split; [done|]. split; [congruence|]. split.
      - intros x Hx. eapply rd_wr_other; [exact E1|lia].
      - intros _. rewrite (rd_wr _ _ _ _ _ E1). change (256 ^ Z.of_nat 2) with 65536. f_equal. unfold mark, FAT_ENDOFCLUSTER, FAT_BADCLUSTER. destruct (c <? e), (c =? e); mlia. }
    change (if c <? e then c else if c =? e then FAT_ENDOFCLUSTER else FAT_BADCLUSTER) with (mark c e). rewrite E1. cbn [mbind res_bind]. change (SECTORSIZE / 2) with 256.
    assert (exists s2, fat_clusters n 0 (c + 1) e ((c + 1) / 128) (2 * ((c + 1) mod 128)) s1 = Ok (s2, c' / 128, 2 * (c' mod 128)) /\ length s2 = 512%nat /\
      (forall x, 0 <= x < c + 1 -> rd 2 s2 (2 * x) = rd 2 s1 (2 * x)) /\ (forall x, c + 1 <= x < c' -> x < 128 -> rd 2 s2 (2 * x) = Ok (mark x e))) as (s2 & E2 & L2 & F2 & R2).
    { replace c' with (c + 1 + Z.of_nat n) by lia. apply IH; [lia|lia|done]. }
    exists s2. split; [|split; [done|split]].
    + destruct (Z.geb_spec (2 * (c mod 128) + 2) 256).
      * replace (c / 128 + 1) with ((c + 1) / 128) by mlia. replace 0 with (2 * ((c + 1) mod 128)) at 2 by mlia. exact E2.
      * replace (c / 128) with ((c + 1) / 128) by mlia. replace (2 * (c mod 128) + 2) with (2 * ((c + 1) mod 128)) by mlia. exact E2.
    + intros x Hx. rewrite F2 by lia. by apply F1.
    + intros x Hx H128. destruct (decide (x = c)) as [->|]; [rewrite F2 by lia; by apply R1|apply R2; lia].
Qed.

Lemma used_range size : 0 <= size < 2 ^ 25 -> 0 <= used_clusters size <= 8193 /\ (4096 < size < 8192 -> used_clusters size = 1) /\ (8192 <= size -> 2 <= used_clusters size).
Proof.
  intros Hs. unfold used_clusters, CLUSTER_BYTES. change (CLUSTERSIZE * SECTORSIZE) with 4096. change (2 ^ 25) with 33554432 in Hs.
  rewrite (u16_id (size / 4096)) by mlia. split; [|split].
  - destruct (_ <? size); cbn [Z.b2z]; rewrite u16_id; mlia.
  - intros H. rewrite u32_id by lia. destruct (Z.ltb_spec (size * 4096) size); [lia|]. cbn [Z.b2z]. rewrite u16_id; mlia.
  - intros H. destruct (_ <? size); cbn [Z.b2z]; rewrite u16_id; mlia.
Qed.

Lemma fat_files_at files c s d : Forall room files -> Forall told files -> Forall (λ f, 0 <= (stat f).2 <= maxsize f) files -> 3 <= c -> c + sum_clusters files <= 8155 -> length s = 512%nat ->
  exists s', fat_files files 0 c (c - 1) (c / 128) (2 * (c mod 128)) s d = Ok (s', d) /\ length s' = 512%nat /\
    (forall x, 0 <= x < c -> rd 2 s' (2 * x) = rd 2 s (2 * x)) /\
    (forall i f, files !! i = Some f -> let c0 := c + sum_clusters (firstn i files) in 0 < clusters f -> c0 < 128 ->
       rd 2 s' (2 * c0) = Ok (mark c0 (c0 + used_clusters (stat f).2 - 1))).
Proof.
  revert c s. induction files as [|g files IH]; intros c s Hr Ht Hz Hc Hs Hl; [by exists s|].
  apply Forall_cons in Hr as [Hg Hr]. apply Forall_cons in Ht as [Tg Ht]. apply Forall_cons in Hz as [Zg Hz]. destruct (max_clusters_ok g Hg) as [Eg Hg0]. pose proof (sum_nonneg files Hr) as Hsum.
  cbn [fat_files sum_clusters] in *. rewrite (bind_ok _ _ _ _ _ (Tg d)). rewrite Eg, (u16_id (c - 1 + clusters g)) by lia.
  destruct (used_range (stat g).2) as [Hu _]; [unfold room in Hg; lia|]. rewrite (u16_id (c + used_clusters (stat g).2 - 1)) by lia.
  replace (Z.to_nat (c - 1 + clusters g - c + 1)) with (Z.to_nat (clusters g)) by lia.
  destruct (fat_clusters_at (Z.to_nat (clusters g)) c (c + used_clusters (stat g).2 - 1) s) as (s1 & E1 & L1 & F1 & R1); [lia|lia|done|]. rewrite E1. mrun. cbn [fst snd].
  rewrite Z2Nat.id in * by lia. rewrite u16_id by lia. replace (c - 1 + clusters g + 1) with (c + clusters g) by lia. replace (c - 1 + clusters g) with (c + clusters g - 1) by lia.
  destruct (IH (c + clusters g) s1 Hr Ht Hz) as (s2 & E2 & L2 & F2 & R2); [lia|lia|done|]. exists s2. split; [exact E2|]. split; [done|]. split.
  - intros x Hx. rewrite F2 by lia. by apply F1.
  - intros [|i] f Hi Hf H128; cbn in Hi; cbn [firstn sum_clusters] in *.
    + injection Hi as ->. rewrite Z.add_0_r in *. rewrite F2 by lia. apply R1; lia.
    + rewrite Z.add_assoc in *. by apply R2.
Qed.
Lemma fat_at files i f sector d : layout files -> Forall told files -> Forall (λ f, 0 <= (stat f).2 <= maxsize f) files -> length sector = 512%nat ->
  files !! i = Some f -> 0 < clusters f -> start files i < 128 ->
  exists s, build_fat files 0 sector d = Ok (s, d) /\ rd 2 s (2 * start files i) = Ok (mark (start files i) (start files i + used_clusters (stat f).2 - 1)).
Proof.
  intros [Hr Hs] Ht Hz Hl Hi Hf H128. unfold build_fat.
  assert (length bad_clusters = 512%nat) as Lb by (vm_compute; done). destruct (blit_step sector 0 bad_clusters Hl) as (s1 & E1 & L1 & _); [lia|rewrite Lb; lia|]. rewrite E1. mrun. change (0 =? 0) with true. cbn iota.
  destruct (blit_step s1 0 [MEDIA_TYPE; 0xFF; Z.land FAT_ENDOFCLUSTER 0xff; Z.shiftr FAT_ENDOFCLUSTER 8] L1) as (s2 & E2 & L2 & _); [lia|cbn [length]; lia|]. rewrite E2. mrun.
  destruct (fat_files_at files 3 s2 d Hr Ht Hz) as (s3 & E3 & _ & _ & R3); [lia|lia|done|]. exists s3. split; [exact E3|]. by apply R3.
Qed.
(** ** The host *)

(** What the host takes from the boot sector. *)
Record volume := mk_volume { bytes_per_sector : Z; sectors_per_cluster : Z; reserved : Z; fats : Z; root_entries : Z; fat_size : Z }.
Definition mount (boot : list Z) : res volume :=
  bps ← rd 2 boot 11; spc ← rd 1 boot 13; rs ← rd 2 boot 14; nf ← rd 1 boot 16; re ← rd 2 boot 17; fs ← rd 2 boot 22;
  Ok (mk_volume bps spc rs nf re fs).
Definition cluster_bytes (v : volume) : Z := bytes_per_sector v * sectors_per_cluster v.
Definition up (a b : Z) : Z := (a + b - 1) / b.
Definition root_sector (v : volume) : Z := reserved v + fats v * fat_size v.
Definition first_sector (v : volume) (c : Z) : Z :=
  root_sector v + up (root_entries v * 32) (bytes_per_sector v) + (c - 2) * sectors_per_cluster v.

(** The buffer of the unit when a sector is asked for. *)
Context (files : list (mmap_entry D)) (buffer : list Z).
Definition host_sector (lba : Z) : M D (list Z) := read_sector files lba buffer.
(** The entry [i] of the root directory: name, extension, first cluster, size. *)
Definition host_entry (v : volume) (i : nat) : M D (list Z * list Z * Z * Z) :=
  s ← host_sector (root_sector v);
  let o := 32 * Z.of_nat i in
  n ← mlift (arr_slice s o 8); x ← mlift (arr_slice s (o + 8) 3); c ← mlift (rd 2 s (o + 26)); z ← mlift (rd 4 s (o + 28));
  mret (n, x, c, z).
Definition host_next (v : volume) (c : Z) : M D Z :=
  s ← host_sector (reserved v + 2 * c / bytes_per_sector v); mlift (rd 2 s ((2 * c) mod bytes_per_sector v)).
Fixpoint host_sectors (n : nat) (lba : Z) : M D (list (list Z)) :=
  match n with O => mret [] | S n => b ← host_sector lba; l ← host_sectors n (lba + 1); mret (b :: l) end.
(** The sectors of a file of [size] bytes from cluster [c] on; nothing when the table ends
    the file too early. *)
Fixpoint host_follow (n : nat) (v : volume) (c size : Z) : M D (option (list (list Z))) :=
  match n with
  | O => mret None
  | S n =>
      l ← host_sectors (Z.to_nat (up (Z.min size (cluster_bytes v)) (bytes_per_sector v))) (first_sector v c);
      if size <=? cluster_bytes v then mret (Some l)
      else
        next ← host_next v c;
        if (2 <=? next) && (next <? 0xFFF7) then r ← host_follow n v next (size - cluster_bytes v); mret (app l <$> r)
        else mret None
  end.
Definition host_file (v : volume) (c size : Z) : M D (option (list (list Z))) := host_follow (S (Z.to_nat (size / cluster_bytes v))) v c size.

Definition the_volume : volume := mk_volume 512 8 8 1 512 256.
Definition host_mount : M D volume := s ← host_sector 0; mlift (mount s).

Hypothesis Hbuf : length buffer = 512%nat.
Hypothesis Hlay : layout files.
Hypothesis Htold : Forall told files.
Hypothesis Hnamed : Forall named files.
Hypothesis Hlen : (length files <= 15)%nat.
Hypothesis Hsize : Forall (λ f, 0 <= (stat f).2 <= maxsize f) files.
(** The functions give the same sectors at each reading. *)
Context (content : mmap_entry D -> Z -> list Z).
Definition serves f : Prop := forall k b d, 0 <= k < 8 * clusters f -> read f k b d = Ok (content f k, d).
Hypothesis Hread : Forall serves files.

Lemma host_mount_ok d : host_mount d = Ok (the_volume, d).
Proof.
  unfold host_mount, host_sector, read_sector. change (0 <? FAT_FAT1_FIRST) with true. cbn iota. unfold build_bootsector.
  assert (arr_blit buffer 0 (zeros SECTORSIZE) = Ok (zeros SECTORSIZE)) as ->.
  { unfold arr_blit. rewrite decide_True by (unfold zeros; rewrite length_replicate; change (Z.to_nat SECTORSIZE) with 512%nat; lia). rewrite drop_ge, app_nil_r by (rewrite Hbuf; apply Nat.leb_le; reflexivity). done. }
  change (0 =? 0) with true. vm_compute. done.
Qed.
Lemma host_data i f k d : files !! i = Some f -> 0 <= k < 8 * clusters f -> host_sector (first_sector the_volume (start files i) + k) d = Ok (content f k, d).
Proof.
  intros Hi Hk. destruct Hlay as [Hr Hs]. destruct (sum_firstn files i f Hr Hi) as [H1 H2]. unfold host_sector.
  assert (first_sector the_volume (start files i) + k = (start files i + 35) * 8 + k) as ->.
  { unfold first_sector, root_sector, up. cbn [the_volume bytes_per_sector sectors_per_cluster reserved fats root_entries fat_size]. change ((512 * 32 + 512 - 1) / 512) with 32. lia. }
  assert (3 <= start files i) as H3 by (unfold start; lia). unfold read_sector, between. change FAT_FAT1_FIRST with 8. change FAT_FAT1_LAST with 263. change DIRECTORY_FIRST with 264. change DIRECTORY_LAST with 295.
  set (lba := (start files i + 35) * 8 + k) in *. destruct (Z.ltb_spec lba 8); [lia|]. destruct (Z.leb_spec lba 263); [lia|]. destruct (Z.leb_spec lba 295); [lia|]. rewrite !andb_false_r.
  unfold lba. rewrite (proj1 (data_at files i f k buffer Hlay Hi Hk)). by apply (Forall_lookup_1 _ _ _ _ Hread Hi).
Qed.
Lemma host_entry_ok i f d : files !! i = Some f -> (stat f).1 <> 0 -> 0 <= (stat f).2 <= maxsize f ->
  host_entry the_volume (S i) d = Ok ((name f, ext f, start files i, (stat f).2), d).
Proof.
  intros Hi Hp Hz. assert (room f) as Hf by (eapply Forall_lookup_1; [apply Hlay|exact Hi]). unfold room in Hf. change (2 ^ 25) with 33554432 in Hf.
  destruct (rootdirectory_at files buffer d) as (dir & E & R); [done..|]. destruct (R i f Hi) as (R1 & R2 & R3 & R4).
  assert (host_sector (root_sector the_volume) d = Ok (dir, d)) as Es by exact E. unfold host_entry. rewrite (bind_ok _ _ _ _ _ Es). cbn zeta.
  rewrite (R1 Hp), R2. mrun. rewrite R3. mrun. rewrite R4. mrun. rewrite Z.mod_small by (change (2 ^ 32) with 4294967296; lia). done.
Qed.
Lemma host_next_ok i f d : files !! i = Some f -> 0 < clusters f -> start files i < 128 ->
  host_next the_volume (start files i) d = Ok (mark (start files i) (start files i + used_clusters (stat f).2 - 1), d).
Proof.
  intros Hi Hc H128. destruct (fat_at files i f buffer d Hlay Htold Hsize Hbuf Hi Hc H128) as (s & E & R).
  assert (0 <= start files i) as H0 by (destruct (sum_firstn files i f (proj1 Hlay) Hi); unfold start; lia). unfold host_next. cbn [the_volume reserved bytes_per_sector].
  rewrite Z.div_small, Z.mod_small by lia. assert (host_sector (8 + 0) d = Ok (s, d)) as Es by exact E. rewrite (bind_ok _ _ _ _ _ Es), R. done.
Qed.
Lemma host_sectors_ok i f n k d : files !! i = Some f -> 0 <= k -> k + Z.of_nat n <= 8 * clusters f ->
  host_sectors n (first_sector the_volume (start files i) + k) d = Ok (content f <$> seqZ k (Z.of_nat n), d).
Proof.
  intros Hi. revert k. induction n as [|n IH]; intros k Hk Hn; [done|]. cbn [host_sectors]. rewrite (bind_ok _ _ _ _ _ (host_data i f k d Hi ltac:(lia))).
  rewrite <- Z.add_assoc. rewrite (bind_ok _ _ _ _ _ (IH (k + 1) ltac:(lia) ltac:(lia))). rewrite (seqZ_cons k) by lia. rewrite fmap_cons. replace (Z.pred (Z.of_nat (S n))) with (Z.of_nat n) by lia. done.
Qed.
Lemma host_cluster i f size d : files !! i = Some f -> 0 < size -> 0 < clusters f ->
  host_sectors (Z.to_nat (up (Z.min size (cluster_bytes the_volume)) (bytes_per_sector the_volume))) (first_sector the_volume (start files i)) d =
  Ok (content f <$> seqZ 0 (up (Z.min size 4096) 512), d).
Proof.
  intros Hi Hz Hc. change (cluster_bytes the_volume) with 4096. change (bytes_per_sector the_volume) with 512. rewrite <- (Z.add_0_r (first_sector _ _)).
  assert (0 <= up (Z.min size 4096) 512 <= 8) as Hu by (unfold up; mlia). rewrite (host_sectors_ok i f _ _ _ Hi) by lia. by rewrite Z2Nat.id by lia.
Qed.

(** The table leads from the first cluster back to it. *)
Lemma host_loop i f n size d : files !! i = Some f -> 0 < clusters f -> start files i < 128 -> 2 <= used_clusters (stat f).2 -> 0 < size -> size <= 4096 * Z.of_nat n ->
  host_follow n the_volume (start files i) size d =
  Ok (Some (concat (replicate (Z.to_nat (up size 4096 - 1)) (content f <$> seqZ 0 8)) ++ (content f <$> seqZ 0 (up (size - 4096 * (up size 4096 - 1)) 512))), d).
Proof.
  intros Hi Hc H128 Hu. revert size. induction n as [|n IH]; intros size Hz Hn; [lia|]. cbn [host_follow].
  assert (0 <= start files i) as H0 by (destruct (sum_firstn files i f (proj1 Hlay) Hi); unfold start; lia).
  rewrite (bind_ok _ _ _ _ _ (host_cluster i f size d Hi Hz Hc)). change (cluster_bytes the_volume) with 4096. destruct (Z.leb_spec size 4096).
  - replace (up size 4096) with 1 by (unfold up; mlia). cbn [replicate concat Z.to_nat Z.sub]. rewrite Z.min_l by lia. by rewrite Z.sub_0_r.
  - rewrite (bind_ok _ _ _ _ _ (host_next_ok i f d Hi Hc H128)). unfold mark. destruct (Z.ltb_spec (start files i) (start files i + used_clusters (stat f).2 - 1)); [|lia].
    rewrite (proj2 (Z.leb_le 2 (start files i))) by (unfold start in *; pose proof (sum_firstn files i f (proj1 Hlay) Hi); lia). rewrite (proj2 (Z.ltb_lt (start files i) 0xFFF7)) by lia. cbn [andb].
    rewrite (bind_ok _ _ _ _ _ (IH (size - 4096) ltac:(lia) ltac:(lia))). unfold mret. rewrite Z.min_r by lia. change (up 4096 512) with 8. cbn [fmap option_fmap option_map].
    replace (up (size - 4096) 4096) with (up size 4096 - 1) by (unfold up; mlia). replace (Z.to_nat (up size 4096 - 1)) with (S (Z.to_nat (up size 4096 - 1 - 1))) by (unfold up; mlia). cbn [replicate concat]. rewrite <- app_assoc.
    by replace (size - 4096 - 4096 * (up size 4096 - 1 - 1)) with (size - 4096 * (up size 4096 - 1)) by lia.
Qed.

End mmapfs.

(** ** Two files *)

Definition text_file (nm : list Z) (n : Z) : mmap_entry unit := mk_entry nm [84; 88; 84] n None (λ k _, mret (replicate 512 (k mod 256))) (λ _ b, mret b) None.
Definition two_files : list (mmap_entry unit) := [text_file [65; 65; 65; 65; 65; 65; 65; 65] 8192; text_file [66; 66; 66; 66; 66; 66; 66; 66] 5000].

(** The first file, of 8192 bytes, is read as its first half twice; the second one, of 5000
    bytes, is not read; the third one is read whole. *)
Definition three_files : list (mmap_entry unit) := two_files ++ [text_file [67; 67; 67; 67; 67; 67; 67; 67] 1000].

(** ** The allocation table

    The entry of a cluster is to be the next cluster of the file: it is the cluster itself,
    a chain without end. A last cluster that is not full is not counted, and each sector of
    the table holds the entries of 128 clusters where the host looks for 256. *)
Definition fat_entry (files : list (mmap_entry unit)) (c : Z) : res Z :=
  match build_fat files (c / 256) (replicate 512 0) tt with Ok (s, _) => rd 2 s (2 * (c mod 256)) | Err e => Err e end.

Example fat_self_loop : fat_entry two_files 3 = Ok 3 /\ fat_entry two_files 4 = Ok 0xFFFF.
Proof. by vm_compute. Qed.
Example fat_last_cluster : fat_entry [text_file [] 4095] 3 = Ok FAT_BADCLUSTER /\ fat_entry [text_file [] 5000] 4 = Ok FAT_BADCLUSTER.
Proof. by vm_compute. Qed.
Example fat_half_sectors : fat_entry [text_file [] (4096 * 200)] 127 = Ok 127 /\ fat_entry [text_file [] (4096 * 200)] 128 = Ok FAT_BADCLUSTER.
Proof. by vm_compute. Qed.
(** The sector asked for has 32 bits, the one that is read 16. *)
Example data_wraps : build_data MMAPFS_READ two_files (65536 + 304) [] tt = build_data MMAPFS_READ two_files 304 [] tt.
Proof. done. Qed.
End MmapFsSpec.
