(* ===== verification/CdcAcm.v ===== *)
(** * USB serial line ([lib/usb/cdc_acm.c])

    What the application sends waits in a ring of 128 bytes, from which packets of at most
    16 bytes go to the host: one when the application sends, one at each interrupt of the
    endpoint. The functions copy the pointers of the ring with the interrupts off, work on
    the copies, and update the pointers with the interrupts off again: an interrupt may come
    in between, and is an argument of the operations. The endpoint holds one packet: the
    driver ([drivers/stm32/usb.c]) writes each packet over the one before, whether the host
    has read it or not. *)

From stdpp Require Import base numbers list.
From S2P Require Import Prelude Dfu.

Module CdcAcm.
Import Dfu.

Definition CDC_ACM_EP_DATAOUT : Z := 1.
Definition CDC_ACM_EP_DATAIN : Z := 2.
Definition CDC_ACM_EP_DATAOUT_SIZE : Z := 16.
Definition CDC_ACM_EP_DATAIN_SIZE : Z := 16.
Definition CDC_ACM_TXBUF_SIZE : Z := 128.
Definition CDC_ACM_RXBUF_SIZE : Z := CDC_ACM_EP_DATAOUT_SIZE.
Definition SET_LINE_CODING : Z := 0x20.
Definition GET_LINE_CODING : Z := 0x21.
Definition SET_CONTROL_LINE_STATE : Z := 0x22.
Definition DFU_INTERFACE : Z := 2.

(** [line_coding] is a packed structure of 7 bytes: rate, format, parity, bits. *)
Definition line_coding0 : list Z := le_bytes 4 9600 ++ [0; 0; 8].
Definition LINE_CODING_SIZE : Z := 7.

(** [received]: the arguments of the calls of the application; [out_packet]: the packet in
    the endpoint that is read; [line_coding_next]: the callback of the next data stage;
    [ep]: the packet in the endpoint to the host; [fates]: the packets that were there before,
    each with [true] if the host read it and [false] if it was overwritten. *)
Record cdc := mk_cdc {
  line_coding : list Z;
  tx_buf : list Z;
  tx_len : Z;
  tx_write : Z;
  tx_read : Z;
  rx_buf : list Z;
  rx_cb : bool;
  received : list (list Z);
  out_packet : list Z;
  line_coding_next : bool;
  cdfu : dfu;
  calls : list usb_call;
  ep : option (list Z);
  fates : list (list Z * bool);
}.
Definition set_coding x s := mk_cdc x (tx_buf s) (tx_len s) (tx_write s) (tx_read s) (rx_buf s) (rx_cb s) (received s) (out_packet s) (line_coding_next s) (cdfu s) (calls s) (ep s) (fates s).
Definition set_tx_buf x s := mk_cdc (line_coding s) x (tx_len s) (tx_write s) (tx_read s) (rx_buf s) (rx_cb s) (received s) (out_packet s) (line_coding_next s) (cdfu s) (calls s) (ep s) (fates s).
Definition set_tx n w r s := mk_cdc (line_coding s) (tx_buf s) n w r (rx_buf s) (rx_cb s) (received s) (out_packet s) (line_coding_next s) (cdfu s) (calls s) (ep s) (fates s).
Definition set_rx_buf x s := mk_cdc (line_coding s) (tx_buf s) (tx_len s) (tx_write s) (tx_read s) x (rx_cb s) (received s) (out_packet s) (line_coding_next s) (cdfu s) (calls s) (ep s) (fates s).
Definition set_rx_cb x s := mk_cdc (line_coding s) (tx_buf s) (tx_len s) (tx_write s) (tx_read s) (rx_buf s) x (received s) (out_packet s) (line_coding_next s) (cdfu s) (calls s) (ep s) (fates s).
Definition add_received x s := mk_cdc (line_coding s) (tx_buf s) (tx_len s) (tx_write s) (tx_read s) (rx_buf s) (rx_cb s) (received s ++ [x]) (out_packet s) (line_coding_next s) (cdfu s) (calls s) (ep s) (fates s).
Definition set_packet x s := mk_cdc (line_coding s) (tx_buf s) (tx_len s) (tx_write s) (tx_read s) (rx_buf s) (rx_cb s) (received s) x (line_coding_next s) (cdfu s) (calls s) (ep s) (fates s).
Definition set_next x s := mk_cdc (line_coding s) (tx_buf s) (tx_len s) (tx_write s) (tx_read s) (rx_buf s) (rx_cb s) (received s) (out_packet s) x (cdfu s) (calls s) (ep s) (fates s).
Definition set_cdfu x s := mk_cdc (line_coding s) (tx_buf s) (tx_len s) (tx_write s) (tx_read s) (rx_buf s) (rx_cb s) (received s) (out_packet s) (line_coding_next s) x (calls s) (ep s) (fates s).
Definition add_calls x s := mk_cdc (line_coding s) (tx_buf s) (tx_len s) (tx_write s) (tx_read s) (rx_buf s) (rx_cb s) (received s) (out_packet s) (line_coding_next s) (cdfu s) (calls s ++ x) (ep s) (fates s).
Definition set_ep x y s := mk_cdc (line_coding s) (tx_buf s) (tx_len s) (tx_write s) (tx_read s) (rx_buf s) (rx_cb s) (received s) (out_packet s) (line_coding_next s) (cdfu s) (calls s) x y.
Abbreviation CM := (M cdc).

Definition cdc0 : cdc := mk_cdc line_coding0 (replicate 128 0) 0 0 0 (replicate 16 0) false [] [] false usb_dfu_init [] None [].
Definition call (c : usb_call) : CM unit := mmod (add_calls [c]).

Definition cdc_acm_register_rx_callback (cb : bool) : CM unit := mmod (set_rx_cb cb).

(** ** To the host *)

(** The bytes that follow each other in the buffer, at most a packet. *)
Definition packet_len (txr txw : Z) : Z :=
  let len := if txw >? txr then txw - txr else CDC_ACM_TXBUF_SIZE - txr in
  if len >? CDC_ACM_EP_DATAIN_SIZE then CDC_ACM_EP_DATAIN_SIZE else len.

(** The driver writes the packet in the memory of the endpoint and marks it valid. *)
Definition usb_send_in (bs : list Z) : CM unit :=
  call (usb_send CDC_ACM_EP_DATAIN bs) ;;
  mmod (λ s, set_ep (Some bs) (fates s ++ from_option (λ old, [(old, false)]) [] (ep s)) s).

(** [intr] and [intr'] run between the two sections without interrupts, before and after the
    packet is sent. *)
Definition send_to_endpoint_with (intr intr' : CM unit) : CM unit :=
  s ← mget;
  let txr := tx_read s in
  let txw := tx_write s in
  let txl := tx_len s in
  intr ;;
  if txl =? 0 then mret tt
  else
    let len := packet_len txr txw in
    s ← mget;
    (if len >? 0 then bs ← mlift (arr_slice (tx_buf s) txr len); usb_send_in bs else mret tt) ;;
    intr' ;;
    mmod (λ s, set_tx (u16 (tx_len s - len)) (tx_write s) (let r := u16 (tx_read s + len) in if r >=? CDC_ACM_TXBUF_SIZE then 0 else r) s).
Definition cdc_acm_send_to_endpoint : CM unit := send_to_endpoint_with (mret tt) (mret tt).

(** The bytes go to the buffer until it is full; the write pointer and the number of bytes
    taken. *)
Fixpoint send_loop (buf : list Z) (txw txr i : Z) : CM (Z * Z) :=
  match buf with
  | [] => mret (txw, i)
  | b :: buf =>
      s ← mget;
      t ← mlift (arr_set (tx_buf s) txw b);
      mmod (set_tx_buf t) ;;
      let txw := if txw + 1 >=? CDC_ACM_TXBUF_SIZE then 0 else txw + 1 in
      if txw =? txr then mret (txw, i + 1) else send_loop buf txw txr (i + 1)
  end.

(** [intr] runs after the pointers are copied. *)
Definition send_with (intr : CM unit) (buf : list Z) : CM Z :=
  s ← mget;
  let txr := tx_read s in
  let txw := tx_write s in
  let txl := tx_len s in
  intr ;;
  x ← (if (txl =? 0) || negb (txw =? txr) then send_loop buf txw txr 0 else mret (txw, 0));
  mmod (λ s, set_tx (u16 (tx_len s + x.2)) x.1 (tx_read s) s) ;;
  cdc_acm_send_to_endpoint ;;
  mret x.2.
Definition cdc_acm_send (buf : list Z) : CM Z := send_with (mret tt) buf.

(** ** Endpoints *)

Definition cdc_acm_data_in (rx tx : bool) : CM unit :=
  if negb tx && rx then mret tt else cdc_acm_send_to_endpoint.

(** The host reads the packet of the endpoint, if there is one: the endpoint is empty and its
    interrupt runs. *)
Definition usb_correct_transfer : CM unit :=
  s ← mget;
  match ep s with
  | Some bs => mmod (set_ep None (fates s ++ [(bs, true)])) ;; cdc_acm_data_in false true
  | None => mret tt
  end.

Definition cdc_acm_data_out (rx tx : bool) : CM unit :=
  if negb rx && tx then mret tt
  else
    s ← mget;
    (if rx_cb s then
      let pk := out_packet s in
      b ← mlift (arr_blit (rx_buf s) 0 pk);
      mmod (set_rx_buf b) ;;
      mmod (add_received pk)
    else mret tt) ;;
    call (usb_recv_set_status CDC_ACM_EP_DATAOUT STAT_RX_VALID).

(** ** Requests on the control endpoint *)

Definition set_line_coding : CM unit :=
  s ← mget;
  (if Z.of_nat (length (out_packet s)) =? LINE_CODING_SIZE then mmod (set_coding (out_packet s)) else mret tt) ;;
  mmod (set_next false) ;;
  call (usb_send_status 0).

(** The answer has the length of the request. *)
Definition cdc_acm_class_interface (interface : Z) (req : request) : CM unit :=
  if interface =? DFU_INTERFACE then
    s ← mget;
    let x := usb_dfu_class_interface req (cdfu s) in
    mmod (set_cdfu x.1) ;; mmod (add_calls x.2)
  else if bRequest req =? SET_LINE_CODING then mmod (set_next true) ;; call (usb_start_stage 0)
  else if bRequest req =? GET_LINE_CODING then
    s ← mget;
    bs ← mlift (arr_slice (line_coding s) 0 (wLength req));
    call (usb_send 0 bs)
  else if bRequest req =? SET_CONTROL_LINE_STATE then call (usb_send_status 0)
  else mret tt.

(** ** The ring *)

(** The [n] bytes from the place [r] on. *)
Definition ring (b : list Z) (r n : Z) : list Z := (λ i, b !!! Z.to_nat ((r + Z.of_nat i) mod 128)) <$> seq 0 (Z.to_nat n).
Definition contents (s : cdc) : list Z := ring (tx_buf s) (tx_read s) (tx_len s).
Definition cdc_ok (s : cdc) : Prop :=
  length (tx_buf s) = 128%nat /\ 0 <= tx_read s < 128 /\ 0 <= tx_len s <= 128 /\ tx_write s = (tx_read s + tx_len s) mod 128.

Lemma ring_length b r n : length (ring b r n) = Z.to_nat n.
Proof. unfold ring. by rewrite length_fmap, length_seq. Qed.
Lemma contents_length s : cdc_ok s -> Z.of_nat (length (contents s)) = tx_len s.
Proof. intros (_ & _ & H & _). unfold contents. rewrite ring_length. lia. Qed.

Lemma mod128 a i : 0 <= a < 128 -> 0 <= i <= 128 -> (a + i) mod 128 = if a + i <? 128 then a + i else a + i - 128.
Proof. intros Ha Hi. destruct (Z.ltb_spec (a + i) 128); [by apply Z.mod_small; lia|]. symmetry. apply (Z.mod_unique_pos _ _ 1); lia. Qed.

(** A byte at the end. *)
Lemma ring_snoc b r n x : length b = 128%nat -> 0 <= r < 128 -> 0 <= n < 128 ->
  ring (<[Z.to_nat ((r + n) mod 128) := x]> b) r (n + 1) = ring b r n ++ [x].
Proof.
  intros Hl Hr Hn. unfold ring. replace (Z.to_nat (n + 1)) with (Z.to_nat n + 1)%nat by lia. rewrite seq_app, fmap_app. f_equal.
  - apply list_fmap_ext. intros j i Hi. apply lookup_seq in Hi as [-> Hi]. rewrite list_lookup_total_insert_ne; [done|]. rewrite !mod128 by lia. destruct (Z.ltb_spec (r + n) 128), (Z.ltb_spec (r + Z.of_nat (0 + j)) 128); lia.
  - cbn. replace (r + Z.of_nat (Z.to_nat n)) with (r + n) by lia. f_equal. apply list_lookup_total_insert_eq. rewrite Hl. mlia.
Qed.

(** The bytes of a packet, and the rest. *)
Lemma ring_split b r n l : length b = 128%nat -> 0 <= r -> 0 <= l <= n -> r + l <= 128 -> ring b r n = part b r l ++ ring b ((r + l) mod 128) (n - l).
Proof.
  intros Hl Hr Hn Hb. unfold ring. replace (Z.to_nat n) with (Z.to_nat l + Z.to_nat (n - l))%nat by lia. rewrite seq_app, fmap_app. f_equal.
  - apply list_eq. intros i. unfold part. rewrite list_lookup_fmap. destruct (decide (i < Z.to_nat l)%nat) as [Hi|Hi].
    + rewrite lookup_seq_lt by lia. rewrite lookup_take_lt, lookup_drop by lia. cbn. rewrite Z.mod_small by lia.
      symmetry. replace (Z.to_nat (r + Z.of_nat i)) with (Z.to_nat r + i)%nat by lia. apply list_lookup_lookup_total_lt. lia.
    + rewrite lookup_seq_ge by lia. by rewrite lookup_take_ge by lia.
  - rewrite Nat.add_0_l, <- (Nat.add_0_r (Z.to_nat l)) at 1. rewrite <- fmap_add_seq, <- list_fmap_compose. apply list_fmap_ext. intros j i _. cbn. do 2 f_equal. rewrite Zplus_mod_idemp_l. f_equal. lia.
Qed.

(** ** The stream to the host *)

(** What the host has read, and the whole stream: the packets, the one in the endpoint, and
    what waits in the ring. *)
Definition host (s : cdc) : list Z := concat ((λ x : list Z * bool, if x.2 then x.1 else []) <$> fates s).
Definition stream (s : cdc) : list Z := concat (fates s).*1 ++ from_option id [] (ep s) ++ contents s.
(** No packet was overwritten. *)
Definition intact (s : cdc) : Prop := Forall (λ x, x.2 = true) (fates s).
(** The line never waits: when the endpoint is empty, so is the ring. *)
Definition line_ok (s : cdc) : Prop := cdc_ok s /\ (ep s = None -> tx_len s = 0).

Lemma intact_host s : intact s -> host s = concat (fates s).*1.
Proof. unfold intact, host. induction 1 as [|[bs b] l Hb _ IH]; [done|]. cbn in Hb. subst. rewrite !fmap_cons. cbn [concat fst snd]. by rewrite IH. Qed.

(** An operation that takes nothing and overwrites nothing. *)
Definition keeps_stream (m : CM unit) : Prop := forall s, line_ok s -> exists s', m s = Ok (tt, s') /\ line_ok s' /\ stream s' = stream s /\ tx_write s' = tx_write s /\ tx_len s' <= tx_len s /\ (intact s -> intact s').

Lemma packet_len_ok r n : 0 <= r < 128 -> 0 < n <= 128 -> let l := packet_len r ((r + n) mod 128) in 0 < l <= 16 /\ l <= n /\ r + l <= 128.
Proof.
  intros Hr Hn. unfold packet_len, CDC_ACM_TXBUF_SIZE, CDC_ACM_EP_DATAIN_SIZE. rewrite mod128 by lia.
  destruct (Z.ltb_spec (r + n) 128); [destruct (Z.gtb_spec (r + n) r); [|lia]; destruct (Z.gtb_spec (r + n - r) 16); lia|].
  destruct (Z.gtb_spec (r + n - 128) r); [lia|]. destruct (Z.gtb_spec (128 - r) 16); lia.
Qed.

(** A packet to the host; there is one unless the ring is empty. *)
Lemma send_to_endpoint_ok s : cdc_ok s -> exists s', cdc_acm_send_to_endpoint s = Ok (tt, s') /\ cdc_ok s' /\ stream s' = stream s /\ tx_write s' = tx_write s /\
  (if tx_len s =? 0 then s' = s else tx_len s' < tx_len s /\ ep s' <> None /\ fates s' = fates s ++ from_option (λ old, [(old, false)]) [] (ep s)).
Proof.
  intros (Hl & Hr & Hn & Hw). unfold cdc_acm_send_to_endpoint, send_to_endpoint_with. mrun. destruct (Z.eqb_spec (tx_len s) 0) as [E|Hne]; [by exists s|].
  destruct (packet_len_ok (tx_read s) (tx_len s) Hr ltac:(lia)) as (Hp1 & Hp2 & Hp3). rewrite <- Hw in Hp1, Hp2, Hp3. set (l := packet_len _ _) in *. mrun. destruct (Z.gtb_spec l 0); [|lia].
  assert (arr_slice (tx_buf s) (tx_read s) l = Ok (part (tx_buf s) (tx_read s) l)) as -> by (unfold arr_slice; by rewrite decide_True by lia).
  unfold usb_send_in, call. mrun. eexists. split; [done|]. cbn [tx_read tx_len tx_write tx_buf add_calls set_tx set_ep calls ep fates]. rewrite !u16_id by lia.
  assert ((if tx_read s + l >=? CDC_ACM_TXBUF_SIZE then 0 else tx_read s + l) = (tx_read s + l) mod 128) as Er.
  { rewrite mod128 by lia. unfold CDC_ACM_TXBUF_SIZE. destruct (Z.geb_spec (tx_read s + l) 128), (Z.ltb_spec (tx_read s + l) 128); lia. }
  split; [|split; [|split; [done|split; [lia|done]]]].
  - split; [done|]. cbn [tx_read tx_len tx_write set_tx set_ep add_calls]. rewrite Er. split; [mlia|]. split; [lia|]. rewrite Hw, Zplus_mod_idemp_l. f_equal. lia.
  - unfold stream, contents. cbn [tx_read tx_len tx_buf set_tx set_ep add_calls ep fates from_option]. rewrite Er. rewrite (ring_split (tx_buf s) (tx_read s) (tx_len s) l) by lia.
    rewrite fmap_app, concat_app, <- app_assoc. f_equal. rewrite !app_assoc. do 2 f_equal. destruct (ep s); cbn; [by rewrite app_nil_r|done].
Qed.

(** The host reads a packet, or there is none. *)
Lemma host_take_ok s : line_ok s -> exists s', usb_correct_transfer s = Ok (tt, s') /\ line_ok s' /\ stream s' = stream s /\ tx_write s' = tx_write s /\ (intact s -> intact s') /\
  (if tx_len s =? 0 then tx_len s' = 0 /\ ep s' = None else tx_len s' < tx_len s).
Proof.
  intros [Hs He]. unfold usb_correct_transfer. mrun. destruct (ep s) as [bs|] eqn:Ee.
  2:{ specialize (He eq_refl). exists s. split; [reflexivity|]. split; [split; [exact Hs|by intros _]|]. do 3 (split; [done|]). rewrite He. cbn. split; done. }
  mrun. set (s1 := set_ep None (fates s ++ [(bs, true)]) s). assert (cdc_ok s1) as Hs1 by exact Hs. unfold cdc_acm_data_in. cbn [negb andb].
  assert (stream s1 = stream s) as Est1 by (unfold stream, s1, contents; cbn [fates ep set_ep tx_buf tx_read tx_len]; rewrite Ee, fmap_app, concat_app; cbn; by rewrite app_nil_r, <- app_assoc).
  assert (intact s -> intact s1) as Hi1 by (intros Hi; apply Forall_app; split; [done|by repeat constructor]).
  destruct (send_to_endpoint_ok s1 Hs1) as (s2 & E2 & Hs2 & Est2 & Ew2 & H2). exists s2. split; [done|]. change (tx_len s1) with (tx_len s) in H2. destruct (Z.eqb_spec (tx_len s) 0) as [Ez|Hz].
  - subst s2. split; [by split|]. split; [done|]. by repeat split.
  - destruct H2 as (H2 & Hep & Hf). split; [by split|]. split; [congruence|]. split; [done|]. split; [|done]. intros Hi. unfold intact. rewrite Hf. cbn [ep s1 set_ep from_option]. rewrite app_nil_r. by apply Hi1.
Qed.

(** The host reads [n] packets. *)
Fixpoint takes (n : nat) : CM unit := match n with O => mret tt | S n => usb_correct_transfer ;; takes n end.
Lemma takes_keeps n : keeps_stream (takes n).
Proof.
  induction n as [|n IH]; intros s Hs; cbn [takes]; [by exists s|]. destruct (host_take_ok s Hs) as (s1 & E1 & Hs1 & Est1 & Ew1 & Hi1 & Hn1).
  destruct (IH s1 Hs1) as (s2 & E2 & Hs2 & Est2 & Ew2 & Hn2 & Hi2). exists s2. rewrite (bind_ok _ _ _ _ _ E1). split; [done|]. split; [done|]. split; [congruence|]. split; [congruence|]. split; [|by auto].
  destruct (Z.eqb_spec (tx_len s) 0); lia.
Qed.

(** The bytes in the ring, when [f] places are free. *)
Lemma send_loop_ok bs s r n f i : length (tx_buf s) = 128%nat -> 0 <= r < 128 -> 0 <= n -> 0 < f -> n + f <= 128 ->
  let k := Z.min (Z.of_nat (length bs)) f in
  exists b, send_loop bs ((r + n) mod 128) ((r + n + f) mod 128) i s = Ok (((r + n + k) mod 128, i + k), set_tx_buf b s) /\
    length b = 128%nat /\ ring b r (n + k) = ring (tx_buf s) r n ++ firstn (Z.to_nat k) bs.
Proof.
  intros Hl Hr. revert s n f i Hl. induction bs as [|x bs IH]; intros s n f i Hl Hn Hf Hnf k; cbn [send_loop].
  - exists (tx_buf s). unfold k. cbn [length]. change (Z.of_nat 0) with 0. rewrite Z.min_l, !Z.add_0_r by lia. split; [by destruct s|]. split; [done|]. by rewrite app_nil_r.
  - mrun. rewrite arr_set_ok by (rewrite Hl; mlia). mrun. set (b1 := <[_ := x]> (tx_buf s)). pose proof (ring_snoc (tx_buf s) r n x Hl Hr ltac:(lia)) as Rs. fold b1 in Rs.
    assert (length b1 = 128%nat) as Hl1 by (unfold b1; by rewrite length_insert).
    assert ((if (r + n) mod 128 + 1 >=? CDC_ACM_TXBUF_SIZE then 0 else (r + n) mod 128 + 1) = (r + (n + 1)) mod 128) as ->.
    { rewrite !mod128 by lia. unfold CDC_ACM_TXBUF_SIZE. destruct (Z.ltb_spec (r + n) 128), (Z.ltb_spec (r + (n + 1)) 128), (Z.geb_spec (r + n + 1) 128), (Z.geb_spec (r + n - 128 + 1) 128); lia. }
    destruct (Z.eqb_spec ((r + (n + 1)) mod 128) ((r + n + f) mod 128)) as [E|E].
    + assert (f = 1) as -> by (rewrite <- Z.add_assoc, !mod128 in E by lia; destruct (Z.ltb_spec (r + (n + 1)) 128), (Z.ltb_spec (r + (n + f)) 128); lia).
      assert (k = 1) as Hk by (unfold k; cbn [length]; lia). rewrite Hk. exists b1. split; [by rewrite Z.add_assoc|]. split; [done|]. exact Rs.
    + assert (f <> 1) as Hf1 by (intros ->; apply E; f_equal; lia). destruct (IH (set_tx_buf b1 s) (n + 1) (f - 1) (i + 1)) as (b2 & E2 & Hl2 & R2); [done|lia..|]. cbn [tx_buf set_tx_buf] in R2.
      replace (r + (n + 1) + (f - 1)) with (r + n + f) in E2 by lia. rewrite E2. set (k2 := Z.min (Z.of_nat (length bs)) (f - 1)) in *.
      assert (k = 1 + k2) as Hk by (unfold k, k2; cbn [length]; lia). exists b2. rewrite Hk. split; [|split; [done|]].
      * replace (r + n + (1 + k2)) with (r + (n + 1) + k2) by lia. by replace (i + (1 + k2)) with (i + 1 + k2) by lia.
      * replace (n + (1 + k2)) with (n + 1 + k2) by lia. rewrite R2, Rs, <- app_assoc. assert (0 <= k2) by (unfold k2; lia). by replace (Z.to_nat (1 + k2)) with (S (Z.to_nat k2)) by lia.
Qed.

(** Sending, with interrupts while the bytes go to the ring: the number returned is that of
    the bytes taken, and these are added to the stream. If the endpoint was empty no packet
    is overwritten. *)
Lemma send_ok intr s bs : keeps_stream intr -> line_ok s ->
  let k := Z.min (Z.of_nat (length bs)) (128 - tx_len s) in
  exists s', send_with intr bs s = Ok (k, s') /\ line_ok s' /\ stream s' = stream s ++ firstn (Z.to_nat k) bs /\
    (ep s = None -> intr s = Ok (tt, s) -> intact s -> intact s').
Proof.
  intros Hi Hs k. pose proof Hs as [(Hl & Hr & Hn & Hw) He]. destruct (Hi s Hs) as (s1 & E1 & [(Hl1 & Hr1 & Hn1 & Hw1) He1] & Est1 & Ew1 & Hle & _).
  assert (0 <= k) as Hk0 by (unfold k; lia).
  assert (exists b, (if (tx_len s =? 0) || negb (tx_write s =? tx_read s) then send_loop bs (tx_write s) (tx_read s) 0 else mret (tx_write s, 0)) s1 = Ok (((tx_read s1 + tx_len s1 + k) mod 128, k), set_tx_buf b s1) /\
    length b = 128%nat /\ ring b (tx_read s1) (tx_len s1 + k) = contents s1 ++ firstn (Z.to_nat k) bs) as (b & E2 & Hb & R2).
  { destruct (Z.eq_dec (tx_len s) 128) as [E|Hne].
    - assert (k = 0) as -> by (unfold k; lia). exists (tx_buf s1). rewrite !Z.add_0_r, app_nil_r. split; [|done]. rewrite Hw, E. rewrite mod128 by lia. destruct (Z.ltb_spec (tx_read s + 128) 128); [lia|].
      rewrite Z.add_simpl_r, Z.eqb_refl. cbn [Z.eqb negb orb]. rewrite <- Hw1, Ew1, Hw, E, mod128 by lia. destruct (Z.ltb_spec (tx_read s + 128) 128); [lia|]. rewrite Z.add_simpl_r. by destruct s1.
    - assert ((tx_len s =? 0) || negb (tx_write s =? tx_read s) = true) as ->.
      { destruct (Z.eqb_spec (tx_len s) 0); [done|]. rewrite Hw, mod128 by lia. cbn [orb]. destruct (Z.ltb_spec (tx_read s + tx_len s) 128); [destruct (Z.eqb_spec (tx_read s + tx_len s) (tx_read s))|destruct (Z.eqb_spec (tx_read s + tx_len s - 128) (tx_read s))]; (done || lia). }
      destruct (send_loop_ok bs s1 (tx_read s1) (tx_len s1) (128 - tx_len s) 0) as (b & E & Hb & R); [done|lia..|]. exists b. split; [|done]. rewrite <- Ew1, Hw1.
      replace (tx_read s) with ((tx_read s1 + tx_len s1 + (128 - tx_len s)) mod 128); [exact E|]. rewrite <- Zplus_mod_idemp_l, <- Hw1, Ew1, Hw, Zplus_mod_idemp_l.
      replace (tx_read s + tx_len s + (128 - tx_len s)) with (tx_read s + 1 * 128) by lia. rewrite Z_mod_plus_full. by apply Z.mod_small. }
  set (s2 := set_tx (u16 (tx_len (set_tx_buf b s1) + k)) ((tx_read s1 + tx_len s1 + k) mod 128) (tx_read (set_tx_buf b s1)) (set_tx_buf b s1)).
  assert (tx_len s2 = tx_len s1 + k) as En by (unfold s2; cbn [tx_len set_tx set_tx_buf]; rewrite u16_id by (unfold k; lia); done).
  assert (cdc_ok s2) as Hs2 by (split; [done|]; split; [done|]; rewrite En; split; [unfold k; lia|]; cbn; f_equal; lia).
  destruct (send_to_endpoint_ok s2 Hs2) as (s3 & E3 & Hs3 & Est3 & _ & H3). exists s3. split; [|split; [|split]].
  - unfold send_with. mrun. rewrite (bind_ok _ _ _ _ _ E1), (bind_ok _ _ _ _ _ E2). mrun. rewrite (bind_ok _ _ _ _ _ E3). done.
  - split; [done|]. destruct (Z.eqb_spec (tx_len s2) 0) as [Ez|]; [by subst s3|by destruct H3 as (_ & H3 & _)].
  - rewrite Est3, <- Est1. unfold stream at 1, contents. change (fates s2) with (fates s1). change (ep s2) with (ep s1). change (tx_buf s2) with b. change (tx_read s2) with (tx_read s1). rewrite En, R2. unfold stream. by rewrite !app_assoc.
  - intros Hep Hint His. rewrite Hint in E1. injection E1 as <-. destruct (Z.eqb_spec (tx_len s2) 0) as [Ez|]; [by subst s3|]. destruct H3 as (_ & _ & Hf). unfold intact. rewrite Hf.
    change (ep s2) with (ep s). rewrite Hep. cbn [from_option]. by rewrite app_nil_r.
Qed.

(** ** A session *)

(** What the application sends, with the packets that the host reads while the bytes go to the
    ring, and the packets that it reads between the calls. *)
Inductive cdc_op := Send (buf : list Z) (reads : nat) | HostReads.
Fixpoint session (ops : list cdc_op) : CM (list (list Z)) :=
  match ops with
  | [] => mret []
  | Send buf n :: ops => k ← send_with (takes n) buf; l ← session ops; mret (firstn (Z.to_nat k) buf :: l)
  | HostReads :: ops => usb_correct_transfer ;; session ops
  end.
(** The application sends only when the endpoint is empty. *)
Fixpoint calm (ops : list cdc_op) (s : cdc) : Prop :=
  match ops with
  | [] => True
  | Send buf n :: ops => ep s = None /\ forall k s', send_with (takes n) buf s = Ok (k, s') -> calm ops s'
  | HostReads :: ops => forall s', usb_correct_transfer s = Ok (tt, s') -> calm ops s'
  end.

Lemma cdc0_ok : line_ok cdc0.
Proof. by repeat split. Qed.
Lemma takes_none n s : ep s = None -> takes n s = Ok (tt, s).
Proof.
  intros He. induction n as [|n IH]; [done|]. cbn [takes]. assert (usb_correct_transfer s = Ok (tt, s)) as E by (unfold usb_correct_transfer; mrun; by rewrite He).
  by rewrite (bind_ok _ _ _ _ _ E).
Qed.

Lemma session_ok ops s : line_ok s -> exists l s', session ops s = Ok (l, s') /\ line_ok s' /\ stream s' = stream s ++ concat l /\ (calm ops s -> intact s -> intact s').
Proof.
  revert s. induction ops as [|[buf n|] ops IH]; intros s Hs; cbn [session calm].
  - exists [], s. split; [done|]. split; [done|]. split; [by rewrite app_nil_r|done].
  - destruct (send_ok (takes n) s buf (takes_keeps n) Hs) as (s1 & E1 & Hs1 & Est1 & Hi1). destruct (IH s1 Hs1) as (l & s2 & E2 & Hs2 & Est2 & Hi2). do 2 eexists. rewrite (bind_ok _ _ _ _ _ E1), (bind_ok _ _ _ _ _ E2).
    split; [done|]. split; [done|]. split; [cbn [concat]; rewrite Est2, Est1; by rewrite app_assoc|]. intros [Hep Hc] His. apply Hi2; [by eapply Hc|]. apply Hi1; [done|by apply takes_none|done].
  - destruct (host_take_ok s Hs) as (s1 & E1 & Hs1 & Est1 & _ & Hi1 & _). destruct (IH s1 Hs1) as (l & s2 & E2 & Hs2 & Est2 & Hi2). exists l, s2. rewrite (bind_ok _ _ _ _ _ E1).
    split; [done|]. split; [done|]. split; [by rewrite Est2, Est1|]. intros Hc His. apply Hi2; [by apply Hc|by apply Hi1].
Qed.

(** When the host reads, the ring and then the endpoint become empty. *)
Lemma drain n s : line_ok s -> tx_len s < Z.of_nat n -> exists s', takes n s = Ok (tt, s') /\ line_ok s' /\ stream s' = stream s /\ (intact s -> intact s') /\ tx_len s' = 0 /\ ep s' = None.
Proof.
  revert s. induction n as [|n IH]; intros s Hs Hn; [destruct Hs as [(_ & _ & H & _) _]; lia|]. cbn [takes].
  destruct (host_take_ok s Hs) as (s1 & E1 & Hs1 & Est1 & _ & Hi1 & H1). rewrite (bind_ok _ _ _ _ _ E1). destruct (Z.eqb_spec (tx_len s) 0) as [Ez|Hz].
  - destruct H1 as [Hz1 He1]. exists s1. split; [by apply takes_none|]. by repeat split; try apply Hs1.
  - destruct (IH s1 Hs1) as (s2 & E2 & Hs2 & Est2 & Hi2 & H2); [lia|]. exists s2. split; [done|]. split; [done|]. split; [congruence|]. split; [by auto|done].
Qed.

(** C34: The line to the host, with its one packet in the endpoint. Whatever the application
    sends and whenever the host reads, while the bytes go to the ring or between the calls:
    the bytes that the calls took are, in order, those of the packets that were in the
    endpoint, of the one that is there, and of the ring; and the host never waits, there is a
    packet as long as there are bytes in the ring. The host has read all these packets but
    those that a call overwrote; when every call finds the endpoint empty there are none, and
    after 129 more readings the host has all the bytes taken, in order. A reading in
    [cdc_acm_send_to_endpoint], between the copy and the update of the pointers, is not part
    of a session: [send_race] shows what it does. *)
Theorem cdc_stream ops : exists l s, session ops cdc0 = Ok (l, s) /\
  concat l = concat (fates s).*1 ++ from_option id [] (ep s) ++ contents s /\
  (ep s = None -> contents s = []) /\
  (calm ops cdc0 -> exists s', takes 129 s = Ok (tt, s') /\ host s' = concat l).
Proof.
  destruct (session_ok ops cdc0 cdc0_ok) as (l & s & E & Hs & Est & Hi). exists l, s. split; [done|]. split; [by symmetry|]. split.
  - intros He. unfold contents. by rewrite (proj2 Hs He).
  - intros Hc. destruct (drain 129 s Hs) as (s' & E' & Hs' & Est' & Hi' & Hn' & He'); [destruct Hs as [(_ & _ & H & _) _]; lia|]. exists s'. split; [done|].
    rewrite intact_host by (apply Hi', Hi; [done|by constructor]). transitivity (stream s'); [|by rewrite Est', Est]. unfold stream, contents. rewrite Hn', He'. by rewrite app_nil_r.
Qed.
Lemma cdc_stream_witness : exists s s', session [Send [1; 2] 0; HostReads; Send [3] 0] cdc0 = Ok ([[1; 2]; [3]], s) /\ takes 129 s = Ok (tt, s') /\ host s' = [1; 2; 3].
Proof.
  destruct (cdc_stream [Send [1; 2] 0; HostReads; Send [3] 0]) as (l & s & E & _ & _ & H). destruct H as (s' & E' & Hh).
  { split; [done|]. intros k s1 E1. vm_compute in E1. injection E1 as <- <-. intros s2 E2. vm_compute in E2. injection E2 as <-. split; [done|]. done. }
  assert (l = [[1; 2]; [3]]) as -> by (vm_compute in E; by injection E as <- <-). exists s, s'. split; [exact E|]. split; [exact E'|exact Hh].
Defined.

(** Two calls without a reading: the packet of the first one is lost. *)
Example packet_overwritten : match (session [Send [1; 2] 0; Send [3] 0] ;; takes 129) cdc0 with Ok (_, s) => host s = [3] /\ fates s = [([1; 2], false); ([3], true)] | Err _ => False end.
Proof. vm_compute. done. Qed.
(** The host reads the packet before the ring is updated: the interrupt sends the same bytes
    again, and the length of the ring goes below 0 and wraps. *)
Theorem send_race s : cdc_ok s -> ep s = None -> 0 < tx_len s <= 16 -> tx_read s + tx_len s < 128 ->
  exists s', send_to_endpoint_with (mret tt) usb_correct_transfer s = Ok (tt, s') /\
    fates s' = fates s ++ [(contents s, true)] /\ ep s' = Some (contents s) /\ tx_len s' = 65536 - tx_len s.
Proof.
  intros (Hl & Hr & Hn & Hw) He H16 Hb. assert (packet_len (tx_read s) (tx_write s) = tx_len s) as Ep.
  { unfold packet_len, CDC_ACM_EP_DATAIN_SIZE. rewrite Hw, Z.mod_small by lia. destruct (Z.gtb_spec (tx_read s + tx_len s) (tx_read s)); [|lia]. destruct (Z.gtb_spec (tx_read s + tx_len s - tx_read s) 16); lia. }
  assert (arr_slice (tx_buf s) (tx_read s) (tx_len s) = Ok (contents s)) as Es.
  { unfold arr_slice. rewrite decide_True by lia. f_equal. unfold contents. rewrite (ring_split _ _ _ (tx_len s)) by lia. rewrite Z.sub_diag. by rewrite app_nil_r. }
  unfold send_to_endpoint_with at 1. mrun. destruct (Z.eqb_spec (tx_len s) 0) as [|Hz]; [lia|]. rewrite Ep. destruct (Z.gtb_spec (tx_len s) 0) as [Hgt|]; [|lia]. mrun. rewrite Es. unfold usb_send_in, call. mrun.
  unfold usb_correct_transfer. mrun. cbn [ep set_ep add_calls fates]. mrun. unfold cdc_acm_data_in, cdc_acm_send_to_endpoint. cbn [negb andb]. unfold send_to_endpoint_with. mrun. cbn [tx_len tx_read tx_write tx_buf set_ep add_calls].
  rewrite (proj2 (Z.eqb_neq (tx_len s) 0) Hz), Ep, (proj2 (Z.gtb_lt (tx_len s) 0)) by lia. mrun. cbn [tx_buf set_ep add_calls]. rewrite Es. unfold usb_send_in, call. mrun. eexists. split; [done|].
  cbn [fates ep tx_len set_tx set_ep add_calls from_option]. rewrite He. cbn [from_option]. rewrite !app_nil_r. split; [done|]. split; [done|].
  rewrite Z.sub_diag. change (u16 0) with 0. unfold u16. symmetry. apply (Z.mod_unique_pos _ _ (-1)); lia.
Qed.
Lemma send_race_witness : exists s', send_to_endpoint_with (mret tt) usb_correct_transfer (set_tx 2 2 0 (set_tx_buf (7 :: 8 :: replicate 126 0) cdc0)) = Ok (tt, s') /\
  fates s' = [([7; 8], true)] /\ ep s' = Some [7; 8] /\ tx_len s' = 65534.
Proof. destruct (send_race (set_tx 2 2 0 (set_tx_buf (7 :: 8 :: replicate 126 0) cdc0))) as (s' & E & Hf & He & Hn); [by repeat split|done|done|done|]. exists s'. split; [exact E|]. split; [exact Hf|]. split; [exact He|exact Hn]. Defined.

(** ** Line coding *)

(** What the host sets is what it reads back. *)
Lemma line_coding_roundtrip (s : cdc) bs : length bs = 7%nat -> exists s' s'', set_line_coding (set_packet bs s) = Ok (tt, s') /\
  cdc_acm_class_interface 0 (mk_request GET_LINE_CODING 0 7) s' = Ok (tt, s'') /\ calls s'' = calls s ++ [usb_send_status 0; usb_send 0 bs].
Proof.
  intros Hl. unfold set_line_coding. mrun. cbn [out_packet set_packet]. rewrite Hl. cbn iota. mrun. do 2 eexists. split; [done|]. unfold cdc_acm_class_interface. cbn [bRequest wLength]. change (0 =? DFU_INTERFACE) with false. change (GET_LINE_CODING =? SET_LINE_CODING) with false. change (GET_LINE_CODING =? GET_LINE_CODING) with true. cbn iota. mrun. cbn [line_coding set_next set_coding add_calls].
  unfold arr_slice. rewrite decide_True by (rewrite Hl; lia). mrun. split; [done|]. cbn [calls add_calls set_next set_coding set_packet]. change (Z.to_nat 0) with 0%nat. rewrite drop_0, take_ge by (rewrite Hl; lia). by rewrite <- app_assoc.
Qed.
(** A request for more than the structure reads what follows it. *)
Lemma line_coding_overread (s : cdc) n : length (line_coding s) = 7%nat -> 7 < n -> cdc_acm_class_interface 0 (mk_request GET_LINE_CODING 0 n) s = Err EUndef.
Proof. intros Hl Hn. unfold cdc_acm_class_interface. cbn [bRequest wLength]. change (0 =? DFU_INTERFACE) with false. change (GET_LINE_CODING =? SET_LINE_CODING) with false. change (GET_LINE_CODING =? GET_LINE_CODING) with true. cbn iota. mrun. unfold arr_slice. by rewrite decide_False by lia. Qed.
End CdcAcm.
