(* ===== verification/Hid.v ===== *)
(** * Mouse and keyboard over USB ([lib/usb/hid.c], [lib/usb/hid_kbd.c]) and the start of USB ([lib/usb/usb_core.c]) *)

From stdpp Require Import base numbers list.
From S2P Require Import Prelude Event Scsi Dfu Msc.

Module Hid.
Import Dfu.

Definition HID_EP : Z := 1.
Definition DFU_INTERFACE : Z := 1.
Definition GET_DESCRIPTOR : Z := 0x06.
Definition GET_REPORT : Z := 0x01.
Definition SET_REPORT : Z := 0x09.
Definition SET_IDLE : Z := 0x0A.

(** ** Mouse *)

Definition hid_report_descriptor : list Z :=
  [0x05; 0x01; 0x09; 0x02; 0xA1; 0x01; 0x09; 0x01; 0xA1; 0x00; 0x05; 0x09; 0x19; 0x01; 0x29;
   0x03; 0x15; 0x00; 0x25; 0x01; 0x95; 0x03; 0x75; 0x01; 0x81; 0x02; 0x95; 0x01; 0x75; 0x05;
   0x81; 0x01; 0x05; 0x01; 0x09; 0x30; 0x09; 0x31; 0x15; 0x81; 0x25; 0x7F; 0x75; 0x08; 0x95;
   0x02; 0x81; 0x06; 0xC0; 0xC0].

Definition hid_send (x y : Z) (button1 button2 button3 : bool) : list usb_call :=
  [usb_send HID_EP [Z.lor (Z.lor (if button1 then 1 else 0) (if button2 then 2 else 0)) (if button3 then 4 else 0); u8 x; u8 y]].

(** The same function for the two devices, each with its report. *)
Definition standard_interface (report : list Z) (req : request) : list usb_call :=
  if (bRequest req =? GET_DESCRIPTOR) && (Z.shiftr (wValue req) 8 =? 0x22) then [usb_send 0 report] else [].

(** The length of the answer is that of the request. *)
Definition hid_class_interface (interface : Z) (req : request) (d : dfu) : res (dfu * list usb_call) :=
  if interface =? DFU_INTERFACE then Ok (usb_dfu_class_interface req d)
  else if bRequest req =? GET_REPORT then bs ← arr_slice hid_report_descriptor 0 (wLength req); Ok (d, [usb_send 0 bs])
  else if bRequest req =? SET_IDLE then Ok (d, [usb_send_status 0])
  else Ok (d, []).

(** ** Keyboard *)

Definition kbd_report_descriptor : list Z :=
  [0x05; 0x01; 0x09; 0x06; 0xa1; 0x01; 0x05; 0x07; 0x19; 0xe0; 0x29; 0xe7; 0x15; 0x00; 0x25;
   0x01; 0x75; 0x01; 0x95; 0x08; 0x81; 0x02; 0x15; 0x00; 0x25; 0x01; 0x75; 0x01; 0x95; 0x08;
   0x81; 0x01; 0x19; 0x00; 0x29; 0x65; 0x15; 0x00; 0x25; 0x65; 0x75; 0x08; 0x95; 0x06; 0x81;
   0x00; 0x05; 0x08; 0x19; 0x01; 0x29; 0x03; 0x15; 0x00; 0x25; 0x01; 0x75; 0x01; 0x95; 0x03;
   0x91; 0x02; 0x75; 0x01; 0x95; 0x05; 0x91; 0x01; 0xc0].

(** [pressed] is set by the first report of the host. *)
Record kbd := mk_kbd { buf : list Z; pressed : bool }.
Definition kbd0 : kbd := mk_kbd (replicate 8 0) false.
Definition kbd_get_state (s : kbd) : bool := pressed s.

(** A character, which is unsigned here, and its key: the code, and whether it is shifted. *)
Definition kbd_code (letter : Z) : Z * bool :=
  let maj := (0x41 <=? letter) && (letter <=? 0x5A) in
  let letter := if maj then u8 (letter + 0x20) else letter in
  (if (0x61 <=? letter) && (letter <=? 0x7A) then u8 (letter - 0x5D)
   else if (0x30 <=? letter) && (letter <=? 0x39) then
     let letter := u8 (letter - 0x30) in if letter =? 0x30 then 0x27 else u8 (letter + 0xB0)
   else if letter =? 0x09 then 0x2B
   else if letter =? 0x20 then 0x2C
   else if letter =? 0x2A then letter
   else if letter =? 0x2D then 0x56
   else 0x00, maj).
Definition kbd_send (letter : Z) (s : kbd) : res (kbd * list usb_call) :=
  let x := kbd_code letter in
  b ← arr_set (buf s) 0 (if x.2 : bool then 0x02 else 0x00);
  b ← arr_set b 2 x.1;
  Ok (mk_kbd b (pressed s), [usb_send HID_EP b]).

Definition kbd_class_interface (interface : Z) (req : request) (s : kbd) (d : dfu) : kbd * dfu * list usb_call :=
  if interface =? DFU_INTERFACE then (s, (usb_dfu_class_interface req d).1, (usb_dfu_class_interface req d).2)
  else if bRequest req =? GET_REPORT then (s, d, [usb_send HID_EP (buf s)])
  else if bRequest req =? SET_REPORT then (mk_kbd (buf s) true, d, [])
  else if bRequest req =? SET_IDLE then (s, d, [usb_send_status 0])
  else (s, d, []).

(** ** Start *)

Definition usb_init {D : Type} {build : Build} {env : Scsi.ScsiEnv D} {menv : Msc.MscEnv} : M (Msc.msc D) unit :=
  Msc.call usb_driver_init ;;
  Msc.usb_msc_init ;;
  mmod (Msc.set_mdfu usb_dfu_init).

(** ** Properties *)

(** The host reads the buttons and the movements back. *)
Lemma mouse_report x y b1 b2 b3 : -128 <= x < 128 -> -128 <= y < 128 -> exists b rx ry, hid_send x y b1 b2 b3 = [usb_send HID_EP [b; rx; ry]] /\
  Z.testbit b 0 = b1 /\ Z.testbit b 1 = b2 /\ Z.testbit b 2 = b3 /\ (if rx <? 128 then rx else rx - 256) = x /\ (if ry <? 128 then ry else ry - 256) = y.
Proof.
  assert (forall v, -128 <= v < 128 -> (if u8 v <? 128 then u8 v else u8 v - 256) = v) as S8.
  { intros v Hv. unfold u8. destruct (Z.ltb_spec (v mod 256) 128); mlia. }
  intros Hx Hy. do 3 eexists. split; [reflexivity|]. rewrite !S8 by done. by destruct b1, b2, b3.
Qed.

(** The keys of the letters, and those of the digits, from the tables of the USB standard. *)
Definition letter_key (i : nat) : Z := 0x04 + Z.of_nat i.
Definition digit_key (i : nat) : Z := if (i =? 0)%nat then 0x27 else 0x1E + Z.of_nat (i - 1).
Lemma letters_ok : Forall (λ i, kbd_code (0x61 + Z.of_nat i) = (letter_key i, false) /\ kbd_code (0x41 + Z.of_nat i) = (letter_key i, true)) (seq 0 26).
Proof. repeat (apply Forall_cons; split; [by split|]). apply Forall_nil_2. Qed.
(** No digit has its key: 0x30 is taken away before it is compared with, and the codes of the
    others are beyond those that the report can carry. *)
Lemma digits_wrong : Forall (λ i, kbd_code (0x30 + Z.of_nat i) = (0xB0 + Z.of_nat i, false) /\ 0x65 < 0xB0 + Z.of_nat i /\ 0xB0 + Z.of_nat i <> digit_key i) (seq 0 10).
Proof. repeat (apply Forall_cons; split; [by split|]). apply Forall_nil_2. Qed.
(** The key stays in the report: the release is a character without a key. *)
Lemma kbd_report letter s : length (buf s) = 8%nat -> exists s', kbd_send letter s = Ok (s', [usb_send HID_EP (buf s')]) /\ length (buf s') = 8%nat /\
  buf s' !! 0%nat = Some (if (kbd_code letter).2 then 2 else 0) /\ buf s' !! 2%nat = Some (kbd_code letter).1.
Proof.
  intros Hl. unfold kbd_send. rewrite arr_set_ok by (rewrite Hl; lia). cbn [mbind res_bind]. rewrite arr_set_ok by (rewrite length_insert, Hl; lia). cbn [mbind res_bind].
  match goal with |- context [mk_kbd ?b ?p] => exists (mk_kbd b p) end. split; [done|]. cbn [buf]. split; [by rewrite !length_insert|]. change (Z.to_nat 2) with 2%nat. change (Z.to_nat 0) with 0%nat.
  rewrite list_lookup_insert_ne, list_lookup_insert_eq by lia. split; [done|]. by rewrite list_lookup_insert_eq by (rewrite length_insert; lia).
Qed.
(** A request for more than the descriptor reads what follows it. *)
Lemma get_report_overread interface n d : interface <> DFU_INTERFACE -> 50 < n -> hid_class_interface interface (mk_request GET_REPORT 0 n) d = Err EUndef.
Proof.
  intros Hi Hn. unfold hid_class_interface. destruct (Z.eqb_spec interface DFU_INTERFACE); [done|]. cbn [bRequest wLength]. change (GET_REPORT =? GET_REPORT) with true. cbn iota.
  unfold arr_slice. by rewrite decide_False by (cbn; lia).
Qed.
End Hid.
