(* ===== verification/Max6x.v ===== *)
(** * GPS receiver ([periph/ublox_max6/max6x.c])

    Messages to the receiver are framed with a checksum of two bytes; those of the receiver
    go byte by byte through a state machine, which gives the navigation messages to a
    handler. The calls of the drivers are recorded in order; the results of the transfers,
    the bytes read (of a transfer that fails, whatever the buffer then holds) and the level
    of the pins are oracles. *)

From stdpp Require Import base numbers list.
From S2P Require Import Prelude SoftTime.

Module Max6x.

Definition MAX6x_CLASS_NAV : Z := 0x01.
Definition MAX6x_CLASS_CFG : Z := 0x06.
Definition MAX6x_ID_PRT : Z := 0x00.
Definition MAX6x_ID_MSG : Z := 0x01.
Definition MAX6x_ID_INF : Z := 0x02.
Definition MAX6x_ID_RST : Z := 0x04.
Definition MAX6x_ID_RATE : Z := 0x08.
Definition MAX6x_ID_RXM : Z := 0x11.
Definition MAX6x_ID_PM : Z := 0x32.
Definition MAX6X_BASE_ADD : Z := 0x84.

Inductive state_t := IDLE | HEADER1 | HEADER2 | CLASS | ID | LENGTH1 | LENGTH2 | PAYLOAD | CK_A.
Inductive max6x_antenna_t := MAX6X_ANTENNA_PATCH | MAX6X_ANTENNA_CONNECTOR.

(** The pins of the configuration. *)
Inductive pin := REG | RST | EN | READY | PULSE | ANTSEL.

(** The calls of the drivers; [Async n] is a transfer that goes on after the call. *)
Inductive act :=
  | Tx (bs : list Z)
  | TxRx (bs : list Z) (n : Z)
  | Async (n : Z)
  | I2cDisable
  | I2cEnable (fast : bool)
  | SetOutput (p : pin)
  | SetInput (p : pin)
  | PinSet (p : pin)
  | PinClear (p : pin)
  | PinRead (p : pin)
  | Delay (ms : Z)
  | SelectExti
  | EnableIrq
  | ExtiDisable
  | ExtiHandler
  | ExtiEnable
  | TimerHandler
  | TimerStart (ticks : Z) (periodic : bool).

(** The configuration: is there a pin for the antenna, is the reset high; the oracles, by the
    number of calls of drivers so far: is there an error, the bytes read, the level of a pin. *)
Class GpsEnv := {
  antsel_gpio : bool;
  rst_high : bool;
  i2c_error : nat -> bool;
  i2c_in : nat -> nat -> Z;
  pin_level : nat -> pin -> bool;
}.

(** The static variables of [max6x_parse] and [max6x_read]; [handled] are the calls of the
    handler, with the buffer and the size it gets. *)
Record gps := mk_gps {
  state : state_t;
  read_bytes : Z;
  length_ : Z;
  buf : list Z;
  ck_a : Z;
  ck_b : Z;
  rbuf : list Z;
  nav_hdl : bool;
  handled : list (list Z * Z);
  acts : list act;
}.
Definition set_state x s := mk_gps x (read_bytes s) (length_ s) (buf s) (ck_a s) (ck_b s) (rbuf s) (nav_hdl s) (handled s) (acts s).
Definition set_read_bytes x s := mk_gps (state s) x (length_ s) (buf s) (ck_a s) (ck_b s) (rbuf s) (nav_hdl s) (handled s) (acts s).
Definition set_length x s := mk_gps (state s) (read_bytes s) x (buf s) (ck_a s) (ck_b s) (rbuf s) (nav_hdl s) (handled s) (acts s).
Definition set_buf x s := mk_gps (state s) (read_bytes s) (length_ s) x (ck_a s) (ck_b s) (rbuf s) (nav_hdl s) (handled s) (acts s).
Definition set_ck a b s := mk_gps (state s) (read_bytes s) (length_ s) (buf s) a b (rbuf s) (nav_hdl s) (handled s) (acts s).
Definition set_rbuf x s := mk_gps (state s) (read_bytes s) (length_ s) (buf s) (ck_a s) (ck_b s) x (nav_hdl s) (handled s) (acts s).
Definition set_nav_hdl x s := mk_gps (state s) (read_bytes s) (length_ s) (buf s) (ck_a s) (ck_b s) (rbuf s) x (handled s) (acts s).
Definition add_handled x s := mk_gps (state s) (read_bytes s) (length_ s) (buf s) (ck_a s) (ck_b s) (rbuf s) (nav_hdl s) (handled s ++ [x]) (acts s).
Definition add_acts x s := mk_gps (state s) (read_bytes s) (length_ s) (buf s) (ck_a s) (ck_b s) (rbuf s) (nav_hdl s) (handled s) (acts s ++ x).
Abbreviation GM := (M gps).

(** When the program is loaded. *)
Definition gps0 : gps := mk_gps IDLE 0 0 (replicate 1024 0) 0 0 (replicate 1024 0) false [] [].

Section gps.
Context {env : GpsEnv}.

(** Calls of drivers; the last ones have a result. *)
Definition does (l : list act) : GM unit := mmod (add_acts l).
Definition i2c_tx (bs : list Z) : GM bool := s ← mget; does [Tx bs] ;; mret (i2c_error (length (acts s))).
Definition i2c_tx_rx (bs : list Z) (n : Z) : GM (bool * list Z) :=
  s ← mget;
  does [TxRx bs n] ;;
  mret (i2c_error (length (acts s)), i2c_in (length (acts s)) <$> seq 0 (Z.to_nat n)).
Definition gpio_pin_read (p : pin) : GM bool := s ← mget; does [PinRead p] ;; mret (pin_level (length (acts s)) p).

(** ** To the receiver *)

(** The message in the buffer of 255 bytes, from its place 6 on. *)
Fixpoint copy_loop (b : list Z) (i : Z) (msg : list Z) : res (list Z) :=
  match msg with [] => Ok b | m :: msg => b ← arr_set b (6 + i) m; copy_loop b (i + 1) msg end.
(** The checksum of [n] bytes from [i] on. *)
Fixpoint ck_loop (n : nat) (b : list Z) (i a c : Z) : res (Z * Z) :=
  match n with O => Ok (a, c) | S n => x ← arr_get b i; let a := u8 (a + x) in ck_loop n b (i + 1) a (u8 (c + a)) end.
Definition frame (class id : Z) (msg : list Z) : res (list Z) :=
  let len := Z.of_nat (length msg) in
  b ← arr_blit (replicate 255 0) 0 [0xB5; 0x62; class; id; Z.land len 0xFF; u8 (Z.shiftr len 8)];
  b ← copy_loop b 0 msg;
  k ← ck_loop (Z.to_nat (4 + len)) b 2 0 0;
  b ← arr_set b (6 + len) k.1;
  b ← arr_set b (7 + len) k.2;
  arr_slice b 0 (len + 8).
(** [true] when the driver reports an error. *)
Definition max6x_send_msg (class id : Z) (msg : list Z) : GM bool :=
  bs ← mlift (frame class id msg);
  i2c_tx bs.

Definition send_both (class1 id1 : Z) (msg1 : list Z) (class2 id2 : Z) (msg2 : list Z) : GM bool :=
  e ← max6x_send_msg class1 id1 msg1;
  if e : bool then mret true else max6x_send_msg class2 id2 msg2.
Definition max6x_configure_ddc : GM bool :=
  send_both MAX6x_CLASS_CFG MAX6x_ID_PRT [1; 0; 0; 0; 0xC0; 0x08; 0; 0; Z.land 38400 0xFF; Z.shiftr 38400 8; 0; 0; 0; 0; 0; 0; 0; 0; 0; 0]
    MAX6x_CLASS_CFG MAX6x_ID_PRT [0; 0; 0x17; 0; MAX6X_BASE_ADD; 0; 0; 0; 0; 0; 0; 0; 1; 0; 1; 0; 0; 0; 0; 0].
Definition max6x_reset : GM bool := max6x_send_msg MAX6x_CLASS_CFG MAX6x_ID_RST [0xFF; 0xFF; 0x00; 0x00].
Definition max6x_coldstart : GM bool := max6x_send_msg MAX6x_CLASS_CFG MAX6x_ID_RST [0xFF; 0xFF; 0x09; 0x00].
Definition max6x_hotstart : GM bool := max6x_send_msg MAX6x_CLASS_CFG MAX6x_ID_RST [0x00; 0x00; 0x09; 0x00].
Definition max6x_set_ubx_protocol : GM bool := max6x_send_msg MAX6x_CLASS_CFG MAX6x_ID_INF (replicate 10 0).
Definition max6x_send_periodically (class id : Z) : GM bool := max6x_send_msg MAX6x_CLASS_CFG MAX6x_ID_MSG [class; id; 1].
Definition max6x_set_rate (rate : Z) : GM bool := max6x_send_msg MAX6x_CLASS_CFG MAX6x_ID_RATE [Z.land rate 0xFF; u8 (Z.shiftr rate 8); 1; 0; 1; 0].
Definition max6x_configure_power_management : GM bool :=
  send_both MAX6x_CLASS_CFG MAX6x_ID_RXM [0x00; 0x01]
    MAX6x_CLASS_CFG MAX6x_ID_PM [0; 0; 0; 0; 0x64; 0x03; 0; 0; 0x10; 0x27; 0; 0; 0x10; 0x27; 0; 0; 0; 0; 0; 0; 0x02; 0; 0; 0].

(** ** From the receiver *)

Definition max6x_decoder_reset : GM unit := mmod (set_state IDLE).
Definition put (i c : Z) : GM unit := s ← mget; b ← mlift (arr_set (buf s) i c); mmod (set_buf b).
Definition count (c : Z) : GM unit := mmod (λ s, let a := u8 (ck_a s + c) in set_ck a (u8 (ck_b s + a)) s).

(** [hdl]: there is a handler. *)
Definition max6x_parse (hdl : bool) (c : Z) : GM unit :=
  s ← mget;
  match state s with
  | IDLE => if c =? 0xB5 then mmod (set_state HEADER1) else mret tt
  | HEADER1 => if c =? 0x62 then mmod (set_ck 0 0) ;; mmod (set_state HEADER2) else mmod (set_state IDLE)
  | HEADER2 => put 0 c ;; count c ;; mmod (set_state CLASS)
  | CLASS => put 1 c ;; count c ;; mmod (set_state ID)
  | ID => put 2 c ;; mmod (set_length c) ;; count c ;; mmod (set_state LENGTH1)
  | LENGTH1 =>
      put 3 c ;; count c ;;
      mmod (λ s, set_length (Z.lor (length_ s) (u16 (Z.shiftl c 8))) s) ;;
      mmod (set_state LENGTH2) ;;
      mmod (set_read_bytes 0)
  | LENGTH2 =>
      let r := u16 (read_bytes s + 1) in
      mmod (set_read_bytes r) ;;
      put (3 + r) c ;; count c ;;
      if r =? length_ s then mmod (set_state PAYLOAD) else mret tt
  | PAYLOAD => if ck_a s =? c then mmod (set_state CK_A) else mmod (set_state IDLE)
  | CK_A =>
      (if ck_b s =? c then
        b0 ← mlift (arr_get (buf s) 0);
        if (b0 =? MAX6x_CLASS_NAV) && hdl then mmod (add_handled (buf s, u16 (length_ s + 3))) else mret tt
      else mret tt) ;;
      mmod (set_state IDLE)
  end.
Fixpoint max6x_data_decode (hdl : bool) (bs : list Z) : GM unit :=
  match bs with [] => mret tt | c :: bs => max6x_parse hdl c ;; max6x_data_decode hdl bs end.

Definition store (bs : list Z) : GM unit := s ← mget; b ← mlift (arr_blit (rbuf s) 0 bs); mmod (set_rbuf b).
Definition max6x_is_tx_ready : GM bool := r ← gpio_pin_read READY; mret (negb r).

(** The whole buffer goes to the decoder, whatever the number of bytes read. *)
Definition max6x_read : GM unit :=
  ready ← max6x_is_tx_ready;
  if ready : bool then
    r ← i2c_tx_rx [0xFD] 2;
    store r.2 ;;
    s ← mget;
    b0 ← mlift (arr_get (rbuf s) 0);
    b1 ← mlift (arr_get (rbuf s) 1);
    let size := Z.lor (Z.shiftl b0 8) b1 in
    let size := if size >? 1024 then 1024 else size in
    if negb (size =? 0) then
      r ← i2c_tx_rx [] size;
      store r.2 ;;
      s ← mget;
      max6x_data_decode (nav_hdl s) (rbuf s)
    else mret tt
  else mret tt.
Definition max6x_start : GM unit := does [TimerStart (SoftTime.soft_timer_ms_to_ticks 100) true].
Definition max6x_register_nav_handler (hdl : bool) : GM unit := mmod (set_nav_hdl hdl).
Definition max6x_is_rdy : GM bool := max6x_is_tx_ready.
Definition max6x_set_rdy_handler (handler : bool) : GM unit :=
  does [ExtiDisable] ;; if handler then does [ExtiHandler] ;; does [ExtiEnable] else mret tt.
(** With a handler the transfer is only started: the error is that of the call, and there are
    no bytes yet. *)
Definition max6x_data_count (handler : bool) : GM (bool * list Z) :=
  if handler then does [Async 2] ;; mret (false, []) else i2c_tx_rx [0xFD] 2.
Definition max6x_data_read (size : Z) (handler : bool) : GM (bool * list Z) :=
  if handler then does [Async size] ;; mret (false, []) else i2c_tx_rx [] size.
(** The count is read in memory order, its first byte the highest. *)
Definition max6x_data_count_unpack (count : Z) : Z := Z.lor (u16 (Z.shiftl (Z.land count 0xFF) 8)) (Z.shiftr count 8).

(** ** Start *)

Definition max6x_select_antenna (ant : max6x_antenna_t) : GM unit :=
  if antsel_gpio then
    match ant with MAX6X_ANTENNA_PATCH => does [PinSet ANTSEL] | MAX6X_ANTENNA_CONNECTOR => does [PinClear ANTSEL] end
  else mret tt.
Definition max6x_init : GM bool :=
  does [I2cDisable] ;;
  (if antsel_gpio then does [SetOutput ANTSEL] ;; max6x_select_antenna MAX6X_ANTENNA_PATCH else mret tt) ;;
  does [SetOutput REG; PinSet REG] ;;
  does [SetOutput EN; PinClear EN] ;;
  does [SetOutput RST] ;;
  (if rst_high then does [PinClear RST; Delay 500; PinSet RST; Delay 500]
   else does [PinSet RST; Delay 500; PinClear RST; Delay 500]) ;;
  does [SetInput READY; SelectExti; EnableIrq] ;;
  does [SetInput PULSE] ;;
  does [TimerHandler] ;;
  does [I2cEnable false] ;;
  e ← max6x_configure_ddc;
  if e : bool then does [I2cDisable; I2cEnable true] ;; mret true else mret false.

(** ** Frames *)

(** The checksum of a list. *)
Fixpoint ck (l : list Z) (a c : Z) : Z * Z := match l with [] => (a, c) | x :: l => ck l (u8 (a + x)) (u8 (c + u8 (a + x))) end.
Definition header (class id n : Z) : list Z := [class; id; Z.land n 0xFF; u8 (Z.shiftr n 8)].
Definition body (class id : Z) (msg : list Z) : list Z := header class id (Z.of_nat (length msg)) ++ msg.
Definition frame_bytes (class id : Z) (msg : list Z) : list Z :=
  let k := ck (body class id msg) 0 0 in [0xB5; 0x62] ++ body class id msg ++ [k.1; k.2].

Lemma ck_app l m a c : ck (l ++ m) a c = ck m (ck l a c).1 (ck l a c).2.
Proof. revert a c. induction l as [|x l IH]; intros a c; [done|]. cbn [app ck]. apply IH. Qed.
Lemma body_length class id msg : length (body class id msg) = (4 + length msg)%nat.
Proof. done. Qed.

Lemma copy_loop_ok msg b p i : 0 <= i -> length p = Z.to_nat (6 + i) -> (length msg <= length b)%nat ->
  copy_loop (p ++ b) i msg = Ok (p ++ msg ++ drop (length msg) b).
Proof.
  intros Hi Hp Hb. revert b p i Hi Hp Hb. induction msg as [|m msg IH]; intros b p i Hi Hp Hb; cbn [copy_loop]; [done|].
  destruct b as [|x b]; [cbn in Hb; lia|]. rewrite arr_set_ok by (rewrite length_app; cbn [length]; lia). cbn [mbind res_bind].
  rewrite insert_app_r_alt by lia. replace (Z.to_nat (6 + i) - length p)%nat with 0%nat by lia. cbn [list_insert]. change (<[0%nat:=m]> (x :: b)) with (m :: b).
  change (p ++ m :: b) with (p ++ [m] ++ b). rewrite (app_assoc p [m] b). rewrite (IH b (p ++ [m]) (i + 1)); [by rewrite <- app_assoc|lia|rewrite length_app; cbn [length]; lia|cbn [length] in Hb; lia].
Qed.
Lemma ck_loop_ok l p q a c : ck_loop (length l) (p ++ l ++ q) (Z.of_nat (length p)) a c = Ok (ck l a c).
Proof.
  revert p a c. induction l as [|x l IH]; intros p a c; cbn [ck_loop length ck]; [done|].
  rewrite (arr_get_ok _ _ x) by (lia || (rewrite Nat2Z.id, lookup_app_r, Nat.sub_diag by done; done)). cbn [mbind res_bind].
  change (p ++ (x :: l) ++ q) with (p ++ [x] ++ l ++ q). rewrite (app_assoc p [x]). replace (Z.of_nat (length p) + 1) with (Z.of_nat (length (p ++ [x]))) by (rewrite length_app; cbn; lia). apply IH.
Qed.
(** What is sent is the frame, when it fits. *)
Lemma frame_ok class id msg : (length msg <= 247)%nat -> frame class id msg = Ok (frame_bytes class id msg).
Proof.
  intros Hl. set (n := Z.of_nat (length msg)). set (h := [0xB5; 0x62] ++ header class id n). set (k := ck (body class id msg) 0 0). unfold frame. fold n. cbn zeta.
  assert (arr_blit (replicate 255 0) 0 [0xB5; 0x62; class; id; Z.land n 0xFF; u8 (Z.shiftr n 8)] = Ok (h ++ replicate 249 0)) as -> by done. cbn [mbind res_bind].
  rewrite copy_loop_ok by (done || (rewrite length_replicate; lia)). cbn [mbind res_bind]. rewrite drop_replicate.
  replace (249 - length msg)%nat with (S (S (247 - length msg))) by lia. cbn [replicate]. set (z := replicate _ 0). assert (length z = (247 - length msg)%nat) as Hz by (unfold z; by rewrite length_replicate).
  replace (h ++ msg ++ 0 :: 0 :: z) with ([0xB5; 0x62] ++ body class id msg ++ 0 :: 0 :: z) by (unfold h, body; fold n; by rewrite <- !app_assoc).
  replace (Z.to_nat (4 + n)) with (length (body class id msg)) by (rewrite body_length; lia).
  rewrite (ck_loop_ok (body class id msg) [0xB5; 0x62] (0 :: 0 :: z) 0 0 : ck_loop _ _ 2 0 0 = _). cbn [mbind res_bind]. fold k.
  set (f := [0xB5; 0x62] ++ body class id msg). assert (length f = (6 + length msg)%nat) as Hf by (unfold f; rewrite length_app, body_length; done).
  rewrite (app_assoc [0xB5; 0x62]). fold f. rewrite arr_set_ok by (rewrite length_app, Hf; cbn [length]; lia). cbn [mbind res_bind]. rewrite insert_app_r_alt by lia.
  replace (Z.to_nat (6 + n) - length f)%nat with 0%nat by lia. change (<[0%nat:=k.1]> (0 :: 0 :: z)) with (k.1 :: 0 :: z). rewrite arr_set_ok by (rewrite length_app, Hf; cbn [length]; lia). cbn [mbind res_bind]. rewrite insert_app_r_alt by lia.
  replace (Z.to_nat (7 + n) - length f)%nat with 1%nat by lia. change (<[1%nat:=k.2]> (k.1 :: 0 :: z)) with ([k.1; k.2] ++ z). unfold arr_slice. rewrite decide_True by (rewrite !length_app, Hf; cbn [length]; lia).
  change (Z.to_nat 0) with 0%nat. rewrite drop_0, (app_assoc f), take_app_length' by (rewrite length_app, Hf; cbn [length]; lia). unfold frame_bytes. fold k. unfold f. by rewrite <- app_assoc.
Qed.

(** ** The decoder *)

Lemma decode_app hdl l m s s' : max6x_data_decode hdl l s = Ok (tt, s') -> max6x_data_decode hdl (l ++ m) s = max6x_data_decode hdl m s'.
Proof.
  revert s. induction l as [|c l IH]; intros s E; cbn [max6x_data_decode app] in *; [by injection E as ->|].
  apply bind_inv in E as ([] & s1 & E1 & E2). rewrite (bind_ok _ _ _ _ _ E1). by apply IH.
Qed.
(** Bytes before a frame. *)
Lemma parse_noise hdl c s : state s = IDLE -> c <> 0xB5 -> max6x_parse hdl c s = Ok (tt, s).
Proof. intros Hs Hc. unfold max6x_parse. mrun. rewrite Hs. by destruct (Z.eqb_spec c 0xB5). Qed.
Lemma decode_noise hdl l s : state s = IDLE -> Forall (λ c, c <> 0xB5) l -> max6x_data_decode hdl l s = Ok (tt, s).
Proof. intros Hs Hl. induction Hl as [|c l Hc _ IH]; [done|]. cbn [max6x_data_decode]. by rewrite (bind_ok _ _ _ _ _ (parse_noise hdl c s Hs Hc)). Qed.

Lemma length_bytes n : 0 <= n < 65536 -> Z.lor (Z.land n 0xFF) (u16 (Z.shiftl (u8 (Z.shiftr n 8)) 8)) = n.
Proof.
  intros Hn. change 0xFF with (Z.ones 8). rewrite Z.land_ones, Z.shiftr_div_pow2, Z.shiftl_mul_pow2 by lia. change (2 ^ 8) with 256. rewrite u8_id, u16_id by mlia.
  assert (Z.land (n mod 256) (n / 256 * 256) = 0) as Hz.
  { apply Z.bits_inj'. intros i Hi. rewrite Z.land_spec, Z.bits_0. change 256 with (2 ^ 8). rewrite <- Z.land_ones, Z.land_spec, <- Z.shiftl_mul_pow2, Z.shiftl_spec by lia.
    destruct (Z.ltb_spec i 8); [rewrite (Z.testbit_neg_r _ (i - 8)) by lia; by rewrite andb_false_r|]. rewrite Z.ones_spec_high by lia. by rewrite andb_false_r. }
  rewrite <- Z.lxor_lor, <- Z.add_nocarry_lxor by done. mlia.
Qed.

(** The header of a frame. *)
Lemma decode_header hdl class id n s : state s = IDLE -> length (buf s) = 1024%nat -> 0 <= n < 65536 ->
  let k := ck (header class id n) 0 0 in
  max6x_data_decode hdl ([0xB5; 0x62] ++ header class id n) s =
  Ok (tt, mk_gps LENGTH2 0 n (header class id n ++ drop 4 (buf s)) k.1 k.2 (rbuf s) (nav_hdl s) (handled s) (acts s)).
Proof.
  intros Hs Hl Hn k. destruct s as [q r l b a c rb h hd ac]. cbn [state buf] in *. subst q. destruct b as [|b0 [|b1 [|b2 [|b3 b]]]]; try done.
  assert (forall i x, 0 <= i <= 3 -> arr_set (b0 :: b1 :: b2 :: b3 :: b) i x = Ok (<[Z.to_nat i := x]> (b0 :: b1 :: b2 :: b3 :: b))) as _ by (intros i x Hi; apply arr_set_ok; lia).
  cbn [app header max6x_data_decode]. unfold max6x_parse. mrun. cbn [state]. change (0xB5 =? 0xB5) with true. cbn iota. mrun. cbn [state set_state]. change (0x62 =? 0x62) with true. cbn iota. mrun.
  cbn [state set_state set_ck]. unfold put, count. repeat (mrun; cbn [state set_state set_ck buf set_buf set_length set_read_bytes]; rewrite ?arr_set_ok by (cbn [length] in *; rewrite ?length_insert; cbn [length]; lia)).
  mrun. cbn [drop app]. cbn. f_equal. f_equal. f_equal. by rewrite length_bytes.
Qed.

Lemma parse_byte hdl x y p b r n a c rb h hd ac : 0 <= r < 65535 -> length p = Z.to_nat (4 + r) ->
  max6x_parse hdl x (mk_gps LENGTH2 r n (p ++ y :: b) a c rb h hd ac) =
  Ok (tt, mk_gps (if r + 1 =? n then PAYLOAD else LENGTH2) (r + 1) n ((p ++ [x]) ++ b) (u8 (a + x)) (u8 (c + u8 (a + x))) rb h hd ac).
Proof.
  intros Hr Hp. unfold max6x_parse, put, count. mrun. cbn [state read_bytes]. mrun. cbn [set_read_bytes buf]. rewrite u16_id by mlia.
  replace (3 + (r + 1)) with (4 + r) by lia. rewrite arr_set_ok by (rewrite length_app; cbn [length]; lia). mrun. rewrite insert_app_r_alt by lia.
  replace (Z.to_nat (4 + r) - length p)%nat with 0%nat by lia. rewrite <- app_assoc.
  unfold set_ck, set_buf, set_read_bytes, set_state. cbn [length_ ck_a ck_b state buf rbuf nav_hdl handled acts read_bytes]. destruct (r + 1 =? n); mrun; done.
Qed.
(** Bytes of the message before the last one. *)
Lemma decode_part hdl msg p b r n a c rb h hd ac : 0 <= r -> length p = Z.to_nat (4 + r) -> (length msg <= length b)%nat ->
  r + Z.of_nat (length msg) < 65536 -> n <= r \/ r + Z.of_nat (length msg) < n ->
  max6x_data_decode hdl msg (mk_gps LENGTH2 r n (p ++ b) a c rb h hd ac) =
  Ok (tt, mk_gps LENGTH2 (r + Z.of_nat (length msg)) n (p ++ msg ++ drop (length msg) b) (ck msg a c).1 (ck msg a c).2 rb h hd ac).
Proof.
  revert p b r a c. induction msg as [|x msg IH]; intros p b r a c Hr Hp Hb H16 Hn; cbn [max6x_data_decode length] in *; [by rewrite Z.add_0_r|].
  destruct b as [|y b]; [cbn in Hb; lia|]. erewrite bind_ok by (apply parse_byte; lia). destruct (Z.eqb_spec (r + 1) n); [lia|].
  rewrite IH by (rewrite ?length_app; cbn [length] in *; lia). cbn [ck]. rewrite <- (app_assoc p [x]). cbn [app drop]. do 3 f_equal. lia.
Qed.
(** The whole message, which is not empty and fits the buffer. *)
Lemma decode_payload hdl msg p b a c rb h hd ac : (1 <= length msg <= 1020)%nat -> length p = 4%nat -> length b = 1020%nat ->
  let n := Z.of_nat (length msg) in
  max6x_data_decode hdl msg (mk_gps LENGTH2 0 n (p ++ b) a c rb h hd ac) =
  Ok (tt, mk_gps PAYLOAD n n (p ++ msg ++ drop (length msg) b) (ck msg a c).1 (ck msg a c).2 rb h hd ac).
Proof.
  intros Hm Hp Hb n. subst n. destruct msg as [|x msg _] using rev_ind; [cbn in Hm; lia|]. rewrite length_app in *. cbn [length] in *.
  erewrite decode_app by (apply decode_part; lia). rewrite ck_app. cbn [max6x_data_decode ck]. destruct (drop (length msg) b) as [|y b'] eqn:Eb; [apply (f_equal length) in Eb; rewrite length_drop in Eb; cbn in Eb; lia|].
  rewrite (app_assoc p msg). erewrite bind_ok by (apply parse_byte; [lia|rewrite length_app; lia]). destruct (Z.eqb_spec (0 + Z.of_nat (length msg) + 1) (Z.of_nat (length msg + 1))); [|lia].
  rewrite <- drop_drop, Eb. rewrite <- !app_assoc. rewrite e. done.
Qed.

(** ** What the handler gets *)

(** The decoder waits for a frame. *)
Definition ready (s : gps) : Prop := state s = IDLE /\ length (buf s) = 1024%nat.
Definition nav_call (hdl : bool) (class id : Z) (msg : list Z) (s : gps) : list (list Z * Z) :=
  if (class =? MAX6x_CLASS_NAV) && hdl then [(body class id msg ++ drop (4 + length msg) (buf s), 3 + Z.of_nat (length msg))] else [].
(** The two bytes of the checksum. *)
Lemma parse_ck_a hdl x r n b a c rb h hd ac :
  max6x_parse hdl x (mk_gps PAYLOAD r n b a c rb h hd ac) = Ok (tt, mk_gps (if a =? x then CK_A else IDLE) r n b a c rb h hd ac).
Proof. unfold max6x_parse. mrun. cbn [state ck_a]. destruct (a =? x); mrun; done. Qed.
Lemma parse_ck_b hdl y class r n b a c rb h hd ac : b !! 0%nat = Some class ->
  max6x_parse hdl y (mk_gps CK_A r n b a c rb h hd ac) =
  Ok (tt, mk_gps IDLE r n b a c rb h (hd ++ if (c =? y) && ((class =? MAX6x_CLASS_NAV) && hdl) then [(b, u16 (n + 3))] else []) ac).
Proof.
  intros H0. unfold max6x_parse. mrun. cbn [state ck_b]. destruct (c =? y); mrun; cbn [buf]; [|by rewrite app_nil_r].
  rewrite (arr_get_ok b 0 class) by done. mrun. destruct ((class =? MAX6x_CLASS_NAV) && hdl); mrun; cbn [andb]; by rewrite ?app_nil_r.
Qed.

(** A frame with the bytes [x] and [y] of checksum: the handler is called if both are right. *)
Lemma decode_frame hdl class id msg x y s : ready s -> (1 <= length msg <= 1020)%nat ->
  let k := ck (body class id msg) 0 0 in
  y <> 0xB5 \/ x = k.1 ->
  exists s', max6x_data_decode hdl ([0xB5; 0x62] ++ body class id msg ++ [x; y]) s = Ok (tt, s') /\ ready s' /\ acts s' = acts s /\
    handled s' = handled s ++ (if (x =? k.1) && (y =? k.2) then nav_call hdl class id msg s else []).
Proof.
  intros [Hs Hl] Hm k Hy. unfold body at 1. rewrite <- app_assoc, app_assoc.
  erewrite decode_app by (apply decode_header; [done|done|lia]). erewrite decode_app by (apply decode_payload; [lia|done|rewrite length_drop; lia]).
  set (h := header class id (Z.of_nat (length msg))) in *. rewrite <- ck_app. change (h ++ msg) with (body class id msg). fold k. rewrite drop_drop, app_assoc. change (h ++ msg) with (body class id msg).
  set (b := body class id msg ++ drop _ _). assert (length b = 1024%nat) as Hb by (unfold b; rewrite length_app, length_drop, body_length; lia).
  assert (b !! 0%nat = Some class) as H0 by done.
  cbn [max6x_data_decode]. erewrite bind_ok by apply parse_ck_a. rewrite (Z.eqb_sym x). destruct (Z.eqb_spec k.1 x) as [<-|Hx].
  - erewrite bind_ok by (by apply (parse_ck_b _ _ class)). eexists. split; [done|]. do 2 (split; [done|]). cbn [handled]. rewrite (Z.eqb_sym y). unfold nav_call.
    destruct (k.2 =? y), ((class =? MAX6x_CLASS_NAV) && hdl); try done. cbn [andb]. do 3 f_equal. rewrite u16_id by mlia. lia.
  - destruct Hy as [Hy|]; [|done]. erewrite bind_ok by (by apply parse_noise). eexists. split; [done|]. do 2 (split; [done|]). by rewrite app_nil_r.
Qed.

(** Bytes in which the decoder sees no frame: read from left to right, a byte 0xB5 is
    followed by another one, which is not 0x62, and the two are skipped together. *)
Inductive no_frame : list Z -> Prop :=
  | no_frame_nil : no_frame []
  | no_frame_other c l : c <> 0xB5 -> no_frame l -> no_frame (c :: l)
  | no_frame_pair c l : c <> 0x62 -> no_frame l -> no_frame (0xB5 :: c :: l).
Lemma parse_pair hdl c s : state s = IDLE -> c <> 0x62 -> max6x_data_decode hdl [0xB5; c] s = Ok (tt, s).
Proof.
  intros Hs Hc. cbn [max6x_data_decode]. assert (max6x_parse hdl 0xB5 s = Ok (tt, set_state HEADER1 s)) as E1 by (unfold max6x_parse; mrun; by rewrite Hs). rewrite (bind_ok _ _ _ _ _ E1).
  assert (max6x_parse hdl c (set_state HEADER1 s) = Ok (tt, s)) as E2; [|by rewrite (bind_ok _ _ _ _ _ E2)].
  unfold max6x_parse. mrun. cbn [state set_state]. destruct (Z.eqb_spec c 0x62); [done|]. mrun. destruct s. cbn in Hs. by subst.
Qed.
Lemma decode_no_frame hdl l s : state s = IDLE -> no_frame l -> max6x_data_decode hdl l s = Ok (tt, s).
Proof.
  intros Hs Hl. induction Hl as [|c l Hc _ IH|c l Hc _ IH]; [done|..].
  - cbn [max6x_data_decode]. by rewrite (bind_ok _ _ _ _ _ (parse_noise hdl c s Hs Hc)).
  - change (0xB5 :: c :: l) with ([0xB5; c] ++ l). by rewrite (decode_app _ _ _ _ _ (parse_pair hdl c s Hs Hc)).
Qed.

(** What comes from the receiver: other bytes, messages, messages with a wrong checksum. *)
Inductive item :=
  | Noise (l : list Z)
  | Message (class id : Z) (msg : list Z)
  | Damaged (class id : Z) (msg : list Z) (x y : Z).
Definition wire (i : item) : list Z :=
  match i with
  | Noise l => l
  | Message class id msg => frame_bytes class id msg
  | Damaged class id msg x y => [0xB5; 0x62] ++ body class id msg ++ [x; y]
  end.
(** A last byte equal to the first one of a frame is taken for it when the byte before is wrong. *)
Definition item_ok (i : item) : Prop :=
  match i with
  | Noise l => no_frame l
  | Message class id msg => (1 <= length msg <= 1020)%nat
  | Damaged class id msg x y =>
      (1 <= length msg <= 1020)%nat /\ (x, y) <> ck (body class id msg) 0 0 /\ (y <> 0xB5 \/ x = (ck (body class id msg) 0 0).1)
  end.
Definition navigation (i : item) : list (list Z) :=
  match i with Message class id msg => if class =? MAX6x_CLASS_NAV then [body class id msg] else [] | _ => [] end.
(** The handler finds the message, from its class on, at the start of the buffer. *)
Definition gets (h : list Z * Z) (m : list Z) : Prop := take (length m) h.1 = m.

Lemma decode_item i s : ready s -> item_ok i ->
  exists s' calls, max6x_data_decode true (wire i) s = Ok (tt, s') /\ ready s' /\ acts s' = acts s /\ handled s' = handled s ++ calls /\ Forall2 gets calls (navigation i) /\
    (snd <$> calls) = (λ m, Z.of_nat (length m) - 1) <$> navigation i.
Proof.
  intros Hs Hi. destruct i as [l|class id msg|class id msg x y]; cbn [wire navigation item_ok] in *.
  - exists s, []. rewrite (decode_no_frame true l s (proj1 Hs) Hi), app_nil_r. by repeat split; try apply Hs.
  - unfold frame_bytes. set (k := ck _ 0 0). destruct (decode_frame true class id msg k.1 k.2 s Hs Hi (or_intror eq_refl)) as (s' & E & Hr & Ha & Hh).
    eexists s', _. split; [exact E|]. do 2 (split; [done|]). split; [exact Hh|]. fold k. rewrite !Z.eqb_refl. unfold nav_call. rewrite andb_true_r. cbn [andb]. destruct (class =? MAX6x_CLASS_NAV); [|by repeat constructor]. split.
    + repeat constructor. unfold gets. cbn [fst]. by rewrite take_app_length.
    + cbn [andb fmap list_fmap snd]. rewrite body_length. f_equal. lia.
  - destruct Hi as (Hm & Hk & Hy). destruct (decode_frame true class id msg x y s Hs Hm Hy) as (s' & E & Hr & Ha & Hh).
    exists s', []. split; [exact E|]. do 2 (split; [done|]). split; [|done]. rewrite Hh. destruct (ck _ 0 0) as [k1 k2]. cbn [fst snd].
    destruct (Z.eqb_spec x k1) as [->|]; [|done]. by destruct (Z.eqb_spec y k2) as [->|].
Qed.

(** C36: A stream of messages of 1 to 1020 bytes, of messages with a wrong checksum, and of
    other bytes between them. The other bytes have no 0xB5 followed by 0x62 where the decoder
    looks for a frame, and do not end within such a pair; a wrong checksum does not have 0xB5
    as its last byte unless its first byte is right. Then the handler is called once for each
    navigation message that is intact, in order, with the message at the start of the buffer
    and as size the length of the message, counted from its class on, less one (the last byte
    is not counted), and for nothing else; and the decoder is ready for the next frame. *)
Theorem gps_stream items s : ready s -> Forall item_ok items ->
  exists s' calls, max6x_data_decode true (concat (wire <$> items)) s = Ok (tt, s') /\ ready s' /\
    handled s' = handled s ++ calls /\ Forall2 gets calls (concat (navigation <$> items)) /\
    (snd <$> calls) = (λ m, Z.of_nat (length m) - 1) <$> concat (navigation <$> items).
Proof.
  intros Hs Hi. revert s Hs. induction Hi as [|i items Hi _ IH]; intros s Hs; [exists s, []; by rewrite app_nil_r|].
  destruct (decode_item i s Hs Hi) as (s1 & c1 & E1 & Hs1 & _ & H1 & F1 & S1). destruct (IH s1 Hs1) as (s2 & c2 & E2 & Hs2 & H2 & F2 & S2).
  exists s2, (c1 ++ c2). rewrite !fmap_cons. cbn [concat]. rewrite (decode_app _ _ _ _ _ E1). split; [done|]. split; [done|]. split; [by rewrite H2, H1, app_assoc|]. split; [by apply Forall2_app|]. by rewrite !fmap_app, S1, S2.
Qed.

(** What is sent to the receiver is a frame that the same decoder takes. *)
Theorem send_msg_spec class id msg s : (length msg <= 247)%nat ->
  max6x_send_msg class id msg s = Ok (i2c_error (length (acts s)), add_acts [Tx (wire (Message class id msg))] s).
Proof. intros Hm. unfold max6x_send_msg. rewrite frame_ok by done. unfold i2c_tx, does. mrun. done. Qed.

(** *** Damage *)

Lemma ck_fst l a c : is_u8 a -> (ck l a c).1 = u8 (a + foldr Z.add 0 l).
Proof. revert a c. induction l as [|x l IH]; intros a c Ha; cbn [ck foldr fst]; [rewrite Z.add_0_r, u8_id by done; done|]. rewrite IH by apply u8_range. mlia. Qed.
Lemma ck_snd l a c c' : is_u8 c -> is_u8 c' -> c <> c' -> (ck l a c).2 <> (ck l a c').2.
Proof. revert a c c'. induction l as [|x l IH]; intros a c c' Hc Hc' Hn; cbn [ck]; [done|]. apply IH; [apply u8_range..|]. revert Hc Hc' Hn. generalize (u8 (a + x)). intros d. mlia. Qed.
Lemma foldr_add_app l m : foldr Z.add 0 (l ++ m) = foldr Z.add 0 l + foldr Z.add 0 m.
Proof. induction l as [|x l IH]; cbn [app foldr]; lia. Qed.
Lemma ck_range l a c : is_u8 a -> is_u8 c -> is_u8 (ck l a c).1 /\ is_u8 (ck l a c).2.
Proof. revert a c. induction l as [|x l IH]; intros a c Ha Hc; cbn [ck]; [done|]. apply IH; apply u8_range. Qed.

(** A byte of the message that changes on the line: the message is refused, unless the last
    byte of its checksum starts a frame. *)
Theorem changed_byte_refused hdl class id l x x' m s : ready s -> is_u8 x -> is_u8 x' -> x <> x' -> (length (l ++ x :: m) <= 1020)%nat ->
  let k := ck (body class id (l ++ x :: m)) 0 0 in
  k.2 <> 0xB5 ->
  exists s', max6x_data_decode hdl ([0xB5; 0x62] ++ body class id (l ++ x' :: m) ++ [k.1; k.2]) s = Ok (tt, s') /\ ready s' /\ handled s' = handled s.
Proof.
  intros Hs Hx Hx' Hn Hm k Hk. assert (length (l ++ x' :: m) = length (l ++ x :: m)) as El by (by rewrite !length_app).
  destruct (decode_frame hdl class id (l ++ x' :: m) k.1 k.2 s Hs) as (s' & E & Hr & _ & Hh); [rewrite El; rewrite length_app in *; cbn [length] in *; lia|by left|].
  exists s'. split; [exact E|]. split; [done|]. rewrite Hh. destruct (Z.eqb_spec k.1 (ck (body class id (l ++ x' :: m)) 0 0).1) as [Ek|]; [|by rewrite app_nil_r].
  exfalso. unfold k in Ek. rewrite !ck_fst in Ek by done. unfold body in Ek. rewrite El, !foldr_add_app in Ek. cbn [foldr] in Ek. revert Ek Hx Hx' Hn. generalize (foldr Z.add 0 (header class id (Z.of_nat (length (l ++ x :: m))))), (foldr Z.add 0 l), (foldr Z.add 0 m). intros. mlia.
Qed.
(** Two neighbours that change places. *)
Theorem exchanged_bytes_refused hdl class id l x y m s : ready s -> is_u8 x -> is_u8 y -> x <> y -> (length (l ++ x :: y :: m) <= 1020)%nat ->
  let k := ck (body class id (l ++ x :: y :: m)) 0 0 in
  exists s', max6x_data_decode hdl ([0xB5; 0x62] ++ body class id (l ++ y :: x :: m) ++ [k.1; k.2]) s = Ok (tt, s') /\ ready s' /\ handled s' = handled s.
Proof.
  intros Hs Hx Hy Hn Hm k. assert (length (l ++ y :: x :: m) = length (l ++ x :: y :: m)) as El by (by rewrite !length_app).
  set (k' := ck (body class id (l ++ y :: x :: m)) 0 0). set (h := header class id (Z.of_nat (length (l ++ x :: y :: m)))).
  assert (k = ck (x :: y :: m) (ck (h ++ l) 0 0).1 (ck (h ++ l) 0 0).2) as Ek by (unfold k, body; fold h; by rewrite app_assoc, ck_app).
  assert (k' = ck (y :: x :: m) (ck (h ++ l) 0 0).1 (ck (h ++ l) 0 0).2) as Ek' by (unfold k', body; rewrite El; fold h; by rewrite app_assoc, ck_app).
  destruct (ck_range (h ++ l) 0 0) as [Ra Rc]; [done|done|]. destruct (ck (h ++ l) 0 0) as [a c]. cbn [fst snd] in *. cbn [ck] in Ek, Ek'.
  replace (u8 (u8 (a + y) + x)) with (u8 (u8 (a + x) + y)) in Ek' by mlia. set (a2 := u8 (u8 (a + x) + y)) in *.
  assert (k.1 = k'.1) as E1 by (rewrite Ek, Ek', !ck_fst by apply u8_range; done).
  assert (k.2 <> k'.2) as E2 by (rewrite Ek, Ek'; apply ck_snd; [apply u8_range..|generalize a2; intros d; clear - Hx Hy Hn; mlia]).
  destruct (decode_frame hdl class id (l ++ y :: x :: m) k.1 k.2 s Hs) as (s' & E & Hr & _ & Hh); [rewrite El; rewrite length_app in *; cbn [length] in *; lia|by right|].
  exists s'. split; [exact E|]. split; [done|]. rewrite Hh. fold k'. destruct (Z.eqb_spec k.2 k'.2); [done|]. by rewrite andb_false_r, app_nil_r.
Qed.

(** *** Defects *)

(** The length of an empty message is never reached: the bytes that follow, whatever they
    are, are stored up to the end of the buffer and past it. *)
Theorem empty_message_overruns hdl class id l s : ready s -> (1021 <= length l)%nat ->
  max6x_data_decode hdl ([0xB5; 0x62] ++ header class id 0 ++ l) s = Err EUndef.
Proof.
  intros [Hs Hl] Hn. rewrite app_assoc. erewrite decode_app by (by apply decode_header). rewrite <- (take_drop 1020 l). assert (length (take 1020 l) = 1020%nat) as Ht by (rewrite length_take; lia).
  erewrite decode_app by (apply decode_part; [lia|done|rewrite length_drop; lia|lia|by left]). rewrite Ht. destruct (drop 1020 l) as [|x m] eqn:E; [apply (f_equal length) in E; rewrite length_drop in E; cbn in E; lia|].
  cbn [max6x_data_decode]. rewrite drop_drop. replace (drop _ (buf s)) with (@nil Z) by (symmetry; apply drop_ge; lia). unfold max6x_parse at 1, put. mrun. cbn [state read_bytes]. mrun. cbn [buf set_read_bytes].
  change (u16 (0 + Z.of_nat 1020 + 1)) with 1021. unfold arr_set. rewrite decide_False by (rewrite !length_app, Ht; cbn; lia). done.
Qed.
(** A byte 0xB5 just before a frame hides it. *)
Theorem hidden_frame hdl class id msg s : ready s -> Forall (λ c, c <> 0xB5) (drop 1 (frame_bytes class id msg)) ->
  max6x_data_decode hdl ([0xB5] ++ frame_bytes class id msg) s = Ok (tt, s).
Proof.
  intros [Hs Hl] Hf. change (frame_bytes class id msg) with (0xB5 :: drop 1 (frame_bytes class id msg)). cbn [app max6x_data_decode].
  assert (max6x_parse hdl 0xB5 s = Ok (tt, set_state HEADER1 s)) as E1 by (unfold max6x_parse; mrun; by rewrite Hs). rewrite (bind_ok _ _ _ _ _ E1).
  assert (max6x_parse hdl 0xB5 (set_state HEADER1 s) = Ok (tt, s)) as E2 by (unfold max6x_parse; mrun; destruct s; cbn in Hs; subst; done). rewrite (bind_ok _ _ _ _ _ E2). by apply decode_noise.
Qed.

(** ** Start *)

Lemma add_acts_app a b s : add_acts b (add_acts a s) = add_acts (a ++ b) s.
Proof. unfold add_acts. cbn [acts]. by rewrite <- app_assoc. Qed.
(** The start of the receiver fails exactly when a configuration message is not taken, and
    the second one is sent only after the first; the fast bus is for the failures. *)
Theorem init_spec s :
  let start := [I2cDisable] ++ (if antsel_gpio then [SetOutput ANTSEL; PinSet ANTSEL] else []) ++ [SetOutput REG; PinSet REG; SetOutput EN; PinClear EN; SetOutput RST] ++
    (if rst_high then [PinClear RST; Delay 500; PinSet RST; Delay 500] else [PinSet RST; Delay 500; PinClear RST; Delay 500]) ++
    [SetInput READY; SelectExti; EnableIrq; SetInput PULSE; TimerHandler; I2cEnable false] in
  let ddc x := Tx (frame_bytes MAX6x_CLASS_CFG MAX6x_ID_PRT x) in
  let uart := ddc [1; 0; 0; 0; 0xC0; 0x08; 0; 0; 0; 0x96; 0; 0; 0; 0; 0; 0; 0; 0; 0; 0] in
  let i2c := ddc [0; 0; 0x17; 0; MAX6X_BASE_ADD; 0; 0; 0; 0; 0; 0; 0; 1; 0; 1; 0; 0; 0; 0; 0] in
  let i := (length (acts s) + length start)%nat in
  max6x_init s =
    if i2c_error i then Ok (true, add_acts (start ++ [uart; I2cDisable; I2cEnable true]) s)
    else if i2c_error (S i) then Ok (true, add_acts (start ++ [uart; i2c; I2cDisable; I2cEnable true]) s)
    else Ok (false, add_acts (start ++ [uart; i2c]) s).
Proof.
  intros start ddc uart i2c i. unfold max6x_init.
  assert (forall B (f : bool -> GM B), (does [I2cDisable] ;; (if antsel_gpio then does [SetOutput ANTSEL] ;; max6x_select_antenna MAX6X_ANTENNA_PATCH else mret tt) ;;
    does [SetOutput REG; PinSet REG] ;; does [SetOutput EN; PinClear EN] ;; does [SetOutput RST] ;;
    (if rst_high then does [PinClear RST; Delay 500; PinSet RST; Delay 500] else does [PinSet RST; Delay 500; PinClear RST; Delay 500]) ;;
    does [SetInput READY; SelectExti; EnableIrq] ;; does [SetInput PULSE] ;; does [TimerHandler] ;; does [I2cEnable false] ;; e ← max6x_configure_ddc; f e) s =
    (e ← max6x_configure_ddc; f e) (add_acts start s)) as Est.
  { intros B f. unfold start, max6x_select_antenna, does. destruct antsel_gpio, rst_high; mrun; by rewrite !add_acts_app. }
  rewrite Est. clear Est. unfold max6x_configure_ddc, send_both. rewrite !bind_assoc.
  erewrite bind_ok by (apply send_msg_spec; cbn; lia). cbn [acts add_acts]. rewrite length_app. fold i. change (Tx _) with uart. destruct (i2c_error i).
  - mrun. unfold does. mrun. by rewrite !add_acts_app, <- ?app_assoc.
  - erewrite bind_ok by (apply send_msg_spec; cbn; lia). change (Tx _) with i2c. cbn [acts add_acts]. rewrite !length_app. fold i. cbn [length]. rewrite Nat.add_1_r.
    destruct (i2c_error (S i)); unfold does; mrun; by rewrite !add_acts_app, <- ?app_assoc.
Qed.
End gps.

(** ** Examples *)

(** A receiver with a navigation message in its first reading, after 5 other bytes, and one
    byte in the second. *)
Definition ex_message : list Z := [0xFF; 0xFF; 0xFF; 0xFF; 0xFF] ++ frame_bytes MAX6x_CLASS_NAV 0x20 [1; 2].
Definition ex_env : GpsEnv := {|
  antsel_gpio := true;
  rst_high := false;
  i2c_error := λ _, false;
  i2c_in := λ n i, nth i (nth n [[]; [0; 15]; ex_message; []; [0; 1]; [0xFF]] []) 0;
  pin_level := λ _ _, false;
|}.

Lemma gps0_ready : ready gps0. Proof. done. Qed.

(** A damaged message between two navigation messages, one of another class. *)
Lemma gps_stream_witness : exists s' calls,
  max6x_data_decode true (concat (wire <$> [Noise [0; 0xB5; 1]; Message 1 2 [7; 8]; Damaged 1 2 [7; 9] 0 0; Message 5 1 [6; 1]; Message 1 3 [9]])) gps0 = Ok (tt, s') /\
  handled s' = calls /\ Forall2 gets calls [[1; 2; 2; 0; 7; 8]; [1; 3; 1; 0; 9]] /\ (snd <$> calls) = [5; 4].
Proof.
  destruct (gps_stream [Noise [0; 0xB5; 1]; Message 1 2 [7; 8]; Damaged 1 2 [7; 9] 0 0; Message 5 1 [6; 1]; Message 1 3 [9]] gps0 gps0_ready) as (s' & calls & E & _ & Hh & Hf & Hz).
  - constructor; [by apply no_frame_other, no_frame_pair, no_frame_nil|].
    repeat constructor; try (cbn; lia). vm_compute. discriminate.
  - exists s', calls. split; [exact E|]. split; [exact Hh|]. split; [exact Hf|exact Hz].
Defined.

(** The whole buffer is decoded at each reading, so that the message of the first one is given
    to the handler again at the second. *)
Theorem message_twice :
  match (max6x_register_nav_handler true ;; max6x_read (env := ex_env) ;; max6x_read (env := ex_env)) gps0 with
  | Ok (_, s) => acts s = [PinRead READY; TxRx [0xFD] 2; TxRx [] 15; PinRead READY; TxRx [0xFD] 2; TxRx [] 1] /\
      ((λ h, (take 6 h.1, h.2)) <$> handled s) = [([1; 0x20; 2; 0; 1; 2], 5); ([1; 0x20; 2; 0; 1; 2], 5)]
  | Err _ => False
  end.
Proof. vm_compute. done. Qed.
(** The length of the message is not compared with the place in the buffer of 255 bytes. *)
Example frame_overrun : frame 1 2 (replicate 248 0) = Err EUndef.
Proof. vm_compute. done. Qed.
End Max6x.
