(* ===== verification/Phy.v ===== *)
(** * Physical layer interface ([net/phy.h])

    The data types the upper layers share with the radio driver. The [data]
    pointer of a packet is its offset in [raw_data]. *)

From stdpp Require Import base numbers list.
From S2P Require Import Prelude.

Module Phy.

Inductive phy_status :=
| PHY_SUCCESS | PHY_ERR_INVALID_STATE | PHY_ERR_INVALID_LENGTH | PHY_ERR_TOO_LATE
| PHY_ERR_INTERNAL | PHY_RX_LENGTH_ERROR | PHY_RX_CRC_ERROR | PHY_RX_TIMEOUT_ERROR.

#[global] Instance phy_status_eq_dec : EqDecision phy_status.
Proof. solve_decision. Defined.

Definition PHY_MAX_TX_LENGTH : Z := 125.
Definition PHY_MAX_RX_LENGTH : Z := 127.
Definition PHY_868_MIN_CHANNEL : Z := 0.
Definition PHY_2400_MIN_CHANNEL : Z := 11.
Definition PHY_2400_MAX_CHANNEL : Z := 26.

Record time_alt := mk_alt { lsb : Z; msb : Z }.

Record phy_packet := mk_phy {
  data : Z;
  length_ : Z;
  raw_data : list Z;
  rssi : Z;
  lqi : Z;
  timestamp : Z;
  eop_time : Z;
  t_rx_start : Z;
  t_rx_end : Z;
  timestamp_alt : time_alt;
  eop_time_alt : time_alt;
}.

Definition set_data (d : Z) (p : phy_packet) : phy_packet :=
  mk_phy d (length_ p) (raw_data p) (rssi p) (lqi p) (timestamp p) (eop_time p)
         (t_rx_start p) (t_rx_end p) (timestamp_alt p) (eop_time_alt p).
Definition set_length (n : Z) (p : phy_packet) : phy_packet :=
  mk_phy (data p) n (raw_data p) (rssi p) (lqi p) (timestamp p) (eop_time p)
         (t_rx_start p) (t_rx_end p) (timestamp_alt p) (eop_time_alt p).
Definition set_raw (r : list Z) (p : phy_packet) : phy_packet :=
  mk_phy (data p) (length_ p) r (rssi p) (lqi p) (timestamp p) (eop_time p)
         (t_rx_start p) (t_rx_end p) (timestamp_alt p) (eop_time_alt p).
Definition set_timestamp_alt (t : time_alt) (p : phy_packet) : phy_packet :=
  mk_phy (data p) (length_ p) (raw_data p) (rssi p) (lqi p) (timestamp p) (eop_time p)
         (t_rx_start p) (t_rx_end p) t (eop_time_alt p).

Definition phy_prepare_packet (p : phy_packet) : phy_packet := set_data 0 p.

(** The byte at [pkt->data + i], and writing it. *)
Definition data_get (p : phy_packet) (i : Z) : res Z := arr_get (raw_data p) (data p + i).
Definition data_set (p : phy_packet) (i b : Z) : res phy_packet :=
  r ← arr_set (raw_data p) (data p + i) b; Ok (set_raw r p).

End Phy.
