(* ===== verification/PhyPower.v ===== *)
(** * Transmission power ([net/phy.h], [net/phy_rf2xx/phy_rf2xx.c])

    The power levels of the interface, the levels the radio chip offers and the
    conversions between them. A [float] is its exact value, an infinity or a NaN;
    the thresholds are the single-precision values of the literals. *)

From stdpp Require Import base numbers list.
From Stdlib Require Import QArith Qabs Lqa.
From S2P Require Import Prelude.

#[local] Open Scope Z_scope.

Module PhyPower.

Inductive phy_power :=
| PHY_POWER_m30dBm | PHY_POWER_m29dBm | PHY_POWER_m28dBm | PHY_POWER_m27dBm | PHY_POWER_m26dBm
| PHY_POWER_m25dBm | PHY_POWER_m24dBm | PHY_POWER_m23dBm | PHY_POWER_m22dBm | PHY_POWER_m21dBm
| PHY_POWER_m20dBm | PHY_POWER_m19dBm | PHY_POWER_m18dBm | PHY_POWER_m17dBm | PHY_POWER_m16dBm
| PHY_POWER_m15dBm | PHY_POWER_m14dBm | PHY_POWER_m13dBm | PHY_POWER_m12dBm | PHY_POWER_m11dBm
| PHY_POWER_m10dBm | PHY_POWER_m9dBm | PHY_POWER_m8dBm | PHY_POWER_m7dBm | PHY_POWER_m6dBm
| PHY_POWER_m5dBm | PHY_POWER_m4dBm | PHY_POWER_m3dBm | PHY_POWER_m2dBm | PHY_POWER_m1dBm
| PHY_POWER_0dBm | PHY_POWER_0_7dBm | PHY_POWER_1dBm | PHY_POWER_1_3dBm | PHY_POWER_1_8dBm
| PHY_POWER_2dBm | PHY_POWER_2_3dBm | PHY_POWER_2_8dBm | PHY_POWER_3dBm | PHY_POWER_4dBm
| PHY_POWER_5dBm.

(** Values of the power field of register [PHY_TX_PWR]. *)
Definition TX_PWR__3dBm : Z := 0x00.
Definition TX_PWR__2_8dBm : Z := 0x01.
Definition TX_PWR__2_3dBm : Z := 0x02.
Definition TX_PWR__1_8dBm : Z := 0x03.
Definition TX_PWR__1_3dBm : Z := 0x04.
Definition TX_PWR__0_7dBm : Z := 0x05.
Definition TX_PWR__0dBm : Z := 0x06.
Definition TX_PWR__m1dBm : Z := 0x07.
Definition TX_PWR__m2dBm : Z := 0x08.
Definition TX_PWR__m3dBm : Z := 0x09.
Definition TX_PWR__m4dBm : Z := 0x0A.
Definition TX_PWR__m5dBm : Z := 0x0B.
Definition TX_PWR__m7dBm : Z := 0x0C.
Definition TX_PWR__m9dBm : Z := 0x0D.
Definition TX_PWR__m12dBm : Z := 0x0E.
Definition TX_PWR__m17dBm : Z := 0x0F.

(** The argument being an enumerator, the default case of the C code is not
    reached. *)
Definition convert_power (power : phy_power) : Z :=
  match power with
  | PHY_POWER_m30dBm | PHY_POWER_m29dBm | PHY_POWER_m28dBm | PHY_POWER_m27dBm | PHY_POWER_m26dBm
  | PHY_POWER_m25dBm | PHY_POWER_m24dBm | PHY_POWER_m23dBm | PHY_POWER_m22dBm | PHY_POWER_m21dBm
  | PHY_POWER_m20dBm | PHY_POWER_m19dBm | PHY_POWER_m18dBm | PHY_POWER_m17dBm => TX_PWR__m17dBm
  | PHY_POWER_m16dBm | PHY_POWER_m15dBm | PHY_POWER_m14dBm | PHY_POWER_m13dBm
  | PHY_POWER_m12dBm => TX_PWR__m12dBm
  | PHY_POWER_m11dBm | PHY_POWER_m10dBm => TX_PWR__m9dBm
  | PHY_POWER_m9dBm | PHY_POWER_m8dBm | PHY_POWER_m7dBm => TX_PWR__m7dBm
  | PHY_POWER_m6dBm | PHY_POWER_m5dBm => TX_PWR__m5dBm
  | PHY_POWER_m4dBm => TX_PWR__m4dBm
  | PHY_POWER_m3dBm => TX_PWR__m3dBm
  | PHY_POWER_m2dBm => TX_PWR__m2dBm
  | PHY_POWER_m1dBm => TX_PWR__m1dBm
  | PHY_POWER_0dBm => TX_PWR__0dBm
  | PHY_POWER_0_7dBm => TX_PWR__0_7dBm
  | PHY_POWER_1dBm | PHY_POWER_1_3dBm => TX_PWR__1_3dBm
  | PHY_POWER_1_8dBm | PHY_POWER_2dBm => TX_PWR__1_8dBm
  | PHY_POWER_2_3dBm => TX_PWR__2_3dBm
  | PHY_POWER_2_8dBm => TX_PWR__2_8dBm
  | PHY_POWER_3dBm | PHY_POWER_4dBm | PHY_POWER_5dBm => TX_PWR__3dBm
  end.
(** ** Conversion of a [float] *)

Inductive float := Finite (q : Q) | Infinite (negative : bool) | NaN.

(** [x < y] for a [float] and a literal. *)
Definition flt (x : float) (y : Q) : bool :=
  match x with
  | Finite q => negb (Qle_bool y q)
  | Infinite negative => negative
  | NaN => false
  end.

Definition phy_convert_power (power : float) : phy_power :=
  if flt power (-59 # 2) then PHY_POWER_m30dBm
  else if flt power (-57 # 2) then PHY_POWER_m29dBm
  else if flt power (-55 # 2) then PHY_POWER_m28dBm
  else if flt power (-53 # 2) then PHY_POWER_m27dBm
  else if flt power (-51 # 2) then PHY_POWER_m26dBm
  else if flt power (-49 # 2) then PHY_POWER_m25dBm
  else if flt power (-47 # 2) then PHY_POWER_m24dBm
  else if flt power (-45 # 2) then PHY_POWER_m23dBm
  else if flt power (-43 # 2) then PHY_POWER_m22dBm
  else if flt power (-41 # 2) then PHY_POWER_m21dBm
  else if flt power (-39 # 2) then PHY_POWER_m20dBm
  else if flt power (-37 # 2) then PHY_POWER_m19dBm
  else if flt power (-35 # 2) then PHY_POWER_m18dBm
  else if flt power (-33 # 2) then PHY_POWER_m17dBm
  else if flt power (-31 # 2) then PHY_POWER_m16dBm
  else if flt power (-29 # 2) then PHY_POWER_m15dBm
  else if flt power (-27 # 2) then PHY_POWER_m14dBm
  else if flt power (-25 # 2) then PHY_POWER_m13dBm
  else if flt power (-23 # 2) then PHY_POWER_m12dBm
  else if flt power (-21 # 2) then PHY_POWER_m11dBm
  else if flt power (-19 # 2) then PHY_POWER_m10dBm
  else if flt power (-17 # 2) then PHY_POWER_m9dBm
  else if flt power (-15 # 2) then PHY_POWER_m8dBm
  else if flt power (-13 # 2) then PHY_POWER_m7dBm
  else if flt power (-11 # 2) then PHY_POWER_m6dBm
  else if flt power (-9 # 2) then PHY_POWER_m5dBm
  else if flt power (-7 # 2) then PHY_POWER_m4dBm
  else if flt power (-5 # 2) then PHY_POWER_m3dBm
  else if flt power (-3 # 2) then PHY_POWER_m2dBm
  else if flt power (-1 # 2) then PHY_POWER_m1dBm
  else if flt power (11744051 # 33554432) then PHY_POWER_0dBm
  else if flt power (7130317 # 8388608) then PHY_POWER_0_7dBm
  else if flt power (9646899 # 8388608) then PHY_POWER_1dBm
  else if flt power (6501171 # 4194304) then PHY_POWER_1_3dBm
  else if flt power (15938355 # 8388608) then PHY_POWER_1_8dBm
  else if flt power (4508877 # 2097152) then PHY_POWER_2dBm
  else if flt power (10695475 # 4194304) then PHY_POWER_2_3dBm
  else if flt power (6081741 # 2097152) then PHY_POWER_2_8dBm
  else if flt power (7 # 2) then PHY_POWER_3dBm
  else if flt power (9 # 2) then PHY_POWER_4dBm
  else PHY_POWER_5dBm.
(** ** The levels *)

(** The power named, in tenths of a dBm. *)
Definition level (p : phy_power) : Z :=
  match p with
  | PHY_POWER_m30dBm => -300 | PHY_POWER_m29dBm => -290 | PHY_POWER_m28dBm => -280 | PHY_POWER_m27dBm => -270
  | PHY_POWER_m26dBm => -260 | PHY_POWER_m25dBm => -250 | PHY_POWER_m24dBm => -240 | PHY_POWER_m23dBm => -230
  | PHY_POWER_m22dBm => -220 | PHY_POWER_m21dBm => -210 | PHY_POWER_m20dBm => -200 | PHY_POWER_m19dBm => -190
  | PHY_POWER_m18dBm => -180 | PHY_POWER_m17dBm => -170 | PHY_POWER_m16dBm => -160 | PHY_POWER_m15dBm => -150
  | PHY_POWER_m14dBm => -140 | PHY_POWER_m13dBm => -130 | PHY_POWER_m12dBm => -120 | PHY_POWER_m11dBm => -110
  | PHY_POWER_m10dBm => -100 | PHY_POWER_m9dBm => -90 | PHY_POWER_m8dBm => -80 | PHY_POWER_m7dBm => -70
  | PHY_POWER_m6dBm => -60 | PHY_POWER_m5dBm => -50 | PHY_POWER_m4dBm => -40 | PHY_POWER_m3dBm => -30
  | PHY_POWER_m2dBm => -20 | PHY_POWER_m1dBm => -10 | PHY_POWER_0dBm => 0 | PHY_POWER_0_7dBm => 7
  | PHY_POWER_1dBm => 10 | PHY_POWER_1_3dBm => 13 | PHY_POWER_1_8dBm => 18 | PHY_POWER_2dBm => 20
  | PHY_POWER_2_3dBm => 23 | PHY_POWER_2_8dBm => 28 | PHY_POWER_3dBm => 30 | PHY_POWER_4dBm => 40
  | PHY_POWER_5dBm => 50
  end.
Definition dBm (p : phy_power) : Q := level p # 10.

Definition phy_powers : list phy_power :=
  [PHY_POWER_m30dBm; PHY_POWER_m29dBm; PHY_POWER_m28dBm; PHY_POWER_m27dBm; PHY_POWER_m26dBm; PHY_POWER_m25dBm; PHY_POWER_m24dBm; PHY_POWER_m23dBm; PHY_POWER_m22dBm; PHY_POWER_m21dBm; 
   PHY_POWER_m20dBm; PHY_POWER_m19dBm; PHY_POWER_m18dBm; PHY_POWER_m17dBm; PHY_POWER_m16dBm; PHY_POWER_m15dBm; PHY_POWER_m14dBm; PHY_POWER_m13dBm; PHY_POWER_m12dBm; PHY_POWER_m11dBm; 
   PHY_POWER_m10dBm; PHY_POWER_m9dBm; PHY_POWER_m8dBm; PHY_POWER_m7dBm; PHY_POWER_m6dBm; PHY_POWER_m5dBm; PHY_POWER_m4dBm; PHY_POWER_m3dBm; PHY_POWER_m2dBm; PHY_POWER_m1dBm; 
   PHY_POWER_0dBm; PHY_POWER_0_7dBm; PHY_POWER_1dBm; PHY_POWER_1_3dBm; PHY_POWER_1_8dBm; PHY_POWER_2dBm; PHY_POWER_2_3dBm; PHY_POWER_2_8dBm; PHY_POWER_3dBm; PHY_POWER_4dBm; PHY_POWER_5dBm].
Lemma phy_powers_all p : In p phy_powers.
Proof. destruct p; cbn; tauto. Qed.
Lemma phy_powers_check (f : phy_power -> bool) : forallb f phy_powers = true -> forall p, f p = true.
Proof. intros H p. rewrite forallb_forall in H. apply H, phy_powers_all. Qed.

(** The thresholds of [phy_convert_power], each with the level below it. *)
Definition thresholds : list (Q * phy_power) :=
  [((-59 # 2), PHY_POWER_m30dBm); ((-57 # 2), PHY_POWER_m29dBm); ((-55 # 2), PHY_POWER_m28dBm);
   ((-53 # 2), PHY_POWER_m27dBm); ((-51 # 2), PHY_POWER_m26dBm); ((-49 # 2), PHY_POWER_m25dBm);
   ((-47 # 2), PHY_POWER_m24dBm); ((-45 # 2), PHY_POWER_m23dBm); ((-43 # 2), PHY_POWER_m22dBm);
   ((-41 # 2), PHY_POWER_m21dBm); ((-39 # 2), PHY_POWER_m20dBm); ((-37 # 2), PHY_POWER_m19dBm);
   ((-35 # 2), PHY_POWER_m18dBm); ((-33 # 2), PHY_POWER_m17dBm); ((-31 # 2), PHY_POWER_m16dBm);
   ((-29 # 2), PHY_POWER_m15dBm); ((-27 # 2), PHY_POWER_m14dBm); ((-25 # 2), PHY_POWER_m13dBm);
   ((-23 # 2), PHY_POWER_m12dBm); ((-21 # 2), PHY_POWER_m11dBm); ((-19 # 2), PHY_POWER_m10dBm);
   ((-17 # 2), PHY_POWER_m9dBm); ((-15 # 2), PHY_POWER_m8dBm); ((-13 # 2), PHY_POWER_m7dBm);
   ((-11 # 2), PHY_POWER_m6dBm); ((-9 # 2), PHY_POWER_m5dBm); ((-7 # 2), PHY_POWER_m4dBm);
   ((-5 # 2), PHY_POWER_m3dBm); ((-3 # 2), PHY_POWER_m2dBm); ((-1 # 2), PHY_POWER_m1dBm);
   ((11744051 # 33554432), PHY_POWER_0dBm); ((7130317 # 8388608), PHY_POWER_0_7dBm); ((9646899 # 8388608), PHY_POWER_1dBm);
   ((6501171 # 4194304), PHY_POWER_1_3dBm); ((15938355 # 8388608), PHY_POWER_1_8dBm); ((4508877 # 2097152), PHY_POWER_2dBm);
   ((10695475 # 4194304), PHY_POWER_2_3dBm); ((6081741 # 2097152), PHY_POWER_2_8dBm); ((7 # 2), PHY_POWER_3dBm);
   ((9 # 2), PHY_POWER_4dBm)].

Fixpoint pick (table : list (Q * phy_power)) (last : phy_power) (x : float) : phy_power :=
  match table with
  | [] => last
  | (t, p) :: table => if flt x t then p else pick table last x
  end.

Lemma phy_convert_power_pick x : phy_convert_power x = pick thresholds PHY_POWER_5dBm x.
Proof. reflexivity. Qed.

(** Twice the error of the thresholds, rounded to single precision. *)
Definition slack : Q := 1 # 2097152.

(** [p] is as close to [x] as any level, up to [slack]. *)
Definition closest (x : Q) (p : phy_power) : Prop :=
  forall p', (Qabs (x - dBm p) <= Qabs (x - dBm p') + slack)%Q.

(** Between [lo] and [hi], if any, level [p] is the closest. *)
Definition nearest_between (lo hi : option Q) (p p' : phy_power) : bool :=
  if level p <? level p' then
    match hi with Some h => Qle_bool (h * 2) (dBm p + dBm p' + slack) | None => false end
  else if level p' <? level p then
    match lo with Some l => Qle_bool (dBm p + dBm p') (l * 2 + slack) | None => false end
  else true.

Lemma nearest_between_sound lo hi p p' x :
  nearest_between lo hi p p' = true ->
  (forall l, lo = Some l -> l <= x)%Q -> (forall h, hi = Some h -> x < h)%Q ->
  (Qabs (x - dBm p) <= Qabs (x - dBm p') + slack)%Q.
Proof.
  unfold nearest_between. intros E Hlo Hhi.
  assert (forall a b, a < b -> (a # 10 <= b # 10)%Q) as Hle by (intros; unfold Qle; cbn; lia).
  assert (0 < slack)%Q as Hs by done.
  destruct (Z.ltb_spec (level p) (level p')) as [Hl|Hl].
  - destruct hi as [h|]; [|done]. apply Qle_bool_iff in E. specialize (Hhi h eq_refl). apply Hle in Hl.
    fold (dBm p) (dBm p') in Hl. destruct (Qlt_le_dec x (dBm p)), (Qlt_le_dec x (dBm p')); 
      rewrite ?(Qabs_pos (x - dBm p)), ?(Qabs_neg (x - dBm p)), ?(Qabs_pos (x - dBm p')), ?(Qabs_neg (x - dBm p')) by lra; lra.
  - destruct (Z.ltb_spec (level p') (level p)) as [Hl'|Hl'].
    + destruct lo as [l|]; [|done]. apply Qle_bool_iff in E. specialize (Hlo l eq_refl). apply Hle in Hl'.
      fold (dBm p) (dBm p') in Hl'. destruct (Qlt_le_dec x (dBm p)), (Qlt_le_dec x (dBm p')); 
        rewrite ?(Qabs_pos (x - dBm p)), ?(Qabs_neg (x - dBm p)), ?(Qabs_pos (x - dBm p')), ?(Qabs_neg (x - dBm p')) by lra; lra.
    + unfold dBm. replace (level p) with (level p') by lia. lra.
Qed.

(** The table gives the closest level in each of its intervals. *)
Fixpoint table_ok (lo : option Q) (table : list (Q * phy_power)) (last : phy_power) : bool :=
  match table with
  | [] => forallb (nearest_between lo None last) phy_powers
  | (t, p) :: table => forallb (nearest_between lo (Some t) p) phy_powers && table_ok (Some t) table last
  end.

Lemma pick_closest table last x : forall lo,
  table_ok lo table last = true -> (forall l, lo = Some l -> l <= x)%Q -> closest x (pick table last (Finite x)).
Proof.
  induction table as [|[t p] table IH]; intros lo E Hlo; cbn [table_ok pick] in *.
  - intros p'. eapply nearest_between_sound; [by apply (phy_powers_check _ E)|done|done].
  - apply andb_true_iff in E as [E1 E2]. unfold flt. destruct (Qle_bool t x) eqn:Et; cbn [negb].
    + apply (IH _ E2). intros l [= <-]. by apply Qle_bool_iff.
    + intros p'. eapply nearest_between_sound; [by apply (phy_powers_check _ E1)|done|].
      intros h [= <-]. apply Qnot_le_lt. intros Hle. apply Qle_bool_iff in Hle. congruence.
Qed.

(** [phy_convert_power] gives a closest level: for every finite power, no level is
    closer to it than the result, up to 2^-21 dBm, the error of the thresholds in
    single precision. Below and above all levels it saturates; a NaN gives the
    highest. *)
Theorem phy_convert_power_closest :
  (forall x, closest x (phy_convert_power (Finite x))) /\
  phy_convert_power (Infinite true) = PHY_POWER_m30dBm /\
  phy_convert_power (Infinite false) = PHY_POWER_5dBm /\ phy_convert_power NaN = PHY_POWER_5dBm.
Proof.
  split_and!; [|done..]. intros x. rewrite phy_convert_power_pick.
  apply (pick_closest _ _ _ None); [by vm_compute|done].
Qed.

(** Power of the values of the register, in tenths of a dBm. *)
Definition chip_level (v : Z) : option Z :=
  [30; 28; 23; 18; 13; 7; 0; -10; -20; -30; -40; -50; -70; -90; -120; -170] !! Z.to_nat v.

(** The level the chip is set to grows with the level asked for, and a level the chip
    has is set exactly, except -9 dBm, for which -7 dBm is set; so the chip never
    sends with less than what it is asked for, above -17 dBm and up to 3 dBm, but
    for 2 dBm, sent at 1.8 dBm. *)
Theorem convert_power_levels :
  (forall p q, level p <= level q -> exists a b, chip_level (convert_power p) = Some a /\
     chip_level (convert_power q) = Some b /\ a <= b) /\
  (forall p v, 0 <= v -> chip_level v = Some (level p) -> p <> PHY_POWER_m9dBm -> convert_power p = v) /\
  chip_level (convert_power PHY_POWER_m9dBm) = Some (-70) /\
  (forall p a, chip_level (convert_power p) = Some a -> level p <= 30 -> p <> PHY_POWER_2dBm -> level p <= a).
Proof.
  split_and!; [| |done|].
  - intros p q. assert (forallb (λ p, forallb (λ q, (level q <? level p) ||
      match chip_level (convert_power p), chip_level (convert_power q) with
      | Some a, Some b => a <=? b | _, _ => false end) phy_powers) phy_powers = true) as H by by vm_compute.
    pose proof (phy_powers_check _ (phy_powers_check _ H p) q) as Hpq. apply orb_true_iff in Hpq. intros Hle.
    destruct Hpq as [Hpq%Z.ltb_lt|Hpq]; [lia|]. destruct (chip_level (convert_power p)) as [a|]; [|done].
    destruct (chip_level (convert_power q)) as [b|]; [|done]. apply Z.leb_le in Hpq. eauto.
  - intros p v Hv Hc Hp. assert (Z.to_nat v < 16)%nat as Hlt by (by apply lookup_lt_Some in Hc).
    unfold chip_level in Hc. replace v with (Z.of_nat (Z.to_nat v)) by lia.
    generalize dependent (Z.to_nat v). intros n Hc Hn.
    do 16 (destruct n as [|n]; [destruct p; first [discriminate Hc|reflexivity|by destruct Hp]|]). lia.
  - intros p a. destruct p; cbn; intros [= <-]; (done || lia).
Qed.

End PhyPower.
