(* ===== verification/PhyRf2xx.v ===== *)
(** * Physical layer over the RF2xx radio chips ([net/phy_rf2xx/phy_rf2xx.c])

    The state machine between the MAC layers and the radio chip: sleep, idle,
    reception and transmission (waiting for their time, then running) and
    jamming. The calls to the chip driver, the hardware timer, the event queue and
    the power management, and the calls of the handlers of the upper layer, are
    recorded in order in [fx]; the values read from the chip and the clock come
    from the class [RfEnv]. Radio packets are objects of a store, shared with the
    upper layer. The state describes one PHY; the busy waits on the chip take a
    bound on their number of turns. *)

From stdpp Require Import base numbers gmap list.
From S2P Require Import Prelude Chain Event SoftTime Phy PhyPower.

Module PhyRf2xx.
Import Phy PhyPower SoftTime.

(** ** Registers of the chip ([periph/rf2xx/rf2xx_regs.h]) *)

Definition REG__TRX_STATUS : Z := 0x01.
Definition REG__TRX_STATE : Z := 0x02.
Definition REG__TRX_CTRL_0 : Z := 0x03.
Definition REG__TRX_CTRL_1 : Z := 0x04.
Definition REG__PHY_TX_PWR : Z := 0x05.
Definition REG__PHY_RSSI : Z := 0x06.
Definition REG__PHY_ED_LEVEL : Z := 0x07.
Definition REG__PHY_CC_CCA : Z := 0x08.
Definition REG__TRX_CTRL_2 : Z := 0x0C.
Definition REG__IRQ_MASK : Z := 0x0E.
Definition REG__IRQ_STATUS : Z := 0x0F.
Definition REG__XOSC_CTRL : Z := 0x12.
Definition REG__PART_NUM : Z := 0x1C.
Definition REG__TST_CTRL_DIGI : Z := 0x36.

Definition IRQ_CCA_ED_DONE : Z := 0x10.
Definition IRQ_TRX_END : Z := 0x08.
Definition IRQ_RX_START : Z := 0x04.
Definition IRQ_PLL_LOCK : Z := 0x01.

Definition TRX_CTRL_1_PA_EXT_EN : Z := 0x80.
Definition TRX_CTRL_1_IRQ_2_EXT_EN : Z := 0x40.

Definition TRX_STATUS_MASK : Z := 0x1F.
Definition TRX_STATUS_CCA_DONE : Z := 0x80.
Definition TRX_STATUS_CCA_STATUS : Z := 0x40.
Definition TRX_STATUS__RX_ON : Z := 0x06.
Definition TRX_STATUS__PLL_ON : Z := 0x09.

Definition TRX_STATE__TX_START : Z := 0x02.
Definition TRX_STATE__FORCE_TRX_OFF : Z := 0x03.
Definition TRX_STATE__RX_ON : Z := 0x06.
Definition TRX_STATE__PLL_ON : Z := 0x09.

Definition CCA_REQUEST : Z := 0x80.
Definition CCA_MODE : Z := 0x20.
Definition RX_CRC_VALID : Z := 0x80.
Definition PA_BUF_LT : Z := 0xC0.
Definition PA_LT : Z := 0x00.

(** ** State *)

Inductive phy_state :=
| PHY_STATE_SLEEP | PHY_STATE_IDLE | PHY_STATE_RX_WAIT | PHY_STATE_RX
| PHY_STATE_TX_WAIT | PHY_STATE_TX | PHY_STATE_JAMMING.

#[global] Instance phy_state_eq_dec : EqDecision phy_state.
Proof. solve_decision. Defined.

(** The functions given to the timer, and those posted as events. *)
Inductive timer_fn := RX_START_HANDLER | RX_TIMEOUT_HANDLER | TX_START_HANDLER.
Inductive event_fn := START_RX | HANDLE_RX_TIMEOUT | HANDLE_IRQ | HANDLE_RX_END.
Inductive output_mode := TIMER_OUTPUT_MODE_SET_ACTIVE | TIMER_OUTPUT_MODE_FORCE_INACTIVE.

Inductive effect :=
| FxTimerCompare (value : Z) (h : option timer_fn)
| FxTimerOutput (m : output_mode)
| FxWakeup | FxSleep | FxReset
| FxIrqEnable | FxIrqDisable | FxIrqConfigure
| FxDig2Enable | FxDig2Disable | FxDig2Configure
| FxPaEnable | FxPaDisable
| FxSlpTrSet | FxSlpTrClear | FxSlpTrConfigTimer
| FxRegRead (r : Z) | FxRegWrite (r v : Z)
| FxFifoWriteFirst (v : Z) | FxFifoWriteAsync (bytes : list Z) | FxFifoWrite (bytes : list Z)
| FxFifoReadFirst | FxFifoRead (off n : Z) | FxFifoReadAsync (off n : Z) | FxFifoCancel
| FxPreventLowPower | FxReleaseLowPower
| FxEventPost (q : Event.event_queue) (f : event_fn)
| FxHandler (h : nat) (status : phy_status).

(** [phy_rf2xx_t] and the globals of the file. A handler of the upper layer is a
    number; [timestamp_handler] tells whether one is registered. *)
Record phy := mk_phy_rf2xx {
  mutex_ : mutex;
  timer_is_slptr : Z;
  pkt : ptr;
  state : phy_state;
  handler : option nat;
  rx_timeout : Z;
  timestamp_handler : bool;
  packets : gmap loc phy_packet;
  fx : list effect;
  reads : nat;
  polls : nat;
  stamps : nat;
  rands : nat;
}.

Definition set_mutex (x : mutex) (s : phy) : phy :=
  mk_phy_rf2xx x (timer_is_slptr s) (pkt s) (state s) (handler s) (rx_timeout s) (timestamp_handler s)
    (packets s) (fx s) (reads s) (polls s) (stamps s) (rands s).
Definition set_pkt (x : ptr) (s : phy) : phy :=
  mk_phy_rf2xx (mutex_ s) (timer_is_slptr s) x (state s) (handler s) (rx_timeout s) (timestamp_handler s)
    (packets s) (fx s) (reads s) (polls s) (stamps s) (rands s).
Definition set_state (x : phy_state) (s : phy) : phy :=
  mk_phy_rf2xx (mutex_ s) (timer_is_slptr s) (pkt s) x (handler s) (rx_timeout s) (timestamp_handler s)
    (packets s) (fx s) (reads s) (polls s) (stamps s) (rands s).
Definition set_handler (x : option nat) (s : phy) : phy :=
  mk_phy_rf2xx (mutex_ s) (timer_is_slptr s) (pkt s) (state s) x (rx_timeout s) (timestamp_handler s)
    (packets s) (fx s) (reads s) (polls s) (stamps s) (rands s).
Definition set_rx_timeout (x : Z) (s : phy) : phy :=
  mk_phy_rf2xx (mutex_ s) (timer_is_slptr s) (pkt s) (state s) (handler s) x (timestamp_handler s)
    (packets s) (fx s) (reads s) (polls s) (stamps s) (rands s).
Definition set_timestamp_handler (x : bool) (s : phy) : phy :=
  mk_phy_rf2xx (mutex_ s) (timer_is_slptr s) (pkt s) (state s) (handler s) (rx_timeout s) x
    (packets s) (fx s) (reads s) (polls s) (stamps s) (rands s).
Definition set_packets (x : gmap loc phy_packet) (s : phy) : phy :=
  mk_phy_rf2xx (mutex_ s) (timer_is_slptr s) (pkt s) (state s) (handler s) (rx_timeout s) (timestamp_handler s)
    x (fx s) (reads s) (polls s) (stamps s) (rands s).
Definition set_fx (x : list effect) (s : phy) : phy :=
  mk_phy_rf2xx (mutex_ s) (timer_is_slptr s) (pkt s) (state s) (handler s) (rx_timeout s) (timestamp_handler s)
    (packets s) x (reads s) (polls s) (stamps s) (rands s).
Definition set_counts (r p t n : nat) (s : phy) : phy :=
  mk_phy_rf2xx (mutex_ s) (timer_is_slptr s) (pkt s) (state s) (handler s) (rx_timeout s) (timestamp_handler s)
    (packets s) (fx s) r p t n.

(** The chip and its environment: the kind of chip, the successive readings of
    the clock, of the registers and of the first byte of the frame buffer, of the
    registered timestamp source and of [rand()]. *)
Class RfEnv := {
  clock : nat -> Z;
  poll : nat -> Z;
  stamp_at : nat -> time_alt;
  rand_at : nat -> Z;
  rf2xx_has_dig2 : bool;
  rf2xx_has_pa : bool;
  rf2xx_2_4GHz : bool;
  patience : nat;
}.

Abbreviation RM := (M phy).

Definition emit (e : effect) : RM unit := mmod (λ s, set_fx (fx s ++ [e]) s).

Section phy.
Context `{!RfEnv}.

Definition soft_timer_time : RM Z := fun s =>
  Ok (u32 (clock (reads s)), set_counts (S (reads s)) (polls s) (stamps s) (rands s) s).
Definition chip_value : RM Z := fun s =>
  Ok (u8 (poll (polls s)), set_counts (reads s) (S (polls s)) (stamps s) (rands s) s).
Definition rand : RM Z := fun s =>
  Ok (rand_at (rands s), set_counts (reads s) (polls s) (stamps s) (S (rands s)) s).
Definition next_stamp : RM time_alt := fun s =>
  Ok (stamp_at (stamps s), set_counts (reads s) (polls s) (S (stamps s)) (rands s) s).

Definition rf2xx_reg_read (r : Z) : RM Z := emit (FxRegRead r) ;; chip_value.
Definition rf2xx_reg_write (r v : Z) : RM unit := emit (FxRegWrite r v).
Definition rf2xx_set_state (v : Z) : RM unit := rf2xx_reg_write REG__TRX_STATE v.
Definition rf2xx_get_status : RM Z :=
  v ← rf2xx_reg_read REG__TRX_STATUS; mret (Z.land v TRX_STATUS_MASK).

Definition RF_MAX_WAIT : Z := soft_timer_ms_to_ticks 1.
Definition PHY_TIMING__TX_OFFSET : Z := soft_timer_us_to_ticks (16 + 192 + 9).

Definition take : RM unit := fun s =>
  match mutex_ s with None => Err EUndef | Some _ => Ok (tt, set_mutex (Some true) s) end.
Definition give : RM unit := fun s =>
  match sem_give (mutex_ s) with Ok m => Ok (tt, set_mutex m s) | Err e => Err e end.

(** The packet the PHY works on. *)
Definition pkt_load : RM phy_packet := fun s =>
  match pkt s ≫= (packets s !!.) with Some k => Ok (k, s) | None => Err EUndef end.
Definition pkt_upd (f : phy_packet -> phy_packet) : RM unit := fun s =>
  match pkt s with
  | None => Err EUndef
  | Some l => match packets s !! l with
              | None => Err EUndef
              | Some k => Ok (tt, set_packets (<[l := f k]> (packets s)) s)
              end
  end.

(** [do { reg = poll; if (!before(time(), t_end)) fail; } while (!stop(reg))]:
    [None] when the delay expired. *)
Fixpoint wait_for (fuel : nat) (get : RM Z) (stop : Z -> bool) (t_end : Z) : RM (option Z) :=
  match fuel with
  | O => mfail EFuel
  | S fuel =>
      reg ← get;
      now ← soft_timer_time;
      if negb (soft_timer_a_is_before_b now t_end) then mret None
      else if stop reg then mret (Some reg)
      else wait_for fuel get stop t_end
  end.

Definition busy_wait (get : RM Z) (stop : Z -> bool) : RM (option Z) :=
  now ← soft_timer_time;
  wait_for patience get stop (u32 (now + RF_MAX_WAIT)).

(** ** Internal functions *)

Definition idle : RM unit :=
  emit FxIrqDisable ;;
  emit (FxTimerCompare 0 None) ;;
  s ← mget;
  match state s with
  | PHY_STATE_SLEEP => emit FxWakeup
  | PHY_STATE_RX | PHY_STATE_RX_WAIT | PHY_STATE_TX | PHY_STATE_TX_WAIT => emit FxReleaseLowPower
  | _ => mret tt
  end ;;
  emit FxFifoCancel ;;
  rf2xx_set_state TRX_STATE__FORCE_TRX_OFF ;;
  mwhen rf2xx_has_pa
    (emit FxPaDisable ;;
     reg ← rf2xx_reg_read REG__TRX_CTRL_1;
     rf2xx_reg_write REG__TRX_CTRL_1 (Z.land reg (u8 (Z.lnot TRX_CTRL_1_PA_EXT_EN)))) ;;
  mmod (set_pkt None) ;;
  mmod (set_state PHY_STATE_IDLE).

Definition sleep : RM unit :=
  idle ;;
  emit FxSleep ;;
  mmod (set_handler None) ;;
  mmod (set_pkt None) ;;
  mmod (set_state PHY_STATE_SLEEP).

Definition reset : RM unit :=
  emit (FxTimerCompare 0 None) ;;
  emit FxFifoCancel ;;
  emit FxIrqDisable ;;
  emit FxIrqConfigure ;;
  mwhen rf2xx_has_dig2 (emit FxDig2Disable ;; emit FxDig2Configure) ;;
  emit FxSlpTrClear ;;
  emit FxReset ;;
  mwhen rf2xx_has_dig2
    (reg ← rf2xx_reg_read REG__TRX_CTRL_1;
     rf2xx_reg_write REG__TRX_CTRL_1 (Z.lor reg TRX_CTRL_1_IRQ_2_EXT_EN)) ;;
  (if rf2xx_2_4GHz then
     rf2xx_reg_write REG__TRX_CTRL_2 0x80 ;;
     rf2xx_reg_write REG__PHY_TX_PWR (Z.lor (Z.lor PA_BUF_LT PA_LT) TX_PWR__3dBm)
   else
     rf2xx_reg_write REG__TRX_CTRL_2 (Z.lor (Z.lor 0x80 0x08) 0x01) ;;
     rf2xx_reg_write REG__PHY_TX_PWR 0x47) ;;
  rf2xx_reg_write REG__TRX_CTRL_0 (Z.lor (Z.lor (Z.lor 0x00 0x10) 0x08) 0x00) ;;
  rf2xx_reg_write REG__XOSC_CTRL (Z.lor 0xF0 0x0) ;;
  sleep.

(** ** Interface *)

Definition phy_rf2xx_init : RM unit :=
  s ← mget;
  (match mutex_ s with None => mmod (set_mutex (Some false)) | Some _ => mret tt end) ;;
  take ;;
  mmod (set_pkt None) ;;
  reset ;;
  give.

Definition phy_reset : RM unit := take ;; reset ;; give.
Definition phy_sleep : RM unit := take ;; sleep ;; give.
Definition phy_idle : RM unit := take ;; idle ;; give.

(** The check of the state that starts most operations: wakes the chip up, or
    refuses. *)
Definition wake_or_refuse : RM bool :=
  s ← mget;
  match state s with
  | PHY_STATE_SLEEP => emit FxWakeup ;; mret true
  | PHY_STATE_IDLE => mret true
  | _ => give ;; mret false
  end.

(** Puts the chip back to sleep after an operation that leaves the state alone. *)
Definition back_to_sleep : RM unit :=
  s ← mget;
  mwhen (bool_decide (state s = PHY_STATE_SLEEP)) (emit FxSleep).

(** [if (state == SLEEP) sleep() else idle()], on the way out of an error. *)
Definition back_to_previous : RM unit :=
  s ← mget;
  if decide (state s = PHY_STATE_SLEEP) then sleep else idle.

Definition phy_set_channel (channel : Z) : RM phy_status :=
  take ;;
  ok ← wake_or_refuse;
  if negb ok then mret PHY_ERR_INVALID_STATE
  else
    let channel :=
      if rf2xx_2_4GHz then
        if channel <? PHY_2400_MIN_CHANNEL then PHY_2400_MIN_CHANNEL
        else if channel >? PHY_2400_MAX_CHANNEL then PHY_2400_MAX_CHANNEL
        else channel
      else PHY_868_MIN_CHANNEL in
    rf2xx_reg_write REG__PHY_CC_CCA (Z.lor CCA_MODE channel) ;;
    back_to_sleep ;;
    give ;;
    mret PHY_SUCCESS.

Definition phy_set_power (power : phy_power) : RM phy_status :=
  take ;;
  ok ← wake_or_refuse;
  if negb ok then mret PHY_ERR_INVALID_STATE
  else
    (if rf2xx_2_4GHz then
       rf2xx_reg_write REG__PHY_TX_PWR (Z.lor (Z.lor PA_BUF_LT PA_LT) (convert_power power))
     else rf2xx_reg_write REG__PHY_TX_PWR 0x47) ;;
    back_to_sleep ;;
    give ;;
    mret PHY_SUCCESS.

(** Request and wait for an energy measure, in dBm. *)
Definition measure_ed : RM (option Z) :=
  rf2xx_reg_write REG__IRQ_MASK IRQ_CCA_ED_DONE ;;
  rf2xx_reg_write REG__PHY_ED_LEVEL 0xAA ;;
  r ← busy_wait (rf2xx_reg_read REG__IRQ_STATUS) (λ reg, ctrue (Z.land reg IRQ_CCA_ED_DONE));
  match r with
  | None => mret None
  | Some _ => v ← rf2xx_reg_read REG__PHY_ED_LEVEL; mret (Some (-91 + v))
  end.

(** Request and wait for a channel assessment. *)
Definition measure_cca : RM (option Z) :=
  reg ← rf2xx_reg_read REG__PHY_CC_CCA;
  rf2xx_reg_write REG__PHY_CC_CCA (Z.lor reg CCA_REQUEST) ;;
  r ← busy_wait (rf2xx_reg_read REG__TRX_STATUS) (λ reg, ctrue (Z.land reg TRX_STATUS_CCA_DONE));
  match r with
  | None => mret None
  | Some reg => mret (Some (cbool (ctrue (Z.land reg TRX_STATUS_CCA_STATUS))))
  end.

(** Returns the status, and the value stored in [result] if any. *)
Definition phy_ed_cca_measure (ed : bool) : RM (phy_status * option Z) :=
  take ;;
  ok ← wake_or_refuse;
  if negb ok then mret (PHY_ERR_INVALID_STATE, None)
  else
    emit FxIrqDisable ;;
    rf2xx_set_state TRX_STATE__RX_ON ;;
    r ← busy_wait rf2xx_get_status (λ reg, ctrue (Z.land reg TRX_STATUS__RX_ON));
    match r with
    | None => give ;; mret (PHY_ERR_INTERNAL, None)
    | Some _ =>
        result ← (if ed then measure_ed else measure_cca);
        match result with
        | None => give ;; mret (PHY_ERR_INTERNAL, None)
        | Some v =>
            rf2xx_set_state TRX_STATE__FORCE_TRX_OFF ;;
            back_to_sleep ;;
            give ;;
            mret (PHY_SUCCESS, Some v)
        end
    end.

Definition phy_ed : RM (phy_status * option Z) := phy_ed_cca_measure true.
Definition phy_cca : RM (phy_status * option Z) := phy_ed_cca_measure false.

(** The external power amplifier is switched on through pins DIG3 and DIG4. *)
Definition pa_on : RM unit :=
  mwhen rf2xx_has_pa
    (emit FxPaEnable ;;
     reg ← rf2xx_reg_read REG__TRX_CTRL_1;
     rf2xx_reg_write REG__TRX_CTRL_1 (Z.lor reg TRX_CTRL_1_PA_EXT_EN)).

Definition start_rx : RM unit :=
  take ;;
  s ← mget;
  if negb (bool_decide (state s = PHY_STATE_RX_WAIT)) then give
  else
    match pkt s with
    | None => mfail EHalt
    | Some _ =>
        mmod (set_state PHY_STATE_RX) ;;
        emit FxIrqDisable ;;
        rf2xx_set_state TRX_STATE__FORCE_TRX_OFF ;;
        rf2xx_reg_write REG__IRQ_MASK (Z.lor IRQ_TRX_END (if rf2xx_has_dig2 then 0 else IRQ_RX_START)) ;;
        rf2xx_reg_read REG__IRQ_STATUS ;;
        pa_on ;;
        emit FxIrqEnable ;;
        mwhen rf2xx_has_dig2 (emit FxDig2Enable) ;;
        rf2xx_set_state TRX_STATE__RX_ON ;;
        busy_wait rf2xx_get_status (λ status, Z.land status TRX_STATUS_MASK =? TRX_STATUS__RX_ON) ;;
        s ← mget;
        (if ctrue (rx_timeout s) then
           emit (FxTimerCompare (Z.land (rx_timeout s) 0xFFFF) (Some RX_TIMEOUT_HANDLER))
         else emit (FxTimerCompare 0 None)) ;;
        give
    end.

(** Conversion to [int16_t]. *)
Definition i16 (z : Z) : Z := (z + 32768) mod 65536 - 32768.

(** The condition on the times under which [phy_rx] refuses. *)
Definition rx_too_late (rx_time timeout_time now : Z) : bool :=
  (ctrue rx_time && (i16 (rx_time - now) <? 1)) ||
  (ctrue timeout_time && (i16 (timeout_time - now) <? 1)) ||
  (ctrue rx_time && ctrue timeout_time && (u32 (timeout_time - rx_time) <? 1)).

Definition clear_times (k : phy_packet) : phy_packet :=
  mk_phy (data k) (length_ k) (raw_data k) (rssi k) (lqi k) 0 (eop_time k) 0 0
    (timestamp_alt k) (eop_time_alt k).

Definition phy_rx (rx_time timeout_time : Z) (packet : ptr) (h : option nat) : RM phy_status :=
  take ;;
  match packet with
  | None => mfail EHalt
  | Some _ =>
      ok ← wake_or_refuse;
      if negb ok then mret PHY_ERR_INVALID_STATE
      else
        mmod (set_rx_timeout timeout_time) ;;
        mmod (set_pkt packet) ;;
        mmod (set_handler h) ;;
        pkt_upd clear_times ;;
        now ← soft_timer_time;
        if rx_too_late rx_time timeout_time now then
          back_to_previous ;;
          give ;;
          mret PHY_ERR_TOO_LATE
        else
          mmod (set_state PHY_STATE_RX_WAIT) ;;
          emit FxPreventLowPower ;;
          (if ctrue rx_time then
             emit (FxTimerCompare (Z.land rx_time 0xFFFF) (Some RX_START_HANDLER)) ;;
             give
           else
             give ;;
             start_rx) ;;
          mret PHY_SUCCESS
  end.

Definition set_times (t : Z) (k : phy_packet) : phy_packet :=
  mk_phy (data k) (length_ k) (raw_data k) (rssi k) (lqi k) t (eop_time k) (t_rx_start k) (t_rx_end k)
    (timestamp_alt k) (eop_time_alt k).

Definition tx_start_handler (timer_value : Z) : RM unit :=
  s ← mget;
  mwhen (bool_decide (state s = PHY_STATE_TX_WAIT))
    (emit FxSlpTrSet ;;
     (if ctrue (timer_is_slptr s) then
        emit (FxTimerOutput TIMER_OUTPUT_MODE_FORCE_INACTIVE) ;;
        ref ← soft_timer_time;
        pkt_upd (set_times (u32 (soft_timer_convert_time ref timer_value + PHY_TIMING__TX_OFFSET)))
      else
        now ← soft_timer_time;
        pkt_upd (set_times (u32 (now + PHY_TIMING__TX_OFFSET)))) ;;
     mmod (set_state PHY_STATE_TX) ;;
     emit (FxTimerCompare 0 None) ;;
     emit FxSlpTrClear).

(** Programs the start of a transmission at [tx_time]; [false] if it is too late. *)
Definition tx_schedule (tx_time : Z) : RM bool :=
  let tx_time := u32 (tx_time - PHY_TIMING__TX_OFFSET) in
  now ← soft_timer_time;
  if i16 (tx_time - now) >? 1 then
    emit (FxTimerCompare (Z.land tx_time 0xFFFF) (Some TX_START_HANDLER)) ;;
    s ← mget;
    mwhen (ctrue (timer_is_slptr s))
      (emit (FxTimerOutput TIMER_OUTPUT_MODE_SET_ACTIVE) ;; emit FxSlpTrConfigTimer) ;;
    mret true
  else mret false.

Definition phy_tx (tx_time : Z) (packet : ptr) (h : option nat) : RM phy_status :=
  take ;;
  s ← mget;
  match packet with
  | None => give ;; mret PHY_ERR_INTERNAL
  | Some l =>
      k ← mlift (of_option EUndef (packets s !! l));
      if length_ k >? PHY_MAX_TX_LENGTH then give ;; mret PHY_ERR_INVALID_LENGTH
      else
        ok ← wake_or_refuse;
        if negb ok then mret PHY_ERR_INVALID_STATE
        else
          mmod (set_pkt packet) ;;
          mmod (set_handler h) ;;
          emit FxIrqDisable ;;
          rf2xx_reg_write REG__IRQ_MASK IRQ_TRX_END ;;
          rf2xx_reg_read REG__IRQ_STATUS ;;
          pa_on ;;
          emit FxIrqEnable ;;
          rf2xx_set_state TRX_STATE__PLL_ON ;;
          let last_state := state s in
          mmod (set_state PHY_STATE_TX_WAIT) ;;
          scheduled ← (if ctrue tx_time then tx_schedule tx_time else mret true);
          if negb scheduled then
            mmod (set_state last_state) ;;
            back_to_previous ;;
            give ;;
            mret PHY_ERR_TOO_LATE
          else
            r ← busy_wait rf2xx_get_status (λ status, status =? TRX_STATUS__PLL_ON);
            match r with
            | None =>
                mmod (set_state last_state) ;;
                back_to_previous ;;
                give ;;
                mret PHY_ERR_INVALID_STATE
            | Some _ =>
                k ← pkt_load;
                emit (FxFifoWriteFirst (u8 (length_ k + 2))) ;;
                bytes ← mlift (arr_slice (raw_data k) (data k) (length_ k));
                emit (FxFifoWriteAsync bytes) ;;
                emit FxPreventLowPower ;;
                mwhen (negb (ctrue tx_time))
                  (t ← soft_timer_time; tx_start_handler (u16 t)) ;;
                give ;;
                mret PHY_SUCCESS
            end
  end.

(** The wait of [phy_jam] for the PLL; as written it ends at the first status
    that is not zero ([!] binds tighter than the mask). *)
Fixpoint wait_pll (fuel : nat) : RM unit :=
  match fuel with
  | O => mfail EFuel
  | S fuel =>
      v ← rf2xx_reg_read REG__IRQ_STATUS;
      if ctrue (Z.land (cbool (v =? 0)) IRQ_PLL_LOCK) then wait_pll fuel else mret tt
  end.

(** [n] random bytes. *)
Fixpoint rand_bytes (n : nat) : RM (list Z) :=
  match n with
  | O => mret []
  | S n => v ← rand; r ← rand_bytes n; mret (u8 v :: r)
  end.

Definition phy_jam (channel : Z) (power : phy_power) : RM phy_status :=
  take ;;
  ok ← wake_or_refuse;
  if negb ok then mret PHY_ERR_INVALID_STATE
  else
    mmod (set_state PHY_STATE_JAMMING) ;;
    emit FxIrqDisable ;;
    emit FxReset ;;
    emit FxWakeup ;;
    emit FxPaEnable ;;
    rf2xx_reg_write REG__IRQ_MASK IRQ_PLL_LOCK ;;
    rf2xx_reg_read REG__IRQ_STATUS ;;
    rf2xx_reg_write REG__TRX_CTRL_1 0 ;;
    rf2xx_reg_write REG__TRX_STATE TRX_STATE__FORCE_TRX_OFF ;;
    rf2xx_reg_write REG__TRX_CTRL_0 0x01 ;;
    rf2xx_reg_write REG__PHY_CC_CCA (Z.lor CCA_MODE channel) ;;
    rf2xx_reg_write REG__PHY_TX_PWR (convert_power power) ;;
    rf2xx_reg_read REG__TRX_STATUS ;;
    pa_on ;;
    rf2xx_reg_write REG__TST_CTRL_DIGI 0x0F ;;
    rf2xx_reg_write 0x0C 0x03 ;;
    rf2xx_reg_write 0x0A 0xA7 ;;
    r ← rand_bytes 127;
    emit (FxFifoWrite (127 :: r)) ;;
    rf2xx_reg_write REG__PART_NUM 0x54 ;;
    rf2xx_reg_write REG__PART_NUM 0x46 ;;
    rf2xx_reg_write REG__TRX_STATE TRX_STATE__PLL_ON ;;
    wait_pll patience ;;
    rf2xx_reg_write REG__TRX_STATE TRX_STATE__TX_START ;;
    give ;;
    mret PHY_SUCCESS.

Definition register_timestamp_handler (registered : bool) : RM unit :=
  mmod (set_timestamp_handler registered).

(** ** Event handlers *)

Definition call_handler (status : phy_status) : RM unit :=
  s ← mget;
  match handler s with Some h => emit (FxHandler h status) | None => mret tt end.

Definition set_rx_start (t : Z) (k : phy_packet) : phy_packet :=
  mk_phy (data k) (length_ k) (raw_data k) (rssi k) (lqi k) (timestamp k) (eop_time k) t (t_rx_end k)
    (timestamp_alt k) (eop_time_alt k).

Definition handle_rx_start : RM phy_status :=
  s ← mget;
  if negb (bool_decide (state s = PHY_STATE_RX)) then mfail EHalt
  else
    match pkt s with
    | None => mfail EHalt
    | Some _ =>
        rf2xx_set_state TRX_STATE__FORCE_TRX_OFF ;;
        v ← rf2xx_reg_read REG__PHY_RSSI;
        if negb (ctrue (Z.land v RX_CRC_VALID)) then
          emit (FxTimerCompare 0 None) ;;
          idle ;;
          mret PHY_RX_CRC_ERROR
        else
          emit FxFifoReadFirst ;;
          n ← chip_value;
          pkt_upd (set_length n) ;;
          k ← pkt_load;
          if (length_ k =? 0) || (data k + length_ k >? PHY_MAX_RX_LENGTH) then
            emit (FxFifoRead (data k) 0) ;;
            idle ;;
            mret PHY_RX_LENGTH_ERROR
          else
            now ← soft_timer_time;
            pkt_upd (set_rx_start now) ;;
            emit (FxFifoReadAsync (data k) (u8 (length_ k + 1))) ;;
            mret PHY_SUCCESS
    end.

(** The fields of a received packet. *)
Definition set_received (t_end ed q n : Z) (k : phy_packet) : phy_packet :=
  mk_phy (data k) n (raw_data k) ed q (timestamp k) (eop_time k) (t_rx_start k) t_end
    (timestamp_alt k) (eop_time_alt k).

Definition handle_rx_end : RM unit :=
  take ;;
  s ← mget;
  if negb (bool_decide (state s = PHY_STATE_RX)) then give
  else
    match pkt s with
    | None => mfail EHalt
    | Some _ =>
        now ← soft_timer_time;
        ed ← rf2xx_reg_read REG__PHY_ED_LEVEL;
        k ← pkt_load;
        q ← mlift (data_get k (length_ k));
        pkt_upd (set_received now (i8 (-91 + ed)) q (u8 (length_ k - 2))) ;;
        if i16 (now - t_rx_start k) >? 500 then mfail EHalt
        else
          idle ;;
          give ;;
          call_handler PHY_SUCCESS
    end.

Definition handle_rx_timeout : RM unit :=
  take ;;
  s ← mget;
  if negb (bool_decide (state s = PHY_STATE_RX_WAIT)) && negb (bool_decide (state s = PHY_STATE_RX))
  then give
  else
    idle ;;
    give ;;
    call_handler PHY_RX_TIMEOUT_ERROR.

Definition handle_irq : RM unit :=
  take ;;
  irq_status ← rf2xx_reg_read REG__IRQ_STATUS;
  s ← mget;
  match state s with
  | PHY_STATE_RX =>
      if irq_status =? IRQ_RX_START then
        mwhen (negb rf2xx_has_dig2) (pkt_upd (λ k, set_times (eop_time k) k)) ;;
        give
      else if irq_status =? IRQ_TRX_END then
        status ← handle_rx_start;
        if bool_decide (status = PHY_SUCCESS) then give
        else give ;; call_handler status
      else rf2xx_get_status ;; give
  | PHY_STATE_TX =>
      if irq_status =? IRQ_TRX_END then
        idle ;;
        give ;;
        call_handler PHY_SUCCESS
      else rf2xx_get_status ;; give
  | _ => rf2xx_get_status ;; give
  end.

(** ** Interrupt routines *)

Definition dig2_capture_handler (timer_value : Z) : RM unit :=
  s ← mget;
  if negb (bool_decide (state s = PHY_STATE_RX)) then mfail EHalt
  else
    emit (FxTimerCompare 0 None) ;;
    match pkt s with
    | None => mret tt
    | Some _ =>
        ref ← soft_timer_time;
        pkt_upd (set_times (soft_timer_convert_time ref timer_value)) ;;
        mwhen (timestamp_handler s) (t ← next_stamp; pkt_upd (set_timestamp_alt t))
    end.

Definition rx_start_handler : RM unit := emit (FxEventPost Event.EVENT_QUEUE_NETWORK START_RX).

Definition rx_timeout_handler : RM unit :=
  emit (FxTimerCompare 0 None) ;;
  emit (FxEventPost Event.EVENT_QUEUE_NETWORK HANDLE_RX_TIMEOUT).

Definition set_eop (t : Z) (k : phy_packet) : phy_packet :=
  mk_phy (data k) (length_ k) (raw_data k) (rssi k) (lqi k) (timestamp k) t (t_rx_start k) (t_rx_end k)
    (timestamp_alt k) (eop_time_alt k).
Definition set_eop_alt (t : time_alt) (k : phy_packet) : phy_packet :=
  mk_phy (data k) (length_ k) (raw_data k) (rssi k) (lqi k) (timestamp k) (eop_time k) (t_rx_start k)
    (t_rx_end k) (timestamp_alt k) t.

Definition irq_handler : RM unit :=
  now ← soft_timer_time;
  pkt_upd (set_eop now) ;;
  s ← mget;
  mwhen (timestamp_handler s) (t ← next_stamp; pkt_upd (set_eop_alt t)) ;;
  emit (FxEventPost Event.EVENT_QUEUE_NETWORK HANDLE_IRQ).

Definition fifo_read_done_handler : RM unit :=
  emit (FxEventPost Event.EVENT_QUEUE_NETWORK HANDLE_RX_END).
End phy.

End PhyRf2xx.
