(* ===== verification/PhyRf2xxSpec.v ===== *)
(** * What the RF2xx physical layer guarantees

    The recorded calls are folded into the state of the devices they drive
    ([chip]); the theorems are about that state: an invariant of everything that
    can happen to the PHY (calls of the upper layer, interrupts, events), and what
    each operation achieves. *)

From stdpp Require Import base numbers gmap list.
From S2P Require Import Prelude Chain Event SoftTime Phy PhyPower PhyRf2xx.

Module PhyRf2xxSpec.
Import Phy PhyPower SoftTime PhyRf2xx.

(** ** The devices *)

Record chip := mk_chip {
  irq : bool;                      (* radio interrupt enabled *)
  low : Z;                         (* requests to stay out of low power *)
  asleep : bool;
  trx : Z;                         (* last state commanded *)
  timer : option (Z * timer_fn);   (* compare channel *)
  dma : option (Z * Z);            (* reception of the frame buffer: offset and size *)
  frame : Z * list Z;              (* frame written for transmission *)
  cca_reg : Z;
  pwr_reg : Z;
  posted : list event_fn;
  calls : list (nat * phy_status); (* handlers of the upper layer called *)
}.

Definition chip_step (c : chip) (e : effect) : chip :=
  let '(mk_chip i lw sl tx tm d f cc pw po ca) := c in
  match e with
  | FxIrqEnable => mk_chip true lw sl tx tm d f cc pw po ca
  | FxIrqDisable => mk_chip false lw sl tx tm d f cc pw po ca
  | FxPreventLowPower => mk_chip i (lw + 1) sl tx tm d f cc pw po ca
  | FxReleaseLowPower => mk_chip i (lw - 1) sl tx tm d f cc pw po ca
  | FxSleep => mk_chip i lw true tx tm d f cc pw po ca
  | FxWakeup | FxReset => mk_chip i lw false tx tm d f cc pw po ca
  | FxTimerCompare v h => mk_chip i lw sl tx (pair v <$> h) d f cc pw po ca
  | FxFifoReadAsync off n => mk_chip i lw sl tx tm (Some (off, n)) f cc pw po ca
  | FxFifoCancel => mk_chip i lw sl tx tm None f cc pw po ca
  | FxFifoWriteFirst v => mk_chip i lw sl tx tm d (v, f.2) cc pw po ca
  | FxFifoWriteAsync bs => mk_chip i lw sl tx tm d (f.1, bs) cc pw po ca
  | FxRegWrite r v =>
      if r =? REG__TRX_STATE then mk_chip i lw sl v tm d f cc pw po ca
      else if r =? REG__PHY_CC_CCA then mk_chip i lw sl tx tm d f v pw po ca
      else if r =? REG__PHY_TX_PWR then mk_chip i lw sl tx tm d f cc v po ca
      else c
  | FxEventPost _ ev => mk_chip i lw sl tx tm d f cc pw (po ++ [ev]) ca
  | FxHandler h st => mk_chip i lw sl tx tm d f cc pw po (ca ++ [(h, st)])
  | _ => c
  end.

Definition chip0 : chip := mk_chip false 0 true 0 None None (0, []) 0 0 [] [].
Definition chip_of (s : phy) : chip := foldl chip_step chip0 (fx s).

(** Calls that leave the devices as they are. *)
Definition neutral (l : list effect) : Prop := forall c, foldl chip_step c l = c.

Lemma neutral_nil : neutral []. Proof. done. Qed.
Lemma neutral_app l1 l2 : neutral l1 -> neutral l2 -> neutral (l1 ++ l2).
Proof. intros H1 H2 c. by rewrite foldl_app, H1, H2. Qed.
Lemma neutral_read r : neutral [FxRegRead r].
Proof. by intros []. Qed.

Section spec.
Context `{!RfEnv}.

(** [m] returns, reading the chip and the clock but changing nothing. *)
Definition quiet {A} (m : RM A) : Prop := forall s, exists a l r p,
  m s = Ok (a, set_counts r p (stamps s) (rands s) (set_fx (fx s ++ l) s)) /\ neutral l.

Lemma wp_quiet {A} (m : RM A) (Q : A -> phy -> Prop) s :
  quiet m ->
  (forall a l r p, neutral l -> Q a (set_counts r p (stamps s) (rands s) (set_fx (fx s ++ l) s))) ->
  wp m Q s.
Proof. intros Hm HQ. destruct (Hm s) as (a & l & r & p & E & Hl). eapply wp_run; [exact E|auto]. Qed.

Lemma wp_quiet_run {A} (m : RM A) (Q : A -> phy -> Prop) s :
  quiet m ->
  (forall a l r p, neutral l -> let s' := set_counts r p (stamps s) (rands s) (set_fx (fx s ++ l) s) in
     m s = Ok (a, s') -> Q a s') ->
  wp m Q s.
Proof. intros Hm HQ. destruct (Hm s) as (a & l & r & p & E & Hl). eapply wp_run; [exact E|auto]. Qed.

Lemma quiet_ret {A} (a : A) : quiet (mret a).
Proof.
  intros s. exists a, [], (reads s), (polls s). split; [|apply neutral_nil].
  rewrite app_nil_r. by destruct s.
Qed.

Lemma quiet_bind {A B} (m : RM A) (k : A -> RM B) : quiet m -> (forall a, quiet (k a)) -> quiet (m ≫= k).
Proof.
  intros Hm Hk s. destruct (Hm s) as (a & l & r & p & E & Hl).
  destruct (Hk a (set_counts r p (stamps s) (rands s) (set_fx (fx s ++ l) s))) as (b & l' & r' & p' & E' & Hl').
  exists b, (l ++ l'), r', p'. split; [|by apply neutral_app].
  rewrite (bind_ok _ _ _ _ _ E), E'. cbn. by rewrite app_assoc.
Qed.

Lemma quiet_emit e : neutral [e] -> quiet (emit e).
Proof.
  intros He s. exists tt, [e], (reads s), (polls s). split; [|done]. unfold emit, mmod. by destruct s.
Qed.

Lemma quiet_time : quiet soft_timer_time.
Proof.
  intros s. eexists _, [], _, _. split; [|apply neutral_nil]. rewrite app_nil_r. unfold soft_timer_time. by destruct s.
Qed.

Lemma quiet_value : quiet chip_value.
Proof.
  intros s. eexists _, [], _, _. split; [|apply neutral_nil]. rewrite app_nil_r. unfold chip_value. by destruct s.
Qed.

Lemma quiet_when b m : quiet m -> quiet (mwhen b m).
Proof. destruct b; [done|]. intros _. apply quiet_ret. Qed.

Lemma quiet_reg_read r : quiet (rf2xx_reg_read r).
Proof. apply quiet_bind; [apply quiet_emit, neutral_read|intros; apply quiet_value]. Qed.

Lemma quiet_get_status : quiet rf2xx_get_status.
Proof. apply quiet_bind; [apply quiet_reg_read|intros; apply quiet_ret]. Qed.

Lemma quiet_ctrl r v :
  (r =? REG__TRX_STATE) || (r =? REG__PHY_CC_CCA) || (r =? REG__PHY_TX_PWR) = false -> quiet (rf2xx_reg_write r v).
Proof.
  intros Hr. apply quiet_emit. intros []. cbn.
  destruct (r =? REG__TRX_STATE), (r =? REG__PHY_CC_CCA), (r =? REG__PHY_TX_PWR); done.
Qed.

Lemma quiet_pa_on : quiet pa_on.
Proof.
  apply quiet_when, quiet_bind; [apply quiet_emit; by intros []|intros _].
  apply quiet_bind; [apply quiet_reg_read|intros]. by apply quiet_ctrl.
Qed.

(** The clock moves on: within [patience] readings after any one of them it has
    advanced by the longest wait. *)
Definition clock_runs : Prop :=
  forall n, exists j, (j < patience)%nat /\ 0 <= clock (n + 1 + j)%nat - (clock n + RF_MAX_WAIT) < 2147483648.

Lemma expired t now :
  0 <= now - (t + RF_MAX_WAIT) < 2147483648 ->
  soft_timer_a_is_before_b (u32 now) (u32 (u32 t + RF_MAX_WAIT)) = false.
Proof.
  intros Hn. unfold soft_timer_a_is_before_b.
  assert (i32 (u32 (u32 t + RF_MAX_WAIT) - u32 now) <= 0); [|by destruct (Z.gtb_spec (i32 (u32 (u32 t + RF_MAX_WAIT) - u32 now)) 0); [lia|]].
  revert Hn. generalize RF_MAX_WAIT. intros; mlia.
Qed.

Lemma wait_quiet get stop fuel : forall t n j s,
  (forall s, exists a l p, get s = Ok (a, set_counts (reads s) p (stamps s) (rands s) (set_fx (fx s ++ l) s)) /\ neutral l) ->
  (j < fuel)%nat -> reads s = n ->
  0 <= clock (n + j)%nat - (t + RF_MAX_WAIT) < 2147483648 ->
  exists a l r p, wait_for fuel get stop (u32 (u32 t + RF_MAX_WAIT)) s =
    Ok (a, set_counts r p (stamps s) (rands s) (set_fx (fx s ++ l) s)) /\ neutral l.
Proof.
  induction fuel as [|fuel IH]; intros t n j s Hget Hj Hn Hc; [lia|]. cbn [wait_for].
  destruct (Hget s) as (a & l & p & E & Hl). rewrite (bind_ok _ _ _ _ _ E).
  unfold soft_timer_time at 1. erewrite bind_ok by reflexivity. cbn [reads set_counts set_fx].
  destruct (soft_timer_a_is_before_b _ _) eqn:Eb; cbn [negb].
  2:{ eexists _, l, _, _. split; [reflexivity|done]. }
  destruct (stop a). { eexists _, l, _, _. split; [reflexivity|done]. }
  destruct j as [|j]. { rewrite Nat.add_0_r, <- Hn in Hc. by rewrite (expired t) in Eb. }
  match goal with |- context [wait_for _ _ _ _ ?s1] =>
    destruct (IH t (S n) j s1) as (b & l' & r' & p' & E' & Hl'); [done|lia|cbn; lia| |] end.
  { replace (S n + j)%nat with (n + S j)%nat by lia. done. }
  rewrite E'. eexists _, (l ++ l'), r', p'. split; [|by apply neutral_app]. cbn. by rewrite app_assoc.
Qed.

Lemma poll_reads r s : exists a l p,
  rf2xx_reg_read r s = Ok (a, set_counts (reads s) p (stamps s) (rands s) (set_fx (fx s ++ l) s)) /\ neutral l.
Proof.
  eexists _, [FxRegRead r], _. split; [|apply neutral_read].
  unfold rf2xx_reg_read, emit. mrun. unfold chip_value. by destruct s.
Qed.

Lemma poll_status s : exists a l p,
  rf2xx_get_status s = Ok (a, set_counts (reads s) p (stamps s) (rands s) (set_fx (fx s ++ l) s)) /\ neutral l.
Proof.
  destruct (poll_reads REG__TRX_STATUS s) as (a & l & p & E & Hl). eexists _, l, p. split; [|done].
  unfold rf2xx_get_status. by rewrite (bind_ok _ _ _ _ _ E).
Qed.

Lemma quiet_wait get stop :
  clock_runs ->
  (forall s, exists a l p, get s = Ok (a, set_counts (reads s) p (stamps s) (rands s) (set_fx (fx s ++ l) s)) /\ neutral l) ->
  quiet (busy_wait get stop).
Proof.
  intros Hclk Hget s. destruct (Hclk (reads s)) as (j & Hj & Hc). unfold busy_wait.
  unfold soft_timer_time at 1. erewrite bind_ok by reflexivity.
  match goal with |- context [wait_for _ _ _ _ ?s1] =>
    destruct (wait_quiet get stop patience (clock (reads s)) (reads s + 1) j s1)
      as (a & l & r & p & E & Hl); [done|done|cbn; lia|done|] end.
  rewrite E. eexists _, l, r, p. split; [|done]. by destruct s.
Qed.

Lemma quiet_status stop : clock_runs -> quiet (busy_wait rf2xx_get_status stop).
Proof. intros. apply quiet_wait; [done|apply poll_status]. Qed.
Lemma quiet_reg_wait r stop : clock_runs -> quiet (busy_wait (rf2xx_reg_read r) stop).
Proof. intros. apply quiet_wait; [done|apply poll_reads]. Qed.
(** ** Executing operations *)

Lemma wp_emit e (Q : unit -> phy -> Prop) s : Q tt (set_fx (fx s ++ [e]) s) -> wp (emit e) Q s.
Proof. done. Qed.

Lemma wp_take (Q : unit -> phy -> Prop) s b :
  mutex_ s = Some b -> Q tt (set_mutex (Some true) s) -> wp take Q s.
Proof. unfold wp, take. by intros ->. Qed.

Lemma wp_give (Q : unit -> phy -> Prop) s :
  mutex_ s = Some true -> Q tt (set_mutex (Some false) s) -> wp give Q s.
Proof. unfold wp, give. by intros ->. Qed.

Lemma wp_time (Q : Z -> phy -> Prop) s :
  Q (u32 (clock (reads s))) (set_counts (S (reads s)) (polls s) (stamps s) (rands s) s) ->
  wp soft_timer_time Q s.
Proof. done. Qed.

Lemma wp_value (Q : Z -> phy -> Prop) s :
  Q (u8 (poll (polls s))) (set_counts (reads s) (S (polls s)) (stamps s) (rands s) s) -> wp chip_value Q s.
Proof. done. Qed.

Lemma wp_stamp (Q : time_alt -> phy -> Prop) s :
  Q (stamp_at (stamps s)) (set_counts (reads s) (polls s) (S (stamps s)) (rands s) s) -> wp next_stamp Q s.
Proof. done. Qed.

Lemma wp_reg_write r v (Q : unit -> phy -> Prop) s :
  Q tt (set_fx (fx s ++ [FxRegWrite r v]) s) -> wp (rf2xx_reg_write r v) Q s.
Proof. done. Qed.

Lemma wp_reg_read r (Q : Z -> phy -> Prop) s :
  Q (u8 (poll (polls s)))
    (set_counts (reads s) (S (polls s)) (stamps s) (rands s) (set_fx (fx s ++ [FxRegRead r]) s)) ->
  wp (rf2xx_reg_read r) Q s.
Proof. done. Qed.

Lemma wp_pkt_load (Q : phy_packet -> phy -> Prop) s l k :
  pkt s = Some l -> packets s !! l = Some k -> Q k s -> wp pkt_load Q s.
Proof. unfold wp, pkt_load. intros -> E. simpl. by rewrite E. Qed.

Lemma wp_pkt_upd f (Q : unit -> phy -> Prop) s l k :
  pkt s = Some l -> packets s !! l = Some k -> Q tt (set_packets (<[l := f k]> (packets s)) s) ->
  wp (pkt_upd f) Q s.
Proof. unfold wp, pkt_upd. by intros -> ->. Qed.
End spec.

Ltac phy_simpl :=
  cbn [mutex_ timer_is_slptr pkt state handler rx_timeout timestamp_handler packets fx reads polls stamps rands
       set_mutex set_pkt set_state set_handler set_rx_timeout set_timestamp_handler set_packets set_fx set_counts negb].

(** One step of the execution of the operation of the goal. *)
Ltac wp_step :=
  lazymatch goal with
  | |- wp (mbind _ _) _ _ => apply wp_bind
  | |- wp mget _ _ => apply wp_get
  | |- wp (mmod _) _ _ => apply wp_mod
  | |- wp (mret _) _ _ => apply wp_ret
  | |- wp (emit _) _ _ => apply wp_emit
  | |- wp (rf2xx_reg_write _ _) _ _ => apply wp_reg_write
  | |- wp (rf2xx_set_state _) _ _ => apply wp_reg_write
  | |- wp soft_timer_time _ _ => apply wp_time
  | |- wp next_stamp _ _ => apply wp_stamp
  | |- wp take _ _ => eapply wp_take; [eassumption || reflexivity|]
  | |- wp give _ _ => apply wp_give; [eassumption || reflexivity|]
  end; phy_simpl.
Ltac wps := phy_simpl; repeat wp_step.

(** The devices after a list of calls. *)
Ltac chip_run :=
  unfold chip_of; phy_simpl; rewrite ?foldl_app;
  repeat match goal with H : neutral ?l |- context [foldl chip_step ?c ?l] => rewrite (H c) end.

(** ** The invariant *)

Definition busy (st : phy_state) : bool :=
  match st with
  | PHY_STATE_RX_WAIT | PHY_STATE_RX | PHY_STATE_TX_WAIT | PHY_STATE_TX => true
  | _ => false
  end.

Definition packet_ok (k : phy_packet) : Prop :=
  length (raw_data k) = 128%nat /\ 0 <= data k.

(** The part of the invariant that holds while the mutex is taken too. *)
Definition phy_core (s : phy) : Prop :=
  let c := chip_of s in
  (* low power is held off exactly while the radio is in use *)
  low c = (if busy (state s) then 1 else 0) /\
  (* and exactly then there is a packet *)
  (if busy (state s) then exists l, pkt s = Some l /\ is_Some (packets s !! l) else pkt s = None) /\
  (* the radio interrupts only then *)
  (irq c = true -> busy (state s) = true) /\
  (* the chip is awake unless the state is sleep *)
  (state s <> PHY_STATE_SLEEP -> asleep c = false) /\
  (* a transfer from the chip fits in the packet being received *)
  (forall off n, dma c = Some (off, n) -> state s = PHY_STATE_RX /\ 0 <= off /\ 0 <= n /\ off + n <= 128) /\
  map_Forall (λ _, packet_ok) (packets s).

Definition phy_inv (s : phy) : Prop := mutex_ s = Some false /\ phy_core s.

Section invariant.
Context `{!RfEnv}.
Implicit Types s : phy.

(** What [idle] does to the devices, from state [st]. *)
Definition idle_chip (st : phy_state) (c : chip) : chip :=
  mk_chip false (low c - (if busy st then 1 else 0)) (if decide (st = PHY_STATE_SLEEP) then false else asleep c)
    TRX_STATE__FORCE_TRX_OFF None None (frame c) (cca_reg c) (pwr_reg c) (posted c) (calls c).

Lemma wp_idle (Q : unit -> phy -> Prop) s :
  (forall l r p, (forall c, foldl chip_step c l = idle_chip (state s) c) ->
     Q tt (set_state PHY_STATE_IDLE (set_pkt None
            (set_counts r p (stamps s) (rands s) (set_fx (fx s ++ l) s))))) ->
  wp idle Q s.
Proof.
  intros HQ. unfold idle, rf2xx_set_state. wps.
  set (pre := match state s with PHY_STATE_SLEEP => [FxWakeup] | PHY_STATE_IDLE | PHY_STATE_JAMMING => []
              | _ => [FxReleaseLowPower] end).
  apply (wp_mono _ (λ _ s', s' = set_fx (((fx s ++ [FxIrqDisable]) ++ [FxTimerCompare 0 None]) ++ pre) s)).
  { unfold pre. destruct (state s); wps; rewrite ?app_nil_r; done. }
  intros _ s' ->. wps. apply wp_quiet.
  { apply quiet_when, quiet_bind; [apply quiet_emit; by intros []|intros _].
    apply quiet_bind; [apply quiet_reg_read|intros]. by apply quiet_ctrl. }
  intros _ l r p Hl. wps.
  rewrite <- !app_assoc. apply (HQ _ r p). intros [i lw sl tx tm d f cc pw po ca].
  rewrite !foldl_app. rewrite (Hl _). unfold pre, idle_chip. destruct (state s); cbn; f_equal; lia.
Qed.
(** Enough for [idle] and [sleep] to establish the invariant. *)
Definition idle_pre s : Prop :=
  low (chip_of s) = (if busy (state s) then 1 else 0) /\
  (state s <> PHY_STATE_SLEEP -> asleep (chip_of s) = false) /\
  map_Forall (λ _, packet_ok) (packets s).

Lemma core_idle_pre s : phy_core s -> idle_pre s.
Proof. intros (? & ? & ? & ? & ? & ?). by split_and!. Qed.

(** The fields and devices [idle] and [sleep] leave alone. *)
Definition kept s s' : Prop :=
  mutex_ s' = mutex_ s /\ packets s' = packets s /\ timestamp_handler s' = timestamp_handler s /\
  calls (chip_of s') = calls (chip_of s) /\ posted (chip_of s') = posted (chip_of s) /\
  timer (chip_of s') = None.

Lemma idle_core (Q : unit -> phy -> Prop) s :
  idle_pre s ->
  (forall s', phy_core s' -> state s' = PHY_STATE_IDLE -> handler s' = handler s -> kept s s' ->
     asleep (chip_of s') = false -> Q tt s') -> wp idle Q s.
Proof.
  intros (Hl & Hw & Hp) HQ. apply wp_idle. intros l r p Hc. apply HQ; [|done|done| |].
  - unfold phy_core. chip_run. rewrite Hc. fold (chip_of s). unfold idle_chip. cbn. split_and!; try done.
    + destruct (busy (state s)); lia.
    + intros _. case_decide; [done|auto].
  - unfold kept. chip_run. rewrite Hc. by split_and!.
  - chip_run. rewrite Hc. fold (chip_of s). unfold idle_chip. cbn. case_decide; [done|auto].
Qed.

Lemma sleep_core (Q : unit -> phy -> Prop) s :
  idle_pre s ->
  (forall s', phy_core s' -> state s' = PHY_STATE_SLEEP -> handler s' = None -> kept s s' ->
     asleep (chip_of s') = true -> Q tt s') -> wp sleep Q s.
Proof.
  intros Hpre HQ. unfold sleep. wps. apply idle_core; [done|].
  intros s' (C1 & C2 & C3 & C4 & C5 & C6) Hst Hh (K1 & K2 & K3 & K4 & K5 & K6) Has. rewrite Hst in *.
  wps. apply HQ; [|done|done| |].
  all: unfold phy_core, kept, chip_of in *; phy_simpl; rewrite ?foldl_app;
    destruct (foldl chip_step chip0 (fx s')) as [i lw sl tx tm d f cc pw po ca]; cbn in *; try done.
  - split_and!; try done. intros off n E. by destruct (C5 off n E).
Qed.

Lemma reset_core (Q : unit -> phy -> Prop) s :
  idle_pre s ->
  (forall s', phy_core s' -> state s' = PHY_STATE_SLEEP -> mutex_ s' = mutex_ s -> packets s' = packets s -> Q tt s') ->
  wp reset Q s.
Proof.
  intros (Hl & Hw & Hp) HQ. unfold reset. wps.
  apply wp_quiet.
  { apply quiet_when, quiet_bind; [apply quiet_emit; by intros []|intros _; apply quiet_emit; by intros []]. }
  intros _ l1 r1 p1 H1. wps.
  apply wp_quiet.
  { apply quiet_when, quiet_bind; [apply quiet_reg_read|intros; by apply quiet_ctrl]. }
  intros _ l2 r2 p2 H2. wps.
  match goal with |- wp (if _ then _ else _) _ ?s1 =>
    apply (wp_mono _ (λ _ s', exists l, s' = set_fx (fx s1 ++ l) s1 /\ forall c, exists pw,
      foldl chip_step c l = mk_chip (irq c) (low c) (asleep c) (trx c) (timer c) (dma c) (frame c) (cca_reg c) pw (posted c) (calls c))) end.
  { destruct rf2xx_2_4GHz; wps; rewrite <- app_assoc; eexists; (split; [reflexivity|]); intros []; eexists; reflexivity. }
  intros _ s' (l3 & -> & H3). wps.
  apply sleep_core.
  - unfold idle_pre. chip_run. fold (chip_of s).
    match goal with |- context [foldl chip_step ?c l3] => destruct (H3 c) as [pw E3]; rewrite E3 end.
    destruct (chip_of s); cbn in *. by split_and!.
  - intros s' Hc Hst _ (K1 & K2 & _) _. by apply HQ.
Qed.

(** The state check: the chip is awake afterwards, the rest as before. *)
Lemma wp_wake (Q : bool -> phy -> Prop) s :
  phy_core s -> mutex_ s = Some true ->
  (busy (state s) || bool_decide (state s = PHY_STATE_JAMMING) = true -> Q false (set_mutex (Some false) s)) ->
  (forall l, state s = PHY_STATE_SLEEP \/ state s = PHY_STATE_IDLE ->
     (forall c, foldl chip_step c l = mk_chip (irq c) (low c)
        (if decide (state s = PHY_STATE_SLEEP) then false else asleep c) (trx c) (timer c) (dma c) (frame c)
        (cca_reg c) (pwr_reg c) (posted c) (calls c)) ->
     Q true (set_fx (fx s ++ l) s)) ->
  wp wake_or_refuse Q s.
Proof.
  intros Hc Hm HF HT. unfold wake_or_refuse. wps.
  destruct (state s) eqn:Est; wps; try (by apply HF).
  - apply HT; [by left|]. by intros [].
  - replace s with (set_fx (fx s ++ []) s) by (rewrite app_nil_r; by destruct s).
    apply HT; [by right|]. by intros [].
Qed.
(** Changes of the invariant's parts that keep it. *)
Lemma core_mutex m s : phy_core s <-> phy_core (set_mutex m s).
Proof. by destruct s. Qed.

Lemma core_ext s s' :
  state s' = state s -> pkt s' = pkt s -> packets s' = packets s ->
  low (chip_of s') = low (chip_of s) -> irq (chip_of s') = irq (chip_of s) ->
  (state s <> PHY_STATE_SLEEP -> asleep (chip_of s') = asleep (chip_of s)) -> dma (chip_of s') = dma (chip_of s) ->
  phy_core s -> phy_core s'.
Proof.
  unfold phy_core. intros -> -> -> -> -> Ha -> (C1 & C2 & C3 & C4 & C5 & C6). split_and!; try done.
  intros Hs. rewrite Ha by done. auto.
Qed.

Lemma phy_reset_inv s : phy_inv s -> wp phy_reset (λ _, phy_inv) s.
Proof.
  intros [Hm Hc]. unfold phy_reset. wps. apply reset_core.
  - by apply core_idle_pre, core_mutex.
  - intros s' Hc' _ Hm' _. wps. split; [done|]. by apply core_mutex.
Qed.

Lemma phy_sleep_inv s : phy_inv s -> wp phy_sleep (λ _, phy_inv) s.
Proof.
  intros [Hm Hc]. unfold phy_sleep. wps. apply sleep_core.
  - by apply core_idle_pre, core_mutex.
  - intros s' Hc' _ _ (Hm' & _) _. wps. split; [done|]. by apply core_mutex.
Qed.

Lemma phy_idle_inv s : phy_inv s -> wp phy_idle (λ _, phy_inv) s.
Proof.
  intros [Hm Hc]. unfold phy_idle. wps. apply idle_core.
  - by apply core_idle_pre, core_mutex.
  - intros s' Hc' _ _ (Hm' & _) _. wps. split; [done|]. by apply core_mutex.
Qed.

(** Operations that only use the chip between a wake-up and [back_to_sleep]. *)
Lemma wp_back_to_sleep (Q : unit -> phy -> Prop) s :
  (forall l, (forall c, foldl chip_step c l = mk_chip (irq c) (low c)
        (if decide (state s = PHY_STATE_SLEEP) then true else asleep c) (trx c) (timer c) (dma c) (frame c)
        (cca_reg c) (pwr_reg c) (posted c) (calls c)) ->
     Q tt (set_fx (fx s ++ l) s)) ->
  wp back_to_sleep Q s.
Proof.
  intros HQ. unfold back_to_sleep. wps. apply wp_when; intros E.
  - apply bool_decide_eq_true in E. wps. apply HQ. intros []. by rewrite decide_True.
  - apply bool_decide_eq_false in E. replace s with (set_fx (fx s ++ []) s) by (rewrite app_nil_r; by destruct s).
    apply HQ. intros []. by rewrite decide_False.
Qed.

Lemma phy_set_channel_inv ch s : phy_inv s -> wp (phy_set_channel ch) (λ _, phy_inv) s.
Proof.
  intros [Hm Hc]. unfold phy_set_channel. wps. apply wp_wake; [by apply core_mutex|done| |]; phy_simpl.
  - intros _. wps. split; [done|]. by do 2 apply core_mutex.
  - intros l1 _ H1. wps. apply wp_back_to_sleep. phy_simpl. intros l2 H2. wps. split; [done|].
    apply (core_ext s); try done; chip_run; rewrite H2, H1; fold (chip_of s); destruct (chip_of s); try done.
    cbn. intros ?. by rewrite !decide_False.
Qed.
Lemma phy_set_power_inv pw s : phy_inv s -> wp (phy_set_power pw) (λ _, phy_inv) s.
Proof.
  intros [Hm Hc]. unfold phy_set_power. wps. apply wp_wake; [by apply core_mutex|done| |]; phy_simpl.
  - intros _. wps. split; [done|]. by do 2 apply core_mutex.
  - intros l1 _ H1. wps. destruct rf2xx_2_4GHz; wps; apply wp_back_to_sleep; phy_simpl; intros l2 H2; wps;
      (split; [done|]);
      (apply (core_ext s); try done; chip_run; rewrite H2, H1; fold (chip_of s); destruct (chip_of s); try done;
       cbn; intros ?; by rewrite !decide_False).
Qed.

(** Calls of the measures: they leave the devices the invariant speaks of. *)
Definition calm (l : list effect) : Prop := forall c, exists cc,
  foldl chip_step c l = mk_chip (irq c) (low c) (asleep c) (trx c) (timer c) (dma c) (frame c) cc (pwr_reg c) (posted c) (calls c).

Lemma calm_neutral l : neutral l -> calm l.
Proof. intros Hl c. exists (cca_reg c). rewrite Hl. by destruct c. Qed.
Lemma calm_app l1 l2 : calm l1 -> calm l2 -> calm (l1 ++ l2).
Proof.
  intros H1 H2 c. rewrite foldl_app. destruct (H1 c) as (cc & ->).
  match goal with |- context [foldl chip_step ?c1 l2] => destruct (H2 c1) as (cc' & ->) end. by eexists.
Qed.

(** A wait that succeeds ends with the value that stops it, the last one read. *)
Lemma wait_for_last r stop fuel : forall t s v s',
  wait_for fuel (rf2xx_reg_read r) stop t s = Ok (Some v, s') ->
  stop v = true /\ exists n, polls s' = S n /\ v = u8 (poll n).
Proof.
  induction fuel as [|fuel IH]; intros t s v s' E; [done|]. cbn [wait_for] in E.
  erewrite (bind_ok (rf2xx_reg_read r)), (bind_ok soft_timer_time) in E by reflexivity.
  destruct (negb _); [done|]. destruct (stop _) eqn:Es; [|by apply IH in E]. injection E as <- <-. split; [done|]. by eexists.
Qed.

Lemma busy_wait_last r stop s v s' :
  busy_wait (rf2xx_reg_read r) stop s = Ok (Some v, s') ->
  stop v = true /\ exists n, polls s' = S n /\ v = u8 (poll n).
Proof. intros E. unfold busy_wait in E. erewrite (bind_ok soft_timer_time) in E by reflexivity. by eapply wait_for_last. Qed.

(** The value of a measure, from the last value read from the chip: the energy in
    dBm, or whether the channel is clear, the chip having signalled the end of the
    assessment. *)
Definition measured (ed : bool) (reg v : Z) : Prop :=
  if ed then v = -91 + reg
  else Z.land reg TRX_STATUS_CCA_DONE <> 0 /\ v = (if Z.land reg TRX_STATUS_CCA_STATUS =? 0 then 0 else 1).

Lemma wp_measure (ed : bool) (Q : option Z -> phy -> Prop) s :
  clock_runs ->
  (forall v l r p, calm l -> (forall w, v = Some w -> exists n, p = S n /\ measured ed (u8 (poll n)) w) ->
     Q v (set_counts r p (stamps s) (rands s) (set_fx (fx s ++ l) s))) ->
  wp (if ed then measure_ed else measure_cca) Q s.
Proof.
  intros Hclk HQ. destruct ed; [unfold measure_ed|unfold measure_cca].
  - wps. apply wp_quiet; [by apply quiet_reg_wait|]. intros res l1 r1 p1 H1. phy_simpl.
    set (es := [FxRegWrite REG__IRQ_MASK IRQ_CCA_ED_DONE] ++ [FxRegWrite REG__PHY_ED_LEVEL 0xAA] ++ l1).
    assert (neutral es) as Hes by (intros []; unfold es; rewrite !foldl_app; cbn; by rewrite H1).
    destruct res; wps; [apply wp_reg_read; wps|]; rewrite <- !app_assoc.
    + refine (HQ _ (es ++ [FxRegRead REG__PHY_ED_LEVEL]) r1 (S p1) _ _).
      * apply calm_neutral, neutral_app; [done|apply neutral_read].
      * intros w [= <-]. by exists p1.
    + by refine (HQ _ es r1 p1 (calm_neutral _ Hes) _).
  - wps. apply wp_quiet; [apply quiet_reg_read|]. intros reg l1 r1 p1 H1. wps.
    apply wp_quiet_run; [by apply quiet_reg_wait|]. intros res l2 r2 p2 H2 s' E. subst s'. phy_simpl.
    assert (calm (l1 ++ [FxRegWrite REG__PHY_CC_CCA (Z.lor reg CCA_REQUEST)] ++ l2)) as Hcalm.
    { apply calm_app; [by apply calm_neutral|]. apply calm_app; [|by apply calm_neutral].
      intros []. by eexists. }
    destruct res as [v|]; wps; rewrite <- !app_assoc; refine (HQ _ _ r2 p2 Hcalm _); [|done].
    intros w [= <-]. apply busy_wait_last in E. destruct E as (Hdone & n & Hp & ->). exists n. split; [exact Hp|].
    unfold measured, ctrue, cbool in *. split; [by destruct (Z.eqb_spec (Z.land (u8 (poll n)) TRX_STATUS_CCA_DONE) 0)|].
    by destruct (Z.land (u8 (poll n)) TRX_STATUS_CCA_STATUS =? 0).
Qed.

Lemma phy_measure_inv ed s : clock_runs -> phy_inv s -> wp (phy_ed_cca_measure ed) (λ _, phy_inv) s.
Proof.
  intros Hclk [Hm Hc]. unfold phy_ed_cca_measure. wps. apply wp_wake; [by apply core_mutex|done| |]; phy_simpl.
  { intros _. wps. split; [done|]. by do 2 apply core_mutex. }
  intros l1 Hst H1. wps. apply wp_quiet; [by apply quiet_status|]. intros res l2 r2 p2 H2. phy_simpl.
  pose proof Hc as (C1 & C2 & C3 & C4 & C5 & C6).
  assert (irq (chip_of s) = false) as Hirq.
  { destruct (irq (chip_of s)); [|done]. specialize (C3 eq_refl). by destruct Hst as [E|E]; rewrite E in C3. }
  destruct res as [v|]; wps.
  2:{ split; [done|]. apply (core_ext s); try done; chip_run; rewrite H1; fold (chip_of s);
      destruct (chip_of s); cbn in *; try done. intros ?. by rewrite decide_False. }
  apply wp_measure; [done|]. phy_simpl. intros [w|] l3 r3 p3 H3 _; wps.
  2:{ split; [done|]. unfold calm in H3. apply (core_ext s); try done; chip_run; rewrite H1; fold (chip_of s);
      match goal with |- context [foldl chip_step ?c l3] => destruct (H3 c) as (cc & ->) end;
      destruct (chip_of s); cbn in *; try done. intros ?. by rewrite decide_False. }
  apply wp_back_to_sleep. phy_simpl. intros l4 H4. wps. split; [done|].
  apply (core_ext s); try done; chip_run; rewrite H4, H1; fold (chip_of s);
    match goal with |- context [foldl chip_step ?c l3] => destruct (H3 c) as (cc & ->) end;
    destruct (chip_of s); cbn in *; try done. intros ?. by rewrite !decide_False.
Qed.

(** [start_rx], which [phy_rx] also calls. *)
Lemma start_rx_inv s : clock_runs -> phy_inv s -> wp start_rx (λ _, phy_inv) s.
Proof.
  intros Hclk [Hm Hc]. unfold start_rx. wps. case_bool_decide as Hst; cbn [negb].
  2:{ wps. split; [done|]. by do 2 apply core_mutex. }
  pose proof Hc as (C1 & C2 & C3 & C4 & C5 & C6). rewrite Hst in *. cbn in C2.
  destruct C2 as (l & Hl & Hk). rewrite Hl. wps.
  apply wp_quiet; [apply quiet_reg_read|]. intros _ l1 r1 p1 H1. wps.
  apply wp_quiet; [apply quiet_pa_on|]. intros _ l2 r2 p2 H2. wps.
  apply wp_quiet. { apply quiet_when, quiet_emit. by intros []. } intros _ l3 r3 p3 H3. wps.
  apply wp_quiet; [by apply quiet_status|]. intros _ l4 r4 p4 H4. wps.
  destruct (ctrue (rx_timeout s)); wps; (split; [done|]); unfold phy_core; phy_simpl; chip_run; fold (chip_of s).
  all: destruct (chip_of s) as [i lw sl tx tm d f cc pw po ca]; cbn in *; split_and!; try done; eauto.
  all: intros off n E; destruct (C5 off n E); congruence.
Qed.
Lemma packets_upd (m : gmap loc phy_packet) l k k' :
  map_Forall (λ _, packet_ok) m -> m !! l = Some k -> raw_data k' = raw_data k -> data k' = data k ->
  map_Forall (λ _, packet_ok) (<[l := k']> m).
Proof.
  intros Hm Hk Er Ed. apply map_Forall_insert_2; [|done]. unfold packet_ok. rewrite Er, Ed. exact (Hm l k Hk).
Qed.

(** On the way out of an error: back to sleep or idle. *)
Lemma wp_back_to_previous (Q : unit -> phy -> Prop) s :
  idle_pre s ->
  (forall s', phy_core s' -> mutex_ s' = mutex_ s -> packets s' = packets s ->
     state s' = (if decide (state s = PHY_STATE_SLEEP) then PHY_STATE_SLEEP else PHY_STATE_IDLE) ->
     calls (chip_of s') = calls (chip_of s) -> timer (chip_of s') = None -> Q tt s') ->
  wp back_to_previous Q s.
Proof.
  intros Hpre HQ. unfold back_to_previous. wps. case_decide.
  - apply sleep_core; [done|]. intros s' ? ? ? (? & ? & ? & ? & ? & ?) ?. by apply HQ.
  - apply idle_core; [done|]. intros s' ? ? ? (? & ? & ? & ? & ? & ?) ?. by apply HQ.
Qed.

Lemma core_no_dma s : phy_core s -> state s <> PHY_STATE_RX -> dma (chip_of s) = None.
Proof.
  intros (_ & _ & _ & _ & C5 & _) Hs. destruct (dma (chip_of s)) as [[off n]|]; [|done]. by destruct (C5 off n eq_refl).
Qed.

(** The invariant once an operation is under way on packet [l]. *)
Lemma core_in_use s l :
  busy (state s) = true -> pkt s = Some l -> is_Some (packets s !! l) ->
  map_Forall (λ _, packet_ok) (packets s) ->
  low (chip_of s) = 1 -> asleep (chip_of s) = false -> dma (chip_of s) = None -> phy_core s.
Proof. intros Hb Hp Hk Hpk Hl Ha Hd. unfold phy_core. rewrite Hb, Hl, Ha, Hd. split_and!; try done. eauto. Qed.

Lemma phy_rx_inv rx_time timeout_time l h s :
  clock_runs -> phy_inv s -> is_Some (packets s !! l) ->
  wp (phy_rx rx_time timeout_time (Some l) h) (λ _, phy_inv) s.
Proof.
  intros Hclk [Hm Hc] [k Hk]. unfold phy_rx. wps. apply wp_wake; [by apply core_mutex|done| |]; phy_simpl.
  { intros _. wps. split; [done|]. by do 2 apply core_mutex. }
  intros l1 Hst H1. wps. pose proof Hc as (C1 & C2 & C3 & C4 & C5 & C6).
  assert (busy (state s) = false) as Hb by (by destruct Hst as [->| ->]). rewrite Hb in *.
  eapply wp_pkt_upd; [reflexivity|exact Hk|]. wps.
  assert (map_Forall (λ _, packet_ok) (<[l := clear_times k]> (packets s))) as Hpk by (by eapply packets_upd).
  destruct (rx_too_late _ _ _).
  - wps. apply wp_back_to_previous.
    + unfold idle_pre. phy_simpl. chip_run. rewrite H1. fold (chip_of s). rewrite Hb. cbn. split_and!; [done| |done].
      intros ?. rewrite decide_False by done. auto.
    + intros s' Hc' Hm' _ _ _ _. wps. split; [done|]. by apply core_mutex.
  - pose proof (core_no_dma s Hc ltac:(by destruct Hst as [->| ->])) as Hd.
    assert (asleep (foldl chip_step (chip_of s) l1) = false) as Has.
    { rewrite H1. cbn. case_decide; [done|]. by apply C4. }
    wps. destruct (ctrue rx_time); wps.
    + split; [done|]. eapply (core_in_use _ l); phy_simpl; try done; [by rewrite lookup_insert_eq; eauto|..];
        chip_run; fold (chip_of s); rewrite H1 in *; destruct (chip_of s); cbn in *; by subst.
    + apply (wp_mono _ (λ _, phy_inv)); [|intros [] s' Hs'; by wps]. apply start_rx_inv; [done|]. split; [done|].
      eapply (core_in_use _ l); phy_simpl; try done; [by rewrite lookup_insert_eq; eauto|..];
        chip_run; fold (chip_of s); rewrite H1 in *; destruct (chip_of s); cbn in *; by subst.
Qed.
(** [tx_start_handler] starts the transmission it was set up for. *)
Lemma wp_tx_start v (Q : unit -> phy -> Prop) s l k :
  pkt s = Some l -> packets s !! l = Some k ->
  (state s <> PHY_STATE_TX_WAIT -> Q tt s) ->
  (state s = PHY_STATE_TX_WAIT -> forall t es r,
     (forall c, foldl chip_step c es = mk_chip (irq c) (low c) (asleep c) (trx c) None (dma c) (frame c) (cca_reg c)
        (pwr_reg c) (posted c) (calls c)) ->
     Q tt (set_state PHY_STATE_TX (set_packets (<[l := set_times t k]> (packets s))
            (set_counts r (polls s) (stamps s) (rands s) (set_fx (fx s ++ es) s))))) ->
  wp (tx_start_handler v) Q s.
Proof.
  intros Hp Hk HN HT. unfold tx_start_handler. wps. apply wp_when; intros E.
  2:{ apply HN. by apply bool_decide_eq_false in E. }
  apply bool_decide_eq_true in E. specialize (HT E). wps.
  destruct (ctrue (timer_is_slptr s)); wps; (eapply wp_pkt_upd; [exact Hp|exact Hk|]); wps; rewrite <- !app_assoc.
  - refine (HT _ ([FxSlpTrSet] ++ [FxTimerOutput TIMER_OUTPUT_MODE_FORCE_INACTIVE] ++ [FxTimerCompare 0 None] ++
                  [FxSlpTrClear]) (S (reads s)) _); by intros [].
  - refine (HT _ ([FxSlpTrSet] ++ [FxTimerCompare 0 None] ++ [FxSlpTrClear]) (S (reads s)) _); by intros [].
Qed.

Lemma tx_schedule_inv t (Q : bool -> phy -> Prop) s :
  (forall b es r, (forall c, exists tm, foldl chip_step c es = mk_chip (irq c) (low c) (asleep c) (trx c) tm (dma c)
        (frame c) (cca_reg c) (pwr_reg c) (posted c) (calls c)) ->
     Q b (set_counts r (polls s) (stamps s) (rands s) (set_fx (fx s ++ es) s))) ->
  wp (tx_schedule t) Q s.
Proof.
  intros HQ. unfold tx_schedule. wps. destruct (_ >? 1); wps.
  - set (e := FxTimerCompare _ _). apply wp_when; intros _; wps; rewrite <- ?app_assoc.
    + refine (HQ true ([e] ++ [FxTimerOutput TIMER_OUTPUT_MODE_SET_ACTIVE] ++ [FxSlpTrConfigTimer]) (S (reads s)) _);
        intros []; by eexists.
    + refine (HQ true [e] (S (reads s)) _); intros []; by eexists.
  - assert (forall c, exists tm, foldl chip_step c [] = mk_chip (irq c) (low c) (asleep c) (trx c) tm (dma c)
      (frame c) (cca_reg c) (pwr_reg c) (posted c) (calls c)) as Hnil by (intros []; by eexists).
    pose proof (HQ false [] (S (reads s)) Hnil) as HF. rewrite app_nil_r in HF. by destruct s.
Qed.
Definition sendable (k : phy_packet) : Prop := 0 <= length_ k /\ data k + length_ k <= 128.

Lemma sendable_bytes k : packet_ok k -> sendable k -> exists bs, arr_slice (raw_data k) (data k) (length_ k) = Ok bs.
Proof.
  intros [Hr Hd] [Hl He]. unfold arr_slice. rewrite decide_True; [eauto|]. rewrite Hr. lia.
Qed.

Lemma phy_tx_inv tx_time l k h s :
  clock_runs -> phy_inv s -> packets s !! l = Some k -> sendable k ->
  wp (phy_tx tx_time (Some l) h) (λ _, phy_inv) s.
Proof.
  intros Hclk [Hm Hc] Hk Hsend. unfold phy_tx. wps. eapply wp_lift; [by rewrite Hk|].
  destruct (_ >? _); wps. { split; [done|]. by do 2 apply core_mutex. }
  apply wp_wake; [by apply core_mutex|done| |]; phy_simpl.
  { intros _. wps. split; [done|]. by do 2 apply core_mutex. }
  intros l1 Hst H1. wps. pose proof Hc as (C1 & C2 & C3 & C4 & C5 & C6).
  pose proof (core_no_dma s Hc ltac:(by destruct Hst as [->| ->])) as Hd.
  assert (busy (state s) = false) as Hb by (by destruct Hst as [->| ->]). rewrite Hb in *.
  assert (asleep (foldl chip_step (chip_of s) l1) = false) as Has.
  { rewrite H1. cbn. case_decide; [done|]. by apply C4. }
  apply wp_quiet; [apply quiet_reg_read|]. intros _ l2 r2 p2 H2. wps.
  apply wp_quiet; [apply quiet_pa_on|]. intros _ l3 r3 p3 H3. wps.
  match goal with |- wp _ _ ?s1 =>
    apply (wp_mono _ (λ _ s', exists r es, s' = set_counts r (polls s1) (stamps s1) (rands s1) (set_fx (fx s1 ++ es) s1) /\
      forall c, exists tm, foldl chip_step c es = mk_chip (irq c) (low c) (asleep c) (trx c) tm (dma c)
        (frame c) (cca_reg c) (pwr_reg c) (posted c) (calls c))) end.
  { destruct (ctrue tx_time).
    - apply tx_schedule_inv. intros b es r Hes. by exists r, es.
    - wps. eexists _, []. split; [by rewrite app_nil_r|]. intros []; by eexists. }
  intros sch s' (r4 & l4 & -> & H4). phy_simpl.
  destruct sch; cbn [negb]; wps.
  2:{ apply wp_back_to_previous.
      - unfold idle_pre. phy_simpl. chip_run. fold (chip_of s). rewrite Hb, H1 in *.
        match goal with |- context [foldl chip_step ?c l4] => destruct (H4 c) as [tm ->] end.
        destruct (chip_of s); cbn in *. by split_and!.
      - intros s' Hc' Hm' _ _ _ _. wps. split; [done|]. by apply core_mutex. }
  apply wp_quiet; [by apply quiet_status|]. intros res l5 r5 p5 H5. phy_simpl.
  destruct res; wps.
  2:{ apply wp_back_to_previous.
      - unfold idle_pre. phy_simpl. chip_run. fold (chip_of s). rewrite Hb, H1 in *.
        match goal with |- context [foldl chip_step ?c l4] => destruct (H4 c) as [tm ->] end.
        destruct (chip_of s); cbn in *. by split_and!.
      - intros s' Hc' Hm' _ _ _ _. wps. split; [done|]. by apply core_mutex. }
  eapply wp_pkt_load; [reflexivity|exact Hk|]. wps.
  destruct (sendable_bytes k (C6 l k Hk) Hsend) as [bs Hbs].
  eapply wp_lift; [exact Hbs|]. wps.
  apply wp_when; intros _; wps.
  - eapply wp_tx_start; [reflexivity|exact Hk|phy_simpl; done|].
    intros _ t es r Hes. wps. split; [done|].
    eapply (core_in_use _ l); phy_simpl; try done; [by rewrite lookup_insert_eq; eauto|by eapply packets_upd|..];
      chip_run; rewrite Hes; fold (chip_of s); rewrite H1 in *;
      match goal with |- context [foldl chip_step ?c l4] => destruct (H4 c) as [tm ->] end;
      destruct (chip_of s); cbn in *; by subst.
  - split; [done|].
    eapply (core_in_use _ l); phy_simpl; try done; eauto;
      chip_run; fold (chip_of s); rewrite H1 in *;
      match goal with |- context [foldl chip_step ?c l4] => destruct (H4 c) as [tm ->] end;
      destruct (chip_of s); cbn in *; by subst.
Qed.
(** The chip reports an interrupt sooner or later. *)
Definition chip_answers : Prop := forall n, exists j, (j < patience)%nat /\ u8 (poll (n + j)%nat) <> 0.

Lemma quiet_wait_pll : chip_answers -> quiet (wait_pll patience).
Proof.
  intros Hans s. destruct (Hans (polls s)) as (j & Hj & Hp). revert s j Hj Hp.
  induction patience as [|fuel IH]; intros s j Hj Hp; [lia|]. cbn [wait_pll].
  unfold rf2xx_reg_read, emit. mrun. unfold chip_value at 1. erewrite bind_ok by reflexivity. cbn [polls set_fx].
  destruct (Z.eqb_spec (u8 (poll (polls s))) 0) as [E|E]; cbn [cbool]; [change (ctrue _) with true|change (ctrue _) with false]; cbn iota.
  - destruct j as [|j]; [by rewrite Nat.add_0_r in Hp|].
    match goal with |- context [wait_pll fuel ?s1] =>
      destruct (IH s1 j) as (a & l & r & p & E' & Hl); [lia| |] end.
    { cbn [polls set_counts]. by replace (S (polls s) + j)%nat with (polls s + S j)%nat by lia. }
    rewrite E'. eexists _, ([FxRegRead REG__IRQ_STATUS] ++ l), r, p. split; [cbn; by rewrite <- app_assoc|].
    apply neutral_app; [apply neutral_read|done].
  - eexists _, [FxRegRead REG__IRQ_STATUS], _, _. split; [by destruct s|apply neutral_read].
Qed.

Lemma wp_rand_bytes n (Q : list Z -> phy -> Prop) s :
  (forall bs r, Q bs (set_counts (reads s) (polls s) (stamps s) r s)) -> wp (rand_bytes n) Q s.
Proof.
  revert Q s. induction n as [|n IH]; intros Q s HQ; cbn [rand_bytes].
  - wps. specialize (HQ [] (rands s)). by destruct s.
  - wps. apply (wp_run _ _ _ (rand_at (rands s)) (set_counts (reads s) (polls s) (stamps s) (S (rands s)) s)); [done|].
    wps. apply IH. intros bs r. wps. apply HQ.
Qed.

Lemma phy_jam_inv ch pw s : chip_answers -> phy_inv s -> wp (phy_jam ch pw) (λ _, phy_inv) s.
Proof.
  intros Hans [Hm Hc]. unfold phy_jam. wps. apply wp_wake; [by apply core_mutex|done| |]; phy_simpl.
  { intros _. wps. split; [done|]. by do 2 apply core_mutex. }
  intros l1 Hst H1. wps. pose proof Hc as (C1 & C2 & C3 & C4 & C5 & C6).
  pose proof (core_no_dma s Hc ltac:(by destruct Hst as [->| ->])) as Hd.
  assert (busy (state s) = false) as Hb by (by destruct Hst as [->| ->]). rewrite Hb in *.
  apply wp_quiet; [apply quiet_reg_read|]. intros _ l2 r2 p2 H2. wps.
  apply wp_quiet; [apply quiet_reg_read|]. intros _ l3 r3 p3 H3. wps.
  apply wp_quiet; [apply quiet_pa_on|]. intros _ l4 r4 p4 H4. wps.
  apply wp_rand_bytes. phy_simpl. intros bs r5. wps.
  apply wp_quiet; [by apply quiet_wait_pll|]. intros _ l6 r6 p6 H6. wps. split; [done|].
  unfold phy_core. phy_simpl. chip_run. fold (chip_of s). rewrite H1. destruct (chip_of s); cbn in *. subst. by split_and!.
Qed.

(** ** Events and interrupts *)

Lemma wp_call_handler st (Q : unit -> phy -> Prop) s :
  (forall es, (forall c, foldl chip_step c es = mk_chip (irq c) (low c) (asleep c) (trx c) (timer c) (dma c) (frame c)
        (cca_reg c) (pwr_reg c) (posted c) (calls c ++ from_option (λ h, [(h, st)]) [] (handler s))) ->
     Q tt (set_fx (fx s ++ es) s)) ->
  wp (call_handler st) Q s.
Proof.
  intros HQ. unfold call_handler. wps. destruct (handler s) as [h|]; wps.
  - apply HQ. by intros [].
  - replace s with (set_fx (fx s ++ []) s) by (rewrite app_nil_r; by destruct s). apply HQ.
    intros []. cbn. by rewrite app_nil_r.
Qed.

(** The common end of the events: idle, then the handler of the upper layer. *)
Lemma finish_inv st s :
  idle_pre s -> mutex_ s = Some true ->
  wp (idle ;; give ;; call_handler st) (λ _ s', phy_inv s' /\ state s' = PHY_STATE_IDLE /\ packets s' = packets s /\
    calls (chip_of s') = calls (chip_of s) ++ from_option (λ h, [(h, st)]) [] (handler s)) s.
Proof.
  intros Hpre Hm. wps. apply idle_core; [done|]. intros s' Hc Hst Hh (K1 & K2 & K3 & K4 & K5 & K6) Has.
  rewrite Hm in K1. wps. apply wp_call_handler. phy_simpl. intros es Hes. rewrite Hh in Hes. split_and!; [split; [done|]| | |].
  - apply (core_ext s'); try done; chip_run; rewrite Hes; fold (chip_of s'); by destruct (chip_of s').
  - done.
  - done.
  - chip_run. rewrite Hes. fold (chip_of s'). cbn [calls]. by rewrite K4.
Qed.

Lemma handle_rx_timeout_inv s : phy_inv s -> wp handle_rx_timeout (λ _, phy_inv) s.
Proof.
  intros [Hm Hc]. unfold handle_rx_timeout. wps. destruct (negb _ && negb _).
  - wps. split; [done|]. by do 2 apply core_mutex.
  - eapply wp_mono; [apply finish_inv; [|done]|by intros _ s' (? & _)]. by apply core_idle_pre, core_mutex.
Qed.
(** What the chip says about the frame received, at reading [i] of its registers. *)
Definition crc_valid (i : nat) : bool := ctrue (Z.land (u8 (poll i)) RX_CRC_VALID).
Definition frame_size (i : nat) : Z := u8 (poll i).
Definition fits (k : phy_packet) (n : Z) : Prop := 0 < n /\ data k + n <= PHY_MAX_RX_LENGTH.

Definition rx_status (k : phy_packet) (i : nat) : phy_status :=
  if negb (crc_valid i) then PHY_RX_CRC_ERROR
  else if decide (fits k (frame_size (S i))) then PHY_SUCCESS else PHY_RX_LENGTH_ERROR.

Lemma wp_handle_rx_start (Q : phy_status -> phy -> Prop) s l k :
  phy_core s -> state s = PHY_STATE_RX -> pkt s = Some l -> packets s !! l = Some k ->
  (rx_status k (polls s) <> PHY_SUCCESS -> forall s', phy_core s' -> state s' = PHY_STATE_IDLE ->
     handler s' = handler s -> mutex_ s' = mutex_ s -> calls (chip_of s') = calls (chip_of s) ->
     Q (rx_status k (polls s)) s') ->
  (rx_status k (polls s) = PHY_SUCCESS -> forall s' t, phy_core s' -> state s' = PHY_STATE_RX -> pkt s' = Some l ->
     packets s' = <[l := set_rx_start t (set_length (frame_size (S (polls s))) k)]> (packets s) ->
     t = u32 (clock (reads s)) ->
     dma (chip_of s') = Some (data k, frame_size (S (polls s)) + 1) -> handler s' = handler s ->
     mutex_ s' = mutex_ s -> calls (chip_of s') = calls (chip_of s) -> Q PHY_SUCCESS s') ->
  wp handle_rx_start Q s.
Proof.
  intros Hc Hst Hp Hk HF HT. unfold handle_rx_start. wps. rewrite Hst, bool_decide_true by done. cbn [negb].
  rewrite Hp. wps. apply wp_reg_read. phy_simpl. unfold rx_status in *. fold (crc_valid (polls s)).
  pose proof Hc as (C1 & C2 & C3 & C4 & C5 & C6). rewrite Hst in *. specialize (C4 ltac:(done)).
  assert (forall es r p m, (forall c, low (foldl chip_step c es) = low c /\ asleep (foldl chip_step c es) = asleep c /\
             calls (foldl chip_step c es) = calls c) -> map_Forall (λ _, packet_ok) m ->
    let s1 := set_packets m (set_counts r p (stamps s) (rands s) (set_fx (fx s ++ es) s)) in
    idle_pre s1 /\ forall s', kept s1 s' -> calls (chip_of s') = calls (chip_of s)) as Hidle.
  { intros es r p m Hes Hmf s1. split.
    - unfold idle_pre, s1, chip_of. phy_simpl. rewrite foldl_app. destruct (Hes (foldl chip_step chip0 (fx s))) as (-> & -> & _).
      rewrite Hst. by split_and!.
    - intros s' (_ & _ & _ & K4 & _). rewrite K4. unfold s1, chip_of. phy_simpl. rewrite foldl_app. apply Hes. }
  destruct (crc_valid (polls s)); cbn [negb] in *.
  2:{ wps. rewrite <- !app_assoc.
      destruct (Hidle ([FxRegWrite REG__TRX_STATE TRX_STATE__FORCE_TRX_OFF] ++ [FxRegRead REG__PHY_RSSI] ++
        [FxTimerCompare 0 None]) (reads s) (S (polls s)) (packets s)) as [Hpre Hk']; [by intros []|done|].
      apply idle_core; [exact Hpre|]. intros s' Hc' Hst' Hh K _. wps.
      apply HF; [done|done|done|exact Hh|apply K|by apply Hk']. }
  wps. apply wp_value. wps. eapply wp_pkt_upd; [exact Hp|exact Hk|]. wps.
  eapply wp_pkt_load; [exact Hp|apply lookup_insert_eq|]. fold (frame_size (S (polls s))).
  set (n := frame_size (S (polls s))) in *. change (length_ (set_length n k)) with n.
  change (data (set_length n k)) with (data k). rewrite <- !app_assoc.
  assert (0 <= n < 256) as Hn by apply u8_range.
  assert (map_Forall (λ _, packet_ok) (<[l := set_length n k]> (packets s))) as Hmf by (by eapply packets_upd).
  destruct (decide (fits k n)) as [Hfit|Hfit].
  2:{ replace ((n =? 0) || (data k + n >? PHY_MAX_RX_LENGTH)) with true.
      2:{ symmetry. apply orb_true_iff. unfold fits in Hfit. rewrite Z.eqb_eq, Z.gtb_lt. lia. }
      wps. rewrite <- !app_assoc.
      destruct (Hidle ([FxRegWrite REG__TRX_STATE TRX_STATE__FORCE_TRX_OFF] ++ [FxRegRead REG__PHY_RSSI] ++
        [FxFifoReadFirst] ++ [FxFifoRead (data k) 0]) (reads s) (S (S (polls s))) (<[l := set_length n k]> (packets s)))
        as [Hpre Hk']; [by intros []|done|].
      apply idle_core; [exact Hpre|]. intros s' Hc' Hst' Hh K _. wps.
      apply HF; [done|done|done|exact Hh|apply K|by apply Hk']. }
  replace ((n =? 0) || (data k + n >? PHY_MAX_RX_LENGTH)) with false.
  2:{ symmetry. apply orb_false_iff. unfold fits in Hfit. rewrite Z.eqb_neq, Z.gtb_ltb, Z.ltb_ge. lia. }
  wps. eapply wp_pkt_upd; [exact Hp|apply lookup_insert_eq|]. wps.
  assert (Hpk := C6 l k Hk). unfold fits, PHY_MAX_RX_LENGTH in Hfit. destruct Hpk as [Hraw Hdata].
  rewrite (u8_id (n + 1)) by lia.
  apply (HT eq_refl _ (u32 (clock (reads s)))); phy_simpl; try done.
  - unfold phy_core. phy_simpl. chip_run. fold (chip_of s). rewrite Hst.
    destruct (chip_of s) as [i lw sl tx tm d f cc pw po ca]; cbn in *. split_and!; try done.
    + exists l. split; [done|]. rewrite lookup_insert_eq. eauto.
    + intros off m [= <- <-]. split; [done|lia].
    + rewrite insert_insert_eq. by eapply packets_upd.
  - by rewrite insert_insert_eq.
  - chip_run. by destruct (foldl chip_step chip0 (fx s)).
  - chip_run. by destruct (foldl chip_step chip0 (fx s)).
Qed.

Lemma handle_irq_inv s : phy_inv s -> wp handle_irq (λ _, phy_inv) s.
Proof.
  intros [Hm Hc]. unfold handle_irq. wps. apply wp_reg_read. wps.
  pose proof Hc as (C1 & C2 & C3 & C4 & C5 & C6).
  match goal with |- wp _ _ ?x => set (s1 := x) end.
  assert (phy_core s1) as Hc1.
  { apply (core_ext s); try done; unfold s1; chip_run; fold (chip_of s); by destruct (chip_of s). }
  assert (wp (rf2xx_get_status ;; give) (λ _, phy_inv) s1) as Hother.
  { wps. apply wp_quiet; [apply quiet_get_status|]. intros _ l r p Hl. wps. split; [done|].
    apply (core_ext s1); try done; unfold s1; chip_run; fold (chip_of s); by destruct (chip_of s). }
  destruct (state s) eqn:Est; try exact Hother.
  - destruct C2 as (l & Hl & k & Hk). destruct (_ =? IRQ_RX_START).
    + wps. apply wp_when; intros _.
      * eapply wp_pkt_upd; [exact Hl|exact Hk|]. wps. split; [done|].
        destruct Hc1 as (D1 & D2 & D3 & D4 & D5 & D6). unfold s1, phy_core in *. phy_simpl. cbn in D1, D2, D3, D4, D5, D6.
        rewrite Est in *. split_and!; try done.
        -- exists l. split; [done|]. rewrite lookup_insert_eq. eauto.
        -- by eapply packets_upd.
      * wps. split; [done|]. by apply core_mutex.
    + destruct (_ =? IRQ_TRX_END); [|exact Hother]. wps.
      apply (wp_handle_rx_start _ s1 l k); [done|done|done|done| |].
      * intros Hne s' Hc' Hst' Hh Hm' _. rewrite bool_decide_false by done. wps.
        apply wp_call_handler. phy_simpl. intros es Hes. split; [done|].
        apply (core_ext s'); try done; chip_run; rewrite Hes; fold (chip_of s'); by destruct (chip_of s').
      * intros _ s' t Hc' Hst' _ _ _ _ _ Hm' _. rewrite bool_decide_true by done.
        apply wp_give; [by rewrite Hm'|]. split; [done|]. by apply core_mutex.
  - destruct (_ =? IRQ_TRX_END); [|exact Hother].
    eapply wp_mono; [apply finish_inv; [by apply core_idle_pre|done]|by intros _ s' (? & _)].
Qed.
(** The byte after the frame is the quality of the link, and the frame was read
    in time: 500 ticks at most, measured modulo 2^16. *)
Definition rx_complete (s : phy) (k : phy_packet) : Prop :=
  0 <= data k + length_ k < 128 /\ i16 (u32 (clock (reads s)) - t_rx_start k) <= 500.

Lemma handle_rx_end_spec s l k :
  phy_inv s -> state s = PHY_STATE_RX -> pkt s = Some l -> packets s !! l = Some k -> rx_complete s k ->
  exists q, data_get k (length_ k) = Ok q /\
  wp handle_rx_end (λ _ s', phy_inv s' /\ state s' = PHY_STATE_IDLE /\
    packets s' = <[l := set_received (u32 (clock (reads s))) (i8 (-91 + u8 (poll (polls s)))) q (u8 (length_ k - 2)) k]>
                   (packets s) /\
    calls (chip_of s') = calls (chip_of s) ++ from_option (λ h, [(h, PHY_SUCCESS)]) [] (handler s)) s.
Proof.
  intros [Hm Hc] Hst Hp Hk (Hl1 & Hdt). pose proof Hc as (C1 & C2 & C3 & C4 & C5 & C6).
  destruct (C6 l k Hk) as [Hraw Hdata].
  destruct (lookup_lt_is_Some_2 (raw_data k) (Z.to_nat (data k + length_ k))) as [q Hq]; [lia|].
  assert (data_get k (length_ k) = Ok q) as Eq by (unfold data_get; apply arr_get_ok; [lia|done]).
  exists q. split; [done|]. unfold handle_rx_end. wps. rewrite Hst, bool_decide_true by done. cbn [negb]. rewrite Hp. wps.
  apply wp_reg_read. wps. eapply wp_pkt_load; [exact Hp|exact Hk|]. wps.
  eapply wp_lift; [exact Eq|]. wps. eapply wp_pkt_upd; [exact Hp|exact Hk|]. wps.
  destruct (Z.gtb_spec (i16 (u32 (clock (reads s)) - t_rx_start k)) 500); [lia|].
  eapply wp_mono; [apply finish_inv; [|done]|].
  - unfold idle_pre. phy_simpl. chip_run. fold (chip_of s). split_and!.
    + by destruct (chip_of s).
    + destruct (chip_of s); exact C4.
    + by eapply packets_upd.
  - intros _ s' (Hi & Hst' & Hpk & Hca). split_and!; [done|done|done|]. rewrite Hca. phy_simpl. f_equal.
    chip_run. fold (chip_of s). by destruct (chip_of s).
Qed.

Lemma handle_rx_end_inv s :
  phy_inv s ->
  (state s = PHY_STATE_RX -> forall l k, pkt s = Some l -> packets s !! l = Some k -> rx_complete s k) ->
  wp handle_rx_end (λ _, phy_inv) s.
Proof.
  intros Hi Hrx. destruct (decide (state s = PHY_STATE_RX)) as [Hst|Hst].
  - pose proof Hi as [_ (_ & C2 & _)]. rewrite Hst in C2. destruct C2 as (l & Hl & k & Hk).
    destruct (handle_rx_end_spec s l k Hi Hst Hl Hk (Hrx Hst l k Hl Hk)) as (q & _ & Hw).
    eapply wp_mono; [exact Hw|]. by intros _ s' (? & _).
  - destruct Hi as [Hm Hc]. unfold handle_rx_end. wps. rewrite bool_decide_false by done. cbn [negb]. wps.
    split; [done|]. by do 2 apply core_mutex.
Qed.

(** The two ways it fails: the byte after the frame is outside of the buffer, or the
    frame was read too late, and the node halts. *)
Lemma handle_rx_end_fails s l k :
  phy_inv s -> state s = PHY_STATE_RX -> pkt s = Some l -> packets s !! l = Some k ->
  (~ 0 <= data k + length_ k < 128 -> handle_rx_end s = Err EUndef) /\
  (0 <= data k + length_ k < 128 -> 500 < i16 (u32 (clock (reads s)) - t_rx_start k) -> handle_rx_end s = Err EHalt).
Proof.
  intros [Hm Hc] Hst Hp Hk. pose proof Hc as (_ & _ & _ & _ & _ & C6). destruct (C6 l k Hk) as [Hraw Hdata].
  unfold handle_rx_end, take, pkt_load, pkt_upd, soft_timer_time, rf2xx_reg_read, chip_value, emit. unfold mbind, M_bind, mget, mmod, mfail, mlift. rewrite Hm.
  cbn [mbind M_bind]. phy_simpl. rewrite Hst, bool_decide_true by done. cbn [negb]. rewrite Hp. phy_simpl. rewrite ?Hp. cbn [mbind option_bind]. rewrite Hk. cbn beta iota. split.
  - intros Hn. assert (data_get k (length_ k) = Err EUndef) as ->; [|done]. unfold data_get, arr_get. case_decide as D; [done|]. rewrite lookup_ge_None_2 by lia. done.
  - intros Hb Ht. destruct (lookup_lt_is_Some_2 (raw_data k) (Z.to_nat (data k + length_ k))) as [q Hq]; [lia|].
    assert (data_get k (length_ k) = Ok q) as -> by (unfold data_get; apply arr_get_ok; [lia|done]). cbn beta iota. phy_simpl. rewrite ?Hp, ?Hk. cbn beta iota.
    destruct (Z.gtb_spec (i16 (u32 (clock (reads s)) - t_rx_start k)) 500); [done|lia].
Qed.

(** The interrupt routines run without the mutex: they change times of the packet
    in use and post events. *)
Lemma core_packet s s' l k k' :
  phy_core s -> pkt s = Some l -> packets s !! l = Some k -> packets s' = <[l := k']> (packets s) ->
  raw_data k' = raw_data k -> data k' = data k -> state s' = state s -> pkt s' = pkt s ->
  low (chip_of s') = low (chip_of s) -> irq (chip_of s') = irq (chip_of s) ->
  asleep (chip_of s') = asleep (chip_of s) -> dma (chip_of s') = dma (chip_of s) -> phy_core s'.
Proof.
  unfold phy_core. intros (C1 & C2 & C3 & C4 & C5 & C6) Hp Hk -> Er Ed -> -> -> -> -> ->. split_and!; try done.
  - destruct (busy (state s)); [|done]. destruct C2 as (l' & Hl' & Hk'). exists l'. split; [done|].
    destruct (decide (l' = l)) as [->|Hne]; [rewrite lookup_insert_eq; eauto|by rewrite lookup_insert_ne].
  - by eapply packets_upd.
Qed.

Lemma inv_packet s : phy_inv s -> busy (state s) = true -> exists l k, pkt s = Some l /\ packets s !! l = Some k.
Proof. intros [_ (_ & C2 & _)] Hb. rewrite Hb in C2. destruct C2 as (l & Hl & k & Hk). eauto. Qed.

Lemma irq_handler_inv s : phy_inv s -> irq (chip_of s) = true -> wp irq_handler (λ _, phy_inv) s.
Proof.
  intros Hi Hirq. pose proof Hi as [Hm Hc]. pose proof Hc as (_ & _ & C3 & _).
  destruct (inv_packet s Hi (C3 Hirq)) as (l & k & Hl & Hk). unfold irq_handler. wps.
  eapply wp_pkt_upd; [exact Hl|exact Hk|]. wps. apply wp_when; intros _; wps.
  - eapply wp_pkt_upd; [exact Hl|apply lookup_insert_eq|]. wps. rewrite insert_insert_eq. split; [done|].
    eapply (core_packet s _ l k _ Hc Hl Hk); try reflexivity; chip_run; by destruct (foldl chip_step chip0 (fx s)).
  - split; [done|].
    eapply (core_packet s _ l k _ Hc Hl Hk); try reflexivity; chip_run; by destruct (foldl chip_step chip0 (fx s)).
Qed.

Lemma dig2_inv v s : phy_inv s -> state s = PHY_STATE_RX -> wp (dig2_capture_handler v) (λ _, phy_inv) s.
Proof.
  intros Hi Hst. pose proof Hi as [Hm Hc].
  destruct (inv_packet s Hi ltac:(by rewrite Hst)) as (l & k & Hl & Hk).
  unfold dig2_capture_handler. wps. rewrite Hst, bool_decide_true by done. cbn [negb]. wps. rewrite Hl. wps.
  eapply wp_pkt_upd; [exact Hl|exact Hk|]. wps. apply wp_when; intros _; wps.
  - eapply wp_pkt_upd; [exact Hl|apply lookup_insert_eq|]. split; [done|].
    eapply (core_packet s _ l k _ Hc Hl Hk); [by phy_simpl; rewrite insert_insert_eq|..]; try reflexivity;
      chip_run; by destruct (foldl chip_step chip0 (fx s)).
  - split; [done|].
    eapply (core_packet s _ l k _ Hc Hl Hk); try reflexivity; chip_run; by destruct (foldl chip_step chip0 (fx s)).
Qed.

Lemma tx_start_inv v s : phy_inv s -> wp (tx_start_handler v) (λ _, phy_inv) s.
Proof.
  intros Hi. pose proof Hi as [Hm Hc]. destruct (decide (state s = PHY_STATE_TX_WAIT)) as [Hst|Hst].
  - destruct (inv_packet s Hi ltac:(by rewrite Hst)) as (l & k & Hl & Hk).
    eapply wp_tx_start; [exact Hl|exact Hk|done|]. intros _ t es r Hes. split; [done|].
    pose proof Hc as (C1 & C2 & C3 & C4 & C5 & C6). pose proof (core_no_dma s Hc ltac:(by rewrite Hst)) as Hd.
    eapply (core_in_use _ l); phy_simpl; try done; [by rewrite lookup_insert_eq; eauto|by eapply packets_upd|..];
      chip_run; rewrite Hes; fold (chip_of s); rewrite Hst in *; cbn; auto.
  - unfold tx_start_handler. wps. rewrite bool_decide_false by done. by cbn.
Qed.
End invariant.

End PhyRf2xxSpec.
