(* ===== verification/PhyRf2xxRun.v ===== *)
(** * The RF2xx physical layer in operation

    Everything that can happen to the PHY, as a transition system: calls of the
    upper layer, events run by the network task, interrupts of the radio, the timer
    and the end of transfers from the chip, and the upper layer writing packets the
    PHY does not hold. Then what reception, transmission and channel assessment
    achieve from their start to the call of the handler. *)

From stdpp Require Import base numbers gmap list.
From S2P Require Import Prelude Chain Event SoftTime Phy PhyPower PhyRf2xx PhyRf2xxSpec.

Module PhyRf2xxRun.
Import Phy PhyPower SoftTime PhyRf2xx PhyRf2xxSpec.

Inductive op :=
| OpReset | OpSleep | OpIdle
| OpSetChannel (c : Z) | OpSetPower (p : phy_power)
| OpEd | OpCca
| OpRx (rx_time timeout_time : Z) (l : loc) (h : option nat)
| OpTx (tx_time : Z) (l : loc) (h : option nat)
| OpJam (c : Z) (p : phy_power)
| OpRegister (b : bool)
| OpWrite (l : loc) (k : phy_packet)
| EvStartRx | EvRxTimeout | EvIrq | EvRxEnd
| IsrRadio | IsrDig2 (v : Z) | IsrTimer (f : timer_fn) (v : Z) | IsrTransfer (bytes : list Z).

Section run.
Context `{!RfEnv}.
Implicit Types s : phy.

(** The chip has transferred [bytes] into the packet; the driver then calls
    [fifo_read_done_handler]. *)
Definition transfer (bytes : list Z) : RM unit := fun s =>
  match dma (chip_of s) with
  | None => Err EUndef
  | Some (off, _) =>
      (k ← pkt_load;
       raw ← mlift (arr_blit (raw_data k) off bytes);
       pkt_upd (set_raw raw) ;;
       fifo_read_done_handler) s
  end.

Definition run (o : op) : RM unit :=
  match o with
  | OpReset => phy_reset
  | OpSleep => phy_sleep
  | OpIdle => phy_idle
  | OpSetChannel c => phy_set_channel c ;; mret tt
  | OpSetPower p => phy_set_power p ;; mret tt
  | OpEd => phy_ed ;; mret tt
  | OpCca => phy_cca ;; mret tt
  | OpRx rx_time timeout_time l h => phy_rx rx_time timeout_time (Some l) h ;; mret tt
  | OpTx tx_time l h => phy_tx tx_time (Some l) h ;; mret tt
  | OpJam c p => phy_jam c p ;; mret tt
  | OpRegister b => register_timestamp_handler b
  | OpWrite l k => mmod (λ s, set_packets (<[l := k]> (packets s)) s)
  | EvStartRx => start_rx
  | EvRxTimeout => handle_rx_timeout
  | EvIrq => handle_irq
  | EvRxEnd => handle_rx_end
  | IsrRadio => irq_handler
  | IsrDig2 v => dig2_capture_handler v
  | IsrTimer RX_START_HANDLER _ => rx_start_handler
  | IsrTimer RX_TIMEOUT_HANDLER _ => rx_timeout_handler
  | IsrTimer TX_START_HANDLER v => tx_start_handler v
  | IsrTransfer bytes => transfer bytes
  end.

(** When they can happen: packets given to the PHY exist, the radio interrupts
    only when enabled, and the upper layer leaves the packet in use alone. Events,
    timer interrupts and captures of a start of frame can come at any time. *)
Definition allowed (o : op) (s : phy) : Prop :=
  match o with
  | OpRx _ _ l _ => is_Some (packets s !! l)
  | OpTx _ l _ => exists k, packets s !! l = Some k /\ sendable k
  | OpWrite l k => pkt s <> Some l /\ packet_ok k
  | IsrRadio => irq (chip_of s) = true
  | IsrTransfer bytes => exists off n, dma (chip_of s) = Some (off, n) /\ Z.of_nat (length bytes) = n
  | _ => True
  end.

(** When they fail, and how: a start of frame captured outside of a reception halts the
    node; the end of a reception, in the state of reception, reads a byte outside of the
    buffer of the packet if its length is too large, and halts the node if more than 500
    ticks went by since the start time of the packet. *)
Definition fault (o : op) (s : phy) : option error :=
  match o with
  | IsrDig2 _ => if decide (state s = PHY_STATE_RX) then None else Some EHalt
  | EvRxEnd =>
      if decide (state s = PHY_STATE_RX) then
        match pkt s ≫= (packets s !!.) with
        | Some k =>
            if decide (0 <= data k + length_ k < 128) then
              if decide (i16 (u32 (clock (reads s)) - t_rx_start k) <= 500) then None else Some EHalt
            else Some EUndef
        | None => None
        end
      else None
  | _ => None
  end.

(** The PHY before [phy_rf2xx_init]: zeroed memory. *)
Definition initial (s : phy) : Prop :=
  mutex_ s = None /\ state s = PHY_STATE_SLEEP /\ fx s = [] /\ map_Forall (λ _, packet_ok) (packets s).

Inductive reach : phy -> Prop :=
| reach_init s0 s : initial s0 -> phy_rf2xx_init s0 = Ok (tt, s) -> reach s
| reach_step s o s' : reach s -> allowed o s -> run o s = Ok (tt, s') -> reach s'.

Lemma init_inv s0 : initial s0 -> wp phy_rf2xx_init (λ _, phy_inv) s0.
Proof.
  intros (Hm & Hst & Hfx & Hpk). unfold phy_rf2xx_init. wps. rewrite Hm. wps. apply reset_core.
  - unfold idle_pre, chip_of. phy_simpl. rewrite Hst, Hfx. by split_and!.
  - intros s' Hc _ Hm' _. wps. split; [done|]. by apply core_mutex.
Qed.

Lemma transfer_spec bytes s off n l k :
  phy_inv s -> dma (chip_of s) = Some (off, n) -> Z.of_nat (length bytes) = n ->
  pkt s = Some l -> packets s !! l = Some k ->
  exists raw s', arr_blit (raw_data k) off bytes = Ok raw /\ transfer bytes s = Ok (tt, s') /\ phy_inv s' /\
    packets s' = <[l := set_raw raw k]> (packets s) /\ pkt s' = Some l /\ state s' = state s /\
    handler s' = handler s /\ reads s' = reads s /\ polls s' = polls s /\
    calls (chip_of s') = calls (chip_of s) /\ posted (chip_of s') = posted (chip_of s) ++ [HANDLE_RX_END].
Proof.
  intros [Hm Hc] Hd Hn Hl Hk. pose proof Hc as (C1 & C2 & C3 & C4 & C5 & C6).
  destruct (C5 off n Hd) as (Hst & H0 & H1 & H2). destruct (C6 l k Hk) as [Hraw Hdata].
  destruct (arr_blit_ok (raw_data k) off bytes) as [raw Hb]; [lia|lia|].
  unfold transfer. rewrite Hd. exists raw. eexists. split; [exact Hb|].
  split. { unfold pkt_load. erewrite bind_ok by (by rewrite Hl; cbn; rewrite Hk). rewrite bind_lift, Hb.
    unfold pkt_upd. erewrite bind_ok by (by rewrite Hl, Hk). reflexivity. }
  split_and!; try done.
  - split; [done|]. unfold phy_core. chip_run. fold (chip_of s). rewrite Hst, Hl in *.
    destruct (chip_of s) as [i lw sl tx tm d f cc pw po ca]; cbn in *. split_and!; try done.
    + exists l. split; [done|]. rewrite lookup_insert_eq. eauto.
    + apply map_Forall_insert_2; [|done]. split; [|done]. cbn. rewrite (arr_blit_length _ _ _ _ Hb). done.
  - chip_run. by destruct (foldl chip_step chip0 (fx s)).
  - chip_run. by destruct (foldl chip_step chip0 (fx s)).
Qed.

Lemma run_inv o s : clock_runs -> chip_answers -> phy_inv s -> allowed o s -> fault o s = None -> wp (run o) (λ _, phy_inv) s.
Proof.
  intros Hclk Hans Hi Ha Hf.
  assert (forall A (m : RM A), wp m (λ _, phy_inv) s -> wp (m ;; mret tt) (λ _, phy_inv) s) as Hseq.
  { intros A m Hw. apply wp_bind. eapply wp_mono; [exact Hw|]. by intros a s' Hs'. }
  destruct o; cbn [run allowed fault] in *.
  - by apply phy_reset_inv.
  - by apply phy_sleep_inv.
  - by apply phy_idle_inv.
  - by apply Hseq, phy_set_channel_inv.
  - by apply Hseq, phy_set_power_inv.
  - by apply Hseq, phy_measure_inv.
  - by apply Hseq, phy_measure_inv.
  - by apply Hseq, phy_rx_inv.
  - destruct Ha as (k & Hk & Hsend). by eapply Hseq, phy_tx_inv.
  - by apply Hseq, phy_jam_inv.
  - destruct Hi as [Hm Hc]. apply wp_mod. split; [done|]. by apply (core_ext s).
  - destruct Hi as [Hm (C1 & C2 & C3 & C4 & C5 & C6)], Ha as [Hl Hk]. apply wp_mod. split; [done|].
    unfold phy_core. phy_simpl. split_and!; try done.
    + destruct (busy (state s)); [|done]. destruct C2 as (l' & Hl' & Hs). exists l'. split; [done|].
      rewrite lookup_insert_ne by congruence. done.
    + by apply map_Forall_insert_2.
  - by apply start_rx_inv.
  - by apply handle_rx_timeout_inv.
  - by apply handle_irq_inv.
  - apply handle_rx_end_inv; [done|]. intros Hst l k Hl Hk. rewrite decide_True, Hl in Hf by done. cbn [mbind option_bind] in Hf. rewrite Hk in Hf. unfold rx_complete. repeat case_decide; done.
  - by apply irq_handler_inv.
  - apply dig2_inv; [done|]. by case_decide.
  - destruct f; [| |by apply tx_start_inv].
    all: destruct Hi as [Hm Hc]; unfold rx_start_handler, rx_timeout_handler; wps; (split; [done|]).
    all: apply (core_ext s); try done; chip_run; by destruct (foldl chip_step chip0 (fx s)).
  - destruct Ha as (off & n & Hd & Hn). pose proof Hi as [_ (_ & _ & _ & _ & C5 & _)].
    destruct (inv_packet s Hi) as (l & k & Hl & Hk); [by destruct (C5 off n Hd) as [-> _]|].
    destruct (transfer_spec bytes s off n l k Hi Hd Hn Hl Hk) as (raw & s' & _ & E & Hi' & _).
    by eapply wp_run.
Qed.

Lemma run_fails o s e : phy_inv s -> fault o s = Some e -> run o s = Err e.
Proof.
  intros Hi Hf. destruct o; try discriminate Hf; cbn [run fault] in *.
  - destruct (decide (state s = PHY_STATE_RX)) as [Hst|]; [|done]. destruct (inv_packet s Hi) as (l & k & Hl & Hk); [by rewrite Hst|].
    destruct (handle_rx_end_fails s l k Hi Hst Hl Hk) as [Hu Hh]. rewrite Hl in Hf. cbn [mbind option_bind] in Hf. rewrite Hk in Hf.
    repeat case_decide; try done; injection Hf as <-; [apply Hh; [done|lia]|by apply Hu].
  - case_decide as Hst; [done|]. injection Hf as <-. unfold dig2_capture_handler. mrun. by rewrite bool_decide_false.
Qed.

(** C2: every state the PHY can reach satisfies the invariant: low power is held
    off exactly while a reception or a transmission is under way, exactly then the
    PHY holds a packet, the radio interrupt is enabled only then, the chip is awake
    outside of the sleep state, a transfer from the chip stays inside the packet
    buffer, and the mutex is free between operations. In every such state each
    operation, event and interrupt returns, in a reachable state, without NULL packet,
    access outside of a buffer, halt or endless wait, but in three cases, in which
    it fails as said: a start of frame captured outside of the state of reception halts
    the node; so does the end of a reception processed more than 500 ticks after the
    start time of the packet; and that of a packet whose length does not fit its
    buffer reads outside of it. *)
Theorem phy_rf2xx_safe s :
  clock_runs -> chip_answers -> reach s ->
  phy_inv s /\ forall o, allowed o s ->
    match fault o s with
    | None => exists s', run o s = Ok (tt, s') /\ reach s'
    | Some e => run o s = Err e
    end.
Proof.
  intros Hclk Hans Hr.
  assert (forall o s', phy_inv s' -> allowed o s' -> wp (run o) (λ _, phy_inv) s' \/ exists e, run o s' = Err e) as Hrun.
  { intros o s' Hi Ha. destruct (fault o s') as [e|] eqn:Hf; [right; exists e; by apply run_fails|left; by apply run_inv]. }
  assert (phy_inv s) as Hi.
  { induction Hr as [s0 s H0 E|s o s' Hr IH Ha E].
    - exact (wp_inv _ _ _ _ _ (init_inv s0 H0) E).
    - destruct (Hrun o s IH Ha) as [Hw|[e E']]; [exact (wp_inv _ _ _ _ _ Hw E)|congruence]. }
  split; [done|]. intros o Ha. destruct (fault o s) as [e|] eqn:Hf; [by apply run_fails|].
  destruct (wp_ok _ _ _ (run_inv o s Hclk Hans Hi Ha Hf)) as ([] & s' & E & _). exists s'. split; [done|]. by econstructor.
Qed.

(** ** Reception *)

Lemma wp_refuse (Q : bool -> phy -> Prop) s :
  state s <> PHY_STATE_SLEEP -> state s <> PHY_STATE_IDLE -> mutex_ s = Some true ->
  Q false (set_mutex (Some false) s) -> wp wake_or_refuse Q s.
Proof. intros H1 H2 Hm HQ. unfold wake_or_refuse. wps. destruct (state s); try done; by wps. Qed.

Lemma phy_unlock_id s : mutex_ s = Some false -> set_mutex (Some false) (set_mutex (Some true) s) = s.
Proof. destruct s; cbn. by intros ->. Qed.

(** What a PHY that starts receiving on packet [l] looks like: waiting for
    [rx_time], or listening until [timeout_time]. *)
Definition receiving (rx_time timeout_time : Z) (l : loc) (h : option nat) (s' : phy) : Prop :=
  pkt s' = Some l /\ handler s' = h /\ rx_timeout s' = timeout_time /\
  if ctrue rx_time then
    state s' = PHY_STATE_RX_WAIT /\ timer (chip_of s') = Some (Z.land rx_time 0xFFFF, RX_START_HANDLER)
  else
    state s' = PHY_STATE_RX /\ trx (chip_of s') = TRX_STATE__RX_ON /\ irq (chip_of s') = true /\
    timer (chip_of s') =
      (if ctrue timeout_time then Some (Z.land timeout_time 0xFFFF, RX_TIMEOUT_HANDLER) else None).

Lemma start_rx_spec s l :
  clock_runs -> mutex_ s = Some false -> state s = PHY_STATE_RX_WAIT -> pkt s = Some l ->
  wp start_rx (λ _ s', receiving 0 (rx_timeout s) l (handler s) s' /\ packets s' = packets s /\
    calls (chip_of s') = calls (chip_of s)) s.
Proof.
  intros Hclk Hm Hst Hl. unfold start_rx. wps. rewrite Hst, bool_decide_true by done. cbn [negb].
  rewrite Hl. wps.
  apply wp_quiet; [apply quiet_reg_read|]. intros _ l1 r1 p1 H1. wps.
  apply wp_quiet; [apply quiet_pa_on|]. intros _ l2 r2 p2 H2. wps.
  apply wp_quiet. { apply quiet_when, quiet_emit. by intros []. } intros _ l3 r3 p3 H3. wps.
  apply wp_quiet; [by apply quiet_status|]. intros _ l4 r4 p4 H4. wps.
  unfold receiving. change (ctrue 0) with false. cbn iota.
  destruct (ctrue (rx_timeout s)); wps; split_and!; try done; chip_run; by destruct (foldl chip_step chip0 (fx s)).
Qed.

(** C37: [phy_rx] on a packet, in every case. It refuses, changing nothing, unless the
    PHY sleeps or is idle. If the times are too late it returns to the state it
    came from and calls no handler. Otherwise the PHY waits for [rx_time], the
    timer set for it, or without [rx_time] listens at once, the chip in reception
    with its interrupt enabled and the timer set for the timeout if there is one. *)
Theorem phy_rx_spec s rx_time timeout_time l k h :
  clock_runs -> phy_inv s -> packets s !! l = Some k ->
  (state s <> PHY_STATE_SLEEP -> state s <> PHY_STATE_IDLE ->
     phy_rx rx_time timeout_time (Some l) h s = Ok (PHY_ERR_INVALID_STATE, s)) /\
  (state s = PHY_STATE_SLEEP \/ state s = PHY_STATE_IDLE ->
     exists r s', phy_rx rx_time timeout_time (Some l) h s = Ok (r, s') /\ phy_inv s' /\
       packets s' = <[l := clear_times k]> (packets s) /\ calls (chip_of s') = calls (chip_of s) /\
       if rx_too_late rx_time timeout_time (u32 (clock (reads s)))
       then r = PHY_ERR_TOO_LATE /\ state s' = state s
       else r = PHY_SUCCESS /\ receiving rx_time timeout_time l h s').
Proof.
  intros Hclk Hi Hk. pose proof Hi as [Hm Hc]. split.
  - intros H1 H2. destruct (wp_ok (phy_rx rx_time timeout_time (Some l) h)
      (λ r s', r = PHY_ERR_INVALID_STATE /\ s' = s) s) as (r & s' & E & -> & ->); [|exact E].
    unfold phy_rx. wps. apply wp_refuse; [done|done|done|]. wps. by rewrite phy_unlock_id.
  - intros Hst.
    destruct (wp_ok (phy_rx rx_time timeout_time (Some l) h) (λ r s', phy_inv s' /\
       packets s' = <[l := clear_times k]> (packets s) /\ calls (chip_of s') = calls (chip_of s) /\
       if rx_too_late rx_time timeout_time (u32 (clock (reads s)))
       then r = PHY_ERR_TOO_LATE /\ state s' = state s
       else r = PHY_SUCCESS /\ receiving rx_time timeout_time l h s') s) as (r & s' & E & HQ); [|by exists r, s'].
    pose proof (phy_rx_inv rx_time timeout_time l h s Hclk Hi ltac:(eauto)) as Hinv.
    apply (wp_and _ _ _ _ Hinv). unfold phy_rx. wps.
    apply wp_wake; [by apply core_mutex|done| |]; phy_simpl.
    { intros Hb. exfalso. destruct Hst as [E|E]; rewrite E in Hb; discriminate Hb. }
    intros l1 _ H1. wps. eapply wp_pkt_upd; [reflexivity|exact Hk|]. wps.
    pose proof Hc as (C1 & C2 & C3 & C4 & C5 & C6).
    assert (busy (state s) = false) as Hb by (by destruct Hst as [->| ->]). rewrite Hb in *.
    assert (map_Forall (λ _, packet_ok) (<[l := clear_times k]> (packets s))) as Hpk by (by eapply packets_upd).
    destruct (rx_too_late _ _ _).
    + wps. apply wp_back_to_previous.
      { unfold idle_pre. phy_simpl. chip_run. rewrite H1. fold (chip_of s). rewrite Hb. cbn. split_and!; [done| |done].
        intros ?. rewrite decide_False by done. auto. }
      intros s' Hc' Hm' Hpk' Hst' Hca _. wps. split_and!.
      * exact Hpk'.
      * etrans; [exact Hca|]. chip_run. rewrite H1. by destruct (foldl chip_step chip0 (fx s)).
      * done.
      * etrans; [exact Hst'|]. phy_simpl. by destruct Hst as [->| ->].
    + pose proof (core_no_dma s Hc ltac:(by destruct Hst as [->| ->])) as Hd.
      assert (asleep (foldl chip_step (chip_of s) l1) = false) as Has.
      { rewrite H1. cbn. case_decide; [done|]. by apply C4. }
      wps. destruct (ctrue rx_time) eqn:Erx; wps.
      * split_and!; try done. { chip_run. rewrite H1. by destruct (foldl chip_step chip0 (fx s)). }
        unfold receiving. rewrite Erx. split_and!; try done. chip_run. rewrite H1.
        by destruct (foldl chip_step chip0 (fx s)).
      * eapply wp_mono; [apply start_rx_spec with (l := l); done|].
        intros _ s' (Hrx & Hpk' & Hca). phy_simpl. wps. split_and!; [exact Hpk'| |done|].
        -- etrans; [exact Hca|]. chip_run. rewrite H1. by destruct (foldl chip_step chip0 (fx s)).
        -- unfold receiving in *. by rewrite Erx.
Qed.

(** The times [phy_rx] accepts. For a start and a timeout within one second of the
    current time, it refuses exactly those that are not in the future, and a timeout
    equal to the start; it accepts a timeout before the start, the difference of
    the two being unsigned. More than one second ahead, a time is taken for one of
    the past second, and refused. *)
Theorem rx_too_late_window now rx timeout :
  (u32 rx <> 0 -> u32 timeout <> 0 -> Z.abs (rx - now) < 32768 -> Z.abs (timeout - now) < 32768 ->
   rx_too_late (u32 rx) (u32 timeout) (u32 now) = bool_decide (rx <= now \/ timeout <= now \/ timeout = rx)) /\
  (u32 rx <> 0 -> now + 32768 <= rx < now + 65536 -> rx_too_late (u32 rx) (u32 timeout) (u32 now) = true).
Proof.
  assert (forall t, Z.abs (t - now) < 32768 -> i16 (u32 t - u32 now) = t - now) as Hi by (unfold i16; intros; mlia).
  assert (forall z, u32 z <> 0 -> ctrue (u32 z) = true) as Hc by (intros z Hz; unfold ctrue; by destruct (Z.eqb_spec (u32 z) 0)).
  unfold rx_too_late. split.
  - intros H1 H2 H3 H4. rewrite !Hc, !Hi by done. cbn [andb].
    apply eq_true_iff_eq. rewrite !orb_true_iff, bool_decide_eq_true, !Z.ltb_lt.
    assert (u32 (u32 timeout - u32 rx) < 1 <-> timeout = rx) as -> by mlia. lia.
  - intros H1 H2. rewrite (Hc rx) by done. assert (i16 (u32 rx - u32 now) < 1) as H3 by (unfold i16; mlia).
    apply Z.ltb_lt in H3. by rewrite H3.
Qed.

(** C20: a frame is received into the packet. When the radio signals the end of a frame with
    a valid checksum and a length that fits, the PHY starts the transfer of the
    frame and of one more byte to the packet, inside its buffer; once the transfer
    is done and its event handled in time, the packet holds the bytes of the frame,
    their number without the two bytes of checksum, the link quality that followed
    them and the signal strength, the PHY is idle and the handler has been called
    once, with success. With a bad checksum or length the handler is called at
    once, with the error. *)
Theorem phy_reception s l k h :
  let i := S (polls s) in
  let n := frame_size (S i) in
  phy_inv s -> state s = PHY_STATE_RX -> pkt s = Some l -> packets s !! l = Some k -> handler s = Some h ->
  u8 (poll (polls s)) = IRQ_TRX_END ->
  exists s1, handle_irq s = Ok (tt, s1) /\ phy_inv s1 /\
    (rx_status k i <> PHY_SUCCESS ->
       state s1 = PHY_STATE_IDLE /\ calls (chip_of s1) = calls (chip_of s) ++ [(h, rx_status k i)]) /\
    (rx_status k i = PHY_SUCCESS ->
       dma (chip_of s1) = Some (data k, n + 1) /\ data k + (n + 1) <= 128 /\
       forall bytes, Z.of_nat (length bytes) = n + 1 ->
       exists s2, transfer bytes s1 = Ok (tt, s2) /\ phy_inv s2 /\
         (i16 (u32 (clock (reads s2)) - u32 (clock (reads s))) <= 500 ->
          exists s3 k', handle_rx_end s2 = Ok (tt, s3) /\ phy_inv s3 /\ state s3 = PHY_STATE_IDLE /\
            calls (chip_of s3) = calls (chip_of s) ++ [(h, PHY_SUCCESS)] /\
            packets s3 !! l = Some k' /\ length_ k' = u8 (n - 2) /\
            arr_slice (raw_data k') (data k') (n + 1) = Ok bytes /\
            bytes !! Z.to_nat n = Some (lqi k') /\ rssi k' = i8 (-91 + u8 (poll (polls s2))))).
Proof.
  intros i n Hi Hst Hl Hk Hh Hirq.
  assert (wp handle_irq (λ _ s1, phy_inv s1 /\
    (rx_status k i <> PHY_SUCCESS ->
       state s1 = PHY_STATE_IDLE /\ calls (chip_of s1) = calls (chip_of s) ++ [(h, rx_status k i)]) /\
    (rx_status k i = PHY_SUCCESS -> dma (chip_of s1) = Some (data k, n + 1) /\ state s1 = PHY_STATE_RX /\
       pkt s1 = Some l /\ handler s1 = Some h /\ calls (chip_of s1) = calls (chip_of s) /\
       packets s1 = <[l := set_rx_start (u32 (clock (reads s))) (set_length n k)]> (packets s))) s) as Hw.
  { apply (wp_and _ _ _ _ (handle_irq_inv s Hi)). destruct Hi as [Hm Hc]. unfold handle_irq. wps. apply wp_reg_read. wps.
    rewrite Hst, Hirq. change (IRQ_TRX_END =? IRQ_RX_START) with false. change (IRQ_TRX_END =? IRQ_TRX_END) with true.
    cbn iota. wps.
    match goal with |- wp _ _ ?x => set (s1 := x) end.
    assert (chip_of s1 = chip_of s) as Ech by (unfold s1; chip_run; by destruct (foldl chip_step chip0 (fx s))).
    assert (phy_core s1) as Hc1 by (apply (core_ext s); rewrite ?Ech; done).
    apply (wp_handle_rx_start _ s1 l k Hc1 Hst Hl Hk).
    - intros Hne s' Hc' Hst' Hh' Hm' Hca. rewrite bool_decide_false by done. wps. apply wp_call_handler. phy_simpl.
      intros es Hes. split; [|done]. intros _. split; [done|]. chip_run. rewrite Hes. fold (chip_of s').
      cbn [calls]. rewrite Hca, Ech, Hh'. unfold s1. phy_simpl. by rewrite Hh.
    - intros Hok s' t Hc' Hst' Hp' Hpk' -> Hd Hh' Hm' Hca. rewrite bool_decide_true by done. wps.
      split; [done|]. intros _. rewrite Ech in Hca. split_and!; try done. by rewrite Hh'. }
  destruct (wp_ok _ _ _ Hw) as ([] & s1 & E & Hi1 & Herr & Hok). exists s1. split_and!; [done|done|done|].
  intros Hs. destruct (Hok Hs) as (Hd & Hst1 & Hl1 & Hh1 & Hca1 & Hpk1).
  pose proof Hi1 as [_ (_ & _ & _ & _ & C5 & C6)]. destruct (C5 _ _ Hd) as (_ & Hd0 & Hn1 & Hb1). split_and!; [done|done|].
  intros bytes Hlen.
  assert (packets s1 !! l = Some (set_rx_start (u32 (clock (reads s))) (set_length n k))) as Hk1
    by (by rewrite Hpk1, lookup_insert_eq).
  destruct (transfer_spec bytes s1 _ _ l _ Hi1 Hd Hlen Hl1 Hk1)
    as (raw & s2 & Hblit & E2 & Hi2 & Hpk2 & Hl2 & Hst2 & Hh2 & Hr2 & Hp2 & Hca2 & _).
  exists s2. split_and!; [done|done|]. intros Hdt.
  set (k2 := set_raw raw (set_rx_start (u32 (clock (reads s))) (set_length n k))) in *.
  assert (0 <= n) as Hn0 by (pose proof (u8_range (poll (S i))); unfold n, frame_size; lia).
  assert (packets s2 !! l = Some k2) as Hk2 by (by rewrite Hpk2, lookup_insert_eq).
  destruct (handle_rx_end_spec s2 l k2 Hi2) as (q & Hq & Hw3); [by rewrite Hst2|done|done| |].
  { unfold rx_complete. change (length_ k2) with n. change (data k2) with (data k).
    change (t_rx_start k2) with (u32 (clock (reads s))). split; [lia|done]. }
  destruct (wp_ok _ _ _ Hw3) as ([] & s3 & E3 & Hi3 & Hst3 & Hpk3 & Hca3).
  exists s3. eexists. split_and!; [done|done|done| |by rewrite Hpk3, lookup_insert_eq|done| | |done].
  - by rewrite Hca3, Hca2, Hca1, Hh2, Hh1.
  - change (arr_slice raw (data k) (n + 1) = Ok bytes). rewrite <- Hlen. by apply arr_blit_slice with (l := raw_data k).
  - cbn [lqi set_received]. unfold data_get in Hq. change (raw_data k2) with raw in Hq.
    change (data k2 + length_ k2) with (data k + n) in Hq.
    destruct (lookup_lt_is_Some_2 bytes (Z.to_nat n)) as [x Hx]; [lia|].
    rewrite (arr_blit_get _ _ _ _ _ _ Hblit Hx) in Hq by done. by injection Hq as <-.
Qed.

(** A frame of one byte passes the length check, and the two bytes taken off
    its length wrap around. *)
Lemma short_frame_length k i :
  crc_valid i = true -> frame_size (S i) = 1 -> data k + 1 <= PHY_MAX_RX_LENGTH ->
  rx_status k i = PHY_SUCCESS /\ u8 (frame_size (S i) - 2) = 255.
Proof.
  intros Hc Hn Hd. unfold rx_status. rewrite Hc, Hn. cbn [negb]. split; [|done].
  rewrite decide_True; [done|]. split; [done|lia].
Qed.

(** ** Transmission *)

(** The transmission time is too close: less than two ticks are left, modulo 2^16,
    before the chip must be started. *)
Definition tx_too_late (tx_time now : Z) : bool :=
  ctrue tx_time && (i16 (u32 (tx_time - PHY_TIMING__TX_OFFSET) - now) <=? 1).
Definition tx_alarm (tx_time : Z) : option (Z * timer_fn) :=
  if ctrue tx_time then Some (Z.land (u32 (tx_time - PHY_TIMING__TX_OFFSET)) 0xFFFF, TX_START_HANDLER) else None.

Lemma wp_tx_schedule t (Q : bool -> phy -> Prop) s :
  ctrue t = true ->
  (tx_too_late t (u32 (clock (reads s))) = true ->
     Q false (set_counts (S (reads s)) (polls s) (stamps s) (rands s) s)) ->
  (tx_too_late t (u32 (clock (reads s))) = false -> forall es,
     (forall c, foldl chip_step c es = mk_chip (irq c) (low c) (asleep c) (trx c) (tx_alarm t) (dma c)
        (frame c) (cca_reg c) (pwr_reg c) (posted c) (calls c)) ->
     Q true (set_counts (S (reads s)) (polls s) (stamps s) (rands s) (set_fx (fx s ++ es) s))) ->
  wp (tx_schedule t) Q s.
Proof.
  unfold tx_too_late, tx_alarm. intros Ht HF HT. rewrite Ht in *. cbn [andb] in *. unfold tx_schedule. wps.
  rewrite Z.gtb_ltb. destruct (Z.leb_spec (i16 (u32 (t - PHY_TIMING__TX_OFFSET) - u32 (clock (reads s)))) 1) as [Hle|Hgt].
  - destruct (Z.ltb_spec 1 (i16 (u32 (t - PHY_TIMING__TX_OFFSET) - u32 (clock (reads s))))); [lia|]. wps. by apply HF.
  - destruct (Z.ltb_spec 1 (i16 (u32 (t - PHY_TIMING__TX_OFFSET) - u32 (clock (reads s))))); [|lia]. wps.
    set (e := FxTimerCompare _ _). apply wp_when; intros _; wps; rewrite <- ?app_assoc.
    + refine (HT eq_refl ([e] ++ [FxTimerOutput TIMER_OUTPUT_MODE_SET_ACTIVE] ++ [FxSlpTrConfigTimer]) _); by intros [].
    + refine (HT eq_refl [e] _); by intros [].
Qed.

(** A PHY that is sending packet [l] with payload [bytes]: waiting for its time, or
    with the transmission started. *)
Definition sending (tx_time : Z) (l : loc) (h : option nat) (bytes : list Z) (s' : phy) : Prop :=
  pkt s' = Some l /\ handler s' = h /\ frame (chip_of s') = (u8 (Z.of_nat (length bytes) + 2), bytes) /\
  irq (chip_of s') = true /\ timer (chip_of s') = tx_alarm tx_time /\
  state s' = (if ctrue tx_time then PHY_STATE_TX_WAIT else PHY_STATE_TX).

(** Back in the state before the call, without transmission. *)
Definition not_sent (s s' : phy) : Prop := state s' = state s /\ packets s' = packets s /\ timer (chip_of s') = None.

Definition tx_result (tx_time : Z) (l : loc) (h : option nat) (bytes : list Z) (s : phy) (r : phy_status) (s' : phy) : Prop :=
  calls (chip_of s') = calls (chip_of s) /\
  if tx_too_late tx_time (u32 (clock (reads s))) then r = PHY_ERR_TOO_LATE /\ not_sent s s'
  else (r = PHY_SUCCESS /\ sending tx_time l h bytes s') \/ (r = PHY_ERR_INVALID_STATE /\ not_sent s s').

(** Switching the amplifier on does not read the clock. *)
Lemma wp_pa_on (Q : unit -> phy -> Prop) s :
  (forall es p, neutral es -> Q tt (set_counts (reads s) p (stamps s) (rands s) (set_fx (fx s ++ es) s))) -> wp pa_on Q s.
Proof.
  intros HQ. unfold pa_on. apply wp_when; intros _; wps.
  - apply wp_reg_read. wps. rewrite <- !app_assoc.
    refine (HQ ([FxPaEnable] ++ [FxRegRead REG__TRX_CTRL_1] ++ [FxRegWrite REG__TRX_CTRL_1 _]) (S (polls s)) _). by intros [].
  - specialize (HQ [] (polls s) neutral_nil). rewrite app_nil_r in HQ. by destruct s.
Qed.

(** The devices once the chip is commanded to the state before a transmission. *)
Definition pll_chip (c : chip) (tm : option (Z * timer_fn)) (fr : Z * list Z) : chip :=
  mk_chip true (low c) false TRX_STATE__PLL_ON tm (dma c) fr (cca_reg c) (pwr_reg c) (posted c) (calls c).

(** The state in which [phy_tx] prepares the transmission of packet [l]. *)
Definition preparing (s : phy) (tm : option (Z * timer_fn)) (l : loc) (h : option nat) (s2 : phy) : Prop :=
  packets s2 = packets s /\ mutex_ s2 = Some true /\ pkt s2 = Some l /\ handler s2 = h /\
  state s2 = PHY_STATE_TX_WAIT /\ chip_of s2 = pll_chip (chip_of s) tm (frame (chip_of s)).

Lemma preparing_quiet s tm l h s2 r p es :
  neutral es -> preparing s tm l h s2 ->
  preparing s tm l h (set_counts r p (stamps s2) (rands s2) (set_fx (fx s2 ++ es) s2)).
Proof.
  intros Hes (? & ? & ? & ? & ? & E). split_and!; try done. unfold chip_of. phy_simpl. by rewrite foldl_app, Hes.
Qed.

Lemma preparing_counts s tm l h s2 r p t n : preparing s tm l h s2 -> preparing s tm l h (set_counts r p t n s2).
Proof. done. Qed.

Lemma tx_abandon s tm l h s2 (r : phy_status) :
  phy_inv s -> (state s = PHY_STATE_SLEEP \/ state s = PHY_STATE_IDLE) -> preparing s tm l h s2 ->
  wp (mmod (set_state (state s)) ;; back_to_previous ;; give ;; mret r)
    (λ r' s', r' = r /\ not_sent s s' /\ calls (chip_of s') = calls (chip_of s)) s2.
Proof.
  intros [Hm (C1 & C2 & C3 & C4 & C5 & C6)] Hst (Hp2 & Hm2 & _ & _ & _ & E2). wps.
  assert (busy (state s) = false) as Hb by (by destruct Hst as [->| ->]). rewrite Hb in *.
  apply wp_back_to_previous; change (chip_of (set_state (state s) s2)) with (chip_of s2); phy_simpl.
  - unfold idle_pre. phy_simpl. change (chip_of (set_state (state s) s2)) with (chip_of s2). rewrite E2, Hp2, Hb. by split_and!.
  - rewrite E2, Hp2, Hm2. cbn [calls pll_chip]. intros s' _ Hm' Hpk' Hst' Hca Htm. wps. split_and!; [done| |done].
    unfold not_sent. change (chip_of (set_mutex (Some false) s')) with (chip_of s'). phy_simpl. split_and!; [|done|done]. rewrite Hst'. by destruct Hst as [->| ->].
Qed.

(** The last part of [phy_tx]: the frame goes to the chip, and is sent at once if it
    has no time. *)
Lemma tx_launch s tm l h s2 tx_time k bytes :
  preparing s tm l h s2 -> packets s !! l = Some k -> arr_slice (raw_data k) (data k) (length_ k) = Ok bytes ->
  (ctrue tx_time = true -> tm = tx_alarm tx_time) ->
  wp (k ← pkt_load;
      emit (FxFifoWriteFirst (u8 (length_ k + 2))) ;;
      bytes ← mlift (arr_slice (raw_data k) (data k) (length_ k));
      emit (FxFifoWriteAsync bytes) ;;
      emit FxPreventLowPower ;;
      mwhen (negb (ctrue tx_time)) (t ← soft_timer_time; tx_start_handler (u16 t)) ;;
      give ;;
      mret PHY_SUCCESS)
    (λ r s', r = PHY_SUCCESS /\ sending tx_time l h bytes s' /\ calls (chip_of s') = calls (chip_of s)) s2.
Proof.
  intros (Hp2 & Hm2 & Hl2 & Hh2 & Hst2 & E2) Hk Hbs Htm. rewrite <- Hp2 in Hk.
  assert (Z.of_nat (length bytes) = length_ k) as Hn by (by eapply arr_slice_length).
  wps. eapply wp_pkt_load; [exact Hl2|exact Hk|]. wps. eapply wp_lift; [exact Hbs|]. wps.
  unfold sending, tx_alarm in *. destruct (ctrue tx_time); cbn [negb mwhen]; wps.
  - split_and!; try done; chip_run; fold (chip_of s2); rewrite E2, ?Hn; cbn; try done. by apply Htm.
  - eapply wp_tx_start; [exact Hl2|exact Hk|phy_simpl; done|].
    intros _ t es r Hes. wps. split_and!; try done; chip_run; rewrite Hes; fold (chip_of s2); by rewrite E2, ?Hn.
Qed.

(** The end of [phy_tx] once the transmission is scheduled. *)
Lemma tx_wait_launch s tm l h s2 tx_time k bytes :
  clock_runs -> phy_inv s -> (state s = PHY_STATE_SLEEP \/ state s = PHY_STATE_IDLE) ->
  packets s !! l = Some k -> arr_slice (raw_data k) (data k) (length_ k) = Ok bytes ->
  preparing s tm l h s2 -> (ctrue tx_time = true -> tm = tx_alarm tx_time) ->
  tx_too_late tx_time (u32 (clock (reads s))) = false ->
  wp (busy_wait rf2xx_get_status (λ status, status =? TRX_STATUS__PLL_ON)) (λ res, wp (match res with
      | None => mmod (set_state (state s)) ;; back_to_previous ;; give ;; mret PHY_ERR_INVALID_STATE
      | Some _ => k ← pkt_load; emit (FxFifoWriteFirst (u8 (length_ k + 2))) ;;
                  bytes ← mlift (arr_slice (raw_data k) (data k) (length_ k)); emit (FxFifoWriteAsync bytes) ;;
                  emit FxPreventLowPower ;;
                  mwhen (negb (ctrue tx_time)) (t ← soft_timer_time; tx_start_handler (u16 t)) ;;
                  give ;; mret PHY_SUCCESS end) (tx_result tx_time l h bytes s)) s2.
Proof.
  intros Hclk Hi Hst Hk Hbs Hs2 Htm Hlate. apply wp_quiet; [by apply quiet_status|]. intros res es r p Hes.
  apply (preparing_quiet _ _ _ _ _ r p es Hes) in Hs2. unfold tx_result. rewrite Hlate. destruct res.
  - eapply wp_mono; [by eapply tx_launch|]. intros r' s' (-> & Hs' & Hca). by split; [|left].
  - eapply wp_mono; [by eapply tx_abandon|]. intros r' s' (-> & Hs' & Hca). by split; [|right].
Qed.

(** And from the moment the chip has been commanded. *)
Lemma tx_prepared s l h s1 tx_time k bytes :
  clock_runs -> phy_inv s -> (state s = PHY_STATE_SLEEP \/ state s = PHY_STATE_IDLE) ->
  packets s !! l = Some k -> arr_slice (raw_data k) (data k) (length_ k) = Ok bytes ->
  preparing s (timer (chip_of s)) l h s1 -> reads s1 = reads s ->
  wp (scheduled ← (if ctrue tx_time then tx_schedule tx_time else mret true);
      if negb scheduled then
        mmod (set_state (state s)) ;; back_to_previous ;; give ;; mret PHY_ERR_TOO_LATE
      else
        r ← busy_wait rf2xx_get_status (λ status, status =? TRX_STATUS__PLL_ON);
        match r with
        | None => mmod (set_state (state s)) ;; back_to_previous ;; give ;; mret PHY_ERR_INVALID_STATE
        | Some _ =>
            k ← pkt_load; emit (FxFifoWriteFirst (u8 (length_ k + 2))) ;;
            bytes ← mlift (arr_slice (raw_data k) (data k) (length_ k)); emit (FxFifoWriteAsync bytes) ;;
            emit FxPreventLowPower ;;
            mwhen (negb (ctrue tx_time)) (t ← soft_timer_time; tx_start_handler (u16 t)) ;;
            give ;; mret PHY_SUCCESS
        end)
    (tx_result tx_time l h bytes s) s1.
Proof.
  intros Hclk Hi Hst Hk Hbs Hs1 Hr1. apply wp_bind.
  assert (ctrue tx_time = true \/ ctrue tx_time = false) as [Et|Et] by (destruct (ctrue tx_time); auto); rewrite Et at 1.
  - apply (wp_tx_schedule _ _ _ Et); rewrite Hr1.
    + intros Hlate. cbn [negb]. eapply wp_mono; [eapply (tx_abandon s _ l h); [done|done|]|].
      * by apply preparing_counts.
      * intros r s' (-> & Hns & Hca). unfold tx_result. by rewrite Hlate.
    + intros Hlate es Hes. change (negb true) with false. apply wp_bind.
      eapply (tx_wait_launch s (tx_alarm tx_time)); try done.
      apply preparing_counts. destruct Hs1 as (? & ? & ? & ? & ? & E1). split_and!; try done.
      unfold chip_of. phy_simpl. rewrite foldl_app, Hes. fold (chip_of s1). by rewrite E1.
  - apply wp_ret. change (negb true) with false. apply wp_bind. eapply (tx_wait_launch s (timer (chip_of s))); try done.
    all: unfold tx_too_late; by rewrite Et.
Qed.

Lemma phy_tx_sends tx_time l k h bytes s :
  clock_runs -> phy_inv s -> packets s !! l = Some k -> length_ k <= PHY_MAX_TX_LENGTH ->
  arr_slice (raw_data k) (data k) (length_ k) = Ok bytes -> (state s = PHY_STATE_SLEEP \/ state s = PHY_STATE_IDLE) ->
  wp (phy_tx tx_time (Some l) h) (tx_result tx_time l h bytes s) s.
Proof.
  intros Hclk Hi Hk Hlen Hbs Hst. pose proof Hi as [Hm Hc]. unfold phy_tx. wps. eapply wp_lift; [by rewrite Hk|].
  destruct (Z.gtb_spec (length_ k) PHY_MAX_TX_LENGTH); [lia|]. wps.
  apply wp_wake; [by apply core_mutex|done| |]; phy_simpl.
  { intros Hb. exfalso. destruct Hst as [E|E]; rewrite E in Hb; discriminate Hb. }
  intros l1 _ H1. wps. pose proof Hc as (_ & _ & _ & C4 & _).
  assert (asleep (foldl chip_step (chip_of s) l1) = false) as Has.
  { rewrite H1. cbn. case_decide; [done|]. by apply C4. }
  apply wp_reg_read. wps. apply wp_pa_on. phy_simpl. intros l3 p3 H3.
  do 6 wp_step. eapply tx_prepared; try done.
  split_and!; try done. chip_run. fold (chip_of s). rewrite H1 in *. destruct (chip_of s); cbn in *.
  unfold pll_chip. cbn. by rewrite Has.
Qed.

(** C21: [phy_tx] in every case. It refuses, changing nothing, without packet, with a
    payload of more than 125 bytes, or unless the PHY sleeps or is idle. If the time
    is too close, or the chip does not get ready within a millisecond, it returns
    to the state it came from. Otherwise the chip has the frame of the packet, its
    length counting the checksum, and the transmission is started, or the timer set
    to start it ahead of its time. No handler is called yet; the one given is called
    once, with success, when the chip signals the end of the frame. *)
Theorem phy_tx_spec s tx_time l k h bytes :
  clock_runs -> phy_inv s -> packets s !! l = Some k -> arr_slice (raw_data k) (data k) (length_ k) = Ok bytes ->
  phy_tx tx_time None h s = Ok (PHY_ERR_INTERNAL, s) /\
  (PHY_MAX_TX_LENGTH < length_ k -> phy_tx tx_time (Some l) h s = Ok (PHY_ERR_INVALID_LENGTH, s)) /\
  (length_ k <= PHY_MAX_TX_LENGTH -> state s <> PHY_STATE_SLEEP -> state s <> PHY_STATE_IDLE ->
     phy_tx tx_time (Some l) h s = Ok (PHY_ERR_INVALID_STATE, s)) /\
  (length_ k <= PHY_MAX_TX_LENGTH -> state s = PHY_STATE_SLEEP \/ state s = PHY_STATE_IDLE ->
     exists r s', phy_tx tx_time (Some l) h s = Ok (r, s') /\ phy_inv s' /\ tx_result tx_time l h bytes s r s') /\
  (state s = PHY_STATE_TX -> u8 (poll (polls s)) = IRQ_TRX_END ->
     exists s', handle_irq s = Ok (tt, s') /\ phy_inv s' /\ state s' = PHY_STATE_IDLE /\
       calls (chip_of s') = calls (chip_of s) ++ from_option (λ h, [(h, PHY_SUCCESS)]) [] (handler s)).
Proof.
  intros Hclk Hi Hk Hbs. pose proof Hi as [Hm Hc].
  assert (forall r, wp (phy_tx tx_time (Some l) h) (λ r' s', r' = r /\ s' = s) s -> phy_tx tx_time (Some l) h s = Ok (r, s)) as Hret.
  { intros r Hw. by destruct (wp_ok _ _ _ Hw) as (? & ? & E & -> & ->). }
  split_and!.
  - destruct (wp_ok (phy_tx tx_time None h) (λ r s', r = PHY_ERR_INTERNAL /\ s' = s) s) as (? & ? & E & -> & ->); [|done].
    unfold phy_tx. wps. by rewrite phy_unlock_id.
  - intros Hlen. apply Hret. unfold phy_tx. wps. eapply wp_lift; [by rewrite Hk|].
    destruct (Z.gtb_spec (length_ k) PHY_MAX_TX_LENGTH); [|lia]. wps. by rewrite phy_unlock_id.
  - intros Hlen H1 H2. apply Hret. unfold phy_tx. wps. eapply wp_lift; [by rewrite Hk|].
    destruct (Z.gtb_spec (length_ k) PHY_MAX_TX_LENGTH); [lia|]. wps. apply wp_refuse; [done|done|done|]. wps. by rewrite phy_unlock_id.
  - intros Hlen Hst. destruct (wp_ok (phy_tx tx_time (Some l) h) (λ r s', phy_inv s' /\ tx_result tx_time l h bytes s r s') s)
      as (r & s' & E & H1 & H2); [|by exists r, s']. apply wp_and; [|by eapply phy_tx_sends].
    eapply phy_tx_inv; [done|done|exact Hk|]. unfold arr_slice in Hbs. destruct (decide _) as [D|]; [|done].
    pose proof Hc as (_ & _ & _ & _ & _ & C6). destruct (C6 l k Hk) as [Hraw _]. split; lia.
  - intros Hst Hirq. destruct (wp_ok handle_irq (λ _ s', phy_inv s' /\ state s' = PHY_STATE_IDLE /\
       calls (chip_of s') = calls (chip_of s) ++ from_option (λ h, [(h, PHY_SUCCESS)]) [] (handler s)) s)
      as ([] & s' & E & HQ); [|by exists s'].
    unfold handle_irq. wps. apply wp_reg_read. wps. rewrite Hst, Hirq. change (IRQ_TRX_END =? IRQ_TRX_END) with true. cbn iota.
    match goal with |- wp _ _ ?x => set (s1 := x) end.
    assert (chip_of s1 = chip_of s) as Ech by (unfold s1; chip_run; by destruct (foldl chip_step chip0 (fx s))).
    eapply wp_mono; [apply finish_inv; [|done]|].
    + apply core_idle_pre, (core_ext s); rewrite ?Ech; done.
    + intros _ s' (H1 & H2 & _ & H4). rewrite H4, Ech. done.
Qed.
(** ** Energy and channel measures *)

(** [phy_ed] and [phy_cca] in every case. They refuse, changing nothing, unless the
    PHY sleeps or is idle. Otherwise they return with the state, the packets and the
    handlers as they were. On success the value is the one the chip read last: the
    energy in dBm, or 1 exactly if the channel is clear, the assessment being done;
    the radio is off, asleep again if it was. On an internal error there is no value
    and the chip is left awake, in reception, whatever the state was. *)
Theorem phy_measure_spec ed s :
  clock_runs -> phy_inv s ->
  (state s <> PHY_STATE_SLEEP -> state s <> PHY_STATE_IDLE ->
     phy_ed_cca_measure ed s = Ok ((PHY_ERR_INVALID_STATE, None), s)) /\
  (state s = PHY_STATE_SLEEP \/ state s = PHY_STATE_IDLE ->
     exists r v s', phy_ed_cca_measure ed s = Ok ((r, v), s') /\ phy_inv s' /\
       state s' = state s /\ packets s' = packets s /\ calls (chip_of s') = calls (chip_of s) /\
       ((r = PHY_SUCCESS /\ trx (chip_of s') = TRX_STATE__FORCE_TRX_OFF /\
         (asleep (chip_of s') = true <-> state s = PHY_STATE_SLEEP) /\
         exists w n, v = Some w /\ polls s' = S n /\ measured ed (u8 (poll n)) w) \/
        (r = PHY_ERR_INTERNAL /\ v = None /\ asleep (chip_of s') = false /\ trx (chip_of s') = TRX_STATE__RX_ON))).
Proof.
  intros Hclk Hi. pose proof Hi as [Hm Hc]. split.
  - intros H1 H2. destruct (wp_ok (phy_ed_cca_measure ed) (λ r s', r = (PHY_ERR_INVALID_STATE, None) /\ s' = s) s)
      as (r & s' & E & -> & ->); [|exact E].
    unfold phy_ed_cca_measure. wps. apply wp_refuse; [done|done|done|]. wps. by rewrite phy_unlock_id.
  - intros Hst. destruct (wp_ok (phy_ed_cca_measure ed) (λ rv s', phy_inv s' /\
       state s' = state s /\ packets s' = packets s /\ calls (chip_of s') = calls (chip_of s) /\
       ((rv.1 = PHY_SUCCESS /\ trx (chip_of s') = TRX_STATE__FORCE_TRX_OFF /\
         (asleep (chip_of s') = true <-> state s = PHY_STATE_SLEEP) /\
         exists w n, rv.2 = Some w /\ polls s' = S n /\ measured ed (u8 (poll n)) w) \/
        (rv.1 = PHY_ERR_INTERNAL /\ rv.2 = None /\ asleep (chip_of s') = false /\ trx (chip_of s') = TRX_STATE__RX_ON))) s)
      as ([r v] & s' & E & HQ); [|by exists r, v, s'].
    apply wp_and; [by apply phy_measure_inv|]. unfold phy_ed_cca_measure. wps.
    apply wp_wake; [by apply core_mutex|done| |]; phy_simpl.
    { intros Hb. exfalso. destruct Hst as [E|E]; rewrite E in Hb; discriminate Hb. }
    intros l1 _ H1. wps. pose proof Hc as (_ & _ & _ & C4 & _).
    assert (asleep (foldl chip_step (chip_of s) l1) = false) as Has.
    { rewrite H1. cbn. case_decide; [done|]. by apply C4. }
    apply wp_quiet; [by apply quiet_status|]. intros res l2 r2 p2 H2. phy_simpl. rewrite H1 in Has. cbn [asleep] in Has.
    destruct res; wps.
    2:{ split_and!; try done; [|right]; chip_run; fold (chip_of s); rewrite H1; destruct (chip_of s); cbn in *; first [done|by split_and!]. }
    apply wp_measure; [done|]. phy_simpl. intros [w|] l3 r3 p3 H3 Hw; wps.
    2:{ split_and!; try done; [|right]; chip_run; fold (chip_of s); rewrite H1;
        match goal with |- context [foldl chip_step ?c l3] => destruct (H3 c) as (cc & ->) end;
        destruct (chip_of s); cbn in *; first [done|by split_and!]. }
    destruct (Hw w eq_refl) as (n & -> & Hmeas).
    apply wp_back_to_sleep. phy_simpl. intros l4 H4. wps.
    split_and!; try done; [|left]; chip_run; fold (chip_of s); rewrite H4, H1;
      match goal with |- context [foldl chip_step ?c l3] => destruct (H3 c) as (cc & ->) end;
      destruct (chip_of s); cbn in *; [done|]. split_and!; try done; [|by exists w, n].
    case_decide; [done|]. by rewrite Has.
Qed.
End run.

(** ** Examples *)

(** A clock read every ten ticks, and a chip that reports the end of a frame of five
    bytes with a valid checksum. *)
#[local] Instance demo_env : RfEnv := {|
  clock n := 10 * Z.of_nat n;
  poll n := match n with 0%nat => IRQ_TRX_END | 1%nat => RX_CRC_VALID | 2%nat => 5 | _ => 30 end;
  stamp_at _ := mk_alt 0 0;
  rand_at _ := 4;
  rf2xx_has_dig2 := true;
  rf2xx_has_pa := false;
  rf2xx_2_4GHz := true;
  patience := 10;
|}.
Definition demo_packet : phy_packet :=
  mk_phy 0 3 (replicate 128 7) 0 0 0 0 0 0 (mk_alt 0 0) (mk_alt 0 0).
(** The PHY in state [st], after the calls [es], with a packet in use if [st] needs one. *)
Definition demo (m : mutex) (st : phy_state) (es : list effect) : phy :=
  mk_phy_rf2xx m 0 (if busy st then Some 0%nat else None) st (Some 7%nat) 0 false {[0%nat := demo_packet]} es 0 0 0 0.
Definition demo_sleep : phy := demo (Some false) PHY_STATE_SLEEP [].
Definition demo_rx : phy := demo (Some false) PHY_STATE_RX [FxWakeup; FxPreventLowPower; FxIrqEnable].

Lemma demo_clock : clock_runs.
Proof. intros n. exists 4%nat. cbn [clock patience demo_env]. split; [lia|]. assert (RF_MAX_WAIT <= 50 /\ 0 <= RF_MAX_WAIT) as HW by (vm_compute; split; discriminate). lia. Qed.
Lemma demo_answers : chip_answers.
Proof.
  intros n. exists 0%nat. split; [cbn; lia|]. rewrite Nat.add_0_r. cbn [poll demo_env].
  by destruct n as [|[|[|n]]].
Qed.
Lemma demo_packets : map_Forall (λ _, packet_ok) ({[0%nat := demo_packet]} : gmap loc phy_packet).
Proof. apply map_Forall_singleton. by split. Qed.
Lemma demo_sleep_inv : phy_inv demo_sleep.
Proof. split; [done|]. split_and!; try done. apply demo_packets. Qed.
Lemma demo_rx_inv : phy_inv demo_rx.
Proof. split; [done|]. split_and!; try done; [by exists 0%nat; eauto|apply demo_packets]. Qed.

Definition demo_off : phy := demo None PHY_STATE_SLEEP [].
Definition demo_started : phy := match phy_rf2xx_init demo_off with Ok (_, s) => s | Err _ => demo_off end.
Lemma demo_reach : reach demo_started.
Proof.
  apply (reach_init demo_off); [split_and!; [done|done|done|apply demo_packets]|].
  destruct (wp_ok _ _ _ (init_inv demo_off ltac:(split_and!; [done|done|done|apply demo_packets]))) as ([] & s & E & _).
  unfold demo_started. by rewrite E.
Qed.

Lemma phy_rf2xx_safe_witness :
  phy_inv demo_started /\ exists s', run OpIdle demo_started = Ok (tt, s') /\ reach s'.
Proof.
  destruct (phy_rf2xx_safe demo_started demo_clock demo_answers demo_reach) as [Hi Ho].
  split; [exact Hi|]. exact (Ho OpIdle I).
Defined.

(** ** The failures happen *)

(** The capture of the start of a frame is enabled by a reception, and disabled by a reset only. *)
Definition dig2_armed (s : phy) : bool :=
  foldl (λ b e, match e with FxDig2Enable => true | FxDig2Disable => false | _ => b end) false (fx s).
Fixpoint runs {E : RfEnv} (os : list op) : RM unit := match os with [] => mret tt | o :: os => run o ;; runs os end.

(** A chip whose registers are 0. *)
Definition silent_env : RfEnv := {|
  clock n := 10 * Z.of_nat n;
  poll _ := 0;
  stamp_at _ := mk_alt 0 0;
  rand_at _ := 4;
  rf2xx_has_dig2 := true;
  rf2xx_has_pa := false;
  rf2xx_2_4GHz := true;
  patience := 10;
|}.
(** After a reception that the upper layer ended, an energy measure without answer leaves the
    chip in reception and the capture enabled: a frame halts the node. *)
Example dig2_halts :
  match (phy_rf2xx_init (H := silent_env) ;; runs (E := silent_env) [OpRx 0 0 0%nat None; OpIdle; OpEd]) demo_off with
  | Ok (_, s) => state s = PHY_STATE_IDLE /\ trx (chip_of s) = TRX_STATE__RX_ON /\ dig2_armed s = true /\
      run (H := silent_env) (IsrDig2 0) s = Err EHalt
  | Err _ => False
  end.
Proof. vm_compute. done. Qed.

(** The chip of [demo_env], with a slower node: 600 ticks from one reading of the clock to the next. *)
Definition slow_env : RfEnv := {|
  clock n := 600 * Z.of_nat n;
  poll := poll;
  stamp_at _ := mk_alt 0 0;
  rand_at _ := 4;
  rf2xx_has_dig2 := true;
  rf2xx_has_pa := false;
  rf2xx_2_4GHz := true;
  patience := 10;
|}.
Example late_rx_end_halts : runs (E := slow_env) [EvIrq; IsrTransfer [1; 2; 3; 4; 5; 200]; EvRxEnd] demo_rx = Err EHalt.
Proof. vm_compute. done. Qed.

(** The event of a frame read before the upper layer stops the reception is processed for the
    next one: its handler is called with success, and nothing was received. *)
Example stale_rx_end :
  match runs [EvIrq; IsrTransfer [1; 2; 3; 4; 5; 200]; OpIdle; OpRx 0 0 0%nat (Some 9%nat); EvRxEnd] demo_rx with
  | Ok (_, s) => calls (chip_of s) = [(9%nat, PHY_SUCCESS)]
  | Err _ => False
  end.
Proof. vm_compute. done. Qed.

Lemma phy_rx_spec_witness :
  exists s', phy_rx 200 300 (Some 0%nat) (Some 1%nat) demo_sleep = Ok (PHY_SUCCESS, s') /\ phy_inv s' /\
    receiving 200 300 0%nat (Some 1%nat) s'.
Proof.
  destruct (phy_rx_spec demo_sleep 200 300 0%nat demo_packet (Some 1%nat) demo_clock demo_sleep_inv eq_refl) as [_ H].
  destruct (H (or_introl eq_refl)) as (r & s' & E & Hi & _ & _ & Hr). destruct Hr as [-> Hr]. exists s'. split_and!; [exact E|exact Hi|exact Hr].
Defined.

Lemma rx_too_late_window_witness : rx_too_late (u32 1010) (u32 1005) (u32 1000) = false.
Proof. rewrite (proj1 (rx_too_late_window 1000 1010 1005)); [done|done|done|lia|lia]. Defined.

Lemma phy_reception_witness :
  exists s1, handle_irq demo_rx = Ok (tt, s1) /\ dma (chip_of s1) = Some (0, 6) /\
    exists s2, transfer [1; 2; 3; 4; 5; 200] s1 = Ok (tt, s2) /\ phy_inv s2.
Proof.
  destruct (phy_reception demo_rx 0%nat demo_packet 7%nat demo_rx_inv eq_refl eq_refl eq_refl eq_refl ltac:(by vm_compute))
    as (s1 & E & _ & _ & H).
  destruct (H ltac:(by vm_compute)) as (Hd & _ & Ht). exists s1. split_and!; [exact E|exact Hd|].
  destruct (Ht [1; 2; 3; 4; 5; 200] eq_refl) as (s2 & E2 & Hi2 & _). exists s2. split; [exact E2|exact Hi2].
Defined.

Lemma phy_tx_spec_witness :
  exists r s', phy_tx 0 (Some 0%nat) None demo_sleep = Ok (r, s') /\ tx_result 0 0%nat None [7; 7; 7] demo_sleep r s'.
Proof.
  destruct (phy_tx_spec demo_sleep 0 0%nat demo_packet None [7; 7; 7] demo_clock demo_sleep_inv eq_refl eq_refl)
    as (_ & _ & _ & H & _).
  destruct H as (r & s' & E & _ & Hr); [by vm_compute|by left|]. exists r, s'. split; [exact E|exact Hr].
Defined.

Lemma phy_measure_spec_witness :
  exists r v s', phy_ed_cca_measure true demo_sleep = Ok ((r, v), s') /\ phy_inv s' /\ state s' = PHY_STATE_SLEEP.
Proof.
  destruct (phy_measure_spec true demo_sleep demo_clock demo_sleep_inv) as [_ H].
  destruct (H (or_introl eq_refl)) as (r & v & s' & E & Hi & Hs & _). exists r, v, s'. split_and!; [exact E|exact Hi|exact Hs].
Defined.

End PhyRf2xxRun.
