(* ===== verification/Zep.v ===== *)
(** * ZEP encapsulation of sniffed frames ([appli/iotlab/lib/zep_sniffer_format.c])

    [to_zep] writes the ZEP version 2 header, the frame length and the frame
    into a buffer. The static [packet_counter] is passed in and returned. *)

From stdpp Require Import base numbers gmap list.
From S2P Require Import Prelude Phy.

Module Zep.
Import Phy.

Definition JAN_1970 : Z := 2208988800.
Definition FRAC : Z := 4294967296.
Definition ZEP_V2_TYPE_DATA : Z := 1.
Definition ZEP_V2_MODE_CRC : Z := 1.
Definition zep_header : list Z := [0x45; 0x58; 0x02; ZEP_V2_TYPE_DATA].
Definition lqi_crc_mode : Z := ZEP_V2_MODE_CRC.

(** [__builtin_bswap16] and [__builtin_bswap32]. *)
Definition bswap (n : nat) (v : Z) : Z := le_value (reverse (le_bytes n v)).

(** [memcpy(&dst[*index], src, len); *index += len]; [src] is the [len] bytes
    read. *)
Definition append_data (dst : list Z) (index : Z) (src : list Z) : res (list Z * Z) :=
  d ← arr_blit dst index src;
  Ok (d, index + Z.of_nat (length src)).

(** Returns the buffer, the result of the C function and the counter. *)
Definition to_zep (dst : list Z) (pkt : phy_packet) (channel device_id packet_counter : Z)
  : res (list Z * Z * Z) :=
  if (msb (timestamp_alt pkt) =? 0) && (lsb (timestamp_alt pkt) =? 0) then
    Ok (dst, 0, packet_counter)
  else
    let timestamp_nt :=
      Z.lor (u64 (Z.shiftl (u64 (msb (timestamp_alt pkt) + JAN_1970)) 32))
            (u64 (lsb (timestamp_alt pkt) * FRAC) / 1000000) in
    let packet_counter := u32 (packet_counter + 1) in
    let ne_device_id := bswap 2 device_id in
    let ne_seqno := bswap 4 packet_counter in
    let ne_t_msb := bswap 4 (u32 (Z.shiftr timestamp_nt 32)) in
    let ne_t_lsb := bswap 4 (u32 (Z.land timestamp_nt 0xffffffff)) in
    let rx_time_len := u16 (u32 (1000000 * u32 (eop_time pkt - timestamp pkt)) / 32768) in
    let ne_rx_time_len := bswap 2 rx_time_len in
    let length := u8 (length_ pkt + 2) in
    '(reserved, idx) ← append_data (replicate 10 0) 0 (le_bytes 2 ne_rx_time_len);
    '(reserved, idx) ← append_data reserved idx [u8 (rssi pkt)];
    '(dst, index) ← append_data dst 0 zep_header;
    '(dst, index) ← append_data dst index [channel];
    '(dst, index) ← append_data dst index (le_bytes 2 ne_device_id);
    '(dst, index) ← append_data dst index [lqi_crc_mode];
    '(dst, index) ← append_data dst index [lqi pkt];
    '(dst, index) ← append_data dst index (le_bytes 4 ne_t_msb);
    '(dst, index) ← append_data dst index (le_bytes 4 ne_t_lsb);
    '(dst, index) ← append_data dst index (le_bytes 4 ne_seqno);
    '(dst, index) ← append_data dst index reserved;
    '(dst, index) ← append_data dst index [length];
    frame ← arr_slice (raw_data pkt) 0 length;
    '(dst, index) ← append_data dst index frame;
    Ok (dst, index, packet_counter).

(** ** The layout *)

(** The [n] low bytes of [v], most significant first. *)
Definition be (n : nat) (v : Z) : list Z := reverse (le_bytes n v).

Lemma bswap_bytes n v : le_bytes n (bswap n v) = be n v.
Proof.
  unfold bswap, be. rewrite <- (le_bytes_value (reverse (le_bytes n v))) at 2.
  - by rewrite length_reverse, le_bytes_length.
  - apply Forall_reverse, le_bytes_ok.
Qed.

(** The frame of a data packet of ZEP version 2. *)
Definition zep_frame (channel device lqi secs frac seq rx_time rssi : Z) (frame : list Z) : list Z :=
  [0x45; 0x58; 2; 1; channel] ++ be 2 device ++ [1; lqi] ++
  be 4 secs ++ be 4 frac ++ be 4 seq ++
  be 2 rx_time ++ [rssi] ++ replicate 7 0 ++
  [Z.of_nat (length frame)] ++ frame.

(** Several [append_data] in a row. *)
Fixpoint appends (dst : list Z) (i : Z) (fs : list (list Z)) : res (list Z * Z) :=
  match fs with
  | [] => Ok (dst, i)
  | f :: fs => '(d, i) ← append_data dst i f; appends d i fs
  end.

Lemma appends_ok fs : forall dst i,
  0 <= i -> i + Z.of_nat (length (concat fs)) <= Z.of_nat (length dst) ->
  exists d, appends dst i fs = Ok (d, i + Z.of_nat (length (concat fs))) /\
    arr_blit dst i (concat fs) = Ok d.
Proof.
  induction fs as [|f fs IH]; intros dst i Hi Hl; cbn [appends concat] in *.
  - exists dst. rewrite Z.add_0_r. split; [done|]. apply arr_blit_nil. cbn in Hl. lia.
  - rewrite length_app in Hl |- *.
    destruct (arr_blit_app dst i f (concat fs)) as (l1 & l2 & E1 & E2 & E3 & Hlen); [done|lia|].
    destruct (IH l1 (i + Z.of_nat (length f))) as (d & Ed & Eb); [lia|lia|].
    exists d. unfold append_data. rewrite E1. change (mbind ?f (Ok ?x)) with (f x). cbn beta iota.
    change (mbind ?f (Ok ?x)) with (f x). cbn beta iota. rewrite Ed.
    split; [do 2 f_equal; lia|]. congruence.
Qed.

Lemma ntp_words m l :
  0 <= m -> 0 <= l < 1000000 ->
  let t := Z.lor (u64 (Z.shiftl (u64 (m + JAN_1970)) 32)) (u64 (l * FRAC) / 1000000) in
  u32 (Z.shiftr t 32) = u32 (m + JAN_1970) /\ u32 (Z.land t 0xffffffff) = l * FRAC / 1000000.
Proof.
  intros Hm Hl. unfold FRAC. rewrite (u64_id (l * 4294967296)) by lia.
  rewrite (Z.shiftl_mul_pow2 _ 32) by lia. change (2 ^ 32) with 4294967296.
  assert (u64 (u64 (m + JAN_1970) * 4294967296) = u32 (m + JAN_1970) * 2 ^ 32) as ->.
  { change (2 ^ 32) with 4294967296. unfold JAN_1970. mlia. }
  assert (0 <= l * 4294967296 / 1000000 < 2 ^ 32) as Hf by mlia.
  rewrite lor_disjoint_add by lia. change 0xffffffff with (Z.ones 32).
  cbn zeta. rewrite Z.land_ones, Z.shiftr_div_pow2 by lia.
  change (2 ^ 32) with 4294967296 in *. pose proof (u32_range (m + JAN_1970)).
  generalize dependent (l * 4294967296 / 1000000). generalize dependent (u32 (m + JAN_1970)).
  intros; mlia.
Qed.

(** The fields appended, in order, when the packet has a time. *)
Definition zep_fields (pkt : phy_packet) (channel device_id cnt : Z) (frame : list Z) : list (list Z) :=
  [zep_header; [channel]; be 2 device_id; [lqi_crc_mode]; [lqi pkt];
   be 4 (u32 (msb (timestamp_alt pkt) + JAN_1970)); be 4 (lsb (timestamp_alt pkt) * FRAC / 1000000);
   be 4 (u32 (cnt + 1));
   be 2 (u16 (u32 (1000000 * u32 (eop_time pkt - timestamp pkt)) / 32768)) ++ [u8 (rssi pkt)] ++ replicate 7 0;
   [length_ pkt + 2]; frame].

Definition packet_zep_frame (pkt : phy_packet) (channel device_id cnt : Z) (frame : list Z) : list Z :=
  zep_frame channel device_id (lqi pkt)
    (u32 (msb (timestamp_alt pkt) + JAN_1970)) (lsb (timestamp_alt pkt) * FRAC / 1000000)
    (u32 (cnt + 1)) (u16 (u32 (1000000 * u32 (eop_time pkt - timestamp pkt)) / 32768))
    (u8 (rssi pkt)) frame.

Lemma zep_fields_concat pkt channel device_id cnt frame :
  Z.of_nat (length frame) = length_ pkt + 2 ->
  concat (zep_fields pkt channel device_id cnt frame) = packet_zep_frame pkt channel device_id cnt frame /\
  Z.of_nat (length (packet_zep_frame pkt channel device_id cnt frame)) = 32 + 2 + length_ pkt.
Proof.
  intros Hfl. unfold packet_zep_frame, zep_frame. rewrite Hfl. split.
  - unfold zep_fields. cbn [concat]. by rewrite app_nil_r.
  - rewrite !length_app. cbn [length be reverse rev_append le_bytes]. rewrite length_replicate. lia.
Qed.

(** A packet that can be encapsulated: it has a time, and its frame is in its
    buffer. *)
Definition zep_packet (pkt : phy_packet) (frame : list Z) : Prop :=
  0 <= msb (timestamp_alt pkt) /\ 0 <= lsb (timestamp_alt pkt) < 1000000 /\
  ~ (msb (timestamp_alt pkt) = 0 /\ lsb (timestamp_alt pkt) = 0) /\
  0 <= length_ pkt /\ arr_slice (raw_data pkt) 0 (length_ pkt + 2) = Ok frame /\ length_ pkt + 2 < 256.

Lemma to_zep_appends dst pkt channel device_id cnt frame :
  zep_packet pkt frame ->
  to_zep dst pkt channel device_id cnt =
    ('(d, i) ← appends dst 0 (zep_fields pkt channel device_id cnt frame); Ok (d, i, u32 (cnt + 1))).
Proof.
  intros (Hm & Hl & Hnz & Hlen & Hframe & H256). unfold to_zep.
  destruct (ntp_words _ _ Hm Hl) as [Ew1 Ew2]. cbn zeta in Ew1, Ew2.
  assert ((msb (timestamp_alt pkt) =? 0) && (lsb (timestamp_alt pkt) =? 0) = false) as ->.
  { destruct (Z.eqb_spec (msb (timestamp_alt pkt)) 0), (Z.eqb_spec (lsb (timestamp_alt pkt)) 0); tauto. }
  cbn zeta. rewrite Ew1, Ew2, !bswap_bytes, (u8_id (length_ pkt + 2)) by lia. clear Ew1 Ew2.
  unfold zep_fields. set (secs := u32 (msb _ + _)). set (frac := lsb _ * FRAC / _). set (rxt := u16 (_ / 32768)).
  set (seq := u32 (cnt + 1)). rewrite Hframe.
  change (append_data (replicate 10 0) 0 (be 2 rxt)) with (Ok (be 2 rxt ++ replicate 8 0, 2)).
  change (mbind ?f (Ok ?x)) with (f x). cbn beta iota.
  change (append_data (be 2 rxt ++ replicate 8 0) 2 [u8 (rssi pkt)])
    with (Ok (be 2 rxt ++ [u8 (rssi pkt)] ++ replicate 7 0, 3)).
  change (mbind ?f (Ok ?x)) with (f x). cbn beta iota.
  unfold appends, mbind, res_bind.
  repeat match goal with
  | |- context [match append_data ?a ?b ?c with _ => _ end] =>
      destruct (append_data a b c) as [[? ?]|]; [|done]
  end. done.
Qed.

Lemma to_zep_ok dst pkt channel device_id cnt frame :
  zep_packet pkt frame -> 32 + 2 + length_ pkt <= Z.of_nat (length dst) ->
  exists dst',
    to_zep dst pkt channel device_id cnt = Ok (dst', 32 + 2 + length_ pkt, u32 (cnt + 1)) /\
    arr_blit dst 0 (packet_zep_frame pkt channel device_id cnt frame) = Ok dst'.
Proof.
  intros Hp Hdst. destruct (zep_fields_concat pkt channel device_id cnt frame) as [Hc Hlc].
  { destruct Hp as (_ & _ & _ & _ & Hf & _). by apply arr_slice_length in Hf. }
  destruct (appends_ok (zep_fields pkt channel device_id cnt frame) dst 0) as (d & Ed & Eb); [lia|rewrite Hc; lia|].
  exists d. rewrite (to_zep_appends _ _ _ _ _ frame Hp), Ed. rewrite Hc, Z.add_0_l, Hlc in *. done.
Qed.

Lemma appends_overflow fs : forall dst i,
  0 <= i <= Z.of_nat (length dst) -> Z.of_nat (length dst) < i + Z.of_nat (length (concat fs)) ->
  appends dst i fs = Err EUndef.
Proof.
  induction fs as [|f fs IH]; intros dst i Hi Hl; cbn [appends concat] in *; [cbn in Hl; lia|].
  rewrite length_app in Hl. unfold append_data, arr_blit. case_decide as D; [|done].
  change (mbind ?f (Ok ?x)) with (f x). cbn beta iota. change (mbind ?f (Ok ?x)) with (f x). cbn beta iota.
  assert (forall l : list Z, length l = length dst -> appends l (i + Z.of_nat (length f)) fs = Err EUndef) as Hrest
    by (intros l Hll; apply IH; lia).
  apply Hrest. rewrite !length_app, length_take, length_drop. lia.
Qed.

(** A frame too long for the buffer is written past its end. *)
Lemma to_zep_overflow dst pkt channel device_id cnt frame :
  zep_packet pkt frame -> Z.of_nat (length dst) < 32 + 2 + length_ pkt ->
  to_zep dst pkt channel device_id cnt = Err EUndef.
Proof.
  intros Hp Hdst. destruct (zep_fields_concat pkt channel device_id cnt frame) as [Hc Hlc].
  { destruct Hp as (_ & _ & _ & _ & Hf & _). by apply arr_slice_length in Hf. }
  rewrite (to_zep_appends _ _ _ _ _ frame Hp), appends_overflow; [done|lia|rewrite Hc; lia].
Qed.

(** [to_zep] writes exactly the ZEP frame of the packet at the start of the
    buffer and returns its size, 34 bytes more than the frame: the fields in
    network byte order, the time of reception as an NTP timestamp (to the
    microsecond, rounded down), the sequence number one above the previous,
    then the length with the two bytes of the FCS and the raw frame. *)
Theorem to_zep_layout dst pkt channel device_id cnt frame :
  0 <= msb (timestamp_alt pkt) -> 0 <= lsb (timestamp_alt pkt) < 1000000 ->
  ~ (msb (timestamp_alt pkt) = 0 /\ lsb (timestamp_alt pkt) = 0) ->
  0 <= length_ pkt -> arr_slice (raw_data pkt) 0 (length_ pkt + 2) = Ok frame ->
  length_ pkt + 2 < 256 -> 32 + 2 + length_ pkt <= Z.of_nat (length dst) ->
  exists dst',
    to_zep dst pkt channel device_id cnt = Ok (dst', 32 + 2 + length_ pkt, u32 (cnt + 1)) /\
    arr_blit dst 0 (zep_frame channel device_id (lqi pkt)
      (u32 (msb (timestamp_alt pkt) + JAN_1970)) (lsb (timestamp_alt pkt) * FRAC / 1000000)
      (u32 (cnt + 1)) (u16 (u32 (1000000 * u32 (eop_time pkt - timestamp pkt)) / 32768))
      (u8 (rssi pkt)) frame) = Ok dst'.
Proof. intros. apply to_zep_ok; [unfold zep_packet; tauto|done]. Qed.

(** *** Concrete instance *)

Definition sniffed : phy_packet :=
  mk_phy 0 4 [0x41; 0x88; 0x01; 0x02; 0xAA; 0xBB; 0; 0] (-50) 200 1000 1040 0 0
    (mk_alt 250000 1400000000) (mk_alt 0 0).

Lemma to_zep_layout_witness :
  exists dst', to_zep (replicate 64 0) sniffed 17 0x1234 41 = Ok (dst', 38, 42).
Proof.
  destruct (to_zep_layout (replicate 64 0) sniffed 17 0x1234 41 [0x41; 0x88; 0x01; 0x02; 0xAA; 0xBB])
    as (dst' & E & _); try (vm_compute; intuition discriminate); try reflexivity.
  exists dst'. exact E.
Defined.

End Zep.
