(* ===== verification/IotlabSerial.v ===== *)
(** * Serial link of the control node ([appli/iotlab/lib/iotlab_serial.[ch]])

    Commands arrive byte by byte ([char_rx]) into a packet of the reception
    pool, are handled by [packet_received] in the event task, and answers and
    measures leave through a priority queue emptied by the transmission task.
    The state holds the fields of the global [ser], the two static variables of
    [char_rx], the packets and queues ([IotlabPacket]), the event queues, the
    chained handler objects, whether the low-priority interrupt is pending, and
    the byte blocks handed to the UART. *)

From stdpp Require Import base numbers gmap sorting list.
From S2P Require Import Prelude Chain Packet IotlabPacket Event SoftTime.

Module IotlabSerial.
Import Packet IotlabPacket Event.

Definition SYNC_BYTE : Z := 0x80.
Definition ACK : Z := 0x0A.
Definition NACK : Z := 0x02.
Definition IOTLAB_SERIAL_HEADER_SIZE : Z := 3.
Definition PAYLOAD_MAX `{!Build} : Z := PACKET_MAX_SIZE - IOTLAB_SERIAL_HEADER_SIZE.
Definition IOTLAB_SERIAL_DATA_MAX_SIZE `{!Build} : Z := if PAYLOAD_MAX <? 254 then PAYLOAD_MAX else 254.

(** The sizes, for arithmetic. *)
Lemma payload_max_spec `{!Build} :
  PAYLOAD_MAX = Z.of_nat packet_size - 3 /\ 125 <= PAYLOAD_MAX <= 253 /\ IOTLAB_SERIAL_DATA_MAX_SIZE = PAYLOAD_MAX.
Proof.
  pose proof packet_size_spec. unfold IOTLAB_SERIAL_DATA_MAX_SIZE.
  assert (PAYLOAD_MAX = PACKET_MAX_SIZE - 3) as -> by done.
  destruct (Z.ltb_spec (PACKET_MAX_SIZE - 3) 254); lia.
Qed.
Ltac sizes := pose proof payload_max_spec as (HS1 & HS2 & HS3); pose proof packet_size_spec as [HS4 HS5].
Definition IOTLAB_SERIAL_ANSWER_PRIORITY : Z := 0x80.

(** [F] is the type of the handler functions. *)
Record iotlab_serial_handler {F : Type} := mk_handler {
  cmd_type : Z;
  handler : F;
  h_next : ptr;
}.
Arguments iotlab_serial_handler F : clear implicits.

#[global] Instance handler_linked {F} : Linked (iotlab_serial_handler F).
Proof.
  refine {| next_of := h_next; set_next p k := mk_handler F (cmd_type k) (handler k) p |}.
  - done.
  - by intros [].
  - done.
Defined.

(** Handlers posted to the event queues: [packet_received] and others. *)
Inductive serial_event (H : Type) := PacketReceived | Other (h : H).
Arguments PacketReceived {H}.
Arguments Other {H} h.

Record serial {F H : Type} := mk_serial {
  first_handler : ptr;
  handlers : gmap loc (iotlab_serial_handler F);
  tx_fifo : nat;
  tx_pkt : ptr;
  irq_triggered : bool;
  tx_end_event : Z;
  rx_pkt : ptr;
  ready_pkt : ptr;
  rx_queue : nat;
  rx_index : Z;
  last_start_time : Z;
  pending : bool;
  red_led : bool;
  uart_out : list (list Z);
  io : iot;
  evs : events (serial_event H);
}.
Arguments serial F H : clear implicits.

Section serial.
Context {F H : Type} {build : Build}.
Abbreviation SM := (M (serial F H)).
Implicit Types (s : serial F H).

Definition set_handlers f hs s := mk_serial F H f hs (tx_fifo s) (tx_pkt s) (irq_triggered s)
  (tx_end_event s) (rx_pkt s) (ready_pkt s) (rx_queue s) (rx_index s) (last_start_time s)
  (pending s) (red_led s) (uart_out s) (io s) (evs s).
Definition set_tx pkt irq ev s := mk_serial F H (first_handler s) (handlers s) (tx_fifo s) pkt irq
  ev (rx_pkt s) (ready_pkt s) (rx_queue s) (rx_index s) (last_start_time s)
  (pending s) (red_led s) (uart_out s) (io s) (evs s).
Definition set_rx rx ready s := mk_serial F H (first_handler s) (handlers s) (tx_fifo s) (tx_pkt s)
  (irq_triggered s) (tx_end_event s) rx ready (rx_queue s) (rx_index s) (last_start_time s)
  (pending s) (red_led s) (uart_out s) (io s) (evs s).
Definition set_index i t s := mk_serial F H (first_handler s) (handlers s) (tx_fifo s) (tx_pkt s)
  (irq_triggered s) (tx_end_event s) (rx_pkt s) (ready_pkt s) (rx_queue s) i t
  (pending s) (red_led s) (uart_out s) (io s) (evs s).
Definition set_pending b s := mk_serial F H (first_handler s) (handlers s) (tx_fifo s) (tx_pkt s)
  (irq_triggered s) (tx_end_event s) (rx_pkt s) (ready_pkt s) (rx_queue s) (rx_index s)
  (last_start_time s) b (red_led s) (uart_out s) (io s) (evs s).
Definition set_led b s := mk_serial F H (first_handler s) (handlers s) (tx_fifo s) (tx_pkt s)
  (irq_triggered s) (tx_end_event s) (rx_pkt s) (ready_pkt s) (rx_queue s) (rx_index s)
  (last_start_time s) (pending s) b (uart_out s) (io s) (evs s).
Definition set_uart_out o s := mk_serial F H (first_handler s) (handlers s) (tx_fifo s) (tx_pkt s)
  (irq_triggered s) (tx_end_event s) (rx_pkt s) (ready_pkt s) (rx_queue s) (rx_index s)
  (last_start_time s) (pending s) (red_led s) o (io s) (evs s).
Definition set_io i s := mk_serial F H (first_handler s) (handlers s) (tx_fifo s) (tx_pkt s)
  (irq_triggered s) (tx_end_event s) (rx_pkt s) (ready_pkt s) (rx_queue s) (rx_index s)
  (last_start_time s) (pending s) (red_led s) (uart_out s) i (evs s).
Definition set_evs e s := mk_serial F H (first_handler s) (handlers s) (tx_fifo s) (tx_pkt s)
  (irq_triggered s) (tx_end_event s) (rx_pkt s) (ready_pkt s) (rx_queue s) (rx_index s)
  (last_start_time s) (pending s) (red_led s) (uart_out s) (io s) e.

#[global] Instance io_lens : Lens (serial F H) iot.
Proof. refine {| view := io; over := set_io |}; [done|by intros []|done]. Defined.
#[global] Instance serial_evs_lens : Lens (serial F H) (events (serial_event H)).
Proof. refine {| view := evs; over := set_evs |}; [done|by intros []|done]. Defined.

(** A [packet_t] of the store, from the serial state. *)
Definition pkt_load (p : loc) : SM packet := mzoom (T := iot) (mzoom (load (Some p))).
Definition pkt_store (p : loc) (k : packet) : SM unit :=
  mzoom (T := iot) (mzoom (store (Some p) k)).

(** Writing the STIR register makes the interrupt line pending. *)
Definition uart_low_priority_interrupt_trigger : SM unit := mmod (set_pending true).

Definition iotlab_serial_packet_alloc (q : nat) : SM ptr :=
  mzoom (iotlab_packet_alloc q IOTLAB_SERIAL_HEADER_SIZE).

Definition iotlab_serial_packet_free_space (packet : loc) : SM Z :=
  k ← pkt_load packet;
  mret (IOTLAB_SERIAL_DATA_MAX_SIZE - length_ k).

Definition allocate_rx_packet : SM unit :=
  s ← mget;
  match rx_pkt s with
  | None => p ← iotlab_serial_packet_alloc (rx_queue s); mmod (λ s, set_rx p (ready_pkt s) s)
  | Some _ => mret tt
  end.

(** [rx_packets] are the addresses of the elements of [ser.rx.packets]. The
    UART, interrupt controller and task creation calls have no effect on this
    state beyond the pending flag, which is clear after reset. *)
Definition iotlab_serial_start (rx_packets : list loc) : SM unit :=
  s ← mget;
  mmod (λ s, set_tx (tx_pkt s) (irq_triggered s) 0 s) ;;
  mzoom (iotlab_packet_init_queue (rx_queue s) rx_packets) ;;
  mmod (λ s, set_handlers None (handlers s) s) ;;
  mzoom (iotlab_packet_init_queue (tx_fifo s) []) ;;
  mmod (λ s, set_tx None false (tx_end_event s) s) ;;
  mmod (set_rx None None) ;;
  allocate_rx_packet.

(** ** Handlers *)

Definition iotlab_serial_register_handler (h : loc) : SM unit :=
  s ← mget;
  k ← mlift (of_option EUndef (handlers s !! h));
  mmod (set_handlers (Some h) (<[h := set_next (first_handler s) k]> (handlers s))).

Fixpoint handler_loop (fuel : nat) (hs : gmap loc (iotlab_serial_handler F)) (p : ptr) (cmd : Z)
  : res ptr :=
  match fuel with
  | O => Err EFuel
  | S fuel =>
      match p with
      | None => Ok None
      | Some l =>
          k ← of_option EUndef (hs !! l);
          if cmd_type k =? cmd then Ok (Some l) else handler_loop fuel hs (h_next k) cmd
      end
  end.

Definition iotlab_serial_get_handler (cmd : Z) : SM ptr :=
  s ← mget;
  mlift (handler_loop (S (size (handlers s))) (handlers s) (first_handler s) cmd).

(** ** Transmission *)

(** Results 1 and 2 are the errors of the C code. *)
Definition iotlab_serial_init_tx_packet (type : Z) (packet : loc) : SM Z :=
  k ← pkt_load packet;
  if length_ k >? PAYLOAD_MAX then mmod (set_led true) ;; mret 1
  else if data k <? IOTLAB_SERIAL_HEADER_SIZE then mmod (set_led true) ;; mret 2
  else
    raw ← mlift (arr_set (raw_data k) 0 SYNC_BYTE);
    raw ← mlift (arr_set raw 1 (u8 (length_ k + 1)));
    raw ← mlift (arr_set raw 2 type);
    pkt_store packet (mk_packet raw (data k) (u16 (length_ k + IOTLAB_SERIAL_HEADER_SIZE)) (next k)) ;;
    mret 0.

Definition iotlab_serial_send_frame (type : Z) (packet : loc) : SM Z :=
  ret ← iotlab_serial_init_tx_packet type packet;
  if ctrue ret then mret ret
  else
    s ← mget;
    mzoom (iotlab_packet_fifo_prio_append (tx_fifo s) packet) ;;
    mret 0.

Definition iotlab_serial_send_result (packet : loc) (cmd result : Z) : SM unit :=
  e ← mzoom (ext_load packet);
  mzoom (ext_store packet (mk_ext (timestamp e) (free e) IOTLAB_SERIAL_ANSWER_PRIORITY
                             (storage_queue e))) ;;
  k ← pkt_load packet;
  raw ← mlift (arr_set (raw_data k) (data k) (if result =? 0 then ACK else NACK));
  pkt_store packet (mk_packet raw (data k) 1 (next k)) ;;
  iotlab_serial_send_frame cmd packet ;;
  mret tt.

Definition tx_done_isr : SM unit :=
  mmod (λ s, set_tx (tx_pkt s) true (tx_end_event s) s) ;;
  uart_low_priority_interrupt_trigger.

(** The interrupts that run while [send_packet] waits are [isrs]. *)
Definition send_packet (now : Z) (isrs : SM unit) (packet : loc) : SM unit :=
  e ← mzoom (ext_load packet);
  mzoom (ext_store packet (mk_ext now (free e) (priority e) (storage_queue e))) ;;
  k ← pkt_load packet;
  block ← mlift (arr_slice (raw_data k) 0 (length_ k));
  mmod (λ s, set_uart_out (uart_out s ++ [block]) s) ;;
  isrs ;;
  s ← mget;
  if tx_end_event s =? 0 then mfail EBlock
  else mmod (λ s, set_tx (tx_pkt s) (irq_triggered s) (tx_end_event s - 1) s).

(** One iteration of [iotlab_serial_tx_task]. *)
Definition iotlab_serial_tx_task_iter (fuel : nat) (env : nat -> M iot unit) (now : Z)
    (isrs : SM unit) : SM unit :=
  s ← mget;
  p ← mzoom (iotlab_packet_fifo_get fuel env (tx_fifo s));
  match p with
  | None => mfail EUndef
  | Some packet => send_packet now isrs packet ;; mzoom (iotlab_packet_call_free packet)
  end.

(** ** Interrupt handlers *)

Definition check_uart : SM unit :=
  allocate_rx_packet ;;
  s ← mget;
  (match ready_pkt s with
   | Some _ => mzoom (event_post_from_isr EVENT_QUEUE_APPLI PacketReceived 0) ;; mret tt
   | None => mret tt
   end) ;;
  s ← mget;
  mwhen (irq_triggered s)
    (mmod (λ s, set_tx (tx_pkt s) false (Z.min 1 (tx_end_event s + 1)) s)).

Definition idle_hook_uart : SM Z :=
  s ← mget;
  match ready_pkt s with
  | Some _ => uart_low_priority_interrupt_trigger ;; mret 1
  | None => mret 0
  end.

(** The switch of [char_rx] on [rx_index]: [false] when the character is
    dropped. *)
Definition char_rx_switch (p : loc) (now c : Z) : SM bool :=
  s ← mget;
  if rx_index s =? 0 then
    if negb (c =? SYNC_BYTE) then mret false
    else
      mmod (λ s, set_index (rx_index s) now s) ;;
      e ← mzoom (ext_load p);
      mzoom (ext_store p (mk_ext now (free e) (priority e) (storage_queue e))) ;;
      mret true
  else if rx_index s =? 1 then
    k ← pkt_load p;
    pkt_store p (mk_packet (raw_data k) (data k) (2 + c) (next k)) ;;
    mret true
  else mret true.

(** [now] is the value of [soft_timer_time()]. *)
Definition char_rx (now c : Z) : SM unit :=
  s ← mget;
  match rx_pkt s with
  | None => mmod (λ s, set_index 0 (last_start_time s) s)
  | Some p =>
      mwhen (ctrue (last_start_time s) &&
             (u32 (now - last_start_time s) >? SoftTime.soft_timer_ms_to_ticks 100))
        (mmod (set_index 0 0)) ;;
      go ← char_rx_switch p now c;
      if negb go then mret tt
      else
        s ← mget;
        k ← pkt_load p;
        raw ← mlift (arr_set (raw_data k) (rx_index s) c);
        pkt_store p (mk_packet raw (data k) (length_ k) (next k)) ;;
        let i := u16 (rx_index s + 1) in
        mmod (λ s, set_index i (last_start_time s) s) ;;
        if i <? 2 then mret tt
        else
          mwhen (i =? length_ k)
            (mmod (set_index 0 0) ;;
             mmod (λ s, set_rx (rx_pkt s) (rx_pkt s) s) ;;
             mmod (λ s, set_rx None (ready_pkt s) s) ;;
             uart_low_priority_interrupt_trigger)
  end.

(** The characters [cs], each with its time. *)
Fixpoint char_rx_all (cs : list (Z * Z)) : SM unit :=
  match cs with
  | [] => mret tt
  | (now, c) :: cs => char_rx now c ;; char_rx_all cs
  end.
End serial.

(** ** Command processing, in the state [S] of the application *)

Section commands.
Context {F H S : Type} {build : Build} `{!Lens S (serial F H)}.
(** What calling a handler function does. *)
Variable run : F -> Z -> loc -> M S Z.

Definition iotlab_serial_call_handler (cmd : Z) (packet : loc) : M S Z :=
  k ← mzoom (pkt_load packet);
  mzoom (pkt_store packet (mk_packet (raw_data k) (data k)
           (u16 (length_ k - IOTLAB_SERIAL_HEADER_SIZE)) (next k))) ;;
  h ← mzoom (iotlab_serial_get_handler (F := F) (H := H) cmd);
  match h with
  | None => mret 1
  | Some l =>
      s ← mget;
      k ← mlift (of_option EUndef (handlers (view s) !! l));
      run (handler k) cmd packet
  end.

Definition packet_received : M S unit :=
  s ← mget;
  match ready_pkt (view s) with
  | None => mret tt
  | Some packet =>
      mzoom (mmod (λ s, set_rx (rx_pkt s) None s)) ;;
      k ← mzoom (pkt_load packet);
      cmd ← mlift (arr_get (raw_data k) 2);
      result ← iotlab_serial_call_handler cmd packet;
      mzoom (iotlab_serial_send_result packet cmd result)
  end.
End commands.

(** The frame on the wire. *)
Definition wire (type : Z) (payload : list Z) : list Z :=
  SYNC_BYTE :: Z.of_nat (length payload) + 1 :: type :: payload.

(** ** Reception *)

Section reception.
Context {F H : Type} {build : Build}.
Implicit Types (s : serial F H).

Definition upd_pkt (p : loc) (k : packet) s : serial F H :=
  set_io (set_cells (<[p := k]> (cells (io s))) (io s)) s.
Definition upd_ext (p : loc) (e : iotlab_ext) s : serial F H :=
  set_io (set_exts (<[p := e]> (exts (io s))) (io s)) s.

Lemma pkt_load_ok s p k : cells (io s) !! p = Some k -> pkt_load p s = Ok (k, s).
Proof.
  intros E. unfold pkt_load. erewrite zoom_ok by (by apply cell_load_ok). by destruct s.
Qed.

Lemma pkt_store_ok s p k k' :
  cells (io s) !! p = Some k -> pkt_store p k' s = Ok (tt, upd_pkt p k' s).
Proof. intros E. unfold pkt_store. by erewrite zoom_ok by (by eapply cell_store_ok). Qed.

Lemma serial_ext_load_ok s p e :
  exts (io s) !! p = Some e -> mzoom (S := serial F H) (ext_load p) s = Ok (e, s).
Proof. intros E. erewrite zoom_ok by (by apply ext_load_ok). by destruct s. Qed.

Lemma serial_ext_store_ok s p e e' :
  exts (io s) !! p = Some e ->
  mzoom (S := serial F H) (ext_store p e') s = Ok (tt, upd_ext p e' s).
Proof. intros E. by erewrite zoom_ok by (by eapply ext_store_ok). Qed.

Lemma lookup_upd_pkt s p k : cells (io (upd_pkt p k s)) !! p = Some k.
Proof. apply lookup_insert_eq. Qed.

Lemma upd_pkt_twice s p k k' : upd_pkt p k (upd_pkt p k' s) = upd_pkt p k s.
Proof.
  unfold upd_pkt, set_io, set_cells, cells, set_pkts. cbn. by rewrite insert_insert_eq.
Qed.

Lemma upd_pkt_index s p k i t : upd_pkt p k (set_index i t s) = set_index i t (upd_pkt p k s).
Proof. done. Qed.

(** The timeout of [char_rx] does not fire at time [now]. *)
Definition in_time (t0 now : Z) : Prop :=
  ctrue t0 && (u32 (now - t0) >? SoftTime.soft_timer_ms_to_ticks 100) = false.

(** The end of a frame: the packet changes hands and the interrupt is
    requested. *)
Definition completed (p : loc) s : serial F H :=
  set_pending true (set_rx None (Some p) (set_index 0 0 s)).

(** A byte after the two first ones. *)
Lemma char_rx_byte s p k now c :
  rx_pkt s = Some p -> 2 <= rx_index s < PACKET_MAX_SIZE -> cells (io s) !! p = Some k ->
  length (raw_data k) = packet_size -> in_time (last_start_time s) now ->
  let k' := mk_packet (<[Z.to_nat (rx_index s) := c]> (raw_data k)) (data k) (length_ k) (next k) in
  let i := rx_index s + 1 in
  char_rx now c s = Ok (tt,
    if i =? length_ k then completed p (upd_pkt p k' s)
    else set_index i (last_start_time s) (upd_pkt p k' s)).
Proof.
  sizes. intros Hp Hi Hk Hraw Ht k' i. unfold char_rx. mrun. rewrite Hp, Ht. cbn [mwhen]. mrun.
  unfold char_rx_switch. mrun. destruct (Z.eqb_spec (rx_index s) 0); [lia|].
  destruct (Z.eqb_spec (rx_index s) 1); [lia|]. mrun. cbn [negb]. mrun.
  erewrite bind_ok by (by apply pkt_load_ok). mrun.
  rewrite arr_set_ok by lia. erewrite bind_ok by (by eapply pkt_store_ok).
  rewrite u16_id by lia. mrun. fold i. destruct (Z.ltb_spec i 2); [lia|].
  destruct (Z.eqb_spec i (length_ k)); cbn [mwhen]; [|done].
  mrun. cbn. unfold completed, set_rx, set_index. cbn. by rewrite Hp.
Qed.

(** The rest of a frame, from its third byte on. *)
Lemma char_rx_tail cs : forall s p k,
  cs <> [] -> rx_pkt s = Some p -> 2 <= rx_index s -> cells (io s) !! p = Some k ->
  length (raw_data k) = packet_size -> length_ k = rx_index s + Z.of_nat (length cs) ->
  length_ k <= PACKET_MAX_SIZE -> Forall (λ tc, in_time (last_start_time s) tc.1) cs ->
  exists raw,
    arr_blit (raw_data k) (rx_index s) cs.*2 = Ok raw /\
    char_rx_all cs s =
      Ok (tt, completed p (upd_pkt p (mk_packet raw (data k) (length_ k) (next k)) s)).
Proof.
  sizes. induction cs as [|[now c] cs IH]; intros s p k Hne Hp Hi Hk Hraw Hlen Hmax Hts; [done|].
  apply Forall_cons in Hts as [Ht Hts]. cbn in Ht. cbn [length] in Hlen.
  cbn [char_rx_all fmap list_fmap snd].
  erewrite bind_ok by (apply (char_rx_byte s p k now c); [done|lia|done|done|done]).
  destruct cs as [|tc cs].
  - destruct (Z.eqb_spec (rx_index s + 1) (length_ k)); [|cbn in Hlen; lia].
    eexists. split; [|done]. apply arr_set_blit; [|lia].
    apply arr_blit_nil. rewrite length_insert. lia.
  - destruct (Z.eqb_spec (rx_index s + 1) (length_ k)); [cbn in Hlen; lia|].
    set (k' := mk_packet _ _ _ _). set (s1 := set_index _ _ _).
    destruct (IH s1 p k') as (raw & Eb & E); try done.
    + cbn. lia.
    + apply lookup_upd_pkt.
    + cbn. by rewrite length_insert.
    + cbn in Hlen |- *. lia.
    + exists raw. split.
      * apply arr_set_blit; [exact Eb|lia].
      * rewrite E. do 2 f_equal. unfold completed, s1.
        by rewrite upd_pkt_index, upd_pkt_twice.
Qed.

Definition stamp (now : Z) (e : iotlab_ext) := mk_ext now (free e) (priority e) (storage_queue e).
Definition set_raw0 (raw : list Z) (len : Z) (k : packet) := mk_packet raw (data k) len (next k).

(** The first byte of a frame, whether or not an old frame timed out. *)
Lemma char_rx_sync s p k e now :
  rx_pkt s = Some p -> rx_index s = 0 -> cells (io s) !! p = Some k -> exts (io s) !! p = Some e ->
  length (raw_data k) = packet_size ->
  char_rx now SYNC_BYTE s = Ok (tt, set_index 1 now
    (upd_pkt p (set_raw0 (<[0%nat := SYNC_BYTE]> (raw_data k)) (length_ k) k) (upd_ext p (stamp now e) s))).
Proof.
  sizes. intros Hp Hi Hk He Hraw. unfold char_rx. mrun. rewrite Hp.
  set (b := ctrue _ && _). assert (exists s0, mwhen b (mmod (set_index 0 0)) s = Ok (tt, s0) /\
    (s0 = s \/ s0 = set_index 0 0 s)) as (s0 & E0 & Hs0) by (destruct b; eauto).
  erewrite bind_ok by exact E0. unfold char_rx_switch. mrun.
  assert (rx_index s0 = 0) as -> by (destruct Hs0 as [->| ->]; done). cbn [Z.eqb].
  change (negb (SYNC_BYTE =? SYNC_BYTE)) with false. cbn iota. mrun.
  erewrite bind_ok by (apply serial_ext_load_ok; destruct Hs0 as [->| ->]; exact He). mrun.
  erewrite bind_ok by (eapply serial_ext_store_ok; destruct Hs0 as [->| ->]; exact He). mrun.
  cbn [negb]. mrun.
  erewrite bind_ok by (apply pkt_load_ok; destruct Hs0 as [->| ->]; exact Hk). mrun.
  assert (rx_index s0 = 0) as Hi0 by (destruct Hs0 as [->| ->]; done).
  cbn [rx_index upd_ext set_io set_index]. rewrite Hi0. rewrite arr_set_ok by lia.
  erewrite bind_ok by (eapply pkt_store_ok; destruct Hs0 as [->| ->]; exact Hk).
  rewrite bind_mod. change (u16 (0 + 1)) with 1. cbn [Z.ltb].
  change (1 <? 2) with true. cbn iota. do 2 f_equal.
  by destruct Hs0 as [->| ->].
Qed.

(** The length byte. *)
Lemma char_rx_length s p k now c :
  rx_pkt s = Some p -> rx_index s = 1 -> cells (io s) !! p = Some k ->
  length (raw_data k) = packet_size -> in_time (last_start_time s) now -> 0 < c ->
  char_rx now c s = Ok (tt, set_index 2 (last_start_time s)
    (upd_pkt p (set_raw0 (<[1%nat := c]> (raw_data k)) (2 + c) k) s)).
Proof.
  sizes. intros Hp Hi Hk Hraw Ht Hc. unfold char_rx. mrun. rewrite Hp, Ht. cbn [mwhen]. mrun.
  unfold char_rx_switch. mrun. rewrite Hi. change (1 =? 0) with false. change (1 =? 1) with true. cbn iota. mrun.
  erewrite bind_ok by (by apply pkt_load_ok). mrun.
  erewrite bind_ok by (by eapply pkt_store_ok). mrun. cbn [negb]. mrun.
  erewrite bind_ok by (apply pkt_load_ok, lookup_upd_pkt). mrun.
  cbn [rx_index upd_pkt set_io raw_data]. rewrite Hi, arr_set_ok by lia.
  erewrite bind_ok by (eapply pkt_store_ok, lookup_upd_pkt). rewrite bind_mod.
  change (u16 (1 + 1)) with 2. cbn [length_ data next].
  change (2 <? 2) with false. cbn iota.
  destruct (Z.eqb_spec 2 (2 + c)); [lia|]. cbn [mwhen]. by rewrite upd_pkt_twice.
Qed.

(** The bytes of a frame one after the other. *)
Lemma receives_frame s p k e t0 t1 cs cmd payload :
  rx_pkt s = Some p -> rx_index s = 0 -> cells (io s) !! p = Some k -> exts (io s) !! p = Some e ->
  length (raw_data k) = packet_size ->
  cs.*2 = cmd :: payload -> Z.of_nat (length payload) <= PAYLOAD_MAX ->
  Forall (in_time t0) (t1 :: cs.*1) ->
  exists raw,
    let n := Z.of_nat (length payload) in
    arr_blit (raw_data k) 0 (wire cmd payload) = Ok raw /\
    char_rx_all ((t0, SYNC_BYTE) :: (t1, n + 1) :: cs) s =
      Ok (tt, completed p (upd_pkt p (set_raw0 raw (n + 3) k) (upd_ext p (stamp t0 e) s))).
Proof.
  sizes. intros Hp Hi Hk He Hraw Hcs Hmax [Ht1 Hts]%Forall_cons. cbn zeta.
  set (n := Z.of_nat (length payload)). 
  assert (length cs = S (length payload)) as Hlen.
  { rewrite <- (length_fmap snd cs), Hcs. done. }
  set (s1 := set_index 1 t0 (upd_pkt p (set_raw0 (<[0%nat := SYNC_BYTE]> (raw_data k)) (length_ k) k)
                               (upd_ext p (stamp t0 e) s))).
  set (k1 := set_raw0 (<[0%nat := SYNC_BYTE]> (raw_data k)) (length_ k) k).
  set (k2 := set_raw0 (<[1%nat := n + 1]> (raw_data k1)) (2 + (n + 1)) k1).
  set (s2 := set_index 2 t0 (upd_pkt p k2 s1)).
  assert (length (raw_data k2) = packet_size) as Hraw2 by (cbn; by rewrite !length_insert).
  destruct (char_rx_tail cs s2 p k2) as (raw & Eb & E).
  - by intros ->.
  - done.
  - cbn. lia.
  - apply lookup_upd_pkt.
  - done.
  - cbn. lia.
  - cbn. lia.
  - rewrite Forall_fmap in Hts. exact Hts.
  - exists raw. split.
    + rewrite Hcs in Eb. cbn in Eb. apply arr_set_blit; [|lia].
      apply arr_set_blit; [exact Eb|]. rewrite length_insert. lia.
    + cbn [char_rx_all]. erewrite bind_ok by (by eapply char_rx_sync).
      fold k1. fold s1. erewrite bind_ok.
      2:{ apply (char_rx_length s1 p k1); [done|done|apply lookup_upd_pkt| |done|lia].
          cbn. by rewrite length_insert. }
      match goal with |- char_rx_all _ ?x = _ => change x with s2 end. rewrite E. do 2 f_equal. unfold s2, s1, completed.
      rewrite upd_pkt_index, upd_pkt_twice, upd_pkt_index, upd_pkt_twice. cbn [length_ k2 set_raw0]. replace (2 + (n + 1)) with (n + 3) by lia.
      done.
Qed.

(** C29: The frame [iotlab_serial_send_frame] puts on the wire is received whole
    when its bytes come within 100 ms of the first one: sync byte, length,
    command type and payload are in the buffer in this order, the packet holds
    the length announced, is handed over as [ready_pkt], the low-priority
    interrupt is requested and the receiver is back in its initial state. It
    holds for every payload the sender accepts (at most 125 bytes, 253 in the control node). *)
Theorem iotlab_serial_receives_frame s p k e t0 ts cmd payload :
  rx_pkt s = Some p -> rx_index s = 0 -> cells (io s) !! p = Some k -> exts (io s) !! p = Some e ->
  length (raw_data k) = packet_size -> Z.of_nat (length payload) <= PAYLOAD_MAX ->
  length ts = (length payload + 2)%nat -> Forall (in_time t0) ts ->
  exists raw,
    arr_blit (raw_data k) 0 (wire cmd payload) = Ok raw /\
    char_rx_all (zip (t0 :: ts) (wire cmd payload)) s =
      Ok (tt, completed p (upd_pkt p (set_raw0 raw (Z.of_nat (length payload) + 3) k)
                             (upd_ext p (stamp t0 e) s))).
Proof.
  sizes. intros Hp Hi Hk He Hraw Hmax Hlen Hts. destruct ts as [|t1 ts]; [cbn in Hlen; lia|].
  cbn in Hlen. apply (receives_frame s p k e t0 t1 (zip ts (cmd :: payload))); try done.
  - apply snd_zip. cbn. lia.
  - by rewrite fst_zip by (cbn; lia).
Qed.

(** Out of a frame, [char_rx] ignores everything but a sync byte, and a
    byte that comes more than 100 ms after the start of an unfinished frame
    is treated as the first byte of a new one. *)
Theorem char_rx_resync s p now c :
  rx_pkt s = Some p ->
  (rx_index s = 0 -> in_time (last_start_time s) now -> c <> SYNC_BYTE -> char_rx now c s = Ok (tt, s)) /\
  (~ in_time (last_start_time s) now -> char_rx now c s = char_rx now c (set_index 0 0 s)).
Proof.
  intros Hp. split.
  - intros Hi Ht Hc. unfold char_rx. mrun. rewrite Hp, Ht. cbn [mwhen]. mrun.
    unfold char_rx_switch. mrun. rewrite Hi. cbn [Z.eqb].
    by destruct (Z.eqb_spec c SYNC_BYTE).
  - intros Ht. unfold in_time in Ht. apply not_false_is_true in Ht. unfold char_rx. mrun.
    rewrite Hp, Ht. cbn [mwhen rx_pkt set_index]. rewrite Hp.
    change (last_start_time (set_index 0 0 s)) with 0. cbn [ctrue Z.eqb negb andb mwhen].
    change (ctrue 0) with false. cbn [andb mwhen]. mrun. done.
Qed.

(** Bytes that fill the buffer, and one more. *)
Lemma char_rx_fill t0 x cs : forall s p k,
  rx_pkt s = Some p -> cells (io s) !! p = Some k ->
  length (raw_data k) = packet_size -> PACKET_MAX_SIZE < length_ k -> last_start_time s = t0 -> in_time t0 t0 ->
  2 <= rx_index s -> rx_index s + Z.of_nat (length cs) = PACKET_MAX_SIZE ->
  char_rx_all (map (pair t0) (cs ++ [x])) s = Err EUndef.
Proof.
  sizes. induction cs as [|c cs IH]; intros s p k Hp Hk Hraw Hlen Hl Ht Hi Hn; cbn [map app char_rx_all].
  - erewrite bind_err; [done|]. unfold char_rx. mrun. rewrite Hp, Hl, Ht. cbn [mwhen]. mrun.
    unfold char_rx_switch. mrun. destruct (Z.eqb_spec (rx_index s) 0); [lia|].
    destruct (Z.eqb_spec (rx_index s) 1); [lia|]. mrun. cbn [negb]. mrun.
    erewrite bind_ok by (by apply pkt_load_ok). mrun. unfold arr_set.
    rewrite decide_False; [done|]. cbn in Hn. lia.
  - cbn [length] in Hn. erewrite bind_ok.
    2:{ apply (char_rx_byte s p k t0 c); [done|lia|done|done|by rewrite Hl]. }
    destruct (Z.eqb_spec (rx_index s + 1) (length_ k)); [lia|].
    eapply IH; [done|apply lookup_upd_pkt| |done|done|done|cbn; lia|cbn; lia].
    cbn. by rewrite length_insert.
Qed.

(** [char_rx] does not bound the length a frame announces: with a length
    byte above the size of a packet less two (126, or 254 in the control node) it
    goes on storing bytes past the buffer of the packet. *)
Theorem char_rx_overflow s p k e t0 c cs x :
  rx_pkt s = Some p -> rx_index s = 0 -> cells (io s) !! p = Some k -> exts (io s) !! p = Some e ->
  length (raw_data k) = packet_size -> PACKET_MAX_SIZE - 2 < c < 256 -> Z.of_nat (length cs) = PACKET_MAX_SIZE - 2 ->
  in_time t0 t0 ->
  char_rx_all ((t0, SYNC_BYTE) :: (t0, c) :: map (pair t0) (cs ++ [x])) s = Err EUndef.
Proof.
  sizes. intros Hp Hi Hk He Hraw Hc Hcs Ht. cbn [char_rx_all].
  erewrite bind_ok by (by eapply char_rx_sync). set (k1 := set_raw0 _ _ k).
  erewrite bind_ok.
  2:{ apply (char_rx_length _ p k1); [done|done|apply lookup_upd_pkt| |done|lia].
      cbn. by rewrite length_insert. }
  set (k2 := set_raw0 _ _ k1).
  match goal with |- char_rx_all _ ?x = _ => set (s2 := x) end.
  apply (char_rx_fill t0 x cs s2 p k2); try done; try (cbn; lia).
  - apply lookup_upd_pkt.
  - cbn. by rewrite !length_insert.
Qed.
End reception.

(** ** Transmission *)

Section transmission.
Context {F H : Type} {build : Build}.
Implicit Types (s : serial F H).

(** The packet fields a frame is built from: buffer size, header room, and
    the payload at [data]. *)
Definition holds (k : packet) (payload : list Z) : Prop :=
  length (raw_data k) = packet_size /\ data k = IOTLAB_SERIAL_HEADER_SIZE /\
  length_ k = Z.of_nat (length payload) /\
  arr_slice (raw_data k) (data k) (length_ k) = Ok payload.

Lemma holds_len k payload : holds k payload -> Z.of_nat (length payload) <= PAYLOAD_MAX.
Proof.
  sizes. intros (Hr & Hd & Hl & Hs). unfold arr_slice in Hs. case_decide as D; [|done].
  rewrite Hr, Hd, Hl in D. unfold IOTLAB_SERIAL_HEADER_SIZE in D. lia.
Qed.

(** The header written in front of the payload. *)
Lemma header_wire k payload type :
  holds k payload ->
  let raw := <[2%nat := type]> (<[1%nat := Z.of_nat (length payload) + 1]>
               (<[0%nat := SYNC_BYTE]> (raw_data k))) in
  length raw = packet_size /\
  arr_slice raw 0 (Z.of_nat (length payload) + 3) = Ok (wire type payload).
Proof.
  sizes. intros Hh raw. pose proof (holds_len _ _ Hh) as Hlen. destruct Hh as (Hr & Hd & Hl & Hs).
  assert (length raw = packet_size) as Hraw by (subst raw; by rewrite !length_insert).
  split; [done|]. revert Hs. unfold arr_slice.
  rewrite Hl, Hd, Hr, Hraw. unfold IOTLAB_SERIAL_HEADER_SIZE. rewrite !decide_True by lia.
  intros [= Hs]. f_equal. unfold wire.
  destruct (raw_data k) as [|b0 [|b1 [|b2 rest]]]; try (cbn in Hr; lia). subst raw. cbn [list_insert insert].
  replace (Z.to_nat (Z.of_nat (length payload) + 3)) with (S (S (S (length payload)))) by lia.
  rewrite Nat2Z.id in Hs. simpl in Hs |- *. rewrite drop_0 in Hs. by rewrite Hs.
Qed.

Lemma init_tx_ok s p k payload type :
  cells (io s) !! p = Some k -> holds k payload ->
  exists raw,
    iotlab_serial_init_tx_packet type p s =
      Ok (0, upd_pkt p (mk_packet raw (data k) (Z.of_nat (length payload) + 3) (next k)) s) /\
    length raw = packet_size /\
    arr_slice raw 0 (Z.of_nat (length payload) + 3) = Ok (wire type payload).
Proof.
  sizes. intros Hk Hh. pose proof (holds_len _ _ Hh) as Hlen.
  destruct (header_wire k payload type Hh) as [Hl3 Hw]. destruct Hh as (Hr & Hd & Hl & _).
  eexists. split; [|split; [exact Hl3|exact Hw]].
  unfold iotlab_serial_init_tx_packet. erewrite bind_ok by (by apply pkt_load_ok).
  rewrite Hl, Hd. destruct (Z.gtb_spec (Z.of_nat (length payload)) PAYLOAD_MAX); [lia|].
  change (IOTLAB_SERIAL_HEADER_SIZE <? IOTLAB_SERIAL_HEADER_SIZE) with false. cbn iota. mrun.
  rewrite arr_set_ok by lia. mrun. rewrite arr_set_ok by (rewrite length_insert; lia). mrun.
  rewrite arr_set_ok by (rewrite !length_insert; lia).
  erewrite bind_ok by (by eapply pkt_store_ok). rewrite u8_id by lia.
  unfold IOTLAB_SERIAL_HEADER_SIZE. by rewrite u16_id by lia.
Qed.

Lemma upd_pkt_io s p k : io (upd_pkt p k s) = set_cells (<[p := k]> (cells (io s))) (io s).
Proof. done. Qed.

(** What queueing a frame establishes. *)
Definition queued s m xs p type payload s' : Prop :=
  reps (io s') (<[tx_fifo s := prio_insert (prio (io s)) p xs]> m) /\
  exts (io s') = exts (io s) /\ s' = set_io (io s') s /\ io_frame p (io s) (io s') /\
  (exists k', cells (io s') !! p = Some k' /\ length (raw_data k') = packet_size /\
    length_ k' = Z.of_nat (length payload) + 3 /\
    arr_slice (raw_data k') 0 (length_ k') = Ok (wire type payload)).

Lemma queued_upd s m xs p k type payload s' :
  queued (upd_pkt p k s) m xs p type payload s' -> queued s m xs p type payload s'.
Proof.
  intros (H1 & H2 & H3 & (F1 & F2 & F3) & H4). split; [exact H1|]. split; [exact H2|].
  split; [by rewrite H3 at 1|]. split; [|exact H4]. split_and!; [|exact F2|exact F3].
  intros l Hl. rewrite F1 by done. rewrite upd_pkt_io. cbn. by rewrite lookup_insert_ne.
Qed.

Lemma send_frame_ok s m xs p k payload type :
  reps (io s) m -> m !! tx_fifo s = Some xs -> loose (io s) m p ->
  cells (io s) !! p = Some k -> holds k payload ->
  exists s', iotlab_serial_send_frame type p s = Ok (0, s') /\ queued s m xs p type payload s'.
Proof.
  intros Hr Hq Hlo Hk Hh. destruct (init_tx_ok s p k payload type Hk Hh) as (raw & E & Hraw & Hw).
  set (k1 := mk_packet raw (data k) (Z.of_nat (length payload) + 3) (next k)) in *.
  destruct (reps_loose_cell (io s) m p k1 Hr Hlo) as [Hr1 Hlo1].
  destruct (append_ok (io (upd_pkt p k1 s)) m (tx_fifo s) xs p Hr1 Hq Hlo1)
    as (io' & Ea & Hr' & He' & Hsame & _ & Hheads).
  exists (set_io io' (upd_pkt p k1 s)). split.
  - unfold iotlab_serial_send_frame. erewrite bind_ok by exact E.
    change (ctrue 0) with false. cbn iota. mrun.
    erewrite bind_ok by (eapply zoom_ok; exact Ea). done.
  - split; [exact Hr'|]. split; [exact He'|]. split; [done|]. split.
    + split_and!; [|exact Hheads|intros l; change (is_Some (exts (io s) !! l) <-> is_Some (exts io' !! l)); by rewrite He'].
      intros l Hl. etrans; [apply Hsame|]. rewrite upd_pkt_io. cbn. by rewrite lookup_insert_ne.
    + destruct (same_but_next_lookup _ _ p k1 Hsame) as [n Hn]; [apply lookup_upd_pkt|].
      exists (set_next n k1). split_and!; [exact Hn|done|done|exact Hw].
Qed.

(** [iotlab_serial_send_frame] refuses a payload of more than 125 bytes
    (result 1) or without room for the header (result 2), leaving the packet
    and the queue alone; otherwise it queues the packet with the frame sync
    byte, length plus one, type, payload, at the place of its priority. *)
Theorem iotlab_serial_send_frame_spec s m xs p k payload type :
  reps (io s) m -> m !! tx_fifo s = Some xs -> loose (io s) m p -> cells (io s) !! p = Some k ->
  (length_ k > PAYLOAD_MAX ->
     iotlab_serial_send_frame type p s = Ok (1, set_led true s)) /\
  (length_ k <= PAYLOAD_MAX -> data k < IOTLAB_SERIAL_HEADER_SIZE ->
     iotlab_serial_send_frame type p s = Ok (2, set_led true s)) /\
  (holds k payload ->
     exists s', iotlab_serial_send_frame type p s = Ok (0, s') /\ queued s m xs p type payload s').
Proof.
  sizes. intros Hr Hq Hlo Hk. split_and!.
  - intros Hl. unfold iotlab_serial_send_frame, iotlab_serial_init_tx_packet. mrun.
    erewrite bind_ok by (by apply pkt_load_ok). by destruct (Z.gtb_spec (length_ k) PAYLOAD_MAX); [|lia].
  - intros Hl Hd. unfold iotlab_serial_send_frame, iotlab_serial_init_tx_packet. mrun.
    erewrite bind_ok by (by apply pkt_load_ok).
    destruct (Z.gtb_spec (length_ k) PAYLOAD_MAX); [lia|].
    by destruct (Z.ltb_spec (data k) IOTLAB_SERIAL_HEADER_SIZE); [|lia].
  - intros Hh. by eapply send_frame_ok.
Qed.

(** *** The transmission task *)

(** The end-of-transfer interrupt and the low-priority one it requests, when
    a reception buffer is there and no command is waiting. *)
Lemma tx_isrs_ok s r :
  rx_pkt s = Some r -> ready_pkt s = None -> tx_end_event s = 0 ->
  (tx_done_isr ;; check_uart) s = Ok (tt, set_pending true (set_tx (tx_pkt s) false 1 s)).
Proof.
  intros Hrx Hready Hev. unfold tx_done_isr, check_uart, allocate_rx_packet,
    uart_low_priority_interrupt_trigger. mrun. cbn [rx_pkt set_pending set_tx]. rewrite Hrx. mrun.
  cbn [ready_pkt set_pending set_tx]. rewrite Hready. mrun. cbn. by rewrite Hev.
Qed.

(** One round of the transmission task takes the first packet of the
    queue, hands its frame to the UART as one block, waits for the end of the
    transfer and puts the packet back into the pool it came from. *)
Theorem iotlab_serial_tx_task_spec s m p xs ys qf k e type payload fuel env now r :
  reps (io s) m -> m !! tx_fifo s = Some (p :: xs) ->
  cells (io s) !! p = Some k -> length_ k = Z.of_nat (length payload) + 3 ->
  arr_slice (raw_data k) 0 (length_ k) = Ok (wire type payload) ->
  exts (io s) !! p = Some e -> free e = IOTLAB_PACKET_FREE -> storage_queue e = Some qf ->
  qf <> tx_fifo s -> m !! qf = Some ys ->
  rx_pkt s = Some r -> ready_pkt s = None -> tx_end_event s = 0 ->
  exists s',
    iotlab_serial_tx_task_iter (S fuel) env now (tx_done_isr ;; check_uart) s = Ok (tt, s') /\
    uart_out s' = uart_out s ++ [wire type payload] /\ tx_end_event s' = 0 /\
    reps (io s') (<[qf := p :: ys]> (<[tx_fifo s := xs]> m)).
Proof.
  intros Hr Hq Hk Hlen Hw He Hfree Hsq Hqf Hys Hrx Hready Hev.
  destruct (get_ok (io s) m (tx_fifo s) p xs fuel env Hr Hq) as (io1 & Eg & Hr1 & Hlo1 & Hex1 & Hsame).
  destruct (same_but_next_lookup _ _ p k Hsame Hk) as [n Hk1].
  set (s1 := set_io io1 s). set (e1 := mk_ext now (free e) (priority e) (storage_queue e)).
  set (s2 := upd_ext p e1 s1). set (s3 := set_uart_out (uart_out s ++ [wire type payload]) s2).
  set (s4 := set_tx (tx_pkt s) false 0 (set_pending true s3)).
  assert (reps (io s4) (<[tx_fifo s := xs]> m)) as Hr4.
  { apply reps_set_exts; [|done]. intros l Hl. rewrite lookup_insert_is_Some'. by right. }
  assert (loose (io s4) (<[tx_fifo s := xs]> m) p) as Hlo4.
  { destruct Hlo1 as (H1 & H2 & H3). split_and!; [done|cbn; by rewrite lookup_insert_eq|done]. }
  destruct (free_ok (io s4) (<[tx_fifo s := xs]> m) qf ys p e1 Hr4) as (io5 & c & E5 & Hr5 & _).
  { by rewrite lookup_insert_ne. }
  { done. }
  { apply lookup_insert_eq. }
  { done. }
  exists (set_io io5 s4). split; [|done].
  unfold iotlab_serial_tx_task_iter. mrun.
  erewrite bind_ok by (eapply zoom_ok; exact Eg). unfold send_packet. mrun.
  erewrite bind_ok by (apply (serial_ext_load_ok s1); cbn; by rewrite Hex1). mrun.
  erewrite bind_ok by (eapply (serial_ext_store_ok s1); cbn; by rewrite Hex1). mrun.
  erewrite bind_ok by (apply (pkt_load_ok s2); exact Hk1). mrun.
  change (raw_data (set_next n k)) with (raw_data k). change (length_ (set_next n k)) with (length_ k).
  rewrite Hw. mrun. fold e1. fold s1. fold s2. change (uart_out s2) with (uart_out s). fold s3.
  pose proof (tx_isrs_ok s3 r Hrx Hready Hev) as Eisr.
  apply bind_inv in Eisr as ([] & sx & Ex1 & Ex2).
  erewrite bind_ok by exact Ex1. erewrite bind_ok by exact Ex2. mrun. cbn [tx_end_event set_pending set_tx].
  change (1 =? 0) with false. cbn iota. mrun.
  match goal with |- mzoom _ ?x = _ => change x with s4 end.
  rewrite (zoom_ok (iotlab_packet_call_free p) s4 tt io5); [done|]. unfold iotlab_packet_call_free.
  erewrite bind_ok by (apply ext_load_ok, lookup_insert_eq). cbn [free e1]. by rewrite Hfree.
Qed.
End transmission.

(** ** Commands *)

Section handlers.
Context {F H : Type} {build : Build}.
Implicit Types (s : serial F H) (hs : gmap loc (iotlab_serial_handler F)).

(** The first handler object of the list for a command. *)
Definition find_handler hs (ls : list loc) (cmd : Z) : ptr :=
  fst ∘ snd <$> list_find (λ lk, cmd_type <$> lk.2 = Some cmd) ((λ l, (l, hs !! l)) <$> ls).

Lemma handler_loop_spec hs ls cmd : forall p fuel,
  chain hs p ls -> (length ls < fuel)%nat -> handler_loop fuel hs p cmd = Ok (find_handler hs ls cmd).
Proof.
  sizes. unfold find_handler. induction ls as [|l ls IH]; intros p fuel Hc Hf; destruct fuel as [|fuel]; try lia.
  - apply chain_nil in Hc as ->. done.
  - apply chain_cons in Hc as (-> & k & Hk & Hc). cbn [handler_loop fmap list_fmap list_find].
    rewrite Hk. change (mbind ?f (of_option EUndef (Some ?x))) with (f x). cbn beta.
    destruct (Z.eqb_spec (cmd_type k) cmd) as [He|He].
    + rewrite decide_True by (cbn; by rewrite He). done.
    + rewrite decide_False by (cbn; congruence). rewrite (IH (h_next k) fuel Hc) by (cbn in Hf; lia).
      by destruct (list_find _ _) as [[? []]|].
Qed.

Lemma get_handler_ok s ls cmd :
  chain (handlers s) (first_handler s) ls ->
  iotlab_serial_get_handler cmd s = Ok (find_handler (handlers s) ls cmd, s).
Proof.
  sizes. intros Hc. unfold iotlab_serial_get_handler. mrun. unfold mlift.
  pose proof (chain_length _ _ _ Hc). by rewrite (handler_loop_spec _ ls) by (done || lia).
Qed.

(** Registering a handler makes it the one found for its command type,
    whatever was registered before, and changes nothing for the others. *)
Theorem iotlab_serial_register_handler_spec s ls h k :
  chain (handlers s) (first_handler s) ls -> (h ∉ ls) -> handlers s !! h = Some k ->
  exists s',
    iotlab_serial_register_handler h s = Ok (tt, s') /\
    chain (handlers s') (first_handler s') (h :: ls) /\
    iotlab_serial_get_handler (cmd_type k) s' = Ok (Some h, s') /\
    forall cmd, cmd <> cmd_type k -> exists r,
      iotlab_serial_get_handler cmd s = Ok (r, s) /\ iotlab_serial_get_handler cmd s' = Ok (r, s').
Proof.
  intros Hc Hn Hk. eexists. split.
  { unfold iotlab_serial_register_handler. mrun. rewrite Hk. cbn. mrun. done. }
  set (hs := <[h := _]> (handlers s)).
  assert (chain hs (Some h) (h :: ls)) as Hc' by exact (chain_push _ _ ls h k Hc Hn).
  assert (forall cmd, find_handler hs (h :: ls) cmd =
            if decide (cmd_type k = cmd) then Some h else find_handler (handlers s) ls cmd) as Hf.
  { intros cmd. unfold find_handler. cbn [fmap list_fmap list_find]. subst hs. rewrite lookup_insert_eq.
    destruct (decide (cmd_type k = cmd)) as [He|He].
    - rewrite decide_True by (cbn; by rewrite He). done.
    - rewrite decide_False by (cbn; congruence).
      rewrite (list_fmap_ext _ (λ l, (l, handlers s !! l)) ls).
      + by destruct (list_find _ _) as [[? []]|].
      + intros i l Hl. rewrite lookup_insert_ne; [done|]. intros ->. apply Hn.
        by eapply list_elem_of_lookup_2. }
  split_and!; [exact Hc'| |].
  - rewrite (get_handler_ok _ (h :: ls)) by exact Hc'.
    change (handlers (set_handlers _ ?x s)) with x. fold hs. by rewrite Hf, decide_True.
  - intros cmd Hne. exists (find_handler (handlers s) ls cmd). split; [by apply get_handler_ok|].
    rewrite (get_handler_ok _ (h :: ls)) by exact Hc'.
    change (handlers (set_handlers _ ?x s)) with x. fold hs. by rewrite Hf, decide_False by congruence.
Qed.

Lemma loose_set_exts (i : iot) m p es :
  loose i m p -> is_Some (es !! p) -> loose (set_exts es i) m p.
Proof. intros (H1 & H2 & H3) He. by split_and!. Qed.

(** The answer to a command. *)
Definition answer (result : Z) : list Z := [if result =? 0 then ACK else NACK].

(** Answers have their own priority. *)
Definition answer_ext (e : iotlab_ext) : iotlab_ext :=
  mk_ext (timestamp e) (free e) IOTLAB_SERIAL_ANSWER_PRIORITY (storage_queue e).

Lemma send_result_ok s m xs p k e cmd result :
  reps (io s) m -> m !! tx_fifo s = Some xs -> loose (io s) m p ->
  cells (io s) !! p = Some k -> exts (io s) !! p = Some e ->
  length (raw_data k) = packet_size -> data k = IOTLAB_SERIAL_HEADER_SIZE ->
  exists s',
    iotlab_serial_send_result p cmd result s = Ok (tt, s') /\
    queued (upd_ext p (answer_ext e) s) m xs p cmd (answer result) s'.
Proof.
  sizes. intros Hr Hq Hlo Hk He Hraw Hd. unfold IOTLAB_SERIAL_HEADER_SIZE in Hd.
  set (s1 := upd_ext p (answer_ext e) s).
  set (b := if result =? 0 then ACK else NACK).
  set (k1 := mk_packet (<[3%nat := b]> (raw_data k)) (data k) 1 (next k)).
  set (s2 := upd_pkt p k1 s1).
  assert (reps (io s1) m) as Hr1.
  { apply reps_set_exts; [|done]. intros l Hl. rewrite lookup_insert_is_Some'. by right. }
  assert (loose (io s1) m p) as Hlo1.
  { apply loose_set_exts; [done|]. by rewrite lookup_insert_eq. }
  destruct (reps_loose_cell (io s1) m p k1 Hr1 Hlo1) as [Hr2 Hlo2].
  assert (holds k1 (answer result)) as Hh.
  { unfold holds, k1. cbn [raw_data data length_]. rewrite length_insert, Hd.
    split_and!; [done|done|done|]. unfold arr_slice. rewrite length_insert, Hraw, decide_True by lia.
    f_equal. rewrite (drop_S _ b).
    - done.
    - apply list_lookup_insert_eq. lia. }
  destruct (send_frame_ok s2 m xs p k1 (answer result) cmd Hr2 Hq Hlo2) as (s' & E & Hqd);
    [apply lookup_upd_pkt|done|].
  exists s'. split; [|by eapply queued_upd]. unfold iotlab_serial_send_result.
  erewrite bind_ok by (by apply serial_ext_load_ok).
  erewrite bind_ok by (by eapply serial_ext_store_ok).
  erewrite bind_ok by (apply pkt_load_ok; exact Hk). mrun.
  rewrite Hd, arr_set_ok by lia. change (Z.to_nat 3) with 3%nat.
  erewrite bind_ok by (eapply pkt_store_ok; exact Hk). rewrite <- Hd.
  by erewrite bind_ok by exact E.
Qed.
End handlers.

Section answers.
Context {F H S : Type} {build : Build} `{!Lens S (serial F H)}.
Variable run : F -> Z -> loc -> M S Z.

(** Packet [p] is ready to carry an answer: a packet of the reception pool, in
    no queue. *)
Definition answerable (t : serial F H) m xs p k e : Prop :=
  reps (io t) m /\ m !! tx_fifo t = Some xs /\ loose (io t) m p /\
  cells (io t) !! p = Some k /\ exts (io t) !! p = Some e /\
  length (raw_data k) = packet_size /\ data k = IOTLAB_SERIAL_HEADER_SIZE.

Lemma zoom_send_result (s : S) m xs p k e cmd r :
  answerable (view s) m xs p k e ->
  exists s', mzoom (iotlab_serial_send_result (F := F) (H := H) p cmd r) s = Ok (tt, s') /\
    queued (upd_ext p (answer_ext e) (view s)) m xs p cmd (answer r) (view s').
Proof.
  intros (Hr & Hq & Hlo & Hk & He & Hraw & Hd).
  destruct (send_result_ok (view s) m xs p k e cmd r) as (t' & E & Hqd); try done.
  eexists. split; [by apply zoom_ok|]. by rewrite view_over.
Qed.

(** The state in which the handler runs: the packet is no longer ready and its
    length does not count the header. *)
Definition unwrapped (p : loc) (k : packet) (t : serial F H) : serial F H :=
  upd_pkt p (mk_packet (raw_data k) (data k) (u16 (length_ k - IOTLAB_SERIAL_HEADER_SIZE)) (next k))
    (set_rx (rx_pkt t) None t).

(** C30: Every command received gets one answer of priority 0x80: ACK if the
    handler registered for its type returns 0, NACK if it returns another
    value or if there is none. The handler runs with the payload length (the
    header is removed). *)
Theorem packet_received_answers (s : S) p k cmd ls :
  ready_pkt (view s) = Some p -> cells (io (view s)) !! p = Some k ->
  arr_get (raw_data k) 2 = Ok cmd -> chain (handlers (view s)) (first_handler (view s)) ls ->
  (find_handler (handlers (view s)) ls cmd = None ->
     forall m xs k1 e, answerable (unwrapped p k (view s)) m xs p k1 e ->
     exists s', packet_received run s = Ok (tt, s') /\
       queued (upd_ext p (answer_ext e) (unwrapped p k (view s))) m xs p cmd [NACK] (view s')) /\
  (forall l hk r s2, find_handler (handlers (view s)) ls cmd = Some l ->
     handlers (view s) !! l = Some hk ->
     run (handler hk) cmd p (over (unwrapped p k (view s)) s) = Ok (r, s2) ->
     forall m xs k1 e, answerable (view s2) m xs p k1 e ->
     exists s', packet_received run s = Ok (tt, s') /\
       queued (upd_ext p (answer_ext e) (view s2)) m xs p cmd (answer r) (view s')).
Proof.
  intros Hready Hk Hcmd Hc. set (t1 := set_rx (rx_pkt (view s)) None (view s)).
  assert (forall {B} (kk : Z -> M S B),
    (k0 ← mzoom (pkt_load p); cmd ← mlift (arr_get (raw_data k0) 2); kk cmd) (over t1 s) =
    kk cmd (over t1 s)) as Hload.
  { intros B kk. erewrite bind_ok.
    2:{ apply zoom_ok. rewrite view_over. apply pkt_load_ok. exact Hk. }
    mrun. rewrite Hcmd, over_over. done. }
  assert (forall {B} (kk : ptr -> M S B),
    (k0 ← mzoom (pkt_load p);
     mzoom (pkt_store p (mk_packet (raw_data k0) (data k0)
              (u16 (length_ k0 - IOTLAB_SERIAL_HEADER_SIZE)) (next k0))) ;;
     h ← mzoom (iotlab_serial_get_handler (F := F) (H := H) cmd); kk h) (over t1 s) =
    kk (find_handler (handlers (view s)) ls cmd) (over (unwrapped p k (view s)) s)) as Hget.
  { intros B kk. erewrite bind_ok.
    2:{ apply zoom_ok. rewrite view_over. apply pkt_load_ok. exact Hk. }
    rewrite over_over. erewrite bind_ok.
    2:{ apply zoom_ok. rewrite view_over. eapply pkt_store_ok. exact Hk. }
    rewrite over_over. erewrite bind_ok.
    2:{ apply zoom_ok. rewrite view_over. apply (get_handler_ok _ ls). exact Hc. }
    rewrite over_over. done. }
  assert (packet_received run s =
    (result ← iotlab_serial_call_handler run cmd p;
     mzoom (iotlab_serial_send_result (F := F) (H := H) p cmd result)) (over t1 s)) as Hpr.
  { unfold packet_received. mrun. rewrite Hready. erewrite bind_ok by (by apply zoom_ok).
    apply Hload. }
  rewrite Hpr. split.
  - intros Hn m xs k1 e Ha. erewrite bind_ok.
    2:{ unfold iotlab_serial_call_handler. rewrite Hget, Hn. done. }
    destruct (zoom_send_result (over (unwrapped p k (view s)) s) m xs p k1 e cmd 1) as (s' & E & Hqd);
      rewrite view_over in *; [done|]. by exists s'.
  - intros l hk r s2 Hl Hhk Hrun m xs k1 e Ha. erewrite bind_ok.
    2:{ unfold iotlab_serial_call_handler. rewrite Hget, Hl. mrun.
        rewrite view_over. change (handlers (unwrapped p k (view s))) with (handlers (view s)).
        rewrite Hhk. exact Hrun. }
    by apply (zoom_send_result s2 m xs p k1 e).
Qed.
End answers.

(** *** Concrete instances *)

#[local] Instance serial_self {F H} : Lens (serial F H) (serial F H).
Proof. by refine {| view := id; over := λ t _, t |}. Defined.

(** A driver without handlers, over the two queues of [iot_of]. *)
Definition serial_of (fifo : nat) (rx ready : ptr) (i : iot) : serial nat nat :=
  mk_serial nat nat None ∅ fifo None false 0 rx ready 0 0 0 false false [] i
    (mk_events (λ _, Some []) (λ _, true) (λ _, None)).
(** A packet that starts with the given bytes. *)
#[local] Existing Instance default_build.

Definition packet_of (bs : list Z) (d n : Z) : packet :=
  mk_packet (bs ++ replicate (128 - length bs) 0) d n None.

Lemma iotlab_serial_receives_frame_witness :
  exists raw s', char_rx_all (zip [1000; 1001; 1002; 1003; 1004] (wire 0x70 [5; 6]))
      (serial_of 1 (Some 3%nat) None iot2) = Ok (tt, s') /\
    arr_blit (replicate 128 0) 0 [0x80; 3; 0x70; 5; 6] = Ok raw.
Proof.
  destruct (iotlab_serial_receives_frame (serial_of 1 (Some 3%nat) None iot2) 3 (cell None)
    (mk_ext 0 IOTLAB_PACKET_FREE 5 (Some 0%nat)) 1000 [1001; 1002; 1003; 1004] 0x70 [5; 6])
    as (raw & Hraw & E); try reflexivity; [vm_compute; discriminate|by repeat constructor|].
  exists raw. eexists. split; [exact E|exact Hraw].
Defined.

Lemma char_rx_resync_witness :
  char_rx 1000 0x11 (serial_of 1 (Some 3%nat) None iot2) = Ok (tt, serial_of 1 (Some 3%nat) None iot2).
Proof.
  apply (proj1 (char_rx_resync (serial_of 1 (Some 3%nat) None iot2) 3 1000 0x11 eq_refl));
    [reflexivity|reflexivity|discriminate].
Defined.

Lemma char_rx_overflow_witness :
  char_rx_all ((1000, SYNC_BYTE) :: (1000, 200) :: map (pair 1000) (replicate 126 1 ++ [2]))
    (serial_of 1 (Some 3%nat) None iot2) = Err EUndef.
Proof.
  apply (char_rx_overflow (serial_of 1 (Some 3%nat) None iot2) 3 (cell None)
    (mk_ext 0 IOTLAB_PACKET_FREE 5 (Some 0%nat)) 1000 200 (replicate 126 1) 2);
    reflexivity || (vm_compute; split; reflexivity) || lia.
Defined.

Lemma iotlab_serial_send_frame_spec_witness :
  exists s', iotlab_serial_send_frame 0x71 3
      (serial_of 1 None None (iot_of 0 (cell None) (packet_of [0; 0; 0; 7; 9] 3 2))) = Ok (0, s') /\
    reps (io s') (<[1%nat := [3%nat]]> contents2).
Proof.
  destruct (iotlab_serial_send_frame_spec
    (serial_of 1 None None (iot_of 0 (cell None) (packet_of [0; 0; 0; 7; 9] 3 2)))
    contents2 [] 3 (packet_of [0; 0; 0; 7; 9] 3 2) [7; 9] 0x71
    (iot_of_reps 0 (cell None) _ eq_refl) eq_refl (iot_of_loose _ _ _) eq_refl) as (_ & _ & Hok).
  destruct Hok as (s' & E & Hr & _); [by split_and!|].
  exists s'. split; [exact E|exact Hr].
Defined.

Lemma iotlab_serial_tx_task_spec_witness :
  exists s', iotlab_serial_tx_task_iter 1 (λ _, mret tt) 2000 (tx_done_isr ;; check_uart)
      (serial_of 0 (Some 3%nat) None (iot_of 1 (packet_of [0x80; 3; 0x70; 5; 6] 3 5) (cell None)))
      = Ok (tt, s') /\ uart_out s' = [wire 0x70 [5; 6]].
Proof.
  destruct (iotlab_serial_tx_task_spec
    (serial_of 0 (Some 3%nat) None (iot_of 1 (packet_of [0x80; 3; 0x70; 5; 6] 3 5) (cell None)))
    contents2 2 [] [] 1 (packet_of [0x80; 3; 0x70; 5; 6] 3 5)
    (mk_ext 0 IOTLAB_PACKET_FREE 1 (Some 1%nat)) 0x70 [5; 6] 0 (λ _, mret tt) 2000 3
    (iot_of_reps 1 (packet_of [0x80; 3; 0x70; 5; 6] 3 5) _ eq_refl)) as (s' & E & Hout & _); try reflexivity; [discriminate|].
  exists s'. split; [exact E|exact Hout].
Defined.

Lemma packet_received_answers_witness :
  exists s', packet_received (F := nat) (H := nat) (λ _ _ _, mret 0)
      (serial_of 1 None (Some 3%nat) (iot_of 0 (cell None) (packet_of [0x80; 2; 0x70; 5] 3 4)))
      = Ok (tt, s') /\
    exists k', cells (io s') !! 3%nat = Some k' /\
      arr_slice (raw_data k') 0 (length_ k') = Ok (wire 0x70 [NACK]).
Proof.
  set (k := packet_of [0x80; 2; 0x70; 5] 3 4).
  set (s := serial_of 1 None (Some 3%nat) (iot_of 0 (cell None) k)).
  destruct (packet_received_answers (F := nat) (H := nat) (λ _ _ _, mret 0) s 3 k 0x70 [])
    as [Hnack _]; try reflexivity.
  destruct (Hnack eq_refl contents2 [] (mk_packet (raw_data k) 3 1 None)
    (mk_ext 0 IOTLAB_PACKET_FREE 5 (Some 0%nat))) as (s' & E & _ & _ & _ & _ & k' & Hk' & _ & _ & Hw).
  { destruct (reps_loose_cell (iot_of 0 (cell None) k) contents2 3 (mk_packet (raw_data k) 3 1 None)
      (iot_of_reps 0 (cell None) _ eq_refl) (iot_of_loose _ _ _)) as [Hr Hl].
    split_and!; [exact Hr|reflexivity|exact Hl|reflexivity..]. }
  exists s'. split; [exact E|]. exists k'. split; [exact Hk'|exact Hw].
Defined.

End IotlabSerial.
