(* ===== verification/CnLogger.v ===== *)
(** * Log frames of the control node ([cn_logger.c], [cn_logger.h])

    One packet outside the pools carries the messages. It is not there while a message
    is in the transmission queue; the transmission task gives it back by its function
    [free]. *)

From stdpp Require Import base numbers list gmap.
From S2P Require Import Prelude Chain Packet Event IotlabPacket IotlabSerial Dragon4 Printf PrintfSpec.

Module CnLogger.
Import Packet IotlabPacket IotlabSerial Printf PrintfSpec.

Definition LOGGER_FRAME : Z := 0xEE.
Definition LOGGER_ERROR : Z := 40.

Section logger.
Context {F H : Type} {build : Build}.

(** The serial link, [cn_logger_pkt] and the address of [pkt]. *)
Record logger := mk_logger { lser : serial F H; cn_logger_pkt : ptr; pkt : loc }.
Definition set_lser x s := mk_logger x (cn_logger_pkt s) (pkt s).
Definition set_cn_logger_pkt x s := mk_logger (lser s) x (pkt s).
#[export] Instance lser_lens : Lens logger (serial F H).
Proof. refine {| view := lser; over := set_lser |}; [done|by intros []|done]. Defined.
Abbreviation LM := (M logger).

Definition cn_logger_packet_free (packet : loc) : LM unit :=
  mzoom (T := serial F H) (mzoom (T := iot) (mzoom (packet_reset (Some packet) IOTLAB_SERIAL_HEADER_SIZE))) ;;
  mmod (set_cn_logger_pkt (Some packet)).

Definition cn_logger_start : LM unit := s ← mget; cn_logger_packet_free (pkt s).

(** The macro. The message starts after the level and its buffer is the rest of the
    packet. *)
Definition cn_logger (level : Z) (msg : list Z) (args : list arg) : LM unit :=
  s ← mget;
  match cn_logger_pkt s with
  | None => mret tt
  | Some p =>
      k ← mzoom (pkt_load p);
      raw ← mlift (arr_set (raw_data k) (data k) (u8 level));
      buf ← mlift (arr_slice raw (data k + 1) (Z.of_nat (length raw) - (data k + 1)));
      x ← mlift (snprintf buf (IOTLAB_SERIAL_DATA_MAX_SIZE - 1) msg args);
      raw ← mlift (arr_blit raw (data k + 1) x.2);
      str ← mlift (c_string x.2);
      mzoom (pkt_store p (mk_packet raw (data k) (u16 (2 + Z.of_nat (length str))) (next k))) ;;
      mmod (set_cn_logger_pkt None) ;;
      ret ← mzoom (iotlab_serial_send_frame LOGGER_FRAME p);
      if ctrue ret then mmod (set_cn_logger_pkt (Some p)) else mret tt
  end.

(** The packet is ready: it is in no queue, and its data starts after the header. *)
Definition ready (s : logger) (m : gmap nat (list loc)) (p : loc) : Prop :=
  cn_logger_pkt s = Some p /\ loose (io (lser s)) m p /\
  exists k, cells (io (lser s)) !! p = Some k /\ length (raw_data k) = packet_size /\ data k = IOTLAB_SERIAL_HEADER_SIZE.

(** A message is printed into the packet as the level, its characters and a zero. *)
Lemma message_held k level o :
  length (raw_data k) = packet_size -> data k = 3 -> is_u8 level -> Forall (λ c, c <> 0) o ->
  let t := firstn (Z.to_nat (IOTLAB_SERIAL_DATA_MAX_SIZE - 2)) o in
  exists raw buf, arr_set (raw_data k) (data k) (u8 level) = Ok raw /\
    arr_slice raw (data k + 1) (Z.of_nat (length raw) - (data k + 1)) = Ok buf /\ Z.of_nat (length buf) = IOTLAB_SERIAL_DATA_MAX_SIZE - 1 /\
    forall rest, length rest = (length buf - S (length t))%nat ->
    exists raw', arr_blit raw (data k + 1) (t ++ [0] ++ rest) = Ok raw' /\
      holds (mk_packet raw' (data k) (u16 (2 + Z.of_nat (length t))) (next k)) (level :: t ++ [0]).
Proof.
  sizes. intros Hr Hd Hlv Ho t. assert (Z.of_nat (length t) <= IOTLAB_SERIAL_DATA_MAX_SIZE - 2) as Ht by (unfold t; rewrite length_take; lia).
  rewrite Hd, u8_id by done. rewrite arr_set_ok by lia. change (Z.to_nat 3) with 3%nat.
  destruct (raw_data k) as [|b0 [|b1 [|b2 [|b3 tl]]]] eqn:Er; cbn [length] in Hr; try lia. change (<[3%nat := level]> (b0 :: b1 :: b2 :: b3 :: tl)) with (b0 :: b1 :: b2 :: level :: tl).
  exists (b0 :: b1 :: b2 :: level :: tl), tl. split; [done|]. split.
  { unfold arr_slice. cbn [length]. rewrite decide_True by lia. change (Z.to_nat (3 + 1)) with 4%nat. cbn [skipn]. rewrite drop_0, take_ge by lia. done. }
  split; [lia|]. intros rest Hrest. exists (b0 :: b1 :: b2 :: level :: t ++ [0] ++ rest). split.
  { pose proof (arr_blit_at [b0; b1; b2; level] tl [] (t ++ [0] ++ rest) (3 + 1)) as B. rewrite !app_nil_r in B. cbn [app] in B. cbn [app].
    apply B; [done|]. rewrite length_app. cbn [length]. lia. }
  unfold holds. cbn [raw_data data length_ length app]. rewrite u16_id by lia. rewrite !length_app. cbn [length]. split; [lia|]. split; [done|]. split; [lia|].
  unfold arr_slice. cbn [length]. rewrite length_app. cbn [length]. rewrite decide_True by lia. change (Z.to_nat 3) with 3%nat. cbn [skipn]. rewrite ?drop_0.
  f_equal. replace (Z.to_nat (2 + Z.of_nat (length t))) with (S (length (t ++ [0]))) by (rewrite length_app; cbn [length]; lia). cbn [firstn]. f_equal.
  replace (t ++ 0 :: rest) with ((t ++ [0]) ++ rest) by by rewrite <- app_assoc. by rewrite take_app_length.
Qed.

(** A message is queued as a log frame: its level, its text cut to what a frame holds,
    and a zero; and the packet is gone until it is given back. *)
Theorem cn_logger_sends s m xs p level fs args o :
  reps (io (lser s)) m -> m !! tx_fifo (lser s) = Some xs -> ready s m p ->
  is_u8 level -> Forall piece_ok fs -> Forall arg_ok args -> render fs args = Some o -> Z.of_nat (length o) <= INT_MAX ->
  exists ser', cn_logger level (encode fs) args s = Ok (tt, set_cn_logger_pkt None (set_lser ser' s)) /\
    queued (lser s) m xs p LOGGER_FRAME (level :: firstn (Z.to_nat (IOTLAB_SERIAL_DATA_MAX_SIZE - 2)) o ++ [0]) ser'.
Proof.
  sizes. intros Hr Hq (Hp & Hlo & k & Hk & Hraw & Hd) Hlv Hfs Hargs Ho Hlen. pose proof (render_nonzero fs args o Hfs Hargs Ho) as Hnz.
  destruct (message_held k level o Hraw Hd Hlv Hnz) as (raw & buf & E1 & E2 & Hb & Hmsg).
  set (t := firstn (Z.to_nat (IOTLAB_SERIAL_DATA_MAX_SIZE - 2)) o) in *.
  assert (Z.of_nat (length t) <= IOTLAB_SERIAL_DATA_MAX_SIZE - 2) as Ht by (unfold t; rewrite length_take; lia).
  pose proof (snprintf_text buf (IOTLAB_SERIAL_DATA_MAX_SIZE - 1) fs args o Hfs Hargs Ho Hlen) as E3. specialize (E3 ltac:(lia) ltac:(unfold INT_MAX; lia)). cbn zeta in E3.
  replace (IOTLAB_SERIAL_DATA_MAX_SIZE - 1 - 1) with (IOTLAB_SERIAL_DATA_MAX_SIZE - 2) in E3 by lia. fold t in E3.
  destruct (Hmsg (drop (S (length t)) buf)) as (raw' & E4 & Hh); [by rewrite length_drop|].
  set (k' := mk_packet raw' (data k) (u16 (2 + Z.of_nat (length t))) (next k)) in *.
  destruct (reps_loose_cell (io (lser s)) m p k' Hr Hlo) as [Hr1 Hlo1].
  destruct (send_frame_ok (upd_pkt p k' (lser s)) m xs p k' (level :: t ++ [0]) LOGGER_FRAME Hr1 Hq Hlo1 (lookup_upd_pkt _ _ _) Hh) as (ser' & E5 & Q).
  exists ser'. split; [|by eapply queued_upd]. unfold cn_logger. mrun. rewrite Hp.
  erewrite bind_ok by (eapply zoom_ok, pkt_load_ok; exact Hk). mrun. rewrite E1. mrun. rewrite E2. mrun. rewrite E3. mrun. cbn [snd]. rewrite E4. mrun.
  change (t ++ [0] ++ ?r) with (t ++ 0 :: r). rewrite c_string_zero by by apply Forall_take. mrun. fold k'.
  erewrite bind_ok by (eapply zoom_ok, pkt_store_ok; exact Hk). mrun.
  erewrite bind_ok by (eapply zoom_ok; exact E5). done.
Qed.

(** Without the packet a message is lost. *)
Lemma cn_logger_lost s level msg args : cn_logger_pkt s = None -> cn_logger level msg args s = Ok (tt, s).
Proof. intros E. unfold cn_logger. mrun. by rewrite E. Qed.

(** Given back, the packet is ready. *)
Lemma cn_logger_packet_freed s m p k : reps (io (lser s)) m -> loose (io (lser s)) m p -> cells (io (lser s)) !! p = Some k -> length (raw_data k) = packet_size ->
  exists s', cn_logger_packet_free p s = Ok (tt, s') /\ ready s' m p /\ reps (io (lser s')) m.
Proof.
  intros Hr Hlo Hk Hraw. set (k' := mk_packet (raw_data k) IOTLAB_SERIAL_HEADER_SIZE 0 None).
  destruct (reps_loose_cell (io (lser s)) m p k' Hr Hlo) as [Hr1 Hlo1].
  exists (set_cn_logger_pkt (Some p) (set_lser (upd_pkt p k' (lser s)) s)). split; [|split; [|exact Hr1]].
  - unfold cn_logger_packet_free. erewrite bind_ok; [|eapply zoom_ok, zoom_ok, zoom_ok]; [mrun; reflexivity|].
    unfold packet_reset. erewrite bind_ok by (by apply Packet.load_ok). by eapply Packet.store_ok.
  - split; [done|]. split; [exact Hlo1|]. exists k'. split; [apply lookup_upd_pkt|done].
Qed.
End logger.
End CnLogger.
