(* ===== verification/CnMeasPkt.v ===== *)
(** * Measure packets of the control node
      ([appli/iotlab/control_node/control_node/cn_meas_pkt.c])

    The consumption and radio measures of the control node are gathered in
    packets: number of measures, reference time in seconds, then for each
    measure the microseconds since that time and its data. A packet is sent
    when the next measure would not fit, or after about two seconds. *)

From stdpp Require Import base numbers gmap list.
From S2P Require Import Prelude Chain Packet Event SoftTime IotlabPacket IotlabSerial.

Module CnMeasPkt.
Import Packet IotlabPacket SoftTime IotlabSerial.

Definition NUM_PKT_OFFSET : Z := 0.
Definition TIME_OFFSET : Z := 1.
Definition SEC : Z := 1000 * 1000.

Section meas.
Context {F H : Type} {build : Build}.
Abbreviation SM := (M (serial F H)).

(** [pkt->data[i] = b] *)
Definition data_write (p : loc) (i b : Z) : SM unit :=
  k ← pkt_load p;
  raw ← mlift (arr_set (raw_data k) (data k + i) b);
  pkt_store p (mk_packet raw (data k) (length_ k) (next k)).
Definition append (p : loc) (bs : list Z) : SM unit := mzoom (iotlab_packet_append_data p bs).

Definition cn_meas_pkt_lazy_alloc (queue : nat) (current_packet : ptr) (timestamp : soft_timer_timeval)
  : SM ptr :=
  match current_packet with
  | Some _ => mret current_packet
  | None =>
      packet ← iotlab_serial_packet_alloc queue;
      match packet with
      | None => mret None
      | Some p =>
          data_write p NUM_PKT_OFFSET 0 ;;
          k ← pkt_load p;
          pkt_store p (mk_packet (raw_data k) (data k) 1 (next k)) ;;
          append p (le_bytes 4 (tv_sec timestamp)) ;;
          mret packet
      end
  end.

Definition us_since_packet_ref (packet : loc) (timestamp : soft_timer_timeval) : SM Z :=
  k ← pkt_load packet;
  t_ref_s ← mlift (rd 4 (raw_data k) (data k + TIME_OFFSET));
  mret (u32 (tv_usec timestamp + u32 (u32 (tv_sec timestamp - t_ref_s) * SEC))).

Definition pkt_inc_measure_count (packet : loc) : SM unit :=
  k ← pkt_load packet;
  c ← mlift (arr_get (raw_data k) (data k + NUM_PKT_OFFSET));
  data_write packet NUM_PKT_OFFSET (u8 (c + 1)).

Definition pkt_add_measure_time (packet : loc) (timestamp : soft_timer_timeval) : SM unit :=
  usecs ← us_since_packet_ref packet timestamp;
  append packet (le_bytes 4 usecs).

(** The free space is compared as an unsigned number. *)
Definition pkt_should_send (packet : loc) (measure_size : Z) (timestamp : soft_timer_timeval) : SM Z :=
  usecs ← us_since_packet_ref packet timestamp;
  free ← iotlab_serial_packet_free_space packet;
  if u32 free <? measure_size then mret 1
  else if usecs >? 2 * SEC then mret 1
  else mret 0.

(** A measure is the list of the byte blocks its descriptors point to. *)
Definition cn_meas_pkt_add_measure (packet : loc) (timestamp : soft_timer_timeval) (measure_size : Z)
    (measures : list (list Z)) : SM Z :=
  pkt_inc_measure_count packet ;;
  pkt_add_measure_time packet timestamp ;;
  mfor measures (append packet) ;;
  pkt_should_send packet measure_size timestamp.

(** Returns the new value of the packet pointer. *)
Definition cn_meas_pkt_flush (packet_p : ptr) (type : Z) : SM ptr :=
  match packet_p with
  | None => mret None
  | Some packet =>
      r ← iotlab_serial_send_frame type packet;
      mwhen (ctrue r) (mzoom (iotlab_packet_call_free packet)) ;;
      mret None
  end.
End meas.

(** ** Layout of a measure packet *)

(** One measure: microseconds since the reference, and data. *)
Definition meas_bytes (m : Z * list Z) : list Z := le_bytes 4 m.1 ++ m.2.
Definition meas_payload (t_ref : Z) (ms : list (Z * list Z)) : list Z :=
  [u8 (Z.of_nat (length ms))] ++ le_bytes 4 t_ref ++ concat (meas_bytes <$> ms).

(** Packet [k] of the serial link holds [payload] (and its header room). *)
Definition carries `{!Build} (k : packet) (payload : list Z) : Prop :=
  data k = IOTLAB_SERIAL_HEADER_SIZE /\ length_ k = Z.of_nat (length payload) /\
  exists h tl, raw_data k = h ++ payload ++ tl /\ length h = 3%nat /\ length (raw_data k) = packet_size.

Lemma meas_payload_snoc t ms m :
  meas_payload t (ms ++ [m]) =
    [u8 (Z.of_nat (length ms) + 1)] ++ le_bytes 4 t ++ concat (meas_bytes <$> ms) ++ meas_bytes m.
Proof.
  unfold meas_payload. rewrite length_app, fmap_app, concat_app. cbn. rewrite app_nil_r.
  do 3 f_equal. lia.
Qed.

Section layout.
Context {F H : Type} {build : Build}.
Implicit Types (s : serial F H).

Lemma meas_append_ok s p k payload bs :
  cells (io s) !! p = Some k -> carries k payload ->
  Z.of_nat (length payload + length bs) <= PAYLOAD_MAX ->
  exists k', append p bs s = Ok (tt, upd_pkt p k' s) /\ carries k' (payload ++ bs).
Proof.
  intros Hk (Hd & Hl & h & tl & Hraw & Hh & H128) Hfit.
  sizes. unfold IOTLAB_SERIAL_HEADER_SIZE in *.
  assert (length tl = packet_size - 3 - length payload)%nat as Htl.
  { rewrite Hraw, !length_app in H128. lia. }
  assert (arr_blit (raw_data k) (data k + length_ k) bs =
          Ok ((h ++ payload) ++ bs ++ drop (length bs) tl)) as Hblit.
  { rewrite Hraw, app_assoc. rewrite <- (take_drop (length bs) tl) at 1.
    apply arr_blit_at; [rewrite length_app; lia|]. rewrite length_take. lia. }
  eexists. split.
  - unfold append. erewrite zoom_ok; [reflexivity|]. unfold iotlab_packet_append_data.
    erewrite bind_ok by (by apply cell_load_ok). mrun. rewrite Hblit.
    by eapply cell_store_ok.
  - split; [done|]. cbn [length_ raw_data]. split.
    + rewrite length_app, u16_id by lia. lia.
    + exists h, (drop (length bs) tl). split_and!; [by rewrite <- !app_assoc|done|].
      rewrite !length_app, length_drop. rewrite Hraw, !length_app in H128. lia.
Qed.

Lemma append_all_ok p bss : forall s k payload,
  cells (io s) !! p = Some k -> carries k payload ->
  Z.of_nat (length payload + length (concat bss)) <= PAYLOAD_MAX ->
  exists k', mfor bss (append p) s = Ok (tt, upd_pkt p k' s) /\ carries k' (payload ++ concat bss).
Proof.
  induction bss as [|bs bss IH]; intros s k payload Hk Hc Hfit.
  - exists k. split; [|by rewrite app_nil_r]. cbn. unfold upd_pkt. rewrite insert_id by done.
    by destruct s as [? ? ? ? ? ? ? ? ? ? ? ? ? ? [[]]].
  - cbn [concat mfor] in *. rewrite length_app in Hfit.
    destruct (meas_append_ok s p k payload bs Hk Hc) as (k1 & E1 & Hc1); [lia|].
    destruct (IH (upd_pkt p k1 s) k1 (payload ++ bs)) as (k2 & E2 & Hc2);
      [apply lookup_upd_pkt|done|rewrite length_app; lia|].
    exists k2. erewrite bind_ok by exact E1. rewrite E2, upd_pkt_twice, <- app_assoc in *. done.
Qed.

(** Microseconds of [ts] since the second [t_ref], as the code computes them. *)
Definition us_since (t_ref : Z) (ts : soft_timer_timeval) : Z :=
  u32 (tv_usec ts + u32 (u32 (tv_sec ts - t_ref) * SEC)).

Lemma us_since_exact t_ref ts :
  is_u32 t_ref -> t_ref <= tv_sec ts < 4294967296 -> 0 <= tv_usec ts < 1000000 ->
  tv_sec ts - t_ref < 4294 -> us_since t_ref ts = (tv_sec ts - t_ref) * 1000000 + tv_usec ts.
Proof.
  intros H1 H2 H3 H4. unfold us_since, SEC. rewrite (u32_id (tv_sec ts - t_ref)) by lia.
  rewrite (u32_id (_ * _)), u32_id by lia. lia.
Qed.

Lemma us_since_packet_ref_ok s p k c t rest ts :
  cells (io s) !! p = Some k -> carries k ([c] ++ le_bytes 4 t ++ rest) -> is_u32 t ->
  us_since_packet_ref p ts s = Ok (us_since t ts, s).
Proof.
  intros Hk (Hd & _ & h & tl & Hraw & Hh & _) Ht. unfold us_since_packet_ref.
  erewrite bind_ok by (by apply pkt_load_ok). mrun.
  assert (rd 4 (raw_data k) (data k + TIME_OFFSET) = Ok t) as ->; [|done].
  unfold rd. rewrite Hraw, Hd.
  replace (h ++ ([c] ++ le_bytes 4 t ++ rest) ++ tl) with ((h ++ [c]) ++ le_bytes 4 t ++ rest ++ tl)
    by (by rewrite <- !app_assoc).
  change (Z.of_nat 4) with (Z.of_nat (length (le_bytes 4 t))).
  rewrite arr_slice_at by (rewrite length_app, Hh; done).
  change (mbind ?f (Ok ?x)) with (f x). cbn beta. rewrite le_value_bytes.
  f_equal. apply Z.mod_small. exact Ht.
Qed.

Lemma inc_count_ok s p k c rest :
  cells (io s) !! p = Some k -> carries k ([c] ++ rest) ->
  exists k', pkt_inc_measure_count p s = Ok (tt, upd_pkt p k' s) /\ carries k' ([u8 (c + 1)] ++ rest).
Proof.
  intros Hk (Hd & Hl & h & tl & Hraw & Hh & H128). sizes. unfold pkt_inc_measure_count, data_write.
  erewrite bind_ok by (by apply pkt_load_ok). mrun. rewrite Hd, Hraw.
  unfold NUM_PKT_OFFSET, IOTLAB_SERIAL_HEADER_SIZE in *. change (3 + 0) with 3.
  rewrite (arr_get_ok _ _ c); [|lia|rewrite lookup_app_r by (rewrite Hh; done); by rewrite Hh].
  mrun. erewrite bind_ok by (by apply pkt_load_ok). mrun. rewrite Hd, Hraw. change (3 + 0) with 3.
  rewrite arr_set_ok by (rewrite <- Hraw; lia).
  eexists. split; [by eapply pkt_store_ok|]. split; [done|]. split; [exact Hl|].
  exists h, tl. cbn [raw_data]. split_and!; [|done|by rewrite length_insert, <- Hraw].
  rewrite insert_app_r_alt by (rewrite Hh; done). rewrite Hh. done.
Qed.

(** Adding a measure whose announced size is [size]. *)
Lemma add_measure_ok s p k t ms ts size blocks :
  let us := us_since t ts in
  let n := 4 + Z.of_nat (length (concat blocks)) in
  cells (io s) !! p = Some k -> carries k (meas_payload t ms) -> is_u32 t ->
  Z.of_nat (length (meas_payload t ms)) + n <= PAYLOAD_MAX ->
  exists k',
    cn_meas_pkt_add_measure p ts size blocks s =
      Ok (cbool (bool_decide (PAYLOAD_MAX < length_ k' + size \/ 2000000 < us)), upd_pkt p k' s) /\
    carries k' (meas_payload t (ms ++ [(us, concat blocks)])) /\ length_ k' = length_ k + n.
Proof.
  intros us sz Hk Hc Ht Hfit. unfold cn_meas_pkt_add_measure.
  set (body := le_bytes 4 t ++ concat (meas_bytes <$> ms)).
  set (n := Z.of_nat (length ms)).
  destruct (inc_count_ok s p k (u8 n) body Hk Hc) as (k1 & E1 & Hc1).
  erewrite bind_ok by exact E1. unfold pkt_add_measure_time. mrun.
  erewrite bind_ok by (eapply us_since_packet_ref_ok; [apply lookup_upd_pkt|exact Hc1|exact Ht]).
  fold us.
  assert (Z.of_nat (length ([u8 (u8 n + 1)] ++ body)) = Z.of_nat (length (meas_payload t ms))) as Hlen
    by done.
  destruct (meas_append_ok (upd_pkt p k1 s) p k1 ([u8 (u8 n + 1)] ++ body) (le_bytes 4 us))
    as (k2 & E2 & Hc2); [apply lookup_upd_pkt|done|rewrite Nat2Z.inj_add, Hlen, le_bytes_length; lia|].
  erewrite bind_ok by exact E2. rewrite upd_pkt_twice.
  destruct (append_all_ok p blocks (upd_pkt p k2 s) k2 (([u8 (u8 n + 1)] ++ body) ++ le_bytes 4 us))
    as (k3 & E3 & Hc3);
    [apply lookup_upd_pkt|done|rewrite length_app, !Nat2Z.inj_add, Hlen, le_bytes_length; lia|].
  erewrite bind_ok by exact E3. rewrite upd_pkt_twice.
  assert ((([u8 (u8 n + 1)] ++ body) ++ le_bytes 4 us) ++ concat blocks =
          meas_payload t (ms ++ [(us, concat blocks)])) as Hpay.
  { rewrite meas_payload_snoc. subst body. unfold meas_bytes at 2. cbn [fst snd].
    rewrite <- !app_assoc. do 2 f_equal. fold n. mlia. }
  rewrite Hpay in Hc3. exists k3.
  assert (length_ k3 = length_ k + sz) as Hk3.
  { destruct Hc as (_ & -> & _). destruct Hc3 as (_ & -> & _). rewrite <- Hpay, !length_app.
    rewrite le_bytes_length. rewrite <- Hlen, length_app. lia. }
  assert (length_ k = Z.of_nat (length (meas_payload t ms))) as Hlk by apply Hc.
  split; [|by split].
  unfold pkt_should_send. rewrite meas_payload_snoc in Hc3.
  erewrite bind_ok by (eapply us_since_packet_ref_ok; [apply lookup_upd_pkt|exact Hc3|exact Ht]).
  unfold iotlab_serial_packet_free_space. mrun.
  erewrite bind_ok by (apply pkt_load_ok, lookup_upd_pkt). mrun. fold us.
  sizes. rewrite HS3. unfold SEC. rewrite u32_id by lia.
  destruct (Z.ltb_spec (PAYLOAD_MAX - length_ k3) size); [by rewrite bool_decide_eq_true_2 by lia|].
  rewrite Z.gtb_ltb. destruct (Z.ltb_spec (2 * (1000 * 1000)) us);
    [by rewrite bool_decide_eq_true_2 by lia|by rewrite bool_decide_eq_false_2 by lia].
Qed.

(** Adding a measure of the announced size to a measure packet with room for
    it counts it, appends the microseconds since the time reference (exact for
    more than an hour) and its data, and keeps everything before. The result
    asks for the packet to be sent exactly when another measure of this size
    would not fit or more than two seconds have passed: a caller that then
    sends the packet never writes past its end, and every packet it sends is
    within the payload the serial link accepts. *)
Theorem cn_meas_pkt_add_measure_spec s p k t ms ts size blocks :
  let us := us_since t ts in
  cells (io s) !! p = Some k -> carries k (meas_payload t ms) -> is_u32 t ->
  size = 4 + Z.of_nat (length (concat blocks)) ->
  Z.of_nat (length (meas_payload t ms)) + size <= PAYLOAD_MAX ->
  exists k' r,
    cn_meas_pkt_add_measure p ts size blocks s = Ok (r, upd_pkt p k' s) /\
    carries k' (meas_payload t (ms ++ [(us, concat blocks)])) /\
    (length_ k' = length_ k + size /\ length_ k' <= PAYLOAD_MAX) /\
    r = cbool (bool_decide (PAYLOAD_MAX < length_ k' + size \/ 2000000 < us)) /\
    (t <= tv_sec ts < 4294967296 -> 0 <= tv_usec ts < 1000000 -> tv_sec ts - t < 4294 ->
       us = (tv_sec ts - t) * 1000000 + tv_usec ts).
Proof.
  intros us Hk Hc Ht -> Hfit. pose proof Hc as (_ & Hlk & _).
  destruct (add_measure_ok s p k t ms ts (4 + Z.of_nat (length (concat blocks))) blocks Hk Hc Ht Hfit)
    as (k' & E & Hc' & Hl').
  exists k'. eexists. split_and!; [exact E|done|done|lia|done|intros; by apply us_since_exact].
Qed.

Lemma data_write_ok s p k b :
  cells (io s) !! p = Some k -> length (raw_data k) = packet_size -> data k = 3 ->
  data_write p 0 b s = Ok (tt, upd_pkt p (mk_packet (<[3%nat := b]> (raw_data k)) 3 (length_ k) (next k)) s).
Proof.
  intros Hk Hr Hd. sizes. unfold data_write. erewrite bind_ok by (by apply pkt_load_ok). mrun.
  rewrite Hd, arr_set_ok by (rewrite Hr; lia). by eapply pkt_store_ok.
Qed.

Lemma alloc_empty_ok s m q off :
  reps (io s) m -> m !! q = Some [] ->
  mzoom (S := serial F H) (iotlab_packet_alloc q off) s = Ok (None, s).
Proof.
  intros [Hr1 _] Hq. destruct (Hr1 _ _ Hq) as (k & Hk & _ & _ & Hc & _).
  assert (iotlab_packet_alloc q off (io s) = Ok (None, io s)) as E.
  { unfold iotlab_packet_alloc. erewrite bind_ok by (by apply queue_load_ok). by rewrite Hc. }
  erewrite zoom_ok by exact E. by destruct s.
Qed.

(** A new measure packet, from the head [x] of the pool. *)
Lemma lazy_alloc_ok s m q x ys ts :
  reps (io s) m -> m !! q = Some (x :: ys) ->
  (forall k, cells (io s) !! x = Some k -> length (raw_data k) = packet_size) ->
  exists s' k, cn_meas_pkt_lazy_alloc q None ts s = Ok (Some x, s') /\
    reps (io s') (<[q := ys]> m) /\ loose (io s') (<[q := ys]> m) x /\
    cells (io s') !! x = Some k /\ carries k (meas_payload (tv_sec ts) []) /\
    s' = set_io (io s') s /\ io_frame x (io s) (io s') /\ exts (io s') = exts (io s).
Proof.
  intros Hr Hq Hraw. sizes. unfold cn_meas_pkt_lazy_alloc, iotlab_serial_packet_alloc.
  destruct (alloc_ok (io s) m q x ys IOTLAB_SERIAL_HEADER_SIZE Hr Hq)
    as (i1 & c & E & Hr1 & Hlo & Hex & Hc & Hd & Hl & Hn & Hrc & F1 & F2 & F3).
  assert (length (raw_data c) = packet_size) as H128.
  { destruct (cells (io s) !! x) as [c0|] eqn:E0; [|done]. injection Hrc as <-. by apply Hraw. }
  erewrite bind_ok by (by apply zoom_ok). set (s1 := over i1 s). cbn iota.
  erewrite bind_ok by (by apply data_write_ok).
  erewrite bind_ok by (apply pkt_load_ok, lookup_upd_pkt). cbn [raw_data data next].
  erewrite bind_ok by (eapply pkt_store_ok, lookup_upd_pkt). rewrite upd_pkt_twice.
  set (k1 := mk_packet _ _ _ _).
  destruct (meas_append_ok (upd_pkt x k1 s1) x k1 [0] (le_bytes 4 (tv_sec ts))) as (k2 & E2 & Hc2).
  { apply lookup_upd_pkt. }
  { split_and!; [done|done|]. exists (list.take 3 (raw_data c)), (drop 4 (raw_data c)).
    subst k1. cbn [raw_data].
    rewrite insert_take_drop by lia. split_and!; [done|rewrite length_take; lia|].
    rewrite !length_app, length_take. cbn [length]. rewrite length_drop. lia. }
  { cbn. lia. }
  erewrite bind_ok by exact E2. rewrite upd_pkt_twice. exists (upd_pkt x k2 s1), k2.
  destruct (reps_loose_cell i1 (<[q:=ys]> m) x k2 Hr1 Hlo) as [Hr2 Hlo2].
  split_and!; [done|exact Hr2|exact Hlo2|apply lookup_upd_pkt|exact Hc2|done| |exact Hex].
  split_and!; [|exact F2|exact F3]. intros l Hl'. etrans; [|by apply F1]. rewrite upd_pkt_io. cbn. by rewrite lookup_insert_ne.
Qed.

(** [cn_meas_pkt_lazy_alloc] keeps a packet being filled; without one it
    returns NULL and changes nothing when the pool is empty, and otherwise a
    packet of the pool laid out as a measure packet without measure, with the
    seconds of the time given as reference. *)
Theorem cn_meas_pkt_lazy_alloc_spec s m q xs ts :
  reps (io s) m -> m !! q = Some xs ->
  (forall x k, xs !! 0%nat = Some x -> cells (io s) !! x = Some k -> length (raw_data k) = packet_size) ->
  (forall p, cn_meas_pkt_lazy_alloc q (Some p) ts s = Ok (Some p, s)) /\
  match xs with
  | [] => cn_meas_pkt_lazy_alloc q None ts s = Ok (None, s)
  | x :: ys =>
      exists s' k, cn_meas_pkt_lazy_alloc q None ts s = Ok (Some x, s') /\
        reps (io s') (<[q := ys]> m) /\ loose (io s') (<[q := ys]> m) x /\
        cells (io s') !! x = Some k /\ carries k (meas_payload (tv_sec ts) [])
  end.
Proof.
  intros Hr Hq Hraw. split; [done|]. destruct xs as [|x ys].
  - unfold cn_meas_pkt_lazy_alloc, iotlab_serial_packet_alloc. by erewrite bind_ok by (by eapply alloc_empty_ok).
  - destruct (lazy_alloc_ok s m q x ys ts Hr Hq) as (s' & k & E & H1 & H2 & H3 & H4 & _); [by intros k; apply Hraw|].
    by exists s', k.
Qed.

Lemma carries_holds k payload : carries k payload -> holds k payload.
Proof.
  intros (Hd & Hl & h & tl & Hraw & Hh & H128). split_and!; try done.
  rewrite Hl, Hraw. apply arr_slice_at. rewrite Hd, Hh. done.
Qed.

(** [cn_meas_pkt_flush] queues the packet being filled for the serial link,
    framed with its type, at the place of its priority, and the packet pointer
    is NULL afterwards; without a packet it does nothing. *)
Theorem cn_meas_pkt_flush_spec s m xs p k payload type :
  reps (io s) m -> m !! tx_fifo s = Some xs -> loose (io s) m p ->
  cells (io s) !! p = Some k -> carries k payload ->
  cn_meas_pkt_flush None type s = Ok (None, s) /\
  exists s', cn_meas_pkt_flush (Some p) type s = Ok (None, s') /\ queued s m xs p type payload s'.
Proof.
  intros Hr Hq Hlo Hk Hc. split; [done|].
  destruct (send_frame_ok s m xs p k payload type Hr Hq Hlo Hk (carries_holds _ _ Hc)) as (s' & E & Hqd).
  exists s'. split; [|exact Hqd]. unfold cn_meas_pkt_flush. by erewrite bind_ok by exact E.
Qed.
End layout.

(** *** Concrete instances *)

#[local] Existing Instance default_build.

(** Packet 3 of the serial link with one measure of 4 bytes, at 100 s. *)
Definition meas1 : packet :=
  packet_of ([0; 0; 0] ++ meas_payload 100 [(250000, [1; 2; 3; 4])]) 3 13.
Definition meas_serial : serial nat nat := serial_of 1 None None (iot_of 0 (cell None) meas1).

Lemma meas1_carries : carries meas1 (meas_payload 100 [(250000, [1; 2; 3; 4])]).
Proof. split_and!; [done|done|]. by eexists [0; 0; 0], _. Qed.

Lemma cn_meas_pkt_add_measure_spec_witness :
  exists k' r, cn_meas_pkt_add_measure 3 (mk_timeval 101 500000) 8 [[5; 6]; [7; 8]] meas_serial =
      Ok (r, upd_pkt 3 k' meas_serial) /\ r = 0 /\
    carries k' (meas_payload 100 [(250000, [1; 2; 3; 4]); (1500000, [5; 6; 7; 8])]).
Proof.
  destruct (cn_meas_pkt_add_measure_spec meas_serial 3 meas1 100 [(250000, [1; 2; 3; 4])]
    (mk_timeval 101 500000) 8 [[5; 6]; [7; 8]] eq_refl meas1_carries)
    as (k' & r & E & Hc & (Hl & _) & Hr & _); [lia|reflexivity|vm_compute; discriminate|].
  exists k', r. split; [exact E|]. split; [|exact Hc]. rewrite Hr, Hl. reflexivity.
Defined.

Lemma cn_meas_pkt_lazy_alloc_spec_witness :
  exists s' k, cn_meas_pkt_lazy_alloc 0 None (mk_timeval 100 7) meas_serial = Ok (Some 2%nat, s') /\
    cells (io s') !! 2%nat = Some k /\ carries k (meas_payload 100 []).
Proof.
  destruct (cn_meas_pkt_lazy_alloc_spec meas_serial contents2 0 [2%nat] (mk_timeval 100 7)
    (iot_of_reps 0 (cell None) _ eq_refl) eq_refl) as (_ & s' & k & E & _ & _ & Hk & Hc).
  { intros x k [= <-] [= <-]. reflexivity. }
  exists s', k. split; [exact E|]. split; [exact Hk|exact Hc].
Defined.

Lemma cn_meas_pkt_flush_spec_witness :
  exists s', cn_meas_pkt_flush (Some 3%nat) 0x72 meas_serial = Ok (None, s') /\
    reps (io s') (<[1%nat := [3%nat]]> contents2).
Proof.
  destruct (cn_meas_pkt_flush_spec meas_serial contents2 [] 3 meas1 _ 0x72
    (iot_of_reps 0 (cell None) _ eq_refl) eq_refl (iot_of_loose _ _ _) eq_refl meas1_carries)
    as (_ & s' & E & Hr & _).
  exists s'. split; [exact E|exact Hr].
Defined.

End CnMeasPkt.
