(* ===== verification/CnMeasFlow.v ===== *)
(** * The flow of measures of the control node

    The radio, consumption and event modules of the control node handle a measure
    in the same way: take the packet being filled or a new one, add the measure,
    and send the packet when it is full or old. This file has that sequence, and
    what it does to the packets, whatever the module. *)

From stdpp Require Import base numbers gmap list.
From S2P Require Import Prelude Chain Packet Event SoftTime IotlabPacket IotlabSerial CnMeasPkt.

Module CnMeasFlow.
Import Packet IotlabPacket SoftTime IotlabSerial CnMeasPkt.

Section flow.
Context {F H : Type} {build : Build}.
Implicit Types (s : serial F H).

(** [q] is the pool, [p] the packet being filled, [type] the type of the frames. *)
Definition measure_step (q : nat) (p : ptr) (ts : soft_timer_timeval) (size : Z) (blocks : list (list Z)) (type : Z)
  : M (serial F H) ptr :=
  packet ← cn_meas_pkt_lazy_alloc q p ts;
  match packet with
  | None => mret None
  | Some l =>
      send ← cn_meas_pkt_add_measure l ts size blocks;
      if ctrue send then cn_meas_pkt_flush (Some l) type else mret (Some l)
  end.

(** All packets have the size of the build. *)
Definition full (i : iot) : Prop := map_Forall (λ _ k, length (raw_data k) = packet_size) (cells i).

Lemma full_lookup i l k : full i -> cells i !! l = Some k -> length (raw_data k) = packet_size.
Proof. intros Hf. apply Hf. Qed.

(** Packet [l], in no queue, holds [payload]. *)
Definition holding (i : iot) (m : gmap nat (list loc)) (l : loc) (payload : list Z) : Prop :=
  loose i m l /\ exists k, cells i !! l = Some k /\ carries k payload.

(** Packet [l] is being filled with the measures [ms] since second [t]. *)
Definition filling (i : iot) (m : gmap nat (list loc)) (l : loc) (t : Z) (ms : list (Z * list Z)) : Prop :=
  is_u32 t /\ holding i m l (meas_payload t ms).

(** A frame with this payload is in the transmission queue [fs], as packet [l]. *)
Definition sent (i : iot) (l : loc) (type : Z) (payload : list Z) : Prop :=
  exists k, cells i !! l = Some k /\ length_ k = Z.of_nat (length payload) + 3 /\
    arr_slice (raw_data k) 0 (length_ k) = Ok (wire type payload).

Lemma full_frame i i' l k :
  full i -> io_frame l i i' -> cells i' !! l = Some k -> length (raw_data k) = packet_size -> full i'.
Proof.
  intros Hf (F1 & _) Hk Hlen l' k' Hk'. destruct (decide (l' = l)) as [->|Hne]; [congruence|].
  specialize (F1 l' Hne). rewrite Hk' in F1. destruct (cells i !! l') as [k0|] eqn:E; [|done].
  injection F1 as Hr _ _. rewrite Hr. by apply (Hf l').
Qed.

Lemma frame_trans l i1 i2 i3 : io_frame l i1 i2 -> io_frame l i2 i3 -> io_frame l i1 i3.
Proof.
  intros (A1 & A2 & A3) (B1 & B2 & B3). split_and!.
  - intros l' Hl. by rewrite B1, A1.
  - intros q. by rewrite B2, A2.
  - intros l'. by rewrite A3, B3.
Qed.

Lemma frame_upd s l k : io_frame l (io s) (io (upd_pkt l k s)).
Proof. split_and!; try done. intros l' Hl. rewrite upd_pkt_io. cbn. by rewrite lookup_insert_ne. Qed.

(** A loose packet other than [l] stays loose when [l] alone moves. *)
Lemma loose_other i i' m m' l y :
  loose i m y -> y <> l -> io_frame l i i' ->
  (forall q xs, m' !! q = Some xs -> exists xs0, m !! q = Some xs0 /\ forall z, z ∈ xs -> z ∈ xs0 \/ z = l) ->
  loose i' m' y.
Proof.
  intros ((k & Hk) & He & Hout) Hne (F1 & F2 & F3) Hm. split_and!.
  - specialize (F1 y Hne). rewrite Hk in F1. by destruct (cells i' !! y).
  - by apply F3.
  - intros q xs Hq. destruct (Hm q xs Hq) as (xs0 & Hq0 & Hin). destruct (Hout q xs0 Hq0) as [Hx Hh]. split.
    + intros Hy. by destruct (Hin y Hy).
    + by rewrite F2.
Qed.

(** The measure goes into a packet that has room for it. *)
Lemma measure_into s m fs l t ms ts size blocks type :
  let n := 4 + Z.of_nat (length (concat blocks)) in
  reps (io s) m -> m !! tx_fifo s = Some fs -> full (io s) -> filling (io s) m l t ms ->
  Z.of_nat (length (meas_payload t ms)) + n <= PAYLOAD_MAX ->
  exists p s' m',
    (send ← cn_meas_pkt_add_measure l ts size blocks;
     if ctrue send then cn_meas_pkt_flush (Some l) type else mret (Some l)) s = Ok (p, s') /\
    s' = set_io (io s') s /\ full (io s') /\ io_frame l (io s) (io s') /\ exts (io s') = exts (io s) /\
    ((p = Some l /\ m' = m /\ reps (io s') m' /\ filling (io s') m' l t (ms ++ [(us_since t ts, concat blocks)]) /\
      Z.of_nat (length (meas_payload t (ms ++ [(us_since t ts, concat blocks)]))) + size <= PAYLOAD_MAX /\
      us_since t ts <= 2000000) \/
     (p = None /\ m' = <[tx_fifo s := prio_insert (prio (io s)) l fs]> m /\ reps (io s') m' /\
      sent (io s') l type (meas_payload t (ms ++ [(us_since t ts, concat blocks)])))).
Proof.
  intros n Hr Hfs Hf (Ht & Hlo & k & Hk & Hc) Hfit.
  destruct (add_measure_ok s l k t ms ts size blocks Hk Hc Ht Hfit) as (k' & E & Hc' & Hl').
  destruct (reps_loose_cell (io s) m l k' Hr Hlo) as [Hr' Hlo'].
  assert (length (raw_data k') = packet_size) as Hk'. { destruct Hc' as (_ & _ & h & tl & _ & _ & Hs). exact Hs. }
  assert (full (io (upd_pkt l k' s))) as Hf'. { eapply full_frame; [exact Hf|apply frame_upd|apply lookup_upd_pkt|done]. }
  assert (Z.of_nat (length (meas_payload t (ms ++ [(us_since t ts, concat blocks)]))) = length_ k') as Hlen.
  { by destruct Hc' as (_ & -> & _). }
  erewrite bind_ok by exact E. case_bool_decide as Hsend; cbn [cbool].
  - change (ctrue 1) with true. cbn iota.
    destruct (cn_meas_pkt_flush_spec (upd_pkt l k' s) m fs l k' _ type Hr' Hfs Hlo' (lookup_upd_pkt _ _ _) Hc')
      as (_ & s' & E' & Hqd).
    pose proof Hqd as (Q1 & Q2 & Q3 & Q4 & k2 & Q5 & Q6 & Q7 & Q8).
    exists None, s', (<[tx_fifo s := prio_insert (prio (io s)) l fs]> m).
    split_and!; [exact E'|by rewrite Q3 at 1| |by eapply frame_trans; [apply frame_upd|exact Q4]|exact Q2|].
    + eapply full_frame; [exact Hf'|exact Q4|exact Q5|done].
    + right. split_and!; [done|done|exact Q1|]. by exists k2.
  - change (ctrue 0) with false. cbn iota. exists (Some l), (upd_pkt l k' s), m.
    split_and!; [done|done|exact Hf'|apply frame_upd|done|]. left.
    rewrite Hlen. split_and!; [done|done|exact Hr'| |lia|lia].
    split; [done|]. split; [exact Hlo'|]. exists k'. split; [apply lookup_upd_pkt|done].
Qed.

(** The two packets a measure can go to: the one being filled, or the first of the pool. *)
Definition target (m : gmap nat (list loc)) (i : iot) (q : nat) (p : ptr) (ts : soft_timer_timeval)
    (l : loc) (t : Z) (ms : list (Z * list Z)) (m0 : gmap nat (list loc)) : Prop :=
  match p with
  | Some l' => l = l' /\ m0 = m /\ filling i m l t ms
  | None => t = tv_sec ts /\ ms = [] /\ exists ys, m !! q = Some (l :: ys) /\ m0 = <[q := ys]> m
  end.

Lemma measure_step_ok s m fs q p l t ms m0 ts size blocks type :
  let n := 4 + Z.of_nat (length (concat blocks)) in
  reps (io s) m -> m !! tx_fifo s = Some fs -> q <> tx_fifo s -> full (io s) -> is_u32 (tv_sec ts) ->
  target m (io s) q p ts l t ms m0 ->
  Z.of_nat (length (meas_payload t ms)) + n <= PAYLOAD_MAX ->
  exists p' s' m',
    measure_step q p ts size blocks type s = Ok (p', s') /\
    s' = set_io (io s') s /\ full (io s') /\ io_frame l (io s) (io s') /\ exts (io s') = exts (io s) /\
    reps (io s') m' /\
    ((p' = Some l /\ m' = m0 /\ filling (io s') m' l t (ms ++ [(us_since t ts, concat blocks)]) /\
      Z.of_nat (length (meas_payload t (ms ++ [(us_since t ts, concat blocks)]))) + size <= PAYLOAD_MAX /\
      us_since t ts <= 2000000) \/
     (p' = None /\ m' = <[tx_fifo s := prio_insert (prio (io s)) l fs]> m0 /\
      sent (io s') l type (meas_payload t (ms ++ [(us_since t ts, concat blocks)])))).
Proof.
  intros n Hr Hfs Hq Hf Hts Htg Hfit. unfold measure_step, target in *. destruct p as [l'|].
  - destruct Htg as (<- & -> & Hfill). cbn [cn_meas_pkt_lazy_alloc]. mrun.
    destruct (measure_into s m fs l t ms ts size blocks type Hr Hfs Hf Hfill Hfit)
      as (p' & s' & m' & E & H1 & H2 & H3 & H4 & Hres).
    exists p', s', m'. split_and!; try done; [by destruct Hres as [(_ & _ & ? & _)|(_ & _ & ? & _)]|].
    destruct Hres as [(? & ? & ? & ? & ? & ?)|(? & ? & ? & ?)]; [left|right]; by split_and!.
  - destruct Htg as (-> & -> & ys & Hpool & ->).
    destruct (lazy_alloc_ok s m q l ys ts Hr Hpool) as (s1 & k & E & Hr1 & Hlo1 & Hk1 & Hc1 & Hs1 & Hfr1 & Hex1).
    { intros k Hk. by eapply full_lookup. }
    erewrite bind_ok by exact E. cbn iota.
    assert (tx_fifo s1 = tx_fifo s) as Hfifo by (by rewrite Hs1).
    destruct (measure_into s1 (<[q := ys]> m) fs l (tv_sec ts) [] ts size blocks type Hr1)
      as (p' & s' & m' & E' & H1 & H2 & H3 & H4 & Hres).
    + rewrite Hfifo, lookup_insert_ne by done. done.
    + eapply full_frame; [exact Hf|exact Hfr1|exact Hk1|]. by destruct Hc1 as (_ & _ & h & tl & _ & _ & ?).
    + split; [done|]. split; [done|by exists k].
    + done.
    + assert (prio (io s1) = prio (io s)) as Hprio by (unfold prio; by rewrite Hex1).
      exists p', s', m'. split_and!; try done.
      * rewrite H1 at 1. by rewrite Hs1.
      * by eapply frame_trans.
      * by rewrite H4.
      * by destruct Hres as [(_ & _ & ? & _)|(_ & _ & ? & _)].
      * rewrite Hfifo, Hprio in Hres.
        destruct Hres as [(? & ? & ? & ? & ? & ?)|(? & ? & ? & ?)]; [left|right]; by split_and!.
Qed.

(** Without packet being filled nor packet in the pool, the measure is dropped. *)
Lemma measure_step_dropped s m q ts size blocks type :
  reps (io s) m -> m !! q = Some [] -> measure_step q None ts size blocks type s = Ok (None, s).
Proof.
  intros Hr Hq. unfold measure_step, cn_meas_pkt_lazy_alloc, iotlab_serial_packet_alloc.
  rewrite bind_assoc. by erewrite bind_ok by (by eapply alloc_empty_ok).
Qed.

(** The packets held by other modules are not touched. *)
Lemma holding_other i i' m m' l y payload :
  holding i m y payload -> y <> l -> io_frame l i i' ->
  (forall q xs, m' !! q = Some xs -> exists xs0, m !! q = Some xs0 /\ forall z, z ∈ xs -> z ∈ xs0 \/ z = l) ->
  holding i' m' y payload.
Proof.
  intros (Hlo & k & Hk & Hc) Hne Hfr Hm. pose proof Hfr as (F1 & _).
  split; [by eapply loose_other|]. specialize (F1 y Hne). rewrite Hk in F1.
  destruct (cells i' !! y) as [k'|] eqn:E; [|done]. exists k'. split; [done|]. injection F1 as H1 H2 H3.
  destruct Hc as (C1 & C2 & h & tl & C3 & C4 & C5). split_and!; [congruence|congruence|].
  exists h, tl. split_and!; congruence.
Qed.

(** A packet in the transmission queue stays as it is when another one is queued. *)
Lemma sent_other i i' l y type payload : sent i y type payload -> y <> l -> io_frame l i i' -> sent i' y type payload.
Proof.
  intros (k & Hk & Hl & Hs) Hne (F1 & _). specialize (F1 y Hne). rewrite Hk in F1.
  destruct (cells i' !! y) as [k'|] eqn:E; [|done]. injection F1 as H1 H2 H3.
  exists k'. split_and!; [done|congruence|congruence].
Qed.

(** The state changes by moving one packet: from pointer [p] (or the pool) to
    pointer [p'] (or the transmission queue); [m] and [m'] are the contents of the
    queues. The packets waiting for transmission stay, in the same order. *)
Definition moved (p p' : ptr) (s s' : serial F H) (m m' : gmap nat (list loc)) : Prop :=
  s' = set_io (io s') s /\ full (io s') /\ exts (io s') = exts (io s) /\ reps (io s') m' /\
  (forall q, is_Some (m !! q) -> is_Some (m' !! q)) /\
  (forall y payload, holding (io s) m y payload -> Some y <> p -> holding (io s') m' y payload /\ Some y <> p') /\
  (forall fs, m !! tx_fifo s = Some fs -> exists fs', m' !! tx_fifo s = Some fs' /\ fs `sublist_of` fs' /\
     forall y type payload, y ∈ fs -> sent (io s) y type payload -> sent (io s') y type payload).

Lemma moved_none s m : full (io s) -> reps (io s) m -> moved None None s s m m.
Proof. intros Hf Hr. split_and!; try done; [by destruct s|]. intros fs Hfs. by exists fs. Qed.

Lemma frame_moved l p p' s s' m m' :
  s' = set_io (io s') s -> full (io s') -> exts (io s') = exts (io s) -> reps (io s') m' -> io_frame l (io s) (io s') ->
  (forall q, is_Some (m !! q) -> is_Some (m' !! q)) ->
  (forall q xs, m' !! q = Some xs -> exists xs0, m !! q = Some xs0 /\ forall z, z ∈ xs -> z ∈ xs0 \/ z = l) ->
  (forall y, loose (io s) m y -> Some y <> p -> y <> l /\ Some y <> p') ->
  (forall fs, m !! tx_fifo s = Some fs -> l ∉ fs /\ exists fs', m' !! tx_fifo s = Some fs' /\ fs `sublist_of` fs') ->
  moved p p' s s' m m'.
Proof.
  intros Hs Hf Hex Hr Hfr Hdom Hsub Hne Hfifo. split_and!; [done..| |].
  - intros y payload Hy Hyp. destruct (Hne y) as [Hyl Hyp']; [by destruct Hy|done|]. split; [|done].
    by eapply (holding_other _ _ _ _ l).
  - intros fs Hfs. destruct (Hfifo fs Hfs) as (Hl & fs' & Hfs' & Hsl). exists fs'. split_and!; [done|done|].
    intros y type payload Hy Hsent. eapply sent_other; [exact Hsent| |exact Hfr]. by intros ->.
Qed.

Lemma prio_insert_sublist f x xs : xs `sublist_of` prio_insert f x xs.
Proof. induction xs as [|y ys IH]; cbn; [apply sublist_nil_l|]. destruct (f x >? f y); [by apply sublist_cons|by apply sublist_skip]. Qed.

(** Insertion of a packet in the transmission queue. *)
Lemma insert_dom (m : gmap nat (list loc)) q xs q' : is_Some (m !! q') -> is_Some (<[q := xs]> m !! q').
Proof.
  intros Hq'. destruct (decide (q' = q)) as [->|]; [rewrite lookup_insert_eq|rewrite lookup_insert_ne by done]; eauto.
Qed.

Lemma insert_sub (m m0 : gmap nat (list loc)) q fs f (l : loc) :
  m !! q = Some fs ->
  (forall q' xs, m0 !! q' = Some xs -> exists xs0, m !! q' = Some xs0 /\ forall z, z ∈ xs -> z ∈ xs0) ->
  forall q' xs, <[q := prio_insert f l fs]> m0 !! q' = Some xs ->
    exists xs0, m !! q' = Some xs0 /\ forall z, z ∈ xs -> z ∈ xs0 \/ z = l.
Proof.
  intros Hfs Hsub q' xs Hx. destruct (decide (q' = q)) as [->|].
  - rewrite lookup_insert_eq in Hx. injection Hx as <-. exists fs. split; [done|].
    intros z Hz. apply prio_insert_elem in Hz as [->|]; auto.
  - rewrite lookup_insert_ne in Hx by done. destruct (Hsub q' xs Hx) as (xs0 & ? & Hin). exists xs0. eauto.
Qed.

(** Sending a packet held. *)
Lemma send_moved s m fs l payload type :
  reps (io s) m -> m !! tx_fifo s = Some fs -> full (io s) -> holding (io s) m l payload ->
  exists s', iotlab_serial_send_frame type l s = Ok (0, s') /\
    moved (Some l) None s s' m (<[tx_fifo s := prio_insert (prio (io s)) l fs]> m) /\ sent (io s') l type payload /\
    io_frame l (io s) (io s').
Proof.
  intros Hr Hfs Hf (Hlo & k & Hk & Hc).
  destruct (send_frame_ok s m fs l k payload type Hr Hfs Hlo Hk (carries_holds _ _ Hc))
    as (s' & E & Q1 & Q2 & Q3 & Q4 & k2 & Q5 & Q6 & Q7 & Q8).
  exists s'. split; [exact E|]. split; [|split; [by exists k2|exact Q4]].
  apply (frame_moved l); [exact Q3|by eapply full_frame|exact Q2|exact Q1|exact Q4|intros q; apply insert_dom| |intros; split; congruence|].
  - apply insert_sub; [done|eauto].
  - intros fs' Hfs'. assert (fs' = fs) as -> by congruence. destruct Hlo as (_ & _ & Hout). split; [by apply (Hout _ _ Hfs)|].
    rewrite lookup_insert_eq. eexists. split; [done|apply prio_insert_sublist].
Qed.


Lemma flush_moved s m fs p type :
  reps (io s) m -> m !! tx_fifo s = Some fs -> full (io s) ->
  (forall l, p = Some l -> exists payload, holding (io s) m l payload) ->
  exists s' m', cn_meas_pkt_flush p type s = Ok (None, s') /\ moved p None s s' m m' /\
    match p with
    | None => s' = s /\ m' = m
    | Some l => m' = <[tx_fifo s := prio_insert (prio (io s)) l fs]> m /\
        forall payload, holding (io s) m l payload -> sent (io s') l type payload
    end.
Proof.
  intros Hr Hfs Hf Hp. destruct p as [l|].
  2:{ exists s, m. split_and!; [done|by apply moved_none|done|done]. }
  destruct (Hp l eq_refl) as [payload Hl].
  destruct (send_moved s m fs l payload type Hr Hfs Hf Hl) as (s' & E & Hm & Hs & _).
  exists s', (<[tx_fifo s := prio_insert (prio (io s)) l fs]> m).
  split_and!; [|exact Hm|done|].
  - unfold cn_meas_pkt_flush. by erewrite bind_ok by exact E.
  - intros pl Hpl. destruct (send_moved s m fs l pl type Hr Hfs Hf Hpl) as (s2 & E2 & _ & Hs2 & _).
    rewrite E in E2. injection E2 as <-. exact Hs2.
Qed.

Lemma map_weaken (m m0 : gmap nat (list loc)) q ys (l : loc) :
  m !! q = Some (l :: ys) -> m0 = <[q := ys]> m ->
  (forall q', is_Some (m !! q') -> is_Some (m0 !! q')) /\
  (forall q' xs, m0 !! q' = Some xs -> exists xs0, m !! q' = Some xs0 /\ forall z, z ∈ xs -> z ∈ xs0).
Proof.
  intros Hq ->. split.
  - intros q' [xs Hx]. destruct (decide (q' = q)) as [->|];
      [rewrite lookup_insert_eq|rewrite lookup_insert_ne by done]; eauto.
  - intros q' xs Hx. destruct (decide (q' = q)) as [->|].
    + rewrite lookup_insert_eq in Hx. injection Hx as <-. exists (l :: ys). split; [done|]. intros z Hz. by right.
    + rewrite lookup_insert_ne in Hx by done. eauto.
Qed.

Lemma moved_trans p1 p2 p3 s1 s2 s3 m1 m2 m3 :
  moved p1 p2 s1 s2 m1 m2 -> moved p2 p3 s2 s3 m2 m3 -> moved p1 p3 s1 s3 m1 m3.
Proof.
  intros (A1 & A2 & A3 & A4 & A5 & A6 & A7) (B1 & B2 & B3 & B4 & B5 & B6 & B7). split_and!; try done.
  - rewrite B1 at 1. by rewrite A1.
  - by rewrite B3.
  - intros q Hq. by apply B5, A5.
  - intros y payload Hy Hne. destruct (A6 y payload Hy Hne) as [Hy2 Hne2]. by apply B6.
  - intros fs Hfs. destruct (A7 fs Hfs) as (fs2 & Hfs2 & Hs2 & Hk2).
    destruct (B7 fs2) as (fs3 & Hfs3 & Hs3 & Hk3); [by rewrite A1|]. rewrite A1 in Hfs3.
    exists fs3. split_and!; [done|by etrans|]. intros y type payload Hy Hsent. apply Hk3; [|by apply Hk2].
    by eapply elem_of_sublist.
Qed.

(** Taking a packet from a pool. *)
Lemma alloc_moved s m q x ys :
  reps (io s) m -> m !! q = Some (x :: ys) -> q <> tx_fifo s -> full (io s) ->
  exists s' k, iotlab_serial_packet_alloc q s = Ok (Some x, s') /\
    moved None (Some x) s s' m (<[q := ys]> m) /\
    loose (io s') (<[q := ys]> m) x /\ cells (io s') !! x = Some k /\
    data k = 3 /\ length_ k = 0 /\ length (raw_data k) = packet_size.
Proof.
  intros Hr Hq Hqf Hf. unfold iotlab_serial_packet_alloc.
  destruct (alloc_ok (io s) m q x ys IOTLAB_SERIAL_HEADER_SIZE Hr Hq)
    as (i1 & c & E & Hr1 & Hlo & Hex & Hc & Hd & Hl & Hn & Hrc & Hfr).
  assert (length (raw_data c) = packet_size) as Hsz.
  { destruct (cells (io s) !! x) as [c0|] eqn:E0; [|done]. injection Hrc as <-. by apply (Hf x). }
  destruct (map_weaken m _ q ys x Hq eq_refl) as [Hdom Hsub].
  exists (set_io i1 s), c. split_and!; try done; [exact (zoom_ok (S := serial F H) _ s _ _ E)|].
  apply (frame_moved x); [done|by eapply full_frame|done|done|exact Hfr|done| | |].
  - intros q' xs Hx. destruct (Hsub q' xs Hx) as (xs0 & ? & Hin). exists xs0. eauto.
  - intros y (_ & _ & Hout) _. destruct (Hout q _ Hq) as [Hn' _]. assert (y <> x) by (intros ->; apply Hn'; by left).
    split; congruence.
  - intros fs Hfs. rewrite lookup_insert_ne by done. split; [|by exists fs]. intros Hin.
    destruct Hr as [_ Hdis]. apply (Hdis q (tx_fifo s) _ fs x Hq Hfs Hqf); left; [by left|done].
Qed.

(** Writing a packet that is in no queue. *)
Lemma upd_moved s m x k :
  reps (io s) m -> full (io s) -> loose (io s) m x -> length (raw_data k) = packet_size ->
  moved (Some x) (Some x) s (upd_pkt x k s) m m /\ loose (io (upd_pkt x k s)) m x.
Proof.
  intros Hr Hf Hlo Hlen. destruct (reps_loose_cell (io s) m x k Hr Hlo) as [Hr' Hlo'].
  split; [|exact Hlo']. apply (frame_moved x); [done| |done|exact Hr'|apply frame_upd|done|eauto|intros; split; congruence|].
  - eapply full_frame; [exact Hf|apply frame_upd|apply lookup_upd_pkt|done].
  - intros fs Hfs. destruct Hlo as (_ & _ & Hout). split; [by apply (Hout _ _ Hfs)|]. by exists fs.
Qed.

(** The bytes of a packet from its data on. *)
Lemma carries_blit k bs n :
  data k = 3 -> length (raw_data k) = packet_size -> Z.of_nat (length bs) <= PAYLOAD_MAX ->
  exists raw, arr_blit (raw_data k) 3 bs = Ok raw /\ carries (mk_packet raw 3 (Z.of_nat (length bs)) n) bs.
Proof.
  intros Hd Hlen Hfit. sizes. destruct (arr_blit_ok (raw_data k) 3 bs) as [raw E]; [lia|lia|].
  exists raw. split; [done|]. split_and!; [done|done|].
  exists (list.take 3 (raw_data k)), (drop (3 + length bs) (raw_data k)).
  pose proof (arr_blit_length _ _ _ _ E) as Hl. unfold arr_blit in E. case_decide as D; [|done].
  injection E as <-. split_and!; [done|rewrite length_take; lia|]. cbn [raw_data]. by rewrite Hl.
Qed.

(** Measures of [n] bytes each, their time included. *)
Definition uniform (n : Z) (ms : list (Z * list Z)) : Prop := Forall (λ x, 4 + Z.of_nat (length x.2) = n) ms.

(** The packet at [p], if any, gathers measures of [n] bytes and has room for one
    more. *)
Definition buffer (i : iot) (m : gmap nat (list loc)) (p : ptr) (n : Z) : Prop :=
  match p with
  | None => True
  | Some l => exists t ms, filling i m l t ms /\ uniform n ms /\
      Z.of_nat (length (meas_payload t ms)) + n <= PAYLOAD_MAX
  end.

Lemma uniform_length t ms n :
  uniform n ms -> Z.of_nat (length (meas_payload t ms)) = 5 + n * Z.of_nat (length ms).
Proof.
  intros Hms. unfold meas_payload. rewrite !length_app, le_bytes_length. cbn [length].
  assert (Z.of_nat (length (concat (meas_bytes <$> ms))) = n * Z.of_nat (length ms)) as E; [|lia].
  induction Hms as [|x ms Hx _ IH]; [cbn; lia|]. rewrite fmap_cons. cbn [concat length].
  unfold meas_bytes at 1. rewrite !length_app, le_bytes_length. lia.
Qed.

Lemma buffer_holding i m p n l : buffer i m p n -> p = Some l -> exists payload, holding i m l payload.
Proof. intros Hb ->. destruct Hb as (t & ms & (_ & Hh) & _). eauto. Qed.

Lemma buffer_moved p p' s s' m m' y n :
  moved p p' s s' m m' -> buffer (io s) m y n -> (forall l, y = Some l -> p <> Some l) ->
  buffer (io s') m' y n /\ (forall l, y = Some l -> p' <> Some l).
Proof.
  intros (_ & _ & _ & _ & _ & Hk & _) Hb Hne. destruct y as [l|]; [|done].
  destruct Hb as (t & ms & (Ht & Hh) & Hu & Hl). destruct (Hk l _ Hh) as [Hh' Hne'].
  { intros E. by apply (Hne l). }
  split; [by exists t, ms|]. intros ? [= <-]. congruence.
Qed.

(** The size announced to [cn_meas_pkt_add_measure] is that of a measure, or close
    enough for the packets of this build. *)
Definition size_fits (size n : Z) : Prop :=
  forall k, 0 <= k -> 5 + n * k + size <= PAYLOAD_MAX -> 5 + n * k + n <= PAYLOAD_MAX.

(** What became of a measure: dropped for want of a packet, kept in the packet
    being filled, or sent with the measures gathered before. *)
Definition recorded (s s' : serial F H) (m m' : gmap nat (list loc)) (fs : list loc) (q : nat) (p p' : ptr)
    (ts : soft_timer_timeval) (size : Z) (bs : list Z) (type : Z) : Prop :=
  (p = None /\ m !! q = Some [] /\ p' = None /\ s' = s /\ m' = m) \/
  exists l t ms m0, target m (io s) q p ts l t ms m0 /\ uniform (4 + Z.of_nat (length bs)) ms /\
    let ms' := ms ++ [(us_since t ts, bs)] in
    (p' = Some l /\ m' = m0 /\ filling (io s') m' l t ms' /\
       Z.of_nat (length (meas_payload t ms')) + size <= PAYLOAD_MAX /\ us_since t ts <= 2000000) \/
    (p' = None /\ m' = <[tx_fifo s := prio_insert (prio (io s)) l fs]> m0 /\
       sent (io s') l type (meas_payload t ms')).

(** Unless the pool is empty, there is a packet for the measure. *)
Lemma choose_target s m q pool p ts n :
  m !! q = Some pool -> 5 + n <= PAYLOAD_MAX -> buffer (io s) m p n ->
  (p = None /\ pool = []) \/
  exists l t ms m0, target m (io s) q p ts l t ms m0 /\ uniform n ms /\
    Z.of_nat (length (meas_payload t ms)) + n <= PAYLOAD_MAX /\
    (forall q', is_Some (m !! q') -> is_Some (m0 !! q')) /\
    (forall q' xs, m0 !! q' = Some xs -> exists xs0, m !! q' = Some xs0 /\ forall z, z ∈ xs -> z ∈ xs0) /\
    (forall y, loose (io s) m y -> Some y <> p -> y <> l).
Proof.
  intros Hpool Hn Hroom. destruct p as [l|].
  - right. destruct Hroom as (t & ms & Hfill & Hu & Hfit). exists l, t, ms, m.
    split_and!; [done|done|done|done|eauto|congruence].
  - destruct pool as [|l ys]; [by left|]. right. exists l, (tv_sec ts), [], (<[q := ys]> m).
    destruct (map_weaken m _ q ys l Hpool eq_refl) as [H1 H2]. split_and!; [|constructor| |exact H1|exact H2|].
    + split_and!; [done|done|]. by exists ys.
    + unfold meas_payload. rewrite !length_app, le_bytes_length. cbn. lia.
    + intros y (_ & _ & Hout) _ ->. destruct (Hout q _ Hpool) as [Hn' _]. apply Hn'. by left.
Qed.

Lemma target_fifo s m fs q p ts l t ms m0 :
  reps (io s) m -> m !! tx_fifo s = Some fs -> q <> tx_fifo s -> target m (io s) q p ts l t ms m0 ->
  l ∉ fs /\ m0 !! tx_fifo s = Some fs.
Proof.
  intros [_ Hdis] Hfs Hq. destruct p as [l'|]; cbn.
  - intros (<- & -> & _ & (_ & _ & Hout) & _). split; [by apply (Hout _ _ Hfs)|done].
  - intros (_ & _ & ys & Hpool & ->). rewrite lookup_insert_ne by done. split; [|done]. intros Hin.
    apply (Hdis q (tx_fifo s) _ fs l Hpool Hfs Hq); left; [by left|done].
Qed.

Lemma measure_step_total s m fs q pool p ts size blocks type :
  let n := 4 + Z.of_nat (length (concat blocks)) in
  reps (io s) m -> m !! tx_fifo s = Some fs -> q <> tx_fifo s -> m !! q = Some pool -> full (io s) ->
  is_u32 (tv_sec ts) -> 5 + n <= PAYLOAD_MAX -> size_fits size n -> buffer (io s) m p n ->
  exists p' s' m',
    measure_step q p ts size blocks type s = Ok (p', s') /\
    moved p p' s s' m m' /\ buffer (io s') m' p' n /\
    recorded s s' m m' fs q p p' ts size (concat blocks) type.
Proof.
  intros n Hr Hfs Hq Hpool Hf Hts Hn Hsz Hroom.
  destruct (choose_target s m q pool p ts _ Hpool Hn Hroom)
    as [[-> ->]|(l & t & ms & m0 & Htg & Hu & Hfit & Hdom & Hsub & Hne)].
  { exists None, s, m. split_and!; [by eapply measure_step_dropped|by apply moved_none|done|]. left. by split_and!. }
  destruct (measure_step_ok s m fs q p l t ms m0 ts size blocks type Hr Hfs Hq Hf Hts Htg Hfit)
    as (p' & s' & m' & E & Hs' & Hf' & Hfr & Hex & Hr' & Hres).
  assert (m' = m0 \/ m' = <[tx_fifo s := prio_insert (prio (io s)) l fs]> m0) as Hm'
    by (destruct Hres as [(_ & ? & _)|(_ & ? & _)]; auto).
  exists p', s', m'. split_and!; [done| | |].
  - apply (frame_moved l); [done..|exact Hfr| | | |].
    + intros q' Hq'%Hdom. destruct Hm' as [->| ->]; [done|by apply insert_dom].
    + destruct Hm' as [->| ->]; [|by apply insert_sub]. intros q' xs Hx.
      destruct (Hsub q' xs Hx) as (xs0 & ? & Hin). exists xs0. eauto.
    + intros y Hy Hyp. specialize (Hne y Hy Hyp). split; [done|]. destruct Hres as [(-> & _)|(-> & _)]; congruence.
    + intros fs' Hfs'. assert (fs' = fs) as -> by congruence. destruct (target_fifo _ _ _ _ _ _ _ _ _ _ Hr Hfs Hq Htg) as [Hl Hm0].
      split; [done|]. destruct Hm' as [->| ->]; [by exists fs|]. rewrite lookup_insert_eq.
      eexists. split; [done|apply prio_insert_sublist].
  - destruct Hres as [(-> & _ & Hfill & Hlen & _)|(-> & _)]; [|done].
    assert (uniform n (ms ++ [(us_since t ts, concat blocks)])) as Hu'.
    { apply Forall_app. split; [done|]. by repeat constructor. }
    exists t, (ms ++ [(us_since t ts, concat blocks)]). split_and!; [done|done|].
    rewrite (uniform_length _ _ n Hu') in Hlen |- *. apply Hsz; [lia|done].
  - right. exists l, t, ms, m0. split; [done|]. split; [done|]. destruct Hres as [?|?]; [by left|by right].
Qed.

End flow.

End CnMeasFlow.
