(* ===== verification/CnState.v ===== *)
(** * State of the control node ([appli/iotlab/control_node/control_node])

    The control node drives the radio, the consumption monitor and the power
    supply of an open node on behalf of its gateway, which sends commands over the
    serial link. The state gathers the serial link ([IotlabSerial]), the unix time
    ([IotlabTime]) and the static variables of the command modules [cn_radio.c],
    [cn_consumption.c], [cn_event.c], [cn_control.c] and [cn_alim.c] and of the
    library [fiteco_lib_gwt.c]. Calls of the radio, of the software timers, of the
    current monitor, of GPIOs and LEDs are recorded in order in [fx]. *)

From stdpp Require Import base numbers gmap list.
From S2P Require Import Prelude Chain Packet Event SoftTime IotlabPacket IotlabTime Phy IotlabSerial CnMeasPkt.

Module CnState.
Import SoftTime Phy.

(** ** Types of the frames ([constants.h]) *)

Definition OPEN_NODE_STOP : Z := 0x10.
Definition OPEN_NODE_START : Z := 0x11.
Definition SET_TIME : Z := 0x20.
Definition SET_NODE_ID : Z := 0x21.
Definition GREEN_LED_ON : Z := 0x35.
Definition GREEN_LED_BLINK : Z := 0x36.
Definition CONFIG_RADIO_STOP : Z := 0xC0.
Definition CONFIG_RADIO_MEAS : Z := 0xC1.
Definition CONFIG_RADIO_SNIFFER : Z := 0xC3.
Definition CONFIG_CONSUMPTION : Z := 0xCC.
Definition CONFIG_GPIO : Z := 0xCD.
Definition ACK_FRAME : Z := 0xFA.
Definition RADIO_MEAS_FRAME : Z := 0xF1.
Definition RADIO_SNIFFER_FRAME : Z := 0xF3.
Definition CONSUMPTION_FRAME : Z := 0xFC.
Definition EVENT_FRAME : Z := 0xFE.
Definition TEST_GPIO : Z := 0x71.
Definition TEST_I2C2 : Z := 0x72.
Definition TEST_RADIO_PING_PONG : Z := 0x73.

Definition BATTERY : Z := 0.
Definition DC_CHARGE : Z := 1.
Definition DC_NO_CHARGE : Z := 2.
Definition STOP : Z := 0.
Definition START : Z := 1.

(** ** Data of the modules *)

Inductive radio_mode := RADIO_OFF | RADIO_POLLING | RADIO_SNIFFER.
#[global] Instance radio_mode_eq_dec : EqDecision radio_mode.
Proof. solve_decision. Defined.

Record radio_config := mk_rc {
  mode : radio_mode;
  channels : Z;
  num_operations_per_channel : Z;
  measure_period : Z;
}.

(** The configuration objects the commands and events point to: [default_config]
    and the static [config] of [radio_polling] and [radio_sniffer]. *)
Inductive config_ref := CFG_DEFAULT | CFG_POLLING | CFG_SNIFFER.
#[global] Instance config_ref_eq_dec : EqDecision config_ref.
Proof. solve_decision. Defined.

Record config_store := mk_store {
  store_default : radio_config;
  store_polling : radio_config;
  store_sniffer : radio_config;
}.

Record radio_state := mk_radio {
  config : radio_config;
  current_channel : Z;
  current_op_num_on_channel : Z;
  serial_pkt : ptr;
  pkt_buf : list phy_packet;
  pkt_index : Z;
  statics : config_store;
}.

Definition configs (r : radio_state) (c : config_ref) : radio_config :=
  match c with
  | CFG_DEFAULT => store_default (statics r)
  | CFG_POLLING => store_polling (statics r)
  | CFG_SNIFFER => store_sniffer (statics r)
  end.

Inductive monitor_selection := MONITOR_OFF | MONITOR_OPEN_3V | MONITOR_OPEN_5V | MONITOR_BATTERY.
#[global] Instance monitor_selection_eq_dec : EqDecision monitor_selection.
Proof. solve_decision. Defined.
Inductive power_selection := POWER_OFF | POWER_MAIN | POWER_BATTERY.

Record consumption_config := mk_cc {
  enable : bool;
  cc_p : bool;
  cc_v : bool;
  cc_c : bool;
  measure_size : Z;
  power_source : monitor_selection;
  period : Z;
  average : Z;
  cc_pkt : ptr;
}.

(** [cur_config], and the static [conf] of [config_consumption_measures]. *)
Record conso_state := mk_conso { cur_config : consumption_config; conf : consumption_config }.

Record control_state := mk_control {
  node_id : Z;
  unix_time : soft_timer_timeval;
  t0 : Z;
}.

(** Functions called through the pointers of [cn_alim]. *)
Inductive alim_fn := CN_I2C_START | CN_I2C_STOP.
Record alim_state := mk_alim { pre_stop_cmd : option alim_fn; post_start_cmd : option alim_fn }.

(** [gwt] of [fiteco_lib_gwt.c]: time of the last sample, and whether the handler
    of the consumption module is registered. *)
Record gwt_state := mk_gwt { isr_timestamp : Z; gwt_handler : bool }.

(** Command handlers, and functions posted as events. *)
Inductive cn_fn :=
| FN_RADIO_OFF | FN_RADIO_POLLING | FN_RADIO_SNIFFER | FN_CONFIG_CONSUMPTION | FN_SET_TIME | FN_SET_NODE_ID
| FN_GREEN_LED_BLINK | FN_GREEN_LED_ON | FN_ON_START | FN_ON_STOP | FN_CONFIG_GPIO
| FN_PING_PONG | FN_GPIO | FN_I2C2.

Inductive cn_event :=
| EV_UPDATE_CONFIG (c : config_ref)
| EV_SET_NEW_CONFIG (c : config_ref)
| EV_POLL_TIME
| EV_SNIFF_RX (status : phy_status)
| EV_DO_CONFIG_CONSUMPTION
| EV_PROCESS_CURRENT_SAMPLE
| EV_DO_SET_TIME (ack_pkt : loc)
| EV_PPS (timestamp : Z).

Inductive gpio_pin := PIN_MAIN_POWER | PIN_BATTERY_POWER | PIN_BATTERY_CHARGE.
#[global] Instance gpio_pin_eq_dec : EqDecision gpio_pin.
Proof. solve_decision. Defined.
Inductive timer := TIMER_RADIO | TIMER_GREEN_LED.

Inductive effect :=
| FxPhyIdle | FxPhySetChannel (c : Z) | FxPhyRxNow (buf : Z) | FxPhyEd
| FxTimerStop (t : timer) | FxTimerHandler (t : timer) | FxTimerStart (t : timer) (ticks periodic : Z)
| FxMuxEnable | FxMuxDisable | FxMuxSelect (input : Z)
| FxInaDisable | FxInaConfigure (p a : Z) | FxInaCalibrate (s : monitor_selection) | FxInaAlertEnable | FxInaRead
| FxGpioOutput (p : gpio_pin) | FxGpioSet (p : gpio_pin) | FxGpioClear (p : gpio_pin)
| FxPpsIrq (enabled : bool)
| FxLedOn (red : bool) | FxLedsOff
| FxAlim (f : alim_fn)
| FxLog
| FxTestGpio (b : bool) | FxTestI2c2 (b : bool) | FxTestPingPong (arg : option (Z * Z)).

Record cn := mk_cn {
  ser : IotlabSerial.serial cn_fn cn_event;
  itime : IotlabTime.state;
  radio : radio_state;
  conso : conso_state;
  event_pkt : ptr;
  control : control_state;
  alim : alim_state;
  gwt : gwt_state;
  packet_counter : Z;
  fx : list effect;
  reads : nat;
  eds : nat;
}.

Definition set_ser x s := mk_cn x (itime s) (radio s) (conso s) (event_pkt s) (control s) (alim s) (gwt s)
  (packet_counter s) (fx s) (reads s) (eds s).
Definition set_itime x s := mk_cn (ser s) x (radio s) (conso s) (event_pkt s) (control s) (alim s) (gwt s)
  (packet_counter s) (fx s) (reads s) (eds s).
Definition set_radio x s := mk_cn (ser s) (itime s) x (conso s) (event_pkt s) (control s) (alim s) (gwt s)
  (packet_counter s) (fx s) (reads s) (eds s).
Definition set_conso x s := mk_cn (ser s) (itime s) (radio s) x (event_pkt s) (control s) (alim s) (gwt s)
  (packet_counter s) (fx s) (reads s) (eds s).
Definition set_event_pkt x s := mk_cn (ser s) (itime s) (radio s) (conso s) x (control s) (alim s) (gwt s)
  (packet_counter s) (fx s) (reads s) (eds s).
Definition set_control x s := mk_cn (ser s) (itime s) (radio s) (conso s) (event_pkt s) x (alim s) (gwt s)
  (packet_counter s) (fx s) (reads s) (eds s).
Definition set_alim x s := mk_cn (ser s) (itime s) (radio s) (conso s) (event_pkt s) (control s) x (gwt s)
  (packet_counter s) (fx s) (reads s) (eds s).
Definition set_gwt x s := mk_cn (ser s) (itime s) (radio s) (conso s) (event_pkt s) (control s) (alim s) x
  (packet_counter s) (fx s) (reads s) (eds s).
Definition set_packet_counter x s := mk_cn (ser s) (itime s) (radio s) (conso s) (event_pkt s) (control s)
  (alim s) (gwt s) x (fx s) (reads s) (eds s).
Definition set_fx x s := mk_cn (ser s) (itime s) (radio s) (conso s) (event_pkt s) (control s) (alim s) (gwt s)
  (packet_counter s) x (reads s) (eds s).
Definition set_counts r e s := mk_cn (ser s) (itime s) (radio s) (conso s) (event_pkt s) (control s) (alim s)
  (gwt s) (packet_counter s) (fx s) r e.

#[global] Instance ser_lens : Lens cn (IotlabSerial.serial cn_fn cn_event).
Proof. refine {| view := ser; over := set_ser |}; [done|by intros []|done]. Defined.

(** Whether the node is built with the consumption monitor and the power supply of
    an open node; what the state is connected to: the readings of the 64-bit clock,
    of which [soft_timer_time] is the low half, the values [phy_ed] stores (none on
    error), the result of starting the ping-pong test and the readings of the
    current monitor (voltage, current, power); and the addresses of the static
    objects. The packet pool [measures_queue] of [cn_consumption.c] and the one of
    [cn_event.c] have external linkage and the same name: they are one object. *)
Class CnEnv := {
  IOTLAB_CN : bool;
  clock : nat -> Z;
  ed_at : nat -> option Z;
  pp_start : Z -> Z -> Z;
  sample_at : nat -> Z * Z * Z;
  handler_at : cn_fn -> loc;
  radio_meas_pkts : list loc;
  radio_measures_queue : nat;
  meas_pkts : list loc;
  measures_queue : nat;
  acks_pkts : list loc;
  acks_queue : nat;
  control_acks_pkts : list loc;
  control_acks_queue : nat;
}.

Abbreviation CM := (M cn).

Definition emit (e : effect) : CM unit := mmod (λ s, set_fx (fx s ++ [e]) s).

Section prims.
Context `{!CnEnv} {build : Build}.

Definition soft_timer_time_64 : CM Z := fun s => Ok (clock (reads s), set_counts (S (reads s)) (eds s) s).
Definition soft_timer_time : CM Z := t ← soft_timer_time_64; mret (u32 t).

(** [iotlab_time_extend_relative], which reads the clock. *)
Definition extend_relative (tick : Z) : CM soft_timer_timeval :=
  now64 ← soft_timer_time_64;
  s ← mget;
  mret (IotlabTime.iotlab_time_extend_relative (itime s) now64 tick).

(** [event_post(EVENT_QUEUE_APPLI, ...)]: 0 when posted. *)
Definition post (e : cn_event) : CM Z :=
  r ← mzoom (mzoom (T := Event.events (IotlabSerial.serial_event cn_event))
        (Event.event_post Event.EVENT_QUEUE_APPLI (IotlabSerial.Other e) 0));
  mret (match r with Event.EVENT_OK => 0 | Event.EVENT_FULL => 1 end).

(** The payload of a command. *)
Definition payload_length (packet : loc) : CM Z :=
  k ← mzoom (IotlabSerial.pkt_load packet); mret (Packet.length_ k).
Definition payload_byte (packet : loc) (i : Z) : CM Z :=
  k ← mzoom (IotlabSerial.pkt_load packet);
  mlift (arr_get (Packet.raw_data k) (Packet.data k + i)).
Definition payload_read (packet : loc) (n : nat) (i : Z) : CM Z :=
  k ← mzoom (IotlabSerial.pkt_load packet);
  mlift (rd n (Packet.raw_data k) (Packet.data k + i)).

Definition register (f : cn_fn) : CM unit := mzoom (IotlabSerial.iotlab_serial_register_handler (handler_at f)).
End prims.

(** [memcpy] of the [n] bytes of value [v] to the first bytes of an unsigned
    variable that holds [old]: its other bytes stay. *)
Definition copy_low (n : nat) (old v : Z) : Z := v + old / 256 ^ Z.of_nat n * 256 ^ Z.of_nat n.

End CnState.
