(* ===== verification/CnRadio.v ===== *)
(** * Radio commands of the control node
      ([appli/iotlab/control_node/control_node/cn_radio.c])

    The gateway configures the radio of the control node to be off, to poll the
    signal strength on a set of channels in turn, or to sniff the frames of one
    channel. A command fills a static configuration object and posts its address;
    the change is made by two successive events. *)

From stdpp Require Import base numbers gmap list.
From S2P Require Import Prelude Chain Packet Event SoftTime IotlabPacket IotlabTime Phy Zep IotlabSerial CnMeasPkt CnState.

Module CnRadio.
Import SoftTime Phy CnState.

Definition RSSI_MEASURE_SIZE : Z := 1 + 4.
Definition PHY_MAP_CHANNEL_2400_ALL : Z := 0x07FFF800.

Definition default_config : radio_config := mk_rc RADIO_OFF 0 0 0.

Definition set_config x r := mk_radio x (current_channel r) (current_op_num_on_channel r) (serial_pkt r)
  (pkt_buf r) (pkt_index r) (statics r).
Definition set_channel c n r := mk_radio (config r) c n (serial_pkt r) (pkt_buf r) (pkt_index r) (statics r).
Definition set_serial_pkt p r := mk_radio (config r) (current_channel r) (current_op_num_on_channel r) p
  (pkt_buf r) (pkt_index r) (statics r).
Definition set_sniff b i r := mk_radio (config r) (current_channel r) (current_op_num_on_channel r)
  (serial_pkt r) b i (statics r).
Definition set_configs f r := mk_radio (config r) (current_channel r) (current_op_num_on_channel r)
  (serial_pkt r) (pkt_buf r) (pkt_index r) f.

(** Writing the static configuration object [c]. *)
Definition upd_config (c : config_ref) (x : radio_config) (r : radio_state) : radio_state :=
  let t := statics r in
  set_configs
    (match c with
     | CFG_DEFAULT => mk_store x (store_polling t) (store_sniffer t)
     | CFG_POLLING => mk_store (store_default t) x (store_sniffer t)
     | CFG_SNIFFER => mk_store (store_default t) (store_polling t) x
     end) r.

Definition upd_radio (f : radio_state -> radio_state) : CM unit := mmod (λ s, set_radio (f (radio s)) s).

(** The loop of [set_next_channel]: the channel it ends on. *)
Fixpoint next_channel (fuel : nat) (channels c : Z) : option Z :=
  match fuel with
  | O => None
  | S fuel =>
      let c := u32 (c + 1) in
      let c := if c >? PHY_2400_MAX_CHANNEL then PHY_2400_MIN_CHANNEL else c in
      if Z.land channels (Z.shiftl 1 c) =? 0 then next_channel fuel channels c else Some c
  end.

(** Turns the loop is given: more than the number of channels. *)
Definition CHANNEL_FUEL : nat := 32.

Definition set_next_channel : CM unit :=
  emit FxPhyIdle ;;
  s ← mget;
  c ← mlift (of_option EFuel (next_channel CHANNEL_FUEL (channels (config (radio s))) (current_channel (radio s))));
  upd_radio (λ r, set_channel c (current_op_num_on_channel r) r) ;;
  emit (FxPhySetChannel c).

(** Returns 0 when the channel was switched. *)
Definition manage_channel_switch : CM Z :=
  s ← mget;
  if 0 =? num_operations_per_channel (config (radio s)) then mret 1
  else
    upd_radio (λ r, set_channel (current_channel r) (u8 (current_op_num_on_channel r + 1)) r) ;;
    s ← mget;
    if num_operations_per_channel (config (radio s)) =? current_op_num_on_channel (radio s) then
      set_next_channel ;;
      upd_radio (λ r, set_channel (current_channel r) 0 r) ;;
      mret 0
    else mret 1.

Section radio.
Context `{!CnEnv} {build : Build}.

Definition schedule_polling_timer : CM unit :=
  s ← mget; emit (FxTimerStart TIMER_RADIO (measure_period (config (radio s))) 0).

Definition flush_current_rssi_measures : CM unit :=
  s ← mget;
  p ← mzoom (CnMeasPkt.cn_meas_pkt_flush (serial_pkt (radio s)) RADIO_MEAS_FRAME);
  upd_radio (set_serial_pkt p).

Definition proper_stop : CM unit :=
  emit (FxTimerStop TIMER_RADIO) ;;
  emit FxPhyIdle ;;
  upd_radio (set_channel 0 0) ;;
  flush_current_rssi_measures.

(** The result of the second post is ignored. *)
Definition update_config (c : config_ref) : CM unit :=
  upd_radio (λ r, set_config (configs r CFG_DEFAULT) r) ;;
  proper_stop ;;
  post (EV_SET_NEW_CONFIG c) ;;
  mret tt.

Definition sniff_rx : CM unit := s ← mget; emit (FxPhyRxNow (pkt_index (radio s))).

Definition set_new_config (c : config_ref) : CM unit :=
  upd_radio (λ r, set_config (configs r c) r) ;;
  s ← mget;
  match mode (configs (radio s) c) with
  | RADIO_OFF => mret tt
  | RADIO_POLLING =>
      set_next_channel ;;
      emit (FxTimerHandler TIMER_RADIO) ;;
      schedule_polling_timer
  | RADIO_SNIFFER =>
      set_next_channel ;;
      upd_radio (λ r, set_sniff (pkt_buf r) 0 r) ;;
      sniff_rx
  end.

Definition radio_init : CM unit :=
  mzoom (mzoom (T := IotlabPacket.iot) (IotlabPacket.iotlab_packet_init_queue radio_measures_queue radio_meas_pkts)) ;;
  upd_radio (set_serial_pkt None) ;;
  upd_radio (λ r, set_sniff (phy_prepare_packet <$> pkt_buf r) 0 r).

Definition cn_radio_start : CM unit :=
  radio_init ;;
  update_config CFG_DEFAULT ;;
  register FN_RADIO_OFF ;;
  register FN_RADIO_POLLING ;;
  register FN_RADIO_SNIFFER.

(** ** Commands: the result is 0 for ACK *)

(** [if (event_post(...)) return 1; return 0;] *)
Definition post_result (e : cn_event) : CM Z :=
  r ← post e; if ctrue r then mret 1 else mret 0.

Definition radio_off (packet : loc) : CM Z := post_result (EV_UPDATE_CONFIG CFG_DEFAULT).

(** Update of a field of a static configuration. *)
Definition upd_static (c : config_ref) (f : radio_config -> radio_config) : CM unit :=
  upd_radio (λ r, upd_config c (f (configs r c)) r).

Definition set_rc_channels v x := mk_rc (mode x) v (num_operations_per_channel x) (measure_period x).
Definition set_rc_period v x := mk_rc (mode x) (channels x) (num_operations_per_channel x) v.
Definition set_rc_num v x := mk_rc (mode x) (channels x) v (measure_period x).

Definition radio_polling (packet : loc) : CM Z :=
  len ← payload_length packet;
  if negb (len =? 7) then mret 1
  else
    ch ← payload_read packet 4 0;
    upd_static CFG_POLLING (set_rc_channels ch) ;;
    p ← payload_read packet 2 4;
    upd_static CFG_POLLING (λ x, set_rc_period (copy_low 2 (measure_period x) p) x) ;;
    n ← payload_read packet 1 6;
    upd_static CFG_POLLING (λ x, set_rc_num (copy_low 1 (num_operations_per_channel x) n) x) ;;
    upd_static CFG_POLLING (λ x, set_rc_channels (Z.land (channels x) PHY_MAP_CHANNEL_2400_ALL) x) ;;
    s ← mget;
    let x := configs (radio s) CFG_POLLING in
    if channels x =? 0 then mret 1
    else if 0 =? measure_period x then mret 1
    else
      upd_static CFG_POLLING (λ x, set_rc_period (u32 (soft_timer_ms_to_ticks (i32 (measure_period x)))) x) ;;
      post_result (EV_UPDATE_CONFIG CFG_POLLING).

Definition poll_time : CM unit :=
  s ← mget;
  let channel := u8 (current_channel (radio s)) in
  if negb (bool_decide (mode (config (radio s)) = RADIO_POLLING)) then mret tt
  else
    schedule_polling_timer ;;
    emit FxPhyEd ;;
    s ← mget;
    let ed := default 0 (ed_at (eds s)) in
    mmod (λ s, set_counts (reads s) (S (eds s)) s) ;;
    now ← soft_timer_time;
    timestamp ← extend_relative now;
    packet ← mzoom (CnMeasPkt.cn_meas_pkt_lazy_alloc radio_measures_queue (serial_pkt (radio s)) timestamp);
    upd_radio (set_serial_pkt packet) ;;
    (match packet with
     | None => mret tt
     | Some p =>
         send ← mzoom (CnMeasPkt.cn_meas_pkt_add_measure p timestamp RSSI_MEASURE_SIZE
                         [le_bytes 1 channel; le_bytes 1 ed]);
         mwhen (ctrue send) flush_current_rssi_measures
     end) ;;
    manage_channel_switch ;;
    mret tt.

Definition radio_sniffer (packet : loc) : CM Z :=
  len ← payload_length packet;
  if negb (len =? 6) then mret 1
  else
    ch ← payload_read packet 4 0;
    upd_static CFG_SNIFFER (set_rc_channels ch) ;;
    time_per_channel ← payload_read packet 2 4;
    upd_static CFG_SNIFFER (λ x, set_rc_channels (Z.land (channels x) PHY_MAP_CHANNEL_2400_ALL) x) ;;
    s ← mget;
    let x := configs (radio s) CFG_SNIFFER in
    if channels x =? 0 then mret 1
    else if ctrue (Z.land (channels x) (u32 (channels x - 1))) then mret 1
    else if negb (0 =? time_per_channel) then mret 1
    else post_result (EV_UPDATE_CONFIG CFG_SNIFFER).

(** Called by the PHY. *)
Definition sniff_handle_rx (status : phy_status) : CM unit := post (EV_SNIFF_RX status) ;; mret tt.

(** The buffer of index [i]. *)
Definition sniff_buf (i : Z) : CM phy_packet :=
  s ← mget; mlift (of_option EUndef (pkt_buf (radio s) !! Z.to_nat i)).

Definition zep_to_packet (pkt : loc) (i channel : Z) : CM unit :=
  b ← sniff_buf i;
  timestamp ← extend_relative (Phy.timestamp b);
  upd_radio (λ r, set_sniff (<[Z.to_nat i := set_timestamp_alt (mk_alt (tv_usec timestamp) (tv_sec timestamp)) b]>
                               (pkt_buf r)) (pkt_index r) r) ;;
  b ← sniff_buf i;
  k ← mzoom (IotlabSerial.pkt_load pkt);
  s ← mget;
  '(dst, n, c) ← mlift (Zep.to_zep (drop (Z.to_nat (Packet.data k)) (Packet.raw_data k)) b channel
                          (node_id (control s)) (packet_counter s));
  mmod (set_packet_counter c) ;;
  mzoom (IotlabSerial.pkt_store pkt
    (Packet.mk_packet (take (Z.to_nat (Packet.data k)) (Packet.raw_data k) ++ dst) (Packet.data k) (u16 n) (Packet.next k))).

Definition sniff_handle_rx_appli_queue (status : phy_status) : CM unit :=
  s ← mget;
  if negb (bool_decide (mode (config (radio s)) = RADIO_SNIFFER)) then mret tt
  else
    let rx_pkt := pkt_index (radio s) in
    upd_radio (λ r, set_sniff (pkt_buf r) (Z.rem (pkt_index r + 1) 2) r) ;;
    sniff_rx ;;
    if negb (bool_decide (status = PHY_SUCCESS)) then mret tt
    else
      packet ← mzoom (IotlabSerial.iotlab_serial_packet_alloc radio_measures_queue);
      match packet with
      | None => mret tt
      | Some p =>
          zep_to_packet p rx_pkt (u8 (current_channel (radio s))) ;;
          r ← mzoom (IotlabSerial.iotlab_serial_send_frame RADIO_SNIFFER_FRAME p);
          mwhen (ctrue r) (mzoom (mzoom (T := IotlabPacket.iot) (IotlabPacket.iotlab_packet_call_free p)))
      end.
End radio.

End CnRadio.
