(* ===== verification/CnConsumption.v ===== *)
(** * Consumption measures of the control node
      ([appli/iotlab/control_node/control_node/cn_consumption.c],
       [lib/fiteco/fiteco_lib_gwt.c])

    The gateway chooses the quantities measured (power, voltage, current), the
    supply they are measured on and the rate of the monitor. Samples are gathered
    in measure packets. A new configuration is announced to the gateway by a frame
    that follows the measures of the old one. A [float] is its bit pattern. *)

From stdpp Require Import base numbers gmap list.
From S2P Require Import Prelude Chain Packet Event SoftTime IotlabPacket IotlabTime Phy IotlabSerial CnMeasPkt CnState.

Module CnConsumption.
Import SoftTime CnState.

Definition MEASURE_POWER : Z := 0x01.
Definition MEASURE_VOLTAGE : Z := 0x02.
Definition MEASURE_CURRENT : Z := 0x04.
Definition PW_SRC_3_3V : Z := 0x10.
Definition PW_SRC_5V : Z := 0x20.
Definition PW_SRC_BATT : Z := 0x40.
Definition PW_SRC_MASK : Z := 0x70.
Definition PERIOD_MASK : Z := 0x7.
Definition AVERAGE_MASK : Z := 0x70.

(** ** The gateway library *)

Definition fiteco_lib_gwt_current_monitor_stop : CM unit := emit FxMuxDisable ;; emit FxInaDisable.

Definition fiteco_lib_gwt_current_monitor_configure (period average : Z) : CM unit :=
  emit (FxInaConfigure period average).

(** The inputs of the multiplexer are numbered from 1. *)
Definition fiteco_lib_gwt_current_monitor_select (selection : monitor_selection) : CM unit :=
  mmod (λ s, set_gwt (mk_gwt (isr_timestamp (gwt s)) true) s) ;;
  let measure input :=
    emit FxMuxEnable ;;
    emit (FxMuxSelect input) ;;
    emit (FxInaCalibrate selection) ;;
    emit FxInaAlertEnable ;;
    emit FxInaRead in
  match selection with
  | MONITOR_OFF => emit FxMuxDisable ;; emit FxInaDisable
  | MONITOR_OPEN_3V => measure 1
  | MONITOR_OPEN_5V => measure 2
  | MONITOR_BATTERY => measure 3
  end.

(** The power switches are closed by a low level. *)
Definition fiteco_lib_gwt_opennode_power_select (selection : power_selection) : CM unit :=
  emit (FxGpioSet PIN_MAIN_POWER) ;;
  emit (FxGpioSet PIN_BATTERY_POWER) ;;
  match selection with
  | POWER_OFF => emit (FxGpioSet PIN_MAIN_POWER) ;; emit (FxGpioSet PIN_BATTERY_POWER)
  | POWER_MAIN => emit (FxGpioClear PIN_MAIN_POWER) ;; emit (FxGpioSet PIN_BATTERY_POWER)
  | POWER_BATTERY => emit (FxGpioSet PIN_MAIN_POWER) ;; emit (FxGpioClear PIN_BATTERY_POWER)
  end.

Definition fiteco_lib_gwt_battery_charge_enable : CM unit := emit (FxGpioClear PIN_BATTERY_CHARGE).
Definition fiteco_lib_gwt_battery_charge_disable : CM unit := emit (FxGpioSet PIN_BATTERY_CHARGE).

Definition fiteco_lib_gwt_set_config : CM unit :=
  emit (FxGpioOutput PIN_MAIN_POWER) ;;
  emit (FxGpioOutput PIN_BATTERY_POWER) ;;
  emit (FxGpioOutput PIN_BATTERY_CHARGE) ;;
  fiteco_lib_gwt_opennode_power_select POWER_OFF ;;
  fiteco_lib_gwt_battery_charge_enable.

(** ** Configuration *)

Definition upd_conso (f : conso_state -> conso_state) : CM unit := mmod (λ s, set_conso (f (conso s)) s).
Definition set_cur_config x c := mk_conso x (conf c).
Definition set_conf x c := mk_conso (cur_config c) x.
Definition set_cc_pkt p x := mk_cc (enable x) (cc_p x) (cc_v x) (cc_c x) (measure_size x) (power_source x)
  (period x) (average x) p.

(** What [parse_consumption_config] writes into the configuration before it checks
    it, from the three bytes of the command; an invalid supply leaves the field
    [power_source] as it was. *)
Definition parse_fields (status pw_conf pw_meas_rate : Z) (x : consumption_config) : consumption_config :=
  let src := Z.land pw_conf PW_SRC_MASK in
  let source :=
    if src =? PW_SRC_3_3V then MONITOR_OPEN_3V
    else if src =? PW_SRC_5V then MONITOR_OPEN_5V
    else if src =? PW_SRC_BATT then MONITOR_BATTERY
    else power_source x in
  let p := ctrue (Z.land pw_conf MEASURE_POWER) in
  let v := ctrue (Z.land pw_conf MEASURE_VOLTAGE) in
  let c := ctrue (Z.land pw_conf MEASURE_CURRENT) in
  mk_cc (status =? START) p v c (4 + 4 * (cbool p + cbool v + cbool c)) source
    (Z.land pw_meas_rate PERIOD_MASK) (Z.shiftr (Z.land pw_meas_rate AVERAGE_MASK) 4) (cc_pkt x).

Definition invalid_config (pw_conf : Z) : bool :=
  let src := Z.land pw_conf PW_SRC_MASK in
  negb ((src =? PW_SRC_3_3V) || (src =? PW_SRC_5V) || (src =? PW_SRC_BATT)) ||
  negb (ctrue (Z.land pw_conf MEASURE_POWER) || ctrue (Z.land pw_conf MEASURE_VOLTAGE) ||
        ctrue (Z.land pw_conf MEASURE_CURRENT)).

Section consumption.
Context `{!CnEnv} {build : Build}.

Definition alloc_pw_ack_frame (pw_config : Z) : CM ptr :=
  packet ← mzoom (IotlabSerial.iotlab_serial_packet_alloc acks_queue);
  match packet with
  | None => mret None
  | Some p =>
      mzoom (CnMeasPkt.data_write p 0 CONFIG_CONSUMPTION) ;;
      mzoom (CnMeasPkt.data_write p 1 pw_config) ;;
      k ← mzoom (IotlabSerial.pkt_load p);
      mzoom (IotlabSerial.pkt_store p (Packet.mk_packet (Packet.raw_data k) (Packet.data k) 2 (Packet.next k))) ;;
      mret packet
  end.

Definition parse_consumption_config (packet : loc) : CM Z :=
  status ← payload_byte packet 0;
  pw_conf ← payload_byte packet 1;
  pw_meas_rate ← payload_byte packet 2;
  upd_conso (λ c, set_conf (parse_fields status pw_conf pw_meas_rate (conf c)) c) ;;
  if (status =? START) && invalid_config pw_conf then mret 1
  else
    p ← alloc_pw_ack_frame pw_conf;
    upd_conso (λ c, set_conf (set_cc_pkt p (conf c)) c) ;;
    match p with
    | None => mret 1
    | Some _ => mret 0
    end.

Definition config_consumption_measures (packet : loc) : CM Z :=
  len ← payload_length packet;
  if negb (3 =? len) then mret 1
  else
    r ← parse_consumption_config packet;
    if ctrue r then mret 1
    else
      fiteco_lib_gwt_current_monitor_select MONITOR_OFF ;;
      r ← post EV_DO_CONFIG_CONSUMPTION;
      if ctrue r then mret 1 else mret 0.

Definition flush_current_consumption_measures : CM unit :=
  s ← mget;
  p ← mzoom (CnMeasPkt.cn_meas_pkt_flush (cc_pkt (cur_config (conso s))) CONSUMPTION_FRAME);
  upd_conso (λ c, set_cur_config (set_cc_pkt p (cur_config c)) c).

Definition do_config_consumption_measures : CM unit :=
  flush_current_consumption_measures ;;
  s ← mget;
  match cc_pkt (conf (conso s)) with
  | None => mfail EUndef
  | Some ack =>
      r ← mzoom (IotlabSerial.iotlab_serial_send_frame ACK_FRAME ack);
      if ctrue r then
        emit (FxLedOn true) ;;
        emit FxLog ;;
        mzoom (mzoom (T := IotlabPacket.iot) (IotlabPacket.iotlab_packet_call_free ack))
      else
        upd_conso (λ c, set_cur_config (set_cc_pkt None (conf c)) c) ;;
        s ← mget;
        let cur := cur_config (conso s) in
        mwhen (enable cur)
          (emit (FxInaConfigure (period cur) (average cur)) ;;
           fiteco_lib_gwt_current_monitor_select (power_source cur))
  end.

(** The quantities of a sample that the configuration asks for. *)
Definition sample_blocks (x : consumption_config) (v c p : Z) : list (list Z) :=
  (if cc_p x then [le_bytes 4 p] else []) ++
  (if cc_v x then [le_bytes 4 v] else []) ++
  (if cc_c x then [le_bytes 4 c] else []).

Definition consumption_measure_handler (v c p measure_time_ticks : Z) : CM unit :=
  timestamp ← extend_relative measure_time_ticks;
  s ← mget;
  packet ← mzoom (CnMeasPkt.cn_meas_pkt_lazy_alloc measures_queue (cc_pkt (cur_config (conso s))) timestamp);
  upd_conso (λ c, set_cur_config (set_cc_pkt packet (cur_config c)) c) ;;
  match packet with
  | None => mret tt
  | Some l =>
      s ← mget;
      let cur := cur_config (conso s) in
      send ← mzoom (CnMeasPkt.cn_meas_pkt_add_measure l timestamp (measure_size cur) (sample_blocks cur v c p));
      mwhen (ctrue send) flush_current_consumption_measures
  end.

Definition cn_consumption_start : CM unit :=
  mzoom (mzoom (T := IotlabPacket.iot) (IotlabPacket.iotlab_packet_init_queue measures_queue meas_pkts)) ;;
  mzoom (mzoom (T := IotlabPacket.iot) (IotlabPacket.iotlab_packet_init_queue acks_queue acks_pkts)) ;;
  fiteco_lib_gwt_current_monitor_stop ;;
  register FN_CONFIG_CONSUMPTION.

(** ** Samples *)

Definition current_sample_ready_isr : CM unit :=
  now ← soft_timer_time;
  mmod (λ s, set_gwt (mk_gwt now (gwt_handler (gwt s))) s) ;;
  mzoom (mzoom (T := Event.events (IotlabSerial.serial_event cn_event))
    (Event.event_post_from_isr Event.EVENT_QUEUE_APPLI (IotlabSerial.Other EV_PROCESS_CURRENT_SAMPLE) 0)) ;;
  mret tt.

(** [sample_at] are the readings of the monitor, by their number. *)
Definition process_current_sample : CM unit :=
  s ← mget;
  let timestamp := isr_timestamp (gwt s) in
  emit FxInaRead ;;
  let '(u, i, p) := sample_at (eds s) in
  mmod (λ s, set_counts (reads s) (S (eds s)) s) ;;
  mwhen (gwt_handler (gwt s)) (consumption_measure_handler u i p timestamp).
End consumption.

End CnConsumption.
