(* ===== verification/CnControl.v ===== *)
(** * Control commands and main program of the control node
      ([appli/iotlab/control_node/control_node/]: [cn_control.c], [cn_event.c],
       [cn_alim.c], [cn_autotest.c], [main.c]; [appli/iotlab/lib/iotlab_leds_util.c])

    Time and identifier of the node, LEDs, time stamps of the pulse-per-second
    signal, power supply of the open node, and the dispatch of all commands and
    events of the control node. *)

From stdpp Require Import base numbers gmap list.
From S2P Require Import Prelude Chain Packet Event SoftTime IotlabPacket IotlabTime Phy IotlabSerial CnMeasPkt CnState CnRadio CnConsumption.

Module CnControl.
Import SoftTime CnState CnRadio CnConsumption.

Definition EVENT_PPS : Z := 0.
Definition EVENT_MEASURE_SIZE : Z := 3 * 4.

Definition upd_control (f : control_state -> control_state) : CM unit := mmod (λ s, set_control (f (control s)) s).

(** [leds_blink] on the timer [green_led_alarm]. *)
Definition leds_blink (period : Z) : CM unit :=
  emit (FxTimerStop TIMER_GREEN_LED) ;;
  if 0 =? period / 2 then mret tt
  else
    emit (FxTimerHandler TIMER_GREEN_LED) ;;
    emit (FxTimerStart TIMER_GREEN_LED (period / 2) 1).

Section control.
Context `{!CnEnv} {build : Build}.

(** ** Pulse per second *)

Definition flush_current_event : CM unit :=
  s ← mget;
  p ← mzoom (CnMeasPkt.cn_meas_pkt_flush (event_pkt s) EVENT_FRAME);
  mmod (set_event_pkt p).

Definition event_handler (ticks value source : Z) : CM unit :=
  timestamp ← extend_relative ticks;
  s ← mget;
  packet ← mzoom (CnMeasPkt.cn_meas_pkt_lazy_alloc measures_queue (event_pkt s) timestamp);
  mmod (set_event_pkt packet) ;;
  match packet with
  | None => mret tt
  | Some p =>
      send ← mzoom (CnMeasPkt.cn_meas_pkt_add_measure p timestamp EVENT_MEASURE_SIZE
                      [le_bytes 4 value; le_bytes 4 source]);
      mwhen (ctrue send) flush_current_event
  end.

Definition pps_handler (timestamp : Z) : CM unit := event_handler timestamp 1 EVENT_PPS.

Definition pps_handler_irq : CM unit := timestamp ← soft_timer_time; post (EV_PPS timestamp) ;; mret tt.

Definition config_gpio_event (packet : loc) : CM Z :=
  len ← payload_length packet;
  if negb (len =? 2) then mret 1
  else
    mode ← payload_byte packet 0;
    payload_byte packet 1 ;;
    if mode =? STOP then emit (FxPpsIrq false) ;; mret 0
    else emit (FxPpsIrq true) ;; mret 0.

Definition cn_event_start : CM unit :=
  mzoom (mzoom (T := IotlabPacket.iot) (IotlabPacket.iotlab_packet_init_queue measures_queue meas_pkts)) ;;
  register FN_CONFIG_GPIO.

(** ** Time, identifier, LEDs *)

Definition set_time (packet : loc) : CM Z :=
  len ← payload_length packet;
  if negb (8 =? len) then mret 1
  else
    e ← mzoom (mzoom (T := IotlabPacket.iot) (IotlabPacket.ext_load packet));
    upd_control (λ c, mk_control (node_id c) (unix_time c) (IotlabPacket.timestamp e)) ;;
    sec ← payload_read packet 4 0;
    usec ← payload_read packet 4 4;
    upd_control (λ c, mk_control (node_id c) (mk_timeval sec usec) (t0 c)) ;;
    ack ← mzoom (IotlabSerial.iotlab_serial_packet_alloc control_acks_queue);
    match ack with
    | None => mret 1
    | Some p =>
        mzoom (CnMeasPkt.data_write p 0 SET_TIME) ;;
        k ← mzoom (IotlabSerial.pkt_load p);
        mzoom (IotlabSerial.pkt_store p (Packet.mk_packet (Packet.raw_data k) (Packet.data k) 1 (Packet.next k))) ;;
        r ← post (EV_DO_SET_TIME p);
        if ctrue r then
          mzoom (mzoom (T := IotlabPacket.iot) (IotlabPacket.iotlab_packet_call_free p)) ;;
          mret 1
        else mret 0
    end.

Definition do_set_time (ack_pkt : loc) : CM unit :=
  mwhen IOTLAB_CN flush_current_consumption_measures ;;
  flush_current_rssi_measures ;;
  flush_current_event ;;
  r ← mzoom (IotlabSerial.iotlab_serial_send_frame ACK_FRAME ack_pkt);
  if ctrue r then mzoom (mzoom (T := IotlabPacket.iot) (IotlabPacket.iotlab_packet_call_free ack_pkt))
  else
    now64 ← soft_timer_time_64;
    mmod (λ s, set_itime (IotlabTime.iotlab_time_set_time (t0 (control s)) (unix_time (control s)) now64 (itime s)) s).

Definition cn_control_node_id : CM Z := s ← mget; mret (node_id (control s)).

Definition set_node_id (packet : loc) : CM Z :=
  len ← payload_length packet;
  if negb (2 =? len) then mret 1
  else
    id ← payload_read packet 2 0;
    upd_control (λ c, mk_control id (unix_time c) (t0 c)) ;;
    mret 0.

Definition green_led_blink (packet : loc) : CM Z := p ← mlift (soft_timer_s_to_ticks 1); leds_blink p ;; mret 0.
Definition green_led_on (packet : loc) : CM Z := leds_blink 0 ;; emit (FxLedOn false) ;; mret 0.

Definition cn_control_start : CM unit :=
  mzoom (mzoom (T := IotlabPacket.iot)
    (IotlabPacket.iotlab_packet_init_queue control_acks_queue control_acks_pkts)) ;;
  register FN_SET_TIME ;;
  register FN_SET_NODE_ID ;;
  register FN_GREEN_LED_BLINK ;;
  register FN_GREEN_LED_ON.

(** ** Power supply *)

Definition cn_alim_start : CM unit := register FN_ON_START ;; register FN_ON_STOP.

Definition cn_alim_config (pre_stop post_start : option alim_fn) : CM unit :=
  mmod (set_alim (mk_alim pre_stop post_start)).

(** [if (cmd != NULL) cmd();] *)
Definition call_alim (f : option alim_fn) : CM unit :=
  match f with Some f => emit (FxAlim f) | None => mret tt end.

Definition on_start (packet : loc) : CM Z :=
  len ← payload_length packet;
  if negb (1 =? len) then mret 1
  else
    b ← payload_byte packet 0;
    let started :=
      s ← mget;
      call_alim (post_start_cmd (alim s)) ;;
      mret 0 in
    if DC_CHARGE =? b then
      fiteco_lib_gwt_opennode_power_select POWER_MAIN ;;
      fiteco_lib_gwt_battery_charge_enable ;;
      started
    else if DC_NO_CHARGE =? b then
      fiteco_lib_gwt_opennode_power_select POWER_MAIN ;;
      fiteco_lib_gwt_battery_charge_disable ;;
      started
    else if BATTERY =? b then
      fiteco_lib_gwt_opennode_power_select POWER_BATTERY ;;
      fiteco_lib_gwt_battery_charge_disable ;;
      started
    else mret 1.

Definition on_stop (packet : loc) : CM Z :=
  len ← payload_length packet;
  if negb (1 =? len) then mret 1
  else
    s ← mget;
    call_alim (pre_stop_cmd (alim s)) ;;
    fiteco_lib_gwt_opennode_power_select POWER_OFF ;;
    b ← payload_byte packet 0;
    if DC_CHARGE =? b then fiteco_lib_gwt_battery_charge_enable ;; mret 0
    else if DC_NO_CHARGE =? b then fiteco_lib_gwt_battery_charge_disable ;; mret 0
    else if BATTERY =? b then fiteco_lib_gwt_battery_charge_disable ;; mret 0
    else mret 1.

(** ** Tests *)

Definition cn_autotest_start : CM unit :=
  register FN_PING_PONG ;; register FN_GPIO ;; register FN_I2C2.

Definition ping_pong (packet : loc) : CM Z :=
  len ← payload_length packet;
  if negb (3 =? len) then mret 1
  else
    b ← payload_byte packet 0;
    if START =? b then
      c ← payload_byte packet 1;
      p ← payload_byte packet 2;
      emit (FxTestPingPong (Some (c, p))) ;;
      mret (pp_start c p)
    else emit (FxTestPingPong None) ;; mret 0.

Definition gpio (packet : loc) : CM Z :=
  b ← payload_byte packet 0;
  emit (FxTestGpio (START =? b)) ;; mret 0.

Definition tst_i2c2 (packet : loc) : CM Z :=
  b ← payload_byte packet 0;
  emit (FxTestI2c2 (START =? b)) ;; mret 0.

(** ** Dispatch *)

(** Calling a command handler. *)
Definition run_fn (f : cn_fn) (cmd : Z) (packet : loc) : CM Z :=
  match f with
  | FN_RADIO_OFF => radio_off packet
  | FN_RADIO_POLLING => radio_polling packet
  | FN_RADIO_SNIFFER => radio_sniffer packet
  | FN_CONFIG_CONSUMPTION => config_consumption_measures packet
  | FN_SET_TIME => set_time packet
  | FN_SET_NODE_ID => set_node_id packet
  | FN_GREEN_LED_BLINK => green_led_blink packet
  | FN_GREEN_LED_ON => green_led_on packet
  | FN_ON_START => on_start packet
  | FN_ON_STOP => on_stop packet
  | FN_CONFIG_GPIO => config_gpio_event packet
  | FN_PING_PONG => ping_pong packet
  | FN_GPIO => gpio packet
  | FN_I2C2 => tst_i2c2 packet
  end.

(** Calling a posted function. *)
Definition run_event (e : IotlabSerial.serial_event cn_event) (arg : Z) : CM unit :=
  match e with
  | IotlabSerial.PacketReceived => IotlabSerial.packet_received run_fn
  | IotlabSerial.Other e =>
      match e with
      | EV_UPDATE_CONFIG c => update_config c
      | EV_SET_NEW_CONFIG c => set_new_config c
      | EV_POLL_TIME => poll_time
      | EV_SNIFF_RX status => sniff_handle_rx_appli_queue status
      | EV_DO_CONFIG_CONSUMPTION => do_config_consumption_measures
      | EV_PROCESS_CURRENT_SAMPLE => process_current_sample
      | EV_DO_SET_TIME ack => do_set_time ack
      | EV_PPS t => pps_handler t
      end
  end.

(** The part of [main] that starts the modules, from [cn_control_start] on. *)
Definition main_start : CM unit :=
  cn_control_start ;;
  mwhen IOTLAB_CN
    (cn_alim_start ;;
     cn_consumption_start ;;
     cn_alim_config (Some CN_I2C_STOP) (Some CN_I2C_START) ;;
     cn_autotest_start) ;;
  cn_radio_start ;;
  cn_event_start ;;
  mwhen IOTLAB_CN
    (fiteco_lib_gwt_opennode_power_select POWER_OFF ;;
     fiteco_lib_gwt_battery_charge_disable) ;;
  emit FxLedsOff ;;
  emit (FxLedOn false).
End control.

End CnControl.
