(* ===== verification/CnSpec.v ===== *)
(** * Measures of the control node, in its state

    The handlers of [CnRadio], [CnConsumption] and [CnControl] that produce measures
    perform the sequence of [CnMeasFlow] on the packet pointer of their module. *)

From stdpp Require Import base numbers gmap list.
From S2P Require Import Prelude Chain Packet Event SoftTime IotlabPacket IotlabTime Phy IotlabSerial CnMeasPkt CnMeasFlow CnState CnRadio CnConsumption CnControl.

Module CnSpec.
Import CnState CnMeasFlow CnMeasPkt IotlabSerial IotlabPacket SoftTime CnRadio CnConsumption CnControl.

(** Projections of updated states. *)
Ltac cn_simpl :=
  cbn [ser itime radio conso event_pkt control alim gwt packet_counter fx reads eds
       set_ser set_itime set_radio set_conso set_event_pkt set_control set_packet_counter set_fx set_counts
       config current_channel current_op_num_on_channel serial_pkt pkt_buf pkt_index statics
       set_config set_channel set_serial_pkt set_sniff set_configs].

Lemma configs_set_config x r c : configs (set_config x r) c = configs r c.
Proof. done. Qed.

Lemma cn_zoom_ok {A} (m : M (serial cn_fn cn_event) A) s a t :
  m (ser s) = Ok (a, t) -> mzoom m s = Ok (a, set_ser t s).
Proof. intros E. exact (zoom_ok (S := cn) m s a t E). Qed.

(** A packet pointer in the state. *)
Class PtrField (get : cn -> ptr) (set : ptr -> cn -> cn) := {
  get_set p s : get (set p s) = p;
  ser_set p s : ser (set p s) = ser s;
  set_set p p' s : set p (set p' s) = set p s;
  set_ser_comm p t s : set_ser t (set p s) = set p (set_ser t s);
  get_set_ser t s : get (set_ser t s) = get s;
}.

Section field.
Context `{!CnEnv} {build : Build} {get set} {PF : PtrField get set}.

(** Sending the packet being filled. *)
Definition flush_field (type : Z) : CM unit :=
  s ← mget; p ← mzoom (cn_meas_pkt_flush (get s) type); mmod (set p).

Lemma measure_field q ts size blocks type s p' t' :
  measure_step q (get s) ts size blocks type (ser s) = Ok (p', t') ->
  (packet ← mzoom (cn_meas_pkt_lazy_alloc q (get s) ts);
   mmod (set packet) ;;
   match packet with
   | None => mret tt
   | Some p =>
       send ← mzoom (cn_meas_pkt_add_measure p ts size blocks);
       mwhen (ctrue send) (flush_field type)
   end) s = Ok (tt, set p' (set_ser t' s)).
Proof.
  unfold measure_step. intros E. apply bind_inv in E as (packet & t1 & E1 & E).
  erewrite bind_ok by (by apply cn_zoom_ok). mrun. destruct packet as [l|].
  2:{ injection E as <- <-. done. }
  apply bind_inv in E as (send & t2 & E2 & E).
  erewrite bind_ok; [|apply cn_zoom_ok; rewrite ser_set; exact E2]. rewrite set_ser_comm.
  destruct (ctrue send); cbn [mwhen].
  - unfold flush_field. mrun. rewrite get_set. erewrite bind_ok; [|apply cn_zoom_ok; rewrite ser_set; exact E].
    unfold mmod. by rewrite set_ser_comm, set_set.
  - injection E as <- <-. done.
Qed.
End field.

(** ** Commands *)

Section commands.
Context `{!CnEnv} {build : Build}.

(** Packet [l] holds the payload [bs]. *)
Definition command (s : cn) (l : loc) (bs : list Z) : Prop :=
  exists k, cells (io (ser s)) !! l = Some k /\ Packet.length_ k = Z.of_nat (length bs) /\
    arr_slice (Packet.raw_data k) (Packet.data k) (Packet.length_ k) = Ok bs.

Lemma payload_length_ok s l bs : command s l bs -> payload_length l s = Ok (Z.of_nat (length bs), s).
Proof.
  intros (k & Hk & <- & _). unfold payload_length.
  erewrite bind_ok by (apply cn_zoom_ok, pkt_load_ok; exact Hk). by destruct s.
Qed.

Lemma slice_sub (raw bs : list Z) off n i m :
  arr_slice raw off n = Ok bs -> 0 <= i -> 0 <= m -> i + m <= n ->
  arr_slice raw (off + i) m = Ok (list.take (Z.to_nat m) (drop (Z.to_nat i) bs)).
Proof.
  unfold arr_slice. case_decide as D; [|done]. intros [= <-] Hi Hm Hle. rewrite decide_True by lia. f_equal.
  rewrite skipn_firstn_comm, take_take, drop_drop. f_equal; [lia|]. f_equal. lia.
Qed.

Lemma payload_read_ok s l bs n i :
  command s l bs -> 0 <= i -> i + Z.of_nat n <= Z.of_nat (length bs) ->
  payload_read l n i s = Ok (le_value (list.take n (drop (Z.to_nat i) bs)), s).
Proof.
  intros (k & Hk & Hlen & Hbs) Hi Hn. unfold payload_read.
  erewrite bind_ok by (apply cn_zoom_ok, pkt_load_ok; exact Hk). unfold rd, mlift.
  rewrite (slice_sub _ bs _ _ _ _ Hbs) by lia. change (mbind ?f (Ok ?x)) with (f x). cbn beta.
  rewrite Nat2Z.id. by destruct s.
Qed.

Lemma payload_byte_ok s l bs i b :
  command s l bs -> 0 <= i -> bs !! Z.to_nat i = Some b -> payload_byte l i s = Ok (b, s).
Proof.
  intros (k & Hk & Hlen & Hbs) Hi Hb. unfold payload_byte.
  erewrite bind_ok by (apply cn_zoom_ok, pkt_load_ok; exact Hk). unfold mlift.
  unfold arr_slice in Hbs. case_decide as D; [|done]. injection Hbs as <-.
  rewrite (arr_get_ok _ _ b); [by destruct s|lia|].
  pose proof (lookup_lt_Some _ _ _ Hb) as Hlt. rewrite length_take, length_drop in Hlt.
  rewrite lookup_take_lt, lookup_drop in Hb by lia. rewrite <- Hb. f_equal. lia.
Qed.

(** The queue of the application events. *)
Definition events_of (s : cn) : option (list (Event.queue_entry (serial_event cn_event))) :=
  Event.queues (view (ser s)) Event.EVENT_QUEUE_APPLI.

Definition queue_events (es : list cn_event) (s : cn) : cn :=
  set_ser (over (Event.set_queue Event.EVENT_QUEUE_APPLI
    (Some (default [] (events_of s) ++ ((λ e, Event.mk_entry (Other e) 0) <$> es))) (view (ser s))) (ser s)) s.

(** Room for [n] more events. *)
Definition event_room (n : nat) (s : cn) : Prop :=
  exists es, events_of s = Some es /\ (length es + n <= EVENT_QUEUE_LENGTH)%nat.

Lemma cn_post_ok s e : event_room 1 s -> post e s = Ok (0, queue_events [e] s).
Proof.
  intros (es & Hes & Hlt). unfold post.
  pose proof (Event.event_post_ok Event.EVENT_QUEUE_APPLI (Other e) 0 _ es Hes ltac:(lia)) as E.
  erewrite bind_ok by (apply cn_zoom_ok, zoom_ok; exact E). unfold queue_events. by rewrite Hes.
Qed.

Lemma post_full s es e :
  events_of s = Some es -> (EVENT_QUEUE_LENGTH <= length es)%nat -> EVENT_HALT_ON_POST_ERROR = false ->
  post e s = Ok (1, s).
Proof.
  intros Hes Hge Hb. unfold post.
  assert (Event.event_post Event.EVENT_QUEUE_APPLI (Other e) 0 (view (ser s)) = Ok (Event.EVENT_FULL, view (ser s))) as E.
  { unfold events_of in Hes. unfold Event.event_post, mbind, M_bind, Event.queue_send. rewrite Hes.
    destruct (Nat.ltb_spec (length es) EVENT_QUEUE_LENGTH); [lia|]. by rewrite Hb. }
  erewrite bind_ok by (apply cn_zoom_ok, zoom_ok; exact E). rewrite over_view. by destruct s.
Qed.

Lemma events_of_queue es s : events_of (queue_events es s) = Some (default [] (events_of s) ++ ((λ e, Event.mk_entry (Other e) 0) <$> es)).
Proof. unfold events_of, queue_events. cbn [ser set_ser]. rewrite view_over. apply Event.queue_set_same. Qed.
End commands.

(** The event queues, in the state. *)
#[global] Instance cn_events_lens : Lens cn (Event.events (serial_event cn_event)).
Proof.
  refine {| view := λ s, evs (ser s); over := λ e s, set_ser (set_evs e (ser s)) s |}; [done|by intros [[]]|done].
Defined.

(** One turn of the loop of the application task calls the first event, in a state
    where it is no longer queued. *)
Lemma task_turn `{!CnEnv} {build : Build} s e es :
  events_of s = Some (Event.mk_entry (Other e) 0 :: es) ->
  exists s0, (s0 = over (view s0) s /\ events_of s0 = Some es) /\
    forall s', run_event (Other e) 0 s0 = Ok (tt, s') ->
      Event.event_task_iter run_event Event.EVENT_QUEUE_APPLI s = Ok (Event.mk_entry (Other e) 0, s').
Proof.
  intros Hes. unfold events_of in Hes. unfold Event.event_task_iter.
  set (v1 := Event.set_current Event.EVENT_QUEUE_APPLI None (view s)).
  set (v2 := Event.set_queue Event.EVENT_QUEUE_APPLI (Some es) v1).
  set (v3 := Event.set_current Event.EVENT_QUEUE_APPLI (Some (Event.mk_entry (Other e) 0)) v2).
  exists (over v3 s). split; [split; [done|apply Event.queue_set_same]|]. intros s' E.
  erewrite bind_ok by (by apply zoom_ok). fold v1.
  assert (Event.queue_receive Event.EVENT_QUEUE_APPLI v1 = Ok (Event.mk_entry (Other e) 0, v2)) as Er.
  { unfold Event.queue_receive. change (Event.queues v1) with (Event.queues (view (ser s))). by rewrite Hes. }
  erewrite bind_ok by (apply zoom_ok; rewrite view_over; exact Er).
  erewrite bind_ok by (by apply zoom_ok). rewrite !over_over, view_over.
  by erewrite bind_ok by exact E.
Qed.

(** ** The packets being filled *)

(** The three modules that gather measures. *)
Inductive slot := RADIO | CONSO | EVENT.
#[global] Instance slot_eq_dec : EqDecision slot.
Proof. solve_decision. Defined.

Definition slot_get (x : slot) (s : cn) : ptr :=
  match x with
  | RADIO => serial_pkt (radio s)
  | CONSO => cc_pkt (cur_config (conso s))
  | EVENT => event_pkt s
  end.
Definition slot_set (x : slot) (p : ptr) (s : cn) : cn :=
  match x with
  | RADIO => set_radio (set_serial_pkt p (radio s)) s
  | CONSO => set_conso (set_cur_config (set_cc_pkt p (cur_config (conso s))) (conso s)) s
  | EVENT => set_event_pkt p s
  end.

#[global] Instance slot_field x : PtrField (slot_get x) (slot_set x).
Proof. by destruct x. Qed.

(** Bytes of a measure, its time included. *)
Definition slot_size (x : slot) (s : cn) : Z :=
  match x with
  | RADIO => 6
  | CONSO => let c := cur_config (conso s) in 4 + 4 * (cbool (cc_p c) + cbool (cc_v c) + cbool (cc_c c))
  | EVENT => 12
  end.

Section packets.
Context `{!CnEnv} {build : Build}.

Definition slot_pool (x : slot) : nat := match x with RADIO => radio_measures_queue | _ => measures_queue end.
Definition slot_type (x : slot) : Z :=
  match x with RADIO => RADIO_MEAS_FRAME | CONSO => CONSUMPTION_FRAME | EVENT => EVENT_FRAME end.

(** The packet queues have the contents [m]; the packet a module is filling is in no
    queue and is not the packet of another module; it has room for a measure. *)
Record packets_ok (s : cn) (m : gmap nat (list loc)) : Prop := {
  ok_reps : reps (io (ser s)) m;
  ok_full : full (io (ser s));
  ok_fifo : is_Some (m !! tx_fifo (ser s));
  ok_pool x : is_Some (m !! slot_pool x);
  ok_pool_ne x : slot_pool x <> tx_fifo (ser s);
  ok_buffer x : buffer (io (ser s)) m (slot_get x s) (slot_size x s);
  ok_apart x y l : x <> y -> slot_get x s = Some l -> slot_get y s <> Some l;
}.

(** Packet [l] holds [payload] and is not one that a module is filling. *)
Definition held (s : cn) (m : gmap nat (list loc)) (l : loc) (payload : list Z) : Prop :=
  holding (io (ser s)) m l payload /\ forall x, slot_get x s <> Some l.

(** Only these parts of the state matter. *)
Lemma packets_ok_ext s s' m :
  packets_ok s m -> io (ser s') = io (ser s) -> tx_fifo (ser s') = tx_fifo (ser s) ->
  (forall x, slot_get x s' = slot_get x s) -> (forall x, slot_size x s' = slot_size x s) -> packets_ok s' m.
Proof.
  intros [] Hio Hfifo Hget Hsize. constructor; intros *; rewrite ?Hio, ?Hfifo, ?Hget, ?Hsize; eauto.
Qed.

(** A module that is filling no packet may change the size of its measures. *)
Lemma packets_ok_none s s' m x :
  packets_ok s m -> io (ser s') = io (ser s) -> tx_fifo (ser s') = tx_fifo (ser s) ->
  (forall y, slot_get y s' = slot_get y s) -> slot_get x s = None ->
  (forall y, x <> y -> slot_size y s' = slot_size y s) -> packets_ok s' m.
Proof.
  intros [] Hio Hfifo Hget Hnone Hsize. constructor; intros *; rewrite ?Hio, ?Hfifo, ?Hget; eauto.
  destruct (decide (x = x0)) as [<-|]; [by rewrite Hnone|]. rewrite Hsize by done. eauto.
Qed.

Lemma slot_get_other x y p s : x <> y -> slot_get y (slot_set x p s) = slot_get y s.
Proof. by destruct x, y. Qed.
Lemma slot_size_set x y p s : slot_size y (slot_set x p s) = slot_size y s.
Proof. by destruct x, y. Qed.
Lemma slot_size_ser x t s : slot_size x (set_ser t s) = slot_size x s.
Proof. by destruct x. Qed.

(** A module moves its packet. *)
Lemma packets_moved s m x p' t' m' :
  packets_ok s m -> moved (slot_get x s) p' (ser s) t' m m' -> buffer (io t') m' p' (slot_size x s) ->
  packets_ok (slot_set x p' (set_ser t' s)) m' /\
  (forall l payload, held s m l payload -> held (slot_set x p' (set_ser t' s)) m' l payload).
Proof.
  intros [Hr Hf Hfi Hp Hne Hb Ha] Hmv Hb'. pose proof Hmv as (M1 & M2 & M3 & M4 & M5 & M6 & _).
  set (s' := slot_set x p' (set_ser t' s)).
  assert (ser s' = t') as Es by (subst s'; by rewrite ser_set).
  assert (slot_get x s' = p') as Ex by apply get_set.
  assert (forall y, x <> y -> slot_get y s' = slot_get y s) as Ey.
  { intros y Hy. subst s'. rewrite slot_get_other by done. apply get_set_ser. }
  assert (forall y, slot_size y s' = slot_size y s) as Ez.
  { intros y. subst s'. by rewrite slot_size_set, slot_size_ser. }
  assert (tx_fifo t' = tx_fifo (ser s)) as Et by (by rewrite M1).
  assert (forall y, x <> y -> buffer (io t') m' (slot_get y s) (slot_size y s) /\ forall l, slot_get y s = Some l -> p' <> Some l) as Hother.
  { intros y Hy. eapply buffer_moved; [exact Hmv|apply Hb|]. intros l Hl. by apply (Ha y x l). }
  clearbody s'. split.
  - constructor; rewrite ?Es, ?Et; try done.
    + by apply M5.
    + intros y. by apply M5.
    + intros y. rewrite Ez. destruct (decide (x = y)) as [<-|Hy]; [by rewrite Ex|]. rewrite Ey by done. by apply Hother.
    + intros y z l Hyz Hl. destruct (decide (x = y)) as [<-|Hy], (decide (x = z)) as [<-|Hz]; try done.
      * rewrite Ex in Hl. rewrite Ey by done. intros E. by apply (proj2 (Hother z Hz) l).
      * rewrite Ey in Hl by done. rewrite Ex. by apply (Hother y Hy).
      * rewrite Ey in Hl by done. rewrite Ey by done. by apply (Ha y z).
  - intros l payload [Hh Hout]. destruct (M6 l payload Hh) as [Hh' Hnp].
    { intros E. by apply (Hout x). }
    split; [by rewrite Es|]. intros y. destruct (decide (x = y)) as [<-|Hy]; [rewrite Ex; congruence|by rewrite Ey].
Qed.

(** A packet that no module is filling moves. *)
Lemma packets_passed s m p p' t' m' :
  packets_ok s m -> moved p p' (ser s) t' m m' -> (forall x l, p = Some l -> slot_get x s <> Some l) ->
  packets_ok (set_ser t' s) m' /\
  (forall l payload, held s m l payload -> p <> Some l -> held (set_ser t' s) m' l payload /\ p' <> Some l) /\
  (forall x l, p' = Some l -> slot_get x (set_ser t' s) <> Some l).
Proof.
  intros [Hr Hf Hfi Hp Hne Hb Ha] Hmv Hfree. pose proof Hmv as (M1 & M2 & M3 & M4 & M5 & M6 & _).
  assert (tx_fifo t' = tx_fifo (ser s)) as Et by (by rewrite M1).
  assert (forall x, buffer (io t') m' (slot_get x s) (slot_size x s) /\ forall l, slot_get x s = Some l -> p' <> Some l) as Hb'.
  { intros x. eapply buffer_moved; [exact Hmv|apply Hb|]. intros l Hx Hl. by apply (Hfree x l). }
  split_and!.
  - constructor; intros *; rewrite ?get_set_ser, ?slot_size_ser; cn_simpl; rewrite ?Et; eauto. apply Hb'.
  - intros l payload [Hh Hout] Hpl. destruct (M6 l payload Hh) as [Hh' Hn']; [congruence|]. split; [|congruence].
    split; [done|]. intros x. rewrite get_set_ser. apply Hout.
  - intros x l Hl Hx. rewrite get_set_ser in Hx. by apply (proj2 (Hb' x) l).
Qed.

(** Sending the packet of a module. *)
Definition slot_flush (x : slot) : CM unit := flush_field (get := slot_get x) (set := slot_set x) (slot_type x).

(** What sending the packet of a module, if it has one, does to the queues. *)
Definition flushed (s : cn) (x : slot) (t' : serial cn_fn cn_event) (m m' : gmap nat (list loc)) : Prop :=
  match slot_get x s with
  | None => t' = ser s /\ m' = m
  | Some l =>
      (exists fs, m !! tx_fifo (ser s) = Some fs /\ m' = <[tx_fifo (ser s) := prio_insert (prio (io (ser s))) l fs]> m) /\
      forall payload, holding (io (ser s)) m l payload -> sent (io t') l (slot_type x) payload
  end.

Lemma slot_flush_moved s m x :
  packets_ok s m ->
  exists t' m', slot_flush x s = Ok (tt, slot_set x None (set_ser t' s)) /\
    moved (slot_get x s) None (ser s) t' m m' /\ flushed s x t' m m'.
Proof.
  intros Hok. pose proof Hok as [Hr Hf [fs Hfs] _ _ Hb _].
  destruct (flush_moved (ser s) m fs (slot_get x s) (slot_type x) Hr Hfs Hf) as (t' & m' & E & Hmv & Hres).
  { intros l. eapply buffer_holding, Hb. }
  exists t', m'. split_and!; [|exact Hmv|].
  - unfold slot_flush, flush_field. mrun. by erewrite bind_ok by (by apply cn_zoom_ok).
  - unfold flushed. destruct (slot_get x s); [|done]. destruct Hres as [-> Hs]. eauto.
Qed.

Lemma slot_flush_ok s m x :
  packets_ok s m ->
  exists t' m', slot_flush x s = Ok (tt, slot_set x None (set_ser t' s)) /\ t' = set_io (io t') (ser s) /\
    exts (io t') = exts (io (ser s)) /\
    packets_ok (slot_set x None (set_ser t' s)) m' /\
    (forall l payload, held s m l payload -> held (slot_set x None (set_ser t' s)) m' l payload) /\
    flushed s x t' m m'.
Proof.
  intros Hok. destruct (slot_flush_moved s m x Hok) as (t' & m' & E & Hmv & Hfl).
  destruct (packets_moved s m x None t' m' Hok Hmv I) as [Hok' Hheld].
  exists t', m'. split_and!; try done; by destruct Hmv as (? & _ & ? & _).
Qed.

Lemma slot_size_bound x s : 4 <= slot_size x s <= 16.
Proof. destruct x; cbn; [lia| |lia]. destruct (cc_p _), (cc_v _), (cc_c _); cbn; lia. Qed.

(** Recording a measure. *)
Lemma slot_measure_ok s m x ts size blocks :
  packets_ok s m -> is_u32 (tv_sec ts) -> 4 + Z.of_nat (length (concat blocks)) = slot_size x s ->
  size_fits size (slot_size x s) ->
  exists p' t' m' fs,
    measure_step (slot_pool x) (slot_get x s) ts size blocks (slot_type x) (ser s) = Ok (p', t') /\
    t' = set_io (io t') (ser s) /\ exts (io t') = exts (io (ser s)) /\
    packets_ok (slot_set x p' (set_ser t' s)) m' /\
    (forall l payload, held s m l payload -> held (slot_set x p' (set_ser t' s)) m' l payload) /\
    m !! tx_fifo (ser s) = Some fs /\
    recorded (ser s) t' m m' fs (slot_pool x) (slot_get x s) p' ts size (concat blocks) (slot_type x).
Proof.
  intros Hok Hts Hn Hsz. pose proof Hok as [Hr Hf [fs Hfs] Hp Hne Hb _]. destruct (Hp x) as [pool Hpool].
  pose proof payload_max_spec as (_ & HP & _). pose proof (slot_size_bound x s).
  destruct (measure_step_total (ser s) m fs (slot_pool x) pool (slot_get x s) ts size blocks (slot_type x)
    Hr Hfs (Hne x) Hpool Hf Hts) as (p' & t' & m' & E & Hmv & Hb' & Hrec); [rewrite Hn; lia|by rewrite Hn|by rewrite Hn|].
  rewrite Hn in Hb'. destruct (packets_moved s m x p' t' m' Hok Hmv Hb') as [Hok' Hheld].
  exists p', t', m', fs. split_and!; try done; by destruct Hmv as (? & _ & ? & _).
Qed.

(** Readings of the clock. *)
Lemma soft_timer_time_ok (s : cn) : CnState.soft_timer_time s = Ok (u32 (clock (reads s)), set_counts (S (reads s)) (eds s) s).
Proof. done. Qed.
Lemma extend_relative_ok tick s :
  extend_relative tick s =
    Ok (IotlabTime.iotlab_time_extend_relative (itime s) (clock (reads s)) tick, set_counts (S (reads s)) (eds s) s).
Proof. done. Qed.

Lemma extend_sec i now t : is_u32 (tv_sec (IotlabTime.iotlab_time_extend_relative i now t)).
Proof.
  unfold IotlabTime.iotlab_time_extend_relative, IotlabTime.iotlab_time_convert, IotlabTime.iotlab_time_convert_.
  cbv zeta. case_match; apply u32_range.
Qed.
End packets.
End CnSpec.
