(* ===== verification/CnExample.v ===== *)
(** * A control node in a concrete state

    Used to show that the hypotheses of the theorems on the control node can hold.
    The transmission queue 0 is empty and the four pools 1 to 4 (radio measures,
    consumption and event measures, acknowledgements of the two modules) have one
    packet each; the consumption module is filling packet 21, and packet 20 is the
    command being handled. *)

From stdpp Require Import base numbers gmap list.
From S2P Require Import Prelude Chain Packet Event SoftTime IotlabPacket IotlabTime Phy IotlabSerial CnMeasPkt CnMeasFlow CnState CnRadio CnConsumption CnControl CnSpec.

Module CnExample.
Import Packet IotlabPacket IotlabSerial SoftTime CnMeasFlow CnMeasPkt CnState CnRadio CnConsumption CnSpec.
#[local] Existing Instance iotlab_cn_build.

(** Addresses of the handler objects. *)
Definition handler_loc (f : cn_fn) : loc :=
  match f with
  | FN_RADIO_OFF => 30 | FN_RADIO_POLLING => 31 | FN_RADIO_SNIFFER => 32 | FN_CONFIG_CONSUMPTION => 33
  | FN_SET_TIME => 34 | FN_SET_NODE_ID => 35 | FN_GREEN_LED_BLINK => 36 | FN_GREEN_LED_ON => 37
  | FN_ON_START => 38 | FN_ON_STOP => 39 | FN_CONFIG_GPIO => 40 | FN_PING_PONG => 41 | FN_GPIO => 42 | FN_I2C2 => 43
  end%nat.

#[export] Instance ex_env : CnEnv := {|
  IOTLAB_CN := true;
  clock := λ n, 5000000 + Z.of_nat n;
  ed_at := λ _, Some (-70);
  pp_start := λ _ _, 0;
  sample_at := λ _, (3, 2, 6);
  handler_at := handler_loc;
  radio_meas_pkts := [11%nat];
  radio_measures_queue := 1%nat;
  meas_pkts := [12%nat];
  measures_queue := 2%nat;
  acks_pkts := [13%nat];
  acks_queue := 3%nat;
  control_acks_pkts := [14%nat];
  control_acks_queue := 4%nat;
|}.

(** A packet with [bs] at its data, of the serial link, and the links of queues. *)
Definition filled (bs : list Z) : packet :=
  mk_packet ([0; 0; 0] ++ bs ++ replicate (253 - length bs) 0) 3 (Z.of_nat (length bs)) None.
Definition linked (n : ptr) : packet := mk_packet (replicate 256 0) 0 0 n.

Definition measures : list Z := meas_payload 152 [(250000, [1; 2; 3; 4])].

Definition ex_iot (cmd : list Z) : iot :=
  mk_iot (mk_storage (Some false) [0] 1
    {[0%nat := linked None; 1%nat := linked (Some 11%nat); 2%nat := linked (Some 12%nat);
      3%nat := linked (Some 13%nat); 4%nat := linked (Some 14%nat);
      11%nat := linked None; 12%nat := linked None; 13%nat := linked None; 14%nat := linked None;
      20%nat := filled cmd; 21%nat := filled measures]})
    {[11%nat := mk_ext 0 IOTLAB_PACKET_FREE 0 (Some 1%nat); 12%nat := mk_ext 0 IOTLAB_PACKET_FREE 0 (Some 2%nat);
      13%nat := mk_ext 0 IOTLAB_PACKET_FREE 0 (Some 3%nat); 14%nat := mk_ext 0 IOTLAB_PACKET_FREE 0 (Some 4%nat);
      20%nat := mk_ext (u32 4999000) IOTLAB_PACKET_FREE 0 None; 21%nat := mk_ext 0 IOTLAB_PACKET_FREE 0 (Some 2%nat)]}
    {[0%nat := mk_queue 0 0%nat (Some false) (Some true); 1%nat := mk_queue 1 1%nat (Some false) (Some true);
      2%nat := mk_queue 1 2%nat (Some false) (Some true); 3%nat := mk_queue 1 3%nat (Some false) (Some true);
      4%nat := mk_queue 1 4%nat (Some false) (Some true)]}.

Definition ex_contents : gmap nat (list loc) :=
  {[0%nat := []; 1%nat := [11%nat]; 2%nat := [12%nat]; 3%nat := [13%nat]; 4%nat := [14%nat]]}.

Lemma ex_contents_inv q xs :
  ex_contents !! q = Some xs ->
  (q = 0%nat /\ xs = []) \/ (q = 1%nat /\ xs = [11%nat]) \/ (q = 2%nat /\ xs = [12%nat]) \/
  (q = 3%nat /\ xs = [13%nat]) \/ (q = 4%nat /\ xs = [14%nat]).
Proof.
  unfold ex_contents.
  intros [[<- <-]|[_ [[<- <-]|[_ [[<- <-]|[_ [[<- <-]|[_ [<- <-]%lookup_singleton_Some]]%lookup_insert_Some]]%lookup_insert_Some]]%lookup_insert_Some]]%lookup_insert_Some;
    tauto.
Qed.

Lemma ex_reps cmd : reps (ex_iot cmd) ex_contents.
Proof.
  split.
  - intros q xs H. apply ex_contents_inv in H as [[-> ->]|[[-> ->]|[[-> ->]|[[-> ->]|[-> ->]]]]]; eexists; (split; [reflexivity|]);
      split_and!; try reflexivity; try (by eexists); try (by repeat constructor);
      repeat (split; [reflexivity|]); eexists; (split; [reflexivity|]); try reflexivity;
      (split; [reflexivity|]); eexists; split; reflexivity.
  - intros q q' xs xs' l H H' Hne.
    apply ex_contents_inv in H as [[-> ->]|[[-> ->]|[[-> ->]|[[-> ->]|[-> ->]]]]],
      H' as [[-> ->]|[[-> ->]|[[-> ->]|[[-> ->]|[-> ->]]]]]; try done; unfold q_head; cbn;
      rewrite ?list_elem_of_singleton, ?elem_of_nil; intros [?|[= ?]] [?|[= ?]]; by simplify_eq.
Qed.

Lemma ex_loose cmd l : l = 20%nat \/ l = 21%nat -> loose (ex_iot cmd) ex_contents l.
Proof.
  intros Hl. split_and!; [destruct Hl as [-> | ->]; by eexists|destruct Hl as [-> | ->]; by eexists|].
  intros q xs H. apply ex_contents_inv in H as [[-> ->]|[[-> ->]|[[-> ->]|[[-> ->]|[-> ->]]]]];
    (split; [destruct Hl as [-> | ->]; set_solver|destruct Hl as [-> | ->]; by intros [=]]).
Qed.

Lemma ex_full cmd : (length cmd <= 253)%nat -> full (ex_iot cmd).
Proof.
  intros Hc. unfold full, ex_iot. cbn [cells]. repeat (apply map_Forall_insert_2; [cbn [linked filled raw_data]|]);
    try reflexivity; [|apply map_Forall_empty].
  rewrite !length_app, length_replicate. cbn [length]. change packet_size with 256%nat. lia.
Qed.

Lemma filled_carries bs : (length bs <= 253)%nat -> carries (filled bs) bs.
Proof.
  intros Hb. split_and!; [done|done|]. exists [0; 0; 0], (replicate (253 - length bs) 0). split_and!; [done|done|].
  cbn [filled raw_data]. rewrite !length_app, length_replicate. cbn [length]. change packet_size with 256%nat. lia.
Qed.

(** The handler objects: command and function. *)
Definition ex_handler (cmd : Z) (f : cn_fn) : loc * iotlab_serial_handler cn_fn := (handler_loc f, mk_handler _ cmd f None).
Definition ex_handlers : gmap loc (iotlab_serial_handler cn_fn) :=
  list_to_map [ex_handler CONFIG_RADIO_STOP FN_RADIO_OFF; ex_handler CONFIG_RADIO_MEAS FN_RADIO_POLLING;
    ex_handler CONFIG_RADIO_SNIFFER FN_RADIO_SNIFFER; ex_handler CONFIG_CONSUMPTION FN_CONFIG_CONSUMPTION;
    ex_handler SET_TIME FN_SET_TIME; ex_handler SET_NODE_ID FN_SET_NODE_ID;
    ex_handler GREEN_LED_BLINK FN_GREEN_LED_BLINK; ex_handler GREEN_LED_ON FN_GREEN_LED_ON;
    ex_handler OPEN_NODE_START FN_ON_START; ex_handler OPEN_NODE_STOP FN_ON_STOP; ex_handler CONFIG_GPIO FN_CONFIG_GPIO;
    ex_handler TEST_RADIO_PING_PONG FN_PING_PONG; ex_handler TEST_GPIO FN_GPIO; ex_handler TEST_I2C2 FN_I2C2].

(** Configuration, event queue empty, radio in configuration [x] on channel [c]. *)
Definition ex_conf : consumption_config := mk_cc true true false false 8 MONITOR_OPEN_3V 4 5 (Some 21%nat).
Definition ex_radio (x : radio_config) (c : Z) : radio_state :=
  mk_radio x c 0 None [] 0
    (mk_store default_config (mk_rc RADIO_POLLING 0 0 163840) (mk_rc RADIO_SNIFFER 0 0 0)).
Definition ex_node (cmd : list Z) (r : radio_state) : cn :=
  mk_cn
    (mk_serial cn_fn cn_event None ex_handlers 0 None false 0 None (Some 20%nat) 0 0 0 false false [] (ex_iot cmd)
       (Event.mk_events (λ _, Some []) (λ _, true) (λ _, None)))
    IotlabTime.time_config_init r (mk_conso ex_conf (set_cc_pkt None ex_conf)) None
    (mk_control 0x1234 (mk_timeval 0 0) 0) (mk_alim None None) (mk_gwt 0 true) 41 [] 0 0.

Lemma ex_packets cmd r :
  serial_pkt r = None -> (length cmd <= 253)%nat -> packets_ok (ex_node cmd r) ex_contents.
Proof.
  intros Hr Hc. constructor.
  - apply ex_reps.
  - by apply ex_full.
  - by eexists.
  - intros []; by eexists.
  - by intros [].
  - intros []; cbn [slot_get ex_node radio]; rewrite ?Hr; try done.
    exists 152, [(250000, [1; 2; 3; 4])]. split_and!; [split; [done|]|by repeat constructor|by vm_compute].
    split; [apply ex_loose; by right|]. exists (filled measures). split; [done|]. by apply filled_carries; vm_compute; lia.
  - intros [] [] l Hne; cbn [slot_get ex_node radio]; rewrite ?Hr; done.
Qed.

Lemma ex_command cmd r : (length cmd <= 253)%nat -> command (ex_node cmd r) 20 cmd.
Proof.
  intros Hc. exists (filled cmd). split_and!; [done|done|]. cbn [filled raw_data data length_]. by apply arr_slice_at.
Qed.
End CnExample.
