(* ===== verification/CnRadioSpec.v ===== *)
(** * What the radio commands of the control node guarantee *)

From stdpp Require Import base numbers gmap list.
From S2P Require Import Prelude Chain Packet Event SoftTime IotlabPacket IotlabTime Phy Zep IotlabSerial CnMeasPkt CnMeasFlow CnState CnRadio CnConsumption CnControl CnSpec CnExample.

Module CnRadioSpec.
Import SoftTime Phy CnMeasFlow CnState CnRadio CnControl CnSpec.

(** ** Selection of the channel *)

(** The [j]-th channel after channel [c], in the cycle of the 16 channels of the
    2.4 GHz band. *)
Definition nth_after (c j : Z) : Z := 11 + (Z.max c 10 - 10 + j) mod 16.

Definition enabled (channels c : Z) : bool := Z.testbit channels c.

Lemma enabled_test channels c :
  0 <= c -> (Z.land channels (Z.shiftl 1 c) =? 0) = negb (enabled channels c).
Proof.
  intros Hc. unfold enabled. rewrite Z.shiftl_1_l, land_bit by done.
  pose proof (Z.pow_pos_nonneg 2 c ltac:(lia) Hc).
  destruct (Z.testbit channels c); [|done]. apply Z.eqb_neq. lia.
Qed.

Lemma next_step fuel channels c :
  0 <= c <= 26 ->
  next_channel (S fuel) channels c =
    let c' := if c + 1 >? 26 then 11 else c + 1 in
    if enabled channels c' then Some c' else next_channel fuel channels c'.
Proof.
  intros Hc. cbn [next_channel]. rewrite u32_id by lia. change PHY_2400_MAX_CHANNEL with 26.
  change PHY_2400_MIN_CHANNEL with 11. cbn zeta. rewrite enabled_test.
  - by destruct (enabled _ _).
  - destruct (Z.gtb_spec (c + 1) 26); lia.
Qed.

(** From one of the 16 channels, or the channel before them. *)
Lemma next_in_band channels n : forall fuel c,
  10 <= c <= 26 -> (n <= fuel)%nat -> (exists j, 0 <= j < Z.of_nat n /\ enabled channels (nth_after c j) = true) ->
  exists k, 0 <= k < Z.of_nat n /\ next_channel fuel channels c = Some (nth_after c k) /\
    enabled channels (nth_after c k) = true /\ forall j, 0 <= j < k -> enabled channels (nth_after c j) = false.
Proof.
  induction n as [|n IH]; intros fuel c Hc Hfuel (j & Hj & Hen); [lia|].
  destruct fuel as [|fuel]; [lia|]. rewrite next_step by lia. cbn zeta.
  set (c' := if c + 1 >? 26 then 11 else c + 1).
  assert (c' = nth_after c 0) as E0.
  { unfold nth_after, c'. destruct (Z.gtb_spec (c + 1) 26); rewrite Z.max_l by lia; mlia. }
  assert (forall i, nth_after c' i = nth_after c (i + 1)) as Enext.
  { intros i. rewrite E0. unfold nth_after. rewrite !Z.max_l by (pose proof (Z.mod_pos_bound (Z.max c 10 - 10 + 0) 16); lia). mlia. }
  destruct (enabled channels c') eqn:Ec.
  - exists 0. rewrite <- E0. split_and!; [lia|lia|done|done|intros; lia].
  - destruct (IH fuel c') as (k & Hk & E & Hk2 & Hmin); [unfold c'; destruct (Z.gtb_spec (c + 1) 26); lia|lia| |].
    + exists (j - 1). rewrite Enext. replace (j - 1 + 1) with j by lia. split; [|done].
      assert (j <> 0) by (intros ->; rewrite <- E0 in Hen; congruence). lia.
    + exists (k + 1). rewrite <- Enext. split_and!; [lia|lia|done|done|].
      intros i Hi. destruct (decide (i = 0)) as [->|Hne]; [by rewrite <- E0|].
      replace i with (i - 1 + 1) by lia. rewrite <- Enext. apply Hmin. lia.
Qed.

(** Sets of channels a command can leave in a configuration. *)
Definition in_band (channels : Z) : Prop := Z.land channels PHY_MAP_CHANNEL_2400_ALL = channels.

Lemma band_bit c : Z.testbit PHY_MAP_CHANNEL_2400_ALL c = true -> 11 <= c <= 26.
Proof.
  intros E. destruct (decide (c < 0)); [by rewrite Z.testbit_neg_r in E by done|].
  destruct (decide (27 <= c)); [|].
  { rewrite Z.bits_above_log2 in E; [done|done|]. change (26 < c). lia. }
  destruct (decide (11 <= c)); [lia|]. exfalso.
  assert (c = 0 \/ c = 1 \/ c = 2 \/ c = 3 \/ c = 4 \/ c = 5 \/ c = 6 \/ c = 7 \/ c = 8 \/ c = 9 \/ c = 10) as Hc by lia.
  clear -E Hc. destruct_or!; by subst.
Qed.

Lemma in_band_bit channels c : in_band channels -> enabled channels c = true -> 11 <= c <= 26.
Proof. unfold enabled. intros <- E. rewrite Z.land_spec in E. apply band_bit. by destruct (Z.testbit channels c). Qed.

Lemma in_band_nonneg channels : in_band channels -> 0 <= channels.
Proof. intros <-. apply Z.land_nonneg. by right. Qed.

Lemma in_band_some channels : in_band channels -> channels <> 0 -> exists c, enabled channels c = true.
Proof. intros Hb Hne. exists (Z.log2 channels). apply Z.bit_log2. pose proof (in_band_nonneg _ Hb). lia. Qed.

(** Every channel of the band is reached within 16 steps. *)
Lemma nth_after_onto c x : 11 <= x <= 26 -> exists j, 0 <= j < 16 /\ nth_after c j = x.
Proof.
  intros Hx. exists ((x - 11 - (Z.max c 10 - 10)) mod 16). split; [apply Z.mod_pos_bound; lia|].
  unfold nth_after. rewrite Zplus_mod_idemp_r. rewrite (Z.mod_small (_ + _) 16) by lia. lia.
Qed.

Lemma nth_after_range c j : 11 <= nth_after c j <= 26.
Proof. unfold nth_after. pose proof (Z.mod_pos_bound (Z.max c 10 - 10 + j) 16). lia. Qed.

(** The channels below the band, where the search starts from, are skipped. *)
Lemma next_low channels : in_band channels -> forall n fuel,
  (n <= 10)%nat -> next_channel (n + fuel) channels (10 - Z.of_nat n) = next_channel fuel channels 10.
Proof.
  intros Hb. induction n as [|n IH]; intros fuel Hn; [done|]. cbn [Nat.add]. rewrite next_step by lia. cbn zeta.
  destruct (Z.gtb_spec (10 - Z.of_nat (S n) + 1) 26); [lia|].
  replace (10 - Z.of_nat (S n) + 1) with (10 - Z.of_nat n) by lia.
  destruct (enabled _ _) eqn:E; [apply in_band_bit in E; [lia|done]|]. apply IH. lia.
Qed.

(** The first enabled channel after [c] in cyclic order. *)
Definition first_after (channels c x : Z) : Prop :=
  exists k, 0 <= k < 16 /\ x = nth_after c k /\ enabled channels x = true /\
    forall j, 0 <= j < k -> enabled channels (nth_after c j) = false.

Lemma next_channel_first channels c :
  in_band channels -> channels <> 0 -> 0 <= c <= 26 ->
  exists x, next_channel CHANNEL_FUEL channels c = Some x /\ first_after channels c x.
Proof.
  intros Hb Hne Hc. destruct (in_band_some _ Hb Hne) as [x Hx].
  destruct (nth_after_onto c x) as (j & Hj & Ej); [by eapply in_band_bit|].
  set (n := Z.to_nat (10 - c)).
  destruct (next_in_band channels 16 (32 - n) (Z.max c 10)) as (k & Hk & E & Hen & Hmin); [lia|lia| |].
  { exists j. split; [lia|]. unfold nth_after in *. rewrite Z.max_l by lia. by rewrite Ej. }
  assert (forall i, nth_after (Z.max c 10) i = nth_after c i) as Em.
  { intros i. unfold nth_after. by rewrite (Z.max_l (Z.max c 10)) by lia. }
  exists (nth_after c k). split.
  - rewrite <- Em, <- E. destruct (decide (c < 10)).
    + rewrite (Z.max_r c 10) by lia. rewrite <- (next_low channels Hb n) by lia.
      replace (n + (32 - n))%nat with CHANNEL_FUEL by (unfold CHANNEL_FUEL; lia). f_equal; lia.
    + rewrite Z.max_l by lia. by replace n with 0%nat by lia.
  - exists k. rewrite Em in Hen. split_and!; [lia|lia|done|done|]. intros i Hi. rewrite <- Em. by apply Hmin.
Qed.

Lemma first_after_fun channels c x y : first_after channels c x -> first_after channels c y -> x = y.
Proof.
  intros (k & Hk & -> & E & M) (k' & Hk' & -> & E' & M').
  destruct (Z.lt_trichotomy k k') as [Hlt|[->|Hlt]]; [|done|].
  - rewrite M' in E; [done|lia].
  - rewrite M in E'; [done|lia].
Qed.

(** Without channel the loop does not end. *)
Lemma next_channel_none fuel c : next_channel fuel 0 c = None.
Proof. revert c. induction fuel as [|fuel IH]; intros c; [done|]. cbn [next_channel]. rewrite Z.land_0_l. apply IH. Qed.

(** ** Rotation over the channels *)

(** The channels enabled, from the one that follows [c]. *)
Definition round (channels c : Z) : list Z := filter (λ x, enabled channels x = true) (nth_after c <$> zseq 0 16).

(** The [n] channels selected in turn after [c]. *)
Fixpoint iterates (f : Z -> option Z) (c : Z) (n : nat) : list Z :=
  match n with
  | O => []
  | S n => match f c with Some x => x :: iterates f x n | None => [] end
  end.
Definition selections (channels c : Z) (n : nat) : list Z := iterates (next_channel CHANNEL_FUEL channels) c n.

Lemma nth_after_next c a i : 0 <= a -> nth_after (nth_after c a) i = nth_after c (a + 1 + i).
Proof.
  intros Ha. pose proof (nth_after_range c a). unfold nth_after at 1. rewrite Z.max_l by lia.
  unfold nth_after. f_equal.
  replace (11 + (Z.max c 10 - 10 + a) mod 16 - 10 + i) with ((Z.max c 10 - 10 + a) mod 16 + (1 + i)) by lia.
  rewrite Zplus_mod_idemp_l. f_equal. lia.
Qed.

(** The rest of a round from step [a] on, when the current channel is the one of
    step [b - 1] and no channel of the steps between is enabled. *)
Lemma round_rest channels c n : in_band channels -> forall a b cur k,
  a + Z.of_nat n = 16 -> 0 <= b <= a -> 0 <= cur <= 26 ->
  (forall i, 0 <= i -> nth_after cur i = nth_after c (b + i)) ->
  (forall i, b <= i < a -> enabled channels (nth_after c i) = false) ->
  let l := filter (λ x, enabled channels x = true) (nth_after c <$> zseq a n) in
  (k <= length l)%nat -> selections channels cur k = list.take k l.
Proof.
  intros Hb a b cur k Ha Hab Hcur Hnext Hoff l. subst l. revert a b cur k Ha Hab Hcur Hnext Hoff.
  induction n as [|n IH]; intros a b cur k Ha Hab Hcur Hnext Hoff Hk.
  { cbn in Hk. by replace k with 0%nat by lia. }
  rewrite zseq_S, fmap_cons, filter_cons in Hk |- *. case_decide as Hen.
  - destruct k as [|k]; [done|]. cbn [length] in Hk. unfold selections. cbn [iterates list.take].
    destruct (next_channel_first channels cur) as (x & E & Hx); [done| |done|].
    { intros ->. unfold enabled in Hen. by rewrite Z.bits_0 in Hen. }
    assert (x = nth_after c a) as ->.
    { eapply first_after_fun; [exact Hx|]. exists (a - b).
      rewrite Hnext by lia. replace (b + (a - b)) with a by lia. split_and!; [lia|lia|done|done|].
      intros j Hj. rewrite Hnext by lia. apply Hoff. lia. }
    rewrite E. f_equal. apply (IH (a + 1) (a + 1)); [lia|lia| | |intros; lia|lia].
    + pose proof (nth_after_range c a). lia.
    + intros i Hi. by rewrite nth_after_next by lia.
  - apply (IH (a + 1) b); [lia|lia|done|done| |done]. intros i Hi.
    destruct (decide (i = a)) as [->|]; [by destruct (enabled _ _)|]. apply Hoff. lia.
Qed.

(** The channels are selected in turn. *)
Lemma selections_round channels c k :
  in_band channels -> 0 <= c <= 26 -> (k <= length (round channels c))%nat ->
  selections channels c k = list.take k (round channels c).
Proof. intros Hb Hc Hk. apply (round_rest channels c 16 Hb 0 0); [done|lia|done|done|intros; lia|done]. Qed.

(** A round has every enabled channel once. *)
Lemma round_members channels c :
  in_band channels -> NoDup (round channels c) /\ forall x, x ∈ round channels c <-> enabled channels x = true.
Proof.
  intros Hb. split.
  - apply NoDup_filter. apply NoDup_fmap_2_strong.
    + intros i j Hi%elem_of_zseq Hj%elem_of_zseq. unfold nth_after. mlia.
    + apply zseq_nodup.
  - intros x. unfold round. rewrite list_elem_of_filter. split; [by intros []|]. intros Hx. split; [done|].
    destruct (nth_after_onto c x) as (j & Hj & <-); [by eapply in_band_bit|].
    apply list_elem_of_fmap. exists j. split; [done|]. apply elem_of_zseq. lia.
Qed.

(** What selecting channel [c] does outside. *)
Definition switch_fx (c : Z) : list effect := [FxPhyIdle; FxPhySetChannel c].

Definition on_channel (c n : Z) (e : list effect) (s : cn) : cn :=
  set_fx (fx s ++ e) (set_radio (set_channel c n (radio s)) s).

Lemma on_channel_twice c n e c' n' e' s : on_channel c n e (on_channel c' n' e' s) = on_channel c n (e' ++ e) s.
Proof. unfold on_channel. cbn. by rewrite app_assoc. Qed.

Lemma on_channel_id s : on_channel (current_channel (radio s)) (current_op_num_on_channel (radio s)) [] s = s.
Proof. destruct s as [? ? r]. unfold on_channel. cbn. rewrite app_nil_r. by destruct r. Qed.

Lemma set_next_channel_ok s c :
  next_channel CHANNEL_FUEL (channels (config (radio s))) (current_channel (radio s)) = Some c ->
  set_next_channel s = Ok (tt, on_channel c (current_op_num_on_channel (radio s)) (switch_fx c) s).
Proof.
  intros E. unfold set_next_channel, emit, upd_radio. mrun. cn_simpl. rewrite E. cbn [of_option]. mrun.
  unfold mmod, on_channel. cbn. by rewrite <- app_assoc.
Qed.

(** Calling [m] [n] times. *)
Fixpoint times {A} (n : nat) (m : CM A) : CM unit :=
  match n with O => mret tt | S n => m ;; times n m end.

Lemma times_add {A} n k (m : CM A) s s' : times n m s = Ok (tt, s') -> times (n + k) m s = times k m s'.
Proof.
  revert s. induction n as [|n IH]; intros s; cbn [times Nat.add]; [by intros [= ->]|].
  intros (a & s1 & E1 & E)%bind_inv. erewrite bind_ok by exact E1. by apply IH.
Qed.

Section rotation.
Variable s : cn.
Notation cfg := (config (radio s)).
Hypothesis Hnum : 1 <= num_operations_per_channel cfg <= 255.

Lemma switch_stay c n e :
  0 <= n -> n + 1 < num_operations_per_channel cfg ->
  manage_channel_switch (on_channel c n e s) = Ok (1, on_channel c (n + 1) e s).
Proof using Hnum.
  intros Hn Hlt. unfold manage_channel_switch, upd_radio, on_channel. mrun. cn_simpl.
  destruct (Z.eqb_spec 0 (num_operations_per_channel cfg)); [lia|]. mrun. cn_simpl.
  rewrite u8_id by lia. destruct (Z.eqb_spec (num_operations_per_channel cfg) (n + 1)); [lia|done].
Qed.

Lemma switch_stay_times c e k : forall n,
  0 <= n -> n + Z.of_nat k < num_operations_per_channel cfg ->
  times k manage_channel_switch (on_channel c n e s) = Ok (tt, on_channel c (n + Z.of_nat k) e s).
Proof using Hnum.
  induction k as [|k IH]; intros n Hn Hlt; cbn [times]; [by rewrite Z.add_0_r|].
  erewrite bind_ok by (apply switch_stay; lia). rewrite IH by lia. do 3 f_equal. lia.
Qed.

Lemma switch_move c e x :
  next_channel CHANNEL_FUEL (channels cfg) c = Some x ->
  manage_channel_switch (on_channel c (num_operations_per_channel cfg - 1) e s) =
    Ok (0, on_channel x 0 (e ++ switch_fx x) s).
Proof using Hnum.
  intros E. unfold manage_channel_switch, upd_radio, on_channel. mrun. cn_simpl.
  destruct (Z.eqb_spec 0 (num_operations_per_channel cfg)); [lia|]. mrun. cn_simpl.
  rewrite u8_id by lia. rewrite (proj2 (Z.eqb_eq _ _)) by lia.
  erewrite bind_ok by (apply set_next_channel_ok; exact E). mrun. unfold mmod, on_channel. cn_simpl. by rewrite app_assoc.
Qed.

(** The measures of one channel, then the switch. *)
Lemma switch_turn c e x :
  next_channel CHANNEL_FUEL (channels cfg) c = Some x ->
  times (Z.to_nat (num_operations_per_channel cfg)) manage_channel_switch (on_channel c 0 e s) =
    Ok (tt, on_channel x 0 (e ++ switch_fx x) s).
Proof using Hnum.
  intros E. set (n := num_operations_per_channel cfg) in *.
  replace (Z.to_nat n) with (Z.to_nat (n - 1) + 1)%nat by lia.
  erewrite times_add by (apply switch_stay_times; lia). cbn [times].
  replace (0 + Z.of_nat (Z.to_nat (n - 1))) with (n - 1) by lia. by erewrite bind_ok by (by apply switch_move).
Qed.

Lemma switch_turns k : forall c e,
  in_band (channels cfg) -> channels cfg <> 0 -> 0 <= c <= 26 ->
  let l := selections (channels cfg) c k in
  times (k * Z.to_nat (num_operations_per_channel cfg)) manage_channel_switch (on_channel c 0 e s) =
    Ok (tt, on_channel (List.last l c) 0 (e ++ concat (switch_fx <$> l)) s).
Proof using Hnum.
  induction k as [|k IH]; intros c e Hb Hne Hc; cbn zeta; unfold selections; cbn [iterates].
  { cbn. by rewrite app_nil_r. }
  destruct (next_channel_first _ _ Hb Hne Hc) as (x & E & Hx). rewrite E. cbn [Nat.mul].
  erewrite times_add by (by apply switch_turn). rewrite IH; [|done..|].
  - rewrite fmap_cons. cbn [concat]. rewrite <- app_assoc. do 3 f_equal.
    fold (selections (channels cfg) x k). destruct (selections _ x k) as [|y l]; [done|].
    change (List.last (y :: l) x = List.last (y :: l) c). clear. revert y. induction l as [|z l IH]; intros y; [done|]. apply IH.
  - destruct Hx as (j & _ & -> & _). pose proof (nth_after_range c j). lia.
Qed.
End rotation.

(** C12: polling goes round the channels of its configuration. When a command asks
    for [n] measures per channel ([n] is one byte, not 0), then after [k * n] polls
    from a fresh channel [c], the radio has been moved to the first [k] enabled
    channels that follow [c] in the cycle of the 16 channels of the band, in that
    order and once each, so that a full round gives every enabled channel, and no
    other, its [n] measures; the search for the next channel always ends. With
    [n = 0] the channel never changes. *)
Theorem channel_rotation s k :
  let cfg := config (radio s) in
  let n := num_operations_per_channel cfg in
  let c := current_channel (radio s) in
  let l := round (channels cfg) c in
  0 <= n <= 255 -> in_band (channels cfg) -> channels cfg <> 0 -> 0 <= c <= 26 ->
  current_op_num_on_channel (radio s) = 0 -> (k <= length l)%nat ->
  NoDup l /\ (forall x, x ∈ l <-> Z.testbit (channels cfg) x = true) /\
  (n <> 0 -> times (k * Z.to_nat n) manage_channel_switch s =
     Ok (tt, on_channel (List.last (list.take k l) c) 0 (concat (switch_fx <$> list.take k l)) s)) /\
  (n = 0 -> manage_channel_switch s = Ok (1, s)).
Proof.
  intros cfg n c l Hn Hb Hne Hc Hop Hk. destruct (round_members (channels cfg) c Hb) as [Hnd Hin].
  split_and!; [done|exact Hin| |].
  - intros Hn0. rewrite <- (on_channel_id s) at 1. rewrite Hop. fold c.
    unfold n, cfg. rewrite (switch_turns s); [|fold cfg n; lia|done..].
    by rewrite selections_round.
  - intros E. unfold manage_channel_switch. mrun. fold cfg n. by rewrite E.
Qed.

(** ** Commands *)

Section commands.
Context `{!CnEnv} {build : Build}.

(** The static configuration [c] replaced by [x]. *)
Definition with_config (c : config_ref) (x : radio_config) (s : cn) : cn :=
  set_radio (upd_config c x (radio s)) s.

Lemma upd_static_ok c f s : upd_static c f s = Ok (tt, with_config c (f (configs (radio s) c)) s).
Proof. done. Qed.

Lemma with_config_get c x s : configs (radio (with_config c x s)) c = x.
Proof. by destruct c. Qed.
Lemma with_config_twice c x y s : with_config c x (with_config c y s) = with_config c x s.
Proof. by destruct c. Qed.

(** The configuration a polling command writes, before the checks. *)
Definition polling_request (x : radio_config) (bs : list Z) : radio_config :=
  mk_rc (mode x) (Z.land (le_value (list.take 4 bs)) PHY_MAP_CHANNEL_2400_ALL)
    (copy_low 1 (num_operations_per_channel x) (le_value (list.take 1 (drop 6 bs))))
    (copy_low 2 (measure_period x) (le_value (list.take 2 (drop 4 bs)))).

Lemma command_with c x s l bs : command s l bs -> command (with_config c x s) l bs.
Proof. by destruct c. Qed.

(** The end of [radio_polling], from the checks on. *)
Definition polling_refused (x : radio_config) : bool := (channels x =? 0) || (measure_period x =? 0).
Definition polling_accepted (x : radio_config) : radio_config :=
  set_rc_period (u32 (soft_timer_ms_to_ticks (i32 (measure_period x)))) x.

Lemma polling_decode s l bs :
  command s l bs -> length bs = 7%nat ->
  let x := polling_request (configs (radio s) CFG_POLLING) bs in
  radio_polling l s =
    if polling_refused x then Ok (1, with_config CFG_POLLING x s)
    else post_result (EV_UPDATE_CONFIG CFG_POLLING) (with_config CFG_POLLING (polling_accepted x) s).
Proof.
  intros Hc Hlen x. unfold radio_polling. erewrite bind_ok by (by apply payload_length_ok). rewrite Hlen.
  change (negb (Z.of_nat 7 =? 7)) with false. cbn iota.
  erewrite bind_ok by (eapply payload_read_ok; [exact Hc|lia|lia]).
  erewrite bind_ok by apply upd_static_ok.
  erewrite bind_ok by (eapply payload_read_ok; [apply command_with, Hc|lia|lia]).
  erewrite bind_ok by apply upd_static_ok. rewrite with_config_get, with_config_twice.
  erewrite bind_ok by (eapply payload_read_ok; [apply command_with, Hc|lia|lia]).
  erewrite bind_ok by apply upd_static_ok. rewrite with_config_get, with_config_twice.
  erewrite bind_ok by apply upd_static_ok. rewrite with_config_get, with_config_twice.
  match goal with |- context [with_config CFG_POLLING ?y s] => change y with x end. clearbody x. mrun.
  rewrite with_config_get. unfold polling_refused.
  rewrite (Z.eqb_sym (measure_period x)). destruct (channels x =? 0); [done|]. cbn [orb]. destruct (0 =? measure_period x); [done|].
  erewrite bind_ok by apply upd_static_ok. by rewrite with_config_get, with_config_twice.
Qed.

Lemma post_result_ok s e : event_room 1 s -> post_result e s = Ok (0, queue_events [e] s).
Proof. intros Hr. unfold post_result. by erewrite bind_ok by (by apply cn_post_ok). Qed.

Lemma event_room_with n c x s : event_room n s -> event_room n (with_config c x s).
Proof. by destruct c. Qed.

Lemma copy_low_fresh n old v : 0 <= old < 256 ^ Z.of_nat n -> copy_low n old v = v.
Proof. intros Ho. unfold copy_low. rewrite Z.div_small by done. lia. Qed.

(** C19: A polling command of the wrong length is refused and changes nothing. Otherwise
    its fields are written over those of the static configuration before they are
    checked, so that a command refused for having no channel of the 2.4 GHz band or
    no period still changes that object; an accepted command converts the period
    to ticks and posts the change of configuration. The count of measures is the
    byte sent, and the period is the one sent if the previous period, which the
    same object keeps in ticks, is below 65536 ticks: only its two low bytes are
    replaced. *)
Theorem radio_polling_spec s l bs :
  command s l bs ->
  let x0 := configs (radio s) CFG_POLLING in
  let x := polling_request x0 bs in
  (length bs <> 7%nat -> radio_polling l s = Ok (1, s)) /\
  (length bs = 7%nat -> polling_refused x = true -> radio_polling l s = Ok (1, with_config CFG_POLLING x s)) /\
  (length bs = 7%nat -> polling_refused x = false -> event_room 1 s ->
     radio_polling l s = Ok (0, queue_events [EV_UPDATE_CONFIG CFG_POLLING]
       (with_config CFG_POLLING (polling_accepted x) s))) /\
  (is_u8 (num_operations_per_channel x0) -> num_operations_per_channel x = le_value (list.take 1 (drop 6 bs))) /\
  (is_u16 (measure_period x0) -> measure_period x = le_value (list.take 2 (drop 4 bs))) /\
  measure_period x = le_value (list.take 2 (drop 4 bs)) + measure_period x0 / 65536 * 65536.
Proof.
  intros Hc x0 x. split_and!.
  - intros Hlen. unfold radio_polling. erewrite bind_ok by (by apply payload_length_ok).
    destruct (Z.eqb_spec (Z.of_nat (length bs)) 7); [lia|done].
  - intros Hlen Hx. rewrite (polling_decode s l bs Hc Hlen). fold x0 x. by rewrite Hx.
  - intros Hlen Hx Hroom. rewrite (polling_decode s l bs Hc Hlen). fold x0 x. rewrite Hx.
    by apply post_result_ok, event_room_with.
  - intros Hn. by apply copy_low_fresh.
  - intros Hn. by apply copy_low_fresh.
  - done.
Qed.

(** A refused polling command can stop the node. If it is handled while the change
    to an accepted polling configuration is still queued, the change reads the
    static object that the refused command has left without channel, and the search
    for the first channel never ends, however long it runs. *)
Theorem refused_polling_hangs s l bs :
  command s l bs -> length bs = 7%nat -> mode (configs (radio s) CFG_POLLING) = RADIO_POLLING ->
  Z.land (le_value (list.take 4 bs)) PHY_MAP_CHANNEL_2400_ALL = 0 ->
  exists s', radio_polling l s = Ok (1, s') /\
    set_new_config CFG_POLLING s' = Err EFuel /\
    forall fuel c, next_channel fuel (channels (configs (radio s') CFG_POLLING)) c = None.
Proof.
  intros Hc Hlen Hmode Hch. set (x := polling_request (configs (radio s) CFG_POLLING) bs).
  assert (channels x = 0) as Hx by done.
  exists (with_config CFG_POLLING x s). split_and!.
  - rewrite (polling_decode s l bs Hc Hlen). fold x. unfold polling_refused. by rewrite Hx.
  - unfold set_new_config, upd_radio. mrun. cn_simpl.
    rewrite configs_set_config, with_config_get. change (mode x) with (mode (configs (radio s) CFG_POLLING)).
    rewrite Hmode. unfold set_next_channel, emit. mrun. cn_simpl.
    by rewrite Hx, next_channel_none.
  - intros fuel c. rewrite with_config_get, Hx. apply next_channel_none.
Qed.
End commands.

(** ** Polling *)

(** What [manage_channel_switch] leaves: channel, count, effects. *)
Definition switched (r : radio_state) (c n : Z) (e : list effect) : Prop :=
  let num := num_operations_per_channel (config r) in
  let op := u8 (current_op_num_on_channel r + 1) in
  (num = 0 /\ c = current_channel r /\ n = current_op_num_on_channel r /\ e = []) \/
  (num <> 0 /\ op <> num /\ c = current_channel r /\ n = op /\ e = []) \/
  (num <> 0 /\ op = num /\ first_after (channels (config r)) (current_channel r) c /\ n = 0 /\ e = switch_fx c).

Lemma manage_channel_switch_ok s :
  let cfg := config (radio s) in
  in_band (channels cfg) -> channels cfg <> 0 -> 0 <= current_channel (radio s) <= 26 ->
  exists r c n e, manage_channel_switch s = Ok (r, on_channel c n e s) /\ switched (radio s) c n e.
Proof.
  intros cfg Hb Hne Hc. unfold manage_channel_switch, switched, upd_radio. fold cfg. mrun. fold cfg.
  destruct (Z.eqb_spec 0 (num_operations_per_channel cfg)) as [E|E].
  { exists 1, (current_channel (radio s)), (current_op_num_on_channel (radio s)), []. rewrite on_channel_id. split; [done|left]. lia || by split_and!. }
  mrun. cn_simpl. fold cfg. set (op := u8 _).
  destruct (Z.eqb_spec (num_operations_per_channel cfg) op) as [E2|E2].
  - destruct (next_channel_first _ _ Hb Hne Hc) as (x & Ex & Hx).
    exists 0, x, 0, (switch_fx x). erewrite bind_ok by (apply set_next_channel_ok; exact Ex). mrun.
    split; [done|]. right. right. by split_and!.
  - exists 1, (current_channel (radio s)), op, []. split; [unfold on_channel; by rewrite app_nil_r; destruct s|].
    right. left. by split_and!.
Qed.

Section polling.
Context `{!CnEnv} {build : Build}.

(** The announced size of a measure is 5, one byte less than the measure. It does
    no harm in packets of 128 or 256 bytes. *)
Lemma rssi_size_fits : PACKET_MAX_SIZE mod 6 <> 1 -> size_fits RSSI_MEASURE_SIZE 6.
Proof.
  intros Hmod k Hk. unfold IotlabSerial.PAYLOAD_MAX, RSSI_MEASURE_SIZE, IotlabSerial.IOTLAB_SERIAL_HEADER_SIZE. mlia.
Qed.

(** The measure of [poll_time]. *)
Definition poll_measure (channel ed : Z) (ts : soft_timer_timeval) (p : ptr) : CM unit :=
  packet ← mzoom (CnMeasPkt.cn_meas_pkt_lazy_alloc radio_measures_queue p ts);
  mmod (slot_set RADIO packet) ;;
  match packet with
  | None => mret tt
  | Some l =>
      send ← mzoom (CnMeasPkt.cn_meas_pkt_add_measure l ts RSSI_MEASURE_SIZE [le_bytes 1 channel; le_bytes 1 ed]);
      mwhen (ctrue send) flush_current_rssi_measures
  end.

Lemma poll_time_prefix s :
  let cfg := config (radio s) in
  let ts := IotlabTime.iotlab_time_extend_relative (itime s) (clock (S (reads s))) (u32 (clock (reads s))) in
  mode cfg = RADIO_POLLING ->
  poll_time s =
    (poll_measure (u8 (current_channel (radio s))) (default 0 (ed_at (eds s))) ts (serial_pkt (radio s)) ;;
     manage_channel_switch ;; mret tt)
    (set_fx (fx s ++ [FxTimerStart TIMER_RADIO (measure_period cfg) 0; FxPhyEd])
       (set_counts (2 + reads s) (1 + eds s) s)).
Proof.
  intros cfg ts Hmode. unfold poll_time, schedule_polling_timer, emit. mrun. fold cfg.
  rewrite bool_decide_true by done. cbn [negb]. mrun. cn_simpl.
  erewrite bind_ok by apply soft_timer_time_ok. erewrite bind_ok by apply extend_relative_ok. cn_simpl.
  unfold poll_measure. mrun. rewrite <- app_assoc. done.
Qed.

(** C11: each tick of a polling starts the timer again, measures the energy on the current
    channel and records channel and energy, with the unix time of the reading, in
    the packet being filled or in a new one; the packet is kept while it has room
    and is less than two seconds old and is otherwise queued for the gateway; the
    measure is dropped only when no packet is left. Then the channel is switched if
    it has had its number of measures. The packets of the other modules are left
    alone and no buffer overflows, although the size announced for a measure is one
    byte short, provided the packet size is not 1 modulo 6. *)
Theorem poll_time_spec s m :
  let cfg := config (radio s) in
  let ts := IotlabTime.iotlab_time_extend_relative (itime s) (clock (S (reads s))) (u32 (clock (reads s))) in
  let bs := [u8 (current_channel (radio s)); u8 (default 0 (ed_at (eds s)))] in
  packets_ok s m -> mode cfg = RADIO_POLLING -> in_band (channels cfg) -> channels cfg <> 0 ->
  0 <= current_channel (radio s) <= 26 -> PACKET_MAX_SIZE mod 6 <> 1 ->
  exists p t m' fs c n e s',
    poll_time s = Ok (tt, s') /\ packets_ok s' m' /\
    s' = on_channel c n ([FxTimerStart TIMER_RADIO (measure_period cfg) 0; FxPhyEd] ++ e)
           (set_counts (2 + reads s) (1 + eds s) (slot_set RADIO p (set_ser t s))) /\
    m !! IotlabSerial.tx_fifo (ser s) = Some fs /\
    recorded (ser s) t m m' fs radio_measures_queue (serial_pkt (radio s)) p ts RSSI_MEASURE_SIZE bs RADIO_MEAS_FRAME /\
    switched (radio s) c n e.
Proof.
  intros cfg ts bs Hok Hmode Hb Hne Hc Hmod. rewrite (poll_time_prefix s Hmode). fold cfg ts.
  set (s1 := set_fx _ _).
  assert (packets_ok s1 m) as Hok1 by (eapply packets_ok_ext; [exact Hok|done|done|by intros []..]).
  set (blocks := [le_bytes 1 (u8 (current_channel (radio s))); le_bytes 1 (default 0 (ed_at (eds s)))]).
  assert (concat blocks = bs) as Ebs.
  { subst blocks bs. cbn. unfold u8. by rewrite Z.mod_mod. }
  destruct (slot_measure_ok s1 m RADIO ts RSSI_MEASURE_SIZE blocks Hok1 (extend_sec _ _ _))
    as (p & t & m' & fs & E & Ht & _ & Hok2 & _ & Hfs & Hrec); [done|by apply rssi_size_fits|].
  rewrite Ebs in Hrec.
  destruct (manage_channel_switch_ok (slot_set RADIO p (set_ser t s1)) Hb Hne Hc) as (r & c & n & e & Esw & Hsw).
  exists p, t, m', fs, c, n, e. eexists. split_and!; [| | |exact Hfs|exact Hrec|exact Hsw].
  - erewrite bind_ok by exact (measure_field (PF := slot_field RADIO) _ _ _ _ _ _ _ _ E). by erewrite bind_ok by exact Esw.
  - eapply packets_ok_ext; [exact Hok2|done|done|by intros []..].
  - subst s1. unfold on_channel. cbn. by rewrite <- app_assoc.
Qed.

(** ** Change of configuration *)

Lemma events_of_io s t : t = IotlabSerial.set_io (IotlabSerial.io t) (ser s) -> events_of (set_ser t s) = events_of s.
Proof. intros ->. done. Qed.

(** The state once the radio is stopped. *)
Definition stopped (t : IotlabSerial.serial cn_fn cn_event) (s : cn) : cn :=
  on_channel 0 0 [FxTimerStop TIMER_RADIO; FxPhyIdle]
    (slot_set RADIO None (set_ser t (set_radio (set_config (configs (radio s) CFG_DEFAULT) (radio s)) s))).

Lemma update_config_ok s m c :
  packets_ok s m -> event_room 1 s ->
  exists t m', update_config c s = Ok (tt, queue_events [EV_SET_NEW_CONFIG c] (stopped t s)) /\
    packets_ok (stopped t s) m' /\ flushed s RADIO t m m' /\ t = IotlabSerial.set_io (IotlabSerial.io t) (ser s).
Proof.
  intros Hok (es & Hes & Hroom). unfold update_config, proper_stop, emit, upd_radio. mrun.
  set (s1 := set_radio _ _).
  assert (packets_ok s1 m) as Hok1 by (eapply packets_ok_ext; [exact Hok|done|done|by intros []..]).
  destruct (slot_flush_ok s1 m RADIO Hok1) as (t & m' & E & Ht & _ & Hok2 & _ & Hfl).
  exists t, m'. assert (slot_set RADIO None (set_ser t s1) = stopped t s) as Es.
  { subst s1. unfold stopped, on_channel. cn_simpl. cbn [slot_set]. cn_simpl. by rewrite <- app_assoc. }
  rewrite Es in E, Hok2. split_and!; [|exact Hok2|exact Hfl|exact Ht].
  change flush_current_rssi_measures with (slot_flush RADIO). erewrite bind_ok by exact E.
  erewrite bind_ok; [done|]. apply cn_post_ok. exists es. split; [|done].
  rewrite <- Hes. rewrite <- (events_of_io s t Ht). done.
Qed.

Lemma in_band_land v : in_band (Z.land v PHY_MAP_CHANNEL_2400_ALL).
Proof. unfold in_band. by rewrite <- Z.land_assoc, Z.land_diag. Qed.

(** Starting to poll. *)
Lemma set_new_config_polling s c :
  let x := configs (radio s) c in
  mode x = RADIO_POLLING -> in_band (channels x) -> channels x <> 0 -> 0 <= current_channel (radio s) <= 26 ->
  exists ch, first_after (channels x) (current_channel (radio s)) ch /\
    set_new_config c s = Ok (tt, on_channel ch (current_op_num_on_channel (radio s))
      (switch_fx ch ++ [FxTimerHandler TIMER_RADIO; FxTimerStart TIMER_RADIO (measure_period x) 0])
      (set_radio (set_config x (radio s)) s)).
Proof.
  intros x Hmode Hb Hne Hc. destruct (next_channel_first _ _ Hb Hne Hc) as (ch & E & Hch).
  exists ch. split; [done|]. unfold set_new_config, upd_radio, schedule_polling_timer, emit. mrun. cn_simpl.
  rewrite configs_set_config. fold x. rewrite Hmode.
  erewrite bind_ok by (apply set_next_channel_ok; exact E). mrun. unfold mmod, on_channel. cn_simpl.
  by rewrite <- !app_assoc.
Qed.

Abbreviation entry e := (Event.mk_entry (IotlabSerial.Other e) 0).

(** The two events of a change of configuration: up to the second, the radio is
    stopped and the packet of measures sent. *)
Lemma config_change s m c :
  packets_ok s m -> events_of s = Some [entry (EV_UPDATE_CONFIG c)] -> (0 < EVENT_QUEUE_LENGTH)%nat ->
  exists s2 m',
    (forall s3, set_new_config c s2 = Ok (tt, s3) ->
       Event.event_task run_event Event.EVENT_QUEUE_APPLI 2 s =
         Ok ([entry (EV_UPDATE_CONFIG c); entry (EV_SET_NEW_CONFIG c)], s3)) /\
    events_of s2 = Some [] /\ packets_ok s2 m' /\
    radio s2 = set_channel 0 0 (set_serial_pkt None (set_config (configs (radio s) CFG_DEFAULT) (radio s))) /\
    fx s2 = fx s ++ [FxTimerStop TIMER_RADIO; FxPhyIdle].
Proof.
  intros Hok Hes Hq. destruct (task_turn s _ _ Hes) as (s1 & (Hs1 & Hes1) & T1).
  assert (packets_ok s1 m) as Hok1.
  { rewrite Hs1. eapply packets_ok_ext; [exact Hok|done|done|by intros []..]. }
  destruct (update_config_ok s1 m c Hok1) as (t & m' & E2 & Hok2 & _ & Ht).
  { exists []. split; [done|cbn; lia]. }
  set (s2 := queue_events _ _) in E2.
  assert (events_of s2 = Some [entry (EV_SET_NEW_CONFIG c)]) as Hes2.
  { subst s2. rewrite events_of_queue. change (events_of (stopped t s1)) with (events_of (set_ser t s1)).
    by rewrite (events_of_io s1 t Ht), Hes1. }
  destruct (task_turn s2 _ _ Hes2) as (s3 & (Hs3 & Hes3) & T2). exists s3, m'. split_and!.
  - intros s4 E4. cbn [Event.event_task]. erewrite bind_ok by exact (T1 _ E2). mrun.
    by erewrite bind_ok by exact (T2 _ E4).
  - done.
  - rewrite Hs3. eapply packets_ok_ext; [exact Hok2|done|done|by intros []..].
  - rewrite Hs3. change (radio (over _ s2)) with (radio (stopped t s1)). by rewrite Hs1.
  - rewrite Hs3. change (fx (over _ s2)) with (fx s1 ++ [FxTimerStop TIMER_RADIO; FxPhyIdle]). by rewrite Hs1.
Qed.

(** An accepted polling command takes effect. On a node whose application queue is
    empty, the two events it leads to are executed and leave nothing queued; the radio
    is first stopped with the old configuration and its measures handed over, then the
    new configuration is in force, on the lowest channel it enables, the timer being
    armed with the period asked for. *)
Theorem polling_starts s m l bs :
  let x := polling_request (configs (radio s) CFG_POLLING) bs in
  command s l bs -> length bs = 7%nat -> mode (configs (radio s) CFG_POLLING) = RADIO_POLLING ->
  polling_refused x = false -> packets_ok s m -> events_of s = Some [] -> (0 < EVENT_QUEUE_LENGTH)%nat ->
  exists s1 s2 m' c,
    radio_polling l s = Ok (0, s1) /\
    Event.event_task run_event Event.EVENT_QUEUE_APPLI 2 s1 =
      Ok ([entry (EV_UPDATE_CONFIG CFG_POLLING);
           entry (EV_SET_NEW_CONFIG CFG_POLLING)], s2) /\
    events_of s2 = Some [] /\ packets_ok s2 m' /\ serial_pkt (radio s2) = None /\
    config (radio s2) = polling_accepted x /\ current_channel (radio s2) = c /\
    current_op_num_on_channel (radio s2) = 0 /\ first_after (channels x) 0 c /\
    fx s2 = fx s ++ [FxTimerStop TIMER_RADIO; FxPhyIdle; FxPhyIdle; FxPhySetChannel c;
      FxTimerHandler TIMER_RADIO; FxTimerStart TIMER_RADIO (measure_period (polling_accepted x)) 0].
Proof.
  intros x Hcmd Hlen Hmode Hx Hok Hes Hq.
  set (s0 := with_config CFG_POLLING (polling_accepted x) s).
  set (s1 := queue_events [EV_UPDATE_CONFIG CFG_POLLING] s0).
  assert (radio_polling l s = Ok (0, s1)) as E1.
  { rewrite (polling_decode s l bs Hcmd Hlen). fold x. rewrite Hx. apply post_result_ok, event_room_with.
    exists []. split; [done|cbn; lia]. }
  destruct (config_change s1 m CFG_POLLING) as (s2 & m' & T & Hes2 & Hok2 & Hr2 & Hfx2).
  { eapply packets_ok_ext; [exact Hok|done|done|by intros []..]. }
  { subst s1. rewrite events_of_queue. change (events_of s0) with (events_of s). by rewrite Hes. }
  { done. }
  assert (configs (radio s2) CFG_POLLING = polling_accepted x) as Hcfg by (by rewrite Hr2).
  assert (current_channel (radio s2) = 0) as Hc0 by (by rewrite Hr2).
  assert (current_op_num_on_channel (radio s2) = 0) as Ho0 by (by rewrite Hr2).
  assert (serial_pkt (radio s2) = None) as Hp0 by (by rewrite Hr2).
  destruct (set_new_config_polling s2 CFG_POLLING) as (ch & Hch & E3); rewrite ?Hcfg, ?Hc0; [done|apply in_band_land| |lia|].
  { intros E0. unfold polling_refused in Hx. change (channels (polling_accepted x)) with (channels x) in E0.
    by rewrite E0 in Hx. }
  rewrite Hcfg in E3. rewrite Hcfg, Hc0 in Hch.
  eexists s1, _, m', ch. split_and!; [exact E1|apply T, E3|exact Hes2| |exact Hp0|done|done|exact Ho0|exact Hch|].
  - eapply packets_ok_ext; [exact Hok2|done|done|by intros []..].
  - cbn. rewrite Hfx2. by rewrite <- app_assoc.
Qed.
End polling.

(** *** Concrete instances *)

Section examples.
Import CnExample.
#[local] Existing Instance iotlab_cn_build.
Abbreviation entry e := (Event.mk_entry (IotlabSerial.Other e) 0).

(** Channels 11, 20 and 26, two measures on each, 10 ms. *)
Definition polling_config : radio_config := mk_rc RADIO_POLLING 0x4100800 2 328.
Definition polling_node : cn := ex_node [] (ex_radio polling_config 20).

Lemma channel_rotation_witness :
  times 4 manage_channel_switch polling_node =
    Ok (tt, on_channel 11 0 [FxPhyIdle; FxPhySetChannel 26; FxPhyIdle; FxPhySetChannel 11] polling_node).
Proof.
  destruct (channel_rotation polling_node 2) as (_ & _ & E & _);
    [cbn; lia|reflexivity|discriminate|cbn; lia|reflexivity|vm_compute; lia|].
  exact (E ltac:(discriminate)).
Defined.

(** The previous period was 5000 ms (163840 ticks); the command asks for 10 ms. *)
Lemma radio_polling_spec_witness :
  measure_period (polling_request (mk_rc RADIO_POLLING 0 0 163840) [0; 8; 0; 0; 10; 0; 3]) = 10 + 131072 /\
  exists s', radio_polling 20 (ex_node [0; 8; 0; 0; 10; 0; 3] (ex_radio default_config 0)) = Ok (0, s').
Proof.
  destruct (radio_polling_spec (ex_node [0; 8; 0; 0; 10; 0; 3] (ex_radio default_config 0)) 20 [0; 8; 0; 0; 10; 0; 3])
    as (_ & _ & E & _ & _ & Ep).
  - apply ex_command. cbn. lia.
  - split; [exact Ep|]. eexists. apply E; [reflexivity|reflexivity|]. exists []. split; [reflexivity|cbn; lia].
Defined.

Lemma refused_polling_hangs_witness :
  exists s', radio_polling 20 (ex_node [1; 0; 0; 0; 10; 0; 3] (ex_radio default_config 0)) = Ok (1, s') /\
    set_new_config CFG_POLLING s' = Err EFuel.
Proof.
  destruct (refused_polling_hangs (ex_node [1; 0; 0; 0; 10; 0; 3] (ex_radio default_config 0)) 20 [1; 0; 0; 0; 10; 0; 3])
    as (s' & E1 & E2 & _); [apply ex_command; cbn; lia|reflexivity..|].
  exists s'. split; [exact E1|exact E2].
Defined.

Lemma poll_time_spec_witness :
  exists s', poll_time polling_node = Ok (tt, s') /\ exists m', packets_ok s' m'.
Proof.
  destruct (poll_time_spec polling_node ex_contents) as (p & t & m' & fs & c & n & e & s' & E & Hok & _);
    [apply ex_packets; [reflexivity|cbn; lia]|reflexivity|reflexivity|discriminate|cbn; lia|discriminate|].
  exists s'. split; [exact E|]. exists m'. exact Hok.
Defined.

Lemma polling_starts_witness :
  exists s1 s2, radio_polling 20 (ex_node [0; 8; 0; 4; 10; 0; 3] (ex_radio default_config 0)) = Ok (0, s1) /\
    Event.event_task run_event Event.EVENT_QUEUE_APPLI 2 s1 =
      Ok ([entry (EV_UPDATE_CONFIG CFG_POLLING); entry (EV_SET_NEW_CONFIG CFG_POLLING)], s2) /\
    mode (config (radio s2)) = RADIO_POLLING.
Proof.
  destruct (polling_starts (ex_node [0; 8; 0; 4; 10; 0; 3] (ex_radio default_config 0)) ex_contents 20 [0; 8; 0; 4; 10; 0; 3])
    as (s1 & s2 & m' & c & E1 & E2 & _ & _ & _ & Ec & _);
    [apply ex_command; cbn; lia|reflexivity|reflexivity|reflexivity|apply ex_packets; [reflexivity|cbn; lia]|reflexivity|cbn; lia|].
  exists s1, s2. split; [exact E1|]. split; [exact E2|]. rewrite Ec. reflexivity.
Defined.
End examples.
End CnRadioSpec.
