(* ===== verification/CnSniffSpec.v ===== *)
(** * What the radio sniffer of the control node guarantees *)

From stdpp Require Import base numbers gmap list.
From S2P Require Import Prelude Chain Packet Event SoftTime IotlabPacket IotlabTime Phy Zep IotlabSerial CnMeasPkt CnMeasFlow CnState CnRadio CnConsumption CnControl CnSpec CnExample CnRadioSpec.

Module CnSniffSpec.
Import SoftTime Phy CnMeasFlow CnState CnRadio CnControl CnSpec CnRadioSpec.

(** ** The command *)

(** The test for more than one channel. *)
Lemma one_bit ch :
  0 < ch < 4294967296 -> Z.land ch (u32 (ch - 1)) = 0 <-> ch = 2 ^ Z.log2 ch.
Proof.
  intros Hch. rewrite u32_id by lia. pose proof (Z.log2_spec ch ltac:(lia)) as [Hlo Hhi].
  pose proof (Z.log2_nonneg ch) as Hk. set (k := Z.log2 ch) in *. split.
  - intros E. destruct (decide (ch = 2 ^ k)) as [|Hne]; [done|]. exfalso.
    assert (Z.log2 (ch - 1) = k) as Hk1 by (apply Z.log2_unique; [done|split; [lia|]; rewrite Z.pow_succ_r in * by done; lia]).
    assert (Z.testbit (Z.land ch (ch - 1)) k = true) as Eb; [|by rewrite E, Z.bits_0 in Eb].
    rewrite Z.land_spec. unfold k at 1. rewrite Z.bit_log2 by lia. rewrite <- Hk1 at 1. rewrite Z.bit_log2; [done|].
    assert (0 < 2 ^ k) by (by apply Z.pow_pos_nonneg). lia.
  - intros E. clearbody k. subst ch. replace (2 ^ k - 1) with (Z.ones k) by (rewrite Z.ones_equiv; lia).
    rewrite Z.land_ones by done. apply Z.mod_same. pose proof (Z.pow_pos_nonneg 2 k). lia.
Qed.

Section sniffer.
Context `{!CnEnv} {build : Build}.

Definition sniffer_request (x : radio_config) (bs : list Z) : radio_config :=
  set_rc_channels (Z.land (le_value (list.take 4 bs)) PHY_MAP_CHANNEL_2400_ALL) x.

Definition sniffer_refused (ch t : Z) : bool :=
  (ch =? 0) || ctrue (Z.land ch (u32 (ch - 1))) || negb (t =? 0).

Lemma sniffer_refused_spec v t :
  let ch := Z.land v PHY_MAP_CHANNEL_2400_ALL in
  0 <= v -> sniffer_refused ch t = false <-> (exists c, 11 <= c <= 26 /\ ch = 2 ^ c) /\ t = 0.
Proof.
  intros ch Hv. unfold sniffer_refused. assert (in_band ch) as Hb by apply in_band_land.
  pose proof (in_band_nonneg ch Hb) as Hn.
  assert (ch < 4294967296) as Hlt.
  { destruct (decide (ch = 0)) as [->|]; [lia|].
    pose proof (Z.log2_spec ch ltac:(lia)) as [_ Hhi].
    assert (Z.log2 ch <= 26) by (apply (in_band_bit ch (Z.log2 ch) Hb), Z.bit_log2; lia).
    eapply Z.lt_le_trans; [exact Hhi|]. change 4294967296 with (2 ^ 32). apply Z.pow_le_mono_r; lia. }
  rewrite !orb_false_iff, negb_false_iff, Z.eqb_neq, Z.eqb_eq. split.
  - intros [[Hne Hland] ->]. split; [|done]. exists (Z.log2 ch).
    split; [apply (in_band_bit ch _ Hb), Z.bit_log2; lia|]. apply one_bit; [lia|].
    unfold ctrue in Hland. by destruct (Z.eqb_spec (Z.land ch (u32 (ch - 1))) 0).
  - intros [(c & Hc & Ec) ->]. assert (0 < ch) by (rewrite Ec; apply Z.pow_pos_nonneg; lia).
    split_and!; [lia| |done]. rewrite (proj2 (one_bit ch ltac:(lia))); [done|].
    rewrite Ec at 2. by rewrite Z.log2_pow2 by lia.
Qed.

(** The sniffer command is accepted exactly when it has 6 bytes, one single channel of
    the 2.4 GHz band and no time per channel; it then posts the change of
    configuration. The channels are written to the static configuration even when
    the command is refused for its contents. *)
Theorem radio_sniffer_spec s l bs :
  let x := sniffer_request (configs (radio s) CFG_SNIFFER) bs in
  let ok := length bs = 6%nat /\ (exists c, 11 <= c <= 26 /\ channels x = 2 ^ c) /\ le_value (drop 4 bs) = 0 in
  command s l bs -> bytes_ok bs ->
  (ok -> event_room 1 s ->
     radio_sniffer l s = Ok (0, queue_events [EV_UPDATE_CONFIG CFG_SNIFFER] (with_config CFG_SNIFFER x s))) /\
  (~ ok -> radio_sniffer l s = Ok (1, if decide (length bs = 6%nat) then with_config CFG_SNIFFER x s else s)).
Proof.
  intros x ok Hc Hbs.
  assert (length bs = 6%nat -> radio_sniffer l s =
    if sniffer_refused (channels x) (le_value (drop 4 bs)) then Ok (1, with_config CFG_SNIFFER x s)
    else post_result (EV_UPDATE_CONFIG CFG_SNIFFER) (with_config CFG_SNIFFER x s)) as Hdec.
  { intros Hlen. unfold radio_sniffer. erewrite bind_ok by (by apply payload_length_ok). rewrite Hlen.
    change (negb (Z.of_nat 6 =? 6)) with false. cbn iota.
    erewrite bind_ok by (eapply payload_read_ok; [exact Hc|lia|lia]).
    erewrite bind_ok by apply upd_static_ok.
    erewrite bind_ok by (eapply payload_read_ok; [apply command_with, Hc|lia|lia]).
    erewrite bind_ok by apply upd_static_ok. rewrite with_config_get, with_config_twice.
    match goal with |- context [with_config CFG_SNIFFER ?y s] => change y with x end. mrun.
    rewrite with_config_get. rewrite (firstn_all2 (n := 2)) by (rewrite length_drop; lia).
    unfold sniffer_refused. change (Z.to_nat 4) with 4%nat. rewrite (Z.eqb_sym _ 0).
    rewrite (Z.eqb_sym (le_value _)). destruct (0 =? channels x); [done|]. cbn [orb].
    destruct (ctrue _); [done|]. cbn [orb]. by destruct (0 =? le_value _). }
  assert (length bs = 6%nat -> sniffer_refused (channels x) (le_value (drop 4 bs)) = false <-> ok) as Hiff.
  { intros Hlen. subst ok. change (channels x) with (Z.land (le_value (list.take 4 bs)) PHY_MAP_CHANNEL_2400_ALL).
    rewrite (sniffer_refused_spec (le_value (list.take 4 bs))); [by intuition|].
    apply le_value_range. by apply Forall_take. }
  split.
  - intros Hok Hroom. pose proof Hok as (Hlen & _). rewrite Hdec by done. rewrite (proj2 (Hiff Hlen) Hok).
    by apply post_result_ok, event_room_with.
  - intros Hnok. case_decide as Hlen.
    + rewrite Hdec by done. destruct (sniffer_refused _ _) eqn:E; [done|].
      exfalso. by apply Hnok, (Hiff Hlen).
    + unfold radio_sniffer. erewrite bind_ok by (by apply payload_length_ok).
      destruct (Z.eqb_spec (Z.of_nat (length bs)) 6); [lia|done].
Qed.

(** ** Reception *)

(** The buffer of index [i] with its time. *)
Definition timed (s : cn) (b : phy_packet) : phy_packet :=
  let ts := IotlabTime.iotlab_time_extend_relative (itime s) (clock (reads s)) (Phy.timestamp b) in
  set_timestamp_alt (mk_alt (tv_usec ts) (tv_sec ts)) b.

(** The state after the buffers are swapped and the radio is listening again. *)
Definition swapped (s : cn) : cn :=
  let i := 1 - pkt_index (radio s) in
  set_fx (fx s ++ [FxPhyRxNow i]) (set_radio (set_sniff (pkt_buf (radio s)) i (radio s)) s).

Lemma swap_ok s status :
  pkt_index (radio s) = 0 \/ pkt_index (radio s) = 1 -> mode (config (radio s)) = RADIO_SNIFFER ->
  sniff_handle_rx_appli_queue status s =
    (if negb (bool_decide (status = PHY_SUCCESS)) then mret tt
     else
       packet ← mzoom (IotlabSerial.iotlab_serial_packet_alloc radio_measures_queue);
       match packet with
       | None => mret tt
       | Some p =>
           zep_to_packet p (pkt_index (radio s)) (u8 (current_channel (radio s))) ;;
           r ← mzoom (IotlabSerial.iotlab_serial_send_frame RADIO_SNIFFER_FRAME p);
           mwhen (ctrue r) (mzoom (mzoom (T := IotlabPacket.iot) (IotlabPacket.iotlab_packet_call_free p)))
       end) (swapped s).
Proof.
  intros Hi Hmode. unfold sniff_handle_rx_appli_queue, sniff_rx, upd_radio, emit. mrun.
  rewrite bool_decide_true by done. cbn [negb]. mrun. cn_simpl.
  assert (Z.rem (pkt_index (radio s) + 1) 2 = 1 - pkt_index (radio s)) as -> by (by destruct Hi as [-> | ->]).
  done.
Qed.

Lemma zep_to_packet_run s i channel l k b :
  pkt_buf (radio s) !! Z.to_nat i = Some b -> IotlabPacket.cells (IotlabSerial.io (ser s)) !! l = Some k ->
  Packet.data k = 3 ->
  zep_to_packet l i channel s =
    ('(dst, n, c) ← mlift (Zep.to_zep (drop 3 (Packet.raw_data k)) (timed s b) channel (node_id (control s)) (packet_counter s));
     mmod (set_packet_counter c) ;;
     mzoom (IotlabSerial.pkt_store l
       (Packet.mk_packet (list.take 3 (Packet.raw_data k) ++ dst) 3 (u16 n) (Packet.next k))))
    (set_radio (set_sniff (<[Z.to_nat i := timed s b]> (pkt_buf (radio s))) (pkt_index (radio s)) (radio s))
       (set_counts (S (reads s)) (eds s) s)).
Proof.
  intros Hb Hk Hd. unfold zep_to_packet, sniff_buf. mrun. rewrite Hb. cbn [of_option]. mrun.
  erewrite bind_ok by apply extend_relative_ok. unfold upd_radio. mrun. cn_simpl.
  rewrite list_lookup_insert_eq by (by apply lookup_lt_Some in Hb). cbn [of_option]. mrun.
  erewrite bind_ok by (apply cn_zoom_ok, IotlabSerial.pkt_load_ok; exact Hk). rewrite Hd. mrun. cn_simpl.
  done.
Qed.

(** The packet that [zep_to_packet] leaves. *)
Lemma zep_carries k dst n frame :
  Packet.data k = 3 -> length (Packet.raw_data k) = packet_size ->
  arr_blit (drop 3 (Packet.raw_data k)) 0 frame = Ok dst ->
  CnMeasPkt.carries (Packet.mk_packet (list.take 3 (Packet.raw_data k) ++ dst) 3 (Z.of_nat (length frame)) n) frame /\
  length (list.take 3 (Packet.raw_data k) ++ dst) = packet_size.
Proof.
  intros Hd Hlen E. pose proof packet_size_spec as [HP1 HP2].
  pose proof (arr_blit_length _ _ _ _ E) as Hl. rewrite length_drop in Hl.
  assert (length (list.take 3 (Packet.raw_data k) ++ dst) = packet_size) as Hsz.
  { rewrite length_app, length_take, Hl, Hlen. lia. }
  split; [|done]. split_and!; [done|done|].
  unfold arr_blit in E. case_decide as D; [|done]. injection E as <-.
  eexists (list.take 3 (Packet.raw_data k)), _. split_and!; [done|rewrite length_take; lia|exact Hsz].
Qed.

(** The state after [zep_to_packet], the packets apart. *)
Definition zepped (s : cn) (i : Z) (b : phy_packet) : cn :=
  set_packet_counter (u32 (packet_counter s + 1))
    (set_radio (set_sniff (<[Z.to_nat i := timed s b]> (pkt_buf (radio s))) (pkt_index (radio s)) (radio s))
       (set_counts (S (reads s)) (eds s) s)).

Section tail.
Variables (s : cn) (m : gmap nat (list loc)) (x : loc) (k : Packet.packet) (b : phy_packet) (frame : list Z) (i channel : Z).
Hypothesis Hr : IotlabPacket.reps (IotlabSerial.io (ser s)) m.
Hypothesis Hf : full (IotlabSerial.io (ser s)).
Hypothesis Hlo : IotlabPacket.loose (IotlabSerial.io (ser s)) m x.
Hypothesis Hk : IotlabPacket.cells (IotlabSerial.io (ser s)) !! x = Some k.
Hypothesis Hd : Packet.data k = 3.
Hypothesis Hsz : length (Packet.raw_data k) = packet_size.
Hypothesis Hb : pkt_buf (radio s) !! Z.to_nat i = Some b.
Hypothesis Hz : Zep.zep_packet (timed s b) frame.

Abbreviation tail :=
  (zep_to_packet x i channel ;;
   r ← mzoom (IotlabSerial.iotlab_serial_send_frame RADIO_SNIFFER_FRAME x);
   mwhen (ctrue r) (mzoom (mzoom (T := IotlabPacket.iot) (IotlabPacket.iotlab_packet_call_free x)))).

Lemma zep_sent fs :
  m !! IotlabSerial.tx_fifo (ser s) = Some fs -> 34 + length_ b <= IotlabSerial.PAYLOAD_MAX ->
  exists t, tail s = Ok (tt, set_ser t (zepped s i b)) /\
    moved (Some x) None (ser s) t m
      (<[IotlabSerial.tx_fifo (ser s) := IotlabPacket.prio_insert (IotlabPacket.prio (IotlabSerial.io (ser s))) x fs]> m) /\
    sent (IotlabSerial.io t) x RADIO_SNIFFER_FRAME
      (Zep.packet_zep_frame (timed s b) channel (node_id (control s)) (packet_counter s) frame).
Proof using Hr Hf Hlo Hk Hd Hsz Hb Hz.
  intros Hfs Hfit. pose proof IotlabSerial.payload_max_spec as (HP1 & HP2 & HP3).
  destruct (Zep.to_zep_ok (drop 3 (Packet.raw_data k)) (timed s b) channel (node_id (control s)) (packet_counter s) frame Hz)
    as (dst & Ez & Eb).
  { rewrite length_drop, Hsz. change (length_ (timed s b)) with (length_ b). lia. }
  set (zf := Zep.packet_zep_frame _ _ _ _ _) in *.
  assert (Z.of_nat (length zf) = 32 + 2 + length_ b) as Hlz.
  { apply (Zep.zep_fields_concat (timed s b)). destruct Hz as (_ & _ & _ & _ & Hfr & _). by apply arr_slice_length in Hfr. }
  destruct (zep_carries k dst (Packet.next k) zf Hd Hsz Eb) as [Hc Hsz2].
  set (k2 := Packet.mk_packet _ 3 (Z.of_nat (length zf)) (Packet.next k)) in Hc.
  destruct (upd_moved (ser s) m x k2 Hr Hf Hlo Hsz2) as [Hmv1 Hlo2].
  pose proof Hmv1 as (_ & Hf2 & _ & Hr2 & _).
  destruct (send_moved (IotlabSerial.upd_pkt x k2 (ser s)) m fs x zf RADIO_SNIFFER_FRAME Hr2 Hfs Hf2) as (t & Es & Hmv2 & Hs & _).
  { split; [done|]. exists k2. split; [apply IotlabSerial.lookup_upd_pkt|done]. }
  exists t. split_and!; [|by eapply moved_trans|exact Hs].
  erewrite bind_ok.
  2:{ rewrite (zep_to_packet_run s i channel x k b Hb Hk Hd), Ez. mrun. apply cn_zoom_ok.
      eapply IotlabSerial.pkt_store_ok. exact Hk. }
  assert (u16 (32 + 2 + length_ (timed s b)) = Z.of_nat (length zf)) as Eu.
  { rewrite Hlz. change (length_ (timed s b)) with (length_ b). apply u16_id. destruct Hz as (_ & _ & _ & Hn & _ & _).
    change (length_ (timed s b)) with (length_ b) in Hn. lia. }
  rewrite Eu. fold k2. erewrite bind_ok by (apply cn_zoom_ok; exact Es). done.
Qed.

Lemma zep_overflow : 34 + length_ b > IotlabSerial.PAYLOAD_MAX -> tail s = Err EUndef.
Proof using Hk Hd Hsz Hb Hz.
  intros Hbig. pose proof IotlabSerial.payload_max_spec as (HP1 & HP2 & HP3).
  unfold mbind at 1, M_bind at 1. rewrite (zep_to_packet_run s i channel x k b Hb Hk Hd).
  rewrite (Zep.to_zep_overflow _ (timed s b) channel (node_id (control s)) (packet_counter s) frame Hz); [done|].
  rewrite length_drop, Hsz. change (length_ (timed s b)) with (length_ b). lia.
Qed.
End tail.

(** C32: a frame received by the sniffer is sent to the gateway in ZEP format, in a packet
    of the pool that is queued for the serial link, with the time of its reception;
    before it is read the radio is listening again, in the other of the two buffers,
    which this does not touch. That needs packets with 34 bytes more than the frame;
    with shorter ones, such as those of 128 bytes for frames of more than 91 bytes,
    the frame is written past the end of the packet. *)
Theorem sniff_frame_spec s m fs x ys b frame :
  let i := pkt_index (radio s) in
  let z := timed s b in
  packets_ok s m -> mode (config (radio s)) = RADIO_SNIFFER -> i = 0 \/ i = 1 ->
  pkt_buf (radio s) !! Z.to_nat i = Some b ->
  m !! IotlabSerial.tx_fifo (ser s) = Some fs -> m !! radio_measures_queue = Some (x :: ys) ->
  Zep.zep_packet z frame ->
  (34 + length_ b <= IotlabSerial.PAYLOAD_MAX ->
   exists s', sniff_handle_rx_appli_queue PHY_SUCCESS s = Ok (tt, s') /\
     packets_ok s' (<[IotlabSerial.tx_fifo (ser s) := IotlabPacket.prio_insert (IotlabPacket.prio (IotlabSerial.io (ser s))) x fs]>
                     (<[radio_measures_queue := ys]> m)) /\
     sent (IotlabSerial.io (ser s')) x RADIO_SNIFFER_FRAME
       (Zep.packet_zep_frame z (u8 (current_channel (radio s))) (node_id (control s)) (packet_counter s) frame) /\
     fx s' = fx s ++ [FxPhyRxNow (1 - i)] /\ pkt_index (radio s') = 1 - i /\
     pkt_buf (radio s') !! Z.to_nat (1 - i) = pkt_buf (radio s) !! Z.to_nat (1 - i)) /\
  (34 + length_ b > IotlabSerial.PAYLOAD_MAX ->
   sniff_handle_rx_appli_queue PHY_SUCCESS s = Err EUndef).
Proof.
  intros i z Hok Hmode Hi Hb Hfs Hpool Hz. pose proof Hok as [Hr Hf _ _ Hne _ _].
  rewrite (swap_ok s PHY_SUCCESS Hi Hmode). rewrite bool_decide_true by done. cbn [negb].
  destruct (alloc_moved (ser s) m radio_measures_queue x ys Hr Hpool (Hne RADIO) Hf) as (t1 & k & E1 & Hmv1 & Hlo & Hk & Hd & Hl & Hsz).
  erewrite bind_ok by (apply (cn_zoom_ok _ (swapped s)); exact E1).
  set (s1 := set_ser t1 (swapped s)). pose proof Hmv1 as (Ht1 & Hf1 & Hex1 & Hr1 & _ & _).
  assert (IotlabSerial.tx_fifo t1 = IotlabSerial.tx_fifo (ser s)) as Et by (by rewrite Ht1).
  assert (IotlabPacket.prio (IotlabSerial.io t1) = IotlabPacket.prio (IotlabSerial.io (ser s))) as Ep
    by (unfold IotlabPacket.prio; by rewrite Hex1).
  split.
  - intros Hfit. destruct (zep_sent s1 _ x k b frame i (u8 (current_channel (radio s))) Hr1 Hf1 Hlo Hk Hd Hsz Hb Hz fs)
      as (t & E & Hmv & Hs); [|done|].
    { change (ser s1) with t1. rewrite Et, lookup_insert_ne; [done|]. apply (Hne RADIO). }
    change (ser s1) with t1 in Hmv. rewrite Et, Ep in Hmv.
    destruct (packets_passed s m None None t _ Hok (moved_trans _ _ _ _ _ _ _ _ _ Hmv1 Hmv)) as [Hok' _]; [done|].
    eexists. split_and!; [exact E| |exact Hs|done|done|].
    + eapply packets_ok_ext; [exact Hok'|done|done|by intros []..].
    + cbn. rewrite list_lookup_insert_ne; [done|]. destruct Hi as [Hi|Hi]; fold i; rewrite Hi; done.
  - intros Hbig. by eapply zep_overflow.
Qed.
End sniffer.

(** *** Concrete instances *)

Section examples.
Import CnExample.
#[local] Existing Instance iotlab_cn_build.

Lemma radio_sniffer_spec_witness :
  exists s', radio_sniffer 20 (ex_node [0; 8; 0; 0; 0; 0] (ex_radio default_config 0)) = Ok (0, s').
Proof.
  destruct (radio_sniffer_spec (ex_node [0; 8; 0; 0; 0; 0] (ex_radio default_config 0)) 20 [0; 8; 0; 0; 0; 0])
    as [E _]; [apply ex_command; cbn; lia|by repeat constructor|].
  eexists. apply E.
  - split; [reflexivity|]. split; [|reflexivity]. exists 11. split; [lia|reflexivity].
  - exists []. split; [reflexivity|cbn; lia].
Defined.

(** A node that sniffs channel 11, with a frame of 4 bytes in its first buffer. *)
Definition sniffing_node : cn :=
  ex_node [] (mk_radio (mk_rc RADIO_SNIFFER 0x800 0 0) 11 0 None [Zep.sniffed; Zep.sniffed] 0
    (statics (ex_radio default_config 0))).

Lemma sniff_frame_spec_witness :
  exists s', sniff_handle_rx_appli_queue PHY_SUCCESS sniffing_node = Ok (tt, s') /\ fx s' = [FxPhyRxNow 1].
Proof.
  destruct (sniff_frame_spec sniffing_node ex_contents [] 11 [] Zep.sniffed [0x41; 0x88; 0x01; 0x02; 0xAA; 0xBB])
    as [E _];
    [apply ex_packets; [reflexivity|cbn; lia]|reflexivity|left; reflexivity|reflexivity|reflexivity|reflexivity
    |vm_compute; intuition discriminate|].
  destruct E as (s' & E & _ & _ & Hfx & _); [vm_compute; discriminate|].
  exists s'. split; [exact E|exact Hfx].
Defined.
End examples.
End CnSniffSpec.
