(* ===== verification/CnPowerSpec.v ===== *)
(** * Power supply of the open node

    The main and the battery supply of the open node must never be connected
    together. Both switches are driven by the commands of the gateway, through the
    library of the gateway board; a low level connects a supply. *)

From stdpp Require Import base numbers gmap list.
From S2P Require Import Prelude Chain Packet Event SoftTime IotlabPacket IotlabTime Phy Zep IotlabSerial CnMeasPkt CnMeasFlow CnState CnRadio CnConsumption CnControl CnSpec CnExample.

Module CnPowerSpec.
Import SoftTime Phy CnState CnRadio CnConsumption CnControl CnSpec.

(** The switches closed: main, battery. *)
Definition switch (sw : bool * bool) (e : effect) : bool * bool :=
  match e with
  | FxGpioSet PIN_MAIN_POWER => (false, sw.2)
  | FxGpioClear PIN_MAIN_POWER => (true, sw.2)
  | FxGpioSet PIN_BATTERY_POWER => (sw.1, false)
  | FxGpioClear PIN_BATTERY_POWER => (sw.1, true)
  | _ => sw
  end.

Definition switches (es : list effect) : bool * bool := foldl switch (false, false) es.

(** At no time are both closed. *)
Definition exclusive (es : list effect) : Prop := forall es1 es2, es = es1 ++ es2 -> switches es1 <> (true, true).

Lemma switches_snoc es e : switches (es ++ [e]) = switch (switches es) e.
Proof. unfold switches. by rewrite foldl_app. Qed.

Lemma exclusive_snoc es e : exclusive es -> switch (switches es) e <> (true, true) -> exclusive (es ++ [e]).
Proof.
  intros Hes He es1 es2 E. destruct (decide (es2 = [])) as [->|Hne].
  - rewrite app_nil_r in E. rewrite <- E, switches_snoc. done.
  - destruct es2 as [|y ys _] using rev_ind; [done|]. rewrite app_assoc in E. apply app_inj_tail in E as [-> _].
    by apply (Hes es1 ys).
Qed.

Lemma exclusive_now es : exclusive es -> switches es <> (true, true).
Proof. intros Hes. apply (Hes es []). by rewrite app_nil_r. Qed.

(** Effects on other outputs. *)
Definition other (e : effect) : bool :=
  match e with
  | FxGpioSet p | FxGpioClear p => bool_decide (p = PIN_BATTERY_CHARGE)
  | _ => true
  end.

Lemma other_switch e sw : other e = true -> switch sw e = sw.
Proof.
  by destruct e; destruct sw; repeat match goal with p : gpio_pin |- _ => destruct p end.
Qed.

(** [keeps m]: [m] never lets both supplies be connected. *)
Definition keeps {A} (m : CM A) : Prop :=
  forall s a s', m s = Ok (a, s') -> exclusive (fx s) -> exclusive (fx s').

Create HintDb keeps.

Lemma pow_keeps_ret {A} (a : A) : keeps (mret a).
Proof. by intros s a' s' [= _ <-]. Qed.
Lemma keeps_bind {A B} (m : CM A) (k : A -> CM B) : keeps m -> (forall a, keeps (k a)) -> keeps (m ≫= k).
Proof. intros Hm Hk s b s' (a & s1 & E1 & E)%bind_inv Hs. eapply Hk; [exact E|]. by eapply Hm. Qed.
Lemma pow_keeps_get : keeps mget.
Proof. by intros s a' s' [= _ <-]. Qed.
Lemma keeps_lift {A} (r : res A) : keeps (mlift r).
Proof. intros s a s'. unfold mlift. by destruct r; [intros [= _ <-]|]. Qed.
Lemma keeps_fail {A} e : keeps (A := A) (mfail e).
Proof. by intros s a s'. Qed.
Lemma keeps_zoom {A} (m : M (IotlabSerial.serial cn_fn cn_event) A) : keeps (mzoom m).
Proof.
  intros s a s'. unfold mzoom. destruct (m (view s)) as [[x t]|]; [|done]. by intros [= _ <-].
Qed.
Lemma keeps_mod f : (forall s, fx (f s) = fx s) -> keeps (mmod f).
Proof. intros Hf s a s' [= _ <-]. by rewrite Hf. Qed.
Lemma keeps_when b m : keeps m -> keeps (mwhen b m).
Proof. intros Hm. destruct b; [done|apply pow_keeps_ret]. Qed.
Lemma keeps_emit e : other e = true -> keeps (emit e).
Proof.
  intros He s a s' [= _ <-] Hs. apply exclusive_snoc; [done|]. rewrite other_switch by done. by apply exclusive_now.
Qed.
#[export] Hint Resolve @pow_keeps_ret @pow_keeps_get @keeps_lift @keeps_fail @keeps_zoom : keeps.

(** Goes through a computation. *)
Ltac keeps_step :=
  match goal with
  | |- keeps (_ ≫= _) => apply keeps_bind; [|intros ?]
  | |- keeps (emit _) => apply keeps_emit; reflexivity
  | |- keeps (mwhen _ _) => apply keeps_when
  | |- keeps (mmod _) => apply keeps_mod; intros ?; reflexivity
  | |- keeps (match ?x with _ => _ end) => destruct x
  | |- keeps (let _ := _ in _) => cbn zeta
  | |- keeps _ => solve [eauto with keeps]
  end.
Ltac keeps_run := cbn zeta; repeat (intros; keeps_step).

(** Selecting a supply opens both switches first. *)
Lemma keeps_power_select p : keeps (fiteco_lib_gwt_opennode_power_select p).
Proof.
  intros s a s' E Hs. unfold fiteco_lib_gwt_opennode_power_select, emit in E. mrun in E.
  destruct p; mrun in E; injection E as _ <-; cbn [fx set_fx];
    repeat (apply exclusive_snoc; [|rewrite ?switches_snoc; by destruct (switches (fx s)) as [[] []]]); try done.
Qed.
#[export] Hint Resolve keeps_power_select : keeps.

Section commands.
Context `{!CnEnv} {build : Build}.

Lemma keeps_time : keeps (A := Z) CnState.soft_timer_time_64.
Proof. by intros s a s' [= _ <-]. Qed.
Lemma keeps_extend t : keeps (extend_relative t).
Proof. by intros s a s' [= _ <-]. Qed.
#[local] Hint Resolve keeps_time keeps_extend : keeps.

Lemma keeps_post e : keeps (post e).
Proof. unfold post. keeps_run. Qed.
Lemma keeps_length p : keeps (payload_length p).
Proof. unfold payload_length. keeps_run. Qed.
Lemma keeps_byte p i : keeps (payload_byte p i).
Proof. unfold payload_byte. keeps_run. Qed.
Lemma keeps_read p n i : keeps (payload_read p n i).
Proof. unfold payload_read. keeps_run. Qed.
#[local] Hint Resolve keeps_post keeps_length keeps_byte keeps_read : keeps.

Lemma keeps_upd_radio f : keeps (upd_radio f).
Proof. unfold upd_radio. keeps_run. Qed.
Lemma keeps_upd_conso f : keeps (upd_conso f).
Proof. unfold upd_conso. keeps_run. Qed.
Lemma keeps_upd_control f : keeps (upd_control f).
Proof. unfold upd_control. keeps_run. Qed.
#[local] Hint Resolve keeps_upd_radio keeps_upd_conso keeps_upd_control : keeps.

Lemma keeps_next_channel : keeps set_next_channel.
Proof. unfold set_next_channel. keeps_run. Qed.
Lemma keeps_monitor x : keeps (fiteco_lib_gwt_current_monitor_select x).
Proof. unfold fiteco_lib_gwt_current_monitor_select. keeps_run. Qed.
Lemma keeps_flush_rssi : keeps flush_current_rssi_measures.
Proof. unfold flush_current_rssi_measures. keeps_run. Qed.
Lemma keeps_flush_conso : keeps flush_current_consumption_measures.
Proof. unfold flush_current_consumption_measures. keeps_run. Qed.
Lemma keeps_flush_event : keeps flush_current_event.
Proof. unfold flush_current_event. keeps_run. Qed.
#[local] Hint Resolve keeps_next_channel keeps_monitor keeps_flush_rssi keeps_flush_conso keeps_flush_event : keeps.

Lemma keeps_post_result e : keeps (post_result e).
Proof. unfold post_result. keeps_run. Qed.
Lemma keeps_upd_static c f : keeps (upd_static c f).
Proof. unfold upd_static. keeps_run. Qed.
Lemma keeps_charge_enable : keeps fiteco_lib_gwt_battery_charge_enable.
Proof. unfold fiteco_lib_gwt_battery_charge_enable. keeps_run. Qed.
Lemma keeps_charge_disable : keeps fiteco_lib_gwt_battery_charge_disable.
Proof. unfold fiteco_lib_gwt_battery_charge_disable. keeps_run. Qed.
Lemma keeps_alim f : keeps (call_alim f).
Proof. unfold call_alim. keeps_run. Qed.
Lemma keeps_blink p : keeps (leds_blink p).
Proof. unfold leds_blink. keeps_run. Qed.
Lemma keeps_alloc_ack c : keeps (alloc_pw_ack_frame c).
Proof. unfold alloc_pw_ack_frame. keeps_run. Qed.
#[local] Hint Resolve keeps_post_result keeps_upd_static keeps_charge_enable keeps_charge_disable keeps_alim
  keeps_blink keeps_alloc_ack : keeps.

(** Every command handler. *)
Lemma keeps_fn f cmd p : keeps (run_fn f cmd p).
Proof.
  destruct f; cbn [run_fn];
    unfold radio_off, radio_polling, radio_sniffer, config_consumption_measures, parse_consumption_config,
      set_time, set_node_id, green_led_blink, green_led_on, on_start, on_stop, config_gpio_event, ping_pong,
      gpio, tst_i2c2; keeps_run.
Qed.
#[local] Hint Resolve keeps_fn : keeps.

Lemma keeps_schedule : keeps schedule_polling_timer.
Proof. unfold schedule_polling_timer. keeps_run. Qed.
Lemma keeps_sniff_rx : keeps sniff_rx.
Proof. unfold sniff_rx. keeps_run. Qed.
#[local] Hint Resolve keeps_schedule keeps_sniff_rx : keeps.

(** Every event. *)
Lemma keeps_event e arg : keeps (run_event e arg).
Proof.
  destruct e as [|[]]; cbn [run_event];
    unfold IotlabSerial.packet_received, IotlabSerial.iotlab_serial_call_handler, update_config, proper_stop,
      set_new_config, schedule_polling_timer, sniff_rx, poll_time, manage_channel_switch, CnState.soft_timer_time,
      sniff_handle_rx_appli_queue, zep_to_packet, sniff_buf, do_config_consumption_measures, process_current_sample,
      consumption_measure_handler, do_set_time, pps_handler, event_handler; keeps_run.
Qed.

Lemma keeps_register f : keeps (register f).
Proof. unfold register. keeps_run. Qed.
#[local] Hint Resolve keeps_register : keeps.

Lemma keeps_main : keeps main_start.
Proof.
  unfold main_start, cn_control_start, cn_alim_start, cn_consumption_start, cn_alim_config, cn_autotest_start,
    cn_radio_start, cn_event_start, radio_init, update_config, proper_stop, fiteco_lib_gwt_current_monitor_stop; keeps_run.
Qed.

(** ** The running node *)

(** What can happen: a turn of the application task, an interrupt of the current
    monitor or of the pulse per second, the expiry of the polling timer, the end of
    a reception, or any activity of the serial link. *)
Inductive node_step (s s' : cn) : Prop :=
| step_task e : Event.event_task_iter run_event Event.EVENT_QUEUE_APPLI s = Ok (e, s') -> node_step s s'
| step_sample : current_sample_ready_isr s = Ok (tt, s') -> node_step s s'
| step_pps : pps_handler_irq s = Ok (tt, s') -> node_step s s'
| step_timer r : post EV_POLL_TIME s = Ok (r, s') -> node_step s s'
| step_radio status : sniff_handle_rx status s = Ok (tt, s') -> node_step s s'
| step_serial (m : M (IotlabSerial.serial cn_fn cn_event) unit) : mzoom m s = Ok (tt, s') -> node_step s s'.

Lemma keeps_events {A} (m : M (Event.events (IotlabSerial.serial_event cn_event)) A) : keeps (mzoom m).
Proof.
  intros s a s'. unfold mzoom. destruct (m (view s)) as [[x t]|]; [|done]. by intros [= _ <-].
Qed.
#[local] Hint Resolve keeps_event keeps_events : keeps.

Lemma keeps_task : keeps (Event.event_task_iter run_event Event.EVENT_QUEUE_APPLI).
Proof. unfold Event.event_task_iter. keeps_run. Qed.
Lemma keeps_sample : keeps current_sample_ready_isr.
Proof. unfold current_sample_ready_isr, CnState.soft_timer_time. keeps_run. Qed.
Lemma keeps_pps : keeps pps_handler_irq.
Proof. unfold pps_handler_irq, CnState.soft_timer_time. keeps_run. Qed.
Lemma keeps_sniff status : keeps (sniff_handle_rx status).
Proof. unfold sniff_handle_rx. keeps_run. Qed.

Lemma node_step_keeps s s' : node_step s s' -> exclusive (fx s) -> exclusive (fx s').
Proof.
  destruct 1 as [e E|E|E|r E|st E|m E]; revert E;
    [apply keeps_task|apply keeps_sample|apply keeps_pps|apply keeps_post|apply keeps_sniff|apply keeps_zoom].
Qed.

(** C3: the two supplies of the open node are never connected together. From the start of
    the program on, whatever commands and events are handled, in whatever order and
    with interrupts between them, at no point of the sequence of outputs are the
    main and the battery switch both closed. *)
Theorem power_exclusive s0 s1 s :
  exclusive (fx s0) -> main_start s0 = Ok (tt, s1) -> rtc node_step s1 s ->
  exclusive (fx s) /\ switches (fx s) <> (true, true).
Proof.
  intros H0 E Hsteps. assert (exclusive (fx s)) as Hs.
  { assert (exclusive (fx s1)) as H1 by exact (keeps_main _ _ _ E H0). clear E H0. induction Hsteps as [s|s2 s3 s Hst _ IH]; [done|].
    apply IH. by eapply node_step_keeps. }
  split; [done|by apply exclusive_now].
Qed.
End commands.

(** ** The power commands *)

Definition power_of (sel : power_selection) : bool * bool :=
  match sel with POWER_OFF => (false, false) | POWER_MAIN => (true, false) | POWER_BATTERY => (false, true) end.

(** Only [es] was done outside. *)
Definition emitted (es : list effect) (s : cn) : cn := set_fx (fx s ++ es) s.

Lemma emit_ok e s : emit e s = Ok (tt, emitted [e] s).
Proof. done. Qed.
Lemma emitted_twice es es' s : emitted es' (emitted es s) = emitted (es ++ es') s.
Proof. unfold emitted. cbn. by rewrite app_assoc. Qed.
Lemma emitted_nil s : emitted [] s = s.
Proof. unfold emitted. rewrite app_nil_r. by destruct s. Qed.

Lemma power_select_ok sel s :
  exists es, fiteco_lib_gwt_opennode_power_select sel s = Ok (tt, emitted es s) /\
    switches (fx s ++ es) = power_of sel.
Proof.
  unfold fiteco_lib_gwt_opennode_power_select, emit. destruct sel; mrun; eexists; (split;
    [unfold mmod, emitted; cn_simpl; rewrite <- !app_assoc; reflexivity|];
    unfold switches; rewrite foldl_app; by destruct (foldl _ _ (fx s)) as [[] []]).
Qed.

(** Outputs other than the switches. *)
Lemma switches_other es1 es2 : Forall (λ e, other e = true) es2 -> switches (es1 ++ es2) = switches es1.
Proof.
  intros H. revert es1. induction H as [|e es He _ IH]; intros es1; [by rewrite app_nil_r|].
  change (e :: es) with ([e] ++ es). rewrite app_assoc, IH, switches_snoc. by apply other_switch.
Qed.

Section alim.
Context `{!CnEnv} {build : Build}.

Lemma call_alim_ok f s : exists es, call_alim f s = Ok (tt, emitted es s) /\ Forall (λ e, other e = true) es.
Proof.
  destruct f as [f|]; [exists [FxAlim f]; by repeat constructor|]. exists []. by rewrite emitted_nil.
Qed.

Lemma started_ok sel charge s :
  other charge = true ->
  exists es, (fiteco_lib_gwt_opennode_power_select sel ;; emit charge ;; s0 ← mget; call_alim (post_start_cmd (alim s0)) ;; mret 0) s =
    Ok (0, emitted es s) /\ switches (fx s ++ es) = power_of sel.
Proof.
  intros Hc. destruct (power_select_ok sel s) as (es1 & E1 & Hs1).
  destruct (call_alim_ok (post_start_cmd (alim s)) (emitted (es1 ++ [charge]) s)) as (es2 & E2 & Ho).
  exists ((es1 ++ [charge]) ++ es2). split.
  - erewrite bind_ok by exact E1. erewrite bind_ok by apply emit_ok. rewrite emitted_twice. mrun.
    change (alim (emitted (es1 ++ [charge]) s)) with (alim s). erewrite bind_ok by exact E2. by rewrite emitted_twice.
  - rewrite <- app_assoc, app_assoc, switches_other; [done|]. by constructor.
Qed.

Lemma stopped_ok s :
  exists es, (s0 ← mget; call_alim (pre_stop_cmd (alim s0)) ;; fiteco_lib_gwt_opennode_power_select POWER_OFF) s =
    Ok (tt, emitted es s) /\ switches (fx s ++ es) = (false, false).
Proof.
  mrun. destruct (call_alim_ok (pre_stop_cmd (alim s)) s) as (es1 & E1 & _).
  destruct (power_select_ok POWER_OFF (emitted es1 s)) as (es2 & E2 & Hs2).
  exists (es1 ++ es2). split; [erewrite bind_ok by exact E1; rewrite E2; by rewrite emitted_twice|]. by rewrite app_assoc.
Qed.

Lemma command_emitted es s l bs : command s l bs -> command (emitted es s) l bs.
Proof. done. Qed.

(** The start and stop commands of the open node. A command that does not have exactly
    one byte is refused and does nothing. Start connects the main supply for the
    two direct current modes, the battery for the battery mode, refuses any other
    mode without touching the supply. Stop disconnects both supplies, even when its
    mode is unknown and it answers an error. *)
Theorem alim_commands_spec s l bs :
  command s l bs ->
  (length bs <> 1%nat -> on_start l s = Ok (1, s) /\ on_stop l s = Ok (1, s)) /\
  (forall b, bs = [b] ->
     (exists es, on_start l s = Ok (if (0 <=? b) && (b <=? 2) then 0 else 1, emitted es s) /\
        switches (fx s ++ es) =
          if (b =? DC_CHARGE) || (b =? DC_NO_CHARGE) then (true, false)
          else if b =? BATTERY then (false, true) else switches (fx s)) /\
     (exists es, on_stop l s = Ok (if (0 <=? b) && (b <=? 2) then 0 else 1, emitted es s) /\
        switches (fx s ++ es) = (false, false))).
Proof.
  intros Hc. split.
  { intros Hlen. unfold on_start, on_stop. erewrite !bind_ok by (by apply payload_length_ok).
    by destruct (Z.eqb_spec 1 (Z.of_nat (length bs))); [lia|]. }
  intros b ->. pose proof (payload_byte_ok s l [b] 0 b Hc ltac:(lia) eq_refl) as Hbyte. split.
  - unfold on_start. erewrite bind_ok by (by apply payload_length_ok). change (negb (1 =? Z.of_nat (length [b]))) with false. cbn iota.
    erewrite bind_ok by exact Hbyte. cbn zeta. unfold DC_CHARGE, DC_NO_CHARGE, BATTERY.
    destruct (Z.eqb_spec 1 b) as [<-|H1]; [by apply started_ok|].
    destruct (Z.eqb_spec 2 b) as [<-|H2]; [by apply started_ok|].
    destruct (Z.eqb_spec 0 b) as [<-|H0]; [by apply started_ok|].
    exists []. rewrite emitted_nil, app_nil_r.
    destruct (Z.eqb_spec b 1), (Z.eqb_spec b 2), (Z.eqb_spec b 0); try lia. cbn [orb].
    by destruct (Z.leb_spec 0 b), (Z.leb_spec b 2); try lia.
  - unfold on_stop. erewrite bind_ok by (by apply payload_length_ok). change (negb (1 =? Z.of_nat (length [b]))) with false. cbn iota.
    destruct (stopped_ok s) as (es & E & Hs). mrun in E. mrun. rewrite <- bind_assoc. erewrite bind_ok by exact E.
    erewrite bind_ok by (eapply payload_byte_ok; [apply command_emitted, Hc|lia|reflexivity]).
    unfold DC_CHARGE, DC_NO_CHARGE, BATTERY, fiteco_lib_gwt_battery_charge_enable, fiteco_lib_gwt_battery_charge_disable.
    assert (forall e, other e = true -> switches (fx s ++ (es ++ [e])) = (false, false)) as Hs'.
    { intros e He. rewrite app_assoc, switches_other; [done|by repeat constructor]. }
    destruct (Z.eqb_spec 1 b) as [<-|H1]; [|destruct (Z.eqb_spec 2 b) as [<-|H2]; [|destruct (Z.eqb_spec 0 b) as [<-|H0]]].
    1-3: eexists; (split; [erewrite bind_ok by apply emit_ok; rewrite emitted_twice; reflexivity|by apply Hs']).
    exists es. split; [|done]. by destruct (Z.leb_spec 0 b), (Z.leb_spec b 2); try lia.
Qed.
End alim.

(** *** Concrete instances *)

Section examples.
Import CnExample.
#[local] Existing Instance iotlab_cn_build.

Lemma alim_commands_spec_witness :
  exists es, on_start 20 (ex_node [1] (ex_radio default_config 0)) = Ok (0, emitted es (ex_node [1] (ex_radio default_config 0))) /\
    switches es = (true, false).
Proof.
  destruct (alim_commands_spec (ex_node [1] (ex_radio default_config 0)) 20 [1]) as [_ E]; [apply ex_command; cbn; lia|].
  destruct (E 1 eq_refl) as [(es & E1 & Hs) _]. exists es. split; [exact E1|exact Hs].
Defined.

(** The node after the start of the modules. *)
Definition booted : cn :=
  match main_start (ex_node [1] (ex_radio default_config 0)) with
  | Ok (_, s) => s
  | Err _ => ex_node [1] (ex_radio default_config 0)
  end.

Lemma booted_ok : main_start (ex_node [1] (ex_radio default_config 0)) = Ok (tt, booted).
Proof. unfold booted. by destruct (main_start _) as [[[] s]|e] eqn:E; [|vm_compute in E]. Qed.

Lemma exclusive_nil : exclusive [].
Proof. intros es1 es2 E. symmetry in E. apply app_nil in E as [-> _]. discriminate. Qed.

Lemma power_exclusive_witness :
  exists s, rtc node_step booted s /\ switches (fx s) <> (true, true).
Proof.
  assert (exists s, pps_handler_irq booted = Ok (tt, s)) as [s E] by (eexists; vm_compute; reflexivity).
  exists s. split; [apply rtc_once; exact (step_pps _ _ E)|].
  exact (proj2 (power_exclusive (ex_node [1] (ex_radio default_config 0)) booted s exclusive_nil booted_ok
    (rtc_once _ _ (step_pps _ _ E)))).
Defined.
End examples.
End CnPowerSpec.
