(* ===== verification/CnConsoSpec.v ===== *)
(** * What the consumption, event and time commands of the control node guarantee *)

From stdpp Require Import base numbers gmap list sorting.
From S2P Require Import Prelude Chain Packet Event SoftTime IotlabPacket IotlabTime Phy Zep IotlabSerial CnMeasPkt CnMeasFlow CnState CnRadio CnConsumption CnControl CnSpec CnExample.

Module CnConsoSpec.
Import SoftTime CnMeasFlow CnState CnConsumption CnControl CnSpec.

(** Continuations that agree where they are called. *)
Lemma bind_ext {S A B} (m : M S A) (k k' : A -> M S B) s :
  (forall a s', m s = Ok (a, s') -> k a s' = k' a s') -> (m ≫= k) s = (m ≫= k') s.
Proof. unfold mbind, M_bind. intros Hk. destruct (m s) as [[a s']|]; [by apply Hk|done]. Qed.

Section measures.
Context `{!CnEnv} {build : Build}.

(** ** Samples *)

(** The size announced for a sample is its size. *)
Definition conso_sized (c : consumption_config) : Prop :=
  measure_size c = 4 + 4 * (cbool (cc_p c) + cbool (cc_v c) + cbool (cc_c c)).

Lemma parse_fields_sized st cf rate x : conso_sized (parse_fields st cf rate x).
Proof. done. Qed.

Lemma sample_blocks_length c v i p :
  4 + Z.of_nat (length (concat (sample_blocks c v i p))) = 4 + 4 * (cbool (cc_p c) + cbool (cc_v c) + cbool (cc_c c)).
Proof. unfold sample_blocks. by destruct (cc_p c), (cc_v c), (cc_c c). Qed.

Lemma size_fits_refl n : size_fits n n.
Proof. by intros k. Qed.

(** The handler is the sequence of [CnMeasFlow] on the packet of the module. *)
Lemma consumption_handler_run v i p ticks s p' t' :
  let ts := IotlabTime.iotlab_time_extend_relative (itime s) (clock (reads s)) ticks in
  let c := cur_config (conso s) in
  measure_step measures_queue (cc_pkt c) ts (measure_size c) (sample_blocks c v i p) CONSUMPTION_FRAME (ser s) = Ok (p', t') ->
  consumption_measure_handler v i p ticks s =
    Ok (tt, set_counts (S (reads s)) (eds s) (slot_set CONSO p' (set_ser t' s))).
Proof.
  intros ts c E. unfold consumption_measure_handler. erewrite bind_ok by apply extend_relative_ok. mrun.
  set (s1 := set_counts _ _ s).
  etrans; [|exact (measure_field (PF := slot_field CONSO) _ _ _ _ _ s1 _ _ E)].
  apply bind_ext. intros packet s2 E2. mrun. destruct packet as [l|]; [|done]. mrun.
  assert (conso s2 = conso s) as Hc.
  { revert E2. unfold mzoom. destruct (CnMeasPkt.cn_meas_pkt_lazy_alloc _ _ _ _) as [[x t]|]; [|done]. by intros [= _ <-]. }
  unfold upd_conso. mrun. cn_simpl. subst c. rewrite <- Hc. done.
Qed.

(** C31: each sample of the current monitor is recorded with the time of the interrupt that
    announced it, as the quantities that the configuration asks for and no other, in
    the order power, voltage, current. It goes to the packet being filled or to a new
    one, which is kept or queued for the gateway, and is dropped only when the pool is
    empty. The samples never overflow the packet and the packets of the other
    modules are left alone. *)
Theorem consumption_sample_spec s m ticks v i p :
  let ts := IotlabTime.iotlab_time_extend_relative (itime s) (clock (reads s)) ticks in
  let c := cur_config (conso s) in
  let bs := (if cc_p c then le_bytes 4 p else []) ++ (if cc_v c then le_bytes 4 v else []) ++
            (if cc_c c then le_bytes 4 i else []) in
  packets_ok s m -> conso_sized c ->
  exists p' t m' fs s',
    consumption_measure_handler v i p ticks s = Ok (tt, s') /\ packets_ok s' m' /\
    s' = set_counts (S (reads s)) (eds s) (slot_set CONSO p' (set_ser t s)) /\
    m !! IotlabSerial.tx_fifo (ser s) = Some fs /\
    recorded (ser s) t m m' fs measures_queue (cc_pkt c) p' ts (measure_size c) bs CONSUMPTION_FRAME.
Proof.
  intros ts c bs Hok Hsz.
  assert (concat (sample_blocks c v i p) = bs) as Ebs.
  { subst bs. unfold sample_blocks. by destruct (cc_p c), (cc_v c), (cc_c c). }
  destruct (slot_measure_ok s m CONSO ts (measure_size c) (sample_blocks c v i p) Hok (extend_sec _ _ _))
    as (p' & t & m' & fs & E & Ht & _ & Hok2 & _ & Hfs & Hrec).
  { apply sample_blocks_length. }
  { rewrite Hsz. apply size_fits_refl. }
  rewrite Ebs in Hrec. exists p', t, m', fs. eexists.
  split_and!; [by apply consumption_handler_run| |done|done|exact Hrec].
  eapply packets_ok_ext; [exact Hok2|done|done|by intros []..].
Qed.

(** The pulse-per-second events are recorded in the same way, each as the value 1 and
    the source, with the time of the interrupt. *)
Theorem pps_event_spec s m ticks :
  let ts := IotlabTime.iotlab_time_extend_relative (itime s) (clock (reads s)) ticks in
  packets_ok s m ->
  exists p' t m' fs s',
    pps_handler ticks s = Ok (tt, s') /\ packets_ok s' m' /\
    s' = set_counts (S (reads s)) (eds s) (slot_set EVENT p' (set_ser t s)) /\
    m !! IotlabSerial.tx_fifo (ser s) = Some fs /\
    recorded (ser s) t m m' fs measures_queue (event_pkt s) p' ts 12 [1; 0; 0; 0; 0; 0; 0; 0] EVENT_FRAME.
Proof.
  intros ts Hok.
  destruct (slot_measure_ok s m EVENT ts 12 [le_bytes 4 1; le_bytes 4 EVENT_PPS] Hok (extend_sec _ _ _))
    as (p' & t & m' & fs & E & Ht & _ & Hok2 & _ & Hfs & Hrec); [done|apply size_fits_refl|].
  exists p', t, m', fs. eexists. split_and!; [| |done|exact Hfs|exact Hrec].
  - unfold pps_handler, event_handler. erewrite bind_ok by apply extend_relative_ok. mrun.
    exact (measure_field (PF := slot_field EVENT) _ _ _ _ _ (set_counts (S (reads s)) (eds s) s) _ _ E).
  - eapply packets_ok_ext; [exact Hok2|done|done|by intros []..].
Qed.

(** ** Acknowledgement frames *)

(** A packet of a pool filled with the bytes of an acknowledgement. *)
Lemma ack_stored t1 m x k bs :
  IotlabPacket.reps (IotlabSerial.io t1) m -> full (IotlabSerial.io t1) ->
  IotlabPacket.loose (IotlabSerial.io t1) m x ->
  Packet.data k = 3 -> length (Packet.raw_data k) = packet_size -> (length bs <= 125)%nat ->
  exists raw, arr_blit (Packet.raw_data k) 3 bs = Ok raw /\
    let k2 := Packet.mk_packet raw 3 (Z.of_nat (length bs)) (Packet.next k) in
    moved (H := cn_event) (F := cn_fn) (Some x) (Some x) t1 (IotlabSerial.upd_pkt x k2 t1) m m /\
    holding (IotlabSerial.io (IotlabSerial.upd_pkt x k2 t1)) m x bs.
Proof.
  intros Hr Hf Hlo Hd Hsz Hbs. pose proof IotlabSerial.payload_max_spec as (_ & HP & _).
  destruct (carries_blit k bs (Packet.next k) Hd Hsz) as (raw & E & Hc); [lia|].
  exists raw. split; [done|]. cbn zeta. set (k2 := Packet.mk_packet _ _ _ _) in *.
  destruct (upd_moved t1 m x k2 Hr Hf Hlo) as [Hmv Hlo2].
  { pose proof (arr_blit_length _ _ _ _ E). cbn. congruence. }
  split; [done|]. split; [done|]. exists k2. split; [apply IotlabSerial.lookup_upd_pkt|done].
Qed.

Lemma data_write_at (t : IotlabSerial.serial cn_fn cn_event) x k i b :
  IotlabPacket.cells (IotlabSerial.io t) !! x = Some k -> Packet.data k = 3 ->
  0 <= i -> 3 + i < Z.of_nat (length (Packet.raw_data k)) ->
  CnMeasPkt.data_write x i b t =
    Ok (tt, IotlabSerial.upd_pkt x (Packet.mk_packet (<[Z.to_nat (3 + i) := b]> (Packet.raw_data k)) 3
                                      (Packet.length_ k) (Packet.next k)) t).
Proof.
  intros Hk Hd Hi Hlt. unfold CnMeasPkt.data_write. erewrite bind_ok by (by apply IotlabSerial.pkt_load_ok). mrun.
  rewrite Hd, arr_set_ok by lia. by eapply IotlabSerial.pkt_store_ok.
Qed.

Lemma blit_one (l : list Z) i x : 0 <= i < Z.of_nat (length l) -> arr_blit l i [x] = Ok (<[Z.to_nat i := x]> l).
Proof. intros Hi. apply arr_set_blit; [|done]. apply arr_blit_nil. rewrite length_insert. lia. Qed.

(** The state with packet [x] taken from the pool [q] and holding [bs]. *)
Definition acked (s : cn) (m : gmap nat (list loc)) (q : nat) (x : loc) (ys : list loc) (bs : list Z)
    (t : IotlabSerial.serial cn_fn cn_event) : Prop :=
  moved None (Some x) (ser s) t m (<[q := ys]> m) /\ holding (IotlabSerial.io t) (<[q := ys]> m) x bs.

Lemma alloc_pw_ack_ok s m x ys cf :
  IotlabPacket.reps (IotlabSerial.io (ser s)) m -> full (IotlabSerial.io (ser s)) -> m !! acks_queue = Some (x :: ys) ->
  acks_queue <> IotlabSerial.tx_fifo (ser s) ->
  exists t, alloc_pw_ack_frame cf s = Ok (Some x, set_ser t s) /\ acked s m acks_queue x ys [CONFIG_CONSUMPTION; cf] t.
Proof.
  intros Hr Hf Hq Hqf. pose proof packet_size_spec as [HP1 HP2].
  destruct (alloc_moved (ser s) m acks_queue x ys Hr Hq Hqf Hf) as (t1 & k & E1 & Hmv1 & Hlo & Hk & Hd & Hl & Hsz).
  pose proof Hmv1 as (_ & Hf1 & _ & Hr1 & _).
  destruct (ack_stored t1 _ x k [CONFIG_CONSUMPTION; cf] Hr1 Hf1 Hlo Hd Hsz) as (raw & Eb & Hmv2 & Hh); [cbn; lia|].
  set (k2 := Packet.mk_packet _ _ _ _) in *. exists (IotlabSerial.upd_pkt x k2 t1).
  split; [|split; [by eapply moved_trans|exact Hh]].
  unfold alloc_pw_ack_frame. erewrite bind_ok by (apply cn_zoom_ok; exact E1). cbn iota.
  erewrite bind_ok by (apply cn_zoom_ok; eapply data_write_at; [exact Hk|done|lia|lia]).
  erewrite bind_ok.
  2:{ apply cn_zoom_ok. eapply data_write_at; [apply IotlabSerial.lookup_upd_pkt|done|lia|]. cbn. rewrite length_insert. lia. }
  erewrite bind_ok by (apply cn_zoom_ok, IotlabSerial.pkt_load_ok, IotlabSerial.lookup_upd_pkt).
  erewrite bind_ok by (apply cn_zoom_ok; eapply IotlabSerial.pkt_store_ok, IotlabSerial.lookup_upd_pkt).
  assert (raw = <[Z.to_nat (3 + 1) := cf]> (<[Z.to_nat (3 + 0) := CONFIG_CONSUMPTION]> (Packet.raw_data k))) as Eraw.
  { assert (Ok raw = Ok (<[Z.to_nat (3 + 1) := cf]> (<[Z.to_nat (3 + 0) := CONFIG_CONSUMPTION]> (Packet.raw_data k)))) as E;
      [|by injection E]. rewrite <- Eb. symmetry. symmetry. apply arr_set_blit; [|lia].
    apply (blit_one _ 4). rewrite length_insert. lia. }
  cn_simpl. cbn [Packet.raw_data Packet.data Packet.length_ Packet.next].
  rewrite !IotlabSerial.upd_pkt_twice. subst k2. by rewrite Eraw.
Qed.

(** ** The consumption command *)

Definition with_conf (x : consumption_config) (s : cn) : cn := set_conso (set_conf x (conso s)) s.

Lemma with_conf_twice x y s : with_conf x (with_conf y s) = with_conf x s.
Proof. done. Qed.

(** The effects of switching the monitor off, and of selecting a supply. *)
Definition select_fx (sel : monitor_selection) : list effect :=
  let measure input := [FxMuxEnable; FxMuxSelect input; FxInaCalibrate sel; FxInaAlertEnable; FxInaRead] in
  match sel with
  | MONITOR_OFF => [FxMuxDisable; FxInaDisable]
  | MONITOR_OPEN_3V => measure 1
  | MONITOR_OPEN_5V => measure 2
  | MONITOR_BATTERY => measure 3
  end.

Definition monitored (sel : monitor_selection) (s : cn) : cn :=
  set_fx (fx s ++ select_fx sel) (set_gwt (mk_gwt (isr_timestamp (gwt s)) true) s).

Lemma monitor_select_ok sel s : fiteco_lib_gwt_current_monitor_select sel s = Ok (tt, monitored sel s).
Proof.
  unfold fiteco_lib_gwt_current_monitor_select, emit. destruct sel; cbn zeta; mrun; unfold mmod, monitored; cn_simpl;
    by rewrite <- ?app_assoc.
Qed.

Section command.
Variables (s : cn) (m : gmap nat (list loc)) (l : loc) (st cf rate : Z).
Hypothesis Hcmd : command s l [st; cf; rate].
Abbreviation x1 := (parse_fields st cf rate (conf (conso s))).

Lemma parse_refused :
  st = START -> invalid_config cf = true -> config_consumption_measures l s = Ok (1, with_conf x1 s).
Proof using Hcmd.
  intros -> Hbad. unfold config_consumption_measures, parse_consumption_config.
  erewrite bind_ok by (by apply payload_length_ok). change (negb (3 =? Z.of_nat (length [START; cf; rate]))) with false. cbn iota.
  erewrite bind_ok; [|]. 2:{
    erewrite bind_ok by (eapply payload_byte_ok; [exact Hcmd|lia|reflexivity]).
    erewrite bind_ok by (eapply payload_byte_ok; [exact Hcmd|lia|reflexivity]).
    erewrite bind_ok by (eapply payload_byte_ok; [exact Hcmd|lia|reflexivity]).
    unfold upd_conso. mrun. rewrite Hbad. reflexivity. }
  done.
Qed.

Lemma parse_ok x ys :
  (st = START -> invalid_config cf = false) -> packets_ok s m -> m !! acks_queue = Some (x :: ys) ->
  acks_queue <> IotlabSerial.tx_fifo (ser s) ->
  exists t, acked s m acks_queue x ys [CONFIG_CONSUMPTION; cf] t /\
    parse_consumption_config l s = Ok (0, with_conf (set_cc_pkt (Some x) x1) (set_ser t s)).
Proof using Hcmd.
  intros Hgood Hok Hq Hqf. destruct Hok as [Hr Hf _ _ _ _ _].
  destruct (alloc_pw_ack_ok (with_conf x1 s) m x ys cf Hr Hf Hq Hqf) as (t & E & Hack). exists t. split; [exact Hack|].
  unfold parse_consumption_config.
  erewrite bind_ok by (eapply payload_byte_ok; [exact Hcmd|lia|reflexivity]).
  erewrite bind_ok by (eapply payload_byte_ok; [exact Hcmd|lia|reflexivity]).
  erewrite bind_ok by (eapply payload_byte_ok; [exact Hcmd|lia|reflexivity]).
  unfold upd_conso. mrun.
  assert ((st =? START) && invalid_config cf = false) as ->.
  { destruct (Z.eqb_spec st START) as [E0|]; [|done]. by rewrite Hgood. }
  erewrite bind_ok by exact E. mrun. done.
Qed.
End command.

(** The transmission queue after the packet of the module, if any, and then the
    packet [ack] are queued. *)
Definition queued_both (f : loc -> Z) (p : ptr) (ack : loc) (fs : list loc) : list loc :=
  IotlabPacket.prio_insert f ack (match p with Some l => IotlabPacket.prio_insert f l fs | None => fs end).

(** Sending the packet of slot [x] and then a packet held. *)
Lemma flush_then_send s m fs x ack type bs :
  packets_ok s m -> held s m ack bs -> m !! IotlabSerial.tx_fifo (ser s) = Some fs ->
  exists t1 t2,
    slot_flush x s = Ok (tt, slot_set x None (set_ser t1 s)) /\
    IotlabSerial.iotlab_serial_send_frame type ack t1 = Ok (0, t2) /\
    let s' := slot_set x None (set_ser t2 s) in
    let f := IotlabPacket.prio (IotlabSerial.io (ser s)) in
    (exists m', packets_ok s' m' /\ m' !! IotlabSerial.tx_fifo (ser s) = Some (queued_both f (slot_get x s) ack fs)) /\
    sent (IotlabSerial.io t2) ack type bs /\
    (forall l payload, slot_get x s = Some l -> holding (IotlabSerial.io (ser s)) m l payload ->
       sent (IotlabSerial.io t2) l (slot_type x) payload) /\
    t2 = IotlabSerial.set_io (IotlabSerial.io t2) (ser s) /\
    (IotlabPacket.exts (IotlabSerial.io t2) = IotlabPacket.exts (IotlabSerial.io (ser s))).
Proof.
  intros Hok Hheld Hfs. pose proof Hheld as [_ Hout].
  destruct (slot_flush_ok s m x Hok) as (t1 & m1 & E1 & Ht1 & Hex1 & Hok1 & Hh1 & Hfl).
  set (s1 := slot_set x None (set_ser t1 s)) in *. assert (ser s1 = t1) as Es1 by apply ser_set.
  destruct (Hh1 ack bs Hheld) as [Hack Hout1]. rewrite Es1 in Hack.
  assert (IotlabSerial.tx_fifo t1 = IotlabSerial.tx_fifo (ser s)) as Et by (by rewrite Ht1).
  set (fs1 := match slot_get x s with Some l => IotlabPacket.prio_insert (IotlabPacket.prio (IotlabSerial.io (ser s))) l fs | None => fs end).
  assert (m1 !! IotlabSerial.tx_fifo (ser s) = Some fs1) as Hfs1.
  { unfold flushed in Hfl. subst fs1. destruct (slot_get x s); [|by destruct Hfl as [_ ->]].
    destruct Hfl as [(fs' & Hfs' & ->) _]. rewrite lookup_insert_eq. congruence. }
  pose proof Hok1 as [Hr1 Hf1 _ _ _ _ _]. rewrite Es1 in Hr1, Hf1.
  destruct (send_moved t1 m1 fs1 ack bs type Hr1) as (t2 & E2 & Hmv & Hs & Hfr); [by rewrite Et|done|done|].
  pose proof Hmv as (Ht2 & _ & Hex2 & _). exists t1, t2. cbn zeta.
  assert (t2 = IotlabSerial.set_io (IotlabSerial.io t2) (ser s)) as Ht by (by rewrite Ht2 at 1; rewrite Ht1).
  split_and!; [exact E1|exact E2| |exact Hs| |exact Ht|congruence].
  - rewrite <- Es1 in Hmv. destruct (packets_passed s1 m1 (Some ack) None t2 _ Hok1 Hmv) as [Hok2 _]; rewrite Es1 in Hmv.
    { intros y l [= <-]. apply Hout1. }
    eexists. split; [subst s1; rewrite set_ser_comm in Hok2; exact Hok2|].
    fold s1. rewrite Es1, Et, lookup_insert_eq. unfold queued_both. fold fs1. do 2 f_equal. unfold IotlabPacket.prio. by rewrite Hex1.
  - intros l payload Hl Hp. unfold flushed in Hfl. rewrite Hl in Hfl. destruct Hfl as [_ Hsent].
    eapply sent_other; [by apply Hsent| |exact Hfr]. intros ->. by apply (Hout x).
Qed.

(** What starting the configuration [x] does outside. *)
Definition start_fx (x : consumption_config) : list effect :=
  if enable x then FxInaConfigure (period x) (average x) :: select_fx (power_source x) else [].

Lemma do_config_ok s m fs ack bs :
  packets_ok s m -> cc_pkt (conf (conso s)) = Some ack -> held s m ack bs ->
  m !! IotlabSerial.tx_fifo (ser s) = Some fs ->
  let f := IotlabPacket.prio (IotlabSerial.io (ser s)) in
  let old := cc_pkt (cur_config (conso s)) in
  exists s' m',
    do_config_consumption_measures s = Ok (tt, s') /\ packets_ok s' m' /\
    m' !! IotlabSerial.tx_fifo (ser s) = Some (queued_both f old ack fs) /\
    sent (IotlabSerial.io (ser s')) ack ACK_FRAME bs /\
    (forall l payload, old = Some l -> holding (IotlabSerial.io (ser s)) m l payload ->
       sent (IotlabSerial.io (ser s')) l CONSUMPTION_FRAME payload) /\
    cur_config (conso s') = set_cc_pkt None (conf (conso s)) /\ fx s' = fx s ++ start_fx (conf (conso s)) /\
    events_of s' = events_of s.
Proof.
  intros Hok Hconf Hheld Hfs f old.
  destruct (flush_then_send s m fs CONSO ack ACK_FRAME bs Hok Hheld Hfs)
    as (t1 & t2 & E1 & E2 & (m' & Hok' & Hm') & Hs & Hold & Ht & _).
  set (s2 := slot_set CONSO None (set_ser t2 s)) in *.
  set (s3 := set_conso (set_cur_config (set_cc_pkt None (conf (conso s))) (conso s2)) s2).
  assert (packets_ok s3 m') as Hok3.
  { eapply (packets_ok_none s2 _ _ CONSO); [exact Hok'|done|done|by intros []|done|by intros []]. }
  exists (set_fx (fx s ++ start_fx (conf (conso s)))
    (if enable (conf (conso s)) then set_gwt (mk_gwt (isr_timestamp (gwt s)) true) s3 else s3)), m'.
  split_and!; try done.
  - unfold do_config_consumption_measures. change flush_current_consumption_measures with (slot_flush CONSO).
    erewrite bind_ok by exact E1. mrun. change (cc_pkt (conf (conso (slot_set CONSO None (set_ser t1 s))))) with (cc_pkt (conf (conso s))).
    rewrite Hconf. erewrite bind_ok; [|apply cn_zoom_ok; rewrite ser_set; exact E2].
    rewrite set_ser_comm. change (ctrue 0) with false. cbn iota. unfold upd_conso. mrun.
    cbn [slot_set]. cn_simpl. cbn [cur_config conf set_cur_config enable set_cc_pkt period average power_source].
    unfold start_fx.
    destruct (enable (conf (conso s))) eqn:Hen; cbn [mwhen].
    + erewrite bind_ok by reflexivity. rewrite monitor_select_ok. unfold monitored. cn_simpl. by rewrite <- app_assoc.
    + subst s3 s2. unfold mret, M_ret. cbn. by rewrite app_nil_r.
  - destruct (enable (conf (conso s))); (eapply packets_ok_ext; [exact Hok3|done|done|by intros []..]).
  - destruct (enable _); done.
  - destruct (enable _); done.
  - destruct (enable _); done.
  - destruct (enable _); change (events_of (set_ser t2 s) = events_of s); by rewrite Ht.
Qed.

(** A packet queued leaves behind those of at least its priority. *)
Lemma prio_insert_behind f x y xs :
  IotlabPacket.prio_sorted f xs -> f x <= f y -> y ∈ xs -> [y; x] `sublist_of` IotlabPacket.prio_insert f x xs.
Proof.
  unfold IotlabPacket.prio_sorted. intros Hs Hxy. induction Hs as [|z zs Hs IH Hz]; [by intros ?%elem_of_nil|].
  intros Hin. cbn. apply elem_of_cons in Hin as [<-|Hin].
  - destruct (Z.gtb_spec (f x) (f y)); [lia|]. apply sublist_skip.
    assert (x ∈ IotlabPacket.prio_insert f x zs) as (b & c & E)%list_elem_of_split by (apply IotlabPacket.prio_insert_elem; auto).
    rewrite E. apply sublist_inserts_l, sublist_skip, sublist_nil_l.
  - rewrite Forall_forall in Hz. specialize (Hz y Hin). cbn in Hz.
    destruct (Z.gtb_spec (f x) (f z)); [lia|]. by apply sublist_cons, IH.
Qed.

(** Measures taken before an acknowledgement are sent before it. *)
Lemma queued_both_before f l ack fs :
  IotlabPacket.prio_sorted f fs -> f ack <= f l -> [l; ack] `sublist_of` queued_both f (Some l) ack fs.
Proof.
  intros Hs Hp. apply prio_insert_behind; [by apply IotlabPacket.prio_insert_sorted|done|].
  apply IotlabPacket.prio_insert_elem. auto.
Qed.

(** From the command to the start of the event it posts. *)
Lemma consumption_command_ok s m l st cf rate ack ys :
  let x := parse_fields st cf rate (conf (conso s)) in
  command s l [st; cf; rate] -> (st = START -> invalid_config cf = false) ->
  packets_ok s m -> m !! acks_queue = Some (ack :: ys) -> acks_queue <> IotlabSerial.tx_fifo (ser s) ->
  events_of s = Some [] -> (0 < EVENT_QUEUE_LENGTH)%nat ->
  exists s1 s1' t,
    config_consumption_measures l s = Ok (0, s1) /\
    (forall s', do_config_consumption_measures s1' = Ok (tt, s') ->
       Event.event_task run_event Event.EVENT_QUEUE_APPLI 1 s1 =
         Ok ([Event.mk_entry (IotlabSerial.Other EV_DO_CONFIG_CONSUMPTION) 0], s')) /\
    acked s m acks_queue ack ys [CONFIG_CONSUMPTION; cf] t /\
    packets_ok s1' (<[acks_queue := ys]> m) /\ held s1' (<[acks_queue := ys]> m) ack [CONFIG_CONSUMPTION; cf] /\
    events_of s1' = Some [] /\
    IotlabSerial.io (ser s1') = IotlabSerial.io t /\ IotlabSerial.tx_fifo (ser s1') = IotlabSerial.tx_fifo (ser s) /\
    conf (conso s1') = set_cc_pkt (Some ack) x /\ cc_pkt (cur_config (conso s1')) = cc_pkt (cur_config (conso s)) /\
    fx s1' = fx s ++ select_fx MONITOR_OFF.
Proof.
  intros x Hcmd Hgood Hok Hq Hqf Hes Hlen.
  destruct (parse_ok s m l st cf rate Hcmd ack ys Hgood Hok Hq Hqf) as (t & Hack & Ep). pose proof Hack as [Hmv Hhold].
  destruct (packets_passed s m None (Some ack) t _ Hok Hmv) as (Hok1 & _ & Hout); [done|].
  pose proof Hmv as (Ht & _).
  set (s0 := monitored MONITOR_OFF (with_conf (set_cc_pkt (Some ack) x) (set_ser t s))).
  set (s1 := queue_events [EV_DO_CONFIG_CONSUMPTION] s0).
  assert (events_of s0 = Some []) as Hes0 by (rewrite <- Hes; exact (f_equal (λ t, events_of (set_ser t s)) Ht)).
  assert (events_of s1 = Some [Event.mk_entry (IotlabSerial.Other EV_DO_CONFIG_CONSUMPTION) 0]) as Hes1.
  { subst s1. by rewrite events_of_queue, Hes0. }
  destruct (task_turn s1 _ _ Hes1) as (s1' & (Hs1' & Hes1') & T).
  assert (IotlabSerial.tx_fifo t = IotlabSerial.tx_fifo (ser s)) as Et by (by rewrite Ht).
  assert (forall y, slot_get y s1' = slot_get y (set_ser t s)) as Hget by (rewrite Hs1'; by intros []).
  exists s1, s1', t. split_and!; [| |exact Hack| | |exact Hes1'|by rewrite Hs1'|rewrite Hs1'; exact Et|by rewrite Hs1'..].
  - unfold config_consumption_measures. erewrite bind_ok by (by apply payload_length_ok).
    change (negb (3 =? Z.of_nat (length [st; cf; rate]))) with false. cbn iota.
    erewrite bind_ok by exact Ep. change (ctrue 0) with false. cbn iota.
    erewrite bind_ok by apply monitor_select_ok. by erewrite bind_ok by (apply cn_post_ok; exists []; split; [exact Hes0|cbn; lia]).
  - intros s' E. cbn [Event.event_task]. by erewrite bind_ok by exact (T _ E).
  - eapply packets_ok_ext; [exact Hok1|by rewrite Hs1'|by rewrite Hs1'|exact Hget|rewrite Hs1'; by intros []].
  - split; [rewrite Hs1'; exact Hhold|]. intros y. rewrite Hget. by apply Hout.
Qed.

(** C9: a valid consumption command takes effect, and the gateway can tell which measures
    belong to which configuration. The command stops the monitor, and the event it
    posts hands over the packet being filled and then a frame that repeats the
    configuration, in this order on the serial link unless the frame has the higher
    priority; the new configuration is then in force, with no packet, and the monitor
    runs if it asks for it. *)
Theorem consumption_config_spec s m fs l st cf rate ack ys :
  let x := parse_fields st cf rate (conf (conso s)) in
  let old := cc_pkt (cur_config (conso s)) in
  let f := IotlabPacket.prio (IotlabSerial.io (ser s)) in
  command s l [st; cf; rate] -> (st = START -> invalid_config cf = false) ->
  packets_ok s m -> m !! IotlabSerial.tx_fifo (ser s) = Some fs -> m !! acks_queue = Some (ack :: ys) ->
  acks_queue <> IotlabSerial.tx_fifo (ser s) -> events_of s = Some [] -> (0 < EVENT_QUEUE_LENGTH)%nat ->
  exists s1 s2 m2 fs2,
    config_consumption_measures l s = Ok (0, s1) /\
    Event.event_task run_event Event.EVENT_QUEUE_APPLI 1 s1 =
      Ok ([Event.mk_entry (IotlabSerial.Other EV_DO_CONFIG_CONSUMPTION) 0], s2) /\
    events_of s2 = Some [] /\ packets_ok s2 m2 /\
    m2 !! IotlabSerial.tx_fifo (ser s) = Some fs2 /\
    sent (IotlabSerial.io (ser s2)) ack ACK_FRAME [CONFIG_CONSUMPTION; cf] /\
    (forall p payload, old = Some p -> holding (IotlabSerial.io (ser s)) m p payload ->
       sent (IotlabSerial.io (ser s2)) p CONSUMPTION_FRAME payload /\
       (IotlabPacket.prio_sorted f fs -> f ack <= f p -> [p; ack] `sublist_of` fs2)) /\
    cur_config (conso s2) = set_cc_pkt None x /\ conso_sized (cur_config (conso s2)) /\
    fx s2 = fx s ++ select_fx MONITOR_OFF ++ start_fx x.
Proof.
  intros x old f Hcmd Hgood Hok Hfs Hq Hneq Hes Hlen.
  destruct (consumption_command_ok s m l st cf rate ack ys Hcmd Hgood Hok Hq Hneq Hes Hlen)
    as (s1 & s1' & t & E1 & T & [Hmv Hhold] & Hok1 & Hheld & Hes1 & Eio & Efi & Econf & Eold & Efx).
  pose proof Hmv as (_ & _ & Hex & _ & _ & Hkeep & _).
  assert (IotlabPacket.prio (IotlabSerial.io (ser s1')) = f) as Ef by (subst f; unfold IotlabPacket.prio; by rewrite Eio, Hex).
  assert (cc_pkt (conf (conso s1')) = Some ack) as Hcc by (by rewrite Econf).
  destruct (do_config_ok s1' _ fs ack _ Hok1 Hcc Hheld)
    as (s2 & m2 & E2 & Hok2 & Hm2 & Hs2 & Hold2 & Hcur & Hfx & Hev).
  { by rewrite Efi, lookup_insert_ne. }
  rewrite Ef, Eold, Efi in Hm2. fold old in Hm2.
  exists s1, s2, m2, (queued_both f old ack fs). split_and!; try done.
  - by apply T.
  - by rewrite Hev.
  - intros p payload Hp Hh. split.
    + apply Hold2; [by rewrite Eold|]. rewrite Eio. by apply Hkeep.
    + intros Hsort Hpr. rewrite Hp. by apply queued_both_before.
  - by rewrite Hcur, Econf.
  - rewrite Hcur, Econf. done.
  - rewrite Hfx, Efx, Econf, <- app_assoc. done.
Qed.
End measures.

(** *** Concrete instances *)

Section examples.
Import CnExample.
#[local] Existing Instance iotlab_cn_build.

Lemma consumption_sample_spec_witness :
  exists s', consumption_measure_handler 3 2 6 5000000 (ex_node [] (ex_radio CnRadio.default_config 0)) = Ok (tt, s') /\
    exists m', packets_ok s' m'.
Proof.
  destruct (consumption_sample_spec (ex_node [] (ex_radio CnRadio.default_config 0)) ex_contents 5000000 3 2 6)
    as (p & t & m' & fs & s' & E & Hok & _); [apply ex_packets; [reflexivity|cbn; lia]|reflexivity|].
  exists s'. split; [exact E|]. exists m'. exact Hok.
Defined.

Lemma pps_event_spec_witness :
  exists s', pps_handler 5000000 (ex_node [] (ex_radio CnRadio.default_config 0)) = Ok (tt, s') /\ exists m', packets_ok s' m'.
Proof.
  destruct (pps_event_spec (ex_node [] (ex_radio CnRadio.default_config 0)) ex_contents 5000000)
    as (p & t & m' & fs & s' & E & Hok & _); [apply ex_packets; [reflexivity|cbn; lia]|].
  exists s'. split; [exact E|]. exists m'. exact Hok.
Defined.

(** Voltage and current on the 5 V supply: the measures of packet 21 leave before the
    acknowledgement, packet 13. *)
Lemma consumption_config_spec_witness :
  exists s1 s2 fs2, config_consumption_measures 20 (ex_node [1; 0x26; 0x54] (ex_radio CnRadio.default_config 0)) = Ok (0, s1) /\
    Event.event_task run_event Event.EVENT_QUEUE_APPLI 1 s1 =
      Ok ([Event.mk_entry (IotlabSerial.Other EV_DO_CONFIG_CONSUMPTION) 0], s2) /\
    [21%nat; 13%nat] `sublist_of` fs2 /\ power_source (cur_config (conso s2)) = MONITOR_OPEN_5V.
Proof.
  destruct (consumption_config_spec (ex_node [1; 0x26; 0x54] (ex_radio CnRadio.default_config 0)) ex_contents [] 20
    1 0x26 0x54 13 []) as (s1 & s2 & m2 & fs2 & E1 & E2 & _ & _ & _ & _ & Hord & Hcur & _);
    [apply ex_command; cbn; lia|reflexivity|apply ex_packets; [reflexivity|cbn; lia]|reflexivity|reflexivity|discriminate
    |reflexivity|cbn; lia|].
  exists s1, s2, fs2. split; [exact E1|]. split; [exact E2|]. split.
  - destruct (Hord 21%nat measures eq_refl) as [_ Hb].
    + split; [apply ex_loose; right; reflexivity|]. exists (filled measures). split; [reflexivity|].
      apply filled_carries. vm_compute. lia.
    + apply Hb; [constructor|vm_compute; discriminate].
  - rewrite Hcur. reflexivity.
Defined.
End examples.
End CnConsoSpec.
