(* ===== verification/CnTimeSpec.v ===== *)
(** * What the time command of the control node guarantees

    The command that sets the unix time first hands over the measures dated with the
    old time, then acknowledges, then changes the time reference. *)

From stdpp Require Import base numbers gmap list sorting.
From S2P Require Import Prelude Chain Packet Event SoftTime IotlabPacket IotlabTime Phy Zep IotlabSerial CnMeasPkt CnMeasFlow CnState CnRadio CnConsumption CnControl CnSpec CnExample CnConsoSpec.

Module CnTimeSpec.
Import SoftTime CnMeasFlow CnState CnRadio CnConsumption CnControl CnSpec CnConsoSpec IotlabPacket IotlabSerial.

Section time.
Context `{!CnEnv} {build : Build}.

Fixpoint flush_all (xs : list slot) : CM unit :=
  match xs with [] => mret tt | x :: xs => slot_flush x ;; flush_all xs end.

(** Only packets move. *)
Definition only_packets (s s' : cn) : Prop :=
  ser s' = set_io (io (ser s')) (ser s) /\ exts (io (ser s')) = exts (io (ser s)) /\
  itime s' = itime s /\ control s' = control s /\ fx s' = fx s /\ reads s' = reads s /\ eds s' = eds s.

Lemma only_packets_trans s1 s2 s3 : only_packets s1 s2 -> only_packets s2 s3 -> only_packets s1 s3.
Proof.
  intros (A1 & A2 & A3 & A4 & A5 & A6 & A7) (B1 & B2 & B3 & B4 & B5 & B6 & B7). split_and!; try congruence.
  rewrite B1 at 1. by rewrite A1.
Qed.

(** Sending the packet of one module: the facts that accumulate. *)
Definition handed (xs : list slot) (s s' : cn) (m m' : gmap nat (list loc)) (fs fs' : list loc) : Prop :=
  only_packets s s' /\ m' !! tx_fifo (ser s) = Some fs' /\ fs `sublist_of` fs' /\
  (prio_sorted (prio (io (ser s))) fs -> prio_sorted (prio (io (ser s))) fs') /\
  (forall y type payload, y ∈ fs -> sent (io (ser s)) y type payload -> sent (io (ser s')) y type payload) /\
  (forall l payload, held s m l payload -> held s' m' l payload) /\
  (forall x, x ∉ xs -> slot_get x s' = slot_get x s) /\ (forall x, x ∈ xs -> slot_get x s' = None) /\
  (forall x l payload, x ∉ xs -> slot_get x s = Some l -> holding (io (ser s)) m l payload -> holding (io (ser s')) m' l payload) /\
  (forall x l payload, x ∈ xs -> slot_get x s = Some l -> holding (io (ser s)) m l payload ->
     l ∈ fs' /\ sent (io (ser s')) l (slot_type x) payload).

Lemma flush_one x s m fs :
  packets_ok s m -> m !! tx_fifo (ser s) = Some fs ->
  exists s' m' fs', slot_flush x s = Ok (tt, s') /\ packets_ok s' m' /\ handed [x] s s' m m' fs fs'.
Proof.
  intros Hok Hfs. destruct (slot_flush_moved s m x Hok) as (t & m1 & E1 & Hmv & Hfl).
  destruct (packets_moved s m x None t m1 Hok Hmv I) as [Hok1 Hheld1].
  set (s1 := slot_set x None (set_ser t s)) in *. assert (ser s1 = t) as Es1 by apply ser_set.
  pose proof Hmv as (Ht & _ & Hex & _ & _ & Hkeep & Hfifo). destruct (Hfifo fs Hfs) as (fs1 & Hfs1 & Hsub1 & Hsent1).
  exists s1, m1, fs1. split_and!; [exact E1|exact Hok1|]. unfold handed. rewrite Es1.
  assert (forall y, y ∉ [x] -> x <> y) as Hnin by (intros y Hy ->; apply Hy; by left).
  split_and!; try done.
  - unfold only_packets. rewrite Es1. by destruct x.
  - unfold flushed in Hfl. destruct (slot_get x s) as [l|].
    + destruct Hfl as [(fs' & Hfs' & ->) _]. rewrite lookup_insert_eq in Hfs1.
      assert (fs' = fs) as -> by congruence. injection Hfs1 as <-. apply prio_insert_sorted.
    + destruct Hfl as [_ ->]. by assert (fs1 = fs) as -> by congruence.
  - intros y Hy%Hnin. unfold s1. rewrite slot_get_other by done. apply get_set_ser.
  - intros y ->%list_elem_of_singleton. apply get_set.
  - intros y l payload Hy%Hnin Hl Hh. apply Hkeep; [done|]. intros E. destruct Hok as [_ _ _ _ _ _ Ha]. by apply (Ha y x l).
  - intros y l payload ->%list_elem_of_singleton Hl Hh. unfold flushed in Hfl. rewrite Hl in Hfl.
    destruct Hfl as [(fs' & Hfs' & ->) Hs]. rewrite lookup_insert_eq in Hfs1. injection Hfs1 as <-.
    split; [apply prio_insert_elem; by left|by apply Hs].
Qed.

Lemma handed_trans xs ys s1 s2 s3 m1 m2 m3 fs1 fs2 fs3 :
  handed xs s1 s2 m1 m2 fs1 fs2 -> handed ys s2 s3 m2 m3 fs2 fs3 -> handed (xs ++ ys) s1 s3 m1 m3 fs1 fs3.
Proof.
  intros (A1 & A2 & A3 & A4 & A5 & A6 & A7 & A8 & A9 & A10) (B1 & B2 & B3 & B4 & B5 & B6 & B7 & B8 & B9 & B10).
  pose proof A1 as (C1 & C2 & _).
  assert (tx_fifo (ser s2) = tx_fifo (ser s1)) as Et by (by rewrite C1).
  assert (prio (io (ser s2)) = prio (io (ser s1))) as Ep by (unfold prio; by rewrite C2).
  rewrite Et, Ep in *. split_and!.
  - by eapply only_packets_trans.
  - done.
  - by etrans.
  - auto.
  - intros y type payload Hy Hs. apply B5; [by eapply elem_of_sublist|by apply A5].
  - auto.
  - intros x [H1 H2]%not_elem_of_app. by rewrite B7, A7.
  - intros x Hx. destruct (decide (x ∈ ys)) as [Hy|Hy]; [by apply B8|]. rewrite B7 by done.
    apply A8. apply elem_of_app in Hx. tauto.
  - intros x l payload [H1 H2]%not_elem_of_app Hl Hh. apply (B9 x); [done|by rewrite A7|by apply (A9 x)].
  - intros x l payload Hx Hl Hh. destruct (decide (x ∈ xs)) as [Hin|Hnin].
    + destruct (A10 x l payload Hin Hl Hh) as [Hl2 Hs2]. split; [by eapply elem_of_sublist|by apply B5].
    + apply B10; [apply elem_of_app in Hx; tauto|by rewrite A7|by apply (A9 x)].
Qed.

Lemma flush_all_ok xs : forall s m fs,
  packets_ok s m -> m !! tx_fifo (ser s) = Some fs ->
  exists s' m' fs', flush_all xs s = Ok (tt, s') /\ packets_ok s' m' /\ handed xs s s' m m' fs fs'.
Proof.
  induction xs as [|x xs IH]; intros s m fs Hok Hfs.
  { exists s, m, fs. split_and!; [done|done|]. split_and!; try done; [by destruct s as [[]]| |];
      intros x; intros; by exfalso; eapply elem_of_nil. }
  cbn [flush_all]. destruct (flush_one x s m fs Hok Hfs) as (s1 & m1 & fs1 & E1 & Hok1 & Hh1).
  pose proof Hh1 as ((Hser & _) & Hfs1 & _).
  destruct (IH s1 m1 fs1 Hok1) as (s2 & m2 & fs2 & E2 & Hok2 & Hh2); [by rewrite Hser|].
  exists s2, m2, fs2. split_and!; [by erewrite bind_ok by exact E1|done|]. exact (handed_trans [x] xs _ _ _ _ _ _ _ _ _ Hh1 Hh2).
Qed.

(** ** The command *)

Lemma set_time_ack_ok s m x ys :
  reps (io (ser s)) m -> full (io (ser s)) -> m !! control_acks_queue = Some (x :: ys) ->
  control_acks_queue <> tx_fifo (ser s) ->
  exists t1 t, acked s m control_acks_queue x ys [SET_TIME] t /\
    mzoom (iotlab_serial_packet_alloc control_acks_queue) s = Ok (Some x, set_ser t1 s) /\
    forall B (kont : CM B),
      (mzoom (CnMeasPkt.data_write x 0 SET_TIME) ;;
       k ← mzoom (pkt_load x);
       mzoom (pkt_store x (Packet.mk_packet (Packet.raw_data k) (Packet.data k) 1 (Packet.next k))) ;;
       kont) (set_ser t1 s) = kont (set_ser t s).
Proof.
  intros Hr Hf Hq Hqf. pose proof packet_size_spec as [HP1 HP2].
  destruct (alloc_moved (ser s) m _ x ys Hr Hq Hqf Hf) as (t1 & k & E1 & Hmv1 & Hlo & Hk & Hd & Hl & Hsz).
  pose proof Hmv1 as (_ & Hf1 & _ & Hr1 & _).
  destruct (ack_stored t1 _ x k [SET_TIME] Hr1 Hf1 Hlo Hd Hsz) as (raw & Eb & Hmv2 & Hh); [cbn; lia|].
  rewrite (blit_one _ 3) in Eb by lia. injection Eb as <-.
  eexists t1, _. split_and!; [split; [by eapply moved_trans|exact Hh]|by apply cn_zoom_ok|]. intros B kont.
  erewrite bind_ok by (apply cn_zoom_ok; eapply data_write_at; [exact Hk|done|lia|lia]).
  erewrite bind_ok by (apply cn_zoom_ok, pkt_load_ok, lookup_upd_pkt).
  erewrite bind_ok by (apply cn_zoom_ok; eapply pkt_store_ok, lookup_upd_pkt). cn_simpl.
  cbn [Packet.raw_data Packet.data Packet.length_ Packet.next]. by rewrite !upd_pkt_twice.
Qed.

(** The state from the command on: identifier of the node, time asked for, time of
    reception. *)
Definition with_time (e : iotlab_ext) (bs : list Z) (s : cn) : cn :=
  set_control (mk_control (node_id (control s))
    (mk_timeval (le_value (list.take 4 bs)) (le_value (list.take 4 (drop 4 bs)))) (timestamp e)) s.

Lemma set_time_ok s m l bs e ack ys :
  command s l bs -> length bs = 8%nat -> exts (io (ser s)) !! l = Some e -> packets_ok s m ->
  m !! control_acks_queue = Some (ack :: ys) -> control_acks_queue <> tx_fifo (ser s) -> event_room 1 s ->
  exists t, acked s m control_acks_queue ack ys [SET_TIME] t /\
    set_time l s = Ok (0, queue_events [EV_DO_SET_TIME ack] (with_time e bs (set_ser t s))).
Proof.
  intros Hc Hlen He [Hr Hf _ _ _ _ _] Hq Hqf Hroom.
  destruct (set_time_ack_ok (with_time e bs s) m ack ys Hr Hf Hq Hqf) as (t1 & t & Hack & E1 & E2).
  exists t. split; [exact Hack|]. unfold set_time. erewrite bind_ok by (by apply payload_length_ok). rewrite Hlen.
  change (negb (8 =? Z.of_nat 8)) with false. cbn iota.
  assert (mzoom (mzoom (T := iot) (ext_load l)) s = Ok (e, s)) as Ee.
  { erewrite cn_zoom_ok by (apply (zoom_ok (S := serial cn_fn cn_event)), ext_load_ok; exact He).
    rewrite over_view. by destruct s. }
  erewrite bind_ok by exact Ee. unfold upd_control. mrun.
  erewrite bind_ok by (eapply (payload_read_ok _ _ bs); [exact Hc|lia|lia]).
  erewrite bind_ok by (eapply (payload_read_ok _ _ bs); [exact Hc|lia|lia]).
  rewrite bind_mod. match goal with |- _ ?s1 = _ => change s1 with (with_time e bs s) end.
  erewrite bind_ok by exact E1. cbn iota. etrans; [apply E2|].
  erewrite bind_ok; [|apply cn_post_ok; destruct Hroom as (es & Hes & Hn); exists es; split; [|exact Hn]].
  - done.
  - rewrite <- Hes. destruct Hack as [(Ht & _) _]. exact (f_equal (λ t, events_of (set_ser t s)) Ht).
Qed.

(** ** The event *)

(** The modules whose measures are handed over. *)
Definition dated : list slot := if IOTLAB_CN then [CONSO; RADIO; EVENT] else [RADIO; EVENT].

Lemma do_set_time_flush ack s :
  do_set_time ack s =
    (flush_all dated ;;
     r ← mzoom (iotlab_serial_send_frame ACK_FRAME ack);
     if ctrue r then mzoom (mzoom (T := iot) (iotlab_packet_call_free ack))
     else
       now64 ← CnState.soft_timer_time_64;
       mmod (λ s, set_itime (IotlabTime.iotlab_time_set_time (t0 (control s)) (unix_time (control s)) now64 (itime s)) s)) s.
Proof.
  unfold do_set_time, dated. change flush_current_consumption_measures with (slot_flush CONSO).
  change flush_current_rssi_measures with (slot_flush RADIO). change flush_current_event with (slot_flush EVENT).
  destruct IOTLAB_CN; cbn [flush_all mwhen]; mrun; repeat (apply bind_ext; intros ? ? _; mrun); done.
Qed.

Lemma do_set_time_ok s m fs ack :
  packets_ok s m -> held s m ack [SET_TIME] -> m !! tx_fifo (ser s) = Some fs ->
  let f := prio (io (ser s)) in
  exists s' m' fs',
    do_set_time ack s = Ok (tt, s') /\ packets_ok s' m' /\ m' !! tx_fifo (ser s) = Some fs' /\
    sent (io (ser s')) ack ACK_FRAME [SET_TIME] /\
    (forall x, x ∈ dated -> slot_get x s' = None) /\
    (forall x l payload, x ∈ dated -> slot_get x s = Some l -> holding (io (ser s)) m l payload ->
       sent (io (ser s')) l (slot_type x) payload /\ l ∈ fs' /\
       (prio_sorted f fs -> f ack <= f l -> [l; ack] `sublist_of` fs')) /\
    itime s' = IotlabTime.iotlab_time_set_time (t0 (control s)) (unix_time (control s)) (clock (reads s)) (itime s) /\
    events_of s' = events_of s /\ fx s' = fx s.
Proof.
  intros Hok Hheld Hfs f.
  destruct (flush_all_ok dated s m fs Hok Hfs) as (s1 & m1 & fs1 & E1 & Hok1 & Hh1).
  destruct Hh1 as ((O1 & O2 & O3 & O4 & O5 & O6 & O7) & Hfs1 & Hsub1 & Hsort & _ & Hheld1 & _ & Hnone & _ & Hgot).
  destruct (Hheld1 ack _ Hheld) as [Hack Hout]. pose proof Hok1 as [Hr1 Hf1 _ _ _ _ _].
  assert (tx_fifo (ser s1) = tx_fifo (ser s)) as Et by (by rewrite O1).
  assert (prio (io (ser s1)) = f) as Ep by (unfold f, prio; by rewrite O2).
  destruct (send_moved (ser s1) m1 fs1 ack [SET_TIME] ACK_FRAME Hr1) as (t2 & E2 & Hmv & Hs & _); [by rewrite Et|done|done|].
  destruct (packets_passed s1 m1 (Some ack) None t2 _ Hok1 Hmv) as [Hok2 _].
  { intros y l [= <-]. apply Hout. }
  pose proof Hmv as (Ht2 & _ & _ & _ & _ & _ & Hfifo). destruct (Hfifo fs1) as (fs2 & Hfs2 & Hsub2 & Hkeep); [by rewrite Et|].
  rewrite Et, Ep in *. rewrite lookup_insert_eq in Hfs2. injection Hfs2 as Efs2.
  exists (set_itime (IotlabTime.iotlab_time_set_time (t0 (control s1)) (unix_time (control s1)) (clock (reads s1)) (itime s1))
    (set_counts (S (reads s1)) (eds s1) (set_ser t2 s1))), (<[tx_fifo (ser s) := prio_insert f ack fs1]> m1), fs2.
  split_and!; [| |by rewrite lookup_insert_eq, Efs2|exact Hs| | | | |].
  - rewrite do_set_time_flush. erewrite bind_ok by exact E1. erewrite bind_ok by (apply cn_zoom_ok; exact E2).
    change (ctrue 0) with false. cbn iota. reflexivity.
  - eapply packets_ok_ext; [exact Hok2|done|done|by intros []..].
  - intros x Hx. etrans; [|exact (Hnone x Hx)]. by destruct x.
  - intros x l payload Hx Hl Hh. destruct (Hgot x l payload Hx Hl Hh) as [Hin Hsent]. split_and!.
    + by apply Hkeep.
    + by eapply elem_of_sublist.
    + intros Hs1 Hp. rewrite <- Efs2. apply prio_insert_behind; [by apply Hsort|done|done].
  - cbn. by rewrite O3, O4, O6.
  - change (events_of (set_ser t2 s1) = events_of s). rewrite Ht2. change (events_of s1 = events_of s).
    unfold events_of. by rewrite O1.
  - done.
Qed.

Lemma word_range bs : bytes_ok bs -> is_u32 (le_value (list.take 4 bs)).
Proof.
  intros Hb. assert (bytes_ok (list.take 4 bs)) as Hb4 by (by apply Forall_take). pose proof (le_value_range _ Hb4) as Hr.
  assert (256 ^ Z.of_nat (length (list.take 4 bs)) <= 256 ^ 4); [|lia]. apply Z.pow_le_mono_r; [lia|].
  rewrite length_take. lia.
Qed.

(** From the command to the start of the event it posts. *)
Lemma set_time_command_ok s m l bs e ack ys :
  command s l bs -> length bs = 8%nat -> exts (io (ser s)) !! l = Some e -> packets_ok s m ->
  m !! control_acks_queue = Some (ack :: ys) -> control_acks_queue <> tx_fifo (ser s) ->
  events_of s = Some [] -> (0 < EVENT_QUEUE_LENGTH)%nat ->
  let m1 := <[control_acks_queue := ys]> m in
  exists s1 s1' t,
    set_time l s = Ok (0, s1) /\
    (forall s', do_set_time ack s1' = Ok (tt, s') ->
       Event.event_task run_event Event.EVENT_QUEUE_APPLI 1 s1 = Ok ([Event.mk_entry (Other (EV_DO_SET_TIME ack)) 0], s')) /\
    acked s m control_acks_queue ack ys [SET_TIME] t /\
    packets_ok s1' m1 /\ held s1' m1 ack [SET_TIME] /\ events_of s1' = Some [] /\
    io (ser s1') = io t /\ tx_fifo (ser s1') = tx_fifo (ser s) /\ (forall x, slot_get x s1' = slot_get x s) /\
    control s1' = control (with_time e bs s) /\ reads s1' = reads s /\ itime s1' = itime s.
Proof.
  intros Hc Hlen He Hok Hq Hqf Hes Heq m1.
  destruct (set_time_ok s m l bs e ack ys Hc Hlen He Hok Hq Hqf) as (t & Hack & E1).
  { exists []. split; [done|cbn; lia]. }
  pose proof Hack as [Hmv Hhold]. destruct (packets_passed s m None (Some ack) t _ Hok Hmv) as (Hok1 & _ & Hout); [done|].
  pose proof Hmv as (Ht & _). set (s0 := with_time e bs (set_ser t s)) in *. set (s1 := queue_events _ s0) in *.
  assert (events_of s0 = Some []) as Hes0 by (rewrite <- Hes; exact (f_equal (λ t, events_of (set_ser t s)) Ht)).
  assert (events_of s1 = Some [Event.mk_entry (Other (EV_DO_SET_TIME ack)) 0]) as Hes1.
  { subst s1. by rewrite events_of_queue, Hes0. }
  destruct (task_turn s1 _ _ Hes1) as (s1' & (Hs1' & Hes1') & T).
  assert (tx_fifo t = tx_fifo (ser s)) as Et by (by rewrite Ht).
  assert (forall y, slot_get y s1' = slot_get y (set_ser t s)) as Hget by (rewrite Hs1'; by intros []).
  exists s1, s1', t. split_and!; [exact E1| |exact Hack| | |exact Hes1'|by rewrite Hs1'|rewrite Hs1'; exact Et| |by rewrite Hs1'..].
  - intros s' E. cbn [Event.event_task]. by erewrite bind_ok by exact (T _ E).
  - eapply packets_ok_ext; [exact Hok1|by rewrite Hs1'|by rewrite Hs1'|exact Hget|rewrite Hs1'; by intros []].
  - split; [rewrite Hs1'; exact Hhold|]. intros y. rewrite Hget. by apply Hout.
  - intros y. rewrite Hget. apply get_set_ser.
Qed.

(** C13: setting the time. After the command and its event, every tick counted from then on
    converts to the unix time of the command plus the time elapsed since the command
    was received, to the microsecond, even if the event ran later; the measures
    gathered before were handed over first, dated with the old reference, and leave
    before the acknowledgement if their queue is in order and its priority is not above
    theirs (all priorities are 0 in the program). *)
Theorem set_time_spec s m fs l bs e ev ack ys :
  let ref := mk_timeval (le_value (list.take 4 bs)) (le_value (list.take 4 (drop 4 bs))) in
  let f := prio (io (ser s)) in
  let now := clock (reads s) in
  command s l bs -> length bs = 8%nat -> bytes_ok bs -> tv_usec ref < 1000000 ->
  exts (io (ser s)) !! l = Some e -> timestamp e = u32 ev -> is_u64 now -> 0 <= ev <= now -> now - ev < 2147483648 ->
  packets_ok s m -> m !! tx_fifo (ser s) = Some fs ->
  m !! control_acks_queue = Some (ack :: ys) -> control_acks_queue <> tx_fifo (ser s) ->
  events_of s = Some [] -> (0 < EVENT_QUEUE_LENGTH)%nat ->
  exists s1 s2 m2 fs2,
    set_time l s = Ok (0, s1) /\
    Event.event_task run_event Event.EVENT_QUEUE_APPLI 1 s1 = Ok ([Event.mk_entry (Other (EV_DO_SET_TIME ack)) 0], s2) /\
    events_of s2 = Some [] /\ packets_ok s2 m2 /\ m2 !! tx_fifo (ser s) = Some fs2 /\
    sent (io (ser s2)) ack ACK_FRAME [SET_TIME] /\
    (forall x p payload, x ∈ dated -> slot_get x s = Some p -> holding (io (ser s)) m p payload ->
       slot_get x s2 = None /\ sent (io (ser s2)) p (slot_type x) payload /\
       (prio_sorted f fs -> f ack <= f p -> [p; ack] `sublist_of` fs2)) /\
    (forall t, now < t -> is_u64 t -> t - ev <= IotlabTime.MAX_TICKS ->
       tv_sec ref + (t - ev) * 1000 / IotlabTime.SOFT_TIMER_KFREQUENCY_FIX < 4294967295 ->
       IotlabTime.total_us (IotlabTime.iotlab_time_convert (itime s2) t) =
         IotlabTime.ticks_us (t - ev) IotlabTime.SOFT_TIMER_KFREQUENCY_FIX + IotlabTime.total_us ref).
Proof.
  intros ref f now Hc Hlen Hbytes Hus He Hev Hn64 Hev2 Hd Hok Hfs Hq Hqf Hes Heq.
  destruct (set_time_command_ok s m l bs e ack ys Hc Hlen He Hok Hq Hqf Hes Heq)
    as (s1 & s1' & t & E1 & T & [Hmv _] & Hok1 & Hheld & Hes1 & Eio & Efi & Eget & Ectl & Erd & Eit).
  pose proof Hmv as (_ & _ & Hex & _ & _ & Hkeep & _).
  assert (prio (io (ser s1')) = f) as Ef by (subst f; unfold prio; by rewrite Eio, Hex).
  destruct (do_set_time_ok s1' _ fs ack Hok1 Hheld) as (s2 & m2 & fs2 & E2 & Hok2 & Hfs2 & Hs2 & Hnone & Hgot & Hit & Hev' & _).
  { by rewrite Efi, lookup_insert_ne. }
  rewrite Efi in Hfs2. exists s1, s2, m2, fs2. split_and!; [done|by apply T|by rewrite Hev'|done|done|done| |].
  - intros x p payload Hx Hp Hh. split; [by apply Hnone|].
    destruct (Hgot x p payload Hx) as (G1 & G2 & G3); [by rewrite Eget|rewrite Eio; by apply Hkeep|]. rewrite Ef in G3. done.
  - intros tk H1 H2 H3 H4. rewrite Hit, Ectl, Erd, Eit. cbn [with_time control set_control t0 unix_time]. rewrite Hev.
    assert (0 <= le_value (list.take 4 (drop 4 bs))) by (apply word_range; by apply Forall_drop).
    apply IotlabTime.set_time_later; try done. by apply word_range.
Qed.
End time.

(** *** Concrete instance *)

Section examples.
Import CnExample.
#[local] Existing Instance iotlab_cn_build.

(** The time 1400000000.500000, received at tick 4999000 and set at tick 5000000. *)
Definition time_command : list Z := le_bytes 4 1400000000 ++ le_bytes 4 500000.

Lemma set_time_spec_witness :
  exists s1 s2 fs2, set_time 20 (ex_node time_command (ex_radio default_config 0)) = Ok (0, s1) /\
    Event.event_task run_event Event.EVENT_QUEUE_APPLI 1 s1 = Ok ([Event.mk_entry (Other (EV_DO_SET_TIME 14%nat)) 0], s2) /\
    [21%nat; 14%nat] `sublist_of` fs2 /\
    IotlabTime.total_us (IotlabTime.iotlab_time_convert (itime s2) 5031772) =
      IotlabTime.ticks_us 32772 IotlabTime.SOFT_TIMER_KFREQUENCY_FIX + 1400000000500000.
Proof.
  destruct (set_time_spec (ex_node time_command (ex_radio default_config 0)) ex_contents [] 20 time_command
    (mk_ext (u32 4999000) IOTLAB_PACKET_FREE 0 None) 4999000 14 [])
    as (s1 & s2 & m2 & fs2 & E1 & E2 & _ & _ & _ & _ & Hord & Ht);
    [apply ex_command; cbn; lia|reflexivity|by repeat constructor|reflexivity|reflexivity|reflexivity|vm_compute; intuition discriminate
    |vm_compute; intuition discriminate|vm_compute; reflexivity|apply ex_packets; [reflexivity|cbn; lia]|reflexivity|reflexivity
    |discriminate|reflexivity|cbn; lia|].
  exists s1, s2, fs2. split; [exact E1|]. split; [exact E2|]. split.
  - destruct (Hord CONSO 21%nat measures) as (_ & _ & Hb); [left|reflexivity| |].
    + split; [apply ex_loose; right; reflexivity|]. exists (filled measures). split; [reflexivity|].
      apply filled_carries. vm_compute. lia.
    + apply Hb; [constructor|vm_compute; discriminate].
  - apply (Ht 5031772); vm_compute; intuition discriminate.
Defined.
End examples.
End CnTimeSpec.
