(* ===== verification/I2cSlave.v ===== *)
(** * The I2C link of the control node
      ([appli/iotlab/periph/iotlab_i2c/iotlab_i2c_slave.c], [iotlab_i2c.c])

    The open node is the master of an I2C bus on which the control node answers.
    The slave side is a state machine driven by the events of the driver: start
    condition, byte received, byte to send, stop condition. A transaction begins
    with a header byte that selects one of the registered handlers, which is either
    given the bytes that follow or asked for the bytes to send. Messages of the
    debug log are left out. *)

From stdpp Require Import base numbers gmap list.
From S2P Require Import Prelude Chain SoftTime.

Module I2cSlave.
Import SoftTime.

Definition IOTLAB_I2C_CN_ADDR : Z := 0x42.
Definition IOTLAB_I2C_ERROR : Z := 0xFF.
Definition IOTLAB_I2C_RX_TIME : Z := 0x00.
Definition IOTLAB_I2C_RX_NODE_ID : Z := 0x01.
Definition IOTLAB_I2C_TX_EVENT : Z := 0xF0.

(** Size of the buffer of a message. *)
Definition I2C_PAYLOAD_SIZE : nat := 32.

Inductive i2c_slave_event := EV_STOP | EV_TX_START | EV_RX_START | EV_TX_BYTE | EV_RX_BYTE | EV_ERROR.
#[global] Instance i2c_slave_event_eq_dec : EqDecision i2c_slave_event.
Proof. solve_decision. Defined.

Inductive i2c_msg_type := SLAVE_TX | SLAVE_RX.
#[global] Instance i2c_msg_type_eq_dec : EqDecision i2c_msg_type.
Proof. solve_decision. Defined.

(** [F] is the type of the handler functions. *)
Record iotlab_i2c_handler {F : Type} := mk_i2c_handler {
  header : Z;
  type : i2c_msg_type;
  payload_len : Z;
  handler : F;
  h_next : ptr;
}.
Arguments iotlab_i2c_handler F : clear implicits.

#[global] Instance i2c_handler_linked {F} : Linked (iotlab_i2c_handler F).
Proof.
  refine {| next_of := h_next;
            set_next p k := mk_i2c_handler F (header k) (type k) (payload_len k) (handler k) p |}.
  - done.
  - by intros [].
  - done.
Defined.

(** [iotlab_i2c_handler_arg]. *)
Record i2c_msg := mk_msg { payload : list Z; len : Z; timestamp : soft_timer_timeval }.

(** The functions that are states of the machine. *)
Inductive i2c_state :=
| ST_IDLE | ST_GET_HEADER | ST_RX_PAYLOAD | ST_RX_WAIT_RX_STOP | ST_TX_WAIT_TX_START | ST_TX_PAYLOAD
| ST_TX_WAIT_TX_STOP.

(** Calls of the driver. *)
Inductive i2c_call := I2cEnable | I2cSetAddress (a : Z) | I2cConfigure | I2cDisable.

(** [_state], the static [fsm_state] of [i2c_slave_handler], the objects that
    [msg_handler] and [handlers_list.next] point to, and the calls of the driver.
    [G] is the type of the functions that give the time. *)
Record slave {F G : Type} := mk_slave {
  msg_handler : ptr;
  msg : i2c_msg;
  handlers_list : ptr;
  handlers : gmap loc (iotlab_i2c_handler F);
  get_timestamp : option G;
  fsm_state : i2c_state;
  calls : list i2c_call;
}.
Arguments slave F G : clear implicits.

Section slave.
Context {F G : Type}.
Implicit Types (s : slave F G).

Definition set_msg_handler p s := mk_slave F G p (msg s) (handlers_list s) (handlers s) (get_timestamp s)
  (fsm_state s) (calls s).
Definition set_msg m s := mk_slave F G (msg_handler s) m (handlers_list s) (handlers s) (get_timestamp s)
  (fsm_state s) (calls s).
Definition set_list p hs s := mk_slave F G (msg_handler s) (msg s) p hs (get_timestamp s) (fsm_state s) (calls s).
Definition set_get_timestamp g s := mk_slave F G (msg_handler s) (msg s) (handlers_list s) (handlers s) g
  (fsm_state s) (calls s).
Definition set_fsm x s := mk_slave F G (msg_handler s) (msg s) (handlers_list s) (handlers s) (get_timestamp s)
  x (calls s).
Definition set_calls c s := mk_slave F G (msg_handler s) (msg s) (handlers_list s) (handlers s)
  (get_timestamp s) (fsm_state s) c.

Abbreviation IM := (M (slave F G)).

(** ** Configuration *)

Definition i2c_emit (c : i2c_call) : IM unit := mmod (λ s, set_calls (calls s ++ [c]) s).

Definition iotlab_i2c_slave_register_handler (h : loc) : IM unit :=
  s ← mget;
  k ← mlift (of_option EUndef (handlers s !! h));
  mmod (set_list (Some h) (<[h := set_next (handlers_list s) k]> (handlers s))).

Definition iotlab_i2c_slave_register_timestamp_fct (g : G) : IM unit := mmod (set_get_timestamp (Some g)).

Definition iotlab_i2c_slave_start : IM unit :=
  i2c_emit I2cEnable ;;
  i2c_emit (I2cSetAddress IOTLAB_I2C_CN_ADDR) ;;
  i2c_emit I2cConfigure.

Definition iotlab_i2c_slave_stop : IM unit :=
  i2c_emit I2cDisable ;;
  mmod (λ s, set_list None (handlers s) s).

(** ** Search for a handler *)

Fixpoint decode_loop (fuel : nat) (hs : gmap loc (iotlab_i2c_handler F)) (p : ptr) (msg_type : Z) : res ptr :=
  match fuel with
  | O => Err EFuel
  | S fuel =>
      match p with
      | None => Ok None
      | Some l =>
          k ← of_option EUndef (hs !! l);
          if header k =? msg_type then Ok (Some l) else decode_loop fuel hs (h_next k) msg_type
      end
  end.

(** The fuel is enough for any list without cycle; a list with one has no end. *)
Definition decode (msg_type : Z) : IM ptr :=
  s ← mget;
  mlift (decode_loop (S (size (handlers s))) (handlers s) (handlers_list s) msg_type).
End slave.

(** ** The state machine

    It runs in the state [S] of its client, whose functions it calls. A state is
    given the event and the byte that [data] points to, and gives the next state
    and the byte left there. *)

Section machine.
Context {S F G : Type} `{!Lens S (slave F G)}.
Context (call : F -> M S unit) (stamp : G -> M S soft_timer_timeval).

(** The state of the slave, and an update of its message. *)
Definition sget : M S (slave F G) := s ← mget; mret (view s).
Definition smod (f : slave F G -> slave F G) : M S unit := mmod (λ s, over (f (view s)) s).

Definition error (ev : i2c_slave_event) (data : Z) : M S (i2c_state * Z) :=
  mret (ST_IDLE, if decide (ev = EV_TX_BYTE) then IOTLAB_I2C_ERROR else data).

Definition st_idle (ev : i2c_slave_event) (data : Z) : M S (i2c_state * Z) :=
  if decide (ev <> EV_RX_START) then error ev data
  else
    s ← sget;
    match get_timestamp s with
    | None => mfail EUndef
    | Some g =>
        t ← stamp g;
        smod (λ s, set_msg (mk_msg (payload (msg s)) (len (msg s)) t) s) ;;
        mret (ST_GET_HEADER, data)
    end.

(** The handler object that [msg_handler] points to. *)
Definition current_handler : M S (iotlab_i2c_handler F) :=
  s ← sget;
  match msg_handler s with
  | None => mfail EUndef
  | Some h => mlift (of_option EUndef (handlers s !! h))
  end.

Definition st_get_header (ev : i2c_slave_event) (data : Z) : M S (i2c_state * Z) :=
  if decide (ev <> EV_RX_BYTE) then error ev data
  else
    p ← mzoom (decode data);
    smod (set_msg_handler p) ;;
    match p with
    | None => error ev data
    | Some _ =>
        k ← current_handler;
        match type k with
        | SLAVE_RX =>
            smod (λ s, set_msg (mk_msg (payload (msg s)) 0 (timestamp (msg s))) s) ;;
            mret (ST_RX_PAYLOAD, data)
        | SLAVE_TX => mret (ST_TX_WAIT_TX_START, data)
        end
    end.

Definition st_rx_payload (ev : i2c_slave_event) (data : Z) : M S (i2c_state * Z) :=
  if decide (ev <> EV_RX_BYTE) then error ev data
  else
    s ← sget;
    p ← mlift (arr_set (payload (msg s)) (len (msg s)) data);
    smod (set_msg (mk_msg p (len (msg s) + 1) (timestamp (msg s)))) ;;
    k ← current_handler;
    mret (if len (msg s) + 1 =? payload_len k then ST_RX_WAIT_RX_STOP else ST_RX_PAYLOAD, data).

Definition st_rx_wait_rx_stop (ev : i2c_slave_event) (data : Z) : M S (i2c_state * Z) :=
  if decide (ev <> EV_STOP) then error ev data
  else
    k ← current_handler;
    call (handler k) ;;
    mret (ST_IDLE, data).

Definition st_tx_wait_tx_start (ev : i2c_slave_event) (data : Z) : M S (i2c_state * Z) :=
  if decide (ev <> EV_TX_START) then error ev data
  else
    k ← current_handler;
    call (handler k) ;;
    smod (λ s, set_msg (mk_msg (payload (msg s)) 0 (timestamp (msg s))) s) ;;
    mret (ST_TX_PAYLOAD, data).

Definition st_tx_payload (ev : i2c_slave_event) (data : Z) : M S (i2c_state * Z) :=
  if decide (ev <> EV_TX_BYTE) then error ev data
  else
    s ← sget;
    b ← mlift (arr_get (payload (msg s)) (len (msg s)));
    smod (set_msg (mk_msg (payload (msg s)) (len (msg s) + 1) (timestamp (msg s)))) ;;
    k ← current_handler;
    mret (if len (msg s) + 1 =? payload_len k then ST_TX_WAIT_TX_STOP else ST_TX_PAYLOAD, b).

Definition st_tx_wait_tx_stop (ev : i2c_slave_event) (data : Z) : M S (i2c_state * Z) :=
  if decide (ev <> EV_STOP) then error ev data else mret (ST_IDLE, data).

(** The byte left in [data]. *)
Definition i2c_slave_handler (ev : i2c_slave_event) (data : Z) : M S Z :=
  s ← sget;
  r ← (match fsm_state s with
       | ST_IDLE => st_idle
       | ST_GET_HEADER => st_get_header
       | ST_RX_PAYLOAD => st_rx_payload
       | ST_RX_WAIT_RX_STOP => st_rx_wait_rx_stop
       | ST_TX_WAIT_TX_START => st_tx_wait_tx_start
       | ST_TX_PAYLOAD => st_tx_payload
       | ST_TX_WAIT_TX_STOP => st_tx_wait_tx_stop
       end) ev data;
  smod (set_fsm r.1) ;;
  mret r.2.

(** A sequence of events, with the bytes left by each. *)
Fixpoint slave_events (es : list (i2c_slave_event * Z)) : M S (list Z) :=
  match es with
  | [] => mret []
  | e :: es => b ← i2c_slave_handler e.1 e.2; bs ← slave_events es; mret (b :: bs)
  end.
End machine.

(** ** The master, on the open node

    [bus] is [i2c_tx_rx] of the driver: it writes bytes to the device at an
    address, then reads a number of bytes from it, and gives a status, 0 on success,
    and the bytes read. *)

Section master.
Context {S : Type} (bus : Z -> list Z -> nat -> M S (Z * list Z)).

(** A [struct soft_timer_timeval] in memory. *)
Definition timeval_bytes (t : soft_timer_timeval) : list Z := le_bytes 4 (tv_sec t) ++ le_bytes 4 (tv_usec t).
Definition bytes_timeval (bs : list Z) : soft_timer_timeval :=
  mk_timeval (le_value (take 4 bs)) (le_value (take 4 (drop 4 bs))).

(** [addr] is set by [iotlab_i2c_init]. *)
Definition iotlab_i2c_init : Z := IOTLAB_I2C_CN_ADDR.

Definition iotlab_get_time (addr : Z) : M S (Z * soft_timer_timeval) :=
  r ← bus addr [IOTLAB_I2C_RX_TIME] 8;
  mret (r.1, bytes_timeval r.2).

Definition iotlab_get_node_id (addr : Z) : M S (Z * Z) :=
  r ← bus addr [IOTLAB_I2C_RX_NODE_ID] 2;
  mret (r.1, le_value r.2).

Definition iotlab_send_event (addr value : Z) : M S Z :=
  r ← bus addr (IOTLAB_I2C_TX_EVENT :: le_bytes 2 value) 0;
  mret r.1.
End master.

End I2cSlave.
