(* ===== verification/I2cSpec.v ===== *)
(** * The I2C link: invariant and transactions

    What the state machine of [I2cSlave] promises to any client whose functions
    return and touch nothing of the slave but the payload (class [I2cClient]). *)

From stdpp Require Import base numbers gmap list.
From S2P Require Import Prelude Chain SoftTime I2cSlave.

Module I2cSpec.
Import SoftTime I2cSlave.

(** A block copy byte by byte. *)
Lemma insert_blit (l : list Z) i b p : arr_blit l i [b] = Ok p -> <[Z.to_nat i := b]> l = p.
Proof.
  intros Hp. destruct (arr_blit_inv _ _ _ _ Hp) as [H0 H1]. cbn [length] in H1.
  assert (arr_blit l i [b] = Ok (<[Z.to_nat i := b]> l)) as E; [|congruence].
  apply arr_set_blit; [|lia]. apply arr_blit_nil. rewrite length_insert. lia.
Qed.
Lemma arr_blit_cons (l : list Z) i b bs p :
  arr_blit l i (b :: bs) = Ok p -> arr_blit (<[Z.to_nat i := b]> l) (i + 1) bs = Ok p.
Proof.
  intros Hp. destruct (arr_blit_inv _ _ _ _ Hp) as [H0 H1]. cbn [length] in H1.
  destruct (arr_blit_ok (<[Z.to_nat i := b]> l) (i + 1) bs) as [p' E]; [lia|rewrite length_insert; lia|].
  rewrite E. rewrite (arr_set_blit l i b bs p') in Hp; [congruence|done|lia].
Qed.

Section search.
Context {F : Type}.
Implicit Types (hs : gmap loc (iotlab_i2c_handler F)).

(** The first handler of the list with the header [h]. *)
Fixpoint find_header hs (ls : list loc) (h : Z) : ptr :=
  match ls with
  | [] => None
  | l :: ls =>
      match hs !! l with
      | Some k => if header k =? h then Some l else find_header hs ls h
      | None => find_header hs ls h
      end
  end.

Lemma decode_loop_ok hs ls h : forall p fuel,
  chain hs p ls -> (length ls < fuel)%nat -> decode_loop fuel hs p h = Ok (find_header hs ls h).
Proof.
  induction ls as [|l ls IH]; intros p fuel Hc Hf; (destruct fuel as [|fuel]; [cbn in Hf; lia|]).
  - by apply chain_nil in Hc as ->.
  - apply chain_cons in Hc as (-> & k & Hk & Hc). cbn [decode_loop find_header]. rewrite Hk.
    change (mbind ?f (of_option EUndef (Some ?x))) with (f x). cbn beta.
    case_match; [done|]. apply IH; [done|cbn in Hf; lia].
Qed.

Lemma find_header_some hs ls h l : find_header hs ls h = Some l -> l ∈ ls /\ exists k, hs !! l = Some k /\ header k = h.
Proof.
  induction ls as [|l' ls IH]; cbn; [done|]. destruct (hs !! l') as [k|] eqn:Hk.
  - destruct (Z.eqb_spec (header k) h); [|intros [? ?]%IH; split; [by constructor|done]].
    intros [= <-]. split; [constructor|eauto].
  - intros [? ?]%IH. split; [by constructor|done].
Qed.

(** On a list that comes back to an object without having met the header, the
    search never ends. *)
Lemma decode_loop_cycle hs l ls h :
  lseg hs (Some l) ls (Some l) -> ls <> [] -> (forall x k, x ∈ ls -> hs !! x = Some k -> header k <> h) ->
  forall fuel, decode_loop fuel hs (Some l) h = Err EFuel.
Proof.
  intros Hl Hne Hno fuel. induction fuel as [fuel IH] using lt_wf_ind.
  assert (forall n xs p, lseg hs p xs (Some l) -> xs ⊆ ls -> (n < fuel \/ (n <= fuel /\ xs <> []))%nat ->
            decode_loop n hs p h = Err EFuel) as Hw.
  { intros n xs. revert n. induction xs as [|x xs IHx]; intros n p Hp Hin Hn.
    - cbn in Hp. subst p. destruct Hn as [Hn|[_ ?]]; [|done]. by apply IH.
    - destruct Hp as (-> & k & Hk & Hp). destruct n as [|n]; [done|]. cbn [decode_loop]. rewrite Hk.
      change (mbind ?f (of_option EUndef (Some ?y))) with (f y). cbn beta.
      destruct (Z.eqb_spec (header k) h) as [He|_].
      { exfalso. by apply (Hno x k); [apply Hin; constructor| |]. }
      apply IHx; [done|set_solver|lia]. }
  destruct (decide (fuel = 0)%nat) as [->|]; [done|].
  apply (Hw fuel ls); [done|done|by right].
Qed.
End search.

(** What the machine relies on. *)
Class I2cClient {S F G} `{!Lens S (slave F G)} (call : F -> M S unit) (stamp : G -> M S soft_timer_timeval) := {
  stamp_ok g s : exists t s', stamp g s = Ok (t, s') /\ (view s' : slave F G) = view s;
  call_ok f s : length (payload (msg (view s))) = I2C_PAYLOAD_SIZE ->
    exists p s', call f s = Ok (tt, s') /\ length p = I2C_PAYLOAD_SIZE /\
      view s' = set_msg (mk_msg p (len (msg (view s))) (timestamp (msg (view s)))) (view s);
}.

Section machine.
Context {S F G : Type} `{!Lens S (slave F G)}.
Context (call : F -> M S unit) (stamp : G -> M S soft_timer_timeval) `{!I2cClient call stamp}.
Implicit Types (s : S) (x : slave F G).

(** ** The invariant *)

(** The message in progress: its handler, and how many bytes have passed. *)
Definition in_message x (t : i2c_msg_type) (ok : Z -> Z -> Prop) : Prop :=
  exists h k, msg_handler x = Some h /\ handlers x !! h = Some k /\ type k = t /\ ok (len (msg x)) (payload_len k).

Definition position x : Prop :=
  match fsm_state x with
  | ST_IDLE | ST_GET_HEADER | ST_TX_WAIT_TX_STOP => True
  | ST_RX_PAYLOAD => in_message x SLAVE_RX (λ i n, 0 <= i < n)
  | ST_RX_WAIT_RX_STOP => in_message x SLAVE_RX (λ i n, i = n)
  | ST_TX_WAIT_TX_START => in_message x SLAVE_TX (λ _ _, True)
  | ST_TX_PAYLOAD => in_message x SLAVE_TX (λ i n, 0 <= i < n)
  end.

(** Handlers announce between 1 byte and the size of the buffer. *)
Definition bounded (hs : gmap loc (iotlab_i2c_handler F)) : Prop :=
  map_Forall (λ _ k, 1 <= payload_len k <= Z.of_nat I2C_PAYLOAD_SIZE) hs.

Definition slave_ok (ls : list loc) x : Prop :=
  chain (handlers x) (handlers_list x) ls /\ bounded (handlers x) /\
  length (payload (msg x)) = I2C_PAYLOAD_SIZE /\ is_Some (get_timestamp x) /\ position x.

(** The registered handlers and the function that gives the time are not changed. *)
Definition same_table x x' : Prop :=
  handlers x' = handlers x /\ handlers_list x' = handlers_list x /\ get_timestamp x' = get_timestamp x /\
  calls x' = calls x.

Lemma same_table_trans x y z : same_table x y -> same_table y z -> same_table x z.
Proof. unfold same_table. intuition congruence. Qed.

Lemma slave_ok_table ls x x' :
  slave_ok ls x -> same_table x x' -> length (payload (msg x')) = I2C_PAYLOAD_SIZE -> position x' -> slave_ok ls x'.
Proof.
  intros (Hc & Hb & _ & Hg & _) (E1 & E2 & E3 & _) Hl Hp. unfold slave_ok. rewrite E1, E2, E3. by split_and!.
Qed.

(** ** One event *)

Lemma wp_sget Q s : Q (view s) s -> wp (sget (G := G)) Q s.
Proof. done. Qed.
Lemma wp_smod f Q s : Q tt (over (f (view s)) s) -> wp (smod f) Q s.
Proof. done. Qed.

Lemma wp_current_handler Q s h k :
  msg_handler (view s) = Some h -> handlers (view s) !! h = Some k -> Q k s -> wp (current_handler (G := G)) Q s.
Proof.
  intros Hh Hk HQ. unfold current_handler. apply wp_bind, wp_sget. rewrite Hh. eapply wp_lift; [by rewrite Hk|done].
Qed.

Lemma decode_ok ls h x : chain (handlers x) (handlers_list x) ls -> decode h x = Ok (find_header (handlers x) ls h, x).
Proof.
  intros Hc. unfold decode. mrun. unfold mlift. pose proof (chain_length _ _ _ Hc).
  by rewrite (decode_loop_ok _ ls) by (done || lia).
Qed.

(** After any event the machine is in a state the invariant allows, and after a
    stop condition it is idle. *)
Definition event_post ls ev x : i2c_state * Z -> S -> Prop := λ r s',
  same_table x (view s') /\ slave_ok ls (set_fsm r.1 (view s')) /\ (ev = EV_STOP -> r.1 = ST_IDLE).

Lemma event_post_intro ls ev s st b s' :
  slave_ok ls (view s) -> same_table (view s) (view s') ->
  length (payload (msg (view s'))) = I2C_PAYLOAD_SIZE -> position (set_fsm st (view s')) ->
  (ev = EV_STOP -> st = ST_IDLE) -> event_post ls ev (view s) (st, b) s'.
Proof.
  intros Hok Ht Hl Hp Hst. split; [done|]. split; [|done]. apply (slave_ok_table _ (view s)); [done| |done|done].
  exact Ht.
Qed.

Lemma wp_error ls ev data s :
  slave_ok ls (view s) -> wp (error ev data) (event_post ls ev (view s)) s.
Proof.
  intros Hok. apply wp_ret. apply event_post_intro; [done|by split_and!|apply Hok|done|done].
Qed.

(** Position of the machine in each state, from the invariant. *)
Ltac destruct_position Hok Ef :=
  destruct Hok as (Hc & Hb & Hl & [g Hg] & Hp); unfold position in Hp; rewrite Ef in Hp.

Lemma wp_st_idle ls ev data s :
  slave_ok ls (view s) -> wp (st_idle stamp ev data) (event_post ls ev (view s)) s.
Proof.
  intros Hok. unfold st_idle. destruct (decide (ev <> EV_RX_START)) as [|He]; [by apply wp_error|].
  pose proof Hok as (Hc & Hb & Hl & [g Hg] & Hp). apply wp_bind, wp_sget. rewrite Hg.
  destruct (stamp_ok g s) as (t & s' & E & Hv). apply wp_bind. eapply wp_run; [exact E|].
  apply wp_bind, wp_smod, wp_ret. apply event_post_intro; rewrite ?view_over, ?Hv; [done|by split_and!|done|done|].
  intros ->. by destruct He.
Qed.

Lemma wp_st_get_header ls ev data s :
  slave_ok ls (view s) -> wp (st_get_header (G := G) ev data) (event_post ls ev (view s)) s.
Proof.
  intros Hok. unfold st_get_header. destruct (decide (ev <> EV_RX_BYTE)) as [|He]; [by apply wp_error|].
  pose proof Hok as (Hc & Hb & Hl & _). apply wp_bind.
  eapply wp_run; [apply zoom_ok, (decode_ok ls), Hc|]. cbn beta. rewrite over_view.
  apply wp_bind, wp_smod. destruct (find_header _ _ _) as [h|] eqn:Eh.
  - apply find_header_some in Eh as (_ & k & Hk & _).
    apply wp_bind, (wp_current_handler _ _ h k); rewrite ?view_over; [done|done|].
    pose proof (Hb _ _ Hk) as Hn. cbn in Hn.
    destruct (type k) eqn:Ek; [|apply wp_bind, wp_smod]; apply wp_ret; apply event_post_intro; rewrite ?view_over;
      try done; try (by intros ->; destruct He).
    + by exists h, k.
    + exists h, k. split_and!; [done|done|done|cbn; lia|cbn; lia].
  - apply wp_ret, event_post_intro; rewrite ?view_over; try done; by intros ->; destruct He.
Qed.

Lemma wp_st_rx_payload ls ev data s :
  slave_ok ls (view s) -> fsm_state (view s) = ST_RX_PAYLOAD ->
  wp (st_rx_payload (G := G) ev data) (event_post ls ev (view s)) s.
Proof.
  intros Hok Ef. unfold st_rx_payload. destruct (decide (ev <> EV_RX_BYTE)) as [|He]; [by apply wp_error|].
  pose proof Hok as Hok'. destruct_position Hok' Ef. destruct Hp as (h & k & Hh & Hk & Ht & Hi).
  pose proof (Hb _ _ Hk) as Hn. cbn in Hn.
  apply wp_bind, wp_sget, wp_bind. eapply wp_lift; [apply arr_set_ok; unfold I2C_PAYLOAD_SIZE in *; lia|].
  apply wp_bind, wp_smod, wp_bind, (wp_current_handler _ _ h k); rewrite ?view_over; [done|done|].
  apply wp_ret, event_post_intro; rewrite ?view_over; [done|done|cbn; by rewrite length_insert| |by intros ->; destruct He].
  destruct (Z.eqb_spec (len (msg (view s)) + 1) (payload_len k)); exists h, k; split_and!; try done; cbn; lia.
Qed.

Lemma wp_st_tx_payload ls ev data s :
  slave_ok ls (view s) -> fsm_state (view s) = ST_TX_PAYLOAD ->
  wp (st_tx_payload (G := G) ev data) (event_post ls ev (view s)) s.
Proof.
  intros Hok Ef. unfold st_tx_payload. destruct (decide (ev <> EV_TX_BYTE)) as [|He]; [by apply wp_error|].
  pose proof Hok as Hok'. destruct_position Hok' Ef. destruct Hp as (h & k & Hh & Hk & Ht & Hi).
  pose proof (Hb _ _ Hk) as Hn. cbn in Hn.
  destruct (arr_get_lt (payload (msg (view s))) (len (msg (view s)))) as [b Eb]; [unfold I2C_PAYLOAD_SIZE in *; lia|].
  apply wp_bind, wp_sget, wp_bind. eapply wp_lift; [exact Eb|].
  apply wp_bind, wp_smod, wp_bind, (wp_current_handler _ _ h k); rewrite ?view_over; [done|done|].
  apply wp_ret, event_post_intro; rewrite ?view_over; [done|done|done| |by intros ->; destruct He].
  destruct (Z.eqb_spec (len (msg (view s)) + 1) (payload_len k)); [done|]. exists h, k; split_and!; try done; cbn; lia.
Qed.

(** The states that call the function of the handler. *)
Lemma wp_st_rx_wait_rx_stop ls ev data s :
  slave_ok ls (view s) -> fsm_state (view s) = ST_RX_WAIT_RX_STOP ->
  wp (st_rx_wait_rx_stop (G := G) call ev data) (event_post ls ev (view s)) s.
Proof.
  intros Hok Ef. unfold st_rx_wait_rx_stop. destruct (decide (ev <> EV_STOP)) as [|He]; [by apply wp_error|].
  pose proof Hok as Hok'. destruct_position Hok' Ef. destruct Hp as (h & k & Hh & Hk & Ht & Hi).
  apply wp_bind, (wp_current_handler _ _ h k); [done|done|].
  destruct (call_ok (handler k) s) as (p & s' & E & Hp & Hv); [done|]. apply wp_bind. eapply wp_run; [exact E|].
  apply wp_ret, event_post_intro; rewrite ?Hv; done.
Qed.

Lemma wp_st_tx_wait_tx_start ls ev data s :
  slave_ok ls (view s) -> fsm_state (view s) = ST_TX_WAIT_TX_START ->
  wp (st_tx_wait_tx_start (G := G) call ev data) (event_post ls ev (view s)) s.
Proof.
  intros Hok Ef. unfold st_tx_wait_tx_start. destruct (decide (ev <> EV_TX_START)) as [|He]; [by apply wp_error|].
  pose proof Hok as Hok'. destruct_position Hok' Ef. destruct Hp as (h & k & Hh & Hk & Ht & Hi).
  pose proof (Hb _ _ Hk) as Hn. cbn in Hn. apply wp_bind, (wp_current_handler _ _ h k); [done|done|].
  destruct (call_ok (handler k) s) as (p & s' & E & Hp & Hv); [done|]. apply wp_bind. eapply wp_run; [exact E|].
  apply wp_bind, wp_smod, wp_ret, event_post_intro; rewrite ?view_over, ?Hv; try done; [|by intros ->; destruct He].
  exists h, k; split_and!; try done; cbn; lia.
Qed.

Lemma wp_step ls ev data s :
  slave_ok ls (view s) ->
  wp (i2c_slave_handler call stamp ev data)
     (λ _ s', same_table (view s) (view s') /\ slave_ok ls (view s') /\ (ev = EV_STOP -> fsm_state (view s') = ST_IDLE)) s.
Proof.
  intros Hok. unfold i2c_slave_handler. apply wp_bind, wp_sget, wp_bind.
  apply (wp_mono _ (event_post ls ev (view s))); [|intros [st b] s' (Ht & Hok' & Hst); apply wp_bind, wp_smod, wp_ret; rewrite !view_over;
                     split_and!; [apply Ht..|exact Hok'|exact Hst]].
  destruct (fsm_state (view s)) eqn:Ef.
  - by apply wp_st_idle.
  - by apply wp_st_get_header.
  - by apply wp_st_rx_payload.
  - by apply wp_st_rx_wait_rx_stop.
  - by apply wp_st_tx_wait_tx_start.
  - by apply wp_st_tx_payload.
  - unfold st_tx_wait_tx_stop. destruct (decide (ev <> EV_STOP)); [by apply wp_error|].
    apply wp_ret, event_post_intro; [done|by split_and!|apply Hok|done|done].
Qed.
(** A stop condition leaves the byte that [data] points to alone. *)
Lemma stop_data d s b s' : i2c_slave_handler call stamp EV_STOP d s = Ok (b, s') -> b = d.
Proof.
  unfold i2c_slave_handler. intros (x & s1 & _ & (r & s2 & Er & (u & s3 & _ & [= <- _])%bind_inv)%bind_inv)%bind_inv.
  revert Er. destruct (fsm_state x); try (by intros [= <- _]).
  unfold st_rx_wait_rx_stop. rewrite decide_False by auto.
  by intros (k & s4 & _ & (v & s5 & _ & [= <- _])%bind_inv)%bind_inv.
Qed.

(** Whatever events come, the machine handles each of them and stays in its
    invariant, and a stop condition brings it back to idle. *)
Lemma slave_events_ok ls es s :
  slave_ok ls (view s) -> exists bs s', slave_events call stamp es s = Ok (bs, s') /\
    length bs = length es /\ slave_ok ls (view s') /\ same_table (view s) (view s') /\
    (last es.*1 = Some EV_STOP -> fsm_state (view s') = ST_IDLE).
Proof.
  revert s. induction es as [|[ev d] es IH]; intros s Hok; cbn [slave_events fst snd].
  - exists [], s. by split_and!.
  - destruct (wp_ok _ _ _ (wp_step ls ev d s Hok)) as (b & s1 & E1 & Ht1 & Hok1 & Hst).
    destruct (IH s1 Hok1) as (bs & s2 & E2 & Hl & Hok2 & Ht2 & Hidle).
    exists (b :: bs), s2. mstep E1. mstep E2. split_and!; [done|by cbn; rewrite Hl|done|by eapply same_table_trans|].
    destruct es as [|e es]; [|exact Hidle].
    cbn in E2. injection E2 as <- <-. intros [= ->]. by apply Hst.
Qed.

(** ** Transactions

    In the states below the slave is [x] in the client state [s]. *)

Lemma bind_sget {A} (k : slave F G -> M S A) x s : (sget ≫= k) (over x s) = k x (over x s).
Proof. unfold sget. mrun. by rewrite view_over. Qed.
Lemma bind_smod {A} f (k : unit -> M S A) x s : (smod f ≫= k) (over x s) = k tt (over (f x) s).
Proof. unfold smod. mrun. by rewrite view_over, over_over. Qed.
Lemma bind_current {A} (k : iotlab_i2c_handler F -> M S A) x s h a :
  msg_handler x = Some h -> handlers x !! h = Some a -> (current_handler ≫= k) (over x s) = k a (over x s).
Proof. intros Hh Ha. unfold current_handler. mrun. rewrite bind_sget, Hh. mrun. by rewrite Ha. Qed.

(** An event, by the function of the current state. *)
Lemma handler_step ev d x s st b x' y s' :
  (match fsm_state x with
   | ST_IDLE => st_idle stamp | ST_GET_HEADER => st_get_header | ST_RX_PAYLOAD => st_rx_payload
   | ST_RX_WAIT_RX_STOP => st_rx_wait_rx_stop call | ST_TX_WAIT_TX_START => st_tx_wait_tx_start call
   | ST_TX_PAYLOAD => st_tx_payload | ST_TX_WAIT_TX_STOP => st_tx_wait_tx_stop
   end) ev d (over x s) = Ok ((st, b), over x' s') ->
  y = set_fsm st x' -> i2c_slave_handler call stamp ev d (over x s) = Ok (b, over y s').
Proof.
  intros E ->. unfold i2c_slave_handler. rewrite bind_sget. erewrite bind_ok by exact E.
  cbn [fst snd]. by rewrite bind_smod.
Qed.

Lemma slave_events_app es es' s bs s' :
  slave_events call stamp es s = Ok (bs, s') ->
  slave_events call stamp (es ++ es') s = (bs' ← slave_events call stamp es'; mret (bs ++ bs')) s'.
Proof.
  revert s bs. induction es as [|e es IH]; intros s bs; cbn [slave_events app].
  - intros [= <- <-]. cbn [app]. unfold mbind, M_bind. by destruct (slave_events _ _ es' s) as [[]|].
  - intros (b & s1 & E1 & (bs1 & s2 & E2 & [= <- <-])%bind_inv)%bind_inv. mstep E1. unfold mbind, M_bind in *. rewrite (IH _ _ E2).
    by destruct (slave_events _ _ es' s2) as [[]|].
Qed.
Lemma bind_slave_app {A} es es' (k : list Z -> M S A) s bs s' :
  slave_events call stamp es s = Ok (bs, s') ->
  (slave_events call stamp (es ++ es') ≫= k) s = (slave_events call stamp es' ≫= λ bs', k (bs ++ bs')) s'.
Proof.
  intros E. unfold mbind at 1, M_bind at 1. rewrite (slave_events_app _ _ _ _ _ E).
  unfold mbind, M_bind. by destruct (slave_events _ _ es' s') as [[]|].
Qed.

Definition write_events (h : Z) (bs : list Z) : list (i2c_slave_event * Z) :=
  [(EV_RX_START, 0); (EV_RX_BYTE, h)] ++ ((EV_RX_BYTE,.) <$> bs) ++ [(EV_STOP, 0)].
Definition read_events (h : Z) (n : nat) : list (i2c_slave_event * Z) :=
  [(EV_RX_START, 0); (EV_RX_BYTE, h); (EV_TX_START, 0)] ++ replicate n (EV_TX_BYTE, 0) ++ [(EV_STOP, 0)].

(** The message after the header: its time and its handler are known. *)
Definition begun (l : loc) (k : iotlab_i2c_handler F) (t : soft_timer_timeval) x : slave F G :=
  set_fsm (match type k with SLAVE_RX => ST_RX_PAYLOAD | SLAVE_TX => ST_TX_WAIT_TX_START end)
    (set_msg (mk_msg (payload (msg x)) (match type k with SLAVE_RX => 0 | SLAVE_TX => len (msg x) end) t)
      (set_msg_handler (Some l) x)).

Lemma start_event x s g t s1 :
  fsm_state x = ST_IDLE -> get_timestamp x = Some g -> stamp g (over x s) = Ok (t, over x s1) ->
  i2c_slave_handler call stamp EV_RX_START 0 (over x s) =
    Ok (0, over (set_fsm ST_GET_HEADER (set_msg (mk_msg (payload (msg x)) (len (msg x)) t) x)) s1).
Proof.
  intros Ef Hg Ht. eapply handler_step; [|reflexivity]. rewrite Ef. unfold st_idle. rewrite decide_False by auto.
  rewrite bind_sget, Hg. mstep Ht. by rewrite bind_smod.
Qed.

(** A header whose search does not end. *)
Lemma header_hangs x s g t s1 h :
  fsm_state x = ST_IDLE -> get_timestamp x = Some g -> stamp g (over x s) = Ok (t, over x s1) ->
  (forall fuel, decode_loop fuel (handlers x) (handlers_list x) h = Err EFuel) ->
  slave_events call stamp [(EV_RX_START, 0); (EV_RX_BYTE, h)] (over x s) = Err EFuel.
Proof.
  intros Ef Hg Ht Hd. cbn [slave_events fst snd]. mstep (start_event x s g t s1 Ef Hg Ht).
  apply bind_err. unfold i2c_slave_handler. rewrite bind_sget. cbn [fsm_state set_fsm]. apply bind_err.
  unfold st_get_header. rewrite decide_False by auto. apply bind_err. unfold mzoom, decode. rewrite view_over. mrun.
  unfold mlift. cbn [handlers handlers_list set_fsm set_msg]. by rewrite Hd.
Qed.

Lemma begin_events ls x s g t s1 h l k :
  slave_ok ls x -> fsm_state x = ST_IDLE -> get_timestamp x = Some g ->
  find_header (handlers x) ls h = Some l -> handlers x !! l = Some k ->
  stamp g (over x s) = Ok (t, over x s1) ->
  slave_events call stamp [(EV_RX_START, 0); (EV_RX_BYTE, h)] (over x s) = Ok ([0; h], over (begun l k t x) s1).
Proof.
  intros Hok Ef Hg Hl Hk Ht. pose proof (start_event x s g t s1 Ef Hg Ht) as E1.
  set (x1 := set_fsm ST_GET_HEADER (set_msg (mk_msg (payload (msg x)) (len (msg x)) t) x)) in *.
  assert (i2c_slave_handler call stamp EV_RX_BYTE h (over x1 s1) = Ok (h, over (begun l k t x) s1)) as E2.
  { assert (st_get_header EV_RX_BYTE h (over x1 s1) =
      (k ← current_handler;
       match type k with
       | SLAVE_RX => smod (λ y, set_msg (mk_msg (payload (msg y)) 0 (timestamp (msg y))) y) ;; mret (ST_RX_PAYLOAD, h)
       | SLAVE_TX => mret (ST_TX_WAIT_TX_START, h)
       end) (over (set_msg_handler (Some l) x1) s1)) as Eh.
    { unfold st_get_header. rewrite decide_False by auto.
      erewrite bind_ok; [|apply zoom_ok, (decode_ok ls); rewrite view_over; apply Hok]. cbn beta.
      rewrite view_over, over_over, bind_smod. cbn [x1 handlers set_fsm set_msg]. by rewrite Hl. }
    erewrite bind_current in Eh by done. unfold begun.
    destruct (type k); rewrite ?bind_smod in Eh; (eapply handler_step; [exact Eh|reflexivity]). }
  cbn [slave_events fst snd]. mstep E1. mstep E2. done.
Qed.
(** The bytes of a message received. *)
Lemma rx_events bs : forall x s h k p,
  bs <> [] -> fsm_state x = ST_RX_PAYLOAD -> msg_handler x = Some h -> handlers x !! h = Some k ->
  arr_blit (payload (msg x)) (len (msg x)) bs = Ok p -> len (msg x) + Z.of_nat (length bs) = payload_len k ->
  slave_events call stamp ((EV_RX_BYTE,.) <$> bs) (over x s) =
    Ok (bs, over (set_fsm ST_RX_WAIT_RX_STOP (set_msg (mk_msg p (payload_len k) (timestamp (msg x))) x)) s).
Proof.
  induction bs as [|b bs IH]; intros x s h k p Hne Ef Hh Hk Hp Hn; [done|]. cbn [length] in Hn.
  destruct (arr_blit_inv _ _ _ _ Hp) as [Hi0 Hi]. cbn [length] in Hi.
  set (y := set_msg (mk_msg (<[Z.to_nat (len (msg x)) := b]> (payload (msg x))) (len (msg x) + 1) (timestamp (msg x))) x).
  assert (i2c_slave_handler call stamp EV_RX_BYTE b (over x s) =
    Ok (b, over (set_fsm (if len (msg x) + 1 =? payload_len k then ST_RX_WAIT_RX_STOP else ST_RX_PAYLOAD) y) s)) as E.
  { eapply handler_step; [|done]. rewrite Ef. unfold st_rx_payload. rewrite decide_False by auto. rewrite bind_sget.
    rewrite arr_set_ok by lia. mrun. rewrite bind_smod. by erewrite bind_current by done. }
  rewrite fmap_cons. cbn [slave_events fst snd]. mstep E. destruct bs as [|b' bs].
  - cbn [length] in Hn. rewrite (proj2 (Z.eqb_eq _ _)) by lia. cbn [fmap list_fmap slave_events]. mrun.
    rewrite <- (insert_blit (payload (msg x)) (len (msg x)) b p) by done.
    replace (payload_len k) with (len (msg x) + 1) by lia. done.
  - cbn [length] in Hn. rewrite (proj2 (Z.eqb_neq _ _)) by lia.
    assert (slave_events call stamp ((EV_RX_BYTE,.) <$> b' :: bs) (over (set_fsm ST_RX_PAYLOAD y) s) =
      Ok (b' :: bs, over (set_fsm ST_RX_WAIT_RX_STOP (set_msg (mk_msg p (payload_len k) (timestamp (msg x))) y)) s)) as E'.
    { apply (IH (set_fsm ST_RX_PAYLOAD y) s h k p); try done; cbn [msg set_fsm y set_msg payload len length]; [|lia].
      by apply arr_blit_cons. }
    mstep E'. done.
Qed.
(** The bytes of a message sent. *)
Lemma tx_events n : forall x s h k,
  n <> O -> fsm_state x = ST_TX_PAYLOAD -> msg_handler x = Some h -> handlers x !! h = Some k ->
  0 <= len (msg x) -> len (msg x) + Z.of_nat n = payload_len k -> payload_len k <= Z.of_nat (length (payload (msg x))) ->
  slave_events call stamp (replicate n (EV_TX_BYTE, 0)) (over x s) =
    Ok (take n (drop (Z.to_nat (len (msg x))) (payload (msg x))),
        over (set_fsm ST_TX_WAIT_TX_STOP (set_msg (mk_msg (payload (msg x)) (payload_len k) (timestamp (msg x))) x)) s).
Proof.
  induction n as [|n IH]; intros x s h k Hne Ef Hh Hk H0 Hn Hl; [done|].
  destruct (lookup_lt_is_Some_2 (payload (msg x)) (Z.to_nat (len (msg x)))) as [b Hb]; [lia|].
  set (y := set_msg (mk_msg (payload (msg x)) (len (msg x) + 1) (timestamp (msg x))) x).
  assert (i2c_slave_handler call stamp EV_TX_BYTE 0 (over x s) =
    Ok (b, over (set_fsm (if len (msg x) + 1 =? payload_len k then ST_TX_WAIT_TX_STOP else ST_TX_PAYLOAD) y) s)) as E.
  { eapply handler_step; [|done]. rewrite Ef. unfold st_tx_payload. rewrite decide_False by auto. rewrite bind_sget.
    rewrite (arr_get_ok _ _ b) by done. mrun. rewrite bind_smod. by erewrite bind_current by done. }
  rewrite (drop_S _ b) by done. cbn [replicate slave_events fst snd firstn]. mstep E. destruct n as [|n].
  - rewrite (proj2 (Z.eqb_eq _ _)) by lia. cbn [replicate slave_events]. mrun.
    replace (payload_len k) with (len (msg x) + 1) by lia. done.
  - rewrite (proj2 (Z.eqb_neq _ _)) by lia.
    assert (slave_events call stamp (replicate (Datatypes.S n) (EV_TX_BYTE, 0)) (over (set_fsm ST_TX_PAYLOAD y) s) =
      Ok (take (Datatypes.S n) (drop (Datatypes.S (Z.to_nat (len (msg x)))) (payload (msg x))),
          over (set_fsm ST_TX_WAIT_TX_STOP (set_msg (mk_msg (payload (msg x)) (payload_len k) (timestamp (msg x))) y)) s)) as E'.
    { rewrite (IH (set_fsm ST_TX_PAYLOAD y) s h k) by (cbn [msg set_fsm y set_msg payload len length]; done || lia).
      cbn [msg set_fsm y set_msg payload len]. do 4 f_equal. lia. }
    mstep E'. done.
Qed.

(** A write transaction from idle: the handler of the header is called once, with
    the bytes written and the time of the start condition, and the machine is idle
    again. *)
Lemma write_transaction ls x s g t s1 h l k bs :
  slave_ok ls x -> fsm_state x = ST_IDLE -> get_timestamp x = Some g ->
  find_header (handlers x) ls h = Some l -> handlers x !! l = Some k -> type k = SLAVE_RX ->
  Z.of_nat (length bs) = payload_len k -> stamp g (over x s) = Ok (t, over x s1) ->
  exists p, arr_blit (payload (msg x)) 0 bs = Ok p /\
    forall x2 s2,
      call (handler k) (over (set_fsm ST_RX_WAIT_RX_STOP
        (set_msg (mk_msg p (payload_len k) t) (set_msg_handler (Some l) x))) s1) = Ok (tt, over x2 s2) ->
      slave_events call stamp (write_events h bs) (over x s) = Ok ([0; h] ++ bs ++ [0], over (set_fsm ST_IDLE x2) s2).
Proof.
  intros Hok Ef Hg Hl Hk Ht Hn Hs. pose proof Hok as (_ & Hb & Hlen & _).
  pose proof (Hb _ _ Hk) as Hr. cbn in Hr.
  destruct (arr_blit_ok (payload (msg x)) 0 bs) as [p Hp]; [lia|rewrite Hlen; unfold I2C_PAYLOAD_SIZE in *; lia|].
  exists p. split; [done|]. intros x2 s2 Hcall. unfold write_events.
  rewrite (slave_events_app _ _ _ _ _ (begin_events ls x s g t s1 h l k Hok Ef Hg Hl Hk Hs)).
  assert (slave_events call stamp ((EV_RX_BYTE,.) <$> bs) (over (begun l k t x) s1) =
    Ok (bs, over (set_fsm ST_RX_WAIT_RX_STOP (set_msg (mk_msg p (payload_len k) t) (set_msg_handler (Some l) x))) s1)) as E.
  { unfold begun. rewrite Ht. erewrite (rx_events bs _ _ l k p); try done.
    intros ->. cbn in Hn. lia. }
  rewrite (bind_slave_app _ _ _ _ _ _ E). cbn [slave_events fst snd]. mrun.
  erewrite bind_ok; [|eapply handler_step; [|reflexivity]; cbn [fsm_state set_fsm]; unfold st_rx_wait_rx_stop;
    rewrite decide_False by auto; erewrite bind_current by done; mstep Hcall; done].
  done.
Qed.
(** A read transaction from idle: the handler of the header is called once, with the
    time of the start condition, and the bytes read are those it left in the
    payload; the machine is idle again. *)
Lemma read_transaction ls x s g t s1 h l k n p x1 s2 :
  slave_ok ls x -> fsm_state x = ST_IDLE -> get_timestamp x = Some g ->
  find_header (handlers x) ls h = Some l -> handlers x !! l = Some k -> type k = SLAVE_TX ->
  Z.of_nat n = payload_len k -> stamp g (over x s) = Ok (t, over x s1) ->
  x1 = set_fsm ST_TX_WAIT_TX_START (set_msg (mk_msg (payload (msg x)) (len (msg x)) t) (set_msg_handler (Some l) x)) ->
  call (handler k) (over x1 s1) = Ok (tt, over (set_msg (mk_msg p (len (msg x)) t) x1) s2) ->
  length p = I2C_PAYLOAD_SIZE ->
  slave_events call stamp (read_events h n) (over x s) =
    Ok ([0; h; 0] ++ take n p ++ [0], over (set_fsm ST_IDLE (set_msg (mk_msg p (payload_len k) t) (set_msg_handler (Some l) x))) s2).
Proof.
  intros Hok Ef Hg Hl Hk Ht Hn Hs -> Hcall Hp. pose proof Hok as (_ & Hb & Hlen & _).
  pose proof (Hb _ _ Hk) as Hr. cbn in Hr. unfold read_events. change ([?a; ?b; ?c] ++ ?r) with ([a; b] ++ c :: r).
  rewrite (slave_events_app _ _ _ _ _ (begin_events ls x s g t s1 h l k Hok Ef Hg Hl Hk Hs)).
  unfold begun. rewrite Ht. cbn [slave_events fst snd]. mrun.
  erewrite bind_ok; [|eapply handler_step; [|reflexivity]; cbn [fsm_state set_fsm]; unfold st_tx_wait_tx_start;
    rewrite decide_False by auto; erewrite bind_current by done; mstep Hcall; rewrite bind_smod; done].
  mrun. erewrite bind_slave_app.
  2:{ apply (tx_events n _ s2 l k); try done; [lia|]. cbn [payload msg set_fsm set_msg]. rewrite Hp. lia. }
  cbn [slave_events fst snd]. mrun. erewrite bind_ok by (eapply handler_step; reflexivity). mrun.
  cbn [payload msg set_fsm set_msg len drop]. done.
Qed.
End machine.
End I2cSpec.
