(* ===== verification/CnI2c.v ===== *)
(** * The I2C requests that the control node answers
      ([appli/iotlab/control_node/control_node/cn_i2c.c])

    The open node can ask for the unix time and for its node identifier, and can
    signal an event. The link is started when the open node is powered and stopped
    before it is switched off, through the two functions given to [cn_alim]. *)

From stdpp Require Import base numbers gmap list.
From S2P Require Import Prelude Chain Packet Event SoftTime IotlabPacket IotlabTime IotlabSerial CnMeasPkt CnState CnRadio CnConsumption CnControl I2cSlave.

Module CnI2c.
Import SoftTime I2cSlave.

(** The functions of the handlers, and the one that gives the time. *)
Inductive i2c_fn := RX_TIME | RX_NODE_ID | TX_EVENT.
Inductive time_fn := GET_TIMESTAMP.

(** The control node with its link; [got_events] are the events logged. *)
Record node := mk_node {
  cnode : CnState.cn;
  link : slave i2c_fn time_fn;
  got_events : list Z;
}.

#[global] Instance cnode_lens : Lens node CnState.cn.
Proof. refine {| view := cnode; over c s := mk_node c (link s) (got_events s) |}; [done|by intros []|done]. Defined.
#[global] Instance link_lens : Lens node (slave i2c_fn time_fn).
Proof. refine {| view := link; over x s := mk_node (cnode s) x (got_events s) |}; [done|by intros []|done]. Defined.

(** Addresses of the static handler objects, and their initial contents. *)
Definition rx_time_handler : loc := 0%nat.
Definition rx_node_id_handler : loc := 1%nat.
Definition tx_event_handler : loc := 2%nat.

Definition rx_time_init := mk_i2c_handler i2c_fn IOTLAB_I2C_RX_TIME SLAVE_TX 8 RX_TIME None.
Definition rx_node_id_init := mk_i2c_handler i2c_fn IOTLAB_I2C_RX_NODE_ID SLAVE_TX 2 RX_NODE_ID None.
Definition tx_event_init := mk_i2c_handler i2c_fn IOTLAB_I2C_TX_EVENT SLAVE_RX 2 TX_EVENT None.

(** The slave at power up. *)
Definition slave_init : slave i2c_fn time_fn :=
  mk_slave i2c_fn time_fn None (mk_msg (replicate I2C_PAYLOAD_SIZE 0) 0 (mk_timeval 0 0)) None
    {[rx_time_handler := rx_time_init; rx_node_id_handler := rx_node_id_init; tx_event_handler := tx_event_init]}
    None ST_IDLE [].

Section i2c.
Context `{!CnState.CnEnv} {build : Build}.
Abbreviation NM := (M node).

(** [get_timestamp]; it also clears [tv_sec], which the conversion overwrites. *)
Definition get_timestamp (g : time_fn) : NM soft_timer_timeval :=
  mzoom (T := CnState.cn) (now ← CnState.soft_timer_time; CnState.extend_relative now).

(** [memcpy(arg->payload, ...)]. *)
Definition write_payload (bs : list Z) : NM unit :=
  s ← mget;
  p ← mlift (arr_blit (payload (msg (link s))) 0 bs);
  smod (λ x, set_msg (mk_msg p (len (msg x)) (timestamp (msg x))) x).

Definition rx_time : NM unit :=
  s ← mget;
  write_payload (timeval_bytes (timestamp (msg (link s)))).

Definition rx_node_id : NM unit :=
  node_id ← mzoom (T := CnState.cn) CnControl.cn_control_node_id;
  write_payload (le_bytes 2 node_id).

Definition tx_event : NM unit :=
  s ← mget;
  event ← mlift (rd 2 (payload (msg (link s))) 0);
  mmod (λ s, mk_node (cnode s) (link s) (got_events s ++ [event])).

Definition call_fn (f : i2c_fn) : NM unit :=
  match f with RX_TIME => rx_time | RX_NODE_ID => rx_node_id | TX_EVENT => tx_event end.

Definition cn_i2c_start : NM unit :=
  mzoom (iotlab_i2c_slave_register_handler rx_time_handler) ;;
  mzoom (iotlab_i2c_slave_register_handler rx_node_id_handler) ;;
  mzoom (iotlab_i2c_slave_register_handler tx_event_handler) ;;
  mzoom (iotlab_i2c_slave_register_timestamp_fct GET_TIMESTAMP) ;;
  mzoom (T := slave i2c_fn time_fn) iotlab_i2c_slave_start.

Definition cn_i2c_stop : NM unit := mzoom (T := slave i2c_fn time_fn) iotlab_i2c_slave_stop.

(** ** The link and the commands of the gateway

    A command of the control node records the functions of [cn_alim] it calls;
    here they are carried out. *)

Fixpoint run_alim (es : list CnState.effect) : NM unit :=
  match es with
  | [] => mret tt
  | CnState.FxAlim CnState.CN_I2C_START :: es => cn_i2c_start ;; run_alim es
  | CnState.FxAlim CnState.CN_I2C_STOP :: es => cn_i2c_stop ;; run_alim es
  | _ :: es => run_alim es
  end.

Definition gateway_command (m : M CnState.cn Z) : NM Z :=
  s ← mget;
  r ← mzoom (T := CnState.cn) m;
  s' ← mget;
  run_alim (drop (length (CnState.fx (cnode s))) (CnState.fx (cnode s'))) ;;
  mret r.

(** ** The bus

    What the driver of the master and the bus make of [i2c_tx_rx], by the
    documentation of [drivers/i2c_slave.h]: the device that has the address, if it
    is enabled, sees a start condition, the bytes written, a second start condition
    if bytes are read, each byte read, and a stop condition. *)

(** The address at which the device answers, from the calls of its driver. *)
Definition listening (cs : list i2c_call) : option Z :=
  foldl (λ a c, match c with
                | I2cEnable => None
                | I2cSetAddress b => Some (Z.land b 0xfe)
                | I2cConfigure => a
                | I2cDisable => None
                end) None cs.

Definition bus_events (tx : list Z) (n : nat) : list (i2c_slave_event * Z) :=
  (EV_RX_START, 0) :: ((EV_RX_BYTE,.) <$> tx) ++
  (if decide (n = O) then [] else (EV_TX_START, 0) :: replicate n (EV_TX_BYTE, 0)) ++ [(EV_STOP, 0)].

Definition cn_bus (addr : Z) (tx : list Z) (n : nat) : NM (Z * list Z) :=
  s ← mget;
  if decide (listening (calls (link s)) = Some (Z.land addr 0xfe)) then
    bs ← slave_events call_fn get_timestamp (bus_events tx n);
    mret (0, take n (drop (length tx + 2) bs))
  else mret (1, []).
End i2c.

End CnI2c.
