(* ===== verification/CnI2cSpec.v ===== *)
(** * The I2C requests: what the open node gets *)

From stdpp Require Import base numbers gmap list.
From S2P Require Import Prelude Chain Packet Event SoftTime IotlabPacket IotlabTime IotlabSerial CnMeasPkt CnMeasFlow CnState CnRadio CnConsumption CnControl CnSpec CnExample CnPowerSpec I2cSlave I2cSpec CnI2c.

Module CnI2cSpec.
Import SoftTime I2cSlave I2cSpec CnI2c.

Section i2c.
Context `{!CnState.CnEnv} {build : Build}.
Implicit Types (s : node) (x : slave i2c_fn time_fn).

(** ** The control node as a client of the machine *)

Lemma get_timestamp_ok g s :
  let c := cnode s in
  get_timestamp g s =
    Ok (IotlabTime.iotlab_time_extend_relative (CnState.itime c) (CnState.clock (S (CnState.reads c)))
          (u32 (CnState.clock (CnState.reads c))),
        mk_node (CnState.set_counts (S (S (CnState.reads c))) (CnState.eds c) c) (link s) (got_events s)).
Proof. done. Qed.

Lemma write_payload_ok bs s p :
  arr_blit (payload (msg (link s))) 0 bs = Ok p ->
  write_payload bs s =
    Ok (tt, over (set_msg (mk_msg p (len (msg (link s))) (timestamp (msg (link s)))) (link s)) s).
Proof. intros Hp. unfold write_payload. mrun. by rewrite Hp. Qed.

Lemma write_payload_fits bs s :
  length (payload (msg (link s))) = I2C_PAYLOAD_SIZE -> (length bs <= I2C_PAYLOAD_SIZE)%nat ->
  exists p, arr_blit (payload (msg (link s))) 0 bs = Ok p /\ length p = I2C_PAYLOAD_SIZE /\
    take (length bs) p = bs /\
    write_payload bs s =
      Ok (tt, over (set_msg (mk_msg p (len (msg (link s))) (timestamp (msg (link s)))) (link s)) s).
Proof.
  intros Hl Hb. destruct (arr_blit_ok (payload (msg (link s))) 0 bs) as [p Hp]; [lia|lia|].
  exists p. split_and!; [done|by rewrite (arr_blit_length _ _ _ _ Hp)| |by apply write_payload_ok].
  unfold arr_blit in Hp. rewrite decide_True in Hp by lia. injection Hp as <-. cbn [take app Z.to_nat].
  by rewrite take_app_length.
Qed.

#[export] Instance cn_client : I2cClient call_fn get_timestamp.
Proof.
  split; [intros g s; by eexists _, _|]. intros f s Hl. change (view s) with (link s) in *. destruct f; cbn [call_fn].
  - unfold rx_time. mrun. destruct (write_payload_fits (timeval_bytes (timestamp (msg (link s)))) s) as (p & _ & Hp & _ & E);
      [done|cbn; unfold I2C_PAYLOAD_SIZE; lia|]. rewrite E. by eexists p, _.
  - unfold rx_node_id. erewrite bind_ok by reflexivity. rewrite (over_view (T := CnState.cn)).
    destruct (write_payload_fits (le_bytes 2 (CnState.node_id (CnState.control (cnode s)))) s) as (p & _ & Hp & _ & E);
      [done|cbn; unfold I2C_PAYLOAD_SIZE; lia|]. exists p. eexists. split; [exact E|]. by split.
  - unfold tx_event. mrun. unfold rd. destruct (arr_slice _ 0 _) as [bs|] eqn:Eb.
    2:{ unfold arr_slice in Eb. rewrite decide_True in Eb by (rewrite Hl; unfold I2C_PAYLOAD_SIZE; lia). done. }
    change (mbind ?f (Ok ?y)) with (f y). cbn beta. mrun. exists (payload (msg (link s))). eexists. split; [done|].
    split; [done|]. cbn. by destruct (link s) as [? []].
Qed.
(** ** Requests *)

(** The handlers as [cn_i2c_start] links them. *)
Definition linked_handlers : gmap loc (iotlab_i2c_handler i2c_fn) :=
  {[rx_time_handler := rx_time_init;
    rx_node_id_handler := set_next (Some rx_time_handler) rx_node_id_init;
    tx_event_handler := set_next (Some rx_node_id_handler) tx_event_init]}.
Definition registered : list loc := [tx_event_handler; rx_node_id_handler; rx_time_handler].

(** The link is started and idle. *)
Definition answers s : Prop :=
  let x := link s in
  handlers x = linked_handlers /\ handlers_list x = Some tx_event_handler /\
  length (payload (msg x)) = I2C_PAYLOAD_SIZE /\ I2cSlave.get_timestamp x = Some GET_TIMESTAMP /\
  fsm_state x = ST_IDLE /\ listening (calls x) = Some IOTLAB_I2C_CN_ADDR.

Lemma linked_bounded : bounded linked_handlers.
Proof.
  unfold linked_handlers, bounded, I2C_PAYLOAD_SIZE.
  repeat apply map_Forall_insert_2; [cbn; lia..|]. apply map_Forall_empty.
Qed.
Lemma linked_chain : chain linked_handlers (Some tx_event_handler) registered.
Proof. repeat (split; [done|eexists; split; [done|]]). done. Qed.

Lemma answers_slave_ok s : answers s -> slave_ok registered (link s).
Proof.
  intros (Eh & El & Hl & Eg & Ef & _). unfold slave_ok, position. rewrite Eh, El, Eg, Ef.
  split_and!; [apply linked_chain|apply linked_bounded|done|by eexists|done].
Qed.

(** The bus delivers the events of a transaction. *)
Lemma cn_bus_ok s tx n bs s' :
  answers s -> slave_events call_fn get_timestamp (bus_events tx n) s = Ok (bs, s') ->
  cn_bus iotlab_i2c_init tx n s = Ok ((0, take n (drop (length tx + 2) bs)), s').
Proof.
  intros (_ & _ & _ & _ & _ & Hc) E. unfold cn_bus. mrun. rewrite decide_True by (by rewrite Hc).
  mstep E. done.
Qed.

(** The time of the start condition. *)
Definition start_time s : soft_timer_timeval :=
  let c := cnode s in
  IotlabTime.iotlab_time_extend_relative (CnState.itime c) (CnState.clock (S (CnState.reads c)))
    (u32 (CnState.clock (CnState.reads c))).

(** The clock has been read twice. *)
Definition after_start s : CnState.cn :=
  CnState.set_counts (S (S (CnState.reads (cnode s)))) (CnState.eds (cnode s)) (cnode s).

Lemma read_request s h l k n (bs : list Z) :
  answers s -> find_header linked_handlers registered h = Some l -> linked_handlers !! l = Some k ->
  type k = SLAVE_TX -> Z.of_nat n = payload_len k -> n <> O -> length bs = n ->
  (forall s1, cnode s1 = after_start s -> timestamp (msg (link s1)) = start_time s ->
     call_fn (handler k) s1 = write_payload bs s1) ->
  exists s', cn_bus iotlab_i2c_init [h] n s = Ok ((0, bs), s') /\ answers s' /\
    cnode s' = after_start s /\ got_events s' = got_events s.
Proof.
  intros Ha Hh Hk Ht Hn Hn0 Hb Hcall. pose proof (answers_slave_ok s Ha) as Hok.
  pose proof Ha as (Eh & El & Hl & Eg & Ef & Ec).
  set (s1 := mk_node (after_start s) (link s) (got_events s)).
  set (x1 := set_fsm ST_TX_WAIT_TX_START (set_msg (mk_msg (payload (msg (link s))) (len (msg (link s))) (start_time s))
               (set_msg_handler (Some l) (link s)))).
  pose proof (linked_bounded _ _ Hk) as Hkb. cbn in Hkb.
  destruct (write_payload_fits bs (over x1 s1)) as (p & Hp & Hlp & Htk & E); [done|unfold I2C_PAYLOAD_SIZE in *; lia|].
  rewrite <- (Hcall (over x1 s1)) in E by done.
  assert (slave_events call_fn get_timestamp (read_events h n) s =
    Ok ([0; h; 0] ++ take n p ++ [0], over (set_fsm ST_IDLE (set_msg (mk_msg p (payload_len k) (start_time s))
          (set_msg_handler (Some l) (link s)))) s1)) as Etr.
  { rewrite <- (over_view (T := slave i2c_fn time_fn) s) at 1.
    eapply (read_transaction _ _ registered (link s) s GET_TIMESTAMP (start_time s) s1 h l k n p x1);
      try done; rewrite ?Eh; done. }
  eexists. split.
  { erewrite (cn_bus_ok s [h] n) by (exact Ha || (unfold bus_events; rewrite decide_False by done; exact Etr)).
    cbn [length Nat.add drop app]. rewrite drop_0, take_app_length' by (rewrite length_take; lia).
    rewrite <- Hb at 1. rewrite Htk. reflexivity. }
  split_and!; [|done|done]. cbn. by split_and!.
Qed.
Lemma write_request s h l k bs :
  answers s -> find_header linked_handlers registered h = Some l -> linked_handlers !! l = Some k ->
  type k = SLAVE_RX -> Z.of_nat (length bs) = payload_len k -> handler k = TX_EVENT -> (length bs = 2)%nat ->
  exists s', cn_bus iotlab_i2c_init (h :: bs) 0 s = Ok ((0, []), s') /\ answers s' /\
    cnode s' = after_start s /\ got_events s' = got_events s ++ [le_value bs].
Proof.
  intros Ha Hh Hk Ht Hn Hf Hb. pose proof (answers_slave_ok s Ha) as Hok.
  pose proof Ha as (Eh & El & Hl & Eg & Ef & Ec).
  set (s1 := mk_node (after_start s) (link s) (got_events s)).
  destruct (write_transaction call_fn get_timestamp registered (link s) s GET_TIMESTAMP (start_time s) s1 h l k bs)
    as (p & Hp & Htr); try done; try (by rewrite Eh).
  set (x2 := set_fsm ST_RX_WAIT_RX_STOP _) in Htr.
  assert (rd 2 p 0 = Ok (le_value bs)) as Hrd.
  { unfold rd. replace (Z.of_nat 2) with (Z.of_nat (length bs)) by lia. by rewrite (arr_blit_slice _ _ _ _ Hp). }
  set (s2 := mk_node (after_start s) (link s) (got_events s ++ [le_value bs])).
  specialize (Htr x2 s2). rewrite Hf in Htr.
  assert (call_fn TX_EVENT (over x2 s1) = Ok (tt, over x2 s2)) as Hcall.
  { cbn [call_fn]. unfold tx_event. mrun. cbn [link over link_lens x2 msg set_fsm set_msg payload]. by rewrite Hrd. }
  specialize (Htr Hcall). change (link s) with (view s) in Htr at 1. rewrite over_view in Htr. eexists. split.
  { rewrite (cn_bus_ok s (h :: bs) 0 _ _ Ha Htr). reflexivity. }
  split_and!; [|done|done]. cbn. split_and!; try done.
  change (length p = I2C_PAYLOAD_SIZE). by rewrite (arr_blit_length _ _ _ _ Hp).
Qed.

Lemma timeval_bytes_inv t : is_u32 (tv_sec t) -> is_u32 (tv_usec t) -> bytes_timeval (timeval_bytes t) = t.
Proof.
  intros H1 H2. unfold bytes_timeval, timeval_bytes.
  rewrite take_app_length', drop_app_length', (take_ge (le_bytes 4 (tv_usec t))) by (by rewrite le_bytes_length).
  rewrite !le_value_bytes. rewrite !Z.mod_small by (change (256 ^ Z.of_nat 4) with 4294967296; lia). by destruct t.
Qed.

Lemma start_time_u32 s : is_u32 (tv_sec (start_time s)) /\ is_u32 (tv_usec (start_time s)).
Proof.
  unfold start_time. generalize (CnState.itime (cnode s)) (CnState.clock (S (CnState.reads (cnode s))))
    (u32 (CnState.clock (CnState.reads (cnode s)))). intros st now tick.
  unfold IotlabTime.iotlab_time_extend_relative, IotlabTime.iotlab_time_convert, IotlabTime.iotlab_time_convert_.
  case_match; cbn; split; apply u32_range.
Qed.

(** C10: the open node gets what it asks for over the I2C link. Once the link is started,
    [iotlab_get_time] returns the unix time of the control node at the start of the
    transfer, [iotlab_get_node_id] the identifier the gateway has set, and
    [iotlab_send_event] delivers its value to the control node, once; each
    transaction succeeds, leaves the link ready for the next one, and changes
    nothing else of the control node. *)
Theorem i2c_requests s v :
  answers s ->
  (exists s', iotlab_get_time cn_bus iotlab_i2c_init s =
       Ok ((0, IotlabTime.iotlab_time_extend_relative (CnState.itime (cnode s)) (CnState.clock (S (CnState.reads (cnode s))))
                 (u32 (CnState.clock (CnState.reads (cnode s))))), s') /\
     answers s' /\ cnode s' = after_start s /\ got_events s' = got_events s) /\
  (exists s', iotlab_get_node_id cn_bus iotlab_i2c_init s =
       Ok ((0, u16 (CnState.node_id (CnState.control (cnode s)))), s') /\
     answers s' /\ cnode s' = after_start s /\ got_events s' = got_events s) /\
  (exists s', iotlab_send_event cn_bus iotlab_i2c_init v s = Ok (0, s') /\
     answers s' /\ cnode s' = after_start s /\ got_events s' = got_events s ++ [u16 v]).
Proof.
  intros Ha. split_and!.
  - destruct (read_request s IOTLAB_I2C_RX_TIME rx_time_handler rx_time_init 8 (timeval_bytes (start_time s)))
      as (s' & E & Hr); try done.
    { intros s1 _ Ht. cbn [call_fn handler rx_time_init]. unfold rx_time. mrun. by rewrite Ht. }
    exists s'. split; [|done]. unfold iotlab_get_time. mstep E. cbn [fst snd].
    rewrite (timeval_bytes_inv (start_time s)) by apply start_time_u32. reflexivity.
  - destruct (read_request s IOTLAB_I2C_RX_NODE_ID rx_node_id_handler (set_next (Some rx_time_handler) rx_node_id_init) 2
      (le_bytes 2 (CnState.node_id (CnState.control (cnode s))))) as (s' & E & Hr); try done.
    { intros s1 Hc _. cbn [call_fn handler rx_node_id_init set_next i2c_handler_linked]. unfold rx_node_id.
      erewrite bind_ok by reflexivity. rewrite (over_view (T := CnState.cn)).
      change (view s1) with (cnode s1). by rewrite Hc. }
    exists s'. split; [|done]. unfold iotlab_get_node_id. mstep E. cbn [fst snd]. by rewrite le_value_bytes.
  - destruct (write_request s IOTLAB_I2C_TX_EVENT tx_event_handler (set_next (Some rx_node_id_handler) tx_event_init)
      (le_bytes 2 v)) as (s' & E & Ha' & Hc & Hg); try done.
    exists s'. rewrite le_value_bytes in Hg. split; [|done]. unfold iotlab_send_event. by mstep E.
Qed.
(** ** Starting and stopping *)

(** The handlers at power up, or as they were last linked. *)
Definition static_table (hs : gmap loc (iotlab_i2c_handler i2c_fn)) : Prop :=
  hs = handlers slave_init \/ hs = linked_handlers.

Lemma register_ok s h k :
  handlers (link s) !! h = Some k ->
  mzoom (iotlab_i2c_slave_register_handler h) s =
    Ok (tt, over (set_list (Some h) (<[h := set_next (handlers_list (link s)) k]> (handlers (link s))) (link s)) s).
Proof.
  intros Hk. apply (zoom_ok (S := node)). unfold iotlab_i2c_slave_register_handler. mrun.
  change (view s) with (link s). by rewrite Hk.
Qed.

Lemma slave_start_ok x :
  iotlab_i2c_slave_start x = Ok (tt, set_calls (calls x ++ [I2cEnable; I2cSetAddress IOTLAB_I2C_CN_ADDR; I2cConfigure]) x).
Proof.
  unfold iotlab_i2c_slave_start, i2c_emit. mrun. unfold mmod. cbn [calls set_calls]. by rewrite <- !app_assoc.
Qed.

(** The handlers and the head of their list after [cn_i2c_start]. *)
Definition link_all (p : ptr) : gmap loc (iotlab_i2c_handler i2c_fn) :=
  <[tx_event_handler := set_next (Some rx_node_id_handler) tx_event_init]>
    (<[rx_node_id_handler := set_next (Some rx_time_handler) rx_node_id_init]>
      (<[rx_time_handler := set_next p rx_time_init]> linked_handlers)).

Lemma start_ok s :
  static_table (handlers (link s)) ->
  cn_i2c_start s = Ok (tt, over (set_calls (calls (link s) ++ [I2cEnable; I2cSetAddress IOTLAB_I2C_CN_ADDR; I2cConfigure])
    (set_get_timestamp (Some GET_TIMESTAMP) (set_list (Some tx_event_handler) (link_all (handlers_list (link s))) (link s)))) s).
Proof.
  intros Hs. unfold cn_i2c_start.
  destruct Hs as [Hs|Hs].
  all: erewrite bind_ok by (eapply register_ok; rewrite Hs; reflexivity).
  all: erewrite bind_ok by (eapply register_ok; cbn [link over link_lens handlers set_list]; rewrite Hs; reflexivity).
  all: erewrite bind_ok by (eapply register_ok; cbn [link over link_lens handlers set_list]; rewrite Hs; reflexivity).
  all: erewrite bind_ok by (apply (zoom_ok (S := node)); reflexivity).
  all: rewrite (zoom_ok (S := node) _ _ _ _ (slave_start_ok _)).
  all: unfold link_all; destruct s as [c [mh ms hl hs g f cs] ge]; cbn in Hs; subst hs; reflexivity.
Qed.

(** The handlers differ by their links only. *)
Lemma table_links hs : static_table hs -> same_but_next hs linked_handlers.
Proof.
  intros [-> | ->]; [|apply same_but_next_refl]. unfold slave_init, linked_handlers. cbn [handlers].
  intros l. destruct (decide (l = rx_time_handler)) as [->|H1]; [done|].
  destruct (decide (l = rx_node_id_handler)) as [->|H2]; [done|].
  destruct (decide (l = tx_event_handler)) as [->|H3]; [done|].
  by rewrite !lookup_insert_ne, !lookup_singleton_ne by done.
Qed.

Lemma position_links x x' :
  same_but_next (handlers x) (handlers x') -> msg_handler x' = msg_handler x -> msg x' = msg x ->
  fsm_state x' = fsm_state x -> position x -> position x'.
Proof.
  intros Hs Eh Em Ef. unfold position, in_message. rewrite Eh, Em, Ef.
  destruct (fsm_state x); try done; intros (h & k & Hh & Hk & Ht & Hok);
    destruct (same_but_next_lookup _ _ _ _ Hs Hk) as [q Hq]; by exists h, (set_next q k).
Qed.

Definition link_inv x : Prop :=
  static_table (handlers x) /\ length (payload (msg x)) = I2C_PAYLOAD_SIZE /\ position x /\
  ((handlers_list x = None /\ listening (calls x) = None) \/
   (handlers x = linked_handlers /\ handlers_list x = Some tx_event_handler /\
    I2cSlave.get_timestamp x = Some GET_TIMESTAMP /\ listening (calls x) = Some IOTLAB_I2C_CN_ADDR)).

Lemma link_inv_listening x :
  link_inv x -> listening (calls x) <> None -> slave_ok registered x /\ listening (calls x) = Some IOTLAB_I2C_CN_ADDR.
Proof.
  intros (_ & Hl & Hp & [[_ E]|(Eh & El & Eg & Ec)]) Hn; [by destruct Hn|]. split; [|done].
  unfold slave_ok. rewrite Eh, El, Eg. split_and!; [apply linked_chain|apply linked_bounded|done|by eexists|done].
Qed.

(** What happens to the link: it is started when it is stopped, it is stopped, an
    event occurs on the bus while the device is enabled, or the rest of the control
    node changes. *)
Inductive link_step : node -> node -> Prop :=
| link_start s s' : handlers_list (link s) = None -> cn_i2c_start s = Ok (tt, s') -> link_step s s'
| link_stop s s' : cn_i2c_stop s = Ok (tt, s') -> link_step s s'
| link_event s ev d b s' :
    listening (calls (link s)) <> None -> i2c_slave_handler call_fn get_timestamp ev d s = Ok (b, s') -> link_step s s'
| link_node s c : link_step s (mk_node c (link s) (got_events s)).
Lemma link_event_ok ev d s :
  slave_ok registered (link s) ->
  wp (i2c_slave_handler call_fn get_timestamp ev d) (λ _ s', same_table (link s) (link s') /\
    slave_ok registered (link s') /\ (ev = EV_STOP -> fsm_state (link s') = ST_IDLE)) s.
Proof. intros Hok. exact (wp_step (S := node) call_fn get_timestamp registered ev d s Hok). Qed.

Lemma link_step_inv s s' : link_step s s' -> link_inv (link s) -> link_inv (link s').
Proof.
  intros Hstep Hi. destruct Hstep as [s s' El E|s s' E|s ev d b s' Hn E|s c]; [| | |done].
  - pose proof Hi as (Ht & Hl & Hp & _). rewrite start_ok in E by done. injection E as <-.
    cbn [link over link_lens]. rewrite El. change (link_all None) with linked_handlers.
    split_and!; [by right|done|by apply (position_links (link s)); [apply table_links|..]|right]. cbn. split_and!; try done.
    unfold listening. by rewrite foldl_app.
  - destruct Hi as (Ht & Hl & Hp & _). injection E as <-. cbn. split_and!; [done|done|done|left].
    split; [done|]. cbn. unfold listening. by rewrite foldl_app.
  - destruct (link_inv_listening _ Hi Hn) as [Hok Ec]. pose proof Hi as (Ht & _ & _ & [[_ Ec']|(Eh & El & Eg & _)]); [congruence|].
    destruct (wp_inv _ _ _ _ _ (link_event_ok ev d s Hok) E) as ((Th & Tl & Tg & Tc) & Hok' & _).
    destruct Hok' as (_ & _ & Hl & _ & Hp). unfold link_inv. rewrite Th, Tl, Tg, Tc. split_and!; [done|done|done|by right].
Qed.

(** C4: the link survives whatever happens on the bus. From power up, however starts of
    the stopped link, stops, bus events in any order and other activity of the
    control node interleave, every event that reaches the enabled device is
    handled: the handler list is not broken, no byte is written or read outside of
    the message buffer. And whatever went wrong before, a stop condition makes the
    link ready for the next request. *)
Theorem i2c_link_safe s0 s :
  link s0 = slave_init -> rtc link_step s0 s ->
  (handlers_list (link s) = None -> exists s', cn_i2c_start s = Ok (tt, s')) /\
  (listening (calls (link s)) <> None ->
     (forall ev d, exists b s', i2c_slave_handler call_fn get_timestamp ev d s = Ok (b, s') /\ link_inv (link s')) /\
     (forall d, exists s', i2c_slave_handler call_fn get_timestamp EV_STOP d s = Ok (d, s') /\ answers s')).
Proof.
  intros H0 Hr. assert (link_inv (link s)) as Hi.
  { assert (link_inv (link s0)) as Hi0 by (rewrite H0; split_and!; [by left|done|done|by left]).
    revert Hi0. clear H0. induction Hr as [|??? Hs _ IH]; [done|]. intros Hi. by apply IH, (link_step_inv x). }
  split.
  { intros _. destruct Hi as (Ht & _). eexists. by apply start_ok. }
  intros Hn. destruct (link_inv_listening _ Hi Hn) as [Hok Ec].
  assert (forall ev d b s', i2c_slave_handler call_fn get_timestamp ev d s = Ok (b, s') -> link_inv (link s')) as Hpres.
  { intros ev d b s' E. eapply link_step_inv; [by eapply link_event|done]. }
  split.
  - intros ev d. destruct (wp_ok _ _ _ (link_event_ok ev d s Hok)) as (b & s' & E & _). eauto.
  - intros d. destruct (wp_ok _ _ _ (link_event_ok EV_STOP d s Hok)) as (b & s' & E & (_ & _ & _ & Tc) & _ & Hst).
    assert (b = d) as -> by (by eapply stop_data). exists s'. split; [done|]. change (view s') with (link s') in *.
    destruct (Hpres _ _ _ _ E) as (_ & Hl & _ & [[_ Ec']|(Eh & El & Eg & Ec')]).
    + rewrite Tc in Ec'. by destruct Hn.
    + split_and!; [done|done|done|done|by apply Hst|done].
Qed.
(** ** A second start *)

Definition no_alim (e : CnState.effect) : Prop := match e with CnState.FxAlim _ => False | _ => True end.

Lemma run_alim_skip es es' s : Forall no_alim es -> run_alim (es ++ es') s = run_alim es' s.
Proof. induction 1 as [|e es He _ IH]; [done|]. by destruct e. Qed.

Lemma power_select_effects sel c :
  exists es, CnConsumption.fiteco_lib_gwt_opennode_power_select sel c = Ok (tt, CnPowerSpec.emitted es c) /\ Forall no_alim es.
Proof.
  unfold CnConsumption.fiteco_lib_gwt_opennode_power_select, CnState.emit. destruct sel; mrun; eexists; (split;
    [unfold mmod, CnPowerSpec.emitted; CnSpec.cn_simpl; rewrite <- !app_assoc; reflexivity|by repeat constructor]).
Qed.

Lemma started_effects sel charge c f :
  no_alim charge -> CnState.post_start_cmd (CnState.alim c) = Some f ->
  exists es,
    (CnConsumption.fiteco_lib_gwt_opennode_power_select sel ;; CnState.emit charge ;;
     c0 ← mget; CnControl.call_alim (CnState.post_start_cmd (CnState.alim c0)) ;; mret 0) c =
      Ok (0, CnPowerSpec.emitted (es ++ [CnState.FxAlim f]) c) /\ Forall no_alim es.
Proof.
  intros Hc Hf. destruct (power_select_effects sel c) as (es & E & Hes). exists (es ++ [charge]).
  split; [|by apply Forall_app_2; [|constructor]].
  erewrite bind_ok by exact E. erewrite bind_ok by apply CnPowerSpec.emit_ok. rewrite CnPowerSpec.emitted_twice. mrun.
  change (CnState.alim (CnPowerSpec.emitted (es ++ [charge]) c)) with (CnState.alim c). rewrite Hf. cbn [CnControl.call_alim].
  erewrite bind_ok by apply CnPowerSpec.emit_ok. by rewrite CnPowerSpec.emitted_twice.
Qed.

Lemma on_start_effects c l b f :
  CnSpec.command c l [b] -> 0 <= b <= 2 -> CnState.post_start_cmd (CnState.alim c) = Some f ->
  exists es, CnControl.on_start l c = Ok (0, CnPowerSpec.emitted (es ++ [CnState.FxAlim f]) c) /\ Forall no_alim es.
Proof.
  intros Hc Hb Hf. pose proof (CnSpec.payload_byte_ok c l [b] 0 b Hc ltac:(lia) eq_refl) as Hbyte.
  unfold CnControl.on_start. erewrite bind_ok by (by apply CnSpec.payload_length_ok).
  change (negb (1 =? Z.of_nat (length [b]))) with false. cbn iota. erewrite bind_ok by exact Hbyte. cbn zeta.
  assert (b = 1 \/ b = 2 \/ b = 0) as [-> | [-> | ->]] by lia; by apply started_effects.
Qed.

Lemma gateway_start m s r es s' :
  m (cnode s) = Ok (r, CnPowerSpec.emitted (es ++ [CnState.FxAlim CnState.CN_I2C_START]) (cnode s)) -> Forall no_alim es ->
  cn_i2c_start (mk_node (CnPowerSpec.emitted (es ++ [CnState.FxAlim CnState.CN_I2C_START]) (cnode s)) (link s) (got_events s)) =
    Ok (tt, s') ->
  gateway_command m s = Ok (r, s').
Proof.
  intros E Hes E1. unfold gateway_command. mrun.
  erewrite bind_ok by (apply (zoom_ok (S := node) (T := CnState.cn)); exact E). mrun.
  cbn [cnode over cnode_lens CnPowerSpec.emitted CnState.fx CnState.set_fx]. rewrite drop_app_length.
  assert (run_alim (es ++ [CnState.FxAlim CnState.CN_I2C_START])
    (mk_node (CnPowerSpec.emitted (es ++ [CnState.FxAlim CnState.CN_I2C_START]) (cnode s)) (link s) (got_events s)) = Ok (tt, s')) as Ea.
  { rewrite run_alim_skip by done. cbn [run_alim]. by mstep E1. }
  by mstep Ea.
Qed.

(** The links after a second start. *)
Lemma restarted_cycle :
  lseg (link_all (Some tx_event_handler)) (Some tx_event_handler) registered (Some tx_event_handler).
Proof. repeat (split; [done|eexists; split; [done|]]). done. Qed.

Lemma restarted_headers h l k :
  h ∉ [IOTLAB_I2C_RX_TIME; IOTLAB_I2C_RX_NODE_ID; IOTLAB_I2C_TX_EVENT] -> l ∈ registered ->
  link_all (Some tx_event_handler) !! l = Some k -> header k <> h.
Proof.
  intros Hh Hl Hk <-. apply Hh. unfold registered in Hl. rewrite !elem_of_cons, elem_of_nil in Hl.
  destruct Hl as [-> |[-> |[-> |[]]]]; injection Hk as <-; cbn; set_solver.
Qed.

(** A second start command of the open node breaks the I2C link. [on_start] registers
    the handlers again without the link having been stopped, which makes a cycle of
    their list. A header byte that is none of the three known ones, such as a glitch
    on the bus, then makes the search for its handler run for ever, in the
    interrupt. *)
Theorem i2c_restart_hangs s l b h :
  answers s -> CnSpec.command (cnode s) l [b] -> 0 <= b <= 2 ->
  CnState.post_start_cmd (CnState.alim (cnode s)) = Some CnState.CN_I2C_START ->
  h ∉ [IOTLAB_I2C_RX_TIME; IOTLAB_I2C_RX_NODE_ID; IOTLAB_I2C_TX_EVENT] ->
  exists s', gateway_command (CnControl.on_start l) s = Ok (0, s') /\
    (forall fuel, decode_loop fuel (handlers (link s')) (handlers_list (link s')) h = Err EFuel) /\
    slave_events call_fn get_timestamp [(EV_RX_START, 0); (EV_RX_BYTE, h)] s' = Err EFuel.
Proof.
  intros Ha Hc Hb Hf Hh. pose proof Ha as (Eh & El & _ & _ & Ef & _).
  destruct (on_start_effects _ _ _ _ Hc Hb Hf) as (es & E & Hes).
  set (s1 := mk_node (CnPowerSpec.emitted (es ++ [CnState.FxAlim CnState.CN_I2C_START]) (cnode s)) (link s) (got_events s)).
  assert (static_table (handlers (link s1))) as Ht by (by right).
  pose proof (start_ok s1 Ht) as E1. change (handlers_list (link s1)) with (handlers_list (link s)) in E1. rewrite El in E1.
  assert (forall fuel, decode_loop fuel (link_all (Some tx_event_handler)) (Some tx_event_handler) h = Err EFuel) as Hloop.
  { intros fuel. apply (decode_loop_cycle _ _ registered); [apply restarted_cycle|done|]. intros x k. by apply restarted_headers. }
  eexists. split_and!; [by eapply gateway_start|exact Hloop|].
  by apply (header_hangs (S := node) call_fn get_timestamp _ s1 GET_TIMESTAMP (start_time s1)
    (mk_node (after_start s1) (link s1) (got_events s1))).
Qed.
End i2c.

(** ** A node whose link is started *)

#[local] Existing Instance iotlab_cn_build.
#[local] Existing Instance CnExample.ex_env.

Definition ex_off : node :=
  mk_node (CnState.set_alim (CnState.mk_alim (Some CnState.CN_I2C_STOP) (Some CnState.CN_I2C_START))
    (CnExample.ex_node [1] (CnExample.ex_radio CnRadio.default_config 0))) slave_init [].
Definition ex_on : node :=
  over (set_calls [I2cEnable; I2cSetAddress IOTLAB_I2C_CN_ADDR; I2cConfigure]
    (set_get_timestamp (Some GET_TIMESTAMP) (set_list (Some tx_event_handler) linked_handlers slave_init))) ex_off.

Lemma ex_answers : answers ex_on.
Proof. by split_and!. Qed.

Lemma i2c_requests_witness :
  exists s', iotlab_get_node_id cn_bus iotlab_i2c_init ex_on = Ok ((0, 0x1234), s') /\ answers s'.
Proof.
  destruct (i2c_requests ex_on 7 ex_answers) as (_ & (s' & E & Ha & _) & _). exists s'. by split.
Defined.

Lemma i2c_link_safe_witness :
  exists s', i2c_slave_handler call_fn get_timestamp EV_STOP 9 ex_on = Ok (9, s') /\ answers s'.
Proof.
  apply (i2c_link_safe ex_off ex_on); [reflexivity| |by vm_compute].
  apply rtc_once, link_start; [reflexivity|]. by rewrite start_ok by (by left).
Defined.

Lemma i2c_restart_hangs_witness :
  exists s', gateway_command (CnControl.on_start 20%nat) ex_on = Ok (0, s') /\
    slave_events call_fn get_timestamp [(EV_RX_START, 0); (EV_RX_BYTE, 0x55)] s' = Err EFuel.
Proof.
  destruct (i2c_restart_hangs ex_on 20%nat 1 0x55) as (s' & E & _ & Hh); [apply ex_answers| |lia|reflexivity| |by exists s'].
  - apply (CnExample.ex_command [1] (CnExample.ex_radio CnRadio.default_config 0)). cbn. lia.
  - set_solver.
Defined.
End CnI2cSpec.
