(* ===== verification/Csma.v ===== *)
(** * CSMA MAC layer ([net/mac_csma/mac_csma.c])

    A MAC without acknowledgement: a packet is sent at once when the channel is
    clear, and the radio listens the rest of the time. A frame is the source
    address, the destination address and the payload.

    The calls to the radio, the timers, the event queues and the application are
    recorded in order in [fx]; the results of the channel assessments come from
    [cca]. *)

From stdpp Require Import base numbers gmap list.
From S2P Require Import Prelude Packer Event SoftTime Phy.

Module Csma.
Import Packer Phy SoftTime.

Inductive csma_state := CSMA_STATE_RX | CSMA_STATE_TX.

(** The functions posted as events or given to the radio and the timer. *)
Inductive csma_fn := CSMA_ENTER_RX | CSMA_RX_DONE | CSMA_PROCESS_RX | CSMA_TX_DONE.

Inductive effect :=
| FxTimerInit
| FxTimerSetHandler (h : csma_fn)
| FxTimerStart (ticks : Z) (periodic : bool)
| FxPhyReset | FxPhyIdle
| FxPhyCca
| FxPhySetChannel (c : Z) | FxPhySetPower (p : Z)
| FxPhyRxNow (h : csma_fn)
| FxPhyTxNow (pkt : phy_packet) (h : csma_fn)
| FxEventPost (q : Event.event_queue) (h : csma_fn)
| FxReceived (src : Z) (data : list Z) (rssi lqi : Z).

Record csma := mk_csma {
  mutex_ : mutex;
  local_addr : Z;
  channel : Z;
  tx_power : Z;
  state : csma_state;
  rx_pkt : phy_packet;
  tx_pkt : phy_packet;
  fx : list effect;
  ccas : nat;
}.

Definition set_mutex (x : mutex) (r : csma) : csma :=
  mk_csma x (local_addr r) (channel r) (tx_power r) (state r) (rx_pkt r) (tx_pkt r) (fx r) (ccas r).
Definition set_config (a c p : Z) (r : csma) : csma :=
  mk_csma (mutex_ r) a c p (state r) (rx_pkt r) (tx_pkt r) (fx r) (ccas r).
Definition set_state (x : csma_state) (r : csma) : csma :=
  mk_csma (mutex_ r) (local_addr r) (channel r) (tx_power r) x (rx_pkt r) (tx_pkt r) (fx r) (ccas r).
Definition set_rx_pkt (x : phy_packet) (r : csma) : csma :=
  mk_csma (mutex_ r) (local_addr r) (channel r) (tx_power r) (state r) x (tx_pkt r) (fx r) (ccas r).
Definition set_tx_pkt (x : phy_packet) (r : csma) : csma :=
  mk_csma (mutex_ r) (local_addr r) (channel r) (tx_power r) (state r) (rx_pkt r) x (fx r) (ccas r).
Definition set_fx (x : list effect) (r : csma) : csma :=
  mk_csma (mutex_ r) (local_addr r) (channel r) (tx_power r) (state r) (rx_pkt r) (tx_pkt r) x (ccas r).
Definition set_ccas (x : nat) (r : csma) : csma :=
  mk_csma (mutex_ r) (local_addr r) (channel r) (tx_power r) (state r) (rx_pkt r) (tx_pkt r) (fx r) x.

Abbreviation CM := (M csma).

Definition emit (e : effect) : CM unit := mmod (λ s, set_fx (fx s ++ [e]) s).

(** The mutex is waited for one tick only, and the result is not tested: after
    that [take] goes on without it. *)
Definition take : CM unit := fun s =>
  match mutex_ s with None => Err EUndef | Some _ => Ok (tt, set_mutex (Some true) s) end.
Definition give : CM unit := fun s =>
  match sem_give (mutex_ s) with Ok m => Ok (tt, set_mutex m s) | Err e => Err e end.

Definition TEN_SECONDS : Z := 327680.

Section csma.
(** Result of the channel assessments: not zero when the channel is clear. *)
Variable cca : nat -> Z.

Definition phy_cca : CM Z := fun s =>
  Ok (cca (ccas s), set_fx (fx s ++ [FxPhyCca]) (set_ccas (S (ccas s)) s)).

(** [platform_uid], [random] and [uid16]: results of [platform_uid()] (0
    without one) and [random_rand16()], and the chip identifier. *)
Definition mac_csma_init (platform_uid random : Z) (uid16 : list Z) (chan power : Z) : CM unit :=
  s ← mget;
  (match mutex_ s with None => mmod (set_mutex (Some false)) | Some _ => mret tt end) ;;
  let a := if ctrue platform_uid then platform_uid else foldl Z.lxor random (list.take 6 uid16) in
  mmod (set_config a chan power) ;;
  emit FxTimerInit ;;
  emit FxPhyReset ;;
  emit (FxTimerSetHandler CSMA_ENTER_RX) ;;
  emit (FxEventPost Event.EVENT_QUEUE_NETWORK CSMA_ENTER_RX).

(** The frame written in the transmission packet. *)
Definition fill_tx (dest_addr : Z) (bytes : list Z) : CM unit :=
  mmod (λ s, set_tx_pkt (phy_prepare_packet (tx_pkt s)) s) ;;
  s ← mget;
  '(raw, p) ← mlift (packer_uint16_pack (raw_data (tx_pkt s)) (data (tx_pkt s)) (local_addr s));
  '(raw, p) ← mlift (packer_uint16_pack raw p dest_addr);
  raw ← mlift (arr_blit raw p bytes);
  mmod (λ s, set_tx_pkt (set_length (u8 (4 + Z.of_nat (length bytes))) (set_raw raw (tx_pkt s))) s).

(** [bytes] are the [length] bytes read at [data]. *)
Definition mac_csma_data_send (dest_addr : Z) (bytes : list Z) : CM Z :=
  take ;;
  s ← mget;
  match state s with
  | CSMA_STATE_TX => give ;; mret 0
  | CSMA_STATE_RX =>
      fill_tx dest_addr bytes ;;
      emit FxPhyIdle ;;
      c ← phy_cca;
      if ctrue c then
        s ← mget;
        emit (FxPhyTxNow (tx_pkt s) CSMA_TX_DONE) ;;
        mmod (set_state CSMA_STATE_TX) ;;
        give ;;
        mret 1
      else
        give ;;
        emit (FxEventPost Event.EVENT_QUEUE_APPLI CSMA_ENTER_RX) ;;
        mret 0
  end.

Definition csma_enter_rx : CM unit :=
  take ;;
  emit FxPhyIdle ;;
  s ← mget;
  emit (FxPhySetChannel (channel s)) ;;
  emit (FxPhySetPower (tx_power s)) ;;
  mmod (λ s, set_rx_pkt (phy_prepare_packet (rx_pkt s)) s) ;;
  emit (FxPhyRxNow CSMA_RX_DONE) ;;
  mmod (set_state CSMA_STATE_RX) ;;
  emit (FxTimerStart TEN_SECONDS false) ;;
  give.

Definition csma_rx_done (status : phy_status) : CM unit :=
  if negb (bool_decide (status = PHY_SUCCESS)) then
    emit (FxEventPost Event.EVENT_QUEUE_APPLI CSMA_ENTER_RX)
  else
    s ← mget;
    if length_ (rx_pkt s) <? 4 then emit (FxEventPost Event.EVENT_QUEUE_APPLI CSMA_ENTER_RX)
    else emit (FxEventPost Event.EVENT_QUEUE_APPLI CSMA_PROCESS_RX).

(** The payload given to the application is the [length] bytes it may read. *)
Definition csma_process_rx : CM unit :=
  take ;;
  s ← mget;
  let k := rx_pkt s in
  '(src_addr, _) ← mlift (packer_uint16_unpack (raw_data k) (data k));
  '(dest_addr, _) ← mlift (packer_uint16_unpack (raw_data k) (data k + 2));
  let length := u8 (length_ k - 4) in
  mwhen ((dest_addr =? 0xFFFF) || (dest_addr =? local_addr s))
    (payload ← mlift (arr_slice (raw_data k) (data k + 4) length);
     emit (FxReceived src_addr payload (rssi k) (lqi k))) ;;
  give ;;
  csma_enter_rx.

Definition csma_tx_done (status : phy_status) : CM unit :=
  take ;;
  give ;;
  csma_enter_rx.
End csma.

(** ** Frames *)

Definition csma_frame (src dst : Z) (bytes : list Z) : list Z := be16 src ++ be16 dst ++ bytes.

(** Packet [k] carries [frame] at its data pointer. *)
Definition pkt_carries (k : phy_packet) (frame : list Z) : Prop :=
  length_ k = Z.of_nat (length frame) /\
  exists h tl, raw_data k = h ++ frame ++ tl /\ data k = Z.of_nat (length h).

Lemma unpack16_at h v tl i :
  is_u16 v -> i = Z.of_nat (length h) ->
  packer_uint16_unpack (h ++ be16 v ++ tl) i = Ok (v, i + 2).
Proof.
  intros Hv ->. unfold packer_uint16_unpack.
  assert (forall j x, be16 v !! j = Some x ->
    arr_get (h ++ be16 v ++ tl) (Z.of_nat (length h) + Z.of_nat j) = Ok x) as G.
  { intros j x Hx. apply arr_get_ok; [lia|]. rewrite <- Nat2Z.inj_add, Nat2Z.id, lookup_app_r by lia.
    replace (length h + j - length h)%nat with j by lia.
    by apply lookup_app_l_Some. }
  pose proof (G 0%nat _ eq_refl) as G0. rewrite Z.add_0_r in G0. rewrite G0. change (mbind ?f (Ok ?x)) with (f x). cbn beta.
  change (Z.of_nat (length h) + 1) with (Z.of_nat (length h) + Z.of_nat 1). rewrite (G 1%nat _ eq_refl).
  change (mbind ?f (Ok ?x)) with (f x). cbn beta.
  rewrite shiftl_8. do 2 f_equal. mlia.
Qed.

Section frames.
Variable cca : nat -> Z.

Lemma fill_tx_ok s dest bytes :
  Z.of_nat (length bytes) + 4 <= Z.of_nat (length (raw_data (tx_pkt s))) -> Z.of_nat (length bytes) <= 251 ->
  exists k, fill_tx dest bytes s = Ok (tt, set_tx_pkt k s) /\
    pkt_carries k (csma_frame (local_addr s) dest bytes) /\ data k = 0.
Proof.
  intros Hraw H251. unfold fill_tx. mrun.
  set (raw := raw_data (tx_pkt s)) in *.
  change (raw_data (tx_pkt (set_tx_pkt (phy_prepare_packet (tx_pkt s)) s))) with raw.
  cbn [data tx_pkt set_tx_pkt phy_prepare_packet set_data local_addr].
  destruct (pack16_blit raw 0 (local_addr s)) as (b1 & E1 & B1); [lia|lia|]. rewrite E1. mrun.
  pose proof (arr_blit_length _ _ _ _ B1) as L1.
  destruct (pack16_blit b1 (0 + 2) dest) as (b2 & E2 & B2); [lia|lia|]. rewrite E2. mrun.
  pose proof (arr_blit_length _ _ _ _ B2) as L2.
  destruct (arr_blit_ok b2 (0 + 2 + 2) bytes) as [b3 B3]; [lia|lia|]. rewrite B3. mrun.
  assert (arr_blit raw 0 (csma_frame (local_addr s) dest bytes) = Ok b3) as B.
  { destruct (arr_blit_app raw 0 (be16 (local_addr s)) (be16 dest ++ bytes)) as (c1 & c2 & F1 & F2 & F3 & _);
      [lia|cbn; lia|].
    rewrite B1 in F1. injection F1 as <-.
    destruct (arr_blit_app b1 (0 + 2) (be16 dest) bytes) as (d1 & d2 & G1 & G2 & G3 & _); [lia|cbn; lia|].
    rewrite B2 in G1. injection G1 as <-. change (0 + Z.of_nat (length (be16 (local_addr s)))) with (0 + 2) in F2.
    change (0 + 2 + Z.of_nat (length (be16 dest))) with (0 + 2 + 2) in G2. unfold csma_frame. congruence. }
  eexists. split; [reflexivity|]. split; [|done]. split.
  - cbn. rewrite u8_id by lia. lia.
  - unfold arr_blit in B. case_decide; [|done]. injection B as <-.
    eexists [], _. split; [reflexivity|done].
Qed.

(** [mac_csma_data_send] refuses (0) while a transmission is in progress and
    changes nothing. Otherwise it fills the transmission packet with the frame
    from the local address to the destination, and assesses the channel: clear,
    it gives this packet to the radio and returns 1 with the MAC in state TX;
    busy, it returns 0 and requests the return to reception. *)
Theorem mac_csma_data_send_spec s dest bytes :
  mutex_ s = Some false ->
  Z.of_nat (length bytes) + 4 <= Z.of_nat (length (raw_data (tx_pkt s))) -> Z.of_nat (length bytes) <= 251 ->
  (state s = CSMA_STATE_TX -> mac_csma_data_send cca dest bytes s = Ok (0, s)) /\
  (state s = CSMA_STATE_RX ->
   let clear := ctrue (cca (ccas s)) in
   exists k s', mac_csma_data_send cca dest bytes s = Ok (if clear then 1 else 0, s') /\
     state s' = (if clear then CSMA_STATE_TX else CSMA_STATE_RX) /\
     pkt_carries k (csma_frame (local_addr s) dest bytes) /\ tx_pkt s' = k /\
     mutex_ s' = Some false /\ local_addr s' = local_addr s /\ rx_pkt s' = rx_pkt s /\
     fx s' = fx s ++ [FxPhyIdle; FxPhyCca;
       if clear then FxPhyTxNow k CSMA_TX_DONE else FxEventPost Event.EVENT_QUEUE_APPLI CSMA_ENTER_RX]).
Proof.
  intros Hm Hraw H251. unfold mac_csma_data_send, take.
  split; intros Hst; erewrite bind_ok by (by rewrite Hm); mrun; cbn [state set_mutex]; rewrite Hst.
  - erewrite bind_ok by reflexivity. cbn. by destruct s; cbn in *; rewrite Hm.
  - destruct (fill_tx_ok (set_mutex (Some true) s) dest bytes Hraw H251) as (k & E & Hk & _).
    erewrite bind_ok by exact E. unfold emit. mrun. erewrite bind_ok by reflexivity.
    cbn [ccas set_fx set_tx_pkt set_mutex]. destruct (ctrue (cca (ccas s))); cbn zeta; cbn iota.
    all: mrun; erewrite bind_ok by reflexivity; mrun; exists k; eexists; split; [reflexivity|].
    all: split_and!; try reflexivity; try exact Hk; try exact Hst.
    all: cbn; by rewrite <- !app_assoc.
Qed.
End frames.

(** ** Reception *)

(** What [csma_enter_rx] asks of the radio and of the timer. *)
Definition rx_entry (s : csma) : list effect :=
  [FxPhyIdle; FxPhySetChannel (channel s); FxPhySetPower (tx_power s); FxPhyRxNow CSMA_RX_DONE;
   FxTimerStart TEN_SECONDS false].

Lemma csma_enter_rx_ok s :
  mutex_ s = Some false ->
  csma_enter_rx s =
    Ok (tt, set_fx (fx s ++ rx_entry s) (set_state CSMA_STATE_RX
              (set_rx_pkt (phy_prepare_packet (rx_pkt s)) s))).
Proof.
  intros Hm. destruct s as [m a c p st rx tx f n]. cbn in Hm. subst m. unfold csma_enter_rx, take, emit.
  erewrite bind_ok by reflexivity. mrun. unfold give. cbn. by rewrite <- !app_assoc.
Qed.

Lemma csma_fields k src dst bytes :
  is_u16 src -> is_u16 dst -> pkt_carries k (csma_frame src dst bytes) ->
  packer_uint16_unpack (raw_data k) (data k) = Ok (src, data k + 2) /\
  packer_uint16_unpack (raw_data k) (data k + 2) = Ok (dst, data k + 2 + 2) /\
  arr_slice (raw_data k) (data k + 4) (length_ k - 4) = Ok bytes.
Proof.
  intros Hs Hd [Hl (h & tl & -> & Hdk)]. unfold csma_frame in *. split_and!.
  - rewrite <- app_assoc. by apply unpack16_at.
  - replace (h ++ (be16 src ++ be16 dst ++ bytes) ++ tl) with ((h ++ be16 src) ++ be16 dst ++ bytes ++ tl)
      by (by rewrite <- !app_assoc).
    apply unpack16_at; [done|]. rewrite length_app. cbn. lia.
  - replace (h ++ (be16 src ++ be16 dst ++ bytes) ++ tl) with ((h ++ be16 src ++ be16 dst) ++ bytes ++ tl)
      by (by rewrite <- !app_assoc).
    replace (length_ k - 4) with (Z.of_nat (length bytes)) by (rewrite Hl, !length_app; cbn; lia).
    apply arr_slice_at. rewrite !length_app. cbn. lia.
Qed.

(** [csma_process_rx] on a received frame: the application gets the source
    address and exactly the payload of the frame, with the quality measures of the
    radio, when the destination is the broadcast address or the local address, and
    nothing otherwise; in both cases the MAC listens again with the mutex free. *)
Theorem csma_process_rx_spec s src dst bytes :
  mutex_ s = Some false -> is_u16 src -> is_u16 dst -> Z.of_nat (length bytes) <= 251 ->
  pkt_carries (rx_pkt s) (csma_frame src dst bytes) ->
  exists s', csma_process_rx s = Ok (tt, s') /\ mutex_ s' = Some false /\ state s' = CSMA_STATE_RX /\
    tx_pkt s' = tx_pkt s /\ local_addr s' = local_addr s /\
    fx s' = fx s ++
      (if bool_decide (dst = 0xFFFF \/ dst = local_addr s)
       then [FxReceived src bytes (rssi (rx_pkt s)) (lqi (rx_pkt s))] else []) ++ rx_entry s.
Proof.
  intros Hm Hs Hd Hb Hk. destruct (csma_fields _ _ _ _ Hs Hd Hk) as (E1 & E2 & E3).
  assert (u8 (length_ (rx_pkt s) - 4) = length_ (rx_pkt s) - 4) as El.
  { apply u8_id. destruct Hk as [-> _]. unfold csma_frame. rewrite !length_app. cbn. lia. }
  unfold csma_process_rx, take. erewrite bind_ok by (by rewrite Hm). mrun. cbn [rx_pkt set_mutex local_addr].
  rewrite E1. mrun. rewrite E2. mrun. rewrite El, E3.
  assert ((dst =? 65535) || (dst =? local_addr s) = bool_decide (dst = 65535 \/ dst = local_addr s)) as ->.
  { apply eq_true_iff_eq. rewrite orb_true_iff, !Z.eqb_eq, bool_decide_eq_true. done. }
  destruct (bool_decide _); unfold emit, mwhen; mrun; unfold give; erewrite bind_ok by reflexivity;
    rewrite csma_enter_rx_ok by reflexivity; eexists; (split; [reflexivity|]); split_and!; try reflexivity.
  cbn. by rewrite <- !app_assoc.
Qed.

(** ** Witnesses *)

Definition radio_pkt (bytes : list Z) : phy_packet :=
  mk_phy 0 (Z.of_nat (length bytes)) (bytes ++ replicate (127 - length bytes) 0) 40 200 0 0 0 0 (mk_alt 0 0) (mk_alt 0 0).

Definition node_A : csma := mk_csma (Some false) 0x1234 22 3 CSMA_STATE_RX (radio_pkt []) (radio_pkt []) [] 0.
Definition node_B : csma :=
  mk_csma (Some false) 0xABCD 22 3 CSMA_STATE_RX (radio_pkt (csma_frame 0x1234 0xABCD [7; 8])) (radio_pkt []) [] 0.

Lemma mac_csma_data_send_spec_witness :
  exists s', mac_csma_data_send (λ _, 1) 0xABCD [7; 8] node_A = Ok (1, s') /\ state s' = CSMA_STATE_TX.
Proof.
  destruct (mac_csma_data_send_spec (λ _, 1) node_A 0xABCD [7; 8]) as [_ H]; [reflexivity|cbn; lia|cbn; lia|].
  destruct (H eq_refl) as (k & s' & E & St & _). exists s'. split; [exact E|exact St].
Defined.

Lemma csma_process_rx_spec_witness :
  exists s', csma_process_rx node_B = Ok (tt, s') /\ fx s' = FxReceived 0x1234 [7; 8] 40 200 :: rx_entry node_B.
Proof.
  destruct (csma_process_rx_spec node_B 0x1234 0xABCD [7; 8]) as (s' & E & _ & _ & _ & _ & F).
  - reflexivity.
  - lia.
  - lia.
  - cbn. lia.
  - split; [reflexivity|]. eexists [], _. split; reflexivity.
  - exists s'. split; [exact E|exact F].
Defined.

End Csma.
