(* ===== verification/TdmaPacket.v ===== *)
(** * TDMA packets ([net/mac_tdma/tdma_packet.h])

    A [tdma_packet_t] is a packed structure laid over the raw bytes of a radio
    packet: header (magic, network, source, destination, version and type) and
    payload. The functions take the bytes and the offset of the structure. *)

From stdpp Require Import base numbers gmap list.
From S2P Require Import Prelude Packer.

Module TdmaPacket.
Import Packer.

Definition TDMA_PKT_MAGIC : Z := 0x54444D41.
Definition TDMA_VERSION : Z := 1.
Definition TDMA_PKTHDR_VT_TYPE_MASK : Z := 0x7.
Definition TDMA_PKTHDR_VT_VERSION_SHIFT : Z := 3.
Definition TDMA_PKT_SIZE_PAYLOAD : Z := 100.
Definition TDMA_PKT_SIZE_HEADER : Z := 11.
Definition TDMA_PKT_SIZE_BEACON : Z := 4.
Definition TDMA_PKT_SIZE_ASSOC : Z := 1.

Definition TDMA_PKT_DATA : Z := 0.
Definition TDMA_PKT_BEACON : Z := 1.
Definition TDMA_PKT_ASSOC : Z := 2.

(** Offsets of the fields in the packed structures. *)
Definition o_magic : Z := 0.
Definition o_panid : Z := 4.
Definition o_src : Z := 6.
Definition o_dst : Z := 8.
Definition o_vt : Z := 10.
Definition o_payload : Z := 11.
Definition o_assoc_slots : Z := o_payload.
Definition o_slot_count : Z := o_payload.
Definition o_slot_duration : Z := o_payload + 1.
Definition o_desc_cnt : Z := o_payload + 2.
Definition o_desc_off : Z := o_payload + 3.
Definition o_desc_own (i : Z) : Z := o_payload + 4 + 2 * i.

Definition tdma_packet_header_type (raw : list Z) (p : Z) : res Z :=
  vt ← rd 1 raw (p + o_vt); Ok (Z.land vt TDMA_PKTHDR_VT_TYPE_MASK).

Definition tdma_packet_header_version (raw : list Z) (p : Z) : res Z :=
  vt ← rd 1 raw (p + o_vt); Ok (Z.shiftr vt TDMA_PKTHDR_VT_VERSION_SHIFT).

Definition tdma_packet_header_prepare (raw : list Z) (p type panid src dst : Z) : res (list Z) :=
  raw ← wr 4 raw (p + o_magic) (packer_uint32_hton TDMA_PKT_MAGIC);
  raw ← wr 2 raw (p + o_panid) (packer_uint16_hton panid);
  raw ← wr 2 raw (p + o_src) (packer_uint16_hton src);
  raw ← wr 2 raw (p + o_dst) (packer_uint16_hton dst);
  wr 1 raw (p + o_vt) (Z.lor (Z.shiftl TDMA_VERSION TDMA_PKTHDR_VT_VERSION_SHIFT) type).

Definition tdma_packet_header_decode (raw : list Z) (p : Z) : res (list Z) :=
  m ← rd 4 raw (p + o_magic);
  raw ← wr 4 raw (p + o_magic) (packer_uint32_ntoh m);
  n ← rd 2 raw (p + o_panid);
  raw ← wr 2 raw (p + o_panid) (packer_uint16_ntoh n);
  s ← rd 2 raw (p + o_src);
  raw ← wr 2 raw (p + o_src) (packer_uint16_ntoh s);
  d ← rd 2 raw (p + o_dst);
  wr 2 raw (p + o_dst) (packer_uint16_ntoh d).

Definition tdma_packet_is_ok (raw : list Z) (p panid addr : Z) : res bool :=
  m ← rd 4 raw (p + o_magic);
  if negb (m =? TDMA_PKT_MAGIC) then Ok false
  else
    n ← rd 2 raw (p + o_panid);
    if negb (n =? panid) then Ok false
    else
      v ← tdma_packet_header_version raw p;
      if negb (v =? TDMA_VERSION) then Ok false
      else
        d ← rd 2 raw (p + o_dst);
        if negb (d =? addr) && negb (d =? 0xffff) then Ok false else Ok true.

(** ** Round trip *)

(** The header fields of a buffer, in host order. *)
Definition has_header (raw : list Z) (p magic panid src dst vt : Z) : Prop :=
  rd 4 raw (p + o_magic) = Ok magic /\ rd 2 raw (p + o_panid) = Ok panid /\
  rd 2 raw (p + o_src) = Ok src /\ rd 2 raw (p + o_dst) = Ok dst /\ rd 1 raw (p + o_vt) = Ok vt.

Ltac rbind := change (mbind ?f (Ok ?x)) with (f x); cbn beta.

Lemma header_prepare_spec raw p type panid src dst :
  0 <= p -> p + TDMA_PKT_SIZE_HEADER <= Z.of_nat (length raw) ->
  0 <= type < 8 -> is_u16 panid -> is_u16 src -> is_u16 dst ->
  exists raw', tdma_packet_header_prepare raw p type panid src dst = Ok raw' /\
    length raw' = length raw /\
    has_header raw' p (packer_uint32_hton TDMA_PKT_MAGIC) (packer_uint16_hton panid)
      (packer_uint16_hton src) (packer_uint16_hton dst) (8 + type) /\
    (forall n off, p + TDMA_PKT_SIZE_HEADER <= off \/ off + Z.of_nat n <= p -> rd n raw' off = rd n raw off).
Proof.
  unfold TDMA_PKT_SIZE_HEADER. intros Hp Hl Hty Hpan Hsrc Hdst.
  destruct (ntoh16_hton16 _ Hpan) as [_ Hp2], (ntoh16_hton16 _ Hsrc) as [_ Hs2],
    (ntoh16_hton16 _ Hdst) as [_ Hd2], (ntoh32_hton32 TDMA_PKT_MAGIC) as [_ Hm2]; [done|].
  unfold tdma_packet_header_prepare, o_magic, o_panid, o_src, o_dst, o_vt.
  destruct (wr_ok 4 raw (p + 0) (packer_uint32_hton TDMA_PKT_MAGIC)) as (r1 & E1 & L1); [lia..|].
  rewrite E1. rbind.
  destruct (wr_ok 2 r1 (p + 4) (packer_uint16_hton panid)) as (r2 & E2 & L2); [lia..|]. rewrite E2. rbind.
  destruct (wr_ok 2 r2 (p + 6) (packer_uint16_hton src)) as (r3 & E3 & L3); [lia..|]. rewrite E3. rbind.
  destruct (wr_ok 2 r3 (p + 8) (packer_uint16_hton dst)) as (r4 & E4 & L4); [lia..|]. rewrite E4. rbind.
  destruct (wr_ok 1 r4 (p + 10) (Z.lor (Z.shiftl TDMA_VERSION TDMA_PKTHDR_VT_VERSION_SHIFT) type))
    as (r5 & E5 & L5); [lia..|].
  exists r5. split; [done|]. split; [lia|]. split.
  - unfold has_header, o_magic, o_panid, o_src, o_dst, o_vt.
    rewrite (rd_wr_other 4 1 _ (p + 0) _ _ _ E5), (rd_wr_other 4 2 _ (p + 0) _ _ _ E4),
      (rd_wr_other 4 2 _ (p + 0) _ _ _ E3), (rd_wr_other 4 2 _ (p + 0) _ _ _ E2), (rd_wr _ _ _ _ _ E1) by lia.
    rewrite (rd_wr_other 2 1 _ (p + 4) _ _ _ E5), (rd_wr_other 2 2 _ (p + 4) _ _ _ E4),
      (rd_wr_other 2 2 _ (p + 4) _ _ _ E3), (rd_wr _ _ _ _ _ E2) by lia.
    rewrite (rd_wr_other 2 1 _ (p + 6) _ _ _ E5), (rd_wr_other 2 2 _ (p + 6) _ _ _ E4),
      (rd_wr _ _ _ _ _ E3) by lia.
    rewrite (rd_wr_other 2 1 _ (p + 8) _ _ _ E5), (rd_wr _ _ _ _ _ E4) by lia.
    rewrite (rd_wr _ _ _ _ _ E5).
    assert (Z.lor (Z.shiftl TDMA_VERSION TDMA_PKTHDR_VT_VERSION_SHIFT) type = 8 + type) as ->.
    { exact (lor_disjoint_add type 1 3 ltac:(lia) Hty). }
    change (256 ^ Z.of_nat 4) with 4294967296. change (256 ^ Z.of_nat 2) with 65536.
    change (256 ^ Z.of_nat 1) with 256. by rewrite !Z.mod_small by lia.
  - intros n off Hoff.
    rewrite (rd_wr_other n 1 _ off _ _ _ E5), (rd_wr_other n 2 _ off _ _ _ E4),
      (rd_wr_other n 2 _ off _ _ _ E3), (rd_wr_other n 2 _ off _ _ _ E2),
      (rd_wr_other n 4 _ off _ _ _ E1) by lia. done.
Qed.

(** Preparing a header needs room for it only. *)
Lemma header_prepare_total raw p type panid src dst :
  0 <= p -> p + TDMA_PKT_SIZE_HEADER <= Z.of_nat (length raw) ->
  exists raw', tdma_packet_header_prepare raw p type panid src dst = Ok raw' /\ length raw' = length raw.
Proof.
  unfold TDMA_PKT_SIZE_HEADER, tdma_packet_header_prepare, o_magic, o_panid, o_src, o_dst, o_vt. intros Hp Hl.
  do 4 (match goal with |- context [wr ?n ?r ?o ?v] =>
          destruct (wr_ok n r o v) as (? & ? & ?); [lia..|] end;
        match goal with H : wr _ _ _ _ = Ok _ |- _ => rewrite H; clear H end; rbind).
  edestruct wr_ok as (r5 & E5 & L5); [| |exists r5; split; [exact E5|congruence]]; lia.
Qed.

Lemma header_type_total raw p :
  0 <= p -> p + TDMA_PKT_SIZE_HEADER <= Z.of_nat (length raw) ->
  exists ty, tdma_packet_header_type raw p = Ok ty.
Proof.
  unfold TDMA_PKT_SIZE_HEADER, tdma_packet_header_type, rd, arr_slice, o_vt. intros Hp Hl.
  rewrite decide_True by lia. do 2 rbind. eauto.
Qed.

(** The values a conversion can produce. *)
Lemma hton16_range v : is_u16 (packer_uint16_hton v).
Proof. apply u16_range. Qed.

(** Decoding a header whose fields, as read in memory, are known. *)
Lemma header_decode_spec raw p m n s d vt :
  0 <= p -> p + TDMA_PKT_SIZE_HEADER <= Z.of_nat (length raw) ->
  has_header raw p m n s d vt -> is_u32 (packer_uint32_ntoh m) ->
  exists raw', tdma_packet_header_decode raw p = Ok raw' /\ length raw' = length raw /\
    has_header raw' p (packer_uint32_ntoh m) (packer_uint16_ntoh n) (packer_uint16_ntoh s)
      (packer_uint16_ntoh d) vt /\
    (forall k off, p + TDMA_PKT_SIZE_HEADER <= off \/ off + Z.of_nat k <= p -> rd k raw' off = rd k raw off).
Proof.
  unfold TDMA_PKT_SIZE_HEADER, has_header, o_magic, o_panid, o_src, o_dst, o_vt.
  intros Hp Hl (Hm & Hn & Hs & Hd & Hv) Hm32.
  pose proof (hton16_range n) as Hn2. pose proof (hton16_range s) as Hs2. pose proof (hton16_range d) as Hd2.
  unfold tdma_packet_header_decode, o_magic, o_panid, o_src, o_dst, o_vt. rewrite Hm. rbind.
  destruct (wr_ok 4 raw (p + 0) (packer_uint32_ntoh m)) as (r1 & E1 & L1); [lia..|]. rewrite E1. rbind.
  rewrite (rd_wr_other 2 4 _ (p + 4) _ _ _ E1), Hn by lia. rbind.
  destruct (wr_ok 2 r1 (p + 4) (packer_uint16_ntoh n)) as (r2 & E2 & L2); [lia..|]. rewrite E2. rbind.
  rewrite (rd_wr_other 2 2 _ (p + 6) _ _ _ E2), (rd_wr_other 2 4 _ (p + 6) _ _ _ E1), Hs by lia. rbind.
  destruct (wr_ok 2 r2 (p + 6) (packer_uint16_ntoh s)) as (r3 & E3 & L3); [lia..|]. rewrite E3. rbind.
  rewrite (rd_wr_other 2 2 _ (p + 8) _ _ _ E3), (rd_wr_other 2 2 _ (p + 8) _ _ _ E2),
    (rd_wr_other 2 4 _ (p + 8) _ _ _ E1), Hd by lia. rbind.
  destruct (wr_ok 2 r3 (p + 8) (packer_uint16_ntoh d)) as (r4 & E4 & L4); [lia..|].
  exists r4. split; [done|]. split; [lia|].
  assert (forall k off, p + 10 <= off \/ off + Z.of_nat k <= p -> rd k r4 off = rd k raw off) as Hrest.
  { intros k off Ho. by rewrite (rd_wr_other k 2 _ off _ _ _ E4), (rd_wr_other k 2 _ off _ _ _ E3),
      (rd_wr_other k 2 _ off _ _ _ E2), (rd_wr_other k 4 _ off _ _ _ E1) by lia. }
  split; [|intros k off Ho; apply Hrest; lia].
  rewrite (rd_wr_other 4 2 _ (p + 0) _ _ _ E4), (rd_wr_other 4 2 _ (p + 0) _ _ _ E3),
    (rd_wr_other 4 2 _ (p + 0) _ _ _ E2), (rd_wr _ _ _ _ _ E1) by lia.
  rewrite (rd_wr_other 2 2 _ (p + 4) _ _ _ E4), (rd_wr_other 2 2 _ (p + 4) _ _ _ E3),
    (rd_wr _ _ _ _ _ E2) by lia.
  rewrite (rd_wr_other 2 2 _ (p + 6) _ _ _ E4), (rd_wr _ _ _ _ _ E3), (rd_wr _ _ _ _ _ E4) by lia.
  rewrite Hrest, Hv by lia. change (256 ^ Z.of_nat 4) with 4294967296.
  change (256 ^ Z.of_nat 2) with 65536. unfold packer_uint16_ntoh in *.
  by rewrite !Z.mod_small by lia.
Qed.

Lemma header_type_spec raw p m n s d ty :
  has_header raw p m n s d (8 + ty) -> 0 <= ty < 8 ->
  tdma_packet_header_type raw p = Ok ty /\ tdma_packet_header_version raw p = Ok TDMA_VERSION.
Proof.
  intros (_ & _ & _ & _ & Hv) Hty. unfold tdma_packet_header_type, tdma_packet_header_version.
  rewrite Hv. rbind. change TDMA_PKTHDR_VT_TYPE_MASK with (Z.ones 3).
  rewrite Z.land_ones, Z.shiftr_div_pow2 by (unfold TDMA_PKTHDR_VT_VERSION_SHIFT; lia).
  change (2 ^ 3) with 8. change (2 ^ TDMA_PKTHDR_VT_VERSION_SHIFT) with 8.
  unfold TDMA_VERSION. split; f_equal; mlia.
Qed.

Lemma is_ok_spec raw p n s d ty panid addr :
  has_header raw p TDMA_PKT_MAGIC n s d (8 + ty) -> 0 <= ty < 8 ->
  tdma_packet_is_ok raw p panid addr =
    Ok (bool_decide (n = panid) && bool_decide (d = addr \/ d = 0xffff)).
Proof.
  intros Hh Hty. pose proof (header_type_spec _ _ _ _ _ _ _ Hh Hty) as [_ Hv].
  destruct Hh as (Hm & Hn & Hs & Hd & _). unfold tdma_packet_is_ok. rewrite Hm. rbind.
  change (negb (TDMA_PKT_MAGIC =? TDMA_PKT_MAGIC)) with false. cbn iota. rewrite Hn. rbind.
  destruct (Z.eqb_spec n panid) as [->|Hne]; cbn [negb]; [|by rewrite bool_decide_false].
  rewrite Hv. rbind. change (negb (TDMA_VERSION =? TDMA_VERSION)) with false. cbn iota. rewrite Hd. rbind.
  rewrite (bool_decide_true (panid = panid)) by done.
  destruct (Z.eqb_spec d addr), (Z.eqb_spec d 0xffff); cbn [negb andb];
    by rewrite ?bool_decide_true, ?bool_decide_false by tauto.
Qed.

(** A header written by [tdma_packet_header_prepare] and decoded on
    reception gives back its type, version and source, and the packet is
    accepted exactly by the nodes of its network it is addressed to, directly
    or by broadcast; the payload bytes are untouched by both. *)
Theorem tdma_header_roundtrip raw p type panid src dst panid' addr :
  0 <= p -> p + TDMA_PKT_SIZE_HEADER <= Z.of_nat (length raw) ->
  0 <= type < 8 -> is_u16 panid -> is_u16 src -> is_u16 dst ->
  exists raw1 raw2,
    tdma_packet_header_prepare raw p type panid src dst = Ok raw1 /\
    tdma_packet_header_decode raw1 p = Ok raw2 /\
    tdma_packet_header_type raw2 p = Ok type /\
    rd 2 raw2 (p + o_src) = Ok src /\
    tdma_packet_is_ok raw2 p panid' addr =
      Ok (bool_decide (panid = panid') && bool_decide (dst = addr \/ dst = 0xffff)) /\
    (forall n off, p + TDMA_PKT_SIZE_HEADER <= off -> rd n raw2 off = rd n raw off).
Proof.
  intros Hp Hl Hty Hpan Hsrc Hdst.
  destruct (header_prepare_spec raw p type panid src dst) as (r1 & E1 & L1 & Hh1 & Ho1); [done..|].
  destruct (ntoh16_hton16 _ Hpan) as [Hp2 _], (ntoh16_hton16 _ Hsrc) as [Hs2 _],
    (ntoh16_hton16 _ Hdst) as [Hd2 _], (ntoh32_hton32 TDMA_PKT_MAGIC) as [Hm2 _]; [done|].
  destruct (header_decode_spec r1 p _ _ _ _ _ Hp ltac:(lia) Hh1) as (r2 & E2 & L2 & Hh2 & Ho2);
    [by rewrite Hm2|].
  rewrite Hm2, Hp2, Hs2, Hd2 in Hh2. exists r1, r2. split_and!; [done|done| | | |].
  - by eapply header_type_spec.
  - by destruct Hh2 as (_ & _ & ? & _).
  - by eapply is_ok_spec.
  - intros n off Ho. rewrite Ho2, Ho1 by lia. done.
Qed.

Lemma tdma_header_roundtrip_witness :
  exists raw1 raw2,
    tdma_packet_header_prepare (replicate 20 0) 2 TDMA_PKT_DATA 0x1234 0x11 0x22 = Ok raw1 /\
    tdma_packet_header_decode raw1 2 = Ok raw2 /\ tdma_packet_is_ok raw2 2 0x1234 0x22 = Ok true.
Proof.
  destruct (tdma_header_roundtrip (replicate 20 0) 2 TDMA_PKT_DATA 0x1234 0x11 0x22 0x1234 0x22)
    as (raw1 & raw2 & E1 & E2 & _ & _ & E3 & _); [lia|vm_compute; discriminate|by split|lia..|].
  exists raw1, raw2. split; [exact E1|]. split; [exact E2|exact E3].
Defined.

End TdmaPacket.
