(* ===== verification/TdmaState.v ===== *)
(** * TDMA state, frames and entry points
      ([net/mac_tdma/tdma_types.h], [tdma_config.h], [frame.c], [tdma.c])

    The state of the MAC: the global [tdma_data], the slots-frame data
    [sf_data], the pool of frames, and the statics of the coordinator. Frames
    are objects of a store: the pool array, then the two static frames of
    [coord.c] and [node.c]. Function pointers are values of enumerations. The
    calls to the soft timers, the radio and the event queues, and the callbacks
    of the application, are recorded in order in [fx]; what the MAC gets from
    its environment (the clock, the results of the radio calls, random numbers)
    comes from the oracles of the sections. *)

From stdpp Require Import base numbers gmap list.
From S2P Require Import Prelude Chain Packet Event SoftTime Phy TdmaPacket.

Module TdmaState.
Import Phy.

Definition TDMA_MAX_SLOTS : Z := 50.
Definition MAC_TDMA_MAX_FRAMES : nat := 10.
Definition TDMA_BEACON_PERIOD_S : Z := 2.
Definition TDMA_ASSOC_BACKOFF_WINDOW : Z := 16.
Definition TDMA_BEACON_BACKOFF_COUNT : Z := 1.
Definition TDMA_SLOT_DURATION_FACTOR_US : Z := 100.
Definition TDMA_STARTUP_DELAY_MS : Z := 100.
Definition TDMA_SLOT_WAKEUP_US : Z := 800.
Definition TDMA_SLOT_RX_MARGIN_US : Z := 500.

Inductive tdma_state := TDMA_IDLE | TDMA_SCAN | TDMA_WAIT | TDMA_ASSOC | TDMA_NODE | TDMA_COORD.
Inductive tdma_status :=
| TDMA_STATUS_IDLE | TDMA_STATUS_TX | TDMA_STATUS_RX | TDMA_STATUS_SENT | TDMA_STATUS_RECV
| TDMA_STATUS_FAILED.
Inductive tdma_result := TDMA_OK | TDMA_FAILED.

#[global] Instance tdma_state_eq_dec : EqDecision tdma_state.
Proof. solve_decision. Defined.
#[global] Instance tdma_status_eq_dec : EqDecision tdma_status.
Proof. solve_decision. Defined.

(** The functions stored in [rx_handler] and [tx_handler]. *)
Inductive rx_fn := COORD_RX | NODE_RX | SCAN_RX.
Inductive tx_fn := COORD_TX | NODE_TX.

(** Timers of the module, and the functions posted as events. *)
Inductive tdma_timer := SF_TIMER | BEACON_TIMER | TIMEOUT_TIMER.
Inductive tdma_event :=
| HANDLE_SLOT | BEACON_TICK | COORD_ASSOC | NODE_BEACON | SCAN_START | NODE_TIMEOUT
| DATA_TX | DATA_RX.

Inductive effect :=
| FxTimerInit
| FxTimerConfigPriority (q : Event.event_queue)
| FxTimerSetHandler (t : tdma_timer) (h : tdma_event)
| FxTimerSetPriority (t : tdma_timer) (q : Event.event_queue)
| FxTimerStart (t : tdma_timer) (ticks : Z) (periodic : bool)
| FxTimerStartAt (t : tdma_timer) (time : Z)
| FxTimerStop (t : tdma_timer)
| FxPhyReset | FxPhySleep | FxPhyIdle
| FxPhySetChannel (c : Z)
| FxPhyTx (time : Z) (frame : loc)
| FxPhyRx (time timeout : Z) (frame : loc)
| FxEventPost (q : Event.event_queue) (h : tdma_event) (arg : ptr)
| FxTxCallback (cb arg : Z) (res : tdma_result)
| FxRxCallback (cb : Z) (pkt : loc) (addr : Z)
| FxSlotCallback (cb slot time : Z).

Record tdma_frame := mk_frame {
  status : tdma_status;
  next : ptr;
  cb : option Z;
  arg : Z;
  pkt : phy_packet;
}.

Definition set_status (x : tdma_status) (r : tdma_frame) : tdma_frame :=
  mk_frame x (next r) (cb r) (arg r) (pkt r).
Definition set_next (x : ptr) (r : tdma_frame) : tdma_frame :=
  mk_frame (status r) x (cb r) (arg r) (pkt r).
Definition set_cb (x : option Z) (r : tdma_frame) : tdma_frame :=
  mk_frame (status r) (next r) x (arg r) (pkt r).
Definition set_arg (x : Z) (r : tdma_frame) : tdma_frame :=
  mk_frame (status r) (next r) (cb r) x (pkt r).
Definition set_pkt (x : phy_packet) (r : tdma_frame) : tdma_frame :=
  mk_frame (status r) (next r) (cb r) (arg r) x.

Record tdma_pan := mk_pan {
  panid : Z;
  coord : Z;
  slot_duration : Z;
  slot_count : Z;
  channel : Z;
}.

Definition set_panid (x : Z) (r : tdma_pan) : tdma_pan :=
  mk_pan x (coord r) (slot_duration r) (slot_count r) (channel r).
Definition set_coord (x : Z) (r : tdma_pan) : tdma_pan :=
  mk_pan (panid r) x (slot_duration r) (slot_count r) (channel r).
Definition set_slot_duration (x : Z) (r : tdma_pan) : tdma_pan :=
  mk_pan (panid r) (coord r) x (slot_count r) (channel r).
Definition set_slot_count (x : Z) (r : tdma_pan) : tdma_pan :=
  mk_pan (panid r) (coord r) (slot_duration r) x (channel r).
Definition set_channel (x : Z) (r : tdma_pan) : tdma_pan :=
  mk_pan (panid r) (coord r) (slot_duration r) (slot_count r) x.

Record tdma_global := mk_global {
  addr : Z;
  pan : tdma_pan;
  bandwidth : Z;
  state : tdma_state;
  tx_frames : ptr;
  beacon_frame : ptr;
  rx_handler : rx_fn;
  tx_handler : tx_fn;
  data_rx_handler : option Z;
  slot_cb : option Z;
  tx_slots : Z;
  slots : list Z;
}.

Definition set_addr (x : Z) (r : tdma_global) : tdma_global :=
  mk_global x (pan r) (bandwidth r) (state r) (tx_frames r) (beacon_frame r) (rx_handler r)
    (tx_handler r) (data_rx_handler r) (slot_cb r) (tx_slots r) (slots r).
Definition set_pan (x : tdma_pan) (r : tdma_global) : tdma_global :=
  mk_global (addr r) x (bandwidth r) (state r) (tx_frames r) (beacon_frame r) (rx_handler r)
    (tx_handler r) (data_rx_handler r) (slot_cb r) (tx_slots r) (slots r).
Definition set_bandwidth (x : Z) (r : tdma_global) : tdma_global :=
  mk_global (addr r) (pan r) x (state r) (tx_frames r) (beacon_frame r) (rx_handler r)
    (tx_handler r) (data_rx_handler r) (slot_cb r) (tx_slots r) (slots r).
Definition set_state (x : tdma_state) (r : tdma_global) : tdma_global :=
  mk_global (addr r) (pan r) (bandwidth r) x (tx_frames r) (beacon_frame r) (rx_handler r)
    (tx_handler r) (data_rx_handler r) (slot_cb r) (tx_slots r) (slots r).
Definition set_tx_frames (x : ptr) (r : tdma_global) : tdma_global :=
  mk_global (addr r) (pan r) (bandwidth r) (state r) x (beacon_frame r) (rx_handler r)
    (tx_handler r) (data_rx_handler r) (slot_cb r) (tx_slots r) (slots r).
Definition set_beacon_frame (x : ptr) (r : tdma_global) : tdma_global :=
  mk_global (addr r) (pan r) (bandwidth r) (state r) (tx_frames r) x (rx_handler r)
    (tx_handler r) (data_rx_handler r) (slot_cb r) (tx_slots r) (slots r).
Definition set_rx_handler (x : rx_fn) (r : tdma_global) : tdma_global :=
  mk_global (addr r) (pan r) (bandwidth r) (state r) (tx_frames r) (beacon_frame r) x
    (tx_handler r) (data_rx_handler r) (slot_cb r) (tx_slots r) (slots r).
Definition set_tx_handler (x : tx_fn) (r : tdma_global) : tdma_global :=
  mk_global (addr r) (pan r) (bandwidth r) (state r) (tx_frames r) (beacon_frame r)
    (rx_handler r) x (data_rx_handler r) (slot_cb r) (tx_slots r) (slots r).
Definition set_data_rx_handler (x : option Z) (r : tdma_global) : tdma_global :=
  mk_global (addr r) (pan r) (bandwidth r) (state r) (tx_frames r) (beacon_frame r)
    (rx_handler r) (tx_handler r) x (slot_cb r) (tx_slots r) (slots r).
Definition set_slot_cb (x : option Z) (r : tdma_global) : tdma_global :=
  mk_global (addr r) (pan r) (bandwidth r) (state r) (tx_frames r) (beacon_frame r)
    (rx_handler r) (tx_handler r) (data_rx_handler r) x (tx_slots r) (slots r).
Definition set_tx_slots (x : Z) (r : tdma_global) : tdma_global :=
  mk_global (addr r) (pan r) (bandwidth r) (state r) (tx_frames r) (beacon_frame r)
    (rx_handler r) (tx_handler r) (data_rx_handler r) (slot_cb r) x (slots r).
Definition set_slots (x : list Z) (r : tdma_global) : tdma_global :=
  mk_global (addr r) (pan r) (bandwidth r) (state r) (tx_frames r) (beacon_frame r)
    (rx_handler r) (tx_handler r) (data_rx_handler r) (slot_cb r) (tx_slots r) x.

Record tdma_slotsframe := mk_sf {
  frame_duration : Z;
  frame_start : Z;
  slot_time : Z;
  frame : ptr;
  next_index : Z;
  beacon_backoff : Z;
}.

Definition set_frame_duration (x : Z) (r : tdma_slotsframe) : tdma_slotsframe :=
  mk_sf x (frame_start r) (slot_time r) (frame r) (next_index r) (beacon_backoff r).
Definition set_frame_start (x : Z) (r : tdma_slotsframe) : tdma_slotsframe :=
  mk_sf (frame_duration r) x (slot_time r) (frame r) (next_index r) (beacon_backoff r).
Definition set_slot_time (x : Z) (r : tdma_slotsframe) : tdma_slotsframe :=
  mk_sf (frame_duration r) (frame_start r) x (frame r) (next_index r) (beacon_backoff r).
Definition set_frame (x : ptr) (r : tdma_slotsframe) : tdma_slotsframe :=
  mk_sf (frame_duration r) (frame_start r) (slot_time r) x (next_index r) (beacon_backoff
    r).
Definition set_next_index (x : Z) (r : tdma_slotsframe) : tdma_slotsframe :=
  mk_sf (frame_duration r) (frame_start r) (slot_time r) (frame r) x (beacon_backoff r).
Definition set_beacon_backoff (x : Z) (r : tdma_slotsframe) : tdma_slotsframe :=
  mk_sf (frame_duration r) (frame_start r) (slot_time r) (frame r) (next_index r) x.

Record tdma := mk_tdma {
  tdma_mutex : mutex;
  tdma_data : tdma_global;
  sf_data : tdma_slotsframe;
  frame_store : gmap loc tdma_frame;
  frames : ptr;
  nb_frames : Z;
  beacon_time : Z;
  slotsframe_is_static : bool;
  packets : Packet.storage;
  fx : list effect;
  reads : nat;
  phy_calls : nat;
}.

Definition set_tdma_mutex (x : mutex) (r : tdma) : tdma :=
  mk_tdma x (tdma_data r) (sf_data r) (frame_store r) (frames r) (nb_frames r) (beacon_time
    r) (slotsframe_is_static r) (packets r) (fx r) (reads r) (phy_calls r).
Definition set_tdma_data (x : tdma_global) (r : tdma) : tdma :=
  mk_tdma (tdma_mutex r) x (sf_data r) (frame_store r) (frames r) (nb_frames r) (beacon_time
    r) (slotsframe_is_static r) (packets r) (fx r) (reads r) (phy_calls r).
Definition set_sf_data (x : tdma_slotsframe) (r : tdma) : tdma :=
  mk_tdma (tdma_mutex r) (tdma_data r) x (frame_store r) (frames r) (nb_frames r)
    (beacon_time r) (slotsframe_is_static r) (packets r) (fx r) (reads r) (phy_calls r).
Definition set_frame_store (x : gmap loc tdma_frame) (r : tdma) : tdma :=
  mk_tdma (tdma_mutex r) (tdma_data r) (sf_data r) x (frames r) (nb_frames r) (beacon_time
    r) (slotsframe_is_static r) (packets r) (fx r) (reads r) (phy_calls r).
Definition set_frames (x : ptr) (r : tdma) : tdma :=
  mk_tdma (tdma_mutex r) (tdma_data r) (sf_data r) (frame_store r) x (nb_frames r)
    (beacon_time r) (slotsframe_is_static r) (packets r) (fx r) (reads r) (phy_calls r).
Definition set_nb_frames (x : Z) (r : tdma) : tdma :=
  mk_tdma (tdma_mutex r) (tdma_data r) (sf_data r) (frame_store r) (frames r) x (beacon_time
    r) (slotsframe_is_static r) (packets r) (fx r) (reads r) (phy_calls r).
Definition set_beacon_time (x : Z) (r : tdma) : tdma :=
  mk_tdma (tdma_mutex r) (tdma_data r) (sf_data r) (frame_store r) (frames r) (nb_frames r)
    x (slotsframe_is_static r) (packets r) (fx r) (reads r) (phy_calls r).
Definition set_slotsframe_is_static (x : bool) (r : tdma) : tdma :=
  mk_tdma (tdma_mutex r) (tdma_data r) (sf_data r) (frame_store r) (frames r) (nb_frames r)
    (beacon_time r) x (packets r) (fx r) (reads r) (phy_calls r).
Definition set_packets (x : Packet.storage) (r : tdma) : tdma :=
  mk_tdma (tdma_mutex r) (tdma_data r) (sf_data r) (frame_store r) (frames r) (nb_frames r)
    (beacon_time r) (slotsframe_is_static r) x (fx r) (reads r) (phy_calls r).
Definition set_fx (x : list effect) (r : tdma) : tdma :=
  mk_tdma (tdma_mutex r) (tdma_data r) (sf_data r) (frame_store r) (frames r) (nb_frames r)
    (beacon_time r) (slotsframe_is_static r) (packets r) x (reads r) (phy_calls r).
Definition set_reads (x : nat) (r : tdma) : tdma :=
  mk_tdma (tdma_mutex r) (tdma_data r) (sf_data r) (frame_store r) (frames r) (nb_frames r)
    (beacon_time r) (slotsframe_is_static r) (packets r) (fx r) x (phy_calls r).
Definition set_phy_calls (x : nat) (r : tdma) : tdma :=
  mk_tdma (tdma_mutex r) (tdma_data r) (sf_data r) (frame_store r) (frames r) (nb_frames r)
    (beacon_time r) (slotsframe_is_static r) (packets r) (fx r) (reads r) x.

(** The frame of [coord.c] and the frame of [node.c]. *)
Definition BEACON_FRAME : loc := 10.
Definition NODE_FRAME : loc := 11.

#[global] Instance frame_linked : Linked tdma_frame.
Proof.
  refine {| next_of := next; Chain.set_next p k := set_next p k |}.
  - done.
  - by intros [].
  - done.
Defined.

#[global] Instance packets_lens : Lens tdma Packet.storage.
Proof. refine {| view := packets; over := set_packets |}; [done|by intros []|done]. Defined.

Abbreviation TM := (M tdma).

(** *** Primitives *)

Definition emit (e : effect) : TM unit := mmod (λ s, set_fx (fx s ++ [e]) s).
Definition upd_data (f : tdma_global -> tdma_global) : TM unit :=
  mmod (λ s, set_tdma_data (f (tdma_data s)) s).
Definition upd_pan (f : tdma_pan -> tdma_pan) : TM unit := upd_data (λ d, set_pan (f (pan d)) d).
Definition upd_sf (f : tdma_slotsframe -> tdma_slotsframe) : TM unit :=
  mmod (λ s, set_sf_data (f (sf_data s)) s).

Definition frame_load (p : ptr) : TM tdma_frame := fun s =>
  match p with
  | None => Err EUndef
  | Some l => match frame_store s !! l with Some k => Ok (k, s) | None => Err EUndef end
  end.
Definition frame_save (p : ptr) (k : tdma_frame) : TM unit := fun s =>
  match p with
  | None => Err EUndef
  | Some l => match frame_store s !! l with
              | Some _ => Ok (tt, set_frame_store (<[l := k]> (frame_store s)) s)
              | None => Err EUndef
              end
  end.
(** [frame->... = ...] *)
Definition frame_upd (p : ptr) (f : tdma_frame -> tdma_frame) : TM unit :=
  k ← frame_load p; frame_save p (f k).
(** Writing the bytes of the packet of a frame. *)
Definition frame_raw (p : ptr) (f : list Z -> res (list Z)) : TM unit :=
  k ← frame_load p;
  r ← mlift (f (raw_data (pkt k)));
  frame_save p (set_pkt (set_raw r (pkt k)) k).

(** ** [frame.c] *)

(** [tdma_frame_prepare] of [tdma_packet.h] *)
Definition tdma_frame_prepare (p : ptr) : TM unit :=
  frame_upd p (λ k, mk_frame TDMA_STATUS_IDLE None None 0 (pkt k)).

Definition tdma_frame_init : TM unit :=
  mmod (set_frames None) ;;
  mfor (seq 0 MAC_TDMA_MAX_FRAMES)
    (λ i, s ← mget; frame_upd (Some i) (set_next (frames s)) ;; mmod (set_frames (Some i))) ;;
  mmod (set_nb_frames (Z.of_nat MAC_TDMA_MAX_FRAMES)).

Definition tdma_frame_alloc (rem : Z) : TM ptr :=
  s ← mget;
  let res := frames s in
  if nb_frames s <=? rem then mret None
  else
    match res with
    | None => mret None
    | Some _ =>
        k ← frame_load res;
        mmod (set_frames (next k)) ;;
        mmod (λ s, set_nb_frames (u32 (nb_frames s - 1)) s) ;;
        tdma_frame_prepare res ;;
        mret res
    end.

Definition tdma_frame_free (frame : ptr) : TM unit :=
  mmod (λ s, set_nb_frames (u32 (nb_frames s + 1)) s) ;;
  s ← mget;
  frame_upd frame (set_next (frames s)) ;;
  mmod (set_frames frame).

(** Returns 1 without queueing when there is no slot to send in. *)
Definition tdma_frame_send (frame : ptr) : TM Z :=
  s ← mget;
  if tx_slots (tdma_data s) =? 0 then mret 1
  else
    (match tx_frames (tdma_data s) with
     | Some f =>
         x ← mlift (walk (S (size (frame_store s))) (frame_store s) (λ _ _, false) f);
         frame_upd (Some x) (set_next frame)
     | None => upd_data (set_tx_frames frame)
     end) ;;
    frame_upd frame (set_next None) ;;
    mret 0.

(** ** [tdma.c] *)

(** [tdma_get] retries for ever. *)
Definition tdma_get : TM unit := fun s =>
  match sem_take (tdma_mutex s) with Ok m => Ok (tt, set_tdma_mutex m s) | Err e => Err e end.
(** Giving a mutex that is not held fails, which halts the node. *)
Definition tdma_release : TM unit := fun s =>
  match tdma_mutex s with
  | None => Err EUndef
  | Some true => Ok (tt, set_tdma_mutex (Some false) s)
  | Some false => Err EHalt
  end.

Definition tdma_slot_init : TM unit :=
  emit (FxTimerConfigPriority Event.EVENT_QUEUE_NETWORK) ;;
  emit (FxTimerSetHandler SF_TIMER HANDLE_SLOT) ;;
  emit (FxTimerSetPriority SF_TIMER Event.EVENT_QUEUE_NETWORK).

(** [platform_uid] is the result of the function if the platform has one, 0
    otherwise; [uid16] the six words of the chip identifier. *)
Definition tdma_address (platform_uid : Z) (uid16 : list Z) : Z :=
  if (platform_uid =? 0x0000) || (platform_uid =? 0xffff) then
    let addr := foldl Z.lxor 0 uid16 in
    if (addr =? 0x0000) || (addr =? 0xffff) then Z.lxor addr 0x00ff else addr
  else platform_uid.

Definition mac_tdma_init (platform_uid : Z) (uid16 : list Z) : TM unit :=
  s ← mget;
  (match tdma_mutex s with
   | None => mmod (set_tdma_mutex (Some false))
   | Some _ => mret tt
   end) ;;
  emit FxTimerInit ;;
  mzoom Packet.packet_init ;;
  tdma_frame_init ;;
  tdma_slot_init ;;
  upd_data (λ d, set_slot_cb None (set_state TDMA_IDLE (set_addr (tdma_address platform_uid uid16) d))).

Definition connected (st : tdma_state) : bool :=
  match st with TDMA_NODE | TDMA_COORD => true | _ => false end.
Definition mac_tdma_is_connected : TM bool := s ← mget; mret (connected (state (tdma_data s))).
Definition mac_tdma_set_recv_handler (h : option Z) : TM unit := upd_data (set_data_rx_handler h).
Definition mac_tdma_get_address : TM Z := s ← mget; mret (addr (tdma_data s)).
Definition mac_tdma_get_coordinator : TM Z := s ← mget; mret (coord (pan (tdma_data s))).
Definition mac_tdma_set_slot_callback (c : option Z) : TM unit := upd_data (set_slot_cb c).

(** ** Frames *)

(** The pool holds the frames [ls] and counts them. *)
Definition pool_rep (s : tdma) (ls : list loc) : Prop :=
  chain (frame_store s) (frames s) ls /\ nb_frames s = Z.of_nat (length ls) /\
  Z.of_nat (length ls) < 4294967295.

(** Frames waiting for transmission. *)
Definition queue_rep (s : tdma) (q : list loc) : Prop :=
  chain (frame_store s) (tx_frames (tdma_data s)) q.

(** The frames of the pool and of the queue are distinct. *)
Definition frames_rep (s : tdma) (fs q : list loc) : Prop :=
  pool_rep s fs /\ queue_rep s q /\ (forall l, l ∈ fs -> l ∉ q).

Lemma frame_load_ok s l k : frame_store s !! l = Some k -> frame_load (Some l) s = Ok (k, s).
Proof. intros E. unfold frame_load. by rewrite E. Qed.

Lemma frame_save_ok s l k k' :
  frame_store s !! l = Some k ->
  frame_save (Some l) k' s = Ok (tt, set_frame_store (<[l := k']> (frame_store s)) s).
Proof. intros E. unfold frame_save. by rewrite E. Qed.

Lemma frame_upd_ok s l k f :
  frame_store s !! l = Some k ->
  frame_upd (Some l) f s = Ok (tt, set_frame_store (<[l := f k]> (frame_store s)) s).
Proof.
  intros E. unfold frame_upd. erewrite bind_ok by (by apply frame_load_ok). by eapply frame_save_ok.
Qed.

Lemma frame_alloc_ok s l ls rem :
  pool_rep s (l :: ls) -> 0 <= rem < nb_frames s ->
  exists s' k, tdma_frame_alloc rem s = Ok (Some l, s') /\ frame_store s !! l = Some k /\
    s' = set_frame_store (<[l := mk_frame TDMA_STATUS_IDLE None None 0 (pkt k)]> (frame_store s))
           (set_nb_frames (Z.of_nat (length ls)) (set_frames (next k) s)) /\
    pool_rep s' ls /\ (l ∉ ls).
Proof.
  intros (Hc & Hn & Hmax) Hrem. pose proof (chain_nodup _ _ _ Hc) as [Hl _]%NoDup_cons.
  apply chain_cons in Hc as (Hf & k & Hk & Hls). cbn [length] in Hn, Hmax.
  eexists _, k. unfold tdma_frame_alloc. mrun. rewrite Hf.
  destruct (Z.leb_spec (nb_frames s) rem); [lia|].
  erewrite bind_ok by (by apply frame_load_ok). mrun. cbn [nb_frames set_frames].
  unfold tdma_frame_prepare. erewrite bind_ok by (eapply frame_upd_ok; exact Hk).
  assert (u32 (nb_frames s - 1) = Z.of_nat (length ls)) as -> by (rewrite Hn; mlia).
  split_and!; [reflexivity|done|done| |done].
  split_and!; cbn; [by apply lseg_insert|done|lia].
Qed.

Lemma frame_alloc_none s ls rem :
  pool_rep s ls -> nb_frames s <= rem -> tdma_frame_alloc rem s = Ok (None, s).
Proof.
  intros (_ & Hn & _) Hrem. unfold tdma_frame_alloc. mrun.
  by destruct (Z.leb_spec (nb_frames s) rem); [|lia].
Qed.

Lemma frame_free_ok s l k ls :
  pool_rep s ls -> (l ∉ ls) -> frame_store s !! l = Some k -> Z.of_nat (length ls) < 4294967294 ->
  exists s', tdma_frame_free (Some l) s = Ok (tt, s') /\ pool_rep s' (l :: ls) /\
    s' = set_frames (Some l) (set_frame_store (<[l := set_next (frames s) k]> (frame_store s))
           (set_nb_frames (nb_frames s + 1) s)).
Proof.
  intros (Hc & Hn & Hmax) Hl Hk Hlt. eexists. unfold tdma_frame_free. mrun.
  erewrite bind_ok by (eapply frame_upd_ok; exact Hk). rewrite u32_id by lia.
  split; [reflexivity|]. split; [|done]. split_and!; cbn [frame_store frames nb_frames set_frames
    set_frame_store set_nb_frames length]; [|lia|lia].
  exact (chain_push _ _ ls l k Hc Hl).
Qed.

Lemma frame_send_ok s q l k :
  queue_rep s q -> (l ∉ q) -> frame_store s !! l = Some k -> tx_slots (tdma_data s) <> 0 ->
  exists s', tdma_frame_send (Some l) s = Ok (0, s') /\ queue_rep s' (q ++ [l]) /\
    (forall x, (x ∉ q) -> x <> l -> frame_store s' !! x = frame_store s !! x) /\
    frames s' = frames s /\ nb_frames s' = nb_frames s /\ tdma_mutex s' = tdma_mutex s /\
    frame_store s' !! l = Some (set_next None k) /\ fx s' = fx s.
Proof.
  intros Hc Hl Hk Htx. unfold tdma_frame_send. mrun. destruct (Z.eqb_spec (tx_slots (tdma_data s)) 0); [done|].
  unfold queue_rep in Hc. destruct (tx_frames (tdma_data s)) as [f|] eqn:Ef.
  - destruct (chain_some _ _ _ Hc) as (a & ys & -> & Ha & Hys).
    pose proof (chain_length _ _ _ Hc) as Hlen. simpl in Hlen.
    destruct (walk_spec (S (size (frame_store s))) (frame_store s) (λ _ _, false) f ys Hc)
      as (pre & y & zs & b & Ex & Ew & Hb & Hz & _ & Hyes); [lia|].
    assert (zs = []) as ->.
    { destruct zs as [|z zs]; [done|]. destruct Hz as (_ & c & Hc' & _).
      by specialize (Hyes z c eq_refl Hc'). }
    mrun. rewrite Ew. mrun. rewrite Ex in Hc, Hl.
    erewrite bind_ok by (eapply frame_upd_ok; exact Hb).
    assert (y <> l) as Hyl by set_solver.
    erewrite bind_ok by (eapply frame_upd_ok; cbn; rewrite lookup_insert_ne by done; exact Hk).
    eexists. split; [reflexivity|]. split_and!; try done.
    + unfold queue_rep. cbn [frame_store tdma_data set_frame_store]. rewrite Ef, Ex.
      destruct (link_after_spec (frame_store s) (Some f) pre y [] l b k Hc Hl Hb Hk) as (h & _ & Hch & ->).
      rewrite <- app_assoc. cbn [app].
      assert (next_of b = None) as Hnb by (by apply chain_nil in Hz).
      rewrite Hnb in Hch. rewrite insert_insert_ne in Hch by congruence. exact Hch.
    + intros x Hx Hxl. cbn. rewrite Ex in Hx. rewrite !lookup_insert_ne by set_solver. done.
    + cbn. apply lookup_insert_eq.
  - apply chain_null in Hc as ->. unfold upd_data. mrun.
    erewrite bind_ok by (eapply frame_upd_ok; exact Hk).
    eexists. split; [reflexivity|]. split_and!; try done.
    + exact (chain_push (frame_store s) None [] l k eq_refl (not_elem_of_nil _)).
    + intros x _ Hx. cbn. by rewrite lookup_insert_ne.
    + cbn. apply lookup_insert_eq.
Qed.

(** The frame pool: [tdma_frame_alloc rem] hands out a frame, reset, exactly
    when more than [rem] are left, and freeing it gives the pool back;
    [tdma_frame_send] appends to the end of the transmission queue, and refuses
    when the node has no slot. *)
Theorem tdma_frame_pool_spec s l ls rem :
  pool_rep s (l :: ls) -> 0 <= rem -> Z.of_nat (length ls) < 4294967294 ->
  (nb_frames s <= rem -> tdma_frame_alloc rem s = Ok (None, s)) /\
  (rem < nb_frames s -> exists s' k s'', tdma_frame_alloc rem s = Ok (Some l, s') /\
     frame_store s' !! l = Some k /\ status k = TDMA_STATUS_IDLE /\ next k = None /\
     pool_rep s' ls /\ tdma_frame_free (Some l) s' = Ok (tt, s'') /\ pool_rep s'' (l :: ls)) /\
  (forall q f kf, queue_rep s q -> (f ∉ q) -> frame_store s !! f = Some kf ->
     (tx_slots (tdma_data s) = 0 -> tdma_frame_send (Some f) s = Ok (1, s)) /\
     (tx_slots (tdma_data s) <> 0 ->
        exists s', tdma_frame_send (Some f) s = Ok (0, s') /\ queue_rep s' (q ++ [f]))).
Proof.
  intros Hp Hrem Hmax. split_and!.
  - by apply (frame_alloc_none _ (l :: ls)).
  - intros Hlt. destruct (frame_alloc_ok s l ls rem Hp) as (s' & k & E & Hk & Hs' & Hp' & Hl); [lia|].
    set (k' := mk_frame TDMA_STATUS_IDLE None None 0 (pkt k)) in *.
    assert (frame_store s' !! l = Some k') as Hk' by (subst s'; apply lookup_insert_eq).
    destruct (frame_free_ok s' l k' ls Hp' Hl Hk' Hmax) as (s'' & E2 & Hp2 & _).
    exists s', k', s''. by split_and!.
  - intros q f kf Hq Hf Hkf. split.
    + intros H0. unfold tdma_frame_send. mrun. by rewrite H0.
    + intros H0. destruct (frame_send_ok s q f kf Hq Hf Hkf H0) as (s' & E & Hq' & _). eauto.
Qed.

(** *** Concrete instances *)

(** Frames with 128 bytes of packet; the pool holds frames 0 and 1, frame 2 is
    [k2]. *)
Definition demo_frame (bs : list Z) (n : Z) (p : ptr) : tdma_frame :=
  mk_frame TDMA_STATUS_IDLE p None 0
    (mk_phy 0 n (bs ++ replicate (128 - length bs) 0) 0 0 7000 0 0 0 (mk_alt 0 0) (mk_alt 0 0)).
Definition demo_store (k2 : tdma_frame) : gmap loc tdma_frame :=
  {[0%nat := demo_frame [] 0 (Some 1%nat); 1%nat := demo_frame [] 0 None; 2%nat := k2;
    BEACON_FRAME := demo_frame [] 0 None; NODE_FRAME := demo_frame [] 0 None]}.

(** A network of four slots of 10 ms: coordinator 0x22, node 0x11. *)
Definition demo_data (a : Z) (st : tdma_state) (tx : ptr) : tdma_global :=
  mk_global a (mk_pan 0x1234 0x22 100 4 15) 1 st tx None NODE_RX NODE_TX None None 1
    ([0x22; 0x11; 0; 0] ++ replicate 46 0).
Definition demo_sf (i : Z) : tdma_slotsframe := mk_sf 1310 5000 5327 None i 0.
Definition tdma_of (d : tdma_global) (i : Z) (k2 : tdma_frame) : tdma :=
  mk_tdma (Some false) d (demo_sf i) (demo_store k2) (Some 0%nat) 2 0 false Packet.pool3 [] 0 0.

Lemma demo_pool d i k2 : pool_rep (tdma_of d i k2) [0%nat; 1%nat].
Proof.
  split_and!; [|reflexivity|reflexivity].
  split; [reflexivity|]. exists (demo_frame [] 0 (Some 1%nat)). split; [reflexivity|].
  split; [reflexivity|]. exists (demo_frame [] 0 None). by split.
Qed.

Lemma tdma_frame_pool_spec_witness :
  exists s', tdma_frame_alloc 1 (tdma_of (demo_data 0x11 TDMA_NODE None) 1 (demo_frame [] 0 None)) =
    Ok (Some 0%nat, s').
Proof.
  destruct (tdma_frame_pool_spec (tdma_of (demo_data 0x11 TDMA_NODE None) 1 (demo_frame [] 0 None))
    0 [1%nat] 1 (demo_pool _ _ _)) as (_ & Hok & _); [lia|cbn; lia|].
  destruct (Hok eq_refl) as (s' & k & s'' & E & _). exists s'. exact E.
Defined.

End TdmaState.
