(* ===== verification/TdmaSlot.v ===== *)
(** * TDMA slots-frame: timing and slot table ([net/mac_tdma/slot.c], first part)

    The slots-frame repeats every [frame_duration] ticks; [slots] gives the
    owner of each slot and [tx_slots] counts the slots of the node itself. *)

From stdpp Require Import base numbers gmap list.
From S2P Require Import Prelude Chain Event SoftTime Phy TdmaState.

Module TdmaSlot.
Import Phy TdmaState SoftTime.

(** What the MAC reads from its environment: the successive results of
    [soft_timer_time()], of the radio calls and of [random_rand16()]. *)
Class TdmaEnv := {
  clock : nat -> Z;
  phy_result : nat -> phy_status;
  random16 : nat -> Z;
}.

Section slot.
Context `{!TdmaEnv}.

Definition soft_timer_time : TM Z := fun s =>
  Ok (u32 (clock (reads s)), set_reads (S (reads s)) s).

(** The result of a radio call that reports one. *)
Definition phy_status_next : TM phy_status := fun s =>
  Ok (phy_result (phy_calls s), set_phy_calls (S (phy_calls s)) s).

(** The macro compares the two times as signed integers. *)
Definition TIME_LT (x y : Z) : bool := i32 x <? i32 y.

(** [soft_timer_us_to_ticks(TDMA_SLOT_DURATION_FACTOR_US * duration * n)] *)
Definition slots_ticks (duration n : Z) : Z :=
  u32 (soft_timer_us_to_ticks (i32 (u32 (TDMA_SLOT_DURATION_FACTOR_US * duration * n)))).
Definition WAKEUP : Z := soft_timer_us_to_ticks (TDMA_SLOT_WAKEUP_US + TDMA_SLOT_RX_MARGIN_US).
Definition RX_MARGIN : Z := soft_timer_us_to_ticks TDMA_SLOT_RX_MARGIN_US.

Definition set_slot (id owner : Z) : TM unit :=
  s ← mget;
  l ← mlift (arr_set (slots (tdma_data s)) id owner);
  upd_data (set_slots l).

Definition tdma_slot_start (start : Z) : TM Z :=
  s ← mget;
  let p := pan (tdma_data s) in
  if slot_count p >? TDMA_MAX_SLOTS then mret 1
  else
    upd_data (set_tx_slots 0) ;;
    mfor (zseq 0 (Z.to_nat (slot_count p))) (λ id, set_slot id 0x0000) ;;
    upd_sf (set_frame None) ;;
    upd_sf (set_beacon_backoff 0) ;;
    let duration := slots_ticks (slot_duration p) (slot_count p) in
    upd_sf (set_frame_duration duration) ;;
    emit FxPhyReset ;;
    emit (FxPhySetChannel (channel p)) ;;
    now ← soft_timer_time;
    let time := u32 (now - start) in
    if duration =? 0 then mfail EUndef
    else
      let time := u32 (time - time mod duration) in
      let start := u32 (start + time) in
      now ← soft_timer_time;
      let start := if TIME_LT start (u32 (now + soft_timer_ms_to_ticks TDMA_STARTUP_DELAY_MS))
                   then u32 (start + duration) else start in
      upd_sf (set_frame_start start) ;;
      upd_sf (set_next_index 0) ;;
      upd_sf (set_slot_time start) ;;
      emit (FxTimerStartAt SF_TIMER (u32 (start - WAKEUP))) ;;
      emit FxPhySleep ;;
      mret 0.

Definition tdma_slot_configure (id owner : Z) : TM unit :=
  if id >=? TDMA_MAX_SLOTS then mret tt
  else
    s ← mget;
    let d := tdma_data s in
    prev ← mlift (arr_get (slots d) id);
    mwhen (owner =? addr d) (upd_data (λ d, set_tx_slots (u8 (tx_slots d + 1)) d)) ;;
    mwhen (prev =? addr d) (upd_data (λ d, set_tx_slots (u8 (tx_slots d - 1)) d)) ;;
    set_slot id owner.

Definition tdma_slot_update_frame_start (time : Z) : TM unit := upd_sf (set_frame_start time).
End slot.

(** ** The slot table *)

(** Number of entries of a table equal to [a]. *)
Definition own_count (a : Z) (l : list Z) : Z := Z.of_nat (length (filter (λ x, x = a) l)).

Lemma own_count_insert a l i x y :
  l !! i = Some x ->
  own_count a (<[i := y]> l) =
    own_count a l + (if decide (y = a) then 1 else 0) - (if decide (x = a) then 1 else 0).
Proof.
  unfold own_count. revert i. induction l as [|z l IH]; intros i Hi; [done|].
  destruct i as [|i].
  - injection Hi as ->. change (<[0%nat := y]> (x :: l)) with (y :: l). rewrite !filter_cons.
    destruct (decide (y = a)), (decide (x = a)); cbn [length]; lia.
  - change (<[S i := y]> (z :: l)) with (z :: <[i := y]> l). rewrite !filter_cons. specialize (IH i Hi).
    destruct (decide (z = a)); cbn [length]; lia.
Qed.

Lemma own_count_range a l : 0 <= own_count a l <= Z.of_nat (length l).
Proof. unfold own_count. pose proof (length_filter (λ x, x = a) l). lia. Qed.

(** The table has its size and [tx_slots] is the number of own slots. *)
Definition table_ok (d : tdma_global) : Prop :=
  length (slots d) = 50%nat /\ tx_slots d = own_count (addr d) (slots d).

Lemma set_tx_slots_id d : set_tx_slots (tx_slots d) d = d.
Proof. by destruct d. Qed.

Lemma slot_configure_ok s id owner :
  table_ok (tdma_data s) -> 0 <= id < TDMA_MAX_SLOTS ->
  exists d', tdma_slot_configure id owner s = Ok (tt, set_tdma_data d' s) /\ table_ok d' /\
    slots d' = <[Z.to_nat id := owner]> (slots (tdma_data s)) /\
    addr d' = addr (tdma_data s) /\ pan d' = pan (tdma_data s) /\
    d' = set_slots (slots d') (set_tx_slots (tx_slots d') (tdma_data s)).
Proof.
  intros [Hlen Htx] Hid. unfold TDMA_MAX_SLOTS in Hid. unfold tdma_slot_configure.
  destruct (Z.geb_spec id TDMA_MAX_SLOTS); [unfold TDMA_MAX_SLOTS in *; lia|]. mrun.
  destruct (lookup_lt_is_Some_2 (slots (tdma_data s)) (Z.to_nat id)) as [x Hx]; [lia|].
  rewrite (arr_get_ok _ _ x) by (done || lia). mrun.
  set (l := slots (tdma_data s)) in *. set (a := addr (tdma_data s)) in *.
  pose proof (own_count_insert a l (Z.to_nat id) x owner Hx) as Hcnt.
  pose proof (own_count_range a l) as Hr. pose proof (own_count_range a (<[Z.to_nat id := owner]> l)) as Hr'.
  rewrite length_insert in Hr'.
  set (t := own_count a (<[Z.to_nat id := owner]> l)) in *.
  set (d' := set_slots (<[Z.to_nat id := owner]> l) (set_tx_slots t (tdma_data s))).
  exists d'. split.
  - assert (forall T, T = t -> d' = set_slots (<[Z.to_nat id := owner]> l) (set_tx_slots T (tdma_data s)))
      as Hd' by (by intros ? ->).
    destruct (Z.eqb_spec owner a) as [Ho|Ho]; destruct (Z.eqb_spec x a) as [Hp|Hp]; cbn [mwhen];
      destruct (decide (owner = a)), (decide (x = a)); try done; unfold upd_data, set_slot; mrun;
      cbn [tdma_data set_tdma_data slots set_tx_slots tx_slots]; fold l;
      rewrite arr_set_ok by lia; unfold upd_data; mrun.
    + rewrite (Hd' (u8 (u8 (tx_slots (tdma_data s) + 1) - 1))) by (rewrite Htx; mlia). done.
    + rewrite (Hd' (u8 (tx_slots (tdma_data s) + 1))) by (rewrite Htx; mlia). done.
    + rewrite (Hd' (u8 (tx_slots (tdma_data s) - 1))) by (rewrite Htx; mlia). done.
    + rewrite (Hd' (tx_slots (tdma_data s))) by (rewrite Htx; lia). by rewrite set_tx_slots_id.
  - split_and!; try done. split; [cbn; by rewrite length_insert|done].
Qed.

(** [tdma_slot_configure] keeps [tx_slots] equal to the number of slots the
    node owns, for every slot and owner, and sets the entry asked for and no
    other; an index past the table is ignored. *)
Theorem tdma_slot_configure_spec s id owner :
  table_ok (tdma_data s) -> 0 <= id ->
  exists d', tdma_slot_configure id owner s = Ok (tt, set_tdma_data d' s) /\ table_ok d' /\
    slots d' = (if id <? TDMA_MAX_SLOTS then <[Z.to_nat id := owner]> (slots (tdma_data s))
                else slots (tdma_data s)).
Proof.
  intros Hok Hid. destruct (Z.ltb_spec id TDMA_MAX_SLOTS).
  - destruct (slot_configure_ok s id owner Hok) as (d' & E & Hok' & Hs & _); [lia|]. eauto.
  - exists (tdma_data s). unfold tdma_slot_configure.
    destruct (Z.geb_spec id TDMA_MAX_SLOTS); [|lia]. split_and!; [|done|done]. by destruct s.
Qed.

(** ** Starting the slots-frame *)

Lemma set_data_id s : set_tdma_data (tdma_data s) s = s.
Proof. by destruct s. Qed.

Lemma set_slots_twice l l' d : set_slots l (set_slots l' d) = set_slots l d.
Proof. done. Qed.

Lemma set_slot_ok id owner s :
  0 <= id < Z.of_nat (length (slots (tdma_data s))) ->
  set_slot id owner s =
    Ok (tt, set_tdma_data (set_slots (<[Z.to_nat id := owner]> (slots (tdma_data s))) (tdma_data s)) s).
Proof. intros Hid. unfold set_slot, upd_data. mrun. by rewrite arr_set_ok. Qed.

Lemma clear_slots n : forall i s,
  0 <= i -> i + Z.of_nat n <= Z.of_nat (length (slots (tdma_data s))) ->
  exists l, mfor (zseq i n) (λ id, set_slot id 0x0000) s =
      Ok (tt, set_tdma_data (set_slots l (tdma_data s)) s) /\
    length l = length (slots (tdma_data s)) /\
    forall j, l !! j = (if decide (i <= Z.of_nat j < i + Z.of_nat n) then Some 0
                        else slots (tdma_data s) !! j).
Proof.
  induction n as [|n IH]; intros i s Hi Hn.
  - exists (slots (tdma_data s)). split_and!; [by destruct s as [? []]|done|].
    intros j. by rewrite decide_False by lia.
  - rewrite zseq_S. cbn [mfor]. erewrite bind_ok by (apply set_slot_ok; lia).
    set (l1 := <[Z.to_nat i := 0]> (slots (tdma_data s))).
    set (s1 := set_tdma_data (set_slots l1 (tdma_data s)) s).
    destruct (IH (i + 1) s1) as (l & E & Hl & Hget); [lia|cbn; subst l1; rewrite length_insert; lia|].
    cbn [tdma_data set_tdma_data s1 slots set_slots] in Hl, Hget.
    exists l. split_and!; [exact E| |].
    + rewrite Hl. apply length_insert.
    + intros j. rewrite Hget. destruct (decide (i + 1 <= Z.of_nat j < i + 1 + Z.of_nat n)).
      { by rewrite decide_True by lia. }
      destruct (decide (Z.to_nat i = j)) as [<-|Hne].
      * rewrite decide_True by lia. subst l1. apply list_lookup_insert_eq. lia.
      * rewrite decide_False by lia. subst l1. by apply list_lookup_insert_ne.
Qed.

Section start.
Context `{!TdmaEnv}.

(** The start of the current slots-frame at time [now], for frames of [D]
    ticks aligned on [t0]. *)
Definition frame_floor (t0 now D : Z) : Z := t0 + (now - t0) / D * D.

(** What [tdma_slot_start] leaves when it starts the slots-frame at [start]. *)
Definition started s start s' : Prop :=
  frame_start (sf_data s') = start /\ slot_time (sf_data s') = start /\
  next_index (sf_data s') = 0 /\ frame (sf_data s') = None /\ beacon_backoff (sf_data s') = 0 /\
  tx_slots (tdma_data s') = 0 /\
  (forall j, slots (tdma_data s') !! j =
     if decide (Z.of_nat j < slot_count (pan (tdma_data s))) then Some 0
     else slots (tdma_data s) !! j) /\
  fx s' = fx s ++ [FxPhyReset; FxPhySetChannel (channel (pan (tdma_data s)));
                   FxTimerStartAt SF_TIMER (u32 (start - WAKEUP)); FxPhySleep].

Lemma slot_start_run s t0 :
  let p := pan (tdma_data s) in
  let D := slots_ticks (slot_duration p) (slot_count p) in
  let n1 := clock (reads s) in
  let n2 := clock (S (reads s)) in
  length (slots (tdma_data s)) = 50%nat -> 0 <= slot_count p <= TDMA_MAX_SLOTS -> 0 < D ->
  0 <= t0 <= n1 -> n1 - t0 < 4294967296 ->
  exists s', tdma_slot_start (u32 t0) s = Ok (0, s') /\
    frame_duration (sf_data s') = D /\
    started s (let f := u32 (frame_floor t0 n1 D) in
               if TIME_LT f (u32 (u32 n2 + soft_timer_ms_to_ticks TDMA_STARTUP_DELAY_MS))
               then u32 (f + D) else f) s'.
Proof.
  intros p D n1 n2 Hlen Hcount HD Ht0 Hn1. unfold tdma_slot_start. mrun. fold p.
  destruct (Z.gtb_spec (slot_count p) TDMA_MAX_SLOTS); [lia|].
  unfold upd_data. mrun. fold p.
  set (s0 := set_tdma_data (set_tx_slots 0 (tdma_data s)) s).
  destruct (clear_slots (Z.to_nat (slot_count p)) 0 s0) as (l & E & Hl & Hget);
    [lia|cbn; unfold TDMA_MAX_SLOTS in Hcount; lia|].
  erewrite bind_ok by exact E. unfold upd_sf, emit, soft_timer_time. mrun. fold p. fold D.
  unfold mbind at 1, M_bind at 1. cbn [reads set_reads set_fx set_sf_data set_tdma_data s0].
  fold n1. destruct (Z.eqb_spec D 0); [lia|].
  unfold mbind at 1, M_bind at 1. cbn [reads set_reads set_fx set_sf_data set_tdma_data s0].
  fold n2.
  assert (u32 (u32 t0 + u32 (u32 (u32 n1 - u32 t0) - u32 (u32 n1 - u32 t0) mod D))
          = u32 (frame_floor t0 n1 D)) as ->.
  { assert (u32 (u32 n1 - u32 t0) = n1 - t0) as -> by mlia. unfold frame_floor.
    pose proof (Z.div_mod (n1 - t0) D ltac:(lia)) as Hdm.
    replace ((n1 - t0) / D * D) with (n1 - t0 - (n1 - t0) mod D) by lia.
    generalize ((n1 - t0) mod D). intros; mlia. }
  mrun. eexists. split; [reflexivity|]. split; [done|]. cbn zeta.
  set (st := if TIME_LT _ _ then _ else _).
  split_and!; try done.
  - intros j. cbn. rewrite Hget. cbn [slots tdma_data set_tdma_data set_tx_slots s0].
    destruct (decide (Z.of_nat j < slot_count (pan (tdma_data s)))) as [Hj|Hj].
    + by rewrite decide_True by (fold p in Hj; lia).
    + by rewrite decide_False by (fold p in Hj; lia).
  - cbn. by rewrite <- !app_assoc.
Qed.

(** [tdma_slot_start t0] empties the slot table and starts the slots-frame
    at the first boundary after now aligned on [t0], the radio asleep and the
    timer set to wake before it, as long as no multiple of 2^31 lies between
    the boundary and the start-up delay. When one does, the signed comparison
    of the times fails and the start is left at the boundary already past. *)
Theorem tdma_slot_start_spec s t0 :
  let p := pan (tdma_data s) in
  let D := slots_ticks (slot_duration p) (slot_count p) in
  let n1 := clock (reads s) in
  let n2 := clock (S (reads s)) in
  let F := frame_floor t0 n1 D in
  length (slots (tdma_data s)) = 50%nat -> 0 <= slot_count p <= TDMA_MAX_SLOTS -> 0 < D ->
  0 <= t0 <= n1 -> n1 - t0 < 4294967296 -> n1 <= n2 ->
  exists s', tdma_slot_start (u32 t0) s = Ok (0, s') /\ frame_duration (sf_data s') = D /\
    F <= n1 < F + D /\
    (F / 2147483648 = (n2 + 3276) / 2147483648 -> started s (u32 (F + D)) s') /\
    (F mod 4294967296 < 2147483648 <= (n2 + 3276) mod 4294967296 -> started s (u32 F) s').
Proof.
  intros p D n1 n2 F Hlen Hcount HD Ht0 Hn1 Hn2.
  destruct (slot_start_run s t0 Hlen Hcount HD Ht0 Hn1) as (s' & E & HdD & Hs).
  exists s'. split; [exact E|]. split; [exact HdD|].
  assert (F <= n1 < F + D) as HF.
  { subst F. unfold frame_floor. pose proof (Z.div_mod (n1 - t0) D ltac:(lia)).
    pose proof (Z.mod_pos_bound (n1 - t0) D ltac:(lia)). lia. }
  split; [done|]. cbn zeta in Hs.
  change (soft_timer_ms_to_ticks TDMA_STARTUP_DELAY_MS) with 3276 in Hs.
  fold n1 n2 in Hs. fold p in Hs. fold D in Hs. fold F in Hs. clearbody F D n1 n2. unfold TIME_LT in Hs.
  split; intros Hw.
  - destruct (Z.ltb_spec (i32 (u32 F)) (i32 (u32 (u32 n2 + 3276)))) as [Hlt|Hge] in Hs.
    + by replace (u32 (F + D)) with (u32 (u32 F + D)) by mlia.
    + exfalso. clear Hs. assert (F < n2 + 3276) by lia. mlia.
  - destruct (Z.ltb_spec (i32 (u32 F)) (i32 (u32 (u32 n2 + 3276)))) as [Hlt|Hge] in Hs; [|done].
    exfalso. clear Hs. mlia.
Qed.
End start.

(** *** Concrete instances *)

(** A clock that advances by one tick at each reading, a radio that works. *)
Definition demo_env : TdmaEnv :=
  {| clock n := 6000 + Z.of_nat n; phy_result _ := PHY_SUCCESS; random16 _ := 0 |}.

Lemma tdma_slot_configure_spec_witness :
  exists d', tdma_slot_configure 2 0x11 (tdma_of (demo_data 0x11 TDMA_NODE None) 1 (demo_frame [] 0 None)) =
      Ok (tt, set_tdma_data d' (tdma_of (demo_data 0x11 TDMA_NODE None) 1 (demo_frame [] 0 None))) /\
    table_ok d'.
Proof.
  destruct (tdma_slot_configure_spec (tdma_of (demo_data 0x11 TDMA_NODE None) 1 (demo_frame [] 0 None)) 2 0x11)
    as (d' & E & Hok & _); [by split|lia|].
  exists d'. split; [exact E|exact Hok].
Defined.

Lemma tdma_slot_start_spec_witness :
  exists s', @tdma_slot_start demo_env (u32 5000) (tdma_of (demo_data 0x11 TDMA_SCAN None) 1 (demo_frame [] 0 None)) =
      Ok (0, s') /\ frame_start (sf_data s') = 6310 /\ tx_slots (tdma_data s') = 0.
Proof.
  destruct (@tdma_slot_start_spec demo_env
    (tdma_of (demo_data 0x11 TDMA_SCAN None) 1 (demo_frame [] 0 None)) 5000)
    as (s' & E & _ & _ & Hst & _); [reflexivity|by split|reflexivity|cbn; lia..|].
  destruct (Hst eq_refl) as (H1 & _ & _ & _ & _ & H2 & _).
  exists s'. split; [exact E|]. split; [exact H1|exact H2].
Defined.

End TdmaSlot.
