(* ===== verification/TdmaSched.v ===== *)
(** * TDMA frame handlers and slot processing
      ([net/mac_tdma/coord.c], [node.c]: handlers; [slot.c], second part)

    First the functions the slot code calls through [rx_handler] and
    [tx_handler], then the processing of the slots: the timer handler
    [handle_slot], and the end of transmissions, receptions and scans. *)

From stdpp Require Import base numbers gmap list.
From S2P Require Import Prelude Chain Packet Event SoftTime Phy TdmaPacket TdmaState TdmaSlot.

Module TdmaSched.
Import Phy TdmaPacket TdmaState SoftTime TdmaSlot.

Definition APPLI : Event.event_queue := Event.EVENT_QUEUE_APPLI.

(** *** Fields of the packet of a frame, through its [data] pointer *)

Definition pkt_type (k : tdma_frame) : res Z :=
  tdma_packet_header_type (raw_data (pkt k)) (data (pkt k)).
Definition pkt_rd (n : nat) (k : tdma_frame) (off : Z) : res Z :=
  rd n (raw_data (pkt k)) (data (pkt k) + off).
Definition frame_wr (p : ptr) (base : Z) (n : nat) (off v : Z) : TM unit :=
  frame_raw p (λ raw, wr n raw (base + off) v).
(** [phy_prepare_packet(&frame->pkt)], [frame->pkt.length = n], [frame->status = st] *)
Definition frame_phy_prepare (p : ptr) : TM unit :=
  frame_upd p (λ k, set_pkt (phy_prepare_packet (pkt k)) k).
Definition frame_set_length (p : ptr) (n : Z) : TM unit :=
  frame_upd p (λ k, set_pkt (set_length n (pkt k)) k).
Definition frame_set_status (p : ptr) (st : tdma_status) : TM unit := frame_upd p (set_status st).

(** ** Coordinator handlers ([coord.c]) *)

Definition coord_tx_handler (frame : ptr) : TM unit :=
  k ← frame_load frame;
  let base := data (pkt k) in
  ty ← mlift (pkt_type k);
  if ty =? TDMA_PKT_BEACON then
    frame_phy_prepare (Some BEACON_FRAME) ;;
    tdma_frame_prepare (Some BEACON_FRAME) ;;
    s ← mget;
    let d := tdma_data s in
    frame_raw frame (λ raw, tdma_packet_header_prepare raw base TDMA_PKT_BEACON (panid (pan d)) (addr d) 0xffff) ;;
    frame_wr frame base 1 o_slot_duration (slot_duration (pan d)) ;;
    frame_wr frame base 1 o_slot_count (slot_count (pan d)) ;;
    frame_wr frame base 1 o_desc_cnt 0 ;;
    frame_set_length (Some BEACON_FRAME) (TDMA_PKT_SIZE_HEADER + TDMA_PKT_SIZE_BEACON)
  else if ty =? TDMA_PKT_DATA then emit (FxEventPost APPLI DATA_TX frame)
  else mret tt.

Definition coord_rx_handler (frame : ptr) : TM unit :=
  k ← frame_load frame;
  ty ← mlift (pkt_type k);
  if ty =? TDMA_PKT_DATA then emit (FxEventPost APPLI DATA_RX frame)
  else if (ty =? TDMA_PKT_ASSOC) && (length_ (pkt k) =? TDMA_PKT_SIZE_HEADER + TDMA_PKT_SIZE_ASSOC) then
    emit (FxEventPost APPLI COORD_ASSOC frame)
  else tdma_frame_free frame.

(** ** Node handlers ([node.c]) *)

Definition node_tx_handler (frame : ptr) : TM unit :=
  if decide (frame = Some NODE_FRAME) then mret tt
  else emit (FxEventPost APPLI DATA_TX frame).

Definition node_rx_handler (frame : ptr) : TM unit :=
  k ← frame_load frame;
  ty ← mlift (pkt_type k);
  s ← mget;
  if ty =? TDMA_PKT_DATA then
    if decide (state (tdma_data s) = TDMA_NODE) then emit (FxEventPost APPLI DATA_RX frame)
    else tdma_frame_free frame
  else if ty =? TDMA_PKT_BEACON then
    cnt ← mlift (pkt_rd 1 k o_desc_cnt);
    if negb (length_ (pkt k) =? TDMA_PKT_SIZE_HEADER + TDMA_PKT_SIZE_BEACON + 2 * cnt)
    then tdma_frame_free frame
    else emit (FxEventPost APPLI NODE_BEACON frame)
  else tdma_frame_free frame.

Section sched.
Context `{!TdmaEnv}.

(** The loop of [scan_handler] over the owners listed in the beacon: [n] is
    the number of entries left. *)
Fixpoint scan_owners (n : nat) (k : tdma_frame) (off i : Z) : TM unit :=
  match n with
  | O => mret tt
  | S n =>
      own ← mlift (pkt_rd 2 k (o_desc_own i));
      if own =? 0xffff then
        s ← mget;
        tdma_slot_configure (u8 (off + i)) (addr (tdma_data s))
      else scan_owners n k off (i + 1)
  end.

(** The test of [scan_handler] that the packet is a beacon of the network. *)
Definition scan_beacon_ok (k : tdma_frame) : TM bool :=
  s ← mget;
  ok ← mlift (tdma_packet_is_ok (raw_data (pkt k)) (data (pkt k)) (panid (pan (tdma_data s))) 0xffff);
  if negb ok then mret false
  else
    ty ← mlift (pkt_type k);
    if negb (ty =? TDMA_PKT_BEACON) then mret false
    else
      cnt ← mlift (pkt_rd 1 k o_desc_cnt);
      mret (length_ (pkt k) =? TDMA_PKT_SIZE_HEADER + TDMA_PKT_SIZE_BEACON + 2 * cnt).

Definition scan_handler (frame : ptr) : TM unit :=
  k ← frame_load frame;
  ok ← (if decide (status k = TDMA_STATUS_RECV) then
          frame_raw frame (λ raw, tdma_packet_header_decode raw (data (pkt k))) ;;
          k ← frame_load frame;
          scan_beacon_ok k
        else mret false);
  if negb ok then emit (FxEventPost APPLI SCAN_START None)
  else
    k ← frame_load frame;
    src ← mlift (pkt_rd 2 k o_src);
    count ← mlift (pkt_rd 1 k o_slot_count);
    duration ← mlift (pkt_rd 1 k o_slot_duration);
    upd_pan (set_coord src) ;;
    upd_pan (set_slot_count count) ;;
    upd_pan (set_slot_duration duration) ;;
    upd_data (set_rx_handler NODE_RX) ;;
    tdma_slot_start (timestamp (pkt k)) ;;
    tdma_slot_configure 0 src ;;
    cnt ← mlift (pkt_rd 1 k o_desc_cnt);
    off ← mlift (pkt_rd 1 k o_desc_off);
    scan_owners (Z.to_nat cnt) k off 0 ;;
    now ← soft_timer_time;
    s ← mget;
    let time := Z.lxor now (random16 (reads s)) mod (1 + TDMA_ASSOC_BACKOFF_WINDOW) in
    let time := u32 (time * soft_timer_us_to_ticks TDMA_SLOT_DURATION_FACTOR_US) in
    let time := u32 (time * u32 (slot_duration (pan (tdma_data s)) * slot_count (pan (tdma_data s)))) in
    emit (FxTimerStart TIMEOUT_TIMER time false) ;;
    upd_data (set_state TDMA_WAIT).

(** Calls through the function pointers. *)
Definition call_rx_handler (frame : ptr) : TM unit :=
  s ← mget;
  match rx_handler (tdma_data s) with
  | COORD_RX => coord_rx_handler frame
  | NODE_RX => node_rx_handler frame
  | SCAN_RX => scan_handler frame
  end.
Definition call_tx_handler (frame : ptr) : TM unit :=
  s ← mget;
  match tx_handler (tdma_data s) with
  | COORD_TX => coord_tx_handler frame
  | NODE_TX => node_tx_handler frame
  end.

(** ** Slot processing ([slot.c]) *)

Definition tdma_slot_stop : TM unit :=
  emit (FxTimerStop SF_TIMER) ;;
  s ← mget;
  let f := frame (sf_data s) in
  upd_sf (set_frame None) ;;
  emit FxPhySleep ;;
  match f with
  | None => mret tt
  | Some _ =>
      k ← frame_load f;
      if decide (status k = TDMA_STATUS_RX) then tdma_frame_free f
      else call_tx_handler f
  end.

(** The frame [slot_tx] sends, if any: a beacon unless one was sent a short
    time ago and data is waiting, else the first data frame. *)
Definition slot_tx_pick : TM ptr :=
  s ← mget;
  let d := tdma_data s in
  if ((beacon_backoff (sf_data s) =? 0) || bool_decide (tx_frames d = None))
     && negb (bool_decide (beacon_frame d = None)) then
    upd_data (set_beacon_frame None) ;;
    upd_sf (set_beacon_backoff (TDMA_BEACON_BACKOFF_COUNT + 1)) ;;
    mret (beacon_frame d)
  else
    match tx_frames d with
    | Some _ =>
        k ← frame_load (tx_frames d);
        upd_data (set_tx_frames (next k)) ;;
        mret (tx_frames d)
    | None => mret None
    end.

Definition slot_tx (slot_time : Z) : TM unit :=
  f ← slot_tx_pick;
  match f with
  | None => mret tt
  | Some l =>
      upd_sf (set_frame f) ;;
      frame_upd f (set_next None) ;;
      emit (FxPhyTx (if slot_time =? 0 then 1 else slot_time) l) ;;
      st ← phy_status_next;
      if decide (st = PHY_SUCCESS) then mret tt
      else
        upd_sf (set_frame None) ;;
        frame_set_status f TDMA_STATUS_FAILED ;;
        call_tx_handler f
  end.

Definition slot_tx_handler (st : phy_status) : TM unit :=
  tdma_get ;;
  s ← mget;
  let f := frame (sf_data s) in
  upd_sf (set_frame None) ;;
  match f with
  | None => tdma_release
  | Some _ =>
      emit FxPhySleep ;;
      frame_set_status f (if decide (st = PHY_SUCCESS) then TDMA_STATUS_SENT
                          else TDMA_STATUS_FAILED) ;;
      call_tx_handler f ;;
      tdma_release
  end.

Definition slot_rx (slot_time : Z) : TM unit :=
  f ← tdma_frame_alloc 0;
  upd_sf (set_frame f) ;;
  match f with
  | None => mret tt
  | Some l =>
      frame_phy_prepare f ;;
      frame_set_status f TDMA_STATUS_RX ;;
      let t := u32 (slot_time - RX_MARGIN) in
      let tt' := u32 (slot_time + RX_MARGIN) in
      emit (FxPhyRx (if t =? 0 then 1 else t) (if tt' =? 0 then 1 else tt') l) ;;
      st ← phy_status_next;
      if decide (st = PHY_SUCCESS) then mret tt
      else
        upd_sf (set_frame None) ;;
        tdma_frame_free f
  end.

(** The decision of [slot_rx_handler] on a packet received; decodes the
    header in place. *)
Definition rx_accept (f : ptr) (st : phy_status) : TM bool :=
  if decide (st = PHY_SUCCESS) then
    frame_set_status f TDMA_STATUS_RECV ;;
    k ← frame_load f;
    frame_raw f (λ raw, tdma_packet_header_decode raw (data (pkt k))) ;;
    k ← frame_load f;
    s ← mget;
    mlift (tdma_packet_is_ok (raw_data (pkt k)) (data (pkt k)) (panid (pan (tdma_data s)))
             (addr (tdma_data s)))
  else mret false.

Definition slot_rx_handler (st : phy_status) : TM unit :=
  tdma_get ;;
  s ← mget;
  let f := frame (sf_data s) in
  upd_sf (set_frame None) ;;
  match f with
  | None => tdma_release
  | Some _ =>
      emit FxPhySleep ;;
      ok ← rx_accept f st;
      if ok : bool then call_rx_handler f ;; tdma_release
      else tdma_frame_free f ;; tdma_release
  end.

(** The index, start of frame and backoff of the next slot. *)
Definition next_slot (index : Z) : TM unit :=
  s ← mget;
  let sf := sf_data s in
  if 1 + index >=? slot_count (pan (tdma_data s)) then
    upd_sf (set_next_index 0) ;;
    upd_sf (set_frame_start (u32 (frame_start sf + frame_duration sf))) ;;
    mwhen (ctrue (beacon_backoff sf)) (upd_sf (set_beacon_backoff (beacon_backoff sf - 1)))
  else upd_sf (set_next_index (u8 (index + 1))).

Definition handle_slot : TM unit :=
  tdma_get ;;
  s ← mget;
  let time := slot_time (sf_data s) in
  let index := next_index (sf_data s) in
  next_slot index ;;
  s ← mget;
  let st := u32 (slots_ticks (slot_duration (pan (tdma_data s))) (next_index (sf_data s))
                 + frame_start (sf_data s)) in
  upd_sf (set_slot_time st) ;;
  emit (FxTimerStartAt SF_TIMER (u32 (st - WAKEUP))) ;;
  match frame (sf_data s) with
  | Some _ => tdma_release
  | None =>
      owner ← mlift (arr_get (slots (tdma_data s)) index);
      mwhen (negb (owner =? 0))
        (if owner =? addr (tdma_data s) then slot_tx time else slot_rx time) ;;
      tdma_release ;;
      s ← mget;
      match slot_cb (tdma_data s) with
      | None => mret tt
      | Some c => emit (FxSlotCallback c index time)
      end
  end.

Definition slot_scan (f : loc) (channel : Z) : TM unit :=
  frame_phy_prepare (Some f) ;;
  upd_sf (set_frame (Some f)) ;;
  frame_set_status (Some f) TDMA_STATUS_RX ;;
  emit FxPhyIdle ;;
  emit (FxPhySetChannel channel) ;;
  emit (FxPhyRx 0 0 f) ;;
  st ← phy_status_next;
  if decide (st = PHY_SUCCESS) then mret tt
  else
    frame_set_status (Some f) TDMA_STATUS_FAILED ;;
    call_rx_handler (Some f).

Definition slot_scan_handler (st : phy_status) : TM unit :=
  tdma_get ;;
  s ← mget;
  let f := frame (sf_data s) in
  upd_sf (set_frame None) ;;
  frame_set_status f TDMA_STATUS_FAILED ;;
  (if decide (st = PHY_SUCCESS) then frame_set_status f TDMA_STATUS_RECV else mret tt) ;;
  call_rx_handler f ;;
  tdma_release.
End sched.

(** ** Operations on frames that cannot fail

    [keeps D m]: run on frames whose packets hold a beacon header, the
    locations of the frames being [D], [m] returns and changes nothing but the
    contents of the frames. *)

Definition frame_sound (k : tdma_frame) : Prop :=
  0 <= data (pkt k) <= 112 /\ PHY_MAX_RX_LENGTH <= Z.of_nat (length (raw_data (pkt k))).
Definition frames_sound (D : gset loc) (s : tdma) : Prop :=
  map_Forall (λ _ k, frame_sound k) (frame_store s) /\ dom (frame_store s) = D.

Definition keeps (D : gset loc) (m : TM unit) : Prop :=
  forall s, frames_sound D s ->
    exists st, m s = Ok (tt, set_frame_store st s) /\ frames_sound D (set_frame_store st s).

Lemma keeps_ret D : keeps D (mret tt).
Proof. intros s Hs. exists (frame_store s). split; [by destruct s|]. by destruct s. Qed.

Lemma keeps_seq D m1 m2 : keeps D m1 -> keeps D m2 -> keeps D (m1 ;; m2).
Proof.
  intros H1 H2 s Hs. destruct (H1 s Hs) as (st1 & E1 & Hs1).
  destruct (H2 _ Hs1) as (st2 & E2 & Hs2). exists st2. erewrite bind_ok by exact E1.
  rewrite E2. by destruct s.
Qed.

Lemma keeps_get D f : (forall s, keeps D (f s)) -> keeps D (s ← mget; f s).
Proof. intros H s Hs. mrun. by apply H. Qed.

Lemma sound_lookup D s l : frames_sound D s -> l ∈ D -> exists k, frame_store s !! l = Some k /\ frame_sound k.
Proof.
  intros [Hs <-] [k Hk]%elem_of_dom. exists k. split; [done|]. exact (Hs _ _ Hk).
Qed.

Lemma sound_insert D s l k :
  frames_sound D s -> l ∈ D -> frame_sound k ->
  frames_sound D (set_frame_store (<[l := k]> (frame_store s)) s).
Proof.
  intros [Hs <-] Hl Hk. split; cbn; [by apply map_Forall_insert_2|].
  rewrite dom_insert_L. set_solver.
Qed.

Lemma keeps_upd D l f :
  l ∈ D -> (forall k, frame_sound k -> frame_sound (f k)) -> keeps D (frame_upd (Some l) f).
Proof.
  intros Hl Hf s Hs. destruct (sound_lookup D s l Hs Hl) as (k & Hk & Hks). eexists.
  split; [by eapply frame_upd_ok|]. apply sound_insert; auto.
Qed.

Lemma keeps_raw D l f :
  l ∈ D ->
  (forall raw, PHY_MAX_RX_LENGTH <= Z.of_nat (length raw) ->
     exists raw', f raw = Ok raw' /\ length raw' = length raw) ->
  keeps D (frame_raw (Some l) f).
Proof.
  intros Hl Hf s Hs. destruct (sound_lookup D s l Hs Hl) as (k & Hk & [Hd Hr]).
  destruct (Hf _ Hr) as (raw' & E & L). unfold frame_raw.
  eexists. erewrite bind_ok by (by apply frame_load_ok). mrun. rewrite E.
  split; [by eapply frame_save_ok|]. apply sound_insert; [done|done|]. split; [done|]. cbn. lia.
Qed.

Lemma keeps_wr D l base n off v :
  l ∈ D -> 0 <= base <= 112 -> 0 <= off -> off + Z.of_nat n <= 15 -> keeps D (frame_wr (Some l) base n off v).
Proof.
  intros Hl Hb Ho Hn. apply keeps_raw; [done|]. unfold PHY_MAX_RX_LENGTH. intros raw Hr.
  apply wr_ok; lia.
Qed.

(** Preparing the next beacon in frame [l]. *)
Lemma keeps_beacon_reset D l base :
  l ∈ D -> BEACON_FRAME ∈ D -> 0 <= base <= 112 ->
  keeps D (frame_phy_prepare (Some BEACON_FRAME) ;;
    tdma_frame_prepare (Some BEACON_FRAME) ;;
    s ← mget;
    let d := tdma_data s in
    frame_raw (Some l) (λ raw, tdma_packet_header_prepare raw base TDMA_PKT_BEACON (panid (pan d)) (addr d) 0xffff) ;;
    frame_wr (Some l) base 1 o_slot_duration (slot_duration (pan d)) ;;
    frame_wr (Some l) base 1 o_slot_count (slot_count (pan d)) ;;
    frame_wr (Some l) base 1 o_desc_cnt 0 ;;
    frame_set_length (Some BEACON_FRAME) (TDMA_PKT_SIZE_HEADER + TDMA_PKT_SIZE_BEACON)).
Proof.
  intros Hl HB Hb. repeat apply keeps_seq;
    [apply keeps_upd; [done|intros k [Hd Hr]; split; cbn; [lia|done]]
    |apply keeps_upd; done|].
  apply keeps_get. intros s. cbn zeta. repeat apply keeps_seq;
    [|by apply keeps_wr..|apply keeps_upd; [done|by intros k [Hd Hr]]].
  apply keeps_raw; [done|]. unfold PHY_MAX_RX_LENGTH. intros raw Hr.
  apply header_prepare_total; unfold TDMA_PKT_SIZE_HEADER; lia.
Qed.

(** ** The radio in a slot *)

(** What the processing of a slot leaves alone in the rest of the state. *)
Definition same_timing (s s' : tdma) : Prop :=
  tdma_mutex s' = tdma_mutex s /\ slot_cb (tdma_data s') = slot_cb (tdma_data s) /\
  next_index (sf_data s') = next_index (sf_data s) /\
  frame_start (sf_data s') = frame_start (sf_data s) /\
  slot_time (sf_data s') = slot_time (sf_data s).

(** The effects of an event handed to the application queue. *)
Definition passive (e : effect) : Prop :=
  match e with FxEventPost _ _ _ => True | _ => False end.

(** Radio times: 0 would mean immediately, 1 is the next tick. *)
Definition radio_time (t : Z) : Z := if t =? 0 then 1 else t.

(** The frame sent in an own slot. *)
Definition tx_choice (s : tdma) (q : list loc) : option loc :=
  if decide ((beacon_backoff (sf_data s) = 0 \/ q = []) /\ beacon_frame (tdma_data s) <> None)
  then beacon_frame (tdma_data s) else head q.

Definition beacon_frame_ok (d : tdma_global) : Prop :=
  beacon_frame d = None \/ beacon_frame d = Some BEACON_FRAME.

Section radio.
Context `{!TdmaEnv}.
Variable D : gset loc.
Hypothesis HB : BEACON_FRAME ∈ D.

Lemma call_tx_handler_spec s l :
  frames_sound D s -> l ∈ D ->
  exists st rest, call_tx_handler (Some l) s = Ok (tt, set_fx (fx s ++ rest) (set_frame_store st s)) /\
    Forall passive rest.
Proof.
  intros Hs Hl. unfold call_tx_handler. mrun.
  assert (s = set_fx (fx s ++ []) (set_frame_store (frame_store s) s)) as Hsame
    by (rewrite app_nil_r; by destruct s).
  assert (emit (FxEventPost APPLI DATA_TX (Some l)) s =
    Ok (tt, set_fx (fx s ++ [FxEventPost APPLI DATA_TX (Some l)]) (set_frame_store (frame_store s) s)))
    as Hemit by (by destruct s).
  destruct (tx_handler (tdma_data s)).
  - destruct (sound_lookup D s l Hs Hl) as (k & Hk & [Hd Hr]). unfold PHY_MAX_RX_LENGTH in Hr.
    unfold coord_tx_handler. erewrite bind_ok by (by apply frame_load_ok). mrun.
    destruct (header_type_total (raw_data (pkt k)) (data (pkt k))) as [ty Hty];
      [lia|unfold TDMA_PKT_SIZE_HEADER; lia|].
    unfold pkt_type. rewrite Hty. cbn iota beta.
    destruct (Z.eqb_spec ty TDMA_PKT_BEACON).
    + destruct (keeps_beacon_reset D l (data (pkt k)) Hl HB Hd s Hs) as (st & E & _).
      exists st, []. split; [|constructor]. rewrite app_nil_r.
      etransitivity; [exact E|by destruct s].
    + destruct (ty =? TDMA_PKT_DATA).
      * do 2 eexists. split; [exact Hemit|]. by repeat constructor.
      * exists (frame_store s), []. split; [|constructor]. rewrite <- Hsame. done.
  - unfold node_tx_handler. destruct (decide (Some l = Some NODE_FRAME)).
    + exists (frame_store s), []. split; [|constructor]. by rewrite <- Hsame.
    + do 2 eexists. split; [exact Hemit|]. by repeat constructor.
Qed.

Lemma slot_tx_pick_spec s q :
  queue_rep s q -> beacon_frame_ok (tdma_data s) ->
  exists d b, slot_tx_pick s = Ok (tx_choice s q, set_tdma_data d (set_sf_data (set_beacon_backoff b (sf_data s)) s)) /\
    slot_cb d = slot_cb (tdma_data s) /\ tx_handler d = tx_handler (tdma_data s).
Proof.
  intros Hq Hbf. unfold queue_rep in Hq. unfold slot_tx_pick, tx_choice, upd_data, upd_sf. mrun.
  assert (bool_decide (tx_frames (tdma_data s) = None) = bool_decide (q = [])) as ->.
  { apply bool_decide_ext. destruct q as [|x q].
    - apply chain_nil in Hq. rewrite Hq. done.
    - apply chain_cons in Hq as [-> _]. done. }
  set (c := ((beacon_backoff (sf_data s) =? 0) || bool_decide (q = [])) &&
            negb (bool_decide (beacon_frame (tdma_data s) = None))).
  assert (c = bool_decide ((beacon_backoff (sf_data s) = 0 \/ q = []) /\
            beacon_frame (tdma_data s) <> None)) as Hc.
  { subst c. destruct (Z.eqb_spec (beacon_backoff (sf_data s)) 0); cbn [orb];
      repeat case_bool_decide; cbn; try done; tauto. }
  rewrite Hc. destruct (decide ((beacon_backoff (sf_data s) = 0 \/ q = []) /\ _)) as [HD|HD].
  - rewrite bool_decide_eq_true_2 by done. mrun. do 2 eexists. by split; [reflexivity|].
  - rewrite bool_decide_eq_false_2 by done. destruct q as [|x q].
    + apply chain_nil in Hq. rewrite Hq. exists (tdma_data s), (beacon_backoff (sf_data s)).
      split; [|done]. by destruct s as [? ? []].
    + apply chain_cons in Hq as (Hf & k & Hk & _). rewrite Hf.
      erewrite bind_ok by (by apply frame_load_ok). mrun.
      eexists _, (beacon_backoff (sf_data s)). split; [by destruct s as [? ? []]|done].
Qed.

(** Whether the next radio call succeeds, and the frame then in use. *)
Definition in_use (s : tdma) (c : option loc) : ptr :=
  if decide (phy_result (phy_calls s) = PHY_SUCCESS) then c else None.

Lemma slot_tx_spec s q t :
  queue_rep s q -> beacon_frame_ok (tdma_data s) -> frames_sound D s -> frame (sf_data s) = None ->
  exists s' rest, slot_tx t s = Ok (tt, s') /\ same_timing s s' /\
    frame (sf_data s') = in_use s (tx_choice s q) /\
    fx s' = fx s ++ (match tx_choice s q with Some l => [FxPhyTx (radio_time t) l] | None => [] end) ++ rest /\
    Forall passive rest.
Proof.
  intros Hq Hbf Hs Hnone. unfold slot_tx.
  destruct (slot_tx_pick_spec s q Hq Hbf) as (d & b & E1 & Hcb & Htx).
  erewrite bind_ok by exact E1. set (s1 := set_tdma_data _ _).
  destruct (tx_choice s q) as [l|] eqn:Ec.
  2:{ exists s1, []. split_and!; try done; [|by rewrite !app_nil_r].
      cbn. rewrite Hnone. unfold in_use. by case_decide. }
  assert (l ∈ D) as Hl.
  { unfold tx_choice in Ec. destruct (decide _) as [HD|HD] in Ec.
    - destruct Hbf as [E|E]; rewrite E in Ec; [done|]. by injection Ec as <-.
    - destruct q as [|x q]; [done|]. injection Ec as ->. destruct Hs as [_ <-].
      apply elem_of_dom. by apply chain_cons in Hq as (_ & k & -> & _). }
  destruct (keeps_upd D l (set_next None) Hl ltac:(done) (set_sf_data (set_frame (Some l) (sf_data s1)) s1))
    as (st2 & E2 & Hs2); [exact Hs|].
  unfold upd_sf. mrun. erewrite bind_ok by exact E2. unfold emit. mrun.
  erewrite bind_ok by reflexivity. set (s3 := set_phy_calls _ _).
  unfold in_use. cbn [phy_calls set_fx set_frame_store set_sf_data set_tdma_data s1].
  case_decide as Hphy.
  { eexists _, []. split; [reflexivity|]. by split_and!. }
  mrun. set (s4 := set_sf_data _ _).
  destruct (keeps_upd D l (set_status TDMA_STATUS_FAILED) Hl ltac:(done) s4) as (st5 & E5 & Hs5);
    [exact Hs2|].
  unfold frame_set_status. erewrite bind_ok by exact E5.
  destruct (call_tx_handler_spec _ l Hs5 Hl) as (st6 & rest & E6 & Hrest).
  rewrite E6. eexists _, rest. split; [reflexivity|]. split_and!; try done.
  cbn. by rewrite <- app_assoc.
Qed.

Lemma slot_rx_spec s fs t :
  pool_rep s fs -> frame (sf_data s) = None ->
  exists s', slot_rx t s = Ok (tt, s') /\ same_timing s s' /\
    frame (sf_data s') = in_use s (head fs) /\
    fx s' = fx s ++ (match head fs with
                     | Some l => [FxPhyRx (radio_time (u32 (t - RX_MARGIN))) (radio_time (u32 (t + RX_MARGIN))) l]
                     | None => [] end).
Proof.
  intros Hp Hnone. unfold slot_rx. destruct fs as [|l fs].
  { erewrite bind_ok by (apply (frame_alloc_none s []); [done|destruct Hp as (_ & -> & _); done]).
    unfold upd_sf. mrun. eexists. split; [reflexivity|]. split_and!; try done.
    - unfold in_use. cbn. by case_decide.
    - by rewrite app_nil_r. }
  destruct (frame_alloc_ok s l fs 0 Hp) as (s1 & k & E1 & Hk & Hs1 & Hp1 & Hl);
    [destruct Hp as (_ & -> & _); cbn [length]; lia|].
  erewrite bind_ok by exact E1. unfold upd_sf. mrun.
  unfold frame_phy_prepare, frame_set_status.
  erewrite bind_ok by (eapply frame_upd_ok; rewrite Hs1; apply lookup_insert_eq).
  erewrite bind_ok by (eapply frame_upd_ok; apply lookup_insert_eq). unfold emit. mrun.
  erewrite bind_ok by reflexivity. unfold in_use. rewrite Hs1.
  cbn [phy_calls set_fx set_frame_store set_sf_data set_nb_frames set_frames head].
  case_decide as Hphy.
  { eexists. split; [reflexivity|]. by split_and!. }
  unfold upd_sf. mrun. unfold tdma_frame_free. mrun.
  erewrite bind_ok by (eapply frame_upd_ok; apply lookup_insert_eq).
  eexists. split; [reflexivity|]. by split_and!.
Qed.

(** The wake-up of slot [i] of [n]: the backoff of the beacons goes down at the
    end of the slots-frame. *)
Definition next_backoff (n i b : Z) : Z := if i + 1 =? n then Z.max 0 (b - 1) else b.

(** The frame that the slot gives to the radio, and the command. *)
Definition slot_frame (s : tdma) (fs q : list loc) (owner b : Z) : option loc :=
  if owner =? 0 then None
  else if owner =? addr (tdma_data s) then tx_choice (set_sf_data (set_beacon_backoff b (sf_data s)) s) q
  else head fs.
Definition slot_command (s : tdma) (owner t : Z) (l : loc) : effect :=
  if owner =? addr (tdma_data s) then FxPhyTx (radio_time t) l
  else FxPhyRx (radio_time (u32 (t - RX_MARGIN))) (radio_time (u32 (t + RX_MARGIN))) l.

Lemma next_slot_spec s n i :
  n = slot_count (pan (tdma_data s)) -> 0 <= i < n -> n <= TDMA_MAX_SLOTS ->
  0 <= beacon_backoff (sf_data s) ->
  next_slot i s = Ok (tt, set_sf_data
    (set_next_index ((i + 1) mod n) (set_beacon_backoff (next_backoff n i (beacon_backoff (sf_data s)))
      (set_frame_start (if i + 1 =? n then u32 (frame_start (sf_data s) + frame_duration (sf_data s))
                        else frame_start (sf_data s)) (sf_data s)))) s).
Proof.
  intros Hn Hi Hmax Hb. unfold TDMA_MAX_SLOTS in Hmax. unfold next_slot, next_backoff, upd_sf. mrun.
  rewrite <- Hn. destruct (Z.geb_spec (1 + i) n), (Z.eqb_spec (i + 1) n) as [E|E]; try lia.
  - rewrite E, Z_mod_same_full. mrun. unfold ctrue.
    destruct (Z.eqb_spec (beacon_backoff (sf_data s)) 0) as [E0|E0]; cbn [negb mwhen].
    + destruct s as [? ? []]. cbn in *. by subst.
    + mrun. rewrite Z.max_r by lia. by destruct s as [? ? []].
  - rewrite Z.mod_small, u8_id by lia. by destruct s as [? ? []].
Qed.

(** The part of [handle_slot] after the next slot is programmed. *)
Lemma slot_work s fs q owner t :
  pool_rep s fs -> queue_rep s q -> beacon_frame_ok (tdma_data s) -> frames_sound D s ->
  frame (sf_data s) = None ->
  exists s' rest,
    mwhen (negb (owner =? 0)) (if owner =? addr (tdma_data s) then slot_tx t else slot_rx t) s =
      Ok (tt, s') /\ same_timing s s' /\ Forall passive rest /\
    let c := slot_frame s fs q owner (beacon_backoff (sf_data s)) in
    frame (sf_data s') = in_use s c /\
    fx s' = fx s ++ (match c with Some l => [slot_command s owner t l] | None => [] end) ++ rest.
Proof.
  intros Hp Hq Hbf Hs Hnone. unfold slot_frame, slot_command.
  assert (set_sf_data (set_beacon_backoff (beacon_backoff (sf_data s)) (sf_data s)) s = s) as ->
    by (by destruct s as [? ? []]).
  destruct (Z.eqb_spec owner 0); cbn [negb mwhen].
  { exists s, []. split_and!; try done; [|by rewrite !app_nil_r].
    rewrite Hnone. unfold in_use. by case_decide. }
  destruct (Z.eqb_spec owner (addr (tdma_data s))).
  - destruct (slot_tx_spec s q t) as (s' & rest & ? & ? & ? & ? & ?); try done.
    exists s', rest. by split_and!.
  - destruct (slot_rx_spec s fs t) as (s' & E & Ht & Hf & Hfx); try done.
    exists s', []. split_and!; try done. by rewrite app_nil_r.
Qed.

(** C1: Each run of [handle_slot] processes the current slot and programs the
    next one: the index goes around the slots-frame, whose start advances by
    its duration; the next slot is at its place in the slots-frame and the
    timer set ahead of it by the wake-up time. The radio gets at most one
    command, at the time of the current slot: none while a frame is still in
    use or the slot has no owner, a transmission in a slot of the node, of a
    waiting beacon (unless data waits and a beacon was just sent) else of the
    oldest data frame, and a reception with its margins in the slot of
    another. The lock is released. *)
Theorem handle_slot_spec s fs q owner :
  let sf := sf_data s in
  let d := tdma_data s in
  let i := next_index sf in
  let n := slot_count (pan d) in
  let t := slot_time sf in
  tdma_mutex s = Some false -> pool_rep s fs -> queue_rep s q -> beacon_frame_ok d ->
  frames_sound D s -> 0 <= beacon_backoff sf -> 0 <= i < n -> n <= TDMA_MAX_SLOTS ->
  slots d !! Z.to_nat i = Some owner ->
  exists s' rest, handle_slot s = Ok (tt, s') /\ tdma_mutex s' = Some false /\ Forall passive rest /\
    next_index (sf_data s') = (i + 1) mod n /\
    frame_start (sf_data s') = (if i + 1 =? n then u32 (frame_start sf + frame_duration sf)
                                else frame_start sf) /\
    slot_time (sf_data s') = u32 (slots_ticks (slot_duration (pan d)) (next_index (sf_data s'))
                                  + frame_start (sf_data s')) /\
    let c := slot_frame s fs q owner (next_backoff n i (beacon_backoff sf)) in
    match frame sf with
    | Some _ => frame (sf_data s') = frame sf /\
        fx s' = fx s ++ [FxTimerStartAt SF_TIMER (u32 (slot_time (sf_data s') - WAKEUP))]
    | None => frame (sf_data s') = in_use s c /\
        fx s' = fx s ++ [FxTimerStartAt SF_TIMER (u32 (slot_time (sf_data s') - WAKEUP))] ++
          (match c with Some l => [slot_command s owner t l] | None => [] end) ++ rest ++
          (match slot_cb d with Some f => [FxSlotCallback f i t] | None => [] end)
    end.
Proof.
  intros sf d i n t Hmu Hp Hq Hbf Hs Hb Hi Hn Hown. unfold handle_slot, tdma_get.
  erewrite bind_ok by (by rewrite Hmu). mrun.
  set (s1 := set_tdma_mutex (Some true) s).
  erewrite bind_ok by (apply (next_slot_spec s1 n i); done). mrun.
  unfold upd_sf, emit. mrun. set (s2 := set_fx _ _).
  change (slot_time (sf_data s1)) with t. change (next_index (sf_data s1)) with i.
  cbn [frame sf_data set_sf_data set_next_index set_beacon_backoff set_frame_start s1 set_tdma_mutex].
  fold sf. destruct (frame sf) as [f|] eqn:Hf.
  - exists (set_tdma_mutex (Some false) s2), []. split; [reflexivity|]. by split_and!.
  - mrun. erewrite (arr_get_ok _ i owner) by (done || lia). mrun.
    destruct (slot_work s2 fs q owner t) as (s3 & rest & E & (Hm & Hcb & Hni & Hfs & Hst) & Hrest & Hin & Hfx);
      try done.
    erewrite bind_ok by exact E. unfold tdma_release.
    erewrite bind_ok by (rewrite Hm; reflexivity). mrun. cbn [tdma_data set_tdma_mutex].
    rewrite Hcb. change (slot_cb (tdma_data s2)) with (slot_cb d).
    destruct (slot_cb d) as [c|].
    + eexists _, rest. split; [reflexivity|]. cbn [tdma_mutex set_fx set_tdma_mutex sf_data fx].
      rewrite Hni, Hfs, Hst, Hin, Hfx. split_and!; try done. cbn [fx s2 set_fx]. by rewrite <- !app_assoc.
    + eexists _, rest. split; [reflexivity|]. cbn [tdma_mutex set_fx set_tdma_mutex sf_data fx].
      rewrite Hni, Hfs, Hst, Hin, Hfx. split_and!; try done. cbn [fx s2 set_fx].
      by rewrite <- !app_assoc, app_nil_r.
Qed.
End radio.

(** *** Concrete instance *)

(** Node 0x11 in its slot, with frame 2 waiting. *)
Definition demo_node : tdma := tdma_of (demo_data 0x11 TDMA_NODE (Some 2%nat)) 1 (demo_frame [] 0 None).
Definition demo_dom : gset loc := {[0%nat; 1%nat; 2%nat; BEACON_FRAME; NODE_FRAME]}.

Lemma demo_sound d i k2 : frame_sound k2 -> frames_sound demo_dom (tdma_of d i k2).
Proof.
  intros Hk. assert (forall p, frame_sound (demo_frame [] 0 p)) as Hf by (intros; by split).
  split; [|reflexivity].
  repeat (apply map_Forall_insert_2; [by auto|]). apply map_Forall_empty.
Qed.

Lemma handle_slot_spec_witness :
  exists s' rest, @handle_slot demo_env demo_node = Ok (tt, s') /\ Forall passive rest /\
    next_index (sf_data s') = 2 /\ slot_time (sf_data s') = 5655 /\
    fx s' = [FxTimerStartAt SF_TIMER (5655 - 42)] ++ [FxPhyTx 5327 2%nat] ++ rest ++ [].
Proof.
  assert (BEACON_FRAME ∈ demo_dom) as HB by (unfold demo_dom; set_solver).
  destruct (@handle_slot_spec demo_env demo_dom HB demo_node [0%nat; 1%nat] [2%nat] 0x11)
    as (s' & rest & E & _ & Hrest & Hi & Hfs & Ht & Hfr & Hfx).
  - reflexivity.
  - apply demo_pool.
  - split; [reflexivity|]. by exists (demo_frame [] 0 None).
  - by left.
  - by apply demo_sound.
  - done.
  - by split.
  - done.
  - reflexivity.
  - assert (slot_time (sf_data s') = 5655) as Ht' by (rewrite Ht, Hfs, Hi; reflexivity).
    rewrite Ht' in Hfx.
    exists s', rest. split; [exact E|]. split; [exact Hrest|]. split; [exact Hi|]. split; [exact Ht'|].
    exact Hfx.
Defined.

End TdmaSched.
