(* ===== verification/TdmaCoord.v ===== *)
(** * TDMA coordinator ([net/mac_tdma/coord.c])

    The coordinator owns the first slot, announces the owners of the slots in
    periodic beacons and gives free slots to the nodes that ask for some. *)

From stdpp Require Import base numbers gmap list.
From S2P Require Import Prelude Chain Packer Packet Event SoftTime Phy TdmaPacket TdmaState TdmaSlot TdmaSched.

Module TdmaCoord.
Import Phy Packer TdmaPacket TdmaState SoftTime TdmaSlot TdmaSched.

(** [mac_tdma_coord_config_t] *)
Record coord_config := mk_coord_config {
  c_panid : Z;
  c_slot_duration : Z;
  c_slot_count : Z;
  c_channel : Z;
  c_slotsframe : option (list Z);
}.

Section coord.
Context `{!TdmaEnv}.

(** The loop that copies a static slots-frame; counts the broadcast slots. *)
Fixpoint static_slots (ids : list Z) (sfr : list Z) (bdcast : Z) : TM Z :=
  match ids with
  | [] => mret bdcast
  | i :: ids =>
      owner ← mlift (arr_get sfr i);
      tdma_slot_configure (u8 i) owner ;;
      static_slots ids sfr (if owner =? 0xffff then bdcast + 1 else bdcast)
  end.

Definition init_beacon_frame : TM unit :=
  frame_phy_prepare (Some BEACON_FRAME) ;;
  tdma_frame_prepare (Some BEACON_FRAME) ;;
  s ← mget;
  let d := tdma_data s in
  frame_raw (Some BEACON_FRAME)
    (λ raw, tdma_packet_header_prepare raw 0 TDMA_PKT_BEACON (panid (pan d)) (addr d) 0xffff) ;;
  frame_wr (Some BEACON_FRAME) 0 1 o_slot_duration (slot_duration (pan d)) ;;
  frame_wr (Some BEACON_FRAME) 0 1 o_slot_count (slot_count (pan d)) ;;
  frame_wr (Some BEACON_FRAME) 0 1 o_desc_off 0 ;;
  frame_set_length (Some BEACON_FRAME) (TDMA_PKT_SIZE_HEADER + TDMA_PKT_SIZE_BEACON).

(** The slots of the new network; [false] when the static slots-frame is
    refused. *)
Definition init_slots (cfg : coord_config) : TM bool :=
  s ← mget;
  let d := tdma_data s in
  match c_slotsframe cfg with
  | None =>
      mmod (set_slotsframe_is_static false) ;;
      tdma_slot_configure 0 (addr d) ;;
      tdma_slot_configure (slot_count (pan d) / 2) 0xffff ;;
      mret true
  | Some sfr =>
      mmod (set_slotsframe_is_static true) ;;
      first ← mlift (arr_get sfr 0);
      if negb (first =? addr d) then mret false
      else
        tdma_slot_configure 0 (addr d) ;;
        bdcast ← static_slots (zseq 1 (Z.to_nat (slot_count (pan d) - 1))) sfr 0;
        mret (bdcast =? 1)
  end.

Definition mac_tdma_start_coord (cfg : option coord_config) : TM unit :=
  tdma_get ;;
  s ← mget;
  if negb (bool_decide (state (tdma_data s) = TDMA_IDLE)) then tdma_release
  else
    match cfg with
    | None => tdma_release
    | Some cfg =>
        upd_pan (set_coord (addr (tdma_data s))) ;;
        upd_pan (set_panid (c_panid cfg)) ;;
        upd_pan (set_slot_duration (c_slot_duration cfg)) ;;
        upd_pan (set_slot_count (c_slot_count cfg)) ;;
        upd_pan (set_channel (c_channel cfg)) ;;
        upd_data (set_rx_handler COORD_RX) ;;
        upd_data (set_tx_handler COORD_TX) ;;
        if c_slot_count cfg >? TDMA_MAX_SLOTS then tdma_release
        else
          r ← tdma_slot_start 0;
          if ctrue r then tdma_release
          else
            init_beacon_frame ;;
            ok ← init_slots cfg;
            if negb ok then tdma_slot_stop ;; tdma_release
            else
              now ← soft_timer_time;
              mmod (set_beacon_time now) ;;
              emit (FxTimerSetHandler BEACON_TIMER BEACON_TICK) ;;
              emit (FxEventPost APPLI BEACON_TICK None) ;;
              emit (FxTimerStart BEACON_TIMER (TDMA_BEACON_PERIOD_S * SOFT_TIMER_FREQUENCY) true) ;;
              upd_data (set_tx_frames None) ;;
              upd_data (set_beacon_frame None) ;;
              upd_data (set_state TDMA_COORD) ;;
              tdma_release
    end.

(** The owners of the slots [ids], each written at its place in the beacon. *)
Definition beacon_owners (ids : list Z) : TM unit :=
  mfor ids (λ i,
    s ← mget;
    own ← mlift (arr_get (slots (tdma_data s)) i);
    frame_wr (Some BEACON_FRAME) 0 2 (o_desc_own i) (packer_uint16_hton own)).

Definition beacon_prepare : TM unit :=
  s ← mget;
  let n := Z.min (slot_count (pan (tdma_data s))) 50 in
  beacon_owners (zseq 0 (Z.to_nat n)) ;;
  frame_wr (Some BEACON_FRAME) 0 1 o_desc_off 0 ;;
  frame_wr (Some BEACON_FRAME) 0 1 o_desc_cnt n ;;
  frame_set_length (Some BEACON_FRAME) (u8 (TDMA_PKT_SIZE_HEADER + TDMA_PKT_SIZE_BEACON + 2 * n)) ;;
  upd_data (set_beacon_frame (Some BEACON_FRAME)).

Definition beacon_tick : TM unit :=
  tdma_get ;;
  k ← frame_load (Some BEACON_FRAME);
  if negb (bool_decide (status k = TDMA_STATUS_IDLE)) then tdma_release
  else beacon_prepare ;; tdma_release.

(** ** Association *)

(** Counts down the slots the node has already; returns what is left of the
    request and the last slot found. *)
Fixpoint count_owned (ids : list Z) (l : list Z) (a request id : Z) : res (Z * Z) :=
  match ids with
  | [] => Ok (request, id)
  | i :: ids =>
      owner ← arr_get l i;
      if owner =? a then
        let request := u8 (request - 1) in
        if request =? 0 then Ok (0, i) else count_owned ids l a request i
      else count_owned ids l a request id
  end.

(** The search of a free slot from [id], [base] being where it started; returns
    [None] when it comes back to [base]. *)
Fixpoint find_free (fuel : nat) (l : list Z) (count base id : Z) : res (option Z) :=
  match fuel with
  | O => Err EFuel
  | S fuel =>
      owner ← arr_get l id;
      if owner =? 0 then Ok (Some id)
      else
        let id := (id + 1) mod count in
        if id =? base then Ok None else find_free fuel l count base id
  end.

(** The allocation loop; [fuel] bounds the request, a [uint8_t]. Returns what
    could not be allocated. *)
Fixpoint assoc_loop (fuel : nat) (a delta request id : Z) : TM Z :=
  match fuel with
  | O => mfail EFuel
  | S fuel =>
      if request =? 0 then mret 0
      else
        s ← mget;
        let count := slot_count (pan (tdma_data s)) in
        if count =? 0 then mfail EUndef else
        let base := u8 ((id + delta) mod count) in
        r ← mlift (find_free (Z.to_nat count) (slots (tdma_data s)) count base base);
        match r with
        | None => mret request
        | Some id =>
            tdma_slot_configure (u8 id) a ;;
            assoc_loop fuel a delta (u8 (request - 1)) id
        end
  end.

(** What [coord_assoc] does once the request is read and its frame freed. *)
Definition assoc_answer (a request : Z) : TM unit :=
  s ← mget;
  let d := tdma_data s in
  if slotsframe_is_static s then tdma_release
  else if (a =? 0x0000) || (a =? 0xffff) || (a =? addr d) then tdma_release
  else if request =? 0 then tdma_release
  else
    b ← frame_load (Some BEACON_FRAME);
    if negb (bool_decide (status b = TDMA_STATUS_IDLE)) then tdma_release
    else
      let count := slot_count (pan d) in
      let delta := count / request in
      '(request, id) ← mlift (count_owned (zseq 0 (Z.to_nat count)) (slots d) a request 0);
      assoc_loop 256 a delta request id ;;
      beacon_prepare ;;
      tdma_release.

Definition coord_assoc (f : ptr) : TM unit :=
  k ← frame_load f;
  a ← mlift (pkt_rd 2 k o_src);
  request ← mlift (pkt_rd 1 k o_assoc_slots);
  tdma_get ;;
  tdma_frame_free f ;;
  assoc_answer a request.
End coord.

(** ** Association *)

(** Entry [i] of the first [count] entries is free. *)
Definition free_at (l : list Z) (count i : Z) : Prop := 0 <= i < count /\ l !! Z.to_nat i = Some 0.

(** From [l] to [l'], [a] was given free entries among the first [count], and
    nothing else changed. *)
Definition gave (count a : Z) (l l' : list Z) : Prop :=
  length l' = length l /\
  forall i, l' !! i = l !! i \/ (free_at l count (Z.of_nat i) /\ l' !! i = Some a).

Lemma find_free_spec fuel : forall l count base d,
  0 < count <= Z.of_nat (length l) -> 0 <= base < count -> 0 <= d < count ->
  count - d <= Z.of_nat fuel -> (forall j, 0 <= j < d -> ~ free_at l count ((base + j) mod count)) ->
  exists r, find_free fuel l count base ((base + d) mod count) = Ok r /\
    match r with
    | Some id => free_at l count id
    | None => forall i, ~ free_at l count i
    end.
Proof.
  induction fuel as [|fuel IH]; intros l count base d Hc Hb Hd Hf Hno; [lia|].
  cbn [find_free]. set (id := (base + d) mod count).
  assert (0 <= id < count) as Hid by (apply Z.mod_pos_bound; lia).
  destruct (lookup_lt_is_Some_2 l (Z.to_nat id)) as [x Hx]; [lia|].
  rewrite (arr_get_ok _ _ x) by (done || lia). change (mbind ?f (Ok ?y)) with (f y). cbn beta.
  destruct (Z.eqb_spec x 0) as [->|Hx0]; [by eexists; split|].
  assert (~ free_at l count id) as Hnf by (intros [_ ?]; congruence).
  assert (forall j, 0 <= j < d + 1 -> ~ free_at l count ((base + j) mod count)) as Hno'.
  { intros j Hj. destruct (decide (j = d)) as [->|]; [done|]. apply Hno. lia. }
  assert ((id + 1) mod count = (base + (d + 1)) mod count) as Hnext.
  { subst id. rewrite Z.add_mod_idemp_l by lia. f_equal. lia. }
  rewrite Hnext. destruct (Z.eqb_spec ((base + (d + 1)) mod count) base) as [E|E].
  - eexists; split; [done|]. intros i Hi. apply (Hno' ((i - base) mod count)).
    + destruct (decide (d + 1 = count)) as [->|]; [apply Z.mod_pos_bound; lia|].
      exfalso. destruct (decide (base + (d + 1) < count)).
      * rewrite Z.mod_small in E by lia. lia.
      * rewrite <- (Z.mod_unique (base + (d + 1)) count 1 (base + (d + 1) - count)) in E by lia. lia.
    + rewrite Z.add_mod_idemp_r by lia. replace (base + (i - base)) with i by lia.
      destruct Hi as [Hi Hl]. by rewrite Z.mod_small.
  - apply IH; try done; try lia.
    destruct (decide (d + 1 = count)) as [H|]; [|lia].
    rewrite H, Z.add_mod, Z_mod_same_full, Z.add_0_r, Z.mod_mod, Z.mod_small in E by lia. done.
Qed.

Lemma gave_refl count a l : gave count a l l.
Proof. split; [done|]. by left. Qed.

Lemma gave_step count a l l' i :
  a <> 0 -> free_at l count i -> gave count a (<[Z.to_nat i := a]> l) l' -> gave count a l l'.
Proof.
  intros Ha Hi [Hlen H]. rewrite length_insert in Hlen. split; [done|]. intros j.
  destruct (decide (j = Z.to_nat i)) as [->|Hne].
  - destruct Hi as [Hi Hl]. pose proof (lookup_lt_Some _ _ _ Hl).
    right. rewrite Z2Nat.id by lia. split; [done|].
    destruct (H (Z.to_nat i)) as [E|[[_ E] _]].
    + by rewrite E, list_lookup_insert_eq.
    + rewrite Nat2Z.id, list_lookup_insert_eq in E by done. congruence.
  - destruct (H j) as [E|[[Hj E] E']].
    + left. by rewrite E, list_lookup_insert_ne.
    + right. split; [|done]. split; [done|]. rewrite Nat2Z.id in E |- *.
      by rewrite list_lookup_insert_ne in E.
Qed.

(** How many of the first [count] slots [a] has. *)
Definition owned (a count : Z) (l : list Z) : Z := own_count a (take (Z.to_nat count) l).

Lemma owned_give a count i l :
  a <> 0 -> free_at l count i -> owned a count (<[Z.to_nat i := a]> l) = owned a count l + 1.
Proof.
  intros Ha [Hi Hl]. unfold owned. rewrite take_insert_lt by lia.
  rewrite (own_count_insert a _ _ 0) by (rewrite lookup_take_lt by lia; done).
  rewrite decide_True by done. rewrite decide_False by done. lia.
Qed.

Lemma count_owned_spec count a l : forall n i request id,
  0 <= i -> i + Z.of_nat n = count -> count <= Z.of_nat (length l) -> 0 < request < 256 ->
  0 <= id < count ->
  exists id', count_owned (zseq i n) l a request id =
      Ok (Z.max 0 (request - own_count a (take n (drop (Z.to_nat i) l))), id') /\ 0 <= id' < count.
Proof.
  induction n as [|n IH]; intros i request id Hi Hn Hl Hr Hid.
  - exists id. cbn [take]. change (own_count a []) with 0. rewrite Z.sub_0_r, Z.max_r by lia. done.
  - rewrite zseq_S. cbn [count_owned].
    destruct (lookup_lt_is_Some_2 l (Z.to_nat i)) as [x Hx]; [lia|].
    rewrite (arr_get_ok _ _ x) by done. change (mbind ?f (Ok ?y)) with (f y). cbn beta.
    rewrite (drop_S l x (Z.to_nat i)) by done. cbn [take].
    replace (S (Z.to_nat i)) with (Z.to_nat (i + 1)) by lia.
    pose proof (own_count_range a (take n (drop (Z.to_nat (i + 1)) l))).
    unfold own_count in *. rewrite filter_cons. destruct (Z.eqb_spec x a) as [E|E].
    + rewrite decide_True by done. cbn [length]. rewrite u8_id by lia.
      destruct (Z.eqb_spec (request - 1) 0).
      * exists i. split; [|lia]. do 2 f_equal. lia.
      * destruct (IH (i + 1) (request - 1) i) as (id' & -> & ?); try lia.
        exists id'. split; [|done]. do 2 f_equal. lia.
    + rewrite decide_False by done. apply IH; lia.
Qed.

Lemma assoc_loop_spec a delta fuel : forall s request id,
  let count := slot_count (pan (tdma_data s)) in
  table_ok (tdma_data s) -> 0 < count <= TDMA_MAX_SLOTS -> a <> 0 ->
  0 <= request < 256 -> request < Z.of_nat fuel -> 0 <= id -> 0 <= delta ->
  exists r d', assoc_loop fuel a delta request id s = Ok (r, set_tdma_data d' s) /\
    table_ok d' /\ gave count a (slots (tdma_data s)) (slots d') /\
    0 <= r <= request /\
    owned a count (slots d') = owned a count (slots (tdma_data s)) + (request - r) /\
    (r = 0 \/ forall i, ~ free_at (slots d') count i) /\
    d' = set_slots (slots d') (set_tx_slots (tx_slots d') (tdma_data s)).
Proof.
  induction fuel as [|fuel IH]; intros s request id count Hok Hcount Ha Hr Hf Hid Hdelta; [lia|].
  assert (set_slots (slots (tdma_data s)) (set_tx_slots (tx_slots (tdma_data s)) (tdma_data s))
          = tdma_data s) as Hsame by (by destruct (tdma_data s)).
  assert (set_tdma_data (tdma_data s) s = s) as Hsame' by (by destruct s).
  cbn [assoc_loop]. unfold TDMA_MAX_SLOTS in Hcount. destruct (Z.eqb_spec request 0) as [->|Hr0].
  - exists 0, (tdma_data s). rewrite Hsame'.
    split_and!; try done; [apply gave_refl|lia|by left].
  - mrun. fold count. destruct (Z.eqb_spec count 0); [lia|].
    assert (0 <= (id + delta) mod count < count) as Hb by (apply Z.mod_pos_bound; lia).
    rewrite (u8_id ((id + delta) mod count)), (u8_id (request - 1)) by lia.
    set (base := (id + delta) mod count) in *.
    destruct (find_free_spec (Z.to_nat count) (slots (tdma_data s)) count base 0) as (r & E & Hres);
      try lia. { destruct Hok. lia. }
    rewrite Z.add_0_r, (Z.mod_small base count) in E by lia. rewrite E. mrun.
    destruct r as [i|].
    + pose proof Hres as [Hi _]. rewrite u8_id by lia.
      destruct (slot_configure_ok s i a Hok) as (d1 & E1 & Hok1 & Hs1 & _ & Hp1 & Hd1);
        [unfold TDMA_MAX_SLOTS; lia|].
      erewrite bind_ok by exact E1.
      destruct (IH (set_tdma_data d1 s) (request - 1) i) as (r & d' & E' & Hok' & Hg & Hr' & Ho & Hdone & Hd');
        cbn [tdma_data set_tdma_data] in *; try done; try lia.
      { rewrite Hp1. exact Hcount. }
      rewrite Hp1, Hs1 in Hg. rewrite Hp1, Hs1 in Ho. rewrite Hp1 in Hdone. fold count in Hg, Ho, Hdone.
      exists r, d'. split; [exact E'|]. split_and!; try done; try lia.
      * by eapply gave_step.
      * rewrite Ho, (owned_give a count i) by done. lia.
      * rewrite Hd' at 1. rewrite Hd1. done.
    + exists request, (tdma_data s). rewrite Hsame'.
      split_and!; try done; [apply gave_refl|lia|lia|by right].
Qed.

(** ** Beacons *)

(** The beacon in [raw] lists the owners [ls], from slot 0. *)
Definition beacon_lists (raw : list Z) (base : Z) (ls : list Z) : Prop :=
  rd 1 raw (base + o_desc_cnt) = Ok (Z.of_nat (length ls)) /\ rd 1 raw (base + o_desc_off) = Ok 0 /\
  forall i x, ls !! i = Some x ->
    rd 2 raw (base + o_desc_own (Z.of_nat i)) = Ok (packer_uint16_hton x).

Lemma frame_raw_ok s l k f r :
  frame_store s !! l = Some k -> f (raw_data (pkt k)) = Ok r ->
  frame_raw (Some l) f s =
    Ok (tt, set_frame_store (<[l := set_pkt (set_raw r (pkt k)) k]> (frame_store s)) s).
Proof.
  intros Hk Hf. unfold frame_raw. erewrite bind_ok by (by apply frame_load_ok). mrun.
  rewrite Hf. by eapply frame_save_ok.
Qed.

(** A state that differs from [s] by the bytes of frame [l] only. *)
Definition with_raw (l : loc) (k : tdma_frame) (raw : list Z) (s : tdma) : tdma :=
  set_frame_store (<[l := set_pkt (set_raw raw (pkt k)) k]> (frame_store s)) s.

Lemma with_raw_wr l k raw s base n off v raw' :
  wr n raw (base + off) v = Ok raw' ->
  frame_wr (Some l) base n off v (with_raw l k raw s) = Ok (tt, with_raw l k raw' s).
Proof.
  intros E. unfold frame_wr. erewrite frame_raw_ok;
    [|unfold with_raw; cbn; apply lookup_insert_eq|exact E].
  unfold with_raw. cbn. by rewrite insert_insert_eq.
Qed.

Lemma with_raw_id l k s : frame_store s !! l = Some k -> with_raw l k (raw_data (pkt k)) s = s.
Proof.
  intros Hk. unfold with_raw. rewrite insert_id; [by destruct s|]. rewrite Hk. by destruct k as [? ? ? ? []].
Qed.

Lemma beacon_owners_spec k s : forall n i raw,
  0 <= i -> i + Z.of_nat n <= 50 -> length (slots (tdma_data s)) = 50%nat ->
  PHY_MAX_RX_LENGTH <= Z.of_nat (length raw) ->
  exists raw', beacon_owners (zseq i n) (with_raw BEACON_FRAME k raw s) =
      Ok (tt, with_raw BEACON_FRAME k raw' s) /\ length raw' = length raw /\
    (forall m off, off + Z.of_nat m <= o_desc_own i -> rd m raw' off = rd m raw off) /\
    (forall j x, (j < n)%nat -> slots (tdma_data s) !! (Z.to_nat i + j)%nat = Some x ->
       rd 2 raw' (o_desc_own (i + Z.of_nat j)) = Ok (packer_uint16_hton x)).
Proof.
  unfold beacon_owners.
  induction n as [|n IH]; intros i raw Hi Hn Hlen Hraw; [exists raw; split_and!; try done; intros; lia|].
  rewrite zseq_S. cbn [mfor]. mrun.
  change (slots (tdma_data (with_raw BEACON_FRAME k raw s))) with (slots (tdma_data s)).
  destruct (lookup_lt_is_Some_2 (slots (tdma_data s)) (Z.to_nat i)) as [x Hx]; [lia|].
  rewrite (arr_get_ok _ _ x) by done. unfold PHY_MAX_RX_LENGTH in Hraw.
  destruct (wr_ok 2 raw (0 + o_desc_own i) (packer_uint16_hton x)) as (raw1 & E1 & L1);
    [unfold o_desc_own, o_payload; lia..|].
  erewrite bind_ok by (apply with_raw_wr; exact E1).
  destruct (IH (i + 1) raw1) as (raw' & E & L & Hout & Hin);
    [lia|lia|done|unfold PHY_MAX_RX_LENGTH; lia|].
  exists raw'. split; [exact E|]. split; [congruence|]. split.
  - intros m off Hoff. rewrite Hout by (unfold o_desc_own in *; lia).
    eapply rd_wr_other; [exact E1|]. lia.
  - intros [|j] y Hj Hy.
    + rewrite Nat.add_0_r, Hx in Hy. injection Hy as <-. rewrite Z.add_0_r.
      rewrite Hout by (unfold o_desc_own; lia). rewrite Z.add_0_l in E1. rewrite (rd_wr _ _ _ _ _ E1).
      f_equal. apply Z.mod_small, hton16_range.
    + replace (i + Z.of_nat (S j)) with (i + 1 + Z.of_nat j) by lia. apply Hin; [lia|].
      rewrite <- Hy. f_equal. lia.
Qed.

Lemma beacon_prepare_run s k :
  let n := slot_count (pan (tdma_data s)) in
  frame_store s !! BEACON_FRAME = Some k -> PHY_MAX_RX_LENGTH <= Z.of_nat (length (raw_data (pkt k))) ->
  length (slots (tdma_data s)) = 50%nat -> 0 <= n <= TDMA_MAX_SLOTS ->
  exists raw, length raw = length (raw_data (pkt k)) /\
    beacon_prepare s = Ok (tt,
      set_tdma_data (set_beacon_frame (Some BEACON_FRAME) (tdma_data s))
        (set_frame_store (<[BEACON_FRAME := set_pkt (set_length (TDMA_PKT_SIZE_HEADER +
           TDMA_PKT_SIZE_BEACON + 2 * n) (set_raw raw (pkt k))) k]> (frame_store s)) s)) /\
    beacon_lists raw 0 (take (Z.to_nat n) (slots (tdma_data s))) /\
    (forall m off, off + Z.of_nat m <= o_desc_cnt -> rd m raw off = rd m (raw_data (pkt k)) off).
Proof.
  intros n Hk Hraw Hlen Hn. unfold PHY_MAX_RX_LENGTH, TDMA_MAX_SLOTS in *.
  unfold beacon_prepare. mrun. fold n. rewrite Z.min_l by lia.
  destruct (beacon_owners_spec k s (Z.to_nat n) 0 (raw_data (pkt k))) as (r1 & E1 & L1 & O1 & I1);
    [lia|lia|done|unfold PHY_MAX_RX_LENGTH; lia|].
  rewrite with_raw_id in E1 by done. erewrite bind_ok by exact E1.
  destruct (wr_ok 1 r1 (0 + o_desc_off) 0) as (r2 & E2 & L2); [unfold o_desc_off, o_payload; lia..|].
  erewrite bind_ok by (apply with_raw_wr; exact E2).
  destruct (wr_ok 1 r2 (0 + o_desc_cnt) n) as (r3 & E3 & L3); [unfold o_desc_cnt, o_payload; lia..|].
  erewrite bind_ok by (apply with_raw_wr; exact E3).
  exists r3. split; [congruence|]. unfold TDMA_PKT_SIZE_HEADER, TDMA_PKT_SIZE_BEACON.
  rewrite u8_id by lia. split; [|split].
  - unfold frame_set_length.
    erewrite bind_ok by (eapply frame_upd_ok; unfold with_raw; cbn; apply lookup_insert_eq).
    unfold with_raw. cbn [frame_store set_frame_store set_pkt pkt]. rewrite insert_insert_eq. done.
  - pose proof (rd_wr _ _ _ _ _ E3) as R3. rewrite Z.mod_small in R3 by lia.
    unfold beacon_lists. rewrite length_take, Hlen, Nat.min_l, Z2Nat.id by lia.
    split_and!; [exact R3| |].
    + rewrite (rd_wr_other 1 1 r2 (0 + o_desc_off) _ _ r3 E3) by (unfold o_desc_off, o_desc_cnt; lia).
      exact (rd_wr _ _ _ _ _ E2).
    + intros i x [Hx Hi]%lookup_take_Some.
      rewrite (rd_wr_other 2 1 r2 _ _ _ r3 E3) by (unfold o_desc_own, o_desc_cnt; lia).
      rewrite (rd_wr_other 2 1 r1 _ _ _ r2 E2) by (unfold o_desc_own, o_desc_off; lia).
      rewrite Z.add_0_l. by apply (I1 i x).
  - intros m off Hoff.
    rewrite (rd_wr_other m 1 r2 _ _ _ r3 E3) by (unfold o_desc_off, o_desc_cnt in *; lia).
    rewrite (rd_wr_other m 1 r1 _ _ _ r2 E2) by (unfold o_desc_off, o_desc_cnt in *; lia).
    apply O1. unfold o_desc_own, o_desc_cnt in *. lia.
Qed.

(** A beacon tick with an idle beacon frame lists the owner of every slot, in
    network order, in the beacon frame, keeps its header, and hands the frame
    over for transmission; with a beacon in flight it changes nothing. *)
Theorem beacon_tick_spec s k :
  let n := slot_count (pan (tdma_data s)) in
  tdma_mutex s = Some false ->
  frame_store s !! BEACON_FRAME = Some k -> PHY_MAX_RX_LENGTH <= Z.of_nat (length (raw_data (pkt k))) ->
  length (slots (tdma_data s)) = 50%nat -> 0 <= n <= TDMA_MAX_SLOTS ->
  (status k <> TDMA_STATUS_IDLE -> beacon_tick s = Ok (tt, s)) /\
  (status k = TDMA_STATUS_IDLE ->
   exists raw s', beacon_tick s = Ok (tt, s') /\
     s' = set_tdma_data (set_beacon_frame (Some BEACON_FRAME) (tdma_data s))
        (set_frame_store (<[BEACON_FRAME := set_pkt (set_length (TDMA_PKT_SIZE_HEADER +
           TDMA_PKT_SIZE_BEACON + 2 * n) (set_raw raw (pkt k))) k]> (frame_store s)) s) /\
     beacon_lists raw 0 (take (Z.to_nat n) (slots (tdma_data s))) /\
     (forall m off, off + Z.of_nat m <= o_desc_cnt -> rd m raw off = rd m (raw_data (pkt k)) off)).
Proof.
  intros n Hmu Hk Hraw Hlen Hn. unfold beacon_tick, tdma_get.
  erewrite bind_ok by (by rewrite Hmu).
  assert (set_tdma_mutex (Some false) s = s) as Hs by (rewrite <- Hmu; by destruct s).
  erewrite bind_ok by (apply frame_load_ok; exact Hk). split; intros Hst.
  - rewrite bool_decide_eq_false_2 by done. cbn. by f_equal; f_equal.
  - rewrite bool_decide_eq_true_2 by done. cbn [negb].
    destruct (beacon_prepare_run (set_tdma_mutex (Some true) s) k Hk Hraw Hlen Hn)
      as (raw & _ & E & Hb & Hh).
    erewrite bind_ok by exact E. exists raw. eexists. split; [reflexivity|].
    split; [|done]. cbn. rewrite <- Hmu. by destruct s.
Qed.

(** The requests [coord_assoc] does not serve. *)
Definition refused (s : tdma) (b : tdma_frame) (a request : Z) : Prop :=
  slotsframe_is_static s = true \/ a = 0 \/ a = 0xffff \/ a = addr (tdma_data s) \/ request = 0 \/
  status b <> TDMA_STATUS_IDLE.

(** The outcome of a request served: [l'] is the new table. *)
Definition served (count a request : Z) (l l' : list Z) : Prop :=
  gave count a l l' /\
  owned a count l <= owned a count l' <= Z.max (owned a count l) request /\
  (request <= owned a count l' \/ forall i, ~ free_at l' count i).

(** The allocation part of [coord_assoc], the lock held. *)
Lemma assoc_serve s b a request :
  let d := tdma_data s in
  let count := slot_count (pan d) in
  frame_store s !! BEACON_FRAME = Some b -> PHY_MAX_RX_LENGTH <= Z.of_nat (length (raw_data (pkt b))) ->
  table_ok d -> 0 < count <= TDMA_MAX_SLOTS -> a <> 0 -> 0 < request < 256 ->
  exists d' raw,
    ('(request', id) ← mlift (count_owned (zseq 0 (Z.to_nat count)) (slots d) a request 0);
     assoc_loop 256 a (count / request) request' id ;; beacon_prepare) s =
      Ok (tt, set_tdma_data d'
        (set_frame_store (<[BEACON_FRAME := set_pkt (set_length (TDMA_PKT_SIZE_HEADER +
           TDMA_PKT_SIZE_BEACON + 2 * count) (set_raw raw (pkt b))) b]> (frame_store s)) s)) /\
    table_ok d' /\ beacon_frame d' = Some BEACON_FRAME /\
    served count a request (slots d) (slots d') /\
    beacon_lists raw 0 (take (Z.to_nat count) (slots d')).
Proof.
  intros d count Hb Hraw Hok Hcount Ha Hr. unfold TDMA_MAX_SLOTS in Hcount.
  pose proof Hok as [Hlen _].
  destruct (count_owned_spec count a (slots d) (Z.to_nat count) 0 request 0) as (id & E & Hid); try lia.
  rewrite drop_0 in E. fold (owned a count (slots d)) in E. mrun. rewrite E. mrun.
  set (q := Z.max 0 (request - owned a count (slots d))) in *.
  assert (0 <= owned a count (slots d)) as Ho by apply own_count_range.
  assert (0 <= count / request) as Hq by (apply Z.div_pos; lia).
  destruct (assoc_loop_spec a (count / request) 256 s q id) as (r & d1 & E1 & Hok1 & Hg & Hr1 & Ho1 & Hdone & Hd1);
    try done; try lia.
  fold d in Hg, Ho1, Hdone, Hd1. fold count in Hg, Ho1, Hdone.
  erewrite bind_ok by exact E1.
  assert (pan d1 = pan d) as Hpan by (rewrite Hd1; done).
  destruct (beacon_prepare_run (set_tdma_data d1 s) b Hb Hraw) as (raw & _ & E2 & Hl & _);
    cbn [tdma_data set_tdma_data] in *; [apply Hok1|rewrite Hpan; unfold TDMA_MAX_SLOTS; fold count; lia|].
  rewrite Hpan in E2, Hl. fold count in E2, Hl.
  exists (set_beacon_frame (Some BEACON_FRAME) d1), raw. split; [exact E2|].
  split_and!; try done. split_and!; try done; [cbn; lia|cbn; lia|].
  cbn. destruct Hdone as [->|Hno]; [|by right]. left. lia.
Qed.

Lemma assoc_refused s b a request :
  frame_store s !! BEACON_FRAME = Some b -> refused s b a request ->
  assoc_answer a request s = tdma_release s.
Proof.
  intros Hb Hr. unfold assoc_answer, refused in *. mrun.
  destruct (slotsframe_is_static s); [done|].
  destruct ((a =? 0x0000) || (a =? 0xffff) || (a =? addr (tdma_data s))) eqn:Ha; [done|].
  destruct (Z.eqb_spec request 0); [done|].
  erewrite bind_ok by (apply frame_load_ok; exact Hb).
  rewrite bool_decide_eq_false_2; [done|]. destruct Hr as [?|[?|[?|[?|[?|?]]]]]; [done|lia..|done].
Qed.

Lemma assoc_not_refused s b a request :
  frame_store s !! BEACON_FRAME = Some b -> ~ refused s b a request ->
  let d := tdma_data s in
  let count := slot_count (pan d) in
  assoc_answer a request s =
    (('(request', id) ← mlift (count_owned (zseq 0 (Z.to_nat count)) (slots d) a request 0);
      assoc_loop 256 a (count / request) request' id ;; beacon_prepare) ;; tdma_release) s.
Proof.
  intros Hb Hr. unfold assoc_answer, refused in *. mrun.
  destruct (slotsframe_is_static s); [tauto|].
  destruct ((a =? 0x0000) || (a =? 0xffff) || (a =? addr (tdma_data s))) eqn:Ha; [lia|].
  destruct (Z.eqb_spec request 0); [tauto|].
  erewrite bind_ok by (apply frame_load_ok; exact Hb).
  rewrite bool_decide_eq_true_2 by (destruct (decide (status b = TDMA_STATUS_IDLE)); tauto).
  cbn [negb]. mrun. destruct (count_owned _ _ _ _ _) as [[r' id]|]; [|done]. by mrun.
Qed.

#[global] Instance refused_dec s b a request : Decision (refused s b a request).
Proof. unfold refused. apply _. Defined.

(** C22: An association request is served without error and its frame goes back to
    the pool. A request that must be refused changes no slot. Otherwise the node
    is given free slots only, no other entry changes, it never has more than it
    asked for (or already had), it has what it asked for unless no slot is free
    any more, and the new table is announced in the next beacon. *)
Theorem coord_assoc_spec s l k b ls a request :
  let d := tdma_data s in
  let count := slot_count (pan d) in
  tdma_mutex s = Some false ->
  frame_store s !! l = Some k -> l <> BEACON_FRAME -> frame_store s !! BEACON_FRAME = Some b ->
  PHY_MAX_RX_LENGTH <= Z.of_nat (length (raw_data (pkt b))) ->
  pool_rep s ls -> (l ∉ ls) -> Z.of_nat (length ls) < 4294967294 ->
  table_ok d -> 0 < count <= TDMA_MAX_SLOTS ->
  pkt_rd 2 k o_src = Ok a -> pkt_rd 1 k o_assoc_slots = Ok request -> is_u8 request ->
  exists s', coord_assoc (Some l) s = Ok (tt, s') /\
    tdma_mutex s' = Some false /\ pool_rep s' (l :: ls) /\ table_ok (tdma_data s') /\
    (refused s b a request -> tdma_data s' = d) /\
    (~ refused s b a request ->
       served count a request (slots d) (slots (tdma_data s')) /\
       beacon_frame (tdma_data s') = Some BEACON_FRAME /\
       exists b', frame_store s' !! BEACON_FRAME = Some b' /\
         beacon_lists (raw_data (pkt b')) 0 (take (Z.to_nat count) (slots (tdma_data s')))).
Proof.
  intros d count Hmu Hk Hlb Hb Hraw Hpool Hl Hmax Hok Hcount Hsrc Hreq Hu8.
  unfold coord_assoc. erewrite bind_ok by (by apply frame_load_ok). mrun. rewrite Hsrc. mrun.
  rewrite Hreq. mrun. unfold tdma_get at 1. erewrite bind_ok by (by rewrite Hmu).
  destruct (frame_free_ok (set_tdma_mutex (Some true) s) l k ls Hpool Hl Hk Hmax)
    as (s1 & E1 & Hp1 & Hs1).
  erewrite bind_ok by exact E1.
  assert (frame_store s1 !! BEACON_FRAME = Some b) as Hb1
    by (rewrite Hs1; cbn; by rewrite lookup_insert_ne).
  assert (tdma_data s1 = d) as Hd1 by (by rewrite Hs1).
  assert (tdma_mutex s1 = Some true) as Hm1 by (by rewrite Hs1).
  assert (refused s1 b a request <-> refused s b a request) as Href
    by (unfold refused; rewrite Hd1; by rewrite Hs1).
  destruct (decide (refused s b a request)) as [Hr|Hr].
  - rewrite (assoc_refused s1 b) by (done || by apply Href). unfold tdma_release. rewrite Hm1.
    eexists. split; [done|]. cbn [tdma_data set_tdma_mutex]. rewrite Hd1. by split_and!.
  - rewrite (assoc_not_refused s1 b) by (done || by rewrite Href). cbn zeta. rewrite Hd1. fold count.
    assert (a <> 0 /\ 0 < request < 256) as [Ha Hrange]
      by (unfold refused in Hr; destruct (decide (a = 0)), (decide (request = 0)); try tauto; lia).
    destruct (assoc_serve s1 b a request Hb1 Hraw) as (d' & raw & E & Hok' & Hbf & Hserved & Hlists);
      rewrite ?Hd1; try done.
    rewrite Hd1 in E, Hserved, Hlists. fold count in E, Hserved, Hlists.
    eexists. split.
    { erewrite bind_ok by exact E. unfold tdma_release. cbn. rewrite Hm1. reflexivity. }
    split_and!; try done.
    + destruct Hp1 as (Hc & Hn & Hlt). split_and!; try done. by apply (lseg_update _ _ _ _ _ b).
    + intros _. split_and!; try done. eexists. split; [apply lookup_insert_eq|]. done.
Qed.

(** *** Concrete instances *)

(** The coordinator 0x22, with a request of node 0x33 for two slots in frame 2. *)
Definition demo_coord : tdma :=
  tdma_of (set_addr 0x22 (demo_data 0x11 TDMA_COORD None)) 1
    (demo_frame [0; 0; 0; 0; 0; 0; 0x33; 0; 0; 0; 0; 2] 12 None).

Lemma demo_coord_table : table_ok (tdma_data demo_coord).
Proof. by split. Qed.

Lemma beacon_tick_spec_witness :
  exists raw s', beacon_tick demo_coord = Ok (tt, s') /\
    beacon_frame (tdma_data s') = Some BEACON_FRAME /\ beacon_lists raw 0 [0x22; 0x11; 0; 0].
Proof.
  destruct (beacon_tick_spec demo_coord (demo_frame [] 0 None)) as [_ Hidle];
    [reflexivity|reflexivity|vm_compute; discriminate|reflexivity|by split|].
  destruct (Hidle eq_refl) as (raw & s' & E & Hs' & Hl & _).
  exists raw, s'. split; [exact E|]. split; [rewrite Hs'; reflexivity|exact Hl].
Defined.

Lemma coord_assoc_spec_witness :
  exists s', coord_assoc (Some 2%nat) demo_coord = Ok (tt, s') /\
    pool_rep s' [2%nat; 0%nat; 1%nat] /\
    served 4 0x33 2 (slots (tdma_data demo_coord)) (slots (tdma_data s')).
Proof.
  destruct (coord_assoc_spec demo_coord 2 (demo_frame [0; 0; 0; 0; 0; 0; 0x33; 0; 0; 0; 0; 2] 12 None)
    (demo_frame [] 0 None) [0%nat; 1%nat] 0x33 2)
    as (s' & E & _ & Hp & _ & _ & Hok).
  - reflexivity.
  - reflexivity.
  - discriminate.
  - reflexivity.
  - vm_compute. discriminate.
  - apply demo_pool.
  - set_solver.
  - cbn. lia.
  - exact demo_coord_table.
  - by split.
  - reflexivity.
  - reflexivity.
  - lia.
  - exists s'. split; [exact E|]. split; [exact Hp|]. apply Hok.
    intros [H|[H|[H|[H|[H|H]]]]]; [discriminate H|discriminate H|discriminate H|discriminate H|
      discriminate H|by apply H].
Defined.

End TdmaCoord.
