(* ===== verification/TdmaNode.v ===== *)
(** * TDMA node and data path ([net/mac_tdma/node.c], [data.c])

    A node scans for a beacon of its network, waits a random time, asks for
    slots, and is connected once a beacon lists one of its slots; without
    beacons for six seconds it starts again. Data frames go through the queue
    [tx_frames]. *)

From stdpp Require Import base numbers gmap list.
From S2P Require Import Prelude Chain Packer Packet Event SoftTime Phy TdmaPacket TdmaState TdmaSlot TdmaSched TdmaCoord.

Module TdmaNode.
Import Phy Packer TdmaPacket TdmaState SoftTime TdmaSlot TdmaSched TdmaCoord.

(** [mac_tdma_node_config_t] *)
Record node_config := mk_node_config { n_panid : Z; n_bandwidth : Z; n_channel : Z }.

Section node.
Context `{!TdmaEnv} {build : Build}.

Definition mac_tdma_start_node (cfg : node_config) : TM unit :=
  tdma_get ;;
  s ← mget;
  if negb (bool_decide (state (tdma_data s) = TDMA_IDLE)) then tdma_release
  else
    upd_pan (set_coord 0) ;;
    upd_pan (set_panid (n_panid cfg)) ;;
    upd_pan (set_channel (n_channel cfg)) ;;
    upd_data (set_bandwidth (n_bandwidth cfg)) ;;
    upd_data (set_beacon_frame None) ;;
    upd_data (set_state TDMA_SCAN) ;;
    upd_data (set_rx_handler NODE_RX) ;;
    upd_data (set_tx_handler NODE_TX) ;;
    emit (FxTimerSetHandler TIMEOUT_TIMER NODE_TIMEOUT) ;;
    emit (FxTimerSetPriority TIMEOUT_TIMER APPLI) ;;
    emit (FxEventPost APPLI SCAN_START None) ;;
    tdma_release.

(** The number of slots asked for: the bandwidth in slots per second times the
    duration of the slots-frame, rounded up, between 1 and 255. *)
Definition requested_slots (duration count bandwidth : Z) : Z :=
  let n := u32 (u32 (duration * count) * bandwidth) in
  let unit := 1000000 / TDMA_SLOT_DURATION_FACTOR_US in
  let n := u32 (n + (unit - 1)) / unit in
  let n := if n >? 255 then 255 else n in
  if n =? 0 then 1 else n.

Definition send_association_request : TM unit :=
  s ← mget;
  let d := tdma_data s in
  let p := pan d in
  let time := u32 ((TDMA_BEACON_BACKOFF_COUNT + 3) * slot_duration p * slot_count p) in
  k ← frame_load (Some NODE_FRAME);
  let base := data (pkt k) in
  tdma_frame_prepare (Some NODE_FRAME) ;;
  frame_phy_prepare (Some NODE_FRAME) ;;
  frame_raw (Some NODE_FRAME)
    (λ raw, tdma_packet_header_prepare raw base TDMA_PKT_ASSOC (panid p) (addr d) (coord p)) ;;
  frame_wr (Some NODE_FRAME) base 1 o_assoc_slots
    (requested_slots (slot_duration p) (slot_count p) (bandwidth d)) ;;
  frame_set_length (Some NODE_FRAME) (TDMA_PKT_SIZE_HEADER + TDMA_PKT_SIZE_ASSOC) ;;
  upd_data (set_tx_frames (Some NODE_FRAME)) ;;
  upd_data (set_state TDMA_ASSOC) ;;
  emit (FxTimerStart TIMEOUT_TIMER
          (u32 (soft_timer_us_to_ticks TDMA_SLOT_DURATION_FACTOR_US * time)) false).

(** The loop of [node_timeout]: [f] is the frame inspected, [p] the last one
    kept. *)
Fixpoint unstack (fuel : nat) (p f : ptr) : TM unit :=
  match fuel with
  | O => mfail EFuel
  | S fuel =>
      match f with
      | None => mret tt
      | Some _ =>
          k ← frame_load f;
          if decide (f = Some NODE_FRAME) then
            (match p with
             | Some _ => frame_upd p (set_next (next k))
             | None => upd_data (set_tx_frames (next k))
             end) ;;
            frame_upd (Some NODE_FRAME) (set_next None) ;;
            unstack fuel p (next k)
          else
            frame_set_status f TDMA_STATUS_FAILED ;;
            unstack fuel f (next k)
      end
  end.

Definition node_timeout : TM unit :=
  tdma_get ;;
  s ← mget;
  if decide (state (tdma_data s) = TDMA_WAIT) then
    send_association_request ;;
    tdma_release
  else
    tdma_slot_stop ;;
    s ← mget;
    unstack (S (S (size (frame_store s)))) None (tx_frames (tdma_data s)) ;;
    s ← mget;
    (match tx_frames (tdma_data s) with
     | Some _ => emit (FxEventPost APPLI DATA_TX (tx_frames (tdma_data s)))
     | None => mret tt
     end) ;;
    upd_data (set_tx_frames None) ;;
    upd_pan (set_coord 0) ;;
    upd_data (set_state TDMA_SCAN) ;;
    tdma_release ;;
    emit (FxEventPost APPLI SCAN_START None).

Definition scan_start : TM unit :=
  tdma_get ;;
  upd_data (set_rx_handler SCAN_RX) ;;
  frame_phy_prepare (Some NODE_FRAME) ;;
  tdma_frame_prepare (Some NODE_FRAME) ;;
  s ← mget;
  slot_scan NODE_FRAME (channel (pan (tdma_data s))) ;;
  tdma_release.

(** *** Beacons *)

(** Converts the owners listed to host order, in place. *)
Definition unpack_owners (f : ptr) (base : Z) (ids : list Z) : TM unit :=
  mfor ids (λ i,
    k ← frame_load f;
    own ← mlift (rd 2 (raw_data (pkt k)) (base + o_desc_own i));
    frame_wr f base 2 (o_desc_own i) (packer_uint16_ntoh own)).

Fixpoint lists_owner (ids : list Z) (k : tdma_frame) (a : Z) : res bool :=
  match ids with
  | [] => Ok false
  | i :: ids =>
      own ← pkt_rd 2 k (o_desc_own i);
      if a =? own then Ok true else lists_owner ids k a
  end.

(** The slots of a connected node: those of the beacon, the broadcast slot
    excepted. *)
Definition beacon_slots (k : tdma_frame) (off : Z) (ids : list Z) : TM unit :=
  mfor ids (λ i,
    own ← mlift (pkt_rd 2 k (o_desc_own i));
    tdma_slot_configure (u8 (off + i)) (if own =? 0xffff then 0 else own)).

Definition update_slots (k : tdma_frame) (off : Z) (ids : list Z) : TM unit :=
  emit (FxTimerStart TIMEOUT_TIMER (3 * TDMA_BEACON_PERIOD_S * SOFT_TIMER_FREQUENCY) false) ;;
  beacon_slots k off ids.

Definition node_beacon (f : ptr) : TM unit :=
  k ← frame_load f;
  let base := data (pkt k) in
  tdma_get ;;
  s ← mget;
  src ← mlift (pkt_rd 2 k o_src);
  mwhen (coord (pan (tdma_data s)) =? src)
    (tdma_slot_update_frame_start (timestamp (pkt k)) ;;
     cnt ← mlift (pkt_rd 1 k o_desc_cnt);
     off ← mlift (pkt_rd 1 k o_desc_off);
     let ids := zseq 0 (Z.to_nat cnt) in
     unpack_owners f base ids ;;
     k ← frame_load f;
     s ← mget;
     match state (tdma_data s) with
     | TDMA_ASSOC =>
         found ← mlift (lists_owner ids k (addr (tdma_data s)));
         mwhen found (upd_data (set_state TDMA_NODE) ;; update_slots k off ids)
     | TDMA_NODE => update_slots k off ids
     | _ => mret tt
     end) ;;
  tdma_frame_free f ;;
  tdma_release.

(** ** Data path ([data.c]) *)

(** The frame of packet [k] for [dst]. *)
Definition fill_frame (f : ptr) (k : Packet.packet) (dst : Z) (callback : option Z) (cb_arg : Z) : TM unit :=
  frame_phy_prepare f ;;
  frame_upd f (λ k, set_arg cb_arg (set_cb callback k)) ;;
  s ← mget;
  let d := tdma_data s in
  let dst := if dst =? 0x0000 then coord (pan d) else dst in
  frame_raw f (λ raw, tdma_packet_header_prepare raw 0 TDMA_PKT_DATA (panid (pan d)) (addr d) dst) ;;
  payload ← mlift (arr_slice (Packet.raw_data k) (Packet.data k) (Packet.length_ k));
  frame_raw f (λ raw, arr_blit raw o_payload payload) ;;
  frame_set_length f (u8 (Packet.length_ k + TDMA_PKT_SIZE_HEADER)).

(** Queues the frame, or gives it back. *)
Definition queue_frame (f : ptr) : TM tdma_result :=
  tdma_get ;;
  ok ← mac_tdma_is_connected;
  if negb ok then
    tdma_frame_free f ;;
    tdma_release ;;
    mret TDMA_FAILED
  else
    r ← tdma_frame_send f;
    if ctrue r then
      tdma_frame_free f ;;
      tdma_release ;;
      mret TDMA_FAILED
    else
      tdma_release ;;
      mret TDMA_OK.

Definition mac_tdma_send (p : ptr) (dst : Z) (callback : option Z) (cb_arg : Z) : TM tdma_result :=
  match p with
  | None => mret TDMA_FAILED
  | Some _ =>
      k ← mzoom (Packet.load p);
      if Packet.length_ k >? TDMA_PKT_SIZE_PAYLOAD then mret TDMA_FAILED
      else
        tdma_get ;;
        f ← tdma_frame_alloc 1;
        tdma_release ;;
        match f with
        | None => mret TDMA_FAILED
        | Some _ =>
            fill_frame f k dst callback cb_arg ;;
            queue_frame f
        end
  end.

Definition tdma_data_tx_handler (f : ptr) : TM unit :=
  k ← frame_load f;
  let res := match status k with TDMA_STATUS_SENT => TDMA_OK | _ => TDMA_FAILED end in
  tdma_get ;;
  tdma_frame_free f ;;
  tdma_release ;;
  (match next k with
   | Some _ => emit (FxEventPost APPLI DATA_TX (next k))
   | None => mret tt
   end) ;;
  match cb k with
  | Some c => emit (FxTxCallback c (arg k) res)
  | None => mret tt
  end.

(** Gives a frame back, with the lock. *)
Definition drop_frame (f : ptr) : TM unit := tdma_get ;; tdma_frame_free f ;; tdma_release.

Definition tdma_data_rx_handler (f : ptr) : TM unit :=
  p ← mzoom (Packet.packet_alloc 0);
  match p with
  | None => drop_frame f
  | Some l =>
      k ← frame_load f;
      c ← mzoom (Packet.load p);
      let len := u16 (length_ (pkt k) - TDMA_PKT_SIZE_HEADER) in
      mzoom (Packet.store p (Packet.mk_packet (Packet.raw_data c) (Packet.data c) len (Packet.next c))) ;;
      if len >? PACKET_MAX_SIZE then
        mzoom (Packet.packet_free l) ;;
        drop_frame f
      else
        payload ← mlift (arr_slice (raw_data (pkt k)) o_payload len);
        raw ← mlift (arr_blit (Packet.raw_data c) (Packet.data c) payload);
        mzoom (Packet.store p (Packet.mk_packet raw (Packet.data c) len (Packet.next c))) ;;
        src ← mlift (rd 2 (raw_data (pkt k)) o_src);
        drop_frame f ;;
        s ← mget;
        match data_rx_handler (tdma_data s) with
        | Some h => emit (FxRxCallback h l src)
        | None => mret tt
        end
  end.
End node.

(** ** Beacons *)

Lemma with_raw_load l k raw s :
  frame_load (Some l) (with_raw l k raw s) =
    Ok (set_pkt (set_raw raw (pkt k)) k, with_raw l k raw s).
Proof. apply frame_load_ok. apply lookup_insert_eq. Qed.

(** The owners are converted in place; what precedes them is kept. *)
Lemma unpack_owners_spec l k s base own : forall n i raw,
  0 <= base -> 0 <= i -> base + o_desc_own (i + Z.of_nat n) <= Z.of_nat (length raw) ->
  (forall j, i <= j < i + Z.of_nat n ->
     is_u16 (own j) /\ rd 2 raw (base + o_desc_own j) = Ok (packer_uint16_hton (own j))) ->
  exists raw', unpack_owners (Some l) base (zseq i n) (with_raw l k raw s) =
      Ok (tt, with_raw l k raw' s) /\
    (forall m off, off + Z.of_nat m <= base + o_desc_own i -> rd m raw' off = rd m raw off) /\
    (forall j, i <= j < i + Z.of_nat n -> rd 2 raw' (base + o_desc_own j) = Ok (own j)).
Proof.
  unfold unpack_owners.
  induction n as [|n IH]; intros i raw Hb Hi Hlen Hown.
  { exists raw. split_and!; try done. intros; lia. }
  rewrite zseq_S. cbn [mfor]. mrun. erewrite bind_ok by apply with_raw_load.
  cbn [pkt set_pkt raw_data set_raw]. destruct (Hown i) as [Hu Hrd]; [lia|]. mrun. rewrite Hrd.
  cbn beta iota.
  unfold o_desc_own, o_payload in *. rewrite (proj1 (ntoh16_hton16 _ Hu)).
  destruct (wr_ok 2 raw (base + (11 + 4 + 2 * i)) (own i)) as (raw1 & E1 & L1); [lia..|].
  erewrite bind_ok by (apply with_raw_wr; exact E1).
  destruct (IH (i + 1) raw1) as (raw' & E & Hout & Hin); [lia|lia|rewrite L1; lia| |].
  { intros j Hj. destruct (Hown j) as [? Hj']; [lia|]. split; [done|].
    rewrite <- Hj'. eapply rd_wr_other; [exact E1|]. lia. }
  exists raw'. split; [exact E|]. split.
  - intros m off Hoff. rewrite Hout by lia. eapply rd_wr_other; [exact E1|]. lia.
  - intros j Hj. destruct (decide (j = i)) as [->|]; [|apply Hin; lia].
    rewrite Hout by lia. rewrite (rd_wr _ _ _ _ _ E1). f_equal. apply Z.mod_small. exact Hu.
Qed.

Lemma lists_owner_spec k own a : forall n i,
  (forall j, i <= j < i + Z.of_nat n -> pkt_rd 2 k (o_desc_own j) = Ok (own j)) ->
  lists_owner (zseq i n) k a = Ok (bool_decide (a ∈ (own <$> zseq i n))).
Proof.
  induction n as [|n IH]; intros i Hown; [done|].
  rewrite zseq_S. cbn [lists_owner]. rewrite Hown by lia. change (mbind ?f (Ok ?x)) with (f x). cbn beta.
  rewrite fmap_cons. destruct (Z.eqb_spec a (own i)) as [->|Hne].
  - rewrite bool_decide_eq_true_2; [done|by constructor].
  - rewrite IH by (intros; apply Hown; lia). f_equal. apply bool_decide_ext.
    rewrite elem_of_cons. tauto.
Qed.

(** The table of a connected node: the broadcast slot is not used. *)
Definition node_owner (x : Z) : Z := if x =? 0xffff then 0 else x.

Lemma beacon_slots_spec k own : forall n i s,
  0 <= i -> i + Z.of_nat n <= 50 -> table_ok (tdma_data s) ->
  (forall j, i <= j < i + Z.of_nat n -> pkt_rd 2 k (o_desc_own j) = Ok (own j)) ->
  exists d', beacon_slots k 0 (zseq i n) s = Ok (tt, set_tdma_data d' s) /\ table_ok d' /\
    (forall j, slots d' !! j = if decide (i <= Z.of_nat j < i + Z.of_nat n)
                               then Some (node_owner (own (Z.of_nat j))) else slots (tdma_data s) !! j) /\
    d' = set_slots (slots d') (set_tx_slots (tx_slots d') (tdma_data s)).
Proof.
  unfold beacon_slots.
  induction n as [|n IH]; intros i s Hi Hn Hok Hown.
  { exists (tdma_data s). split_and!; try done; [by destruct s| |by destruct (tdma_data s)].
    intros j. by rewrite decide_False by lia. }
  rewrite zseq_S. cbn [mfor]. mrun. rewrite Hown by lia. rewrite Z.add_0_l, u8_id by lia.
  fold (node_owner (own i)).
  destruct (slot_configure_ok s i (node_owner (own i)) Hok) as (d1 & E1 & Hok1 & Hs1 & _ & _ & Hd1);
    [unfold TDMA_MAX_SLOTS; lia|].
  erewrite bind_ok by exact E1.
  destruct (IH (i + 1) (set_tdma_data d1 s)) as (d' & E & Hok' & Hget & Hd'); try done; try lia.
  { intros j Hj. apply Hown. lia. }
  cbn [tdma_data set_tdma_data] in Hget, Hd'. exists d'. split; [exact E|]. split_and!; try done.
  - intros j. rewrite Hget, Hs1. destruct (decide (i + 1 <= Z.of_nat j < i + 1 + Z.of_nat n)).
    { by rewrite decide_True by lia. }
    destruct (decide (Z.of_nat j = i)) as [<-|Hne].
    + rewrite decide_True by lia. rewrite Nat2Z.id, list_lookup_insert_eq; [done|].
      destruct Hok. lia.
    + rewrite decide_False by lia. apply list_lookup_insert_ne. lia.
  - rewrite Hd' at 1. rewrite Hd1. done.
Qed.

(** What a beacon listing [own] does to a node that is connected by it. *)
Definition connected_by (own : list Z) (s s' : tdma) : Prop :=
  state (tdma_data s') = TDMA_NODE /\
  (forall j, slots (tdma_data s') !! j =
     match own !! j with Some x => Some (node_owner x) | None => slots (tdma_data s) !! j end) /\
  fx s' = fx s ++ [FxTimerStart TIMEOUT_TIMER (3 * TDMA_BEACON_PERIOD_S * SOFT_TIMER_FREQUENCY) false].

Definition nth_owner (own : list Z) (j : Z) : Z := default 0 (own !! Z.to_nat j).

Lemma nth_owner_all own : nth_owner own <$> zseq 0 (length own) = own.
Proof.
  apply list_eq. intros i. rewrite list_lookup_fmap. destruct (own !! i) as [x|] eqn:E.
  - rewrite zseq_lookup by (by eapply lookup_lt_Some). cbn. unfold nth_owner.
    by rewrite Z.add_0_l, Nat2Z.id, E.
  - rewrite lookup_ge_None_2; [done|]. rewrite zseq_length. by apply lookup_ge_None.
Qed.

Lemma update_slots_spec k own s :
  (length own <= 50)%nat -> table_ok (tdma_data s) ->
  (forall j, 0 <= j < Z.of_nat (length own) -> pkt_rd 2 k (o_desc_own j) = Ok (nth_owner own j)) ->
  exists d' e, update_slots k 0 (zseq 0 (length own)) s = Ok (tt, set_tdma_data d' (set_fx e s)) /\
    table_ok d' /\ state d' = state (tdma_data s) /\
    (state d' = TDMA_NODE -> connected_by own s (set_tdma_data d' (set_fx e s))).
Proof.
  intros Hn Hok Hown. unfold update_slots, emit. mrun. set (e := fx s ++ _).
  destruct (beacon_slots_spec k (nth_owner own) (length own) 0 (set_fx e s)) as (d' & E & Hok' & Hget & Hd');
    try done; try lia.
  exists d', e. split; [exact E|]. split_and!; try done; [by rewrite Hd'|].
  intros Hst. split_and!; [done| |done]. intros j. cbn. rewrite Hget.
  destruct (own !! j) as [x|] eqn:Ex.
  - pose proof (lookup_lt_Some _ _ _ Ex). rewrite decide_True by lia. do 2 f_equal.
    unfold nth_owner. by rewrite Nat2Z.id, Ex.
  - apply lookup_ge_None in Ex. by rewrite decide_False by lia.
Qed.

(** The effect of a beacon of the coordinator on the node, by state. *)
Definition beacon_effect (own : list Z) (s s' : tdma) : Prop :=
  match state (tdma_data s) with
  | TDMA_NODE => connected_by own s s'
  | TDMA_ASSOC =>
      if decide (addr (tdma_data s) ∈ own) then connected_by own s s'
      else tdma_data s' = tdma_data s /\ fx s' = fx s
  | _ => tdma_data s' = tdma_data s /\ fx s' = fx s
  end.

(** The part of [node_beacon] that depends on the state. *)
Lemma beacon_state_spec k own s :
  (length own <= 50)%nat -> table_ok (tdma_data s) ->
  (forall j, 0 <= j < Z.of_nat (length own) -> pkt_rd 2 k (o_desc_own j) = Ok (nth_owner own j)) ->
  exists d' e,
    match state (tdma_data s) with
    | TDMA_ASSOC =>
        (found ← mlift (lists_owner (zseq 0 (length own)) k (addr (tdma_data s)));
         mwhen found (upd_data (set_state TDMA_NODE) ;; update_slots k 0 (zseq 0 (length own))))
    | TDMA_NODE => update_slots k 0 (zseq 0 (length own))
    | _ => mret tt
    end s = Ok (tt, set_tdma_data d' (set_fx e s)) /\
    table_ok d' /\ beacon_effect own s (set_tdma_data d' (set_fx e s)).
Proof.
  intros Hn Hok Hown. unfold beacon_effect.
  assert (set_tdma_data (tdma_data s) (set_fx (fx s) s) = s) as Hs by (by destruct s).
  destruct (state (tdma_data s)) eqn:Hst;
    try (exists (tdma_data s), (fx s); rewrite Hs; by split_and!).
  - mrun. rewrite (lists_owner_spec k (nth_owner own)) by done. rewrite nth_owner_all. mrun.
    case_decide as Ha.
    + rewrite bool_decide_eq_true_2 by done. cbn [mwhen]. unfold upd_data. mrun.
      destruct (update_slots_spec k own (set_tdma_data (set_state TDMA_NODE (tdma_data s)) s))
        as (d' & e & E & Hok' & Hst' & Hc); try done.
      exists d', e. split; [exact E|]. split; [done|]. apply Hc. by rewrite Hst'.
    + rewrite bool_decide_eq_false_2 by done. exists (tdma_data s), (fx s). rewrite Hs. by split_and!.
  - destruct (update_slots_spec k own s) as (d' & e & E & Hok' & Hst' & Hc); try done.
    exists d', e. split; [exact E|]. split; [done|]. apply Hc. by rewrite Hst'.
Qed.

(** C26: A beacon of the coordinator synchronises the slots-frame and its frame
    goes back to the pool. A connected node takes over the table of owners it
    lists, the broadcast slot excepted, and restarts its six second timeout; a
    node waiting for its association does so, and becomes connected, when the
    beacon lists one of its slots; any other is unaffected. Beacons of other
    coordinators only return their frame. *)
Theorem node_beacon_spec s l k fs own src :
  let base := data (pkt k) in
  tdma_mutex s = Some false -> frame_store s !! l = Some k ->
  pool_rep s fs -> (l ∉ fs) -> Z.of_nat (length fs) < 4294967294 -> table_ok (tdma_data s) ->
  0 <= base -> base + o_desc_own (Z.of_nat (length own)) <= Z.of_nat (length (raw_data (pkt k))) ->
  (length own <= 50)%nat -> Forall (λ x, is_u16 x) own -> beacon_lists (raw_data (pkt k)) base own ->
  pkt_rd 2 k o_src = Ok src ->
  exists s', node_beacon (Some l) s = Ok (tt, s') /\
    tdma_mutex s' = Some false /\ pool_rep s' (l :: fs) /\ table_ok (tdma_data s') /\
    (coord (pan (tdma_data s)) <> src ->
       tdma_data s' = tdma_data s /\ sf_data s' = sf_data s /\ fx s' = fx s) /\
    (coord (pan (tdma_data s)) = src ->
       sf_data s' = set_frame_start (timestamp (pkt k)) (sf_data s) /\ beacon_effect own s s').
Proof.
  intros base Hmu Hk Hpool Hl Hmax Hok Hb Hlen Hn Hu (Hcnt & Hoff & Hown) Hsrc.
  unfold node_beacon. erewrite bind_ok by (by apply frame_load_ok). mrun.
  unfold tdma_get. erewrite bind_ok by (by rewrite Hmu). mrun. rewrite Hsrc.
  cbn [tdma_data set_tdma_mutex]. mrun. destruct (Z.eqb_spec (coord (pan (tdma_data s))) src) as [Ec|Ec];
    cbn [mwhen].
  - unfold tdma_slot_update_frame_start, upd_sf. mrun. unfold pkt_rd. fold base.
    rewrite Hcnt. mrun. rewrite Hoff. mrun. rewrite Nat2Z.id.
    set (s1 := set_sf_data _ _).
    destruct (unpack_owners_spec l k s1 base (nth_owner own) (length own) 0 (raw_data (pkt k)))
      as (raw & E1 & _ & Hin); [done|done|done| |].
    { intros j Hj. destruct (lookup_lt_is_Some_2 own (Z.to_nat j)) as [x Hx]; [lia|].
      unfold nth_owner. rewrite Hx. split; [exact (Forall_lookup_1 _ _ _ _ Hu Hx)|].
      specialize (Hown _ _ Hx). by rewrite Z2Nat.id in Hown by lia. }
    rewrite with_raw_id in E1 by done. erewrite bind_ok by exact E1. mrun.
    erewrite bind_ok by apply with_raw_load. mrun.
    set (k' := set_pkt (set_raw raw (pkt k)) k). set (s2 := with_raw l k raw s1).
    destruct (beacon_state_spec k' own s2) as (d' & e & E2 & Hok2 & Heff); [done|done|exact Hin|].
    erewrite bind_ok by exact E2.
    assert (pool_rep (set_tdma_data d' (set_fx e s2)) fs) as Hpool2.
    { destruct Hpool as (Hc & ?). split; [|done]. by apply (lseg_update _ _ _ _ _ k). }
    destruct (frame_free_ok (set_tdma_data d' (set_fx e s2)) l k' fs Hpool2 Hl)
      as (s3 & E3 & Hp3 & Hs3); [apply lookup_insert_eq|done|].
    erewrite bind_ok by exact E3. unfold tdma_release. rewrite Hs3. eexists. split; [reflexivity|].
    rewrite Hs3 in Hp3. split_and!; try done.
  - destruct (frame_free_ok (set_tdma_mutex (Some true) s) l k fs Hpool Hl Hk Hmax) as (s3 & E3 & Hp3 & Hs3).
    mrun. erewrite bind_ok by exact E3. unfold tdma_release. rewrite Hs3. eexists. split; [reflexivity|].
    rewrite Hs3 in Hp3. split_and!; try done.
Qed.

(** ** Sending data *)

(** Frame [k] carries [payload] from [src] to [dst]. *)
Definition carries (k : tdma_frame) (pid src dst : Z) (payload : list Z) : Prop :=
  has_header (raw_data (pkt k)) 0 (packer_uint32_hton TDMA_PKT_MAGIC) (packer_uint16_hton pid)
    (packer_uint16_hton src) (packer_uint16_hton dst) (8 + TDMA_PKT_DATA) /\
  arr_slice (raw_data (pkt k)) o_payload (Z.of_nat (length payload)) = Ok payload /\
  length_ (pkt k) = TDMA_PKT_SIZE_HEADER + Z.of_nat (length payload).

(** The identifiers used in headers fit in 16 bits. *)
Definition ids_ok (d : tdma_global) : Prop :=
  is_u16 (panid (pan d)) /\ is_u16 (addr d) /\ is_u16 (coord (pan d)).

Definition real_dst (d : tdma_global) (dst : Z) : Z := if dst =? 0 then coord (pan d) else dst.

Lemma fill_frame_spec s l kf c dst callback cb_arg payload :
  frame_store s !! l = Some kf -> 111 <= Z.of_nat (length (raw_data (pkt kf))) ->
  ids_ok (tdma_data s) -> is_u16 dst ->
  arr_slice (Packet.raw_data c) (Packet.data c) (Packet.length_ c) = Ok payload ->
  Packet.length_ c <= TDMA_PKT_SIZE_PAYLOAD ->
  exists kf', fill_frame (Some l) c dst callback cb_arg s =
      Ok (tt, set_frame_store (<[l := kf']> (frame_store s)) s) /\
    status kf' = status kf /\ next kf' = next kf /\ cb kf' = callback /\ arg kf' = cb_arg /\
    carries kf' (panid (pan (tdma_data s))) (addr (tdma_data s)) (real_dst (tdma_data s) dst) payload.
Proof.
  intros Hk Hlen (Hid1 & Hid2 & Hid3) Hdst Hpay Hc. unfold TDMA_PKT_SIZE_PAYLOAD in Hc.
  pose proof (arr_slice_length _ _ _ _ Hpay) as Hplen.
  unfold fill_frame, frame_phy_prepare, frame_set_length.
  erewrite bind_ok by (eapply frame_upd_ok; exact Hk).
  erewrite bind_ok by (eapply frame_upd_ok; apply lookup_insert_eq). mrun.
  cbn [frame_store set_frame_store tdma_data]. rewrite insert_insert_eq. fold (real_dst (tdma_data s) dst).
  destruct (header_prepare_spec (raw_data (pkt kf)) 0 TDMA_PKT_DATA (panid (pan (tdma_data s)))
    (addr (tdma_data s)) (real_dst (tdma_data s) dst)) as (r1 & E1 & L1 & Hh & _);
    [lia|unfold TDMA_PKT_SIZE_HEADER; lia|done|done|done|unfold real_dst; by destruct (dst =? 0)|].
  erewrite bind_ok by (eapply frame_raw_ok; [apply lookup_insert_eq|exact E1]). mrun.
  rewrite Hpay. cbn [frame_store set_frame_store]. rewrite insert_insert_eq. mrun.
  destruct (arr_blit_ok r1 o_payload payload) as [r2 E2]; [done|unfold o_payload; lia|].
  erewrite bind_ok by (eapply frame_raw_ok; [apply lookup_insert_eq|exact E2]).
  cbn [frame_store set_frame_store]. rewrite insert_insert_eq.
  erewrite frame_upd_ok by apply lookup_insert_eq. cbn [frame_store set_frame_store].
  rewrite insert_insert_eq. eexists. split; [reflexivity|]. split_and!; try done.
  unfold carries. cbn [raw_data pkt set_pkt set_length set_raw length_]. split_and!.
  - unfold has_header in *. cbn [raw_data pkt set_pkt set_length set_raw].
    unfold o_magic, o_panid, o_src, o_dst, o_vt, o_payload in *.
    by rewrite !(rd_blit_other _ _ _ _ _ _ E2) by (cbn; lia).
  - by apply (arr_blit_slice r1).
  - unfold TDMA_PKT_SIZE_HEADER. rewrite u8_id by lia. lia.
Qed.

(** [queue_frame] with a frame out of the pool and the queue. *)
Lemma queue_frame_spec s l k fs q :
  tdma_mutex s = Some false -> frames_rep s fs q -> (l ∉ fs) -> (l ∉ q) ->
  frame_store s !! l = Some k -> Z.of_nat (length fs) < 4294967294 ->
  (exists s', queue_frame (Some l) s = Ok (TDMA_FAILED, s') /\ tdma_mutex s' = Some false /\
     (connected (state (tdma_data s)) = false \/ tx_slots (tdma_data s) = 0) /\
     frames_rep s' (l :: fs) q) \/
  (exists s', queue_frame (Some l) s = Ok (TDMA_OK, s') /\ tdma_mutex s' = Some false /\
     connected (state (tdma_data s)) = true /\ tx_slots (tdma_data s) <> 0 /\
     frames_rep s' fs (q ++ [l]) /\ frame_store s' !! l = Some (set_next None k)).
Proof.
  intros Hmu (Hpool & Hq & Hdis) Hlf Hlq Hk Hmax. unfold queue_frame, tdma_get.
  erewrite bind_ok by (by rewrite Hmu). unfold mac_tdma_is_connected. mrun.
  set (s1 := set_tdma_mutex (Some true) s).
  destruct (frame_free_ok s1 l k fs Hpool Hlf Hk Hmax) as (s2 & E2 & Hp2 & Hs2).
  assert (frames_rep (set_tdma_mutex (Some false) s2) (l :: fs) q /\ tdma_mutex s2 = Some true)
    as [Hf2 Hm2].
  { split; [|by rewrite Hs2]. split_and!; [exact Hp2| |set_solver]. unfold queue_rep. rewrite Hs2.
    by apply lseg_insert. }
  assert (tdma_release s2 = Ok (tt, set_tdma_mutex (Some false) s2)) as Hrel
    by (unfold tdma_release; by rewrite Hm2).
  change (state (tdma_data s1)) with (state (tdma_data s)).
  destruct (connected (state (tdma_data s))) eqn:Hc; cbn [negb].
  2:{ left. eexists. split; [erewrite bind_ok by exact E2; erewrite bind_ok by exact Hrel; reflexivity|]. by split_and!; [|left|]. }
  destruct (decide (tx_slots (tdma_data s) = 0)) as [H0|H0].
  - left. unfold tdma_frame_send at 1. mrun. change (tx_slots (tdma_data s1)) with (tx_slots (tdma_data s)).
    rewrite H0. cbn [Z.eqb]. mrun. cbn [ctrue negb Z.eqb].
    eexists. split; [erewrite bind_ok by exact E2; erewrite bind_ok by exact Hrel; reflexivity|].
    by split_and!; [|right|].
  - right. destruct (frame_send_ok s1 q l k Hq Hlq Hk H0)
      as (s3 & E3 & Hq3 & Hsame & Hfr & Hnb & Hm3 & Hk3 & _).
    erewrite bind_ok by exact E3. cbn [ctrue negb Z.eqb].
    unfold tdma_release. eexists. split; [erewrite bind_ok by (by rewrite Hm3); reflexivity|].
    split; [reflexivity|]. split; [reflexivity|]. split; [exact H0|]. split; [|exact Hk3].
    split_and!; [|exact Hq3|intros x Hx; pose proof (Hdis x Hx); set_solver].
    destruct Hpool as (Hch & Hn & Hlt). split; [|split; [exact (eq_trans Hnb Hn)|exact Hlt]].
    cbn [frames set_tdma_mutex frame_store]. rewrite Hfr. eapply lseg_ext; [|exact Hch]. intros x Hx. apply Hsame; [by apply Hdis|congruence].
Qed.

(** C27: [mac_tdma_send] never loses a frame. It returns [TDMA_OK] exactly when the
    payload fits, more than one frame is left, the node is connected and owns a
    slot: the frame, at the end of the transmission queue, then carries the
    packet to its destination (the coordinator for destination 0) under the
    network identifier. Otherwise it returns [TDMA_FAILED] and the pool and the
    queue hold the same frames as before. The lock is released in all cases. *)
Theorem mac_tdma_send_spec s p c l fs q dst callback cb_arg payload :
  let d := tdma_data s in
  tdma_mutex s = Some false -> frames_rep s (l :: fs) q -> ids_ok d -> is_u16 dst ->
  Z.of_nat (length fs) < 4294967294 ->
  (forall k, frame_store s !! l = Some k -> 111 <= Z.of_nat (length (raw_data (pkt k)))) ->
  Packet.pkts (packets s) !! p = Some c ->
  arr_slice (Packet.raw_data c) (Packet.data c) (Packet.length_ c) = Ok payload ->
  exists r s', mac_tdma_send (Some p) dst callback cb_arg s = Ok (r, s') /\
    tdma_mutex s' = Some false /\
    (r = TDMA_OK <-> Packet.length_ c <= TDMA_PKT_SIZE_PAYLOAD /\ fs <> [] /\
                     connected (state d) = true /\ tx_slots d <> 0) /\
    (r = TDMA_FAILED -> frames_rep s' (l :: fs) q) /\
    (r = TDMA_OK -> frames_rep s' fs (q ++ [l]) /\
       exists k, frame_store s' !! l = Some k /\ next k = None /\ cb k = callback /\ arg k = cb_arg /\
         carries k (panid (pan d)) (addr d) (real_dst d dst) payload).
Proof.
  intros d Hmu (Hpool & Hq & Hdis) Hids Hdst Hmax Hraw Hc Hpay. unfold mac_tdma_send.
  erewrite bind_ok by (apply zoom_ok; cbn [view packets_lens]; unfold Packet.load; rewrite Hc; reflexivity).
  assert (over (packets s) s = s) as Hov by (by destruct s).
  cbn [view packets_lens] in *. rewrite Hov.
  destruct (Z.gtb_spec (Packet.length_ c) TDMA_PKT_SIZE_PAYLOAD) as [Hbig|Hfit].
  { exists TDMA_FAILED, s. split_and!; try done. split; [done|]. intros; lia. }
  unfold tdma_get. erewrite bind_ok by (by rewrite Hmu). set (s1 := set_tdma_mutex (Some true) s).
  pose proof Hpool as (_ & Hn & _). cbn [length] in Hn.
  destruct (decide (fs = [])) as [->|Hfs].
  { erewrite bind_ok by (apply (frame_alloc_none s1 [l]); [done|cbn in Hn |- *; lia]). unfold tdma_release.
    erewrite bind_ok by (cbn; reflexivity). exists TDMA_FAILED. eexists. split; [reflexivity|].
    split_and!; try done. split; [done|]. by intros (_ & ? & _). }
  assert (1 < nb_frames s) as Hnb by (destruct fs; [done|cbn [length] in Hn; lia]).
  destruct (frame_alloc_ok s1 l fs 1 Hpool) as (s2 & k & E2 & Hk & Hs2 & Hp2 & Hlf); [cbn; lia|].
  erewrite bind_ok by exact E2. unfold tdma_release at 1.
  assert (tdma_mutex s2 = Some true) as Hm2 by (by rewrite Hs2). erewrite bind_ok by (by rewrite Hm2).
  set (s3 := set_tdma_mutex (Some false) s2).
  assert (tdma_data s3 = d) as Hd3 by (subst s3; by rewrite Hs2).
  assert (l ∉ q) as Hlq by (apply Hdis; by constructor).
  destruct (fill_frame_spec s3 l (mk_frame TDMA_STATUS_IDLE None None 0 (pkt k)) c dst callback cb_arg payload)
    as (k' & E4 & _ & Hnext & Hcb & Harg & Hcarry); try done;
    [subst s3; rewrite Hs2; apply lookup_insert_eq|exact (Hraw k Hk)|by rewrite Hd3|].
  erewrite bind_ok by exact E4. set (s4 := set_frame_store _ s3). rewrite Hd3 in Hcarry.
  assert (frames_rep s4 fs q) as Hrep4.
  { split_and!; [|subst s4 s3; unfold queue_rep; rewrite Hs2; apply lseg_insert, lseg_insert; done|set_solver].
    destruct Hp2 as (Hch & ?). split; [|done]. by apply lseg_insert. }
  destruct (queue_frame_spec s4 l k' fs q) as [(s' & E & Hm & Hwhy & Hrep)|(s' & E & Hm & Hcon & Htx & Hrep & Hk')];
    try done; [apply lookup_insert_eq| |];
    change (tdma_data s4) with (tdma_data s3) in *; rewrite Hd3 in *.
  - exists TDMA_FAILED, s'. split_and!; try done. split; [done|]. intros (_ & _ & ? & ?).
    destruct Hwhy; congruence.
  - exists TDMA_OK, s'. split_and!; try done. intros _. split; [done|]. by eexists.
Qed.

(** A node asks for the number of slots that gives its bandwidth, in slots per
    second: the bandwidth times the duration of the slots-frame (in units of
    100 microseconds), rounded up, never none and at most 255, without overflow
    for any configuration. *)
Theorem requested_slots_spec duration count bandwidth :
  is_u8 duration -> is_u8 count -> is_u8 bandwidth ->
  requested_slots duration count bandwidth =
    Z.max 1 (Z.min 255 (- (- (duration * count * bandwidth) / 10000))).
Proof.
  intros Hd Hc Hb. unfold requested_slots.
  change (1000000 / TDMA_SLOT_DURATION_FACTOR_US) with 10000.
  assert (0 <= duration * count <= 65025) as Hdc by nia. rewrite (u32_id (duration * count)) by lia.
  assert (0 <= duration * count * bandwidth <= 16581375) as Hn by nia.
  set (n := duration * count * bandwidth) in *. clearbody n.
  rewrite (u32_id n) by lia. rewrite (u32_id (n + (10000 - 1))) by lia.
  destruct (Z.gtb_spec ((n + (10000 - 1)) / 10000) 255), (Z.eqb_spec ((n + (10000 - 1)) / 10000) 0);
    cbn; try mlia.
Qed.

(** *** Concrete instances *)

(** A beacon of the coordinator in frame 2: slots of 0x22, 0x11 and broadcast. *)
Definition demo_beacon : tdma_frame :=
  demo_frame [0; 0; 0; 0; 0; 0; 0x22; 0; 0; 0; 9; 4; 100; 3; 0; 0; 0x22; 0; 0x11; 255; 255] 21 None.

Lemma node_beacon_spec_witness :
  exists s', node_beacon (Some 2%nat) (tdma_of (demo_data 0x11 TDMA_ASSOC None) 1 demo_beacon) = Ok (tt, s') /\
    state (tdma_data s') = TDMA_NODE /\ pool_rep s' [2%nat; 0%nat; 1%nat].
Proof.
  destruct (node_beacon_spec (tdma_of (demo_data 0x11 TDMA_ASSOC None) 1 demo_beacon) 2 demo_beacon
    [0%nat; 1%nat] [0x22; 0x11; 0xffff] 0x22) as (s' & E & _ & Hp & _ & _ & Hb).
  - reflexivity.
  - reflexivity.
  - apply demo_pool.
  - set_solver.
  - cbn. lia.
  - by split.
  - done.
  - vm_compute. discriminate.
  - cbn. lia.
  - repeat constructor; done.
  - split_and!; [reflexivity|reflexivity|].
    intros [|[|[|i]]] x [= <-]; reflexivity.
  - reflexivity.
  - exists s'. split; [exact E|]. split; [|exact Hp].
    destruct (Hb eq_refl) as [_ Heff]. unfold beacon_effect in Heff. cbn [state tdma_data tdma_of demo_data] in Heff.
    rewrite decide_True in Heff by set_solver. apply Heff.
Defined.

Lemma mac_tdma_send_spec_witness :
  exists r s', mac_tdma_send (Some 0%nat) 0 (Some 5) 6
      (tdma_of (demo_data 0x11 TDMA_NODE (Some 2%nat)) 1 (demo_frame [] 0 None)) = Ok (r, s') /\
    frames_rep s' [1%nat] [2%nat; 0%nat].
Proof.
  destruct (mac_tdma_send_spec (tdma_of (demo_data 0x11 TDMA_NODE (Some 2%nat)) 1 (demo_frame [] 0 None))
    0 Packet.packet0 0 [1%nat] [2%nat] 0 (Some 5) 6 (replicate 6 0)) as (r & s' & E & _ & Hr & _ & Hok).
  - reflexivity.
  - split_and!; [apply demo_pool| |set_solver].
    split; [reflexivity|]. by exists (demo_frame [] 0 None).
  - by split_and!.
  - lia.
  - cbn. lia.
  - intros k Hk. injection Hk as <-. vm_compute. discriminate.
  - reflexivity.
  - reflexivity.
  - exists r, s'. split; [exact E|]. apply Hok, Hr. by split_and!.
Defined.

Lemma requested_slots_spec_witness : requested_slots 100 4 50 = 2.
Proof. exact (requested_slots_spec 100 4 50 ltac:(lia) ltac:(lia) ltac:(lia)). Defined.

End TdmaNode.
